(* ===== verification/_CoqProject ===== *)
-Q . S2P
Prelude.v
Protocol.v
EventQueue.v
ClientRequests.v
ClientEvents.v
Monad.v
OS.v
Excludes.v
Fs.v
Conf.v
State.v
Subscription.v
Listener.v
ConnSend.v
Node.v
Tree.v
Inv.v
Emit.v
PollGeneric.v
PollBasic.v
Safety.v
PollSafety.v
AddSafety.v
RemoveSafety.v
Server.v
Frames.v
Connection.v
Framing.v
Daemon.v
Hangup.v
Reach.v
Delivery.v
Service.v
PollSpec.v
KernelClients.v
DnotifyTables.v
DnotifySpec.v
PollDnotify.v
Dnotify.v
DnotifySafety.v
PollDnotifySpec.v
DnotifyService.v
InotifyState.v
InotifyKernel.v
InotifyMissing.v
InotifyPath.v
InotifyHelper.v
InotifyWatch.v
InotifyPairing.v
InotifyMoves.v
InotifyRead.v
InotifyInv.v
InotifySafety.v
InotifyService.v
InotifySim.v
KqueueState.v
KqueueTables.v
Kqueue.v
KqueueInv.v
KqueueSafety.v
KqueueFiles.v
KqueueClear.v
KqueueEvents.v
KqueuePolls.v
KqueueHooks.v
KqueueService.v
KqueueDefer.v
KqueueSim.v
DnotifySim.v
Sockets.v
ClientApi.v
ClientService.v
ClientReconnect.v
ClientSim.v
Session.v
Channel.v
ChannelSafety.v
Main.v
