(* ===== verification/Prelude.v ===== *)
(** * Verification of gamin

    Gamin is a file alteration monitor.  A daemon ([src/server]) accepts
    connections over a Unix socket, lets clients subscribe to files and
    directories, watches these with a kernel backend (inotify, dnotify or kqueue) or by polling,
    and sends the events over the connections.  A client library
    ([src/libgamin]) turns requests into packets and packets into [FAMEvent]
    records.  This development models both ends, the sockets between them, the
    polling daemon, the two Linux backends and that of the BSDs as functions and
    proves what makes them correct.

    ** The parts and their files

    - [Prelude]: machine integers, bytes, C strings, faults and results, lemmas
      and tactics that all files share.
    - [Protocol] ([gam_protocol.h], [gam_event.h], [fam.h]): packets and event
      codes, their byte layout on a little-endian machine.
    - [EventQueue] ([gam_eq.c]): the queue of outgoing events of a connection.
    - [ClientRequests], [ClientEvents] ([libgamin/gam_data.c]): the request
      table of the client with its binary search, and its event parser.
    - [Monad]: the state and fault monad [ST], assertions, weakest
      preconditions.  [OS]: the system calls and GLib functions as class
      parameters ([OS], [GLib], with the laws of [write] in [OSLaws]) and a
      simulated system that witnesses run on.
    - [Excludes] ([gam_excludes.c]), [Fs] ([gam_fs.c]), [Conf] ([gam_conf.c]):
      which backend a path belongs to.
    - [State] ([gam_server.h], [gam_node.h], ...): the store.  Subscriptions,
      listeners, nodes and connections are records behind pointers of one
      allocator, as the code shares and mutates them; the global variables are
      the other fields of [server].
    - [Subscription] ([gam_subscription.c]), [Listener] ([gam_listener.c]),
      [ConnSend] ([gam_connection.c], [gam_channel.c]: sending), [Node]
      ([gam_node.c]), [Tree] ([gam_tree.c]), [Emit] ([gam_server.c],
      [gam_node.c]: emission), [PollGeneric] ([gam_poll_generic.c]),
      [PollBasic] ([gam_poll_basic.c]), [Server] ([gam_server.c]: dispatch and
      start), [Connection] ([gam_connection.c]: authentication, framing,
      execution of requests, closing): the operations of the daemon, one
      definition per C function, a loop of it as a [Fixpoint] of its own.
    - [Inv]: the invariant [inv] of the store.  [Safety], [PollSafety],
      [AddSafety], [RemoveSafety]: every polling operation runs without fault from a state
      that satisfies it and restores it.  [Frames]: the periodic
      scan, and what operations leave alone.
    - [Framing]: [gam_connection_data] against a specification of framing.
      [Daemon], [Hangup], [Reach]: the daemon as a transition system
      and its reachable states.  [Delivery], [Service]: what events and requests do, end to end.
      [PollSpec]: polling of a file against a reference comparison.
    - [KernelClients]: the code of the connections as the client of a kernel
      backend.  The class [KernelSafe] is what a backend promises; under it a
      client's request and the freeing of a listener, dispatched to the
      backend, complete and keep the backend's invariant.
    - The inotify backend: [InotifyState] (its lists, hash tables and system
      calls), [InotifyKernel] ([inotify-kernel.c]: reading, parsing, pairing of
      moves, the queue of events), [InotifyMissing] ([inotify-missing.c]),
      [InotifyPath] ([inotify-path.c]: watched directories), [InotifyHelper]
      ([inotify-helper.c], [gam_inotify.c], [inotify-sub.c]: subscriptions and
      the hooks, an instance of [KernelBackend]); [InotifyWatch],
      [InotifyPairing], [InotifyMoves], [InotifyRead]: reading, pairing and
      the search for a directory; [InotifyInv]: the invariant [ino_ok] of its
      tables, what is under way of an operation as a parameter, and the
      operations on directories; [InotifySafety]: its events and their dispatch;
      [InotifyService]: scanning of what is missing, the hooks, start, and all
      of them as a transition system; [InotifySim]: a simulated kernel,
      witnesses and runs that show errors.
    - The dnotify backend: [DnotifyTables] ([gam_dnotify.c]: the directories it
      watches, flow control, the signal handler), [PollDnotify]
      ([gam_poll_dnotify.c]: polling of what the kernel does not watch, load
      control, subscriptions), [Dnotify] ([gam_dnotify.c], the rest: the pipe
      handler, start and hooks); [DnotifySpec]: the handler against an abstract
      table of watches; [DnotifySafety], [DnotifyService], [PollDnotifySpec]:
      safety, subscriptions, signals and polling; [DnotifySim]: a simulated
      kernel, witnesses and a run that shows an error.
    - The kqueue backend ([gam_kqueue.c]): [KqueueState] (the kernel's calls and
      their laws, monitors and tables behind pointers of the backend's own,
      the static variables), [KqueueTables] ([HashTable], [Poller], [Monitor]),
      [Kqueue] (the monitors of paths and of directory entries, the callbacks,
      start and hooks).  [KqueueInv]: its invariant [kq_ok], with what an
      operation has under way as a parameter; [KqueueSafety]: the operations on
      tables and descriptors; [KqueueFiles], [KqueueClear],
      [KqueueEvents]: files, clearing of a directory, listing, events;
      [KqueuePolls]: the three pollers; [KqueueHooks]: the hooks;
      [KqueueService]: all of them as a transition system; [KqueueDefer]:
      iteration; [KqueueSim]: a simulated kernel, witnesses, a run that shows
      an error.
    - [Sockets]: the system calls on sockets as a class over [OS], and the code
      both ends have in common.  [ClientApi] ([libgamin/gam_api.c]): the
      library's interface, its structures behind pointers, the mutex as a count;
      [ClientService], [ClientReconnect]: what its calls do; [ClientSim]: a
      simulated client.  [Channel] ([gam_channel.c]): listening, accepting,
      credentials, reading and closing at the daemon's end; [ChannelSafety]:
      who gets in.  [Session]: library and daemon together.  [Main]
      ([gam_server.c], [main]): options and start.

    ** How the parts interact

    A chunk of bytes goes to [gam_connection_data], which finds the requests in
    the buffer and executes each by [gam_connection_request].  A subscription is
    allocated, given its listener and handed to [gam_add_subscription], which
    asks [Excludes] and [Fs] for the backend; [gam_poll_basic_add_subscription]
    puts it in its listener's list and at the node of its path in the tree
    (added with its parents when new), polls once and emits the first events.
    A timer runs [gam_poll_basic_scan_callback] over the registered and the
    missing nodes; [gam_node_emit_event] offers what it finds to the
    subscriptions of the node and its parent, [gam_subscription_wants_event]
    filters, and [gam_send_event] writes a packet.  The kernel backend is a
    class ([KernelBackend] of operations, [KernelHandlers] of callbacks), so
    that dispatch is modelled without fixing one; [PollFile], [PollHooks] and
    [PollRemoveAll] are the hooks of the polling backend.  The inotify, the
    dnotify and the kqueue backend are instances of these classes, each over a class of system
    calls; the state a backend keeps is the field [sv_kernel] of the store, and
    what it requires of it is the class [KernelInv], a part of [inv], so that
    the safety of scans and of the tree is proved once for all backends.  Below
    dnotify a signal makes [gam_dnotify_pipe_handler] scan a directory; the
    scan polls each file through [gam_poll_dnotify_poll_file], which may start
    flow control: then the directory is closed and polled once a second.  With
    kqueue every path subscribed to and every file of a subscribed directory is
    kept open by a monitor, which an event of the kernel names; what cannot be
    opened is in the table of one of three pollers, each with a timer.
    A call of the library ([FAMMonitorDirectory]) enters a request in the
    table and writes its packet, which [gam_client_conn_read] hands to
    [gam_connection_data]; [FAMNextEvent] reads with [gamin_read_data] what the
    daemon wrote, [gamin_data_conn_data] cuts and filters it and
    [gamin_data_read_event] hands out the event.

    ** What the theorems show

    - The daemon ([Reach], [Service]): the invariant of all reachable states;
      safety of requests and of the periodic scan, with the exact ways in which
      a request can stop the daemon; authentication; hanging up, which frees a
      client's connection, listener and subscriptions and nothing else; the
      effect of subscribing and cancelling; runs that reach three errors of the code.
    - Library and daemon ([Session]): a monitoring call that answers 0 leaves
      exactly one subscription with the daemon; an event the daemon sends comes
      out of [FAMNextEvent].
    - The library's calls ([ClientService], [ClientReconnect]): what they write
      and hand out, that they come back, when reconnecting succeeds, what it
      sends and which call failed when it does not, which calls
      leave the mutex locked or use freed memory.
    - Credentials and addresses ([ChannelSafety]): each end serves only a peer
      of its own user; the directory of the socket is the user's own; both ends
      use the same address; a run in which a client that hangs up leaves a
      subscription to a freed listener behind.
    - The inotify backend ([InotifyService], [InotifyMoves], [InotifyRead],
      [InotifyWatch], [InotifySim]): in every state it comes to, whatever the
      kernel reports, each callback and operation, and each request of a client
      and freeing of a listener dispatched to it, completes, with tables that
      refer only to what is alive, if GLib has no threads (its lock is taken
      twice otherwise) and the directories directly below the root are there
      (the search may not end otherwise); what subscribing and cancelling do; no event is lost or duplicated while moves are paired, and
      none stays behind; what the kernel writes is what is queued; where the
      search for a directory to watch ends, or that it does not; runs that show
      errors of the code.
    - The dnotify backend ([DnotifySpec], [PollDnotifySpec], [DnotifyService],
      [DnotifySim]): the handler refines counted watches and loses no
      descriptor; polling next to it reports what plain polling does; every
      signalled directory that is still watched is scanned; subscribing
      registers; a run in which a watch outlives its subscription.
    - The kqueue backend ([KqueueService], [KqueueDefer], [KqueueSim]): in every
      state it comes to, whatever order events, timers, requests and hang-ups
      come in, each call completes and accounts for every descriptor and
      every path; what subscribing and cancelling do; that changing a table
      while going through it is as good as changing it at once; the limit on
      open files; a run that loses a descriptor and uses freed memory.
    - Framing ([Framing]): executing chunks is executing the requests of the
      byte stream, however it is cut.
    - Polling ([PollSpec]): [gam_poll_basic_poll_file] refines a comparison of
      [stat] results, written independently of the code's ([looks_same]); deletions and creations alternate.
    - Delivery ([Delivery], [ConnSend], [Subscription], [EventQueue],
      [ClientEvents]): recipients, names, filter, collapsing of repetitions,
      bytes on the wire under partial and interrupted writes, and the round trip
      to the client.
    - The client ([ClientRequests], [ClientEvents]): the binary search, insertion
      and deletion, the invariant of the table over all library-numbered uses,
      chunk independence and bounds of the parser; the uses that break them.
    - Backend choice ([Fs], [Excludes], [Conf]): longest mount point, first
      matching pattern, order of configuration files.

    ** Conventions

    The modelled build is the one for Linux on x86-64 with [ENABLE_INOTIFY],
    [ST_MTIM_NSEC] and no [GAMIN_DEBUG_API]; the dnotify files are the build
    with [ENABLE_DNOTIFY] alone, the kqueue files that with [ENABLE_KQUEUE].  C integers are [Z], with the
    conversion to [unsigned short] written out where packets hold them.  [GList]
    and [GQueue] are lists, [GHashTable] is a [gmap], a [GNode] is part of the
    node record.  A failed assertion is [Fault AssertFailed], a read through a
    freed or null pointer [Fault NullDeref], an access behind a buffer
    [Fault OutOfBounds]; pointers are not reused, so that a dangling one is
    always noticed.  Null checks that the types make superfluous and debug
    output are left out.  An allocation fails only where the code's answer
    to it is modelled ([ClientRequests], [ClientApi]).

    Fuel: [conn_write_loop] gets the number of bytes and of interrupts to come,
    each call of [write] using one of them up, and [write_byte_loop] of the library
    the same; a call under a [retry:] label gets the number of interrupts to
    come; [connect_attempts] gets [MAX_RETRIES] and one; the loop that makes the
    socket's directory five; the loops of the inotify backend get the lengths of
    the queue or of the bytes they consume, [ip_watch_parent] the length of the
    path; the walks over the tree get the
    number of nodes, which bounds the depth; the loop of [gam_connection_data]
    gets the number of buffered bytes, each request taking at least one; the
    directory scan recurses once per level; the pipe handler gets the length of
    the queue.  That these are enough is part of
    the safety theorems, which exclude [OutOfFuel]; only the loop over the
    missing resources may be lengthened by itself, and there the theorem leaves
    [OutOfFuel] open.  The kqueue files need no fuel: their loops go through
    lists.

    What the kernel's calls do to descriptors is assumed by [KqueueLaws]:
    [open] gives a descriptor not in use, a registration lasts until its
    descriptor is closed, events name registered descriptors.  The laws are
    proved for the simulated kernel of [KqueueSim].  The theorems on kqueue
    exclude one call, a poll of an unwatchable path that has a descriptor
    already and is due for another try ([may_retry]): that is how
    [retry_leaks] breaks the daemon.

    The theorems [kqueue_runs_safely] and [inotify_runs_safely] are about the
    backend and the code that calls it.  Their transition systems have a step
    [elsewhere] for the rest of the daemon (scans, flushes, reading, sending,
    other clients' polled paths), which leaves the backend and the live
    subscriptions it refers to alone.  Requests ([gam_connection_request]) and
    hang-ups ([gam_listener_free]) are steps of their own, with the condition
    ([callable]) that their paths are still the kernel's:
    [gam_remove_subscription] looks the backend up again, and after a remount
    it asks the wrong one, so that the subscription is freed, or loses its
    listener, while the backend still refers to it.  The theorems
    [kqueue_remount_use_after_free] and [inotify_remount_use_after_free] are
    runs of this, up to the use of freed memory, with the same run without the
    remount next to them.

    ** What is not modelled

    The Hurd backend, which does not build at this commit: it includes
    [gam_poll.h] and assigns [gam_backend_add_subscription], which no longer
    exist, so that its hooks have no caller to model; the fallback
    from dnotify to plain polling when no pipe can be made; a signal that
    interrupts the pipe handler in the middle of a queue operation, which the
    code itself calls unsafe; the transition system of [Reach] takes a daemon without a kernel backend
    (the option [--pollonly]), in which a connection is closed only when its
    subscriptions are still polled and known to its listener: after a remount
    they need not be, and the daemon then breaks ([ChannelSafety]).  GLib's main
    loop and signals, debug output and dumps, the starting of a daemon by the
    library ([gam_fork.c], an operation of [Sockets]), the functions compiled
    only with [GAMIN_DEBUG_API] and the Python binding are left out: I/O or
    glue.  The credentials are those of [SO_PEERCRED]; the BSD variants are not
    modelled.  The library is modelled for one thread that finds its mutexes
    free.  With kqueue the names of a directory are read at once where the code
    reads them one by one, and a timer is the flag of its poller.  What would
    come next is the removal of subscriptions next to dnotify in all reachable
    states. *)

From Stdlib Require Export ZArith Lia.
From Stdlib Require Strings.Byte Strings.Ascii Strings.String.
From Corelib Require Init.Byte.
From stdpp Require Export base list strings gmap.
Export Corelib.Init.Byte(byte(..)).
Export Stdlib.Strings.String(list_byte_of_string, string_of_list_byte).

#[export] Set Default Goal Selector "1".

(** ** Notations *)

Declare Scope gamin_scope.
Delimit Scope gamin_scope with gamin.
Notation "x .| y" := (Z.lor x y) (at level 50, left associativity) : gamin_scope.
Notation "x .& y" := (Z.land x y) (at level 40, left associativity) : gamin_scope.
Notation "~. x" := (Z.lnot x) (at level 35) : gamin_scope.
Global Open Scope gamin_scope.

Create HintDb gamin.

(** ** Machine integers: a [w]-bit C integer is a [Z] with its wrap-around. *)

Local Open Scope Z_scope.

(** Conversion to [unsigned short]. *)
Definition u16 (z : Z) : Z := z mod 65536.
(** Conversion to a 32-bit [int] (two's complement, as gcc defines it). *)
Definition i32 (z : Z) : Z := (z + 2147483648) mod 4294967296 - 2147483648.
Definition INT_MAX : Z := 2147483647.
(** C truth of a flag test such as [x & f]. *)
Definition ztest (z : Z) : bool := negb (z =? 0).

Lemma u16_range z : 0 <= u16 z < 65536.
Proof. unfold u16. apply Z.mod_pos_bound. lia. Qed.

Lemma u16_small z : 0 <= z < 65536 -> u16 z = z.
Proof. intros. apply Z.mod_small. lia. Qed.

Lemma i32_small z : - 2147483648 <= z <= INT_MAX -> i32 z = z.
Proof. unfold i32, INT_MAX. intros. rewrite Z.mod_small; lia. Qed.

Lemma ztest_false z : ztest z = false <-> z = 0.
Proof. unfold ztest. rewrite negb_false_iff, Z.eqb_eq. done. Qed.

Lemma ztest_true z : ztest z = true <-> z <> 0.
Proof. unfold ztest. rewrite negb_true_iff, Z.eqb_neq. done. Qed.

(** ** Bytes and C strings *)

Definition byte_of_Z (z : Z) : byte :=
  default x00 (Strings.Byte.of_N (Z.to_N (z mod 256))).
Definition Z_of_byte (b : byte) : Z := Z.of_N (Strings.Byte.to_N b).

Lemma Z_of_byte_range b : 0 <= Z_of_byte b < 256.
Proof.
  unfold Z_of_byte. pose proof (Strings.Byte.to_N_bounded b). lia.
Qed.

Lemma Z_of_byte_of_Z z : Z_of_byte (byte_of_Z z) = z mod 256.
Proof.
  unfold byte_of_Z, Z_of_byte.
  pose proof (Z.mod_pos_bound z 256 ltac:(lia)) as Hb.
  destruct (Strings.Byte.of_N (Z.to_N (z mod 256))) as [b|] eqn:E; simpl.
  - apply Strings.Byte.to_of_N in E. rewrite E. lia.
  - apply Strings.Byte.of_N_None_iff in E. lia.
Qed.

(** Little-endian layout of an [unsigned short] in memory. *)
Definition bytes_of_u16 (z : Z) : list byte := [byte_of_Z z; byte_of_Z (z / 256)].

Definition u16_of_bytes (b0 b1 : byte) : Z := Z_of_byte b0 + 256 * Z_of_byte b1.

Lemma u16_of_bytes_of_u16 z :
  u16_of_bytes (byte_of_Z z) (byte_of_Z (z / 256)) = u16 z.
Proof.
  unfold u16_of_bytes, u16. rewrite !Z_of_byte_of_Z.
  replace 65536 with (256 * 256) by lia.
  rewrite (Z.rem_mul_r z 256 256) by lia. lia.
Qed.

Lemma u16_of_bytes_range b0 b1 : 0 <= u16_of_bytes b0 b1 < 65536.
Proof.
  unfold u16_of_bytes. pose proof (Z_of_byte_range b0). pose proof (Z_of_byte_range b1). lia.
Qed.

(** The C string held at the start of a buffer: the bytes before the first NUL. *)
Fixpoint c_string (l : list byte) : list byte :=
  match l with
  | [] => []
  | b :: l' => if Strings.Byte.eqb b x00 then [] else b :: c_string l'
  end.

Definition no_nul (l : list byte) : Prop := Forall (fun b => b <> x00) l.

#[export] Instance byte_eq_dec : EqDecision byte := Strings.Byte.byte_eq_dec.

#[export] Instance no_nul_dec l : Decision (no_nul l).
Proof. unfold no_nul. apply _. Defined.

Lemma c_string_no_nul l : no_nul l -> c_string l = l.
Proof.
  induction 1 as [|b l Hb _ IH]; simpl; [done|].
  destruct (Strings.Byte.eqb b x00) eqn:E; [|by rewrite IH].
  apply Strings.Byte.byte_dec_bl in E. done.
Qed.

Lemma c_string_is_no_nul l : no_nul (c_string l).
Proof.
  unfold no_nul. induction l as [|b l IH]; simpl; [constructor|].
  destruct (Strings.Byte.eqb b x00) eqn:E; constructor; [|done].
  intros ->. discriminate E.
Qed.

Lemma c_string_length l : (length (c_string l) <= length l)%nat.
Proof. induction l as [|b l IH]; simpl; [lia|]. destruct (Strings.Byte.eqb b x00); simpl; lia. Qed.

(** Paths are [string]s; their bytes are what travels in a packet. *)
Definition bytes_of_path (p : string) : list byte := list_byte_of_string p.
Definition path_of_bytes (l : list byte) : string := string_of_list_byte l.

Lemma path_of_bytes_of_path p : path_of_bytes (bytes_of_path p) = p.
Proof. apply String.string_of_list_byte_of_string. Qed.

Lemma bytes_of_path_of_bytes l : bytes_of_path (path_of_bytes l) = l.
Proof. apply String.list_byte_of_string_of_list_byte. Qed.

Lemma length_bytes_of_path p : length (bytes_of_path p) = String.length p.
Proof.
  unfold bytes_of_path, list_byte_of_string. rewrite length_map.
  induction p as [|a p IH]; simpl; [done|]. by rewrite IH.
Qed.

(** [strlen] *)
Definition strlen (p : string) : Z := Z.of_nat (String.length p).

Lemma strlen_nonneg p : 0 <= strlen p.
Proof. unfold strlen. lia. Qed.

(** ** Pointers *)

Abbreviation ptr := positive.

(** ** Parts of strings *)

Definition slash : Ascii.ascii := Ascii.ascii_of_nat 47.

(** The bytes before position [i], as [path_cpy[i] = 0] leaves them. *)
Fixpoint str_take (i : nat) (s : string) : string :=
  match i, s with
  | S i, String a s => String a (str_take i s)
  | _, _ => EmptyString
  end.

Fixpoint str_drop (i : nat) (s : string) : string :=
  match i, s with
  | S i, String _ s => str_drop i s
  | _, _ => s
  end.

Lemma str_take_length i path : (i <= String.length path)%nat -> String.length (str_take i path) = i.
Proof.
  revert path. induction i as [|i IH]; intros path Hi; [by destruct path|].
  destruct path as [|a path]; simpl in *; [lia|]. rewrite IH; lia.
Qed.

Lemma str_take_all n s : (String.length s <= n)%nat -> str_take n s = s.
Proof.
  revert n. induction s as [|a s IH]; intros [|n] H; simpl in *; [done|done|lia|].
  by rewrite IH by lia.
Qed.

Lemma str_take_take p i j : (j <= i)%nat -> str_take j (str_take i p) = str_take j p.
Proof.
  revert i j. induction p as [|c p IH]; intros [|i] [|j] H; simpl; try done; [lia|]. f_equal. apply IH. lia.
Qed.

Lemma str_drop_length n (p : string) :
  (n <= String.length p)%nat -> String.length (str_drop n p) = (String.length p - n)%nat.
Proof.
  revert p. induction n as [|n IH]; intros p Hn; simpl; [lia|].
  destruct p as [|a p]; simpl in *; [lia|]. rewrite IH; lia.
Qed.

Lemma str_drop_app (a b : string) : str_drop (String.length a) (a ++ b) = b.
Proof. induction a as [|c a IH]; simpl; [by destruct b|done]. Qed.

Lemma strlen_app (a b : string) : strlen (a ++ b) = strlen a + strlen b.
Proof.
  unfold strlen. assert (String.length (a ++ b) = String.length a + String.length b)%nat as ->; [|lia].
  induction a as [|c a IH]; simpl; [done|]. by rewrite IH.
Qed.

Lemma str_app_assoc (a b c : string) : ((a ++ b) ++ c = a ++ (b ++ c))%string.
Proof. induction a as [|x a IH]; [done|]. exact (f_equal (String x) IH). Qed.

(** ** Run-time faults

    A handler either completes or runs into something the C program does not
    survive or whose effect C leaves undefined. *)

Inductive fault :=
  | AssertFailed   (** a [g_assert] that does not hold *)
  | NullDeref      (** a field of a NULL or dangling pointer *)
  | OutOfBounds    (** an access outside an array *)
  | Deadlock       (** a lock that the thread itself holds *)
  | OutOfFuel.     (** the bound given to a loop was too small *)

Inductive res (A : Type) :=
  | Ok (a : A)
  | Fault (f : fault).
Arguments Ok {A} _.
Arguments Fault {A} _.
