(* ===== verification/Protocol.v ===== *)
(** * Events and wire protocol

    The constants of [lib/gam_event.h], [libgamin/fam.h] and
    [libgamin/gam_protocol.h], the event names of [libgamin/gam_event.c], and
    the memory layout of a [GAMPacket]: five native-endian (here little-endian,
    the x86 layout) [unsigned short] fields followed by the path bytes, which is
    exactly what both sides [write()] to and [read()] from the socket. *)

From S2P Require Import Prelude.

Local Open Scope Z_scope.

(** ** Event types of the server ([GaminEventType], bit flags) *)

Definition GAMIN_EVENT_CHANGED : Z := 16.
Definition GAMIN_EVENT_CREATED : Z := 32.
Definition GAMIN_EVENT_DELETED : Z := 64.
Definition GAMIN_EVENT_MOVED : Z := 128.
Definition GAMIN_EVENT_EXISTS : Z := 256.
Definition GAMIN_EVENT_ENDEXISTS : Z := 512.
Definition GAMIN_EVENT_UNKNOWN : Z := 1024.

Definition gam_event_to_string (event : Z) : string :=
  if event =? GAMIN_EVENT_CHANGED then "Changed"
  else if event =? GAMIN_EVENT_CREATED then "Created"
  else if event =? GAMIN_EVENT_DELETED then "Deleted"
  else if event =? GAMIN_EVENT_MOVED then "Moved"
  else if event =? GAMIN_EVENT_EXISTS then "Exists"
  else "None".

(** ** Event codes of the FAM API ([FAMCodes]) *)

Definition FAMChanged : Z := 1.
Definition FAMDeleted : Z := 2.
Definition FAMStartExecuting : Z := 3.
Definition FAMStopExecuting : Z := 4.
Definition FAMCreated : Z := 5.
Definition FAMMoved : Z := 6.
Definition FAMAcknowledge : Z := 7.
Definition FAMExists : Z := 8.
Definition FAMEndExist : Z := 9.

(** ** Requests *)

Definition GAM_REQ_FILE : Z := 1.
Definition GAM_REQ_DIR : Z := 2.
Definition GAM_REQ_CANCEL : Z := 3.
Definition GAM_REQ_DEBUG : Z := 4.
Definition GAM_OPT_NOEXISTS : Z := 16.

(** [FILENAME_MAX] of the GNU C library. *)
Definition MAXPATHLEN : Z := 4096.
Definition GAM_PROTO_VERSION : Z := 1.
Definition GAM_PACKET_HEADER_LEN : Z := 10.
(** [sizeof(GAMPacket)]: no padding, all fields are 2-byte aligned. *)
Definition sizeof_GAMPacket : Z := GAM_PACKET_HEADER_LEN + MAXPATHLEN.

(** A packet; [pk_path] holds the [pathlen] bytes that are transmitted. *)
Record GAMPacket := mk_packet {
  pk_len : Z;
  pk_version : Z;
  pk_seq : Z;
  pk_type : Z;
  pk_pathlen : Z;
  pk_path : list byte
}.

(** The bytes of the packet structure up to the end of the path. *)
Definition packet_bytes (p : GAMPacket) : list byte :=
  bytes_of_u16 (pk_len p) ++ bytes_of_u16 (pk_version p) ++ bytes_of_u16 (pk_seq p)
  ++ bytes_of_u16 (pk_type p) ++ bytes_of_u16 (pk_pathlen p) ++ pk_path p.

(** Viewing a buffer of received bytes as a packet: [None] when it is shorter
    than the header.  [pk_path] is what follows the header in the buffer, cut
    at [pathlen] bytes. *)
Definition read_packet (buf : list byte) : option GAMPacket :=
  match buf with
  | l0 :: l1 :: v0 :: v1 :: s0 :: s1 :: t0 :: t1 :: p0 :: p1 :: rest =>
      let pathlen := u16_of_bytes p0 p1 in
      Some (mk_packet (u16_of_bytes l0 l1) (u16_of_bytes v0 v1) (u16_of_bytes s0 s1)
              (u16_of_bytes t0 t1) pathlen (take (Z.to_nat pathlen) rest))
  | _ => None
  end.

(** The packet the code builds for a path: [tlen], version, sequence number,
    type and path length are all stored in [unsigned short] fields. *)
Definition make_packet (seq type : Z) (path : list byte) : GAMPacket :=
  let len := Z.of_nat (length path) in
  mk_packet (u16 (GAM_PACKET_HEADER_LEN + len)) GAM_PROTO_VERSION (u16 seq) (u16 type)
    (u16 len) path.

Lemma read_packet_app_bytes seq type path rest :
  (Z.of_nat (length path) < 65536)%Z ->
  read_packet (packet_bytes (make_packet seq type path) ++ rest) =
  Some (make_packet seq type path).
Proof.
  intros Hlen. unfold packet_bytes, make_packet, bytes_of_u16. simpl.
  rewrite !u16_of_bytes_of_u16.
  rewrite (u16_small (Z.of_nat (length path))) by lia.
  rewrite (u16_small (Z.of_nat (length path))) by lia.
  rewrite Nat2Z.id, take_app_length.
  rewrite !(u16_small (u16 _)) by apply u16_range.
  done.
Qed.

Lemma packet_bytes_nonempty p : packet_bytes p <> [].
Proof. by intros [=]. Qed.

Lemma length_packet_bytes p : length (packet_bytes p) = (10 + length (pk_path p))%nat.
Proof. unfold packet_bytes, bytes_of_u16. rewrite !length_app. simpl. lia. Qed.

Lemma read_packet_Some buf p :
  read_packet buf = Some p ->
  (10 <= length buf)%nat /\
  0 <= pk_len p < 65536 /\ 0 <= pk_version p < 65536 /\ 0 <= pk_seq p < 65536 /\
  0 <= pk_type p < 65536 /\ 0 <= pk_pathlen p < 65536 /\
  pk_path p = take (Z.to_nat (pk_pathlen p)) (drop 10 buf).
Proof.
  intros H. do 10 (destruct buf as [|? buf]; [discriminate|]).
  simpl in H. injection H as <-. simpl.
  repeat split; try apply u16_of_bytes_range; lia.
Qed.

Lemma read_packet_None buf : read_packet buf = None <-> (length buf < 10)%nat.
Proof.
  split.
  - intros H. do 10 (destruct buf as [|? buf]; [simpl; lia|]). discriminate.
  - intros H. do 10 (destruct buf as [|? buf]; [done|]). simpl in H. lia.
Qed.

(** More bytes behind a complete packet do not change its header; they do not
    change its path when the path was complete. *)
Lemma read_packet_app buf more p :
  read_packet buf = Some p ->
  exists p', read_packet (buf ++ more) = Some p' /\
    pk_len p' = pk_len p /\ pk_version p' = pk_version p /\ pk_seq p' = pk_seq p /\
    pk_type p' = pk_type p /\ pk_pathlen p' = pk_pathlen p /\
    (10 + pk_pathlen p <= Z.of_nat (length buf) -> p' = p).
Proof.
  intros H. do 10 (destruct buf as [|? buf]; [discriminate|]).
  simpl in H. injection H as <-. simpl.
  eexists. split; [reflexivity|]. simpl. repeat split; try done.
  intros Hlen. f_equal. rewrite take_app_le; [done|]. lia.
Qed.

#[global] Arguments packet_bytes : simpl never.
#[global] Arguments make_packet : simpl never.
