(* ===== verification/EventQueue.v ===== *)
(** * Event queues ([server/gam_eq.c])

    The per-connection queue of events waiting to be sent.  [gam_eq_queue]
    drops an event that is identical to the one at the tail; [gam_eq_flush]
    pops the events from the head and hands each to [gam_send_event].  The
    queue is the list of events, head first. *)

From S2P Require Import Prelude Protocol.

Local Open Scope Z_scope.

(** [gam_eq_event_t] *)
Record gam_eq_event := gam_eq_event_new {
  eq_reqno : Z;
  eq_event : Z;
  eq_path : string;
  eq_len : Z
}.

#[export] Instance gam_eq_event_eq_dec : EqDecision gam_eq_event.
Proof. solve_decision. Defined.

(** [struct _gam_eq]: a [GQueue] of events. *)
Definition gam_eq := list gam_eq_event.

Definition gam_eq_new : gam_eq := [].

(** The comparison of [gam_eq_queue] with the event at the tail, in the order
    of the source. *)
Definition gam_eq_same (e : gam_eq_event) (reqno event : Z) (path : string) (len : Z) : bool :=
  (eq_reqno e =? reqno) && (eq_len e =? len) && (eq_event e =? event)
  && String.eqb (eq_path e) path.

(** [gam_eq_queue]; the queue pointer is [None] for NULL. *)
Definition gam_eq_queue (eq : option gam_eq) (reqno event : Z) (path : string) (len : Z)
  : option gam_eq :=
  match eq with
  | None => None
  | Some q =>
      match last q with
      | Some tail =>
          if gam_eq_same tail reqno event path len then Some q
          else Some (q ++ [gam_eq_event_new reqno event path len])
      | None => Some (q ++ [gam_eq_event_new reqno event path len])
      end
  end.

Definition gam_eq_size (eq : option gam_eq) : Z :=
  match eq with None => 0 | Some q => Z.of_nat (length q) end.

Section Flush.
(** The connection state and [gam_send_event] (result ignored by the queue). *)
Context {conn : Type} (gam_send_event : conn -> gam_eq_event -> conn).

Definition gam_eq_flush_callback (event : gam_eq_event) (c : conn) : conn :=
  gam_send_event c event.

(** [gam_eq_flush] on a non-NULL queue: whether some work was done, the
    emptied queue and the connection after the sends. *)
Fixpoint gam_eq_flush_loop (q : gam_eq) (c : conn) (done_work : bool)
  : bool * gam_eq * conn :=
  match q with
  | [] => (done_work, [], c)
  | event :: q' => gam_eq_flush_loop q' (gam_eq_flush_callback event c) true
  end.

Definition gam_eq_flush (q : gam_eq) (c : conn) : bool * gam_eq * conn :=
  gam_eq_flush_loop q c false.

Lemma gam_eq_flush_loop_spec q c w :
  gam_eq_flush_loop q c w
  = (w || negb (bool_decide (q = [])), [], foldl gam_send_event c q).
Proof.
  revert c w. induction q as [|e q IH]; intros c w; simpl.
  - by rewrite orb_false_r.
  - rewrite IH. simpl. by rewrite orb_true_r.
Qed.
End Flush.

(** [gam_eq_free]: every pending event is dropped. *)
Definition gam_eq_free (eq : option gam_eq) : option gam_eq := None.

(** ** Specification: the pushed sequence without stuttering *)

(** The events of a sequence, an event equal to its predecessor removed. *)
Fixpoint destutter (prev : option gam_eq_event) (l : list gam_eq_event) : list gam_eq_event :=
  match l with
  | [] => []
  | e :: l' => if decide (prev = Some e) then destutter prev l'
               else e :: destutter (Some e) l'
  end.

(** Queueing one event record. *)
Definition gam_eq_push (q : gam_eq) (e : gam_eq_event) : gam_eq :=
  default q (gam_eq_queue (Some q) (eq_reqno e) (eq_event e) (eq_path e) (eq_len e)).

Lemma gam_eq_same_spec e e' :
  gam_eq_same e (eq_reqno e') (eq_event e') (eq_path e') (eq_len e') = bool_decide (e = e').
Proof.
  unfold gam_eq_same. destruct e as [r ev p l], e' as [r' ev' p' l']; simpl.
  destruct (Z.eqb_spec r r'), (Z.eqb_spec l l'), (Z.eqb_spec ev ev'), (String.eqb_spec p p');
    simpl; case_bool_decide; congruence.
Qed.

Lemma gam_eq_push_spec q e :
  gam_eq_push q e = if decide (last q = Some e) then q else q ++ [e].
Proof.
  unfold gam_eq_push, gam_eq_queue. destruct (last q) as [t|] eqn:Hl.
  - rewrite gam_eq_same_spec.
    case_bool_decide; case_decide; simplify_eq; simpl; by destruct e.
  - rewrite decide_False by done. simpl. by destruct e.
Qed.

Lemma destutter_push_gen prev q l :
  last q = prev -> foldl gam_eq_push q l = q ++ destutter prev l.
Proof.
  revert q prev. induction l as [|e l IH]; intros q prev Hl; simpl.
  { by rewrite app_nil_r. }
  rewrite gam_eq_push_spec, Hl. case_decide; [by apply IH|].
  rewrite (IH _ (Some e)) by (by rewrite last_snoc). by rewrite <- app_assoc.
Qed.

Definition no_stutter (q : list gam_eq_event) : Prop :=
  forall i e e', q !! i = Some e -> q !! S i = Some e' -> e <> e'.

Lemma destutter_no_stutter_gen prev l :
  no_stutter (destutter prev l) /\ (forall e, head (destutter prev l) = Some e -> prev <> Some e).
Proof.
  revert prev. induction l as [|e l IH]; intros prev; simpl; [split; [intros ???? | ]; done|].
  case_decide as Hd; [apply IH|].
  destruct (IH (Some e)) as [IH1 IH2]. split; [|simpl; intros ? [= <-]; done].
  intros [|i] e1 e2 H1 H2; simpl in *.
  - intros ->. simplify_eq. apply (IH2 e2); [|done]. by rewrite head_lookup.
  - by eapply IH1.
Qed.

(** C31: the queue refines its specification.  Whatever sequence of events is
    queued on a fresh queue, a flush hands to [gam_send_event] exactly that
    sequence in order, with runs of identical events collapsed to one; the
    queue is empty afterwards, and the flush reports work iff something was
    queued. *)
Theorem flush_after_queueing {conn} (send : conn -> gam_eq_event -> conn) l c :
  gam_eq_flush send (foldl gam_eq_push gam_eq_new l) c
  = (negb (bool_decide (l = [])), [], foldl send c (destutter None l))
  /\ no_stutter (destutter None l).
Proof.
  unfold gam_eq_flush. rewrite gam_eq_flush_loop_spec.
  rewrite (destutter_push_gen None) by done. simpl. split.
  - do 2 f_equal. destruct l as [|e l]; [done|]. simpl.
    done.
  - apply destutter_no_stutter_gen.
Qed.
