(* ===== verification/ClientRequests.v ===== *)
(** * The request table of the client library ([libgamin/gam_data.c], first half)

    A connection keeps an array of requests, sorted by request number, and
    looks them up by binary search.  The array [req_tab] with its fill count
    [req_nr] is the list [req_tab] (so [req_nr] is its length); [req_max] is
    the allocated capacity and [req_alloc] says whether the array pointer is
    set.  A request is reached through the table only, so a write through a
    [GAMReqDataPtr] is an update of the table entry. *)

From S2P Require Import Prelude Protocol.

Local Open Scope Z_scope.

(** ** Data *)

Inductive GAMReqState :=
  | REQ_NONE | REQ_INIT | REQ_CONFIRMED | REQ_SUSPENDED | REQ_CANCELLED.

#[export] Instance GAMReqState_eq_dec : EqDecision GAMReqState.
Proof. solve_decision. Defined.

Record GAMReqData := mk_req {
  rq_reqno : Z;
  rq_state : GAMReqState;
  rq_type : Z;
  rq_filename : option string;
  rq_userData : Z
}.

(** [struct GAMData]; the valid bytes of [event] are the list [evn], so that
    [evn_read] is its length. *)
Record GAMData := mk_data {
  reqno : Z;
  auth : Z;
  restarted : Z;
  noexist : Z;
  evn_ready : Z;
  evn : list byte;
  evn_reqnum : Z;
  evn_userdata : Z;
  req_max : Z;
  req_alloc : bool;
  req_tab : list GAMReqData
}.

Definition evn_read (conn : GAMData) : Z := Z.of_nat (length (evn conn)).
Definition req_nr (conn : GAMData) : Z := Z.of_nat (length (req_tab conn)).

Definition set_req_tab (tab : list GAMReqData) (c : GAMData) : GAMData :=
  mk_data (reqno c) (auth c) (restarted c) (noexist c) (evn_ready c) (evn c)
    (evn_reqnum c) (evn_userdata c) (req_max c) (req_alloc c) tab.
Definition set_req_max (m : Z) (alloc : bool) (c : GAMData) : GAMData :=
  mk_data (reqno c) (auth c) (restarted c) (noexist c) (evn_ready c) (evn c)
    (evn_reqnum c) (evn_userdata c) m alloc (req_tab c).
Definition set_reqno (n : Z) (c : GAMData) : GAMData :=
  mk_data n (auth c) (restarted c) (noexist c) (evn_ready c) (evn c)
    (evn_reqnum c) (evn_userdata c) (req_max c) (req_alloc c) (req_tab c).

Definition set_rq_state (st : GAMReqState) (r : GAMReqData) : GAMReqData :=
  mk_req (rq_reqno r) st (rq_type r) (rq_filename r) (rq_userData r).

(** [sizeof(GAMReqDataPtr)] and [sizeof(GAMReqData)] on x86-64. *)
Definition sizeof_ptr : Z := 8.
Definition sizeof_GAMReqData : Z := 32.

(** ** Locating a request *)

(** The loop of [gamin_data_get_req_loc]; [None] when the fuel runs out,
    [Some (inl v)] for a [return v] inside the loop, [Some (inr min)] on exit. *)
Fixpoint req_loc_loop (fuel : nat) (tab : list GAMReqData) (no min max : Z)
  : option (Z + Z) :=
  match fuel with
  | O => None
  | S fuel' =>
      if max >? min then
        let cur := (max + min) ÷ 2 in
        match tab !! Z.to_nat cur with
        | None => Some (inl (-1))
        | Some r =>
            let tmp := rq_reqno r in
            if tmp =? no then Some (inl (-1))
            else if tmp <? no then req_loc_loop fuel' tab no (cur + 1) max
            else req_loc_loop fuel' tab no min (cur - 1)
        end
      else Some (inr min)
  end.

(** Enough iterations for any table: the interval shrinks at every step. *)
Definition search_fuel (tab : list GAMReqData) : nat := S (length tab).

Definition gamin_data_get_req_loc (conn : GAMData) (no : Z) : option Z :=
  if req_nr conn =? 0 then Some 0
  else
    match req_loc_loop (search_fuel (req_tab conn)) (req_tab conn) no 0 (req_nr conn - 1) with
    | None => None
    | Some (inl v) => Some v
    | Some (inr min) =>
        match req_tab conn !! Z.to_nat min with
        | None => None
        | Some r => if no >? rq_reqno r then Some (min + 1) else Some min
        end
    end.

Fixpoint req_idx_loop (fuel : nat) (tab : list GAMReqData) (no min max : Z) : option Z :=
  match fuel with
  | O => None
  | S fuel' =>
      if max >=? min then
        let cur := (max + min) ÷ 2 in
        match tab !! Z.to_nat cur with
        | None => Some (-1)
        | Some r =>
            let tmp := rq_reqno r in
            if tmp =? no then Some cur
            else if tmp <? no then req_idx_loop fuel' tab no (cur + 1) max
            else req_idx_loop fuel' tab no min (cur - 1)
        end
      else Some (-1)
  end.

Definition gamin_data_get_req_idx (conn : GAMData) (no : Z) : option Z :=
  req_idx_loop (search_fuel (req_tab conn)) (req_tab conn) no 0 (req_nr conn - 1).

(** [gamin_data_get_req]: the request itself, [None] for NULL. *)
Definition gamin_data_get_req (conn : GAMData) (no : Z) : option GAMReqData :=
  match gamin_data_get_req_idx conn no with
  | Some idx => if idx <? 0 then None else req_tab conn !! Z.to_nat idx
  | None => None
  end.

(** ** Adding, deleting and cancelling *)

Section Allocation.
(** Whether the allocation of that many bytes succeeds during the call. *)
Context (malloc : Z -> bool).

(** [gamin_allocate_request]: the zeroed request and the grown table. *)
Definition gamin_allocate_request (conn : GAMData) : GAMData * option GAMReqData :=
  let new_req (conn : GAMData) :=
    if malloc sizeof_GAMReqData then (conn, Some (mk_req 0 REQ_NONE 0 None 0))
    else (conn, None) in
  if negb (req_alloc conn) then
    let conn := set_req_tab [] (set_req_max 10 false conn) in
    if malloc (10 * sizeof_ptr) then new_req (set_req_max 10 true conn)
    else (conn, None)
  else if req_nr conn =? req_max conn then
    if malloc (2 * req_max conn * sizeof_ptr)
    then new_req (set_req_max (req_max conn * 2) true conn)
    else (conn, None)
  else if req_nr conn >? req_max conn then
    (set_req_tab (take (Z.to_nat (req_max conn)) (req_tab conn)) conn, None)
  else new_req conn.

Definition strdup (s : string) : option string :=
  if malloc (strlen s + 1) then Some s else None.

Definition gamin_data_add_req2 (conn : GAMData) (filename : string) (type userData no : Z)
  : GAMData * option GAMReqData :=
  match gamin_data_get_req_loc conn no with
  | None => (conn, None)
  | Some idx =>
      if idx <? 0 then (conn, None)
      else
        let at_idx (conn : GAMData) := req_tab conn !! Z.to_nat idx in
        if (idx <? req_nr conn) &&
           (match at_idx conn with Some r => rq_reqno r =? no | None => false end)
        then (conn, None)
        else
          match gamin_allocate_request conn with
          | (conn, None) => (conn, None)
          | (conn, Some _) =>
              let req := mk_req no REQ_INIT type (strdup filename) userData in
              let idx :=
                if (idx <? req_nr conn) &&
                   (match at_idx conn with Some r => rq_reqno r <? no | None => false end)
                then idx + 1 else idx in
              let i := Z.to_nat idx in
              (set_req_tab (take i (req_tab conn) ++ req :: drop i (req_tab conn)) conn,
               Some req)
          end
  end.

Definition gamin_data_add_req (conn : GAMData) (filename : string) (type userData : Z)
  : GAMData * option GAMReqData :=
  match gamin_allocate_request conn with
  | (conn, None) => (conn, None)
  | (conn, Some _) =>
      let req := mk_req (reqno conn) REQ_INIT type (strdup filename) userData in
      let conn := set_reqno (i32 (reqno conn + 1)) conn in
      (set_req_tab (req_tab conn ++ [req]) conn, Some req)
  end.

Definition gamin_data_get_reqnum (conn : GAMData) (filename : string) (type userData : Z)
  : GAMData * Z :=
  match gamin_data_add_req conn filename type userData with
  | (conn, None) => (conn, -1)
  | (conn, Some req) => (conn, rq_reqno req)
  end.

Definition gamin_data_get_request (conn : GAMData) (filename : string)
  (type userData no : Z) : GAMData * Z :=
  match gamin_data_add_req2 conn filename type userData no with
  | (conn, None) => (conn, -1)
  | (conn, Some req) => (conn, rq_reqno req)
  end.
End Allocation.

Definition gamin_data_del_req (conn : GAMData) (no : Z) : GAMData * Z :=
  match gamin_data_get_req_idx conn no with
  | None => (conn, -1)
  | Some idx =>
      if idx <? 0 then (conn, -1)
      else (set_req_tab (delete (Z.to_nat idx) (req_tab conn)) conn, 0)
  end.

Definition gamin_data_cancel (conn : GAMData) (no : Z) : GAMData * Z :=
  match gamin_data_get_req_idx conn no with
  | None => (conn, -1)
  | Some idx =>
      if idx <? 0 then (conn, -1)
      else
        match req_tab conn !! Z.to_nat idx with
        | None => (conn, -1)
        | Some data =>
            if decide (rq_state data = REQ_CANCELLED) then (conn, 0)
            else (set_req_tab (<[Z.to_nat idx := set_rq_state REQ_CANCELLED data]>
                                 (req_tab conn)) conn, 1)
        end
  end.

Definition gamin_data_new : GAMData := mk_data 1 0 0 0 0 [] 0 0 0 false [].

(** [gamin_data_reset]: the pending requests handed back for re-emission, their
    number, and the reset connection (the table is kept). *)
Definition gamin_data_reset (c : GAMData) : GAMData * list GAMReqData * Z :=
  (mk_data 1 0 1 (noexist c) 0 [] (evn_reqnum c) (evn_userdata c)
     (req_max c) (req_alloc c) (req_tab c),
   req_tab c, req_nr c).

(** ** Sorted tables *)

Definition sorted_tab (tab : list GAMReqData) : Prop :=
  forall i j a b, (i < j)%nat -> tab !! i = Some a -> tab !! j = Some b ->
    rq_reqno a < rq_reqno b.

Definition present (tab : list GAMReqData) (no : Z) : Prop :=
  exists r, r ∈ tab /\ rq_reqno r = no.

Lemma sorted_tab_nil : sorted_tab [].
Proof. intros i j a b _ Ha. by rewrite lookup_nil in Ha. Qed.

Lemma sorted_tab_mono tab i j a b :
  sorted_tab tab -> tab !! i = Some a -> tab !! j = Some b ->
  rq_reqno a < rq_reqno b -> (i < j)%nat.
Proof.
  intros Hs Ha Hb Hlt. destruct (decide (i < j)%nat); [done|].
  destruct (decide (i = j)) as [->|]; [simplify_eq; lia|].
  pose proof (Hs j i b a ltac:(lia) Hb Ha). lia.
Qed.

Lemma sorted_tab_inj tab i j a b :
  sorted_tab tab -> tab !! i = Some a -> tab !! j = Some b ->
  rq_reqno a = rq_reqno b -> i = j.
Proof.
  intros Hs Ha Hb E. destruct (Nat.lt_trichotomy i j) as [H|[H|H]]; [|done|].
  - pose proof (Hs _ _ _ _ H Ha Hb). lia.
  - pose proof (Hs _ _ _ _ H Hb Ha). lia.
Qed.

Lemma mid_bounds mn mx : 0 <= mn <= mx -> mn <= (mx + mn) ÷ 2 <= mx.
Proof. intros. rewrite Z.quot_div_nonneg by lia. split; [apply Z.div_le_lower_bound|apply Z.div_le_upper_bound]; lia. Qed.

(** ** The two binary searches *)

Section Search.
Context (tab : list GAMReqData) (no : Z).
Hypothesis Hsorted : sorted_tab tab.

(** Every entry below [mn] is smaller than [no] and every entry above [mx]
    is greater: the invariant of both loops. *)
Definition bracketed (mn mx : Z) : Prop :=
  (forall j r, tab !! j = Some r -> Z.of_nat j < mn -> rq_reqno r < no) /\
  (forall j r, tab !! j = Some r -> mx < Z.of_nat j -> no < rq_reqno r).

Lemma bracketed_init : bracketed 0 (Z.of_nat (length tab) - 1).
Proof.
  split; intros j r Hj; [lia|]. apply lookup_lt_Some in Hj. lia.
Qed.

Lemma bracketed_right mn mx cur r :
  bracketed mn mx -> 0 <= cur -> tab !! Z.to_nat cur = Some r -> rq_reqno r < no ->
  bracketed (cur + 1) mx.
Proof.
  intros [Hl Hr] Hc Hcur Hlt. split; [|done]. intros j r' Hj Hjc.
  destruct (decide (j = Z.to_nat cur)) as [->|]; [by simplify_eq|].
  pose proof (Hsorted j (Z.to_nat cur) r' r ltac:(lia) Hj Hcur). lia.
Qed.

Lemma bracketed_left mn mx cur r :
  bracketed mn mx -> 0 <= cur -> tab !! Z.to_nat cur = Some r -> no < rq_reqno r ->
  bracketed mn (cur - 1).
Proof.
  intros [Hl Hr] Hc Hcur Hlt. split; [done|]. intros j r' Hj Hjc.
  destruct (decide (j = Z.to_nat cur)) as [->|]; [by simplify_eq|].
  pose proof (Hsorted (Z.to_nat cur) j r r' ltac:(lia) Hcur Hj). lia.
Qed.

Lemma req_idx_loop_spec fuel mn mx :
  mx - mn + 1 < Z.of_nat fuel -> 0 <= mn -> mn <= mx + 1 -> mx < Z.of_nat (length tab) ->
  bracketed mn mx ->
  exists v, req_idx_loop fuel tab no mn mx = Some v /\
    ((exists r, 0 <= v /\ tab !! Z.to_nat v = Some r /\ rq_reqno r = no) \/
     (v = -1 /\ ~ present tab no)).
Proof.
  revert mn mx. induction fuel as [|fuel IH]; intros mn mx Hf H0 Hle Hm Hb; [lia|simpl].
  destruct (mx >=? mn) eqn:E.
  - apply Z.geb_le in E. pose proof (mid_bounds mn mx ltac:(lia)) as Hmid.
    set (cur := (mx + mn) ÷ 2) in *.
    destruct (tab !! Z.to_nat cur) as [r|] eqn:Hcur.
    2:{ apply lookup_ge_None in Hcur. lia. }
    destruct (Z.eqb_spec (rq_reqno r) no) as [He|He].
    { exists cur. split; [done|]. left. exists r. repeat split; [lia|done..]. }
    destruct (Z.ltb_spec (rq_reqno r) no).
    + apply IH; try lia. eapply bracketed_right; eauto; lia.
    + apply IH; try lia. eapply bracketed_left; eauto; lia.
  - exists (-1). split; [done|]. right. split; [done|].
    assert (mx < mn) by (destruct (Z.geb_spec mx mn); [done|lia]).
    intros (r & Hr & Hno). apply list_elem_of_lookup in Hr as [j Hj].
    destruct Hb as [Hl Hg]. destruct (decide (Z.of_nat j < mn)).
    + specialize (Hl _ _ Hj ltac:(lia)). lia.
    + specialize (Hg _ _ Hj ltac:(lia)). lia.
Qed.

Lemma req_loc_loop_spec fuel mn mx :
  mx - mn + 1 < Z.of_nat fuel -> 0 <= mn -> mn <= mx + 1 ->
  mx < Z.of_nat (length tab) -> mn < Z.of_nat (length tab) ->
  bracketed mn mx ->
  exists x, req_loc_loop fuel tab no mn mx = Some x /\
    match x with
    | inl v => v = -1 /\ present tab no
    | inr mn' => 0 <= mn' < Z.of_nat (length tab) /\
                 exists mx', mx' <= mn' /\ mn' <= mx' + 1 /\ bracketed mn' mx'
    end.
Proof.
  revert mn mx. induction fuel as [|fuel IH]; intros mn mx Hf H0 Hle Hm Hn Hb; [lia|simpl].
  destruct (Z.gtb_spec mx mn) as [E|E].
  - pose proof (mid_bounds mn mx ltac:(lia)) as Hmid.
    set (cur := (mx + mn) ÷ 2) in *.
    assert (cur < mx) as Hcm.
    { unfold cur. rewrite Z.quot_div_nonneg by lia. apply Z.div_lt_upper_bound; lia. }
    destruct (tab !! Z.to_nat cur) as [r|] eqn:Hcur.
    2:{ apply lookup_ge_None in Hcur. lia. }
    destruct (Z.eqb_spec (rq_reqno r) no) as [He|He].
    { exists (inl (-1)). repeat split. exists r. split; [|done]. by eapply list_elem_of_lookup_2. }
    destruct (Z.ltb_spec (rq_reqno r) no).
    + apply IH; try lia. eapply bracketed_right; eauto; lia.
    + apply IH; try lia. eapply bracketed_left; eauto; lia.
  - exists (inr mn). split; [done|]. split; [lia|]. exists mx. repeat split; try lia; apply Hb.
Qed.
End Search.

Lemma search_fuel_enough tab : Z.of_nat (length tab) - 1 - 0 + 1 < Z.of_nat (search_fuel tab).
Proof. unfold search_fuel. lia. Qed.

(** C32: on a sorted table the binary search of [gamin_data_get_req_idx]
    always terminates and is equivalent to a linear search: it returns the
    index of an entry exactly when that entry carries the request number, and
    -1 exactly when no entry does. *)
Theorem get_req_idx_correct (conn : GAMData) (no : Z) :
  sorted_tab (req_tab conn) ->
  (forall i, gamin_data_get_req_idx conn no = Some (Z.of_nat i) <->
     exists r, req_tab conn !! i = Some r /\ rq_reqno r = no) /\
  (gamin_data_get_req_idx conn no = Some (-1) <-> ~ present (req_tab conn) no).
Proof.
  intros Hs. unfold gamin_data_get_req_idx, req_nr.
  destruct (req_idx_loop_spec (req_tab conn) no Hs (search_fuel (req_tab conn)) 0
    (Z.of_nat (length (req_tab conn)) - 1)) as (v & Hv & Hcase);
    [apply search_fuel_enough|lia..|apply bracketed_init|].
  rewrite Hv. destruct Hcase as [(r & H0 & Hr & Hno) | [-> Hno]].
  - split.
    + intros i. split.
      * intros [= ->]. rewrite Nat2Z.id in Hr. eauto.
      * intros (r' & Hr' & Hno'). f_equal.
        rewrite (sorted_tab_inj _ i (Z.to_nat v) r' r Hs Hr' Hr) by congruence. lia.
    + split; [intros [= ->]; lia|]. intros Hp. destruct Hp. exists r. split; [|done].
      by eapply list_elem_of_lookup_2.
  - split; [|done]. intros i. split; [intros [= ?]; lia|].
    intros (r & Hr & Hno'). destruct Hno. exists r. split; [|done].
    by eapply list_elem_of_lookup_2.
Qed.

Definition demo_req (no : Z) : GAMReqData := mk_req no REQ_INIT GAM_REQ_DIR (Some "/tmp") 0.
Definition demo_data (l : list Z) : GAMData :=
  mk_data 1 1 0 0 0 [] 0 0 10 true (demo_req <$> l).

Definition sorted_tabb (tab : list GAMReqData) : bool :=
  forallb (fun '(a, b) => rq_reqno a <? rq_reqno b) (zip tab (tail tab)).

Lemma sorted_tabb_sorted tab : sorted_tabb tab = true -> sorted_tab tab.
Proof.
  intros H. assert (forall i a b, tab !! i = Some a -> tab !! S i = Some b ->
    rq_reqno a < rq_reqno b) as Hstep.
  { revert H. unfold sorted_tabb. induction tab as [|x tab IH]; intros H i a b Ha Hb; [done|].
    destruct tab as [|y tab]; [by destruct i|]. simpl in H. apply andb_true_iff in H as [H1 H2].
    destruct i as [|i]; simpl in *; [simplify_eq; lia|]. by eapply IH. }
  intros i j a b Hij. revert b. induction Hij as [|j Hij IH]; intros b Ha Hb; [eauto|].
  destruct (lookup_lt_is_Some_2 tab j) as [c Hc]; [apply lookup_lt_Some in Hb; lia|].
  specialize (IH c Ha Hc). specialize (Hstep _ _ _ Hc Hb). lia.
Qed.

Lemma get_req_idx_correct_witness :
  sorted_tab (req_tab (demo_data [3; 5; 9])) /\
  gamin_data_get_req_idx (demo_data [3; 5; 9]) 5 = Some (Z.of_nat 1) /\
  ~ present (req_tab (demo_data [3; 5; 9])) 4.
Proof.
  assert (sorted_tab (req_tab (demo_data [3; 5; 9]))) as Hs
    by (apply sorted_tabb_sorted; vm_compute; reflexivity).
  split; [exact Hs|]. split.
  - apply (proj1 (get_req_idx_correct (demo_data [3; 5; 9]) 5 Hs) 1%nat).
    exists (demo_req 5). split; reflexivity.
  - apply (proj2 (get_req_idx_correct (demo_data [3; 5; 9]) 4 Hs)). vm_compute. reflexivity.
Defined.

(** ** Well-formed tables *)

(** No array means no entry; an allocated array has room for its entries, and
    they are sorted. *)
Definition wf_tab (c : GAMData) : Prop :=
  sorted_tab (req_tab c) /\
  (if req_alloc c then 1 <= req_max c /\ req_nr c <= req_max c else req_tab c = []).

Lemma req_loc_spec c no :
  sorted_tab (req_tab c) ->
  exists v, gamin_data_get_req_loc c no = Some v /\
    ((v = -1 /\ present (req_tab c) no) \/
     (exists i, v = Z.of_nat i /\ (i <= length (req_tab c))%nat /\
        (forall j r, req_tab c !! j = Some r -> (j < i)%nat -> rq_reqno r < no) /\
        (forall j r, req_tab c !! j = Some r -> (i < j)%nat -> no < rq_reqno r) /\
        (forall r, req_tab c !! i = Some r -> no <= rq_reqno r))).
Proof.
  intros Hs. unfold gamin_data_get_req_loc, req_nr.
  destruct (Z.eqb_spec (Z.of_nat (length (req_tab c))) 0) as [E|E].
  { exists 0. split; [done|]. right. exists 0%nat. split; [done|]. split; [lia|].
    assert (req_tab c = []) as -> by (apply nil_length_inv; lia).
    repeat split; intros *; rewrite lookup_nil; done. }
  destruct (req_loc_loop_spec (req_tab c) no Hs (search_fuel (req_tab c)) 0
    (Z.of_nat (length (req_tab c)) - 1)) as (x & Hx & Hcase);
    [apply search_fuel_enough|lia..|apply bracketed_init|].
  rewrite Hx. destruct x as [v|mn].
  - destruct Hcase as [-> Hp]. eauto.
  - destruct Hcase as (Hmn & mx & Hle & Hle2 & Hl & Hr).
    destruct (lookup_lt_is_Some_2 (req_tab c) (Z.to_nat mn)) as [r Hlk]; [lia|]. rewrite Hlk.
    destruct (Z.gtb_spec no (rq_reqno r)) as [Hgt|Hgt].
    + exists (mn + 1). split; [done|]. right. exists (S (Z.to_nat mn)). split; [lia|].
      split; [lia|]. split; [|split].
      * intros j r' Hj Hlt. destruct (decide (j = Z.to_nat mn)) as [->|]; [simplify_eq; lia|].
        apply (Hl j); [done|lia].
      * intros j r' Hj Hlt. apply (Hr j); [done|lia].
      * intros r' Hr'. pose proof (Hr _ _ Hr' ltac:(lia)). lia.
    + exists mn. split; [done|]. right. exists (Z.to_nat mn). split; [lia|].
      split; [lia|]. split; [|split].
      * intros j r' Hj Hlt. apply (Hl j); [done|lia].
      * intros j r' Hj Hlt. apply (Hr j); [done|lia].
      * intros r' Hr'. simplify_eq. lia.
Qed.

Lemma sorted_tab_insert tab i req :
  sorted_tab tab -> (i <= length tab)%nat ->
  (forall j r, tab !! j = Some r -> (j < i)%nat -> rq_reqno r < rq_reqno req) ->
  (forall j r, tab !! j = Some r -> (i <= j)%nat -> rq_reqno req < rq_reqno r) ->
  sorted_tab (take i tab ++ req :: drop i tab).
Proof.
  intros Hs Hi Hl Hr j k a b Hjk Ha Hb.
  assert (length (take i tab) = i) as Hlen by (rewrite length_take; lia).
  assert (forall m x, (take i tab ++ req :: drop i tab) !! m = Some x ->
    ((m < i)%nat /\ tab !! m = Some x) \/ (m = i /\ x = req) \/
    ((i < m)%nat /\ tab !! (m - 1)%nat = Some x)) as Hcase.
  { intros m x. rewrite lookup_app_Some, Hlen. intros [H|[Hge H]].
    - left. by apply lookup_take_Some in H as [? ?].
    - right. destruct (m - i)%nat as [|d] eqn:Ed; simpl in H; [left; split; [lia|congruence]|].
      right. rewrite lookup_drop in H. replace (i + d)%nat with (m - 1)%nat in H by lia.
      split; [lia|done]. }
  destruct (Hcase _ _ Ha) as [[H1 H2]|[[-> ->]|[H1 H2]]];
    destruct (Hcase _ _ Hb) as [[H3 H4]|[[-> ->]|[H3 H4]]]; try lia;
    first [eapply (Hs j k); eauto; lia | eapply Hl; eauto; lia | eapply Hr; eauto; lia
          | eapply (Hs j (k - 1)%nat); eauto; lia
          | eapply (Hs (j - 1)%nat (k - 1)%nat); eauto; lia].
Qed.

Lemma allocate_request_spec malloc c :
  wf_tab c ->
  let '(c', o) := gamin_allocate_request malloc c in
  req_tab c' = req_tab c /\ reqno c' = reqno c /\ wf_tab c' /\
  match o with
  | Some _ => req_alloc c' = true /\ req_nr c' < req_max c'
  | None => exists n, malloc n = false
  end.
Proof.
  intros [Hs Hcap]. unfold gamin_allocate_request.
  destruct (req_alloc c) eqn:Ha; simpl.
  - destruct Hcap as [Hm Hnr]. destruct (Z.eqb_spec (req_nr c) (req_max c)) as [E|E].
    + destruct (malloc (2 * req_max c * sizeof_ptr)) eqn:E1; [|repeat split; try rewrite Ha; eauto; lia].
      assert (wf_tab (set_req_max (req_max c * 2) true c)) as Hwf.
      { split; [done|]. unfold req_nr, set_req_max in *; simpl in *. lia. }
      destruct (malloc sizeof_GAMReqData) eqn:E2; repeat split; try apply Hwf; eauto.
      unfold req_nr, set_req_max in *; simpl in *. lia.
    + destruct (Z.gtb_spec (req_nr c) (req_max c)); [lia|].
      destruct (malloc sizeof_GAMReqData) eqn:E2; repeat split; try rewrite Ha; eauto; lia.
  - assert (wf_tab (set_req_max 10 true c)) as Hwf.
    { split; [done|]. unfold req_nr, set_req_max; simpl. rewrite Hcap. simpl. lia. }
    destruct (malloc (10 * sizeof_ptr)) eqn:E1.
    + destruct (malloc sizeof_GAMReqData) eqn:E2; simpl; rewrite Hcap;
        repeat split; eauto; unfold set_req_max, set_req_tab, req_nr; simpl;
        rewrite ?lookup_nil; try apply sorted_tab_nil; simpl; lia.
    + simpl. rewrite Hcap. repeat split; eauto using sorted_tab_nil.
Qed.

(** Adding a request under a caller-chosen number.  On a well-formed table
    [gamin_data_add_req2] fails exactly when the number is already in use or an
    allocation fails, leaving the requests untouched; otherwise the new
    request is in the table, every other request is kept, and the table is
    well formed (in particular sorted) again. *)
Theorem add_req2_correct malloc (c : GAMData) filename type userData no :
  wf_tab c ->
  let '(c', o) := gamin_data_add_req2 malloc c filename type userData no in
  wf_tab c' /\
  match o with
  | None => req_tab c' = req_tab c /\ (present (req_tab c) no \/ exists n, malloc n = false)
  | Some r => ~ present (req_tab c) no /\
      r = mk_req no REQ_INIT type (strdup malloc filename) userData /\
      req_tab c' ≡ₚ r :: req_tab c
  end.
Proof.
  intros Hwf. unfold gamin_data_add_req2.
  destruct (req_loc_spec c no (proj1 Hwf)) as (v & -> & [[-> Hp]|(i & -> & Hi & Hl & Hr & Hge)]);
    [simpl; auto|].
  destruct (Z.ltb_spec (Z.of_nat i) 0); [lia|]. rewrite Nat2Z.id.
  destruct (_ && _) eqn:Edup.
  { split; [done|]. split; [done|]. left. apply andb_true_iff in Edup as [_ E].
    destruct (req_tab c !! i) as [r|] eqn:Er; [|done]. apply Z.eqb_eq in E.
    exists r. split; [by eapply list_elem_of_lookup_2|done]. }
  assert (forall j r, req_tab c !! j = Some r -> (i <= j)%nat -> no < rq_reqno r) as Hgt.
  { intros j r Hj Hij. destruct (decide (j = i)) as [->|]; [|apply (Hr j); [done|lia]].
    specialize (Hge _ Hj). rewrite Hj in Edup. unfold req_nr in Edup.
    apply lookup_lt_Some in Hj. rewrite (proj2 (Z.ltb_lt _ _)) in Edup by lia. simpl in Edup.
    apply Z.eqb_neq in Edup. lia. }
  pose proof (allocate_request_spec malloc c Hwf) as Ha.
  destruct (gamin_allocate_request malloc c) as [c1 o]. destruct Ha as (Htab & _ & Hwf1 & Ho).
  destruct o as [r0|]; [|by eauto]. destruct Ho as [Hal Hcap].
  rewrite Htab. set (req := mk_req _ _ _ _ _).
  assert ((if (Z.of_nat i <? req_nr c1) &&
              match req_tab c !! i with Some r => rq_reqno r <? no | None => false end
           then Z.of_nat i + 1 else Z.of_nat i) = Z.of_nat i) as ->.
  { destruct (req_tab c !! i) as [r|] eqn:Er; [|by rewrite andb_false_r].
    specialize (Hgt _ _ Er ltac:(lia)). rewrite (proj2 (Z.ltb_ge (rq_reqno r) no)) by lia.
    by rewrite andb_false_r. }
  rewrite Nat2Z.id. split; [split|split; [|split]].
  - apply sorted_tab_insert; [apply Hwf|done|exact Hl|exact Hgt].
  - simpl. rewrite Hal. destruct Hwf1 as [_ Hc]. rewrite Hal in Hc.
    unfold req_nr in *. simpl. rewrite Htab in *.
    rewrite length_app, length_cons, length_take, length_drop. lia.
  - intros (r & Hin & Hno). apply list_elem_of_lookup in Hin as [j Hj].
    destruct (decide (j < i)%nat).
    + specialize (Hl _ _ Hj ltac:(lia)). lia.
    + specialize (Hgt _ _ Hj ltac:(lia)). lia.
  - done.
  - simpl. rewrite <- Permutation_middle, take_drop. done.
Qed.

Lemma demo_wf l : sorted_tabb (demo_req <$> l) = true -> (length l <= 10)%nat ->
  wf_tab (demo_data l).
Proof.
  intros Hs Hl. split; [by apply sorted_tabb_sorted|]. unfold req_nr. simpl.
  rewrite length_fmap. lia.
Qed.

Lemma add_req2_correct_witness :
  wf_tab (demo_data [3; 9]) /\
  exists c', gamin_data_add_req2 (fun _ => true) (demo_data [3; 9]) "/a" GAM_REQ_FILE 0 5
    = (c', Some (mk_req 5 REQ_INIT GAM_REQ_FILE (Some "/a"%string) 0)) /\ wf_tab c'.
Proof.
  assert (wf_tab (demo_data [3; 9])) as Hwf by (apply demo_wf; [reflexivity|simpl; lia]).
  split; [exact Hwf|]. eexists. split; [vm_compute; reflexivity|].
  exact (proj1 (add_req2_correct (fun _ => true) (demo_data [3; 9]) "/a" GAM_REQ_FILE 0 5 Hwf)).
Defined.

(** Deleting by index. *)
Lemma sorted_tab_delete tab i : sorted_tab tab -> sorted_tab (delete i tab).
Proof.
  intros Hs j k a b Hjk Ha Hb.
  assert (forall m x, delete i tab !! m = Some x ->
    ((m < i)%nat /\ tab !! m = Some x) \/ ((i <= m)%nat /\ tab !! S m = Some x)) as Hc.
  { intros m x Hm. destruct (decide (m < i)%nat).
    - left. by rewrite list_lookup_delete_lt in Hm.
    - right. rewrite list_lookup_delete_ge in Hm by lia. split; [lia|done]. }
  destruct (Hc _ _ Ha) as [[? ?]|[? ?]], (Hc _ _ Hb) as [[? ?]|[? ?]]; try lia;
    [eapply (Hs j k)|eapply (Hs j (S k))|eapply (Hs (S j) (S k))]; eauto; lia.
Qed.

(** Deleting a request.  On a well-formed table [gamin_data_del_req]
    succeeds exactly when the number is in use; it then removes that request
    and no other, keeping the others in order. *)
Theorem del_req_correct (c : GAMData) no :
  wf_tab c ->
  let '(c', ret) := gamin_data_del_req c no in
  wf_tab c' /\ ~ present (req_tab c') no /\
  ((ret = 0 /\ exists r, rq_reqno r = no /\ req_tab c ≡ₚ r :: req_tab c') \/
   (ret = -1 /\ c' = c)).
Proof.
  intros [Hs Hcap]. unfold gamin_data_del_req, gamin_data_get_req_idx, req_nr.
  destruct (req_idx_loop_spec (req_tab c) no Hs (search_fuel (req_tab c)) 0
    (Z.of_nat (length (req_tab c)) - 1)) as (v & -> & Hcase);
    [apply search_fuel_enough|lia..|apply bracketed_init|].
  destruct Hcase as [(r & H0 & Hr & Hno) | [-> Hno]]; [|simpl; repeat split; auto].
  destruct (Z.ltb_spec v 0); [lia|].
  pose proof (delete_Permutation _ _ _ Hr) as Hp.
  split; [split|split].
  - by apply sorted_tab_delete.
  - simpl. destruct (req_alloc c); [|by rewrite Hcap in Hr; rewrite lookup_nil in Hr].
    unfold req_nr in *. simpl. rewrite Hp in Hcap. simpl in Hcap. lia.
  - intros (r' & Hin & Hno'). simpl in Hin. apply list_elem_of_lookup in Hin as [j Hj].
    destruct (decide (j < Z.to_nat v)%nat).
    + rewrite list_lookup_delete_lt in Hj by lia.
      pose proof (sorted_tab_inj _ _ _ _ _ Hs Hj Hr ltac:(congruence)). lia.
    + rewrite list_lookup_delete_ge in Hj by lia.
      pose proof (sorted_tab_inj _ _ _ _ _ Hs Hj Hr ltac:(congruence)). lia.
  - left. split; [done|]. exists r. by split.
Qed.

Lemma del_req_correct_witness :
  wf_tab (demo_data [3; 5; 9]) /\
  exists c', gamin_data_del_req (demo_data [3; 5; 9]) 5 = (c', 0) /\
    wf_tab c' /\ ~ present (req_tab c') 5.
Proof.
  assert (wf_tab (demo_data [3; 5; 9])) as Hwf by (apply demo_wf; [reflexivity|simpl; lia]).
  split; [exact Hwf|]. eexists. split; [vm_compute; reflexivity|].
  pose proof (del_req_correct (demo_data [3; 5; 9]) 5 Hwf) as (H1 & H2 & _). split; assumption.
Defined.

(** ** Reachable tables *)

(** The calls a client makes that only uses library-chosen request numbers:
    [FAMMonitorFile]/[FAMMonitorDirectory] allocate the next number,
    [FAMCancelMonitor] cancels one, an acknowledge deletes it. *)
Inductive data_step (c : GAMData) : GAMData -> Prop :=
  | step_get_reqnum malloc filename type userData :
      reqno c < INT_MAX ->
      data_step c (gamin_data_get_reqnum malloc c filename type userData).1
  | step_cancel no : data_step c (gamin_data_cancel c no).1
  | step_del no : data_step c (gamin_data_del_req c no).1.

(** Every number in the table is below the counter. *)
Definition fresh_counter (c : GAMData) : Prop :=
  1 <= reqno c /\ Forall (fun r => rq_reqno r < reqno c) (req_tab c).

Definition data_inv (c : GAMData) : Prop := wf_tab c /\ fresh_counter c.

Lemma sorted_tab_snoc tab req :
  sorted_tab tab -> Forall (fun r => rq_reqno r < rq_reqno req) tab ->
  sorted_tab (tab ++ [req]).
Proof.
  intros Hs Hf. pose proof (sorted_tab_insert tab (length tab) req Hs ltac:(lia)) as H.
  rewrite firstn_all, drop_all in H. apply H.
  - intros j r Hj _. eapply Forall_lookup_1 in Hf; eauto.
  - intros j r Hj Hge. apply lookup_lt_Some in Hj. lia.
Qed.

Lemma get_reqnum_inv malloc c fn ty ud :
  data_inv c -> reqno c < INT_MAX -> data_inv (gamin_data_get_reqnum malloc c fn ty ud).1.
Proof.
  intros [Hwf [H1 Hf]] Hmax. unfold gamin_data_get_reqnum, gamin_data_add_req.
  pose proof (allocate_request_spec malloc c Hwf) as Ha.
  destruct (gamin_allocate_request malloc c) as [c1 [r0|]];
    destruct Ha as (Htab & Hrn & Hwf1 & Ho); simpl.
  - destruct Ho as [Hal Hcap]. rewrite Htab, Hrn. rewrite i32_small by (unfold INT_MAX in *; lia).
    split; [split|split]; simpl.
    + apply sorted_tab_snoc; [apply Hwf|done].
    + rewrite Hal. destruct Hwf1 as [_ Hc]. rewrite Hal in Hc.
      unfold req_nr in *. simpl. rewrite Htab, length_app in *. simpl. lia.
    + lia.
    + apply Forall_app. split; [eapply Forall_impl; [exact Hf|]; simpl; lia|].
      apply Forall_singleton. simpl. lia.
  - split; [done|]. split; [lia|]. by rewrite Htab, Hrn.
Qed.

Lemma sorted_tab_set_state tab i r st :
  tab !! i = Some r -> sorted_tab tab -> sorted_tab (<[i := set_rq_state st r]> tab).
Proof.
  intros Hi Hs.
  assert (forall m x, <[i := set_rq_state st r]> tab !! m = Some x ->
    exists y, tab !! m = Some y /\ rq_reqno y = rq_reqno x) as Hc.
  { intros m x Hm. apply list_lookup_insert_Some in Hm as [(-> & <- & _)|[_ Hm]]; eauto. }
  intros j k a b Hjk Ha Hb.
  apply Hc in Ha as (a' & Ha & <-). apply Hc in Hb as (b' & Hb & <-). eauto.
Qed.

Lemma cancel_inv c no : data_inv c -> data_inv (gamin_data_cancel c no).1.
Proof.
  intros [[Hs Hcap] [H1 Hf]]. unfold gamin_data_cancel.
  destruct (gamin_data_get_req_idx c no) as [idx|]; [|done].
  destruct (idx <? 0); [done|]. destruct (req_tab c !! Z.to_nat idx) as [r|] eqn:Hr; [|done].
  case_decide; [done|]. simpl. split; [split|split]; simpl.
  - by apply sorted_tab_set_state.
  - destruct (req_alloc c); [|by rewrite Hcap in Hr; rewrite lookup_nil in Hr].
    unfold req_nr in *. simpl. by rewrite length_insert.
  - done.
  - apply Forall_insert; [done|]. simpl. eapply Forall_lookup_1 in Hf; eauto.
Qed.

Lemma del_inv c no : data_inv c -> data_inv (gamin_data_del_req c no).1.
Proof.
  intros [Hwf [H1 Hf]]. pose proof (del_req_correct c no Hwf) as H.
  assert (reqno (gamin_data_del_req c no).1 = reqno c) as Hrn.
  { unfold gamin_data_del_req. destruct (gamin_data_get_req_idx c no) as [v|]; [|done].
    by destruct (v <? 0). }
  destruct (gamin_data_del_req c no) as [c' ret]; simpl in *.
  destruct H as (Hwf' & _ & [(_ & r & _ & Hp)|[_ ->]]); [|done].
  split; [done|]. split; [by rewrite Hrn|]. rewrite Hrn. rewrite Hp in Hf. by inversion Hf.
Qed.

(** C33: in every state reachable from a new connection by library-numbered
    requests, cancellations and deletions, the table is well formed and sorted,
    every number in it is below the counter, and so a request is found by its
    number exactly when it is in the table. *)
Theorem reachable_tab_sorted (c : GAMData) :
  rtc data_step gamin_data_new c ->
  wf_tab c /\ fresh_counter c /\
  forall no, gamin_data_get_req c no = None <-> ~ present (req_tab c) no.
Proof.
  intros Hr.
  assert (data_inv c) as [Hwf Hf].
  { assert (data_inv gamin_data_new) as H0
      by (repeat split; simpl; auto using sorted_tab_nil; lia).
    revert H0. generalize gamin_data_new Hr. clear Hr.
    induction 1 as [|x y z Hs _ IH]; [done|]. intros Hx. apply IH.
    destruct Hs; auto using get_reqnum_inv, cancel_inv, del_inv. }
  split; [done|]. split; [done|]. intros no. unfold gamin_data_get_req, gamin_data_get_req_idx, req_nr.
  destruct (req_idx_loop_spec (req_tab c) no (proj1 Hwf) (search_fuel (req_tab c)) 0
    (Z.of_nat (length (req_tab c)) - 1)) as (v & -> & Hcase);
    [apply search_fuel_enough|lia..|apply bracketed_init|].
  destruct Hcase as [(r & H0 & Hlk & Hno) | [-> Hno]]; [|done].
  destruct (Z.ltb_spec v 0); [lia|]. rewrite Hlk. split; [done|]. intros []. exists r.
  split; [by eapply list_elem_of_lookup_2|done].
Qed.

Lemma reachable_tab_sorted_witness :
  rtc data_step gamin_data_new
    (gamin_data_get_reqnum (fun _ => true) gamin_data_new "/a" GAM_REQ_DIR 7).1 /\
  fresh_counter (gamin_data_get_reqnum (fun _ => true) gamin_data_new "/a" GAM_REQ_DIR 7).1.
Proof.
  assert (rtc data_step gamin_data_new
    (gamin_data_get_reqnum (fun _ => true) gamin_data_new "/a" GAM_REQ_DIR 7).1) as Hr.
  { eapply rtc_once, step_get_reqnum. vm_compute. reflexivity. }
  split; [exact Hr|]. exact (proj1 (proj2 (reachable_tab_sorted _ Hr))).
Defined.

(** The counter is not advanced past caller-chosen numbers.  On a new
    connection, once a request was made under a number [no > 1] through
    [gamin_data_get_request], the next library-chosen number is stored out of
    order: the request is in the table but the binary search does not find it,
    so all its events will be dropped. *)
Theorem user_numbered_request_hides_next malloc no f1 f2 t1 t2 u1 u2 :
  (forall n, malloc n = true) -> 1 < no ->
  let c1 := (gamin_data_get_request malloc gamin_data_new f1 t1 u1 no).1 in
  let '(c2, n2) := gamin_data_get_reqnum malloc c1 f2 t2 u2 in
  n2 = 1 /\ present (req_tab c2) 1 /\ gamin_data_get_req c2 1 = None.
Proof.
  intros Hm Hno. unfold gamin_data_get_request, gamin_data_add_req2, gamin_data_get_reqnum,
    gamin_data_add_req, gamin_allocate_request. repeat (simpl; rewrite ?Hm).
  split; [done|]. split.
  - exists (mk_req 1 REQ_INIT t2 (strdup malloc f2) u2). split; [set_solver|done].
  - unfold gamin_data_get_req, gamin_data_get_req_idx. simpl.
    rewrite (proj2 (Z.eqb_neq no 1)) by lia. rewrite (proj2 (Z.ltb_ge no 1)) by lia.
    reflexivity.
Qed.

Lemma user_numbered_request_hides_next_witness :
  (forall n, (fun _ : Z => true) n = true) /\ 1 < 100 /\
  gamin_data_get_req (gamin_data_get_reqnum (fun _ => true)
    (gamin_data_get_request (fun _ => true) gamin_data_new "/a" 2 0 100).1 "/b" 2 0).1 1 = None.
Proof.
  split; [reflexivity|]. split; [lia|].
  exact (proj2 (proj2 (user_numbered_request_hides_next (fun _ => true) 100 "/a" "/b" 2 2 0 0
    (fun _ => eq_refl) ltac:(lia)))).
Defined.

(** A reconnection restarts the numbering while the old requests stay in
    the table: [gamin_data_reset] keeps every request and the next
    library-chosen number is 1 again, so a number already in use is handed out
    twice and the table is no longer sorted. *)
Theorem reset_reuses_numbers malloc (c : GAMData) filename type userData :
  (forall n, malloc n = true) -> wf_tab c -> present (req_tab c) 1 ->
  let '(c', reqs, n) := gamin_data_reset c in
  reqs = req_tab c /\ n = req_nr c /\ req_tab c' = req_tab c /\
  let '(c2, no) := gamin_data_get_reqnum malloc c' filename type userData in
  no = 1 /\ present (req_tab c') no /\ ~ sorted_tab (req_tab c2).
Proof.
  intros Hm Hwf Hp. simpl. repeat split; try done.
  unfold gamin_data_get_reqnum, gamin_data_add_req.
  set (c' := mk_data _ _ _ _ _ _ _ _ _ _ _).
  assert (wf_tab c') as Hwf' by done.
  pose proof (allocate_request_spec malloc c' Hwf') as Ha.
  destruct (gamin_allocate_request malloc c') as [c1 [r0|]]; destruct Ha as (Htab & Hrn & _ & Ho).
  - rewrite Hrn. simpl. repeat split; [done|]. rewrite Htab. intros Hs.
    destruct Hp as (r & Hin & Hno). apply list_elem_of_lookup in Hin as [j Hj].
    pose proof (lookup_lt_Some _ _ _ Hj) as Hlt.
    pose proof (Hs j (length (req_tab c)) r (mk_req 1 REQ_INIT type (strdup malloc filename) userData)
      Hlt) as H.
    simpl in H. rewrite Hno in H. assert (1 < 1); [|lia]. apply H.
    + rewrite lookup_app_l by done. done.
    + rewrite lookup_app_r by done. by rewrite Nat.sub_diag.
  - destruct Ho as [n Hn]. by rewrite Hm in Hn.
Qed.

Lemma reset_reuses_numbers_witness :
  wf_tab (demo_data [1; 2]) /\ present (req_tab (demo_data [1; 2])) 1 /\
  let '(c', _, _) := gamin_data_reset (demo_data [1; 2]) in
  (gamin_data_get_reqnum (fun _ => true) c' "/b" GAM_REQ_DIR 0).2 = 1.
Proof.
  assert (wf_tab (demo_data [1; 2])) as Hwf by (apply demo_wf; [reflexivity|simpl; lia]).
  assert (present (req_tab (demo_data [1; 2])) 1) as Hp
    by (exists (demo_req 1); split; [apply (list_elem_of_lookup_2 _ 0%nat)|]; reflexivity).
  split; [exact Hwf|]. split; [exact Hp|].
  exact (proj1 (proj2 (proj2 (proj2 (reset_reuses_numbers (fun _ => true) (demo_data [1; 2]) "/b"
    GAM_REQ_DIR 0 (fun _ => eq_refl) Hwf Hp))))).
Defined.
