(* ===== verification/ClientEvents.v ===== *)
(** * The event stream of the client library ([libgamin/gam_data.c], second half)

    The client reads packets from the socket into a buffer of
    [sizeof(GAMPacket)] bytes; a call to [gamin_data_conn_data] consumes the
    complete packets at its start until one is accepted (then [evn_ready] is
    set and that packet stays at the start of the buffer until
    [gamin_data_read_event] delivers it), or until an incomplete packet is left
    over. *)

From S2P Require Import Prelude Protocol ClientRequests.

Local Open Scope Z_scope.

Definition PATH_MAX : Z := 4096.

(** The fields of [FAMEvent] that the library fills. *)
Record FAMEvent := mk_event {
  fe_reqnum : Z;
  fe_filename : string;
  fe_userdata : Z;
  fe_code : Z
}.

Definition set_evn (b : list byte) (c : GAMData) : GAMData :=
  mk_data (reqno c) (auth c) (restarted c) (noexist c) (evn_ready c) b
    (evn_reqnum c) (evn_userdata c) (req_max c) (req_alloc c) (req_tab c).
Definition set_evn_ready (r : Z) (c : GAMData) : GAMData :=
  mk_data (reqno c) (auth c) (restarted c) (noexist c) r (evn c)
    (evn_reqnum c) (evn_userdata c) (req_max c) (req_alloc c) (req_tab c).
Definition set_restarted (r : Z) (c : GAMData) : GAMData :=
  mk_data (reqno c) (auth c) r (noexist c) (evn_ready c) (evn c)
    (evn_reqnum c) (evn_userdata c) (req_max c) (req_alloc c) (req_tab c).
Definition set_auth (a : Z) (c : GAMData) : GAMData :=
  mk_data (reqno c) a (restarted c) (noexist c) (evn_ready c) (evn c)
    (evn_reqnum c) (evn_userdata c) (req_max c) (req_alloc c) (req_tab c).
Definition set_noexist (n : Z) (c : GAMData) : GAMData :=
  mk_data (reqno c) (auth c) (restarted c) n (evn_ready c) (evn c)
    (evn_reqnum c) (evn_userdata c) (req_max c) (req_alloc c) (req_tab c).
Definition set_accepted (reqnum userdata : Z) (c : GAMData) : GAMData :=
  mk_data (reqno c) (auth c) (restarted c) (noexist c) 1 (evn c)
    reqnum userdata (req_max c) (req_alloc c) (req_tab c).

(** [req->state = st] for the request found under [no]. *)
Definition set_req_state (no : Z) (st : GAMReqState) (c : GAMData) : GAMData :=
  match gamin_data_get_req_idx c no with
  | Some idx =>
      if idx <? 0 then c
      else set_req_tab (alter (set_rq_state st) (Z.to_nat idx) (req_tab c)) c
  | None => c
  end.

(** [gamin_data_read_event]: -1 when no event is ready.  The terminating NUL is
    stored at [filename[pathlen]], outside the array when [pathlen] is
    [PATH_MAX]. *)
Definition gamin_data_read_event (conn : GAMData) : res (GAMData * option FAMEvent) :=
  if negb (evn_ready conn =? 1) then Ok (conn, None)
  else
    match read_packet (evn conn) with
    | None => Fault OutOfBounds
    | Some p =>
        if pk_pathlen p >=? PATH_MAX then Fault OutOfBounds
        else
          let event := mk_event (evn_reqnum conn) (path_of_bytes (c_string (pk_path p)))
                         (evn_userdata conn) (pk_type p) in
          let conn1 := set_evn_ready 0 conn in
          let conn2 := if fe_code event =? FAMAcknowledge
                       then (gamin_data_del_req conn1 (pk_seq p)).1 else conn1 in
          Ok (set_evn (drop (Z.to_nat (pk_len p)) (evn conn)) conn2, Some event)
    end.

(** [gamin_data_get_data]: where the next bytes go and how many fit. *)
Definition gamin_data_get_data (conn : GAMData) : Z * Z :=
  (evn_read conn, sizeof_GAMPacket - evn_read conn).

(** The filter applied after a reconnection: [None] drops the event. *)
Definition restart_filter (type : Z) (conn : GAMData) : bool * GAMData :=
  if negb (restarted conn =? 0) then
    let conn := if (type =? FAMCreated) || (type =? FAMMoved) || (type =? FAMChanged)
                then set_restarted 0 conn else conn in
    if negb (restarted conn =? 0) then
      (false, if type =? FAMEndExist then set_restarted 0 conn else conn)
    else (true, conn)
  else (true, conn).

(** [gamin_data_conn_event]: 1 when the event is accepted, 0 when dropped. *)
Definition gamin_data_conn_event (conn : GAMData) (p : GAMPacket) : GAMData * Z :=
  match gamin_data_get_req conn (pk_seq p) with
  | None => (conn, 0)
  | Some req =>
      let accept (conn : GAMData) :=
        match restart_filter (pk_type p) conn with
        | (false, conn) => (conn, 0)
        | (true, conn) => (set_accepted (pk_seq p) (rq_userData req) conn, 1)
        end in
      match rq_state req with
      | REQ_NONE | REQ_SUSPENDED => (conn, 0)
      | REQ_CANCELLED => if pk_type p =? FAMAcknowledge then accept conn else (conn, 0)
      | REQ_INIT => accept (set_req_state (pk_seq p) REQ_CONFIRMED conn)
      | REQ_CONFIRMED => accept conn
      end
  end.

(** The sanity checks on the header of a packet; [true] when malformed. *)
Definition evn_malformed (p : GAMPacket) : bool :=
  (pk_len p >? sizeof_GAMPacket)
  || negb (pk_version p =? GAM_PROTO_VERSION)
  || ((pk_pathlen p <=? 0) || (pk_pathlen p >? MAXPATHLEN))
  || negb (pk_pathlen p + GAM_PACKET_HEADER_LEN =? pk_len p).

(** The loop of [gamin_data_conn_data]. *)
Fixpoint conn_data_loop (fuel : nat) (conn : GAMData) : res (GAMData * Z) :=
  match fuel with
  | O => Fault OutOfFuel
  | S fuel' =>
      match read_packet (evn conn) with
      | None => Ok (conn, 0)
      | Some p =>
          if evn_malformed p then Ok (conn, -1)
          else if evn_read conn <? pk_len p then Ok (conn, 0)
          else
            let '(conn, ret) := gamin_data_conn_event conn p in
            if ret <? 0 then Ok (conn, -1)
            else if negb (evn_ready conn =? 0) then Ok (conn, 0)
            else
              let rest := drop (Z.to_nat (pk_len p)) (evn conn) in
              if Z.of_nat (length rest) =? 0 then Ok (set_evn [] conn, 0)
              else conn_data_loop fuel' (set_evn rest conn)
      end
  end.

(** One iteration. *)
Lemma conn_data_loop_S fuel conn :
  conn_data_loop (S fuel) conn =
  match read_packet (evn conn) with
  | None => Ok (conn, 0)
  | Some p =>
      if evn_malformed p then Ok (conn, -1)
      else if evn_read conn <? pk_len p then Ok (conn, 0)
      else
        let '(conn, ret) := gamin_data_conn_event conn p in
        if ret <? 0 then Ok (conn, -1)
        else if negb (evn_ready conn =? 0) then Ok (conn, 0)
        else
          let rest := drop (Z.to_nat (pk_len p)) (evn conn) in
          if Z.of_nat (length rest) =? 0 then Ok (set_evn [] conn, 0)
          else conn_data_loop fuel (set_evn rest conn)
  end.
Proof. done. Qed.

Definition conn_data_fuel (conn : GAMData) : nat := S (length (evn conn)).

(** [gamin_data_conn_data] when [data] was stored behind the valid bytes. *)
Definition gamin_data_conn_data (conn : GAMData) (data : list byte) : res (GAMData * Z) :=
  if Z.of_nat (length data) + evn_read conn >? sizeof_GAMPacket then Ok (conn, -1)
  else
    let conn := set_evn (evn conn ++ data) conn in
    conn_data_loop (conn_data_fuel conn) conn.

Definition gamin_data_event_ready (conn : GAMData) : res (GAMData * Z) :=
  if negb (evn_ready conn =? 0) then Ok (conn, 1)
  else if negb (evn_read conn =? 0) then
    match gamin_data_conn_data conn [] with
    | Ok (conn, _) => Ok (conn, evn_ready conn)
    | Fault f => Fault f
    end
  else Ok (conn, evn_ready conn).

Definition gamin_data_done_auth (conn : GAMData) : GAMData * Z := (set_auth 1 conn, 0).

Definition gamin_data_need_auth (conn : GAMData) : Z :=
  if auth conn =? 1 then 0 else if auth conn =? 0 then 1 else -1.

Definition gamin_data_no_exists (conn : GAMData) : GAMData * Z := (set_noexist 1 conn, 0).

Definition gamin_data_get_exists (conn : GAMData) : Z :=
  if negb (noexist conn =? 0) then 0 else 1.

(** ** Framing *)

(** [b] is in the socket behind the bytes the buffer already holds. *)
Definition app_evn (b : list byte) (c : GAMData) : GAMData := set_evn (evn c ++ b) c.

Lemma set_req_state_app b no st c :
  set_req_state no st (app_evn b c) = app_evn b (set_req_state no st c).
Proof.
  unfold set_req_state.
  change (gamin_data_get_req_idx (app_evn b c) no) with (gamin_data_get_req_idx c no).
  destruct (gamin_data_get_req_idx c no) as [i|]; [|done]. by destruct (i <? 0).
Qed.

Lemma restart_filter_app b type c :
  restart_filter type (app_evn b c)
  = ((restart_filter type c).1, app_evn b (restart_filter type c).2).
Proof.
  unfold restart_filter. simpl. destruct (restarted c =? 0) eqn:E; simpl; [done|].
  destruct (_ || _); simpl; [done|]. rewrite E. simpl. by destruct (type =? FAMEndExist).
Qed.

Lemma conn_event_app b c p :
  gamin_data_conn_event (app_evn b c) p
  = (app_evn b (gamin_data_conn_event c p).1, (gamin_data_conn_event c p).2).
Proof.
  unfold gamin_data_conn_event.
  change (gamin_data_get_req (app_evn b c) (pk_seq p)) with (gamin_data_get_req c (pk_seq p)).
  destruct (gamin_data_get_req c (pk_seq p)) as [r|]; [|done].
  destruct (rq_state r); try done; rewrite ?set_req_state_app;
    [| |destruct (_ =? _); [|done]]; rewrite restart_filter_app;
    by destruct (restart_filter _ _) as [[] c'].
Qed.

Lemma set_req_state_evn no st c : evn (set_req_state no st c) = evn c.
Proof.
  unfold set_req_state. destruct (gamin_data_get_req_idx c no) as [i|]; [|done].
  by destruct (i <? 0).
Qed.

Lemma restart_filter_evn type c :
  evn (restart_filter type c).2 = evn c /\ evn_ready (restart_filter type c).2 = evn_ready c.
Proof.
  unfold restart_filter. destruct (restarted c =? 0) eqn:E; simpl; [done|].
  destruct (_ || _); simpl; [done|]. rewrite E. simpl. by destruct (type =? FAMEndExist).
Qed.

Lemma conn_event_evn c p : evn (gamin_data_conn_event c p).1 = evn c.
Proof.
  unfold gamin_data_conn_event.
  destruct (gamin_data_get_req c (pk_seq p)) as [r|]; [|done].
  destruct (rq_state r); try done; [| |destruct (_ =? _); [|done]];
    match goal with |- context [restart_filter ?t ?x] =>
      pose proof (restart_filter_evn t x) as [He _]; destruct (restart_filter t x) as [[] c'] end;
    simpl in *; rewrite He, ?set_req_state_evn; done.
Qed.

Lemma conn_event_ret c p :
  (gamin_data_conn_event c p).2 = 0 \/ (gamin_data_conn_event c p).2 = 1.
Proof.
  unfold gamin_data_conn_event.
  destruct (gamin_data_get_req c (pk_seq p)) as [r|]; [|by left].
  destruct (rq_state r); try (by left); [| |destruct (_ =? _); [|by left]];
    destruct (restart_filter _ _) as [[] c']; simpl; auto.
Qed.

Lemma not_malformed p :
  evn_malformed p = false ->
  pk_len p = 10 + pk_pathlen p /\ 1 <= pk_pathlen p <= MAXPATHLEN /\ pk_version p = 1.
Proof.
  unfold evn_malformed, GAM_PACKET_HEADER_LEN, GAM_PROTO_VERSION.
  rewrite !orb_false_iff, !negb_false_iff, Z.leb_gt, !Z.gtb_ltb, !Z.ltb_ge, !Z.eqb_eq. lia.
Qed.

Lemma evn_malformed_app p p' :
  pk_len p' = pk_len p -> pk_version p' = pk_version p -> pk_pathlen p' = pk_pathlen p ->
  evn_malformed p' = evn_malformed p.
Proof. unfold evn_malformed. by intros -> -> ->. Qed.

(** Every iteration removes at least eleven bytes: the fuel is enough. *)
Lemma loop_fuel f f' c :
  (length (evn c) < f)%nat -> (length (evn c) < f')%nat ->
  conn_data_loop f c = conn_data_loop f' c.
Proof.
  revert f' c. induction f as [|f IH]; intros f' c Hf Hf'; [lia|].
  destruct f' as [|f']; [lia|]. simpl.
  destruct (read_packet (evn c)) as [p|] eqn:Hp; [|done].
  destruct (evn_malformed p) eqn:Hm; [done|].
  destruct (Z.ltb_spec (evn_read c) (pk_len p)); [done|].
  pose proof (conn_event_evn c p) as He.
  destruct (gamin_data_conn_event c p) as [c1 ret]; simpl in He.
  destruct (ret <? 0); [done|]. destruct (negb _); [done|].
  destruct (_ =? 0); [done|].
  apply not_malformed in Hm. apply read_packet_Some in Hp as (Hlen & _).
  apply IH; simpl; rewrite He, length_drop; lia.
Qed.

Lemma loop_total f c :
  (length (evn c) < f)%nat ->
  exists c' r, conn_data_loop f c = Ok (c', r) /\ (r = 0 \/ r = -1) /\
    (length (evn c') <= length (evn c))%nat.
Proof.
  revert c. induction f as [|f IH]; intros c Hf; [lia|]. simpl.
  destruct (read_packet (evn c)) as [p|] eqn:Hp; [|eauto 10].
  destruct (evn_malformed p) eqn:Hm; [eauto 10|].
  destruct (Z.ltb_spec (evn_read c) (pk_len p)); [eauto 10|].
  pose proof (conn_event_evn c p) as He.
  destruct (gamin_data_conn_event c p) as [c1 ret]; simpl in He.
  destruct (ret <? 0); [rewrite <- He; eauto 10|].
  destruct (negb _); [rewrite <- He; eauto 10|].
  destruct (_ =? 0); [exists (set_evn [] c1), 0; simpl; auto with lia|].
  apply not_malformed in Hm. apply read_packet_Some in Hp as (Hlen & _).
  destruct (IH (set_evn (drop (Z.to_nat (pk_len p)) (evn c1)) c1)) as (c' & r & -> & Hr & Hl).
  { simpl. rewrite He, length_drop. lia. }
  exists c', r. simpl in Hl. rewrite He, length_drop in Hl. auto with lia.
Qed.

(** The loop on a buffer that is continued by [b]: it stops on the first part
    alone, or goes on with what the first part left over. *)
Lemma loop_app f f' f'' c b :
  (length (evn c) + length b < f)%nat -> (length (evn c) < f')%nat ->
  (length (evn c) + length b < f'')%nat ->
  evn_ready c = 0 ->
  conn_data_loop f (app_evn b c) =
  match conn_data_loop f' c with
  | Ok (c1, r) =>
      if r <? 0 then Ok (app_evn b c1, r)
      else if negb (evn_ready c1 =? 0) then Ok (app_evn b c1, 0)
      else conn_data_loop f'' (app_evn b c1)
  | Fault e => Fault e
  end.
Proof.
  revert f f'' c. induction f' as [|f' IH]; intros f f'' c Hf Hf' Hf'' Hr; [lia|].
  destruct f as [|f]; [lia|].
  assert (conn_data_loop (S f) (app_evn b c) = conn_data_loop f'' (app_evn b c)) as Hsame.
  { apply loop_fuel; simpl; rewrite length_app; lia. }
  cbn [conn_data_loop]. destruct (read_packet (evn c)) as [p|] eqn:Hp.
  2:{ cbn [Z.ltb Z.compare]. rewrite Hr. simpl negb. cbv iota. exact Hsame. }
  destruct (read_packet_app _ b _ Hp) as (p' & Hp' & Hl & Hv & _ & _ & Hpl & Heq).
  change (evn (app_evn b c)) with (evn c ++ b). rewrite Hp'.
  rewrite (evn_malformed_app p p') by done.
  destruct (evn_malformed p) eqn:Hm; [done|].
  destruct (Z.ltb_spec (evn_read c) (pk_len p)) as [Hsh|Hsh].
  { cbn [Z.ltb Z.compare]. rewrite Hr. simpl negb. cbv iota. rewrite <- Hsame.
    cbn [conn_data_loop]. change (evn (app_evn b c)) with (evn c ++ b). rewrite Hp'.
    by rewrite (evn_malformed_app p p'), Hm by done. }
  pose proof (not_malformed _ Hm) as (Hlen & Hpos & _). unfold evn_read in Hsh.
  rewrite (Heq ltac:(lia)).
  destruct (Z.ltb_spec (evn_read (app_evn b c)) (pk_len p)) as [Hsh'|_].
  { unfold evn_read in Hsh'. simpl in Hsh'. rewrite length_app in Hsh'. lia. }
  rewrite conn_event_app. pose proof (conn_event_evn c p) as He.
  pose proof (conn_event_ret c p) as Hret.
  destruct (gamin_data_conn_event c p) as [c1 ret]; cbn [fst snd] in *.
  destruct (Z.ltb_spec ret 0); [lia|].
  change (evn_ready (app_evn b c1)) with (evn_ready c1).
  destruct (Z.eqb_spec (evn_ready c1) 0) as [Hz|Hz]; cbn [negb].
  2:{ cbn [Z.ltb Z.compare]. rewrite (proj2 (Z.eqb_neq _ _) Hz). done. }
  apply read_packet_Some in Hp as (Hlong & _).
  change (evn (app_evn b c1)) with (evn c1 ++ b).
  rewrite drop_app_le by (rewrite He; lia).
  set (rest := drop (Z.to_nat (pk_len p)) (evn c1)).
  assert (length rest = length (evn c) - Z.to_nat (pk_len p))%nat as Hrl
    by (unfold rest; by rewrite length_drop, He).
  destruct (Z.eqb_spec (Z.of_nat (length rest)) 0) as [Hrest|Hrest].
  - assert (rest = []) as -> by (apply nil_length_inv; lia). simpl app. cbn [Z.ltb Z.compare].
    change (evn_ready (set_evn [] c1)) with (evn_ready c1). rewrite Hz. cbn [Z.eqb negb].
    change (app_evn b (set_evn [] c1)) with (set_evn b c1).
    destruct (Z.eqb_spec (Z.of_nat (length b)) 0) as [Hb|Hb].
    + assert (b = []) as -> by (apply nil_length_inv; lia).
      destruct f''; [lia|]. simpl. done.
    + apply loop_fuel; simpl; lia.
  - destruct (Z.eqb_spec (Z.of_nat (length (rest ++ b))) 0) as [Hb|_].
    { rewrite length_app in Hb. lia. }
    change (set_evn (rest ++ b) (app_evn b c1)) with (app_evn b (set_evn rest c1)).
    apply IH; simpl; fold rest; rewrite ?Hrl, ?He; lia.
Qed.

#[local] Arguments conn_data_loop : simpl never.

(** The event stream does not depend on how the socket data is cut.
    Storing [a ++ b] at once has the same effect as storing [a], and then, if
    the first call succeeded without an event becoming ready, storing [b]; when
    an event became ready (or the stream was found malformed) the outcome is
    that of [a] alone, with [b] left in the buffer behind it. *)
Theorem conn_data_framing (c : GAMData) (a b : list byte) :
  evn_ready c = 0 ->
  evn_read c + Z.of_nat (length a + length b) <= sizeof_GAMPacket ->
  gamin_data_conn_data c (a ++ b) =
  match gamin_data_conn_data c a with
  | Ok (c1, r) =>
      if r <? 0 then Ok (app_evn b c1, r)
      else if negb (evn_ready c1 =? 0) then Ok (app_evn b c1, 0)
      else gamin_data_conn_data c1 b
  | Fault f => Fault f
  end.
Proof.
  intros Hr Hsz. unfold gamin_data_conn_data at 1 2. unfold evn_read in Hsz.
  destruct (Z.gtb_spec (Z.of_nat (length (a ++ b)) + evn_read c) sizeof_GAMPacket) as [H|H];
    [unfold evn_read in H; rewrite length_app in H; lia|].
  destruct (Z.gtb_spec (Z.of_nat (length a) + evn_read c) sizeof_GAMPacket) as [H'|_];
    [unfold evn_read in H'; lia|].
  set (ca := set_evn (evn c ++ a) c).
  replace (set_evn (evn c ++ a ++ b) c) with (app_evn b ca)
    by (unfold app_evn, ca, set_evn; simpl; by rewrite app_assoc).
  assert (evn_ready ca = 0) as Hra by done.
  destruct (loop_total (conn_data_fuel ca) ca) as (c1 & r & E & _ & Hl);
    [unfold conn_data_fuel; lia|].
  rewrite (loop_app _ (conn_data_fuel ca) (conn_data_fuel (app_evn b c1) + length b + length (evn ca))%nat);
    unfold conn_data_fuel; simpl; rewrite ?length_app; try lia.
  simpl in Hl. rewrite length_app in Hl.
  match goal with |- context [conn_data_loop ?f ca] =>
    rewrite (loop_fuel f (conn_data_fuel ca) ca) by
      (unfold conn_data_fuel; simpl; rewrite ?length_app; lia) end.
  rewrite E.
  destruct (r <? 0); [done|]. destruct (negb _); [done|].
  unfold gamin_data_conn_data.
  destruct (Z.gtb_spec (Z.of_nat (length b) + evn_read c1) sizeof_GAMPacket) as [H''|_];
    [unfold evn_read in H''; lia|].
  apply loop_fuel; unfold conn_data_fuel; simpl; rewrite ?length_app; lia.
Qed.

(** A confirmed request 7, connected, nothing buffered. *)
Definition demo_conn : GAMData :=
  mk_data 8 1 0 0 0 [] 0 0 10 true [mk_req 7 REQ_CONFIRMED GAM_REQ_DIR (Some "/tmp"%string) 42].

Definition demo_event : list byte :=
  packet_bytes (make_packet 7 FAMCreated (bytes_of_path "new.txt")).

Lemma conn_data_framing_witness :
  evn_ready demo_conn = 0 /\
  gamin_data_conn_data demo_conn (take 4 demo_event ++ drop 4 demo_event)
  = gamin_data_conn_data (set_evn (take 4 demo_event) demo_conn) (drop 4 demo_event).
Proof.
  split; [reflexivity|].
  rewrite (conn_data_framing demo_conn (take 4 demo_event) (drop 4 demo_event)).
  - vm_compute. reflexivity.
  - reflexivity.
  - vm_compute. discriminate.
Defined.

(** C34: the receive buffer is never overrun and parsing always terminates:
    whatever the server sends, [gamin_data_conn_data] returns (0 or -1), and
    the number of buffered bytes stays within [sizeof(GAMPacket)]; data that
    would not fit is refused without being stored. *)
Theorem conn_data_bounded (c : GAMData) (data : list byte) :
  evn_read c <= sizeof_GAMPacket ->
  exists c' r, gamin_data_conn_data c data = Ok (c', r) /\ (r = 0 \/ r = -1) /\
    evn_read c' <= sizeof_GAMPacket /\
    (evn_read c + Z.of_nat (length data) > sizeof_GAMPacket -> c' = c /\ r = -1).
Proof.
  intros Hc. unfold gamin_data_conn_data, evn_read in *.
  destruct (Z.gtb_spec (Z.of_nat (length data) + Z.of_nat (length (evn c))) sizeof_GAMPacket).
  { exists c, (-1). auto. }
  destruct (loop_total (conn_data_fuel (set_evn (evn c ++ data) c)) (set_evn (evn c ++ data) c))
    as (c' & r & E & Hr & Hl); [unfold conn_data_fuel; lia|].
  exists c', r. simpl in Hl. rewrite length_app in Hl.
  split; [done|]. split; [done|]. split; lia.
Qed.

Lemma conn_data_bounded_witness :
  evn_read demo_conn <= sizeof_GAMPacket /\
  exists c' r, gamin_data_conn_data demo_conn demo_event = Ok (c', r) /\ (r = 0 \/ r = -1).
Proof.
  assert (evn_read demo_conn <= sizeof_GAMPacket) as H by (vm_compute; discriminate).
  split; [exact H|].
  destruct (conn_data_bounded demo_conn demo_event H) as (c' & r & E & Hr & _). eauto.
Defined.

(** ** Delivery *)

(** The request is live: its events are not dropped. *)
Definition live_req (c : GAMData) (seq : Z) (r : GAMReqData) : Prop :=
  gamin_data_get_req c seq = Some r /\
  (rq_state r = REQ_INIT \/ rq_state r = REQ_CONFIRMED).

Lemma make_packet_fields seq type l :
  (Z.of_nat (length l) <= MAXPATHLEN) -> 0 <= seq < 65536 -> 0 <= type < 65536 ->
  make_packet seq type l
  = mk_packet (10 + Z.of_nat (length l)) 1 seq type (Z.of_nat (length l)) l.
Proof.
  unfold MAXPATHLEN. intros. unfold make_packet, GAM_PACKET_HEADER_LEN, GAM_PROTO_VERSION.
  by rewrite !u16_small by lia.
Qed.

Lemma drop_packet_bytes seq type l rest :
  Z.of_nat (length l) <= MAXPATHLEN -> 0 <= seq < 65536 -> 0 <= type < 65536 ->
  drop (Z.to_nat (10 + Z.of_nat (length l))) (packet_bytes (make_packet seq type l) ++ rest) = rest.
Proof.
  intros Hl Hs Ht. apply drop_app_length'. rewrite length_packet_bytes.
  rewrite make_packet_fields by done. simpl. lia.
Qed.

Lemma conn_event_accepts c p r :
  restarted c = 0 -> live_req c (pk_seq p) r ->
  exists c', gamin_data_conn_event c p
    = (set_accepted (pk_seq p) (rq_userData r) c', 1) /\ evn c' = evn c.
Proof.
  intros Hres [Hreq Hst]. unfold gamin_data_conn_event. rewrite Hreq.
  assert (forall st, restarted (set_req_state (pk_seq p) st c) = 0) as Hres'.
  { intros st. unfold set_req_state. destruct (gamin_data_get_req_idx c _) as [i|]; [|done].
    by destruct (i <? 0). }
  destruct Hst as [-> | ->]; unfold restart_filter; rewrite ?Hres', ?Hres; simpl; [|eauto].
  eexists. split; [reflexivity|]. apply set_req_state_evn.
Qed.

(** The data that completes the first packet of the buffer, for a live request. *)
Lemma receive_packet c data seq type l rest r :
  evn c ++ data = packet_bytes (make_packet seq type l) ++ rest ->
  evn_ready c = 0 -> restarted c = 0 -> live_req c seq r ->
  0 <= seq < 65536 -> 0 <= type < 65536 -> 1 <= Z.of_nat (length l) <= MAXPATHLEN ->
  10 + Z.of_nat (length l) + Z.of_nat (length rest) <= sizeof_GAMPacket ->
  exists c', gamin_data_conn_data c data = Ok (set_accepted seq (rq_userData r) c', 0) /\
    evn c' = packet_bytes (make_packet seq type l) ++ rest.
Proof.
  intros Hevn Hready Hres Hlive Hseq Htype Hl Hsz.
  assert (length (evn c) + length data = 10 + length l + length rest)%nat as Hlen
    by (rewrite <- length_app, Hevn, length_app, length_packet_bytes; done).
  unfold gamin_data_conn_data, evn_read, conn_data_fuel.
  destruct (Z.gtb_spec (Z.of_nat (length data) + Z.of_nat (length (evn c))) sizeof_GAMPacket); [lia|].
  rewrite Hevn. set (p := make_packet seq type l).
  set (c0 := set_evn (packet_bytes p ++ rest) c).
  destruct (conn_event_accepts c0 p r) as (c' & Hce & He); [done| |].
  { unfold p. rewrite make_packet_fields by lia. exact Hlive. }
  exists c'. rewrite conn_data_loop_S.
  assert (read_packet (evn c0) = Some p) as ->.
  { apply read_packet_app_bytes. unfold MAXPATHLEN in *. lia. }
  assert (evn_malformed p = false) as ->.
  { unfold p. rewrite make_packet_fields by lia. unfold evn_malformed, sizeof_GAMPacket in *. simpl.
    unfold GAM_PACKET_HEADER_LEN in *.
    rewrite !orb_false_iff, !negb_false_iff, Z.leb_gt, !Z.gtb_ltb, !Z.ltb_ge, !Z.eqb_eq. lia. }
  assert (evn_read c0 <? pk_len p = false) as ->.
  { apply Z.ltb_ge. unfold evn_read.
    change (evn c0) with (packet_bytes p ++ rest).
    rewrite length_app, length_packet_bytes. unfold p.
    rewrite make_packet_fields by lia. simpl. lia. }
  rewrite Hce. unfold p. rewrite make_packet_fields by lia. split; [done|]. rewrite He. unfold c0, p.
  by rewrite make_packet_fields by lia.
Qed.

(** Data that leaves the first packet of the buffer incomplete. *)
Lemma receive_part c data seq type l k :
  evn c ++ data = take k (packet_bytes (make_packet seq type l)) -> (k < 10 + length l)%nat ->
  0 <= seq < 65536 -> 0 <= type < 65536 -> 1 <= Z.of_nat (length l) <= MAXPATHLEN ->
  gamin_data_conn_data c data = Ok (set_evn (evn c ++ data) c, 0).
Proof.
  intros Hevn Hk Hseq Htype Hl. set (p := make_packet seq type l) in *.
  assert (length (evn c ++ data) = k) as Hlen
    by (rewrite Hevn, length_take, length_packet_bytes; unfold p; rewrite make_packet_fields by lia;
        simpl; lia).
  unfold gamin_data_conn_data, evn_read. rewrite length_app in Hlen.
  destruct (Z.gtb_spec (Z.of_nat (length data) + Z.of_nat (length (evn c))) sizeof_GAMPacket) as [Hbig|_];
    [unfold sizeof_GAMPacket, MAXPATHLEN, GAM_PACKET_HEADER_LEN in *; lia|].
  unfold conn_data_fuel. rewrite conn_data_loop_S.
  change (evn (set_evn (evn c ++ data) c)) with (evn c ++ data).
  destruct (read_packet (evn c ++ data)) as [p'|] eqn:Hp; [|done].
  assert (read_packet (packet_bytes p) = Some p) as Hw.
  { rewrite <- (app_nil_r (packet_bytes p)). apply read_packet_app_bytes. unfold MAXPATHLEN in *. lia. }
  destruct (read_packet_app _ (drop k (packet_bytes p)) _ Hp) as (p2 & Hp2 & E1 & E2 & _ & _ & E3 & _).
  rewrite Hevn, take_drop, Hw in Hp2. injection Hp2 as <-.
  unfold p in E1, E2, E3. rewrite make_packet_fields in E1, E2, E3 by lia. simpl in E1, E2, E3.
  assert (evn_malformed p' = false) as ->.
  { unfold evn_malformed, sizeof_GAMPacket, GAM_PACKET_HEADER_LEN, GAM_PROTO_VERSION.
    rewrite !orb_false_iff, !negb_false_iff, Z.leb_gt, !Z.gtb_ltb, !Z.ltb_ge, !Z.eqb_eq. lia. }
  assert (evn_read (set_evn (evn c ++ data) c) <? pk_len p' = true) as ->; [|done].
  apply Z.ltb_lt. unfold evn_read. simpl. rewrite length_app. lia.
Qed.

(** Reading out the event at the start of the buffer. *)
Lemma read_accepted c seq code (path : string) rest ud :
  evn c = packet_bytes (make_packet seq code (bytes_of_path path)) ++ rest ->
  0 <= seq < 65536 -> 0 <= code < 65536 ->
  no_nul (bytes_of_path path) -> 1 <= strlen path < MAXPATHLEN ->
  exists c2, gamin_data_read_event (set_accepted seq ud c) = Ok (c2, Some (mk_event seq path ud code)) /\
    evn c2 = rest /\ evn_ready c2 = 0.
Proof.
  intros He Hseq Hcode Hnul Hlen. pose proof (length_bytes_of_path path) as Hb. unfold strlen in *.
  pose proof (drop_packet_bytes seq code (bytes_of_path path) rest
    ltac:(unfold MAXPATHLEN in *; lia) Hseq Hcode) as Hdrop.
  unfold gamin_data_read_event. simpl. rewrite He.
  rewrite read_packet_app_bytes by (unfold MAXPATHLEN in *; lia).
  rewrite make_packet_fields in Hdrop |- * by lia. simpl.
  destruct (Z.geb_spec (Z.of_nat (length (bytes_of_path path))) PATH_MAX) as [H|H];
    [unfold PATH_MAX, MAXPATHLEN in *; lia|].
  rewrite c_string_no_nul, path_of_bytes_of_path by done. simpl.
  eexists. split; [reflexivity|]. simpl. split; [exact Hdrop|].
  destruct (code =? FAMAcknowledge); [|done].
  unfold gamin_data_del_req. destruct (gamin_data_get_req_idx _ _) as [i|]; [|done].
  by destruct (i <? 0).
Qed.

(** A path of exactly [MAXPATHLEN] bytes passes every check of
    [gamin_data_conn_data], but then the terminating NUL of
    [gamin_data_read_event] is written one byte past [filename[PATH_MAX]]. *)
Theorem longest_path_overruns_event (c : GAMData) seq code (l : list byte) r :
  evn c = [] -> evn_ready c = 0 -> restarted c = 0 -> live_req c seq r ->
  0 <= seq < 65536 -> 0 <= code < 65536 -> Z.of_nat (length l) = MAXPATHLEN ->
  exists c1, gamin_data_conn_data c (packet_bytes (make_packet seq code l)) = Ok (c1, 0) /\
    evn_ready c1 = 1 /\ gamin_data_read_event c1 = Fault OutOfBounds.
Proof.
  intros Hevn Hready Hres Hlive Hseq Hcode Hlen.
  destruct (receive_packet c (packet_bytes (make_packet seq code l)) seq code l [] r) as (c' & E & He);
    try done; [by rewrite Hevn, app_nil_r|unfold MAXPATHLEN in *; lia|unfold sizeof_GAMPacket, MAXPATHLEN, GAM_PACKET_HEADER_LEN in *;
      simpl; lia|].
  eexists. split; [exact E|]. split; [done|].
  unfold gamin_data_read_event. simpl. rewrite He.
  rewrite read_packet_app_bytes by (unfold MAXPATHLEN in *; lia).
  rewrite make_packet_fields by lia. simpl. by rewrite Hlen.
Qed.

Lemma longest_path_overruns_event_witness :
  exists c1, gamin_data_conn_data demo_conn
    (packet_bytes (make_packet 7 FAMCreated (replicate 4096 x61))) = Ok (c1, 0) /\
    gamin_data_read_event c1 = Fault OutOfBounds.
Proof.
  destruct (longest_path_overruns_event demo_conn 7 FAMCreated (replicate 4096 x61)
    (mk_req 7 REQ_CONFIRMED GAM_REQ_DIR (Some "/tmp"%string) 42)) as (c1 & H1 & _ & H2);
    try reflexivity; try (split; vm_compute; congruence);
    [split; [vm_compute; reflexivity|right; reflexivity]|].
  exists c1. split; [exact H1|exact H2].
Defined.
