(* ===== verification/Monad.v ===== *)
(** * State and faults

    Stateful C code is a function from the state to a result and the new state,
    or a fault ([Prelude.res]).  The monad is generic in the state; the file
    also has the small program logic in which the components' invariants are
    proved: [hoare P m Q] says that from every state satisfying [P] the code
    [m] completes without a fault and establishes [Q], and [wp] is its weakest
    precondition, by which code is executed symbolically. *)

From S2P Require Import Prelude.

Definition ST (S A : Type) : Type := S -> res (A * S).

#[export] Instance ST_ret {S} : MRet (ST S) := fun A a s => Ok (a, s).
#[export] Instance ST_bind {S} : MBind (ST S) := fun A B f m s =>
  match m s with
  | Ok (a, s') => f a s'
  | Fault e => Fault e
  end.

Section Operations.
Context {S : Type}.

Definition get : ST S S := fun s => Ok (s, s).
Definition gets {A} (f : S -> A) : ST S A := fun s => Ok (f s, s).
Definition put (s' : S) : ST S unit := fun _ => Ok (tt, s').
Definition modify (f : S -> S) : ST S unit := fun s => Ok (tt, f s).
Definition fail {A} (e : fault) : ST S A := fun _ => Fault e.
(** [g_assert] *)
Definition g_assert (b : bool) : ST S unit := if b then mret tt else fail AssertFailed.
(** Following a pointer. *)
Definition deref {A} (o : option A) : ST S A :=
  match o with Some a => mret a | None => fail NullDeref end.
(** [g_assert(p)] on a pointer. *)
Definition g_assert_ptr {A} (o : option A) : ST S A :=
  match o with Some a => mret a | None => fail AssertFailed end.
Definition when (b : bool) (m : ST S unit) : ST S unit := if b then m else mret tt.

(** [for (l = list; l; l = l->next) body(l->data)] *)
Fixpoint for_each {A} (l : list A) (body : A -> ST S unit) : ST S unit :=
  match l with
  | [] => mret tt
  | x :: l' => body x ≫= fun _ => for_each l' body
  end.
End Operations.

(** ** Program logic *)

(** [wp m Q s]: from [s], the code [m] completes without a fault and its result
    and final state satisfy [Q]. *)
Definition wp {S A} (m : ST S A) (Q : A -> S -> Prop) (s : S) : Prop :=
  match m s with Ok (a, s') => Q a s' | Fault _ => False end.

Definition hoare {S A} (P : S -> Prop) (m : ST S A) (Q : A -> S -> Prop) : Prop :=
  forall s, P s -> wp m Q s.

Section Rules.
Context {S : Type}.
Implicit Types P : S -> Prop.

Lemma wp_ret {A} (a : A) (Q : A -> S -> Prop) s : Q a s -> wp (mret a) Q s.
Proof. done. Qed.

Lemma wp_bind {A B} (m : ST S A) (f : A -> ST S B) Q s :
  wp m (fun a => wp (f a) Q) s -> wp (m ≫= f) Q s.
Proof. unfold wp, mbind, ST_bind. by destruct (m s) as [[a s']|]. Qed.

Lemma wp_mono {A} (m : ST S A) (Q Q' : A -> S -> Prop) s :
  wp m Q s -> (forall a s', Q a s' -> Q' a s') -> wp m Q' s.
Proof. unfold wp. destruct (m s) as [[a s']|]; auto. Qed.

Lemma wp_and {A} (m : ST S A) (Q Q' : A -> S -> Prop) s :
  wp m Q s -> wp m Q' s -> wp m (fun a s' => Q a s' /\ Q' a s') s.
Proof. unfold wp. by destruct (m s) as [[a s']|]. Qed.

Lemma wp_get (Q : S -> S -> Prop) s : Q s s -> wp get Q s.
Proof. done. Qed.
Lemma wp_gets {A} (f : S -> A) (Q : A -> S -> Prop) s : Q (f s) s -> wp (gets f) Q s.
Proof. done. Qed.
Lemma wp_modify f (Q : unit -> S -> Prop) s : Q tt (f s) -> wp (modify f) Q s.
Proof. done. Qed.
Lemma wp_assert b (Q : unit -> S -> Prop) s : b = true -> Q tt s -> wp (g_assert b) Q s.
Proof. by intros ->. Qed.
Lemma wp_deref {A} (o : option A) a (Q : A -> S -> Prop) s :
  o = Some a -> Q a s -> wp (deref o) Q s.
Proof. by intros ->. Qed.
Lemma wp_assert_ptr {A} (o : option A) a (Q : A -> S -> Prop) s :
  o = Some a -> Q a s -> wp (g_assert_ptr o) Q s.
Proof. by intros ->. Qed.
Lemma wp_when b m (Q : unit -> S -> Prop) s :
  (b = true -> wp m Q s) -> (b = false -> Q tt s) -> wp (when b m) Q s.
Proof. intros H1 H2. destruct b; [by apply H1|by apply H2]. Qed.

Lemma wp_Ok {A} (m : ST S A) (Q : A -> S -> Prop) s :
  wp m Q s -> exists a s', m s = Ok (a, s') /\ Q a s'.
Proof. unfold wp. destruct (m s) as [[a s']|]; [eauto|done]. Qed.

Lemma wp_hoare {A} P (m : ST S A) (Q Q' : A -> S -> Prop) s :
  hoare P m Q -> P s -> (forall a s', Q a s' -> Q' a s') -> wp m Q' s.
Proof. intros H Hs HQ. eapply wp_mono; [by apply H|done]. Qed.

(** Loop rule: an invariant over the remaining list. *)
Lemma wp_for_each {A} (I : list A -> S -> Prop) (l : list A) body s :
  (forall x l' s, I (x :: l') s -> wp (body x) (fun _ => I l') s) ->
  I l s -> wp (for_each l body) (fun _ => I []) s.
Proof.
  intros Hb. revert s. induction l as [|x l IH]; intros s Hs; simpl; [done|].
  apply wp_bind. eapply wp_mono; [by apply Hb|]. intros [] s' Hs'. by apply IH.
Qed.

Lemma wp_for_each_app {A} (l1 l2 : list A) body (Q : unit -> S -> Prop) s :
  wp (for_each l1 body) (fun _ s' => wp (for_each l2 body) Q s') s -> wp (for_each (l1 ++ l2) body) Q s.
Proof.
  revert s. induction l1 as [|x l1 IH]; intros s Hs; simpl; [done|].
  apply wp_bind. unfold for_each in Hs at 1. fold (for_each (S := S) (A := A)) in Hs.
  unfold wp, mbind, ST_bind in Hs |- *. destruct (body x s) as [[[] s']|]; [|done]. by apply IH.
Qed.

Lemma bind_Ok {A B} (m : ST S A) (f : A -> ST S B) s a s' :
  m s = Ok (a, s') -> (m ≫= f) s = f a s'.
Proof. unfold mbind, ST_bind. by intros ->. Qed.

Lemma bind_inv {A B} (m : ST S A) (f : A -> ST S B) s r :
  (m ≫= f) s = Ok r -> exists a s', m s = Ok (a, s') /\ f a s' = Ok r.
Proof.
  unfold mbind, ST_bind. destruct (m s) as [[a s']|]; [|done]. eauto.
Qed.
End Rules.

(** One step of symbolic execution. *)
Ltac wp_step :=
  first
    [ apply wp_ret
    | apply wp_bind
    | apply wp_get
    | apply wp_gets
    | apply wp_modify
    | eapply wp_deref; [eassumption || reflexivity|]
    | apply wp_assert; [reflexivity || assumption|] ].

(** ** Frames

    [preserves R m]: whenever [m] completes, its initial and final states are
    related by [R]. *)

Definition preserves {S A} (R : S -> S -> Prop) (m : ST S A) : Prop :=
  forall s, match m s with Ok (_, s') => R s s' | Fault _ => True end.

Create HintDb preserve.

Section Preserves.
Context {S : Type} (R : S -> S -> Prop) `{!PreOrder R}.

Lemma preserves_ret {A} (a : A) : preserves R (mret a).
Proof. intros s. simpl. reflexivity. Qed.
Lemma preserves_bind {A B} (m : ST S A) (f : A -> ST S B) :
  preserves R m -> (forall a, preserves R (f a)) -> preserves R (m ≫= f).
Proof.
  intros Hm Hf s. specialize (Hm s). unfold mbind, ST_bind.
  destruct (m s) as [[a s']|]; [|done]. specialize (Hf a s').
  destruct (f a s') as [[b s'']|]; [|done]. by transitivity s'.
Qed.
Lemma preserves_get : preserves R get.
Proof. intros s. simpl. reflexivity. Qed.
Lemma preserves_gets {A} (f : S -> A) : preserves R (gets f).
Proof. intros s. simpl. reflexivity. Qed.
Lemma preserves_modify f : (forall s, R s (f s)) -> preserves R (modify f).
Proof. intros H s. apply H. Qed.
Lemma preserves_fail {A} e : preserves R (fail (A := A) e).
Proof. done. Qed.
Lemma preserves_assert b : preserves R (g_assert b).
Proof. destruct b; [apply preserves_ret|done]. Qed.
Lemma preserves_assert_ptr {A} (o : option A) : preserves R (g_assert_ptr o).
Proof. destruct o; [apply preserves_ret|done]. Qed.
Lemma preserves_deref {A} (o : option A) : preserves R (deref o).
Proof. destruct o; [apply preserves_ret|done]. Qed.
Lemma preserves_when b m : preserves R m -> preserves R (when b m).
Proof. destruct b; [done|]. intros _. apply preserves_ret. Qed.
Lemma preserves_for_each {A} (l : list A) body :
  (forall x, preserves R (body x)) -> preserves R (for_each l body).
Proof.
  intros Hb. induction l as [|x l IH]; simpl; [apply preserves_ret|].
  apply preserves_bind; [apply Hb|]. done.
Qed.
Lemma wp_preserves {A} (m : ST S A) (Q : A -> S -> Prop) s :
  preserves R m -> wp m Q s -> wp m (fun a s' => Q a s' /\ R s s') s.
Proof. unfold wp. intros H Hm. specialize (H s). by destruct (m s) as [[a s']|]. Qed.
Lemma preserves_Ok {A} (m : ST S A) s a s' : preserves R m -> m s = Ok (a, s') -> R s s'.
Proof. intros H E. specialize (H s). by rewrite E in H. Qed.
End Preserves.

(** Proves [preserves] by the structure of the code; calls are looked up in the
    [preserve] database. *)
Ltac preserve :=
  repeat first
    [ progress intros
    | solve [eauto with preserve nocore]
    | eapply preserves_gets; exact _
    | eapply preserves_get; exact _
    | eapply preserves_ret; exact _
    | eapply preserves_assert; exact _
    | eapply preserves_assert_ptr; exact _
    | eapply preserves_deref; exact _
    | apply preserves_fail
    | eapply preserves_bind; [exact _|..]
    | eapply preserves_when; [exact _|]
    | eapply preserves_for_each; [exact _|]
    | match goal with
      | |- preserves _ (match ?x with _ => _ end) => destruct x
      | |- preserves _ (if ?x then _ else _) => destruct x
      | |- preserves _ (let '_ := ?x in _) => destruct x
      end ].

(** ** Independence

    [commutes u m]: [m] does the same whether or not the change [u] has been
    made to the state, and does not undo it: it neither reads nor writes what
    [u] changes. *)

Definition commutes {S A} (u : S -> S) (m : ST S A) : Prop :=
  forall s, m (u s) = match m s with Ok (a, s') => Ok (a, u s') | Fault e => Fault e end.

Create HintDb commute.

Section Commutes.
Context {S : Type} (u : S -> S).

Lemma commutes_ret {A} (a : A) : commutes u (mret a).
Proof. done. Qed.
Lemma commutes_bind {A B} (m : ST S A) (f : A -> ST S B) :
  commutes u m -> (forall a, commutes u (f a)) -> commutes u (m ≫= f).
Proof.
  intros Hm Hf s. unfold mbind, ST_bind. rewrite (Hm s).
  destruct (m s) as [[a s']|]; [|done]. apply Hf.
Qed.
Lemma commutes_gets {A} (f : S -> A) : (forall s, f (u s) = f s) -> commutes u (gets f).
Proof. intros H s. unfold gets. by rewrite H. Qed.
Lemma commutes_modify g : (forall s, g (u s) = u (g s)) -> commutes u (modify g).
Proof. intros H s. unfold modify. by rewrite H. Qed.
Lemma commutes_fail {A} e : commutes u (fail (A := A) e).
Proof. done. Qed.
Lemma commutes_assert b : commutes u (g_assert b).
Proof. by destruct b. Qed.
Lemma commutes_assert_ptr {A} (o : option A) : commutes u (g_assert_ptr o).
Proof. by destruct o. Qed.
Lemma commutes_deref {A} (o : option A) : commutes u (deref o).
Proof. by destruct o. Qed.
Lemma commutes_when b m : commutes u m -> commutes u (when b m).
Proof. by destruct b. Qed.
End Commutes.

(** Proves [commutes] by the structure of the code; calls are looked up in the
    [commute] database. *)
Ltac commute :=
  repeat first
    [ progress intros
    | solve [eauto with commute nocore]
    | apply commutes_ret
    | apply commutes_gets; intros; reflexivity
    | apply commutes_modify; intros; reflexivity
    | apply commutes_assert
    | apply commutes_assert_ptr
    | apply commutes_deref
    | apply commutes_fail
    | apply commutes_bind
    | apply commutes_when
    | match goal with
      | |- commutes _ (match ?x with _ => _ end) => destruct x
      | |- commutes _ (if ?x then _ else _) => destruct x
      | |- commutes _ (let '_ := ?x in _) => destruct x
      end ].
