(* ===== verification/OS.v ===== *)
(** * The operating system and GLib, as the interface the program relies on

    System calls and the GLib path and pattern functions are not part of the
    program.  They are the operations of two classes.  [OS] is world-passing:
    each call may change the world, so that nothing is assumed about two calls
    agreeing (files come and go between a [stat] and the next).  [OSLaws] and
    [GLibLaws] state the documented behaviour some theorems rely on.  The
    instances at the end are a small file system and glob-free patterns, on
    which the witnesses run. *)

From S2P Require Import Prelude.

Local Open Scope Z_scope.

(** The fields of [struct stat] the program reads; [st_mtime] and [st_ctime]
    with their nanoseconds. *)
Record stat_t := mk_stat {
  st_dir : bool;     (** [S_ISDIR(st_mode)] *)
  st_mtime : Z;
  st_mtime_nsec : Z;
  st_size : Z;
  st_ctime : Z;
  st_ctime_nsec : Z
}.

#[export] Instance stat_t_eq_dec : EqDecision stat_t.
Proof. solve_decision. Defined.

(** [memset(&sbuf, 0, sizeof(struct stat))] *)
Definition stat_zero : stat_t := mk_stat false 0 0 0 0 0.

Definition ENOENT : Z := 2.
Definition EINTR : Z := 4.

Inductive sysres (A : Type) :=
  | SysOk (a : A)
  | SysErr (errno : Z).
Arguments SysOk {A} _.
Arguments SysErr {A} _.

Class OS := {
  world : Type;
  (** [stat] *)
  sys_stat : string -> world -> sysres stat_t * world;
  (** [g_file_test] with [EXISTS], and with [IS_DIR] *)
  file_exists : string -> world -> bool * world;
  file_is_dir : string -> world -> bool * world;
  (** [g_dir_open] and all [g_dir_read_name] results *)
  dir_names : string -> world -> option (list string) * world;
  (** [time(NULL)] *)
  sys_time : world -> Z * world;
  (** [g_file_get_contents] *)
  file_contents : string -> world -> option string * world;
  (** [write(fd, buf, n)]: how many bytes were taken *)
  sys_write : Z -> list byte -> world -> sysres Z * world;
  (** a bound on the calls of [write] that a signal will still interrupt *)
  interrupts : world -> nat;
  (** what a [struct stat] that was never written holds in [st_mtime] *)
  stack_garbage : world -> Z;
  (** [/proc/<pid>/cmdline], as [gam_get_pidname] reads it *)
  proc_name : Z -> world -> string * world
}.

Class GLib := {
  (** [g_pattern_match(g_pattern_spec_new(p), s)] *)
  pattern_match : string -> string -> bool;
  (** [g_strsplit(s, c, 0)] for a one-character delimiter *)
  g_strsplit : string -> string -> list string;
  (** [g_build_filename(dir, name, NULL)] *)
  g_build_filename : string -> string -> string;
  g_path_get_dirname : string -> string;
  g_get_home_dir : string
}.

(** [write] as POSIX describes it for a connected socket: it takes some bytes,
    at least one and at most all of those it is given, or fails and takes none;
    it does not fail with [EINTR] for ever. *)
Class OSLaws (os : OS) := {
  written : Z -> world -> list byte;
  write_ok fd l w n w' :
    l <> [] -> sys_write fd l w = (SysOk n, w') ->
    0 < n <= Z.of_nat (length l) /\
    written fd w' = written fd w ++ take (Z.to_nat n) l /\
    (forall fd', fd' <> fd -> written fd' w' = written fd' w) /\
    (interrupts w' <= interrupts w)%nat;
  write_err fd l w e w' :
    sys_write fd l w = (SysErr e, w') ->
    (forall fd', written fd' w' = written fd' w) /\
    (e = EINTR -> (interrupts w' < interrupts w)%nat)
}.

(** The loop with which both ends of a connection write, on the world alone:
    whether all was written. *)
Fixpoint write_loop {os : OS} (fuel : nat) (fd : Z) (data : list byte) (w : world)
  : res (bool * world) :=
  match fuel with
  | O => Fault OutOfFuel
  | S fuel =>
      match sys_write fd data w with
      | (SysErr e, w') =>
          if e =? EINTR then
            if bool_decide (data = []) then Ok (true, w') else write_loop fuel fd data w'
          else Ok (false, w')
      | (SysOk n, w') =>
          let data := drop (Z.to_nat n) data in
          if bool_decide (data = []) then Ok (true, w') else write_loop fuel fd data w'
      end
  end.

(** On [fd] a prefix of the data came out; all of it exactly when the write
    reports success. *)
Definition wrote_bytes {os : OS} {laws : OSLaws os} (fd : Z) (data : list byte) (w : world)
  (ok : bool) (w' : world) : Prop :=
  exists k, (k <= length data)%nat /\ written fd w' = written fd w ++ take k data /\
    (forall fd', fd' <> fd -> written fd' w' = written fd' w) /\ (ok = true <-> k = length data).

Lemma write_loop_spec {os : OS} {laws : OSLaws os} fuel fd data w :
  data <> [] -> (length data + interrupts w < fuel)%nat ->
  exists ok w', write_loop fuel fd data w = Ok (ok, w') /\ wrote_bytes fd data w ok w'.
Proof.
  revert data w. induction fuel as [|fuel IH]; intros data w Hd Hf; [lia|]. simpl.
  destruct (sys_write fd data w) as [[n|e] w'] eqn:Hw.
  - destruct (write_ok _ _ _ _ _ Hd Hw) as (Hn & Ho & Ho' & Hi). case_bool_decide as Hdone.
    + exists true, w'. split; [done|]. exists (length data). split; [lia|].
      rewrite Ho, (take_ge data (length data)) by done.
      assert (length (drop (Z.to_nat n) data) = 0)%nat as Hl by by rewrite Hdone.
      rewrite length_drop in Hl. rewrite take_ge by lia. done.
    + destruct (IH (drop (Z.to_nat n) data) w') as (ok & w2 & E & k & Hk & Hw2 & Hw2' & Hok);
        [done|rewrite length_drop; lia|].
      exists ok, w2. split; [done|]. rewrite length_drop in *. exists (Z.to_nat n + k)%nat.
      split; [lia|]. split; [|split; [|rewrite Hok; lia]].
      * rewrite Hw2, Ho, <- app_assoc. f_equal. by rewrite take_take_drop.
      * intros fd' Hfd. by rewrite Hw2', Ho'.
  - destruct (write_err _ _ _ _ _ Hw) as [Ho Hi]. destruct (Z.eqb_spec e EINTR) as [->|_].
    + rewrite bool_decide_eq_false_2 by done. specialize (Hi eq_refl).
      destruct (IH data w') as (ok & w2 & E & k & Hk & Hw2 & Hw2' & Hok); [done|lia|].
      exists ok, w2. split; [done|]. exists k. split; [done|]. rewrite Hw2, Ho. split; [done|].
      split; [|done]. intros fd' Hfd. by rewrite Hw2', Ho.
    + exists false, w'. split; [done|]. exists 0%nat. split; [lia|]. rewrite take_0, app_nil_r.
      split; [done|]. split; [done|]. destruct data; [done|]. simpl. split; [done|lia].
Qed.

(** ** A concrete instance *)

(** Files and directories by path with their [stat]; children of a directory
    are listed explicitly. *)
Record sim_world := mk_sim {
  sim_files : list (string * stat_t);
  sim_dirs : list (string * list string);
  sim_texts : list (string * string);
  sim_now : Z;
  sim_written : list (Z * list byte);
  (** calls of [write] still to be interrupted; each call takes at most
      [sim_chunk] bytes (all when 0) *)
  sim_signals : nat;
  sim_chunk : nat
}.

Definition assoc {A} (k : string) (l : list (string * A)) : option A :=
  snd <$> List.find (fun '(k', _) => String.eqb k k') l.

Definition sim_os : OS := {|
  world := sim_world;
  sys_stat p w :=
    (match assoc p (sim_files w) with Some st => SysOk st | None => SysErr ENOENT end, w);
  file_exists p w := (match assoc p (sim_files w) with Some _ => true | None => false end, w);
  file_is_dir p w :=
    (match assoc p (sim_files w) with Some st => st_dir st | None => false end, w);
  dir_names p w := (assoc p (sim_dirs w), w);
  sys_time w := (sim_now w, w);
  file_contents p w := (assoc p (sim_texts w), w);
  sys_write fd l w :=
    match sim_signals w with
    | S k => (SysErr EINTR, mk_sim (sim_files w) (sim_dirs w) (sim_texts w) (sim_now w)
                (sim_written w) k (sim_chunk w))
    | O =>
        let n := match sim_chunk w with O => length l | c => Nat.min c (length l) end in
        (SysOk (Z.of_nat n),
         mk_sim (sim_files w) (sim_dirs w) (sim_texts w) (sim_now w)
           (sim_written w ++ [(fd, take n l)]) O (sim_chunk w))
    end;
  interrupts w := sim_signals w;
  stack_garbage _ := 0;
  proc_name _ w := ("client"%string, w)
|}.

Definition sim_output (fd : Z) (w : sim_world) : list byte :=
  concat (snd <$> filter (fun e => e.1 = fd) (sim_written w)).

#[export] Instance sim_os_laws : OSLaws sim_os.
Proof.
  refine {| written := sim_output : Z -> @world sim_os -> list byte |}.
  - intros fd l w n w' Hl. unfold sys_write, sim_os, sim_output.
    destruct (sim_signals w); [|done]. simpl.
    set (k := match sim_chunk w with O => length l | _ => _ end).
    assert (0 < k <= length l)%nat as Hk.
    { subst k. destruct l; [done|]. simpl. destruct (sim_chunk w); simpl; lia. }
    intros [= <- <-]. simpl. split; [lia|]. rewrite Nat2Z.id. split; [|split].
    + rewrite filter_app, fmap_app, concat_app, filter_cons_True by done. simpl.
      by rewrite app_nil_r.
    + intros fd' Hfd. rewrite filter_app, fmap_app, concat_app, filter_cons_False by naive_solver.
      simpl. by rewrite app_nil_r.
    + lia.
  - intros fd l w e w'. unfold sys_write, sim_os, sim_output.
    destruct (sim_signals w) as [|k] eqn:E; simpl; [done|].
    intros [= <- <-]. simpl. rewrite E. split; [done|]. lia.
Defined.

(** [g_strsplit] on a one-character delimiter. *)
Fixpoint split_on (c : Ascii.ascii) (acc : string) (s : string) : list string :=
  match s with
  | EmptyString => [acc]
  | String a s' =>
      if Ascii.eqb a c then acc :: split_on c EmptyString s'
      else split_on c (acc ++ String a EmptyString)%string s'
  end.

Definition sim_glib : GLib := {|
  pattern_match p s := String.prefix p s;
  g_strsplit s d :=
    match s, d with
    | EmptyString, _ => []
    | _, String c _ => split_on c EmptyString s
    | _, EmptyString => [s]
    end;
  g_build_filename d n := (d ++ "/" ++ n)%string;
  g_path_get_dirname p := p;
  g_get_home_dir := "/root"%string
|}.
