(* ===== verification/Excludes.v ===== *)
(** * Exclude patterns ([server/gam_excludes.c])

    The list of patterns read from the configuration files, each saying whether
    a matching file is polled (1) or left to the kernel notification (0).
    Pattern matching is GLib's. *)

From S2P Require Import Prelude OS.

Local Open Scope Z_scope.

Record gam_exclude := mk_exclude {
  ex_pattern : string;
  ex_exclude : Z
}.

Record excludes_state := mk_excludes {
  ex_initialized : bool;
  excludes : list gam_exclude
}.

Definition excludes_initial : excludes_state := mk_excludes false [].

(** [static_excludes] on Linux. *)
Definition static_excludes : list string := ["/media/*"; "/mnt/*"; "/dev/*"; "/proc/*"].

(** [gam_exclude_add] (the pattern always compiles; [malloc] is taken to
    succeed). *)
Definition gam_exclude_add (pattern : string) (exclude : Z) (st : excludes_state)
  : excludes_state :=
  mk_excludes (ex_initialized st) (excludes st ++ [mk_exclude pattern exclude]).

(** [gam_exclude_init]: -1 when called twice. *)
Definition gam_exclude_init (st : excludes_state) : excludes_state * Z :=
  if ex_initialized st then (st, -1)
  else
    let st := foldl (fun st p => gam_exclude_add p 1 st) st static_excludes in
    (mk_excludes true (excludes st), 0).

Section Check.
Context {glib : GLib}.

Fixpoint exclude_scan (cur : list gam_exclude) (filename : string) : Z :=
  match cur with
  | [] => 0
  | ptr :: next =>
      if pattern_match (ex_pattern ptr) filename then ex_exclude ptr
      else exclude_scan next filename
  end.

(** [gam_exclude_check_all]; [None] is a NULL file name. *)
Definition gam_exclude_check_all (st : excludes_state) (filename : option string) : Z :=
  match filename with
  | None => 0
  | Some f => match excludes st with [] => 0 | l => exclude_scan l f end
  end.

Definition gam_exclude_check (st : excludes_state) (filename : option string) : bool :=
  ztest (gam_exclude_check_all st filename).

Lemma gam_exclude_check_scan st f :
  gam_exclude_check st (Some f) = ztest (exclude_scan (excludes st) f).
Proof. unfold gam_exclude_check. simpl. by destruct (excludes st). Qed.

Lemma exclude_scan_app l1 l2 f :
  exclude_scan (l1 ++ l2) f =
  (if existsb (fun e => pattern_match (ex_pattern e) f) l1
   then exclude_scan l1 f else exclude_scan l2 f).
Proof. induction l1 as [|e l1 IH]; simpl; [done|]. destruct (pattern_match _ _); done. Qed.

(** The first matching pattern decides.  A file is excluded from kernel
    monitoring exactly when some pattern that excludes matches it and no
    earlier pattern matches. *)
Theorem exclude_check_first_match st f :
  gam_exclude_check st (Some f) = true <->
  exists l1 e l2, excludes st = l1 ++ e :: l2 /\
    pattern_match (ex_pattern e) f = true /\ ex_exclude e <> 0 /\
    Forall (fun e' => pattern_match (ex_pattern e') f = false) l1.
Proof.
  rewrite gam_exclude_check_scan, ztest_true. induction (excludes st) as [|e l IH]; simpl.
  - split; [done|]. intros (l1 & e & l2 & H & _). by destruct l1.
  - destruct (pattern_match (ex_pattern e) f) eqn:Hm.
    + split.
      * intros Hne. exists [], e, l. auto.
      * intros (l1 & e' & l2 & H & Hm' & Hne & Hl1).
        destruct l1 as [|e1 l1]; simpl in H; simplify_eq; [done|].
        inversion Hl1; congruence.
    + rewrite IH. split.
      * intros (l1 & e' & l2 & -> & ? & ? & ?). exists (e :: l1), e', l2. auto.
      * intros (l1 & e' & l2 & H & Hm' & Hne & Hl1).
        destruct l1 as [|e1 l1]; simpl in H; simplify_eq; [congruence|].
        inversion Hl1; subst. eauto 10.
Qed.
End Check.
