(* ===== verification/Fs.v ===== *)
(** * Mounted file systems and their monitoring method ([server/gam_fs.c])

    [filesystems] is the parsed [/etc/mtab], longest mount point first;
    [fs_props] says per file-system type how files on it are monitored.  Every
    entry point first calls [gam_fs_init], which re-reads [/etc/mtab] when its
    modification time changed. *)

From Stdlib Require Import Sorting.Sorted.
From S2P Require Import Prelude OS.

Local Open Scope Z_scope.

Inductive gam_fs_mon_type := GFS_MT_KERNEL | GFS_MT_POLL | GFS_MT_NONE.

#[export] Instance gam_fs_mon_type_eq_dec : EqDecision gam_fs_mon_type.
Proof. solve_decision. Defined.

(** With one of the kernel backends configured. *)
Definition GFS_MT_DEFAULT : gam_fs_mon_type := GFS_MT_KERNEL.
Definition DEFAULT_POLL_TIMEOUT : Z := 0.

Record gam_fs_properties := mk_props {
  pr_fsname : string;
  pr_mon_type : gam_fs_mon_type;
  pr_poll_timeout : Z
}.

Record gam_fs := mk_fs { fs_path : string; fs_fsname : string }.

Record fs_state := mk_fs_state {
  fs_initialized : bool;
  filesystems : list gam_fs;
  fs_props : list gam_fs_properties;
  mtab_mtime : Z
}.

Definition fs_initial : fs_state := mk_fs_state false [] [] 0.

Definition set_filesystems l st := mk_fs_state (fs_initialized st) l (fs_props st) (mtab_mtime st).
Definition set_fs_props l st := mk_fs_state (fs_initialized st) (filesystems st) l (mtab_mtime st).
Definition set_mtab_mtime t st :=
  mk_fs_state (fs_initialized st) (filesystems st) (fs_props st) t.
Definition set_fs_initialized b st :=
  mk_fs_state b (filesystems st) (fs_props st) (mtab_mtime st).

(** [gam_fs_filesystem_sort_cb] *)
Definition gam_fs_filesystem_sort_cb (a b : gam_fs) : Z := strlen (fs_path b) - strlen (fs_path a).

(** [g_list_sort] (stable). *)
Fixpoint fs_insert (x : gam_fs) (l : list gam_fs) : list gam_fs :=
  match l with
  | [] => [x]
  | y :: l' => if gam_fs_filesystem_sort_cb x y <=? 0 then x :: l else y :: fs_insert x l'
  end.
Definition fs_sort (l : list gam_fs) : list gam_fs := foldr fs_insert [] l.

(** The loop of [gam_fs_set] over the properties: update in place or [None]. *)
Fixpoint fs_props_update (fsname : string) (type : gam_fs_mon_type) (timeout : Z)
  (l : list gam_fs_properties) : option (list gam_fs_properties) :=
  match l with
  | [] => None
  | prop :: l' =>
      if String.eqb (pr_fsname prop) fsname then
        Some (mk_props (pr_fsname prop) type
                (if timeout >=? 0 then timeout else pr_poll_timeout prop) :: l')
      else (prop ::.) <$> fs_props_update fsname type timeout l'
  end.

(** The part of [gam_fs_set] after [gam_fs_init]. *)
Definition gam_fs_upsert (fsname : string) (type : gam_fs_mon_type) (timeout : Z) (st : fs_state)
  : fs_state :=
  match fs_props_update fsname type timeout (fs_props st) with
  | Some l => set_fs_props l st
  | None =>
      set_fs_props
        (mk_props fsname type (if timeout >=? 0 then timeout else DEFAULT_POLL_TIMEOUT)
         :: fs_props st) st
  end.

Fixpoint fs_props_remove (fsname : string) (l : list gam_fs_properties) : list gam_fs_properties :=
  match l with
  | [] => []
  | prop :: l' =>
      if String.eqb (pr_fsname prop) fsname then l' else prop :: fs_props_remove fsname l'
  end.

(** The first entry of [fs_props] for a file-system type. *)
Definition props_lookup (fsname : string) (l : list gam_fs_properties)
  : option gam_fs_properties :=
  List.find (fun p => String.eqb (pr_fsname p) fsname) l.

(** The first mount point that is a string prefix of the path. *)
Definition fs_lookup (path : string) (l : list gam_fs) : option gam_fs :=
  List.find (fun fs => String.prefix (fs_path fs) path) l.

Definition default_props : list (string * gam_fs_mon_type * Z) :=
  [("ext3", GFS_MT_DEFAULT, 0); ("ext2", GFS_MT_DEFAULT, 0); ("reiser4", GFS_MT_DEFAULT, 0);
   ("reiserfs", GFS_MT_DEFAULT, 0); ("novfs", GFS_MT_POLL, 30); ("nfs", GFS_MT_POLL, 5);
   ("nfs4", GFS_MT_POLL, 5)]%string.

Section Mtab.
Context {os : OS} {glib : GLib}.
Implicit Types w : world.

(** One line of [/etc/mtab]: device, mount point, type, ... *)
Definition parse_mtab_line (line : string) : option gam_fs :=
  if String.eqb line "" then None
  else match g_strsplit line " " with
       | _ :: w1 :: w2 :: _ =>
           if String.eqb w1 "" || String.eqb w2 "" then None else Some (mk_fs w1 w2)
       | _ => None
       end.

Definition parse_mtab (contents : string) : list gam_fs :=
  foldl (fun acc line => match parse_mtab_line line with
                         | Some fs => fs :: acc
                         | None => acc
                         end) [] (g_strsplit contents (String (Ascii.ascii_of_nat 10) "")).

Definition gam_fs_scan_mtab (sw : fs_state * world) : fs_state * world :=
  let '(st, w) := sw in
  match file_contents "/etc/mtab" w with
  | (None, w) => (st, w)
  | (Some contents, w) => (set_filesystems (fs_sort (parse_mtab contents)) st, w)
  end.

(** [gam_fs_init] once initialized; when [stat] fails the code goes on with
    a [struct stat] it never wrote. *)
Definition gam_fs_refresh (sw : fs_state * world) : fs_state * world :=
  let '(st, w) := sw in
  let '(r, w) := sys_stat "/etc/mtab" w in
  let mtime := match r with SysOk sb => st_mtime sb | SysErr _ => stack_garbage w end in
  let '(st, w) := if negb (mtime =? mtab_mtime st) then gam_fs_scan_mtab (st, w) else (st, w) in
  (set_mtab_mtime mtime st, w).

(** The first call; [gam_fs_set] is called back with [initialized] set. *)
Definition gam_fs_init (sw : fs_state * world) : fs_state * world :=
  if fs_initialized sw.1 then gam_fs_refresh sw
  else
    let '(st, w) :=
      foldl (fun sw '(fsname, type, timeout) =>
               let '(st, w) := gam_fs_refresh sw in (gam_fs_upsert fsname type timeout st, w))
        (set_fs_initialized true sw.1, sw.2) default_props in
    let '(r, w) := sys_stat "/etc/mtab" w in
    let st := match r with SysOk sb => set_mtab_mtime (st_mtime sb) st | SysErr _ => st end in
    gam_fs_scan_mtab (st, w).

Definition gam_fs_set (fsname : string) (type : gam_fs_mon_type) (timeout : Z)
  (sw : fs_state * world) : fs_state * world :=
  let '(st, w) := gam_fs_init sw in (gam_fs_upsert fsname type timeout st, w).

Definition gam_fs_unset (fsname : string) (sw : fs_state * world) : fs_state * world :=
  let '(st, w) := gam_fs_init sw in (set_fs_props (fs_props_remove fsname (fs_props st)) st, w).

Definition gam_fs_find_fs (path : string) (sw : fs_state * world)
  : option gam_fs * (fs_state * world) :=
  let sw := gam_fs_init sw in (fs_lookup path (filesystems sw.1), sw).

Definition gam_fs_find_fs_props (path : string) (sw : fs_state * world)
  : option gam_fs_properties * (fs_state * world) :=
  match gam_fs_find_fs path sw with
  | (None, sw) => (None, sw)
  | (Some fs, sw) => (props_lookup (fs_fsname fs) (fs_props sw.1), sw)
  end.

Definition gam_fs_get_mon_type (path : string) (sw : fs_state * world)
  : gam_fs_mon_type * (fs_state * world) :=
  let sw := gam_fs_init sw in
  match gam_fs_find_fs_props path sw with
  | (None, sw) => (GFS_MT_DEFAULT, sw)
  | (Some props, sw) => (pr_mon_type props, sw)
  end.

Definition gam_fs_get_poll_timeout (path : string) (sw : fs_state * world)
  : Z * (fs_state * world) :=
  let sw := gam_fs_init sw in
  match gam_fs_find_fs_props path sw with
  | (None, sw) => (DEFAULT_POLL_TIMEOUT, sw)
  | (Some props, sw) => (pr_poll_timeout props, sw)
  end.
End Mtab.

(** ** Invariant and properties *)

Definition longer_first (a b : gam_fs) : Prop := strlen (fs_path b) <= strlen (fs_path a).

Definition fs_inv (st : fs_state) : Prop :=
  StronglySorted longer_first (filesystems st) /\ NoDup (pr_fsname <$> fs_props st).

Lemma fs_insert_perm x l : fs_insert x l ≡ₚ x :: l.
Proof.
  induction l as [|y l IH]; simpl; [done|]. destruct (_ <=? 0); [done|].
  rewrite IH. apply Permutation_swap.
Qed.

Lemma fs_insert_sorted x l :
  StronglySorted longer_first l -> StronglySorted longer_first (fs_insert x l).
Proof.
  induction 1 as [|y l Hs IH Hall]; simpl; [repeat constructor|].
  unfold gam_fs_filesystem_sort_cb.
  destruct (Z.leb_spec (strlen (fs_path y) - strlen (fs_path x)) 0) as [E|E].
  - constructor; [by constructor|]. constructor; [unfold longer_first; lia|].
    eapply Forall_impl; [exact Hall|]. unfold longer_first. simpl. lia.
  - constructor; [done|]. rewrite fs_insert_perm. constructor; [unfold longer_first; lia|done].
Qed.

Lemma fs_sort_sorted l : StronglySorted longer_first (fs_sort l).
Proof. induction l; simpl; [constructor|]. by apply fs_insert_sorted. Qed.

Lemma fs_props_update_names n ty t l l' :
  fs_props_update n ty t l = Some l' -> pr_fsname <$> l' = pr_fsname <$> l.
Proof.
  revert l'. induction l as [|p l IH]; intros l'; simpl; [done|].
  destruct (String.eqb _ _); [by intros [= <-]|].
  destruct (fs_props_update n ty t l) as [l0|]; simpl; [|done].
  intros [= <-]. simpl. f_equal. by apply IH.
Qed.

Lemma fs_props_update_None n ty t l :
  fs_props_update n ty t l = None -> n ∉ pr_fsname <$> l.
Proof.
  induction l as [|p l IH]; simpl; [set_solver|].
  destruct (String.eqb_spec (pr_fsname p) n); [done|].
  destruct (fs_props_update n ty t l) as [l0|]; simpl; [done|]. set_solver.
Qed.

Lemma gam_fs_upsert_inv n ty t st : fs_inv st -> fs_inv (gam_fs_upsert n ty t st).
Proof.
  intros [Hs Hn]. unfold gam_fs_upsert.
  destruct (fs_props_update n ty t (fs_props st)) as [l|] eqn:E; split; simpl; try done.
  - by rewrite (fs_props_update_names _ _ _ _ _ E).
  - constructor; [by apply fs_props_update_None in E|done].
Qed.

Lemma fs_props_remove_sublist n l : sublist (fs_props_remove n l) l.
Proof.
  induction l as [|p l IH]; simpl; [constructor|].
  destruct (String.eqb _ _); [by apply sublist_cons|by constructor].
Qed.

Section MtabProofs.
Context {os : OS} {glib : GLib}.
Implicit Types w : world.

Lemma gam_fs_scan_mtab_inv sw : fs_inv sw.1 -> fs_inv (gam_fs_scan_mtab sw).1.
Proof.
  destruct sw as [st w]. intros [Hs Hn]. unfold gam_fs_scan_mtab.
  destruct (file_contents _ w) as [[c|] w']; [|done]. split; [apply fs_sort_sorted|done].
Qed.

Lemma gam_fs_refresh_inv sw : fs_inv sw.1 -> fs_inv (gam_fs_refresh sw).1.
Proof.
  destruct sw as [st w]. intros Hi. unfold gam_fs_refresh.
  destruct (sys_stat _ w) as [r w1]. destruct (negb _).
  - pose proof (gam_fs_scan_mtab_inv (st, w1) Hi) as H.
    by destruct (gam_fs_scan_mtab (st, w1)).
  - done.
Qed.

Lemma gam_fs_init_inv sw : fs_inv sw.1 -> fs_inv (gam_fs_init sw).1.
Proof.
  intros Hi. unfold gam_fs_init. destruct (fs_initialized sw.1); [by apply gam_fs_refresh_inv|].
  match goal with |- context [foldl ?f ?s ?l] =>
    assert (fs_inv (foldl f s l).1) as H;
    [generalize s (Hi : fs_inv s.1); induction l as [|[[n ty] t] ps IH] |
     destruct (foldl f s l) as [st w]] end.
  - done.
  - intros s Hs. simpl. apply IH. pose proof (gam_fs_refresh_inv s Hs).
    destruct (gam_fs_refresh s). by apply gam_fs_upsert_inv.
  - destruct (sys_stat _ w) as [[sb|e] w1]; by apply gam_fs_scan_mtab_inv.
Qed.

Lemma fs_lookup_spec path l :
  StronglySorted longer_first l ->
  match fs_lookup path l with
  | Some fs => fs ∈ l /\ String.prefix (fs_path fs) path = true /\
      forall fs', fs' ∈ l -> String.prefix (fs_path fs') path = true ->
        strlen (fs_path fs') <= strlen (fs_path fs)
  | None => forall fs', fs' ∈ l -> String.prefix (fs_path fs') path = false
  end.
Proof.
  unfold fs_lookup. induction 1 as [|y l Hs IH Hall]; simpl; [set_solver|].
  destruct (String.prefix (fs_path y) path) eqn:E.
  - split; [set_solver|]. split; [done|]. intros fs' Hin _.
    apply elem_of_cons in Hin as [->|Hin]; [lia|].
    rewrite Forall_forall in Hall. by apply Hall.
  - destruct (List.find _ l) as [fs|]; [|set_solver].
    destruct IH as (H1 & H2 & H3). split; [set_solver|]. split; [done|].
    intros fs' Hin Hp. apply elem_of_cons in Hin as [->|Hin]; [congruence|auto].
Qed.

(** The most specific mount point.  [gam_fs_find_fs] keeps the
    invariant (mount points longest first, one property entry per type), and
    returns, among the mount points whose path is a prefix of [path], one of
    maximal length; it returns NULL only if there is none. *)
Theorem find_fs_longest (path : string) (sw : fs_state * world) :
  fs_inv sw.1 ->
  let '(o, sw') := gam_fs_find_fs path sw in
  fs_inv sw'.1 /\
  match o with
  | Some fs => fs ∈ filesystems sw'.1 /\ String.prefix (fs_path fs) path = true /\
      forall fs', fs' ∈ filesystems sw'.1 -> String.prefix (fs_path fs') path = true ->
        strlen (fs_path fs') <= strlen (fs_path fs)
  | None => forall fs', fs' ∈ filesystems sw'.1 -> String.prefix (fs_path fs') path = false
  end.
Proof.
  intros Hi. unfold gam_fs_find_fs. apply gam_fs_init_inv in Hi. split; [done|].
  apply fs_lookup_spec, Hi.
Qed.

Lemma prefix_app p s : String.prefix p (p ++ s) = true.
Proof.
  induction p as [|a p IH]; simpl; [by destruct s|].
  destruct (Ascii.ascii_dec a a); done.
Qed.

(** Mount points are matched as strings, not by path component: any
    name that merely starts like a mount point ([/homework] for [/home]) is
    attributed to a mount point at least as long, and never to the shorter
    one that actually holds it. *)
Theorem sibling_of_mount_point (m : gam_fs) (s : string) (sw : fs_state * world) :
  fs_inv sw.1 -> m ∈ filesystems (gam_fs_init sw).1 ->
  exists fs, (gam_fs_find_fs (fs_path m ++ s) sw).1 = Some fs /\
    strlen (fs_path m) <= strlen (fs_path fs).
Proof.
  intros Hi Hm. unfold gam_fs_find_fs. simpl. apply gam_fs_init_inv in Hi.
  pose proof (fs_lookup_spec (fs_path m ++ s) _ (proj1 Hi)) as H.
  destruct (fs_lookup _ _) as [fs|].
  - destruct H as (_ & _ & H). exists fs. split; [done|]. apply H, prefix_app. done.
  - specialize (H m Hm). by rewrite prefix_app in H.
Qed.
End MtabProofs.

Lemma props_lookup_update n ty t l :
  match fs_props_update n ty t l with
  | Some l' => exists p, props_lookup n l = Some p /\
      props_lookup n l' = Some (mk_props n ty (if t >=? 0 then t else pr_poll_timeout p)) /\
      forall n', n' <> n -> props_lookup n' l' = props_lookup n' l
  | None => props_lookup n l = None
  end.
Proof.
  unfold props_lookup. induction l as [|p l IH]; simpl; [done|].
  destruct (String.eqb_spec (pr_fsname p) n) as [->|Hne]; simpl.
  - exists p. split; [done|]. rewrite String.eqb_refl. split; [done|].
    intros n' Hn'. destruct (String.eqb_spec n n'); [done|done].
  - destruct (fs_props_update n ty t l) as [l'|]; simpl; [|done].
    destruct (String.eqb_spec (pr_fsname p) n); [done|].
    destruct IH as (p' & H1 & H2 & H3). exists p'. split; [done|]. split; [done|].
    intros n' Hn'. by rewrite (H3 n' Hn').
Qed.

(** [gam_fs_set] is an upsert.  Afterwards the entry of the named type
    carries the given method and, when one was given (>= 0), the given poll
    timeout, otherwise the timeout it had (0 for a new entry); no other type's
    entry changes and the invariant is kept. *)
Theorem fs_set_upserts {os : OS} {glib : GLib} n ty t (sw : fs_state * world) :
  fs_inv sw.1 ->
  let before := (gam_fs_init sw).1 in
  let after := (gam_fs_set n ty t sw).1 in
  fs_inv after /\
  props_lookup n (fs_props after) =
    Some (mk_props n ty
      (if t >=? 0 then t
       else match props_lookup n (fs_props before) with
            | Some p => pr_poll_timeout p | None => DEFAULT_POLL_TIMEOUT end)) /\
  forall n', n' <> n -> props_lookup n' (fs_props after) = props_lookup n' (fs_props before).
Proof.
  intros Hi. apply gam_fs_init_inv in Hi. unfold gam_fs_set. simpl.
  destruct (gam_fs_init sw) as [st w]. simpl in *. split; [by apply gam_fs_upsert_inv|].
  unfold gam_fs_upsert. pose proof (props_lookup_update n ty t (fs_props st)) as H.
  destruct (fs_props_update n ty t (fs_props st)) as [l|] eqn:E; simpl.
  - destruct H as (p & -> & H1 & H2). done.
  - rewrite H. unfold props_lookup. simpl. rewrite String.eqb_refl. split; [done|].
    intros n' Hn'. by destruct (String.eqb_spec n n').
Qed.

(** ** Witnesses *)

Definition demo_mtab : string :=
  ("/dev/sda1 / ext3 rw" ++ String (Ascii.ascii_of_nat 10)
    ("srv:/h /home nfs rw" ++ String (Ascii.ascii_of_nat 10) ""))%string.
Definition demo_world : sim_world :=
  mk_sim [("/etc/mtab"%string, mk_stat false 9 0 10 9 0)] [] [("/etc/mtab"%string, demo_mtab)] 0 [] 0 0.
Definition demo_fs : fs_state * sim_world := (fs_initial, demo_world).

Lemma fs_initial_inv : fs_inv fs_initial.
Proof. split; constructor. Qed.

Lemma find_fs_longest_witness :
  fs_inv (demo_fs : fs_state * @world sim_os).1 /\
  (@gam_fs_find_fs sim_os sim_glib "/home/me" demo_fs).1 = Some (mk_fs "/home" "nfs") /\
  (let '(o, sw') := @gam_fs_find_fs sim_os sim_glib "/home/me" demo_fs in fs_inv sw'.1).
Proof.
  pose proof (find_fs_longest (os := sim_os) (glib := sim_glib) "/home/me" demo_fs fs_initial_inv) as H.
  split; [exact fs_initial_inv|]. split; [vm_compute; reflexivity|].
  destruct (@gam_fs_find_fs sim_os sim_glib "/home/me" demo_fs) as [o sw']. exact (proj1 H).
Defined.

Lemma sibling_of_mount_point_witness :
  mk_fs "/home" "nfs" ∈ filesystems (@gam_fs_init sim_os sim_glib demo_fs).1 /\
  (exists fs, (@gam_fs_find_fs sim_os sim_glib ("/home" ++ "work") demo_fs).1 = Some fs /\ 5 <= strlen (fs_path fs)) /\
  (@gam_fs_get_mon_type sim_os sim_glib "/homework" demo_fs).1 = GFS_MT_POLL.
Proof.
  assert (mk_fs "/home" "nfs" ∈ filesystems (@gam_fs_init sim_os sim_glib demo_fs).1) as Hin
    by (apply (list_elem_of_lookup_2 _ 0%nat); vm_compute; reflexivity).
  split; [exact Hin|]. split; [|vm_compute; reflexivity].
  exact (sibling_of_mount_point (os := sim_os) (glib := sim_glib) (mk_fs "/home" "nfs") "work" demo_fs
    fs_initial_inv Hin).
Defined.

Lemma fs_set_upserts_witness :
  fs_inv (demo_fs : fs_state * @world sim_os).1 /\
  props_lookup "nfs" (fs_props (@gam_fs_set sim_os sim_glib "nfs" GFS_MT_KERNEL (-1) demo_fs).1)
  = Some (mk_props "nfs" GFS_MT_KERNEL 5).
Proof.
  split; [exact fs_initial_inv|].
  rewrite (proj1 (proj2 (fs_set_upserts (os := sim_os) (glib := sim_glib) "nfs" GFS_MT_KERNEL (-1) demo_fs
    fs_initial_inv))).
  vm_compute. reflexivity.
Defined.
