(* ===== verification/Conf.v ===== *)
(** * Configuration files ([server/gam_conf.c])

    [gam_conf_read] reads three files in order: the system file, the user's
    [~/.gaminrc] and the mandatory system file.  A line [fsset type method
    [timeout]] sets the method of a file-system type, a line [poll pattern...]
    or [notify pattern...] appends exclude patterns. *)

From S2P Require Import Prelude OS Excludes Fs.

Local Open Scope Z_scope.
Import Stdlib.Strings.Ascii.AsciiSyntax.
Local Delimit Scope char_scope with char.

(** ** [strcasecmp] and [atoi] of the C library *)

Definition ascii_lower (a : Ascii.ascii) : Ascii.ascii :=
  let n := Ascii.N_of_ascii a in
  if (65 <=? Z.of_N n) && (Z.of_N n <=? 90) then Ascii.ascii_of_N (n + 32) else a.

Fixpoint str_lower (s : string) : string :=
  match s with
  | EmptyString => EmptyString
  | String a s' => String (ascii_lower a) (str_lower s')
  end.

(** Whether [strcasecmp(a, b) == 0]. *)
Definition strcaseeq (a b : string) : bool := String.eqb (str_lower a) (str_lower b).

Definition digit (a : Ascii.ascii) : option Z :=
  let n := Z.of_N (Ascii.N_of_ascii a) in
  if (48 <=? n) && (n <=? 57) then Some (n - 48) else None.

Definition c_isspace (a : Ascii.ascii) : bool :=
  let n := Z.of_N (Ascii.N_of_ascii a) in (n =? 32) || ((9 <=? n) && (n <=? 13)).

Fixpoint atoi_digits (acc : Z) (s : string) : Z :=
  match s with
  | String a s' => match digit a with Some d => atoi_digits (10 * acc + d) s' | None => acc end
  | EmptyString => acc
  end.

Fixpoint atoi (s : string) : Z :=
  match s with
  | String a s' =>
      if c_isspace a then atoi s'
      else if Ascii.eqb a "-"%char then i32 (- atoi_digits 0 s')
      else if Ascii.eqb a "+"%char then i32 (atoi_digits 0 s')
      else i32 (atoi_digits 0 s)
  | EmptyString => 0
  end.

(** ** Reading a file *)

Definition gam_conf_string_to_mon_type (method : string) : gam_fs_mon_type :=
  if strcaseeq method "kernel" then GFS_MT_KERNEL
  else if strcaseeq method "poll" then GFS_MT_POLL
  else GFS_MT_NONE.

Definition first_char (s : string) : option Ascii.ascii :=
  match s with EmptyString => None | String a _ => Some a end.

Definition starts_with (c : Ascii.ascii) (s : string) : bool :=
  match s with EmptyString => false | String a _ => Ascii.eqb a c end.

(** [!words[i] || !words[i][0]] *)
Definition missing_word (words : list string) (i : nat) : bool :=
  match words !! i with None => true | Some w => String.eqb w "" end.

Section Conf.
Context {os : OS} {glib : GLib}.

Definition conf_state : Type := excludes_state * (fs_state * world).

(** The patterns of a [poll] or [notify] line, from the second word on. *)
Fixpoint conf_patterns (words : list string) (exclude : Z) (ex : excludes_state)
  : excludes_state :=
  match words with
  | [] => ex
  | w :: words' =>
      if String.eqb w "" then conf_patterns words' exclude ex
      else if starts_with "#"%char w then ex
      else if starts_with "~"%char w then
        conf_patterns words' exclude
          (gam_exclude_add (g_get_home_dir ++ match w with String _ s => s | _ => "" end)
             exclude ex)
      else if negb (starts_with "/"%char w) then conf_patterns words' exclude ex
      else conf_patterns words' exclude (gam_exclude_add w exclude ex)
  end.

Definition conf_fsset (words : list string) (st : conf_state) : conf_state :=
  if missing_word words 1 then st
  else if missing_word words 2 then st
  else
    let mon_type := gam_conf_string_to_mon_type (words !!! 2%nat) in
    let poll_timeout := if missing_word words 3 then -1 else atoi (words !!! 3%nat) in
    (st.1, gam_fs_set (words !!! 1%nat) mon_type poll_timeout st.2).

Definition conf_line (st : conf_state) (line : string) : conf_state :=
  if String.eqb line "" || starts_with "#"%char line then st
  else
    match g_strsplit line " " with
    | [] => st
    | w0 :: rest =>
        if String.eqb w0 "fsset" then conf_fsset (w0 :: rest) st
        else if String.eqb w0 "poll" then (conf_patterns rest 1 st.1, st.2)
        else if String.eqb w0 "notify" then (conf_patterns rest 0 st.1, st.2)
        else st
    end.

Definition newline : string := String (Ascii.ascii_of_nat 10) "".

Definition gam_conf_read_internal (filename : string) (st : conf_state) : conf_state :=
  let '(ex, (fs, w)) := st in
  match file_contents filename w with
  | (None, w) => (ex, (fs, w))
  | (Some contents, w) => foldl conf_line (ex, (fs, w)) (g_strsplit contents newline)
  end.

Definition globalconf : string := "/etc/gamin/gaminrc".
Definition mandatory : string := "/etc/gamin/mandatory_gaminrc".
Definition userconf : string := (g_get_home_dir ++ "/.gaminrc")%string.

Definition gam_conf_read (st : conf_state) : conf_state :=
  gam_conf_read_internal mandatory
    (gam_conf_read_internal userconf (gam_conf_read_internal globalconf st)).

(** ** Only additions *)

Lemma conf_patterns_grows words n ex :
  exists l, excludes (conf_patterns words n ex) = excludes ex ++ l.
Proof.
  revert ex. induction words as [|w words IH]; intros ex; simpl.
  { exists []. by rewrite app_nil_r. }
  assert (forall p, exists l, excludes (conf_patterns words n (gam_exclude_add p n ex))
    = excludes ex ++ l) as Hadd.
  { intros p. destruct (IH (gam_exclude_add p n ex)) as [l Hl].
    exists (mk_exclude p n :: l). rewrite Hl. simpl. by rewrite <- app_assoc. }
  destruct (String.eqb w ""); [apply IH|].
  destruct (starts_with "#"%char w); [exists []; by rewrite app_nil_r|].
  destruct (starts_with "~"%char w); [apply Hadd|].
  destruct (starts_with "/"%char w); [apply Hadd|apply IH].
Qed.

Lemma conf_line_grows st line :
  exists l, excludes (conf_line st line).1 = excludes st.1 ++ l.
Proof.
  assert (exists l, excludes st.1 = excludes st.1 ++ l) as Hnone
    by (exists []; by rewrite app_nil_r).
  unfold conf_line. destruct (_ || _); [done|].
  destruct (g_strsplit line " ") as [|w0 rest]; [done|].
  destruct (String.eqb w0 "fsset").
  { unfold conf_fsset. by repeat case_match. }
  destruct (String.eqb w0 "poll"); [apply conf_patterns_grows|].
  destruct (String.eqb w0 "notify"); [apply conf_patterns_grows|done].
Qed.

Lemma conf_lines_grow lines st :
  exists l, excludes (foldl conf_line st lines).1 = excludes st.1 ++ l.
Proof.
  revert st. induction lines as [|x lines IH]; intros st; simpl.
  { exists []. by rewrite app_nil_r. }
  destruct (IH (conf_line st x)) as [l Hl], (conf_line_grows st x) as [l' Hl'].
  exists (l' ++ l). by rewrite Hl, Hl', app_assoc.
Qed.

Lemma gam_conf_read_internal_grows f st :
  exists l, excludes (gam_conf_read_internal f st).1 = excludes st.1 ++ l.
Proof.
  unfold gam_conf_read_internal. destruct st as [ex [fs w]].
  destruct (file_contents f w) as [[c|] w1]; [|exists []; by rewrite app_nil_r].
  apply (conf_lines_grow _ (ex, (fs, w1))).
Qed.

(** The mandatory file cannot override an exclude decision.  The comment
    on [gam_conf_read] says it is read last so that the administrator can
    override the user's options, but the first matching pattern decides
    ([gam_exclude_check_all]): once the system or user file has a pattern for
    a file, no content of the mandatory file changes how it is monitored. *)
Theorem mandatory_cannot_override (st : conf_state) (f : string) :
  let before := gam_conf_read_internal userconf (gam_conf_read_internal globalconf st) in
  existsb (fun e => pattern_match (ex_pattern e) f) (excludes before.1) = true ->
  gam_exclude_check (gam_conf_read st).1 (Some f) = gam_exclude_check before.1 (Some f).
Proof.
  intros before Hm. unfold gam_conf_read. fold before.
  destruct (gam_conf_read_internal_grows mandatory before) as [l Hl].
  rewrite !gam_exclude_check_scan, Hl, exclude_scan_app. by rewrite Hm.
Qed.
End Conf.

(** The user polls [/data], the administrator demands kernel notification. *)
Definition demo_conf_world : sim_world :=
  mk_sim [] [] [("/root/.gaminrc", "poll /data"); ("/etc/gamin/mandatory_gaminrc", "notify /data")]%string
    0 [] 0 0.
Definition demo_conf : @conf_state sim_os := (excludes_initial, (fs_initial, demo_conf_world)).

Lemma mandatory_cannot_override_witness :
  existsb (fun e => @pattern_match sim_glib (ex_pattern e) "/data/x")
    (excludes (@gam_conf_read_internal sim_os sim_glib (@userconf sim_glib)
       (@gam_conf_read_internal sim_os sim_glib globalconf demo_conf)).1) = true /\
  @gam_exclude_check sim_glib (@gam_conf_read sim_os sim_glib demo_conf).1 (Some "/data/x"%string) = true.
Proof.
  split; [vm_compute; reflexivity|].
  rewrite (mandatory_cannot_override (os := sim_os) (glib := sim_glib) demo_conf "/data/x");
    vm_compute; reflexivity.
Defined.
