(* ===== verification/State.v ===== *)
(** * The server's store

    The objects the daemon allocates ([GamSubscription], [GamListener],
    [GamNode] with its [GNode], [GamConnData]) live in heaps indexed by
    pointers; the file-level [static] variables of [gam_poll_generic.c],
    [gam_poll_basic.c], [gam_server.c], [gam_connection.c], [gam_fs.c] and
    [gam_excludes.c] are the other fields of [server].  Following a pointer
    that is not in its heap (freed, or never allocated) is the fault
    [NullDeref]; pointers are never reused, so that every use after free is
    one.  The private state of the kernel backend is a parameter. *)

From S2P Require Import Prelude Protocol EventQueue Monad OS Excludes.
From S2P Require Import Fs.

Local Open Scope Z_scope.

(** ** Objects *)

(** [struct _GamSubscription] *)
Record GamSubscription := mk_sub {
  sub_path : string;
  sub_events : Z;
  sub_reqno : Z;
  sub_pathlen : Z;
  sub_options : Z;
  sub_is_dir : bool;
  sub_cancelled : bool;
  sub_listener : option ptr
}.

(** [struct _GamListener]; [ln_service] is the connection. *)
Record GamListener := mk_listener {
  ln_service : ptr;
  ln_pid : Z;
  ln_pidname : string;
  ln_subs : list ptr
}.

(** [struct _GamNode] and the [GNode] that holds it: [nd_node] says whether
    [node->node] is set, [nd_parent] and [nd_children] are its links. *)
Record GamNode := mk_node {
  nd_path : string;
  nd_subs : list ptr;
  nd_node : bool;
  nd_parent : option ptr;
  nd_children : list ptr;
  nd_is_dir : bool;
  nd_flags : Z;
  nd_poll_time : Z;
  nd_mon_type : gam_fs_mon_type;
  nd_checks : Z;
  nd_pflags : Z;
  nd_lasttime : Z;
  nd_flow_on_ticks : Z;
  nd_sbuf : stat_t
}.

Inductive GamConnState :=
  | GAM_STATE_ERROR | GAM_STATE_AUTH | GAM_STATE_OKAY | GAM_STATE_CLOSED.

#[export] Instance GamConnState_eq_dec : EqDecision GamConnState.
Proof. solve_decision. Defined.

(** [struct GamConnData] (without the GLib loop and channel); [cn_request] is
    the [sizeof(GAMPacket)] bytes of the request buffer. *)
Record GamConnData := mk_conn {
  cn_state : GamConnState;
  cn_fd : Z;
  cn_pid : Z;
  cn_pidname : string;
  cn_request_len : Z;
  cn_request : list byte;
  cn_listener : option ptr;
  cn_eq : option gam_eq;
  cn_eq_source : bool       (** whether a flush timer is installed *)
}.

(** ** Field updates *)

Definition set_sub_listener l s := mk_sub (sub_path s) (sub_events s) (sub_reqno s) (sub_pathlen s)
  (sub_options s) (sub_is_dir s) (sub_cancelled s) l.
Definition set_sub_events e s := mk_sub (sub_path s) e (sub_reqno s) (sub_pathlen s)
  (sub_options s) (sub_is_dir s) (sub_cancelled s) (sub_listener s).
Definition set_sub_cancelled c s := mk_sub (sub_path s) (sub_events s) (sub_reqno s) (sub_pathlen s)
  (sub_options s) (sub_is_dir s) c (sub_listener s).

Definition set_ln_subs l x := mk_listener (ln_service x) (ln_pid x) (ln_pidname x) l.

Definition set_nd_subs l n := mk_node (nd_path n) l (nd_node n) (nd_parent n) (nd_children n)
  (nd_is_dir n) (nd_flags n) (nd_poll_time n) (nd_mon_type n) (nd_checks n) (nd_pflags n)
  (nd_lasttime n) (nd_flow_on_ticks n) (nd_sbuf n).
Definition set_nd_node b n := mk_node (nd_path n) (nd_subs n) b (nd_parent n) (nd_children n)
  (nd_is_dir n) (nd_flags n) (nd_poll_time n) (nd_mon_type n) (nd_checks n) (nd_pflags n)
  (nd_lasttime n) (nd_flow_on_ticks n) (nd_sbuf n).
Definition set_nd_parent p n := mk_node (nd_path n) (nd_subs n) (nd_node n) p (nd_children n)
  (nd_is_dir n) (nd_flags n) (nd_poll_time n) (nd_mon_type n) (nd_checks n) (nd_pflags n)
  (nd_lasttime n) (nd_flow_on_ticks n) (nd_sbuf n).
Definition set_nd_children l n := mk_node (nd_path n) (nd_subs n) (nd_node n) (nd_parent n) l
  (nd_is_dir n) (nd_flags n) (nd_poll_time n) (nd_mon_type n) (nd_checks n) (nd_pflags n)
  (nd_lasttime n) (nd_flow_on_ticks n) (nd_sbuf n).
Definition set_nd_is_dir b n := mk_node (nd_path n) (nd_subs n) (nd_node n) (nd_parent n)
  (nd_children n) b (nd_flags n) (nd_poll_time n) (nd_mon_type n) (nd_checks n) (nd_pflags n)
  (nd_lasttime n) (nd_flow_on_ticks n) (nd_sbuf n).
Definition set_nd_flags f n := mk_node (nd_path n) (nd_subs n) (nd_node n) (nd_parent n)
  (nd_children n) (nd_is_dir n) f (nd_poll_time n) (nd_mon_type n) (nd_checks n) (nd_pflags n)
  (nd_lasttime n) (nd_flow_on_ticks n) (nd_sbuf n).
Definition set_nd_checks c n := mk_node (nd_path n) (nd_subs n) (nd_node n) (nd_parent n)
  (nd_children n) (nd_is_dir n) (nd_flags n) (nd_poll_time n) (nd_mon_type n) c (nd_pflags n)
  (nd_lasttime n) (nd_flow_on_ticks n) (nd_sbuf n).
Definition set_nd_pflags f n := mk_node (nd_path n) (nd_subs n) (nd_node n) (nd_parent n)
  (nd_children n) (nd_is_dir n) (nd_flags n) (nd_poll_time n) (nd_mon_type n) (nd_checks n) f
  (nd_lasttime n) (nd_flow_on_ticks n) (nd_sbuf n).
Definition set_nd_lasttime t n := mk_node (nd_path n) (nd_subs n) (nd_node n) (nd_parent n)
  (nd_children n) (nd_is_dir n) (nd_flags n) (nd_poll_time n) (nd_mon_type n) (nd_checks n)
  (nd_pflags n) t (nd_flow_on_ticks n) (nd_sbuf n).
Definition set_nd_sbuf b n := mk_node (nd_path n) (nd_subs n) (nd_node n) (nd_parent n)
  (nd_children n) (nd_is_dir n) (nd_flags n) (nd_poll_time n) (nd_mon_type n) (nd_checks n)
  (nd_pflags n) (nd_lasttime n) (nd_flow_on_ticks n) b.

Definition set_cn_state x c := mk_conn x (cn_fd c) (cn_pid c) (cn_pidname c) (cn_request_len c)
  (cn_request c) (cn_listener c) (cn_eq c) (cn_eq_source c).
Definition set_cn_pid x nm c := mk_conn (cn_state c) (cn_fd c) x nm (cn_request_len c)
  (cn_request c) (cn_listener c) (cn_eq c) (cn_eq_source c).
Definition set_cn_request_len x c := mk_conn (cn_state c) (cn_fd c) (cn_pid c) (cn_pidname c) x
  (cn_request c) (cn_listener c) (cn_eq c) (cn_eq_source c).
Definition set_cn_request x c := mk_conn (cn_state c) (cn_fd c) (cn_pid c) (cn_pidname c)
  (cn_request_len c) x (cn_listener c) (cn_eq c) (cn_eq_source c).
Definition set_cn_listener x c := mk_conn (cn_state c) (cn_fd c) (cn_pid c) (cn_pidname c)
  (cn_request_len c) (cn_request c) x (cn_eq c) (cn_eq_source c).
Definition set_cn_eq x c := mk_conn (cn_state c) (cn_fd c) (cn_pid c) (cn_pidname c)
  (cn_request_len c) (cn_request c) (cn_listener c) x (cn_eq_source c).
Definition set_cn_eq_source x c := mk_conn (cn_state c) (cn_fd c) (cn_pid c) (cn_pidname c)
  (cn_request_len c) (cn_request c) (cn_listener c) (cn_eq c) x.

(** ** The server *)

(** The kernel backend's private state, and [gam_inotify_is_running]. *)
Class KernelState := {
  kernel_state : Type;
  inotify_is_running : kernel_state -> bool
}.

(** [GamKernelHandler] *)
Inductive GamKernelHandler :=
  | GAMIN_K_NONE | GAMIN_K_DNOTIFY | GAMIN_K_INOTIFY | GAMIN_K_KQUEUE | GAMIN_K_MACH
  | GAMIN_K_INOTIFY2.

#[export] Instance GamKernelHandler_eq_dec : EqDecision GamKernelHandler.
Proof. solve_decision. Defined.

(** [GamPollHandler] *)
Inductive GamPollHandler := GAMIN_P_NONE | GAMIN_P_DNOTIFY | GAMIN_P_BASIC.

(** [pollHandlerMode] *)
Inductive pollHandlerMode :=
  | GAMIN_ACTIVATE | GAMIN_DEACTIVATE | GAMIN_FLOWCONTROLSTART | GAMIN_FLOWCONTROLSTOP.

Section Server.
Context {os : OS} {kern : KernelState}.

(** [heap]: the allocated objects.  [tree]: [struct _GamTree].  [lists]: the
    resource lists of [gam_poll_generic.c].  [ctl]: the hooks (which table is
    installed), the connection list and the timers. *)
Record heap := mk_heap {
  next_ptr : ptr;
  subs : gmap ptr GamSubscription;
  listeners : gmap ptr GamListener;
  nodes : gmap ptr GamNode;
  conns : gmap ptr GamConnData
}.

Record lists := mk_lists {
  missing_resources : list ptr;
  busy_resources : list ptr;
  all_resources : list ptr;
  dead_resources : list ptr
}.

Record tree := mk_tree { tree_root : option ptr; node_hash : gmap string ptr }.

Record ctl := mk_ctl {
  poll_only : bool;
  no_timeout : bool;
  kernel_handler : GamKernelHandler;  (** [GAMIN_K_NONE]: no hooks installed *)
  poll_handler : GamPollHandler;
  gamConnList : list ptr;
  server_timeout : bool;              (** the idle timer is scheduled *)
  scan_callback_running : bool
}.

Record server := mk_server {
  sv_heap : heap;
  sv_tree : tree;
  sv_lists : lists;
  current_time : Z;
  sv_ctl : ctl;
  sv_fs : fs_state;
  sv_excludes : excludes_state;
  sv_kernel : kernel_state;
  sv_world : world
}.

Definition upd_heap f s := mk_server (f (sv_heap s)) (sv_tree s) (sv_lists s) (current_time s)
  (sv_ctl s) (sv_fs s) (sv_excludes s) (sv_kernel s) (sv_world s).
Definition upd_tree f s := mk_server (sv_heap s) (f (sv_tree s)) (sv_lists s) (current_time s)
  (sv_ctl s) (sv_fs s) (sv_excludes s) (sv_kernel s) (sv_world s).
Definition upd_lists f s := mk_server (sv_heap s) (sv_tree s) (f (sv_lists s)) (current_time s)
  (sv_ctl s) (sv_fs s) (sv_excludes s) (sv_kernel s) (sv_world s).
Definition set_current_time t s := mk_server (sv_heap s) (sv_tree s) (sv_lists s) t
  (sv_ctl s) (sv_fs s) (sv_excludes s) (sv_kernel s) (sv_world s).
Definition upd_ctl f s := mk_server (sv_heap s) (sv_tree s) (sv_lists s) (current_time s)
  (f (sv_ctl s)) (sv_fs s) (sv_excludes s) (sv_kernel s) (sv_world s).
Definition set_sv_excludes e s := mk_server (sv_heap s) (sv_tree s) (sv_lists s) (current_time s)
  (sv_ctl s) (sv_fs s) e (sv_kernel s) (sv_world s).
Definition set_sv_kernel k s := mk_server (sv_heap s) (sv_tree s) (sv_lists s) (current_time s)
  (sv_ctl s) (sv_fs s) (sv_excludes s) k (sv_world s).
Definition set_sv_world w s := mk_server (sv_heap s) (sv_tree s) (sv_lists s) (current_time s)
  (sv_ctl s) (sv_fs s) (sv_excludes s) (sv_kernel s) w.
Definition set_sv_fs fw s := mk_server (sv_heap s) (sv_tree s) (sv_lists s) (current_time s)
  (sv_ctl s) fw.1 (sv_excludes s) (sv_kernel s) fw.2.

Definition set_subs m h := mk_heap (next_ptr h) m (listeners h) (nodes h) (conns h).
Definition set_listeners m h := mk_heap (next_ptr h) (subs h) m (nodes h) (conns h).
Definition set_nodes m h := mk_heap (next_ptr h) (subs h) (listeners h) m (conns h).
Definition set_conns m h := mk_heap (next_ptr h) (subs h) (listeners h) (nodes h) m.
Definition bump_ptr h :=
  mk_heap (Pos.succ (next_ptr h)) (subs h) (listeners h) (nodes h) (conns h).

Definition set_missing l x := mk_lists l (busy_resources x) (all_resources x) (dead_resources x).
Definition set_busy l x := mk_lists (missing_resources x) l (all_resources x) (dead_resources x).
Definition set_all l x := mk_lists (missing_resources x) (busy_resources x) l (dead_resources x).

Definition set_kernel_handler k c := mk_ctl (poll_only c) (no_timeout c) k (poll_handler c)
  (gamConnList c) (server_timeout c) (scan_callback_running c).
Definition set_poll_handler p c := mk_ctl (poll_only c) (no_timeout c) (kernel_handler c) p
  (gamConnList c) (server_timeout c) (scan_callback_running c).
Definition set_gamConnList l c := mk_ctl (poll_only c) (no_timeout c) (kernel_handler c)
  (poll_handler c) l (server_timeout c) (scan_callback_running c).
Definition set_server_timeout b c := mk_ctl (poll_only c) (no_timeout c) (kernel_handler c)
  (poll_handler c) (gamConnList c) b (scan_callback_running c).
Definition set_scan_running b c := mk_ctl (poll_only c) (no_timeout c) (kernel_handler c)
  (poll_handler c) (gamConnList c) (server_timeout c) b.
End Server.

(** The C initialisers of the [static] variables. *)
Definition server_initial {os : OS} {kern : KernelState} (k : kernel_state) (w : world) : server :=
  mk_server (mk_heap 1%positive ∅ ∅ ∅ ∅) (mk_tree None ∅) (mk_lists [] [] [] []) 0
    (mk_ctl false false GAMIN_K_NONE GAMIN_P_NONE [] false false)
    fs_initial excludes_initial k w.

(** A daemon with no kernel backend running, and one with inotify. *)
Definition no_kernel : KernelState :=
  {| kernel_state := unit; inotify_is_running _ := false |}.
Definition running_kernel : KernelState :=
  {| kernel_state := unit; inotify_is_running _ := true |}.

(** ** Loads, stores and allocation *)

(** The heap of each kind of object. *)
Class Obj (A : Type) := {
  obj_map : heap -> gmap ptr A;
  obj_set : gmap ptr A -> heap -> heap;
  obj_map_set m h : obj_map (obj_set m h) = m;
  obj_map_bump h : obj_map (bump_ptr h) = obj_map h
}.

#[export] Instance sub_obj : Obj GamSubscription.
Proof. exists subs set_subs; done. Defined.
#[export] Instance listener_obj : Obj GamListener.
Proof. exists listeners set_listeners; done. Defined.
#[export] Instance node_obj : Obj GamNode.
Proof. exists nodes set_nodes; done. Defined.
#[export] Instance conn_obj : Obj GamConnData.
Proof. exists conns set_conns; done. Defined.

Section Store.
Context {os : OS} {kern : KernelState}.
Abbreviation M := (ST server).

Definition objs {A} `{Obj A} (s : server) : gmap ptr A := obj_map (sv_heap s).

(** Reading the object behind a pointer. *)
Definition load {A} `{Obj A} (p : ptr) : M A := fun s =>
  match objs s !! p with Some a => Ok (a, s) | None => Fault NullDeref end.

(** Changing it in place. *)
Definition update {A} `{Obj A} (p : ptr) (f : A -> A) : M unit := fun s =>
  match objs s !! p with
  | Some a => Ok (tt, upd_heap (fun h => obj_set (<[p := f a]> (obj_map h)) h) s)
  | None => Fault NullDeref
  end.

(** [g_new0] *)
Definition alloc {A} `{Obj A} (a : A) : M ptr := fun s =>
  let p := next_ptr (sv_heap s) in
  Ok (p, upd_heap (fun h => bump_ptr (obj_set (<[p := a]> (obj_map h)) h)) s).

(** [g_free] of an object; freeing twice is a fault. *)
Definition dealloc (A : Type) `{Obj A} (p : ptr) : M unit := fun s =>
  match objs (A := A) s !! p with
  | Some _ => Ok (tt, upd_heap (fun h => obj_set (delete p (obj_map (A := A) h)) h) s)
  | None => Fault NullDeref
  end.

(** Calls into the operating system. *)
Definition sys {A} (f : world -> A * world) : M A := fun s =>
  let '(a, w) := f (sv_world s) in Ok (a, set_sv_world w s).

(** Calls into [gam_fs.c]. *)
Definition fs_call {A} (f : fs_state * world -> A * (fs_state * world)) : M A := fun s =>
  let '(a, fw) := f (sv_fs s, sv_world s) in Ok (a, set_sv_fs fw s).

Definition is_running : M bool := gets (fun s => inotify_is_running (sv_kernel s)).

Lemma load_Ok {A} `{Obj A} p (a : A) s : objs s !! p = Some a -> load p s = Ok (a, s).
Proof. unfold load. by intros ->. Qed.

Lemma load_sub_Ok p x (s : server) : subs (sv_heap s) !! p = Some x -> load p s = Ok (x, s).
Proof. intros H. apply (load_Ok (H := sub_obj)). exact H. Qed.
Lemma load_listener_Ok p x (s : server) :
  listeners (sv_heap s) !! p = Some x -> load p s = Ok (x, s).
Proof. intros H. apply (load_Ok (H := listener_obj)). exact H. Qed.
Lemma load_node_Ok p x (s : server) : nodes (sv_heap s) !! p = Some x -> load p s = Ok (x, s).
Proof. intros H. apply (load_Ok (H := node_obj)). exact H. Qed.
Lemma load_conn_Ok p x (s : server) : conns (sv_heap s) !! p = Some x -> load p s = Ok (x, s).
Proof. intros H. apply (load_Ok (H := conn_obj)). exact H. Qed.

Lemma wp_load {A} `{Obj A} p a (Q : A -> server -> Prop) s :
  objs s !! p = Some a -> Q a s -> wp (load p) Q s.
Proof. unfold wp, load. by intros ->. Qed.

Lemma wp_update {A} `{Obj A} p (f : A -> A) a (Q : unit -> server -> Prop) s :
  objs s !! p = Some a ->
  Q tt (upd_heap (fun h => obj_set (<[p := f a]> (obj_map h)) h) s) -> wp (update p f) Q s.
Proof. unfold wp, update. by intros ->. Qed.

Lemma wp_alloc {A} `{Obj A} (a : A) (Q : ptr -> server -> Prop) s :
  let p := next_ptr (sv_heap s) in
  Q p (upd_heap (fun h => bump_ptr (obj_set (<[p := a]> (obj_map h)) h)) s) ->
  wp (alloc a) Q s.
Proof. done. Qed.

Lemma wp_dealloc A `{Obj A} p a (Q : unit -> server -> Prop) s :
  objs (A := A) s !! p = Some a ->
  Q tt (upd_heap (fun h => obj_set (delete p (obj_map (A := A) h)) h) s) ->
  wp (dealloc A p) Q s.
Proof. unfold wp, dealloc. by intros ->. Qed.

Lemma wp_sys {A} (f : world -> A * world) (Q : A -> server -> Prop) s :
  (forall a w, f (sv_world s) = (a, w) -> Q a (set_sv_world w s)) -> wp (sys f) Q s.
Proof. unfold wp, sys. destruct (f (sv_world s)) as [a w]. auto. Qed.

Lemma wp_fs_call {A} (f : fs_state * world -> A * (fs_state * world))
  (Q : A -> server -> Prop) s :
  (forall a fw, f (sv_fs s, sv_world s) = (a, fw) -> Q a (set_sv_fs fw s)) ->
  wp (fs_call f) Q s.
Proof. unfold wp, fs_call. destruct (f (sv_fs s, sv_world s)) as [a fw]. auto. Qed.
End Store.

(** Membership test on a list of pointers: [g_list_find(l, p) != NULL]. *)
Definition g_list_find (l : list ptr) (p : ptr) : bool := bool_decide (p ∈ l).

(** [g_list_remove_all] *)
Definition g_list_remove_all (l : list ptr) (p : ptr) : list ptr := filter (fun q => q <> p) l.

(** [g_list_remove]: the first occurrence. *)
Fixpoint g_list_remove (l : list ptr) (p : ptr) : list ptr :=
  match l with
  | [] => []
  | q :: l' => if decide (q = p) then l' else q :: g_list_remove l' p
  end.

Lemma g_list_find_true l p : g_list_find l p = true <-> p ∈ l.
Proof. unfold g_list_find. apply bool_decide_eq_true. Qed.

Lemma g_list_find_false l p : g_list_find l p = false <-> p ∉ l.
Proof. unfold g_list_find. apply bool_decide_eq_false. Qed.

Lemma elem_of_g_list_remove_all l p q : q ∈ g_list_remove_all l p <-> q ∈ l /\ q <> p.
Proof. unfold g_list_remove_all. rewrite list_elem_of_filter. tauto. Qed.

Lemma g_list_remove_all_notin l p : p ∉ l -> g_list_remove_all l p = l.
Proof.
  unfold g_list_remove_all. induction l as [|q l IH]; intros H; [done|].
  rewrite filter_cons_True by set_solver. f_equal. apply IH. set_solver.
Qed.

Lemma g_list_remove_NoDup l p : NoDup l -> g_list_remove l p = g_list_remove_all l p.
Proof.
  induction 1 as [|q l Hq Hl IH]; simpl; [done|]. unfold g_list_remove_all in *.
  case_decide as Hd; subst.
  - rewrite filter_cons_False by naive_solver. symmetry. by apply (g_list_remove_all_notin l p).
  - rewrite filter_cons_True by done. by rewrite IH.
Qed.

Lemma g_list_remove_all_nodup l p : NoDup l -> NoDup (g_list_remove_all l p).
Proof. apply NoDup_filter. Qed.
