(* ===== verification/Subscription.v ===== *)
(** * Subscriptions ([server/gam_subscription.c])

    A subscription is one monitoring request of one client.  The readers take
    the record behind a possibly NULL pointer and give the code's answer for
    NULL; the writers act on the store. *)

From S2P Require Import Prelude Protocol Monad OS State.

Local Open Scope Z_scope.

(** ** Readers *)

Definition gam_subscription_is_dir (sub : option GamSubscription) : bool :=
  match sub with None => false | Some s => sub_is_dir s end.

Definition gam_subscription_pathlen (sub : option GamSubscription) : Z :=
  match sub with None => -1 | Some s => sub_pathlen s end.

Definition gam_subscription_get_path (sub : option GamSubscription) : option string :=
  sub_path <$> sub.

Definition gam_subscription_get_reqno (sub : option GamSubscription) : Z :=
  match sub with None => -1 | Some s => sub_reqno s end.

Definition gam_subscription_get_listener (sub : option GamSubscription) : option ptr :=
  sub ≫= sub_listener.

Definition gam_subscription_has_event (sub : option GamSubscription) (event : Z) : bool :=
  match sub with None => false | Some s => ztest (sub_events s .& event) end.

Definition gam_subscription_has_option (sub : option GamSubscription) (option : Z) : bool :=
  match sub with None => false | Some s => ztest (sub_options s .& option) end.

Definition gam_subscription_is_cancelled (sub : option GamSubscription) : bool :=
  match sub with None => true | Some s => sub_cancelled s end.

(** [gam_subscription_wants_event]: the guards in the order of the source. *)
Definition gam_subscription_wants_event (sub : option GamSubscription) (name : option string)
  (is_dir_node : bool) (event : Z) (force : bool) : bool :=
  match sub, name with
  | Some s, Some name =>
      if event =? 0 then false
      else if sub_cancelled s then false
      else if ztest (sub_options s .& GAM_OPT_NOEXISTS)
              && ((event =? GAMIN_EVENT_EXISTS) || (event =? GAMIN_EVENT_ENDEXISTS)) then false
      else
        let same_path := String.eqb name (sub_path s) in
        if negb (sub_is_dir s) && negb same_path then false
        else if negb (gam_subscription_has_event sub event) then false
        else if force then true
        else if sub_is_dir s && is_dir_node && same_path
                && ((event =? GAMIN_EVENT_EXISTS) || (event =? GAMIN_EVENT_CHANGED)
                    || (event =? GAMIN_EVENT_ENDEXISTS)) then false
        else true
  | _, _ => false
  end.

(** ** Writers *)

(** [sub->events |= event] and [sub->events &= ~event]. *)
Definition sub_set_event (event : Z) (s : GamSubscription) : GamSubscription :=
  set_sub_events (sub_events s .| event) s.
Definition sub_unset_event (event : Z) (s : GamSubscription) : GamSubscription :=
  set_sub_events (sub_events s .& (~. event)) s.

(** The record [gam_subscription_new] builds. *)
Definition new_subscription (path : string) (events reqno : Z) (is_dir : bool) (options : Z)
  : GamSubscription :=
  sub_set_event (GAMIN_EVENT_EXISTS .| GAMIN_EVENT_ENDEXISTS)
    (mk_sub path events reqno (strlen path) options is_dir false None).

Section Writers.
Context {os : OS} {kern : KernelState}.
Abbreviation M := (ST server).

Definition gam_subscription_new (path : string) (events reqno : Z) (is_dir : bool)
  (options : Z) : M ptr :=
  alloc (new_subscription path events reqno is_dir options).

Definition gam_subscription_free (sub : option ptr) : M unit :=
  match sub with None => mret tt | Some p => dealloc GamSubscription p end.

Definition gam_subscription_set_listener (sub : option ptr) (listener : ptr) : M unit :=
  match sub with None => mret tt | Some p => update p (set_sub_listener (Some listener)) end.

Definition gam_subscription_set_event (sub : option ptr) (event : Z) : M unit :=
  match sub with None => mret tt | Some p => update p (sub_set_event event) end.

Definition gam_subscription_unset_event (sub : option ptr) (event : Z) : M unit :=
  match sub with None => mret tt | Some p => update p (sub_unset_event event) end.

Definition gam_subscription_cancel (sub : option ptr) : M unit :=
  match sub with None => mret tt | Some p => update p (set_sub_cancelled true) end.
End Writers.

(** ** Properties *)

(** A single event flag. *)
Definition is_flag (f : Z) : Prop := exists n, 0 <= n /\ f = Z.shiftl 1 n.

Lemma has_event_flag s n :
  0 <= n -> gam_subscription_has_event (Some s) (Z.shiftl 1 n) = Z.testbit (sub_events s) n.
Proof.
  intros Hn. unfold gam_subscription_has_event. simpl. rewrite Z.shiftl_1_l.
  destruct (Z.testbit (sub_events s) n) eqn:E.
  - apply ztest_true. intros H0.
    assert (Z.testbit (sub_events s .& 2 ^ n) n = true) as H.
    { rewrite Z.land_spec, E, Z.pow2_bits_true by done. done. }
    by rewrite H0, Z.bits_0 in H.
  - apply ztest_false. apply Z.bits_inj_iff. intros m.
    rewrite Z.land_spec, Z.bits_0. destruct (decide (m = n)) as [->|Hne]; [by rewrite E|].
    rewrite Z.pow2_bits_false by lia. apply andb_false_r.
Qed.

(** The delivery decision.  A subscription accepts an event [event <> 0]
    about [name] exactly when it is not cancelled; it listens to that event;
    the client did not opt out of the Exists/EndExist listing it belongs to;
    [name] is the subscribed path or the subscription is a directory one; and,
    unless forced, the event is not a directory's own Exists, Changed or
    EndExist seen by the subscription to that very directory. *)
Theorem wants_event_spec (s : GamSubscription) (name : string) (is_dir_node : bool) (event : Z)
  (force : bool) :
  gam_subscription_wants_event (Some s) (Some name) is_dir_node event force = true <->
  event <> 0 /\ sub_cancelled s = false /\ sub_events s .& event <> 0 /\
  ~ (sub_options s .& GAM_OPT_NOEXISTS <> 0 /\
     (event = GAMIN_EVENT_EXISTS \/ event = GAMIN_EVENT_ENDEXISTS)) /\
  (sub_is_dir s = true \/ name = sub_path s) /\
  ~ (force = false /\ sub_is_dir s = true /\ is_dir_node = true /\ name = sub_path s /\
     (event = GAMIN_EVENT_EXISTS \/ event = GAMIN_EVENT_CHANGED \/
      event = GAMIN_EVENT_ENDEXISTS)).
Proof.
  unfold gam_subscription_wants_event, gam_subscription_has_event.
  destruct (Z.eqb_spec event 0) as [E|E]; [split; [done|by intros (? & _)]|].
  destruct (sub_cancelled s); [split; [done|by intros (_ & ? & _)]|].
  rewrite <- (ztest_true (sub_options s .& _)), <- (ztest_true (sub_events s .& event)).
  rewrite <- !(Z.eqb_eq event), (proj2 (Z.eqb_neq event 0) E), <- (String.eqb_eq name).
  destruct (ztest (sub_options s .& _)), (event =? GAMIN_EVENT_EXISTS),
    (event =? GAMIN_EVENT_ENDEXISTS); simpl; try (split; [done|]; tauto).
  all: destruct (String.eqb name (sub_path s)), (sub_is_dir s); simpl;
    try (split; [done|]; intuition congruence).
  all: destruct (ztest (sub_events s .& event)); simpl; [|split; [done|]; intuition congruence].
  all: destruct force, is_dir_node, (event =? GAMIN_EVENT_CHANGED); simpl; intuition congruence.
Qed.

(** Event masks behave as sets of flags.  Setting and then unsetting one
    event on a subscription leaves every other event's acceptance as it was
    and makes the event itself refused; setting it makes it accepted; and a
    new subscription accepts Exists and EndExist whatever mask it was given. *)
Theorem event_mask_flags (s : GamSubscription) (m n : Z) :
  0 <= m -> 0 <= n ->
  let has s k := gam_subscription_has_event (Some s) (Z.shiftl 1 k) in
  has (sub_set_event (Z.shiftl 1 m) s) n = (m =? n) || has s n /\
  has (sub_unset_event (Z.shiftl 1 m) s) n = negb (m =? n) && has s n /\
  forall path events reqno is_dir options,
    has (new_subscription path events reqno is_dir options) 8 = true /\
    has (new_subscription path events reqno is_dir options) 9 = true.
Proof.
  intros Hm Hn has. subst has. cbv beta. rewrite !has_event_flag by done.
  unfold sub_set_event, sub_unset_event, set_sub_events. cbn [sub_events].
  rewrite Z.lor_spec, Z.land_spec, Z.lnot_spec, Z.shiftl_1_l, Z.pow2_bits_eqb by lia.
  split; [apply orb_comm|]. split; [apply andb_comm|].
  intros path events reqno is_dir options. rewrite !has_event_flag by lia.
  unfold new_subscription, sub_set_event, set_sub_events. cbn [sub_events].
  rewrite !Z.lor_spec, !orb_true_iff. split; right; [by left|by right].
Qed.

Lemma event_mask_flags_witness :
  0 <= 5 /\ 0 <= 4 /\
  gam_subscription_has_event
    (Some (sub_set_event (Z.shiftl 1 5) (new_subscription "/a" 16 1 false 0))) (Z.shiftl 1 4) = true.
Proof.
  split; [lia|]. split; [lia|].
  rewrite (proj1 (event_mask_flags (new_subscription "/a" 16 1 false 0) 5 4 ltac:(lia) ltac:(lia))).
  reflexivity.
Defined.
