(* ===== verification/Listener.v ===== *)
(** * Listeners ([server/gam_listener.c])

    A listener is a client: its connection, process and subscriptions.  The
    operations that dispatch to the backends ([gam_listener_free] and its
    helper) are in [Server]. *)

From S2P Require Import Prelude Protocol Monad OS State Subscription.

Local Open Scope Z_scope.

(** ** Searching the subscriptions of a listener *)

Section Listener.
Context {os : OS} {kern : KernelState}.
Abbreviation M := (ST server).

(** [gam_listener_new]: the process name is read from [/proc]. *)
Definition gam_listener_new (service : ptr) (pid : Z) : M ptr :=
  _ ← g_assert (negb (pid =? 0));
  pidname ← sys (proc_name pid);
  alloc (mk_listener service pid pidname []).

Definition gam_listener_get_service (listener : ptr) : M ptr :=
  l ← load listener; mret (ln_service l).

Definition gam_listener_get_pid (listener : ptr) : M Z :=
  l ← load listener; mret (ln_pid l).

Definition gam_listener_get_pidname (listener : ptr) : M string :=
  l ← load listener; mret (ln_pidname l).

(** The loops over [listener->subs]. *)
Fixpoint find_sub (test : GamSubscription -> bool) (l : list ptr) : M (option ptr) :=
  match l with
  | [] => mret None
  | p :: l' =>
      sub ← load p;
      if test sub then mret (Some p) else find_sub test l'
  end.

Definition gam_listener_get_subscription (listener : ptr) (path : string) : M (option ptr) :=
  l ← load listener;
  find_sub (fun sub => String.eqb (sub_path sub) path) (ln_subs l).

Definition gam_listener_get_subscription_by_reqno (listener : ptr) (reqno : Z)
  : M (option ptr) :=
  l ← load listener;
  find_sub (fun sub => gam_subscription_get_reqno (Some sub) =? reqno) (ln_subs l).

Definition gam_listener_is_subscribed (listener : ptr) (path : string) : M bool :=
  o ← gam_listener_get_subscription listener path;
  mret (match o with Some _ => true | None => false end).

Definition gam_listener_add_subscription (listener sub : ptr) : M unit :=
  l ← load listener;
  _ ← g_assert (negb (g_list_find (ln_subs l) sub));
  update listener (set_ln_subs (sub :: ln_subs l)).

Definition gam_listener_remove_subscription (listener sub : ptr) : M unit :=
  l ← load listener;
  _ ← g_assert (g_list_find (ln_subs l) sub);
  _ ← update listener (set_ln_subs (g_list_remove (ln_subs l) sub));
  l ← load listener;
  g_assert (negb (g_list_find (ln_subs l) sub)).

Definition gam_listener_get_subscriptions (listener : ptr) : M (list ptr) :=
  l ← load listener; mret (ln_subs l).

(** ** Properties *)

(** The pure search the loop performs. *)
Lemma find_sub_spec test l s :
  (forall p, p ∈ l -> is_Some (subs (sv_heap s) !! p)) ->
  exists o, find_sub test l s = Ok (o, s) /\
    match o with
    | Some p => exists l1 l2 sub, l = l1 ++ p :: l2 /\ subs (sv_heap s) !! p = Some sub /\
        test sub = true /\
        forall q sub', q ∈ l1 -> subs (sv_heap s) !! q = Some sub' -> test sub' = false
    | None => forall q sub', q ∈ l -> subs (sv_heap s) !! q = Some sub' -> test sub' = false
    end.
Proof.
  induction l as [|p l IH]; intros Hl; simpl; [exists None; set_solver|].
  destruct (Hl p) as [sub Hp]; [set_solver|].
  erewrite bind_Ok by (unfold load, objs; simpl; rewrite Hp; reflexivity).
  destruct (test sub) eqn:Ht.
  - exists (Some p). split; [done|]. exists [], l, sub. set_solver.
  - destruct IH as (o & -> & Ho); [set_solver|]. exists o. split; [done|].
    destruct o as [q|].
    + destruct Ho as (l1 & l2 & sub' & -> & H1 & H2 & H3).
      exists (p :: l1), l2, sub'. split; [done|]. split; [done|]. split; [done|].
      intros q' sub'' Hin Hq'. apply elem_of_cons in Hin as [->|Hin]; [congruence|eauto].
    + intros q sub' Hin Hq. apply elem_of_cons in Hin as [->|Hin]; [congruence|eauto].
Qed.
End Listener.
