(* ===== verification/ConnSend.v ===== *)
(** * Sending on a connection ([server/gam_connection.c], [server/gam_channel.c])

    [gam_client_conn_write] and the three functions that produce outgoing
    messages: [gam_send_event], [gam_queue_event] and [gam_send_ack]. *)

From S2P Require Import Prelude Protocol EventQueue Monad OS State.

Local Open Scope Z_scope.

(** The FAM code of a server event; [None] in the [default] case. *)
Definition fam_of_event (event : Z) : option Z :=
  if event =? GAMIN_EVENT_CHANGED then Some FAMChanged
  else if event =? GAMIN_EVENT_CREATED then Some FAMCreated
  else if event =? GAMIN_EVENT_DELETED then Some FAMDeleted
  else if event =? GAMIN_EVENT_MOVED then Some FAMMoved
  else if event =? GAMIN_EVENT_EXISTS then Some FAMExists
  else if event =? GAMIN_EVENT_ENDEXISTS then Some FAMEndExist
  else None.

Section Send.
Context {os : OS} {kern : KernelState}.
Abbreviation M := (ST server).

(** The loop of [gam_client_conn_write]: [fuel] bounds the calls of [write]. *)
Fixpoint conn_write_loop (fuel : nat) (fd : Z) (data : list byte) : M bool :=
  match fuel with
  | O => fail OutOfFuel
  | S fuel =>
      r ← sys (sys_write fd data);
      match r with
      | SysErr e =>
          if e =? EINTR then
            (** [continue] jumps to the loop condition *)
            if bool_decide (data = []) then mret true else conn_write_loop fuel fd data
          else mret false
      | SysOk written =>
          let data := drop (Z.to_nat written) data in
          if bool_decide (data = []) then mret true else conn_write_loop fuel fd data
      end
  end.

(** [gam_client_conn_write].  Each call of [write] takes a byte or is one of
    the interrupted ones, which bounds their number. *)
Definition gam_client_conn_write (fd : Z) (data : list byte) : M bool :=
  if fd <? 0 then mret false
  else
    n ← gets (fun s => interrupts (sv_world s));
    conn_write_loop (S (length data + n)) fd data.

(** The tail that [gam_send_event] and [gam_send_ack] share: the packet is
    built and written. *)
Definition send_packet (c : GamConnData) (reqno type : Z) (path : string) : M Z :=
  ret ← gam_client_conn_write (cn_fd c)
          (packet_bytes (make_packet reqno type (bytes_of_path path)));
  mret (if negb ret then -1 else 0).

(** [gam_send_event]; [path[len] == 0] means that [len] is [strlen(path)]. *)
Definition gam_send_event (conn : ptr) (reqno event : Z) (path : string) (len : Z)
  : M Z :=
  c ← load conn;
  _ ← g_assert (cn_fd c >=? 0);
  _ ← g_assert (len =? strlen path);
  if len >=? MAXPATHLEN then mret (-1)
  else
    match fam_of_event event with
    | None => mret (-1)
    | Some type => send_packet c reqno type path
    end.

(** [gam_queue_event]: [g_timeout_add] arms the flush timer. *)
Definition gam_queue_event (conn : ptr) (reqno event : Z) (path : string) (len : Z) : M unit :=
  c ← load conn;
  _ ← g_assert (match cn_eq c with Some _ => true | None => false end);
  _ ← update conn (set_cn_eq (gam_eq_queue (cn_eq c) reqno event path len));
  c ← load conn;
  when (negb (cn_eq_source c)) (update conn (set_cn_eq_source true)).

Definition gam_send_ack (conn : ptr) (reqno : Z) (path : string) (len : Z) : M Z :=
  c ← load conn;
  _ ← g_assert (cn_fd c >=? 0);
  _ ← g_assert (len >? 0);
  _ ← g_assert (len =? strlen path);
  if len >=? MAXPATHLEN then mret (-1)
  else send_packet c reqno FAMAcknowledge path.
End Send.

(** ** Properties *)

Lemma set_sv_world_idem {os : OS} {kern : KernelState} w w' s :
  set_sv_world w (set_sv_world w' s) = set_sv_world w s.
Proof. done. Qed.

Section SendProofs.
Context {os : OS} {kern : KernelState} {laws : OSLaws os}.

(** What a write may do: only the world changes, and on [fd] a prefix of the
    data comes out; all of it exactly when the write reports success. *)
Definition wrote (fd : Z) (data : list byte) (s : server) (ok : bool) (s' : server) : Prop :=
  exists (w' : world) k, s' = set_sv_world w' s /\ (k <= length data)%nat /\
    written fd w' = written fd (sv_world s) ++ take k data /\
    (forall fd', fd' <> fd -> written fd' w' = written fd' (sv_world s)) /\
    (ok = true <-> k = length data).

Lemma conn_write_loop_world fuel fd data (s : server) :
  conn_write_loop fuel fd data s =
  match write_loop fuel fd data (sv_world s) with
  | Ok (b, w) => Ok (b, set_sv_world w s)
  | Fault e => Fault e
  end.
Proof.
  revert data s. induction fuel as [|fuel IH]; intros data s; [done|]. simpl.
  unfold mbind, ST_bind, sys. destruct (sys_write fd data (sv_world s)) as [[n|e] w'].
  - case_bool_decide; [done|]. by rewrite IH.
  - destruct (e =? EINTR); [|done]. case_bool_decide; [done|]. by rewrite IH.
Qed.

Lemma wp_conn_write_loop fuel fd data (s : server) :
  data <> [] -> (length data + interrupts (sv_world s) < fuel)%nat ->
  wp (conn_write_loop fuel fd data) (wrote fd data s) s.
Proof.
  intros Hd Hf. unfold wp. rewrite conn_write_loop_world.
  destruct (write_loop_spec fuel fd data (sv_world s) Hd Hf) as (ok & w' & -> & k & Hk). by exists w', k.
Qed.

Lemma wp_conn_write fd data (s : server) :
  0 <= fd -> data <> [] -> wp (gam_client_conn_write fd data) (wrote fd data s) s.
Proof.
  intros Hfd Hd. unfold gam_client_conn_write.
  rewrite (proj2 (Z.ltb_ge fd 0)) by done.
  apply wp_bind, wp_gets, wp_conn_write_loop; [done|lia].
Qed.

(** What a send leaves: the packet was written as [wrote] says, and the result
    code tells whether all of it was. *)
Definition sent (fd : Z) (p : GAMPacket) (s : server) (r : Z) (s' : server) : Prop :=
  exists ok : bool, r = (if ok then 0 else -1) /\ wrote fd (packet_bytes p) s ok s'.

Lemma wp_send_packet c reqno type path (s : server) :
  0 <= cn_fd c ->
  wp (send_packet c reqno type path)
    (sent (cn_fd c) (make_packet reqno type (bytes_of_path path)) s) s.
Proof.
  intros Hfd. unfold send_packet. apply wp_bind.
  eapply wp_mono; [apply wp_conn_write; [done|apply packet_bytes_nonempty]|].
  intros ok s' Hw. apply wp_ret. exists ok. by destruct ok.
Qed.

(** The invariant-level view: sending on a live connection never faults and
    changes only the world. *)
Lemma wp_gam_send_event conn c reqno event path (s : server) :
  conns (sv_heap s) !! conn = Some c -> 0 <= cn_fd c ->
  wp (gam_send_event conn reqno event path (strlen path))
    (fun r s' => exists w', s' = set_sv_world w' s) s.
Proof.
  intros Hc Hfd. unfold gam_send_event. apply wp_bind. eapply wp_load; [exact Hc|].
  apply wp_bind, wp_assert; [by apply Z.geb_le|]. apply wp_bind, wp_assert; [apply Z.eqb_refl|].
  assert (exists w' : world, s = set_sv_world w' s) as Hs by (exists (sv_world s); by destruct s).
  destruct (_ >=? _); [by apply wp_ret|]. destruct (fam_of_event event); [|by apply wp_ret].
  eapply wp_mono; [by apply wp_send_packet|].
  intros r s' (ok & -> & w' & k & -> & _); eauto.
Qed.

Lemma wp_gam_send_ack conn c reqno path (s : server) :
  conns (sv_heap s) !! conn = Some c -> 0 <= cn_fd c -> path <> ""%string ->
  wp (gam_send_ack conn reqno path (strlen path)) (fun _ s' => exists w', s' = set_sv_world w' s) s.
Proof.
  intros Hc Hfd Hp. unfold gam_send_ack. apply wp_bind. eapply wp_load; [exact Hc|].
  apply wp_bind, wp_assert; [by apply Z.geb_le|]. apply wp_bind, wp_assert.
  { destruct path; [done|]. apply Z.gtb_lt. unfold strlen. cbn [String.length]. lia. }
  apply wp_bind, wp_assert; [apply Z.eqb_refl|].
  destruct (_ >=? _); [apply wp_ret; exists (sv_world s); by destruct s|].
  eapply wp_mono; [by apply wp_send_packet|]. intros r s' (ok & -> & w' & k & -> & _); eauto.
Qed.

(** C30: an event on the wire.  On an open connection [gam_send_event]
    returns without a fault.  It returns 0 only for a known event whose path
    is shorter than [MAXPATHLEN], and then exactly one whole packet has been
    appended to the connection's output, in however many interrupted or
    partial writes, which decodes to the event's FAM code, the path, and the
    request number modulo 65536; other outputs do not change.  When it
    returns -1, at most a strict prefix of that packet came out. *)
Theorem send_event_wire conn c reqno event path (s : server) :
  conns (sv_heap s) !! conn = Some c -> 0 <= cn_fd c ->
  exists r (w' : world), gam_send_event conn reqno event path (strlen path) s
               = Ok (r, set_sv_world w' s) /\
    (r = 0 \/ r = -1) /\
    (r = 0 -> exists type, fam_of_event event = Some type /\ strlen path < MAXPATHLEN /\
       let p := make_packet reqno type (bytes_of_path path) in
       written (cn_fd c) w' = written (cn_fd c) (sv_world s) ++ packet_bytes p /\
       pk_seq p = reqno mod 65536 /\
       forall more, read_packet (packet_bytes p ++ more) = Some p) /\
    (r = -1 -> w' = sv_world s \/ exists type k, fam_of_event event = Some type /\
       let p := make_packet reqno type (bytes_of_path path) in
       written (cn_fd c) w' = written (cn_fd c) (sv_world s) ++ take k (packet_bytes p) /\
       (k < length (packet_bytes p))%nat) /\
    (forall fd, fd <> cn_fd c -> written fd w' = written fd (sv_world s)).
Proof.
  intros Hc Hfd.
  assert (exists w' : world, s = set_sv_world w' s /\ w' = sv_world s) as (w0 & Hs & Hw0)
    by (exists (sv_world s); by destruct s).
  unfold gam_send_event. erewrite bind_Ok by exact (load_conn_Ok _ _ _ Hc).
  assert (cn_fd c >=? 0 = true) as Hge by lia. rewrite Hge, Z.eqb_refl. simpl.
  unfold mbind at 1 2, ST_bind. simpl.
  assert (exists r (w' : world), Ok (-1, s) = Ok (r, set_sv_world w' s) /\ (r = 0 \/ r = -1) /\
    r <> 0 /\ w' = sv_world s) as Hfail by (exists (-1), w0; rewrite <- Hs; auto).
  destruct (strlen path >=? MAXPATHLEN) eqn:Hlen;
    [|destruct (fam_of_event event) as [type|] eqn:Hty].
  1, 3: destruct Hfail as (r & w' & Heq & Hr & Hr0 & ->);
    exists r, (sv_world s); split; [exact Heq|]; split; [done|]; split; [done|];
    split; [by left|done].
  destruct (wp_Ok _ _ _ (wp_send_packet c reqno type path s Hfd))
    as (r & s' & Heq & ok & -> & w' & k & -> & Hk & Hw & Hw' & Hok).
  - exists (if ok then 0 else -1), w'. split; [exact Heq|].
    split; [by destruct ok; auto|]. split; [|split; [|done]].
    + intros Hr. assert (ok = true) as -> by (by destruct ok).
      apply proj1 in Hok. specialize (Hok eq_refl). subst k.
      assert (strlen path < MAXPATHLEN) as Hlt by lia.
      exists type. split; [done|]. split; [done|]. simpl.
      rewrite Hw, firstn_all. split; [done|]. split; [done|].
      intros more. apply read_packet_app_bytes. rewrite length_bytes_of_path.
      unfold strlen, MAXPATHLEN in Hlt. lia.
    + intros Hr. right. exists type, k. split; [done|]. cbv zeta. split; [done|].
      destruct ok; [done|]. assert (k <> length (packet_bytes (make_packet reqno type
        (bytes_of_path path)))) by (intros E; by apply Hok in E). by apply Nat.le_neq.
Qed.
End SendProofs.

(** ** Witness: two interrupted and then partial writes *)

Definition demo_conn : GamConnData :=
  mk_conn GAM_STATE_OKAY 7 42 "client" 0 [] None (Some []) true.
Definition demo_send_world : sim_world := mk_sim [] [] [] 0 [] 2 3.
Definition demo_send : @server sim_os no_kernel :=
  upd_heap (set_conns {[5%positive := demo_conn]})
    (@server_initial sim_os no_kernel tt demo_send_world).

Lemma send_event_wire_witness :
  conns (sv_heap demo_send) !! 5%positive = Some demo_conn /\ 0 <= cn_fd demo_conn /\
  exists r (w' : @world sim_os), gam_send_event 5%positive 70000 GAMIN_EVENT_CREATED "/tmp/x" (strlen "/tmp/x") demo_send
    = Ok (r, set_sv_world w' demo_send) /\ r = 0 /\
    sim_output 7 w' = packet_bytes (make_packet 70000 FAMCreated (bytes_of_path "/tmp/x")).
Proof.
  assert (conns (sv_heap demo_send) !! 5%positive = Some demo_conn) as Hc by reflexivity.
  split; [exact Hc|]. split; [unfold demo_conn; simpl; lia|].
  destruct (send_event_wire 5%positive demo_conn 70000 GAMIN_EVENT_CREATED "/tmp/x" demo_send Hc
    ltac:(simpl; lia)) as (r & w' & Heq & _).
  exists r, w'. split; [exact Heq|].
  vm_compute in Heq. inversion Heq. vm_compute. split; reflexivity.
Defined.
