(* ===== verification/Node.v ===== *)
(** * Nodes ([server/gam_node.c])

    A node is a monitored path with its subscriptions, its place in the tree
    and the polling state.  Flag arguments must be a single bit, which the
    code asserts. *)

From S2P Require Import Prelude Protocol Monad OS Fs State.
From S2P Require Import Subscription.

Local Open Scope Z_scope.

Definition FLAG_NEW_NODE : Z := 32.
Definition MON_MISSING : Z := 1.
Definition MON_NOKERNEL : Z := 2.
Definition MON_BUSY : Z := 4.
Definition MON_WRONG_TYPE : Z := 8.
Definition MON_ALL_PFLAGS : Z := MON_MISSING .| MON_NOKERNEL .| MON_BUSY .| MON_WRONG_TYPE.

(** [(flag & (flag - 1)) == 0] *)
Definition one_flag (flag : Z) : bool := (flag .& (flag - 1)) =? 0.

Section Node.
Context {os : OS} {glib : GLib} {kern : KernelState}.
Abbreviation M := (ST server).

Definition gam_node_new (path : string) (sub : option ptr) (is_dir : bool) : M ptr :=
  poll_time ← fs_call (gam_fs_get_poll_timeout path);
  mon_type ← fs_call (gam_fs_get_mon_type path);
  alloc (mk_node path (match sub with Some p => [p] | None => [] end) false None [] is_dir
           0 poll_time mon_type 0 0 0 0 stat_zero).

Definition gam_node_free (node : ptr) : M unit :=
  n ← load node;
  _ ← g_assert (bool_decide (nd_subs n = []));
  dealloc GamNode node.

Definition gam_node_parent (node : ptr) : M (option ptr) :=
  n ← load node;
  mret (if nd_node n then nd_parent n else None).

Definition gam_node_is_dir (node : ptr) : M bool := n ← load node; mret (nd_is_dir n).
Definition gam_node_set_is_dir (node : ptr) (is_dir : bool) : M unit :=
  update node (set_nd_is_dir is_dir).
Definition gam_node_get_path (node : ptr) : M string := n ← load node; mret (nd_path n).
Definition gam_node_get_subscriptions (node : ptr) : M (list ptr) :=
  n ← load node; mret (nd_subs n).

(** The loop of [gam_node_has_dir_subscriptions]. *)
Fixpoint any_dir_sub (l : list ptr) : M bool :=
  match l with
  | [] => mret false
  | p :: l' =>
      sub ← load p;
      if gam_subscription_is_dir (Some sub) then mret true else any_dir_sub l'
  end.

(** [None] is a NULL node, which the code asserts against. *)
Definition gam_node_has_dir_subscriptions (node : option ptr) : M bool :=
  match node with
  | None => fail AssertFailed
  | Some node =>
      n ← load node;
      if negb (nd_is_dir n) then mret false else any_dir_sub (nd_subs n)
  end.

Definition gam_node_add_subscription (node : option ptr) (sub : ptr) : M bool :=
  match node with
  | None => fail AssertFailed
  | Some node =>
      n ← load node;
      _ ← g_assert (negb (g_list_find (nd_subs n) sub));
      _ ← update node (set_nd_subs (sub :: nd_subs n));
      mret true
  end.

Definition gam_node_remove_subscription (node sub : ptr) : M bool :=
  n ← load node;
  _ ← g_assert (g_list_find (nd_subs n) sub);
  _ ← update node (set_nd_subs (g_list_remove_all (nd_subs n) sub));
  mret true.

Definition gam_node_set_flag (node : ptr) (flag : Z) : M unit :=
  _ ← g_assert (one_flag flag);
  update node (fun n => set_nd_flags (nd_flags n .| flag) n).
Definition gam_node_unset_flag (node : ptr) (flag : Z) : M unit :=
  _ ← g_assert (one_flag flag);
  update node (fun n => set_nd_flags (nd_flags n .& (~. flag)) n).
Definition gam_node_has_flag (node : ptr) (flag : Z) : M bool :=
  _ ← g_assert (one_flag flag);
  n ← load node; mret (ztest (nd_flags n .& flag)).

Definition gam_node_set_pflag (node : ptr) (flag : Z) : M unit :=
  _ ← g_assert (one_flag flag);
  update node (fun n => set_nd_pflags (nd_pflags n .| flag) n).
Definition gam_node_unset_pflag (node : ptr) (flag : Z) : M unit :=
  _ ← g_assert (one_flag flag);
  update node (fun n => set_nd_pflags (nd_pflags n .& (~. flag)) n).
Definition gam_node_has_pflag (node : ptr) (flag : Z) : M bool :=
  _ ← g_assert (one_flag flag);
  n ← load node; mret (ztest (nd_pflags n .& flag)).
Definition gam_node_set_pflags (node : ptr) (flags : Z) : M unit :=
  update node (set_nd_pflags flags).
Definition gam_node_has_pflags (node : ptr) (flags : Z) : M bool :=
  n ← load node; mret (ztest (nd_pflags n .& flags)).
End Node.
