(* ===== verification/Tree.v ===== *)
(** * The tree of nodes ([server/gam_tree.c])

    The tree is the [GNode] links stored in the nodes, a root for [/] and a
    hash table from path to node.  The root itself is not in the table. *)

From S2P Require Import Prelude Protocol Monad OS Fs State.
From S2P Require Import Subscription Node.

Local Open Scope Z_scope.

(** [path[i] == '/'] *)
Definition is_slash_at (path : string) (i : nat) : bool :=
  match String.get i path with Some a => Ascii.eqb a slash | None => false end.

(** The prefixes of [path] that end just before one of its slashes at position
    1 or later: the directories [gam_tree_add_at_path] visits, in order. *)
Definition dir_prefixes (path : string) : list string :=
  (fun i => str_take i path) <$>
    filter (fun i => is_slash_at path i = true) (seq 1 (String.length path - 1)).

Section Tree.
Context {os : OS} {glib : GLib} {kern : KernelState}.
Abbreviation M := (ST server).

(** [new_node]: the [GNode] of a node, not yet linked. *)
Definition new_node (node : ptr) : M unit :=
  update node (fun n => set_nd_node true (set_nd_parent None (set_nd_children [] n))).

Definition gam_tree_new : M unit :=
  root ← gam_node_new "/" None true;
  _ ← new_node root;
  modify (upd_tree (fun _ => mk_tree (Some root) ∅)).

(** [g_node_append(parent->node, node)] *)
Definition g_node_append (parent node : ptr) : M unit :=
  p ← load parent;
  _ ← g_assert (nd_node p);
  _ ← update parent (fun p => set_nd_children (nd_children p ++ [node]) p);
  update node (set_nd_parent (Some parent)).

(** [g_node_unlink]: out of the parent's children. *)
Definition g_node_unlink (node : ptr) : M unit :=
  n ← load node;
  match nd_parent n with
  | None => mret tt
  | Some parent =>
      _ ← update parent (fun p => set_nd_children (g_list_remove (nd_children p) node) p);
      update node (set_nd_parent None)
  end.

Definition gam_tree_get_at_path (path : string) : M (option ptr) :=
  gets (fun s => node_hash (sv_tree s) !! path).

Definition gam_tree_add (parent child : ptr) : M bool :=
  path ← gam_node_get_path child;
  o ← gam_tree_get_at_path path;
  match o with
  | Some _ => mret false
  | None =>
      _ ← new_node child;
      _ ← g_node_append parent child;
      _ ← modify (upd_tree (fun t => mk_tree (tree_root t) (<[path := child]> (node_hash t))));
      mret true
  end.

(** [g_node_is_ancestor(root, node)]: following the parent links from [node]
    upwards, for at most [fuel] steps. *)
Fixpoint g_node_is_ancestor (fuel : nat) (root node : ptr) : M bool :=
  match fuel with
  | O => fail OutOfFuel
  | S fuel =>
      n ← load node;
      match nd_parent n with
      | None => mret false
      | Some p => if decide (p = root) then mret true else g_node_is_ancestor fuel root p
      end
  end.

Definition gam_tree_has_children (node : ptr) : M bool :=
  n ← load node; mret (negb (bool_decide (nd_children n = []))).

(** [gam_tree_remove]; no path upwards is longer than the number of nodes. *)
Definition gam_tree_remove (node : ptr) : M bool :=
  root ← gets (fun s => tree_root (sv_tree s));
  root ← deref root;
  fuel ← gets (fun s => size (nodes (sv_heap s)));
  below ← g_node_is_ancestor fuel root node;
  if below : bool then
    b ← gam_tree_has_children node;
    _ ← g_assert (negb b);
    path ← gam_node_get_path node;
    _ ← modify (upd_tree (fun t => mk_tree (tree_root t) (delete path (node_hash t))));
    _ ← g_node_unlink node;
    _ ← gam_node_free node;
    mret true
  else mret false.

(** The loop of [gam_tree_add_at_path] over the slashes of the path. *)
Fixpoint add_parents (prefixes : list string) (parent : ptr) : M ptr :=
  match prefixes with
  | [] => mret parent
  | path_cpy :: rest =>
      o ← gam_tree_get_at_path path_cpy;
      match o with
      | Some new_parent => add_parents rest new_parent
      | None =>
          new_parent ← gam_node_new path_cpy None true;
          _ ← gam_tree_add parent new_parent;
          add_parents rest new_parent
      end
  end.

(** [gam_tree_add_at_path]: [None] is the NULL returned for an empty path. *)
Definition gam_tree_add_at_path (path : string) (is_dir : bool) : M (option ptr) :=
  if bool_decide (path = ""%string) then mret None
  else
    o ← gam_tree_get_at_path path;
    match o with
    | Some node => mret (Some node)
    | None =>
        exists_ ← sys (file_exists path);
        is_dir ← (if exists_ : bool then sys (file_is_dir path) else mret is_dir);
        root ← gets (fun s => tree_root (sv_tree s));
        root ← deref root;
        parent ← add_parents (dir_prefixes path) root;
        node ← gam_node_new path None is_dir;
        _ ← gam_tree_add parent node;
        mret (Some node)
    end.

(** [gam_tree_get_children]: the list is built by prepending. *)
Definition gam_tree_get_children (root : ptr) : M (list ptr) :=
  n ← load root;
  mret (if nd_node n then reverse (nd_children n) else []).

Definition gam_tree_get_size : M nat := gets (fun s => size (node_hash (sv_tree s))).
End Tree.
