(* ===== verification/Inv.v ===== *)
(** * The invariant of the polling daemon

    What the pointers of the store may be relied on for: the tree is a tree
    whose nodes are exactly those of the hash table (and the root), every
    subscription a node or a listener mentions is alive, registered at the node
    of its path, and leads to a live connection, and the resource lists hold
    live nodes.  The file has the invariant and the structural lemmas: how it
    survives adding and removing a node and changing a node's polling state. *)

From S2P Require Import Prelude Protocol EventQueue Monad OS Excludes.
From S2P Require Import Fs State Subscription Listener ConnSend Node.
From S2P Require Import Tree.

Local Open Scope Z_scope.

(** ** The tree *)

Definition has_new (x : GamNode) : bool := ztest (nd_flags x .& FLAG_NEW_NODE).

(** [tree_ok t ns root]: the nodes [ns] form the tree [t].  Parents are older
    than their children, so parent links cannot run in circles. *)
Record tree_ok (t : tree) (ns : gmap ptr GamNode) (root : ptr) : Prop := {
  to_root : tree_root t = Some root;
  to_root_node : exists x, ns !! root = Some x /\ nd_parent x = None;
  to_hash path n : node_hash t !! path = Some n ->
    n <> root /\ exists x, ns !! n = Some x /\ nd_path x = path;
  to_all n x : ns !! n = Some x -> n <> root ->
    node_hash t !! nd_path x = Some n /\ is_Some (nd_parent x);
  to_linked n x : ns !! n = Some x -> nd_node x = true;
  to_parent n x p : ns !! n = Some x -> nd_parent x = Some p ->
    (p < n)%positive /\ exists y, ns !! p = Some y /\ n ∈ nd_children y;
  to_children p y n : ns !! p = Some y -> n ∈ nd_children y ->
    exists x, ns !! n = Some x /\ nd_parent x = Some p;
  to_nodup p y : ns !! p = Some y -> NoDup (nd_children y)
}.

(** Two nodes that agree on everything the tree and the subscriptions need. *)
Definition same_core (x y : GamNode) : Prop :=
  nd_path y = nd_path x /\ nd_subs y = nd_subs x /\ nd_node y = nd_node x /\
  nd_parent y = nd_parent x /\ nd_children y = nd_children x.

(** Nodes at the same place of the tree. *)
Definition same_place (x y : GamNode) : Prop :=
  nd_path y = nd_path x /\ nd_node y = nd_node x /\ nd_parent y = nd_parent x /\
  nd_children y = nd_children x.

(** Changing the rest of a node does not matter. *)
Lemma tree_ok_place t ns root n x y :
  tree_ok t ns root -> ns !! n = Some x -> same_place x y -> tree_ok t (<[n := y]> ns) root.
Proof.
  intros H Hn (Ep & El & Er & Ec).
  assert (forall (m : ptr) z, <[n := y]> ns !! m = Some z -> exists z', ns !! m = Some z' /\
    nd_path z = nd_path z' /\ nd_node z = nd_node z' /\ nd_parent z = nd_parent z' /\
    nd_children z = nd_children z') as Hfwd.
  { intros m z. rewrite lookup_insert_Some. intros [[<- <-]|[? Hm]]; eauto 10. }
  assert (forall (m : ptr) z, ns !! m = Some z -> exists z', <[n := y]> ns !! m = Some z' /\
    nd_path z' = nd_path z /\ nd_parent z' = nd_parent z /\ nd_children z' = nd_children z) as Hbwd.
  { intros m z Hm. destruct (decide (n = m)) as [->|].
    - simplify_eq. exists y. by rewrite lookup_insert, decide_True.
    - exists z. by rewrite lookup_insert_ne. }
  split.
  - apply H.
  - destruct (to_root_node _ _ _ H) as (r & Hr & Hp).
    destruct (Hbwd _ _ Hr) as (r' & Hr' & _ & Hp' & _). exists r'. by rewrite Hp'.
  - intros path m Hm. destruct (to_hash _ _ _ H _ _ Hm) as (Hne & z & Hz & Hzp).
    split; [done|]. destruct (Hbwd _ _ Hz) as (z' & Hz' & Hpz & _). exists z'. by rewrite Hpz.
  - intros m z Hm Hne. destruct (Hfwd _ _ Hm) as (z' & Hz' & -> & _ & -> & _).
    by apply (to_all _ _ _ H).
  - intros m z Hm. destruct (Hfwd _ _ Hm) as (z' & Hz' & _ & -> & _).
    by apply (to_linked _ _ _ H _ _ Hz').
  - intros m z p Hm Hp. destruct (Hfwd _ _ Hm) as (z' & Hz' & _ & _ & Epz & _).
    rewrite Epz in Hp. destruct (to_parent _ _ _ H _ _ _ Hz' Hp) as (Hlt & w & Hw & Hin).
    split; [done|]. destruct (Hbwd _ _ Hw) as (w' & Hw' & _ & _ & Hc). exists w'. by rewrite Hc.
  - intros p z m Hp Hin. destruct (Hfwd _ _ Hp) as (z' & Hz' & _ & _ & _ & Hc).
    rewrite Hc in Hin. destruct (to_children _ _ _ H _ _ _ Hz' Hin) as (w & Hw & Hwp).
    destruct (Hbwd _ _ Hw) as (w' & Hw' & _ & Hpw & _). exists w'. by rewrite Hpw.
  - intros p z Hp. destruct (Hfwd _ _ Hp) as (z' & Hz' & _ & _ & _ & ->).
    by apply (to_nodup _ _ _ H _ _ Hz').
Qed.

Lemma tree_ok_core t ns root n x y :
  tree_ok t ns root -> ns !! n = Some x -> same_core x y -> tree_ok t (<[n := y]> ns) root.
Proof. intros H Hn (? & _ & ? & ? & ?). by apply (tree_ok_place _ _ _ n x). Qed.

(** [gam_tree_add] of a node that is not in the tree yet. *)
Section TreeAdd.
Context (t : tree) (ns : gmap ptr GamNode) (root parent n : ptr) (px x : GamNode).
Context (H : tree_ok t (delete n ns) root) (Hpar : ns !! parent = Some px) (Hlt : (parent < n)%positive).
Context (Hl : nd_node x = true) (Hp : nd_parent x = Some parent) (Hc : nd_children x = []).
Context (Hfresh : node_hash t !! nd_path x = None).

Let px' := set_nd_children (nd_children px ++ [n]) px.
Let ns' := <[n := x]> (<[parent := px']> ns).

Lemma add_parent_old : delete n ns !! parent = Some px.
Proof. rewrite lookup_delete_ne; [done|]. intros ->. lia. Qed.

Lemma add_new : ns' !! n = Some x /\ ns' !! parent = Some px'.
Proof.
  subst ns'. rewrite lookup_insert, decide_True by done. split; [done|].
  rewrite lookup_insert_ne by (intros ->; lia). by rewrite lookup_insert, decide_True.
Qed.

(** A node of the new tree is the new one, or an old one up to its children. *)
Lemma add_case m z : ns' !! m = Some z ->
  (m = n /\ z = x) \/
  exists z0, delete n ns !! m = Some z0 /\ nd_path z = nd_path z0 /\ nd_parent z = nd_parent z0 /\
    nd_node z = nd_node z0 /\
    (nd_children z = nd_children z0 \/ (m = parent /\ nd_children z = nd_children z0 ++ [n])).
Proof.
  subst ns'. rewrite !lookup_insert_Some. intros [[<- <-]|[Hm [[<- <-]|[_ Hz]]]]; [by left|right..].
  - exists px. split; [apply add_parent_old|]. by auto 10.
  - exists z. rewrite lookup_delete_ne by done. by auto 10.
Qed.

Lemma add_old m z : delete n ns !! m = Some z ->
  exists z', ns' !! m = Some z' /\ nd_path z' = nd_path z /\ nd_parent z' = nd_parent z /\
    (forall c, c ∈ nd_children z -> c ∈ nd_children z').
Proof.
  rewrite lookup_delete_Some. intros [Hnm Hm]. subst ns'.
  rewrite lookup_insert_ne by done. destruct (decide (m = parent)) as [->|Hmp].
  - rewrite lookup_insert, decide_True by done. simplify_eq. eexists. split; [done|].
    split; [done|]. split; [done|]. intros c Hin. apply elem_of_app. by left.
  - rewrite lookup_insert_ne by done. eauto.
Qed.

Lemma tree_ok_add :
  tree_ok (mk_tree (tree_root t) (<[nd_path x := n]> (node_hash t))) ns' root.
Proof.
  assert (n <> root) as Hroot.
  { destruct (to_root_node _ _ _ H) as (r & Hr & _). intros ->. by rewrite lookup_delete_eq in Hr. }
  destruct add_new as [Hn Hpx']. split; simpl.
  - apply H.
  - destruct (to_root_node _ _ _ H) as (r & Hr & Hrp).
    destruct (add_old _ _ Hr) as (r' & Hr' & _ & Hrp' & _). exists r'. by rewrite Hrp'.
  - intros path m. rewrite lookup_insert_Some. intros [[<- <-]|[_ Hm]]; [by eauto|].
    destruct (to_hash _ _ _ H _ _ Hm) as (Hmr & z & Hz & <-). split; [done|].
    destruct (add_old _ _ Hz) as (z' & Hz' & Hzp & _). exists z'. by rewrite Hzp.
  - intros m z Hm Hmr. destruct (add_case _ _ Hm) as [[-> ->]|(z0 & Hz0 & -> & -> & _)].
    + rewrite lookup_insert, decide_True by done. by rewrite Hp.
    + destruct (to_all _ _ _ H _ _ Hz0 Hmr) as [Hz1 Hz2]. split; [|done].
      rewrite lookup_insert_ne; [done|]. congruence.
  - intros m z Hm. destruct (add_case _ _ Hm) as [[-> ->]|(z0 & Hz0 & _ & _ & -> & _)]; [done|].
    by apply (to_linked _ _ _ H m).
  - intros m z p Hm Hzp. destruct (add_case _ _ Hm) as [[-> ->]|(z0 & Hz0 & _ & Ep & _)].
    + simplify_eq. split; [done|]. exists px'. split; [done|]. apply elem_of_app. right. by left.
    + rewrite Ep in Hzp. destruct (to_parent _ _ _ H _ _ _ Hz0 Hzp) as (Hlt' & y & Hy & Hin).
      split; [done|]. destruct (add_old _ _ Hy) as (y' & Hy' & _ & _ & Hch). exists y'. auto.
  - intros p z m Hz Hin. destruct (add_case _ _ Hz) as [[-> ->]|(z0 & Hz0 & _ & _ & _ & Ech)].
    { rewrite Hc in Hin. by apply elem_of_nil in Hin. }
    assert (m ∈ nd_children z0 \/ (p = parent /\ m = n)) as [Hm|[-> ->]]; [|clear Hin|by exists x].
    { destruct Ech as [<-|[-> E]]; [by left|]. rewrite E in Hin.
      apply elem_of_app in Hin as [?|?%list_elem_of_singleton]; auto. }
    destruct (to_children _ _ _ H _ _ _ Hz0 Hm) as (w & Hw & Hwp).
    destruct (add_old _ _ Hw) as (w' & Hw' & _ & Hwp' & _). exists w'. by rewrite Hwp'.
  - intros p z Hz. destruct (add_case _ _ Hz) as [[-> ->]|(z0 & Hz0 & _ & _ & _ & Ech)].
    { rewrite Hc. constructor. }
    pose proof (to_nodup _ _ _ H _ _ Hz0) as Hnd. destruct Ech as [->|[-> ->]]; [done|].
    apply NoDup_app. split; [done|]. split; [|apply NoDup_singleton].
    intros c Hin ->%list_elem_of_singleton.
    destruct (to_children _ _ _ H _ _ _ Hz0 Hin) as (w & Hw & _). by rewrite lookup_delete_eq in Hw.
Qed.
End TreeAdd.

(** [gam_tree_remove] of a leaf. *)
Section TreeRemove.
Context (t : tree) (ns : gmap ptr GamNode) (root n parent : ptr) (x px : GamNode).
Context (H : tree_ok t ns root) (Hn : ns !! n = Some x) (Hc : nd_children x = []).
Context (Hp : nd_parent x = Some parent) (Hpar : ns !! parent = Some px).

Let px' := set_nd_children (g_list_remove (nd_children px) n) px.
Let ns' := delete n (<[parent := px']> ns).

Lemma remove_children_spec c : c ∈ nd_children px' <-> c ∈ nd_children px /\ c <> n.
Proof.
  subst px'. simpl. rewrite (g_list_remove_NoDup _ _ (to_nodup _ _ _ H _ _ Hpar)).
  apply elem_of_g_list_remove_all.
Qed.

(** A node that is left is an old one, without [n] among its children. *)
Lemma remove_case m z : ns' !! m = Some z ->
  m <> n /\ exists z0, ns !! m = Some z0 /\ nd_path z = nd_path z0 /\ nd_parent z = nd_parent z0 /\
    nd_node z = nd_node z0 /\ NoDup (nd_children z) /\
    forall c, c ∈ nd_children z -> c ∈ nd_children z0 /\ c <> n.
Proof.
  subst ns'. rewrite lookup_delete_Some, lookup_insert_Some. intros [Hm Hz]. split; [done|].
  destruct Hz as [[<- <-]|[Hmp Hz]].
  - exists px. do 4 (split; [done|]). split; [|intros c; apply remove_children_spec].
    subst px'. simpl. pose proof (to_nodup _ _ _ H _ _ Hpar). rewrite g_list_remove_NoDup by done.
    by apply g_list_remove_all_nodup.
  - exists z. do 4 (split; [done|]). split; [by apply (to_nodup _ _ _ H m)|].
    intros c Hin. split; [done|]. intros ->.
    destruct (to_children _ _ _ H _ _ _ Hz Hin) as (w & Hw & Hwp). congruence.
Qed.

Lemma remove_old m z : m <> n -> ns !! m = Some z ->
  exists z', ns' !! m = Some z' /\ nd_path z' = nd_path z /\ nd_parent z' = nd_parent z /\
    (forall c, c <> n -> c ∈ nd_children z -> c ∈ nd_children z').
Proof.
  intros Hmn Hm. subst ns'. rewrite lookup_delete_ne by done.
  destruct (decide (m = parent)) as [->|].
  - simplify_eq. rewrite lookup_insert, decide_True by done. exists px'. split; [done|].
    split; [done|]. split; [done|]. intros c Hcn Hcin. by apply remove_children_spec.
  - rewrite lookup_insert_ne by done. eauto 10.
Qed.

Lemma tree_ok_remove :
  tree_ok (mk_tree (tree_root t) (delete (nd_path x) (node_hash t))) ns' root.
Proof.
  assert (n <> root) as Hroot.
  { destruct (to_root_node _ _ _ H) as (r & Hr & Hrp). intros ->. congruence. }
  destruct (to_all _ _ _ H _ _ Hn Hroot) as [Hh _]. split; simpl.
  - apply H.
  - destruct (to_root_node _ _ _ H) as (r & Hr & Hrp).
    destruct (remove_old root r) as (r' & Hr' & _ & Hrp' & _); [done|done|]. exists r'. by rewrite Hrp'.
  - intros path m. rewrite lookup_delete_Some. intros [Hpne Hm].
    destruct (to_hash _ _ _ H _ _ Hm) as (Hmr & z & Hz & <-). split; [done|].
    destruct (remove_old m z) as (z' & Hz' & Hzp & _); [congruence|done|]. exists z'. by rewrite Hzp.
  - intros m z Hm Hmr. destruct (remove_case _ _ Hm) as (Hmn & z0 & Hz0 & -> & -> & _).
    destruct (to_all _ _ _ H _ _ Hz0 Hmr) as [Hh' Hpz]. split; [|done].
    rewrite lookup_delete_ne; [done|]. congruence.
  - intros m z Hm. destruct (remove_case _ _ Hm) as (_ & z0 & Hz0 & _ & _ & -> & _).
    by apply (to_linked _ _ _ H m).
  - intros m z p Hm Hzp. destruct (remove_case _ _ Hm) as (Hmn & z0 & Hz0 & _ & Ep & _).
    rewrite Ep in Hzp. destruct (to_parent _ _ _ H _ _ _ Hz0 Hzp) as (Hlt' & y & Hy & Hyin).
    split; [done|]. destruct (remove_old p y) as (y' & Hy' & _ & _ & Hch); [|done|by eauto].
    intros ->. assert (y = x) as -> by congruence. rewrite Hc in Hyin. by apply elem_of_nil in Hyin.
  - intros p z m Hpz Hin. destruct (remove_case _ _ Hpz) as (_ & z0 & Hz0 & _ & _ & _ & _ & Hch).
    destruct (Hch m Hin) as [Hm Hmn]. destruct (to_children _ _ _ H _ _ _ Hz0 Hm) as (w & Hw & Hwp).
    destruct (remove_old m w) as (w' & Hw' & _ & Hwp' & _); [done|done|]. exists w'. by rewrite Hwp'.
  - intros p z Hpz. by destruct (remove_case _ _ Hpz) as (_ & z0 & _ & _ & _ & _ & ? & _).
Qed.
End TreeRemove.

(** Every node is below the root, within as many steps as there are nodes no
    younger than it. *)
Definition upto (n : ptr) (ns : gmap ptr GamNode) : gset ptr :=
  filter (fun q => (q <= n)%positive) (dom ns).

Lemma upto_parent (n p : ptr) ns :
  (p < n)%positive -> n ∈ dom ns -> (size (upto p ns) < size (upto n ns))%nat.
Proof.
  intros Hlt Hn. apply subset_size. unfold upto. split.
  - intros q. rewrite !elem_of_filter. intros [? ?]. split; [lia|done].
  - intros Hsub. specialize (Hsub n). rewrite !elem_of_filter in Hsub.
    destruct Hsub as [Hle _]; [|lia]. split; [lia|done].
Qed.

Lemma upto_size n ns : (size (upto n ns) <= size ns)%nat.
Proof. rewrite <- size_dom. apply subseteq_size. unfold upto. set_solver. Qed.

(** ** Subscriptions, listeners and lists *)

(** What a kernel backend requires of its own state; nothing by default. *)
Class KernelInv (kern : KernelState) := { kernel_inv : kernel_state -> Prop }.
#[export] Instance any_kernel kern : KernelInv kern | 100 := {| kernel_inv _ := True |}.

Section Inv.
Context {os : OS} {kern : KernelState} {ki : KernelInv kern}.

(** A queued event carries the length of its path, as [gam_send_event] asserts. *)
Definition event_ok (e : gam_eq_event) : Prop := eq_len e = strlen (eq_path e).

(** A connection that events can be sent to. *)
Definition conn_ready (c : ptr) (s : server) : Prop :=
  exists k q, conns (sv_heap s) !! c = Some k /\ 0 <= cn_fd k /\ cn_eq k = Some q /\
    Forall event_ok q.

(** A subscription of listener [l] registered for a path. *)
Definition sub_ok (p : ptr) (path : string) (s : server) : Prop :=
  exists sb l, subs (sv_heap s) !! p = Some sb /\ sub_path sb = path /\
    sub_pathlen sb = strlen path /\ sub_listener sb = Some l /\
    is_Some (listeners (sv_heap s) !! l).

(** What is in progress: a subscription being added or removed, and the nodes
    a directory scan has just created and marked as new. *)
Record ctx := mk_ctx { cx_sub : option ptr; cx_new : gset ptr }.
Definition idle : ctx := mk_ctx None ∅.

Definition node_ok (ex : ctx) (n : ptr) (x : GamNode) (s : server) : Prop :=
  NoDup (nd_subs x) /\
  (forall p, p ∈ nd_subs x -> sub_ok p (nd_path x) s /\ node_hash (sv_tree s) !! nd_path x = Some n) /\
  (has_new x = true -> n ∈ cx_new ex /\ nd_subs x = []).

(** [p] is on the list of the node of its path. *)
Definition registered (p : ptr) (path : string) (s : server) : Prop :=
  exists n x, node_hash (sv_tree s) !! path = Some n /\ nodes (sv_heap s) !! n = Some x /\
    p ∈ nd_subs x.

(** The subscriptions of a listener, but for the one in progress. *)
Definition listener_ok (ex : ctx) (l : ptr) (ln : GamListener) (s : server) : Prop :=
  conn_ready (ln_service ln) s /\ NoDup (ln_subs ln) /\
  forall p, p ∈ ln_subs ln -> Some p <> cx_sub ex ->
    exists sb, subs (sv_heap s) !! p = Some sb /\ sub_listener sb = Some l /\
      registered p (sub_path sb) s.

Definition list_ok (l : list ptr) (s : server) : Prop :=
  NoDup l /\ forall n, n ∈ l -> is_Some (nodes (sv_heap s) !! n).

Record inv (ex : ctx) (s : server) : Prop := {
  inv_tree : exists root, tree_ok (sv_tree s) (nodes (sv_heap s)) root;
  inv_node n x : nodes (sv_heap s) !! n = Some x -> node_ok ex n x s;
  inv_listener l ln : listeners (sv_heap s) !! l = Some ln -> listener_ok ex l ln s;
  inv_conns c : is_Some (conns (sv_heap s) !! c) -> conn_ready c s;
  inv_missing : list_ok (missing_resources (sv_lists s)) s;
  inv_busy : list_ok (busy_resources (sv_lists s)) s;
  inv_all : list_ok (all_resources (sv_lists s)) s;
  inv_nodes_old n : is_Some (nodes (sv_heap s) !! n) -> (n < next_ptr (sv_heap s))%positive;
  inv_subs_old p : is_Some (subs (sv_heap s) !! p) -> (p < next_ptr (sv_heap s))%positive;
  inv_listeners_old l :
    is_Some (listeners (sv_heap s) !! l) -> (l < next_ptr (sv_heap s))%positive;
  inv_conns_old c : is_Some (conns (sv_heap s) !! c) -> (c < next_ptr (sv_heap s))%positive;
  inv_kernel : kernel_inv (sv_kernel s)
}.

(** A tree with nothing but its root. *)
Lemma tree_ok_single x :
  nd_parent x = None -> nd_node x = true -> nd_children x = [] ->
  tree_ok (mk_tree (Some 1%positive) ∅) {[1%positive := x]} 1%positive.
Proof.
  intros Hp Hn Hc.
  assert (forall (m : ptr) z, ({[1%positive := x]} : gmap ptr GamNode) !! m = Some z ->
    m = 1%positive /\ z = x) as Hone by (by intros m z [<- <-]%lookup_singleton_Some).
  split; simpl; try done.
  - exists x. split; [apply lookup_singleton_Some; done|done].
  - intros n y [-> ->]%Hone. done.
  - intros n y [-> ->]%Hone. done.
  - intros n y p [-> ->]%Hone. congruence.
  - intros p y n [-> ->]%Hone. rewrite Hc. by intros ?%elem_of_nil.
  - intros p y [-> ->]%Hone. rewrite Hc. constructor.
Qed.

Lemma inv_single ex s x :
  sv_heap s = mk_heap 2%positive ∅ ∅ {[1%positive := x]} ∅ ->
  sv_tree s = mk_tree (Some 1%positive) ∅ -> sv_lists s = mk_lists [] [] [] [] ->
  nd_parent x = None -> nd_node x = true -> nd_children x = [] -> nd_subs x = [] ->
  has_new x = false -> kernel_inv (sv_kernel s) -> inv ex s.
Proof.
  intros Eh Et El Hp Hn Hc Hs Hnew Hk.
  assert (forall (A : Type) (p : ptr), is_Some ((∅ : gmap ptr A) !! p) -> False) as Hemp
    by (intros A p [y Hy]; by rewrite lookup_empty in Hy).
  assert (list_ok [] s) as Hnil by (split; [constructor|by intros n ?%elem_of_nil]).
  split; rewrite ?Eh, ?Et, ?El; simpl; try done; try by intros ? ?%Hemp.
  - exists 1%positive. by apply tree_ok_single.
  - intros n y [<- <-]%lookup_singleton_Some. unfold node_ok. rewrite Hs, Hnew.
    split; [constructor|]. split; [by intros p ?%elem_of_nil|done].
  - intros n [y [<- _]%lookup_singleton_Some]. lia.
Qed.
End Inv.
