(* ===== verification/Emit.v ===== *)
(** * Delivering events to clients ([server/gam_server.c], [server/gam_node.c])

    [gam_server_emit_one_event] filters an event through a subscription,
    shortens the path of a directory entry, and queues the message (when
    inotify runs) or sends it at once. *)

From S2P Require Import Prelude Protocol EventQueue Monad OS Fs.
From S2P Require Import State Subscription Listener ConnSend Node Tree.

Local Open Scope Z_scope.

(** The path and length put in the message: for a directory subscription the
    common directory part and its slash are removed. *)
Definition event_subpath (sub : GamSubscription) (path : string) : string * Z :=
  let pathlen := strlen path in
  if gam_subscription_is_dir (Some sub) then
    let dlen := gam_subscription_pathlen (Some sub) in
    if (pathlen >? dlen + 1) && is_slash_at path (Z.to_nat dlen)
    then (str_drop (Z.to_nat (dlen + 1)) path, pathlen - (dlen + 1))
    else (path, pathlen)
  else (path, pathlen).

Section Emit.
Context {os : OS} {glib : GLib} {kern : KernelState}.
Abbreviation M := (ST server).

Definition gam_server_emit_one_event (path : string) (node_is_dir : bool) (event : Z)
  (sub : ptr) (force : bool) : M unit :=
  s ← load sub;
  if negb (gam_subscription_wants_event (Some s) (Some path) node_is_dir event force) then mret tt
  else
    match gam_subscription_get_listener (Some s) with
    | None => mret tt
    | Some listener =>
        conn ← gam_listener_get_service listener;
        let '(subpath, len) := event_subpath s path in
        let reqno := gam_subscription_get_reqno (Some s) in
        running ← is_running;
        if running : bool then gam_queue_event conn reqno event subpath len
        else _ ← gam_send_event conn reqno event subpath len; mret tt
    end.

Definition gam_server_emit_event (path : string) (is_dir_node : bool) (event : Z)
  (subs : list ptr) (force : bool) : M unit :=
  match subs with
  | [] => mret tt
  | _ => for_each subs (fun sub => gam_server_emit_one_event path is_dir_node event sub force)
  end.

(** The recipients of a node's event: its own subscriptions, and those of
    its parent that are not among them, each of these put in front. *)
Definition event_recipients (subs parent_subs : list ptr) : list ptr :=
  foldl (fun acc l => if negb (g_list_find acc l) then l :: acc else acc) subs parent_subs.

Definition gam_node_emit_event (node : ptr) (event : Z) : M unit :=
  is_dir_node ← gam_node_is_dir node;
  subs ← gam_node_get_subscriptions node;
  parent ← gam_node_parent node;
  subs ← match parent with
         | None => mret subs
         | Some parent =>
             parent_subs ← gam_node_get_subscriptions parent;
             mret (event_recipients subs parent_subs)
         end;
  path ← gam_node_get_path node;
  gam_server_emit_event path is_dir_node event subs false.
End Emit.
