(* ===== verification/PollGeneric.v ===== *)
(** * Generic polling ([server/gam_poll_generic.c])

    The lists of polled resources, the clock, directory scans and the pruning
    of the tree.  The hooks that [gam_server_install_*_hooks]
    install are interfaces ([PollFile], [PollHooks], [PollRemoveAll],
    [KernelHandlers]): their functions run when a handler is installed. *)

From S2P Require Import Prelude Protocol Monad OS Excludes Fs.
From S2P Require Import State Subscription Node Tree Emit.

Local Open Scope Z_scope.

(** [__gam_poll_file] *)
Class PollFile (os : OS) (kern : KernelState) := {
  hook_poll_file : ptr -> ST server Z
}.

(** [__gam_poll_add_subscription] and [__gam_poll_remove_subscription] *)
Class PollHooks (os : OS) (kern : KernelState) := {
  hook_poll_add : ptr -> ST server bool;
  hook_poll_remove : ptr -> ST server bool
}.

(** [__gam_poll_remove_all_for], which goes through the one before. *)
Class PollRemoveAll (os : OS) (kern : KernelState) := {
  hook_poll_remove_all_for : ptr -> ST server bool
}.

(** [__gam_kernel_dir_handler] and [__gam_kernel_file_handler] *)
Class KernelHandlers (os : OS) (kern : KernelState) := {
  hook_dir_handler : string -> pollHandlerMode -> ST server unit;
  hook_file_handler : string -> pollHandlerMode -> ST server unit
}.

(** ** Lists and clock *)

Section Lists.
Context {os : OS} {kern : KernelState}.
Abbreviation M := (ST server).

Definition gam_poll_generic_add_missing (node : ptr) : M unit :=
  l ← gets (fun s => missing_resources (sv_lists s));
  if g_list_find l node then mret tt else modify (upd_lists (set_missing (node :: l))).

Definition gam_poll_generic_remove_missing (node : ptr) : M unit :=
  l ← gets (fun s => missing_resources (sv_lists s));
  if g_list_find l node then modify (upd_lists (set_missing (g_list_remove_all l node)))
  else mret tt.

Definition gam_poll_generic_add_busy (node : ptr) : M unit :=
  l ← gets (fun s => busy_resources (sv_lists s));
  if g_list_find l node then mret tt else modify (upd_lists (set_busy (node :: l))).

Definition gam_poll_generic_remove_busy (node : ptr) : M unit :=
  l ← gets (fun s => busy_resources (sv_lists s));
  if negb (g_list_find l node) then mret tt
  else modify (upd_lists (set_busy (g_list_remove_all l node))).

Definition gam_poll_generic_add (node : ptr) : M unit :=
  l ← gets (fun s => all_resources (sv_lists s));
  if g_list_find l node then mret tt else modify (upd_lists (set_all (node :: l))).

Definition gam_poll_generic_remove (node : ptr) : M unit :=
  l ← gets (fun s => all_resources (sv_lists s));
  _ ← g_assert (g_list_find l node);
  modify (upd_lists (set_all (g_list_remove_all l node))).

Definition gam_poll_generic_get_time : M Z := gets current_time.

Definition gam_poll_generic_update_time : M unit :=
  t ← sys sys_time; modify (set_current_time t).

Definition gam_poll_generic_get_delta_time (pt : Z) : M Z :=
  now ← gets current_time;
  mret (if now >=? pt then now - pt else 0).

Definition gam_poll_generic_unregister_node (node : ptr) : M unit :=
  l ← gets sv_lists;
  _ ← when (negb (bool_decide (missing_resources l = [])))
        (gam_poll_generic_remove_missing node);
  l ← gets sv_lists;
  _ ← when (negb (bool_decide (busy_resources l = []))) (gam_poll_generic_remove_busy node);
  l ← gets sv_lists;
  when (negb (bool_decide (all_resources l = [])))
    (modify (upd_lists (set_all (g_list_remove (all_resources l) node)))).
End Lists.

(** ** Hooks ([gam_server.c]) *)

Section Hooks.
Context {os : OS} {kern : KernelState}.
Abbreviation M := (ST server).

Definition gam_server_get_kernel_handler : M GamKernelHandler :=
  gets (fun s => kernel_handler (sv_ctl s)).

(** [gam_poll_file]: 0 when no polling backend is installed. *)
Definition gam_poll_file {pf : PollFile os kern} (node : ptr) : M Z :=
  h ← gets (fun s => poll_handler (sv_ctl s));
  match h with GAMIN_P_NONE => mret 0 | _ => hook_poll_file node end.

Definition gam_poll_add_subscription {ph : PollHooks os kern} (sub : ptr) : M bool :=
  h ← gets (fun s => poll_handler (sv_ctl s));
  match h with GAMIN_P_NONE => mret false | _ => hook_poll_add sub end.

Definition gam_poll_remove_subscription {ph : PollHooks os kern} (sub : ptr) : M bool :=
  h ← gets (fun s => poll_handler (sv_ctl s));
  match h with GAMIN_P_NONE => mret false | _ => hook_poll_remove sub end.

Definition gam_poll_remove_all_for {ph : PollRemoveAll os kern} (listener : ptr) : M bool :=
  h ← gets (fun s => poll_handler (sv_ctl s));
  match h with GAMIN_P_NONE => mret false | _ => hook_poll_remove_all_for listener end.

Definition gam_kernel_dir_handler {kh : KernelHandlers os kern} (path : string) (mode : pollHandlerMode)
  : M unit :=
  h ← gam_server_get_kernel_handler;
  match h with GAMIN_K_NONE => mret tt | _ => hook_dir_handler path mode end.

Definition gam_kernel_file_handler {kh : KernelHandlers os kern} (path : string) (mode : pollHandlerMode)
  : M unit :=
  h ← gam_server_get_kernel_handler;
  match h with GAMIN_K_NONE => mret tt | _ => hook_file_handler path mode end.
End Hooks.

(** ** Switching kernel monitoring on and off *)

Section Trigger.
Context {os : OS} {glib : GLib} {kern : KernelState} {kh : KernelHandlers os kern}.
Abbreviation M := (ST server).

Definition dnotify_or_inotify (h : GamKernelHandler) : bool :=
  match h with GAMIN_K_DNOTIFY | GAMIN_K_INOTIFY => true | _ => false end.

Definition gam_poll_generic_trigger_file_handler (path : string) (mode : pollHandlerMode)
  (node : ptr) : M unit :=
  n ← load node;
  if negb (bool_decide (nd_mon_type n = GFS_MT_KERNEL)) then mret tt
  else
    h ← gam_server_get_kernel_handler;
    if dnotify_or_inotify h then
      if nd_is_dir n then gam_kernel_file_handler path mode
      else
        parent ← gam_node_parent node;
        match parent with
        | None => mret tt
        | Some parent =>
            dir ← gam_node_get_path parent;
            match mode with
            | GAMIN_ACTIVATE | GAMIN_DEACTIVATE => gam_kernel_dir_handler dir mode
            | GAMIN_FLOWCONTROLSTART =>
                b ← gam_node_has_pflag parent MON_BUSY;
                when (negb b)
                  (_ ← gam_kernel_dir_handler dir mode;
                   _ ← gam_poll_generic_add_busy parent;
                   gam_node_set_pflag parent MON_BUSY)
            | GAMIN_FLOWCONTROLSTOP =>
                b ← gam_node_has_pflag parent MON_BUSY;
                when b
                  (_ ← gam_kernel_dir_handler dir mode;
                   _ ← gam_poll_generic_remove_busy parent;
                   gam_node_unset_pflag parent MON_BUSY)
            end
        end
    else gam_kernel_file_handler path mode.

Definition gam_poll_generic_trigger_dir_handler (path : string) (mode : pollHandlerMode)
  (node : ptr) : M unit :=
  n ← load node;
  if negb (bool_decide (nd_mon_type n = GFS_MT_KERNEL)) then mret tt
  else
    h ← gam_server_get_kernel_handler;
    if dnotify_or_inotify h then
      if nd_is_dir n then gam_kernel_dir_handler path mode
      else gam_poll_generic_trigger_file_handler path mode node
    else gam_kernel_dir_handler path mode.

Definition gam_poll_generic_trigger_handler (path : string) (mode : pollHandlerMode)
  (node : ptr) : M unit :=
  n ← load node;
  if nd_is_dir n then gam_poll_generic_trigger_dir_handler (nd_path n) mode node
  else gam_poll_generic_trigger_file_handler (nd_path n) mode node.
End Trigger.

(** ** Scans *)

Section Scan.
Context {os : OS} {glib : GLib} {kern : KernelState} {pf : PollFile os kern}.
Abbreviation M := (ST server).

(** One name read from the directory: an unknown file gets a new node. *)
Definition scan_entry (dir_node : ptr) (name : string) : M unit :=
  dpath ← gam_node_get_path dir_node;
  let path := g_build_filename dpath name in
  o ← gam_tree_get_at_path path;
  match o with
  | Some _ => mret tt
  | None =>
      is_dir ← sys (file_is_dir path);
      node ← gam_node_new path None is_dir;
      _ ← gam_tree_add dir_node node;
      gam_node_set_flag node FLAG_NEW_NODE
  end.

(** One child of the directory; [scan] is the recursive call. *)
Definition scan_child (scan : ptr -> M unit) (dir_node node : ptr) : M unit :=
  is_dir_node ← gam_node_is_dir dir_node;
  fevent ← gam_poll_file node;
  is_new ← gam_node_has_flag node FLAG_NEW_NODE;
  fevent ←
    (if is_new : bool then
       subs ← gam_node_get_subscriptions node;
       if is_dir_node && negb (bool_decide (subs = [])) then
         _ ← gam_node_unset_flag node FLAG_NEW_NODE;
         _ ← scan node;
         mret fevent
       else
         _ ← gam_node_unset_flag node FLAG_NEW_NODE;
         mret GAMIN_EVENT_CREATED
     else mret fevent);
  if negb (fevent =? 0) then gam_node_emit_event node fevent
  else
    missing ← gam_node_has_pflag node MON_MISSING;
    when (negb missing)
      (path ← gam_node_get_path node;
       is_dir ← gam_node_is_dir node;
       gam_server_emit_event path is_dir GAMIN_EVENT_EXISTS [] false).

(** The part before [scan_files:]; [false] is an early return. *)
Definition scan_self (dir_node : ptr) : M bool :=
  n ← load dir_node;
  if bool_decide (nd_subs n = []) then mret true
  else
    delta ← gam_poll_generic_get_delta_time (nd_lasttime n);
    if negb (nd_lasttime n =? 0) && (delta <? nd_poll_time n) then mret false
    else
      event ← gam_poll_file dir_node;
      _ ← when (negb (event =? 0)) (gam_node_emit_event dir_node event);
      dir ← sys (dir_names (nd_path n));
      match dir with
      | None => mret false
      | Some names => _ ← for_each names (scan_entry dir_node); mret true
      end.

Fixpoint gam_poll_generic_scan_directory_internal (fuel : nat) (dir_node : ptr) : M unit :=
  match fuel with
  | O => fail OutOfFuel
  | S fuel =>
      go ← scan_self dir_node;
      when go
        (children ← gam_tree_get_children dir_node;
         for_each children
           (scan_child (gam_poll_generic_scan_directory_internal fuel) dir_node))
  end.

Definition gam_poll_generic_scan_directory (fuel : nat) (path : string) : M unit :=
  _ ← gam_poll_generic_update_time;
  o ← gam_tree_get_at_path path;
  o ← match o with
      | Some node => mret (Some node)
      | None => gam_tree_add_at_path path true
      end;
  match o with
  | None => mret tt
  | Some node => gam_poll_generic_scan_directory_internal fuel node
  end.

(** [g_file_test(path, EXISTS | IS_DIR)] is true when either test is. *)
Definition exists_or_dir (path : string) : M bool :=
  e ← sys (file_exists path);
  if e : bool then mret true else sys (file_is_dir path).

(** [stat(node->path, &node->sbuf)]: the buffer is kept on failure. *)
Definition stat_into (node : ptr) : M unit :=
  path ← gam_node_get_path node;
  r ← sys (sys_stat path);
  match r with
  | SysOk sb => update node (set_nd_sbuf sb)
  | SysErr _ => mret tt
  end.

(** An entry of the directory that has no node yet. *)
Definition first_scan_register (dir_node : ptr) (path : string) : M unit :=
  is_dir ← sys (file_is_dir path);
  node ← gam_node_new path None is_dir;
  _ ← stat_into node;
  n ← load node;
  _ ← gam_node_set_is_dir node (st_dir (nd_sbuf n));
  excluded ← gets (fun s => gam_exclude_check (sv_excludes s) (Some path));
  nokernel ← (if excluded : bool then mret true
              else t ← fs_call (gam_fs_get_mon_type path);
                   mret (negb (bool_decide (t = GFS_MT_KERNEL))));
  _ ← when nokernel (gam_node_set_pflag node MON_NOKERNEL);
  now ← gam_poll_generic_get_time;
  _ ← update node (set_nd_lasttime now);
  _ ← gam_tree_add dir_node node;
  mret tt.

Definition first_scan_entry (sub dir_node : ptr) (dpath : string) (with_exists : bool)
  (name : string) : M unit :=
  let path := g_build_filename dpath name in
  o ← gam_tree_get_at_path path;
  _ ← match o with Some _ => mret tt | None => first_scan_register dir_node path end;
  when with_exists (gam_server_emit_event name true GAMIN_EVENT_EXISTS [sub] true).

(** The directory is not there. *)
Definition first_scan_missing (sub dir_node : ptr) (dpath : string) : M unit :=
  _ ← gam_server_emit_event dpath true GAMIN_EVENT_DELETED [sub] true;
  _ ← stat_into dir_node;
  now ← gam_poll_generic_get_time;
  _ ← update dir_node (set_nd_lasttime now);
  e ← sys (file_exists dpath);
  if e : bool then
    _ ← gam_node_set_pflags dir_node MON_WRONG_TYPE;
    gam_node_set_is_dir dir_node false
  else
    _ ← gam_node_set_pflags dir_node MON_MISSING;
    gam_poll_generic_add_missing dir_node.

Definition gam_poll_generic_first_scan_dir (sub dir_node : ptr) (dpath : string) : M unit :=
  s ← load sub;
  let with_exists := negb (gam_subscription_has_option (Some s) GAM_OPT_NOEXISTS) in
  there ← exists_or_dir dpath;
  _ ← (if negb there then first_scan_missing sub dir_node dpath
       else
         n ← load dir_node;
         _ ← when (nd_lasttime n =? 0) (_ ← gam_poll_file dir_node; mret tt);
         _ ← when with_exists (gam_server_emit_event dpath true GAMIN_EVENT_EXISTS [sub] true);
         dir ← sys (dir_names dpath);
         match dir with
         | None => mret tt
         | Some names => for_each names (first_scan_entry sub dir_node dpath with_exists)
         end);
  when with_exists (gam_server_emit_event dpath true GAMIN_EVENT_ENDEXISTS [sub] true).

(** [gam_poll_generic_prune_tree]: each recursive call follows the removal of
    a node. *)
Fixpoint prune_tree_loop (fuel : nat) (node : ptr) : M unit :=
  match fuel with
  | O => fail OutOfFuel
  | S fuel =>
      parent ← gam_node_parent node;
      match parent with
      | None => mret tt
      | Some parent =>
          b ← gam_tree_has_children node;
          subs ← gam_node_get_subscriptions node;
          when (negb b && bool_decide (subs = []))
            (_ ← gam_poll_generic_unregister_node node;
             _ ← gam_tree_remove node;
             prune_tree_loop fuel parent)
      end
  end.

Definition gam_poll_generic_prune_tree (node : ptr) : M unit :=
  fuel ← gets (fun s => size (nodes (sv_heap s)));
  prune_tree_loop (S fuel) node.

(** [gam_poll_generic_init] *)
Definition gam_poll_generic_init : M bool :=
  _ ← gam_tree_new;
  _ ← gam_poll_generic_update_time;
  mret true.
End Scan.
