(* ===== verification/PollBasic.v ===== *)
(** * The basic polling backend ([server/gam_poll_basic.c])

    Every node carries the result of its last [stat]; [gam_poll_basic_poll_file]
    compares it with a new one and says what happened.  Once a second
    [gam_poll_basic_scan_callback] polls the registered resources and then the
    missing ones. *)

From S2P Require Import Prelude Protocol Monad OS Fs State.
From S2P Require Import Subscription Listener Node Tree Emit PollGeneric.

Local Open Scope Z_scope.

(** [gam_poll_generic_node_changed], with nanosecond times. *)
Definition gam_poll_generic_node_changed (old sbuf : stat_t) : bool :=
  negb (st_mtime old =? st_mtime sbuf)
  || negb (st_mtime_nsec old =? st_mtime_nsec sbuf)
  || negb (st_size old =? st_size sbuf)
  || negb (st_ctime old =? st_ctime sbuf)
  || negb (st_ctime_nsec old =? st_ctime_nsec sbuf).

Section PollFileBasic.
Context {os : OS} {glib : GLib} {kern : KernelState}.
Abbreviation M := (ST server).

(** The first poll of a node. *)
Definition poll_file_first (node : ptr) (path : string) : M Z :=
  r ← sys (sys_stat path);
  _ ← match r with
      | SysErr _ => gam_node_set_pflag node MON_MISSING
      | SysOk sbuf => gam_node_set_is_dir node (st_dir sbuf)
      end;
  _ ← update node (set_nd_sbuf (match r with SysOk sbuf => sbuf | SysErr _ => stat_zero end));
  now ← gam_poll_generic_get_time;
  _ ← update node (set_nd_lasttime now);
  mret (match r with SysOk _ => 0 | SysErr _ => GAMIN_EVENT_DELETED end).

(** A later poll. *)
Definition poll_file_again (node : ptr) (path : string) : M Z :=
  now ← gam_poll_generic_get_time;
  _ ← update node (set_nd_lasttime now);
  r ← sys (sys_stat path);
  missing ← gam_node_has_pflag node MON_MISSING;
  event ←
    match r with
    | SysErr e =>
        if (e =? ENOENT) && negb missing then
          _ ← gam_node_set_pflags node MON_MISSING;
          _ ← gam_poll_generic_remove_busy node;
          _ ← gam_poll_generic_add_missing node;
          mret GAMIN_EVENT_DELETED
        else mret 0
    | SysOk sbuf =>
        if missing : bool then
          _ ← gam_node_unset_pflag node MON_MISSING;
          _ ← gam_poll_generic_remove_missing node;
          mret GAMIN_EVENT_CREATED
        else
          n ← load node;
          mret (if gam_poll_generic_node_changed (nd_sbuf n) sbuf then GAMIN_EVENT_CHANGED else 0)
    end;
  _ ← match r with
      | SysOk sbuf => gam_node_set_is_dir node (st_dir sbuf)
      | SysErr _ => mret tt
      end;
  _ ← update node (set_nd_sbuf (match r with SysOk sbuf => sbuf | SysErr _ => stat_zero end));
  mret event.

Definition gam_poll_basic_poll_file (node : ptr) : M Z :=
  n ← load node;
  delta ← gam_poll_generic_get_delta_time (nd_lasttime n);
  if negb (nd_lasttime n =? 0) && (delta <? nd_poll_time n) then mret 0
  else if nd_lasttime n =? 0 then poll_file_first node (nd_path n)
  else poll_file_again node (nd_path n).
End PollFileBasic.

#[export] Instance poll_basic_hook {os : OS} {kern : KernelState} : PollFile os kern | 10 :=
  {| hook_poll_file := gam_poll_basic_poll_file |}.

Section PollBasic.
Context {os : OS} {glib : GLib} {kern : KernelState}.
Abbreviation M := (ST server).

Definition gam_poll_basic_init : M bool :=
  _ ← gam_poll_generic_init;
  _ ← modify (upd_ctl (set_poll_handler GAMIN_P_BASIC));
  mret true.

(** The first events of a subscription whose node is not a directory. *)
Definition first_events_file (sub node : ptr) (path : string) : M unit :=
  event ← gam_poll_basic_poll_file node;
  s ← load sub;
  _ ← (if (event =? 0) || (event =? GAMIN_EVENT_EXISTS) || (event =? GAMIN_EVENT_CHANGED)
          || (event =? GAMIN_EVENT_CREATED) then
         if gam_subscription_is_dir (Some s)
         then gam_server_emit_one_event path false GAMIN_EVENT_DELETED sub false
         else gam_server_emit_one_event path false GAMIN_EVENT_EXISTS sub false
       else if negb (event =? 0)
       then gam_server_emit_one_event path false GAMIN_EVENT_DELETED sub false
       else mret tt);
  gam_server_emit_one_event path false GAMIN_EVENT_ENDEXISTS sub false.

Definition gam_poll_basic_add_subscription (sub : ptr) : M bool :=
  s ← load sub;
  let path := sub_path s in
  node ← gam_tree_get_at_path path;
  listener ← g_assert_ptr (gam_subscription_get_listener (Some s));
  _ ← gam_listener_add_subscription listener sub;
  _ ← gam_poll_generic_update_time;
  node ← match node with
         | Some node => mret (Some node)
         | None => gam_tree_add_at_path path (gam_subscription_is_dir (Some s))
         end;
  _ ← gam_node_add_subscription node sub;
  node ← g_assert_ptr node;
  node_is_dir ← gam_node_is_dir node;
  _ ← (if node_is_dir : bool then gam_poll_generic_first_scan_dir sub node path
       else first_events_file sub node path);
  missing ← gam_node_has_pflag node MON_MISSING;
  _ ← when missing (gam_poll_generic_add_missing node);
  _ ← gam_poll_generic_add node;
  _ ← modify (upd_ctl (set_scan_running true));
  mret true.

(** One child of a directory that lost a subscription. *)
Definition remove_child (child : ptr) (remove_dir : bool) : M bool :=
  subs ← gam_node_get_subscriptions child;
  has ← gam_tree_has_children child;
  if bool_decide (subs = []) && remove_dir && negb has then
    _ ← gam_poll_generic_unregister_node child;
    _ ← gam_tree_remove child;
    mret remove_dir
  else mret false.

Fixpoint remove_children (children : list ptr) (remove_dir : bool) : M unit :=
  match children with
  | [] => mret tt
  | child :: l => remove_dir ← remove_child child remove_dir; remove_children l remove_dir
  end.

Definition node_remove_directory_subscription (node sub : ptr) : M bool :=
  _ ← gam_node_remove_subscription node sub;
  subs ← gam_node_get_subscriptions node;
  children ← gam_tree_get_children node;
  _ ← remove_children children (bool_decide (subs = []));
  subs ← gam_node_get_subscriptions node;
  if bool_decide (subs = []) then
    parent ← gam_node_parent node;
    b ← gam_node_has_dir_subscriptions parent;
    mret (negb b)
  else mret false.

(** A node that is not a directory loses a subscription. *)
Definition remove_from_file (node sub : ptr) : M unit :=
  _ ← gam_node_remove_subscription node sub;
  subs ← gam_node_get_subscriptions node;
  when (bool_decide (subs = []))
    (_ ← gam_poll_generic_unregister_node node;
     has ← gam_tree_has_children node;
     _ ← g_assert (negb has);
     parent ← gam_node_parent node;
     match parent with
     | None => mret tt
     | Some p =>
         b ← gam_node_has_dir_subscriptions (Some p);
         when (negb b)
           (_ ← gam_tree_remove node;
            gam_poll_generic_prune_tree p)
     end).

Definition remove_from_dir (node sub : ptr) : M unit :=
  remove_dir ← node_remove_directory_subscription node sub;
  when remove_dir
    (_ ← gam_poll_generic_unregister_node node;
     parent ← gam_node_parent node;
     has ← gam_tree_has_children node;
     _ ← (if negb has then _ ← gam_tree_remove node; mret tt else mret tt);
     parent ← g_assert_ptr parent;
     gam_poll_generic_prune_tree parent).

Definition gam_poll_basic_remove_subscription (sub : ptr) : M bool :=
  s ← load sub;
  node ← gam_tree_get_at_path (sub_path s);
  match node with
  | None =>
      _ ← gam_subscription_free (Some sub);
      mret true
  | Some node =>
      _ ← gam_subscription_cancel (Some sub);
      is_dir ← gam_node_is_dir node;
      _ ← (if negb is_dir then remove_from_file node sub else remove_from_dir node sub);
      _ ← gam_subscription_free (Some sub);
      mret true
  end.

#[export] Instance poll_basic_hooks : PollHooks os kern | 10 := {|
  hook_poll_add := gam_poll_basic_add_subscription;
  hook_poll_remove := gam_poll_basic_remove_subscription
|}.

Definition gam_poll_basic_remove_all_for (listener : ptr) : M bool :=
  subs ← gam_listener_get_subscriptions listener;
  _ ← for_each subs (fun sub => _ ← gam_poll_remove_subscription sub; mret tt);
  mret (negb (bool_decide (subs = []))).

#[export] Instance poll_basic_remove_all : PollRemoveAll os kern | 10 := {|
  hook_poll_remove_all_for := gam_poll_basic_remove_all_for
|}.

(** One resource of the periodic scan. *)
Definition poll_resource (node : ptr) : M unit :=
  is_dir ← gam_node_is_dir node;
  if is_dir : bool then
    fuel ← gets (fun s => size (nodes (sv_heap s)));
    gam_poll_generic_scan_directory_internal fuel node
  else
    event ← gam_poll_basic_poll_file node;
    gam_node_emit_event node event.

(** The two loops of [gam_poll_basic_scan_callback].  The lists may change
    under the loops, which index them anew each time round; the result says
    whether anything was visited. *)
Fixpoint scan_all_loop (fuel idx : nat) : M unit :=
  match fuel with
  | O => fail OutOfFuel
  | S fuel =>
      l ← gets (fun s => all_resources (sv_lists s));
      match l !! idx with
      | None => mret tt
      | Some node => _ ← poll_resource node; scan_all_loop fuel (S idx)
      end
  end.

Definition poll_missing (node : ptr) : M unit :=
  _ ← poll_resource node;
  missing ← gam_node_has_pflags node MON_MISSING;
  when (negb missing)
    (_ ← gam_poll_generic_remove_missing node;
     gam_poll_generic_add node).

Fixpoint scan_missing_loop (fuel idx : nat) : M unit :=
  match fuel with
  | O => fail OutOfFuel
  | S fuel =>
      l ← gets (fun s => missing_resources (sv_lists s));
      match l !! idx with
      | None => mret tt
      | Some node => _ ← poll_missing node; scan_missing_loop fuel (S idx)
      end
  end.

(** [did_something] is set by the first resource either loop finds. *)
Definition gam_poll_basic_scan_callback (fuel : nat) : M bool :=
  _ ← gam_poll_generic_update_time;
  all ← gets (fun s => all_resources (sv_lists s));
  _ ← scan_all_loop fuel 0;
  missing ← gets (fun s => missing_resources (sv_lists s));
  _ ← scan_missing_loop fuel 0;
  if bool_decide (all = []) && bool_decide (missing = []) then
    _ ← modify (upd_ctl (set_scan_running false));
    mret false
  else mret true.
End PollBasic.
