(* ===== verification/Safety.v ===== *)
(** * Safety of the building blocks

    [safely ex m Q s]: from [s] the code [m] completes without a fault, keeps
    the invariant, only lets the tree grow, and establishes [Q].  The lemmas
    cover delivery of events, polling of a node, the resource lists and the
    insertion of nodes. *)

From S2P Require Import Prelude Protocol EventQueue Monad OS Excludes.
From S2P Require Import Fs State Subscription Listener ConnSend Node.
From S2P Require Import Tree Inv Emit PollGeneric PollBasic.

Local Open Scope Z_scope.

Section Grows.
Context {os : OS} {kern : KernelState} {ki : KernelInv kern}.

(** Nothing is lost: nodes, subscriptions, listeners and connections stay. *)
Record grows (s s' : server) : Prop := {
  gr_subs : subs (sv_heap s') = subs (sv_heap s);
  gr_listeners : listeners (sv_heap s') = listeners (sv_heap s);
  gr_root : tree_root (sv_tree s') = tree_root (sv_tree s);
  gr_hash path n : node_hash (sv_tree s) !! path = Some n ->
    node_hash (sv_tree s') !! path = Some n;
  gr_nodes n x : nodes (sv_heap s) !! n = Some x ->
    exists y, nodes (sv_heap s') !! n = Some y /\ nd_path y = nd_path x /\
      nd_subs y = nd_subs x /\ nd_parent y = nd_parent x;
  gr_new n y : nodes (sv_heap s') !! n = Some y ->
    nd_subs y = [] \/ exists x, nodes (sv_heap s) !! n = Some x /\ nd_subs x = nd_subs y;
  gr_conns c : conn_ready c s -> conn_ready c s'
}.

#[export] Instance grows_preorder : PreOrder grows.
Proof.
  split.
  - intros s. split; eauto.
  - intros s1 s2 s3 [A1 A2 A3 A4 A5 A7 A6] [B1 B2 B3 B4 B5 B7 B6].
    split; try congruence; auto.
    + intros n x Hn. destruct (A5 _ _ Hn) as (y & Hy & ? & ? & ?).
      destruct (B5 _ _ Hy) as (z & Hz & ? & ? & ?). exists z. repeat split; congruence.
    + intros n z Hz. destruct (B7 _ _ Hz) as [?|(y & Hy & Ey)]; [by left|].
      destruct (A7 _ _ Hy) as [?|(x & Hx & Ex)]; [left; congruence|right].
      exists x. split; [done|]. congruence.
Qed.

(** Same objects, tree and lists; clock, world and the like may differ. *)
Definition same_store (s s' : server) : Prop :=
  sv_heap s' = sv_heap s /\ sv_tree s' = sv_tree s /\ sv_lists s' = sv_lists s /\
  sv_kernel s' = sv_kernel s.

Lemma sub_ok_mono p path s s' :
  subs (sv_heap s') = subs (sv_heap s) -> listeners (sv_heap s') = listeners (sv_heap s) ->
  sub_ok p path s -> sub_ok p path s'.
Proof. intros Es El (sb & l & ? & ? & ? & ? & ?). exists sb, l. by rewrite Es, El. Qed.

Lemma registered_grows p path s s' : grows s s' -> registered p path s -> registered p path s'.
Proof.
  intros G (n & x & Hh & Hn & Hp). destruct (gr_nodes _ _ G _ _ Hn) as (y & Hy & _ & Hsy & _).
  exists n, y. split; [by apply G|]. split; [done|]. by rewrite Hsy.
Qed.

Lemma listener_ok_grows ex l ln s s' :
  grows s s' -> listener_ok ex l ln s -> listener_ok ex l ln s'.
Proof.
  intros G (Hc & Hnd & Hp). split; [by apply G|]. split; [done|].
  intros p Hin Hex. destruct (Hp p Hin Hex) as (sb & Hsb & Hl & Hr).
  exists sb. rewrite (gr_subs _ _ G). split; [done|]. split; [done|].
  by apply (registered_grows _ _ s).
Qed.

(** The kernel backend's state may differ too, if it is in order. *)
Lemma inv_kernel_store {ki0 : KernelInv kern} ex s s' :
  sv_heap s' = sv_heap s -> sv_tree s' = sv_tree s -> sv_lists s' = sv_lists s ->
  kernel_inv (KernelInv := ki) (sv_kernel s') -> inv (ki := ki0) ex s ->
  inv (ki := ki) ex s' /\ grows s s'.
Proof.
  intros Eh Et El Hk Hi. assert (grows s s') as G.
  { split; rewrite ?Eh, ?Et; eauto. unfold conn_ready. by rewrite Eh. }
  split; [|done]. destruct Hi. split; rewrite ?Eh, ?Et, ?El; try done.
  - intros n x Hn. destruct (inv_node n x Hn) as (? & Hs & ?). split; [done|]. split; [|done].
    intros p Hp. rewrite Et. destruct (Hs p Hp). split; [|done].
    apply (sub_ok_mono _ _ s); [by rewrite Eh..|done].
  - intros l ln Hl. apply (listener_ok_grows _ _ _ s); auto.
  - intros c Hc. unfold conn_ready. rewrite Eh. by apply inv_conns.
  - destruct inv_missing. split; [done|]. by rewrite Eh.
  - destruct inv_busy. split; [done|]. by rewrite Eh.
  - destruct inv_all. split; [done|]. by rewrite Eh.
Qed.

Lemma inv_same_store ex s s' : same_store s s' -> inv ex s -> inv ex s' /\ grows s s'.
Proof. intros (Eh & Et & El & Ek) Hi. apply (inv_kernel_store ex s); [done..| |done]. rewrite Ek. apply Hi. Qed.

Definition safely {A} (ex : ctx) (m : ST server A) (Q : A -> server -> Prop) (s : server)
  : Prop := wp m (fun a s' => inv ex s' /\ grows s s' /\ Q a s') s.

Lemma safely_bind {A B} ex (m : ST server A) (f : A -> ST server B) Q Q' s :
  safely ex m Q s ->
  (forall a s', inv ex s' -> grows s s' -> Q a s' -> safely ex (f a) Q' s') ->
  safely ex (m ≫= f) Q' s.
Proof.
  intros Hm Hf. apply wp_bind. eapply wp_mono; [exact Hm|].
  intros a s' (Hi & G & HQ). eapply wp_mono; [by apply Hf|].
  intros b s'' (Hi' & G' & HQ'). split; [done|]. split; [by transitivity s'|done].
Qed.

Lemma safely_mono {A} ex (m : ST server A) (Q Q' : A -> server -> Prop) s :
  safely ex m Q s -> (forall a s', inv ex s' -> grows s s' -> Q a s' -> Q' a s') ->
  safely ex m Q' s.
Proof. intros H HQ. eapply wp_mono; [exact H|]. intros a s' (? & ? & ?). auto. Qed.

(** Code that only reads. *)
Lemma safely_read {A} ex (m : ST server A) a s :
  inv ex s -> m s = Ok (a, s) -> safely ex m (fun a' s' => a' = a /\ s' = s) s.
Proof. intros Hi E. unfold safely, wp. rewrite E. done. Qed.

Lemma safely_ret {A} ex (a : A) (Q : A -> server -> Prop) s :
  inv ex s -> Q a s -> safely ex (mret a) Q s.
Proof. intros Hi HQ. by split; [|split]. Qed.

Lemma safely_store {A} ex (m : ST server A) Q s :
  inv ex s -> wp m (fun a s' => same_store s s' /\ Q a s') s -> safely ex m Q s.
Proof.
  intros Hi Hm. eapply wp_mono; [exact Hm|]. intros a s' (Hs & HQ).
  destruct (inv_same_store ex s s' Hs Hi). done.
Qed.

Lemma safely_sys {A} ex (f : world -> A * world) s :
  inv ex s -> safely ex (sys f) (fun a s' => same_store s s') s.
Proof. intros Hi. apply safely_store; [done|]. apply wp_sys. intros a w _. by split. Qed.

Lemma safely_fs_call {A} ex (f : fs_state * world -> A * (fs_state * world)) s :
  inv ex s -> safely ex (fs_call f) (fun a s' => same_store s s') s.
Proof. intros Hi. apply safely_store; [done|]. apply wp_fs_call. intros a w _. by split. Qed.

Lemma safely_for_each {A} ex (l : list A) body (P : A -> server -> Prop) s :
  (forall x s s', grows s s' -> P x s -> P x s') ->
  (forall x s, inv ex s -> P x s -> safely ex (body x) (fun _ _ => True) s) ->
  inv ex s -> (forall x, x ∈ l -> P x s) -> safely ex (for_each l body) (fun _ _ => True) s.
Proof.
  intros Hmono Hbody. revert s. induction l as [|x l IH]; intros s Hi Hl; simpl.
  - by apply safely_ret.
  - eapply safely_bind; [apply Hbody; [done|]; apply Hl; by left|].
    intros [] s' Hi' G _. apply IH; [done|]. intros y Hy. apply (Hmono _ s); [done|].
    apply Hl. by right.
Qed.

(** ** Reading and changing a node *)

Lemma safely_load_node ex n x s :
  inv ex s -> nodes (sv_heap s) !! n = Some x ->
  safely ex (load n) (fun y s' => y = x /\ s' = s) s.
Proof. intros Hi Hn. apply safely_read; [done|]. by apply load_node_Ok. Qed.

(** Changing what the invariant does not mention. *)
Lemma safely_update_node ex n x f s :
  inv ex s -> nodes (sv_heap s) !! n = Some x -> same_core x (f x) ->
  (has_new (f x) = true -> n ∈ cx_new ex /\ nd_subs x = []) ->
  safely ex (update n f)
    (fun _ s' => s' = upd_heap (fun h => set_nodes (<[n := f x]> (nodes h)) h) s) s.
Proof.
  intros Hi Hn Hcore Hnew. apply (wp_update (H := node_obj)) with x; [exact Hn|].
  match goal with |- inv _ ?t /\ _ => set (s' := t) end.
  assert (forall m, is_Some (nodes (sv_heap s) !! m) <-> is_Some (nodes (sv_heap s') !! m)) as Hdom.
  { intros m. subst s'. simpl. destruct (decide (n = m)) as [->|].
    - rewrite lookup_insert, decide_True by done. rewrite Hn. by split; eauto.
    - by rewrite lookup_insert_ne. }
  assert (grows s s') as G.
  { destruct Hcore as (? & Es & ? & ? & ?). split; try done.
    - intros m z Hm. subst s'. simpl. destruct (decide (n = m)) as [->|].
      + assert (z = x) as -> by congruence. exists (f x).
        by rewrite lookup_insert, decide_True.
      + exists z. by rewrite lookup_insert_ne.
    - intros m z. subst s'. simpl. rewrite lookup_insert_Some.
      intros [[<- <-]|[? Hm]]; right; eauto. }
  split; [|split; [done|reflexivity]]. destruct Hi. split; try done.
  - destruct inv_tree as [root Ht]. exists root. by apply (tree_ok_core _ _ _ n x).
  - intros m z. subst s'. simpl. rewrite lookup_insert_Some. intros [[<- <-]|[_ Hm]].
    + destruct (inv_node _ _ Hn) as (Hnd & Hs & _).
      destruct Hcore as (Ep & Es & _). unfold node_ok. by rewrite Ep, Es.
    + exact (inv_node _ _ Hm).
  - intros l ln Hl. by apply (listener_ok_grows _ _ _ s); [|apply inv_listener].
  - destruct inv_missing as [? Hl]. split; [done|]. intros m Hm. apply Hdom. by apply Hl.
  - destruct inv_busy as [? Hl]. split; [done|]. intros m Hm. apply Hdom. by apply Hl.
  - destruct inv_all as [? Hl]. split; [done|]. intros m Hm. apply Hdom. by apply Hl.
  - intros m Hm. apply inv_nodes_old. by apply Hdom.
Qed.

(** Replacing a resource list. *)
Lemma inv_lists ex f s :
  inv ex s -> list_ok (missing_resources (f (sv_lists s))) s ->
  list_ok (busy_resources (f (sv_lists s))) s -> list_ok (all_resources (f (sv_lists s))) s ->
  inv ex (upd_lists f s) /\ grows s (upd_lists f s).
Proof.
  intros Hi H1 H2 H3. assert (grows s (upd_lists f s)) as G by (split; eauto).
  split; [|done]. destruct Hi. by split.
Qed.

Lemma safely_lists ex f s :
  inv ex s -> list_ok (missing_resources (f (sv_lists s))) s ->
  list_ok (busy_resources (f (sv_lists s))) s -> list_ok (all_resources (f (sv_lists s))) s ->
  safely ex (modify (upd_lists f)) (fun _ s' => s' = upd_lists f s) s.
Proof. intros Hi H1 H2 H3. destruct (inv_lists ex f s Hi H1 H2 H3). by apply wp_modify. Qed.

Lemma list_ok_cons n l s :
  list_ok l s -> n ∉ l -> is_Some (nodes (sv_heap s) !! n) -> list_ok (n :: l) s.
Proof.
  intros [Hnd Hl] Hn Hlive. split; [by constructor|].
  intros m [->|Hm]%elem_of_cons; auto.
Qed.

Lemma list_ok_remove n l s : list_ok l s -> list_ok (g_list_remove_all l n) s.
Proof.
  intros [Hnd Hl]. split; [by apply g_list_remove_all_nodup|].
  intros m [Hm _]%elem_of_g_list_remove_all. auto.
Qed.

Lemma safely_gets {A} ex (f : server -> A) s :
  inv ex s -> safely ex (gets f) (fun a s' => a = f s /\ s' = s) s.
Proof. intros Hi. by apply safely_read. Qed.
End Grows.

(** ** Delivery *)

Lemma event_subpath_len s path p len :
  0 <= sub_pathlen s -> event_subpath s path = (p, len) -> len = strlen p.
Proof.
  intros Hs. unfold event_subpath. simpl.
  destruct (sub_is_dir s); [|by intros [= <- <-]].
  destruct (strlen path >? sub_pathlen s + 1) eqn:E; simpl; [|by intros [= <- <-]].
  destruct (is_slash_at _ _); [|by intros [= <- <-]]. intros [= <- <-].
  unfold strlen in *. rewrite str_drop_length by lia. lia.
Qed.

Section Delivery.
Context {os : OS} {kern : KernelState} {ki : KernelInv kern} {laws : OSLaws os}.

(** Delivering an event moves bytes and queues, nothing else. *)
Definition emits (s s' : server) : Prop :=
  exists cs w, s' = set_sv_world w (upd_heap (set_conns cs) s) /\
    (forall c, conn_ready c s -> conn_ready c s') /\
    (forall c, is_Some (cs !! c) -> is_Some (conns (sv_heap s) !! c)).

Lemma emits_world w s : emits s (set_sv_world w s).
Proof. exists (conns (sv_heap s)), w. split; [|done]. by destruct s as [[] ? ? ? ? ? ? ? ?]. Qed.

Lemma emits_inv ex s s' : emits s s' -> inv ex s -> inv ex s' /\ grows s s'.
Proof.
  intros (cs & w & -> & Hready & Hdom) Hi.
  assert (grows s (set_sv_world w (upd_heap (set_conns cs) s))) as G.
  { split; try done; [by intros n x Hn; exists x|intros n x Hn; right; by exists x]. }
  split; [|done]. destruct Hi. split; try done.
  - intros l ln Hl. by apply (listener_ok_grows _ _ _ s); [|apply inv_listener].
  - intros c Hc. by apply Hready, inv_conns, Hdom.
  - intros c Hc. apply inv_conns_old. by apply Hdom.
Qed.

(** Queues stay queues of well-formed events. *)
Definition queue_ok (k : GamConnData) : Prop := exists q, cn_eq k = Some q /\ Forall event_ok q.

Lemma emits_update_conn s c k f :
  conns (sv_heap s) !! c = Some k -> cn_fd (f k) = cn_fd k -> (queue_ok k -> queue_ok (f k)) ->
  emits s (upd_heap (fun h => set_conns (<[c := f k]> (conns h)) h) s).
Proof.
  intros Hc Hfd Heq. exists (<[c := f k]> (conns (sv_heap s))), (sv_world s).
  split; [by destruct s as [[] ? ? ? ? ? ? ? ?]|]. split.
  - intros d (kd & q & Hd & Hf & Hq). unfold conn_ready. simpl.
    destruct (decide (c = d)) as [->|].
    + assert (kd = k) as -> by congruence. destruct Heq as (q' & ? & ?); [by exists q|].
      exists (f k), q'. rewrite lookup_insert, decide_True by done. by rewrite Hfd.
    + exists kd, q. by rewrite lookup_insert_ne.
  - intros d. destruct (decide (c = d)) as [->|]; [by rewrite Hc|]. by rewrite lookup_insert_ne.
Qed.

#[export] Instance emits_preorder : PreOrder emits.
Proof.
  split.
  - intros s. exists (conns (sv_heap s)), (sv_world s). split; [|done].
    by destruct s as [[] ? ? ? ? ? ? ? ?].
  - intros s1 s2 s3 (c1 & w1 & -> & H1 & D1) (c2 & w2 & -> & H2 & D2).
    exists c2, w2. split; [done|]. split; [auto|]. intros c Hc. by apply D1, D2.
Qed.

Lemma eq_queue_ok k reqno event path :
  queue_ok k -> queue_ok (set_cn_eq (gam_eq_queue (cn_eq k) reqno event path (strlen path)) k).
Proof.
  intros (q & Hq & Hall). rewrite Hq.
  assert (Forall event_ok (q ++ [gam_eq_event_new reqno event path (strlen path)])) as Happ
    by (apply Forall_app; split; [done|by repeat constructor]).
  unfold queue_ok. simpl. repeat case_match; eauto.
Qed.

Lemma wp_queue_event c reqno event path s :
  conn_ready c s ->
  wp (gam_queue_event c reqno event path (strlen path)) (fun _ s' => emits s s') s.
Proof.
  intros (k & q & Hk & Hfd & Hq & Hall). unfold gam_queue_event.
  apply wp_bind, (wp_load (H := conn_obj)) with k; [exact Hk|].
  apply wp_bind, wp_assert; [by rewrite Hq|]. apply wp_bind.
  apply (wp_update (H := conn_obj)) with k; [exact Hk|].
  set (k1 := set_cn_eq _ k). set (s1 := upd_heap _ s).
  assert (conns (sv_heap s1) !! c = Some k1) as Hk1
    by (subst s1; simpl; by rewrite lookup_insert, decide_True).
  assert (emits s s1) as E1.
  { apply (emits_update_conn s c k
      (set_cn_eq (gam_eq_queue (cn_eq k) reqno event path (strlen path)))); [done|done|].
    by apply eq_queue_ok. }
  apply wp_bind, (wp_load (H := conn_obj)) with k1; [exact Hk1|].
  apply wp_when; [|done]. intros _. apply (wp_update (H := conn_obj)) with k1; [exact Hk1|].
  etransitivity; [exact E1|]. by apply emits_update_conn.
Qed.

(** What delivery relies on: every client's connection can be sent to. *)
Definition ready (s : server) : Prop := forall l ln,
  listeners (sv_heap s) !! l = Some ln -> conn_ready (ln_service ln) s.

Lemma inv_ready ex s : inv ex s -> ready s.
Proof. intros Hi l ln Hl. by destruct (inv_listener _ _ Hi _ _ Hl). Qed.

Lemma emits_ready s s' : emits s s' -> ready s -> ready s'.
Proof. intros (cs & w & -> & Hc & _) Hr l ln Hl. apply Hc. by apply (Hr l). Qed.

Lemma wp_emit_one path d event p force name s :
  ready s -> sub_ok p name s ->
  wp (gam_server_emit_one_event path d event p force) (fun _ s' => emits s s') s.
Proof.
  intros Hi (sb & l & Hsb & _ & Hlen & Hl & [ln Hln]). unfold gam_server_emit_one_event.
  apply wp_bind, (wp_load (H := sub_obj)) with sb; [exact Hsb|].
  destruct (negb _); [by apply wp_ret|].
  assert (gam_subscription_get_listener (Some sb) = Some l) as -> by done.
  pose proof (Hi _ _ Hln) as Hready.
  unfold gam_listener_get_service. apply wp_bind, wp_bind.
  apply (wp_load (H := listener_obj)) with ln; [exact Hln|]. apply wp_ret.
  destruct (event_subpath sb path) as [subpath len] eqn:E.
  apply event_subpath_len in E as ->; [|unfold strlen in Hlen; lia].
  apply wp_bind. unfold is_running. apply wp_gets.
  destruct (inotify_is_running _); [by apply wp_queue_event|].
  destruct Hready as (k & q & Hk & Hfd & _). apply wp_bind.
  eapply wp_mono; [by apply (wp_gam_send_event (ln_service ln) k)|].
  intros r s' (w & ->). apply wp_ret, emits_world.
Qed.

Lemma sub_ok_emits p name s s' : emits s s' -> sub_ok p name s -> sub_ok p name s'.
Proof. intros (cs & w & -> & _). done. Qed.

Lemma wp_emit_event path d event l force s :
  ready s -> (forall p, p ∈ l -> exists name, sub_ok p name s) ->
  wp (gam_server_emit_event path d event l force) (fun _ s' => emits s s') s.
Proof.
  intros Hi Hl. unfold gam_server_emit_event.
  assert (forall l', l' ⊆ l -> forall s1, ready s1 -> emits s s1 ->
    wp (for_each l' (fun sub => gam_server_emit_one_event path d event sub force))
      (fun _ s' => emits s s') s1) as Hloop.
  { induction l' as [|p l' IH]; intros Hsub s1 Hi1 E1; simpl; [done|].
    destruct (Hl p) as [name Hp]; [by apply Hsub; left|].
    apply wp_bind. eapply wp_mono.
    { apply (wp_emit_one path d event p force name); [done|]. by apply (sub_ok_emits _ _ s). }
    intros [] s2 E2. apply IH.
    - intros q Hq. apply Hsub. by right.
    - by apply (emits_ready s1 s2).
    - by transitivity s1. }
  destruct l as [|p l]; [by apply wp_ret|]. by apply Hloop.
Qed.

Lemma safely_emit ex path d event l force s :
  inv ex s -> (forall p, p ∈ l -> exists name, sub_ok p name s) ->
  safely ex (gam_server_emit_event path d event l force) (fun _ s' => emits s s') s.
Proof.
  intros Hi Hl. eapply wp_mono; [by apply wp_emit_event; [apply (inv_ready ex)|]|].
  intros [] s' E. destruct (emits_inv ex s s' E Hi). done.
Qed.

Lemma safely_emit_one ex path d event p force name s :
  inv ex s -> sub_ok p name s ->
  safely ex (gam_server_emit_one_event path d event p force) (fun _ s' => emits s s') s.
Proof.
  intros Hi Hp. eapply wp_mono; [by apply (wp_emit_one path d event p force name); [apply (inv_ready ex)|]|].
  intros [] s' E. destruct (emits_inv ex s s' E Hi). done.
Qed.

Lemma elem_of_event_recipients l ps p :
  p ∈ event_recipients l ps <-> p ∈ l \/ p ∈ ps.
Proof.
  revert l. unfold event_recipients. induction ps as [|q ps IH]; intros l; simpl.
  - split; [by left|]. intros [?|H]; [done|]. by apply elem_of_nil in H.
  - rewrite IH. unfold g_list_find. destruct (bool_decide_reflect (q ∈ l)); simpl;
      rewrite ?elem_of_cons; intuition (subst; auto).
Qed.

Lemma safely_node_emit ex n x event s :
  inv ex s -> nodes (sv_heap s) !! n = Some x ->
  safely ex (gam_node_emit_event n event) (fun _ s' => emits s s') s.
Proof.
  intros Hi Hn.
  assert (load n s = Ok (x, s)) as Hload by by apply load_node_Ok.
  destruct (inv_tree _ _ Hi) as [root Ht]. pose proof (to_linked _ _ _ Ht _ _ Hn) as Hlink.
  assert (exists l, (forall p, p ∈ l -> exists name, sub_ok p name s) /\
    gam_node_emit_event n event s = gam_server_emit_event (nd_path x) (nd_is_dir x) event l false s)
    as (l & Hl & E); [|unfold safely, wp; rewrite E; by apply safely_emit].
  unfold gam_node_emit_event, gam_node_is_dir, gam_node_get_subscriptions, gam_node_parent,
    gam_node_get_path.
  unfold mbind, ST_bind. repeat (rewrite Hload; simpl). rewrite Hlink.
  assert (forall m y p, nodes (sv_heap s) !! m = Some y -> p ∈ nd_subs y ->
    exists name, sub_ok p name s) as Hsubs.
  { intros m y p Hm Hp. destruct (inv_node _ _ Hi _ _ Hm) as (_ & Hok & _).
    destruct (Hok p Hp). eauto. }
  destruct (nd_parent x) as [parent|] eqn:Hpar.
  - destruct (to_parent _ _ _ Ht _ _ _ Hn Hpar) as (_ & y & Hy & _).
    exists (event_recipients (nd_subs x) (nd_subs y)). split.
    + intros p [Hp|Hp]%elem_of_event_recipients; eauto.
    + rewrite (load_node_Ok _ _ _ Hy). simpl. by rewrite Hload.
  - exists (nd_subs x). split; [eauto|]. simpl. by rewrite Hload.
Qed.
End Delivery.

(** ** A new subscription *)

Section Listing.
Context {os : OS} {kern : KernelState}.

(** [sub] is alive, with its listener, which does not have it yet. *)
Record addable (sub : ptr) (sb : GamSubscription) (l : ptr) (ln : GamListener) (s : server) : Prop := {
  ad_sub : subs (sv_heap s) !! sub = Some sb;
  ad_len : sub_pathlen sb = strlen (sub_path sb);
  ad_listener : sub_listener sb = Some l;
  ad_live : listeners (sv_heap s) !! l = Some ln;
  ad_new : sub ∉ ln_subs ln
}.

(** The state with [sub] on its listener's list. *)
Definition listed (l : ptr) (ln : GamListener) (sub : ptr) (s : server) : server :=
  upd_heap (fun h => set_listeners (<[l := set_ln_subs (sub :: ln_subs ln) ln]> (listeners h)) h) s.

Lemma wp_listed l ln sub sb (Q : unit -> server -> Prop) s :
  addable sub sb l ln s -> Q tt (listed l ln sub s) -> wp (gam_listener_add_subscription l sub) Q s.
Proof.
  intros [_ _ _ Hl Hn] HQ. unfold gam_listener_add_subscription.
  apply wp_bind, (wp_load (H := listener_obj)) with ln; [exact Hl|].
  apply wp_bind, wp_assert; [by apply negb_true_iff, g_list_find_false|].
  by apply (wp_update (H := listener_obj)) with ln.
Qed.

Lemma listed_ready l ln sub sb s : ready s -> addable sub sb l ln s -> ready (listed l ln sub s).
Proof.
  intros Hr [_ _ _ Hl _] l' ln'. simpl. rewrite lookup_insert_Some.
  intros [[<- <-]|[_ Hl']]; [exact (Hr l ln Hl)|exact (Hr l' ln' Hl')].
Qed.

Lemma listed_sub_ok l ln sub sb q name s :
  addable sub sb l ln s -> sub_ok q name s -> sub_ok q name (listed l ln sub s).
Proof.
  intros [_ _ _ Hl _] (sb' & l' & ? & ? & ? & ? & Hl'). exists sb', l'. do 4 (split; [done|]). simpl.
  apply lookup_insert_is_Some'. by right.
Qed.

Lemma listed_self l ln sub sb s : addable sub sb l ln s -> sub_ok sub (sub_path sb) (listed l ln sub s).
Proof.
  intros [Hs Hlen Hsl Hl _]. exists sb, l. do 4 (split; [done|]). simpl.
  apply lookup_insert_is_Some'. by left.
Qed.
End Listing.
