(* ===== verification/PollSafety.v ===== *)
(** * Safety of polling and scanning

    Polling a file, scanning a directory and the first scan of a new
    subscription complete without faults under the invariant.  In particular
    the recursion of [gam_poll_generic_scan_directory_internal] is never
    entered: a node that is new has no subscription yet. *)

From S2P Require Import Prelude Protocol EventQueue Monad OS Excludes.
From S2P Require Import Fs State Subscription Listener ConnSend Node.
From S2P Require Import Tree Inv Emit PollGeneric PollBasic Safety.

Local Open Scope Z_scope.

Create HintDb safety.

Section Live.
Context {os : OS} {kern : KernelState} {ki : KernelInv kern}.

Definition live (n : ptr) (s : server) : Prop := is_Some (nodes (sv_heap s) !! n).

Lemma live_grows n s s' : grows s s' -> live n s -> live n s'.
Proof. intros G [x Hx]. destruct (gr_nodes _ _ G _ _ Hx) as (y & Hy & _). by exists y. Qed.

Lemma live_in n x s : nodes (sv_heap s) !! n = Some x -> live n s.
Proof. by exists x. Qed.

Lemma safely_load_live ex n s :
  inv ex s -> live n s ->
  safely ex (load n) (fun x s' => s' = s /\ nodes (sv_heap s) !! n = Some x) s.
Proof.
  intros Hi [x Hx]. eapply safely_mono; [by apply (safely_load_node ex n x)|].
  by intros y s' _ _ [-> ->].
Qed.

(** Changing the polling state of a node. *)
Lemma safely_update_live ex n f s :
  (forall x, same_core x (f x) /\ has_new (f x) = has_new x) ->
  inv ex s -> live n s -> safely ex (update n f) (fun _ _ => True) s.
Proof.
  intros Hf Hi [x Hx]. destruct (Hf x) as [Hc Hnew]. eapply safely_mono; [|done].
  apply (safely_update_node ex n x); [done|done|done|]. rewrite Hnew.
  apply (inv_node _ _ Hi _ _ Hx).
Qed.

Lemma same_core_refl_except f :
  (forall x, nd_path (f x) = nd_path x /\ nd_subs (f x) = nd_subs x /\ nd_node (f x) = nd_node x /\
    nd_parent (f x) = nd_parent x /\ nd_children (f x) = nd_children x /\
    nd_flags (f x) = nd_flags x) ->
  forall x, same_core x (f x) /\ has_new (f x) = has_new x.
Proof. intros H x. destruct (H x) as (? & ? & ? & ? & ? & E). unfold has_new. by rewrite E. Qed.

Lemma safely_assert ex b s :
  inv ex s -> b = true -> safely ex (g_assert b) (fun _ s' => s' = s) s.
Proof. intros Hi ->. by apply safely_ret. Qed.

Lemma safely_true {A} ex (m : ST server A) (Q : A -> server -> Prop) s :
  safely ex m (fun _ _ => True) s -> (forall a s', Q a s') -> safely ex m Q s.
Proof. intros H HQ. eapply safely_mono; [exact H|auto]. Qed.
End Live.

(** Liveness follows the state. *)
Ltac transport :=
  repeat match goal with
  | G : grows ?s ?s |- _ => clear G
  | G : grows ?s ?s', L : live ?n ?s |- _ =>
      lazymatch goal with
      | _ : live n s' |- _ => fail
      | _ => pose proof (live_grows _ _ _ G L)
      end
  end.

(** Executes straight-line code: each call by a lemma of the [safety]
    database. *)
Ltac safe_step :=
  match goal with
  | |- safely _ (mret _) _ _ => apply safely_ret; [solve [eauto with safety]|try done]
  | |- safely _ (_ ≫= _) _ _ =>
      eapply safely_bind; [solve [eauto with safety]|intros ? ? ? ? ?; simpl in *; destruct_and?; subst; transport]
  | |- safely _ ((match ?o with _ => _ end) ≫= _) _ _ => destruct o eqn:?; simpl
  | |- safely _ ((_ ≫= _) ≫= _) _ _ =>
      apply safely_bind with (Q := fun _ _ => True); [|intros ? ? ? ? _; simpl in *; transport]
  | |- safely _ ((when ?b _) ≫= _) _ _ => destruct b eqn:?; simpl
  | |- safely _ (when ?b _) _ _ => destruct b eqn:?; simpl
  | |- safely _ (if ?b then _ else _) _ _ => destruct b eqn:?
  | |- safely _ (match ?o with _ => _ end) _ _ => destruct o eqn:?
  | |- safely _ _ _ _ => solve [eapply safely_mono; [solve [eauto with safety]|first [done | naive_solver]]]
  end.
Ltac safe := repeat safe_step.

#[export] Hint Resolve safely_load_live safely_sys safely_fs_call safely_gets : safety.
#[export] Hint Resolve live_in : safety.
#[export] Hint Extern 2 (safely _ (update _ _) _ _) =>
  (apply safely_update_live; [apply same_core_refl_except; done| |]) : safety.
#[export] Hint Extern 1 (safely _ (g_assert _) _ _) =>
  (apply safely_assert; [|reflexivity]) : safety.

Section Poll.
Context {os : OS} {kern : KernelState} {ki : KernelInv kern}.

Lemma safely_set_is_dir ex n b s :
  inv ex s -> live n s -> safely ex (gam_node_set_is_dir n b) (fun _ _ => True) s.
Proof. unfold gam_node_set_is_dir. intros. safe. Qed.

Lemma safely_set_pflags ex n f s :
  inv ex s -> live n s -> safely ex (gam_node_set_pflags n f) (fun _ _ => True) s.
Proof. unfold gam_node_set_pflags. intros. safe. Qed.

Lemma safely_set_pflag ex n f s :
  one_flag f = true -> inv ex s -> live n s ->
  safely ex (gam_node_set_pflag n f) (fun _ _ => True) s.
Proof. unfold gam_node_set_pflag. intros ->. intros. safe. Qed.

Lemma safely_unset_pflag ex n f s :
  one_flag f = true -> inv ex s -> live n s ->
  safely ex (gam_node_unset_pflag n f) (fun _ _ => True) s.
Proof. unfold gam_node_unset_pflag. intros ->. intros. safe. Qed.

Lemma safely_has_pflag ex n f s :
  one_flag f = true -> inv ex s -> live n s ->
  safely ex (gam_node_has_pflag n f) (fun _ s' => s' = s) s.
Proof. unfold gam_node_has_pflag. intros ->. intros. safe. Qed.

Lemma safely_add_missing ex n s :
  inv ex s -> live n s -> safely ex (gam_poll_generic_add_missing n) (fun _ _ => True) s.
Proof.
  intros Hi Hn. unfold gam_poll_generic_add_missing. safe_step. safe_step; [safe|].
  eapply safely_mono; [apply safely_lists|done]; simpl; try apply Hi.
  apply list_ok_cons; [apply Hi|by apply g_list_find_false|done].
Qed.

Lemma safely_remove_missing ex n s :
  inv ex s -> safely ex (gam_poll_generic_remove_missing n) (fun _ _ => True) s.
Proof.
  intros Hi. unfold gam_poll_generic_remove_missing. safe_step. safe_step; [|safe].
  eapply safely_mono; [apply safely_lists|done]; simpl; try apply Hi.
  apply list_ok_remove, Hi.
Qed.

Lemma safely_remove_busy ex n s :
  inv ex s -> safely ex (gam_poll_generic_remove_busy n) (fun _ _ => True) s.
Proof.
  intros Hi. unfold gam_poll_generic_remove_busy. safe_step. safe_step; [safe|].
  eapply safely_mono; [apply safely_lists|done]; simpl; try apply Hi.
  apply list_ok_remove, Hi.
Qed.

Lemma safely_add ex n s :
  inv ex s -> live n s -> safely ex (gam_poll_generic_add n) (fun _ _ => True) s.
Proof.
  intros Hi Hn. unfold gam_poll_generic_add. safe_step. safe_step; [safe|].
  eapply safely_mono; [apply safely_lists|done]; simpl; try apply Hi.
  apply list_ok_cons; [apply Hi|by apply g_list_find_false|done].
Qed.

Lemma safely_update_time ex s :
  inv ex s -> safely ex gam_poll_generic_update_time (fun _ s' => same_store s s') s.
Proof.
  intros Hi. apply safely_store; [done|]. unfold gam_poll_generic_update_time.
  apply wp_bind, wp_sys. intros t w _. apply wp_modify. by split.
Qed.
End Poll.

#[export] Hint Resolve safely_set_is_dir safely_set_pflags safely_set_pflag safely_unset_pflag
  safely_has_pflag safely_add_missing safely_remove_missing safely_remove_busy safely_add
  safely_update_time : safety.

Section PollFileSafety.
Context {os : OS} {glib : GLib} {kern : KernelState} {ki : KernelInv kern}.

Lemma safely_delta ex pt s :
  inv ex s -> safely ex (gam_poll_generic_get_delta_time pt) (fun _ s' => s' = s) s.
Proof. intros Hi. unfold gam_poll_generic_get_delta_time. safe. Qed.
Lemma safely_get_time ex s :
  inv ex s -> safely ex gam_poll_generic_get_time (fun _ s' => s' = s) s.
Proof. intros Hi. unfold gam_poll_generic_get_time. safe_step. Qed.
Hint Resolve safely_delta safely_get_time : safety.

Lemma safely_poll_file ex n s :
  inv ex s -> live n s -> safely ex (gam_poll_basic_poll_file n) (fun _ _ => True) s.
Proof.
  intros Hi Hn. unfold gam_poll_basic_poll_file, poll_file_first, poll_file_again. safe.
Qed.
End PollFileSafety.

#[export] Hint Resolve safely_poll_file : safety.

(** What the scans need of the polling backend: its poll completes and keeps
    the invariant. *)
Class PollFileSafe {os : OS} {kern : KernelState} {ki : KernelInv kern} (pf : PollFile os kern) :=
  safely_hook ex n s : inv ex s -> live n s -> safely ex (hook_poll_file n) (fun _ _ => True) s.

#[export] Instance poll_basic_safe {os : OS} {kern : KernelState} {ki : KernelInv kern}
  : PollFileSafe poll_basic_hook.
Proof. intros ex n s. apply safely_poll_file. Qed.
#[export] Hint Extern 0 (PollFileSafe _) => typeclasses eauto : safety.

(** ** New nodes *)

Section Floating.
Context {os : OS} {glib : GLib} {kern : KernelState} {ki : KernelInv kern}.
Abbreviation M := (ST server).

(** The state without node [n]. *)
Definition without (n : ptr) (s : server) : server :=
  upd_heap (fun h => set_nodes (delete n (nodes h)) h) s.

(** [n] is a new node for [path] that is not in the tree yet. *)
Record floating (ex : ctx) (s0 : server) (n : ptr) (path : string) (s : server) : Prop := {
  fl_inv : inv ex (without n s);
  fl_grows : grows s0 (without n s);
  fl_hash : node_hash (sv_tree s) = node_hash (sv_tree s0);
  fl_node : exists x, nodes (sv_heap s) !! n = Some x /\ nd_path x = path /\ nd_subs x = [] /\
    has_new x = false;
  fl_bound : (n < next_ptr (sv_heap s))%positive;
  fl_newest m : live m (without n s) -> (m < n)%positive
}.

Lemma without_fresh n x s :
  nodes (sv_heap s) !! n = None ->
  without n (upd_heap (fun h => set_nodes (<[n := x]> (nodes h)) h) s) = s.
Proof.
  intros Hn. unfold without, upd_heap. destruct s as [[] ? ? ? ? ? ? ? ?]; simpl in *.
  by rewrite delete_insert_id.
Qed.

Lemma inv_bump ex s : inv ex s -> inv ex (upd_heap bump_ptr s) /\ grows s (upd_heap bump_ptr s).
Proof.
  intros Hi. assert (grows s (upd_heap bump_ptr s)) as G by (split; eauto). split; [|done].
  destruct Hi. split; simpl; try done.
  - intros n Hn. specialize (inv_nodes_old n Hn). lia.
  - intros n Hn. specialize (inv_subs_old n Hn). lia.
  - intros n Hn. specialize (inv_listeners_old n Hn). lia.
  - intros n Hn. specialize (inv_conns_old n Hn). lia.
Qed.

Lemma wp_node_new ex path d s :
  inv ex s -> wp (gam_node_new path None d) (fun n s' => floating ex s n path s') s.
Proof.
  intros Hi. unfold gam_node_new.
  apply wp_bind, wp_fs_call. intros pt fw1 _. apply wp_bind, wp_fs_call. intros mt fw2 _.
  apply (wp_alloc (H := node_obj)).
  set (s1 := set_sv_fs fw2 (set_sv_fs fw1 s)).
  destruct (inv_same_store ex s s1) as [Hi1 G1]; [by split|done|].
  destruct (inv_bump ex s1 Hi1) as [Hi2 G2].
  set (n := next_ptr (sv_heap s1)). set (x := mk_node _ _ _ _ _ _ _ _ _ _ _ _ _ _).
  set (s3 := upd_heap _ s1).
  assert (nodes (sv_heap s1) !! n = None) as Hfresh.
  { destruct (nodes (sv_heap s1) !! n) eqn:E; [|done].
    exfalso. apply (Pos.lt_irrefl n), (inv_nodes_old _ _ Hi1 n). eauto. }
  assert (without n s3 = upd_heap bump_ptr s1) as Ew.
  { unfold without, s3, upd_heap. destruct s1 as [[] ? ? ? ? ? ? ? ?]; simpl in *.
    unfold set_nodes, bump_ptr. simpl. by rewrite delete_insert_id. }
  split; rewrite ?Ew; try done.
  - by transitivity s1.
  - exists x. subst s3. simpl. by rewrite lookup_insert, decide_True.
  - apply Pos.lt_succ_diag_r.
  - intros m Hm. apply (inv_nodes_old _ _ Hi1 m). exact Hm.
Qed.

(** Other objects and the environment do not notice. *)
Lemma floating_same ex s0 n path s s' :
  same_store s s' -> floating ex s0 n path s -> floating ex s0 n path s'.
Proof.
  intros (Eh & Et & El) [F1 F2 F3 F4 F5 F6].
  destruct (inv_same_store ex (without n s) (without n s')) as [Hi G]; [|done|].
  { unfold same_store, without. simpl. by rewrite Eh. }
  split; rewrite ?Eh, ?Et; try done.
  - by transitivity (without n s).
  - unfold live, without in *. simpl in *. by rewrite Eh.
Qed.

Lemma floating_update ex s0 n path f s :
  (forall x, nd_path (f x) = nd_path x /\ nd_subs (f x) = nd_subs x /\
    nd_flags (f x) = nd_flags x) ->
  floating ex s0 n path s -> wp (update n f) (fun _ s' => floating ex s0 n path s') s.
Proof.
  intros Hf [F1 F2 F3 (x & Hx & Hp & Hs & Hnf) F5 F6].
  apply (wp_update (H := node_obj)) with x; [exact Hx|]. set (s' := upd_heap _ s).
  assert (without n s' = without n s) as Ew.
  { unfold without, s', upd_heap. destruct s as [[] ? ? ? ? ? ? ? ?]; simpl in *.
    unfold set_nodes. simpl. by rewrite delete_insert_eq. }
  split; rewrite ?Ew; try done. exists (f x). subst s'. simpl.
  rewrite lookup_insert, decide_True by done. destruct (Hf x) as (-> & -> & E). unfold has_new. by rewrite E.
Qed.

Lemma floating_load ex s0 n path s :
  floating ex s0 n path s -> wp (load (A := GamNode) n) (fun _ s' => s' = s) s.
Proof.
  intros [_ _ _ (x & Hx & _) _ _]. by apply (wp_load (H := node_obj)) with x.
Qed.

(** The new node as a child of [parent]. *)
Definition graft (parent : ptr) (x : GamNode) : GamNode :=
  set_nd_parent (Some parent) (set_nd_node true (set_nd_parent None (set_nd_children [] x))).
Definition grafted (n parent : ptr) (x px : GamNode) (s : server) : server :=
  upd_tree (fun t => mk_tree (tree_root t) (<[nd_path x := n]> (node_hash t)))
    (upd_heap (fun h => set_nodes (<[n := graft parent x]>
       (<[parent := set_nd_children (nd_children px ++ [n]) px]> (nodes h))) h) s).

Lemma wp_tree_add n parent x px s :
  nodes (sv_heap s) !! n = Some x -> nodes (sv_heap s) !! parent = Some px -> n <> parent ->
  nd_node px = true -> node_hash (sv_tree s) !! nd_path x = None ->
  wp (gam_tree_add parent n) (fun _ s' => s' = grafted n parent x px s) s.
Proof.
  intros Hx Hpx Hne Hlink Hfresh.
  unfold gam_tree_add, gam_node_get_path, gam_tree_get_at_path, new_node, g_node_append.
  apply wp_bind, wp_bind, (wp_load (H := node_obj)) with x; [exact Hx|]. apply wp_ret.
  apply wp_bind, wp_gets. rewrite Hfresh.
  apply wp_bind, (wp_update (H := node_obj)) with x; [exact Hx|].
  apply wp_bind, wp_bind, (wp_load (H := node_obj)) with px.
  { unfold objs. simpl. by rewrite lookup_insert_ne. }
  apply wp_bind, wp_assert; [done|]. apply wp_bind, (wp_update (H := node_obj)) with px.
  { unfold objs. simpl. by rewrite lookup_insert_ne. }
  apply (wp_update (H := node_obj)) with (set_nd_node true (set_nd_parent None (set_nd_children [] x))).
  { unfold objs. simpl. rewrite lookup_insert_ne by done. by rewrite lookup_insert, decide_True. }
  apply wp_bind, wp_modify, wp_ret. unfold grafted, upd_heap, obj_set, obj_map, node_obj, set_nodes.
  simpl. rewrite (insert_insert_ne _ n parent) by done.
  by rewrite (insert_insert _ n n), decide_True, insert_insert_ne.
Qed.

(** Grafting a floating node. *)
Section Graft.
Context (ex : ctx) (s0 s : server) (n parent : ptr) (path : string) (x px : GamNode).
Context (Hf : floating ex s0 n path s) (Hx : nodes (sv_heap s) !! n = Some x).
Context (Hpath : nd_path x = path) (Hs : nd_subs x = []) (Hold : has_new x = false).
Context (Hpx : delete n (nodes (sv_heap s)) !! parent = Some px).
Context (Hfresh : node_hash (sv_tree s0) !! path = None).

Let s' := grafted n parent x px s.

Lemma grafted_new : nodes (sv_heap s') !! n = Some (graft parent x).
Proof. subst s'. simpl. by rewrite lookup_insert, decide_True. Qed.

Lemma grafted_case m z : nodes (sv_heap s') !! m = Some z ->
  (m = n /\ z = graft parent x) \/
  exists z0, delete n (nodes (sv_heap s)) !! m = Some z0 /\ nd_path z = nd_path z0 /\
    nd_subs z = nd_subs z0 /\ has_new z = has_new z0.
Proof.
  subst s'. simpl. rewrite !lookup_insert_Some.
  intros [[<- <-]|[Hmn [[<- <-]|[_ Hm]]]]; [by left|right..]; [by exists px|].
  exists z. by rewrite lookup_delete_ne.
Qed.

Lemma grafted_old m z : delete n (nodes (sv_heap s)) !! m = Some z ->
  exists y, nodes (sv_heap s') !! m = Some y /\ nd_path y = nd_path z /\ nd_subs y = nd_subs z /\
    nd_parent y = nd_parent z.
Proof.
  intros [Hmn Hm]%lookup_delete_Some. subst s'. simpl. rewrite lookup_insert_ne by done.
  apply lookup_delete_Some in Hpx as [_ Hpx'].
  destruct (decide (parent = m)) as [->|].
  - assert (z = px) as -> by congruence. rewrite lookup_insert, decide_True by done. by eexists.
  - rewrite lookup_insert_ne by done. by exists z.
Qed.

Lemma grafted_grows : grows (without n s) s'.
Proof.
  pose proof (fl_hash _ _ _ _ _ Hf) as Eh. split; try done; try apply grafted_old.
  - intros path' m Hm. simpl in *. rewrite lookup_insert_ne; [done|]. congruence.
  - intros m z Hm. destruct (grafted_case _ _ Hm) as [[_ ->]|(z0 & Hz0 & _ & E & _)].
    + left. exact Hs.
    + right. by exists z0.
Qed.

Lemma grafted_inv : inv ex s'.
Proof.
  pose proof grafted_grows as G. pose proof (fl_inv _ _ _ _ _ Hf) as Hi.
  pose proof (fl_bound _ _ _ _ _ Hf) as Hb. pose proof (fl_hash _ _ _ _ _ Hf) as Eh.
  assert (parent < n)%positive as Hlt by (apply (fl_newest _ _ _ _ _ Hf); by exists px).
  pose proof Hpx as [_ Hpx']%lookup_delete_Some.
  assert (forall l : list ptr, list_ok l (without n s) -> list_ok l s') as Hlists.
  { intros l [? Hl]. split; [done|]. intros m Hm. exact (live_grows m _ _ G (Hl m Hm)). }
  destruct Hi. split; try solve [by apply Hlists | exact inv_subs_old | exact inv_listeners_old
    | exact inv_conns_old | exact inv_kernel].
  - destruct inv_tree as [root Ht]. exists root.
    apply (tree_ok_add _ _ _ parent n px (graft parent x)); try done.
    simpl. by rewrite Hpath, Eh.
  - intros m z Hm. destruct (grafted_case _ _ Hm) as [[-> ->]|(z0 & Hz0 & Ep & Es & En)].
    + unfold node_ok. change (nd_subs (graft parent x)) with (nd_subs x). rewrite Hs.
      split; [constructor|]. split; [intros p Hin; by apply elem_of_nil in Hin|].
      change (has_new (graft parent x)) with (has_new x). by rewrite Hold.
    + destruct (inv_node _ _ Hz0) as (? & Hsub & Hn). unfold node_ok. rewrite Ep, Es, En.
      split; [done|]. split; [|done]. intros p Hin. destruct (Hsub p Hin) as [? Hhash].
      split; [done|]. exact (gr_hash _ _ G _ _ Hhash).
  - intros l ln Hl. by apply (listener_ok_grows _ _ _ (without n s)), inv_listener.
  - intros c Hcn. by apply (gr_conns _ _ G), inv_conns.
  - intros m [z Hz]. destruct (grafted_case _ _ Hz) as [[-> _]|(z0 & Hz0 & _)]; [done|].
    apply inv_nodes_old. by exists z0.
Qed.
End Graft.

(** [gam_tree_add] puts the new node into the tree. *)
Lemma floating_add ex s0 n path parent s :
  floating ex s0 n path s -> live parent s0 -> node_hash (sv_tree s0) !! path = None ->
  wp (gam_tree_add parent n) (fun _ s' => inv ex s' /\ grows s0 s' /\
    node_hash (sv_tree s') = <[path := n]> (node_hash (sv_tree s0)) /\
    exists x, nodes (sv_heap s') !! n = Some x /\ nd_path x = path /\ nd_subs x = [] /\
      has_new x = false /\ nd_parent x = Some parent) s.
Proof.
  intros Hf Hpar Hfresh. pose proof Hf as [Hi G Eh (x & Hx & Hp & Hs & Hnf) Hb Hnew].
  apply (live_grows _ _ _ G) in Hpar as [px Hpx]. unfold without in Hpx. simpl in Hpx.
  pose proof Hpx as [Hne Hpx']%lookup_delete_Some.
  destruct (inv_tree _ _ Hi) as [root Ht]. simpl in Ht.
  eapply wp_mono; [apply (wp_tree_add n parent x px); try done|].
  - by apply (to_linked _ _ _ Ht parent).
  - by rewrite Hp, Eh.
  - intros b s' ->. split; [by apply (grafted_inv ex s0 s n parent path)|].
    split; [transitivity (without n s); [done|by apply (grafted_grows ex s0 s n parent path)]|].
    split; [simpl; by rewrite Hp, Eh|]. exists (graft parent x). split; [apply grafted_new|]. by rewrite <- Hp.
Qed.
End Floating.

(** * Safety of directory scans *)

Section Scan.
Context {os : OS} {glib : GLib} {kern : KernelState} {ki : KernelInv kern} {laws : OSLaws os}.
Context {pf : PollFile os kern} {pfs : PollFileSafe pf}.
Abbreviation M := (ST server).

(** ** Small readers *)

Lemma safely_get_path ex n s :
  inv ex s -> live n s -> safely ex (gam_node_get_path n) (fun _ s' => s' = s) s.
Proof. intros. unfold gam_node_get_path. safe. Qed.

Lemma safely_is_dir ex n s :
  inv ex s -> live n s -> safely ex (gam_node_is_dir n) (fun _ s' => s' = s) s.
Proof. intros. unfold gam_node_is_dir. safe. Qed.

Lemma safely_get_subs ex n s :
  inv ex s -> live n s ->
  safely ex (gam_node_get_subscriptions n)
    (fun l s' => s' = s /\ exists x, nodes (sv_heap s) !! n = Some x /\ l = nd_subs x) s.
Proof. intros. unfold gam_node_get_subscriptions. safe. eauto. Qed.

Lemma safely_get_at_path ex path s :
  inv ex s ->
  safely ex (gam_tree_get_at_path path)
    (fun o s' => s' = s /\ o = node_hash (sv_tree s) !! path) s.
Proof. intros. unfold gam_tree_get_at_path. eapply safely_mono; [by apply safely_gets|]. naive_solver. Qed.

Lemma safely_hook_poll_file ex n s :
  inv ex s -> live n s -> safely ex (gam_poll_file n) (fun _ _ => True) s.
Proof.
  intros Hi Hn. unfold gam_poll_file. eapply safely_bind; [by apply safely_gets|].
  intros h s' _ _ [-> ->]. destruct (poll_handler (sv_ctl s)); [by apply safely_ret|by apply pfs..].
Qed.

Lemma safely_live_emit ex n event s :
  inv ex s -> live n s -> safely ex (gam_node_emit_event n event) (fun _ _ => True) s.
Proof.
  intros Hi [x Hx]. eapply safely_mono; [by apply (safely_node_emit ex n x)|done].
Qed.

Lemma safely_emit_none ex path d event force s :
  inv ex s -> safely ex (gam_server_emit_event path d event [] force) (fun _ _ => True) s.
Proof. intros Hi. by apply safely_ret. Qed.

Hint Resolve safely_get_path safely_is_dir safely_get_subs safely_get_at_path
  safely_hook_poll_file safely_live_emit safely_emit_none safely_delta : safety.

Lemma live_hash ex path n s : inv ex s -> node_hash (sv_tree s) !! path = Some n -> live n s.
Proof.
  intros Hi Hn. destruct (inv_tree _ _ Hi) as [root Ht].
  destruct (to_hash _ _ _ Ht _ _ Hn) as (_ & x & Hx & _). by exists x.
Qed.

(** ** Scanning *)

Definition child_of (dir n : ptr) (s : server) : Prop :=
  exists x, nodes (sv_heap s) !! n = Some x /\ nd_parent x = Some dir.

Lemma child_of_grows dir n s s' : grows s s' -> child_of dir n s -> child_of dir n s'.
Proof.
  intros G (x & Hx & Hp). destruct (gr_nodes _ _ G _ _ Hx) as (y & Hy & _ & _ & E).
  exists y. by rewrite E.
Qed.

Lemma inv_new_mono e F F' s : F ⊆ F' -> inv (mk_ctx e F) s -> inv (mk_ctx e F') s.
Proof.
  intros HF []. split; try done. intros n x Hn. destruct (inv_node n x Hn) as (? & ? & Hnew).
  split; [done|]. split; [done|]. simpl in *. intros H'. destruct (Hnew H'). auto.
Qed.

Lemma inv_new_drop e F n s :
  (forall x, nodes (sv_heap s) !! n = Some x -> has_new x = false) ->
  inv (mk_ctx e F) s -> inv (mk_ctx e (F ∖ {[n]})) s.
Proof.
  intros Hn []. split; try done. intros m x Hm. destruct (inv_node m x Hm) as (? & ? & Hnew).
  split; [done|]. split; [done|]. simpl in *. intros H'. destruct (Hnew H'). split; [|done].
  apply elem_of_difference. split; [done|]. intros ->%elem_of_singleton.
  rewrite (Hn _ Hm) in H'. done.
Qed.

Lemma wp_scan_entry e F dir name s :
  inv (mk_ctx e F) s -> live dir s ->
  wp (scan_entry dir name) (fun _ s' => exists F', inv (mk_ctx e F') s' /\ grows s s' /\
    forall m, m ∈ F' -> m ∈ F \/ child_of dir m s') s.
Proof.
  intros Hi Hdir. unfold scan_entry.
  apply wp_bind. eapply wp_mono; [by apply (safely_get_path (mk_ctx e F))|].
  intros dpath s1 (_ & _ & ->). set (path := g_build_filename _ _).
  apply wp_bind. unfold gam_tree_get_at_path at 1. apply wp_gets.
  destruct (node_hash (sv_tree s) !! path) as [|] eqn:Ho.
  { apply wp_ret. exists F. split; [done|]. split; [done|]. auto. }
  apply wp_bind. eapply wp_mono; [by apply (safely_sys (mk_ctx e F))|].
  intros is_dir s1 (Hi1 & G1 & _ & Et & _). apply (live_grows _ _ _ G1) in Hdir.
  apply wp_bind. eapply wp_mono; [by apply wp_node_new|]. intros n s2 Fl.
  apply wp_bind. eapply wp_mono.
  { eapply floating_add; [exact Fl|done|]. by rewrite Et. }
  intros b s3 (Hi3 & G3 & _ & x & Hx & _ & Hs & _ & Hpar).
  apply (inv_new_mono e F (F ∪ {[n]})) in Hi3; [|set_solver].
  unfold gam_node_set_flag. apply wp_bind, wp_assert; [done|].
  eapply wp_mono.
  { apply (safely_update_node (mk_ctx e (F ∪ {[n]})) n x); [done|done|done|].
    simpl. set_solver. }
  intros [] s4 (Hi4 & G4 & _). exists (F ∪ {[n]}). split; [done|].
  split; [by transitivity s1; [|transitivity s3]|].
  intros m [Hm|Hm%elem_of_singleton]%elem_of_union; [by left|right]. subst m.
  apply (child_of_grows _ _ s3); [done|]. by exists x.
Qed.

Lemma wp_scan_entries e F dir names s :
  inv (mk_ctx e F) s -> live dir s -> (forall m, m ∈ F -> child_of dir m s) ->
  wp (for_each names (scan_entry dir)) (fun _ s' => exists F', inv (mk_ctx e F') s' /\
    grows s s' /\ forall m, m ∈ F' -> child_of dir m s') s.
Proof.
  revert F s. induction names as [|name names IH]; intros F s Hi Hdir HF; simpl.
  { apply wp_ret. by exists F. }
  apply wp_bind. eapply wp_mono; [by apply (wp_scan_entry e F)|].
  intros [] s1 (F1 & Hi1 & G1 & HF1). eapply wp_mono.
  { apply (IH F1); [done|by apply (live_grows _ s)|].
    intros m Hm. destruct (HF1 m Hm); [|done]. apply (child_of_grows _ _ s); auto. }
  intros [] s2 (F2 & Hi2 & G2 & HF2). exists F2. split; [done|]. split; [by transitivity s1|done].
Qed.

Lemma wp_scan_self e dir s :
  inv (mk_ctx e ∅) s -> live dir s ->
  wp (scan_self dir) (fun go s' => exists F, inv (mk_ctx e F) s' /\ grows s s' /\
    (forall m, m ∈ F -> child_of dir m s') /\ (go = false -> F = ∅)) s.
Proof.
  intros Hi Hdir. unfold scan_self.
  assert (forall (go : bool) s', inv (mk_ctx e ∅) s' -> grows s s' ->
    exists F, inv (mk_ctx e F) s' /\ grows s s' /\
      (forall m, m ∈ F -> child_of dir m s') /\ (go = false -> F = ∅)) as Hempty.
  { intros go s' Hi' G. exists ∅. set_solver. }
  destruct Hdir as [x Hx]. apply wp_bind, (wp_load (H := node_obj)) with x; [exact Hx|].
  assert (live dir s) as Hdir by by exists x.
  case_bool_decide; [apply wp_ret; by apply Hempty|].
  apply wp_bind. eapply wp_mono; [by apply (safely_delta (mk_ctx e ∅))|].
  intros delta s1 (_ & _ & ->). destruct (_ && _); [apply wp_ret; by apply Hempty|].
  apply wp_bind. eapply wp_mono; [by apply (safely_hook_poll_file (mk_ctx e ∅))|].
  intros event s1 (Hi1 & G1 & _). transport.
  apply wp_bind. eapply wp_mono with (Q := fun _ s' => inv (mk_ctx e ∅) s' /\ grows s s').
  { apply wp_when; [intros _|done].
    eapply wp_mono; [by apply (safely_live_emit (mk_ctx e ∅))|].
    intros _ s2 (? & ? & _). split; [done|by transitivity s1]. }
  intros _ s2 (Hi2 & G2). apply wp_bind.
  eapply wp_mono; [by apply (safely_sys (mk_ctx e ∅))|]. intros o s3 (Hi3 & G3 & _).
  assert (grows s s3) as G by by transitivity s2. destruct o as [names|].
  - apply wp_bind. eapply wp_mono.
    { apply (wp_scan_entries e ∅); [done|by apply (live_grows _ s)|set_solver]. }
    intros [] s4 (F & Hi4 & G4 & HF). apply wp_ret. exists F. split; [done|].
    split; [by transitivity s3|]. done.
  - apply wp_ret. by apply Hempty.
Qed.

Lemma unflagged x : has_new (set_nd_flags (nd_flags x .& (~. FLAG_NEW_NODE)) x) = false.
Proof. unfold has_new. simpl. rewrite <- Z.land_assoc. by rewrite Z.land_0_r. Qed.

(** The recursive call [scan] is arbitrary: it is not reached, because a new
    node has no subscription. *)
Lemma wp_scan_child e F scan dir n s :
  inv (mk_ctx e F) s -> live dir s -> live n s ->
  wp (scan_child scan dir n) (fun _ s' => inv (mk_ctx e (F ∖ {[n]})) s' /\ grows s s') s.
Proof.
  intros Hi Hdir Hn. unfold scan_child.
  apply wp_bind. eapply wp_mono; [by apply (safely_is_dir (mk_ctx e F))|].
  intros isd s1 (_ & _ & ->).
  apply wp_bind. eapply wp_mono; [by apply (safely_hook_poll_file (mk_ctx e F))|].
  intros fe s1 (Hi1 & G1 & _). transport.
  match goal with L : live n s1 |- _ => destruct L as [x Hx] end.
  destruct (inv_node _ _ Hi1 _ _ Hx) as (_ & _ & Hbare).
  apply wp_bind. unfold gam_node_has_flag. apply wp_bind, wp_assert; [done|].
  apply wp_bind, (wp_load (H := node_obj)) with x; [exact Hx|]. apply wp_ret. fold (has_new x).
  set (ex := mk_ctx e (F ∖ {[n]})).
  apply wp_bind. eapply wp_mono with (Q := fun _ s' => inv ex s' /\ grows s1 s').
  { destruct (has_new x) eqn:Hnew.
    - destruct (Hbare eq_refl) as [_ Hs].
      unfold gam_node_get_subscriptions.
      apply wp_bind, wp_bind, (wp_load (H := node_obj)) with x; [exact Hx|]. apply wp_ret.
      rewrite Hs, bool_decide_eq_true_2, andb_false_r by done.
      apply wp_bind. unfold gam_node_unset_flag. apply wp_bind, wp_assert; [done|].
      eapply wp_mono.
      { apply (safely_update_node (mk_ctx e F) n x); [done|done|done|].
        by rewrite unflagged. }
      intros [] s2 (Hi2 & G2 & ->). apply wp_ret. split; [|done].
      apply inv_new_drop; [|done]. intros y. simpl. rewrite lookup_insert, decide_True by done.
      intros [= <-]. apply unflagged.
    - apply wp_ret. split; [|done]. apply inv_new_drop; [|done]. intros y Hy.
      by simplify_eq. }
  intros fe' s2 (Hi2 & G2). assert (live n s2) as Hn2 by (apply (live_grows _ s1); [done|by exists x]).
  eapply wp_mono with (Q := fun _ s' => inv ex s' /\ grows s2 s' /\ True).
  - change (safely ex
      (if negb (fe' =? 0) then gam_node_emit_event n fe'
       else
         missing ← gam_node_has_pflag n MON_MISSING;
         when (negb missing)
           (path ← gam_node_get_path n;
            is_dir ← gam_node_is_dir n;
            gam_server_emit_event path is_dir GAMIN_EVENT_EXISTS [] false))
      (fun _ _ => True) s2). safe.
  - intros _ s3 (? & G3 & _). split; [done|]. transitivity s1; [done|]. by transitivity s2.
Qed.

Lemma safely_get_children ex n s :
  inv ex s -> live n s ->
  safely ex (gam_tree_get_children n)
    (fun l s' => s' = s /\ (forall c, c ∈ l -> live c s) /\
       exists x, nodes (sv_heap s) !! n = Some x /\ l = reverse (nd_children x)) s.
Proof.
  intros Hi [x Hx]. unfold gam_tree_get_children.
  eapply safely_bind; [by apply (safely_load_node ex n x)|]. intros y s' _ _ [-> ->].
  apply safely_ret; [done|]. destruct (inv_tree _ _ Hi) as [root Ht].
  rewrite (to_linked _ _ _ Ht _ _ Hx). split; [done|]. split; [|eauto].
  intros c Hc. rewrite elem_of_reverse in Hc.
  destruct (to_children _ _ _ Ht _ _ _ Hx Hc) as (y & Hy & _). by exists y.
Qed.

(** One level of scanning is enough, and it leaves no node marked as new. *)
Lemma safely_scan_directory_internal e fuel dir s :
  inv (mk_ctx e ∅) s -> live dir s ->
  safely (mk_ctx e ∅) (gam_poll_generic_scan_directory_internal (S fuel) dir) (fun _ _ => True) s.
Proof.
  intros Hi Hdir. unfold safely. cbn [gam_poll_generic_scan_directory_internal].
  apply wp_bind. eapply wp_mono; [by apply (wp_scan_self e)|].
  intros go s1 (F & Hi1 & G1 & HF & Hgo). apply wp_when.
  2:{ intros ->. rewrite (Hgo eq_refl) in Hi1. done. }
  intros ->. transport. apply wp_bind. eapply wp_mono; [by apply (safely_get_children (mk_ctx e F))|].
  intros l s2 (_ & _ & -> & Hl & x & Hx & El).
  assert (forall m, m ∈ F -> m ∈ l) as HFl.
  { intros m Hm. destruct (HF m Hm) as (y & Hy & Hp). destruct (inv_tree _ _ Hi1) as [root Ht].
    destruct (to_parent _ _ _ Ht _ _ _ Hy Hp) as (_ & z & Hz & Hin). simplify_eq.
    by apply elem_of_reverse. }
  eapply wp_mono.
  { apply (wp_for_each (fun l' s' => (exists F', inv (mk_ctx e F') s' /\
        (forall m, m ∈ F' -> m ∈ l')) /\ grows s1 s' /\ (forall c, c ∈ l' -> live c s'))
      l).
    2:{ split; [by exists F|]. by split. }
    intros c l' s' ((F' & Hi' & HF') & G' & Hl').
    eapply wp_mono; [apply (wp_scan_child e F'); [done|by apply (live_grows _ s1)|]|].
    { apply Hl'. by left. }
    intros [] s'' (Hi'' & G''). split; [|split].
    - exists (F' ∖ {[c]}). split; [done|]. intros m [Hm Hne]%elem_of_difference.
      destruct (elem_of_cons l' m c) as [Hc _]. destruct (Hc (HF' m Hm)); [set_solver|done].
    - by transitivity s'.
    - intros d Hd. apply (live_grows _ s'); [done|]. apply Hl'. by right. }
  intros [] s3 ((F' & Hi3 & HF') & G3 & _). split.
  - assert (F' = ∅) as ->; [|done]. apply set_eq. intros m. split; [|by intros ?%elem_of_empty].
    intros Hm. by apply HF' in Hm as ?%elem_of_nil.
  - split; [by transitivity s1|done].
Qed.
End Scan.
