(* ===== verification/AddSafety.v ===== *)
(** * Safety of new subscriptions

    Adding a path to the tree and the first scan of a directory, then
    [gam_poll_basic_add_subscription] from a fresh subscription to the
    registered one: the listener's list first, then the tree, then the first
    events. *)

From S2P Require Import Prelude Protocol EventQueue Monad OS Excludes.
From S2P Require Import Fs State Subscription Listener ConnSend Node.
From S2P Require Import Tree Inv Emit PollGeneric PollBasic Safety.
From S2P Require Import PollSafety.

Local Open Scope Z_scope.

#[export] Hint Resolve safely_get_path safely_is_dir safely_get_subs safely_get_at_path
  safely_hook_poll_file safely_live_emit safely_emit_none safely_delta safely_get_time : safety.

Section FirstScan.
Context {os : OS} {glib : GLib} {kern : KernelState} {ki : KernelInv kern} {laws : OSLaws os}.

(** ** New nodes of a first scan *)

Lemma floating_sys {A} ex s0 n path (f : world -> A * world) s :
  floating ex s0 n path s -> wp (sys f) (fun _ s' => floating ex s0 n path s') s.
Proof. intros F. apply wp_sys. intros a w _. by apply (floating_same ex s0 n path s). Qed.

Lemma floating_fs_call {A} ex s0 n path (f : fs_state * world -> A * (fs_state * world)) s :
  floating ex s0 n path s -> wp (fs_call f) (fun _ s' => floating ex s0 n path s') s.
Proof. intros F. apply wp_fs_call. intros a w _. by apply (floating_same ex s0 n path s). Qed.

Lemma floating_stat_into ex s0 n path s :
  floating ex s0 n path s -> wp (stat_into n) (fun _ s' => floating ex s0 n path s') s.
Proof.
  intros F. unfold stat_into, gam_node_get_path.
  apply wp_bind, wp_bind. eapply wp_mono; [by apply (floating_load ex s0 n path)|].
  intros x s' ->. apply wp_ret, wp_bind. eapply wp_mono; [by apply floating_sys|].
  intros [sb|e] s1 F1; [|by apply wp_ret]. by apply floating_update.
Qed.

Lemma safely_first_scan_register ex dir path s :
  inv ex s -> live dir s -> node_hash (sv_tree s) !! path = None ->
  safely ex (first_scan_register dir path) (fun _ _ => True) s.
Proof.
  intros Hi Hdir Hfresh. unfold first_scan_register.
  apply wp_bind. eapply wp_mono; [by apply (safely_sys ex)|]. intros isd s0 (Hi0 & G0 & _ & Et & _).
  apply (live_grows _ _ _ G0) in Hdir. rewrite <- Et in Hfresh.
  apply wp_bind. eapply wp_mono; [by apply (wp_node_new ex)|]. intros n s1 F1.
  apply wp_bind. eapply wp_mono; [by apply (floating_stat_into ex s0 n path)|]. intros [] s2 F2.
  apply wp_bind. eapply wp_mono; [by apply (floating_load ex s0 n path)|]. intros x s3 ->.
  apply wp_bind. unfold gam_node_set_is_dir.
  eapply wp_mono; [by apply (floating_update ex s0 n path)|]. intros [] s4 F4.
  apply wp_bind, wp_gets, wp_bind.
  eapply wp_mono with (Q := fun _ s' => floating ex s0 n path s').
  { destruct (gam_exclude_check _ _); [by apply wp_ret|]. apply wp_bind.
    eapply wp_mono; [by apply (floating_fs_call ex s0 n path)|]. intros t s' F'. by apply wp_ret. }
  intros nok s5 F5. apply wp_bind.
  eapply wp_mono with (Q := fun _ s' => floating ex s0 n path s').
  { apply wp_when; [intros _|done]. unfold gam_node_set_pflag. apply wp_bind, wp_assert; [done|].
    by apply floating_update. }
  intros [] s6 F6. apply wp_bind. unfold gam_poll_generic_get_time. apply wp_gets, wp_bind.
  eapply wp_mono; [by apply (floating_update ex s0 n path)|]. intros [] s7 F7.
  apply wp_bind. eapply wp_mono; [by apply (floating_add ex s0 n path dir)|].
  intros b s' (Hi' & G' & _). apply wp_ret. split; [done|]. split; [by transitivity s0|done].
Qed.

(** ** Events for one subscription *)

Definition sub_good (p : ptr) (s : server) : Prop := exists name, sub_ok p name s.

Lemma sub_ok_grows p name s s' : grows s s' -> sub_ok p name s -> sub_ok p name s'.
Proof. intros G. apply sub_ok_mono; apply G. Qed.

Lemma sub_good_grows p s s' : grows s s' -> sub_good p s -> sub_good p s'.
Proof. intros G [name H]. exists name. by apply (sub_ok_grows _ _ s). Qed.

Lemma safely_emit_sub ex path d event p force s :
  inv ex s -> sub_good p s ->
  safely ex (gam_server_emit_event path d event [p] force) (fun _ _ => True) s.
Proof.
  intros Hi Hp. eapply safely_mono; [apply safely_emit; [done|]|done].
  by intros q ->%list_elem_of_singleton.
Qed.

Lemma safely_emit_one_sub ex path d event p force s :
  inv ex s -> sub_good p s ->
  safely ex (gam_server_emit_one_event path d event p force) (fun _ _ => True) s.
Proof.
  intros Hi [name Hp]. eapply safely_mono; [by apply (safely_emit_one _ _ _ _ _ _ name)|done].
Qed.

Lemma safely_load_sub ex p s :
  inv ex s -> sub_good p s ->
  safely ex (load p) (fun sb s' => s' = s /\ subs (sv_heap s) !! p = Some sb) s.
Proof.
  intros Hi (name & sb & l & Hsb & _). eapply safely_mono.
  - apply safely_read; [done|]. by apply load_sub_Ok.
  - by intros a s' _ _ [-> ->].
Qed.

Hint Resolve safely_emit_sub safely_emit_one_sub safely_load_sub : safety.

End FirstScan.

(** The two facts that follow the state. *)
Ltac follow :=
  transport;
  repeat match goal with
  | G : grows ?s ?s', L : sub_good ?p ?s |- _ =>
      lazymatch goal with
      | _ : sub_good p s' |- _ => fail
      | _ => pose proof (sub_good_grows _ _ _ G L)
      end
  end.
Ltac go := repeat (safe_step; follow).

Section FirstScanDir.
Context {os : OS} {glib : GLib} {kern : KernelState} {ki : KernelInv kern} {laws : OSLaws os}.
Context {pf : PollFile os kern} {pfs : PollFileSafe pf}.

#[local] Hint Resolve safely_emit_sub safely_emit_one_sub safely_load_sub : safety.

Lemma safely_stat_into ex n s :
  inv ex s -> live n s -> safely ex (stat_into n) (fun _ _ => True) s.
Proof. intros. unfold stat_into. go. Qed.
Hint Resolve safely_stat_into : safety.

Lemma safely_first_scan_missing ex sub dir path s :
  inv ex s -> live dir s -> sub_good sub s ->
  safely ex (first_scan_missing sub dir path) (fun _ _ => True) s.
Proof. intros. unfold first_scan_missing. go. Qed.

Lemma safely_exists_or_dir ex path s :
  inv ex s -> safely ex (exists_or_dir path) (fun _ _ => True) s.
Proof. intros. unfold exists_or_dir. go. Qed.

Lemma safely_first_scan_entry ex sub dir path b name s :
  inv ex s -> live dir s -> sub_good sub s ->
  safely ex (first_scan_entry sub dir path b name) (fun _ _ => True) s.
Proof.
  intros Hi Hdir Hsub. unfold first_scan_entry. set (p := g_build_filename _ _).
  eapply safely_bind; [by apply safely_get_at_path|]. intros o s' _ _ [-> ->].
  eapply safely_bind with (Q := fun _ _ => True).
  { destruct (node_hash (sv_tree s) !! p) eqn:E; [by apply safely_ret|].
    by apply safely_first_scan_register. }
  intros [] s1 Hi1 G1 _. follow. go.
Qed.
Hint Resolve safely_first_scan_missing safely_exists_or_dir : safety.

Lemma safely_first_scan_dir ex sub dir path s :
  inv ex s -> live dir s -> sub_good sub s ->
  safely ex (gam_poll_generic_first_scan_dir sub dir path) (fun _ _ => True) s.
Proof.
  intros Hi Hdir Hsub. unfold gam_poll_generic_first_scan_dir.
  safe_step. follow. safe_step. follow.
  eapply safely_bind with (Q := fun _ _ => True); [|intros [] s1 Hi1 G1 _; follow; go].
  destruct (negb _); [go|]. safe_step. follow.
  eapply safely_bind with (Q := fun _ _ => True); [go|]. intros [] s1 Hi1 G1 _. follow.
  eapply safely_bind with (Q := fun _ _ => True); [go|]. intros [] s2 Hi2 G2 _. follow.
  eapply safely_bind; [by apply safely_sys|]. intros [names|] s3 Hi3 G3 _; [|by apply safely_ret].
  follow.
  apply (safely_for_each ex names _ (fun _ s => live dir s /\ sub_good sub s)); [|  |done|done].
  - intros _ t t' G [? ?]. split; [by apply (live_grows _ t)|by apply (sub_good_grows _ t)].
  - intros name t Hi' [? ?]. by apply safely_first_scan_entry.
Qed.

(** ** Paths into the tree *)

(** Where the table may have grown. *)
Definition hash_only (ps : list string) (s s' : server) : Prop :=
  forall path, path ∉ ps -> node_hash (sv_tree s') !! path = node_hash (sv_tree s) !! path.

Lemma add_parents_safe ex ps parent s :
  inv ex s -> live parent s ->
  safely ex (add_parents ps parent) (fun p s' => live p s' /\ hash_only ps s s') s.
Proof.
  revert parent s. induction ps as [|q ps IH]; intros parent s Hi Hpar; simpl.
  { apply safely_ret; [done|]. split; [done|]. by intros path _. }
  eapply safely_bind; [by apply safely_get_at_path|]. intros o s' _ _ [-> ->].
  destruct (node_hash (sv_tree s) !! q) as [n|] eqn:E.
  - eapply safely_mono; [apply IH; [done|by apply (live_hash ex q)]|].
    intros p s' _ _ [Hp Hh]. split; [done|]. intros path Hn. apply Hh. set_solver.
  - apply wp_bind. eapply wp_mono; [by apply (wp_node_new ex)|]. intros n s1 F1.
    apply wp_bind. eapply wp_mono; [by apply (floating_add ex s n q parent)|].
    intros b s2 (Hi2 & G2 & Hh2 & x & Hx & _).
    eapply wp_mono; [apply (IH n s2); [done|by exists x]|].
    intros p s3 (Hi3 & G3 & Hp & Hh3). split; [done|]. split; [by transitivity s2|].
    split; [done|]. intros path Hn. apply not_elem_of_cons in Hn as [Hne Hn].
    rewrite (Hh3 _ Hn), Hh2. by rewrite lookup_insert_ne.
Qed.

Lemma dir_prefixes_shorter path : path ∉ dir_prefixes path.
Proof.
  unfold dir_prefixes. intros Hin. apply list_elem_of_fmap in Hin as (i & E & Hi).
  apply list_elem_of_filter in Hi as [_ Hi]. apply elem_of_seq in Hi.
  apply (f_equal String.length) in E. rewrite str_take_length in E; lia.
Qed.

(** The node of a path, found or made. *)
Lemma safely_add_at_path ex path d s :
  inv ex s -> path <> ""%string ->
  safely ex (gam_tree_add_at_path path d)
    (fun o s' => exists n, o = Some n /\ live n s' /\ node_hash (sv_tree s') !! path = Some n) s.
Proof.
  intros Hi Hpath. unfold gam_tree_add_at_path. rewrite bool_decide_eq_false_2 by done.
  eapply safely_bind; [by apply safely_get_at_path|]. intros o s' _ _ [-> ->].
  destruct (node_hash (sv_tree s) !! path) as [n|] eqn:E.
  { apply safely_ret; [done|]. exists n. split; [done|]. split; [by apply (live_hash ex path)|done]. }
  eapply safely_bind; [by apply safely_sys|]. intros e s1 Hi1 G1 (_ & Et1 & _).
  eapply safely_bind with (Q := fun _ s' => sv_tree s' = sv_tree s1).
  { destruct e; [|by apply safely_ret]. eapply safely_mono; [by apply safely_sys|].
    by intros a s' _ _ (_ & ? & _). }
  intros isd s2 Hi2 G2 Et2. eapply safely_bind; [by apply safely_gets|].
  intros root s' _ _ [-> ->]. destruct (inv_tree _ _ Hi2) as [root Ht].
  destruct (to_root_node _ _ _ Ht) as (r & Hr & _). rewrite (to_root _ _ _ Ht).
  eapply safely_bind with (Q := fun a s' => a = root /\ s' = s2); [by apply safely_ret|].
  intros ? ? _ _ [-> ->].
  eapply safely_bind; [apply (add_parents_safe ex); [done|by exists r]|].
  intros parent s3 Hi3 G3 [Hpar Hh]. rewrite <- Et1, <- Et2 in E.
  rewrite <- (Hh path (dir_prefixes_shorter path)) in E.
  apply wp_bind. eapply wp_mono; [by apply (wp_node_new ex)|]. intros n s4 F.
  apply wp_bind. eapply wp_mono; [by apply (floating_add ex s3 n path parent)|].
  intros b s5 (Hi5 & G5 & Hh5 & x & Hx & _). apply wp_ret. split; [done|]. split; [done|]. exists n.
  split; [done|]. split; [by exists x|]. by rewrite Hh5, lookup_insert, decide_True.
Qed.

(** ** [gam_poll_generic_scan_directory] *)

Lemma safely_scan_directory e fuel path s :
  inv (mk_ctx e ∅) s ->
  safely (mk_ctx e ∅) (gam_poll_generic_scan_directory (S fuel) path) (fun _ _ => True) s.
Proof.
  intros Hi. unfold gam_poll_generic_scan_directory.
  eapply safely_bind; [by apply safely_update_time|]. intros [] s1 Hi1 G1 _.
  eapply safely_bind; [by apply safely_get_at_path|]. intros o s' _ _ [-> ->].
  eapply safely_bind with (Q := fun o s' => match o with Some n => live n s' | None => True end).
  { destruct (node_hash (sv_tree s1) !! path) as [n|] eqn:E.
    - apply safely_ret; [done|]. by apply (live_hash (mk_ctx e ∅) path).
    - destruct (decide (path = ""%string)) as [->|Hne].
      + by apply safely_ret.
      + eapply safely_mono; [by apply safely_add_at_path|]. by intros o s' _ _ (n & -> & ? & _). }
  intros [n|] s2 Hi2 G2 Hn; [|by apply safely_ret]. by apply safely_scan_directory_internal.
Qed.
End FirstScanDir.

(** ** Start-up *)

Section Init.
Context {os : OS} {glib : GLib} {kern : KernelState} {ki : KernelInv kern}.

(** Nothing has been allocated. *)
Definition unallocated (s : server) : Prop :=
  sv_heap s = mk_heap 1%positive ∅ ∅ ∅ ∅ /\ sv_lists s = mk_lists [] [] [] [].

Lemma wp_generic_init ex s :
  unallocated s -> kernel_inv (sv_kernel s) ->
  wp gam_poll_generic_init (fun b s' => b = true /\ inv ex s' /\
    (exists x, sv_heap s' = mk_heap 2%positive ∅ ∅ {[1%positive := x]} ∅) /\
    sv_ctl s' = sv_ctl s /\ sv_kernel s' = sv_kernel s) s.
Proof.
  intros (Eh & El) Hk. unfold gam_poll_generic_init, gam_tree_new, gam_node_new,
    new_node, gam_poll_generic_update_time.
  apply wp_bind, wp_bind, wp_bind, wp_fs_call. intros pt fw1 _.
  apply wp_bind, wp_fs_call. intros mt fw2 _.
  apply (wp_alloc (H := node_obj)). simpl. rewrite Eh. simpl.
  set (x := mk_node _ _ _ _ _ _ _ _ _ _ _ _ _ _). set (s1 := upd_heap _ _).
  apply wp_bind, (wp_update (H := node_obj)) with x; [unfold objs; simpl; rewrite Eh; done|].
  apply wp_modify, wp_bind, wp_bind, wp_sys. intros t w _. apply wp_modify, wp_ret.
  split; [done|]. set (x' := set_nd_node true (set_nd_parent None (set_nd_children [] x))).
  match goal with |- inv _ ?t /\ _ => set (s2 := t) end.
  assert (sv_heap s2 = mk_heap 2%positive ∅ ∅ {[1%positive := x']} ∅) as Eh2
    by (subst s2 s1; simpl; rewrite Eh; simpl; by rewrite insert_insert_eq).
  split; [|by split; [exists x'|]].
  by apply (inv_single _ _ x').
Qed.
End Init.

#[export] Hint Resolve safely_emit_sub safely_emit_one_sub safely_load_sub safely_first_scan_dir
  : safety.

Section Subscribe.
Context {os : OS} {glib : GLib} {kern : KernelState} {ki : KernelInv kern} {laws : OSLaws os}.

(** A subscription nobody refers to yet. *)
Definition unlisted (p : ptr) (s : server) : Prop :=
  (forall n x, nodes (sv_heap s) !! n = Some x -> p ∉ nd_subs x) /\
  (forall l ln, listeners (sv_heap s) !! l = Some ln -> p ∉ ln_subs ln).

(** Only listener [l] refers to it. *)
Definition listed_by (l p : ptr) (s : server) : Prop :=
  (forall n x, nodes (sv_heap s) !! n = Some x -> p ∉ nd_subs x) /\
  (forall l' ln, listeners (sv_heap s) !! l' = Some ln -> p ∈ ln_subs ln -> l' = l).

Lemma listed_by_grows l p s s' : grows s s' -> listed_by l p s -> listed_by l p s'.
Proof.
  intros G [H1 H2]. split.
  - intros n x Hn. destruct (gr_new _ _ G _ _ Hn) as [->|(y & Hy & <-)]; [|by apply (H1 n)].
    apply not_elem_of_nil.
  - rewrite (gr_listeners _ _ G). done.
Qed.

(** A pointer that was never allocated is unlisted. *)
Lemma unlisted_fresh s : inv idle s -> unlisted (next_ptr (sv_heap s)) s.
Proof.
  intros Hi. split.
  - intros n x Hn Hp. destruct (inv_node _ _ Hi _ _ Hn) as (_ & Hs & _).
    destruct (Hs _ Hp) as [(sb & l & Hsb & _) _].
    apply (Pos.lt_irrefl (next_ptr (sv_heap s))), (inv_subs_old _ _ Hi). eauto.
  - intros l ln Hl Hp. destruct (inv_listener _ _ Hi _ _ Hl) as (_ & _ & Hs).
    destruct (Hs _ Hp) as (sb & Hsb & _); [done|].
    apply (Pos.lt_irrefl (next_ptr (sv_heap s))), (inv_subs_old _ _ Hi). eauto.
Qed.

(** New subscriptions do not disturb anything. *)
Lemma inv_more_subs ex m q s :
  (forall p, p ∉ dom (subs (sv_heap s)) \/ m !! p = subs (sv_heap s) !! p) ->
  (forall p, is_Some (m !! p) -> (p < q)%positive) -> (next_ptr (sv_heap s) <= q)%positive ->
  inv ex s ->
  inv ex (upd_heap (fun h => mk_heap q m (listeners h) (nodes h) (conns h)) s).
Proof.
  intros Hsame Hnew Hle Hi. set (s' := upd_heap _ s).
  assert (forall p sb, subs (sv_heap s) !! p = Some sb -> m !! p = Some sb) as Hkeep.
  { intros p sb Hp. destruct (Hsame p) as [Hn| ->]; [|done].
    exfalso. apply Hn, elem_of_dom. eauto. }
  assert (forall p path, sub_ok p path s -> sub_ok p path s') as Hsub.
  { intros p path (sb & l & Hp & H). exists sb, l. split; [by apply Hkeep|done]. }
  destruct Hi. split; try done; simpl.
  - intros n x Hn. destruct (inv_node n x Hn) as (? & Hs & ?). split; [done|]. split; [|done].
    intros p Hp. destruct (Hs p Hp). auto.
  - intros l ln Hl. destruct (inv_listener l ln Hl) as (? & ? & Hs). split; [done|].
    split; [done|]. intros p Hp Hex. destruct (Hs p Hp Hex) as (sb & Hsb & ? & Hr).
    exists sb. split; [by apply Hkeep|]. done.
  - intros n Hn. specialize (inv_nodes_old n Hn). lia.
  - intros n Hn. specialize (inv_listeners_old n Hn). lia.
  - intros n Hn. specialize (inv_conns_old n Hn). lia.
Qed.

(** ** The listener's list *)

Definition adding (p : ptr) : ctx := mk_ctx (Some p) ∅.

Lemma wp_listener_add l ln p s :
  inv idle s -> listeners (sv_heap s) !! l = Some ln -> unlisted p s ->
  wp (gam_listener_add_subscription l p)
    (fun _ s' => inv (adding p) s' /\ listed_by l p s' /\
       subs (sv_heap s') = subs (sv_heap s) /\ sv_tree s' = sv_tree s /\
       listeners (sv_heap s') = <[l := set_ln_subs (p :: ln_subs ln) ln]> (listeners (sv_heap s)))
    s.
Proof.
  intros Hi Hl [Hnn Hnl]. unfold gam_listener_add_subscription.
  apply wp_bind, (wp_load (H := listener_obj)) with ln; [exact Hl|].
  apply wp_bind, wp_assert; [by apply negb_true_iff, g_list_find_false, (Hnl l)|].
  apply (wp_update (H := listener_obj)) with ln; [exact Hl|]. set (s' := upd_heap _ s).
  assert (forall l' ln', listeners (sv_heap s') !! l' = Some ln' ->
    (l' = l /\ ln' = set_ln_subs (p :: ln_subs ln) ln) \/
    (l' <> l /\ listeners (sv_heap s) !! l' = Some ln')) as Hcase.
  { intros l' ln'. subst s'. simpl. rewrite lookup_insert_Some. intros [[<- <-]|[? ?]]; auto. }
  assert (forall l', is_Some (listeners (sv_heap s) !! l') ->
    is_Some (listeners (sv_heap s') !! l')) as Hdom.
  { intros l' Hl'. subst s'. simpl. destruct (decide (l = l')) as [->|].
    - rewrite lookup_insert, decide_True by done. eauto.
    - by rewrite lookup_insert_ne. }
  split; [|split; [split; [done|]|done]].
  - destruct Hi. split; try done.
    + intros n x Hn. destruct (inv_node n x Hn) as (? & Hs & ?). split; [done|].
      split; [|done]. intros q Hq. destruct (Hs q Hq) as [(sb & l' & ? & ? & ? & ? & ?) ?].
      split; [|done].      exists sb, l'. split_and!; auto.
    + intros l' ln' Hl'. destruct (Hcase _ _ Hl') as [[-> ->]|[_ Hl'']].
      * destruct (inv_listener l ln Hl) as (? & Hnd & Hs). split; [done|]. simpl.
        split; [apply NoDup_cons; split; [by apply (Hnl l)|done]|].
        intros q Hq Hqp. apply Hs; [|done]. apply elem_of_cons in Hq as [->|Hq]; [done|done].
      * destruct (inv_listener l' ln' Hl'') as (? & ? & Hs). split; [done|]. split; [done|].
        intros q Hq _. by apply Hs.
    + intros l' [ln' Hl']. apply inv_listeners_old.
      destruct (Hcase _ _ Hl') as [[-> _]|[_ Hl'']]; eauto.
  - intros l' ln' Hl' Hp. destruct (Hcase _ _ Hl') as [[-> _]|[_ Hl'']]; [done|].
    by destruct (Hnl _ _ Hl'').
Qed.

(** ** The node's list *)

Lemma wp_node_add_sub l p path n s :
  inv (adding p) s -> listed_by l p s -> node_hash (sv_tree s) !! path = Some n ->
  (exists sb, subs (sv_heap s) !! p = Some sb /\ sub_listener sb = Some l) ->
  sub_ok p path s ->
  wp (gam_node_add_subscription (Some n) p)
    (fun _ s' => inv idle s' /\ registered p path s' /\ live n s' /\
       subs (sv_heap s') = subs (sv_heap s) /\ listeners (sv_heap s') = listeners (sv_heap s)) s.
Proof.
  intros Hi [Hnn Hl] Hh Hsb Hok. destruct (inv_tree _ _ Hi) as [root Ht].
  destruct (to_hash _ _ _ Ht _ _ Hh) as (_ & x & Hx & Hxp). unfold gam_node_add_subscription.
  apply wp_bind, (wp_load (H := node_obj)) with x; [exact Hx|].
  apply wp_bind, wp_assert; [by apply negb_true_iff, g_list_find_false, (Hnn n)|].
  apply wp_bind, (wp_update (H := node_obj)) with x; [exact Hx|]. apply wp_ret.
  set (x' := set_nd_subs _ x). set (s' := upd_heap _ s).
  assert (forall m y, nodes (sv_heap s) !! m = Some y -> exists z,
    nodes (sv_heap s') !! m = Some z /\ nd_subs y ⊆ nd_subs z) as Hfwd.
  { intros m y Hm. subst s'. simpl. destruct (decide (n = m)) as [->|].
    - rewrite lookup_insert, decide_True by done. exists x'. split; [done|].
      assert (y = x) as -> by congruence. subst x'. simpl. by apply list_subseteq_cons.
    - rewrite lookup_insert_ne by done. eauto. }
  assert (forall m z, nodes (sv_heap s') !! m = Some z ->
    (m = n /\ z = x') \/ nodes (sv_heap s) !! m = Some z) as Hcase.
  { intros m z. subst s'. simpl. rewrite lookup_insert_Some. intros [[<- <-]|[? ?]]; auto. }
  assert (registered p path s') as Hreg.
  { exists n, x'. split; [done|]. subst s'. simpl. rewrite lookup_insert, decide_True by done.
    split; [done|]. by left. }
  assert (forall q qpath, registered q qpath s -> registered q qpath s') as Hregs.
  { intros q qpath (m & y & Hm & Hy & Hq). destruct (Hfwd _ _ Hy) as (z & Hz & Hsub).
    exists m, z. auto. }
  split; [|split; [done|split; [|by split]]].
  2:{ exists x'. subst s'. simpl. by rewrite lookup_insert, decide_True. }
  assert (has_new x = false) as Hold.
  { destruct (has_new x) eqn:E; [|done]. destruct (inv_node _ _ Hi _ _ Hx) as (_ & _ & Hb).
    destruct (Hb E) as [Hb1 _]. by apply elem_of_empty in Hb1. }
  destruct Hi. split; try done.
  - exists root. subst s'. simpl. apply (tree_ok_place _ _ _ n x); [done|done|by repeat split].
  - intros m z Hm. destruct (Hcase _ _ Hm) as [[-> ->]|Hm'].
    + destruct (inv_node _ _ Hx) as (? & Hs & _). split; [|split].
      * simpl. apply NoDup_cons. split; [by apply (Hnn n)|done].
      * simpl. intros q [->|Hq]%elem_of_cons; [by rewrite Hxp|]. by apply Hs.
      * unfold has_new in *. simpl. congruence.
    + exact (inv_node _ _ Hm').
  - intros l' ln Hl'. destruct (inv_listener l' ln Hl') as (? & ? & Hs). split; [done|].
    split; [done|]. intros q Hq _. destruct (decide (q = p)) as [->|Hne].
    + destruct Hsb as (sb & Hsb & Hsbl). exists sb. split; [done|].
      rewrite (Hl l' ln Hl' Hq). split; [done|]. destruct Hok as (sb' & ? & ? & <- & _).
      by simplify_eq.
    + destruct (Hs q Hq) as (sb & ? & ? & ?); [simpl; congruence|]. exists sb. auto.
  - destruct inv_missing as [? Hm]. split; [done|]. intros m Hin.
    destruct (Hm m Hin) as [y Hy]. destruct (Hfwd _ _ Hy) as (z & Hz & _). by exists z.
  - destruct inv_busy as [? Hm]. split; [done|]. intros m Hin.
    destruct (Hm m Hin) as [y Hy]. destruct (Hfwd _ _ Hy) as (z & Hz & _). by exists z.
  - destruct inv_all as [? Hm]. split; [done|]. intros m Hin.
    destruct (Hm m Hin) as [y Hy]. destruct (Hfwd _ _ Hy) as (z & Hz & _). by exists z.
  - intros m [z Hm]. apply inv_nodes_old. destruct (Hcase _ _ Hm) as [[-> ->]|Hm']; eauto.
Qed.

(** ** [gam_poll_basic_add_subscription] *)

(** What [gam_poll_basic_add_subscription] relies on. *)
Record subscribable (l p : ptr) (sb : GamSubscription) (s : server) : Prop := {
  sc_sub : subs (sv_heap s) !! p = Some sb;
  sc_listener : sub_listener sb = Some l;
  sc_alive : is_Some (listeners (sv_heap s) !! l);
  sc_len : sub_pathlen sb = strlen (sub_path sb);
  sc_unlisted : unlisted p s
}.

(** What it leaves behind. *)
Definition subscribed (l p : ptr) (sb : GamSubscription) (s s' : server) : Prop :=
  subs (sv_heap s') = subs (sv_heap s) /\
  listeners (sv_heap s') = alter (fun ln => set_ln_subs (p :: ln_subs ln) ln) l
                             (listeners (sv_heap s)) /\
  registered p (sub_path sb) s'.

Lemma safely_first_events ex sub n path s :
  inv ex s -> live n s -> sub_good sub s ->
  safely ex (first_events_file sub n path) (fun _ _ => True) s.
Proof. intros. unfold first_events_file. go. Qed.
Hint Resolve safely_first_events : safety.

(** The part after the registration. *)
Lemma safely_first_events_all p n path s :
  inv idle s -> live n s -> sub_good p s ->
  safely idle
    (node_is_dir ← gam_node_is_dir n;
     _ ← (if node_is_dir : bool then gam_poll_generic_first_scan_dir p n path
          else first_events_file p n path);
     missing ← gam_node_has_pflag n MON_MISSING;
     _ ← when missing (gam_poll_generic_add_missing n);
     _ ← gam_poll_generic_add n;
     _ ← modify (upd_ctl (set_scan_running true));
     mret true) (fun b _ => b = true) s.
Proof.
  intros Hi Hn Hp. safe_step. follow.
  eapply safely_bind with (Q := fun _ _ => True); [go|]. intros [] s1 Hi1 G1 _. follow.
  safe_step. follow. eapply safely_bind with (Q := fun _ _ => True); [go|].
  intros [] s2 Hi2 G2 _. follow. safe_step. follow.
  eapply safely_bind with (Q := fun _ _ => True); [|intros [] s3 Hi3 _ _; by apply safely_ret].
  by apply safely_store, wp_modify.
Qed.

(** The listener has the subscription and the path has a node; [s] is where
    this began. *)
Record at_node (l p : ptr) (sb : GamSubscription) (s s' : server) (n : ptr) : Prop := {
  an_inv : inv (adding p) s';
  an_hash : node_hash (sv_tree s') !! sub_path sb = Some n;
  an_listed : listed_by l p s';
  an_subs : subs (sv_heap s') = subs (sv_heap s);
  an_listeners : listeners (sv_heap s') =
    alter (fun ln => set_ln_subs (p :: ln_subs ln) ln) l (listeners (sv_heap s))
}.

(** The first half of a backend's function. *)
Lemma wp_to_node {B} l p sb (rest : GamSubscription -> option ptr -> ST server B) Q s :
  inv idle s -> subscribable l p sb s -> sub_path sb <> ""%string ->
  (forall n s', at_node l p sb s s' n -> wp (rest sb (Some n)) Q s') ->
  wp (sb ← load p;
      node ← gam_tree_get_at_path (sub_path sb);
      listener ← g_assert_ptr (gam_subscription_get_listener (Some sb));
      _ ← gam_listener_add_subscription listener p;
      _ ← gam_poll_generic_update_time;
      node ← match node with
             | Some node => mret (Some node)
             | None => gam_tree_add_at_path (sub_path sb) (gam_subscription_is_dir (Some sb))
             end;
      rest sb node) Q s.
Proof.
  intros Hi [Hsb Hl [ln Hln] Hlen Hun] Hpath Hrest.
  apply wp_bind, (wp_load (H := sub_obj)) with sb; [exact Hsb|].
  apply wp_bind. unfold gam_tree_get_at_path at 1. apply wp_gets.
  apply wp_bind, (wp_assert_ptr _ l); [done|].
  apply wp_bind. eapply wp_mono; [by apply (wp_listener_add l ln p)|].
  intros [] s1 (Hi1 & Hby1 & Es1 & Et1 & El1).
  apply wp_bind. eapply wp_mono; [by apply (safely_update_time (adding p))|].
  intros [] s2 (Hi2 & G2 & Eh2 & Et2 & _). rewrite <- Et1, <- Et2. set (path := sub_path sb) in *.
  apply wp_bind. eapply wp_mono with (Q := fun o s' => inv (adding p) s' /\ grows s2 s' /\
    exists n, o = Some n /\ node_hash (sv_tree s') !! path = Some n).
  { destruct (node_hash (sv_tree s2) !! path) as [n|] eqn:E.
    - apply wp_ret. split; [done|]. split; [done|]. by exists n.
    - eapply wp_mono; [by apply (safely_add_at_path (adding p))|].
      intros o s' (? & ? & n & ? & _ & ?). eauto. }
  intros o s3 (Hi3 & G3 & n & -> & Hh3).
  assert (grows s1 s3) as G13 by by transitivity s2. apply Hrest. split; [done|done|..].
  - by apply (listed_by_grows _ _ s1).
  - by rewrite (gr_subs _ _ G13).
  - rewrite (gr_listeners _ _ G13), El1. by rewrite (alter_alt_Some _ _ _ _ Hln).
Qed.

(** The node takes the subscription. *)
Lemma wp_at_node_add l p sb n s0 s :
  subscribable l p sb s0 -> at_node l p sb s0 s n ->
  wp (gam_node_add_subscription (Some n) p)
    (fun _ s' => inv idle s' /\ live n s' /\ sub_good p s' /\ subscribed l p sb s0 s') s.
Proof.
  intros [Hsb Hl [ln Hln] Hlen Hun] [Hi Hh Hby Es El].
  assert (sub_ok p (sub_path sb) s) as Hok.
  { exists sb, l. rewrite Es, El, lookup_alter_eq, Hln. eauto. }
  eapply wp_mono; [apply (wp_node_add_sub l p (sub_path sb) n s); try done|].
  { exists sb. by rewrite Es. }
  intros b s' (Hi' & Hr & Hn & Es' & El'). split; [done|]. split; [done|]. split.
  - exists (sub_path sb). by apply (sub_ok_mono p _ s).
  - split; [by rewrite Es'|]. split; [by rewrite El'|done].
Qed.

Lemma subscribed_grows l p sb s s1 s2 :
  subscribed l p sb s s1 -> grows s1 s2 -> subscribed l p sb s s2.
Proof.
  intros (Es & El & Hr) G. split; [by rewrite (gr_subs _ _ G)|].
  split; [by rewrite (gr_listeners _ _ G)|]. by apply (registered_grows _ _ s1).
Qed.

Lemma wp_poll_basic_add l p sb s :
  inv idle s -> subscribable l p sb s -> sub_path sb <> ""%string ->
  wp (gam_poll_basic_add_subscription p)
    (fun b s' => b = true /\ inv idle s' /\ subscribed l p sb s s') s.
Proof.
  intros Hi Hsc Hpath. apply (wp_to_node l p sb); [done..|]. intros n s1 Hat.
  apply wp_bind. eapply wp_mono; [by apply (wp_at_node_add l p sb n s)|].
  intros b s2 (Hi2 & Hn2 & Hp2 & Hsub). apply wp_bind, (wp_assert_ptr _ n); [done|].
  eapply wp_mono; [by apply (safely_first_events_all p n (sub_path sb))|].
  intros b' s3 (Hi3 & G3 & ->). split; [done|]. split; [done|]. by apply (subscribed_grows _ _ _ _ s2).
Qed.
End Subscribe.
