(* ===== verification/RemoveSafety.v ===== *)
(** * Safety of removal

    Nodes leave the tree from the leaves up, after they have left the resource
    lists and when they have no subscriptions; a subscription is freed when no
    node and no listener refers to it. *)

From S2P Require Import Prelude Protocol EventQueue Monad OS Excludes.
From S2P Require Import Fs State Subscription Listener ConnSend Node.
From S2P Require Import Tree Inv Emit PollGeneric PollBasic Safety.
From S2P Require Import PollSafety AddSafety.

Local Open Scope Z_scope.

Section Remove.
Context {os : OS} {glib : GLib} {kern : KernelState} {ki : KernelInv kern} {laws : OSLaws os}.

(** A node that is no directory but has children. *)
Definition file_with_children (x : GamNode) : Prop :=
  nd_is_dir x = false /\ nd_children x <> [].

(** Nodes may have disappeared, the rest is as before. *)
Record shrinks (s s' : server) : Prop := {
  sh_subs : subs (sv_heap s') = subs (sv_heap s);
  sh_listeners : listeners (sv_heap s') = listeners (sv_heap s);
  sh_root : tree_root (sv_tree s') = tree_root (sv_tree s);
  sh_nodes m z : nodes (sv_heap s') !! m = Some z ->
    exists y, nodes (sv_heap s) !! m = Some y /\ nd_subs y = nd_subs z /\ nd_parent y = nd_parent z;
  sh_files m z : nodes (sv_heap s') !! m = Some z -> file_with_children z ->
    exists y, nodes (sv_heap s) !! m = Some y /\ file_with_children y
}.

#[export] Instance shrinks_preorder : PreOrder shrinks.
Proof.
  split.
  - intros s. split; eauto.
  - intros s1 s2 s3 [A1 A2 A3 A4 A5] [B1 B2 B3 B4 B5]. split; try congruence.
    + intros m z Hm. destruct (B4 _ _ Hm) as (y & Hy & ? & ?).
      destruct (A4 _ _ Hy) as (x & Hx & ? & ?). exists x. split; [done|]. split; congruence.
    + intros m z Hm Hf. destruct (B5 _ _ Hm Hf) as (y & Hy & Hfy). by apply (A5 m y).
Qed.

(** ** Out of the resource lists *)

Definition unlisted_node (n : ptr) (s : server) : Prop :=
  n ∉ missing_resources (sv_lists s) /\ n ∉ busy_resources (sv_lists s) /\
  n ∉ all_resources (sv_lists s).

Definition only_lists (s s' : server) : Prop :=
  sv_heap s' = sv_heap s /\ sv_tree s' = sv_tree s.

Lemma remove_all_notin l n : n ∉ g_list_remove_all l n.
Proof. intros [_ H]%elem_of_g_list_remove_all. done. Qed.

Lemma wp_when_remove_missing ex n s :
  inv ex s ->
  wp (when (negb (bool_decide (missing_resources (sv_lists s) = [])))
        (gam_poll_generic_remove_missing n))
    (fun _ s' => inv ex s' /\ only_lists s s' /\ n ∉ missing_resources (sv_lists s')) s.
Proof.
  intros Hi. apply wp_when.
  - intros _. unfold gam_poll_generic_remove_missing. apply wp_bind, wp_gets.
    destruct (g_list_find _ n) eqn:F; [apply wp_modify|apply wp_ret].
    + destruct (inv_lists ex (set_missing (g_list_remove_all
        (missing_resources (sv_lists s)) n)) s Hi) as [Hi' _]; simpl; try apply Hi.
      { apply list_ok_remove, Hi. }
      split; [done|]. split; [done|]. apply remove_all_notin.
    + split; [done|]. split; [done|]. by apply g_list_find_false.
  - intros E%negb_false_iff%bool_decide_eq_true. split; [done|]. split; [done|]. rewrite E.
    apply not_elem_of_nil.
Qed.

Lemma wp_when_remove_busy ex n s :
  inv ex s -> n ∉ missing_resources (sv_lists s) ->
  wp (when (negb (bool_decide (busy_resources (sv_lists s) = [])))
        (gam_poll_generic_remove_busy n))
    (fun _ s' => inv ex s' /\ only_lists s s' /\ n ∉ missing_resources (sv_lists s') /\
       n ∉ busy_resources (sv_lists s')) s.
Proof.
  intros Hi Hm. apply wp_when.
  - intros _. unfold gam_poll_generic_remove_busy. apply wp_bind, wp_gets.
    destruct (g_list_find _ n) eqn:F; [apply wp_modify|apply wp_ret].
    + destruct (inv_lists ex (set_busy (g_list_remove_all
        (busy_resources (sv_lists s)) n)) s Hi) as [Hi' _]; simpl; try apply Hi.
      { apply list_ok_remove, Hi. }
      split; [done|]. split; [done|]. split; [done|]. apply remove_all_notin.
    + split; [done|]. split; [done|]. split; [done|]. by apply g_list_find_false.
  - intros E%negb_false_iff%bool_decide_eq_true. split; [done|]. split; [done|]. rewrite E.
    split; [done|]. apply not_elem_of_nil.
Qed.

Lemma wp_unregister ex n s :
  inv ex s ->
  wp (gam_poll_generic_unregister_node n)
    (fun _ s' => inv ex s' /\ unlisted_node n s' /\ only_lists s s') s.
Proof.
  intros Hi. unfold gam_poll_generic_unregister_node.
  apply wp_bind, wp_gets, wp_bind. eapply wp_mono; [by apply (wp_when_remove_missing ex)|].
  intros [] s1 (Hi1 & [Eh1 Et1] & Hm1).
  apply wp_bind, wp_gets, wp_bind. eapply wp_mono; [by apply (wp_when_remove_busy ex)|].
  intros [] s2 (Hi2 & [Eh2 Et2] & Hm2 & Hb2).
  assert (only_lists s s2) as Hs by (split; congruence).
  apply wp_bind, wp_gets, wp_when.
  - intros _. apply wp_modify. destruct (inv_all _ _ Hi2) as [Hnd Hl].
    assert (g_list_remove (all_resources (sv_lists s2)) n
            = g_list_remove_all (all_resources (sv_lists s2)) n) as E
      by by apply g_list_remove_NoDup.
    destruct (inv_lists ex (set_all (g_list_remove (all_resources (sv_lists s2)) n)) s2 Hi2)
      as [Hi' _]; simpl; try apply Hi2.
    { rewrite E. apply list_ok_remove. by split. }
    split; [done|]. split; [|exact Hs]. split; [done|]. split; [done|]. simpl. rewrite E.
    apply remove_all_notin.
  - intros E%negb_false_iff%bool_decide_eq_true. split; [done|]. split; [|done].
    split; [done|]. split; [done|]. rewrite E. apply not_elem_of_nil.
Qed.

(** ** Out of the tree *)

(** Every node is below the root. *)
Lemma wp_is_ancestor root fuel n s :
  tree_ok (sv_tree s) (nodes (sv_heap s)) root -> live n s -> n <> root ->
  (size (upto n (nodes (sv_heap s))) <= fuel)%nat ->
  wp (g_node_is_ancestor fuel root n) (fun b s' => b = true /\ s' = s) s.
Proof.
  intros Ht. revert n. induction fuel as [|fuel IH]; intros n [x Hx] Hne Hf.
  { exfalso. apply Nat.le_0_r, size_empty_inv in Hf. specialize (Hf n).
    apply (not_elem_of_empty (C := gset ptr) n), Hf.
    unfold upto. apply elem_of_filter. split; [lia|]. apply elem_of_dom. by exists x. }
  simpl. apply wp_bind, (wp_load (H := node_obj)) with x; [exact Hx|].
  destruct (to_all _ _ _ Ht _ _ Hx Hne) as [_ [p Hp]]. rewrite Hp.
  destruct (decide (p = root)) as [|Hpr]; [by apply wp_ret|].
  destruct (to_parent _ _ _ Ht _ _ _ Hx Hp) as (Hlt & y & Hy & _).
  apply IH; [by exists y|done|].
  pose proof (upto_parent n p (nodes (sv_heap s)) Hlt) as Hs. rewrite elem_of_dom in Hs.
  specialize (Hs ltac:(by exists x)). lia.
Qed.

(** What survives the removal of [n]. *)
Definition survives (n : ptr) (s s' : server) : Prop :=
  forall m y, m <> n -> nodes (sv_heap s) !! m = Some y ->
    exists z, nodes (sv_heap s') !! m = Some z /\ nd_subs z = nd_subs y /\
      nd_parent z = nd_parent y /\ nd_path z = nd_path y /\ has_new z = has_new y.

(** The state after [gam_tree_remove] of leaf [n] of [parent]. *)
Definition cut (n parent : ptr) (x px : GamNode) (s : server) : server :=
  upd_heap (fun h => set_nodes (delete n
    (<[parent := set_nd_children (g_list_remove (nd_children px) n) px]> (nodes h))) h)
    (upd_tree (fun t => mk_tree (tree_root t) (delete (nd_path x) (node_hash t))) s).

Lemma cut_nodes n parent x px s m z :
  nodes (sv_heap s) !! parent = Some px ->
  nodes (sv_heap (cut n parent x px s)) !! m = Some z ->
  m <> n /\ exists y, nodes (sv_heap s) !! m = Some y /\ nd_subs y = nd_subs z /\
    nd_parent y = nd_parent z /\ nd_path y = nd_path z /\ has_new y = has_new z.
Proof.
  intros Hp. unfold cut. simpl. rewrite lookup_delete_Some, lookup_insert_Some.
  intros [? [[<- <-]|[? ?]]]; (split; [done|]); eauto 10.
Qed.

Lemma cut_survives n parent x px s :
  nodes (sv_heap s) !! parent = Some px -> survives n s (cut n parent x px s).
Proof.
  intros Hp m y Hm Hy. unfold cut. simpl. rewrite lookup_delete_ne by done.
  destruct (decide (parent = m)) as [->|].
  - rewrite lookup_insert, decide_True by done. simplify_eq. eexists. split; [done|]. done.
  - rewrite lookup_insert_ne by done. eauto 10.
Qed.

Lemma cut_shrinks n parent x px s :
  nodes (sv_heap s) !! parent = Some px -> shrinks s (cut n parent x px s).
Proof.
  intros Hp. split; try done; intros m z Hz.
  - destruct (cut_nodes n parent x px s m z Hp Hz) as (_ & y & ? & ? & ? & _). eauto.
  - unfold cut in Hz. simpl in Hz. apply lookup_delete_Some in Hz as [_ Hz].
    apply lookup_insert_Some in Hz as [[<- <-]|[_ Hz]]; [|by exists z]. intros [Hd Hc].
    exists px. split; [done|]. split; [done|]. intros E. apply Hc. simpl. by rewrite E.
Qed.

(** A leaf without subscriptions, on no list, can go. *)
Lemma inv_cut ex n parent x px s :
  inv ex s -> nodes (sv_heap s) !! n = Some x -> nd_subs x = [] -> nd_children x = [] ->
  nd_parent x = Some parent -> nodes (sv_heap s) !! parent = Some px -> unlisted_node n s ->
  inv ex (cut n parent x px s).
Proof.
  intros Hi Hn Hs Hc Hpar Hpx (Hm & Hb & Ha). pose proof (cut_survives n parent x px s Hpx) as Hsv.
  assert (forall m y, nodes (sv_heap s) !! m = Some y -> m <> n ->
    node_hash (sv_tree s) !! nd_path y = Some m ->
    node_hash (sv_tree (cut n parent x px s)) !! nd_path y = Some m) as Hhash.
  { intros m y Hy Hne Hh. simpl. rewrite lookup_delete_ne; [done|]. intros E.
    destruct (inv_tree _ _ Hi) as [root Ht].
    destruct (to_parent _ _ _ Ht _ _ _ Hn Hpar) as (Hlt & _).
    destruct (to_all _ _ _ Ht _ _ Hn) as [Hn' _]; [|congruence].
    intros ->. destruct (to_root_node _ _ _ Ht) as (r & ? & ?). congruence. }
  assert (forall l, n ∉ l -> list_ok l s -> list_ok l (cut n parent x px s)) as Hlists.
  { intros l Hn' [Hnd Hl]. split; [done|]. intros m Hin. destruct (Hl m Hin) as [y Hy].
    destruct (Hsv m y) as (z & Hz & _); [by intros ->|done|]. by exists z. }
  destruct Hi. split; try done; try by apply Hlists.
  - destruct inv_tree as [root Ht]. exists root. by apply tree_ok_remove.
  - intros m z Hz. destruct (cut_nodes n parent x px s m z Hpx Hz)
      as (Hne & y & Hy & Es & _ & Ep & En).
    destruct (inv_node m y Hy) as (Hnd & Hok & Hnew). unfold node_ok. rewrite <- Es, <- Ep, <- En.
    split; [done|]. split; [|done]. intros p Hp. destruct (Hok p Hp). split; [done|].
    by apply Hhash.
  - intros l ln Hl. destruct (inv_listener l ln Hl) as (? & ? & Hp). split; [done|].
    split; [done|]. intros p Hin Hex. destruct (Hp p Hin Hex) as (sb & ? & ? & m & y & Hh & Hy & Hpy).
    exists sb. split; [done|]. split; [done|].
    assert (m <> n) as Hne by (intros ->; simplify_eq; rewrite Hs in Hpy; by apply elem_of_nil in Hpy).
    destruct (inv_node m y Hy) as (_ & Hok & _). destruct (Hok p Hpy) as [(sb' & l' & ? & Epath & _) Hh'].
    simplify_eq. destruct (Hsv m y Hne Hy) as (z & Hz & Ez & _). exists m, z.
    split; [|split; [done|by rewrite Ez]]. rewrite Epath. by apply Hhash.
  - intros m [z Hz]. destruct (cut_nodes n parent x px s m z Hpx Hz) as (_ & y & Hy & _).
    apply inv_nodes_old. by exists y.
Qed.

Lemma wp_tree_remove ex n x s :
  inv ex s -> nodes (sv_heap s) !! n = Some x -> nd_subs x = [] -> nd_children x = [] ->
  is_Some (nd_parent x) -> unlisted_node n s ->
  wp (gam_tree_remove n) (fun b s' => b = true /\ inv ex s' /\ shrinks s s' /\ survives n s s' /\
    ~ live n s') s.
Proof.
  intros Hi Hn Hs Hc [parent Hpar] Hl. destruct (inv_tree _ _ Hi) as [root Ht].
  destruct (to_parent _ _ _ Ht _ _ _ Hn Hpar) as (Hlt & px & Hpx & _).
  assert (n <> root) as Hroot.
  { intros ->. destruct (to_root_node _ _ _ Ht) as (r & ? & ?). congruence. }
  unfold gam_tree_remove. apply wp_bind, wp_gets, wp_bind. rewrite (to_root _ _ _ Ht).
  eapply wp_deref; [done|]. apply wp_bind, wp_gets, wp_bind.
  eapply wp_mono; [apply (wp_is_ancestor root); [done|by exists x|done|apply upto_size]|].
  intros b s' [-> ->]. unfold gam_tree_has_children, gam_node_get_path, g_node_unlink, gam_node_free.
  apply wp_bind, wp_bind, (wp_load (H := node_obj)) with x; [exact Hn|]. apply wp_ret.
  rewrite Hc. apply wp_bind, wp_assert; [done|].
  apply wp_bind, wp_bind, (wp_load (H := node_obj)) with x; [exact Hn|]. apply wp_ret.
  apply wp_bind, wp_modify, wp_bind, wp_bind.
  apply (wp_load (H := node_obj)) with x; [exact Hn|]. rewrite Hpar.
  apply wp_bind, (wp_update (H := node_obj)) with px; [exact Hpx|].
  apply (wp_update (H := node_obj)) with x; [unfold objs; simpl; rewrite lookup_insert_ne; [done|lia]|].
  set (x1 := set_nd_parent None x).
  apply wp_bind, wp_bind, (wp_load (H := node_obj)) with x1.
  { unfold objs. simpl. by rewrite lookup_insert, decide_True. }
  apply wp_bind, wp_assert; [by apply bool_decide_eq_true|].
  apply (wp_dealloc GamNode (H := node_obj)) with x1.
  { unfold objs. simpl. by rewrite lookup_insert, decide_True. }
  apply wp_ret. set (s' := upd_heap _ _).
  assert (s' = cut n parent x px s) as ->.
  { subst s'. unfold cut, upd_heap, upd_tree, set_nodes. simpl. by rewrite delete_insert_eq. }
  split; [done|]. split; [by apply inv_cut|]. split; [by apply cut_shrinks|].
  split; [by apply cut_survives|]. intros [z Hz].
  by destruct (cut_nodes n parent x px s n z Hpx Hz) as [? _].
Qed.

(** ** Pruning *)

Lemma only_lists_shrinks s s' : only_lists s s' -> shrinks s s'.
Proof. intros [Eh Et]. split; rewrite ?Eh, ?Et; eauto. Qed.

Lemma only_lists_node s s' n :
  only_lists s s' -> nodes (sv_heap s') !! n = nodes (sv_heap s) !! n.
Proof. by intros [-> _]. Qed.

Lemma wp_node_parent ex n x s :
  inv ex s -> nodes (sv_heap s) !! n = Some x ->
  wp (gam_node_parent n) (fun o s' => o = nd_parent x /\ s' = s) s.
Proof.
  intros Hi Hn. unfold gam_node_parent. apply wp_bind, (wp_load (H := node_obj)) with x; [exact Hn|].
  apply wp_ret. destruct (inv_tree _ _ Hi) as [root Ht]. by rewrite (to_linked _ _ _ Ht _ _ Hn).
Qed.

Lemma wp_has_children n x s :
  nodes (sv_heap s) !! n = Some x ->
  wp (gam_tree_has_children n)
    (fun b s' => b = negb (bool_decide (nd_children x = [])) /\ s' = s) s.
Proof.
  intros Hn. apply wp_bind, (wp_load (H := node_obj)) with x; [exact Hn|]. by apply wp_ret.
Qed.

Lemma wp_get_subs n x s :
  nodes (sv_heap s) !! n = Some x ->
  wp (gam_node_get_subscriptions n) (fun l s' => l = nd_subs x /\ s' = s) s.
Proof.
  intros Hn. apply wp_bind, (wp_load (H := node_obj)) with x; [exact Hn|]. by apply wp_ret.
Qed.

(** Unregistering and removing a leaf. *)
Lemma wp_drop_leaf ex n x s :
  inv ex s -> nodes (sv_heap s) !! n = Some x -> nd_subs x = [] -> nd_children x = [] ->
  is_Some (nd_parent x) ->
  wp (_ ← gam_poll_generic_unregister_node n; gam_tree_remove n)
    (fun _ s' => inv ex s' /\ shrinks s s' /\ survives n s s' /\ ~ live n s') s.
Proof.
  intros Hi Hn Hs Hc Hp. apply wp_bind. eapply wp_mono; [by apply (wp_unregister ex)|].
  intros [] s1 (Hi1 & Hun & Ho). assert (nodes (sv_heap s1) !! n = Some x) as Hn1
    by by rewrite (only_lists_node s).
  eapply wp_mono; [by apply (wp_tree_remove ex n x)|].
  intros b s2 (_ & Hi2 & Hsh & Hsv & Hd). split; [done|].
  split; [transitivity s1; [by apply only_lists_shrinks|done]|]. split; [|done].
  intros m y Hne Hy. apply Hsv; [done|]. by rewrite (only_lists_node s).
Qed.

Lemma upto_shrinks n p (s s' : server) :
  shrinks s s' -> (p < n)%positive -> live n s ->
  (size (upto p (nodes (sv_heap s'))) < size (upto n (nodes (sv_heap s))))%nat.
Proof.
  intros Hs Hlt Hn.
  assert (upto p (nodes (sv_heap s')) ⊆ upto p (nodes (sv_heap s))) as Hsub.
  { unfold upto. intros q. rewrite !elem_of_filter, !elem_of_dom. intros [? [z Hz]].
    split; [done|]. destruct (sh_nodes _ _ Hs _ _ Hz) as (y & Hy & _). by exists y. }
  apply subseteq_size in Hsub.
  pose proof (upto_parent n p (nodes (sv_heap s)) Hlt ltac:(by apply elem_of_dom)). lia.
Qed.

Lemma wp_prune_loop ex fuel n s :
  inv ex s -> live n s -> (size (upto n (nodes (sv_heap s))) <= fuel)%nat ->
  wp (prune_tree_loop fuel n) (fun _ s' => inv ex s' /\ shrinks s s') s.
Proof.
  revert n s. induction fuel as [|fuel IH]; intros n s Hi [x Hx] Hf.
  { exfalso. apply Nat.le_0_r, size_empty_inv in Hf. specialize (Hf n).
    apply (not_elem_of_empty (C := gset ptr) n), Hf.
    unfold upto. apply elem_of_filter. split; [lia|]. apply elem_of_dom. by exists x. }
  simpl. apply wp_bind. eapply wp_mono; [by apply (wp_node_parent ex n x)|]. intros o s' [-> ->].
  destruct (nd_parent x) as [p|] eqn:Hp; [|by apply wp_ret].
  apply wp_bind. eapply wp_mono; [by apply (wp_has_children n x)|]. intros b s' [-> ->].
  apply wp_bind. eapply wp_mono; [by apply (wp_get_subs n x)|]. intros l s' [-> ->].
  apply wp_when; [|done].
  intros [Hc%negb_true_iff%negb_false_iff%bool_decide_eq_true
          Hs%bool_decide_eq_true]%andb_true_iff.
  destruct (inv_tree _ _ Hi) as [root Ht].
  destruct (to_parent _ _ _ Ht _ _ _ Hx Hp) as (Hlt & y & Hy & _).
  apply wp_bind. pose proof (wp_drop_leaf ex n x s Hi Hx Hs Hc ltac:(by rewrite Hp)) as Hd.
  unfold wp in Hd |- *. unfold mbind, ST_bind in Hd.
  destruct (gam_poll_generic_unregister_node n s) as [[[] s1]|]; [|done].
  apply wp_bind. eapply wp_mono; [exact Hd|]. intros b s2 (Hi2 & Hsh & Hsv & _).
  eapply wp_mono; [apply IH; [done| |]|].
  - destruct (Hsv p y ltac:(lia) Hy) as (z & Hz & _). by exists z.
  - pose proof (upto_shrinks n p s s2 Hsh Hlt ltac:(by exists x)). lia.
  - intros [] s3 [Hi3 Hsh3]. split; [done|]. by transitivity s2.
Qed.

Lemma wp_prune ex n s :
  inv ex s -> live n s ->
  wp (gam_poll_generic_prune_tree n) (fun _ s' => inv ex s' /\ shrinks s s') s.
Proof.
  intros Hi Hn. unfold gam_poll_generic_prune_tree. apply wp_bind, wp_gets.
  apply wp_prune_loop; [done|done|]. pose proof (upto_size n (nodes (sv_heap s))). lia.
Qed.
End Remove.

(** * Safety of cancelling

    [gam_poll_basic_remove_subscription] ends with the subscription freed and
    everything else in order, unless the node stopped being a directory while
    it still has children: then the daemon fails an assertion. *)

Section Cancel.
Context {os : OS} {glib : GLib} {kern : KernelState} {ki : KernelInv kern} {laws : OSLaws os}.

(** ** The subscription itself *)

(** Replacing a subscription by one for the same path and listener. *)
Lemma inv_change_sub ex p sb sb' s :
  inv ex s -> subs (sv_heap s) !! p = Some sb -> sub_path sb' = sub_path sb ->
  sub_pathlen sb' = sub_pathlen sb -> sub_listener sb' = sub_listener sb ->
  inv ex (upd_heap (fun h => set_subs (<[p := sb']> (subs h)) h) s).
Proof.
  intros Hi Hp Epath Elen El. set (s' := upd_heap _ s).
  assert (forall q x, subs (sv_heap s) !! q = Some x -> exists y, subs (sv_heap s') !! q = Some y /\
    sub_path y = sub_path x /\ sub_pathlen y = sub_pathlen x /\ sub_listener y = sub_listener x)
    as Hfwd.
  { intros q x Hq. subst s'. simpl. destruct (decide (p = q)) as [->|].
    - rewrite lookup_insert, decide_True by done. simplify_eq. eauto.
    - rewrite lookup_insert_ne by done. eauto. }
  assert (forall q path, sub_ok q path s -> sub_ok q path s') as Hok.
  { intros q path (x & l & Hx & ? & ? & ? & ?). destruct (Hfwd _ _ Hx) as (y & ? & ? & ? & ?).
    exists y, l. split_and!; congruence || done. }
  destruct Hi. split; try done.
  - intros n x Hn. destruct (inv_node n x Hn) as (? & Hs & ?). split; [done|]. split; [|done].
    intros q Hq. destruct (Hs q Hq). auto.
  - intros l ln Hl. destruct (inv_listener l ln Hl) as (? & ? & Hs). split; [done|].
    split; [done|]. intros q Hq Hex. destruct (Hs q Hq Hex) as (x & Hx & ? & Hr).
    destruct (Hfwd _ _ Hx) as (y & ? & Ey & ? & ?). exists y. rewrite Ey.
    split; [done|]. split; [congruence|done].
  - intros q [x Hq]. apply inv_subs_old. subst s'. simpl in Hq.
    apply lookup_insert_Some in Hq as [[<- _]|[_ Hq]]; eauto.
Qed.

(** No node refers to a subscription, and only the listener it is being
    removed from does. *)
Definition off_nodes (p : ptr) (s : server) : Prop :=
  forall n x, nodes (sv_heap s) !! n = Some x -> p ∉ nd_subs x.
Definition unheld (ex : ctx) (p : ptr) (s : server) : Prop :=
  forall l ln, listeners (sv_heap s) !! l = Some ln -> p ∈ ln_subs ln -> cx_sub ex = Some p.

(** Freeing a subscription nobody else refers to. *)
Lemma inv_free_sub ex p s :
  inv ex s -> off_nodes p s -> unheld ex p s ->
  inv ex (upd_heap (fun h => set_subs (delete p (subs h)) h) s).
Proof.
  intros Hi Hnn Hnl. destruct Hi. split; try done; simpl.
  - intros n x Hn. destruct (inv_node n x Hn) as (? & Hs & ?). split; [done|]. split; [|done].
    intros q Hq. destruct (Hs q Hq) as [(sb & l & Hsb & Hrest) ?]. split; [|done].
    exists sb, l. simpl. rewrite lookup_delete_ne; [done|]. intros ->. by apply (Hnn n x).
  - intros l ln Hl. destruct (inv_listener l ln Hl) as (? & ? & Hs). split; [done|].
    split; [done|]. intros q Hq Hex. destruct (Hs q Hq Hex) as (x & Hx & ? & Hr). exists x.
    simpl. rewrite lookup_delete_ne; [done|]. intros <-. apply Hex. symmetry. by apply (Hnl l ln).
  - intros q [x [_ Hq]%lookup_delete_Some]. eauto.
Qed.

Lemma off_nodes_shrinks p s s' : shrinks s s' -> off_nodes p s -> off_nodes p s'.
Proof.
  intros H H1 n z Hz. destruct (sh_nodes _ _ H _ _ Hz) as (y & Hy & <- & _). by apply (H1 n).
Qed.

(** Nodes may have lost subscriptions or have gone, and no more of them are
    files with children. *)
Definition fewer_subs (s s' : server) : Prop :=
  forall m z, nodes (sv_heap s') !! m = Some z ->
    exists y, nodes (sv_heap s) !! m = Some y /\ nd_subs z ⊆ nd_subs y /\
      (file_with_children z -> file_with_children y).

#[export] Instance fewer_subs_preorder : PreOrder fewer_subs.
Proof.
  split; [by intros s m z Hz; exists z|]. intros s1 s2 s3 H1 H2 m z Hz.
  destruct (H2 m z Hz) as (y & Hy & Hs & Hf). destruct (H1 m y Hy) as (x & Hx & Hs' & Hf').
  exists x. split; [done|]. split; [by transitivity (nd_subs y)|auto].
Qed.

Lemma shrinks_fewer s s' : shrinks s s' -> fewer_subs s s'.
Proof.
  intros Hs m z Hz. destruct (sh_nodes _ _ Hs _ _ Hz) as (y & Hy & Es & _). exists y.
  split; [done|]. split; [by rewrite Es|]. intros Hf.
  destruct (sh_files _ _ Hs _ _ Hz Hf) as (y' & Hy' & ?). by simplify_eq.
Qed.

(** ** The node's list *)

Definition unsubscribe (n : ptr) (x : GamNode) (p : ptr) (s : server) : server :=
  upd_heap (fun h => set_nodes (<[n := set_nd_subs (g_list_remove_all (nd_subs x) p) x]> (nodes h)) h) s.

(** A subscription is on the list of one node only. *)
Lemma registered_once ex p m y n x s :
  inv ex s -> nodes (sv_heap s) !! m = Some y -> p ∈ nd_subs y ->
  nodes (sv_heap s) !! n = Some x -> p ∈ nd_subs x -> m = n.
Proof.
  intros Hi Hm Hp Hn Hq. destruct (inv_node _ _ Hi _ _ Hm) as (_ & Hy & _).
  destruct (inv_node _ _ Hi _ _ Hn) as (_ & Hx & _).
  destruct (Hy p Hp) as [(sb & ? & ? & Ey & _) Hhy]. destruct (Hx p Hq) as [(? & ? & ? & Ex & _) Hhx].
  simplify_eq. rewrite <- Ex, Ey in Hhx. congruence.
Qed.

Lemma inv_unsubscribe ex n x p s :
  inv ex s -> nodes (sv_heap s) !! n = Some x -> p ∈ nd_subs x -> unheld ex p s ->
  inv ex (unsubscribe n x p s) /\ off_nodes p (unsubscribe n x p s).
Proof.
  intros Hi Hn Hp Hl. set (s' := unsubscribe n x p s). set (x' := set_nd_subs (g_list_remove_all (nd_subs x) p) x).
  assert (forall m z, nodes (sv_heap s') !! m = Some z ->
    (m = n /\ z = x') \/ (m <> n /\ nodes (sv_heap s) !! m = Some z)) as Hcase.
  { intros m z. subst s'. simpl. rewrite lookup_insert_Some. intros [[<- <-]|[? ?]]; auto. }
  assert (forall m y, nodes (sv_heap s) !! m = Some y -> exists z, nodes (sv_heap s') !! m = Some z /\
    forall q, q <> p -> q ∈ nd_subs y -> q ∈ nd_subs z) as Hfwd.
  { intros m y Hm. subst s'. simpl. destruct (decide (n = m)) as [->|].
    - rewrite lookup_insert, decide_True by done. exists x'. split; [done|]. intros q ? Hq.
      assert (y = x) as -> by congruence. by apply elem_of_g_list_remove_all.
    - rewrite lookup_insert_ne by done. eauto. }
  assert (forall l, list_ok l s -> list_ok l s') as Hlists.
  { intros l [Hnd Hll]. split; [done|]. intros m Hm. destruct (Hll m Hm) as [y Hy].
    destruct (Hfwd _ _ Hy) as (z & ? & _). by exists z. }
  pose proof Hi as Hi0. destruct Hi. split; [split; try done; try by apply Hlists|].
  - destruct inv_tree as [root Ht]. exists root. by apply (tree_ok_place _ _ _ n x).
  - intros m z Hm. destruct (Hcase _ _ Hm) as [[-> ->]|[_ Hm']]; [|exact (inv_node _ _ Hm')].
    destruct (inv_node _ _ Hn) as (? & Hs & Hnew). split; [by apply g_list_remove_all_nodup|].
    split; [by intros q [Hq _]%elem_of_g_list_remove_all; apply Hs|]. intros H'.
    destruct (Hnew H') as [_ H1]. rewrite H1 in Hp. by apply elem_of_nil in Hp.
  - intros l ln Hln. destruct (inv_listener l ln Hln) as (? & ? & Hs). split; [done|].
    split; [done|]. intros q Hq Hex. destruct (Hs q Hq Hex) as (sb & ? & ? & m & y & Hh & Hy & Hqy).
    exists sb. split; [done|]. split; [done|]. destruct (Hfwd _ _ Hy) as (z & Hz & Hin).
    exists m, z. split; [done|]. split; [done|]. apply Hin; [|done]. intros ->. apply Hex. symmetry. by apply (Hl l ln).
  - intros m [z Hz]. apply inv_nodes_old. destruct (Hcase _ _ Hz) as [[-> _]|[_ Hz']]; eauto.
  - intros m z Hz Hin. destruct (Hcase _ _ Hz) as [[-> ->]|[Hne Hz']].
    + by apply elem_of_g_list_remove_all in Hin as [_ ?].
    + by apply Hne, (registered_once ex p m z n x s).
Qed.

Lemma wp_node_remove_sub n x p s :
  nodes (sv_heap s) !! n = Some x -> p ∈ nd_subs x ->
  wp (gam_node_remove_subscription n p) (fun _ s' => s' = unsubscribe n x p s) s.
Proof.
  intros Hn Hp. unfold gam_node_remove_subscription.
  apply wp_bind, (wp_load (H := node_obj)) with x; [exact Hn|].
  apply wp_bind, wp_assert; [by apply g_list_find_true|].
  by apply wp_bind, (wp_update (H := node_obj)) with x.
Qed.

Lemma wp_any_dir_sub l s :
  (forall p, p ∈ l -> sub_good p s) -> wp (any_dir_sub l) (fun _ s' => s' = s) s.
Proof.
  induction l as [|p l IH]; intros Hl; simpl; [by apply wp_ret|].
  destruct (Hl p) as (name & sb & l' & Hsb & _); [by left|].
  apply wp_bind, (wp_load (H := sub_obj)) with sb; [exact Hsb|].
  simpl. destruct (sub_is_dir sb); [by apply wp_ret|]. apply IH. intros q Hq. apply Hl. by right.
Qed.

Lemma wp_has_dir_subs ex n s :
  inv ex s -> live n s -> wp (gam_node_has_dir_subscriptions (Some n)) (fun _ s' => s' = s) s.
Proof.
  intros Hi [x Hx]. unfold gam_node_has_dir_subscriptions.
  apply wp_bind, (wp_load (H := node_obj)) with x; [exact Hx|].
  destruct (nd_is_dir x); simpl; [|by apply wp_ret]. apply wp_any_dir_sub. intros p Hp.
  destruct (inv_node _ _ Hi _ _ Hx) as (_ & Hs & _). destruct (Hs p Hp). by exists (nd_path x).
Qed.

(** ** Children *)

Lemma wp_remove_children ex n l flag s :
  inv ex s -> live n s -> NoDup l -> (forall c, c ∈ l -> child_of n c s) ->
  wp (remove_children l flag) (fun _ s' => inv ex s' /\ shrinks s s' /\ live n s') s.
Proof.
  revert flag s. induction l as [|c l IH]; intros flag s Hi Hn Hnd Hl; simpl.
  { by apply wp_ret. }
  apply NoDup_cons in Hnd as [Hc Hnd]. destruct (Hl c) as (x & Hx & Hp); [by left|].
  apply wp_bind. unfold remove_child. apply wp_bind.
  eapply wp_mono; [by apply (wp_get_subs c x)|]. intros ? ? [-> ->]. apply wp_bind.
  eapply wp_mono; [by apply (wp_has_children c x)|]. intros ? ? [-> ->].
  destruct (bool_decide (nd_subs x = []) && flag && _) eqn:E.
  2:{ apply wp_ret. apply IH; [done|done|done|]. intros d Hd. apply Hl. by right. }
  apply andb_true_iff in E as [[Hs%bool_decide_eq_true _]%andb_true_iff
    Hch%negb_true_iff%negb_false_iff%bool_decide_eq_true].
  pose proof (wp_drop_leaf ex c x s Hi Hx Hs Hch ltac:(by rewrite Hp)) as Hd.
  apply wp_bind. unfold wp, mbind, ST_bind in Hd |- *.
  destruct (gam_poll_generic_unregister_node c s) as [[[] s1]|]; [|done].
  apply wp_bind. eapply wp_mono; [exact Hd|]. intros b s2 (Hi2 & Hsh & Hsv & _). apply wp_ret.
  destruct (inv_tree _ _ Hi) as [root Ht]. destruct (to_parent _ _ _ Ht _ _ _ Hx Hp) as (Hlt & _).
  destruct Hn as [y Hy]. destruct (Hsv n y ltac:(lia) Hy) as (z & Hz & _).
  eapply wp_mono; [apply IH; [done|by exists z|done|]|].
  - intros d Hd'. destruct (Hl d) as (w & Hw & Hwp); [by right|].
    destruct (Hsv d w) as (v & Hv & _ & Hvp & _); [by intros ->|done|]. exists v. by rewrite Hvp.
  - intros [] s3 (Hi3 & Hsh3 & Hn3). split; [done|]. split; [by transitivity s2|done].
Qed.

(** ** The two ways to leave a node *)

(** The outcome both share. *)
Definition left_node (ex : ctx) (p : ptr) (s s' : server) : Prop :=
  inv ex s' /\ off_nodes p s' /\ subs (sv_heap s') = subs (sv_heap s) /\
  listeners (sv_heap s') = listeners (sv_heap s) /\ fewer_subs s s'.

Lemma left_unsubscribe ex n x p s s' :
  nodes (sv_heap s) !! n = Some x -> inv ex s' -> off_nodes p (unsubscribe n x p s) ->
  shrinks (unsubscribe n x p s) s' -> left_node ex p s s'.
Proof.
  intros Hn Hi Hu Hs. split; [done|]. split; [by apply (off_nodes_shrinks p (unsubscribe n x p s))|].
  split; [apply Hs|]. split; [apply Hs|]. transitivity (unsubscribe n x p s); [|by apply shrinks_fewer].
  intros m z Hz. simpl in Hz. apply lookup_insert_Some in Hz as [[<- <-]|[_ Hz]]; [|by exists z].
  exists x. split; [done|]. split; [|done]. by intros q [Hq _]%elem_of_g_list_remove_all.
Qed.

(** What a cancellation finds. *)
Record cancellable (ex : ctx) (p n : ptr) (x : GamNode) (s : server) : Prop := {
  cb_inv : inv ex s;
  cb_node : nodes (sv_heap s) !! n = Some x;
  cb_listed : p ∈ nd_subs x;
  cb_dropped : unheld ex p s
}.

Lemma cancellable_parent ex p n x s :
  cancellable ex p n x s -> exists parent, nd_parent x = Some parent /\ live parent s /\ (parent < n)%positive.
Proof.
  intros [Hi Hn Hp _]. destruct (inv_tree _ _ Hi) as [root Ht].
  destruct (inv_node _ _ Hi _ _ Hn) as (_ & Hs & _). destruct (Hs p Hp) as [_ Hh].
  destruct (to_hash _ _ _ Ht _ _ Hh) as [Hne _].
  destruct (to_all _ _ _ Ht _ _ Hn Hne) as [_ [q Hq]].
  destruct (to_parent _ _ _ Ht _ _ _ Hn Hq) as (Hlt & y & Hy & _). exists q.
  split; [done|]. split; [by exists y|done].
Qed.

Lemma unsubscribe_node n x p s :
  nodes (sv_heap (unsubscribe n x p s)) !! n
  = Some (set_nd_subs (g_list_remove_all (nd_subs x) p) x).
Proof. simpl. by rewrite lookup_insert, decide_True. Qed.

Lemma unsubscribe_live n x p m s : live m s -> live m (unsubscribe n x p s).
Proof.
  intros [y Hy]. unfold live. simpl. destruct (decide (n = m)) as [->|].
  - rewrite lookup_insert, decide_True by done. eauto.
  - rewrite lookup_insert_ne by done. eauto.
Qed.

(** Removing a leaf and pruning above it. *)
Lemma wp_remove_and_prune ex n x parent s :
  inv ex s -> nodes (sv_heap s) !! n = Some x -> nd_subs x = [] -> nd_children x = [] ->
  nd_parent x = Some parent -> live parent s -> (parent < n)%positive -> unlisted_node n s ->
  wp (_ ← gam_tree_remove n; gam_poll_generic_prune_tree parent)
    (fun _ s' => inv ex s' /\ shrinks s s') s.
Proof.
  intros Hi Hn Hs Hc Hp [y Hy] Hlt Hu. apply wp_bind.
  eapply wp_mono; [by apply (wp_tree_remove ex n x)|]. intros b s1 (_ & Hi1 & Hsh & Hsv & _).
  destruct (Hsv parent y ltac:(lia) Hy) as (z & Hz & _).
  eapply wp_mono; [apply (wp_prune ex); [done|by exists z]|].
  intros [] s2 [Hi2 Hsh2]. split; [done|]. by transitivity s1.
Qed.

(** A file that keeps children is the exception. *)
Definition last_of_parent (p : ptr) (x : GamNode) : bool :=
  bool_decide (g_list_remove_all (nd_subs x) p = []) && negb (bool_decide (nd_children x = [])).

Lemma wp_remove_from_file ex p n x s :
  cancellable ex p n x s -> last_of_parent p x = false ->
  wp (remove_from_file n p) (fun _ s' => left_node ex p s s') s.
Proof.
  intros Hc Hlast. destruct (cancellable_parent _ _ _ _ _ Hc) as (parent & Hp & Hpl & Hlt).
  destruct Hc as [Hi Hn Hin Hd]. destruct (inv_unsubscribe ex n x p s Hi Hn Hin Hd) as [Hi1 Hu1].
  unfold remove_from_file. apply wp_bind. eapply wp_mono; [by apply (wp_node_remove_sub n x)|].
  intros b s' ->. set (s1 := unsubscribe n x p s) in *. set (x1 := set_nd_subs (g_list_remove_all (nd_subs x) p) x).
  pose proof (unsubscribe_node n x p s : nodes (sv_heap s1) !! n = Some x1) as Hn1.
  apply wp_bind. eapply wp_mono; [by apply (wp_get_subs n x1)|]. intros ? ? [-> ->].
  apply wp_when; [|intros _; by apply (left_unsubscribe ex n x p s)].
  intros Hs%bool_decide_eq_true. unfold last_of_parent in Hlast.
  rewrite bool_decide_eq_true_2 in Hlast by exact Hs. simpl in Hlast.
  apply negb_false_iff, bool_decide_eq_true in Hlast.
  apply wp_bind. eapply wp_mono; [by apply (wp_unregister ex n)|].
  intros [] s2 (Hi2 & Hun & Ho). assert (nodes (sv_heap s2) !! n = Some x1) as Hn2
    by by rewrite (only_lists_node s1).
  apply wp_bind. eapply wp_mono; [by apply (wp_has_children n x1)|]. intros ? ? [-> ->].
  apply wp_bind, wp_assert; [by apply negb_true_iff, negb_false_iff, bool_decide_eq_true|].
  apply wp_bind. eapply wp_mono; [by apply (wp_node_parent ex n x1)|]. intros ? ? [-> ->].
  subst x1. simpl. rewrite Hp.
  assert (live parent s2) as Hpl2.
  { destruct (unsubscribe_live n x p parent s Hpl) as [y Hy]. exists y.
    by rewrite (only_lists_node s1). }
  apply wp_bind. eapply wp_mono; [by apply (wp_has_dir_subs ex)|]. intros b' ? ->.
  apply only_lists_shrinks in Ho. apply wp_when; [intros _|intros _; by apply (left_unsubscribe ex n x p s)].
  eapply wp_mono; [by eapply (wp_remove_and_prune ex n)|].
  intros [] s3 [Hi3 Hsh3]. apply (left_unsubscribe ex n x p s); [done|done|done|]. by transitivity s2.
Qed.

Lemma wp_remove_dir_sub ex p n x parent s :
  cancellable ex p n x s -> nd_parent x = Some parent ->
  wp (node_remove_directory_subscription n p) (fun go s' =>
    left_node ex p s s' /\ live parent s' /\ exists x', nodes (sv_heap s') !! n = Some x' /\
      nd_parent x' = Some parent /\ (go = true -> nd_subs x' = [])) s.
Proof.
  intros [Hi Hn Hin Hd] Hp. destruct (inv_unsubscribe ex n x p s Hi Hn Hin Hd) as [Hi1 Hu1].
  unfold node_remove_directory_subscription.
  apply wp_bind. eapply wp_mono; [by apply (wp_node_remove_sub n x)|].
  intros b s' ->. set (s1 := unsubscribe n x p s) in *.
  set (x1 := set_nd_subs (g_list_remove_all (nd_subs x) p) x).
  pose proof (unsubscribe_node n x p s : nodes (sv_heap s1) !! n = Some x1) as Hn1.
  apply wp_bind. eapply wp_mono; [by apply (wp_get_subs n x1)|]. intros ? ? [-> ->].
  apply wp_bind. eapply wp_mono; [apply (safely_get_children ex); [done|by exists x1]|].
  intros l ? (_ & _ & -> & _ & y & Hy & ->). assert (y = x1) as -> by congruence. clear Hy.
  destruct (inv_tree _ _ Hi1) as [root Ht].
  apply wp_bind. eapply wp_mono; [apply (wp_remove_children ex n); [done|by exists x1| |]|].
  { rewrite reverse_Permutation. by apply (to_nodup _ _ _ Ht n). }
  { intros c Hc. rewrite elem_of_reverse in Hc. exact (to_children _ _ _ Ht _ _ _ Hn1 Hc). }
  intros [] s2 (Hi2 & Hsh2 & [x2 Hx2]).
  destruct (sh_nodes _ _ Hsh2 _ _ Hx2) as (y & Hy & Es & Ep).
  assert (y = x1) as -> by congruence.
  assert (nd_parent x2 = Some parent) as Hp2 by by rewrite <- Ep.
  destruct (inv_tree _ _ Hi2) as [root2 Ht2].
  destruct (to_parent _ _ _ Ht2 _ _ _ Hx2 Hp2) as (_ & px & Hpx & _).
  assert (forall go : bool, (go = true -> nd_subs x2 = []) ->
    left_node ex p s s2 /\ live parent s2 /\ exists x', nodes (sv_heap s2) !! n = Some x' /\
      nd_parent x' = Some parent /\ (go = true -> nd_subs x' = [])) as Hgo.
  { intros go Hg. split; [by apply (left_unsubscribe ex n x p s)|]. split; [by exists px|]. by exists x2. }
  apply wp_bind. eapply wp_mono; [by apply (wp_get_subs n x2)|]. intros ? ? [-> ->].
  case_bool_decide as Hs; [|by apply wp_ret, Hgo]. apply wp_bind.
  eapply wp_mono; [by apply (wp_node_parent ex n x2)|]. intros ? ? [-> ->]. rewrite Hp2.
  apply wp_bind. eapply wp_mono; [apply (wp_has_dir_subs ex); [done|by exists px]|].
  intros b' ? ->. by apply wp_ret, Hgo.
Qed.

Lemma left_node_shrinks ex p s s1 s2 :
  left_node ex p s s1 -> inv ex s2 -> shrinks s1 s2 -> left_node ex p s s2.
Proof.
  intros (_ & Hu & Es & El & Hf) Hi Hsh. split; [done|]. split; [by apply (off_nodes_shrinks _ s1)|].
  split; [by rewrite (sh_subs _ _ Hsh)|]. split; [by rewrite (sh_listeners _ _ Hsh)|].
  transitivity s1; [done|by apply shrinks_fewer].
Qed.

Lemma wp_remove_from_dir ex p n x s :
  cancellable ex p n x s -> wp (remove_from_dir n p) (fun _ s' => left_node ex p s s') s.
Proof.
  intros Hc. destruct (cancellable_parent _ _ _ _ _ Hc) as (parent & Hp & _ & Hlt).
  unfold remove_from_dir. apply wp_bind.
  eapply wp_mono; [by apply (wp_remove_dir_sub ex p n x parent)|].
  intros go s2 (Hl2 & [px Hpx] & x2 & Hx2 & Hp2 & Hgo). pose proof Hl2 as (Hi2 & _).
  apply wp_when; [intros Eg; specialize (Hgo Eg)|done].
  apply wp_bind. eapply wp_mono; [by apply (wp_unregister ex n)|].
  intros [] s3 (Hi3 & Hun & Ho). assert (nodes (sv_heap s3) !! n = Some x2) as Hn3
    by by rewrite (only_lists_node s2).
  assert (nodes (sv_heap s3) !! parent = Some px) as Hpx3 by by rewrite (only_lists_node s2).
  apply only_lists_shrinks in Ho.
  apply wp_bind. eapply wp_mono; [by apply (wp_node_parent ex n x2)|]. intros ? ? [-> ->].
  rewrite Hp2. apply wp_bind. eapply wp_mono; [by apply (wp_has_children n x2)|].
  intros ? ? [-> ->]. rewrite negb_involutive. case_bool_decide as Hch.
  - apply wp_bind, wp_bind. eapply wp_mono; [apply (wp_tree_remove ex n x2); rewrite ?Hp2; eauto|].
    intros ? s4 (_ & Hi4 & Hsh4 & Hsv & _). apply wp_ret, wp_bind, (wp_assert_ptr _ parent); [done|].
    destruct (Hsv parent px ltac:(lia) Hpx3) as (z & Hz & _).
    eapply wp_mono; [apply (wp_prune ex); [done|by exists z]|].
    intros [] s5 [Hi5 Hsh5]. apply (left_node_shrinks ex p s s2); [done|done|].
    transitivity s3; [done|]. by transitivity s4.
  - apply wp_bind, wp_ret, wp_bind, (wp_assert_ptr _ parent); [done|].
    eapply wp_mono; [apply (wp_prune ex); [done|by exists px]|].
    intros [] s5 [Hi5 Hsh5]. apply (left_node_shrinks ex p s s2); [done|done|]. by transitivity s3.
Qed.

(** ** [gam_poll_basic_remove_subscription] *)

Lemma remove_from_file_stuck ex p n x s :
  cancellable ex p n x s -> last_of_parent p x = true -> remove_from_file n p s = Fault AssertFailed.
Proof.
  intros [Hi Hn Hin Hd] [Hs Hch]%andb_true_iff.
  destruct (inv_unsubscribe ex n x p s Hi Hn Hin Hd) as [Hi1 _].
  pose proof (unsubscribe_node n x p s) as Hn1. unfold remove_from_file.
  destruct (wp_Ok _ _ _ (wp_node_remove_sub n x p s Hn Hin)) as (b & s1 & E & ->).
  rewrite (bind_Ok _ _ _ _ _ E). clear E b.
  destruct (wp_Ok _ _ _ (wp_get_subs _ _ _ Hn1)) as (l & ? & E & -> & ->).
  rewrite (bind_Ok _ _ _ _ _ E). clear E. simpl nd_subs. rewrite Hs. simpl when.
  destruct (wp_Ok _ _ _ (wp_unregister ex n _ Hi1)) as ([] & s2 & E & _ & _ & Ho).
  rewrite (bind_Ok _ _ _ _ _ E). clear E. rewrite <- (only_lists_node _ _ _ Ho) in Hn1.
  destruct (wp_Ok _ _ _ (wp_has_children _ _ _ Hn1)) as (b & ? & E & -> & ->).
  rewrite (bind_Ok _ _ _ _ _ E). simpl nd_children. by rewrite Hch.
Qed.

Definition cancelled (p : ptr) (sb : GamSubscription) (s : server) : server :=
  upd_heap (fun h => set_subs (<[p := set_sub_cancelled true sb]> (subs h)) h) s.

(** Cancelling a polled subscription.  For a subscription that its listener
    has dropped and that is registered at the node of its path,
    [gam_poll_basic_remove_subscription] frees the subscription and nothing
    else, removes it from its node, prunes the tree and keeps the invariant;
    unless the node is no directory (any more), the subscription is its last
    one and the node has children: then the assertion of
    [gam_poll_basic_remove_subscription] stops the daemon. *)
Lemma poll_remove_outcome ex p sb n x (s : server) :
  inv ex s -> subs (sv_heap s) !! p = Some sb ->
  node_hash (sv_tree s) !! sub_path sb = Some n -> nodes (sv_heap s) !! n = Some x ->
  p ∈ nd_subs x ->
  unheld ex p s ->
  if negb (nd_is_dir x) && last_of_parent p x
  then gam_poll_basic_remove_subscription p s = Fault AssertFailed
  else exists s', gam_poll_basic_remove_subscription p s = Ok (true, s') /\
    inv ex s' /\ off_nodes p s' /\ subs (sv_heap s') = delete p (subs (sv_heap s)) /\
    listeners (sv_heap s') = listeners (sv_heap s) /\ fewer_subs s s'.
Proof.
  intros Hi Hsb Hh Hn Hp Hl. unfold gam_poll_basic_remove_subscription.
  rewrite (bind_Ok _ _ _ _ _ (load_sub_Ok _ _ _ Hsb)).
  assert (gam_tree_get_at_path (sub_path sb) s = Ok (Some n, s)) as E
    by (unfold gam_tree_get_at_path, gets; by rewrite Hh).
  rewrite (bind_Ok _ _ _ _ _ E). clear E. set (s1 := cancelled p sb s).
  assert (gam_subscription_cancel (Some p) s = Ok (tt, s1)) as E
    by (unfold gam_subscription_cancel, update, objs; simpl; by rewrite Hsb).
  rewrite (bind_Ok _ _ _ _ _ E). clear E.
  assert (cancellable ex p n x s1) as Hc.
  { split; [|done|done|done]. by apply (inv_change_sub ex p sb). }
  assert (gam_node_is_dir n s1 = Ok (nd_is_dir x, s1)) as E
    by (unfold gam_node_is_dir; by rewrite (bind_Ok _ _ _ _ _ (load_node_Ok n x s1 Hn))).
  rewrite (bind_Ok _ _ _ _ _ E). clear E.
  assert (forall s2, left_node ex p s1 s2 -> exists s',
    (_ ← gam_subscription_free (Some p); mret true) s2 = Ok (true, s') /\ inv ex s' /\
    off_nodes p s' /\ subs (sv_heap s') = delete p (subs (sv_heap s)) /\
    listeners (sv_heap s') = listeners (sv_heap s) /\ fewer_subs s s') as Hfree.
  { intros s2 (Hi2 & Hu2 & Es2 & El2 & Hf2).
    exists (upd_heap (fun h => set_subs (delete p (subs h)) h) s2).
    split; [|split; [apply inv_free_sub; [done|done|unfold unheld; by rewrite El2]|split; [done|split; [|by split]]]].
    - unfold mbind, ST_bind, gam_subscription_free, dealloc, objs. simpl. rewrite Es2. simpl.
      by rewrite lookup_insert, decide_True.
    - simpl. rewrite Es2. simpl. by rewrite delete_insert_eq. }
  destruct (nd_is_dir x); simpl.
  - destruct (wp_Ok _ _ _ (wp_remove_from_dir ex p n x s1 Hc)) as ([] & s2 & E & Hl2).
    rewrite (bind_Ok _ _ _ _ _ E). by apply Hfree.
  - destruct (last_of_parent p x) eqn:Hlast.
    + unfold mbind at 1, ST_bind at 1. by rewrite (remove_from_file_stuck ex p n x s1 Hc Hlast).
    + destruct (wp_Ok _ _ _ (wp_remove_from_file ex p n x s1 Hc Hlast)) as ([] & s2 & E & Hl2).
      rewrite (bind_Ok _ _ _ _ _ E). by apply Hfree.
Qed.
End Cancel.
