(* ===== verification/Server.v ===== *)
(** * The daemon's core ([server/gam_server.c], rest of [gam_listener.c])

    A subscription goes to the polling or to the kernel backend according to
    the exclude patterns and the file system it lies on; the same decision is
    taken again when it is removed. *)

From S2P Require Import Prelude Protocol Monad OS Excludes Fs.
From S2P Require Import Conf State Subscription Listener ConnSend Node.
From S2P Require Import Tree Emit PollGeneric PollBasic.

Local Open Scope Z_scope.

(** The functions a kernel backend installs with
    [gam_server_install_kernel_hooks], and its initialisation. *)
Class KernelBackend (os : OS) (kern : KernelState) := {
  hook_kernel_init : ST server bool;
  hook_kernel_add : ptr -> ST server bool;
  hook_kernel_remove : ptr -> ST server bool;
  hook_kernel_remove_all_for : ptr -> ST server bool
}.

(** A daemon without a kernel backend ([--pollonly]): nothing is installed. *)
Definition absent_backend (os : OS) (kern : KernelState) : KernelBackend os kern := {|
  hook_kernel_init := mret false;
  hook_kernel_add _ := mret false;
  hook_kernel_remove _ := mret false;
  hook_kernel_remove_all_for _ := mret false
|}.

Section Server.
Context {os : OS} {glib : GLib} {kern : KernelState} {kb : KernelBackend os kern}.
Context {ph : PollHooks os kern}.
Abbreviation M := (ST server).

(** ** Hooks *)

Definition gam_server_install_kernel_hooks (name : GamKernelHandler) : M unit :=
  modify (upd_ctl (set_kernel_handler name)).
Definition gam_server_install_poll_hooks (name : GamPollHandler) : M unit :=
  modify (upd_ctl (set_poll_handler name)).

(** [gam_server_get_poll_handler]: as written, it returns the kernel's. *)
Definition gam_server_get_poll_handler : M GamKernelHandler :=
  gets (fun s => kernel_handler (sv_ctl s)).

Definition gam_kernel_add_subscription (sub : ptr) : M bool :=
  h ← gam_server_get_kernel_handler;
  match h with GAMIN_K_NONE => mret false | _ => hook_kernel_add sub end.

Definition gam_kernel_remove_subscription (sub : ptr) : M bool :=
  h ← gam_server_get_kernel_handler;
  match h with GAMIN_K_NONE => mret false | _ => hook_kernel_remove sub end.

Definition gam_kernel_remove_all_for (listener : ptr) : M bool :=
  h ← gam_server_get_kernel_handler;
  match h with GAMIN_K_NONE => mret false | _ => hook_kernel_remove_all_for listener end.

(** ** Choice of the backend *)

Definition gam_add_subscription (sub : option ptr) : M bool :=
  match sub with
  | None => mret false
  | Some sub =>
      s ← load sub;
      let path := sub_path s in
      excluded ← gets (fun st => gam_exclude_check (sv_excludes st) (Some path));
      if excluded : bool then
        running ← is_running;
        if running : bool then gam_poll_add_subscription sub
        else gam_kernel_add_subscription sub
      else
        type ← fs_call (gam_fs_get_mon_type path);
        match type with
        | GFS_MT_KERNEL => gam_kernel_add_subscription sub
        | GFS_MT_POLL => gam_poll_add_subscription sub
        | GFS_MT_NONE => mret false
        end
  end.

Definition gam_remove_subscription (sub : option ptr) : M bool :=
  match sub with
  | None => mret false
  | Some sub =>
      s ← load sub;
      let path := sub_path s in
      excluded ← gets (fun st => gam_exclude_check (sv_excludes st) (Some path));
      if excluded : bool then
        running ← is_running;
        if running : bool then gam_poll_remove_subscription sub
        else gam_kernel_remove_subscription sub
      else
        type ← fs_call (gam_fs_get_mon_type path);
        match type with
        | GFS_MT_KERNEL => gam_kernel_remove_subscription sub
        | GFS_MT_POLL => gam_poll_remove_subscription sub
        | GFS_MT_NONE => mret false
        end
  end.

(** The [ENABLE_INOTIFY] blocks after a removal: a subscription that inotify
    held is freed by the caller. *)
Definition free_if_inotify (path : string) (sub : ptr) : M unit :=
  running ← is_running;
  excluded ← gets (fun st => gam_exclude_check (sv_excludes st) (Some path));
  when (running && negb excluded)
    (type ← fs_call (gam_fs_get_mon_type path);
     when (negb (bool_decide (type = GFS_MT_POLL))) (gam_subscription_free (Some sub))).

(** ** Freeing a listener ([gam_listener.c]) *)

Definition gam_listener_free_subscription (listener sub : ptr) : M unit :=
  l ← load listener;
  _ ← g_assert (g_list_find (ln_subs l) sub);
  s ← load sub;
  let path := sub_path s in
  _ ← gam_remove_subscription (Some sub);
  free_if_inotify path sub.

(** The [while] loop of [gam_listener_free], which always takes the first
    subscription left. *)
Fixpoint free_subscriptions (fuel : nat) (listener : ptr) : M unit :=
  match fuel with
  | O => fail OutOfFuel
  | S fuel =>
      l ← load listener;
      match ln_subs l with
      | [] => mret tt
      | sub :: _ =>
          _ ← gam_listener_free_subscription listener sub;
          _ ← update listener (fun l => set_ln_subs (tail (ln_subs l)) l);
          free_subscriptions fuel listener
      end
  end.

Definition gam_listener_free (listener : ptr) : M unit :=
  l ← load listener;
  _ ← free_subscriptions (S (length (ln_subs l))) listener;
  dealloc GamListener listener.

(** ** Start-up *)

(** [gam_conf_read]; [gam_exclude_init]; the kernel backend unless
    [--pollonly], else the basic polling backend. *)
Definition gam_init_subscriptions : M bool :=
  _ ← (fun s =>
         let '(ex, (fs, w)) := gam_conf_read (sv_excludes s, (sv_fs s, sv_world s)) in
         Ok (tt, set_sv_fs (fs, w) (set_sv_excludes ex s)));
  _ ← modify (fun s => set_sv_excludes (gam_exclude_init (sv_excludes s)).1 s);
  only ← gets (fun s => poll_only (sv_ctl s));
  k ← (if only : bool then mret false else hook_kernel_init);
  if k : bool then mret true else gam_poll_basic_init.

Definition gam_server_use_timeout : M bool := gets (fun s => negb (no_timeout (sv_ctl s))).
End Server.
