(* ===== verification/Frames.v ===== *)
(** * What the server's operations leave alone, and the periodic scan

    Frame lemmas for the whole subscription machinery: whatever a backend does
    on behalf of a request, the connections keep their buffers, states and
    listeners (only event queues and flush timers move), no connection appears
    or disappears, and the hook table stays as it was.  The kernel backend
    promises the same ([KernelFrame]).  Polling does not change the list of
    registered resources, so the first loop of [gam_poll_basic_scan_callback]
    visits each of them once and ends. *)

From S2P Require Import Prelude Protocol EventQueue Monad OS Excludes.
From S2P Require Import Fs State Subscription Listener ConnSend Node.
From S2P Require Import Tree Inv Emit PollGeneric PollBasic Safety.
From S2P Require Import PollSafety AddSafety Server.

Local Open Scope Z_scope.

(** [keeps f m]: completing [m] does not change [f] of the state. *)
Definition keeps {S X A} (f : S -> X) (m : ST S A) : Prop := preserves (fun s s' => f s = f s') m.

#[export] Instance keeps_preorder {S X} (f : S -> X) : PreOrder (fun s s' => f s = f s').
Proof. split; [by intros s|intros s1 s2 s3; by intros -> ->]. Qed.

Section View.
Context {os : OS} {kern : KernelState}.

(** A connection without its queue and timer. *)
Definition conn_view (c : GamConnData) : GamConnData := set_cn_eq None (set_cn_eq_source false c).

(** The part of the state under consideration. *)
Definition conns_view (s : server) : gmap ptr GamConnData * GamKernelHandler * GamPollHandler
  * list ptr * gmap ptr ptr :=
  (conn_view <$> conns (sv_heap s), kernel_handler (sv_ctl s), poll_handler (sv_ctl s),
   gamConnList (sv_ctl s), ln_service <$> listeners (sv_heap s)).

Lemma conns_view_lookup s s' c k :
  conns_view s = conns_view s' -> conns (sv_heap s) !! c = Some k ->
  exists k', conns (sv_heap s') !! c = Some k' /\ conn_view k' = conn_view k.
Proof.
  unfold conns_view. intros Hv Hc.
  assert (conn_view <$> conns (sv_heap s) = conn_view <$> conns (sv_heap s')) as Hm by congruence.
  assert ((conn_view <$> conns (sv_heap s')) !! c = Some (conn_view k)) as Hc'
    by by rewrite <- Hm, lookup_fmap, Hc.
  rewrite lookup_fmap in Hc'. apply fmap_Some in Hc' as (k' & Hk' & Hv'). by exists k'.
Qed.
End View.

(** The kernel backend's hooks keep [conns_view]. *)
Class KernelFrame {os : OS} {kern : KernelState} (kb : KernelBackend os kern) := {
  kernel_add_frame p : keeps conns_view (hook_kernel_add p);
  kernel_remove_frame p : keeps conns_view (hook_kernel_remove p)
}.

#[export] Instance absent_frame os kern : KernelFrame (absent_backend os kern).
Proof. split; intros p s; reflexivity. Qed.

(** Primitive actions on other parts of the state. *)
Ltac keep_prim :=
  intros ?; unfold update, alloc, dealloc, sys, fs_call, modify, load, objs, is_running, gets;
  repeat case_match; simplify_eq; simpl; (reflexivity || done).

#[export] Hint Extern 1 (preserves _ (update _ _)) => solve [keep_prim] : preserve.
#[export] Hint Extern 1 (preserves _ (alloc _)) => solve [keep_prim] : preserve.
#[export] Hint Extern 1 (preserves _ (dealloc _ _)) => solve [keep_prim] : preserve.
#[export] Hint Extern 1 (preserves _ (load _)) => solve [keep_prim] : preserve.
#[export] Hint Extern 1 (preserves _ (sys _)) => solve [keep_prim] : preserve.
#[export] Hint Extern 1 (preserves _ (fs_call _)) => solve [keep_prim] : preserve.
#[export] Hint Extern 1 (preserves _ (modify _)) => solve [keep_prim] : preserve.
#[export] Hint Extern 2 (preserves _ is_running) => solve [keep_prim] : preserve.

Section Frames.
Context {os : OS} {glib : GLib} {kern : KernelState} {kb : KernelBackend os kern}
  {kf : KernelFrame kb}.
Notation keeps_view m := (preserves (fun s s' : server => conns_view s = conns_view s') m).

Lemma keeps_update_conn p f :
  (forall c, conn_view (f c) = conn_view c) -> keeps_view (update (A := GamConnData) p f).
Proof.
  intros Hf s. unfold update, objs. simpl. destruct (conns (sv_heap s) !! p) as [c|] eqn:E; [|done].
  unfold conns_view. simpl. rewrite fmap_insert, Hf, insert_id; [done|].
  by rewrite lookup_fmap, E.
Qed.

Lemma keeps_update_listener p (f : GamListener -> GamListener) :
  (forall l, ln_service (f l) = ln_service l) -> keeps_view (update p f).
Proof.
  intros Hf s. unfold update, objs. simpl. destruct (listeners (sv_heap s) !! p) as [l|] eqn:E; [|done].
  unfold conns_view. simpl. rewrite fmap_insert, Hf, insert_id; [done|].
  by rewrite lookup_fmap, E.
Qed.
Hint Extern 0 (preserves _ (update (A := GamListener) _ _)) =>
  apply keeps_update_listener; intros; reflexivity : preserve.

Lemma keeps_conn_write fd data : keeps_view (gam_client_conn_write fd data).
Proof.
  unfold gam_client_conn_write.
  assert (forall fuel data, keeps_view (conn_write_loop fuel fd data)) as Hw.
  { clear. induction fuel as [|fuel IH]; intros data; simpl; preserve. }
  preserve.
Qed.
Hint Resolve keeps_conn_write : preserve.
Lemma keeps_send conn reqno event path len : keeps_view (gam_send_event conn reqno event path len).
Proof. unfold gam_send_event, send_packet. preserve. Qed.
Lemma keeps_send_ack conn reqno path len : keeps_view (gam_send_ack conn reqno path len).
Proof. unfold gam_send_ack, send_packet. preserve. Qed.
Hint Resolve keeps_send : preserve.

Lemma keeps_queue conn reqno event path len :
  keeps_view (gam_queue_event conn reqno event path len).
Proof. unfold gam_queue_event. preserve; by apply keeps_update_conn. Qed.
Hint Resolve keeps_queue : preserve.

Lemma keeps_emit_one path d event sub force :
  keeps_view (gam_server_emit_one_event path d event sub force).
Proof. unfold gam_server_emit_one_event, gam_listener_get_service. preserve. Qed.
Hint Resolve keeps_emit_one : preserve.

Lemma keeps_emit path d event l force : keeps_view (gam_server_emit_event path d event l force).
Proof. unfold gam_server_emit_event. preserve. Qed.
Hint Resolve keeps_emit : preserve.

(** *** Nodes and tree *)

Lemma keeps_node_new path sub d : keeps_view (gam_node_new path sub d).
Proof. unfold gam_node_new. preserve. Qed.
Lemma keeps_node_parent n : keeps_view (gam_node_parent n).
Proof. unfold gam_node_parent. preserve. Qed.
Lemma keeps_any_dir_sub l : keeps_view (any_dir_sub l).
Proof. induction l; simpl; preserve. Qed.
Hint Resolve keeps_node_new keeps_node_parent keeps_any_dir_sub : preserve.
Lemma keeps_has_dir_subs n : keeps_view (gam_node_has_dir_subscriptions n).
Proof. unfold gam_node_has_dir_subscriptions. preserve. Qed.
Hint Resolve keeps_has_dir_subs : preserve.

Lemma keeps_tree_add p n : keeps_view (gam_tree_add p n).
Proof.
  unfold gam_tree_add, gam_node_get_path, gam_tree_get_at_path, new_node, g_node_append. preserve.
Qed.
Lemma keeps_is_ancestor fuel r n : keeps_view (g_node_is_ancestor fuel r n).
Proof. revert n. induction fuel; simpl; preserve. Qed.
Hint Resolve keeps_tree_add keeps_is_ancestor : preserve.
Lemma keeps_tree_remove n : keeps_view (gam_tree_remove n).
Proof.
  unfold gam_tree_remove, gam_tree_has_children, gam_node_get_path, g_node_unlink, gam_node_free.
  preserve.
Qed.
Lemma keeps_add_parents l p : keeps_view (add_parents l p).
Proof. revert p. induction l; simpl; unfold gam_tree_get_at_path; preserve. Qed.
Hint Resolve keeps_tree_remove keeps_add_parents : preserve.
Lemma keeps_add_at_path path d : keeps_view (gam_tree_add_at_path path d).
Proof. unfold gam_tree_add_at_path, gam_tree_get_at_path. preserve. Qed.
Hint Resolve keeps_add_at_path : preserve.

(** *** Polling *)

Lemma keeps_lists n :
  keeps_view (gam_poll_generic_add_missing n) /\ keeps_view (gam_poll_generic_remove_missing n)
  /\ keeps_view (gam_poll_generic_remove_busy n) /\ keeps_view (gam_poll_generic_add n)
  /\ keeps_view (gam_poll_generic_unregister_node n).
Proof.
  unfold gam_poll_generic_unregister_node, gam_poll_generic_add_missing,
    gam_poll_generic_remove_missing, gam_poll_generic_remove_busy, gam_poll_generic_add.
  repeat split; preserve.
Qed.

Lemma keeps_flags n f :
  keeps_view (gam_node_set_flag n f) /\ keeps_view (gam_node_unset_flag n f)
  /\ keeps_view (gam_node_set_pflag n f) /\ keeps_view (gam_node_unset_pflag n f)
  /\ keeps_view (gam_node_has_flag n f) /\ keeps_view (gam_node_has_pflag n f).
Proof.
  unfold gam_node_set_flag, gam_node_unset_flag, gam_node_set_pflag, gam_node_unset_pflag,
    gam_node_has_flag, gam_node_has_pflag.
  repeat split; preserve.
Qed.

Hint Extern 1 => (apply keeps_lists) : preserve.
Hint Extern 1 => (apply keeps_flags) : preserve.

Lemma keeps_node_emit n event : keeps_view (gam_node_emit_event n event).
Proof.
  unfold gam_node_emit_event, gam_node_is_dir, gam_node_get_subscriptions, gam_node_get_path.
  preserve.
Qed.
Hint Resolve keeps_node_emit : preserve.

Lemma keeps_poll_file n : keeps_view (gam_poll_basic_poll_file n).
Proof.
  unfold gam_poll_basic_poll_file, poll_file_first, poll_file_again, gam_poll_generic_get_time,
    gam_poll_generic_get_delta_time, gam_node_set_is_dir, gam_node_set_pflags.
  preserve.
Qed.
Hint Resolve keeps_poll_file : preserve.

Lemma keeps_hook_poll_file n : keeps_view (gam_poll_file n).
Proof. unfold gam_poll_file. preserve. Qed.
Hint Resolve keeps_hook_poll_file : preserve.

Lemma keeps_first_scan sub n path : keeps_view (gam_poll_generic_first_scan_dir sub n path).
Proof.
  unfold gam_poll_generic_first_scan_dir, exists_or_dir, first_scan_missing, first_scan_entry,
    first_scan_register, stat_into, gam_node_get_path, gam_node_set_is_dir,
    gam_node_set_pflags, gam_tree_get_at_path, gam_poll_generic_get_time.
  preserve.
Qed.
Lemma keeps_prune n : keeps_view (gam_poll_generic_prune_tree n).
Proof.
  unfold gam_poll_generic_prune_tree.
  assert (forall fuel n, keeps_view (prune_tree_loop fuel n)).
  { induction fuel; simpl; unfold gam_tree_has_children, gam_node_get_subscriptions; preserve. }
  preserve.
Qed.
Hint Resolve keeps_first_scan keeps_prune : preserve.

Lemma keeps_poll_add sub : keeps_view (gam_poll_basic_add_subscription sub).
Proof.
  unfold gam_poll_basic_add_subscription, gam_tree_get_at_path, gam_listener_add_subscription,
    gam_poll_generic_update_time, gam_node_add_subscription, gam_node_is_dir, first_events_file.
  preserve.
Qed.
Hint Resolve keeps_poll_add : preserve.

Lemma keeps_remove_children l b : keeps_view (remove_children l b).
Proof.
  revert b. induction l; simpl; [preserve|].
  unfold remove_child, gam_node_get_subscriptions, gam_tree_has_children. preserve.
Qed.
Hint Resolve keeps_remove_children : preserve.

Lemma keeps_poll_remove sub : keeps_view (gam_poll_basic_remove_subscription sub).
Proof.
  unfold gam_poll_basic_remove_subscription, gam_tree_get_at_path, gam_subscription_free,
    gam_subscription_cancel, gam_node_is_dir, remove_from_file, remove_from_dir,
    node_remove_directory_subscription, gam_node_remove_subscription, gam_node_get_subscriptions,
    gam_tree_has_children, gam_tree_get_children.
  preserve.
Qed.
Lemma keeps_kernel_add sub : keeps_view (hook_kernel_add sub).
Proof. apply kernel_add_frame. Qed.
Lemma keeps_kernel_remove sub : keeps_view (hook_kernel_remove sub).
Proof. apply kernel_remove_frame. Qed.
Hint Resolve keeps_poll_remove keeps_kernel_add keeps_kernel_remove : preserve.

(** *** The server *)

Lemma keeps_add_subscription sub : keeps_view (gam_add_subscription sub).
Proof.
  unfold gam_add_subscription, gam_poll_add_subscription, gam_kernel_add_subscription,
    gam_server_get_kernel_handler.
  preserve.
Qed.

Lemma keeps_remove_subscription sub : keeps_view (gam_remove_subscription sub).
Proof.
  unfold gam_remove_subscription, gam_poll_remove_subscription, gam_kernel_remove_subscription,
    gam_server_get_kernel_handler.
  preserve.
Qed.

Lemma keeps_find_sub test l : keeps_view (find_sub test l).
Proof. induction l; simpl; preserve. Qed.

Lemma keeps_free_if_inotify path sub : keeps_view (free_if_inotify path sub).
Proof. unfold free_if_inotify, gam_subscription_free. preserve. Qed.

(** *** The periodic scan *)

Lemma keeps_scan fuel n : keeps_view (gam_poll_generic_scan_directory_internal fuel n).
Proof.
  revert n. induction fuel as [|fuel IH]; intros n; simpl; [preserve|].
  unfold scan_self, scan_child, scan_entry, gam_poll_generic_get_delta_time, gam_tree_get_children,
    gam_tree_get_at_path, gam_node_set_flag, gam_node_unset_flag, gam_node_has_flag,
    gam_node_has_pflag, gam_node_get_path, gam_node_is_dir, gam_node_get_subscriptions.
  preserve.
Qed.
Hint Resolve keeps_scan : preserve.

Lemma keeps_poll_resource n : keeps_view (poll_resource n).
Proof. unfold poll_resource, gam_node_is_dir. preserve. Qed.
Hint Resolve keeps_poll_resource : preserve.

Lemma keeps_scan_callback fuel : keeps_view (gam_poll_basic_scan_callback fuel).
Proof.
  assert (forall fuel idx, keeps_view (scan_all_loop fuel idx)) as H1.
  { clear. induction fuel as [|fuel IH]; intros idx; simpl; preserve. }
  assert (forall fuel idx, keeps_view (scan_missing_loop fuel idx)) as H2.
  { clear. induction fuel as [|fuel IH]; intros idx; simpl; [preserve|].
    unfold poll_missing, gam_node_has_pflags, gam_poll_generic_remove_missing, gam_poll_generic_add.
    preserve. }
  unfold gam_poll_basic_scan_callback, gam_poll_generic_update_time. preserve.
Qed.
End Frames.

#[export] Hint Extern 0 (preserves _ (update (A := GamListener) _ _)) =>
  apply keeps_update_listener; intros; reflexivity : preserve.

(** ** The list of resources *)

Section Resources.
Context {os : OS} {glib : GLib} {kern : KernelState}.

Definition resources (s : server) : list ptr := all_resources (sv_lists s).
Notation keeps_all m := (preserves (fun s s' : server => resources s = resources s') m).

Lemma all_conn_write fd data : keeps_all (gam_client_conn_write fd data).
Proof.
  unfold gam_client_conn_write.
  assert (forall fuel data, keeps_all (conn_write_loop fuel fd data)) as Hw.
  { clear. induction fuel as [|fuel IH]; intros data; simpl; preserve. }
  preserve.
Qed.
Hint Resolve all_conn_write : preserve.

Lemma all_emit path d event l force : keeps_all (gam_server_emit_event path d event l force).
Proof.
  unfold gam_server_emit_event, gam_server_emit_one_event, gam_listener_get_service, gam_queue_event,
    gam_send_event, send_packet.
  preserve.
Qed.
Hint Resolve all_emit : preserve.

Lemma all_node_emit n event : keeps_all (gam_node_emit_event n event).
Proof.
  unfold gam_node_emit_event, gam_node_get_path, gam_node_is_dir, gam_node_get_subscriptions,
    gam_node_parent.
  preserve.
Qed.
Hint Resolve all_node_emit : preserve.

Lemma all_poll_file n : keeps_all (gam_poll_basic_poll_file n).
Proof.
  unfold gam_poll_basic_poll_file, poll_file_first, poll_file_again, gam_poll_generic_get_delta_time,
    gam_poll_generic_get_time, gam_node_set_pflag, gam_node_unset_pflag, gam_node_has_pflag,
    gam_node_set_pflags, gam_node_set_is_dir, gam_poll_generic_remove_busy,
    gam_poll_generic_add_missing, gam_poll_generic_remove_missing.
  preserve.
Qed.
Hint Resolve all_poll_file : preserve.

Lemma all_scan fuel n : keeps_all (gam_poll_generic_scan_directory_internal fuel n).
Proof.
  revert n. induction fuel as [|fuel IH]; intros n; simpl; [preserve|].
  unfold scan_self, scan_child, scan_entry, gam_poll_file, hook_poll_file, poll_basic_hook,
    gam_poll_generic_get_delta_time, gam_tree_get_children, gam_tree_get_at_path, gam_tree_add,
    gam_node_new, new_node, g_node_append, gam_node_set_flag, gam_node_unset_flag, gam_node_has_flag,
    gam_node_has_pflag, gam_node_get_path, gam_node_is_dir, gam_node_get_subscriptions.
  preserve.
Qed.
Hint Resolve all_scan : preserve.

Lemma all_poll_resource n : keeps_all (poll_resource n).
Proof. unfold poll_resource, gam_node_is_dir. preserve. Qed.
End Resources.

(** ** The loops *)

(** [wp_fuel Q m s]: [m] completes with [Q], or its fuel is used up. *)
Definition wp_fuel {S A} (m : ST S A) (Q : A -> S -> Prop) (s : S) : Prop :=
  match m s with Ok (a, s') => Q a s' | Fault OutOfFuel => True | Fault _ => False end.

Lemma wp_fuel_bind {S A B} (m : ST S A) (f : A -> ST S B) (Q : B -> S -> Prop) s :
  wp_fuel m (fun a => wp_fuel (f a) Q) s -> wp_fuel (m ≫= f) Q s.
Proof. unfold wp_fuel, mbind, ST_bind. by destruct (m s) as [[a s']|]. Qed.

Lemma wp_fuel_wp {S A} (m : ST S A) (Q : A -> S -> Prop) s : wp m Q s -> wp_fuel m Q s.
Proof. unfold wp, wp_fuel. by destruct (m s) as [[a s']|]. Qed.

Lemma wp_fuel_mono {S A} (m : ST S A) (Q Q' : A -> S -> Prop) s :
  wp_fuel m Q s -> (forall a s', Q a s' -> Q' a s') -> wp_fuel m Q' s.
Proof. unfold wp_fuel. destruct (m s) as [[a s']|[]]; auto. Qed.

Section Loop.
Context {os : OS} {glib : GLib} {kern : KernelState} {laws : OSLaws os}.

Lemma safely_poll_resource n s :
  inv idle s -> live n s -> safely idle (poll_resource n) (fun _ _ => True) s.
Proof.
  intros Hi Hn. unfold poll_resource.
  eapply safely_bind; [by apply safely_is_dir|]. intros d s' _ _ ->. destruct d.
  - eapply safely_bind; [by apply safely_gets|]. intros fuel s' _ _ [-> ->].
    destruct Hn as [x Hx].
    assert (size (nodes (sv_heap s)) <> 0%nat) as Hsz
      by (apply map_size_non_empty_iff; intros E; by rewrite E in Hx).
    destruct (size (nodes (sv_heap s))); [done|].
    apply safely_scan_directory_internal; [done|by exists x].
  - eapply safely_bind; [by apply safely_poll_file|]. intros event s1 Hi1 G1 _.
    apply safely_live_emit; [done|]. by apply (live_grows _ s).
Qed.

(** The first loop polls every resource from [idx] on, then ends. *)
Lemma scan_all_loop_total fuel idx s :
  inv idle s -> (length (resources s) - idx < fuel)%nat ->
  wp (scan_all_loop fuel idx)
    (fun _ s' => inv idle s' /\ grows s s' /\ resources s' = resources s) s.
Proof.
  revert idx s. induction fuel as [|fuel IH]; intros idx s Hi Hf; [lia|]. simpl.
  apply wp_bind, wp_gets. fold (resources s).
  destruct (resources s !! idx) as [n|] eqn:E; [|by apply wp_ret].
  assert (live n s) as Hn by (apply (inv_all _ _ Hi), list_elem_of_lookup; by exists idx).
  apply wp_bind. pose proof (safely_poll_resource n s Hi Hn) as Hp.
  pose proof (all_poll_resource n s) as Hall. unfold safely, wp in Hp |- *.
  destruct (poll_resource n s) as [[[] s1]|]; [|done]. destruct Hp as (Hi1 & G1 & _).
  apply lookup_lt_Some in E.
  eapply wp_mono; [apply (IH (S idx) s1); [done|rewrite <- Hall; lia]|].
  intros [] s2 (Hi2 & G2 & E2). split; [done|]. split; [by transitivity s1|]. congruence.
Qed.

(** The index goes through the resources one by one: it is [for_each]. *)
Lemma scan_all_loop_each fuel idx s :
  inv idle s -> (length (resources s) - idx < fuel)%nat ->
  scan_all_loop fuel idx s = for_each (drop idx (resources s)) poll_resource s.
Proof.
  revert idx s. induction fuel as [|fuel IH]; intros idx s Hi Hf; [lia|]. simpl.
  unfold mbind at 1, ST_bind at 1. unfold gets. fold (resources s).
  destruct (resources s !! idx) as [n|] eqn:E.
  - assert (live n s) as Hn by (apply (inv_all _ _ Hi), list_elem_of_lookup; by exists idx).
    rewrite (drop_S _ _ _ E). simpl. unfold mbind, ST_bind.
    pose proof (safely_poll_resource n s Hi Hn) as Hp. pose proof (all_poll_resource n s) as Hall.
    unfold safely, wp in Hp. destruct (poll_resource n s) as [[[] s1]|]; [|done]. destruct Hp as (Hi1 & _ & _).
    apply lookup_lt_Some in E. change (resources s = resources s1) in Hall.
    rewrite IH by (done || (rewrite <- Hall; lia)). by rewrite Hall.
  - apply lookup_ge_None in E. by rewrite drop_ge.
Qed.

Lemma safely_poll_missing n s :
  inv idle s -> live n s -> safely idle (poll_missing n) (fun _ _ => True) s.
Proof.
  intros Hi Hn. unfold poll_missing.
  eapply safely_bind; [by apply safely_poll_resource|]. intros [] s1 Hi1 G1 _. transport.
  eapply safely_bind with (Q := fun _ s' => s' = s1).
  { unfold gam_node_has_pflags. safe. }
  intros m s' _ _ ->. safe.
Qed.

(** The second loop may go on as long as resources go missing. *)
Lemma scan_missing_loop_safe fuel idx s :
  inv idle s ->
  wp_fuel (scan_missing_loop fuel idx) (fun _ s' => inv idle s' /\ grows s s') s.
Proof.
  revert idx s. induction fuel as [|fuel IH]; intros idx s Hi; simpl; [done|].
  apply wp_fuel_bind, wp_fuel_wp, wp_gets.
  destruct (missing_resources (sv_lists s) !! idx) as [n|] eqn:E;
    [|by apply wp_fuel_wp, wp_ret].
  apply wp_fuel_bind, wp_fuel_wp. eapply wp_mono.
  { apply (safely_poll_missing n s Hi). apply (inv_missing _ _ Hi), list_elem_of_lookup. by exists idx. }
  intros [] s1 (Hi1 & G1 & _). eapply wp_fuel_mono; [by apply IH|].
  intros [] s2 [Hi2 G2]. split; [done|]. by transitivity s1.
Qed.

Lemma scan_callback_safe fuel s :
  inv idle s -> (length (resources s) < fuel)%nat ->
  wp_fuel (gam_poll_basic_scan_callback fuel) (fun _ s' => inv idle s' /\ grows s s') s.
Proof.
  intros Hi Hf. unfold gam_poll_basic_scan_callback.
  apply wp_fuel_bind, wp_fuel_wp. eapply wp_mono; [by apply (safely_update_time idle)|].
  intros [] s1 (Hi1 & G1 & _ & _ & El1 & _). apply wp_fuel_bind, wp_fuel_wp, wp_gets.
  apply wp_fuel_bind, wp_fuel_wp. eapply wp_mono.
  { apply (scan_all_loop_total fuel 0 s1); [done|]. unfold resources in *. rewrite El1. lia. }
  intros [] s2 (Hi2 & G2 & _). apply wp_fuel_bind, wp_fuel_wp, wp_gets.
  apply wp_fuel_bind. eapply wp_fuel_mono; [by apply scan_missing_loop_safe|].
  intros [] s3 [Hi3 G3]. apply wp_fuel_wp.
  assert (grows s s3) as G by (transitivity s1; [done|by transitivity s2]).
  destruct (_ && _); [|by apply wp_ret]. apply wp_bind, wp_modify, wp_ret.
  set (s4 := upd_ctl _ s3). destruct (inv_same_store idle s3 s4) as [Hi4 G4]; [by split|done|].
  split; [done|]. by transitivity s3.
Qed.
(** What the callback did when it has completed. *)
Lemma scan_callback_steps fuel b s s' :
  inv idle s -> (length (resources s) < fuel)%nat -> gam_poll_basic_scan_callback fuel s = Ok (b, s') ->
  exists s1 s2 s3, gam_poll_generic_update_time s = Ok (tt, s1) /\
    for_each (resources s) poll_resource s1 = Ok (tt, s2) /\
    scan_missing_loop fuel 0 s2 = Ok (tt, s3) /\
    (s' = s3 \/ s' = upd_ctl (set_scan_running false) s3).
Proof.
  intros Hi Hf E. unfold gam_poll_basic_scan_callback in E.
  apply bind_inv in E as ([] & s1 & E1 & E). apply bind_inv in E as (all & s1' & [= <- <-] & E).
  apply bind_inv in E as ([] & s2 & E2 & E). apply bind_inv in E as (mis & s2' & [= <- <-] & E).
  apply bind_inv in E as ([] & s3 & E3 & E). exists s1, s2, s3. split; [done|].
  pose proof (safely_update_time idle s Hi) as H1. unfold safely, wp in H1. rewrite E1 in H1.
  destruct H1 as (Hi1 & _ & _ & _ & El1 & _).
  assert (resources s1 = resources s) as Er by (unfold resources; by rewrite El1).
  split; [rewrite <- E2, <- Er; symmetry; by apply (scan_all_loop_each fuel 0 s1); [|rewrite Er; lia]|].
  split; [done|]. destruct (_ && _).
  - apply bind_inv in E as ([] & s4 & [= <-] & [= _ <-]). by right.
  - injection E as _ <-. by left.
Qed.
End Loop.
