(* ===== verification/Connection.v ===== *)
(** * Connections ([server/gam_connection.c])

    A connection collects bytes in a buffer of [sizeof(GAMPacket)] bytes,
    cuts them into requests, and executes these: new subscriptions and
    cancellations.  It also owns the event queue and its flush timer. *)

From S2P Require Import Prelude Protocol EventQueue Monad OS Fs.
From S2P Require Import State Subscription Listener ConnSend Node Tree.
From S2P Require Import Emit PollGeneric PollBasic Server.

Local Open Scope Z_scope.

(** The events every subscription asks for. *)
Definition request_events : Z :=
  GAMIN_EVENT_CHANGED .| GAMIN_EVENT_CREATED .| GAMIN_EVENT_DELETED .| GAMIN_EVENT_MOVED
  .| GAMIN_EVENT_EXISTS.

(** [write(data)] at an offset of a buffer. *)
Definition blit (buf : list byte) (off : nat) (data : list byte) : list byte :=
  take off buf ++ data ++ drop (off + length data) buf.

(** What [gam_connection_data] finds out about the bytes at the current
    request, in the order of the source. *)
Inductive request_check :=
  | ReqIncomplete             (** wait for more data *)
  | ReqMalformed              (** return -1 *)
  | ReqComplete (p : GAMPacket).

Definition check_request (buf : list byte) (request_len : Z) : request_check :=
  if request_len <? GAM_PACKET_HEADER_LEN then ReqIncomplete
  else
    match read_packet buf with
    | None => ReqIncomplete
    | Some req =>
        if pk_len req >? sizeof_GAMPacket then ReqMalformed
        else if negb (pk_version req =? GAM_PROTO_VERSION) then ReqMalformed
        else if negb (GAM_REQ_CANCEL =? pk_type req)
                && ((pk_pathlen req <=? 0) || (pk_pathlen req >? MAXPATHLEN)) then ReqMalformed
        else if negb (pk_pathlen req + GAM_PACKET_HEADER_LEN =? pk_len req) then ReqMalformed
        else if request_len <? pk_len req then ReqIncomplete
        else ReqComplete req
    end.

Section Connection.
Context {os : OS} {glib : GLib} {kern : KernelState} {kb : KernelBackend os kern}.
Abbreviation M := (ST server).

(** ** The connection list and the idle timer *)

Definition gam_connection_exists (conn : ptr) : M bool :=
  gets (fun s => g_list_find (gamConnList (sv_ctl s)) conn).

Definition gam_cancel_server_timeout : M unit := modify (upd_ctl (set_server_timeout false)).

Definition gam_schedule_server_timeout : M unit :=
  _ ← gam_cancel_server_timeout;
  modify (upd_ctl (set_server_timeout true)).

(** [gam_connections_check]: whether the daemon exits. *)
Definition gam_connections_check : M bool :=
  _ ← modify (upd_ctl (set_server_timeout false));
  gets (fun s => bool_decide (gamConnList (sv_ctl s) = [])).

(** ** Life of a connection *)

Definition gam_connection_new (fd : Z) : M ptr :=
  conn ← alloc (mk_conn GAM_STATE_AUTH fd 0 "" 0 (replicate (Z.to_nat sizeof_GAMPacket) x00)
                  None (Some gam_eq_new) true);
  _ ← modify (upd_ctl (fun c => set_gamConnList (conn :: gamConnList c) c));
  _ ← gam_cancel_server_timeout;
  mret conn.

Definition gam_connection_get_fd (conn : ptr) : M Z := c ← load conn; mret (cn_fd c).
Definition gam_connection_get_pid (conn : ptr) : M Z := c ← load conn; mret (cn_pid c).
Definition gam_connection_get_state (conn : ptr) : M GamConnState :=
  c ← load conn; mret (cn_state c).

(** Offset of the free part of the buffer, and its size. *)
Definition gam_connection_get_data (conn : ptr) : M (Z * Z) :=
  c ← load conn; mret (cn_request_len c, sizeof_GAMPacket - cn_request_len c).

Definition gam_connection_set_pid (conn : ptr) (pid : Z) : M Z :=
  c ← load conn;
  if negb (bool_decide (cn_state c = GAM_STATE_AUTH)) then
    _ ← update conn (set_cn_state GAM_STATE_ERROR);
    mret (-1)
  else
    _ ← update conn (set_cn_state GAM_STATE_OKAY);
    pidname ← sys (proc_name pid);
    _ ← update conn (set_cn_pid pid pidname);
    listener ← gam_listener_new conn pid;
    _ ← update conn (set_cn_listener (Some listener));
    mret 0.

(** ** The event queue *)

(** [gam_eq_flush] on the connection's queue: pop, then send. *)
Fixpoint eq_flush_loop (q : gam_eq) (conn : ptr) (done_work : bool) : M bool :=
  match q with
  | [] => mret done_work
  | e :: q' =>
      _ ← update conn (set_cn_eq (Some q'));
      _ ← gam_send_event conn (eq_reqno e) (eq_event e) (eq_path e) (eq_len e);
      eq_flush_loop q' conn true
  end.

Definition conn_eq_flush (conn : ptr) : M bool :=
  c ← load conn;
  match cn_eq c with None => mret false | Some q => eq_flush_loop q conn false end.

(** The timer: kept as long as there was work. *)
Definition gam_connection_eq_flush (conn : ptr) : M bool :=
  work ← conn_eq_flush conn;
  _ ← when (negb work) (update conn (set_cn_eq_source false));
  mret work.

Definition gam_connection_close (conn : ptr) : M Z :=
  found ← gam_connection_exists conn;
  _ ← g_assert found;
  c ← load conn;
  _ ← when (cn_eq_source c) (update conn (set_cn_eq_source false));
  _ ← conn_eq_flush conn;
  _ ← update conn (set_cn_eq (gam_eq_free (cn_eq c)));
  _ ← match cn_listener c with None => mret tt | Some l => gam_listener_free l end;
  _ ← modify (upd_ctl (fun ct => set_gamConnList (g_list_remove (gamConnList ct) conn) ct));
  found ← gam_connection_exists conn;
  _ ← g_assert (negb found);
  _ ← dealloc GamConnData conn;
  l ← gets (fun s => gamConnList (sv_ctl s));
  timeout ← gam_server_use_timeout;
  _ ← when (bool_decide (l = []) && timeout) gam_schedule_server_timeout;
  mret 0.

Fixpoint connections_close_loop (fuel : nat) (ret : Z) : M Z :=
  match fuel with
  | O => fail OutOfFuel
  | S fuel =>
      l ← gets (fun s => gamConnList (sv_ctl s));
      match l with
      | [] => mret ret
      | conn :: _ =>
          r ← gam_connection_close conn;
          connections_close_loop fuel (if r <? 0 then -1 else ret)
      end
  end.

Definition gam_connections_close : M Z :=
  l ← gets (fun s => gamConnList (sv_ctl s));
  connections_close_loop (S (length l)) 0.

(** ** Requests *)

Definition request_subscribe (listener : ptr) (path : string) (seq type options : Z) : M Z :=
  let is_dir := type =? GAM_REQ_DIR in
  sub ← gam_subscription_new path request_events seq is_dir options;
  _ ← gam_subscription_set_listener (Some sub) listener;
  _ ← gam_add_subscription (Some sub);
  mret 0.

Definition request_cancel (conn listener : ptr) (seq : Z) : M Z :=
  o ← gam_listener_get_subscription_by_reqno listener seq;
  match o with
  | None => mret (-1)
  | Some sub =>
      s ← load sub;
      let path := sub_path s in
      let pathlen := gam_subscription_pathlen (Some s) in
      _ ← gam_listener_remove_subscription listener sub;
      _ ← gam_remove_subscription (Some sub);
      _ ← free_if_inotify path sub;
      _ ← gam_send_ack conn seq path pathlen;
      mret 0
  end.

(** [gam_connection_request] for the request at offset [off] of the buffer.
    The byte behind the path is saved, set to NUL and restored, so that only
    the access itself is left to model: it must lie in the buffer. *)
Definition gam_connection_request (conn : ptr) (off : nat) (req : GAMPacket) : M Z :=
  c ← load conn;
  _ ← g_assert (bool_decide (cn_state c = GAM_STATE_OKAY));
  _ ← g_assert (cn_fd c >=? 0);
  listener ← g_assert_ptr (cn_listener c);
  let type := pk_type req .& 15 in
  let options := pk_type req .& 65520 in
  if pk_pathlen req >=? MAXPATHLEN then mret (-1)
  else if Z.of_nat off + GAM_PACKET_HEADER_LEN + pk_pathlen req >=? sizeof_GAMPacket
  then fail OutOfBounds
  else
    let path := path_of_bytes (c_string (pk_path req)) in
    if (type =? GAM_REQ_FILE) || (type =? GAM_REQ_DIR) then
      request_subscribe listener path (pk_seq req) type options
    else if type =? GAM_REQ_CANCEL then request_cancel conn listener (pk_seq req)
    else if type =? GAM_REQ_DEBUG then mret 0
    else mret (-1).

(** The [while (1)] loop of [gam_connection_data]: result code, and the
    offset [req] has reached. *)
Fixpoint data_loop (fuel : nat) (conn : ptr) (off : nat) : M (Z * nat) :=
  match fuel with
  | O => fail OutOfFuel
  | S fuel =>
      c ← load conn;
      match check_request (drop off (cn_request c)) (cn_request_len c) with
      | ReqIncomplete => mret (0, off)
      | ReqMalformed => mret (-1, off)
      | ReqComplete req =>
          r ← gam_connection_request conn off req;
          if r <? 0 then mret (-1, off)
          else
            _ ← update conn (fun c => set_cn_request_len (cn_request_len c - pk_len req) c);
            c ← load conn;
            if cn_request_len c =? 0 then mret (0, off)
            else data_loop fuel conn (off + Z.to_nat (pk_len req))
      end
  end.

(** [gam_connection_data]; the caller has stored [len] new bytes at
    [request_len].  Each request takes at least one byte of the buffer. *)
Definition gam_connection_data (conn : ptr) (len : Z) : M Z :=
  c ← load conn;
  _ ← g_assert (len >=? 0);
  _ ← g_assert (cn_request_len c >=? 0);
  _ ← g_assert (len + cn_request_len c <=? sizeof_GAMPacket);
  _ ← update conn (set_cn_request_len (cn_request_len c + len));
  r ← data_loop (S (Z.to_nat (cn_request_len c + len))) conn 0;
  let '(ret, off) := r in
  if ret <? 0 then mret ret
  else
    c ← load conn;
    _ ← when ((cn_request_len c >? 0) && negb (Nat.eqb off 0))
          (update conn (set_cn_request
             (blit (cn_request c) 0
                (take (Z.to_nat (cn_request_len c)) (drop off (cn_request c))))));
    mret 0.

(** [read()] into the address and size [gam_connection_get_data] gave, then
    [gam_connection_data], as [gam_client_conn_read] does. *)
Definition conn_receive (conn : ptr) (data : list byte) : M Z :=
  c ← load conn;
  _ ← update conn (set_cn_request (blit (cn_request c) (Z.to_nat (cn_request_len c)) data));
  gam_connection_data conn (Z.of_nat (length data)).
End Connection.
