(* ===== verification/Framing.v ===== *)
(** * Framing of requests ([gam_connection_data])

    The stream a client writes is cut into requests independently of how it is
    delivered.  [frames] is the reference: the complete requests at the front
    of a stream, whether the next one is malformed, and the bytes left over. *)

From S2P Require Import Prelude Protocol EventQueue Monad OS Fs.
From S2P Require Import State Subscription Listener ConnSend Node Tree.
From S2P Require Import Emit PollGeneric PollBasic Server Frames Connection.

Local Open Scope Z_scope.

(** ** Reference *)

Fixpoint frames_loop (fuel : nat) (data : list byte) : list GAMPacket * bool * list byte :=
  match fuel with
  | O => ([], false, data)
  | S fuel =>
      match check_request data (Z.of_nat (length data)) with
      | ReqIncomplete => ([], false, data)
      | ReqMalformed => ([], true, data)
      | ReqComplete req =>
          let '(reqs, bad, rest) := frames_loop fuel (drop (Z.to_nat (pk_len req)) data) in
          (req :: reqs, bad, rest)
      end
  end.

Definition frames (data : list byte) : list GAMPacket * bool * list byte :=
  frames_loop (S (length data)) data.

Lemma check_request_complete buf n req :
  check_request buf n = ReqComplete req ->
  read_packet buf = Some req /\ 10 <= pk_len req <= n /\ pk_len req <= sizeof_GAMPacket /\
  pk_len req = pk_pathlen req + GAM_PACKET_HEADER_LEN /\ 0 <= pk_pathlen req.
Proof.
  unfold check_request. destruct (n <? _) eqn:E; [done|].
  destruct (read_packet buf) as [p|] eqn:Hp; [|done].
  destruct (read_packet_Some _ _ Hp) as (_ & _ & _ & _ & _ & Hpl & _).
  destruct (Z.gtb_spec (pk_len p) sizeof_GAMPacket); [done|].
  destruct (negb (_ =? GAM_PROTO_VERSION)); [done|]. destruct (negb _ && _); [done|].
  destruct (Z.eqb_spec (pk_pathlen p + GAM_PACKET_HEADER_LEN) (pk_len p)); simpl; [|done].
  destruct (Z.ltb_spec n (pk_len p)); [done|]. intros Heq. simplify_eq.
  unfold GAM_PACKET_HEADER_LEN in *. repeat split; lia.
Qed.

(** More bytes do not change what was recognised. *)
Lemma check_request_app buf more n m :
  Z.of_nat (length buf) = n -> n <= m ->
  match check_request buf n with
  | ReqIncomplete => True
  | r => check_request (buf ++ more) m = r
  end.
Proof.
  intros Hn Hm. unfold check_request.
  destruct (Z.ltb_spec n GAM_PACKET_HEADER_LEN) as [|Hn10]; [done|].
  rewrite (proj2 (Z.ltb_ge m _)) by lia.
  destruct (read_packet buf) as [p|] eqn:Hp; [|done].
  destruct (read_packet_app buf more p Hp) as (p' & -> & -> & -> & _ & -> & -> & Hsame).
  destruct (_ >? _); [done|]. destruct (negb _); [done|]. destruct (_ && _); [done|].
  destruct (Z.eqb_spec (pk_pathlen p + GAM_PACKET_HEADER_LEN) (pk_len p)) as [Hl|]; simpl; [|done].
  destruct (Z.ltb_spec n (pk_len p)); [done|].
  rewrite (proj2 (Z.ltb_ge m _)) by lia. f_equal. apply Hsame.
  unfold GAM_PACKET_HEADER_LEN in *. lia.
Qed.

Lemma check_request_prefix buf more n :
  Z.of_nat (length buf) = n -> check_request (buf ++ more) n = check_request buf n.
Proof.
  intros Hn. pose proof (check_request_app buf more n n Hn ltac:(lia)) as H.
  destruct (check_request buf n) eqn:E; [|done|done].
  unfold check_request in *. destruct (n <? _) eqn:Hlt; [done|].
  destruct (read_packet buf) as [p|] eqn:Hp.
  - destruct (read_packet_app buf more p Hp) as (p' & -> & -> & -> & _ & -> & -> & _).
    repeat case_match; done.
  - apply read_packet_None in Hp. unfold GAM_PACKET_HEADER_LEN in *. lia.
Qed.

Lemma frames_loop_fuel n m data :
  (length data < n)%nat -> (length data < m)%nat -> frames_loop n data = frames_loop m data.
Proof.
  revert m data. induction n as [|n IH]; intros m data Hn Hm; [lia|].
  destruct m as [|m]; [lia|]. simpl.
  destruct (check_request data _) as [| |req] eqn:E; [done|done|].
  apply check_request_complete in E as (_ & Hl & _).
  rewrite (IH m); [done|rewrite length_drop; lia..].
Qed.

Lemma frames_eq data :
  frames data =
  match check_request data (Z.of_nat (length data)) with
  | ReqIncomplete => ([], false, data)
  | ReqMalformed => ([], true, data)
  | ReqComplete req =>
      let '(reqs, bad, rest) := frames (drop (Z.to_nat (pk_len req)) data) in
      (req :: reqs, bad, rest)
  end.
Proof.
  unfold frames at 1. simpl.
  destruct (check_request data _) as [| |req] eqn:E; [done|done|].
  apply check_request_complete in E as (_ & Hl & _). unfold frames.
  rewrite (frames_loop_fuel _ (S (length (drop (Z.to_nat (pk_len req)) data)))); [done|..];
    rewrite length_drop; lia.
Qed.

Lemma frames_ind (P : list byte -> Prop) :
  (forall data,
     (forall req, check_request data (Z.of_nat (length data)) = ReqComplete req ->
        P (drop (Z.to_nat (pk_len req)) data)) -> P data) ->
  forall data, P data.
Proof.
  intros H data. induction (well_founded_ltof _ (@length byte) data) as [data _ IH].
  apply H. intros req E. apply IH. unfold ltof.
  apply check_request_complete in E as (_ & Hl & _). rewrite length_drop. lia.
Qed.

(** What is left over is a proper part of one request. *)
Lemma frames_rest data reqs bad rest :
  frames data = (reqs, bad, rest) ->
  exists used, data = used ++ rest /\
    Z.of_nat (length used) = foldr Z.add 0 (pk_len <$> reqs) /\
    (bad = false -> Z.of_nat (length rest) < sizeof_GAMPacket).
Proof.
  revert reqs. induction data as [data IH] using frames_ind; intros reqs.
  rewrite frames_eq. destruct (check_request data _) as [| |req] eqn:E.
  - intros [= <- <- <-]. exists []. split; [done|]. split; [done|]. intros _.
    unfold check_request in E. repeat case_match; simplify_eq.
    all: rewrite ?Z.ltb_lt, ?Z.ltb_ge, ?Z.gtb_ltb in *; unfold sizeof_GAMPacket,
      GAM_PACKET_HEADER_LEN, MAXPATHLEN in *; try lia.
    all: match goal with H : read_packet _ = None |- _ => apply read_packet_None in H end; lia.
  - intros [= <- <- <-]. exists []. done.
  - destruct (frames (drop _ data)) as [[reqs' bad'] rest'] eqn:Hf. intros [= <- <- <-].
    destruct (IH _ eq_refl _ Hf) as (used & Hd & Hu & Hb).
    apply check_request_complete in E as (_ & Hl & _).
    exists (take (Z.to_nat (pk_len req)) data ++ used).
    rewrite <- app_assoc, <- Hd, take_drop. split; [done|]. split; [|done].
    rewrite length_app, length_take, fmap_cons. cbn [foldr]. rewrite <- Hu. lia.
Qed.

(** Requests do not depend on how the stream is cut up.  If the bytes
    received so far hold requests [reqs1] and leave [rest1], then all bytes
    together hold [reqs1] followed by the requests of [rest1] with the new
    bytes, the same verdict and the same rest. *)
Theorem frames_chunks (data more : list byte) reqs1 rest1 :
  frames data = (reqs1, false, rest1) ->
  frames (data ++ more) =
  (let '(reqs2, bad, rest2) := frames (rest1 ++ more) in (reqs1 ++ reqs2, bad, rest2)).
Proof.
  revert reqs1. induction data as [data IH] using frames_ind; intros reqs1.
  rewrite (frames_eq data).
  pose proof (check_request_app data more _ (Z.of_nat (length (data ++ more))) eq_refl
    ltac:(rewrite length_app; lia)) as Happ.
  destruct (check_request data _) as [| |req] eqn:E.
  - intros [= <- <-]. by destruct (frames (data ++ more)) as [[reqs2 bad] rest2].
  - done.
  - destruct (frames (drop _ data)) as [[reqs' bad'] rest'] eqn:Hf. intros [= <- -> ->].
    rewrite (frames_eq (data ++ more)), Happ.
    apply check_request_complete in E as Hc. destruct Hc as (_ & Hl & _).
    rewrite drop_app_le by lia. rewrite (IH _ eq_refl _ Hf).
    by destruct (frames (rest1 ++ more)) as [[reqs2 bad] rest2].
Qed.

(** ** The loop executes the frames *)

Section Refinement.
Context {os : OS} {glib : GLib} {kern : KernelState} {kb : KernelBackend os kern}
  {kf : KernelFrame kb}.
Abbreviation M := (ST server).
Notation keeps_view m := (preserves (fun s s' : server => conns_view s = conns_view s') m).

Hint Resolve keeps_add_subscription keeps_remove_subscription keeps_free_if_inotify
  keeps_send_ack keeps_find_sub : preserve.

Lemma keeps_request conn off req : keeps_view (gam_connection_request conn off req).
Proof.
  unfold gam_connection_request, request_subscribe, request_cancel, gam_subscription_new,
    gam_subscription_set_listener, gam_listener_get_subscription_by_reqno,
    gam_listener_remove_subscription.
  preserve.
Qed.

(** Executing a list of requests laid out one after the other from [off];
    the first one that fails ends it. *)
Fixpoint run_requests (conn : ptr) (off : nat) (reqs : list GAMPacket) : M Z :=
  match reqs with
  | [] => mret 0
  | req :: reqs =>
      r ← gam_connection_request conn off req;
      if r <? 0 then mret (-1)
      else
        _ ← update conn (fun c => set_cn_request_len (cn_request_len c - pk_len req) c);
        run_requests conn (off + Z.to_nat (pk_len req)) reqs
  end.

(** The connection holds the bytes [data] from offset [off] of its buffer. *)
Definition holds (conn : ptr) (off : nat) (data : list byte) (s : server) : Prop :=
  exists c, conns (sv_heap s) !! conn = Some c /\
    Z.of_nat (length (cn_request c)) = sizeof_GAMPacket /\
    cn_request_len c = Z.of_nat (length data) /\
    exists more, drop off (cn_request c) = data ++ more.

Lemma holds_view conn off data (s s' : server) :
  conns_view s = conns_view s' -> holds conn off data s -> holds conn off data s'.
Proof.
  intros Hv (c & Hc & Hl & Hn & Hd).
  destruct (conns_view_lookup _ _ _ _ Hv Hc) as (c' & Hc' & Hcv).
  exists c'. split; [done|].
  assert (cn_request c' = cn_request c) as -> by (by apply (f_equal cn_request) in Hcv).
  assert (cn_request_len c' = cn_request_len c) as ->
    by (by apply (f_equal cn_request_len) in Hcv).
  eauto.
Qed.

(** Moving past a request. *)
Lemma holds_advance conn off data (s : server) n :
  holds conn off data s -> (n <= length data)%nat ->
  exists s', update conn (fun c => set_cn_request_len (cn_request_len c - Z.of_nat n) c) s
             = Ok (tt, s') /\ holds conn (off + n) (drop n data) s'.
Proof.
  intros (c & Hc & Hl & Hn & more & Hd) Hle. unfold update, objs. simpl. rewrite Hc.
  eexists. split; [reflexivity|]. unfold holds. simpl.
  eexists. rewrite lookup_insert. destruct (decide (conn = conn)); [|done].
  split; [reflexivity|]. simpl. split; [done|]. rewrite length_drop. split; [lia|].
  exists more. rewrite <- drop_drop, Hd, drop_app_le by done. done.
Qed.

Lemma data_loop_frames fuel conn off data (s : server) :
  holds conn off data s -> (length data < fuel)%nat ->
  let '(reqs, bad, rest) := frames data in
  match run_requests conn off reqs s with
  | Fault e => data_loop fuel conn off s = Fault e
  | Ok (r, s') => exists o,
      data_loop fuel conn off s = Ok ((if (r <? 0) || bad then -1 else 0, o), s') /\
      (0 <= r -> exists o', holds conn o' rest s' /\ (rest <> [] -> o = o'))
  end.
Proof.
  revert off data s. induction fuel as [|fuel IH]; intros off data s Hh Hf; [lia|].
  rewrite frames_eq. destruct Hh as (c & Hc & Hl & Hn & more & Hd) eqn:Hh'. clear Hh'.
  cbn [data_loop]. rewrite (bind_Ok _ _ _ _ _ (load_conn_Ok _ _ _ Hc)).
  rewrite Hd, Hn, check_request_prefix by done.
  destruct (check_request data _) as [| |req] eqn:E; cbn [run_requests].
  - exists off. simpl. split; [done|]. intros _. exists off. done.
  - exists off. simpl. split; [done|]. intros _. exists off. done.
  - apply check_request_complete in E as (_ & Hlen & _).
    destruct (frames (drop _ data)) as [[reqs bad] rest] eqn:Hfr. cbn [run_requests].
    unfold mbind, ST_bind.
    pose proof (keeps_request conn off req s) as Hk.
    destruct (gam_connection_request conn off req s) as [[r s1]|e]; [|done].
    destruct (Z.ltb_spec r 0) as [Hr|Hr].
    { exists off. simpl. split; [done|]. lia. }
    destruct (holds_advance conn off data s1 (Z.to_nat (pk_len req))) as (s2 & Hu & Hh2);
      [by apply (holds_view _ _ _ s)|lia|].
    rewrite Z2Nat.id in Hu by lia. rewrite Hu.
    destruct Hh2 as (c2 & Hc2 & Hrest) eqn:Hh2'. clear Hh2'.
    rewrite (load_conn_Ok _ _ _ Hc2).
    destruct (Z.eqb_spec (cn_request_len c2) 0) as [Hz|Hz].
    + destruct Hrest as (_ & Hz' & _). rewrite Hz' in Hz.
      assert (drop (Z.to_nat (pk_len req)) data = []) as Hnil
        by (apply length_zero_iff_nil; lia).
      rewrite Hnil in *. injection Hfr as <- <- <-.
      exists off. simpl. split; [done|]. intros _. eexists. split; [exact Hh2|done].
    + specialize (IH _ _ _ Hh2). rewrite length_drop, Hfr in IH.
      apply IH. lia.
Qed.

(** The bytes received but not yet executed. *)
Definition pending (c : GamConnData) : list byte :=
  take (Z.to_nat (cn_request_len c)) (cn_request c).

Definition conn_ok (c : GamConnData) : Prop :=
  Z.of_nat (length (cn_request c)) = sizeof_GAMPacket /\
  0 <= cn_request_len c <= sizeof_GAMPacket.

(** Storing received bytes, without looking at them. *)
Definition conn_store (conn : ptr) (data : list byte) : M unit :=
  update conn (fun c =>
    set_cn_request_len (cn_request_len c + Z.of_nat (length data))
      (set_cn_request (blit (cn_request c) (Z.to_nat (cn_request_len c)) data) c)).

Lemma length_blit buf off data :
  (off + length data <= length buf)%nat -> length (blit buf off data) = length buf.
Proof. intros H. unfold blit. rewrite !length_app, length_take, length_drop. lia. Qed.

Lemma conn_store_holds conn c data (s : server) :
  conns (sv_heap s) !! conn = Some c -> conn_ok c ->
  cn_request_len c + Z.of_nat (length data) <= sizeof_GAMPacket ->
  exists s', conn_store conn data s = Ok (tt, s') /\ holds conn 0 (pending c ++ data) s' /\
    (update conn (set_cn_request (blit (cn_request c) (Z.to_nat (cn_request_len c)) data)) ≫=
     fun _ => update conn (set_cn_request_len (cn_request_len c + Z.of_nat (length data)))) s
    = Ok (tt, s').
Proof.
  intros Hc [Hl Hn] Hlen. eexists. split; [|split].
  - unfold conn_store, update, objs. simpl. rewrite Hc. reflexivity.
  - unfold holds. simpl. eexists. rewrite lookup_insert, decide_True by done.
    split; [reflexivity|]. simpl. rewrite length_blit by lia. split; [done|].
    rewrite length_app. unfold pending. rewrite length_take. split; [lia|].
    unfold blit. rewrite drop_0, app_assoc. eauto.
  - unfold mbind, ST_bind, update, objs. simpl. rewrite Hc. simpl.
    rewrite lookup_insert, decide_True by done. unfold upd_heap, set_conns. simpl.
    rewrite insert_insert, decide_True by done. done.
Qed.

(** The end of [gam_connection_data]: the left-over bytes move to the front. *)
Definition compact (conn : ptr) (off : nat) : M Z :=
  c ← load conn;
  _ ← when ((cn_request_len c >? 0) && negb (Nat.eqb off 0))
        (update conn (set_cn_request
           (blit (cn_request c) 0
              (take (Z.to_nat (cn_request_len c)) (drop off (cn_request c))))));
  mret 0.

Lemma conn_receive_loop conn c data (s s1 : server) :
  conns (sv_heap s) !! conn = Some c -> 0 <= cn_request_len c ->
  cn_request_len c + Z.of_nat (length data) <= sizeof_GAMPacket ->
  (update conn (set_cn_request (blit (cn_request c) (Z.to_nat (cn_request_len c)) data)) ≫=
   fun _ => update conn (set_cn_request_len (cn_request_len c + Z.of_nat (length data)))) s
  = Ok (tt, s1) ->
  conn_receive conn data s =
  (r ← data_loop (S (Z.to_nat (cn_request_len c + Z.of_nat (length data)))) conn 0;
   let '(ret, off) := r in if ret <? 0 then mret ret else compact conn off) s1.
Proof.
  intros Hc Hn Hlen Hst. unfold conn_receive.
  rewrite (bind_Ok _ _ _ _ _ (load_conn_Ok _ _ _ Hc)).
  apply bind_inv in Hst as ([] & s0 & Hu1 & Hu2). rewrite (bind_Ok _ _ _ _ _ Hu1).
  assert (conns (sv_heap s0) !! conn =
    Some (set_cn_request (blit (cn_request c) (Z.to_nat (cn_request_len c)) data) c)) as Hc0.
  { unfold update, objs in Hu1. simpl in Hu1. rewrite Hc in Hu1. injection Hu1 as <-. simpl.
    by rewrite lookup_insert, decide_True. }
  unfold gam_connection_data. rewrite (bind_Ok _ _ _ _ _ (load_conn_Ok _ _ _ Hc0)).
  cbn [cn_request_len set_cn_request].
  assert (Z.of_nat (length data) >=? 0 = true) as -> by lia.
  assert (cn_request_len c >=? 0 = true) as -> by lia.
  assert (Z.of_nat (length data) + cn_request_len c <=? sizeof_GAMPacket = true) as -> by lia.
  cbn [g_assert]. do 3 rewrite (bind_Ok (mret tt) _ _ tt s0) by done.
  by rewrite (bind_Ok _ _ _ _ _ Hu2).
Qed.

(** The same state but for the bytes in the connection's buffer. *)
Definition same_but_buffer (conn : ptr) (s s' : server) : Prop :=
  s' = s \/ exists k buf, conns (sv_heap s) !! conn = Some k /\
    s' = upd_heap (fun h => set_conns (<[conn := set_cn_request buf k]> (conns h)) h) s.

Lemma compact_holds conn o o' rest (s : server) :
  holds conn o' rest s -> (rest <> [] -> o = o') ->
  exists s' c', compact conn o s = Ok (0, s') /\ same_but_buffer conn s s' /\ conns (sv_heap s') !! conn = Some c' /\
    conn_ok c' /\ pending c' = rest /\ cn_request_len c' = Z.of_nat (length rest).
Proof.
  intros (c & Hc & Hl & Hn & more & Hd) Ho. unfold compact.
  rewrite (bind_Ok _ _ _ _ _ (load_conn_Ok _ _ _ Hc)).
  assert (length rest <= length (cn_request c))%nat as Hle.
  { apply (f_equal length) in Hd. rewrite length_drop, length_app in Hd. lia. }
  destruct (Z.gtb_spec (cn_request_len c) 0) as [Hpos|Hzero]; [|destruct rest; [|simpl in *; lia]].
  - assert (o = o') as -> by (apply Ho; intros ->; simpl in Hn; lia).
    destruct (Nat.eqb_spec o' 0) as [->|Hne]; simpl.
    + exists s, c. split; [done|]. split; [by left|]. split; [done|]. split; [split; lia|].
      unfold pending. rewrite Hn, Nat2Z.id. rewrite drop_0 in Hd. rewrite Hd, take_app_length. done.
    + eexists _, _. unfold mbind, ST_bind, update, objs. simpl. rewrite Hc. simpl.
      split; [reflexivity|]. split; [right; by eexists _, _|]. simpl. rewrite lookup_insert, decide_True by done.
      split; [reflexivity|].
      assert (take (Z.to_nat (cn_request_len c)) (drop o' (cn_request c)) = rest) as ->
        by (rewrite Hd, Hn, Nat2Z.id, take_app_length; done).
      split; [split; simpl; [rewrite length_blit by (simpl; lia)|]; lia|].
      split; [|done]. unfold pending. simpl. unfold blit. rewrite take_0, Hn, Nat2Z.id.
      simpl. by rewrite take_app_length.
  - simpl. exists s, c. split; [done|]. split; [by left|]. split; [done|]. split; [split; simpl in *; lia|].
    split; [|done]. unfold pending. rewrite Hn. done.
Qed.

(** C13: [gam_connection_data] refines its specification.  When [data]
    arrives and fits the buffer, executing it is executing, one after the
    other, the requests that [frames] finds in the pending bytes followed by
    [data], up to the first that fails: the state is the one these requests
    leave, but for the bytes in the connection's buffer, and a fault of theirs
    is one of [gam_connection_data].  The code is -1 exactly when one failed or
    a malformed one came next; then the state is theirs exactly.  The loop
    always ends.  On success the left-over bytes, and nothing else, are pending,
    and there is room in the buffer for more: a connection never jams. *)
Theorem connection_data_refines conn c data (s : server) :
  conns (sv_heap s) !! conn = Some c -> conn_ok c ->
  cn_request_len c + Z.of_nat (length data) <= sizeof_GAMPacket ->
  let '(reqs, bad, rest) := frames (pending c ++ data) in
  match (conn_store conn data ≫= fun _ => run_requests conn 0 reqs) s with
  | Fault e => conn_receive conn data s = Fault e
  | Ok (r, s2) => exists s',
      conn_receive conn data s = Ok (if (r <? 0) || bad then -1 else 0, s') /\
      (if (r <? 0) || bad then s' = s2 else same_but_buffer conn s2 s') /\
      (0 <= r -> bad = false -> exists c',
         conns (sv_heap s') !! conn = Some c' /\ conn_ok c' /\ pending c' = rest /\
         cn_request_len c' < sizeof_GAMPacket)
  end.
Proof.
  intros Hc Hok Hlen.
  destruct (conn_store_holds conn c data s Hc Hok Hlen) as (s1 & Hst & Hh & Hst').
  destruct Hok as [Hl Hn].
  destruct (frames (pending c ++ data)) as [[reqs bad] rest] eqn:Hfr.
  rewrite (bind_Ok _ _ _ _ _ Hst).
  assert (length (pending c ++ data) = Z.to_nat (cn_request_len c + Z.of_nat (length data)))
    as Hpl by (rewrite length_app; unfold pending; rewrite length_take; lia).
  pose proof (data_loop_frames (S (length (pending c ++ data))) conn 0 _ _ Hh ltac:(lia)) as Hloop.
  rewrite Hfr, Hpl in Hloop.
  rewrite (conn_receive_loop conn c data s s1) by (exact Hst' || done || lia).
  destruct (run_requests conn 0 reqs s1) as [[r s2]|e];
    [|unfold mbind, ST_bind; by rewrite Hloop].
  destruct Hloop as (o & Hloop & Hrest). unfold mbind, ST_bind. rewrite Hloop.
  destruct ((r <? 0) || bad) eqn:Hr; simpl.
  { eexists. split; [reflexivity|]. split; [done|]. intros Hr0 ->.
    rewrite orb_false_r in Hr. lia. }
  apply orb_false_iff in Hr as [Hr ->]. destruct (Hrest ltac:(lia)) as (o' & Hh2 & Ho).
  pose proof (frames_rest _ _ _ _ Hfr) as (_ & _ & _ & Hroom). specialize (Hroom eq_refl).
  destruct (compact_holds conn o o' rest s2 Hh2 Ho) as (s3 & c3 & Hs3 & Hb3 & Hc3 & Hok3 & Hp3 & Hn3).
  exists s3. split; [exact Hs3|]. split; [exact Hb3|]. intros _ _. exists c3. do 3 (split; [done|]). by rewrite Hn3.
Qed.
End Refinement.

(** ** Witnesses *)

(** A debug request for [/a], of which three bytes arrive first. *)
Definition demo_request : list byte := packet_bytes (make_packet 1 GAM_REQ_DEBUG (bytes_of_path "/a")).

Lemma frames_chunks_witness :
  frames (demo_request ++ take 3 demo_request) =
    ([make_packet 1 GAM_REQ_DEBUG (bytes_of_path "/a")], false, take 3 demo_request) /\
  (frames ((demo_request ++ take 3 demo_request) ++ drop 3 demo_request)).1.1 =
    [make_packet 1 GAM_REQ_DEBUG (bytes_of_path "/a"); make_packet 1 GAM_REQ_DEBUG (bytes_of_path "/a")].
Proof.
  assert (frames (demo_request ++ take 3 demo_request) =
    ([make_packet 1 GAM_REQ_DEBUG (bytes_of_path "/a")], false, take 3 demo_request)) as H
    by (vm_compute; reflexivity).
  split; [exact H|]. rewrite (frames_chunks _ (drop 3 demo_request) _ _ H).
  vm_compute. reflexivity.
Defined.

Definition demo_conn0 : GamConnData :=
  mk_conn GAM_STATE_OKAY 7 42 "client" 0 (replicate (Z.to_nat sizeof_GAMPacket) x00)
    (Some 6%positive) (Some []) true.
Definition demo_server : @server sim_os no_kernel :=
  upd_heap (set_conns {[5%positive := demo_conn0]})
    (@server_initial sim_os no_kernel tt demo_send_world).

Lemma connection_data_refines_witness :
  conn_ok demo_conn0 /\
  exists s', conn_receive (glib := sim_glib) (kb := absent_backend sim_os no_kernel) 5%positive
    (demo_request ++ take 3 demo_request) demo_server = Ok (0, s').
Proof.
  assert (conn_ok demo_conn0) as Hok by (split; [vm_compute; reflexivity|split; vm_compute; discriminate]).
  split; [exact Hok|].
  pose proof (connection_data_refines (glib := sim_glib) (kb := absent_backend sim_os no_kernel)
    5%positive demo_conn0 (demo_request ++ take 3 demo_request) demo_server eq_refl Hok
    ltac:(vm_compute; discriminate)) as H.
  vm_compute in H. destruct H as (s' & H & _). exists s'. exact H.
Defined.
