(* ===== verification/Daemon.v ===== *)
(** * The polling daemon

    The whole daemon without a kernel backend ([--pollonly]): connections come
    and go through authentication, clients subscribe and cancel, resources are
    polled, the file system changes.  Every state it can reach satisfies
    [daemon_ok], in which no operation touches freed memory. *)

From S2P Require Import Prelude Protocol EventQueue Monad OS Excludes.
From S2P Require Import Fs Conf State Subscription Listener ConnSend Node.
From S2P Require Import Tree Inv Emit PollGeneric PollBasic Safety.
From S2P Require Import PollSafety AddSafety RemoveSafety.
From S2P Require Import Server Frames Connection Framing.

Local Open Scope Z_scope.

#[local] Existing Instance no_kernel.
#[local] Existing Instance absent_backend.

Section Daemon.
Context {os : OS} {glib : GLib} {laws : OSLaws os}.
Abbreviation M := (ST server).

(** A connection, with its listener once it is authenticated. *)
Definition serves (k : GamConnData) (s : server) : Prop :=
  cn_state k = GAM_STATE_OKAY ->
  exists l, cn_listener k = Some l /\ is_Some (listeners (sv_heap s) !! l).

(** The listeners only hold subscriptions to proper paths. *)
Definition paths_ok (s : server) : Prop :=
  forall l ln p, listeners (sv_heap s) !! l = Some ln -> p ∈ ln_subs ln ->
    exists sb, subs (sv_heap s) !! p = Some sb /\ sub_path sb <> ""%string /\
      sub_pathlen sb = strlen (sub_path sb).

Record daemon_ok (s : server) : Prop := {
  dm_inv : inv idle s;
  dm_kernel : kernel_handler (sv_ctl s) = GAMIN_K_NONE;
  dm_poll : poll_handler (sv_ctl s) = GAMIN_P_BASIC;
  dm_paths : paths_ok s;
  dm_conns c k : conns (sv_heap s) !! c = Some k -> serves k s
}.

(** ** Subscribing *)

(** What a request does to the listeners. *)
Definition same_listeners (s s' : server) : Prop :=
  forall l, is_Some (listeners (sv_heap s) !! l) -> is_Some (listeners (sv_heap s') !! l).

(** The state after [gam_subscription_new] and [gam_subscription_set_listener]. *)
Definition with_new_sub (sb : GamSubscription) (s : server) : server :=
  let p := next_ptr (sv_heap s) in
  upd_heap (fun h => mk_heap (Pos.succ p) (<[p := sb]> (subs h)) (listeners h) (nodes h) (conns h)) s.

Lemma inv_with_new_sub sb s : inv idle s -> inv idle (with_new_sub sb s).
Proof.
  intros Hi. apply inv_more_subs; [| |lia|done].
  - intros p. rewrite elem_of_dom. destruct (decide (p = next_ptr (sv_heap s))) as [->|Hne].
    + left. intros Hp. apply (inv_subs_old _ _ Hi) in Hp. lia.
    + right. by rewrite lookup_insert_ne.
  - intros p [x Hx]. apply lookup_insert_Some in Hx as [[<- _]|[_ Hx]]; [lia|].
    assert (is_Some (subs (sv_heap s) !! p)) as Hp by eauto. apply (inv_subs_old _ _ Hi) in Hp. lia.
Qed.

Lemma paths_ok_with_new_sub sb s : inv idle s -> paths_ok s -> paths_ok (with_new_sub sb s).
Proof.
  intros Hi H l ln p Hl Hp. destruct (H l ln p Hl Hp) as (x & Hx & Hrest). exists x.
  split; [|done]. simpl. rewrite lookup_insert_ne; [done|]. intros <-.
  assert (is_Some (subs (sv_heap s) !! next_ptr (sv_heap s))) as Hn by eauto.
  apply (inv_subs_old _ _ Hi) in Hn. lia.
Qed.

(** Dispatch of a subscription that is already in the store. *)
Lemma wp_add_subscription l p sb s :
  inv idle s -> kernel_handler (sv_ctl s) = GAMIN_K_NONE ->
  poll_handler (sv_ctl s) = GAMIN_P_BASIC ->
  subscribable l p sb s -> sub_path sb <> ""%string -> paths_ok s ->
  wp (gam_add_subscription (Some p))
    (fun _ s' => inv idle s' /\ same_listeners s s' /\ paths_ok s') s.
Proof.
  intros Hi Hk Hpo Hsc Hpath Hps. unfold gam_add_subscription.
  apply wp_bind, (wp_load (H := sub_obj)) with sb; [apply Hsc|].
  apply wp_bind, wp_gets. destruct (gam_exclude_check _ _).
  { unfold is_running. apply wp_bind, wp_gets. simpl. unfold gam_kernel_add_subscription,
      gam_server_get_kernel_handler. apply wp_bind, wp_gets. rewrite Hk. apply wp_ret.
    split; [done|]. split; [by intros l' Hl'|done]. }
  apply wp_bind, wp_fs_call. intros t fw _. set (s1 := set_sv_fs fw s).
  destruct (inv_same_store idle s s1) as [Hi1 _]; [by split|done|].
  assert (inv idle s1 /\ same_listeners s s1 /\ paths_ok s1) as Hskip
    by (split; [done|split; [by intros l' Hl'|done]]).
  destruct t; [| |by apply wp_ret].
  1: unfold gam_kernel_add_subscription, gam_server_get_kernel_handler; apply wp_bind, wp_gets;
     change (sv_ctl s1) with (sv_ctl s); rewrite Hk; by apply wp_ret.
  unfold gam_poll_add_subscription, hook_poll_add, poll_basic_hooks. apply wp_bind, wp_gets.
  change (sv_ctl s1) with (sv_ctl s). rewrite Hpo.
  destruct Hsc as [Hsb Hsl Hl Hlen Hun].
  eapply wp_mono; [apply (wp_poll_basic_add l p sb s1); [done| |done]|].
  { by split. }
  intros b s2 (_ & Hi2 & Es & El & _). split; [done|]. split.
  - intros l' Hl'. rewrite El. by rewrite lookup_alter_is_Some.
  - intros l' ln q. rewrite El, Es. rewrite lookup_alter_Some.
    intros [(-> & ln0 & Hl0 & ->)|[_ Hl']]; [simpl|by apply (Hps l' ln q)].
    intros [->|Hq]%elem_of_cons; [by exists sb|]. by apply (Hps l' ln0).
Qed.

Lemma wp_request_subscribe l path seq type options s :
  daemon_ok s -> is_Some (listeners (sv_heap s) !! l) -> path <> ""%string ->
  wp (request_subscribe l path seq type options)
    (fun r s' => r = 0 /\ inv idle s' /\ same_listeners s s' /\ paths_ok s') s.
Proof.
  intros [Hi Hk Hpo Hps _] Hl Hpath. unfold request_subscribe, gam_subscription_new.
  apply wp_bind, (wp_alloc (H := sub_obj)). set (p := next_ptr (sv_heap s)).
  set (sb0 := new_subscription _ _ _ _ _). set (sb := set_sub_listener (Some l) sb0).
  set (s1 := upd_heap _ s). assert (subs (sv_heap s1) !! p = Some sb0) as Hp1
    by (subst s1; simpl; by rewrite lookup_insert, decide_True).
  apply wp_bind, (wp_update (H := sub_obj)) with sb0; [exact Hp1|].
  match goal with |- wp _ _ ?t => assert (t = with_new_sub sb s) as -> end.
  { subst s1. unfold with_new_sub, upd_heap, bump_ptr, obj_set, obj_map, sub_obj, set_subs. simpl.
    by rewrite insert_insert_eq. }
  apply wp_bind. eapply wp_mono.
  { apply (wp_add_subscription l p sb); [by apply inv_with_new_sub|done|done| |done
      |by apply paths_ok_with_new_sub]. split; [|done|done|done|].
    - simpl. by rewrite lookup_insert, decide_True.
    - exact (unlisted_fresh s Hi). }
  intros b s2 (Hi2 & Hs2 & Hp2). by apply wp_ret.
Qed.

(** ** Cancelling *)

Lemma listener_subs_alive l ln s :
  inv idle s -> listeners (sv_heap s) !! l = Some ln ->
  forall p, p ∈ ln_subs ln -> is_Some (subs (sv_heap s) !! p).
Proof.
  intros Hi Hl p Hp. destruct (inv_listener _ _ Hi _ _ Hl) as (_ & _ & H).
  destruct (H p Hp) as (sb & Hsb & _); [done|]. by exists sb.
Qed.

(** Dropping a subscription from its listener's list. *)
Definition dropped (l p : ptr) (ln : GamListener) (s : server) : server :=
  upd_heap (fun h => set_listeners
    (<[l := set_ln_subs (g_list_remove (ln_subs ln) p) ln]> (listeners h)) h) s.

Lemma dropped_listeners l p ln s l' ln' :
  inv idle s -> listeners (sv_heap s) !! l = Some ln -> p ∈ ln_subs ln ->
  listeners (sv_heap (dropped l p ln s)) !! l' = Some ln' ->
  exists ln0, listeners (sv_heap s) !! l' = Some ln0 /\ ln_service ln' = ln_service ln0 /\
    NoDup (ln_subs ln') /\ forall q, q ∈ ln_subs ln' -> q ∈ ln_subs ln0 /\ q <> p.
Proof.
  intros Hi Hl Hp. destruct (inv_listener _ _ Hi _ _ Hl) as (_ & Hnd & Hs).
  unfold dropped. simpl. rewrite lookup_insert_Some. intros [[<- <-]|[Hne Hl']].
  - exists ln. simpl. rewrite g_list_remove_NoDup by done. split; [done|]. split; [done|].
    split; [by apply g_list_remove_all_nodup|]. by intros q ?%elem_of_g_list_remove_all.
  - destruct (inv_listener _ _ Hi _ _ Hl') as (_ & Hnd' & Hs'). exists ln'.
    split; [done|]. split; [done|]. split; [done|]. intros q Hq. split; [done|]. intros ->.
    destruct (Hs p Hp) as (sb & Hsb & El & _); [done|].
    destruct (Hs' p Hq) as (sb' & Hsb' & El' & _); [done|]. congruence.
Qed.

Lemma dropped_unheld l p ln s :
  inv idle s -> listeners (sv_heap s) !! l = Some ln -> p ∈ ln_subs ln ->
  unheld idle p (dropped l p ln s).
Proof.
  intros Hi Hl Hp l' ln' Hl' Hin.
  destruct (dropped_listeners l p ln s l' ln' Hi Hl Hp Hl') as (ln0 & _ & _ & _ & Hsub).
  by destruct (Hsub p Hin) as [_ []].
Qed.

Lemma dropped_domain l p ln s :
  listeners (sv_heap s) !! l = Some ln -> same_listeners s (dropped l p ln s).
Proof.
  intros Hl l' Hl'. unfold dropped. simpl. destruct (decide (l = l')) as [->|].
  - rewrite lookup_insert, decide_True by done. eauto.
  - by rewrite lookup_insert_ne.
Qed.

Lemma inv_dropped l p ln s :
  inv idle s -> listeners (sv_heap s) !! l = Some ln -> p ∈ ln_subs ln ->
  inv idle (dropped l p ln s).
Proof.
  intros Hi Hl Hp. pose proof (dropped_domain l p ln s Hl) as Hdom. pose proof Hi as [].
  split; try done.
  - intros n x Hn. destruct (inv_node n x Hn) as (? & Hs & ?). split; [done|]. split; [|done].
    intros q Hq. destruct (Hs q Hq) as [(sb & l' & ? & ? & ? & ? & Hl') ?]. split; [|done].
    exists sb, l'. apply Hdom in Hl'. done.
  - intros l' ln' Hl'. destruct (dropped_listeners l p ln s l' ln' Hi Hl Hp Hl')
      as (ln0 & Hl0 & Es & Hnd & Hsub).
    destruct (inv_listener l' ln0 Hl0) as (Hc & _ & Hs). rewrite <- Es in Hc.
    split; [done|]. split; [done|]. intros q Hq Hex. apply Hs; [by apply Hsub|done].
  - intros l' [ln' Hl']. destruct (dropped_listeners l p ln s l' ln' Hi Hl Hp Hl') as (ln0 & ? & _).
    eauto.
Qed.

Lemma wp_listener_remove l p ln s :
  inv idle s -> listeners (sv_heap s) !! l = Some ln -> p ∈ ln_subs ln ->
  wp (gam_listener_remove_subscription l p) (fun _ s' => s' = dropped l p ln s) s.
Proof.
  intros Hi Hl Hp. unfold gam_listener_remove_subscription.
  apply wp_bind, (wp_load (H := listener_obj)) with ln; [exact Hl|].
  apply wp_bind, wp_assert; [by apply g_list_find_true|].
  apply wp_bind, (wp_update (H := listener_obj)) with ln; [exact Hl|].
  apply wp_bind, (wp_load (H := listener_obj)) with (set_ln_subs (g_list_remove (ln_subs ln) p) ln).
  { unfold objs. simpl. by rewrite lookup_insert, decide_True. }
  apply wp_assert; [|done]. apply negb_true_iff, g_list_find_false. simpl.
  destruct (inv_listener _ _ Hi _ _ Hl) as (_ & Hnd & _). rewrite g_list_remove_NoDup by done.
  by intros [_ ?]%elem_of_g_list_remove_all.
Qed.

(** A registered subscription whose node is no directory (any more) but has
    children: cancelling it stops the daemon. *)
Definition stuck (p : ptr) (s : server) : Prop :=
  exists sb n x, subs (sv_heap s) !! p = Some sb /\
    node_hash (sv_tree s) !! sub_path sb = Some n /\ nodes (sv_heap s) !! n = Some x /\
    nd_is_dir x = false /\ last_of_parent p x = true.

(** Removal through the dispatcher, which may also decide not to do anything. *)
Lemma remove_subscription_outcome p sb s :
  inv idle s -> kernel_handler (sv_ctl s) = GAMIN_K_NONE ->
  poll_handler (sv_ctl s) = GAMIN_P_BASIC -> subs (sv_heap s) !! p = Some sb ->
  registered p (sub_path sb) s ->
  unheld idle p s ->
  match gam_remove_subscription (Some p) s with
  | Ok (_, s') => inv idle s' /\ listeners (sv_heap s') = listeners (sv_heap s) /\
      forall q, q <> p -> subs (sv_heap s') !! q = subs (sv_heap s) !! q
  | Fault e => e = AssertFailed /\ stuck p s
  end.
Proof.
  intros Hi Hk Hpo Hsb (n & x & Hh & Hn & Hp) Hl. unfold gam_remove_subscription.
  rewrite (bind_Ok _ _ _ _ _ (load_sub_Ok _ _ _ Hsb)). unfold mbind at 1, ST_bind at 1. simpl.
  destruct (gam_exclude_check _ _).
  { unfold is_running, gam_kernel_remove_subscription, gam_server_get_kernel_handler, gets, mbind,
      ST_bind. simpl. by rewrite Hk. }
  unfold mbind at 1, ST_bind at 1, fs_call.
  destruct (gam_fs_get_mon_type (sub_path sb) (sv_fs s, sv_world s)) as [t fw].
  set (s1 := set_sv_fs fw s). destruct (inv_same_store idle s s1) as [Hi1 _]; [by split|done|].
  destruct t; [| |by simpl].
  - unfold gam_kernel_remove_subscription, gam_server_get_kernel_handler, gets, mbind, ST_bind.
    change (sv_ctl s1) with (sv_ctl s). by rewrite Hk.
  - unfold gam_poll_remove_subscription, hook_poll_remove, poll_basic_hooks, gets, mbind, ST_bind.
    change (sv_ctl s1) with (sv_ctl s). rewrite Hpo.
    pose proof (poll_remove_outcome idle p sb n x s1 Hi1 Hsb Hh Hn Hp Hl) as Hout.
    destruct (negb (nd_is_dir x) && last_of_parent p x) eqn:E.
    + rewrite Hout. split; [done|]. apply andb_true_iff in E as [?%negb_true_iff ?].
      by exists sb, n, x.
    + destruct Hout as (s' & -> & Hi' & _ & Es & El & _). split; [done|]. split; [done|].
      intros q Hq. rewrite Es. by rewrite lookup_delete_ne.
Qed.

Lemma wp_send_ack c k reqno path s :
  conns (sv_heap s) !! c = Some k -> 0 <= cn_fd k -> path <> ""%string ->
  wp (gam_send_ack c reqno path (strlen path)) (fun _ s' => same_store s s') s.
Proof.
  intros Hc Hfd Hp. eapply wp_mono; [by apply (wp_gam_send_ack c k)|]. by intros r s' (w & ->).
Qed.

(** Looking up a subscription by request number. *)
Lemma by_reqno_outcome l ln seq s :
  inv idle s -> listeners (sv_heap s) !! l = Some ln ->
  exists o, gam_listener_get_subscription_by_reqno l seq s = Ok (o, s) /\
    match o with Some p => p ∈ ln_subs ln | None => True end.
Proof.
  intros Hi Hl. unfold gam_listener_get_subscription_by_reqno.
  rewrite (bind_Ok _ _ _ _ _ (load_listener_Ok _ _ _ Hl)).
  destruct (find_sub_spec (fun sub => gam_subscription_get_reqno (Some sub) =? seq) (ln_subs ln) s)
    as (o & E & Ho); [by apply (listener_subs_alive l)|].
  exists o. split; [exact E|]. destruct o as [p|]; [|done].
  destruct Ho as (l1 & l2 & _ & -> & _). apply elem_of_app. right. by left.
Qed.

Lemma free_none path p s : free_if_inotify path p s = Ok (tt, s).
Proof. done. Qed.

Lemma request_cancel_outcome c k l ln seq s :
  daemon_ok s -> listeners (sv_heap s) !! l = Some ln ->
  conns (sv_heap s) !! c = Some k -> 0 <= cn_fd k ->
  match request_cancel c l seq s with
  | Ok (r, s') => (r = 0 \/ r = -1) /\ inv idle s' /\ same_listeners s s' /\ paths_ok s'
  | Fault e => e = AssertFailed /\ exists p, p ∈ ln_subs ln /\ stuck p (dropped l p ln s)
  end.
Proof.
  intros [Hi Hk Hpo Hps _] Hl Hc Hfd. unfold request_cancel.
  destruct (by_reqno_outcome l ln seq s Hi Hl) as (o & E & Hp).
  rewrite (bind_Ok _ _ _ _ _ E). clear E. destruct o as [p|].
  2:{ split; [by right|]. split; [done|]. split; [by intros l' Hl'|done]. }
  destruct (Hps l ln p Hl Hp) as (sb & Hsb & Hpath & Hlen).
  destruct (inv_listener _ _ Hi _ _ Hl) as (_ & _ & Hreg).
  destruct (Hreg p Hp) as (sb' & Hsb' & _ & Hr); [done|]. assert (sb' = sb) as -> by congruence.
  rewrite (bind_Ok _ _ _ _ _ (load_sub_Ok _ _ _ Hsb)). simpl gam_subscription_pathlen.
  destruct (wp_Ok _ _ _ (wp_listener_remove l p ln s Hi Hl Hp)) as ([] & s1 & E & ->).
  rewrite (bind_Ok _ _ _ _ _ E). clear E. set (s1 := dropped l p ln s).
  pose proof (inv_dropped l p ln s Hi Hl Hp) as Hi1.
  pose proof (dropped_listeners l p ln s) as Hdl.
  pose proof (remove_subscription_outcome p sb s1 Hi1 Hk Hpo Hsb Hr
    (dropped_unheld l p ln s Hi Hl Hp)) as Hout.
  pose proof (keeps_remove_subscription (Some p) s1) as Hkeep.
  unfold mbind at 1, ST_bind at 1. destruct (gam_remove_subscription (Some p) s1) as [[b s2]|e].
  2:{ destruct Hout as [-> Hs]. by eauto. }
  destruct Hout as (Hi2 & El2 & Es2).
  rewrite (bind_Ok _ _ _ _ _ (free_none (sub_path sb) p s2)).
  destruct (conns_view_lookup s1 s2 c k Hkeep Hc) as (k2 & Hc2 & Ev).
  assert (cn_fd k2 = cn_fd k) as Efd by exact (f_equal cn_fd Ev).
  rewrite Hlen.
  destruct (wp_Ok _ _ _ (wp_send_ack c k2 seq (sub_path sb) s2 Hc2 ltac:(by rewrite Efd) Hpath))
    as (r & s3 & E & Hs3).
  rewrite (bind_Ok _ _ _ _ _ E). simpl.
  destruct (inv_same_store idle s2 s3 Hs3 Hi2) as [Hi3 _]. destruct Hs3 as (Eh3 & _).
  split; [by left|]. split; [done|]. split.
  - intros l' Hl'. rewrite Eh3, El2. by apply (dropped_domain l p ln s).
  - intros l' ln' q. rewrite Eh3, El2. intros Hl' Hq.
    destruct (Hdl l' ln' Hi Hl Hp Hl') as (ln0 & Hl0 & _ & _ & Hsub).
    destruct (Hsub q Hq) as [Hq0 Hne]. rewrite (Es2 q Hne). by apply (Hps l' ln0).
Qed.

(** ** Requests *)

Lemma daemon_ok_view s s' :
  daemon_ok s -> conns_view s = conns_view s' -> inv idle s' -> same_listeners s s' ->
  paths_ok s' -> daemon_ok s'.
Proof.
  intros [_ Hk Hpo _ Hc] Hv Hi Hl Hp. split; [done|..].
  - rewrite <- Hk. by injection Hv.
  - rewrite <- Hpo. by injection Hv.
  - done.
  - intros c k Hck. destruct (conns_view_lookup s' s c k (eq_sym Hv) Hck) as (k0 & Hk0 & E).
    specialize (Hc c k0 Hk0) as Hl0.
    assert (cn_state k = cn_state k0) as Est by by apply (f_equal cn_state) in E.
    assert (cn_listener k = cn_listener k0) as Eln by by apply (f_equal cn_listener) in E.
    unfold serves. rewrite Est, Eln. intros H.
    destruct (Hl0 H) as (l & ? & ?). eauto.
Qed.

(** The path and type of a request. *)
Definition request_path (req : GAMPacket) : string := path_of_bytes (c_string (pk_path req)).
Definition request_type (req : GAMPacket) : Z := pk_type req .& 15.

Lemma request_outcome c k off req s :
  daemon_ok s -> conns (sv_heap s) !! c = Some k -> cn_state k = GAM_STATE_OKAY ->
  (request_type req = GAM_REQ_CANCEL \/ request_path req <> ""%string) ->
  match gam_connection_request c off req s with
  | Ok (_, s') => daemon_ok s'
  | Fault OutOfBounds => Z.of_nat off + GAM_PACKET_HEADER_LEN + pk_pathlen req >= sizeof_GAMPacket
  | Fault AssertFailed => request_type req = GAM_REQ_CANCEL /\
      exists l ln p, cn_listener k = Some l /\ listeners (sv_heap s) !! l = Some ln /\
        p ∈ ln_subs ln /\ stuck p (dropped l p ln s)
  | Fault _ => False
  end.
Proof.
  intros Hd Hc Hst Hpath.
  destruct (inv_conns _ _ (dm_inv _ Hd) c) as (k' & _ & Hc' & Hfd & _); [by exists k|].
  assert (k' = k) as -> by congruence. clear Hc'.
  destruct (dm_conns _ Hd _ _ Hc Hst) as (l & El & ln & Hln). pose proof (keeps_request c off req s) as Hv.
  unfold gam_connection_request in *. rewrite (bind_Ok _ _ _ _ _ (load_conn_Ok _ _ _ Hc)) in *.
  rewrite (bind_Ok _ _ s tt s) in * by by rewrite Hst.
  rewrite (bind_Ok _ _ s tt s) in * by by rewrite (proj2 (Z.geb_le _ _) Hfd).
  rewrite (bind_Ok _ _ s l s) in * by by rewrite El.
  destruct (pk_pathlen req >=? MAXPATHLEN); [exact Hd|].
  destruct (Z.geb_spec (Z.of_nat off + GAM_PACKET_HEADER_LEN + pk_pathlen req) sizeof_GAMPacket);
    [simpl; lia|].
  fold (request_type req) (request_path req) in *.
  destruct ((request_type req =? GAM_REQ_FILE) || (request_type req =? GAM_REQ_DIR)) eqn:Et.
  { assert (request_path req <> ""%string) as Hp.
    { destruct Hpath as [E|]; [|done]. rewrite E in Et. done. }
    destruct (wp_Ok _ _ _ (wp_request_subscribe l (request_path req) (pk_seq req)
      (request_type req) (pk_type req .& 65520) s Hd ltac:(by exists ln) Hp))
      as (r & s' & E & _ & Hi' & Hl' & Hp'). rewrite E in *. by apply (daemon_ok_view s s'). }
  destruct (Z.eqb_spec (request_type req) GAM_REQ_CANCEL) as [Ec|_].
  - pose proof (request_cancel_outcome c k l ln (pk_seq req) s Hd Hln Hc Hfd) as Hout.
    destruct (request_cancel c l (pk_seq req) s) as [[r s']|e].
    + destruct Hout as (_ & Hi' & Hl' & Hp'). by apply (daemon_ok_view s s').
    + destruct Hout as (-> & p & Hin & Hs). split; [done|]. by exists l, ln, p.
  - by destruct (request_type req =? GAM_REQ_DEBUG).
Qed.

(** ** Polling *)

Lemma daemon_ok_grows s s' :
  daemon_ok s -> conns_view s = conns_view s' -> inv idle s' -> grows s s' -> daemon_ok s'.
Proof.
  intros Hd Hv Hi G. apply (daemon_ok_view s s'); [done|done|done|..].
  - intros l Hl. by rewrite (gr_listeners _ _ G).
  - intros l ln p. rewrite (gr_listeners _ _ G), (gr_subs _ _ G). apply (dm_paths _ Hd).
Qed.

Lemma scan_outcome fuel s :
  daemon_ok s -> (length (resources s) < fuel)%nat ->
  wp_fuel (gam_poll_basic_scan_callback fuel) (fun _ s' => daemon_ok s') s.
Proof.
  intros Hd Hf. pose proof (scan_callback_safe fuel s (dm_inv _ Hd) Hf) as H.
  pose proof (keeps_scan_callback fuel s) as Hv. unfold wp_fuel in *.
  destruct (gam_poll_basic_scan_callback fuel s) as [[b s']|e]; [|done].
  destruct H as [Hi G]. by apply (daemon_ok_grows s s').
Qed.

(** ** Connections *)

Lemma daemon_ok_world w s : daemon_ok s -> daemon_ok (set_sv_world w s).
Proof.
  intros Hd. destruct (inv_same_store idle s (set_sv_world w s)) as [Hi G]; [by split|apply Hd|].
  by apply (daemon_ok_grows s).
Qed.

(** Connections may be replaced and added. *)
Lemma inv_more_conns ex m q s :
  (forall c, conn_ready c s -> exists k eq, m !! c = Some k /\ 0 <= cn_fd k /\ cn_eq k = Some eq /\
     Forall event_ok eq) ->
  (forall c k, m !! c = Some k -> 0 <= cn_fd k /\ queue_ok k) ->
  (forall c, is_Some (m !! c) -> (c < q)%positive) -> (next_ptr (sv_heap s) <= q)%positive ->
  inv ex s ->
  inv ex (upd_heap (fun h => mk_heap q (subs h) (listeners h) (nodes h) m) s).
Proof.
  intros Hready Hall Hnew Hle Hi. destruct Hi. split; try done; simpl.
  - intros l ln Hl. destruct (inv_listener l ln Hl) as (Hc & ? & ?). split; [|done].
    by apply Hready in Hc.
  - intros c [k Hk]. destruct (Hall c k Hk) as (? & eq & ? & ?). by exists k, eq.
  - intros n Hn. specialize (inv_nodes_old n Hn). lia.
  - intros n Hn. specialize (inv_subs_old n Hn). lia.
  - intros n Hn. specialize (inv_listeners_old n Hn). lia.
Qed.

Lemma wp_connection_new fd s :
  daemon_ok s -> 0 <= fd -> wp (gam_connection_new fd) (fun _ s' => daemon_ok s') s.
Proof.
  intros [Hi Hk Hpo Hps Hc] Hfd. unfold gam_connection_new.
  apply wp_bind, (wp_alloc (H := conn_obj)). set (c := next_ptr (sv_heap s)).
  set (k := mk_conn _ _ _ _ _ _ _ _ _). set (s1 := upd_heap _ s).
  assert (conns (sv_heap s) !! c = None) as Hfresh.
  { destruct (conns (sv_heap s) !! c) eqn:E; [|done].
    exfalso. apply (Pos.lt_irrefl c), (inv_conns_old _ _ Hi c). by exists g. }
  assert (inv idle s1) as Hi1.
  { apply (inv_more_conns idle (<[c := k]> (conns (sv_heap s))) (Pos.succ c) s); [| | |lia|done].
    - intros d (k' & q & Hk' & H). exists k', q. rewrite lookup_insert_ne; [done|congruence].
    - intros d k' [[<- <-]|[_ Hd]]%lookup_insert_Some; [split; [done|by exists []]|].
      destruct (inv_conns _ _ Hi d) as (k0 & q & Hk0 & ? & ? & ?); [by exists k'|].
      simplify_eq. split; [done|]. by exists q.
    - intros d [k' Hd]. apply lookup_insert_Some in Hd as [[<- _]|[_ Hd]]; [lia|].
      assert (is_Some (conns (sv_heap s) !! d)) as H by eauto.
      apply (inv_conns_old _ _ Hi) in H. lia. }
  apply wp_bind, wp_modify, wp_bind, wp_modify, wp_ret. set (s2 := upd_ctl _ _).
  destruct (inv_same_store idle s1 s2) as [Hi2 _]; [by split|done|]. split; try done.
  intros d k' Hd. change (<[c := k]> (conns (sv_heap s)) !! d = Some k') in Hd.
  apply lookup_insert_Some in Hd as [[<- <-]|[_ Hd]]; [done|]. by apply (Hc d).
Qed.

(** Replacing a connection by one that can still be sent to. *)
Lemma inv_set_conn ex c k s :
  inv ex s -> is_Some (conns (sv_heap s) !! c) -> 0 <= cn_fd k -> queue_ok k ->
  inv ex (upd_heap (fun h => set_conns (<[c := k]> (conns h)) h) s).
Proof.
  intros Hi Hc Hfd Hq. apply (inv_more_conns ex (<[c := k]> (conns (sv_heap s)))
    (next_ptr (sv_heap s)) s); [| | |lia|done].
  - intros d (k' & q & Hk' & H). destruct (decide (c = d)) as [->|].
    + destruct Hq as (q' & ? & ?). exists k, q'. by rewrite lookup_insert, decide_True.
    + exists k', q. by rewrite lookup_insert_ne.
  - intros d k' [[<- <-]|[_ Hd]]%lookup_insert_Some; [done|].
    destruct (inv_conns _ _ Hi d) as (k0 & q & Hk0 & ? & ? & ?); [by exists k'|].
    simplify_eq. split; [done|]. by exists q.
  - intros d [k' Hd]. apply (inv_conns_old _ _ Hi).
    apply lookup_insert_Some in Hd as [[<- _]|[_ Hd]]; [done|by exists k'].
Qed.

(** Adding a listener without subscriptions. *)
Lemma inv_new_listener ex ln s :
  inv ex s -> conn_ready (ln_service ln) s -> ln_subs ln = [] ->
  inv ex (upd_heap (fun h => bump_ptr (set_listeners (<[next_ptr (sv_heap s) := ln]> (listeners h)) h)) s)
  /\ same_listeners s
       (upd_heap (fun h => bump_ptr (set_listeners (<[next_ptr (sv_heap s) := ln]> (listeners h)) h)) s).
Proof.
  intros Hi Hc Hs. set (p := next_ptr (sv_heap s)). set (s' := upd_heap _ s).
  assert (same_listeners s s') as Hdom.
  { intros l Hl. subst s'. simpl. rewrite lookup_insert. by destruct (decide (p = l)). }
  split; [|done]. destruct Hi. split; try done; simpl.
  - intros n x Hn. destruct (inv_node n x Hn) as (? & H & ?). split; [done|]. split; [|done].
    intros q Hq. destruct (H q Hq) as [(sb & l' & ? & ? & ? & ? & Hl') ?]. split; [|done].
    exists sb, l'. apply Hdom in Hl'. done.
  - intros l ln' [[<- <-]|[_ Hl]]%lookup_insert_Some; [|exact (inv_listener l ln' Hl)].
    split; [done|]. rewrite Hs. split; [constructor|]. intros q Hq. by apply elem_of_nil in Hq.
  - intros n Hn. specialize (inv_nodes_old n Hn). lia.
  - intros n Hn. specialize (inv_subs_old n Hn). lia.
  - intros n [x Hn]. apply lookup_insert_Some in Hn as [[<- _]|[_ Hn]]; [lia|].
    assert (is_Some (listeners (sv_heap s) !! n)) as H by eauto. apply inv_listeners_old in H. lia.
  - intros n Hn. specialize (inv_conns_old n Hn). lia.
Qed.

(** Only connection [c] has changed, and listeners may have been added. *)
Record touched (c : ptr) (k : GamConnData) (s s' : server) : Prop := {
  tc_inv : inv idle s';
  tc_conns : conns (sv_heap s') = <[c := k]> (conns (sv_heap s));
  tc_ctl : sv_ctl s' = sv_ctl s;
  tc_listeners : same_listeners s s';
  tc_paths : paths_ok s'
}.

Lemma touched_update c k f s0 s :
  touched c k s0 s -> cn_fd (f k) = cn_fd k -> queue_ok (f k) ->
  wp (update c f) (fun _ s' => touched c (f k) s0 s' /\
    listeners (sv_heap s') = listeners (sv_heap s)) s.
Proof.
  intros [Hi Ec Ect Hl Hp] Hfd Hq.
  assert (conns (sv_heap s) !! c = Some k) as Hk by by rewrite Ec, lookup_insert, decide_True.
  apply (wp_update (H := conn_obj)) with k; [exact Hk|]. split; [|done]. split; try done.
  - apply inv_set_conn; [done|by exists k| |done].
    destruct (inv_conns _ _ Hi c) as (k' & q & Hk' & ? & _); [by exists k|].
    assert (k' = k) as -> by congruence. by rewrite Hfd.
  - simpl. rewrite Ec. by rewrite insert_insert_eq.
Qed.

Lemma touched_sys {A} c k s0 s (f : world -> A * world) :
  touched c k s0 s -> wp (sys f) (fun _ s' => touched c k s0 s') s.
Proof.
  intros [Hi ? ? ? ?]. apply wp_sys. intros a w _. split; try done.
  by destruct (inv_same_store idle s (set_sv_world w s)) as [? _].
Qed.

Lemma touched_refl c k s :
  daemon_ok s -> conns (sv_heap s) !! c = Some k -> touched c k s s.
Proof.
  intros [Hi ? ? ? ?] Hc. split; try done; [by rewrite insert_id|by intros l Hl].
Qed.

Lemma touched_ok c k s s' :
  daemon_ok s -> touched c k s s' -> serves k s' -> daemon_ok s'.
Proof.
  intros [_ Hk Hpo _ Hc] [Hi Ec Ect Hl Hp] Hs. split; rewrite ?Ect; try done.
  intros d k'. rewrite Ec. intros [[<- <-]|[_ Hd]]%lookup_insert_Some; [done|].
  intros Hst. destruct (Hc d k' Hd Hst) as (l & ? & ?). exists l. split; [done|]. by apply Hl.
Qed.

Lemma conn_queue s c k :
  daemon_ok s -> conns (sv_heap s) !! c = Some k -> 0 <= cn_fd k /\ queue_ok k.
Proof.
  intros Hd Hc. destruct (inv_conns _ _ (dm_inv _ Hd) c) as (k' & q & Hk' & ? & ? & ?); [by exists k|].
  simplify_eq. split; [done|]. by exists q.
Qed.

(** Authentication: once, from [GAM_STATE_AUTH], the connection gets its
    listener; a second attempt is an error. *)
Lemma wp_connection_set_pid c k pid s :
  daemon_ok s -> conns (sv_heap s) !! c = Some k -> pid <> 0 ->
  wp (gam_connection_set_pid c pid) (fun r s' => daemon_ok s' /\
    exists k', conns (sv_heap s') !! c = Some k' /\
    (if decide (cn_state k = GAM_STATE_AUTH) then r = 0 /\ cn_state k' = GAM_STATE_OKAY
     else r = -1 /\ cn_state k' = GAM_STATE_ERROR)) s.
Proof.
  intros Hd Hc Hpid. destruct (conn_queue s c k Hd Hc) as [Hfd Hq].
  pose proof (touched_refl c k s Hd Hc) as T0. unfold gam_connection_set_pid.
  apply wp_bind, (wp_load (H := conn_obj)) with k; [exact Hc|].
  destruct (decide (cn_state k = GAM_STATE_AUTH)) as [Est|Est].
  2:{ rewrite bool_decide_eq_false_2 by done. apply wp_bind.
      eapply wp_mono; [by apply (touched_update c k)|]. intros [] s1 [T1 _]. apply wp_ret.
      split; [by eapply touched_ok|].
      exists (set_cn_state GAM_STATE_ERROR k). by rewrite (tc_conns _ _ _ _ T1), lookup_insert, decide_True. }
  rewrite bool_decide_eq_true_2 by done. simpl.
  apply wp_bind. eapply wp_mono; [by apply (touched_update c k)|]. intros [] s1 [T1 _].
  apply wp_bind. eapply wp_mono; [by apply (touched_sys c _ s s1 _ T1)|]. intros name s2 T2.
  apply wp_bind. eapply wp_mono; [by apply (touched_update c _ _ s s2 T2)|]. intros [] s3 [T3 _].
  unfold gam_listener_new. apply wp_bind, wp_bind, wp_assert.
  { by apply negb_true_iff, Z.eqb_neq. }
  apply wp_bind. eapply wp_mono; [by apply (touched_sys c _ s s3 _ T3)|]. intros name' s4 T4.
  apply (wp_alloc (H := listener_obj)). set (l := next_ptr (sv_heap s4)).
  set (ln := mk_listener _ _ _ _). destruct T4 as [Hi4 Ec4 Ect4 Hl4 Hp4].
  destruct (inv_new_listener idle ln s4 Hi4) as [Hi5 Hl5]; [|done|].
  { apply (inv_conns _ _ Hi4). rewrite Ec4. simpl. rewrite lookup_insert, decide_True by done. eauto. }
  set (s5 := upd_heap _ s4) in *.
  match type of Ec4 with _ = <[_ := ?x]> _ => set (k4 := x) in * end.
  assert (touched c k4 s s5) as T5.
  { split; try done.
    - intros l' Hl'. by apply Hl5, Hl4.
    - intros l' ln' p Hl' Hp. subst s5. simpl in Hl'.
      apply lookup_insert_Some in Hl' as [[<- <-]|[_ Hl']]; [by apply elem_of_nil in Hp|].
      exact (Hp4 l' ln' p Hl' Hp). }
  apply wp_bind. eapply wp_mono; [by apply (touched_update c k4 _ s s5 T5)|].
  intros [] s6 [T6 El6]. apply wp_ret. split.
  - eapply touched_ok; [done|exact T6|]. intros _. exists l. split; [done|].
    rewrite El6. subst s5. simpl. by rewrite lookup_insert, decide_True.
  - exists (set_cn_listener (Some l) k4). by rewrite (tc_conns _ _ _ _ T6), lookup_insert, decide_True.
Qed.

(** ** Delivery of queued events *)

Lemma wp_eq_flush_loop q c k b s0 s :
  touched c k s0 s -> Forall event_ok q -> 0 <= cn_fd k ->
  wp (eq_flush_loop q c b) (fun _ s' => exists k', touched c k' s0 s' /\
    cn_state k' = cn_state k /\ cn_listener k' = cn_listener k) s.
Proof.
  revert k b s. induction q as [|e q IH]; intros k b s T Hq Hfd; simpl.
  { apply wp_ret. by exists k. }
  apply Forall_cons in Hq as [He Hq]. set (k1 := set_cn_eq (Some q) k).
  apply wp_bind. eapply wp_mono; [apply (touched_update c k _ s0 s T); [done|by exists q]|].
  intros [] s1 [T1 _]. fold k1 in T1. rewrite He.
  assert (conns (sv_heap s1) !! c = Some k1) as Hk1
    by by rewrite (tc_conns _ _ _ _ T1), lookup_insert, decide_True.
  apply wp_bind. eapply wp_mono; [by apply (wp_gam_send_event c k1)|].
  intros r s2 (w & ->). assert (touched c k1 s0 (set_sv_world w s1)) as T2.
  { destruct T1 as [Hi ? ? ? ?]. split; try done.
    by destruct (inv_same_store idle s1 (set_sv_world w s1)) as [? _]. }
  eapply wp_mono; [by apply (IH k1)|]. intros b' s3 (k' & ? & ? & ?). by exists k'.
Qed.

Lemma serves_same k k' s : cn_state k' = cn_state k -> cn_listener k' = cn_listener k ->
  serves k s -> serves k' s.
Proof. unfold serves. by intros -> ->. Qed.

Lemma serves_touched c k k' s0 s :
  daemon_ok s0 -> conns (sv_heap s0) !! c = Some k -> touched c k' s0 s ->
  cn_state k' = cn_state k -> cn_listener k' = cn_listener k -> serves k' s.
Proof.
  intros Hd Hc T Es El. apply (serves_same k); [done|done|]. intros Hst.
  destruct (dm_conns _ Hd c k Hc Hst) as (l & ? & ?). exists l. split; [done|].
  by apply (tc_listeners _ _ _ _ T).
Qed.

Lemma wp_connection_eq_flush c k s :
  daemon_ok s -> conns (sv_heap s) !! c = Some k ->
  wp (gam_connection_eq_flush c) (fun _ s' => daemon_ok s') s.
Proof.
  intros Hd Hc. destruct (conn_queue s c k Hd Hc) as [Hfd (q & Hq & Hall)].
  unfold gam_connection_eq_flush, conn_eq_flush.
  apply wp_bind, wp_bind, (wp_load (H := conn_obj)) with k; [exact Hc|]. rewrite Hq.
  eapply wp_mono; [by apply (wp_eq_flush_loop q c k false s s (touched_refl c k s Hd Hc))|].
  intros work s1 (k1 & T1 & Es & El).
  assert (daemon_ok s1) as Hd1 by (eapply touched_ok; [done|done|]; by apply (serves_touched c k k1 s)).
  assert (conns (sv_heap s1) !! c = Some k1) as Hc1
    by by rewrite (tc_conns _ _ _ _ T1), lookup_insert, decide_True.
  apply wp_bind. eapply wp_mono with (Q := fun _ s' => daemon_ok s'); [|by intros; apply wp_ret].
  destruct (conn_queue s1 c k1 Hd1 Hc1) as [_ Hq1].
  apply wp_when; [intros _|done]. eapply wp_mono.
  { by apply (touched_update c k1 _ s1 s1 (touched_refl c k1 s1 Hd1 Hc1)). }
  intros [] s2 [T2 _]. eapply touched_ok; [exact Hd1|exact T2|]. by apply (serves_touched c k1 _ s1).
Qed.

(** Storing received bytes. *)
Lemma wp_store_bytes c k n buf s :
  daemon_ok s -> conns (sv_heap s) !! c = Some k ->
  wp (update c (fun k => set_cn_request_len n (set_cn_request buf k)))
    (fun _ s' => daemon_ok s') s.
Proof.
  intros Hd Hc. destruct (conn_queue s c k Hd Hc) as [_ Hq]. eapply wp_mono.
  { by apply (touched_update c k _ s s (touched_refl c k s Hd Hc)). }
  intros [] s1 [T1 _]. eapply touched_ok; [exact Hd|exact T1|]. by apply (serves_touched c k _ s).
Qed.

(** ** Start-up *)

(** Nothing has been allocated. *)
Definition pristine (s : server) : Prop :=
  sv_heap s = mk_heap 1%positive ∅ ∅ ∅ ∅ /\ sv_lists s = mk_lists [] [] [] [] /\
  kernel_handler (sv_ctl s) = GAMIN_K_NONE.

Lemma wp_poll_basic_init s :
  pristine s -> wp gam_poll_basic_init (fun b s' => b = true /\ daemon_ok s') s.
Proof.
  intros (Eh & El & Ek). unfold gam_poll_basic_init. apply wp_bind.
  eapply wp_mono; [by apply (wp_generic_init idle)|].
  intros b s1 (_ & Hi & [x Eh1] & Ec & _). apply wp_bind, wp_modify, wp_ret. split; [done|].
  set (s2 := upd_ctl _ s1). destruct (inv_same_store idle s1 s2) as [Hi2 _]; [done|done|].
  split; try done.
  - subst s2. simpl. by rewrite Ec.
  - intros l ln p. subst s2. simpl. rewrite Eh1. simpl. by rewrite lookup_empty.
  - intros c k. subst s2. simpl. rewrite Eh1. simpl. by rewrite lookup_empty.
Qed.

Lemma init_outcome w :
  exists s, gam_init_subscriptions (server_initial (kern := no_kernel) tt w) = Ok (true, s) /\ daemon_ok s.
Proof.
  unfold gam_init_subscriptions. unfold mbind at 1, ST_bind at 1. simpl sv_excludes.
  destruct (gam_conf_read _) as [ex [fs w']].
  set (s1 := set_sv_fs (fs, w') _). set (s2 := set_sv_excludes (gam_exclude_init (sv_excludes s1)).1 s1).
  destruct (wp_Ok _ _ _ (wp_poll_basic_init s2 ltac:(done))) as (b & s3 & E & -> & Hd).
  exists s3. split; [|done]. exact E.
Qed.
End Daemon.
