(* ===== verification/Hangup.v ===== *)
(** * Hanging up

    [gam_connection_close] flushes the event queue, frees it, and then frees
    the listener with its subscriptions and the connection itself.  Between the
    two the connection has no queue any more; nothing looks at it then
    ([commutes]), so the listener is freed as if the connection were in order.
    As long as the polling backend is still responsible for the subscriptions
    and no node has one the listener has forgotten, what is left satisfies the
    invariant. *)

From S2P Require Import Prelude Protocol EventQueue Monad OS Excludes.
From S2P Require Import Fs Conf State Subscription Listener ConnSend Node.
From S2P Require Import Tree Inv Emit PollGeneric PollBasic Safety.
From S2P Require Import PollSafety AddSafety RemoveSafety.
From S2P Require Import Server Frames Connection Framing Daemon.

Local Open Scope Z_scope.

#[local] Existing Instance no_kernel.
#[local] Existing Instance absent_backend.

(** ** What removing subscriptions does not look at *)

Section Unseen.
Context {os : OS} {glib : GLib}.
Abbreviation M := (ST server).

Definition with_conns (cs : gmap ptr GamConnData) : server -> server := upd_heap (set_conns cs).

(** Changes the polling backend does not see when it removes a subscription. *)
Inductive unseen : (server -> server) -> Prop :=
| unseen_conns cs : unseen (with_conns cs)
| unseen_fs fw : unseen (set_sv_fs fw)
| unseen_excludes e : unseen (set_sv_excludes e).

Ltac unseen_prim :=
  let s := fresh in
  intros [] s; unfold load, update, dealloc, objs; simpl;
  match goal with |- context [?m !! ?p] => destruct (m !! p) end; reflexivity.

Lemma unseen_load u : unseen u ->
  (forall p, commutes u (load (A := GamNode) p)) /\
  (forall p, commutes u (load (A := GamSubscription) p)) /\
  (forall p, commutes u (load (A := GamListener) p)).
Proof. intros Hu. repeat split; intros p; revert Hu; unseen_prim. Qed.
Lemma unseen_update u : unseen u ->
  (forall p f, commutes u (update (A := GamNode) p f)) /\
  (forall p f, commutes u (update (A := GamSubscription) p f)) /\
  (forall p f, commutes u (update (A := GamListener) p f)).
Proof. intros Hu. repeat split; intros p f; revert Hu; unseen_prim. Qed.
Lemma unseen_dealloc u : unseen u ->
  (forall p, commutes u (dealloc GamNode p)) /\ (forall p, commutes u (dealloc GamSubscription p)) /\
  (forall p, commutes u (dealloc GamListener p)).
Proof. intros Hu. repeat split; intros p; revert Hu; unseen_prim. Qed.
Hint Extern 1 (commutes _ (load _)) => apply unseen_load; constructor : commute.
Hint Extern 1 (commutes _ (update _ _)) => apply unseen_update; constructor : commute.
Hint Extern 1 (commutes _ (dealloc _ _)) => apply unseen_dealloc; constructor : commute.
Hint Constructors unseen : commute.

Lemma unseen_any_dir_sub u l : unseen u -> commutes u (any_dir_sub l).
Proof. intros []; induction l; simpl; commute. Qed.
Lemma unseen_is_ancestor u fuel r n : unseen u -> commutes u (g_node_is_ancestor fuel r n).
Proof. intros []; revert n; induction fuel; simpl; commute. Qed.
Hint Resolve unseen_any_dir_sub unseen_is_ancestor : commute.
Lemma unseen_tree_remove u n : unseen u -> commutes u (gam_tree_remove n).
Proof.
  unfold gam_tree_remove, gam_tree_has_children, gam_node_get_path, g_node_unlink, gam_node_free.
  intros []; commute.
Qed.
Lemma unseen_unregister u n : unseen u -> commutes u (gam_poll_generic_unregister_node n).
Proof.
  unfold gam_poll_generic_unregister_node, gam_poll_generic_remove_missing,
    gam_poll_generic_remove_busy.
  intros []; commute.
Qed.
Hint Resolve unseen_tree_remove unseen_unregister : commute.
Lemma unseen_prune_loop u fuel n : unseen u -> commutes u (prune_tree_loop fuel n).
Proof.
  intros []; revert n; induction fuel; simpl; unfold gam_node_parent, gam_tree_has_children,
    gam_node_get_subscriptions; commute.
Qed.
Hint Resolve unseen_prune_loop : commute.
Lemma unseen_prune u n : unseen u -> commutes u (gam_poll_generic_prune_tree n).
Proof. unfold gam_poll_generic_prune_tree. intros []; commute. Qed.
Lemma unseen_remove_children u l b : unseen u -> commutes u (remove_children l b).
Proof.
  intros []; revert b; induction l; simpl; unfold remove_child, gam_node_get_subscriptions,
    gam_tree_has_children; commute.
Qed.
Hint Resolve unseen_prune unseen_remove_children : commute.
Lemma unseen_poll_remove u sub : unseen u -> commutes u (gam_poll_basic_remove_subscription sub).
Proof.
  unfold gam_poll_basic_remove_subscription, gam_tree_get_at_path, gam_subscription_free,
    gam_subscription_cancel, gam_node_is_dir, remove_from_file, remove_from_dir,
    node_remove_directory_subscription, gam_node_remove_subscription, gam_node_get_subscriptions,
    gam_tree_has_children, gam_tree_get_children, gam_node_has_dir_subscriptions, gam_node_parent.
  intros []; commute.
Qed.
Hint Resolve unseen_poll_remove : commute.

(** So it leaves the mount table and the patterns alone. *)
Lemma poll_remove_env p s b s' :
  gam_poll_basic_remove_subscription p s = Ok (b, s') ->
  sv_fs s' = sv_fs s /\ sv_world s' = sv_world s /\ sv_excludes s' = sv_excludes s.
Proof.
  intros E.
  pose proof (unseen_poll_remove _ p (unseen_fs (sv_fs s, sv_world s)) s) as Hf.
  pose proof (unseen_poll_remove _ p (unseen_excludes (sv_excludes s)) s) as He.
  assert (set_sv_fs (sv_fs s, sv_world s) s = s) as Ef by by destruct s.
  assert (set_sv_excludes (sv_excludes s) s = s) as Ee by by destruct s.
  rewrite Ef, E in Hf. rewrite Ee, E in He. injection Hf as Hf. injection He as He.
  split; [by rewrite Hf|]. split; [by rewrite Hf|by rewrite He].
Qed.

Lemma blind_fs_call {A} cs (f : _ -> A * _) : commutes (with_conns cs) (fs_call f).
Proof. intros s. unfold fs_call. simpl. by destruct (f _). Qed.
Hint Resolve blind_fs_call : commute.

(** Freeing a listener does not look at the connections. *)
Lemma blind_listener_free cs l : commutes (with_conns cs) (gam_listener_free l).
Proof.
  assert (forall p, commutes (with_conns cs) (gam_listener_free_subscription l p)).
  { intros p. unfold gam_listener_free_subscription, gam_remove_subscription, free_if_inotify,
      is_running, gam_poll_remove_subscription, gam_kernel_remove_subscription,
      gam_server_get_kernel_handler, gam_subscription_free.
    commute. }
  assert (forall fuel, commutes (with_conns cs) (free_subscriptions fuel l))
    by (induction fuel; simpl; commute).
  unfold gam_listener_free. commute.
Qed.
End Unseen.

(** ** Releasing a listener's subscriptions *)

Section Release.
Context {os : OS} {glib : GLib} {laws : OSLaws os}.
Abbreviation M := (ST server).

(** The polling backend is responsible for [path]: no pattern excludes it and
    its filesystem is polled. *)
Definition polled (path : string) (s : server) : Prop :=
  gam_exclude_check (sv_excludes s) (Some path) = false /\
  (gam_fs_get_mon_type path (sv_fs s, sv_world s)).1 = GFS_MT_POLL.

(** The mount table as the lookup leaves it. *)
Definition looked_up (path : string) (s : server) : server :=
  set_sv_fs (gam_fs_get_mon_type path (sv_fs s, sv_world s)).2 s.

(** Then both dispatchers call it. *)
Lemma polled_dispatch p sb s :
  subs (sv_heap s) !! p = Some sb -> polled (sub_path sb) s ->
  poll_handler (sv_ctl s) = GAMIN_P_BASIC ->
  let s1 := looked_up (sub_path sb) s in
  gam_add_subscription (Some p) s = gam_poll_basic_add_subscription p s1 /\
  gam_remove_subscription (Some p) s = gam_poll_basic_remove_subscription p s1.
Proof.
  intros Hsb [Hex Hmt] Hpo s1. unfold gam_add_subscription, gam_remove_subscription.
  rewrite !(bind_Ok _ _ _ _ _ (load_sub_Ok _ _ _ Hsb)).
  assert (gets (fun st => gam_exclude_check (sv_excludes st) (Some (sub_path sb))) s
    = Ok (false, s)) as E by (unfold gets; by rewrite Hex).
  rewrite !(bind_Ok _ _ _ _ _ E). clear E.
  assert (fs_call (gam_fs_get_mon_type (sub_path sb)) s = Ok (GFS_MT_POLL, s1)) as E.
  { unfold fs_call, s1, looked_up. rewrite <- Hmt. by destruct (gam_fs_get_mon_type _ _). }
  rewrite !(bind_Ok _ _ _ _ _ E). clear E.
  unfold gam_poll_add_subscription, gam_poll_remove_subscription, gets, mbind, ST_bind.
  simpl. by rewrite Hpo.
Qed.

(** The same for the lookups of several removals, one after the other. *)
Fixpoint all_polled (ex : excludes_state) (paths : list string) (fw : fs_state * world) : Prop :=
  match paths with
  | [] => True
  | path :: paths =>
      gam_exclude_check ex (Some path) = false /\
      (gam_fs_get_mon_type path fw).1 = GFS_MT_POLL /\
      all_polled ex paths (gam_fs_get_mon_type path fw).2
  end.

Definition sub_paths (ps : list ptr) (s : server) : list string :=
  omap (fun p => sub_path <$> subs (sv_heap s) !! p) ps.

Lemma sub_paths_ext ps s s' :
  (forall q, q ∈ ps -> subs (sv_heap s') !! q = subs (sv_heap s) !! q) ->
  sub_paths ps s' = sub_paths ps s.
Proof.
  intros H. unfold sub_paths. induction ps as [|q ps IH]; [done|]. simpl.
  rewrite (H q) by by left. destruct (sub_path <$> _); [f_equal|]; apply IH; intros p Hp;
    apply H; by right.
Qed.

(** A listener that is left with the subscriptions [ps]. *)
Record releasing (l : ptr) (ps : list ptr) (s : server) : Prop := {
  rl_inv : inv idle s;
  rl_poll : poll_handler (sv_ctl s) = GAMIN_P_BASIC;
  rl_listener : exists ln, listeners (sv_heap s) !! l = Some ln /\ ln_subs ln = ps;
  rl_strays n x p sb : nodes (sv_heap s) !! n = Some x -> p ∈ nd_subs x ->
    subs (sv_heap s) !! p = Some sb -> sub_listener sb = Some l -> p ∈ ps;
  rl_polled : all_polled (sv_excludes s) (sub_paths ps s) (sv_fs s, sv_world s)
}.

(** What the release of [ps] has changed. *)
Record released (l : ptr) (ps : list ptr) (s s' : server) : Prop := {
  rd_view : conns_view s = conns_view s';
  rd_fewer : fewer_subs s s';
  rd_subs q : q ∉ ps -> subs (sv_heap s') !! q = subs (sv_heap s) !! q;
  rd_freed q : q ∈ ps -> subs (sv_heap s') !! q = None;
  rd_others l' : l' <> l -> listeners (sv_heap s') !! l' = listeners (sv_heap s) !! l'
}.

(** A subscription of [ps] at a file with children. *)
Definition stuck_among (ps : list ptr) (s : server) : Prop :=
  exists p n x, p ∈ ps /\ nodes (sv_heap s) !! n = Some x /\ p ∈ nd_subs x /\ file_with_children x.

Lemma inv_adding p s : inv idle s -> inv (adding p) s.
Proof.
  intros []. split; try done. intros l ln Hl. destruct (inv_listener l ln Hl) as (? & ? & Hs).
  split; [done|]. split; [done|]. intros q Hq _. by apply Hs.
Qed.

(** The freed subscription leaves its listener's list. *)
Lemma inv_release_tail l ln p ps s :
  inv (adding p) s -> listeners (sv_heap s) !! l = Some ln -> ln_subs ln = p :: ps ->
  (forall l' ln', listeners (sv_heap s) !! l' = Some ln' -> p ∈ ln_subs ln' -> l' = l) ->
  inv idle (upd_heap (fun h => set_listeners (<[l := set_ln_subs ps ln]> (listeners h)) h) s).
Proof.
  intros Hi Hl Eps Honly. destruct (inv_listener _ _ Hi _ _ Hl) as (Hcl & Hnd & Hsl).
  rewrite Eps in Hnd, Hsl. apply NoDup_cons in Hnd as [Hp Hnd].
  destruct Hi. split; try done; simpl.
  - intros n x Hn. destruct (inv_node n x Hn) as (? & Hs & ?). split; [done|]. split; [|done].
    intros q Hq. destruct (Hs q Hq) as [(sb & l' & ? & ? & ? & ? & Hl') ?]. split; [|done].
    exists sb, l'. do 4 (split; [done|]). simpl. rewrite lookup_insert. by destruct (decide (l = l')).
  - intros l' ln'. rewrite lookup_insert_Some. intros [[<- <-]|[Hne Hl']].
    + split; [done|]. split; [done|]. intros q Hq _. apply Hsl; [by right|]. intros [= ->]. done.
    + destruct (inv_listener l' ln' Hl') as (? & ? & Hs). split; [done|]. split; [done|].
      intros q Hq _. apply Hs; [done|]. intros [= ->]. by apply Hne, symmetry, (Honly l' ln').
  - intros l' [ln' [[<- _]|[_ Hl']]%lookup_insert_Some]; eauto.
Qed.

(** Taking the first subscription from the listener. *)
Definition release_one (l p : ptr) : M unit :=
  _ ← gam_listener_free_subscription l p;
  update l (fun ln => set_ln_subs (tail (ln_subs ln)) ln).

Lemma keeps_free_one l p :
  preserves (fun s s' : server => conns_view s = conns_view s') (release_one l p).
Proof.
  unfold release_one, gam_listener_free_subscription.
  pose proof keeps_remove_subscription. pose proof keeps_free_if_inotify. preserve.
Qed.

Lemma release_one_outcome l p ps s :
  releasing l (p :: ps) s ->
  match release_one l p s with
  | Ok (_, s') => releasing l ps s' /\ released l [p] s s'
  | Fault e => e = AssertFailed /\ stuck_among [p] s
  end.
Proof.
  intros [Hi Hpo (ln & Hl & Eps) Hst Hap]. pose proof (keeps_free_one l p s) as Hv.
  destruct (inv_listener _ _ Hi _ _ Hl) as (_ & Hnd & Hs). rewrite Eps in Hnd, Hs.
  apply NoDup_cons in Hnd as [Hpps _].
  destruct (Hs p) as (sb & Hsb & Esl & n & x & Hh & Hn & Hpx); [by left|done|].
  unfold sub_paths in Hap. simpl in Hap. rewrite Hsb in Hap. simpl in Hap.
  destruct Hap as (Hex & Hty & Hap).
  destruct (polled_dispatch p sb s Hsb (conj Hex Hty) Hpo) as [_ Erm].
  set (s1 := looked_up (sub_path sb) s) in *.
  destruct (inv_same_store idle s s1) as [Hi1 _]; [by split|done|].
  pose proof (poll_remove_outcome (adding p) p sb n x s1 (inv_adding p s1 Hi1) Hsb Hh Hn Hpx
    ltac:(by intros ? ? ? ?)) as Hout.
  assert (release_one l p s = match gam_poll_basic_remove_subscription p s1 with
    | Ok (_, s2) => update l (fun ln => set_ln_subs (tail (ln_subs ln)) ln) s2
    | Fault e => Fault e end) as E.
  { unfold release_one, gam_listener_free_subscription. rewrite <- Erm.
    unfold mbind at 1, ST_bind at 1. rewrite (bind_Ok _ _ _ _ _ (load_listener_Ok _ _ _ Hl)).
    rewrite (bind_Ok _ _ s tt s) by (rewrite Eps; rewrite (proj2 (g_list_find_true _ _)); [done|by left]).
    rewrite (bind_Ok _ _ _ _ _ (load_sub_Ok _ _ _ Hsb)). unfold mbind at 1, ST_bind at 1.
    by destruct (gam_remove_subscription (Some p) s) as [[b s2]|]. }
  rewrite E in *. clear E Erm. destruct (_ && _) eqn:Ex.
  { rewrite Hout. split; [done|]. exists p, n, x. split; [by left|]. split; [done|]. split; [done|].
    apply andb_true_iff in Ex as [?%negb_true_iff [_ ?%negb_true_iff%bool_decide_eq_false]%andb_true_iff].
    by split. }
  destruct Hout as (s2 & E & Hi2 & Hoff & Es & El & Hf). rewrite E in *.
  destruct (poll_remove_env p s1 _ s2 E) as (Efs & Ew & Eex). clear E.
  assert (listeners (sv_heap s2) !! l = Some ln) as Hl2 by by rewrite El.
  unfold update, objs in *. simpl in *. rewrite Hl2, Eps in *. simpl.
  set (s3 := upd_heap _ s2) in *.
  assert (forall l' ln', listeners (sv_heap s2) !! l' = Some ln' -> p ∈ ln_subs ln' -> l' = l) as Honly.
  { intros l' ln'. rewrite El. intros Hl' Hp. destruct (inv_listener _ _ Hi _ _ Hl') as (_ & _ & Hs').
    destruct (Hs' p Hp) as (sb' & Hsb' & ? & _); [done|]. congruence. }
  assert (forall q, q <> p -> subs (sv_heap s3) !! q = subs (sv_heap s) !! q) as Hsubs.
  { intros q Hq. change (subs (sv_heap s3)) with (subs (sv_heap s2)). rewrite Es.
    by rewrite lookup_delete_ne. }
  split; [split|split].
  - exact (inv_release_tail l ln p ps s2 Hi2 Hl2 Eps Honly).
  - rewrite <- Hpo. symmetry. by injection Hv.
  - exists (set_ln_subs ps ln). simpl. by rewrite lookup_insert, decide_True.
  - intros m z q sb' Hz Hq Hsb' Esl'. destruct (Hf m z Hz) as (y & Hy & Hsub & _).
    assert (q <> p) as Hne by (intros ->; by apply (Hoff m z)).
    rewrite Hsubs in Hsb' by done. specialize (Hst m y q sb' Hy (Hsub q Hq) Hsb' Esl').
    by apply elem_of_cons in Hst as [|].
  - change (sv_excludes s3) with (sv_excludes s2). change (sv_fs s3) with (sv_fs s2).
    change (sv_world s3) with (sv_world s2). rewrite Efs, Ew, Eex.
    rewrite (sub_paths_ext ps s s3); [by destruct (gam_fs_get_mon_type _ _) as [? []]|].
    intros q Hq. apply Hsubs. by intros ->.
  - exact Hv.
  - exact Hf.
  - intros q Hq. apply Hsubs. intros ->. apply Hq. by left.
  - intros q ->%list_elem_of_singleton. change (subs (sv_heap s3)) with (subs (sv_heap s2)). rewrite Es.
    by rewrite lookup_delete_eq.
  - intros l' Hne. simpl. rewrite lookup_insert_ne by done. by rewrite El.
Qed.

Lemma stuck_fewer ps qs s s' :
  fewer_subs s s' -> (forall p, p ∈ ps -> p ∈ qs) -> stuck_among ps s' -> stuck_among qs s.
Proof.
  intros Hf Hsub (p & n & x & Hp & Hn & Hpx & Hx). destruct (Hf n x Hn) as (y & Hy & Hs & Hw).
  exists p, n, y. split; [by apply Hsub|]. split; [done|]. split; [by apply Hs|by apply Hw].
Qed.

Lemma released_trans l p ps s s1 s2 :
  released l [p] s s1 -> released l ps s1 s2 -> released l (p :: ps) s s2.
Proof.
  intros [A1 A2 A3 A5 A4] [B1 B2 B3 B5 B4]. split.
  - congruence.
  - by transitivity s1.
  - intros q [Hq Hps]%not_elem_of_cons. rewrite B3 by done. apply A3.
    by rewrite list_elem_of_singleton.
  - intros q Hq. destruct (decide (q ∈ ps)) as [Hps|Hps]; [by apply B5|].
    apply elem_of_cons in Hq as [->|]; [|done]. rewrite B3 by done. apply A5. by left.
  - intros l' Hl'. by rewrite B4, A4.
Qed.

Lemma release_loop fuel l ps s :
  releasing l ps s -> (length ps < fuel)%nat ->
  match free_subscriptions fuel l s with
  | Ok (_, s') => releasing l [] s' /\ released l ps s s'
  | Fault e => e = AssertFailed /\ stuck_among ps s
  end.
Proof.
  revert ps s. induction fuel as [|fuel IH]; intros ps s Hr Hf; [lia|].
  destruct (rl_listener _ _ _ Hr) as (ln & Hl & Eps). simpl.
  rewrite (bind_Ok _ _ _ _ _ (load_listener_Ok _ _ _ Hl)), Eps. destruct ps as [|p ps].
  { split; [done|]. split; try done. by intros q ?%elem_of_nil. }
  pose proof (release_one_outcome l p ps s Hr) as H. unfold release_one in H.
  unfold mbind, ST_bind in H |- *. destruct (gam_listener_free_subscription l p s) as [[b s1]|e].
  2:{ destruct H as [-> H]. split; [done|]. eapply (stuck_fewer [p]); [reflexivity| |done].
      intros q ->%list_elem_of_singleton. by left. }
  destruct (update l _ s1) as [[[] s2]|e]; [|by destruct H as [-> (q & n & x & ->%list_elem_of_singleton & Hx)];
    (split; [done|exists p, n, x; split; [by left|done]])].
  destruct H as [Hr2 Hd]. simpl in Hf. specialize (IH ps s2 Hr2 ltac:(lia)).
  destruct (free_subscriptions fuel l s2) as [[[] s3]|e].
  - destruct IH as [Hr3 Hd3]. split; [done|]. by apply (released_trans l p ps s s2).
  - destruct IH as [-> H]. split; [done|]. eapply (stuck_fewer ps); [apply (rd_fewer _ _ _ _ Hd)| |done].
    intros q Hq. by right.
Qed.

(** A listener without subscriptions can go. *)
Definition without_listener (l : ptr) : server -> server :=
  upd_heap (fun h => set_listeners (delete l (listeners h)) h).

Lemma inv_without_listener l s : releasing l [] s -> inv idle (without_listener l s).
Proof.
  intros [Hi _ _ Hst _]. destruct Hi. split; try done; simpl.
  - intros n x Hn. destruct (inv_node n x Hn) as (? & Hs & ?). split; [done|]. split; [|done].
    intros q Hq. destruct (Hs q Hq) as [(sb & l' & Hsb & ? & ? & Esl & Hl') ?]. split; [|done].
    exists sb, l'. do 4 (split; [done|]). simpl. rewrite lookup_delete_ne; [done|]. intros ->.
    by apply (elem_of_nil q), (Hst n x q sb).
  - intros l' ln' [_ Hl']%lookup_delete_Some. exact (inv_listener l' ln' Hl').
  - intros l' [ln' [_ Hl']%lookup_delete_Some]. eauto.
Qed.

Lemma listener_free_outcome l ps s :
  releasing l ps s ->
  match gam_listener_free l s with
  | Ok (_, s') => exists s0, s' = without_listener l s0 /\ releasing l [] s0 /\ released l ps s s0
  | Fault e => e = AssertFailed /\ stuck_among ps s
  end.
Proof.
  intros Hr. destruct (rl_listener _ _ _ Hr) as (ln & Hl & Eps). unfold gam_listener_free.
  rewrite (bind_Ok _ _ _ _ _ (load_listener_Ok _ _ _ Hl)), Eps.
  pose proof (release_loop (S (length ps)) l ps s Hr ltac:(lia)) as H. unfold mbind, ST_bind.
  destruct (free_subscriptions _ l s) as [[[] s0]|e]; [|done]. destruct H as [Hr0 Hd].
  destruct (rl_listener _ _ _ Hr0) as (ln0 & Hl0 & _). unfold dealloc, objs. simpl. rewrite Hl0.
  by exists s0.
Qed.

End Release.

(** ** The flush before closing *)

Section Flush.
Context {os : OS} {glib : GLib} {laws : OSLaws os}.
Abbreviation M := (ST server).

(** The part of [gam_connection_close] that still sends. *)
Definition flushed (c : ptr) : M unit :=
  k ← load c;
  _ ← when (cn_eq_source k) (update c (set_cn_eq_source false));
  _ ← conn_eq_flush c;
  mret tt.

(** It changes the connection's queue and timer and the world. *)
Definition objects (s : server) : gmap ptr GamNode * gmap ptr GamSubscription
  * gmap ptr GamListener := (nodes (sv_heap s), subs (sv_heap s), listeners (sv_heap s)).

Lemma keeps_eq_flush {X} (f : server -> X) c :
  (forall q, keeps f (update c (set_cn_eq q))) ->
  (forall A (g : world -> A * world), keeps f (sys g)) -> keeps f (conn_eq_flush c).
Proof.
  unfold keeps. intros Hq Hs. unfold conn_eq_flush.
  assert (forall fuel fd data, preserves (fun s s' => f s = f s') (conn_write_loop fuel fd data)) as Hw.
  { induction fuel as [|fuel IH]; intros fd data; simpl; preserve. }
  assert (forall q b, preserves (fun s s' => f s = f s') (eq_flush_loop q c b)) as Hl.
  { induction q as [|e q IH]; intros b; simpl; [preserve|].
    unfold gam_send_event, send_packet, gam_client_conn_write. preserve. }
  preserve.
Qed.

Lemma keeps_flush_view c :
  keeps conns_view (conn_eq_flush c) /\ keeps conns_view (gam_connection_eq_flush c) /\
  keeps conns_view (flushed c).
Proof.
  assert (forall f, (forall k, conn_view (f k) = conn_view k) ->
    preserves (fun s s' : server => conns_view s = conns_view s') (update c f)) as Hu
    by (intros f Hf; by apply keeps_update_conn).
  assert (preserves (fun s s' : server => conns_view s = conns_view s') (conn_eq_flush c)) as H.
  { apply keeps_eq_flush; [intros q; by apply Hu|]. intros A g. unfold keeps. preserve. }
  unfold keeps, gam_connection_eq_flush, flushed. repeat split; [done|preserve..]; by apply Hu.
Qed.

Lemma keeps_flush_objects c : keeps objects (flushed c).
Proof.
  assert (forall f, preserves (fun s s' : server => objects s = objects s')
    (update (A := GamConnData) c f)) as Hu.
  { intros f s. unfold update, objs. simpl. by destruct (conns (sv_heap s) !! c). }
  assert (preserves (fun s s' : server => objects s = objects s') (conn_eq_flush c)) as H.
  { apply keeps_eq_flush; [intros q; apply Hu|]. intros A g. unfold keeps. preserve. }
  unfold keeps, flushed. preserve.
Qed.

Lemma wp_flushed c k s :
  daemon_ok s -> conns (sv_heap s) !! c = Some k ->
  wp (flushed c) (fun _ s' => exists k', daemon_ok s' /\ conns (sv_heap s') !! c = Some k' /\
    cn_state k' = cn_state k /\ cn_listener k' = cn_listener k) s.
Proof.
  intros Hd Hc. destruct (conn_queue s c k Hd Hc) as [Hfd (q & Hq & Hall)].
  unfold flushed. apply wp_bind, (wp_load (H := conn_obj)) with k; [exact Hc|].
  apply wp_bind. eapply wp_mono with (Q := fun _ s' => exists k1, touched c k1 s s' /\
    cn_fd k1 = cn_fd k /\ cn_eq k1 = Some q /\ cn_state k1 = cn_state k /\
    cn_listener k1 = cn_listener k).
  { pose proof (touched_refl c k s Hd Hc) as T. apply wp_when; [intros _|intros _; by exists k].
    eapply wp_mono; [apply (touched_update c k _ s s T); [done|by exists q]|].
    intros [] s1 [T1 _]. by eexists. }
  intros [] s1 (k1 & T1 & Efd & Eq & Es & El).
  assert (conns (sv_heap s1) !! c = Some k1) as Hc1
    by by rewrite (tc_conns _ _ _ _ T1), lookup_insert, decide_True.
  unfold conn_eq_flush. apply wp_bind, wp_bind, (wp_load (H := conn_obj)) with k1; [exact Hc1|].
  rewrite Eq. eapply wp_mono; [apply (wp_eq_flush_loop q c k1 false s s1 T1 Hall); by rewrite Efd|].
  intros b s2 (k2 & T2 & Es2 & El2). apply wp_ret. exists k2.
  split; [eapply touched_ok; [exact Hd|exact T2|]|].
  { eapply (serves_touched c k k2 s); [done..| |]; congruence. }
  rewrite (tc_conns _ _ _ _ T2), lookup_insert, decide_True by done. split; [done|].
  split; congruence.
Qed.
End Flush.

(** * Closing a connection

    A connection and its listener belong together from authentication to the
    end ([paired]), whatever else the daemon does; so closing one connection
    frees exactly one listener and leaves the others theirs. *)

Section Paired.
Context {os : OS} {glib : GLib} {laws : OSLaws os}.
Abbreviation M := (ST server).

Record paired (s : server) : Prop := {
  pr_listener l ln : listeners (sv_heap s) !! l = Some ln ->
    exists k, conns (sv_heap s) !! ln_service ln = Some k /\ cn_listener k = Some l;
  pr_conn c k l : conns (sv_heap s) !! c = Some k -> cn_listener k = Some l ->
    exists ln, listeners (sv_heap s) !! l = Some ln /\ ln_service ln = c;
  pr_auth c k : conns (sv_heap s) !! c = Some k -> cn_state k = GAM_STATE_AUTH ->
    cn_listener k = None;
  pr_list c : c ∈ gamConnList (sv_ctl s) <-> is_Some (conns (sv_heap s) !! c);
  pr_nodup : NoDup (gamConnList (sv_ctl s))
}.

(** It only depends on what requests and scans leave alone. *)
Lemma listener_view s s' l ln :
  conns_view s = conns_view s' -> listeners (sv_heap s) !! l = Some ln ->
  exists ln', listeners (sv_heap s') !! l = Some ln' /\ ln_service ln' = ln_service ln.
Proof.
  unfold conns_view. intros Hv Hl.
  assert (ln_service <$> listeners (sv_heap s) = ln_service <$> listeners (sv_heap s')) as Hm
    by congruence.
  assert ((ln_service <$> listeners (sv_heap s')) !! l = Some (ln_service ln)) as Hl'
    by by rewrite <- Hm, lookup_fmap, Hl.
  rewrite lookup_fmap in Hl'. apply fmap_Some in Hl' as (ln' & ? & ?). by exists ln'.
Qed.

Lemma paired_view s s' : conns_view s = conns_view s' -> paired s -> paired s'.
Proof.
  intros Hv [H1 H2 H3 H4 H5]. pose proof (eq_sym Hv) as Hv'.
  assert (gamConnList (sv_ctl s') = gamConnList (sv_ctl s)) as El by (unfold conns_view in Hv; congruence).
  split.
  - intros l ln Hl. destruct (listener_view s' s l ln Hv' Hl) as (ln0 & Hl0 & <-).
    destruct (H1 l ln0 Hl0) as (k0 & Hk0 & E). destruct (conns_view_lookup s s' _ k0 Hv Hk0) as (k & Hk & Ev).
    exists k. split; [done|]. apply (f_equal cn_listener) in Ev. simpl in Ev. congruence.
  - intros c k l Hk E. destruct (conns_view_lookup s' s c k Hv' Hk) as (k0 & Hk0 & Ev).
    apply (f_equal cn_listener) in Ev. simpl in Ev.
    destruct (H2 c k0 l Hk0) as (ln0 & Hl0 & Es); [congruence|].
    destruct (listener_view s s' l ln0 Hv Hl0) as (ln & Hl & Es'). exists ln. split; [done|congruence].
  - intros c k Hk Est. destruct (conns_view_lookup s' s c k Hv' Hk) as (k0 & Hk0 & Ev).
    pose proof (f_equal cn_listener Ev) as E1. pose proof (f_equal cn_state Ev) as E2. simpl in E1, E2.
    rewrite <- E1. apply (H3 c); congruence.
  - intros c. rewrite El, H4. split; intros [k Hk].
    + destruct (conns_view_lookup s s' c k Hv Hk) as (k' & ? & _). by exists k'.
    + destruct (conns_view_lookup s' s c k Hv' Hk) as (k' & ? & _). by exists k'.
  - by rewrite El.
Qed.

(** Changing a connection without touching its listener. *)
Lemma paired_set_conn c k k' s :
  conns (sv_heap s) !! c = Some k -> cn_listener k' = cn_listener k ->
  (cn_state k' = GAM_STATE_AUTH -> cn_state k = GAM_STATE_AUTH) -> paired s ->
  paired (upd_heap (fun h => set_conns (<[c := k']> (conns h)) h) s).
Proof.
  intros Hc El Est [H1 H2 H3 H4 H5]. split; simpl.
  - intros l ln Hl. destruct (H1 l ln Hl) as (k0 & Hk0 & E). rewrite lookup_insert.
    destruct (decide (c = ln_service ln)) as [Ec|]; [|by exists k0]. exists k'.
    split; [done|congruence].
  - intros d k0 l [[<- <-]|[_ Hd]]%lookup_insert_Some E; [|by apply (H2 d k0)].
    apply (H2 c k); [done|congruence].
  - intros d k0 [[<- <-]|[_ Hd]]%lookup_insert_Some E; [|by apply (H3 d)].
    rewrite El. by apply (H3 c), Est.
  - intros d. rewrite H4, lookup_insert. destruct (decide (c = d)) as [->|]; [|done]. by rewrite Hc.
  - done.
Qed.

Lemma paired_update c f s :
  (forall k, cn_listener (f k) = cn_listener k) ->
  (forall k, cn_state (f k) = GAM_STATE_AUTH -> cn_state k = GAM_STATE_AUTH) -> paired s ->
  is_Some (conns (sv_heap s) !! c) -> wp (update c f) (fun _ s' => paired s') s.
Proof.
  intros El Est Hp [k Hk]. apply (wp_update (H := conn_obj)) with k; [exact Hk|].
  apply (paired_set_conn c k); auto.
Qed.

(** A new connection has no listener. *)
Lemma wp_new_paired fd s :
  inv idle s -> paired s -> wp (gam_connection_new fd) (fun _ s' => paired s') s.
Proof.
  intros Hi [H1 H2 H3 H4 H5]. unfold gam_connection_new, gam_cancel_server_timeout.
  apply wp_bind, (wp_alloc (H := conn_obj)). set (c := next_ptr (sv_heap s)).
  set (k := mk_conn _ _ _ _ _ _ _ _ _). apply wp_bind, wp_modify, wp_bind, wp_modify, wp_ret.
  assert (conns (sv_heap s) !! c = None) as Hfresh.
  { destruct (conns (sv_heap s) !! c) eqn:E; [|done].
    exfalso. apply (Pos.lt_irrefl c), (inv_conns_old _ _ Hi c). by exists g. }
  split; simpl.
  - intros l ln Hl. destruct (H1 l ln Hl) as (k0 & Hk0 & E). exists k0.
    rewrite lookup_insert_ne; [done|congruence].
  - intros d k0 l [[<- <-]|[_ Hd]]%lookup_insert_Some E; [done|by apply (H2 d k0)].
  - intros d k0 [[<- <-]|[_ Hd]]%lookup_insert_Some E; [done|by apply (H3 d)].
  - intros d. rewrite elem_of_cons, H4, lookup_insert. destruct (decide (c = d)) as [->|Hne].
    + split; [by eauto|by left].
    + split; [by intros [->|]|by right].
  - apply NoDup_cons. split; [|done]. rewrite H4, Hfresh. apply is_Some_None.
Qed.

(** Authentication makes the pair. *)
Lemma paired_authenticate c k k' l ln s s' :
  paired s -> conns (sv_heap s) !! c = Some k -> cn_state k = GAM_STATE_AUTH ->
  listeners (sv_heap s) !! l = None -> ln_service ln = c -> cn_listener k' = Some l ->
  cn_state k' <> GAM_STATE_AUTH ->
  conns (sv_heap s') = <[c := k']> (conns (sv_heap s)) ->
  listeners (sv_heap s') = <[l := ln]> (listeners (sv_heap s)) ->
  gamConnList (sv_ctl s') = gamConnList (sv_ctl s) -> paired s'.
Proof.
  intros [H1 H2 H3 H4 H5] Hc Est Hl Es El Hne Ec Eln Ect. pose proof (H3 c k Hc Est) as Hnone.
  split; rewrite ?Ec, ?Eln, ?Ect; [..|done].
  - intros m x [[<- <-]|[Hm Hx]]%lookup_insert_Some.
    + exists k'. by rewrite Es, lookup_insert, decide_True.
    + destruct (H1 m x Hx) as (k0 & Hk0 & E). exists k0. rewrite lookup_insert_ne; [done|].
      intros ->. congruence.
  - intros d k0 m [[<- <-]|[Hd Hk0]]%lookup_insert_Some E.
    + rewrite El in E. injection E as <-. exists ln. by rewrite lookup_insert, decide_True.
    + destruct (H2 d k0 m Hk0 E) as (x & Hx & ?). exists x. rewrite lookup_insert_ne; [done|congruence].
  - intros d k0 [[<- <-]|[Hd Hk0]]%lookup_insert_Some E; [done|by apply (H3 d)].
  - intros d. rewrite H4, lookup_insert. destruct (decide (c = d)) as [->|]; [|done]. by rewrite Hc.
Qed.

Lemma wp_set_pid_paired c k pid s :
  inv idle s -> paired s -> conns (sv_heap s) !! c = Some k -> pid <> 0 ->
  wp (gam_connection_set_pid c pid) (fun _ s' => paired s') s.
Proof.
  intros Hi Hp Hc Hpid. unfold gam_connection_set_pid.
  apply wp_bind, (wp_load (H := conn_obj)) with k; [exact Hc|].
  destruct (bool_decide (cn_state k = GAM_STATE_AUTH)) eqn:Est; simpl.
  2:{ apply wp_bind. eapply wp_mono; [apply (paired_update c); eauto; done|].
      intros [] s1 H. by apply wp_ret. }
  apply bool_decide_eq_true in Est.
  apply wp_bind, (wp_update (H := conn_obj)) with k; [exact Hc|]. set (k1 := set_cn_state _ k).
  set (s1 := upd_heap _ s). apply wp_bind, wp_sys. intros name w _.
  assert (conns (sv_heap s1) !! c = Some k1) as Hc1
    by (subst s1; simpl; by rewrite lookup_insert, decide_True).
  apply wp_bind, (wp_update (H := conn_obj)) with k1; [exact Hc1|]. set (k2 := set_cn_pid _ _ k1).
  unfold gam_listener_new. apply wp_bind, wp_bind, wp_assert; [by apply negb_true_iff, Z.eqb_neq|].
  apply wp_bind, wp_sys. intros name' w' _. apply (wp_alloc (H := listener_obj)).
  set (s2 := upd_heap _ _). set (l := next_ptr _).
  assert (conns (sv_heap s2) !! c = Some k2) as Hc2
    by (subst s2; simpl; by rewrite lookup_insert, decide_True).
  apply wp_bind, (wp_update (H := conn_obj)) with k2; [exact Hc2|]. apply wp_ret.
  apply (paired_authenticate c k (set_cn_listener (Some l) k2) l (mk_listener c pid name' []) s);
    try done.
  - destruct (listeners (sv_heap s) !! l) eqn:E; [|done].
    exfalso. apply (Pos.lt_irrefl l), (inv_listeners_old _ _ Hi l). by exists g.
  - simpl. by rewrite !insert_insert_eq.
Qed.
End Paired.

(** ** Closing *)

Section Close.
Context {os : OS} {glib : GLib} {laws : OSLaws os}.
Abbreviation M := (ST server).

(** A listener can be freed: the polling backend is responsible for its
    subscriptions, and no node has one that it has not. *)
Definition releasable (l : ptr) (s : server) : Prop :=
  forall ln, listeners (sv_heap s) !! l = Some ln ->
    (forall n x p sb, nodes (sv_heap s) !! n = Some x -> p ∈ nd_subs x ->
      subs (sv_heap s) !! p = Some sb -> sub_listener sb = Some l -> p ∈ ln_subs ln) /\
    all_polled (sv_excludes s) (sub_paths (ln_subs ln) s) (sv_fs s, sv_world s).

Lemma releasable_releasing l ln s :
  daemon_ok s -> listeners (sv_heap s) !! l = Some ln -> releasable l s -> releasing l (ln_subs ln) s.
Proof.
  intros Hd Hl Hr. destruct (Hr ln Hl) as [Hs Hp]. split; try done; [apply Hd..|]. by exists ln.
Qed.

(** No listener writes to the connection. *)
Definition unserved (c : ptr) (s : server) : Prop :=
  forall l ln, listeners (sv_heap s) !! l = Some ln -> ln_service ln <> c.

(** The connection is gone. *)
Definition without_conn (c : ptr) (s : server) : server :=
  upd_heap (fun h => set_conns (delete c (conns h)) h)
    (upd_ctl (fun ct => set_gamConnList (g_list_remove (gamConnList ct) c) ct) s).

Lemma inv_without_conn c s : inv idle s -> unserved c s -> inv idle (without_conn c s).
Proof.
  intros Hi Hu. assert (forall d, d <> c -> conn_ready d s -> conn_ready d (without_conn c s)) as Hr.
  { intros d Hd (k & q & ? & ? & ?). exists k, q. simpl. by rewrite lookup_delete_ne. }
  destruct Hi. split; try done; simpl.
  - intros l ln Hl. destruct (inv_listener l ln Hl) as (? & ? & ?). split; [|done].
    apply Hr; [by apply (Hu l)|done].
  - intros d [k [Hd Hk]%lookup_delete_Some]. apply Hr; [done|]. apply inv_conns. by exists k.
  - intros d [k [_ Hk]%lookup_delete_Some]. eauto.
Qed.

(** The listener of a connection is gone, and nothing else has changed for the
    other connections. *)
Record detached (c : ptr) (k : GamConnData) (s s' : server) : Prop := {
  dt_inv : inv idle s';
  dt_conns : conns (sv_heap s') = conns (sv_heap s);
  dt_kernel : kernel_handler (sv_ctl s') = kernel_handler (sv_ctl s);
  dt_poll : poll_handler (sv_ctl s') = poll_handler (sv_ctl s);
  dt_list : gamConnList (sv_ctl s') = gamConnList (sv_ctl s);
  dt_others l : cn_listener k <> Some l ->
    listeners (sv_heap s') !! l = listeners (sv_heap s) !! l;
  dt_own l : cn_listener k = Some l -> listeners (sv_heap s') !! l = None /\
    forall n x p sb, nodes (sv_heap s') !! n = Some x -> p ∈ nd_subs x ->
      subs (sv_heap s') !! p = Some sb -> sub_listener sb <> Some l;
  dt_subs l ln q : cn_listener k <> Some l -> listeners (sv_heap s) !! l = Some ln -> q ∈ ln_subs ln ->
    subs (sv_heap s') !! q = subs (sv_heap s) !! q;
  dt_freed l ln q : cn_listener k = Some l -> listeners (sv_heap s) !! l = Some ln -> q ∈ ln_subs ln ->
    subs (sv_heap s') !! q = None;
  dt_kept q : (forall l ln, cn_listener k = Some l -> listeners (sv_heap s) !! l = Some ln -> q ∉ ln_subs ln) ->
    subs (sv_heap s') !! q = subs (sv_heap s) !! q
}.

(** The subscriptions of different listeners are different. *)
Lemma one_listener l l' ln ln' p s :
  inv idle s -> listeners (sv_heap s) !! l = Some ln -> listeners (sv_heap s) !! l' = Some ln' ->
  p ∈ ln_subs ln -> p ∈ ln_subs ln' -> l = l'.
Proof.
  intros Hi Hl Hl' Hp Hp'. destruct (inv_listener _ _ Hi _ _ Hl) as (_ & _ & Hs).
  destruct (inv_listener _ _ Hi _ _ Hl') as (_ & _ & Hs').
  destruct (Hs p Hp) as (sb & Hsb & ? & _); [done|]. destruct (Hs' p Hp') as (sb' & Hsb' & ? & _); [done|].
  congruence.
Qed.

(** Freeing the listener in [gam_connection_close]. *)
Definition free_own (o : option ptr) : M unit :=
  match o with None => mret tt | Some l => gam_listener_free l end.

Lemma blind_free_own cs o : commutes (with_conns cs) (free_own o).
Proof. destruct o; [apply blind_listener_free|done]. Qed.

Lemma with_own_conns s : with_conns (conns (sv_heap s)) s = s.
Proof. by destruct s as [[]]. Qed.

Lemma free_own_outcome c k s :
  daemon_ok s -> paired s -> conns (sv_heap s) !! c = Some k ->
  (forall l, cn_listener k = Some l -> releasable l s) ->
  match free_own (cn_listener k) s with
  | Ok (_, s') => detached c k s s'
  | Fault e => e = AssertFailed /\ exists l ln, cn_listener k = Some l /\
      listeners (sv_heap s) !! l = Some ln /\ stuck_among (ln_subs ln) s
  end.
Proof.
  intros Hd Hp Hc Hr. pose proof (blind_free_own (conns (sv_heap s)) (cn_listener k) s) as Hb.
  rewrite with_own_conns in Hb. destruct (cn_listener k) as [l|] eqn:El.
  2:{ simpl. split; try done; [apply (dm_inv _ Hd)|..]; intros l; by rewrite El. }
  destruct (pr_conn _ Hp c k l Hc El) as (ln & Hl & Esv).
  pose proof (listener_free_outcome l (ln_subs ln) s
    (releasable_releasing l ln s Hd Hl (Hr l eq_refl))) as H. simpl in *.
  destruct (gam_listener_free l s) as [[[] s1]|e].
  2:{ destruct H as [-> H]. split; [done|]. by exists l, ln. }
  destruct H as (s0 & -> & Hr0 & [Hv Hf Hsub Hfr Hoth]).
  apply (f_equal (fun r => match r with Ok (_, s2) => conns (sv_heap s2) | Fault _ => ∅ end)) in Hb.
  unfold conns_view in Hv. split.
  - by apply inv_without_listener.
  - exact Hb.
  - simpl. congruence.
  - simpl. congruence.
  - simpl. congruence.
  - intros l' Hne. simpl. assert (l' <> l) as Hn by congruence. rewrite lookup_delete_ne by done. by apply Hoth.
  - intros l' Hl'. assert (l' = l) as -> by congruence. split; [simpl; by rewrite lookup_delete_eq|].
    intros n x p sb Hn Hpx Hsb Esb. by apply (elem_of_nil p), (rl_strays _ _ _ Hr0 n x p sb).
  - intros l' ln' q Hne Hl' Hq. apply Hsub. intros Hq'. apply Hne. rewrite El. f_equal.
    by apply (one_listener l l' ln ln' q s (dm_inv _ Hd)).
  - intros l' ln' q E Hl' Hq. apply Hfr. assert (l' = l) as -> by congruence. by simplify_eq.
  - intros q Hq. apply Hsub. by apply (Hq l ln).
Qed.

Lemma detached_unserved c k s s' :
  paired s -> conns (sv_heap s) !! c = Some k -> detached c k s s' -> unserved c s'.
Proof.
  intros Hp Hc Hdt l ln Hl Es. destruct (decide (cn_listener k = Some l)) as [E|E].
  - destruct (dt_own _ _ _ _ Hdt l E) as [Hn _]. congruence.
  - rewrite (dt_others _ _ _ _ Hdt l E) in Hl. destruct (pr_listener _ Hp l ln Hl) as (k' & Hk' & E').
    rewrite Es in Hk'. congruence.
Qed.

Lemma detached_ok c k s s' :
  daemon_ok s -> paired s -> conns (sv_heap s) !! c = Some k -> detached c k s s' ->
  daemon_ok (without_conn c s').
Proof.
  intros Hd Hp Hc Hdt. pose proof (detached_unserved c k s s' Hp Hc Hdt) as Hu.
  assert (forall l ln, listeners (sv_heap s') !! l = Some ln -> cn_listener k <> Some l /\
    listeners (sv_heap s) !! l = Some ln) as Hold.
  { intros l ln Hl. assert (cn_listener k <> Some l) as Hne.
    { intros E. destruct (dt_own _ _ _ _ Hdt l E) as [Hn _]. congruence. }
    by rewrite <- (dt_others _ _ _ _ Hdt l Hne). }
  split; simpl.
  - apply inv_without_conn; [apply Hdt|done].
  - by rewrite (dt_kernel _ _ _ _ Hdt), (dm_kernel _ Hd).
  - by rewrite (dt_poll _ _ _ _ Hdt), (dm_poll _ Hd).
  - intros l ln p Hl Hpl. simpl in Hl. destruct (Hold l ln Hl) as [Hne Hl0]. simpl.
    rewrite (dt_subs _ _ _ _ Hdt l ln p Hne Hl0 Hpl). by apply (dm_paths _ Hd l ln).
  - intros d k' [Hne Hd']%lookup_delete_Some Est. rewrite (dt_conns _ _ _ _ Hdt) in Hd'.
    destruct (dm_conns _ Hd d k' Hd' Est) as (l & El & Hl). exists l. split; [done|]. simpl.
    rewrite (dt_others _ _ _ _ Hdt l); [done|]. intros E.
    destruct (pr_conn _ Hp d k' l Hd' El) as (ln & Hln & Es).
    destruct (pr_conn _ Hp c k l Hc E) as (ln' & Hln' & Es'). congruence.
Qed.

Lemma detached_paired c k s s' :
  paired s -> conns (sv_heap s) !! c = Some k -> detached c k s s' -> paired (without_conn c s').
Proof.
  intros Hp Hc Hdt. pose proof (detached_unserved c k s s' Hp Hc Hdt) as Hu.
  split; simpl; rewrite ?(dt_conns _ _ _ _ Hdt), ?(dt_list _ _ _ _ Hdt).
  - intros l ln Hl. assert (cn_listener k <> Some l) as Hne.
    { intros E. destruct (dt_own _ _ _ _ Hdt l E) as [Hn _]. congruence. }
    pose proof (Hu l ln Hl) as Hs. rewrite (dt_others _ _ _ _ Hdt l Hne) in Hl.
    destruct (pr_listener _ Hp l ln Hl) as (k' & Hk' & E). exists k'.
    by rewrite lookup_delete_ne.
  - intros d k' l [Hne Hd']%lookup_delete_Some E. destruct (pr_conn _ Hp d k' l Hd' E) as (ln & Hln & Es).
    exists ln. split; [|done]. rewrite (dt_others _ _ _ _ Hdt l); [done|]. intros E'.
    destruct (pr_conn _ Hp c k l Hc E') as (ln' & Hln' & Es'). congruence.
  - intros d k' [_ Hd']%lookup_delete_Some. by apply (pr_auth _ Hp d).
  - intros d. pose proof (pr_nodup _ Hp). rewrite g_list_remove_NoDup by done.
    rewrite elem_of_g_list_remove_all, (pr_list _ Hp d).
    destruct (decide (c = d)) as [->|Hne].
    + rewrite lookup_delete_eq. split; [by intros [_ []]|by intros []].
    + rewrite lookup_delete_ne by done. naive_solver.
  - rewrite g_list_remove_NoDup by apply Hp. apply g_list_remove_all_nodup, Hp.
Qed.

(** The state after [gam_connection_close]. *)
Definition closed (c : ptr) (k : GamConnData) (s s' : server) : Prop :=
  exists s1 s2, daemon_ok s1 /\ paired s1 /\ conns_view s = conns_view s1 /\ objects s = objects s1 /\
    (exists k1, conns (sv_heap s1) !! c = Some k1 /\ cn_listener k1 = cn_listener k /\
       detached c k1 s1 s2) /\
    same_store (without_conn c s2) s' /\ exists b, sv_ctl s' = set_server_timeout b (sv_ctl (without_conn c s2)).

(** A clean hang-up: once the queue is flushed the listener can be freed. *)
Definition clean_hangup (c : ptr) (s : server) : Prop :=
  forall k l s1, conns (sv_heap s) !! c = Some k -> cn_listener k = Some l ->
    flushed c s = Ok (tt, s1) -> releasable l s1.

(** What [gam_connection_close] does after the flush. *)
Lemma close_after_flush c k s s1 :
  conns (sv_heap s) !! c = Some k -> c ∈ gamConnList (sv_ctl s) -> flushed c s = Ok (tt, s1) ->
  gam_connection_close c s =
  (_ ← update c (set_cn_eq None);
   _ ← free_own (cn_listener k);
   _ ← modify (upd_ctl (fun ct => set_gamConnList (g_list_remove (gamConnList ct) c) ct));
   found ← gam_connection_exists c;
   _ ← g_assert (negb found);
   _ ← dealloc GamConnData c;
   l ← gets (fun s => gamConnList (sv_ctl s));
   timeout ← gam_server_use_timeout;
   _ ← when (bool_decide (l = []) && timeout) gam_schedule_server_timeout;
   mret 0) s1.
Proof.
  intros Hc Hin E. unfold gam_connection_close.
  assert (gam_connection_exists c s = Ok (true, s)) as Ex
    by (unfold gam_connection_exists, gets; by rewrite (proj2 (g_list_find_true _ _) Hin)).
  rewrite (bind_Ok _ _ _ _ _ Ex). simpl. rewrite (bind_Ok _ _ s tt s) by done.
  rewrite (bind_Ok _ _ _ _ _ (load_conn_Ok _ _ _ Hc)).
  unfold flushed in E. rewrite (bind_Ok _ _ _ _ _ (load_conn_Ok _ _ _ Hc)) in E.
  unfold mbind, ST_bind in E |- *. destruct (when _ _ s) as [[[] s']|]; [|done].
  destruct (conn_eq_flush c s') as [[b s'']|]; [|done]. injection E as <-. done.
Qed.

Lemma close_outcome c k s :
  daemon_ok s -> paired s -> conns (sv_heap s) !! c = Some k -> clean_hangup c s ->
  match gam_connection_close c s with
  | Ok (r, s') => r = 0 /\ closed c k s s'
  | Fault e => e = AssertFailed /\ exists l ln, cn_listener k = Some l /\
      listeners (sv_heap s) !! l = Some ln /\ stuck_among (ln_subs ln) s
  end.
Proof.
  intros Hd Hp Hc Hclean.
  assert (c ∈ gamConnList (sv_ctl s)) as Hin by (apply (pr_list _ Hp); by exists k).
  destruct (wp_Ok _ _ _ (wp_flushed c k s Hd Hc)) as ([] & s1 & E & k1 & Hd1 & Hc1 & _ & El).
  destruct (keeps_flush_view c) as (_ & _ & Hv). specialize (Hv s). rewrite E in Hv.
  pose proof (keeps_flush_objects c s) as Ho. rewrite E in Ho.
  pose proof (paired_view s s1 Hv Hp) as Hp1.
  rewrite (close_after_flush c k s s1 Hc Hin E), <- El.
  assert (forall l, cn_listener k1 = Some l -> releasable l s1) as Hr.
  { intros l Hl. apply (Hclean k l s1); congruence. }
  pose proof (free_own_outcome c k1 s1 Hd1 Hp1 Hc1 Hr) as H.
  set (cs := <[c := set_cn_eq None k1]> (conns (sv_heap s1))).
  pose proof (blind_free_own cs (cn_listener k1) s1) as Hb.
  unfold update, objs, mbind, ST_bind. simpl. rewrite Hc1.
  fold cs. change (upd_heap _ s1) with (with_conns cs s1). rewrite Hb. clear Hb.
  destruct (free_own (cn_listener k1) s1) as [[[] s2]|e].
  2:{ destruct H as [-> (l & ln & Hl & Hln & Hst)]. split; [done|]. exists l, ln.
      split; [congruence|]. unfold objects in Ho. injection Ho as En Esub Eln.
      split; [by rewrite Eln|]. destruct Hst as (p & n & x & ? & ? & ?). exists p, n, x. by rewrite En. }
  assert (c ∉ gamConnList (sv_ctl (without_conn c s2))) as Hout.
  { rewrite (pr_list _ (detached_paired c k1 s1 s2 Hp1 Hc1 H) c). simpl.
    rewrite lookup_delete_eq. by intros []. }
  apply g_list_find_false in Hout. unfold gam_connection_exists, gets, modify. simpl in Hout |- *.
  rewrite Hout. simpl. unfold dealloc, objs. simpl. unfold cs at 1.
  rewrite lookup_insert, decide_True by done. simpl.
  assert (delete c cs = delete c (conns (sv_heap s2))) as Ecs
    by (unfold cs; by rewrite delete_insert_eq, (dt_conns _ _ _ _ H)).
  assert (forall s', same_store (without_conn c s2) s' ->
    (exists b, sv_ctl s' = set_server_timeout b (sv_ctl (without_conn c s2))) -> closed c k s s') as Hcl.
  { intros s' Hs Hb. exists s1, s2. do 4 (split; [done|]). split; [by exists k1|done]. }
  unfold gam_server_use_timeout, gam_schedule_server_timeout, gam_cancel_server_timeout, gets, modify.
  simpl. destruct (_ && _); simpl; (split; [done|]); apply Hcl.
  all: try (unfold same_store, without_conn, upd_heap, set_conns; simpl; by rewrite <- Ecs).
  - by exists true.
  - by exists (server_timeout (sv_ctl s2)).
Qed.

(** What closing leaves behind. *)
Lemma ok_ctl b s s' :
  same_store s s' -> sv_ctl s' = set_server_timeout b (sv_ctl s) ->
  (daemon_ok s -> daemon_ok s') /\ (paired s -> paired s').
Proof.
  intros Hs Ec. pose proof Hs as (Eh & _). split.
  - intros [Hi Hk Hp Hps Hc]. destruct (inv_same_store idle s s' Hs Hi) as [Hi' _].
    split; unfold paths_ok, serves in *; rewrite ?Eh, ?Ec; done.
  - intros [H1 H2 H3 H4 H5]. split; rewrite ?Eh, ?Ec; done.
Qed.

Lemma closed_ok c k s s' : closed c k s s' -> daemon_ok s' /\ paired s'.
Proof.
  intros (s1 & s2 & Hd & Hp & _ & _ & (k1 & Hc & _ & Hdt) & Hs & b & Ec).
  destruct (ok_ctl b (without_conn c s2) s' Hs Ec) as [H1 H2]. split.
  - by apply H1, (detached_ok c k1 s1).
  - by apply H2, (detached_paired c k1 s1).
Qed.

(** ** Deciding that a hang-up is clean *)

Fixpoint all_polledb (ex : excludes_state) (paths : list string) (fw : fs_state * world) : bool :=
  match paths with
  | [] => true
  | path :: paths =>
      let r := gam_fs_get_mon_type path fw in
      negb (gam_exclude_check ex (Some path)) && bool_decide (r.1 = GFS_MT_POLL) &&
      all_polledb ex paths r.2
  end.

Lemma all_polledb_sound ex paths fw : all_polledb ex paths fw = true -> all_polled ex paths fw.
Proof.
  revert fw. induction paths as [|path paths IH]; intros fw; [done|]. cbn [all_polledb all_polled].
  intros [[Hx%negb_true_iff Ht%bool_decide_eq_true]%andb_true_iff Hr]%andb_true_iff. auto.
Qed.

(** Whether [p], found at a node, is a subscription of [l] outside [ps]. *)
Definition strayb (l : ptr) (ps : list ptr) (s : server) (p : ptr) : bool :=
  match subs (sv_heap s) !! p with
  | Some sb => bool_decide (sub_listener sb = Some l) && negb (bool_decide (p ∈ ps))
  | None => false
  end.

Definition releasableb (l : ptr) (s : server) : bool :=
  match listeners (sv_heap s) !! l with
  | None => true
  | Some ln =>
      forallb (fun nx => forallb (fun p => negb (strayb l (ln_subs ln) s p)) (nd_subs (snd nx)))
        (map_to_list (nodes (sv_heap s))) &&
      all_polledb (sv_excludes s) (sub_paths (ln_subs ln) s) (sv_fs s, sv_world s)
  end.

Lemma releasableb_sound l s : releasableb l s = true -> releasable l s.
Proof.
  unfold releasableb. intros Hb ln Hl. rewrite Hl in Hb.
  apply andb_true_iff in Hb as [Hs Hp%all_polledb_sound]. split; [|done].
  intros n x p sb Hn Hpx Hsb El. rewrite forallb_forall in Hs. specialize (Hs (n, x)).
  rewrite <- list_elem_of_In, elem_of_map_to_list in Hs. specialize (Hs Hn).
  rewrite forallb_forall in Hs. specialize (Hs p). rewrite <- list_elem_of_In in Hs.
  specialize (Hs Hpx). unfold strayb in Hs. rewrite Hsb, bool_decide_eq_true_2 in Hs by done.
  apply negb_true_iff, andb_false_iff in Hs as [|Hs%negb_false_iff%bool_decide_eq_true]; done.
Qed.

Definition clean_hangupb (c : ptr) (s : server) : bool :=
  match cn_listener <$> conns (sv_heap s) !! c, flushed c s with
  | Some (Some l), Ok (_, s1) => releasableb l s1
  | _, _ => true
  end.

Lemma clean_hangupb_sound c s : clean_hangupb c s = true -> clean_hangup c s.
Proof.
  unfold clean_hangupb. intros Hb k l s1 Hk El E. rewrite Hk, E in Hb. simpl in Hb. rewrite El in Hb.
  by apply releasableb_sound.
Qed.
End Close.
