(* ===== verification/Reach.v ===== *)
(** * Reachable states of the polling daemon

    The daemon as a transition system: clients connect, authenticate, send
    bytes and requests, and hang up; timers scan and flush; the rest of the
    system changes at any time.  Its reachable states satisfy [daemon_ok], and the operations
    behave as the outcome theorems say. *)

From S2P Require Import Prelude Protocol EventQueue Monad OS Excludes.
From S2P Require Import Fs Conf State Subscription Listener ConnSend Node.
From S2P Require Import Tree Inv Emit PollGeneric PollBasic Safety.
From S2P Require Import PollSafety AddSafety RemoveSafety.
From S2P Require Import Server Frames Connection Framing Daemon.
From S2P Require Import Hangup.

Local Open Scope Z_scope.

#[local] Existing Instance no_kernel.
#[local] Existing Instance absent_backend.

Section Reach.
Context {os : OS} {glib : GLib} {laws : OSLaws os}.

(** A request the daemon may execute: the connection is authenticated, and a
    subscription names a path. *)
Definition acceptable (c : ptr) (req : GAMPacket) (s : server) : Prop :=
  (exists k, conns (sv_heap s) !! c = Some k /\ cn_state k = GAM_STATE_OKAY) /\
  (request_type req = GAM_REQ_CANCEL \/ request_path req <> ""%string).

Inductive daemon_step : server -> server -> Prop :=
| step_accept fd c s s' :
    0 <= fd -> gam_connection_new fd s = Ok (c, s') -> daemon_step s s'
| step_authenticate c pid r s s' :
    is_Some (conns (sv_heap s) !! c) -> pid <> 0 ->
    gam_connection_set_pid c pid s = Ok (r, s') -> daemon_step s s'
| step_receive c n buf s s' :
    is_Some (conns (sv_heap s) !! c) ->
    update c (fun k => set_cn_request_len n (set_cn_request buf k)) s = Ok (tt, s') ->
    daemon_step s s'
| step_request c off req r s s' :
    acceptable c req s -> gam_connection_request c off req s = Ok (r, s') -> daemon_step s s'
| step_scan fuel b s s' :
    (length (resources s) < fuel)%nat ->
    gam_poll_basic_scan_callback fuel s = Ok (b, s') -> daemon_step s s'
| step_flush c b s s' :
    is_Some (conns (sv_heap s) !! c) -> gam_connection_eq_flush c s = Ok (b, s') -> daemon_step s s'
| step_hangup c r s s' :
    is_Some (conns (sv_heap s) !! c) -> clean_hangup c s ->
    gam_connection_close c s = Ok (r, s') -> daemon_step s s'
| step_outside w s : daemon_step s (set_sv_world w s).

(** A started daemon and what it can reach. *)
Definition reachable (s : server) : Prop :=
  exists w s0, gam_init_subscriptions (server_initial tt w) = Ok (true, s0) /\
    rtc daemon_step s0 s.

Lemma wp_result {A} (m : ST server A) Q s a s' : wp m Q s -> m s = Ok (a, s') -> Q a s'.
Proof. unfold wp. by destruct (m s) as [[b t]|]; intros H E; simplify_eq. Qed.

Lemma daemon_step_ok s s' : daemon_ok s -> paired s -> daemon_step s s' -> daemon_ok s'.
Proof.
  intros Hd Hpr Hstep. destruct Hstep as [fd c s s' Hfd E|c pid r s s' [k Hk] Hp E|c n buf s s' [k Hk] E
    |c off req r s s' [(k & Hk & Hst) Hp] E|fuel b s s' Hf E|c b s s' [k Hk] E|c r s s' [k Hk] Hc E|w s].
  - exact (wp_result _ _ _ _ _ (wp_connection_new fd s Hd Hfd) E).
  - by destruct (wp_result _ _ _ _ _ (wp_connection_set_pid c k pid s Hd Hk Hp) E).
  - exact (wp_result _ _ _ _ _ (wp_store_bytes c k n buf s Hd Hk) E).
  - pose proof (request_outcome c k off req s Hd Hk Hst Hp) as H. by rewrite E in H.
  - pose proof (scan_outcome fuel s Hd Hf) as H. unfold wp_fuel in H. by rewrite E in H.
  - exact (wp_result _ _ _ _ _ (wp_connection_eq_flush c k s Hd Hk) E).
  - pose proof (close_outcome c k s Hd Hpr Hk Hc) as H. rewrite E in H. destruct H as [_ H].
    by apply (closed_ok c k s).
  - by apply daemon_ok_world.
Qed.

Lemma daemon_step_paired s s' : daemon_ok s -> paired s -> daemon_step s s' -> paired s'.
Proof.
  intros Hd Hpr Hstep. destruct Hstep as [fd c s s' Hfd E|c pid r s s' [k Hk] Hp E|c n buf s s' Hk E
    |c off req r s s' _ E|fuel b s s' Hf E|c b s s' [k Hk] E|c r s s' [k Hk] Hc E|w s].
  - exact (wp_result _ _ _ _ _ (wp_new_paired fd s (dm_inv _ Hd) Hpr) E).
  - exact (wp_result _ _ _ _ _ (wp_set_pid_paired c k pid s (dm_inv _ Hd) Hpr Hk Hp) E).
  - by refine (wp_result _ _ _ _ _ (paired_update c _ s _ _ Hpr Hk) E).
  - exact (paired_view s s' (preserves_Ok _ _ _ _ _ (keeps_request c off req) E) Hpr).
  - exact (paired_view s s' (preserves_Ok _ _ _ _ _ (keeps_scan_callback fuel) E) Hpr).
  - destruct (keeps_flush_view c) as (_ & Hv & _).
    exact (paired_view s s' (preserves_Ok _ _ _ _ _ Hv E) Hpr).
  - pose proof (close_outcome c k s Hd Hpr Hk Hc) as H. rewrite E in H. destruct H as [_ H].
    by apply (closed_ok c k s).
  - by apply (paired_view s).
Qed.

Lemma init_paired w s :
  gam_init_subscriptions (server_initial (kern := no_kernel) tt w) = Ok (true, s) -> paired s.
Proof.
  set (f := fun s : server => (conns (sv_heap s), listeners (sv_heap s), gamConnList (sv_ctl s))).
  assert (preserves (fun s s' => f s = f s') gam_init_subscriptions) as Hv.
  { unfold gam_init_subscriptions, gam_poll_basic_init, gam_poll_generic_init, gam_tree_new, new_node,
      gam_node_new, gam_poll_generic_update_time.
    eapply preserves_bind; [exact _| |].
    { intros s0. by destruct (gam_conf_read _) as [? [? ?]]. }
    simpl. preserve. }
  intros E. apply (preserves_Ok _ _ _ _ _ Hv) in E. unfold f in E. simpl in E. injection E as Ec El Eg.
  split; rewrite <- ?Ec, <- ?El, <- ?Eg.
  - intros l ln. by rewrite lookup_empty.
  - intros c k l. by rewrite lookup_empty.
  - intros c k. by rewrite lookup_empty.
  - intros c. rewrite lookup_empty. split; [by intros ?%elem_of_nil|by intros []].
  - constructor.
Qed.

Lemma reachable_ok s : reachable s -> daemon_ok s /\ paired s.
Proof.
  intros (w & s0 & E & Hr). destruct (init_outcome w) as (s1 & E1 & Hd).
  assert (s1 = s0) as -> by congruence. pose proof (init_paired w s0 E) as Hp. clear E E1.
  induction Hr as [|s1 s2 s3 Hs _ IH]; [done|].
  apply IH; [by apply (daemon_step_ok s1)|by apply (daemon_step_paired s1)].
Qed.

Lemma reachable_daemon_ok s : reachable s -> daemon_ok s.
Proof. apply reachable_ok. Qed.

Lemma reachable_step s s' : reachable s -> daemon_step s s' -> reachable s'.
Proof. intros (w & s0 & E & Hr) Hs. exists w, s0. split; [done|]. by eapply rtc_r. Qed.

(** C1: the daemon's invariant.  Starting always succeeds, and in every state
    that connecting, authenticating, receiving, executing requests, scanning,
    flushing, clean hang-ups and changes of the outside world lead to, the tree is well formed
    and agrees with its hash table, every subscription a node or listener
    refers to is alive and registered at the node of its path, and every
    connection can be sent to. *)
Theorem daemon_invariant :
  (forall w, exists s, gam_init_subscriptions (server_initial tt w) = Ok (true, s) /\ daemon_ok s) /\
  (forall s, reachable s -> daemon_ok s).
Proof. split; [apply init_outcome|apply reachable_daemon_ok]. Qed.

(** C2: requests are safe.  In a reachable state a request of an
    authenticated client that names a path completes without touching freed
    memory.  The only two ways to stop the daemon are a request whose
    terminator falls behind the packet buffer, and the cancellation of the last
    subscription to a path that has become a file while it still has
    children. *)
Theorem reachable_request_safe c off req s :
  reachable s -> acceptable c req s ->
  match gam_connection_request c off req s with
  | Ok (_, s') => reachable s'
  | Fault OutOfBounds => Z.of_nat off + GAM_PACKET_HEADER_LEN + pk_pathlen req >= sizeof_GAMPacket
  | Fault AssertFailed => request_type req = GAM_REQ_CANCEL /\
      exists k l ln p, conns (sv_heap s) !! c = Some k /\ cn_listener k = Some l /\
        listeners (sv_heap s) !! l = Some ln /\ p ∈ ln_subs ln /\ stuck p (dropped l p ln s)
  | Fault _ => False
  end.
Proof.
  intros Hr Ha. pose proof Ha as [(k & Hk & Hst) Hp].
  pose proof (request_outcome c k off req s (reachable_daemon_ok s Hr) Hk Hst Hp) as H.
  destruct (gam_connection_request c off req s) as [[r s']|[]] eqn:E; try done.
  - apply (reachable_step s); [done|]. by apply (step_request c off req r).
  - destruct H as (Ht & l & ln & p & H). split; [done|]. by exists k, l, ln, p.
Qed.

(** C3: the periodic scan.  In a reachable state the loop over the resources
    of [gam_poll_basic_scan_callback], which indexes their list anew each time
    round, polls exactly the registered resources, each once and in their
    order, and completes, whatever the file system answers, with the list
    unchanged.  The callback is this loop between the update of the time and
    the loop over the missing resources, whose list may grow while it runs; it
    never touches freed memory either, and the state reached is reachable. *)
Theorem reachable_scan_safe fuel s :
  reachable s -> (length (resources s) < fuel)%nat ->
  NoDup (resources s) /\
  scan_all_loop fuel 0 s = for_each (resources s) poll_resource s /\
  (exists s', scan_all_loop fuel 0 s = Ok (tt, s') /\ resources s' = resources s) /\
  match gam_poll_basic_scan_callback fuel s with
  | Ok (_, s') => reachable s' /\
      exists s1 s2 s3, gam_poll_generic_update_time s = Ok (tt, s1) /\
        for_each (resources s) poll_resource s1 = Ok (tt, s2) /\
        scan_missing_loop fuel 0 s2 = Ok (tt, s3) /\
        (s' = s3 \/ s' = upd_ctl (set_scan_running false) s3)
  | Fault e => e = OutOfFuel
  end.
Proof.
  intros Hr Hf. pose proof (reachable_daemon_ok s Hr) as Hd. pose proof (dm_inv _ Hd) as Hi.
  split; [apply (inv_all _ _ Hi)|].
  split; [by rewrite (scan_all_loop_each fuel 0 s Hi) by lia|]. split.
  - destruct (wp_Ok _ _ _ (scan_all_loop_total fuel 0 s Hi ltac:(lia)))
      as ([] & s' & E & _ & _ & Hs). by exists s'.
  - pose proof (scan_outcome fuel s Hd Hf) as H. unfold wp_fuel in H.
    destruct (gam_poll_basic_scan_callback fuel s) as [[b s']|[]] eqn:E; try done.
    split; [apply (reachable_step s); [done|]; by apply (step_scan fuel b)|].
    by apply (scan_callback_steps fuel b s s' Hi).
Qed.

(** C4: hanging up.  In a reachable state closing a connection completes with
    0 when its subscriptions are still polled and no node has one its listener
    has not: the connection is freed and off the list, its listener is freed
    with exactly the subscriptions it had, no node has one of them, the other
    listeners and subscriptions are as before, and the state is reachable.  Otherwise a node that has become a file while it
    still has children stops the daemon. *)
Theorem reachable_hangup_safe c k s :
  reachable s -> conns (sv_heap s) !! c = Some k -> clean_hangup c s ->
  match gam_connection_close c s with
  | Ok (r, s') => r = 0 /\ reachable s' /\
      conns (sv_heap s') !! c = None /\ c ∉ gamConnList (sv_ctl s') /\
      (forall l, cn_listener k = Some l -> listeners (sv_heap s') !! l = None /\
        forall n x p sb, nodes (sv_heap s') !! n = Some x -> p ∈ nd_subs x ->
          subs (sv_heap s') !! p = Some sb -> sub_listener sb <> Some l) /\
      (forall l ln q, cn_listener k = Some l -> listeners (sv_heap s) !! l = Some ln ->
        q ∈ ln_subs ln -> subs (sv_heap s') !! q = None) /\
      (forall q, (forall l ln, cn_listener k = Some l -> listeners (sv_heap s) !! l = Some ln ->
        q ∉ ln_subs ln) -> subs (sv_heap s') !! q = subs (sv_heap s) !! q) /\
      (forall l, cn_listener k <> Some l ->
        listeners (sv_heap s') !! l = listeners (sv_heap s) !! l)
  | Fault e => e = AssertFailed /\ exists l ln, cn_listener k = Some l /\
      listeners (sv_heap s) !! l = Some ln /\ stuck_among (ln_subs ln) s
  end.
Proof.
  intros Hr Hk Hc. destruct (reachable_ok s Hr) as [Hd Hp].
  pose proof (close_outcome c k s Hd Hp Hk Hc) as H.
  destruct (gam_connection_close c s) as [[r s']|e] eqn:E; [|done]. destruct H as [-> H].
  split; [done|]. split.
  { apply (reachable_step s); [done|]. apply (step_hangup c 0); [by exists k|done|done]. }
  destruct (closed_ok c k s s' H) as [_ Hp'].
  destruct H as (s1 & s2 & _ & _ & _ & Ho & (k1 & _ & El & Hdt) & (Eh & _) & _).
  assert (conns (sv_heap s') !! c = None) as Hn by (rewrite Eh; simpl; by rewrite lookup_delete_eq).
  split; [done|]. split; [rewrite (pr_list _ Hp' c), Hn; by intros []|].
  unfold objects in Ho. injection Ho as _ Esb Eln. rewrite Eh, <- El, Eln, Esb. split; [|split; [|split]].
  - apply (dt_own _ _ _ _ Hdt).
  - apply (dt_freed _ _ _ _ Hdt).
  - apply (dt_kept _ _ _ _ Hdt).
  - apply (dt_others _ _ _ _ Hdt).
Qed.

(** Authentication.  A connection gets its listener exactly once: the
    first process id moves it from [GAM_STATE_AUTH] to [GAM_STATE_OKAY], any
    later one is refused and leaves it in [GAM_STATE_ERROR]; the state reached
    is reachable. *)
Theorem authenticate_once c k pid s :
  reachable s -> conns (sv_heap s) !! c = Some k -> pid <> 0 ->
  exists r s' k', gam_connection_set_pid c pid s = Ok (r, s') /\ reachable s' /\
    conns (sv_heap s') !! c = Some k' /\
    if decide (cn_state k = GAM_STATE_AUTH) then r = 0 /\ cn_state k' = GAM_STATE_OKAY
    else r = -1 /\ cn_state k' = GAM_STATE_ERROR.
Proof.
  intros Hr Hk Hp.
  destruct (wp_Ok _ _ _ (wp_connection_set_pid c k pid s (reachable_daemon_ok s Hr) Hk Hp))
    as (r & s' & E & _ & k' & Hk' & H).
  exists r, s', k'. split; [done|]. split; [|done]. apply (reachable_step s); [done|].
  apply (step_authenticate c pid r); [by exists k|done|done].
Qed.

(** ** Executable runs *)

(** The steps as commands of a script. *)
Inductive command :=
  | Accept (fd : Z)
  | Authenticate (c : ptr) (pid : Z)
  | Request (c : ptr) (req : GAMPacket)
  | Scan
  | Flush (c : ptr)
  | Hangup (c : ptr)
  | Outside (w : world).

Definition acceptableb (c : ptr) (req : GAMPacket) (s : server) : bool :=
  match conns (sv_heap s) !! c with
  | Some k => bool_decide (cn_state k = GAM_STATE_OKAY) &&
      ((request_type req =? GAM_REQ_CANCEL) || negb (bool_decide (request_path req = ""%string)))
  | None => false
  end.

Lemma acceptableb_sound c req s : acceptableb c req s = true -> acceptable c req s.
Proof.
  unfold acceptableb. destruct (conns (sv_heap s) !! c) as [k|] eqn:E; [|done].
  intros [Hst%bool_decide_eq_true Hp]%andb_true_iff. split; [by exists k|].
  apply orb_true_iff in Hp as [Ht%Z.eqb_eq|Hp%negb_true_iff%bool_decide_eq_false]; auto.
Qed.

Definition after {A} (m : ST server A) (s : server) : option server :=
  match m s with Ok (_, s') => Some s' | Fault _ => None end.

Definition exec (cmd : command) (s : server) : option server :=
  match cmd with
  | Accept fd => if 0 <=? fd then after (gam_connection_new fd) s else None
  | Authenticate c pid =>
      if bool_decide (is_Some (conns (sv_heap s) !! c)) && negb (pid =? 0)
      then after (gam_connection_set_pid c pid) s else None
  | Request c req =>
      if acceptableb c req s then after (gam_connection_request c 0 req) s else None
  | Scan => after (gam_poll_basic_scan_callback (2 * S (length (resources s)))) s
  | Flush c =>
      if bool_decide (is_Some (conns (sv_heap s) !! c))
      then after (gam_connection_eq_flush c) s else None
  | Hangup c =>
      if bool_decide (is_Some (conns (sv_heap s) !! c)) && clean_hangupb c s
      then after (gam_connection_close c) s else None
  | Outside w => Some (set_sv_world w s)
  end.

Lemma after_Some {A} (m : ST server A) s s' : after m s = Some s' -> exists a, m s = Ok (a, s').
Proof. unfold after. destruct (m s) as [[a t]|]; [|done]. intros [= ->]. by exists a. Qed.

Lemma exec_step cmd s s' : exec cmd s = Some s' -> daemon_step s s'.
Proof.
  destruct cmd as [fd|c pid|c req| |c|c|w]; simpl.
  - destruct (0 <=? fd) eqn:Hfd; [|done]. intros [c E]%after_Some.
    by eapply step_accept; [apply Z.leb_le|].
  - destruct (_ && _) eqn:Hc; [|done]. intros [r E]%after_Some.
    apply andb_true_iff in Hc as [Hc%bool_decide_eq_true Hp%negb_true_iff%Z.eqb_neq].
    by eapply step_authenticate.
  - destruct (acceptableb c req s) eqn:Ha; [|done]. intros [r E]%after_Some.
    by eapply step_request; [apply acceptableb_sound|].
  - intros [b E]%after_Some. eapply step_scan; [|exact E]. lia.
  - destruct (bool_decide _) eqn:Hc; [|done]. intros [b E]%after_Some.
    by eapply step_flush; [apply bool_decide_eq_true in Hc|].
  - destruct (_ && _) eqn:Hc; [|done]. intros [r E]%after_Some.
    apply andb_true_iff in Hc as [Hc%bool_decide_eq_true Hl%clean_hangupb_sound].
    by eapply step_hangup.
  - intros [= <-]. constructor.
Qed.

Fixpoint exec_all (cmds : list command) (s : server) : option server :=
  match cmds with
  | [] => Some s
  | cmd :: cmds => match exec cmd s with Some s' => exec_all cmds s' | None => None end
  end.

(** The daemon started in world [w] and driven by a script. *)
Definition run (w : world) (cmds : list command) : option server :=
  match gam_init_subscriptions (server_initial tt w) with
  | Ok (true, s) => exec_all cmds s
  | _ => None
  end.

Lemma run_reachable w cmds s : run w cmds = Some s -> reachable s.
Proof.
  unfold run. destruct (gam_init_subscriptions (server_initial (kern := no_kernel) tt w)) as [[[] s0]|] eqn:E; [|done..].
  intros H. exists w, s0. split; [done|]. clear E. revert s0 H.
  induction cmds as [|cmd cmds IH]; intros s0 H; simpl in H; [by injection H as ->|].
  destruct (exec cmd s0) as [s1|] eqn:E; [|done]. eapply rtc_l; [by eapply exec_step|]. by apply IH.
Qed.
End Reach.

(** ** A run *)

#[local] Existing Instance sim_glib.

Definition newline_str : string := String (Ascii.ascii_of_nat 10) "".
(** [/home] is mounted over the network, and so polled. *)
Definition run_mtab : string :=
  ("/dev/sda1 / ext3 rw" ++ newline_str ++ "srv:/h /home nfs rw" ++ newline_str)%string.
Definition a_dir : stat_t := mk_stat true 5 0 10 5 0.
Definition a_file : stat_t := mk_stat false 5 0 10 5 0.
Definition run_world (mtab : string) (now : Z) (files : list (string * stat_t))
  (dirs : list (string * list string)) : sim_world :=
  mk_sim (("/etc/mtab"%string, mk_stat false now 0 10 9 0) :: files) dirs
    [("/etc/mtab"%string, mtab)] now [] 0 0.

(** [/home/d] holds the file [f] ... *)
Definition world_before : @world sim_os :=
  run_world run_mtab 100 [("/home/d"%string, a_dir); ("/home/d/f"%string, a_file)]
    [("/home/d"%string, ["f"%string])].
(** ... later it is a file itself ... *)
Definition world_after : @world sim_os := run_world run_mtab 200 [("/home/d"%string, a_file)] [].
(** ... or [/home] is no longer mounted over the network. *)
Definition world_remounted : @world sim_os :=
  run_world ("/dev/sda1 / ext3 rw" ++ newline_str)%string 200
    [("/home/d"%string, a_dir); ("/home/d/f"%string, a_file)] [("/home/d"%string, ["f"%string])].

(** The pointers of the run: the connection is allocated behind the root, its
    listener behind it. *)
Definition run_conn : ptr := 2%positive.
Definition run_listener : ptr := 3%positive.
Definition packet (seq type : Z) (path : string) : GAMPacket :=
  make_packet seq type (bytes_of_path path).

Definition subscribe_script : list (command (os := sim_os)) :=
  [Accept 7; Authenticate run_conn 42; Request run_conn (packet 1 GAM_REQ_DIR "/home/d");
   Request run_conn (packet 2 GAM_REQ_FILE "/home/d/f")].

Definition final (cmds : list (command (os := sim_os))) : server (os := sim_os) :=
  default (server_initial (kern := no_kernel) tt world_before) (run world_before cmds).

Definition completes (cmds : list (command (os := sim_os))) : bool :=
  match run world_before cmds with Some _ => true | None => false end.

Lemma final_reachable cmds : completes cmds = true -> reachable (final cmds).
Proof.
  unfold completes, final. destruct (run world_before cmds) as [s|] eqn:E; [|done].
  intros _. exact (run_reachable _ _ _ E).
Qed.

(** The result of a request, without the state. *)
Definition outcome {A} (r : res (A * server (os := sim_os))) : option A + fault :=
  match r with Ok (a, _) => inl (Some a) | Fault e => inr e end.

Lemma daemon_invariant_witness :
  completes subscribe_script = true /\ daemon_ok (final subscribe_script).
Proof.
  assert (completes subscribe_script = true) as H by (vm_compute; reflexivity).
  split; [exact H|]. apply (proj2 daemon_invariant), final_reachable, H.
Defined.

Lemma reachable_request_safe_witness :
  let req := packet 1 GAM_REQ_CANCEL "" in
  acceptable run_conn req (final subscribe_script) /\
  outcome (gam_connection_request run_conn 0 req (final subscribe_script)) = inl (Some 0) /\
  match gam_connection_request run_conn 0 req (final subscribe_script) with
  | Ok (_, s) => reachable s
  | Fault _ => True
  end.
Proof.
  intros req. assert (acceptable run_conn req (final subscribe_script)) as Ha
    by (apply acceptableb_sound; vm_compute; reflexivity).
  split; [exact Ha|]. split; [vm_compute; reflexivity|].
  pose proof (reachable_request_safe run_conn 0 req (final subscribe_script)
    (final_reachable subscribe_script ltac:(vm_compute; reflexivity)) Ha) as H.
  destruct (gam_connection_request run_conn 0 req (final subscribe_script)) as [[r s]|e];
    [exact H|exact I].
Defined.

Lemma reachable_scan_safe_witness :
  resources (final subscribe_script) = [7%positive; 6%positive] /\
  exists s', scan_all_loop 5 0 (final subscribe_script) = Ok (tt, s').
Proof.
  assert (resources (final subscribe_script) = [7%positive; 6%positive]) as Er
    by (vm_compute; reflexivity).
  split; [exact Er|].
  destruct (reachable_scan_safe 5 (final subscribe_script)
    (final_reachable subscribe_script ltac:(vm_compute; reflexivity))
    ltac:(rewrite Er; simpl; lia)) as (_ & _ & (s' & E & _) & _).
  exists s'. exact E.
Defined.

Lemma reachable_hangup_safe_witness :
  exists k, conns (sv_heap (final subscribe_script)) !! run_conn = Some k /\
  clean_hangup run_conn (final subscribe_script) /\
  outcome (gam_connection_close run_conn (final subscribe_script)) = inl (Some 0) /\
  match gam_connection_close run_conn (final subscribe_script) with
  | Ok (_, s) => reachable s
  | Fault _ => True
  end.
Proof.
  assert (is_Some (conns (sv_heap (final subscribe_script)) !! run_conn)) as [k Hk].
  { apply (bool_decide_eq_true_1 _). vm_compute. reflexivity. }
  exists k. split; [exact Hk|].
  assert (clean_hangup run_conn (final subscribe_script)) as Hc
    by (apply clean_hangupb_sound; vm_compute; reflexivity).
  split; [exact Hc|]. split; [vm_compute; reflexivity|].
  pose proof (reachable_hangup_safe run_conn k (final subscribe_script)
    (final_reachable subscribe_script ltac:(vm_compute; reflexivity)) Hk Hc) as H.
  destruct (gam_connection_close run_conn (final subscribe_script)) as [[r s]|e]; [|exact I].
  exact (proj1 (proj2 H)).
Defined.

(** Hanging up leaves only the root of the tree, and the daemon goes on. *)
Example hangup_forgets_everything :
  let s := final (subscribe_script ++ [Hangup run_conn; Scan; Accept 8]) in
  reachable s /\ dom (nodes (sv_heap s)) = {[1%positive]} /\ dom (subs (sv_heap s)) = ∅ /\
  resources s = [] /\ length (gamConnList (sv_ctl s)) = 1%nat.
Proof.
  split; [apply final_reachable; vm_compute; reflexivity|].
  split; [vm_compute; reflexivity|]. split; [vm_compute; reflexivity|].
  split; vm_compute; reflexivity.
Qed.

Lemma authenticate_once_witness :
  exists k, conns (sv_heap (final [Accept 7])) !! run_conn = Some k /\
  cn_state k = GAM_STATE_AUTH /\
  exists r s', gam_connection_set_pid run_conn 42 (final [Accept 7]) = Ok (r, s') /\ reachable s'.
Proof.
  assert (cn_state <$> (conns (sv_heap (final [Accept 7])) !! run_conn) = Some GAM_STATE_AUTH) as Hk
    by (vm_compute; reflexivity).
  apply fmap_Some in Hk as (k & Hk & Hs). symmetry in Hs.
  exists k. split; [exact Hk|]. split; [exact Hs|].
  destruct (authenticate_once run_conn k 42 (final [Accept 7])
    (final_reachable [Accept 7] ltac:(vm_compute; reflexivity)) Hk ltac:(lia))
    as (r & s' & k' & E & Hr & _).
  exists r, s'. split; [exact E|exact Hr].
Defined.

(** C40: a directory that becomes a file stops the daemon.  There is a run in
    which a client subscribes to a directory and to a file in it, the directory
    is replaced by a file, the daemon notices, and the client's request to
    cancel the first subscription fails the assertion of
    [gam_poll_basic_remove_subscription] that the node has no children. *)
Theorem directory_to_file_stops_daemon :
  let s := final (subscribe_script ++ [Outside world_after; Scan]) in
  reachable s /\ acceptable run_conn (packet 1 GAM_REQ_CANCEL "") s /\
  gam_connection_request run_conn 0 (packet 1 GAM_REQ_CANCEL "") s = Fault AssertFailed.
Proof.
  split; [apply final_reachable; vm_compute; reflexivity|].
  split; [apply acceptableb_sound; vm_compute; reflexivity|]. vm_compute. reflexivity.
Qed.

(** The subscriptions a node list and all listeners hold, as data. *)
Definition node_subs_at (path : string) (s : server (os := sim_os)) : option (list ptr) :=
  n ← node_hash (sv_tree s) !! path; nd_subs <$> nodes (sv_heap s) !! n.
Definition listed_subs (s : server (os := sim_os)) : list ptr :=
  concat (ln_subs ∘ snd <$> map_to_list (listeners (sv_heap s))).

(** A remount defeats a cancellation.  The backend is chosen again when a
    subscription is cancelled.  There is a run in which a polled path is no
    longer polled by then: the client gets the acknowledgement, but the
    subscription stays registered at its node although no listener has it any
    more. *)
Theorem remount_defeats_cancel :
  let s := final (subscribe_script ++ [Outside world_remounted]) in
  reachable s /\ node_subs_at "/home/d" s = Some [4%positive] /\
  listed_subs s = [8%positive; 4%positive] /\
  match gam_connection_request run_conn 0 (packet 1 GAM_REQ_CANCEL "") s with
  | Ok (r, s') => r = 0 /\ node_subs_at "/home/d" s' = Some [4%positive] /\
      listed_subs s' = [8%positive]
  | Fault _ => False
  end.
Proof.
  split; [apply final_reachable; vm_compute; reflexivity|].
  split; [vm_compute; reflexivity|]. split; [vm_compute; reflexivity|].
  vm_compute. split; [reflexivity|]. split; reflexivity.
Qed.
