(* ===== verification/Delivery.v ===== *)
(** * Delivery of events

    What an event on a node becomes on the wire: who gets it, and with which
    name. *)

From S2P Require Import Prelude Protocol EventQueue Monad OS Fs State.
From S2P Require Import Subscription Listener ConnSend Node Tree Inv Emit.
From S2P Require Import PollGeneric PollBasic Safety RemoveSafety.
From S2P Require Import Server Connection Daemon Reach.

Local Open Scope Z_scope.

(** ** Names *)

Lemma is_slash_app (a b : string) : is_slash_at (a ++ "/" ++ b) (String.length a) = true.
Proof. unfold is_slash_at. induction a as [|c a IH]; simpl; [done|exact IH]. Qed.

(** Names are relative to the subscribed directory.  A directory
    subscription gets an event on [dir/name] under the name [name] and its
    length; an event on the directory itself, and any event of a file
    subscription, carries the path unchanged. *)
Theorem event_names (s : GamSubscription) (name : string) :
  sub_pathlen s = strlen (sub_path s) -> name <> ""%string ->
  (sub_is_dir s = true ->
     event_subpath s (sub_path s ++ "/" ++ name) = (name, strlen name) /\
     event_subpath s (sub_path s) = (sub_path s, strlen (sub_path s))) /\
  (sub_is_dir s = false -> forall path, event_subpath s path = (path, strlen path)).
Proof.
  intros Hlen Hname. unfold event_subpath. simpl. rewrite Hlen. split; intros ->; [|done]. split.
  - rewrite !strlen_app. replace (strlen "/") with 1 by done.
    assert (0 < strlen name) as Hpos.
    { destruct name; [done|]. unfold strlen. cbn [String.length]. lia. }
    destruct (Z.gtb_spec (strlen (sub_path s) + (1 + strlen name)) (strlen (sub_path s) + 1)); [|lia].
    assert (Z.to_nat (strlen (sub_path s)) = String.length (sub_path s)) as -> by apply Nat2Z.id.
    rewrite is_slash_app. cbn [andb].
    replace (Z.to_nat (strlen (sub_path s) + 1)) with (String.length (sub_path s ++ "/")).
    + rewrite <- (str_drop_app (sub_path s ++ "/") name) at 3.
      rewrite str_app_assoc. f_equal. lia.
    + pose proof (strlen_app (sub_path s) "/") as Happ. replace (strlen "/") with 1 in Happ by done.
      unfold strlen in *. lia.
  - destruct (Z.gtb_spec (strlen (sub_path s)) (strlen (sub_path s) + 1)); [lia|done].
Qed.

Lemma event_names_witness :
  let s := new_subscription "/home/d" 0 1 true 0 in
  sub_pathlen s = strlen (sub_path s) /\ event_subpath s "/home/d/f" = ("f"%string, 1).
Proof.
  intros s. split; [reflexivity|].
  destruct (event_names s "f" eq_refl ltac:(discriminate)) as [H _].
  exact (proj1 (H eq_refl)).
Defined.

(** The name a subscription knows the file at [path] by: its path, but within a
    subscribed directory the part behind the directory and its slash.  Paths in
    the root directory keep their slash. *)
Inductive called (sb : GamSubscription) : string -> string -> Prop :=
  | called_itself : called sb (sub_path sb) (sub_path sb)
  | called_within name :
      sub_is_dir sb = true -> name <> ""%string -> called sb (sub_path sb ++ "/" ++ name) name
  | called_in_root c name :
      sub_path sb = "/"%string -> c <> slash ->
      called sb (String slash (String c name)) (String slash (String c name))
  | called_other path : sub_is_dir sb = false -> called sb path path.

Lemma called_subpath sb path name :
  sub_pathlen sb = strlen (sub_path sb) -> called sb path name ->
  (event_subpath sb path).1 = name.
Proof.
  intros Hlen [|name' Hd Hne|c name' Hroot Hc|path' Hd].
  - unfold event_subpath. simpl. rewrite Hlen. destruct (sub_is_dir sb); [|done].
    by destruct (Z.gtb_spec (strlen (sub_path sb)) (strlen (sub_path sb) + 1)); [lia|].
  - destruct (event_names sb name' Hlen Hne) as [H _]. by destruct (H Hd) as [-> _].
  - unfold event_subpath. simpl. rewrite Hlen, Hroot. destruct (sub_is_dir sb); [|done].
    unfold is_slash_at. simpl. rewrite (proj2 (Ascii.eqb_neq c slash) Hc), andb_false_r. done.
  - unfold event_subpath. simpl. by rewrite Hd.
Qed.

(** ** What is wanted *)

(** The subscription wants the event: it is not cancelled, it listens to such
    events, the client did not opt out of listings, the event is about the
    subscribed path or something in the directory, and, unless forced, it is not
    the listing or a change of the directory itself. *)
Record wanted (sb : GamSubscription) (path : string) (is_dir : bool) (event : Z) (force : bool) : Prop := {
  wanted_event : event <> 0;
  wanted_live : sub_cancelled sb = false;
  wanted_mask : sub_events sb .& event <> 0;
  wanted_listing : event = GAMIN_EVENT_EXISTS \/ event = GAMIN_EVENT_ENDEXISTS ->
    sub_options sb .& GAM_OPT_NOEXISTS = 0;
  wanted_path : sub_is_dir sb = true \/ path = sub_path sb;
  wanted_others : force = false -> sub_is_dir sb = true -> is_dir = true -> path = sub_path sb ->
    event <> GAMIN_EVENT_EXISTS /\ event <> GAMIN_EVENT_CHANGED /\ event <> GAMIN_EVENT_ENDEXISTS
}.

Lemma wanted_spec sb path is_dir event force :
  gam_subscription_wants_event (Some sb) (Some path) is_dir event force = true <->
  wanted sb path is_dir event force.
Proof.
  rewrite wants_event_spec. split.
  - intros (H1 & H2 & H3 & H4 & H5 & H6). split; try done; [|tauto].
    intros H. destruct (decide (sub_options sb .& GAM_OPT_NOEXISTS = 0)); [done|]. by destruct H4.
  - intros [H1 H2 H3 H4 H5 H6]. repeat (split; [done|]). tauto.
Qed.

(** The events of the protocol, with their codes. *)
Definition wire_codes : list (Z * Z) :=
  [(GAMIN_EVENT_CHANGED, FAMChanged); (GAMIN_EVENT_CREATED, FAMCreated);
   (GAMIN_EVENT_DELETED, FAMDeleted); (GAMIN_EVENT_MOVED, FAMMoved);
   (GAMIN_EVENT_EXISTS, FAMExists); (GAMIN_EVENT_ENDEXISTS, FAMEndExist)].

Lemma wire_codes_spec event type : fam_of_event event = Some type <-> (event, type) ∈ wire_codes.
Proof.
  unfold fam_of_event, wire_codes. rewrite !elem_of_cons, elem_of_nil. split.
  - repeat case_match; rewrite ?Z.eqb_eq in *; intros [= <-]; subst; tauto.
  - intros H. repeat (destruct H as [[= -> ->]|H]; [reflexivity|]). done.
Qed.

(** ** Recipients *)


Section Delivery.
Context {os : OS} {glib : GLib} {kern : KernelState} {laws : OSLaws os}.


(** What is executed when the subscription wants the event. *)
Definition send_now (k : GamConnData) (reqno event : Z) (path : string) : ST server unit :=
  _ ← (if strlen path >=? MAXPATHLEN then mret (-1)
       else match fam_of_event event with
            | None => mret (-1)
            | Some type => send_packet k reqno type path
            end);
  mret tt.

Lemma emit_one_sends path d event p force sb l ln k (s : server) :
  subs (sv_heap s) !! p = Some sb -> sub_pathlen sb = strlen (sub_path sb) ->
  sub_listener sb = Some l -> listeners (sv_heap s) !! l = Some ln ->
  conns (sv_heap s) !! ln_service ln = Some k -> 0 <= cn_fd k ->
  inotify_is_running (sv_kernel s) = false ->
  gam_server_emit_one_event path d event p force s =
  if gam_subscription_wants_event (Some sb) (Some path) d event force
  then send_now k (sub_reqno sb) event (event_subpath sb path).1 s else Ok (tt, s).
Proof.
  intros Hsb Hlen Hl Hln Hk Hfd Hrun. unfold gam_server_emit_one_event.
  rewrite (bind_Ok _ _ _ _ _ (load_sub_Ok _ _ _ Hsb)).
  destruct (gam_subscription_wants_event _ _ _ _ _); cbn [negb]; [|done].
  assert (gam_subscription_get_listener (Some sb) = Some l) as -> by exact Hl.
  assert (gam_listener_get_service l s = Ok (ln_service ln, s)) as E
    by (unfold gam_listener_get_service; by rewrite (bind_Ok _ _ _ _ _ (load_listener_Ok _ _ _ Hln))).
  rewrite (bind_Ok _ _ _ _ _ E). clear E.
  destruct (event_subpath sb path) as [subpath len] eqn:Es. cbn [fst].
  apply event_subpath_len in Es as ->; [|unfold strlen in Hlen; lia].
  assert (is_running s = Ok (false, s)) as E by (unfold is_running, gets; by rewrite Hrun).
  rewrite (bind_Ok _ _ _ _ _ E). clear E. unfold send_now.
  match goal with |- (?m ≫= _) s = (?m' ≫= _) s => assert (m s = m' s) as E end.
  { unfold gam_send_event. rewrite (bind_Ok _ _ _ _ _ (load_conn_Ok _ _ _ Hk)).
    rewrite (bind_Ok _ _ s tt s) by by rewrite (proj2 (Z.geb_le _ _) Hfd).
    by rewrite (bind_Ok _ _ s tt s) by by rewrite Z.eqb_refl. }
  unfold mbind, ST_bind. by rewrite E.
Qed.

(** C25: one event to one subscription.  Without a running kernel backend the
    event is sent at once: a subscription that wants it ([wanted]) gets one
    packet with its request number, the code of the event and the name it knows
    the file by ([called]), written to its listener's connection, whole or, when
    the write fails, a strict prefix of it, and nothing but that output changes.
    For an event that is not wanted, that has no code in the protocol, or whose
    name does not fit into a packet nothing happens at all. *)
Theorem one_event_delivery path name d event p force sb l ln k (s : server) :
  subs (sv_heap s) !! p = Some sb -> sub_pathlen sb = strlen (sub_path sb) ->
  sub_listener sb = Some l -> listeners (sv_heap s) !! l = Some ln ->
  conns (sv_heap s) !! ln_service ln = Some k -> 0 <= cn_fd k ->
  inotify_is_running (sv_kernel s) = false -> called sb path name ->
  (wanted sb path d event force -> strlen name < MAXPATHLEN ->
     forall type, (event, type) ∈ wire_codes ->
     exists (ok : bool) s',
       gam_server_emit_one_event path d event p force s = Ok (tt, s') /\
       wrote (cn_fd k) (packet_bytes (make_packet (sub_reqno sb) type (bytes_of_path name))) s ok s') /\
  (~ wanted sb path d event force \/ MAXPATHLEN <= strlen name \/
     (forall type, (event, type) ∉ wire_codes) ->
     gam_server_emit_one_event path d event p force s = Ok (tt, s)).
Proof.
  intros Hsb Hlen Hl Hln Hk Hfd Hrun Hname.
  rewrite (emit_one_sends path d event p force sb l ln k s) by done.
  rewrite (called_subpath sb path name) by done. unfold send_now. split.
  - intros Hw Hlt type Htype. apply wanted_spec in Hw as ->. apply wire_codes_spec in Htype as ->.
    destruct (Z.geb_spec (strlen name) MAXPATHLEN); [lia|].
    destruct (wp_Ok _ _ _ (wp_send_packet k (sub_reqno sb) type name s Hfd)) as (r & s' & E & ok & _ & Hs).
    exists ok, s'. split; [|done]. by rewrite (bind_Ok _ _ _ _ _ E).
  - intros Hno. destruct (gam_subscription_wants_event _ _ _ _ _) eqn:Ew; [|done].
    apply wanted_spec in Ew. destruct (Z.geb_spec (strlen name) MAXPATHLEN) as [|Hlt]; [reflexivity|].
    destruct (fam_of_event event) as [type|] eqn:Ef; [|reflexivity].
    apply wire_codes_spec in Ef. destruct Hno as [Hno|[Hno|Hno]]; [done|lia|by destruct (Hno type)].
Qed.
End Delivery.

(** ** Witnesses *)

#[local] Existing Instance no_kernel.
#[local] Existing Instance absent_backend.
#[local] Existing Instance sim_glib.



(** The directory's subscription, with [demo_conn] as its client. *)
Definition demo_sub : GamSubscription :=
  set_sub_listener (Some 4%positive) (new_subscription "/tmp" GAMIN_EVENT_CREATED 9 true 0).
Definition demo_delivery : @server sim_os no_kernel :=
  upd_heap (fun h => set_subs {[3%positive := demo_sub]}
    (set_listeners {[4%positive := mk_listener 5%positive 42 "client" [3%positive]]} h)) demo_send.

Lemma one_event_delivery_witness :
  exists ok s', gam_server_emit_one_event "/tmp/x" false GAMIN_EVENT_CREATED 3%positive false demo_delivery
    = Ok (tt, s') /\
  wrote 7 (packet_bytes (make_packet 9 FAMCreated (bytes_of_path "x"))) demo_delivery ok s'.
Proof.
  destruct (one_event_delivery "/tmp/x" "x" false GAMIN_EVENT_CREATED 3%positive false demo_sub
    4%positive (mk_listener 5%positive 42 "client" [3%positive]) demo_conn demo_delivery
    eq_refl eq_refl eq_refl eq_refl eq_refl ltac:(simpl; lia) eq_refl) as [Hsend _].
  - apply (called_within demo_sub "x"); [reflexivity|discriminate].
  - apply (Hsend (proj1 (wanted_spec demo_sub "/tmp/x" false GAMIN_EVENT_CREATED false) eq_refl)); [reflexivity|].
    apply wire_codes_spec. reflexivity.
Defined.
