(* ===== verification/Service.v ===== *)
(** * What a polled client gets for its requests

    The effect of a subscription and of a cancellation, from the packet to the
    node of the path, for paths the polling backend is responsible for. *)

From S2P Require Import Prelude Protocol EventQueue Monad OS Excludes.
From S2P Require Import Fs Conf State Subscription Listener ConnSend Node.
From S2P Require Import Tree Inv PollGeneric PollBasic Safety AddSafety.
From S2P Require Import RemoveSafety Server Frames Connection Daemon.
From S2P Require Import Hangup Reach.

Local Open Scope Z_scope.

#[local] Existing Instance no_kernel.
#[local] Existing Instance absent_backend.

Section Service.
Context {os : OS} {glib : GLib} {laws : OSLaws os}.

(** A request of an authenticated connection that fits in the buffer. *)
Record served (c : ptr) (k : GamConnData) (l : ptr) (off : nat) (req : GAMPacket) (s : server)
    : Prop := {
  rq_conn : conns (sv_heap s) !! c = Some k;
  rq_state : cn_state k = GAM_STATE_OKAY;
  rq_listener : cn_listener k = Some l;
  rq_short : pk_pathlen req < MAXPATHLEN;
  rq_fits : Z.of_nat off + GAM_PACKET_HEADER_LEN + pk_pathlen req < sizeof_GAMPacket
}.

Lemma served_dispatch c k l off req s :
  daemon_ok s -> served c k l off req s ->
  gam_connection_request c off req s =
  if (request_type req =? GAM_REQ_FILE) || (request_type req =? GAM_REQ_DIR)
  then request_subscribe l (request_path req) (pk_seq req) (request_type req) (pk_type req .& 65520) s
  else if request_type req =? GAM_REQ_CANCEL then request_cancel c l (pk_seq req) s
  else if request_type req =? GAM_REQ_DEBUG then Ok (0, s) else Ok (-1, s).
Proof.
  intros Hd [Hc Hst Hl Hsh Hfit].
  destruct (inv_conns _ _ (dm_inv _ Hd) c) as (k' & _ & Hc' & Hfd & _); [by exists k|].
  assert (k' = k) as -> by congruence. unfold gam_connection_request.
  rewrite (bind_Ok _ _ _ _ _ (load_conn_Ok _ _ _ Hc)).
  rewrite (bind_Ok _ _ s tt s) by by rewrite Hst.
  rewrite (bind_Ok _ _ s tt s) by by rewrite (proj2 (Z.geb_le _ _) Hfd).
  rewrite (bind_Ok _ _ s l s) by by rewrite Hl.
  destruct (Z.geb_spec (pk_pathlen req) MAXPATHLEN); [lia|].
  destruct (Z.geb_spec (Z.of_nat off + GAM_PACKET_HEADER_LEN + pk_pathlen req) sizeof_GAMPacket); [lia|].
  unfold request_type, request_path. by repeat case_match.
Qed.

(** The subscription that a request asks for. *)
Definition requested (l : ptr) (req : GAMPacket) : GamSubscription :=
  set_sub_listener (Some l)
    (new_subscription (request_path req) request_events (pk_seq req)
       (request_type req =? GAM_REQ_DIR) (pk_type req .& 65520)).

(** Making it is the first half of the request. *)
Lemma request_subscribe_new l req s :
  request_subscribe l (request_path req) (pk_seq req) (request_type req) (pk_type req .& 65520) s
  = (_ ← gam_add_subscription (Some (next_ptr (sv_heap s))); mret 0)
      (with_new_sub (requested l req) s).
Proof.
  unfold request_subscribe. set (p := next_ptr (sv_heap s)).
  set (sb := new_subscription (request_path req) request_events (pk_seq req)
    (request_type req =? GAM_REQ_DIR) (pk_type req .& 65520)).
  rewrite (bind_Ok _ _ s p (with_new_sub sb s)) by done.
  rewrite (bind_Ok _ _ (with_new_sub sb s) tt (with_new_sub (requested l req) s)); [done|].
  unfold gam_subscription_set_listener, update, objs. simpl.
  rewrite lookup_insert, decide_True by done. unfold with_new_sub, upd_heap. simpl.
  unfold set_subs. simpl. by rewrite insert_insert_eq.
Qed.

Lemma subscribe_outcome l req s :
  daemon_ok s -> is_Some (listeners (sv_heap s) !! l) -> request_path req <> ""%string ->
  polled (request_path req) s ->
  let p := next_ptr (sv_heap s) in
  exists s0 s', request_subscribe l (request_path req) (pk_seq req) (request_type req)
                  (pk_type req .& 65520) s = Ok (0, s') /\
    same_store (with_new_sub (requested l req) s) s0 /\ subscribed l p (requested l req) s0 s'.
Proof.
  intros Hd Hl Hpath Hpol p. pose proof (dm_inv _ Hd) as Hi.
  set (s1 := with_new_sub (requested l req) s).
  assert (subs (sv_heap s1) !! p = Some (requested l req)) as Hp
    by (subst s1; simpl; by rewrite lookup_insert, decide_True).
  destruct (polled_dispatch p (requested l req) s1 Hp Hpol (dm_poll _ Hd)) as [E _].
  set (s0 := looked_up _ s1) in E. assert (same_store s1 s0) as Hs0 by done.
  pose proof (inv_with_new_sub (requested l req) s Hi) as Hi1.
  destruct (inv_same_store idle s1 s0 Hs0 Hi1) as [Hi0 _]. pose proof Hs0 as (Eh & Et & El).
  assert (subscribable l p (requested l req) s0) as Hsc.
  { split; rewrite ?Eh; try done. unfold unlisted. rewrite Eh. exact (unlisted_fresh s Hi). }
  destruct (wp_Ok _ _ _ (wp_poll_basic_add l p (requested l req) s0 Hi0 Hsc Hpath))
    as (b & s' & E' & -> & _ & Hsub).
  exists s0, s'. split; [|by split]. rewrite request_subscribe_new.
  by rewrite (bind_Ok _ _ _ _ _ (eq_trans E E')).
Qed.

(** C22: a subscription request registers.  In a reachable state a request to
    monitor a polled path answers 0 and creates one new subscription, with the
    request's number, path, kind and options and all events but none more; it
    is in its client's list, in front, and at the node of its path; the other
    subscriptions and listeners are as before. *)
Theorem subscribe_registers c k l off req s :
  reachable s -> served c k l off req s ->
  request_type req = GAM_REQ_FILE \/ request_type req = GAM_REQ_DIR ->
  request_path req <> ""%string -> polled (request_path req) s ->
  let p := next_ptr (sv_heap s) in
  exists s', gam_connection_request c off req s = Ok (0, s') /\ reachable s' /\
    subs (sv_heap s') = <[p := requested l req]> (subs (sv_heap s)) /\
    listeners (sv_heap s') = alter (fun ln => set_ln_subs (p :: ln_subs ln) ln) l
                               (listeners (sv_heap s)) /\
    registered p (request_path req) s'.
Proof.
  intros Hr Hq Ht Hpath Hpol p. pose proof (reachable_daemon_ok s Hr) as Hd.
  destruct (dm_conns _ Hd _ _ (rq_conn _ _ _ _ _ _ Hq) (rq_state _ _ _ _ _ _ Hq)) as (l' & El & Hl).
  assert (l' = l) as -> by (pose proof (rq_listener _ _ _ _ _ _ Hq); congruence).
  destruct (subscribe_outcome l req s Hd Hl Hpath Hpol) as (s0 & s' & E & Hs0 & Es & Els & Hreg).
  assert (gam_connection_request c off req s = Ok (0, s')) as E'.
  { rewrite (served_dispatch c k l off req s Hd Hq).
    assert ((request_type req =? GAM_REQ_FILE) || (request_type req =? GAM_REQ_DIR) = true) as ->
      by by destruct Ht as [-> | ->]. exact E. }
  destruct Hs0 as (Eh & _). rewrite Eh in Es, Els. exists s'. split; [exact E'|].
  split; [|split; [exact Es|split; [exact Els|exact Hreg]]].
  apply (reachable_step s); [done|].
  apply (step_request c off req 0); [|done]. split; [|by right].
  exists k. split; apply Hq.
Qed.

Lemma cancel_outcome c k l ln req p sb s :
  daemon_ok s -> conns (sv_heap s) !! c = Some k -> listeners (sv_heap s) !! l = Some ln ->
  gam_listener_get_subscription_by_reqno l (pk_seq req) s = Ok (Some p, s) ->
  subs (sv_heap s) !! p = Some sb -> polled (sub_path sb) s -> ~ stuck p (dropped l p ln s) ->
  exists s', request_cancel c l (pk_seq req) s = Ok (0, s') /\
    subs (sv_heap s') = delete p (subs (sv_heap s)) /\ unlisted p s' /\
    listeners (sv_heap s') = listeners (sv_heap (dropped l p ln s)).
Proof.
  intros Hd Hc Hl Hfind Hsb Hpol Hns. pose proof (dm_inv _ Hd) as Hi.
  destruct (by_reqno_outcome l ln (pk_seq req) s Hi Hl) as (o & E & Hp).
  assert (o = Some p) as -> by congruence. clear E.
  destruct (dm_paths _ Hd l ln p Hl Hp) as (sb' & Hsb' & Hpath & Hlen).
  destruct (inv_conns _ _ Hi c) as (k0 & _ & Hc0 & Hfd & _); [by exists k|].
  assert (sb' = sb) as -> by congruence. assert (k0 = k) as -> by congruence. clear Hc0 Hsb'.
  destruct (inv_listener _ _ Hi _ _ Hl) as (_ & _ & Hreg).
  destruct (Hreg p Hp) as (sb' & Hsb' & _ & n & x & Hh & Hn & Hpx); [done|].
  assert (sb' = sb) as -> by congruence. clear Hsb' Hreg.
  pose proof (inv_dropped l p ln s Hi Hl Hp) as Hi1. set (s1 := dropped l p ln s) in *.
  destruct (polled_dispatch p sb s1 Hsb Hpol (dm_poll _ Hd)) as [_ Erm].
  set (s0 := looked_up _ s1) in Erm. assert (same_store s1 s0) as Hs0 by done.
  destruct (inv_same_store idle s1 s0 Hs0 Hi1) as [Hi0 _]. destruct Hs0 as (Eh & Et & _).
  assert (match gam_poll_basic_remove_subscription p s0 with
    | Ok (b, s2) => unlisted p s2 /\ subs (sv_heap s2) = delete p (subs (sv_heap s)) /\
        listeners (sv_heap s2) = listeners (sv_heap s1)
    | Fault _ => False end) as Hout.
  { pose proof (dropped_unheld l p ln s Hi Hl Hp) as Hno.
    pose proof (poll_remove_outcome idle p sb n x s0 Hi0) as Hout. unfold unheld in Hout, Hno.
    rewrite Eh, Et in Hout. specialize (Hout Hsb Hh Hn Hpx Hno).
    destruct (negb (nd_is_dir x) && last_of_parent p x) eqn:Ex.
    - exfalso. apply Hns. apply andb_true_iff in Ex as [?%negb_true_iff ?]. by exists sb, n, x.
    - destruct Hout as (s2 & -> & _ & ? & ? & El & _). split; [|done]. split; [done|].
      intros l' ln'. rewrite El. intros Hl' Hin. by discriminate (Hno l' ln' Hl' Hin). }
  unfold request_cancel. rewrite (bind_Ok _ _ _ _ _ Hfind), (bind_Ok _ _ _ _ _ (load_sub_Ok _ _ _ Hsb)).
  destruct (wp_Ok _ _ _ (wp_listener_remove l p ln s Hi Hl Hp)) as ([] & s1' & E & ->).
  rewrite (bind_Ok _ _ _ _ _ E). clear E. fold s1.
  pose proof (keeps_remove_subscription (Some p) s1) as Hkeep. rewrite <- Erm in Hout.
  unfold mbind at 1, ST_bind at 1.
  destruct (gam_remove_subscription (Some p) s1) as [[b s2]|e]; [|done].
  destruct Hout as (Hu & Es & Els). rewrite (bind_Ok _ _ _ _ _ (free_none (sub_path sb) p s2)).
  destruct (conns_view_lookup s1 s2 c k Hkeep Hc) as (k2 & Hc2 & Ev).
  assert (cn_fd k2 = cn_fd k) as Efd by exact (f_equal cn_fd Ev).
  simpl gam_subscription_pathlen. rewrite Hlen.
  destruct (wp_Ok _ _ _ (wp_send_ack c k2 (pk_seq req) (sub_path sb) s2 Hc2 ltac:(by rewrite Efd) Hpath))
    as (r & s3 & E & Eh3 & _).
  rewrite (bind_Ok _ _ _ _ _ E). exists s3. split; [done|]. unfold unlisted. by rewrite Eh3.
Qed.

(** C23: a cancellation request unregisters.  In a reachable state the request
    to cancel a subscription of the client to a polled path answers 0, unless
    the node is stuck; the subscription is freed, and no listener and no node
    refers to it any more; the other subscriptions are as before. *)
Theorem cancel_unregisters c k l ln off req p sb s :
  reachable s -> served c k l off req s -> request_type req = GAM_REQ_CANCEL ->
  listeners (sv_heap s) !! l = Some ln ->
  gam_listener_get_subscription_by_reqno l (pk_seq req) s = Ok (Some p, s) ->
  subs (sv_heap s) !! p = Some sb -> polled (sub_path sb) s -> ~ stuck p (dropped l p ln s) ->
  exists s', gam_connection_request c off req s = Ok (0, s') /\ reachable s' /\
    subs (sv_heap s') = delete p (subs (sv_heap s)) /\ unlisted p s' /\
    listeners (sv_heap s') = listeners (sv_heap (dropped l p ln s)).
Proof.
  intros Hr Hq Ht Hl Hfind Hsb Hpol Hns. pose proof (reachable_daemon_ok s Hr) as Hd.
  destruct (cancel_outcome c k l ln req p sb s Hd (rq_conn _ _ _ _ _ _ Hq) Hl Hfind Hsb Hpol Hns)
    as (s' & E & H).
  assert (gam_connection_request c off req s = Ok (0, s')) as E'
    by (rewrite (served_dispatch c k l off req s Hd Hq), Ht; exact E).
  exists s'. split; [exact E'|]. split; [|exact H]. apply (reachable_step s); [done|].
  apply (step_request c off req 0); [|done]. split; [|by left]. exists k. split; apply Hq.
Qed.
(** Without a kernel backend (the option [--pollonly]), a request to
    monitor a path whose filesystem is to be watched by the kernel answers 0,
    but nothing is monitored: no node and no listener is changed, the polling
    backend is not asked. *)
Theorem kernel_path_unmonitored c k l off req s :
  reachable s -> served c k l off req s ->
  request_type req = GAM_REQ_FILE \/ request_type req = GAM_REQ_DIR ->
  gam_exclude_check (sv_excludes s) (Some (request_path req)) = false ->
  (gam_fs_get_mon_type (request_path req) (sv_fs s, sv_world s)).1 = GFS_MT_KERNEL ->
  exists s', gam_connection_request c off req s = Ok (0, s') /\
    nodes (sv_heap s') = nodes (sv_heap s) /\ listeners (sv_heap s') = listeners (sv_heap s) /\
    sv_tree s' = sv_tree s /\ sv_lists s' = sv_lists s.
Proof.
  intros Hr Hq Ht Hex Hmt. pose proof (reachable_daemon_ok s Hr) as Hd.
  rewrite (served_dispatch c k l off req s Hd Hq).
  assert ((request_type req =? GAM_REQ_FILE) || (request_type req =? GAM_REQ_DIR) = true) as ->
    by by destruct Ht as [-> | ->].
  destruct (gam_fs_get_mon_type (request_path req) (sv_fs s, sv_world s)) as [t fw] eqn:Et.
  simpl in Hmt. subst t. exists (set_sv_fs fw (with_new_sub (requested l req) s)). split; [|done].
  rewrite request_subscribe_new.
  assert (gam_add_subscription (Some (next_ptr (sv_heap s))) (with_new_sub (requested l req) s)
    = Ok (false, set_sv_fs fw (with_new_sub (requested l req) s))) as E.
  { unfold gam_add_subscription.
    rewrite (bind_Ok _ _ _ (requested l req) (with_new_sub (requested l req) s)).
    - change (sub_path (requested l req)) with (request_path req).
      rewrite (bind_Ok _ _ _ false (with_new_sub (requested l req) s))
        by (unfold gets; cbn [sv_excludes with_new_sub upd_heap]; by rewrite Hex).
      rewrite (bind_Ok _ _ _ GFS_MT_KERNEL (set_sv_fs fw (with_new_sub (requested l req) s)))
        by (unfold fs_call; cbn [sv_fs sv_world with_new_sub upd_heap]; by rewrite Et).
      unfold gam_kernel_add_subscription, gam_server_get_kernel_handler, gets, mbind, ST_bind. simpl.
      by rewrite (dm_kernel _ Hd).
    - apply load_sub_Ok. simpl. by rewrite lookup_insert, decide_True. }
  by rewrite (bind_Ok _ _ _ _ _ E).
Qed.
End Service.

(** ** Witnesses *)

#[local] Existing Instance sim_glib.

(** What the run of a script leaves of the connection, as data. *)
Lemma served_run (cmds : list (command (os := sim_os))) l req :
  (fun k : GamConnData => (cn_state k, cn_listener k)) <$> (conns (sv_heap (final cmds)) !! run_conn)
    = Some (GAM_STATE_OKAY, Some l) ->
  pk_pathlen req < MAXPATHLEN -> GAM_PACKET_HEADER_LEN + pk_pathlen req < sizeof_GAMPacket ->
  exists k, served run_conn k l 0 req (final cmds).
Proof.
  intros (k & Hk & Hkl)%fmap_Some Hsh Hfit. injection Hkl as Hs Hl. exists k. by split.
Qed.

Definition connected_script : list (command (os := sim_os)) :=
  [Accept 7; Authenticate run_conn 42].

Lemma subscribe_registers_witness :
  let req := packet 1 GAM_REQ_DIR "/home/d" in
  exists s', gam_connection_request run_conn 0 req (final connected_script) = Ok (0, s') /\
    registered 4%positive "/home/d" s'.
Proof.
  intros req.
  destruct (served_run connected_script run_listener req ltac:(vm_compute; reflexivity)
    ltac:(vm_compute; reflexivity) ltac:(vm_compute; reflexivity)) as [k Hk].
  assert (reachable (final connected_script)) as Hr
    by (apply final_reachable; vm_compute; reflexivity).
  assert (polled (request_path req) (final connected_script)) as Hp
    by (split; vm_compute; reflexivity).
  destruct (subscribe_registers run_conn k run_listener 0 req (final connected_script) Hr Hk
    ltac:(right; vm_compute; reflexivity) ltac:(vm_compute; discriminate) Hp)
    as (s' & E & _ & _ & _ & Hreg).
  exists s'. split; [exact E|]. exact Hreg.
Defined.

Lemma cancel_unregisters_witness :
  let req := packet 1 GAM_REQ_CANCEL "" in
  exists s', gam_connection_request run_conn 0 req (final subscribe_script) = Ok (0, s') /\
    unlisted 4%positive s'.
Proof.
  intros req.
  destruct (served_run subscribe_script run_listener req ltac:(vm_compute; reflexivity)
    ltac:(vm_compute; reflexivity) ltac:(vm_compute; reflexivity)) as [k Hk].
  assert (reachable (final subscribe_script)) as Hr
    by (apply final_reachable; vm_compute; reflexivity).
  destruct (listeners (sv_heap (final subscribe_script)) !! run_listener) as [ln|] eqn:Hl;
    [|vm_compute in Hl; discriminate Hl].
  destruct (subs (sv_heap (final subscribe_script)) !! 4%positive) as [sb|] eqn:Hsb;
    [|vm_compute in Hsb; discriminate Hsb].
  assert (sub_path sb = "/home/d"%string) as Hpath by (vm_compute in Hsb; injection Hsb as <-; reflexivity).
  assert (gam_listener_get_subscription_by_reqno run_listener (pk_seq req) (final subscribe_script)
    = Ok (Some 4%positive, final subscribe_script)) as Hfind by (vm_compute; reflexivity).
  assert (polled (sub_path sb) (final subscribe_script)) as Hp
    by (rewrite Hpath; split; vm_compute; reflexivity).
  assert (~ stuck 4%positive (dropped run_listener 4%positive ln (final subscribe_script))) as Hns.
  { intros (sb' & n & x & Hs' & Hh & Hn & Hd & _). vm_compute in Hl. injection Hl as <-.
    vm_compute in Hs'. injection Hs' as <-. vm_compute in Hh. injection Hh as <-.
    vm_compute in Hn. injection Hn as <-. discriminate Hd. }
  destruct (cancel_unregisters run_conn k run_listener ln 0 req 4%positive sb
    (final subscribe_script) Hr Hk ltac:(vm_compute; reflexivity) Hl Hfind Hsb Hp Hns)
    as (s' & E & _ & _ & Hu & _).
  exists s'. split; [exact E|exact Hu].
Defined.

Lemma kernel_path_unmonitored_witness :
  let req := packet 1 GAM_REQ_DIR "/tmp" in
  exists s', gam_connection_request run_conn 0 req (final connected_script) = Ok (0, s') /\
    listed_subs s' = [].
Proof.
  intros req.
  destruct (served_run connected_script run_listener req ltac:(vm_compute; reflexivity)
    ltac:(vm_compute; reflexivity) ltac:(vm_compute; reflexivity)) as [k Hk].
  assert (reachable (final connected_script)) as Hr
    by (apply final_reachable; vm_compute; reflexivity).
  destruct (kernel_path_unmonitored run_conn k run_listener 0 req (final connected_script) Hr Hk
    ltac:(right; vm_compute; reflexivity) ltac:(vm_compute; reflexivity) ltac:(vm_compute; reflexivity))
    as (s' & E & _ & El & _).
  exists s'. split; [exact E|]. unfold listed_subs. rewrite El. vm_compute. reflexivity.
Defined.
