(* ===== verification/PollSpec.v ===== *)
(** * What polling a file reports

    [gam_poll_basic_poll_file] as a state machine over one bit, whether the file
    was missing at the last poll. *)

From S2P Require Import Prelude Protocol Monad OS Fs State Subscription.
From S2P Require Import Listener Node Tree Emit PollGeneric PollBasic.

Local Open Scope Z_scope.

(** The node is marked as missing. *)
Definition node_missing (x : GamNode) : bool := ztest (nd_pflags x .& MON_MISSING).

(** Two answers of [stat] about a file that, as far as they tell, was not
    written to in between: it was modified and its inode changed at the same
    instants, to the nanosecond, and it has the same length.  Whether it is a
    directory does not count. *)
Record looks_same (old new : stat_t) : Prop := {
  same_mtime : (st_mtime old, st_mtime_nsec old) = (st_mtime new, st_mtime_nsec new);
  same_ctime : (st_ctime old, st_ctime_nsec old) = (st_ctime new, st_ctime_nsec new);
  same_size : st_size old = st_size new
}.

#[export] Instance looks_same_dec old new : Decision (looks_same old new).
Proof.
  refine (cast_if (decide (
    ((st_mtime old, st_mtime_nsec old), (st_ctime old, st_ctime_nsec old), st_size old) =
    ((st_mtime new, st_mtime_nsec new), (st_ctime new, st_ctime_nsec new), st_size new))));
    abstract (first [intros [H1 H2 H3]; congruence | split; congruence]).
Defined.

(** The comparison of the code answers that question. *)
Lemma node_changed_spec old new :
  gam_poll_generic_node_changed old new = negb (bool_decide (looks_same old new)).
Proof.
  apply eq_true_iff_eq. unfold gam_poll_generic_node_changed.
  rewrite !orb_true_iff, !negb_true_iff, !Z.eqb_neq, bool_decide_eq_false. split.
  - intros H [H1 H2 H3]. simplify_eq. intuition congruence.
  - intros H. destruct (decide (st_mtime old = st_mtime new)); [|tauto].
    destruct (decide (st_mtime_nsec old = st_mtime_nsec new)); [|tauto].
    destruct (decide (st_size old = st_size new)); [|tauto].
    destruct (decide (st_ctime old = st_ctime new)); [|tauto].
    destruct (decide (st_ctime_nsec old = st_ctime_nsec new)); [|tauto].
    destruct H. split; congruence.
Qed.

(** The reference: the event a poll reports, from the bit, the previous [stat]
    and the result of the new one. *)
Definition verdict (missing : bool) (old : stat_t) (r : sysres stat_t) : Z :=
  match r with
  | SysErr e => if (e =? ENOENT) && negb missing then GAMIN_EVENT_DELETED else 0
  | SysOk sbuf =>
      if missing then GAMIN_EVENT_CREATED
      else if decide (looks_same old sbuf) then 0 else GAMIN_EVENT_CHANGED
  end.

Lemma changed_event old new :
  (if gam_poll_generic_node_changed old new then GAMIN_EVENT_CHANGED else 0)
  = (if decide (looks_same old new) then 0 else GAMIN_EVENT_CHANGED).
Proof.
  rewrite node_changed_spec. destruct (decide (looks_same old new)).
  - by rewrite bool_decide_eq_true_2.
  - by rewrite bool_decide_eq_false_2.
Qed.

(** And the bit afterwards: any answer but "no such file" keeps or clears it. *)
Definition missing_after (missing : bool) (r : sysres stat_t) : bool :=
  match r with SysErr e => missing || (e =? ENOENT) | SysOk _ => false end.

Lemma missing_set : ztest (MON_MISSING .& MON_MISSING) = true.
Proof. done. Qed.

Lemma missing_unset f : ztest ((f .& (~. MON_MISSING)) .& MON_MISSING) = false.
Proof. apply ztest_false. rewrite <- Z.land_assoc. by rewrite Z.land_0_r. Qed.

Section PollSpec.
Context {os : OS} {glib : GLib} {kern : KernelState}.

(** The poll comes too early. *)
Definition too_early (x : GamNode) (s : server) : bool :=
  (if current_time s >=? nd_lasttime x then current_time s - nd_lasttime x else 0) <? nd_poll_time x.

(** Only the resource lists, some node and the world differ. *)
Lemma wp_node_update n x f (Q : unit -> server -> Prop) s :
  nodes (sv_heap s) !! n = Some x ->
  (forall s', nodes (sv_heap s') !! n = Some (f x) -> current_time s' = current_time s ->
     sv_world s' = sv_world s -> Q tt s') ->
  wp (update n f) Q s.
Proof.
  intros Hn HQ. apply (wp_update (H := node_obj)) with x; [exact Hn|]. apply HQ; [|done|done].
  simpl. by rewrite lookup_insert, decide_True.
Qed.

Lemma wp_modify_lists f (Q : unit -> server -> Prop) s :
  (forall s', sv_heap s' = sv_heap s -> current_time s' = current_time s -> Q tt s') ->
  wp (modify (upd_lists f)) Q s.
Proof. intros HQ. apply wp_modify. by apply HQ. Qed.

Lemma wp_missing_lists n (Q : unit -> server -> Prop) s :
  (forall s', sv_heap s' = sv_heap s -> current_time s' = current_time s -> Q tt s') ->
  wp (gam_poll_generic_remove_busy n) (fun _ => wp (gam_poll_generic_add_missing n) Q) s /\
  wp (gam_poll_generic_remove_missing n) Q s.
Proof.
  intros HQ. unfold gam_poll_generic_remove_busy, gam_poll_generic_add_missing,
    gam_poll_generic_remove_missing. split.
  - apply wp_bind, wp_gets. destruct (negb _).
    + apply wp_ret, wp_bind, wp_gets. destruct (g_list_find _ n); [by apply wp_ret, HQ|].
      by apply wp_modify_lists.
    + apply wp_modify, wp_bind, wp_gets. destruct (g_list_find _ n); [by apply wp_ret, HQ|].
      apply wp_modify, HQ; done.
  - apply wp_bind, wp_gets. destruct (g_list_find _ n); [by apply wp_modify_lists|by apply wp_ret, HQ].
Qed.

(** What a poll at time [t] with answer [r] makes of a node, but for the saved
    [stat]. *)
Record marked (t : Z) (x : GamNode) (r : sysres stat_t) (x' : GamNode) : Prop := {
  mk_missing : node_missing x' = missing_after (node_missing x) r;
  mk_lasttime : nd_lasttime x' = t;
  mk_path : nd_path x' = nd_path x;
  mk_poll_time : nd_poll_time x' = nd_poll_time x
}.

(** All of it. *)
Definition saved (r : sysres stat_t) : stat_t :=
  match r with SysOk sbuf => sbuf | SysErr _ => stat_zero end.
Definition polled (t : Z) (x : GamNode) (r : sysres stat_t) (x' : GamNode) : Prop :=
  marked t x r x' /\ nd_sbuf x' = saved r.

(** The end of the function. *)
Lemma wp_poll_tail n x r (ev : Z) x2 s :
  nodes (sv_heap s) !! n = Some x2 -> marked (current_time s) x r x2 ->
  wp (_ ← match r with SysOk sbuf => gam_node_set_is_dir n (st_dir sbuf) | SysErr _ => mret tt end;
      _ ← update n (set_nd_sbuf (saved r));
      mret ev)
    (fun e s' => e = ev /\ current_time s' = current_time s /\
       exists x', nodes (sv_heap s') !! n = Some x' /\ polled (current_time s) x r x') s.
Proof.
  intros Hn [Hm Ht Hp Hpt].
  assert (forall x3 s3, nodes (sv_heap s3) !! n = Some x3 -> marked (current_time s) x r x3 ->
    current_time s3 = current_time s ->
    wp (_ ← update n (set_nd_sbuf (saved r)); mret ev)
      (fun e s' => e = ev /\ current_time s' = current_time s /\
       exists x', nodes (sv_heap s') !! n = Some x' /\ polled (current_time s) x r x') s3) as Hsave.
  { intros x3 s3 Hn3 [Hm3 Ht3 Hp3 Hpt3] E3. apply wp_bind, (wp_node_update n x3); [done|].
    intros s4 Hn4 E4 _. apply wp_ret. split; [done|]. split; [congruence|].
    eexists. split; [exact Hn4|]. by split. }
  apply wp_bind. destruct r as [sbuf|e]; [|by apply wp_ret, (Hsave x2)].
  unfold gam_node_set_is_dir. apply (wp_node_update n x2); [done|]. intros s3 Hn3 E3 _.
  by eapply Hsave.
Qed.

(** A poll of a node that was polled before. *)
Lemma wp_poll_again n x s :
  nodes (sv_heap s) !! n = Some x ->
  let r := (sys_stat (nd_path x) (sv_world s)).1 in
  wp (poll_file_again n (nd_path x)) (fun e s' =>
    e = verdict (node_missing x) (nd_sbuf x) r /\ current_time s' = current_time s /\
    exists x', nodes (sv_heap s') !! n = Some x' /\ polled (current_time s) x r x') s.
Proof.
  intros Hn r. unfold poll_file_again, gam_poll_generic_get_time. apply wp_bind, wp_gets, wp_bind.
  apply (wp_node_update n x); [done|]. set (x1 := set_nd_lasttime (current_time s) x).
  intros s1 Hn1 E1 Ew1. apply wp_bind, wp_sys. rewrite Ew1. intros r' w Hr.
  assert (r' = r) as -> by (unfold r; by rewrite Hr). clear Hr. set (s2 := set_sv_world w s1).
  assert (nodes (sv_heap s2) !! n = Some x1) as Hn2 by exact Hn1.
  assert (current_time s2 = current_time s) as E2 by exact E1. clearbody s2.
  unfold gam_node_has_pflag. apply wp_bind, wp_bind, wp_assert; [done|].
  apply wp_bind, (wp_load (H := node_obj)) with x1; [exact Hn2|]. apply wp_ret.
  change (ztest (nd_pflags x1 .& MON_MISSING)) with (node_missing x).
  (* the flag and the lists, then the end *)
  assert (forall ev x2 s3, nodes (sv_heap s3) !! n = Some x2 -> current_time s3 = current_time s ->
    marked (current_time s) x r x2 -> ev = verdict (node_missing x) (nd_sbuf x) r ->
    wp (_ ← match r with SysOk sbuf => gam_node_set_is_dir n (st_dir sbuf) | SysErr _ => mret tt end;
        _ ← update n (set_nd_sbuf (saved r)); mret ev)
      (fun e s' => e = verdict (node_missing x) (nd_sbuf x) r /\ current_time s' = current_time s /\
       exists x', nodes (sv_heap s') !! n = Some x' /\ polled (current_time s) x r x') s3) as Hend.
  { intros ev x2 s3 Hn3 E3 Hm ->. rewrite <- E3 in *. by apply (wp_poll_tail n x r _ x2). }
  apply wp_bind. destruct r as [sbuf|err].
  - destruct (node_missing x) eqn:Hmiss.
    + unfold gam_node_unset_pflag. apply wp_bind, wp_bind, wp_assert; [done|].
      apply (wp_node_update n x1); [done|]. intros s3 Hn3 E3 _. apply wp_bind.
      apply wp_missing_lists. intros s4 Eh4 E4. apply wp_ret. rewrite <- Eh4 in Hn3.
      eapply Hend; [exact Hn3|congruence| |done].
      split; try done. unfold node_missing. simpl. apply missing_unset.
    + apply wp_bind, (wp_load (H := node_obj)) with x1; [exact Hn2|]. apply wp_ret.
      eapply Hend; [exact Hn2|done|by split|]. apply changed_event.
  - destruct ((err =? ENOENT) && negb (node_missing x)) eqn:Hgone.
    + unfold gam_node_set_pflags. apply wp_bind, (wp_node_update n x1); [done|].
      intros s3 Hn3 E3 _. apply wp_bind. eapply wp_mono.
      { apply (wp_missing_lists n (fun _ s' => sv_heap s' = sv_heap s3 /\
          current_time s' = current_time s3) s3). by intros s' ? ?. }
      intros [] s4 H4. apply wp_bind. eapply wp_mono; [exact H4|].
      intros [] s5 [Eh5 E5]. apply wp_ret. rewrite <- Eh5 in Hn3.
      eapply Hend; [exact Hn3|congruence| |simpl; by rewrite Hgone].
      split; try done. simpl. apply andb_true_iff in Hgone as [-> _]. by rewrite orb_true_r.
    + apply wp_ret. eapply Hend; [exact Hn2|done| |simpl; by rewrite Hgone].
      split; try done. simpl. change (node_missing x1) with (node_missing x).
      by destruct (node_missing x), (err =? ENOENT).
Qed.

(** Polling a known file.  Unless it is too early, which changes nothing,
    [gam_poll_basic_poll_file] asks for one [stat] and reports what the
    reference says; the node remembers whether the file is missing, the answer
    and the time. *)
Lemma poll_again_refines n x s :
  nodes (sv_heap s) !! n = Some x -> nd_lasttime x <> 0 ->
  if too_early x s then gam_poll_basic_poll_file n s = Ok (0, s)
  else
    let r := (sys_stat (nd_path x) (sv_world s)).1 in
    exists s' x', gam_poll_basic_poll_file n s
                  = Ok (verdict (node_missing x) (nd_sbuf x) r, s') /\
      nodes (sv_heap s') !! n = Some x' /\ polled (current_time s) x r x'.
Proof.
  intros Hn Ht. unfold gam_poll_basic_poll_file. rewrite (bind_Ok _ _ _ _ _ (load_node_Ok _ _ _ Hn)).
  assert (gam_poll_generic_get_delta_time (nd_lasttime x) s
    = Ok (if current_time s >=? nd_lasttime x then current_time s - nd_lasttime x else 0, s)) as E by done.
  rewrite (bind_Ok _ _ _ _ _ E). fold (too_early x s).
  rewrite (proj2 (Z.eqb_neq _ _) Ht). cbn [negb andb]. destruct (too_early x s); [done|].
  destruct (wp_Ok _ _ _ (wp_poll_again n x s Hn)) as (e & s' & -> & -> & _ & x' & Hx' & Hp).
  by exists s', x'.
Qed.

(** The first poll of a node. *)
Definition first_polled (t : Z) (x : GamNode) (r : sysres stat_t) (x' : GamNode) : Prop :=
  node_missing x' = match r with SysOk _ => node_missing x | SysErr _ => true end /\
  nd_lasttime x' = t /\ nd_path x' = nd_path x /\ nd_sbuf x' = saved r /\
  nd_is_dir x' = match r with SysOk sbuf => st_dir sbuf | SysErr _ => nd_is_dir x end.

Lemma ztest_lor_self f : ztest ((f .| MON_MISSING) .& MON_MISSING) = true.
Proof.
  apply ztest_true. intros H. apply (f_equal (fun z => Z.testbit z 0)) in H.
  rewrite Z.land_spec, Z.lor_spec, Z.bits_0 in H. simpl in H. by rewrite orb_true_r in H.
Qed.

Lemma wp_poll_first n x s :
  nodes (sv_heap s) !! n = Some x ->
  let r := (sys_stat (nd_path x) (sv_world s)).1 in
  wp (poll_file_first n (nd_path x)) (fun e s' =>
    e = (match r with SysOk _ => 0 | SysErr _ => GAMIN_EVENT_DELETED end) /\
    exists x', nodes (sv_heap s') !! n = Some x' /\ first_polled (current_time s) x r x') s.
Proof.
  intros Hn r. unfold poll_file_first. apply wp_bind, wp_sys. intros r' w Hr.
  assert (r' = r) as -> by (unfold r; by rewrite Hr). clear Hr. set (s1 := set_sv_world w s).
  apply wp_bind. eapply wp_mono with (Q := fun _ s2 => current_time s2 = current_time s /\
    exists x2, nodes (sv_heap s2) !! n = Some x2 /\ nd_path x2 = nd_path x /\
      node_missing x2 = (match r with SysOk _ => node_missing x | SysErr _ => true end) /\
      nd_is_dir x2 = (match r with SysOk sbuf => st_dir sbuf | SysErr _ => nd_is_dir x end)).
  { destruct r as [sbuf|err].
    - unfold gam_node_set_is_dir. apply (wp_node_update n x); [done|]. intros s2 Hn2 E2 _.
      split; [done|]. eexists. by split.
    - unfold gam_node_set_pflag. apply wp_bind, wp_assert; [done|].
      apply (wp_node_update n x); [done|]. intros s2 Hn2 E2 _. split; [done|]. eexists.
      split; [exact Hn2|]. split; [done|]. split; [apply ztest_lor_self|done]. }
  intros [] s2 (E2 & x2 & Hn2 & Hp2 & Hm2 & Hd2).
  apply wp_bind, (wp_node_update n x2); [done|]. intros s3 Hn3 E3 _.
  unfold gam_poll_generic_get_time. apply wp_bind, wp_gets, wp_bind, (wp_node_update n _ _ _ _ Hn3).
  intros s4 Hn4 _ _. apply wp_ret. split; [done|]. eexists. split; [exact Hn4|].
  split; [exact Hm2|]. split; [simpl; congruence|]. split; [done|]. by split.
Qed.

(** C14: polling a file.  Unless it is too early, which changes nothing,
    [gam_poll_basic_poll_file] asks for one [stat].  The first time it only
    reports a file that is not there; afterwards it reports what the reference
    [verdict] says: a file that is gone, one that is back, or one whose answer
    does not look the same ([looks_same]) as the answer before.  The node remembers the answer, the time, and whether the
    file is missing. *)
Theorem poll_file_refines n x s :
  nodes (sv_heap s) !! n = Some x ->
  let r := (sys_stat (nd_path x) (sv_world s)).1 in
  if nd_lasttime x =? 0 then
    exists s' x', gam_poll_basic_poll_file n s
        = Ok (match r with SysOk _ => 0 | SysErr _ => GAMIN_EVENT_DELETED end, s') /\
      nodes (sv_heap s') !! n = Some x' /\ first_polled (current_time s) x r x'
  else if too_early x s then gam_poll_basic_poll_file n s = Ok (0, s)
  else
    exists s' x', gam_poll_basic_poll_file n s
        = Ok (verdict (node_missing x) (nd_sbuf x) r, s') /\
      nodes (sv_heap s') !! n = Some x' /\ polled (current_time s) x r x'.
Proof.
  intros Hn r. destruct (Z.eqb_spec (nd_lasttime x) 0) as [Ht|Ht].
  - unfold gam_poll_basic_poll_file. rewrite (bind_Ok _ _ _ _ _ (load_node_Ok _ _ _ Hn)).
    rewrite (bind_Ok _ _ s (if current_time s >=? nd_lasttime x then current_time s - nd_lasttime x else 0) s)
      by done.
    rewrite Ht. cbn [Z.eqb negb andb].
    destruct (wp_Ok _ _ _ (wp_poll_first n x s Hn)) as (e & s' & -> & -> & x' & Hx' & Hp).
    by exists s', x'.
  - pose proof (poll_again_refines n x s Hn Ht) as H. by destruct (too_early x s).
Qed.

(** ** Histories *)

(** Deletions and creations take turns. *)
Inductive alternates : bool -> list Z -> Prop :=
  | alt_nil m : alternates m []
  | alt_quiet m e l : e = 0 \/ e = GAMIN_EVENT_CHANGED -> alternates m l -> alternates m (e :: l)
  | alt_deleted l : alternates true l -> alternates false (GAMIN_EVENT_DELETED :: l)
  | alt_created l : alternates false l -> alternates true (GAMIN_EVENT_CREATED :: l).

Lemma alternates_verdict m old r l :
  alternates (missing_after m r) l -> alternates m (verdict m old r :: l).
Proof.
  destruct r as [sbuf|e], m; simpl; intros H.
  - by constructor.
  - apply alt_quiet; [destruct (decide (looks_same _ _)); auto|done].
  - rewrite andb_false_r. apply alt_quiet; [by left|done].
  - destruct (e =? ENOENT); simpl; [by constructor|]. apply alt_quiet; [by left|done].
Qed.

(** Polling one node again and again, each time in another world at another
    time. *)
Fixpoint poll_history (n : ptr) (ws : list (world * Z)) : ST server (list Z) :=
  match ws with
  | [] => mret []
  | (w, t) :: ws =>
      _ ← modify (fun s => set_current_time t (set_sv_world w s));
      e ← gam_poll_basic_poll_file n;
      es ← poll_history n ws;
      mret (e :: es)
  end.

(** C26: deletions and creations alternate.  Whatever happens to the file
    system between the polls and whatever [stat] answers, the events reported
    for one file over time never contain two deletions without a creation in
    between nor two creations without a deletion, beginning with the kind that
    fits what was known at the start. *)
Theorem deletions_and_creations_alternate n ws x s :
  nodes (sv_heap s) !! n = Some x -> nd_lasttime x <> 0 ->
  Forall (fun wt => wt.2 <> 0) ws ->
  exists es s', poll_history n ws s = Ok (es, s') /\ length es = length ws /\
    alternates (node_missing x) es.
Proof.
  revert x s. induction ws as [|[w t] ws IH]; intros x s Hn Ht Hws; simpl.
  { exists [], s. split; [done|]. split; [done|constructor]. }
  apply Forall_cons in Hws as [Htt Hws]. simpl in Htt.
  set (s1 := set_current_time t (set_sv_world w s)).
  assert (modify (fun s => set_current_time t (set_sv_world w s)) s = Ok (tt, s1)) as E by done.
  rewrite (bind_Ok _ _ _ _ _ E). clear E.
  pose proof (poll_again_refines n x s1 Hn Ht) as Hp. destruct (too_early x s1).
  - rewrite (bind_Ok _ _ _ _ _ Hp). destruct (IH x s1 Hn Ht Hws) as (es & s' & E & Hl & Ha).
    rewrite (bind_Ok _ _ _ _ _ E). exists (0 :: es), s'. split; [done|]. split; [simpl; congruence|].
    apply alt_quiet; [by left|done].
  - destruct Hp as (s2 & x2 & E & Hn2 & [Hm Ht2 _ _] & _). rewrite (bind_Ok _ _ _ _ _ E). clear E.
    destruct (IH x2 s2 Hn2 ltac:(by rewrite Ht2) Hws) as (es & s' & E & Hl & Ha).
    rewrite (bind_Ok _ _ _ _ _ E). eexists _, s'. split; [done|]. split; [simpl; congruence|].
    apply alternates_verdict. by rewrite <- Hm.
Qed.
End PollSpec.

(** ** Witnesses *)

Definition demo_node : GamNode :=
  mk_node "/home/f" [] true (Some 1%positive) [] false 0 0 GFS_MT_POLL 0 0 50 0
    (mk_stat false 5 0 10 5 0).
Definition demo_poll_world (files : list (string * stat_t)) : @world sim_os :=
  mk_sim files [] [] 60 [] 0 0.
Definition demo_poll_state : server (os := sim_os) (kern := no_kernel) :=
  set_current_time 60 (upd_heap (set_nodes {[2%positive := demo_node]})
    (server_initial (kern := no_kernel) tt (demo_poll_world []))).

Lemma poll_file_refines_witness :
  exists s', gam_poll_basic_poll_file 2%positive demo_poll_state = Ok (GAMIN_EVENT_DELETED, s').
Proof.
  destruct (poll_file_refines 2%positive demo_node demo_poll_state eq_refl) as (s' & x' & E & _).
  exists s'. exact E.
Defined.

Lemma deletions_and_creations_alternate_witness :
  let ws := [(demo_poll_world [], 61); (demo_poll_world [], 62);
             (demo_poll_world [("/home/f"%string, mk_stat false 7 0 10 7 0)], 63);
             (demo_poll_world [], 64)] in
  exists es s', poll_history 2%positive ws demo_poll_state = Ok (es, s') /\
    es = [GAMIN_EVENT_DELETED; 0; GAMIN_EVENT_CREATED; GAMIN_EVENT_DELETED] /\ alternates false es.
Proof.
  intros ws.
  destruct (deletions_and_creations_alternate 2%positive ws demo_node demo_poll_state eq_refl
    ltac:(discriminate) ltac:(repeat constructor; discriminate)) as (es & s' & E & _ & Ha).
  exists es, s'. split; [exact E|]. split; [|exact Ha].
  vm_compute in E. injection E as <- _. reflexivity.
Defined.
