(* ===== verification/KernelClients.v ===== *)
(** * Clients of a kernel backend

    What subscribes, unsubscribes and frees subscriptions is the code of the
    connections ([gam_connection_request], [gam_listener_free]), which asks
    [gam_add_subscription] and [gam_remove_subscription] for the backend.
    [KernelSafe] is what a kernel backend promises to this code; under it the
    code completes and keeps the backend's invariant, as long as the paths are
    still the kernel's when they are looked up again. *)

From S2P Require Import Prelude Protocol EventQueue Monad OS Excludes.
From S2P Require Import Fs State Subscription Listener ConnSend Inv.
From S2P Require Import Emit PollGeneric PollBasic Safety Server Frames.
From S2P Require Import Connection.

Local Open Scope Z_scope.

(** The same subscription, up to what cancelling changes. *)
Definition alike (sb sb' : GamSubscription) : Prop :=
  sub_path sb' = sub_path sb /\ sub_pathlen sb' = sub_pathlen sb /\
  sub_is_dir sb' = sub_is_dir sb /\ sub_listener sb' = sub_listener sb /\ sub_reqno sb' = sub_reqno sb.

#[export] Instance alike_preorder : PreOrder alike.
Proof.
  split; [by intros sb|]. intros x y z (? & ? & ? & ? & ?) (? & ? & ? & ? & ?). unfold alike. intuition congruence.
Qed.

Section Kept.
Context {os : OS} {kern : KernelState}.

(** A live subscription with a live listener stays one. *)
Definition kept (q : ptr) (s s' : server) : Prop := forall sb l,
  subs (sv_heap s) !! q = Some sb -> sub_listener sb = Some l -> is_Some (listeners (sv_heap s) !! l) ->
  exists sb', subs (sv_heap s') !! q = Some sb' /\ alike sb sb' /\ is_Some (listeners (sv_heap s') !! l).

Lemma kept_sub_ok q name s s' : kept q s s' -> sub_ok q name s -> sub_ok q name s'.
Proof.
  intros Hk (sb & l & Hsb & Hp & Hlen & Hl & Hln). destruct (Hk sb l Hsb Hl Hln) as (sb' & ? & (? & ? & _ & ? & _) & ?).
  exists sb', l. split; [done|]. split; [congruence|]. split; [congruence|]. split; [congruence|done].
Qed.
End Kept.

(** What a kernel backend promises.  [ks_ghost] is what its invariant says
    about the world, which the rest of the daemon does not touch. *)
Class KernelSafe {os : OS} {kern : KernelState} (kb : KernelBackend os kern) := {
  ks_inv : server -> Prop;
  ks_held : kernel_state -> ptr -> Prop;      (** the backend refers to a subscription *)
  ks_ghost_type : Type;
  ks_ghost : world -> ks_ghost_type;
  ks_ghost_stat p w r w' : sys_stat p w = (r, w') -> ks_ghost w' = ks_ghost w;
  ks_ghost_contents p w r w' : file_contents p w = (r, w') -> ks_ghost w' = ks_ghost w;
  ks_ghost_write fd l w r w' : sys_write fd l w = (r, w') -> ks_ghost w' = ks_ghost w;
  ks_ready s : ks_inv s -> ready s;
  ks_live s q : ks_inv s -> ks_held (sv_kernel s) q -> exists name, sub_ok q name s;
  ks_elsewhere s s' : ks_inv s -> sv_kernel s' = sv_kernel s ->
    ks_ghost (sv_world s') = ks_ghost (sv_world s) -> ready s' ->
    (forall q, ks_held (sv_kernel s) q -> kept q s s') -> ks_inv s';
  ks_add sub sb l ln s : ks_inv s -> addable sub sb l ln s ->
    wp (hook_kernel_add sub) (fun _ s' => ks_inv s') s;
  ks_remove sub sb s : ks_inv s -> subs (sv_heap s) !! sub = Some sb ->
    wp (hook_kernel_remove sub) (fun _ s' => ks_inv s' /\ ~ ks_held (sv_kernel s') sub /\
      (forall q, ks_held (sv_kernel s') q -> ks_held (sv_kernel s) q) /\
      listeners (sv_heap s') = listeners (sv_heap s) /\
      forall q x, subs (sv_heap s) !! q = Some x -> exists y, subs (sv_heap s') !! q = Some y /\ alike x y) s
}.

Section Clients.
Context {os : OS} {glib : GLib} {kern : KernelState} {kb : KernelBackend os kern} {ks : KernelSafe kb} {laws : OSLaws os}.
Abbreviation M := (ST server).

(** ** What the world's part of the invariant survives *)

Lemma ghost_scan sw : ks_ghost (gam_fs_scan_mtab sw).2 = ks_ghost sw.2.
Proof.
  destruct sw as [st w]. unfold gam_fs_scan_mtab. destruct (file_contents _ w) as [[c|] w'] eqn:E;
    exact (ks_ghost_contents _ _ _ _ E).
Qed.

Lemma ghost_refresh sw : ks_ghost (gam_fs_refresh sw).2 = ks_ghost sw.2.
Proof.
  destruct sw as [st w]. unfold gam_fs_refresh. destruct (sys_stat _ w) as [r w'] eqn:E.
  pose proof (ks_ghost_stat _ _ _ _ E) as H. destruct (negb _); [|exact H].
  pose proof (ghost_scan (st, w')) as Hs. destruct (gam_fs_scan_mtab (st, w')) as [st' w'']. simpl in *. congruence.
Qed.

Lemma ghost_fs_init sw : ks_ghost (gam_fs_init sw).2 = ks_ghost sw.2.
Proof.
  unfold gam_fs_init. destruct (fs_initialized sw.1); [apply ghost_refresh|].
  assert (forall l sw', ks_ghost (foldl (fun sw '(fsname, type, timeout) =>
    let '(st, w) := gam_fs_refresh sw in (gam_fs_upsert fsname type timeout st, w)) sw' l).2 = ks_ghost sw'.2) as Hfold.
  { induction l as [|[[n t] o] l IH]; intros sw'; [done|]. simpl. rewrite IH.
    pose proof (ghost_refresh sw') as H. destruct (gam_fs_refresh sw') as [st w]. exact H. }
  specialize (Hfold default_props (set_fs_initialized true sw.1, sw.2)).
  destruct (foldl _ _ _) as [st w]. simpl in Hfold. destruct (sys_stat _ w) as [r w'] eqn:E.
  rewrite ghost_scan. simpl. by rewrite (ks_ghost_stat _ _ _ _ E).
Qed.

Lemma ghost_mon_type path sw : ks_ghost (gam_fs_get_mon_type path sw).2.2 = ks_ghost sw.2.
Proof.
  transitivity (ks_ghost (gam_fs_init (gam_fs_init sw)).2); [|by rewrite !ghost_fs_init].
  unfold gam_fs_get_mon_type, gam_fs_find_fs_props, gam_fs_find_fs. simpl. repeat case_match; simplify_eq; done.
Qed.

Lemma keeps_ghost_write fd data : keeps (fun s : server => ks_ghost (sv_world s)) (gam_client_conn_write fd data).
Proof.
  assert (forall fuel data, keeps (fun s : server => ks_ghost (sv_world s)) (conn_write_loop fuel fd data)) as Hw.
  { clear data. induction fuel as [|fuel IH]; intros data; simpl; [by intros s|].
    apply preserves_bind; [exact _| |].
    - intros s. unfold sys. destruct (sys_write fd data (sv_world s)) as [r w] eqn:E. symmetry.
      by apply (ks_ghost_write _ _ _ _ _ E).
    - intros a. preserve; apply IH. }
  unfold gam_client_conn_write. unfold keeps in *. preserve.
Qed.

Lemma keeps_ghost_ack c reqno path len : keeps (fun s : server => ks_ghost (sv_world s)) (gam_send_ack c reqno path len).
Proof. unfold gam_send_ack, send_packet. pose proof keeps_ghost_write as Hw. unfold keeps in *. preserve. Qed.

(** Where the subscriptions and listeners stay, and the backend is not
    involved. *)
Lemma ks_same_objects s s' :
  ks_inv s -> sv_kernel s' = sv_kernel s -> ks_ghost (sv_world s') = ks_ghost (sv_world s) ->
  subs (sv_heap s') = subs (sv_heap s) -> listeners (sv_heap s') = listeners (sv_heap s) ->
  conns (sv_heap s') = conns (sv_heap s) -> ks_inv s'.
Proof.
  intros Hi Ek Ew Es El Ec. apply (ks_elsewhere s); [done..| |].
  - intros l ln. rewrite El. unfold conn_ready. rewrite Ec. apply (ks_ready s Hi).
  - intros q _ sb l Hsb Hl Hln. exists sb. by rewrite Es, El.
Qed.

(** ** The backend of a path *)

(** [gam_add_subscription] and [gam_remove_subscription] would choose the
    kernel backend for [path] now: an excluded path while inotify does not
    run, or one on a file system that is watched by the kernel. *)
Definition to_kernel (path : string) (s : server) : Prop :=
  kernel_handler (sv_ctl s) <> GAMIN_K_NONE /\
  if gam_exclude_check (sv_excludes s) (Some path) then inotify_is_running (sv_kernel s) = false
  else (gam_fs_get_mon_type path (sv_fs s, sv_world s)).1 = GFS_MT_KERNEL.

(** The state after the path was looked up. *)
Definition asked (path : string) (s : server) : server :=
  if gam_exclude_check (sv_excludes s) (Some path) then s
  else set_sv_fs (gam_fs_get_mon_type path (sv_fs s, sv_world s)).2 s.

Lemma asked_inv path s : ks_inv s -> ks_inv (asked path s).
Proof.
  intros Hi. unfold asked. destruct (gam_exclude_check _ _); [done|].
  apply (ks_same_objects s); try done. apply (ghost_mon_type path (sv_fs s, sv_world s)).
Qed.

Lemma asked_objects path s : sv_kernel (asked path s) = sv_kernel s /\ sv_heap (asked path s) = sv_heap s.
Proof. unfold asked. by destruct (gam_exclude_check _ _). Qed.

Lemma add_to_kernel sub sb s :
  subs (sv_heap s) !! sub = Some sb -> to_kernel (sub_path sb) s ->
  gam_add_subscription (Some sub) s = hook_kernel_add sub (asked (sub_path sb) s).
Proof.
  intros Hsb [Hk Ht]. unfold gam_add_subscription, asked. rewrite (bind_Ok _ _ _ _ _ (load_sub_Ok _ _ _ Hsb)).
  unfold mbind at 1, ST_bind at 1. simpl. destruct (gam_exclude_check _ _).
  - unfold is_running, gam_kernel_add_subscription, gam_server_get_kernel_handler, gets, mbind, ST_bind.
    rewrite Ht. by destruct (kernel_handler (sv_ctl s)).
  - unfold mbind at 1, ST_bind at 1, fs_call.
    destruct (gam_fs_get_mon_type (sub_path sb) (sv_fs s, sv_world s)) as [t fw]. simpl in Ht. subst t.
    unfold gam_kernel_add_subscription, gam_server_get_kernel_handler, gets, mbind, ST_bind.
    change (sv_ctl (set_sv_fs fw s)) with (sv_ctl s). by destruct (kernel_handler (sv_ctl s)).
Qed.

Lemma remove_from_kernel sub sb s :
  subs (sv_heap s) !! sub = Some sb -> to_kernel (sub_path sb) s ->
  gam_remove_subscription (Some sub) s = hook_kernel_remove sub (asked (sub_path sb) s).
Proof.
  intros Hsb [Hk Ht]. unfold gam_remove_subscription, asked. rewrite (bind_Ok _ _ _ _ _ (load_sub_Ok _ _ _ Hsb)).
  unfold mbind at 1, ST_bind at 1. simpl. destruct (gam_exclude_check _ _).
  - unfold is_running, gam_kernel_remove_subscription, gam_server_get_kernel_handler, gets, mbind, ST_bind.
    rewrite Ht. by destruct (kernel_handler (sv_ctl s)).
  - unfold mbind at 1, ST_bind at 1, fs_call.
    destruct (gam_fs_get_mon_type (sub_path sb) (sv_fs s, sv_world s)) as [t fw]. simpl in Ht. subst t.
    unfold gam_kernel_remove_subscription, gam_server_get_kernel_handler, gets, mbind, ST_bind.
    change (sv_ctl (set_sv_fs fw s)) with (sv_ctl s). by destruct (kernel_handler (sv_ctl s)).
Qed.

(** ** Removing and freeing *)

(** Apart from [gone], the subscriptions are alike, and the listeners stay. *)
Record removal (gone : ptr) (s s' : server) : Prop := {
  rm_held q : ks_held (sv_kernel s') q -> ks_held (sv_kernel s) q /\ q <> gone;
  rm_listeners : listeners (sv_heap s') = listeners (sv_heap s);
  rm_subs q x : q <> gone -> subs (sv_heap s) !! q = Some x ->
    exists y, subs (sv_heap s') !! q = Some y /\ alike x y
}.

(** [gam_remove_subscription], then [free_if_inotify]: the backend forgets the
    subscription before it is freed, wherever the file system is by then. *)
Lemma remove_and_free sub sb s :
  ks_inv s -> subs (sv_heap s) !! sub = Some sb -> to_kernel (sub_path sb) s ->
  wp (_ ← gam_remove_subscription (Some sub); free_if_inotify (sub_path sb) sub)
    (fun _ s' => ks_inv s' /\ removal sub s s') s.
Proof.
  intros Hi Hsb Hk. apply wp_bind. unfold wp at 1. rewrite (remove_from_kernel sub sb s Hsb Hk).
  destruct (asked_objects (sub_path sb) s) as [Ek Eh].
  assert (subs (sv_heap (asked (sub_path sb) s)) !! sub = Some sb) as Hsb1 by by rewrite Eh.
  pose proof (ks_remove sub sb _ (asked_inv (sub_path sb) s Hi) Hsb1) as H. unfold wp in H.
  destruct (hook_kernel_remove sub (asked (sub_path sb) s)) as [[b s1]|]; [|done].
  destruct H as (Hi1 & Hn & Hh & El & Hal). rewrite Ek in Hh. rewrite Eh in El, Hal.
  assert (removal sub s s1) as Hr1.
  { split; [|done|by intros q x _; apply Hal]. intros q Hq. split; [by apply Hh|]. by intros ->. }
  unfold free_if_inotify. apply wp_bind. unfold is_running. apply wp_gets, wp_bind, wp_gets.
  apply wp_when; intros _; [|done]. apply wp_bind, wp_fs_call. intros t fw E. apply wp_when; intros _.
  2:{ split; [|by destruct Hr1 as [R1 R2 R3]; split; [exact R1|exact R2|exact R3]].
      apply (ks_same_objects s1); try done. simpl.
      pose proof (ghost_mon_type (sub_path sb) (sv_fs s1, sv_world s1)) as Hg. by rewrite E in Hg. }
  destruct (Hal sub sb Hsb) as (y & Hy & _).
  apply (wp_dealloc GamSubscription sub y); [exact Hy|]. set (s2 := upd_heap _ _). split.
  - apply (ks_elsewhere s1); [done|done| | |].
    + simpl. pose proof (ghost_mon_type (sub_path sb) (sv_fs s1, sv_world s1)) as Hg. by rewrite E in Hg.
    + exact (ks_ready s1 Hi1).
    + intros q Hq x l Hx Hl Hln. exists x. split; [|done]. simpl. rewrite lookup_delete_ne; [done|]. by intros ->.
  - destruct Hr1 as [R1 R2 R3]. split; [exact R1|exact R2|]. intros q x Hne Hx. simpl. rewrite lookup_delete_ne by done.
    by apply R3.
Qed.
(** ** Requests *)

(** The subscriptions of a listener are alive and its own, each listed once. *)
Record tidy (l : ptr) (ln : GamListener) (s : server) : Prop := {
  td_listener : listeners (sv_heap s) !! l = Some ln;
  td_once : NoDup (ln_subs ln);
  td_subs q : q ∈ ln_subs ln -> exists sb, subs (sv_heap s) !! q = Some sb /\ sub_listener sb = Some l /\
    sub_pathlen sb = strlen (sub_path sb) /\ sub_path sb <> ""%string
}.

(** Allocating a subscription for a listener, whose address is unused. *)
Lemma kernel_subscribe_outcome l ln path seq type options s :
  ks_inv s -> tidy l ln s -> to_kernel path s -> subs (sv_heap s) !! next_ptr (sv_heap s) = None ->
  wp (request_subscribe l path seq type options) (fun r s' => r = 0 /\ ks_inv s') s.
Proof.
  intros Hi [Hl Hnd Hs] Hk Hf. unfold request_subscribe, gam_subscription_new. set (d := type =? GAM_REQ_DIR).
  set (sb := new_subscription path request_events seq d options). apply wp_bind, wp_alloc.
  set (q := next_ptr (sv_heap s)) in *. set (s1 := upd_heap _ s).
  assert (subs (sv_heap s1) !! q = Some sb) as Hsb by apply lookup_insert_eq.
  apply wp_bind, (wp_update (H := sub_obj)) with sb; [exact Hsb|].
  set (sb' := set_sub_listener (Some l) sb). set (s2 := upd_heap _ s1).
  assert (subs (sv_heap s2) !! q = Some sb') as Hsb' by apply lookup_insert_eq.
  assert (ks_inv s2) as Hi2.
  { apply (ks_elsewhere s); [done|done|done|exact (ks_ready s Hi)|].
    intros p Hp x lx Hx Hlx Hln. assert (p <> q) as Hne by congruence.
    exists x. split; [|done]. simpl. unfold objs. simpl. rewrite !lookup_insert_ne by done. done. }
  assert (addable q sb' l ln (asked path s2)) as Had.
  { destruct (asked_objects path s2) as [_ Eh]. split; rewrite ?Eh; try done.
    intros Hq. destruct (Hs q Hq) as (x & Hx & _). congruence. }
  apply wp_bind. unfold wp at 1.
  rewrite (add_to_kernel q sb' s2 Hsb' Hk). change (sub_path sb') with path.
  pose proof (ks_add q sb' l ln _ (asked_inv path s2 Hi2) Had) as H. unfold wp in H.
  destruct (hook_kernel_add q (asked path s2)) as [[b s3]|]; [|done]. by apply wp_ret.
Qed.

(** Taking a subscription off its listener's list. *)
Definition off_list (l q : ptr) (ln : GamListener) (s : server) : server :=
  upd_heap (fun h => set_listeners (<[l := set_ln_subs (g_list_remove (ln_subs ln) q) ln]> (listeners h)) h) s.

Lemma wp_off_list l ln q (Q : unit -> server -> Prop) s :
  listeners (sv_heap s) !! l = Some ln -> NoDup (ln_subs ln) -> q ∈ ln_subs ln ->
  Q tt (off_list l q ln s) -> wp (gam_listener_remove_subscription l q) Q s.
Proof.
  intros Hl Hnd Hq HQ. unfold gam_listener_remove_subscription.
  apply wp_bind, (wp_load (H := listener_obj)) with ln; [exact Hl|].
  apply wp_bind, wp_assert; [by apply g_list_find_true|].
  apply wp_bind, (wp_update (H := listener_obj)) with ln; [exact Hl|].
  apply wp_bind, (wp_load (H := listener_obj)) with (set_ln_subs (g_list_remove (ln_subs ln) q) ln);
    [apply lookup_insert_eq|].
  apply wp_assert; [|exact HQ]. apply negb_true_iff, g_list_find_false. simpl.
  rewrite g_list_remove_NoDup by done. by intros [_ []]%elem_of_g_list_remove_all.
Qed.

(** A listener's list may change, the rest stays. *)
Lemma relisted_inv l ln ps s :
  ks_inv s -> listeners (sv_heap s) !! l = Some ln ->
  ks_inv (upd_heap (fun h => set_listeners (<[l := set_ln_subs ps ln]> (listeners h)) h) s).
Proof.
  intros Hi Hl. apply (ks_elsewhere s); [done|done|done| |].
  - intros l' ln'. simpl. rewrite lookup_insert_Some. intros [[<- <-]|[_ Hl']];
      [exact (ks_ready s Hi l ln Hl)|exact (ks_ready s Hi l' ln' Hl')].
  - intros q _ sb l' Hsb Hl' Hln. exists sb. split; [done|]. split; [done|]. simpl. rewrite lookup_insert.
    by destruct (decide (l = l')).
Qed.

Lemma kernel_cancel_outcome c l ln seq s :
  ks_inv s -> tidy l ln s -> ln_service ln = c ->
  (forall q sb, q ∈ ln_subs ln -> subs (sv_heap s) !! q = Some sb -> sub_reqno sb = seq -> to_kernel (sub_path sb) s) ->
  wp (request_cancel c l seq) (fun _ s' => ks_inv s') s.
Proof.
  intros Hi [Hl Hnd Hs] Hc Hk. unfold request_cancel. apply wp_bind.
  unfold gam_listener_get_subscription_by_reqno. apply wp_bind, (wp_load (H := listener_obj)) with ln; [exact Hl|].
  destruct (find_sub_spec (fun sub => gam_subscription_get_reqno (Some sub) =? seq) (ln_subs ln) s) as (o & E & Ho).
  { intros p Hp. destruct (Hs p Hp) as (sb & ? & _). by exists sb. }
  unfold wp at 1. rewrite E. destruct o as [q|]; [|by apply wp_ret].
  destruct Ho as (l1 & l2 & sb0 & El & Hsb & Ht & _). apply Z.eqb_eq in Ht.
  assert (q ∈ ln_subs ln) as Hq by (rewrite El; apply elem_of_app; right; by left).
  destruct (Hs q Hq) as (sb & Hsb' & Hsl & Hlen & Hne). assert (sb0 = sb) as -> by congruence. clear Hsb'.
  apply wp_bind, (wp_load (H := sub_obj)) with sb; [exact Hsb|].
  apply wp_bind, (wp_off_list l ln q); [done..|]. set (s1 := off_list l q ln s).
  assert (ks_inv s1) as Hi1 by by apply relisted_inv.
  pose proof (remove_and_free q sb s1 Hi1 Hsb (Hk q sb Hq Hsb Ht)) as H. apply wp_bind.
  unfold wp, mbind, ST_bind in H |- *. destruct (gam_remove_subscription (Some q) s1) as [[b s2]|]; [|done].
  destruct (free_if_inotify (sub_path sb) q s2) as [[[] s3]|]; [|done]. destruct H as [Hi3 [_ R2 _]].
  assert (conn_ready c s3) as (k & eq & Hck & Hfd & _).
  { rewrite <- Hc. apply (ks_ready s3 Hi3 l (set_ln_subs (g_list_remove (ln_subs ln) q) ln)).
    rewrite R2. apply lookup_insert_eq. }
  change (gam_subscription_pathlen (Some sb)) with (sub_pathlen sb). rewrite Hlen.
  apply wp_bind. eapply wp_mono; [apply (wp_preserves _ _ _ s3 (keeps_ghost_ack c seq (sub_path sb) (strlen (sub_path sb)))
    (wp_gam_send_ack c k seq (sub_path sb) s3 Hck Hfd Hne))|].
  intros r s4 [(w & ->) Hg]. apply wp_ret. by apply (ks_same_objects s3).
Qed.
(** A request that [gam_connection_data] passes on from an authenticated
    client: it lies in the buffer, and the paths in question are the kernel's. *)
Definition asks (c : ptr) (off : nat) (req : GAMPacket) (s : server) : Prop :=
  exists k l ln, conns (sv_heap s) !! c = Some k /\ cn_state k = GAM_STATE_OKAY /\
    cn_listener k = Some l /\ tidy l ln s /\ ln_service ln = c /\
    Z.of_nat off + GAM_PACKET_HEADER_LEN + pk_pathlen req < sizeof_GAMPacket /\
    let type := pk_type req .& 15 in
    let path := path_of_bytes (c_string (pk_path req)) in
    (type = GAM_REQ_FILE \/ type = GAM_REQ_DIR ->
      to_kernel path s /\ subs (sv_heap s) !! next_ptr (sv_heap s) = None) /\
    (type = GAM_REQ_CANCEL -> forall q sb, q ∈ ln_subs ln -> subs (sv_heap s) !! q = Some sb ->
      sub_reqno sb = pk_seq req -> to_kernel (sub_path sb) s).

Lemma request_safe c off req s :
  ks_inv s -> asks c off req s -> wp (gam_connection_request c off req) (fun _ s' => ks_inv s') s.
Proof.
  intros Hi (k & l & ln & Hk & Hst & Hl & Ht & Hc & Hfit & Hsub & Hcan). unfold gam_connection_request.
  apply wp_bind, (wp_load (H := conn_obj)) with k; [exact Hk|].
  apply wp_bind, wp_assert; [by apply bool_decide_eq_true_2|].
  destruct (ks_ready s Hi l ln (td_listener _ _ _ Ht)) as (k' & eq & Hk' & Hfd & _). rewrite Hc in Hk'.
  assert (k' = k) as -> by congruence. apply wp_bind, wp_assert; [by apply Z.geb_le|].
  apply wp_bind, (wp_assert_ptr _ l); [done|]. destruct (_ >=? MAXPATHLEN); [by apply wp_ret|].
  destruct (Z.geb_spec (Z.of_nat off + GAM_PACKET_HEADER_LEN + pk_pathlen req) sizeof_GAMPacket); [lia|].
  destruct (_ || _) eqn:Et.
  - destruct Hsub as [Hp Hf]; [by apply orb_true_iff in Et as [?%Z.eqb_eq|?%Z.eqb_eq]; [left|right]|].
    eapply wp_mono; [by apply (kernel_subscribe_outcome l ln)|]. by intros r s' [_ ?].
  - destruct (Z.eqb_spec (pk_type req .& 15) GAM_REQ_CANCEL) as [E|_].
    + apply (kernel_cancel_outcome c l ln); try done. by apply Hcan.
    + destruct (pk_type req .& 15 =? GAM_REQ_DEBUG); by apply wp_ret.
Qed.

(** ** Freeing a listener *)

(** The loop of [gam_listener_free] for the first subscription. *)
Definition free_first (l q : ptr) : M unit :=
  _ ← gam_listener_free_subscription l q;
  update l (fun ln => set_ln_subs (tail (ln_subs ln)) ln).

(** Each path is the kernel's when its turn comes. *)
Fixpoint still_kernel (l : ptr) (ps : list ptr) (s : server) : Prop :=
  match ps with
  | [] => True
  | q :: ps => (forall sb, subs (sv_heap s) !! q = Some sb -> to_kernel (sub_path sb) s) /\
      forall s', free_first l q s = Ok (tt, s') -> still_kernel l ps s'
  end.

(** All of the listener's subscriptions that the backend has are on its list. *)
Definition lists_own (l : ptr) (ps : list ptr) (s : server) : Prop := forall q sb,
  ks_held (sv_kernel s) q -> subs (sv_heap s) !! q = Some sb -> sub_listener sb = Some l -> q ∈ ps.

Lemma free_first_outcome l ln q ps s :
  ks_inv s -> tidy l ln s -> ln_subs ln = q :: ps -> lists_own l (q :: ps) s ->
  (forall sb, subs (sv_heap s) !! q = Some sb -> to_kernel (sub_path sb) s) ->
  wp (free_first l q) (fun _ s' => ks_inv s' /\ tidy l (set_ln_subs ps ln) s' /\ lists_own l ps s') s.
Proof.
  intros Hi [Hl Hnd Hs] El Ho Hk. rewrite El in Hnd, Hs. apply NoDup_cons in Hnd as [Hq Hnd].
  destruct (Hs q) as (sb & Hsb & _); [by left|]. unfold free_first, gam_listener_free_subscription.
  apply wp_bind, wp_bind, (wp_load (H := listener_obj)) with ln; [exact Hl|].
  apply wp_bind, wp_assert; [apply g_list_find_true; rewrite El; by left|].
  apply wp_bind, (wp_load (H := sub_obj)) with sb; [exact Hsb|].
  eapply wp_mono; [by apply remove_and_free; [..|apply Hk]|]. intros [] s1 [Hi1 [R1 R2 R3]].
  assert (listeners (sv_heap s1) !! l = Some ln) as Hl1 by by rewrite R2.
  apply (wp_update (H := listener_obj)) with ln; [exact Hl1|]. rewrite El. simpl.
  split; [by apply relisted_inv|]. split; [split|].
  - simpl. apply lookup_insert_eq.
  - done.
  - intros p Hp. destruct (Hs p) as (x & Hx & H1 & H2 & H3); [by right|].
    destruct (R3 p x) as (y & Hy & E1 & E2 & _ & E3 & _); [by intros ->|done|]. exists y.
    split; [exact Hy|]. rewrite E1, E2, E3. done.
  - intros p y Hp Hy Hly. destruct (R1 p Hp) as [Hp0 Hne].
    destruct (ks_live s p Hi Hp0) as (name & x & lx & Hx & _ & _ & Hlx & _).
    destruct (R3 p x Hne Hx) as (y' & Hy' & _ & _ & _ & E3 & _).
    change (subs (sv_heap s1) !! p = Some y) in Hy. assert (y' = y) as -> by congruence.
    assert (p ∈ q :: ps) as Hin by (apply (Ho p x); [done|done|congruence]).
    by apply elem_of_cons in Hin as [->|].
Qed.

Lemma free_all_outcome fuel l ln s :
  ks_inv s -> tidy l ln s -> lists_own l (ln_subs ln) s -> still_kernel l (ln_subs ln) s ->
  (length (ln_subs ln) < fuel)%nat ->
  wp (free_subscriptions fuel l) (fun _ s' => ks_inv s' /\ lists_own l [] s' /\ is_Some (listeners (sv_heap s') !! l)) s.
Proof.
  revert ln s. induction fuel as [|fuel IH]; intros ln s Hi Ht Ho Hk Hf; [lia|]. simpl.
  apply wp_bind, (wp_load (H := listener_obj)) with ln; [exact (td_listener _ _ _ Ht)|].
  destruct (ln_subs ln) as [|q ps] eqn:El.
  { apply wp_ret. split; [done|]. split; [done|]. exists ln. exact (td_listener _ _ _ Ht). }
  destruct Hk as [Hk Hrest]. pose proof (free_first_outcome l ln q ps s Hi Ht El Ho Hk) as H.
  unfold free_first in H, Hrest. unfold wp, mbind, ST_bind in H, Hrest |- *.
  destruct (gam_listener_free_subscription l q s) as [[u s1]|]; [|done].
  destruct (update l _ s1) as [[[] s2]|]; [|done]. destruct H as (Hi2 & Ht2 & Ho2).
  apply (IH (set_ln_subs ps ln) s2); [done|done|done|by apply Hrest|]. simpl in *. lia.
Qed.

Lemma listener_free_safe l ln s :
  ks_inv s -> tidy l ln s -> lists_own l (ln_subs ln) s -> still_kernel l (ln_subs ln) s ->
  wp (gam_listener_free l) (fun _ s' => ks_inv s' /\ listeners (sv_heap s') !! l = None) s.
Proof.
  intros Hi Ht Ho Hk. unfold gam_listener_free.
  apply wp_bind, (wp_load (H := listener_obj)) with ln; [exact (td_listener _ _ _ Ht)|].
  apply wp_bind. eapply wp_mono; [apply (free_all_outcome _ l ln s Hi Ht Ho Hk); lia|].
  intros [] s1 (Hi1 & Ho1 & ln1 & Hl1). apply (wp_dealloc GamListener l ln1); [exact Hl1|].
  split; [|simpl; apply lookup_delete_eq]. apply (ks_elsewhere s1); [done|done|done| |].
  - intros l' ln'. simpl. intros [_ Hl']%lookup_delete_Some. exact (ks_ready s1 Hi1 l' ln' Hl').
  - intros q Hq sb l' Hsb Hl' Hln. exists sb. split; [done|]. split; [done|]. simpl.
    rewrite lookup_delete_ne; [done|]. intros ->. by apply (elem_of_nil q), (Ho1 q sb).
Qed.
End Clients.
