(* ===== verification/DnotifyTables.v ===== *)
(** * Directories watched with dnotify ([server/gam_dnotify.c], its tables)

    Linux' dnotify sends a signal when something happens in a directory that is
    open under a descriptor.  The backend counts for each directory who wants
    it watched, closes the descriptor while the directory is under flow
    control, and finds the directory of a signal by the descriptor.  This is
    the build without inotify. *)

From S2P Require Import Prelude Protocol Monad OS Fs State.
From S2P Require Import PollGeneric.

Local Open Scope Z_scope.

(** ** The kernel's interface *)

(** [<fcntl.h>] *)
Definition DN_MODIFY : Z := 2.
Definition DN_CREATE : Z := 4.
Definition DN_DELETE : Z := 8.
Definition DN_RENAME : Z := 16.
Definition DN_ATTRIB : Z := 32.
Definition DN_MULTISHOT : Z := 2147483648.

(** The calls of the backend; the results of [fcntl] and of the writes and
    reads on the pipe are ignored by the code. *)
Class Dnotify (os : OS) := {
  (** [open(path, O_RDONLY)] *)
  open_dir : string -> world -> sysres Z * world;
  close_fd : Z -> world -> world;
  (** [fcntl(fd, F_SETSIG, SIGRTMIN)] *)
  fcntl_setsig : Z -> world -> world;
  (** [fcntl(fd, F_NOTIFY, mask)] *)
  fcntl_notify : Z -> Z -> world -> world;
  (** [pipe] and the channels on it: whether it succeeds *)
  make_pipe : world -> bool * world;
  pipe_write : world -> world;
  pipe_read : world -> world;
  (** whether [G_LOCK] locks, as for [Inotify] *)
  dnotify_locks : bool
}.

(** What POSIX says of descriptors: they are not negative, [open] gives one that is not in use,
    [close] ends its use, the other calls do not change which are in use. *)
Class DnotifyLaws {os : OS} (dn : Dnotify os) := {
  in_use : world -> gset Z;
  in_use_nonneg fd w : fd ∈ in_use w -> 0 <= fd;
  open_ok p w fd w' : open_dir p w = (SysOk fd, w') ->
    0 <= fd /\ fd ∉ in_use w /\ in_use w' = {[fd]} ∪ in_use w;
  open_failed p w e w' : open_dir p w = (SysErr e, w') -> in_use w' = in_use w;
  close_in_use fd w : in_use (close_fd fd w) = in_use w ∖ {[fd]};
  setsig_in_use fd w : in_use (fcntl_setsig fd w) = in_use w;
  notify_in_use fd m w : in_use (fcntl_notify fd m w) = in_use w
}.

(** ** Objects and variables *)

Record DNotifyData := mk_dn {
  dn_path : string;
  dn_fd : Z;
  dn_refcount : Z;
  dn_busy : Z
}.
Definition set_dn_fd x r := mk_dn (dn_path r) x (dn_refcount r) (dn_busy r).
Definition set_dn_refcount x r := mk_dn (dn_path r) (dn_fd r) x (dn_busy r).
Definition set_dn_busy x r := mk_dn (dn_path r) (dn_fd r) (dn_refcount r) x.

(** The objects with their allocator, the two tables, the queue of descriptors
    signalled (its head first) and the lock. *)
Record dnotify_state := mk_dnotify {
  dn_next : ptr;
  dn_data : gmap ptr DNotifyData;
  path_hash : gmap string ptr;
  fd_hash : gmap Z ptr;
  changes : list Z;
  dnotify_lock : bool
}.
Definition set_dn_data x k := mk_dnotify (dn_next k) x (path_hash k) (fd_hash k) (changes k)
  (dnotify_lock k).
Definition set_path_hash x k := mk_dnotify (dn_next k) (dn_data k) x (fd_hash k) (changes k)
  (dnotify_lock k).
Definition set_fd_hash x k := mk_dnotify (dn_next k) (dn_data k) (path_hash k) x (changes k)
  (dnotify_lock k).
Definition set_changes x k := mk_dnotify (dn_next k) (dn_data k) (path_hash k) (fd_hash k) x
  (dnotify_lock k).
Definition set_dnotify_lock x k := mk_dnotify (dn_next k) (dn_data k) (path_hash k) (fd_hash k)
  (changes k) x.

Definition dnotify_initial : dnotify_state := mk_dnotify 1%positive ∅ ∅ ∅ [] false.

Definition dnotify_kernel : KernelState :=
  {| kernel_state := dnotify_state; inotify_is_running _ := false |}.

#[local] Existing Instance dnotify_kernel.

Section Tables.
Context {os : OS} {dn : Dnotify os}.
Abbreviation M := (ST server).

(** ** Access *)

Definition upd_dn (f : dnotify_state -> dnotify_state) (s : server) : server :=
  set_sv_kernel (f (sv_kernel s)) s.
Definition dn_gets {A} (f : dnotify_state -> A) : M A := gets (fun s => f (sv_kernel s)).
Definition dn_modify (f : dnotify_state -> dnotify_state) : M unit := modify (upd_dn f).
Definition dn_call (f : world -> world) : M unit := modify (fun s => set_sv_world (f (sv_world s)) s).

Definition dn_load (p : ptr) : M DNotifyData := fun s =>
  match dn_data (sv_kernel s) !! p with Some d => Ok (d, s) | None => Fault NullDeref end.
Definition dn_update (p : ptr) (f : DNotifyData -> DNotifyData) : M unit := fun s =>
  match dn_data (sv_kernel s) !! p with
  | Some d => Ok (tt, upd_dn (fun k => set_dn_data (<[p := f d]> (dn_data k)) k) s)
  | None => Fault NullDeref
  end.

(** [G_LOCK(dnotify)] and [G_UNLOCK(dnotify)] *)
Definition lock_dnotify : M unit :=
  if dnotify_locks then
    held ← dn_gets dnotify_lock;
    if held : bool then fail Deadlock else dn_modify (set_dnotify_lock true)
  else mret tt.
Definition unlock_dnotify : M unit :=
  if dnotify_locks then dn_modify (set_dnotify_lock false) else mret tt.

(** ** Handlers *)

Definition gam_dnotify_data_new (path : string) (fd : Z) : M ptr := fun s =>
  let p := dn_next (sv_kernel s) in
  Ok (p, upd_dn (fun k => mk_dnotify (Pos.succ p) (<[p := mk_dn path fd 1 0]> (dn_data k))
           (path_hash k) (fd_hash k) (changes k) (dnotify_lock k)) s).

Definition gam_dnotify_data_free (data : ptr) : M unit := fun s =>
  match dn_data (sv_kernel s) !! data with
  | Some _ => Ok (tt, upd_dn (fun k => set_dn_data (delete data (dn_data k)) k) s)
  | None => Fault NullDeref
  end.

(** The two calls of [fcntl]. *)
Definition notify_on (fd : Z) : M unit :=
  _ ← dn_call (fcntl_setsig fd);
  dn_call (fcntl_notify fd (DN_MODIFY .| DN_CREATE .| DN_DELETE .| DN_RENAME .| DN_ATTRIB
                            .| DN_MULTISHOT)).

Definition dnotify_activate (path : string) : M unit :=
  o ← dn_gets (fun k => path_hash k !! path);
  match o with
  | Some data => dn_update data (fun d => set_dn_refcount (dn_refcount d + 1) d)
  | None =>
      r ← sys (open_dir path);
      match r with
      | SysErr _ => mret tt
      | SysOk fd =>
          data ← gam_dnotify_data_new path fd;
          _ ← dn_modify (fun k => set_fd_hash (<[fd := data]> (fd_hash k)) k);
          _ ← dn_modify (fun k => set_path_hash (<[path := data]> (path_hash k)) k);
          notify_on fd
      end
  end.

Definition dnotify_deactivate (path : string) : M unit :=
  o ← dn_gets (fun k => path_hash k !! path);
  match o with
  | None => mret tt
  | Some data =>
      _ ← dn_update data (fun d => set_dn_refcount (dn_refcount d - 1) d);
      d ← dn_load data;
      when (dn_refcount d =? 0)
        (_ ← dn_call (close_fd (dn_fd d));
         _ ← dn_modify (fun k => set_path_hash (delete (dn_path d) (path_hash k)) k);
         _ ← dn_modify (fun k => set_fd_hash (delete (dn_fd d) (fd_hash k)) k);
         gam_dnotify_data_free data)
  end.

Definition dnotify_flow_start (data : ptr) : M unit :=
  d ← dn_load data;
  _ ← when (dn_fd d >=? 0)
    (_ ← dn_call (close_fd (dn_fd d));
     _ ← dn_modify (fun k => set_fd_hash (delete (dn_fd d) (fd_hash k)) k);
     dn_update data (set_dn_fd (-1)));
  dn_update data (fun d => set_dn_busy (dn_busy d + 1) d).

Definition dnotify_flow_stop (data : ptr) : M unit :=
  d ← dn_load data;
  when (dn_busy d >? 0)
    (_ ← dn_update data (fun d => set_dn_busy (dn_busy d - 1) d);
     d ← dn_load data;
     when (dn_busy d =? 0)
       (r ← sys (open_dir (dn_path d));
        match r with
        | SysErr _ => mret tt
        | SysOk fd =>
            _ ← dn_update data (set_dn_fd fd);
            _ ← dn_modify (fun k => set_fd_hash (<[fd := data]> (fd_hash k)) k);
            notify_on fd
        end)).

(** [gam_dnotify_directory_handler_internal]; every way out unlocks. *)
Definition gam_dnotify_directory_handler_internal (path : string) (mode : pollHandlerMode)
  : M unit :=
  _ ← lock_dnotify;
  _ ← match mode with
      | GAMIN_ACTIVATE => dnotify_activate path
      | GAMIN_DEACTIVATE => dnotify_deactivate path
      | GAMIN_FLOWCONTROLSTART | GAMIN_FLOWCONTROLSTOP =>
          o ← dn_gets (fun k => path_hash k !! path);
          match o with
          | None => mret tt
          | Some data =>
              match mode with
              | GAMIN_FLOWCONTROLSTART => dnotify_flow_start data
              | _ => dnotify_flow_stop data
              end
          end
      end;
  unlock_dnotify.

Definition gam_dnotify_directory_handler (path : string) (mode : pollHandlerMode) : M unit :=
  gam_dnotify_directory_handler_internal path mode.

Definition gam_dnotify_file_handler (path : string) (mode : pollHandlerMode) : M unit :=
  is_dir ← sys (file_is_dir path);
  when is_dir (gam_dnotify_directory_handler_internal path mode).

(** ** Signals *)

Definition MAX_QUEUE_SIZE : Z := 500.

(** The handler of [SIGRTMIN] with [si->si_fd]. *)
Definition dnotify_signal_handler (fd : Z) : M unit :=
  q ← dn_gets changes;
  if Z.of_nat (length q) >? MAX_QUEUE_SIZE then mret tt
  else
    _ ← dn_modify (fun k => set_changes (fd :: changes k) k);
    dn_call pipe_write.
End Tables.

(** The handlers that [gam_dnotify_init] installs. *)
#[export] Instance dnotify_handlers {os : OS} {dn : Dnotify os} : KernelHandlers os dnotify_kernel := {|
  hook_dir_handler := gam_dnotify_directory_handler;
  hook_file_handler := gam_dnotify_file_handler
|}.
