(* ===== verification/DnotifySpec.v ===== *)
(** * What the directory handler of the dnotify backend does

    The specification counts, for each watched directory, who wants it watched
    and who has it under flow control, and says whether a descriptor is open
    for it.  The two hash tables and the shared records of [DnotifyTables]
    refine it, keep no descriptor that is not needed and lose none. *)

From S2P Require Import Prelude Protocol Monad OS Fs State.
From S2P Require Import PollGeneric DnotifyTables.

Local Open Scope Z_scope.

#[local] Existing Instance dnotify_kernel.

(** ** The specification *)

Record watch := mk_watch { w_refs : Z; w_busy : Z; w_open : bool }.

(** One call of the handler; [opens] says whether [open] would succeed. *)
Definition watch_step (mode : pollHandlerMode) (opens : bool) (o : option watch) : option watch :=
  match mode, o with
  | GAMIN_ACTIVATE, None => if opens then Some (mk_watch 1 0 true) else None
  | GAMIN_ACTIVATE, Some w => Some (mk_watch (w_refs w + 1) (w_busy w) (w_open w))
  | GAMIN_DEACTIVATE, Some w =>
      if w_refs w =? 1 then None else Some (mk_watch (w_refs w - 1) (w_busy w) (w_open w))
  | GAMIN_FLOWCONTROLSTART, Some w => Some (mk_watch (w_refs w) (w_busy w + 1) false)
  | GAMIN_FLOWCONTROLSTOP, Some w =>
      if w_busy w =? 0 then Some w
      else Some (mk_watch (w_refs w) (w_busy w - 1)
                   (if w_busy w =? 1 then opens else w_open w))
  | _, None => None
  end.

Definition watches_step (path : string) (mode : pollHandlerMode) (opens : bool)
  (m : gmap string watch) : gmap string watch :=
  partial_alter (watch_step mode opens) path m.

(** ** The tables *)

Definition watch_of (d : DNotifyData) : watch :=
  mk_watch (dn_refcount d) (dn_busy d) (0 <=? dn_fd d).

(** The watches that the tables represent. *)
Definition watches (k : dnotify_state) : gmap string watch :=
  omap (fun p => watch_of <$> dn_data k !! p) (path_hash k).

(** A record of the backend. *)
Record data_ok (d : DNotifyData) : Prop := {
  do_refs : 0 < dn_refcount d;
  do_busy : 0 <= dn_busy d;
  do_flow : 0 < dn_busy d -> dn_fd d = -1;
  do_fd : -1 <= dn_fd d
}.

(** The tables agree with the records, and their descriptors are among those
    in use, [U]. *)
Record tables_ok (k : dnotify_state) (U : gset Z) : Prop := {
  tb_path path p : path_hash k !! path = Some p ->
    exists d, dn_data k !! p = Some d /\ dn_path d = path;
  tb_data p d : dn_data k !! p = Some d -> path_hash k !! dn_path d = Some p /\ data_ok d;
  tb_fd fd p : fd_hash k !! fd = Some p <->
    0 <= fd /\ exists d, dn_data k !! p = Some d /\ dn_fd d = fd;
  tb_fresh p : is_Some (dn_data k !! p) -> (p < dn_next k)%positive;
  tb_used : dom (fd_hash k) ⊆ U
}.

Lemma watches_lookup k U p d :
  tables_ok k U -> dn_data k !! p = Some d -> watches k !! dn_path d = Some (watch_of d).
Proof.
  intros Hk Hp. destruct (tb_data _ _ Hk p d Hp) as [Hh _].
  unfold watches. by rewrite lookup_omap, Hh; simpl; rewrite Hp.
Qed.

Lemma watches_none k path : path_hash k !! path = None -> watches k !! path = None.
Proof. intros Hh. unfold watches. by rewrite lookup_omap, Hh. Qed.

(** Replacing a record by one for the same directory. *)
Lemma tables_replace k U p d d' fh U' :
  tables_ok k U -> dn_data k !! p = Some d -> dn_path d' = dn_path d -> data_ok d' ->
  (forall fd q, fh !! fd = Some q <->
     if decide (q = p) then 0 <= fd /\ dn_fd d' = fd else fd_hash k !! fd = Some q) ->
  dom fh ⊆ U' ->
  let k' := set_fd_hash fh (set_dn_data (<[p := d']> (dn_data k)) k) in
  tables_ok k' U' /\ watches k' = <[dn_path d := watch_of d']> (watches k).
Proof.
  intros Hk Hp Epath Hd' Hfh Hdom k'. destruct (tb_data _ _ Hk p d Hp) as [Hh _]. split.
  - split; simpl; [..|done].
    + intros path q Hq. rewrite lookup_insert. destruct (decide (p = q)) as [<-|Hne].
      * exists d'. split; [done|]. destruct (tb_path _ _ Hk path p Hq) as (x & Hx & <-). congruence.
      * by apply (tb_path _ _ Hk).
    + intros q x [[<- <-]|[_ Hx]]%lookup_insert_Some; [by rewrite Epath|by apply (tb_data _ _ Hk)].
    + intros fd q. rewrite Hfh, lookup_insert. destruct (decide (q = p)) as [->|Hne].
      * rewrite decide_True by done. naive_solver.
      * rewrite decide_False by done. apply (tb_fd _ _ Hk).
    + intros q. rewrite lookup_insert_is_Some. intros [<-|[_ Hq]].
      * apply (tb_fresh _ _ Hk). by exists d.
      * by apply (tb_fresh _ _ Hk).
  - apply map_eq. intros path. unfold watches. simpl.
    rewrite lookup_omap. destruct (decide (dn_path d = path)) as [<-|Hne].
    + rewrite Hh, lookup_insert, decide_True by done. simpl. by rewrite lookup_insert, decide_True.
    + rewrite lookup_insert_ne, lookup_omap by done. destruct (path_hash k !! path) as [q|] eqn:Eq; [|done].
      simpl. rewrite lookup_insert_ne; [done|]. intros ->.
      destruct (tb_path _ _ Hk path q Eq) as (x & Hx & E). congruence.
Qed.

(** The same when the descriptor stays. *)
Lemma tables_update k U p d d' :
  tables_ok k U -> dn_data k !! p = Some d -> dn_path d' = dn_path d -> dn_fd d' = dn_fd d ->
  data_ok d' ->
  let k' := set_dn_data (<[p := d']> (dn_data k)) k in
  tables_ok k' U /\ watches k' = <[dn_path d := watch_of d']> (watches k).
Proof.
  intros Hk Hp Epath Efd Hd'.
  destruct (tables_replace k U p d d' (fd_hash k) U Hk Hp Epath Hd') as [H1 H2]; [|apply Hk|by split].
  intros fd q. destruct (decide (q = p)) as [->|]; [|done]. rewrite (tb_fd _ _ Hk), Efd. naive_solver.
Qed.

(** Closing the descriptor of a record. *)
Lemma tables_close k U p d d' :
  tables_ok k U -> dn_data k !! p = Some d -> dn_path d' = dn_path d -> dn_fd d' = -1 -> data_ok d' ->
  let k' := set_fd_hash (delete (dn_fd d) (fd_hash k)) (set_dn_data (<[p := d']> (dn_data k)) k) in
  tables_ok k' (U ∖ {[dn_fd d]}) /\ watches k' = <[dn_path d := watch_of d']> (watches k).
Proof.
  intros Hk Hp Epath Efd Hd'. apply (tables_replace k U); [done..| |].
  - intros fd q. rewrite Efd, lookup_delete_Some. destruct (decide (q = p)) as [->|Hne].
    + split; [|lia]. intros [Hfd (_ & x & Hx & E)%(tb_fd _ _ Hk)]. congruence.
    + split; [by intros [_ ?]|]. intros Hq. split; [|done]. intros Hfd.
      pose proof Hq as [H0 _]%(tb_fd _ _ Hk).
      assert (fd_hash k !! fd = Some p) as H1 by (apply (tb_fd _ _ Hk); split; [done|]; by exists d).
      congruence.
  - rewrite dom_delete_L. pose proof (tb_used _ _ Hk). set_solver.
Qed.

(** Opening a descriptor for a record without one. *)
Lemma tables_open k U p d d' fd :
  tables_ok k U -> dn_data k !! p = Some d -> dn_fd d = -1 -> 0 <= fd -> fd ∉ U ->
  dn_path d' = dn_path d -> dn_fd d' = fd -> data_ok d' ->
  let k' := set_fd_hash (<[fd := p]> (fd_hash k)) (set_dn_data (<[p := d']> (dn_data k)) k) in
  tables_ok k' ({[fd]} ∪ U) /\ watches k' = <[dn_path d := watch_of d']> (watches k).
Proof.
  intros Hk Hp Eold H0 Hnew Epath Efd Hd'. apply (tables_replace k U); [done..| |].
  - intros fd' q. rewrite lookup_insert_Some, Efd.
    assert (fd_hash k !! fd = None) as Hnone.
    { apply not_elem_of_dom. intros Hin. by apply Hnew, (tb_used _ _ Hk). }
    destruct (decide (q = p)) as [->|Hne]; [|naive_solver].
    split; [|naive_solver]. intros [[<- _]|[_ H]]; [done|].
    apply (tb_fd _ _ Hk) in H as [? (x & Hx & ?)]. exfalso. assert (x = d) by congruence. subst. lia.
  - rewrite dom_insert_L. pose proof (tb_used _ _ Hk). set_solver.
Qed.

(** A new record. *)
Lemma tables_new k U path fd :
  tables_ok k U -> path_hash k !! path = None -> 0 <= fd -> fd ∉ U ->
  let p := dn_next k in
  let k' := mk_dnotify (Pos.succ p) (<[p := mk_dn path fd 1 0]> (dn_data k))
    (<[path := p]> (path_hash k)) (<[fd := p]> (fd_hash k)) (changes k) (dnotify_lock k) in
  tables_ok k' ({[fd]} ∪ U) /\ watches k' = <[path := mk_watch 1 0 true]> (watches k).
Proof.
  intros Hk Hnone H0 Hnew p k'.
  assert (dn_data k !! p = None) as Hp.
  { destruct (dn_data k !! p) eqn:E; [|done]. exfalso. apply (Pos.lt_irrefl p), (tb_fresh _ _ Hk). eauto. }
  assert (forall q, path_hash k !! path = Some q -> False) as Hnp by (intros q; by rewrite Hnone).
  split; [split; simpl|].
  - intros path' q [[<- <-]|[Hne Hq]]%lookup_insert_Some.
    + eexists. by rewrite lookup_insert, decide_True.
    + destruct (tb_path _ _ Hk _ _ Hq) as (d & Hd & E). exists d.
      rewrite lookup_insert_ne; [done|congruence].
  - intros q d [[<- <-]|[Hne Hd]]%lookup_insert_Some.
    + simpl. rewrite lookup_insert, decide_True by done. split; [done|]. split; simpl; lia.
    + destruct (tb_data _ _ Hk _ _ Hd) as [Hh ?]. split; [|done].
      rewrite lookup_insert_ne; [done|congruence].
  - intros fd' q. rewrite lookup_insert_Some, (tb_fd _ _ Hk), lookup_insert.
    destruct (decide (p = q)) as [<-|Hne].
    + split.
      * intros [[<- _]|[_ [_ (d & Hd & _)]]]; [|congruence]. split; [done|]. eexists. split; done.
      * intros [_ (d & [= <-] & <-)]. by left.
    + split; [naive_solver|]. intros [H1 (d & Hd & E)]. right. split; [|eauto].
      intros <-. apply Hnew, (tb_used _ _ Hk), elem_of_dom. exists q. apply (tb_fd _ _ Hk). eauto.
  - intros q. rewrite lookup_insert_is_Some. intros [<-|[_ Hq%(tb_fresh _ _ Hk)]]; lia.
  - rewrite dom_insert_L. pose proof (tb_used _ _ Hk). set_solver.
  - apply map_eq. intros path'. unfold watches. simpl. rewrite lookup_omap, !lookup_insert.
    destruct (decide (path = path')) as [<-|Hne]; simpl.
    + rewrite lookup_insert, decide_True by done. unfold watch_of. simpl.
      by rewrite (proj2 (Z.leb_le 0 fd) H0).
    + rewrite lookup_omap. destruct (path_hash k !! path') as [q|] eqn:E; [|done]. simpl.
      rewrite lookup_insert_ne; [done|]. intros <-.
      destruct (tb_path _ _ Hk _ _ E) as (d & Hd & _). congruence.
Qed.

(** Freeing a record. *)
Lemma tables_free k U p d :
  tables_ok k U -> dn_data k !! p = Some d ->
  let k' := set_dn_data (delete p (dn_data k)) (set_fd_hash (delete (dn_fd d) (fd_hash k))
    (set_path_hash (delete (dn_path d) (path_hash k)) k)) in
  tables_ok k' (U ∖ {[dn_fd d]}) /\ watches k' = delete (dn_path d) (watches k).
Proof.
  intros Hk Hp k'. destruct (tb_data _ _ Hk p d Hp) as [Hh _]. split; [split; simpl|].
  - intros path q [Hne Hq]%lookup_delete_Some. destruct (tb_path _ _ Hk _ _ Hq) as (x & Hx & E).
    exists x. rewrite lookup_delete_ne; [done|]. intros <-. congruence.
  - intros q x [Hne Hx]%lookup_delete_Some. destruct (tb_data _ _ Hk _ _ Hx) as [Hhx ?].
    split; [|done]. rewrite lookup_delete_ne; [done|]. intros E. congruence.
  - intros fd q. rewrite lookup_delete_Some. split.
    + intros [Hfd (H0 & x & Hx & E)%(tb_fd _ _ Hk)]. split; [done|]. exists x. rewrite lookup_delete_ne; [done|].
      intros <-. congruence.
    + intros (H0 & x & [Hne Hx]%lookup_delete_Some & E). split; [|apply (tb_fd _ _ Hk); eauto].
      intros Hfd.
      assert (fd_hash k !! fd = Some p) as H1 by (apply (tb_fd _ _ Hk); split; [done|]; exists d; by subst).
      assert (fd_hash k !! fd = Some q) as H2 by (apply (tb_fd _ _ Hk); eauto). congruence.
  - intros q [x [_ Hx]%lookup_delete_Some]. apply (tb_fresh _ _ Hk). eauto.
  - rewrite dom_delete_L. pose proof (tb_used _ _ Hk). set_solver.
  - apply map_eq. intros path. unfold watches. simpl. rewrite lookup_omap, !lookup_delete.
    destruct (decide (dn_path d = path)) as [|Hne]; [done|]. simpl. rewrite lookup_omap.
    destruct (path_hash k !! path) as [q|] eqn:E; [|done]. simpl. rewrite lookup_delete_ne; [done|].
    intros <-. destruct (tb_path _ _ Hk _ _ E) as (x & Hx & ?). congruence.
Qed.

(** ** The handler *)

Section Handler.
Context {os : OS} {dn : Dnotify os} {laws : DnotifyLaws dn}.
Abbreviation M := (ST server).

Lemma wp_dn_load p d (Q : DNotifyData -> server -> Prop) s :
  dn_data (sv_kernel s) !! p = Some d -> Q d s -> wp (dn_load p) Q s.
Proof. unfold wp, dn_load. by intros ->. Qed.

Lemma wp_dn_update p d f (Q : unit -> server -> Prop) s :
  dn_data (sv_kernel s) !! p = Some d ->
  Q tt (upd_dn (fun k => set_dn_data (<[p := f d]> (dn_data k)) k) s) -> wp (dn_update p f) Q s.
Proof. unfold wp, dn_update. by intros ->. Qed.

Definition in_use_of (s : server) : gset Z := in_use (sv_world s).

(** The tables of a state are in order. *)
Definition dnotify_ok (s : server) : Prop :=
  tables_ok (sv_kernel s) (in_use_of s) /\ dnotify_lock (sv_kernel s) = false.

(** Whether [open] would succeed. *)
Definition opens (path : string) (s : server) : bool :=
  match (open_dir path (sv_world s)).1 with SysOk _ => true | SysErr _ => false end.

(** From [s] to [s'] the watches have become [m]; only the tables and the world
    differ; the descriptors that are not the backend's are as before. *)
Record rewatched (m : gmap string watch) (s s' : server) : Prop := {
  rw_only : s' = set_sv_kernel (sv_kernel s') (set_sv_world (sv_world s') s);
  rw_tables : tables_ok (sv_kernel s') (in_use_of s');
  rw_watches : watches (sv_kernel s') = m;
  rw_foreign : in_use_of s' ∖ dom (fd_hash (sv_kernel s')) = in_use_of s ∖ dom (fd_hash (sv_kernel s));
  rw_lock : dnotify_lock (sv_kernel s') = dnotify_lock (sv_kernel s);
  rw_changes : changes (sv_kernel s') = changes (sv_kernel s)
}.

Lemma rewatched_refl s :
  tables_ok (sv_kernel s) (in_use_of s) -> rewatched (watches (sv_kernel s)) s s.
Proof. intros H. split; try done. by destruct s. Qed.

(** The tables have become [k], and the world one with the descriptors [U]. *)
Lemma rewatched_intro k U w s s' :
  s' = set_sv_kernel k (set_sv_world w s) -> in_use w = U ->
  forall m, tables_ok k U /\ watches k = m ->
  U ∖ dom (fd_hash k) = in_use_of s ∖ dom (fd_hash (sv_kernel s)) ->
  dnotify_lock k = dnotify_lock (sv_kernel s) -> changes k = changes (sv_kernel s) ->
  rewatched m s s'.
Proof. intros -> <- m [Hk Hm] Hf Hl Hc. by split. Qed.

Lemma foreign_open (U D : gset Z) fd : fd ∉ U -> ({[fd]} ∪ U) ∖ ({[fd]} ∪ D) = U ∖ D.
Proof. set_solver. Qed.
Lemma foreign_close (U D : gset Z) fd : fd ∈ D -> (U ∖ {[fd]}) ∖ (D ∖ {[fd]}) = U ∖ D.
Proof. set_solver. Qed.

Lemma fd_listed k U p d :
  tables_ok k U -> dn_data k !! p = Some d -> 0 <= dn_fd d -> dn_fd d ∈ dom (fd_hash k).
Proof. intros Hk Hp H0. apply elem_of_dom. exists p. apply (tb_fd _ _ Hk). split; [done|]. by exists d. Qed.

Lemma foreign_closed k s p d :
  tables_ok k (in_use_of s) -> dn_data k !! p = Some d ->
  (in_use_of s ∖ {[dn_fd d]}) ∖ (dom (fd_hash k) ∖ {[dn_fd d]}) = in_use_of s ∖ dom (fd_hash k).
Proof.
  intros Hk Hp. destruct (decide (0 <= dn_fd d)) as [H0|H0].
  - apply foreign_close. by apply (fd_listed _ _ p d Hk).
  - assert (dn_fd d ∉ in_use_of s) as Hn by by intros ?%in_use_nonneg.
    assert (dn_fd d ∉ dom (fd_hash k)) by by intros ?%(tb_used _ _ Hk). set_solver.
Qed.

Lemma step_lookup path mode b k w :
  watches k !! path = w ->
  watches_step path mode b (watches k) =
  match watch_step mode b w with
  | Some w' => <[path := w']> (watches k)
  | None => delete path (watches k)
  end.
Proof.
  intros Hw. unfold watches_step. apply map_eq. intros q. destruct (decide (path = q)) as [<-|Hne].
  - rewrite lookup_partial_alter_eq, Hw.
    destruct (watch_step mode b w); [by rewrite lookup_insert, decide_True|by rewrite lookup_delete_eq].
  - rewrite lookup_partial_alter_ne by done.
    destruct (watch_step mode b w); [by rewrite lookup_insert_ne|by rewrite lookup_delete_ne].
Qed.

Lemma wp_notify_on fd (Q : unit -> server -> Prop) s :
  (forall w, in_use w = in_use_of s -> Q tt (set_sv_world w s)) -> wp (notify_on fd) Q s.
Proof.
  intros HQ. unfold notify_on, dn_call. apply wp_bind, wp_modify, wp_modify.
  apply HQ. unfold in_use_of. simpl. by rewrite notify_in_use, setsig_in_use.
Qed.

Lemma wp_activate path s :
  tables_ok (sv_kernel s) (in_use_of s) ->
  wp (dnotify_activate path) (fun _ s' =>
    rewatched (watches_step path GAMIN_ACTIVATE (opens path s) (watches (sv_kernel s))) s s') s.
Proof.
  intros Hk. unfold dnotify_activate. apply wp_bind, wp_gets.
  destruct (path_hash (sv_kernel s) !! path) as [p|] eqn:Hh.
  - destruct (tb_path _ _ Hk path p Hh) as (d & Hd & <-).
    rewrite (step_lookup _ _ _ _ (Some (watch_of d))) by by apply (watches_lookup _ _ p d Hk).
    apply wp_dn_update with d; [done|]. destruct (tb_data _ _ Hk p d Hd) as [_ [? ? ? ?]].
    eapply (rewatched_intro _ _ (sv_world s)); [by destruct s|done| |done..].
    apply (tables_update (sv_kernel s) (in_use_of s) p d); [done..|]. split; simpl; lia || done.
  - rewrite (step_lookup _ _ _ _ None) by by apply watches_none. unfold opens.
    apply wp_bind, wp_sys. intros r w Ho. rewrite Ho. simpl. destruct r as [fd|e].
    2:{ apply wp_ret. rewrite delete_id by by apply watches_none.
        eapply (rewatched_intro (sv_kernel s) _ w); [by destruct s|by apply (open_failed path (sv_world s) e)|done|done..]. }
    destruct (open_ok path _ fd w Ho) as (H0 & Hfresh & Hu).
    apply wp_bind. unfold gam_dnotify_data_new, wp at 1. apply wp_bind, wp_modify, wp_bind, wp_modify.
    apply wp_notify_on. intros w' Hw'.
    eapply (rewatched_intro _ _ w'); [by destruct s|exact (eq_trans Hw' Hu)| |..].
    + apply (tables_new (sv_kernel s) (in_use_of s) path fd); done.
    + simpl. rewrite dom_insert_L. by apply foreign_open.
    + done.
    + done.
Qed.

Lemma wp_deactivate path b s :
  tables_ok (sv_kernel s) (in_use_of s) ->
  wp (dnotify_deactivate path) (fun _ s' =>
    rewatched (watches_step path GAMIN_DEACTIVATE b (watches (sv_kernel s))) s s') s.
Proof.
  intros Hk. unfold dnotify_deactivate. apply wp_bind, wp_gets.
  destruct (path_hash (sv_kernel s) !! path) as [p|] eqn:Hh.
  2:{ rewrite (step_lookup _ _ _ _ None) by by apply watches_none. simpl.
      rewrite delete_id by by apply watches_none. by apply wp_ret, rewatched_refl. }
  destruct (tb_path _ _ Hk path p Hh) as (d & Hd & <-).
  rewrite (step_lookup _ _ _ _ (Some (watch_of d))) by by apply (watches_lookup _ _ p d Hk).
  destruct (tb_data _ _ Hk p d Hd) as [_ [Hr ? ? ?]].
  apply wp_bind, wp_dn_update with d; [done|]. set (d' := set_dn_refcount (dn_refcount d - 1) d).
  set (s1 := upd_dn _ s).
  assert (dn_data (sv_kernel s1) !! p = Some d') as Hd'
    by (subst s1; simpl; by rewrite lookup_insert, decide_True).
  apply wp_bind, wp_dn_load with d'; [done|].
  assert ((dn_refcount d' =? 0) = (dn_refcount d =? 1)) as E.
  { subst d'. simpl. destruct (Z.eqb_spec (dn_refcount d - 1) 0), (Z.eqb_spec (dn_refcount d) 1); lia. }
  rewrite E. simpl. apply wp_when; intros E1; rewrite E1.
  - unfold dn_call. apply wp_bind, wp_modify, wp_bind, wp_modify, wp_bind, wp_modify.
    unfold gam_dnotify_data_free, wp. simpl. rewrite lookup_insert, decide_True by done.
    eapply (rewatched_intro _ _ (close_fd (dn_fd d) (sv_world s))).
    + unfold upd_dn, set_sv_kernel. simpl. rewrite delete_insert_eq. reflexivity.
    + apply close_in_use.
    + apply (tables_free (sv_kernel s) (in_use_of s) p d); done.
    + simpl. rewrite dom_delete_L. by apply (foreign_closed (sv_kernel s) s p d).
    + done.
    + done.
  - eapply (rewatched_intro _ _ (sv_world s)); [by destruct s|done| |done..].
    apply (tables_update (sv_kernel s) (in_use_of s) p d); [done..|]. apply Z.eqb_neq in E1.
    split; simpl; lia || done.
Qed.

Lemma wp_flow_start p d s :
  tables_ok (sv_kernel s) (in_use_of s) -> dn_data (sv_kernel s) !! p = Some d ->
  wp (dnotify_flow_start p) (fun _ s' =>
    rewatched (watches_step (dn_path d) GAMIN_FLOWCONTROLSTART false (watches (sv_kernel s))) s s') s.
Proof.
  intros Hk Hd. unfold dnotify_flow_start.
  rewrite (step_lookup _ _ _ _ (Some (watch_of d))) by by apply (watches_lookup _ _ p d Hk).
  destruct (tb_data _ _ Hk p d Hd) as [_ [? ? Hf ?]]. simpl.
  apply wp_bind, wp_dn_load with d; [done|].
  set (d' := set_dn_busy (dn_busy d + 1) (set_dn_fd (-1) d)).
  assert (data_ok d') as Hd' by (split; simpl; lia || done).
  apply wp_bind, wp_when; intros H0.
  - apply Z.geb_le in H0. unfold dn_call. apply wp_bind, wp_modify, wp_bind, wp_modify.
    apply wp_dn_update with d; [done|].
    apply wp_dn_update with (set_dn_fd (-1) d); [simpl; by rewrite lookup_insert, decide_True|].
    eapply (rewatched_intro _ _ (close_fd (dn_fd d) (sv_world s))).
    + unfold upd_dn, set_sv_kernel. simpl. rewrite insert_insert_eq. reflexivity.
    + apply close_in_use.
    + apply (tables_close (sv_kernel s) (in_use_of s) p d d'); done.
    + simpl. rewrite dom_delete_L. by apply (foreign_closed (sv_kernel s) s p d).
    + done.
    + done.
  - assert (dn_fd d = -1) as E by (destruct (Z.geb_spec (dn_fd d) 0); [done|lia]).
    assert (mk_watch (dn_refcount d) (dn_busy d + 1) false = watch_of (set_dn_busy (dn_busy d + 1) d))
      as -> by (unfold watch_of; simpl; by rewrite E).
    apply wp_dn_update with d; [done|].
    eapply (rewatched_intro _ _ (sv_world s)); [by destruct s|done| |done..].
    apply (tables_update (sv_kernel s) (in_use_of s) p d); [done..|]. split; simpl; lia || done.
Qed.

Lemma wp_flow_stop p d s :
  tables_ok (sv_kernel s) (in_use_of s) -> dn_data (sv_kernel s) !! p = Some d ->
  wp (dnotify_flow_stop p) (fun _ s' =>
    rewatched (watches_step (dn_path d) GAMIN_FLOWCONTROLSTOP (opens (dn_path d) s)
      (watches (sv_kernel s))) s s') s.
Proof.
  intros Hk Hd. unfold dnotify_flow_stop.
  pose proof (watches_lookup _ _ p d Hk Hd) as Hw.
  rewrite (step_lookup _ _ _ _ (Some (watch_of d))) by done.
  destruct (tb_data _ _ Hk p d Hd) as [_ [? Hb Hf ?]]. simpl.
  apply wp_bind, wp_dn_load with d; [done|]. apply wp_when; intros H0.
  2:{ destruct (Z.gtb_spec (dn_busy d) 0); [done|]. rewrite (proj2 (Z.eqb_eq (dn_busy d) 0)) by lia.
      rewrite insert_id by done. by apply rewatched_refl. }
  apply Z.gtb_lt in H0. rewrite (proj2 (Z.eqb_neq (dn_busy d) 0)) by lia. simpl. specialize (Hf H0).
  apply wp_bind, wp_dn_update with d; [done|]. set (d1 := set_dn_busy (dn_busy d - 1) d).
  apply wp_bind, wp_dn_load with d1; [simpl; by rewrite lookup_insert, decide_True|].
  assert ((dn_busy d1 =? 0) = (dn_busy d =? 1)) as E.
  { subst d1. simpl. destruct (Z.eqb_spec (dn_busy d - 1) 0), (Z.eqb_spec (dn_busy d) 1); lia. }
  destruct (tables_update (sv_kernel s) (in_use_of s) p d d1 Hk Hd) as [Hk1 Hw1];
    [done|done|split; simpl; lia || done|].
  rewrite E. apply wp_when; intros E1; rewrite E1.
  2:{ eapply (rewatched_intro _ _ (sv_world s)); [by destruct s|done|by split|done..]. }
  apply Z.eqb_eq in E1. apply wp_bind, wp_sys.
  change (dn_path d1) with (dn_path d). change (sv_world (upd_dn _ s)) with (sv_world s).
  unfold opens. intros r w Ho. rewrite Ho. simpl. destruct r as [fd|e].
  2:{ apply wp_ret. eapply (rewatched_intro _ _ w); [by destruct s|by apply (open_failed (dn_path d) (sv_world s) e)| |done..].
      split; [done|]. etransitivity; [exact Hw1|]. unfold watch_of. simpl. by rewrite Hf, E1. }
  destruct (open_ok _ _ fd w Ho) as (Hfd & Hfresh & Hu).
  apply wp_bind, wp_dn_update with d1; [simpl; by rewrite lookup_insert, decide_True|].
  apply wp_bind, wp_modify, wp_notify_on. intros w' Hw'.
  eapply (rewatched_intro _ _ w').
  + unfold upd_dn, set_sv_kernel. simpl. rewrite insert_insert_eq. reflexivity.
  + exact (eq_trans Hw' Hu).
  + destruct (tables_open (sv_kernel s) (in_use_of s) p d (set_dn_fd fd d1) fd) as [Hk2 Hw2];
      [done..|split; simpl; lia || done|].
    split; [done|]. etransitivity; [exact Hw2|]. unfold watch_of. simpl.
    by rewrite E1, (proj2 (Z.leb_le 0 fd) Hfd).
  + simpl. rewrite dom_insert_L. by apply foreign_open.
  + done.
  + done.
Qed.
(** ** The lock *)

Lemma upd_lock_id b s : dnotify_lock (sv_kernel s) = b -> upd_dn (set_dnotify_lock b) s = s.
Proof. destruct s as [? ? ? ? ? ? ? k ?]. unfold upd_dn, set_sv_kernel. simpl. destruct k. simpl. by intros ->. Qed.

Lemma lock_Ok s :
  dnotify_lock (sv_kernel s) = false ->
  lock_dnotify s = Ok (tt, upd_dn (set_dnotify_lock dnotify_locks) s).
Proof.
  intros Hl. unfold lock_dnotify. destruct dnotify_locks; [|by rewrite upd_lock_id].
  unfold mbind, ST_bind, dn_gets, gets. by rewrite Hl.
Qed.

Lemma unlock_Ok s :
  dnotify_lock (sv_kernel s) = dnotify_locks ->
  unlock_dnotify s = Ok (tt, upd_dn (set_dnotify_lock false) s).
Proof. intros Hl. unfold unlock_dnotify. destruct dnotify_locks; [done|]. by rewrite upd_lock_id. Qed.

Lemma tables_ok_lock k b U : tables_ok k U -> tables_ok (set_dnotify_lock b k) U.
Proof. by intros [? ? ? ? ?]. Qed.

Lemma rewatched_unlock m b s s' :
  dnotify_lock (sv_kernel s) = false -> rewatched m (upd_dn (set_dnotify_lock b) s) s' ->
  rewatched m s (upd_dn (set_dnotify_lock false) s').
Proof.
  intros Hl [E Ht Hw Hf _ Hc]. split; try done.
  - by rewrite E.
  - by apply tables_ok_lock.
Qed.

(** ** The handler *)

Lemma wp_mode path mode s :
  tables_ok (sv_kernel s) (in_use_of s) ->
  wp (match mode with
      | GAMIN_ACTIVATE => dnotify_activate path
      | GAMIN_DEACTIVATE => dnotify_deactivate path
      | GAMIN_FLOWCONTROLSTART | GAMIN_FLOWCONTROLSTOP =>
          o ← dn_gets (fun k => path_hash k !! path);
          match o with
          | None => mret tt
          | Some data =>
              match mode with
              | GAMIN_FLOWCONTROLSTART => dnotify_flow_start data
              | _ => dnotify_flow_stop data
              end
          end
      end)
    (fun _ => rewatched (watches_step path mode (opens path s) (watches (sv_kernel s))) s) s.
Proof.
  intros Hk. destruct mode; [by apply wp_activate|by apply wp_deactivate|..].
  all: apply wp_bind, wp_gets; destruct (path_hash (sv_kernel s) !! path) as [p|] eqn:Hh.
  2,4: apply wp_ret; rewrite (step_lookup _ _ _ _ None) by (by apply watches_none); simpl;
    rewrite delete_id by (by apply watches_none); by apply rewatched_refl.
  all: destruct (tb_path _ _ Hk path p Hh) as (d & Hd & <-).
  - by apply (wp_flow_start p d).
  - by apply (wp_flow_stop p d).
Qed.

(** C15: what the directory handler does.  From tables in order
    [gam_dnotify_directory_handler] completes, whatever [open] answers, and
    leaves them in order with the lock free.  What is watched changes as
    [watches_step] says: activations and deactivations are counted, the first
    opens the directory and the last closes it, and flow control closes it
    until it has been stopped as often as started.  Nothing but the tables and
    the world changes; the descriptors of others stay as they are, and none of
    the backend's is lost. *)
Theorem directory_handler_refines path mode s :
  dnotify_ok s ->
  exists s', gam_dnotify_directory_handler path mode s = Ok (tt, s') /\ dnotify_ok s' /\
    rewatched (watches_step path mode (opens path s) (watches (sv_kernel s))) s s'.
Proof.
  intros [Hk Hl]. unfold gam_dnotify_directory_handler, gam_dnotify_directory_handler_internal.
  rewrite (bind_Ok _ _ _ _ _ (lock_Ok s Hl)). set (s1 := upd_dn _ s).
  destruct (wp_Ok _ _ _ (wp_mode path mode s1 (tables_ok_lock _ _ _ Hk))) as ([] & s2 & E & Hr).
  rewrite (bind_Ok _ _ _ _ _ E), unlock_Ok by exact (rw_lock _ _ _ Hr).
  apply (rewatched_unlock _ dnotify_locks s) in Hr; [|done].
  eexists. split; [done|]. split; [|exact Hr]. split; [apply Hr|]. by rewrite (rw_lock _ _ _ Hr).
Qed.
End Handler.
