(* ===== verification/PollDnotify.v ===== *)
(** * Polling next to dnotify ([server/gam_poll_dnotify.c])

    The backend polls what the kernel does not watch: resources that are
    missing, on file systems without kernel monitoring, or so busy that they
    are under flow control.  [gam_poll_dnotify_poll_file] is called for every
    other node too, when dnotify signals its directory; it counts quick
    successions of changes and moves the node to polling and back. *)

From S2P Require Import Prelude Protocol Monad OS Excludes Fs.
From S2P Require Import State Subscription Listener Node Tree Emit PollGeneric.
From S2P Require Import PollBasic DnotifyTables.

Local Open Scope Z_scope.

#[local] Existing Instance dnotify_kernel.

Section PollFileDnotify.
Context {os : OS} {glib : GLib} {dn : Dnotify os}.
Abbreviation M := (ST server).

(** [!gam_exclude_check(path) && gam_fs_get_mon_type(path) == type]; the file
    systems are asked only when the path is not excluded. *)
Definition monitored_by (type : gam_fs_mon_type) (path : string) : M bool :=
  excluded ← gets (fun s => gam_exclude_check (sv_excludes s) (Some path));
  if excluded : bool then mret false
  else t ← fs_call (gam_fs_get_mon_type path); mret (bool_decide (t = type)).

Definition kernel_monitored : string -> M bool := monitored_by GFS_MT_KERNEL.

(** [gam_exclude_check(path) || gam_fs_get_mon_type(path) == GFS_MT_POLL] *)
Definition polled_only (path : string) : M bool :=
  excluded ← gets (fun s => gam_exclude_check (sv_excludes s) (Some path));
  if excluded : bool then mret true
  else t ← fs_call (gam_fs_get_mon_type path); mret (bool_decide (t = GFS_MT_POLL)).

Definition gam_poll_dnotify_delist_node (node : ptr) : M unit :=
  path ← gam_node_get_path node;
  k ← kernel_monitored path;
  when k
    (subs ← gam_node_get_subscriptions node;
     for_each subs (fun _ => gam_poll_generic_trigger_handler path GAMIN_DEACTIVATE node)).

Definition gam_poll_dnotify_relist_node (node : ptr) : M unit :=
  path ← gam_node_get_path node;
  k ← kernel_monitored path;
  when k
    (subs ← gam_node_get_subscriptions node;
     for_each subs (fun _ => gam_poll_generic_trigger_handler path GAMIN_ACTIVATE node)).

Definition gam_poll_dnotify_flowon_node (node : ptr) : M unit :=
  path ← gam_node_get_path node;
  k ← kernel_monitored path;
  when k (gam_poll_generic_trigger_handler path GAMIN_FLOWCONTROLSTART node).

Definition gam_poll_dnotify_flowoff_node (node : ptr) : M unit :=
  path ← gam_node_get_path node;
  k ← kernel_monitored path;
  when k (gam_poll_generic_trigger_handler path GAMIN_FLOWCONTROLSTOP node).

(** ** [gam_poll_dnotify_poll_file] *)

(** [lasttime == 0] *)
Definition dnotify_poll_first (node : ptr) (path : string) : M Z :=
  r ← sys (sys_stat path);
  _ ← match r with
      | SysErr _ => gam_node_set_pflag node MON_MISSING
      | SysOk sbuf => gam_node_set_is_dir node (st_dir sbuf)
      end;
  k ← kernel_monitored path;
  _ ← when (negb k) (gam_node_set_pflag node MON_NOKERNEL);
  _ ← update node (set_nd_sbuf (match r with SysOk sbuf => sbuf | SysErr _ => stat_zero end));
  now ← gam_poll_generic_get_time;
  _ ← update node (set_nd_lasttime now);
  mret (match r with SysOk _ => 0 | SysErr _ => GAMIN_EVENT_DELETED end).

(** [stat], the event, and the new [stat] saved. *)
Definition dnotify_detect (node : ptr) (path : string) : M Z :=
  r ← sys (sys_stat path);
  missing ← gam_node_has_pflag node MON_MISSING;
  event ←
    match r with
    | SysErr e =>
        if (e =? ENOENT) && negb missing then
          _ ← gam_node_set_pflags node MON_MISSING;
          _ ← gam_poll_generic_remove_busy node;
          subs ← gam_node_get_subscriptions node;
          _ ← when (negb (bool_decide (subs = [])))
                (_ ← gam_poll_dnotify_delist_node node;
                 gam_poll_generic_add_missing node);
          mret GAMIN_EVENT_DELETED
        else mret 0
    | SysOk sbuf =>
        if missing : bool then
          _ ← gam_node_unset_pflag node MON_MISSING;
          mret GAMIN_EVENT_CREATED
        else
          n ← load node;
          mret (if gam_poll_generic_node_changed (nd_sbuf n) sbuf then GAMIN_EVENT_CHANGED else 0)
    end;
  _ ← match r with
      | SysOk sbuf => gam_node_set_is_dir node (st_dir sbuf)
      | SysErr _ => mret tt
      end;
  _ ← update node (set_nd_sbuf (match r with SysOk sbuf => sbuf | SysErr _ => stat_zero end));
  mret event.

Definition count_check (n : GamNode) : GamNode := set_nd_checks (nd_checks n + 1) n.

(** The count of polls within one second while the node is watched, of quiet
    polls while it is busy. *)
Definition dnotify_count (node : ptr) (event : Z) : M unit :=
  now ← gam_poll_generic_get_time;
  n ← load node;
  if now =? nd_lasttime n then
    busy ← gam_node_has_pflag node MON_BUSY;
    when (negb busy)
      (now ← gam_poll_generic_get_time;
       when (st_mtime (nd_sbuf n) =? now) (update node count_check))
  else
    now ← gam_poll_generic_get_time;
    _ ← update node (set_nd_lasttime now);
    busy ← gam_node_has_pflag node MON_BUSY;
    if busy : bool then when (event =? 0) (update node count_check)
    else update node (set_nd_checks 0).

(** [node->subs != NULL] and the node's path is for the kernel. *)
Definition wanted_and_monitored (node : ptr) : M bool :=
  subs ← gam_node_get_subscriptions node;
  if bool_decide (subs = []) then mret false
  else path ← gam_node_get_path node; kernel_monitored path.

(** "switching %s back to polling" *)
Definition dnotify_to_polling (node : ptr) : M unit :=
  n ← load node;
  busy ← (if nd_checks n >=? 4 then gam_node_has_pflag node MON_BUSY else mret true);
  when (negb busy)
    (k ← wanted_and_monitored node;
     when k
       (_ ← gam_node_set_pflag node MON_BUSY;
        _ ← update node (set_nd_checks 0);
        _ ← gam_poll_generic_add_busy node;
        _ ← gam_poll_dnotify_flowon_node node;
        is_dir ← gam_node_is_dir node;
        when (negb is_dir)
          (parent ← gam_node_parent node;
           match parent with
           | None => mret tt
           | Some parent =>
               subs ← gam_node_get_subscriptions parent;
               when (negb (bool_decide (subs = []))) (gam_poll_generic_add_busy parent)
           end))).

(** "switching %s back to kernel monitoring" *)
Definition dnotify_to_kernel (node : ptr) (event : Z) : M unit :=
  n ← load node;
  busy ← (if event =? 0 then gam_node_has_pflag node MON_BUSY else mret false);
  when (busy && (nd_checks n >? 5))
    (k ← wanted_and_monitored node;
     when k
       (_ ← gam_node_unset_pflag node MON_BUSY;
        _ ← update node (set_nd_checks 0);
        _ ← gam_poll_generic_remove_busy node;
        gam_poll_dnotify_flowoff_node node)).

Definition dnotify_load_control (node : ptr) (event : Z) : M unit :=
  _ ← dnotify_count node event;
  _ ← dnotify_to_polling node;
  dnotify_to_kernel node event.

Definition gam_poll_dnotify_poll_file (node : ptr) : M Z :=
  n ← load node;
  delta ← gam_poll_generic_get_delta_time (nd_lasttime n);
  if negb (nd_lasttime n =? 0) && (delta <? nd_poll_time n) then mret 0
  else if nd_lasttime n =? 0 then dnotify_poll_first node (nd_path n)
  else
    event ← dnotify_detect node (nd_path n);
    nokernel ← gam_node_has_pflag node MON_NOKERNEL;
    if nokernel : bool then mret event
    else _ ← dnotify_load_control node event; mret event.
End PollFileDnotify.

#[export] Instance poll_dnotify_hook {os : OS} {glib : GLib} {dn : Dnotify os}
  : PollFile os dnotify_kernel | 0 := {| hook_poll_file := gam_poll_dnotify_poll_file |}.

Section PollDnotify.
Context {os : OS} {glib : GLib} {dn : Dnotify os}.
Abbreviation M := (ST server).

(** The timer, whose callback never stops it. *)
Definition gam_poll_dnotify_init : M bool :=
  _ ← gam_poll_generic_init;
  _ ← modify (upd_ctl (set_poll_handler GAMIN_P_DNOTIFY));
  _ ← modify (upd_ctl (set_scan_running true));
  mret true.

(** [path[0] != '/'] *)
Definition absolute (path : string) : bool := is_slash_at path 0.

Definition node_add_subscription (node sub : ptr) : M Z :=
  path ← gam_node_get_path node;
  if negb (absolute path) then mret (-1)
  else
    _ ← gam_node_add_subscription (Some node) sub;
    p ← polled_only path;
    if p : bool then
      n ← load node;
      _ ← when (nd_lasttime n =? 0) (_ ← gam_poll_dnotify_poll_file node; mret tt);
      _ ← gam_poll_generic_add_missing node;
      mret 0
    else
      _ ← gam_poll_generic_trigger_handler path GAMIN_ACTIVATE node;
      mret 0.

Definition node_remove_subscription (node sub : ptr) : M Z :=
  path ← gam_node_get_path node;
  if negb (absolute path) then mret (-1)
  else
    _ ← gam_node_remove_subscription node sub;
    p ← polled_only path;
    if p : bool then mret 0
    else
      n ← load node;
      other ← (if nd_pflags n =? MON_BUSY then mret false
               else gam_node_has_pflags node MON_ALL_PFLAGS);
      if other : bool then mret 0
      else
        _ ← gam_poll_generic_trigger_handler path GAMIN_DEACTIVATE node;
        mret 0.

(** The loop over the children is the one of [gam_poll_basic.c]. *)
Definition node_remove_directory_subscription (node sub : ptr) : M bool :=
  _ ← node_remove_subscription node sub;
  subs ← gam_node_get_subscriptions node;
  children ← gam_tree_get_children node;
  _ ← remove_children children (bool_decide (subs = []));
  subs ← gam_node_get_subscriptions node;
  if bool_decide (subs = []) then
    parent ← gam_node_parent node;
    b ← gam_node_has_dir_subscriptions parent;
    mret (negb b)
  else mret false.

(** The first events of a subscription whose node is not a directory. *)
Definition dnotify_first_events (sub node : ptr) (path : string) : M unit :=
  event ← gam_poll_dnotify_poll_file node;
  s ← load sub;
  _ ← (if (event =? 0) || (event =? GAMIN_EVENT_EXISTS) || (event =? GAMIN_EVENT_CHANGED)
          || (event =? GAMIN_EVENT_CREATED) then
         if gam_subscription_is_dir (Some s)
         then gam_server_emit_one_event path false GAMIN_EVENT_DELETED sub false
         else gam_server_emit_one_event path false GAMIN_EVENT_EXISTS sub false
       else if negb (event =? 0)
       then gam_server_emit_one_event path false GAMIN_EVENT_DELETED sub false
       else mret tt);
  gam_server_emit_one_event path false GAMIN_EVENT_ENDEXISTS sub false.

(** The node put on the list of polled resources; the name of a directory is
    not empty, so there is one. *)
Definition dnotify_listed_node (node : ptr) (node_is_dir sub_is_dir : bool) (path : string) : M ptr :=
  if node_is_dir then mret node
  else
    let parent := g_path_get_dirname path in
    o ← gam_tree_get_at_path parent;
    o ← match o with
        | Some n => mret (Some n)
        | None => gam_tree_add_at_path parent sub_is_dir
        end;
    g_assert_ptr o.

Definition gam_poll_dnotify_add_subscription (sub : ptr) : M bool :=
  s ← load sub;
  let path := sub_path s in
  node ← gam_tree_get_at_path path;
  listener ← g_assert_ptr (gam_subscription_get_listener (Some s));
  _ ← gam_listener_add_subscription listener sub;
  _ ← gam_poll_generic_update_time;
  node ← match node with
         | Some node => mret (Some node)
         | None => gam_tree_add_at_path path (gam_subscription_is_dir (Some s))
         end;
  match node with
  | None => mret false
  | Some node =>
      r ← node_add_subscription node sub;
      if r <? 0 then mret false
      else
        node_is_dir ← gam_node_is_dir node;
        _ ← (if node_is_dir : bool then gam_poll_generic_first_scan_dir sub node path
             else dnotify_first_events sub node path);
        missing ← gam_node_has_pflag node MON_MISSING;
        polled ← (if missing : bool then mret true else gam_node_has_pflag node MON_NOKERNEL);
        _ ← when polled (gam_poll_generic_add_missing node);
        node ← dnotify_listed_node node node_is_dir (gam_subscription_is_dir (Some s)) path;
        _ ← gam_poll_generic_add node;
        mret true
  end.

(** A node that is not a directory loses a subscription. *)
Definition dnotify_remove_from_file (node sub : ptr) : M unit :=
  _ ← node_remove_subscription node sub;
  subs ← gam_node_get_subscriptions node;
  when (bool_decide (subs = []))
    (_ ← gam_poll_generic_unregister_node node;
     has ← gam_tree_has_children node;
     when (negb has)
       (parent ← gam_node_parent node;
        match parent with
        | None => mret tt
        | Some p =>
            b ← gam_node_has_dir_subscriptions (Some p);
            when (negb b)
              (_ ← gam_tree_remove node;
               gam_poll_generic_prune_tree p)
        end)).

Definition dnotify_remove_from_dir (node sub : ptr) : M unit :=
  remove_dir ← node_remove_directory_subscription node sub;
  when remove_dir
    (_ ← gam_poll_generic_unregister_node node;
     parent ← gam_node_parent node;
     has ← gam_tree_has_children node;
     _ ← (if negb has then _ ← gam_tree_remove node; mret tt else mret tt);
     parent ← g_assert_ptr parent;
     gam_poll_generic_prune_tree parent).

Definition gam_poll_dnotify_remove_subscription_real (sub : ptr) : M unit :=
  s ← load sub;
  node ← gam_tree_get_at_path (sub_path s);
  _ ← match node with
      | None => mret tt
      | Some node =>
          is_dir ← gam_node_is_dir node;
          if negb is_dir then dnotify_remove_from_file node sub
          else dnotify_remove_from_dir node sub
      end;
  _ ← gam_subscription_free (Some sub);
  mret tt.

Definition gam_poll_dnotify_remove_subscription (sub : ptr) : M bool :=
  s ← load sub;
  node ← gam_tree_get_at_path (sub_path s);
  match node with
  | None =>
      _ ← gam_subscription_free (Some sub);
      mret true
  | Some _ =>
      _ ← gam_subscription_cancel (Some sub);
      _ ← gam_poll_dnotify_remove_subscription_real sub;
      mret true
  end.

#[export] Instance poll_dnotify_hooks : PollHooks os dnotify_kernel | 0 := {|
  hook_poll_add := gam_poll_dnotify_add_subscription;
  hook_poll_remove := gam_poll_dnotify_remove_subscription
|}.

Definition gam_poll_dnotify_remove_all_for (listener : ptr) : M bool :=
  subs ← gam_listener_get_subscriptions listener;
  _ ← for_each subs (fun sub => _ ← gam_poll_remove_subscription sub; mret tt);
  mret (negb (bool_decide (subs = []))).

#[export] Instance poll_dnotify_remove_all : PollRemoveAll os dnotify_kernel | 0 := {|
  hook_poll_remove_all_for := gam_poll_dnotify_remove_all_for
|}.

(** ** The periodic scan *)

Definition dnotify_poll_resource (node : ptr) : M unit :=
  is_dir ← gam_node_is_dir node;
  if is_dir : bool then
    fuel ← gets (fun s => size (nodes (sv_heap s)));
    gam_poll_generic_scan_directory_internal fuel node
  else
    event ← gam_poll_dnotify_poll_file node;
    gam_node_emit_event node event.

(** No special mode, and the path is for the kernel. *)
Definition back_to_kernel (node : ptr) : M bool :=
  special ← gam_node_has_pflags node MON_ALL_PFLAGS;
  if special : bool then mret false
  else path ← gam_node_get_path node; kernel_monitored path.

Definition dnotify_poll_missing (node : ptr) : M unit :=
  _ ← dnotify_poll_resource node;
  b ← back_to_kernel node;
  when b
    (_ ← gam_poll_generic_remove_missing node;
     subs ← gam_node_get_subscriptions node;
     when (negb (bool_decide (subs = []))) (gam_poll_dnotify_relist_node node)).

Definition dnotify_poll_busy (node : ptr) : M unit :=
  _ ← dnotify_poll_resource node;
  b ← back_to_kernel node;
  when b
    (_ ← gam_poll_generic_remove_busy node;
     subs ← gam_node_get_subscriptions node;
     when (negb (bool_decide (subs = []))) (gam_poll_dnotify_flowoff_node node)).

(** The loops index the list anew each time round, as in [PollBasic]. *)
Fixpoint dnotify_missing_loop (fuel idx : nat) : M unit :=
  match fuel with
  | O => fail OutOfFuel
  | S fuel =>
      l ← gets (fun s => missing_resources (sv_lists s));
      match l !! idx with
      | None => mret tt
      | Some node => _ ← dnotify_poll_missing node; dnotify_missing_loop fuel (S idx)
      end
  end.

Fixpoint dnotify_busy_loop (fuel idx : nat) : M unit :=
  match fuel with
  | O => fail OutOfFuel
  | S fuel =>
      l ← gets (fun s => busy_resources (sv_lists s));
      match l !! idx with
      | None => mret tt
      | Some node => _ ← dnotify_poll_busy node; dnotify_busy_loop fuel (S idx)
      end
  end.

Definition gam_poll_dnotify_scan_callback (fuel : nat) : M bool :=
  _ ← gam_poll_generic_update_time;
  _ ← dnotify_missing_loop fuel 0;
  _ ← dnotify_busy_loop fuel 0;
  mret true.
End PollDnotify.
