(* ===== verification/Dnotify.v ===== *)
(** * The dnotify backend ([server/gam_dnotify.c], the rest)

    The signal handler of [DnotifyTables] only notes the descriptor; the main
    loop then calls [gam_dnotify_pipe_handler], which scans the directory of
    each descriptor noted.  Subscriptions go to [PollDnotify]. *)

From S2P Require Import Prelude Protocol Monad OS Fs State.
From S2P Require Import PollGeneric DnotifyTables PollDnotify Server.

Local Open Scope Z_scope.

#[local] Existing Instance dnotify_kernel.

Section Dnotify.
Context {os : OS} {glib : GLib} {dn : Dnotify os}.
Abbreviation M := (ST server).

(** ** Signals *)

(** [g_queue_pop_tail]: [None] when the queue is empty. *)
Definition pop_change : M (option Z) :=
  q ← dn_gets changes;
  match last q with
  | None => mret None
  | Some fd => _ ← dn_modify (set_changes (removelast q)); mret (Some fd)
  end.

(** One descriptor signalled. *)
Definition dnotify_handle_change (fd : Z) : M unit :=
  _ ← lock_dnotify;
  data ← dn_gets (fun k => fd_hash k !! fd);
  _ ← unlock_dnotify;
  match data with
  | None => mret tt
  | Some data =>
      d ← dn_load data;
      fuel ← gets (fun s => size (nodes (sv_heap s)));
      gam_poll_generic_scan_directory (S fuel) (dn_path d)
  end.

(** The [while] loop: the descriptor 0 converts to a null pointer, which ends
    it as the end of the queue does. *)
Fixpoint dnotify_pipe_loop (fuel : nat) : M unit :=
  match fuel with
  | O => fail OutOfFuel
  | S fuel =>
      o ← pop_change;
      match o with
      | None => mret tt
      | Some fd =>
          if fd =? 0 then mret tt
          else _ ← dnotify_handle_change fd; dnotify_pipe_loop fuel
      end
  end.

Definition gam_dnotify_pipe_handler : M bool :=
  _ ← dn_call pipe_read;
  q ← dn_gets changes;
  _ ← dnotify_pipe_loop (S (length q));
  mret true.

(** ** Subscriptions *)

Definition gam_dnotify_add_subscription (sub : ptr) : M bool :=
  r ← gam_poll_add_subscription sub;
  if negb r then mret false else mret true.

Definition gam_dnotify_remove_subscription (sub : ptr) : M bool :=
  r ← gam_poll_remove_subscription sub;
  if negb r then mret false else mret true.

Definition gam_dnotify_remove_all_for (listener : ptr) : M bool :=
  r ← gam_poll_remove_all_for listener;
  if negb r then mret false else mret true.

(** ** Initialisation *)

Definition gam_dnotify_init : M bool :=
  ok ← gam_poll_dnotify_init;
  if negb ok then mret false
  else
    piped ← sys make_pipe;
    if negb piped then mret false
    else
      _ ← dn_modify (fun k => set_fd_hash ∅ (set_path_hash ∅ (set_changes [] k)));
      _ ← gam_server_install_kernel_hooks GAMIN_K_DNOTIFY;
      mret true.
End Dnotify.

#[export] Instance dnotify_backend {os : OS} {glib : GLib} {dn : Dnotify os}
  : KernelBackend os dnotify_kernel := {|
  hook_kernel_init := gam_dnotify_init;
  hook_kernel_add := gam_dnotify_add_subscription;
  hook_kernel_remove := gam_dnotify_remove_subscription;
  hook_kernel_remove_all_for := gam_dnotify_remove_all_for
|}.
