(* ===== verification/DnotifySafety.v ===== *)
(** * Safety of the dnotify backend

    The records that the two tables name exist, so every handler completes;
    [safely] of [Safety] carries this along as the kernel's part of the
    invariant. *)

From S2P Require Import Prelude Protocol EventQueue Monad OS Excludes.
From S2P Require Import Fs State Subscription Listener ConnSend Node.
From S2P Require Import Tree Inv Emit PollGeneric PollBasic Safety.
From S2P Require Import PollSafety AddSafety.
From S2P Require Import DnotifyTables DnotifySpec PollDnotify Server Dnotify.

Local Open Scope Z_scope.

#[local] Existing Instance dnotify_kernel.

(** ** The tables *)

(** A record under flow control has no descriptor. *)
Definition flow_ok (d : DNotifyData) : Prop :=
  -1 <= dn_fd d /\ 0 <= dn_busy d /\ (0 < dn_busy d -> dn_fd d = -1).

(** What the tables name exists. *)
Record tables_safe (k : dnotify_state) : Prop := {
  ts_path path p : path_hash k !! path = Some p ->
    exists d, dn_data k !! p = Some d /\ dn_path d = path;
  ts_fd fd p : fd_hash k !! fd = Some p ->
    0 <= fd /\ exists d, dn_data k !! p = Some d /\ dn_fd d = fd;
  ts_data p d : dn_data k !! p = Some d -> flow_ok d;
  ts_fresh p : is_Some (dn_data k !! p) -> (p < dn_next k)%positive
}.

Lemma safe_initial : tables_safe dnotify_initial.
Proof. split; simpl; intros *; rewrite lookup_empty; [done..|by intros [? ?]]. Qed.

(** Changing a record; a descriptor that is in the table stays. *)
Lemma safe_update k p d d' :
  tables_safe k -> dn_data k !! p = Some d -> dn_path d' = dn_path d -> flow_ok d' ->
  (dn_fd d' = dn_fd d \/ fd_hash k !! dn_fd d <> Some p) ->
  tables_safe (set_dn_data (<[p := d']> (dn_data k)) k).
Proof.
  intros [Hp Hf Hd Hn] Hpd Epath Hok Hfd. split; simpl.
  - intros path q Hq. destruct (Hp _ _ Hq) as (x & Hx & <-). rewrite lookup_insert.
    destruct (decide (p = q)) as [<-|]; [|by exists x]. exists d'. split; [done|congruence].
  - intros fd q Hq. destruct (Hf _ _ Hq) as (H0 & x & Hx & <-). split; [done|]. rewrite lookup_insert.
    destruct (decide (p = q)) as [<-|]; [|by exists x]. exists d'. split; [done|].
    assert (x = d) as -> by congruence. by destruct Hfd.
  - intros q x [[<- <-]|[_ Hx]]%lookup_insert_Some; [done|by apply (Hd q)].
  - intros q. rewrite lookup_insert_is_Some. intros [<-|[_ H]]; apply Hn; [by exists d|done].
Qed.

Lemma safe_new k path fd :
  tables_safe k -> 0 <= fd ->
  tables_safe (mk_dnotify (Pos.succ (dn_next k)) (<[dn_next k := mk_dn path fd 1 0]> (dn_data k))
    (path_hash k) (fd_hash k) (changes k) (dnotify_lock k)).
Proof.
  intros [Hp Hf Hd Hn] H0.
  assert (forall q x, dn_data k !! q = Some x -> dn_next k <> q) as Hne.
  { intros q x Hq <-. apply (Pos.lt_irrefl (dn_next k)), Hn. by exists x. }
  split; simpl.
  - intros path' q Hq. destruct (Hp _ _ Hq) as (x & Hx & <-). exists x.
    rewrite lookup_insert_ne by eauto. done.
  - intros fd' q Hq. destruct (Hf _ _ Hq) as (? & x & Hx & <-). split; [done|]. exists x.
    rewrite lookup_insert_ne by eauto. done.
  - intros q x [[<- <-]|[_ Hx]]%lookup_insert_Some; [split; simpl; lia|by apply (Hd q)].
  - intros q. rewrite lookup_insert_is_Some. intros [<-|[_ H]]; [lia|]. specialize (Hn _ H). lia.
Qed.

Lemma safe_free k p d :
  tables_safe k -> dn_data k !! p = Some d ->
  path_hash k !! dn_path d <> Some p -> fd_hash k !! dn_fd d <> Some p ->
  tables_safe (set_dn_data (delete p (dn_data k)) k).
Proof.
  intros [Hp Hf Hd Hn] Hpd Hnp Hnf. split; simpl.
  - intros path q Hq. destruct (Hp _ _ Hq) as (x & Hx & <-). exists x.
    rewrite lookup_delete_ne; [done|]. intros <-. apply Hnp. by assert (x = d) as -> by congruence.
  - intros fd q Hq. destruct (Hf _ _ Hq) as (? & x & Hx & <-). split; [done|]. exists x.
    rewrite lookup_delete_ne; [done|]. intros <-. apply Hnf. by assert (x = d) as -> by congruence.
  - intros q x [_ Hx]%lookup_delete_Some. by apply (Hd q).
  - intros q [x [_ Hx]%lookup_delete_Some]. apply Hn. by exists x.
Qed.

Lemma safe_fd_insert k fd p d :
  tables_safe k -> 0 <= fd -> dn_data k !! p = Some d -> dn_fd d = fd ->
  tables_safe (set_fd_hash (<[fd := p]> (fd_hash k)) k).
Proof.
  intros [Hp Hf Hd Hn] H0 Hpd E. split; simpl; try done.
  intros fd' q [[<- <-]|[_ Hq]]%lookup_insert_Some; [|by apply Hf]. split; [done|]. by exists d.
Qed.

Lemma safe_path_insert k path p d :
  tables_safe k -> dn_data k !! p = Some d -> dn_path d = path ->
  tables_safe (set_path_hash (<[path := p]> (path_hash k)) k).
Proof.
  intros [Hp Hf Hd Hn] Hpd E. split; simpl; try done.
  intros path' q [[<- <-]|[_ Hq]]%lookup_insert_Some; [|by apply Hp]. by exists d.
Qed.

Lemma safe_fd_delete k fd : tables_safe k -> tables_safe (set_fd_hash (delete fd (fd_hash k)) k).
Proof. intros [Hp Hf Hd Hn]. split; simpl; try done. intros fd' q [_ Hq]%lookup_delete_Some. by apply Hf. Qed.

Lemma safe_path_delete k path :
  tables_safe k -> tables_safe (set_path_hash (delete path (path_hash k)) k).
Proof. intros [Hp Hf Hd Hn]. split; simpl; try done. intros path' q [_ Hq]%lookup_delete_Some. by apply Hp. Qed.

Lemma safe_lock k b : tables_safe k -> tables_safe (set_dnotify_lock b k).
Proof. by intros [? ? ? ?]. Qed.

Lemma safe_queue k q : tables_safe k -> tables_safe (set_changes q k).
Proof. by intros [? ? ? ?]. Qed.

(** ** The handlers *)

Section Handlers.
Context {os : OS} {dn : Dnotify os} {laws : DnotifyLaws dn}.
Abbreviation M := (ST server).

(** From [s0] only the tables and the world have changed; the lock is [b]. *)
Record tabled (b : bool) (s0 s : server) : Prop := {
  tb_only : s = set_sv_kernel (sv_kernel s) (set_sv_world (sv_world s) s0);
  tb_safe : tables_safe (sv_kernel s);
  tb_lock : dnotify_lock (sv_kernel s) = b;
  tb_queue : changes (sv_kernel s) = changes (sv_kernel s0)
}.

Lemma tabled_upd b b' f s0 s :
  tabled b s0 s -> tables_safe (f (sv_kernel s)) -> dnotify_lock (f (sv_kernel s)) = b' ->
  changes (f (sv_kernel s)) = changes (sv_kernel s) -> tabled b' s0 (upd_dn f s).
Proof. intros [E ? ? Hq] Hs Hl Hc. split; [by rewrite E|done..|]. by rewrite <- Hq. Qed.

Lemma tabled_world b w s0 s : tabled b s0 s -> tabled b s0 (set_sv_world w s).
Proof. intros [E ? ? ?]. split; [by rewrite E|done..]. Qed.

Lemma tabled_refl b s :
  tables_safe (sv_kernel s) -> dnotify_lock (sv_kernel s) = b -> tabled b s s.
Proof. intros. split; try done. by destruct s. Qed.

Lemma safe_no_fd k p d : tables_safe k -> dn_data k !! p = Some d -> dn_fd d = -1 ->
  fd_hash k !! dn_fd d <> Some p.
Proof. intros Hk _ E H. destruct (ts_fd _ Hk _ _ H). lia. Qed.

Lemma wp_notify_tabled b fd s0 s :
  tabled b s0 s -> wp (notify_on fd) (fun _ s' => tabled b s0 s') s.
Proof. intros H. unfold notify_on, dn_call. apply wp_bind, wp_modify, wp_modify. by do 2 apply tabled_world. Qed.

Lemma tabled_activate b path s0 s :
  tabled b s0 s -> wp (dnotify_activate path) (fun _ s' => tabled b s0 s') s.
Proof.
  intros H. pose proof (tb_safe _ _ _ H) as Hs. unfold dnotify_activate. apply wp_bind, wp_gets.
  destruct (path_hash (sv_kernel s) !! path) as [p|] eqn:Hh.
  - destruct (ts_path _ Hs path p Hh) as (d & Hd & _). apply wp_dn_update with d; [done|].
    apply (tabled_upd b); [done| |apply H|done].
    apply (safe_update _ p d); [done..|exact (ts_data _ Hs p d Hd)|by left].
  - apply wp_bind, wp_sys. intros [fd|e] w Ho; [|by apply wp_ret, tabled_world].
    destruct (open_ok _ _ fd w Ho) as (H0 & _). apply wp_bind. unfold gam_dnotify_data_new, wp at 1.
    apply (tabled_world _ w) in H. set (s1 := set_sv_world w s) in *. set (p := dn_next (sv_kernel s1)).
    apply wp_bind, wp_modify, wp_bind, wp_modify, wp_notify_tabled.
    pose proof (safe_new _ path fd (tb_safe _ _ _ H) H0) as Hs1. fold p in Hs1.
    assert ((<[p := mk_dn path fd 1 0]> (dn_data (sv_kernel s1))) !! p = Some (mk_dn path fd 1 0)) as Hp
      by by rewrite lookup_insert, decide_True.
    pose proof (safe_fd_insert _ fd p _ Hs1 H0 Hp eq_refl) as Hs2.
    pose proof (safe_path_insert _ path p _ Hs2 Hp eq_refl) as Hs3.
    apply (tabled_upd b); [|done|apply H|done].
    apply (tabled_upd b); [|done|apply H|done].
    apply (tabled_upd b); [done|done|apply H|done].
Qed.

Lemma tabled_deactivate b path s0 s :
  tabled b s0 s -> wp (dnotify_deactivate path) (fun _ s' => tabled b s0 s') s.
Proof.
  intros H. pose proof (tb_safe _ _ _ H) as Hs. unfold dnotify_deactivate. apply wp_bind, wp_gets.
  destruct (path_hash (sv_kernel s) !! path) as [p|] eqn:Hh; [|by apply wp_ret].
  destruct (ts_path _ Hs path p Hh) as (d & Hd & _). apply wp_bind, wp_dn_update with d; [done|].
  set (d1 := set_dn_refcount _ d). set (s1 := upd_dn _ s).
  assert (tabled b s0 s1) as H1.
  { apply (tabled_upd b); [done| |apply H|done].
    apply (safe_update _ p d); [done..|exact (ts_data _ Hs p d Hd)|by left]. }
  assert (dn_data (sv_kernel s1) !! p = Some d1) as Hd1
    by (subst s1; simpl; by rewrite lookup_insert, decide_True).
  clearbody s1 d1. apply wp_bind, wp_dn_load with d1; [done|]. apply wp_when; intros _; [|done].
  unfold dn_call. apply wp_bind, wp_modify, wp_bind, wp_modify, wp_bind, wp_modify.
  unfold gam_dnotify_data_free, wp. simpl. rewrite Hd1.
  pose proof (tb_safe _ _ _ H1) as Hs1.
  eapply (tabled_upd b); [eapply (tabled_upd b); [eapply (tabled_upd b);
    [by apply tabled_world|..]|..]|..]; simpl; try done; try apply H1.
  - by apply safe_path_delete.
  - by apply (safe_fd_delete (set_path_hash _ _)), safe_path_delete.
  - apply (safe_free (set_fd_hash _ (set_path_hash _ _)) p d1); simpl; try done.
    + by apply (safe_fd_delete (set_path_hash _ _)), safe_path_delete.
    + by rewrite lookup_delete_eq.
    + by rewrite lookup_delete_eq.
Qed.

Lemma tabled_flow_start b p d s0 s :
  tabled b s0 s -> dn_data (sv_kernel s) !! p = Some d ->
  wp (dnotify_flow_start p) (fun _ s' => tabled b s0 s') s.
Proof.
  intros H Hd. unfold dnotify_flow_start. pose proof (tb_safe _ _ _ H) as Hs.
  destruct (ts_data _ Hs p d Hd) as (Hf & Hb & Hflow).
  apply wp_bind, wp_dn_load with d; [done|]. apply wp_bind.
  eapply wp_mono with (Q := fun _ s' => tabled b s0 s' /\
    exists d', dn_data (sv_kernel s') !! p = Some d' /\ dn_fd d' = -1 /\ 0 <= dn_busy d').
  { apply wp_when; intros E; [|destruct (Z.geb_spec (dn_fd d) 0); [done|]; split; [done|];
      exists d; split; [done|split; [lia|done]]].
    unfold dn_call. apply wp_bind, wp_modify, wp_bind, wp_modify, wp_dn_update with d; [done|].
    split; [|eexists; split; [simpl; by rewrite lookup_insert, decide_True|by split]].
    eapply (tabled_upd b); [eapply (tabled_upd b); [by apply tabled_world|..]|..]; simpl; try done;
      try apply H.
    - by apply safe_fd_delete.
    - apply (safe_update (set_fd_hash _ _) p d); [by apply safe_fd_delete|done|done| |].
      + by split; simpl; [lia|].
      + right. simpl. by rewrite lookup_delete_eq. }
  intros [] s1 (H1 & d1 & Hd1 & E1 & Hb1). apply wp_dn_update with d1; [done|].
  apply (tabled_upd b); [done| |apply H1|done].
  apply (safe_update _ p d1); [apply H1|done|done| |by left]. split; simpl; [lia|split; [lia|done]].
Qed.

Lemma tabled_flow_stop b p d s0 s :
  tabled b s0 s -> dn_data (sv_kernel s) !! p = Some d ->
  wp (dnotify_flow_stop p) (fun _ s' => tabled b s0 s') s.
Proof.
  intros H Hd. unfold dnotify_flow_stop. pose proof (tb_safe _ _ _ H) as Hs.
  destruct (ts_data _ Hs p d Hd) as (Hf & Hb & Hflow).
  apply wp_bind, wp_dn_load with d; [done|]. apply wp_when; intros H0; [|done]. apply Z.gtb_lt in H0.
  specialize (Hflow H0). apply wp_bind, wp_dn_update with d; [done|].
  set (d1 := set_dn_busy _ d). set (s1 := upd_dn _ s).
  assert (tabled b s0 s1) as H1.
  { apply (tabled_upd b); [done| |apply H|done].
    apply (safe_update _ p d); [done..| |by left]. split; simpl; [lia|split; [lia|done]]. }
  assert (dn_data (sv_kernel s1) !! p = Some d1) as Hd1
    by (subst s1; simpl; by rewrite lookup_insert, decide_True).
  assert (dn_fd d1 = -1) as E1 by done. clearbody s1 d1.
  apply wp_bind, wp_dn_load with d1; [done|]. apply wp_when; intros Hz; [|done]. apply Z.eqb_eq in Hz.
  apply wp_bind, wp_sys. intros [fd|e] w Ho; [|by apply wp_ret, tabled_world].
  destruct (open_ok _ _ fd w Ho) as (Hfd & _). apply (tabled_world _ w) in H1.
  set (s2 := set_sv_world w s1) in *. assert (dn_data (sv_kernel s2) !! p = Some d1) as Hd2 by done.
  clearbody s2. pose proof (tb_safe _ _ _ H1) as Hs2.
  apply wp_bind, wp_dn_update with d1; [done|]. apply wp_bind, wp_modify, wp_notify_tabled.
  assert (tables_safe (set_dn_data (<[p := set_dn_fd fd d1]> (dn_data (sv_kernel s2))) (sv_kernel s2))) as Hs3.
  { apply (safe_update _ p d1); [done..| |right; by apply safe_no_fd]. split; simpl; [lia|split; lia]. }
  eapply (tabled_upd b); [eapply (tabled_upd b); [done|..]|..]; simpl; try done; try apply H1.
  apply (safe_fd_insert (set_dn_data _ _) fd p (set_dn_fd fd d1)); simpl; [done..| |done].
  by rewrite lookup_insert, decide_True.
Qed.

(** A call of the handler: it completes, and the lock is free again. *)
Lemma tabled_handler path mode s :
  tables_safe (sv_kernel s) -> dnotify_lock (sv_kernel s) = false ->
  wp (gam_dnotify_directory_handler_internal path mode) (fun _ s' => tabled false s s') s.
Proof.
  intros Hs Hl. unfold gam_dnotify_directory_handler_internal.
  apply wp_bind. eapply wp_mono with (Q := fun _ s' => tabled dnotify_locks s s').
  { unfold lock_dnotify. destruct dnotify_locks; [|by apply wp_ret, tabled_refl].
    apply wp_bind, wp_gets. rewrite Hl. apply wp_modify, (tabled_upd false); [by apply tabled_refl|by apply safe_lock|done..]. }
  intros [] s1 H1. apply wp_bind. eapply wp_mono with (Q := fun _ s' => tabled dnotify_locks s s').
  { destruct mode; [by apply tabled_activate|by apply tabled_deactivate|..].
    all: apply wp_bind, wp_gets; destruct (path_hash (sv_kernel s1) !! path) as [p|] eqn:Hh;
      [|by apply wp_ret].
    all: destruct (ts_path _ (tb_safe _ _ _ H1) path p Hh) as (d & Hd & _).
    - by apply (tabled_flow_start _ p d).
    - by apply (tabled_flow_stop _ p d). }
  intros [] s2 H2. unfold unlock_dnotify. destruct dnotify_locks; [|by apply wp_ret].
  apply wp_modify, (tabled_upd true); [done|by apply safe_lock, H2|done..].
Qed.
End Handlers.

(** ** The kernel's part of the invariant *)

(** The tables are in order, the lock is free and the queue is [q]. *)
Definition dnotify_inv (q : list Z) : KernelInv dnotify_kernel := {|
  kernel_inv k := tables_safe k /\ dnotify_lock k = false /\ changes k = q
|}.

Section Poll.
Context {os : OS} {glib : GLib} {dn : Dnotify os} {dlaws : DnotifyLaws dn} {laws : OSLaws os} {q : list Z}.
Abbreviation M := (ST server).
Abbreviation inv := (inv (ki := dnotify_inv q)).
Abbreviation safely := (safely (ki := dnotify_inv q)).

Lemma safely_dir_handler ex path mode s :
  inv ex s -> safely ex (gam_dnotify_directory_handler_internal path mode) (fun _ _ => True) s.
Proof.
  intros Hi. destruct (inv_kernel _ _ Hi) as (Hs & Hl & Hq).
  eapply wp_mono; [by apply tabled_handler|]. intros [] s' [E Hs' Hl' Hq'].
  rewrite E. set (s1 := set_sv_kernel _ _).
  destruct (inv_kernel_store (ki := dnotify_inv q) (ki0 := dnotify_inv q) ex s s1) as [Hi' G']; [done..| |done|done].
  split; [done|]. split; [done|]. subst s1. simpl. congruence.
Qed.
Hint Resolve safely_dir_handler : safety.

Lemma safely_file_handler ex path mode s :
  inv ex s -> safely ex (gam_dnotify_file_handler path mode) (fun _ _ => True) s.
Proof. intros Hi. unfold gam_dnotify_file_handler. safe. Qed.
Hint Resolve safely_file_handler : safety.

Lemma safely_kernel_dir ex path mode s :
  inv ex s -> safely ex (gam_kernel_dir_handler path mode) (fun _ _ => True) s.
Proof.
  intros Hi. unfold gam_kernel_dir_handler, gam_server_get_kernel_handler. safe.
Qed.

Lemma safely_kernel_file ex path mode s :
  inv ex s -> safely ex (gam_kernel_file_handler path mode) (fun _ _ => True) s.
Proof.
  intros Hi. unfold gam_kernel_file_handler, gam_server_get_kernel_handler, hook_file_handler,
    dnotify_handlers. safe.
Qed.
Hint Resolve safely_kernel_dir safely_kernel_file : safety.

(** ** Triggers *)

Lemma safely_parent ex n s :
  inv ex s -> live n s ->
  safely ex (gam_node_parent n) (fun o s' => s' = s /\ forall p, o = Some p -> live p s) s.
Proof.
  intros Hi [x Hx]. unfold gam_node_parent.
  eapply safely_bind; [by apply (safely_load_node ex n x)|]. intros y s' _ _ [-> ->].
  apply safely_ret; [done|]. split; [done|]. intros p Hp.
  destruct (inv_tree _ _ Hi) as [root Ht]. rewrite (to_linked _ _ _ Ht _ _ Hx) in Hp.
  destruct (to_parent _ _ _ Ht _ _ _ Hx Hp) as (_ & y & Hy & _). by exists y.
Qed.

Lemma safely_add_busy ex n s :
  inv ex s -> live n s -> safely ex (gam_poll_generic_add_busy n) (fun _ _ => True) s.
Proof.
  intros Hi Hn. unfold gam_poll_generic_add_busy. safe_step. safe_step; [safe|].
  eapply safely_mono; [apply safely_lists|done]; simpl; try apply Hi.
  apply list_ok_cons; [apply Hi|by apply g_list_find_false|done].
Qed.
Hint Resolve safely_add_busy safely_get_path safely_is_dir safely_get_subs safely_delta
  safely_get_time : safety.

Lemma safely_trigger_file ex path mode n s :
  inv ex s -> live n s ->
  safely ex (gam_poll_generic_trigger_file_handler path mode n) (fun _ _ => True) s.
Proof.
  intros Hi Hn. unfold gam_poll_generic_trigger_file_handler, gam_server_get_kernel_handler.
  safe_step. safe_step; [safe|]. safe_step. safe_step; [|safe]. safe_step; [safe|].
  eapply safely_bind; [by apply safely_parent|]. intros [p|] s' _ _ [-> Hp]; [|safe].
  specialize (Hp p eq_refl). safe.
Qed.
Hint Resolve safely_trigger_file : safety.

Lemma safely_trigger ex path mode n s :
  inv ex s -> live n s -> safely ex (gam_poll_generic_trigger_handler path mode n) (fun _ _ => True) s.
Proof.
  intros Hi Hn. unfold gam_poll_generic_trigger_handler, gam_poll_generic_trigger_dir_handler,
    gam_server_get_kernel_handler. safe.
Qed.
Hint Resolve safely_trigger : safety.

Lemma safely_monitored ex type path s :
  inv ex s -> safely ex (monitored_by type path) (fun _ _ => True) s.
Proof. intros Hi. unfold monitored_by. safe. Qed.
Hint Resolve safely_monitored : safety.

Lemma safely_trigger_all {A} ex path mode n (l : list A) s :
  inv ex s -> live n s ->
  safely ex (for_each l (fun _ => gam_poll_generic_trigger_handler path mode n)) (fun _ _ => True) s.
Proof.
  intros Hi Hn. apply (safely_for_each ex l _ (fun _ => live n)); [|  |done|done].
  - intros _ t t' G. by apply live_grows.
  - intros _ t Hi' Hn'. by apply safely_trigger.
Qed.
Hint Resolve safely_trigger_all : safety.

Lemma safely_modes ex n s :
  inv ex s -> live n s ->
  safely ex (gam_poll_dnotify_delist_node n) (fun _ _ => True) s /\
  safely ex (gam_poll_dnotify_relist_node n) (fun _ _ => True) s /\
  safely ex (gam_poll_dnotify_flowon_node n) (fun _ _ => True) s /\
  safely ex (gam_poll_dnotify_flowoff_node n) (fun _ _ => True) s.
Proof.
  intros Hi Hn. unfold gam_poll_dnotify_delist_node, gam_poll_dnotify_relist_node,
    gam_poll_dnotify_flowon_node, gam_poll_dnotify_flowoff_node, kernel_monitored.
  split; [safe|]. split; [safe|]. by split; safe.
Qed.

Lemma safely_delist ex n s :
  inv ex s -> live n s -> safely ex (gam_poll_dnotify_delist_node n) (fun _ _ => True) s.
Proof. apply safely_modes. Qed.
Lemma safely_relist ex n s :
  inv ex s -> live n s -> safely ex (gam_poll_dnotify_relist_node n) (fun _ _ => True) s.
Proof. apply safely_modes. Qed.
Lemma safely_flowon ex n s :
  inv ex s -> live n s -> safely ex (gam_poll_dnotify_flowon_node n) (fun _ _ => True) s.
Proof. apply safely_modes. Qed.
Lemma safely_flowoff ex n s :
  inv ex s -> live n s -> safely ex (gam_poll_dnotify_flowoff_node n) (fun _ _ => True) s.
Proof. apply safely_modes. Qed.
Hint Resolve safely_delist safely_relist safely_flowon safely_flowoff : safety.

(** ** Polling *)

Lemma safely_wanted ex n s :
  inv ex s -> live n s -> safely ex (wanted_and_monitored n) (fun _ _ => True) s.
Proof. intros Hi Hn. unfold wanted_and_monitored, kernel_monitored. safe. Qed.
Hint Resolve safely_wanted : safety.

Lemma safely_first_poll ex n path s :
  inv ex s -> live n s -> safely ex (dnotify_poll_first n path) (fun _ _ => True) s.
Proof. intros Hi Hn. unfold dnotify_poll_first, kernel_monitored. safe. Qed.

Lemma safely_detect ex n path s :
  inv ex s -> live n s -> safely ex (dnotify_detect n path) (fun _ _ => True) s.
Proof. intros Hi Hn. unfold dnotify_detect. safe. Qed.

Lemma safely_count ex n event s :
  inv ex s -> live n s -> safely ex (dnotify_count n event) (fun _ _ => True) s.
Proof. intros Hi Hn. unfold dnotify_count. safe. Qed.

Lemma safely_to_polling ex n s :
  inv ex s -> live n s -> safely ex (dnotify_to_polling n) (fun _ _ => True) s.
Proof.
  intros Hi Hn. unfold dnotify_to_polling. safe.
  all: eapply safely_bind; [by apply safely_parent|]; intros [p|] s0 _ _ [-> Hp]; [|safe].
  all: specialize (Hp p eq_refl); safe.
Qed.

Lemma safely_to_kernel ex n event s :
  inv ex s -> live n s -> safely ex (dnotify_to_kernel n event) (fun _ _ => True) s.
Proof. intros Hi Hn. unfold dnotify_to_kernel. safe. Qed.
Hint Resolve safely_first_poll safely_detect safely_count safely_to_polling safely_to_kernel : safety.

Lemma safely_poll_dnotify ex n s :
  inv ex s -> live n s -> safely ex (gam_poll_dnotify_poll_file n) (fun _ _ => True) s.
Proof. intros Hi Hn. unfold gam_poll_dnotify_poll_file, dnotify_load_control. safe. Qed.
End Poll.

#[export] Instance poll_dnotify_safe {os : OS} {glib : GLib} {dn : Dnotify os}
  {dlaws : DnotifyLaws dn} {laws : OSLaws os} (q : list Z)
  : PollFileSafe (ki := dnotify_inv q) poll_dnotify_hook.
Proof. intros ex n s. apply safely_poll_dnotify. Qed.

(** ** Signals *)

Section Signals.
Context {os : OS} {glib : GLib} {dn : Dnotify os} {dlaws : DnotifyLaws dn} {laws : OSLaws os}.
Abbreviation M := (ST server).

(** The oldest descriptor is taken off the queue. *)
Definition popped (s : server) : server :=
  upd_dn (fun k => set_changes (removelast (changes k)) k) s.

(** The descriptors [l] have been handled, one after the other: a descriptor
    that is not watched any more is skipped; for one that is, its directory
    has been scanned. *)
Inductive scanned : list Z -> server -> server -> Prop :=
  | scanned_nil s : scanned [] s s
  | scanned_stale fd l s s' :
      fd_hash (sv_kernel s) !! fd = None -> scanned l (popped s) s' -> scanned (fd :: l) s s'
  | scanned_dir fd l p d fuel s s1 s' :
      fd_hash (sv_kernel s) !! fd = Some p -> dn_data (sv_kernel s) !! p = Some d ->
      gam_poll_generic_scan_directory fuel (dn_path d) (popped s) = Ok (tt, s1) ->
      scanned l s1 s' -> scanned (fd :: l) s s'.

Lemma inv_popped fd q ex s :
  inv (ki := dnotify_inv (q ++ [fd])) ex s ->
  inv (ki := dnotify_inv q) ex (popped s) /\ grows s (popped s).
Proof.
  intros Hi. pose proof (inv_kernel _ _ Hi) as (Hs & Hl & Hq).
  apply (inv_kernel_store (ki0 := dnotify_inv (q ++ [fd])) ex s); try done. simpl.
  rewrite Hq, removelast_last. split; [by apply safe_queue|done].
Qed.

(** Taking the lock to look something up leaves no trace. *)
Lemma locked_read {A B} (f : dnotify_state -> A) (g : A -> M B) s :
  dnotify_lock (sv_kernel s) = false -> (forall b k, f (set_dnotify_lock b k) = f k) ->
  (_ ← lock_dnotify; a ← dn_gets f; _ ← unlock_dnotify; g a) s = g (f (sv_kernel s)) s.
Proof.
  intros Hl Hf. rewrite (bind_Ok _ _ _ _ _ (lock_Ok s Hl)). set (s1 := upd_dn _ s).
  rewrite (bind_Ok _ _ s1 (f (sv_kernel s)) s1) by (unfold dn_gets, gets; simpl; by rewrite Hf).
  rewrite (bind_Ok _ _ _ _ _ (unlock_Ok s1 eq_refl)). f_equal. by apply (upd_lock_id false s).
Qed.

Lemma handle_change_eq fd s :
  dnotify_lock (sv_kernel s) = false ->
  dnotify_handle_change fd s =
  match fd_hash (sv_kernel s) !! fd with
  | None => mret tt
  | Some p =>
      d ← dn_load p;
      fuel ← gets (fun s => size (nodes (sv_heap s)));
      gam_poll_generic_scan_directory (S fuel) (dn_path d)
  end s.
Proof.
  intros Hl. unfold dnotify_handle_change. rewrite (locked_read (fun k => fd_hash k !! fd)) by done.
  cbn beta. reflexivity.
Qed.

(** One descriptor. *)
Lemma change_total fd q l s :
  inv (ki := dnotify_inv (q ++ [fd])) idle s ->
  wp (dnotify_handle_change fd) (fun _ s' => inv (ki := dnotify_inv q) idle s' /\ grows s s' /\
    forall s'', scanned l s' s'' -> scanned (fd :: l) s s'') (popped s).
Proof.
  intros Hi. destruct (inv_popped fd q idle s Hi) as [Hi1 G1].
  pose proof (inv_kernel _ _ Hi1) as (Hs & Hl & _).
  unfold wp. rewrite handle_change_eq by done.
  change (fd_hash (sv_kernel (popped s))) with (fd_hash (sv_kernel s)) in *.
  destruct (fd_hash (sv_kernel s) !! fd) as [p|] eqn:Efd.
  2:{ split; [done|]. split; [done|]. intros s''. by apply scanned_stale. }
  destruct (ts_fd _ Hs fd p Efd) as (_ & d & Hd & _).
  apply (wp_bind (dn_load p)), wp_dn_load with d; [done|]. apply wp_bind, wp_gets.
  pose proof (safely_scan_directory (ki := dnotify_inv q) None (size (nodes (sv_heap (popped s))))
    (dn_path d) (popped s) Hi1) as H.
  destruct (wp_Ok _ _ _ H) as ([] & s1 & E & Hi2 & G2 & _). unfold wp. rewrite E.
  split; [done|]. split; [by transitivity (popped s)|]. intros s''. by apply (scanned_dir _ _ p d _ _ _ _ Efd Hd E).
Qed.

(** The loop. *)
Lemma pipe_loop_total l fuel s :
  inv (ki := dnotify_inv (reverse l)) idle s -> 0 ∉ l -> (length l < fuel)%nat ->
  wp (dnotify_pipe_loop fuel) (fun _ s' =>
    scanned l s s' /\ inv (ki := dnotify_inv []) idle s' /\ grows s s') s.
Proof.
  revert fuel s. induction l as [|fd l IH]; intros [|fuel] s Hi H0 Hf; simpl in Hf; try lia.
  - pose proof (inv_kernel _ _ Hi) as (_ & _ & Hq). simpl. unfold pop_change.
    apply wp_bind, wp_bind, wp_gets. rewrite Hq. apply wp_ret, wp_ret. by split; [constructor|].
  - rewrite reverse_cons in Hi. pose proof (inv_kernel _ _ Hi) as (Hs & Hl & Hq). simpl.
    apply not_elem_of_cons in H0 as [H0 H0']. unfold pop_change.
    apply wp_bind, wp_bind, wp_gets. rewrite Hq, last_snoc. apply wp_bind, wp_modify, wp_ret.
    rewrite (proj2 (Z.eqb_neq fd 0)) by done. rewrite <- Hq.
    apply wp_bind. eapply wp_mono; [by apply (change_total fd (reverse l) l)|].
    intros [] s1 (Hi1 & G1 & Hstep). eapply wp_mono; [apply (IH fuel s1); [done|done|lia]|].
    intros [] s2 (Hsc & Hi2 & G2). split; [by apply Hstep|]. split; [done|]. by transitivity s1.
Qed.

(** A signal is noted unless there are too many already. *)
Lemma signal_outcome q ex fd s :
  inv (ki := dnotify_inv q) ex s ->
  exists s', dnotify_signal_handler fd s = Ok (tt, s') /\ grows s s' /\
    inv (ki := dnotify_inv (if Z.of_nat (length q) >? MAX_QUEUE_SIZE then q else fd :: q)) ex s'.
Proof.
  intros Hi. pose proof (inv_kernel _ _ Hi) as (Hs & Hl & Hq).
  unfold dnotify_signal_handler. rewrite (bind_Ok _ _ s q s) by (unfold dn_gets, gets; by rewrite Hq).
  destruct (_ >? _); [by exists s|]. eexists. split; [done|].
  match goal with |- grows _ ?t /\ _ => set (s' := t) end.
  destruct (inv_kernel_store (ki := dnotify_inv (fd :: q)) (ki0 := dnotify_inv q) ex s s') as [Hi' G'];
    [done..| |done|done].
  subst s'. simpl. rewrite Hq. split; [by apply safe_queue|done].
Qed.
End Signals.
