(* ===== verification/PollDnotifySpec.v ===== *)
(** * What polling next to dnotify reports

    [gam_poll_dnotify_poll_file] reports what [gam_poll_basic_poll_file] does,
    by the same reference [PollSpec.verdict], whatever the load control then
    does with the node. *)

From S2P Require Import Prelude Protocol Monad OS Excludes Fs State.
From S2P Require Import Subscription Listener Node Tree Inv Emit.
From S2P Require Import PollGeneric PollBasic Safety PollSafety PollSpec.
From S2P Require Import DnotifyTables DnotifySpec PollDnotify Server Dnotify DnotifySafety.

Local Open Scope Z_scope.

#[local] Existing Instance dnotify_kernel.

(** ** Partial correctness *)

(** [post m Q s]: if [m] completes, then with [Q]. *)
Definition post {S A} (m : ST S A) (Q : A -> S -> Prop) (s : S) : Prop :=
  match m s with Ok (a, s') => Q a s' | Fault _ => True end.

Lemma post_bind {S A B} (m : ST S A) (f : A -> ST S B) (Q : B -> S -> Prop) s :
  post m (fun a => post (f a) Q) s -> post (m ≫= f) Q s.
Proof. unfold post, mbind, ST_bind. by destruct (m s) as [[a s']|]. Qed.

Lemma post_mono {S A} (m : ST S A) (Q Q' : A -> S -> Prop) s :
  post m Q s -> (forall a s', Q a s' -> Q' a s') -> post m Q' s.
Proof. unfold post. destruct (m s) as [[a s']|]; auto. Qed.

Lemma wp_post {S A} (m : ST S A) (Q : A -> S -> Prop) s : wp m Q s -> post m Q s.
Proof. unfold wp, post. by destruct (m s) as [[a s']|]. Qed.

Lemma preserves_post {S A} (R : S -> S -> Prop) (m : ST S A) s :
  preserves R m -> post m (fun _ => R s) s.
Proof. intros H. specialize (H s). unfold post. by destruct (m s) as [[a s']|]. Qed.

Lemma post_wp {S A} (m : ST S A) (Q Q' : A -> S -> Prop) s :
  wp m Q s -> post m Q' s -> exists a s', m s = Ok (a, s') /\ Q a s' /\ Q' a s'.
Proof. unfold wp, post. destruct (m s) as [[a s']|]; [eauto|done]. Qed.

(** ** What the load control leaves alone *)

Section View.
Context {os : OS} {glib : GLib} {dn : Dnotify os}.
Abbreviation M := (ST server).

Definition unwatched (x : GamNode) : bool := ztest (nd_pflags x .& MON_NOKERNEL).

(** The part of a node that says what a poll found. *)
Definition found (x : GamNode) : string * stat_t * Z * bool * bool :=
  (nd_path x, nd_sbuf x, nd_lasttime x, node_missing x, unwatched x).

Definition same_found (n : ptr) (s s' : server) : Prop :=
  current_time s' = current_time s /\
  forall x, nodes (sv_heap s) !! n = Some x ->
    exists x', nodes (sv_heap s') !! n = Some x' /\ found x' = found x.

#[export] Instance same_found_preorder n : PreOrder (same_found n).
Proof.
  split; [by split; eauto|]. intros s1 s2 s3 [E1 H1] [E2 H2]. split; [congruence|].
  intros x Hx. destruct (H1 x Hx) as (y & Hy & Ey). destruct (H2 y Hy) as (z & Hz & Ez).
  exists z. split; [done|congruence].
Qed.

Abbreviation keeps n m := (preserves (same_found n) m).

Lemma keeps_update n m f : (forall x, found (f x) = found x) -> keeps n (update m f).
Proof.
  intros Hf s. unfold update, objs. simpl. destruct (nodes (sv_heap s) !! m) as [x|] eqn:Hm; [|done].
  split; [done|]. intros y Hy. simpl. destruct (decide (m = n)) as [->|Hne].
  - rewrite lookup_insert, decide_True by done. eexists. split; [done|]. rewrite Hf. congruence.
  - rewrite lookup_insert_ne by done. eauto.
Qed.

Lemma keeps_load n m : keeps n (load (A := GamNode) m).
Proof. intros s. unfold load. destruct (objs s !! m); [|done]. reflexivity. Qed.

Lemma keeps_same n (f : server -> server) :
  (forall s, current_time (f s) = current_time s /\ sv_heap (f s) = sv_heap s) -> keeps n (modify f).
Proof. intros H s. destruct (H s) as [E1 E2]. split; [done|]. rewrite E2. eauto. Qed.

Lemma keeps_sys {A} n (f : world -> A * world) : keeps n (sys f).
Proof. intros s. unfold sys. destruct (f (sv_world s)). split; [done|]. eauto. Qed.

Lemma keeps_fs_call {A} n (f : fs_state * world -> A * (fs_state * world)) : keeps n (fs_call f).
Proof. intros s. unfold fs_call. destruct (f _) as [a fw]. split; [done|]. eauto. Qed.

Lemma keeps_dn_load n p : keeps n (dn_load p).
Proof. intros s. unfold dn_load. destruct (_ !! p); [|done]. reflexivity. Qed.

Lemma keeps_dn_update n p f : keeps n (dn_update p f).
Proof. intros s. unfold dn_update. destruct (_ !! p); [|done]. split; [done|]. eauto. Qed.

Lemma keeps_dn_new n path fd : keeps n (gam_dnotify_data_new path fd).
Proof. intros s. split; [done|]. eauto. Qed.

Lemma keeps_dn_free n p : keeps n (gam_dnotify_data_free p).
Proof. intros s. unfold gam_dnotify_data_free. destruct (_ !! p); [|done]. split; [done|]. eauto. Qed.

(** The busy flag is another one. *)
Lemma other_bit_lor f a b : a .& b = 0 -> (f .| a) .& b = f .& b.
Proof. intros H. by rewrite Z.land_lor_distr_l, H, Z.lor_0_r. Qed.

Lemma other_bit_clear f a b : a .& b = 0 -> (f .& (~. a)) .& b = f .& b.
Proof.
  intros H. rewrite <- Z.land_assoc, (Z.land_comm (~. a) b), <- Z.ldiff_land.
  f_equal. apply Z.bits_inj'. intros i Hi. rewrite Z.ldiff_spec.
  apply (f_equal (fun z => Z.testbit z i)) in H. rewrite Z.land_spec, Z.bits_0 in H.
  by destruct (Z.testbit a i), (Z.testbit b i).
Qed.

Lemma keeps_set_busy n m : keeps n (gam_node_set_pflag m MON_BUSY).
Proof.
  unfold gam_node_set_pflag. apply preserves_bind; [exact _|apply (preserves_assert (same_found n))|]. intros _.
  apply keeps_update. intros x. unfold found, node_missing, unwatched. simpl. by rewrite !other_bit_lor.
Qed.

Lemma keeps_unset_busy n m : keeps n (gam_node_unset_pflag m MON_BUSY).
Proof.
  unfold gam_node_unset_pflag. apply preserves_bind; [exact _|apply (preserves_assert (same_found n))|]. intros _.
  apply keeps_update. intros x. unfold found, node_missing, unwatched. simpl. by rewrite !other_bit_clear.
Qed.

Hint Resolve keeps_load keeps_sys keeps_fs_call keeps_dn_load keeps_dn_update keeps_dn_new
  keeps_dn_free keeps_set_busy keeps_unset_busy : preserve.
Hint Extern 1 (preserves (same_found _) (modify _)) => (apply keeps_same; intros; split; reflexivity) : preserve.
Hint Extern 1 (preserves (same_found _) (update _ _)) => (apply keeps_update; intros; reflexivity) : preserve.

Lemma keeps_dir_handler n path mode : keeps n (gam_dnotify_directory_handler_internal path mode).
Proof.
  unfold gam_dnotify_directory_handler_internal, lock_dnotify, unlock_dnotify, dnotify_activate,
    dnotify_deactivate, dnotify_flow_start, dnotify_flow_stop, notify_on, dn_gets, dn_modify, dn_call.
  preserve.
Qed.
Hint Resolve keeps_dir_handler : preserve.

Lemma keeps_trigger n path mode m : keeps n (gam_poll_generic_trigger_handler path mode m).
Proof.
  unfold gam_poll_generic_trigger_handler, gam_poll_generic_trigger_dir_handler,
    gam_poll_generic_trigger_file_handler, gam_kernel_dir_handler, gam_kernel_file_handler,
    hook_dir_handler, hook_file_handler, dnotify_handlers, gam_dnotify_directory_handler,
    gam_dnotify_file_handler, gam_server_get_kernel_handler, gam_node_parent, gam_node_get_path,
    gam_node_has_pflag, gam_poll_generic_add_busy, gam_poll_generic_remove_busy.
  preserve.
Qed.
Hint Resolve keeps_trigger : preserve.

Lemma keeps_delist n m : keeps n (gam_poll_dnotify_delist_node m).
Proof.
  unfold gam_poll_dnotify_delist_node, kernel_monitored, monitored_by, gam_node_get_path,
    gam_node_get_subscriptions.
  preserve.
Qed.

Lemma keeps_switch n m event : keeps n (_ ← dnotify_to_polling m; dnotify_to_kernel m event).
Proof.
  unfold dnotify_to_polling, dnotify_to_kernel, wanted_and_monitored, gam_poll_dnotify_flowon_node,
    gam_poll_dnotify_flowoff_node, kernel_monitored, monitored_by, gam_node_get_path,
    gam_node_get_subscriptions, gam_node_is_dir, gam_node_parent, gam_node_has_pflag,
    gam_poll_generic_add_busy, gam_poll_generic_remove_busy.
  preserve.
Qed.

(** ** The poll *)

(** The flag that keeps the load control away does not outlive a deletion,
    which sets the flags anew. *)
Definition still_unwatched (x : GamNode) (r : sysres stat_t) : bool :=
  unwatched x && negb (verdict (node_missing x) (nd_sbuf x) r =? GAMIN_EVENT_DELETED).

(** What a poll at time [t] with answer [r] makes of a node that was polled
    before. *)
Record dnotify_polled (t : Z) (x : GamNode) (r : sysres stat_t) (x' : GamNode) : Prop := {
  dp_missing : node_missing x' = missing_after (node_missing x) r;
  dp_sbuf : nd_sbuf x' = saved r;
  dp_path : nd_path x' = nd_path x;
  dp_lasttime : nd_lasttime x' = t;
  dp_unwatched : unwatched x' = still_unwatched x r
}.

Lemma dnotify_polled_found t x r x' x'' :
  dnotify_polled t x r x' -> found x'' = found x' -> dnotify_polled t x r x''.
Proof. intros [] [= ? ? ? ? ?]. split; congruence. Qed.

Lemma post_update n x f (Q : unit -> server -> Prop) s :
  nodes (sv_heap s) !! n = Some x ->
  (forall s', nodes (sv_heap s') !! n = Some (f x) -> current_time s' = current_time s -> Q tt s') ->
  post (update n f) Q s.
Proof. intros Hn HQ. apply wp_post, (wp_node_update n x); [done|]. intros s' ? ? _. by apply HQ. Qed.

Lemma post_has_pflag n x f (Q : bool -> server -> Prop) s :
  one_flag f = true -> nodes (sv_heap s) !! n = Some x -> Q (ztest (nd_pflags x .& f)) s ->
  post (gam_node_has_pflag n f) Q s.
Proof.
  intros Hf Hn HQ. apply wp_post. unfold gam_node_has_pflag. apply wp_bind, wp_assert; [done|].
  apply wp_bind, (wp_load (H := node_obj)) with x; [exact Hn|]. by apply wp_ret.
Qed.

(** Code that keeps what was found keeps what only depends on it. *)
Lemma post_keeps {A} n x (P : GamNode -> Prop) (m : M A) s :
  nodes (sv_heap s) !! n = Some x -> (forall y, found y = found x -> P y) -> keeps n m ->
  post m (fun _ s' => current_time s' = current_time s /\
    exists y, nodes (sv_heap s') !! n = Some y /\ (forall z, found z = found y -> P z)) s.
Proof.
  intros Hn HP Hk. eapply post_mono; [by apply (preserves_post (same_found n))|].
  intros a s' [E H]. split; [done|]. destruct (H _ Hn) as (y & Hy & Ef).
  exists y. split; [done|]. intros z Hz. apply HP. congruence.
Qed.

(** The node with its flag changed, before the new [stat] is saved. *)
Definition flagged (t : Z) (x : GamNode) (r : sysres stat_t) (x' : GamNode) : Prop :=
  dnotify_polled t x r (set_nd_sbuf (saved r) x').

Lemma flagged_found t x r x' x'' : flagged t x r x' -> found x'' = found x' -> flagged t x r x''.
Proof.
  intros Hf [= ? ? ? Hm Hu]. eapply dnotify_polled_found; [exact Hf|].
  unfold found, node_missing, unwatched in *. simpl. congruence.
Qed.

Lemma post_detect n x s :
  nodes (sv_heap s) !! n = Some x ->
  let r := (sys_stat (nd_path x) (sv_world s)).1 in
  post (dnotify_detect n (nd_path x)) (fun e s' =>
    e = verdict (node_missing x) (nd_sbuf x) r /\ current_time s' = current_time s /\
    exists x', nodes (sv_heap s') !! n = Some x' /\ dnotify_polled (nd_lasttime x) x r x') s.
Proof.
  intros Hn r. unfold dnotify_detect. apply post_bind, wp_post, wp_sys. intros r' w Hr.
  assert (r' = r) as -> by (unfold r; by rewrite Hr). clear Hr. set (s1 := set_sv_world w s).
  assert (current_time s1 = current_time s) as E1 by done.
  assert (nodes (sv_heap s1) !! n = Some x) as Hn1 by exact Hn. clearbody s1.
  apply post_bind, (post_has_pflag n x); [done..|]. change (ztest _) with (node_missing x).
  apply post_bind. eapply post_mono with (Q := fun e s2 =>
    e = verdict (node_missing x) (nd_sbuf x) r /\ current_time s2 = current_time s /\
    exists x2, nodes (sv_heap s2) !! n = Some x2 /\ flagged (nd_lasttime x) x r x2).
  { destruct r as [sbuf|err].
    - destruct (node_missing x) eqn:Hm.
      + unfold gam_node_unset_pflag. apply post_bind, post_bind, wp_post, wp_assert; [done|].
        apply (post_update n x); [done|]. intros s2 Hn2 E2. apply wp_post, wp_ret.
        split; [done|]. split; [congruence|]. eexists. split; [exact Hn2|].
        unfold flagged. split; try done.
        * unfold node_missing. simpl. apply missing_unset.
        * assert (still_unwatched x (SysOk sbuf) = unwatched x) as ->
            by (unfold still_unwatched; rewrite Hm; by rewrite andb_true_r).
          unfold unwatched. simpl. by rewrite other_bit_clear.
      + apply post_bind, wp_post, (wp_load (H := node_obj)) with x; [exact Hn1|]. apply wp_ret.
        split; [apply changed_event|]. split; [done|]. exists x. split; [done|]. unfold flagged. split; try done.
        change (unwatched _) with (unwatched x). unfold still_unwatched. rewrite Hm. simpl.
        by destruct (decide (looks_same _ _)), (unwatched x).
    - destruct ((err =? ENOENT) && negb (node_missing x)) eqn:Hgone.
      + unfold gam_node_set_pflags. apply post_bind, (post_update n x); [done|]. intros s2 Hn2 E2.
        set (x2 := set_nd_pflags MON_MISSING x) in *.
        assert (flagged (nd_lasttime x) x (SysErr err) x2) as Hf.
        { split; try done.
          - simpl. apply andb_true_iff in Hgone as [-> _]. by rewrite orb_true_r.
          - unfold still_unwatched. simpl. rewrite Hgone. by rewrite andb_false_r. }
        apply post_bind. eapply post_mono.
        { apply (post_keeps n x2 (flagged (nd_lasttime x) x (SysErr err))); [done| |].
          - intros y. by apply flagged_found.
          - unfold gam_poll_generic_remove_busy. preserve. }
        intros [] s3 (E3 & x3 & Hn3 & Hf3). apply post_bind.
        unfold gam_node_get_subscriptions. apply post_bind, wp_post, (wp_load (H := node_obj)) with x3;
          [exact Hn3|]. apply wp_ret, post_bind. eapply post_mono.
        { apply (post_keeps n x3 (flagged (nd_lasttime x) x (SysErr err))); [done|done|].
          unfold gam_poll_generic_add_missing. pose proof keeps_delist. preserve. }
        intros [] s4 (E4 & x4 & Hn4 & Hf4). apply wp_post, wp_ret. simpl. rewrite Hgone.
        split; [done|]. split; [congruence|]. exists x4. split; [done|]. by apply Hf4.
      + apply wp_post, wp_ret. simpl. rewrite Hgone. split; [done|]. split; [done|]. exists x.
        split; [done|]. split; try done.
        * simpl. change (node_missing (set_nd_sbuf _ x)) with (node_missing x).
          by destruct (node_missing x), (err =? ENOENT).
        * unfold still_unwatched. simpl. rewrite Hgone. by rewrite andb_true_r. }
  intros e s2 (-> & E2 & x2 & Hn2 & Hf2). apply post_bind.
  eapply post_mono with (Q := fun _ s3 => current_time s3 = current_time s /\
    exists x3, nodes (sv_heap s3) !! n = Some x3 /\ flagged (nd_lasttime x) x r x3).
  { destruct r as [sbuf|err]; [|by apply wp_post, wp_ret; eauto].
    unfold gam_node_set_is_dir. apply (post_update n x2); [done|]. intros s3 Hn3 E3.
    split; [congruence|]. eexists. split; [exact Hn3|]. by eapply flagged_found. }
  intros [] s3 (E3 & x3 & Hn3 & Hf3). apply post_bind, (post_update n x3); [done|].
  intros s4 Hn4 E4. apply wp_post, wp_ret. split; [done|]. split; [congruence|]. eauto.
Qed.

(** The time of the poll is kept by the load control, so not at all for a node
    that the kernel does not watch. *)
Lemma post_load_control n e x t r x1 s :
  nodes (sv_heap s) !! n = Some x1 -> dnotify_polled t x r x1 ->
  post (dnotify_load_control n e) (fun _ s' => exists x',
    nodes (sv_heap s') !! n = Some x' /\ dnotify_polled (current_time s) x r x') s.
Proof.
  intros Hn Hp. unfold dnotify_load_control. apply post_bind.
  set (P := dnotify_polled (current_time s) x r).
  eapply post_mono with (Q := fun _ s' => exists x2, nodes (sv_heap s') !! n = Some x2 /\ P x2).
  { unfold dnotify_count, gam_poll_generic_get_time. apply post_bind, wp_post, wp_gets.
    apply post_bind, wp_post, (wp_load (H := node_obj)) with x1; [exact Hn|].
    assert (forall m s2 x2, nodes (sv_heap s2) !! n = Some x2 -> P x2 -> keeps n m ->
      post m (fun (_ : unit) s' => exists x3, nodes (sv_heap s') !! n = Some x3 /\ P x3) s2) as Hrest.
    { intros m s2 x2 Hn2 Hp2 Hm. eapply post_mono; [apply (post_keeps n x2 P); [done| |done]|].
      - intros y. by apply dnotify_polled_found.
      - intros _ s3 (_ & x3 & Hn3 & Hp3). exists x3. auto. }
    destruct (Z.eqb_spec (current_time s) (nd_lasttime x1)) as [Et|_].
    - apply (Hrest _ s x1); [done| |].
      + destruct Hp. split; congruence.
      + unfold gam_node_has_pflag, count_check. preserve.
    - apply post_bind, wp_post, wp_gets, post_bind, (post_update n x1); [done|]. intros s2 Hn2 _.
      apply (Hrest _ s2 (set_nd_lasttime (current_time s) x1)); [done| |].
      + by destruct Hp.
      + unfold gam_node_has_pflag, count_check. preserve. }
  intros [] s2 (x2 & Hn2 & Hp2).
  eapply post_mono; [apply (post_keeps n x2 P); [done| |by apply keeps_switch]|].
  - intros y. by apply dnotify_polled_found.
  - intros _ s3 (_ & x3 & Hn3 & Hp3). exists x3. auto.
Qed.

Lemma post_first n x s :
  nodes (sv_heap s) !! n = Some x ->
  let r := (sys_stat (nd_path x) (sv_world s)).1 in
  post (dnotify_poll_first n (nd_path x)) (fun e s' =>
    e = (match r with SysOk _ => 0 | SysErr _ => GAMIN_EVENT_DELETED end) /\
    exists x', nodes (sv_heap s') !! n = Some x' /\ first_polled (current_time s) x r x') s.
Proof.
  intros Hn r. unfold dnotify_poll_first. apply post_bind, wp_post, wp_sys. intros r' w Hr.
  assert (r' = r) as -> by (unfold r; by rewrite Hr). clear Hr. set (s1 := set_sv_world w s).
  assert (nodes (sv_heap s1) !! n = Some x) as Hn1 by exact Hn.
  assert (current_time s1 = current_time s) as E1 by done. clearbody s1.
  set (P := fun y => nd_path y = nd_path x /\
      node_missing y = (match r with SysOk _ => node_missing x | SysErr _ => true end) /\
      nd_is_dir y = (match r with SysOk sbuf => st_dir sbuf | SysErr _ => nd_is_dir x end)).
  apply post_bind. eapply post_mono with (Q := fun _ s2 => current_time s2 = current_time s /\
    exists x2, nodes (sv_heap s2) !! n = Some x2 /\ P x2).
  { destruct r as [sbuf|err].
    - unfold gam_node_set_is_dir. apply (post_update n x); [done|]. intros s2 Hn2 E2.
      split; [congruence|]. eexists. split; [exact Hn2|]. by split.
    - unfold gam_node_set_pflag. apply post_bind, wp_post, wp_assert; [done|].
      apply (post_update n x); [done|]. intros s2 Hn2 E2. split; [congruence|]. eexists.
      split; [exact Hn2|]. split; [done|]. split; [apply ztest_lor_self|done]. }
  intros [] s2 (E2 & x2 & Hn2 & Hp2). apply post_bind.
  unfold kernel_monitored, monitored_by. apply post_bind, wp_post, wp_gets.
  eapply post_mono with (Q := fun _ s3 => current_time s3 = current_time s2 /\
    sv_heap s3 = sv_heap s2).
  { destruct (gam_exclude_check _ _); [by apply wp_post, wp_ret|].
    apply post_bind, wp_post, wp_fs_call. intros a fw _. by apply wp_post, wp_ret. }
  intros k s3 [E3 Eh3]. rewrite <- Eh3 in Hn2. apply post_bind.
  eapply post_mono with (Q := fun _ s4 => current_time s4 = current_time s /\
    exists x4, nodes (sv_heap s4) !! n = Some x4 /\ P x4).
  { destruct k; simpl; [apply wp_post, wp_ret; split; [congruence|eauto]|].
    unfold gam_node_set_pflag. apply post_bind, wp_post, wp_assert; [done|].
    apply (post_update n x2); [done|]. intros s4 Hn4 E4. split; [congruence|]. eexists.
    split; [exact Hn4|]. destruct Hp2 as (Hp & Hm & Hd). split; [done|]. split; [|done].
    rewrite <- Hm. unfold node_missing. simpl. by rewrite other_bit_lor. }
  intros [] s4 (E4 & x4 & Hn4 & (Hp & Hm & Hd)).
  apply post_bind, (post_update n x4); [done|]. intros s5 Hn5 E5.
  unfold gam_poll_generic_get_time. apply post_bind, wp_post, wp_gets, post_bind, (post_update n _ _ _ _ Hn5).
  intros s6 Hn6 _. apply wp_post, wp_ret. split; [done|]. eexists. split; [exact Hn6|].
  split; [exact Hm|]. split; [simpl; congruence|]. split; [done|]. by split.
Qed.
End View.

(** ** The theorem *)

Section Refines.
Context {os : OS} {glib : GLib} {dn : Dnotify os} {dlaws : DnotifyLaws dn} {laws : OSLaws os}.

(** C16: polling a file next to dnotify.  In a state that satisfies the
    invariant [gam_poll_dnotify_poll_file] completes, and reports what the
    polling backend reports, by the same reference [verdict]; the node
    remembers the same.  But the time of the poll, which keeps polls apart by
    the interval of the file system, is not remembered for a node that the
    kernel does not watch, the only kind that is polled for good. *)
Theorem poll_dnotify_refines q n x s :
  inv (ki := dnotify_inv q) idle s -> nodes (sv_heap s) !! n = Some x ->
  let r := (sys_stat (nd_path x) (sv_world s)).1 in
  if nd_lasttime x =? 0 then
    exists s' x', gam_poll_dnotify_poll_file n s
        = Ok (match r with SysOk _ => 0 | SysErr _ => GAMIN_EVENT_DELETED end, s') /\
      inv (ki := dnotify_inv q) idle s' /\
      nodes (sv_heap s') !! n = Some x' /\ first_polled (current_time s) x r x'
  else if too_early x s then gam_poll_dnotify_poll_file n s = Ok (0, s)
  else
    exists s' x', gam_poll_dnotify_poll_file n s
        = Ok (verdict (node_missing x) (nd_sbuf x) r, s') /\
      inv (ki := dnotify_inv q) idle s' /\ nodes (sv_heap s') !! n = Some x' /\
      dnotify_polled (if still_unwatched x r then nd_lasttime x else current_time s) x r x'.
Proof.
  intros Hi Hn r.
  pose proof (safely_poll_dnotify (q := q) idle n s Hi (live_in _ _ _ Hn)) as Hsafe.
  unfold safely in Hsafe. revert Hsafe. unfold gam_poll_dnotify_poll_file.
  unfold wp. rewrite (bind_Ok _ _ _ _ _ (load_node_Ok _ _ _ Hn)).
  rewrite (bind_Ok _ _ s (if current_time s >=? nd_lasttime x then current_time s - nd_lasttime x else 0) s)
    by done.
  fold (too_early x s). destruct (Z.eqb_spec (nd_lasttime x) 0) as [_|_]; cbn [negb andb].
  - intros Hsafe. destruct (post_wp _ _ _ s Hsafe (post_first n x s Hn)) as (e & s' & E & (Hi' & _) & -> & x' & Hx').
    exists s', x'. by destruct Hx'.
  - destruct (too_early x s); [done|]. intros Hsafe.
    set (Q := fun e s' => e = verdict (node_missing x) (nd_sbuf x) r /\ exists x', nodes (sv_heap s') !! n = Some x' /\
      dnotify_polled (if still_unwatched x r then nd_lasttime x else current_time s) x r x').
    destruct (post_wp _ _ Q s Hsafe) as (e & s' & E & (Hi' & _) & -> & x' & Hx' & Hp); [|by exists s', x'].
    apply post_bind. eapply post_mono; [by apply post_detect|].
    fold r. intros e s1 (-> & E1 & x1 & Hn1 & Hp1).
    apply post_bind, (post_has_pflag n x1); [done..|]. change (ztest _) with (unwatched x1).
    rewrite (dp_unwatched _ _ r _ Hp1). subst Q. cbn beta. destruct (still_unwatched x r).
    + apply wp_post, wp_ret. split; [done|]. by exists x1.
    + apply post_bind. eapply post_mono; [by apply (post_load_control n _ x (nd_lasttime x) r x1)|].
      intros [] s2 (x2 & Hn2 & Hp2). apply wp_post, wp_ret. split; [done|]. exists x2.
      by rewrite <- E1.
Qed.
End Refines.
