(* ===== verification/DnotifyService.v ===== *)
(** * The dnotify backend at work

    Start-up, subscriptions and signals of a daemon whose kernel backend is
    dnotify: each completes and keeps the invariant. *)

From S2P Require Import Prelude Protocol EventQueue Monad OS Excludes.
From S2P Require Import Fs State Subscription Listener ConnSend Node.
From S2P Require Import Tree Inv Emit PollGeneric PollBasic Safety.
From S2P Require Import PollSafety AddSafety.
From S2P Require Import DnotifyTables DnotifySpec PollDnotify Server Dnotify DnotifySafety.

Local Open Scope Z_scope.

#[local] Existing Instance dnotify_kernel.

Section Service.
Context {os : OS} {glib : GLib} {dn : Dnotify os} {dlaws : DnotifyLaws dn} {laws : OSLaws os} {q : list Z}.
Abbreviation M := (ST server).
Abbreviation inv := (inv (ki := dnotify_inv q)).
Abbreviation safely := (safely (ki := dnotify_inv q)).

#[local] Hint Resolve safely_emit_sub safely_emit_one_sub safely_load_sub safely_poll_dnotify
  safely_trigger safely_first_scan_dir : safety.

(** ** Adding a subscription *)

Lemma safely_polled_only ex path s :
  inv ex s -> safely ex (polled_only path) (fun _ _ => True) s.
Proof. intros Hi. unfold polled_only. safe. Qed.
Hint Resolve safely_polled_only : safety.

Lemma wp_node_add l p sb n s0 s :
  subscribable l p sb s0 -> at_node (ki := dnotify_inv q) l p sb s0 s n ->
  absolute (sub_path sb) = true ->
  wp (node_add_subscription n p)
    (fun r s' => r = 0 /\ inv idle s' /\ live n s' /\ sub_good p s' /\ subscribed l p sb s0 s') s.
Proof.
  intros Hsc Hat Habs. destruct (inv_tree _ _ (an_inv _ _ _ _ _ _ Hat)) as [root Ht].
  destruct (to_hash _ _ _ Ht _ _ (an_hash _ _ _ _ _ _ Hat)) as (_ & x & Hx & Hpath).
  unfold node_add_subscription, gam_node_get_path. apply wp_bind, wp_bind, (wp_load (H := node_obj)) with x; [exact Hx|].
  apply wp_ret. rewrite Hpath, Habs. simpl.
  apply wp_bind. eapply wp_mono; [by apply (wp_at_node_add (ki := dnotify_inv q) l p sb n s0)|].
  intros b s1 (Hi1 & Hn1 & Hp1 & Hsub1).
  assert (safely idle
    (p ← polled_only (sub_path sb);
     if p : bool then
       n0 ← load n;
       _ ← when (nd_lasttime n0 =? 0) (_ ← gam_poll_dnotify_poll_file n; mret tt);
       _ ← gam_poll_generic_add_missing n;
       mret 0
     else
       _ ← gam_poll_generic_trigger_handler (sub_path sb) GAMIN_ACTIVATE n;
       mret 0) (fun r _ => r = 0) s1) as Hrest.
  { safe_step. safe_step; safe. }
  eapply wp_mono; [exact Hrest|]. intros r s2 (Hi2 & G2 & ->). split; [done|]. split; [done|].
  split; [by apply (live_grows _ s1)|]. split; [by apply (sub_good_grows _ s1)|].
  by apply (subscribed_grows _ _ _ _ s1).
Qed.

Lemma safely_first_events_dnotify ex sub n path s :
  inv ex s -> live n s -> sub_good sub s ->
  safely ex (dnotify_first_events sub n path) (fun _ _ => True) s.
Proof. intros Hi Hn Hsub. unfold dnotify_first_events. go. Qed.
Hint Resolve safely_first_events_dnotify : safety.

Lemma safely_listed_node ex n d d' path s :
  inv ex s -> live n s -> g_path_get_dirname path <> ""%string ->
  safely ex (dnotify_listed_node n d d' path) (fun m s' => live m s') s.
Proof.
  intros Hi Hn Hdir. unfold dnotify_listed_node. destruct d; [by apply safely_ret|].
  eapply safely_bind; [by apply safely_get_at_path|]. intros o s' _ _ [-> ->].
  eapply safely_bind with (Q := fun o s' => exists m, o = Some m /\ live m s').
  { destruct (node_hash (sv_tree s) !! g_path_get_dirname path) as [m|] eqn:E.
    - apply safely_ret; [done|]. exists m. split; [done|]. by apply (live_hash (ki := dnotify_inv q) ex (g_path_get_dirname path)).
    - eapply safely_mono; [by apply safely_add_at_path|]. intros o s' _ _ (m & ? & ? & _). eauto. }
  intros o s1 Hi1 G1 (m & -> & Hm). by apply safely_ret.
Qed.

Lemma safely_after_add p n d' path s :
  inv idle s -> live n s -> sub_good p s -> g_path_get_dirname path <> ""%string ->
  safely idle
    (node_is_dir ← gam_node_is_dir n;
     _ ← (if node_is_dir : bool then gam_poll_generic_first_scan_dir p n path
          else dnotify_first_events p n path);
     missing ← gam_node_has_pflag n MON_MISSING;
     polled ← (if missing : bool then mret true else gam_node_has_pflag n MON_NOKERNEL);
     _ ← when polled (gam_poll_generic_add_missing n);
     node ← dnotify_listed_node n node_is_dir d' path;
     _ ← gam_poll_generic_add node;
     mret true) (fun b _ => b = true) s.
Proof.
  intros Hi Hn Hp Hdir. safe_step. follow.
  eapply safely_bind with (Q := fun _ _ => True); [go|]. intros [] s1 Hi1 G1 _. follow.
  safe_step. follow. eapply safely_bind with (Q := fun _ s' => s' = s1).
  { destruct a0; [by apply safely_ret|]. by apply safely_has_pflag. }
  intros polled s' _ _ ->. eapply safely_bind with (Q := fun _ _ => True); [go|].
  intros [] s2 Hi2 G2 _. follow. eapply safely_bind; [by apply safely_listed_node|].
  intros m s3 Hi3 G3 Hm. eapply safely_bind; [by apply safely_add|].
  intros [] s4 Hi4 _ _. by apply safely_ret.
Qed.

Lemma dnotify_add_outcome l p sb s :
  inv idle s -> poll_handler (sv_ctl s) = GAMIN_P_DNOTIFY ->
  subscribable l p sb s -> absolute (sub_path sb) = true ->
  g_path_get_dirname (sub_path sb) <> ""%string ->
  exists s', gam_dnotify_add_subscription p s = Ok (true, s') /\ inv idle s' /\
    subscribed l p sb s s'.
Proof.
  intros Hi Hph Hsc Habs Hdir.
  assert (sub_path sb <> ""%string) as Hne by (intros E; by rewrite E in Habs).
  assert (wp (gam_poll_dnotify_add_subscription p)
    (fun b s' => b = true /\ inv idle s' /\ subscribed l p sb s s') s) as H.
  { apply (wp_to_node (ki := dnotify_inv q) l p sb); [done..|]. intros n s1 Hat.
    apply wp_bind. eapply wp_mono; [by apply (wp_node_add l p sb n s)|].
    intros r s2 (-> & Hi2 & Hn2 & Hp2 & Hsub). simpl.
    eapply wp_mono; [by apply (safely_after_add p n (gam_subscription_is_dir (Some sb)) (sub_path sb))|].
    intros b s3 (Hi3 & G3 & ->). split; [done|]. split; [done|]. by apply (subscribed_grows _ _ _ _ s2). }
  destruct (wp_Ok _ _ _ H) as (b & s' & E & -> & Hi' & Hs').
  exists s'. split; [|done]. unfold gam_dnotify_add_subscription, gam_poll_add_subscription, gets, mbind, ST_bind.
  rewrite Hph. simpl. by rewrite E.
Qed.

(** Subscribing next to dnotify.  For a subscription to an absolute path
    that its listener does not have yet, [gam_dnotify_add_subscription]
    succeeds: the listener has it, it is registered at the node of its path,
    no other subscription or listener changes, and the invariant holds, the
    one of the dnotify tables included. *)
Theorem dnotify_add_registers l p sb s :
  inv idle s -> poll_handler (sv_ctl s) = GAMIN_P_DNOTIFY ->
  subscribable l p sb s -> absolute (sub_path sb) = true ->
  g_path_get_dirname (sub_path sb) <> ""%string ->
  exists s', gam_dnotify_add_subscription p s = Ok (true, s') /\ inv idle s' /\
    subscribed l p sb s s'.
Proof. apply dnotify_add_outcome. Qed.

(** ** Signals *)

(** C17: what dnotify signalled is looked at.  If descriptor 0, which the
    daemon has on [/dev/null], is not among the descriptors noted,
    [gam_dnotify_pipe_handler] completes and empties the queue: for every
    descriptor, the oldest first, that is still watched it scans the directory
    with [gam_poll_generic_scan_directory]; the invariant holds afterwards. *)
Theorem pipe_handler_scans s :
  inv idle s -> 0 ∉ q ->
  exists s', gam_dnotify_pipe_handler s = Ok (true, s') /\
    scanned (reverse q) (set_sv_world (pipe_read (sv_world s)) s) s' /\
    Inv.inv (ki := dnotify_inv []) idle s' /\ grows s s'.
Proof.
  intros Hi H0. pose proof (inv_kernel _ _ Hi) as (_ & _ & Hq).
  set (s1 := set_sv_world (pipe_read (sv_world s)) s).
  destruct (inv_same_store (ki := dnotify_inv q) idle s s1) as [Hi1 G1]; [done..|].
  pose proof (pipe_loop_total (reverse q) (S (length (changes (sv_kernel s1)))) s1) as H.
  rewrite reverse_involutive, length_reverse in H. change (changes (sv_kernel s1)) with (changes (sv_kernel s)) in H.
  destruct (wp_Ok _ _ _ (H Hi1 ltac:(by rewrite elem_of_reverse) ltac:(rewrite Hq; lia)))
    as ([] & s' & E & Hsc & Hi' & G').
  exists s'. split; [|split; [done|split; [done|by transitivity s1]]].
  unfold gam_dnotify_pipe_handler, dn_call. rewrite (bind_Ok _ _ s tt s1) by done.
  rewrite (bind_Ok _ _ s1 (changes (sv_kernel s)) s1) by done. by rewrite (bind_Ok _ _ _ _ _ E).
Qed.
End Service.

(** ** Start-up *)

Section Init.
Context {os : OS} {glib : GLib} {dn : Dnotify os}.

(** A daemon that starts with dnotify has an empty tree and empty tables. *)
Lemma wp_dnotify_init s :
  unallocated s -> sv_kernel s = dnotify_initial -> (forall w, (make_pipe w).1 = true) ->
  wp gam_dnotify_init (fun b s' => b = true /\ Inv.inv (ki := dnotify_inv []) idle s' /\
    poll_handler (sv_ctl s') = GAMIN_P_DNOTIFY /\ kernel_handler (sv_ctl s') = GAMIN_K_DNOTIFY /\
    sv_kernel s' = dnotify_initial /\
    exists x, sv_heap s' = mk_heap 2%positive ∅ ∅ {[1%positive := x]} ∅) s.
Proof.
  intros Hu Hk Hpipe. unfold gam_dnotify_init, gam_poll_dnotify_init. apply wp_bind, wp_bind.
  assert (kernel_inv (KernelInv := dnotify_inv []) (sv_kernel s)) as Hki
    by (rewrite Hk; split; [apply safe_initial|done]).
  eapply wp_mono; [by apply (wp_generic_init (ki := dnotify_inv []) idle)|].
  intros b s1 (_ & Hi & Hx & _ & Ek). rewrite Hk in Ek. apply wp_bind, wp_modify, wp_bind, wp_modify, wp_ret. simpl.
  apply wp_bind, wp_sys. intros piped w Hw. specialize (Hpipe (sv_world s1)).
  change (make_pipe (sv_world s1) = (piped, w)) in Hw. rewrite Hw in Hpipe. simpl in Hpipe. subst piped. simpl.
  apply wp_bind, wp_modify, wp_bind, wp_modify, wp_ret. split; [done|].
  match goal with |- Inv.inv _ ?t /\ _ => set (s2 := t) end.
  assert (sv_kernel s2 = dnotify_initial) as Ek2 by (subst s2; simpl; by rewrite Ek).
  split; [|done]. apply (inv_kernel_store (ki0 := dnotify_inv []) idle s1); [done..| |done].
  rewrite Ek2. split; [apply safe_initial|done].
Qed.
End Init.
