(* ===== verification/InotifyState.v ===== *)
(** * The state of the inotify backend

    The static variables and heap objects of [server/inotify-kernel.c] ([ik]),
    [inotify-path.c] ([ip]), [inotify-missing.c] ([im]) and [inotify-helper.c]
    ([ih]), as the private state of a kernel backend, and the kernel's inotify
    calls as the operations of a class.  The lock the four files share does
    nothing: the daemon never initialises threads. *)

From S2P Require Import Prelude Protocol Monad OS Fs State.

Local Open Scope Z_scope.

(** ** The kernel's interface *)

(** [<sys/inotify.h>] *)
Definition IN_ACCESS : Z := 1.
Definition IN_MODIFY : Z := 2.
Definition IN_ATTRIB : Z := 4.
Definition IN_CLOSE_WRITE : Z := 8.
Definition IN_CLOSE_NOWRITE : Z := 16.
Definition IN_OPEN : Z := 32.
Definition IN_MOVED_FROM : Z := 64.
Definition IN_MOVED_TO : Z := 128.
Definition IN_CREATE : Z := 256.
Definition IN_DELETE : Z := 512.
Definition IN_DELETE_SELF : Z := 1024.
Definition IN_MOVE_SELF : Z := 2048.
Definition IN_UNMOUNT : Z := 8192.
Definition IN_Q_OVERFLOW : Z := 16384.
Definition IN_IGNORED : Z := 32768.
Definition IN_ONLYDIR : Z := 16777216.
Definition IN_ISDIR : Z := 1073741824.

(** A point in time, [GTimeVal]: seconds and microseconds. *)
Definition timeval : Type := Z * Z.

(** The system calls of [inotify-kernel.c] and the clock and file tests of the
    other files. *)
Class Inotify (os : OS) := {
  (** [inotify_init]: a file descriptor, negative on failure *)
  inotify_init : world -> Z * world;
  inotify_add_watch : Z -> string -> Z -> world -> sysres Z * world;
  (** [inotify_rm_watch]: negative on failure *)
  inotify_rm_watch : Z -> Z -> world -> Z * world;
  (** what [g_io_channel_read_chars] puts into a buffer of the given size *)
  inotify_read : Z -> Z -> world -> list byte * world;
  (** [ioctl(fd, FIONREAD, &pending)] *)
  inotify_pending : Z -> world -> sysres Z * world;
  g_get_current_time : world -> timeval * world;
  (** [g_time_val_add]: some microseconds later *)
  g_time_val_add : timeval -> Z -> timeval;
  (** [lstat]: whether [st_mode] has a bit of [S_IFDIR]; false when it fails *)
  lstat_ifdir : string -> world -> bool * world;
  g_path_get_basename : string -> string;
  (** whether [G_LOCK] locks: always in GLib from 2.32 on, before only when
      threads were initialised, which the daemon does not do *)
  glib_locks : bool
}.

(** ** Objects *)

(** [ik_event_t] *)
Record ik_event_t := mk_ik_event {
  ik_wd : Z;
  ik_mask : Z;
  ik_cookie : Z;
  ik_len : Z;
  ik_name : string;
  ik_pair : option ptr
}.
Definition set_ik_wd x r := mk_ik_event x (ik_mask r) (ik_cookie r) (ik_len r) (ik_name r)
  (ik_pair r).
Definition set_ik_mask x r := mk_ik_event (ik_wd r) x (ik_cookie r) (ik_len r) (ik_name r)
  (ik_pair r).
Definition set_ik_cookie x r := mk_ik_event (ik_wd r) (ik_mask r) x (ik_len r) (ik_name r)
  (ik_pair r).
Definition set_ik_len x r := mk_ik_event (ik_wd r) (ik_mask r) (ik_cookie r) x (ik_name r)
  (ik_pair r).
Definition set_ik_name x r := mk_ik_event (ik_wd r) (ik_mask r) (ik_cookie r) (ik_len r) x
  (ik_pair r).
Definition set_ik_pair x r := mk_ik_event (ik_wd r) (ik_mask r) (ik_cookie r) (ik_len r)
  (ik_name r) x.

(** [ik_event_internal_t] *)
Record ik_event_internal_t := mk_ik_internal {
  iki_event : ptr;
  iki_seen : bool;
  iki_sent : bool;
  iki_hold_until : timeval;
  iki_pair : option ptr
}.
Definition set_iki_event x r := mk_ik_internal x (iki_seen r) (iki_sent r) (iki_hold_until r)
  (iki_pair r).
Definition set_iki_seen x r := mk_ik_internal (iki_event r) x (iki_sent r) (iki_hold_until r)
  (iki_pair r).
Definition set_iki_sent x r := mk_ik_internal (iki_event r) (iki_seen r) x (iki_hold_until r)
  (iki_pair r).
Definition set_iki_hold_until x r := mk_ik_internal (iki_event r) (iki_seen r) (iki_sent r) x
  (iki_pair r).
Definition set_iki_pair x r := mk_ik_internal (iki_event r) (iki_seen r) (iki_sent r)
  (iki_hold_until r) x.

(** [ip_watched_dir_t], without the tree links that are never set. *)
Record ip_watched_dir_t := mk_ip_dir {
  ipd_path : string;
  ipd_wd : Z;
  ipd_subs : list ptr
}.
Definition set_ipd_path x r := mk_ip_dir x (ipd_wd r) (ipd_subs r).
Definition set_ipd_wd x r := mk_ip_dir (ipd_path r) x (ipd_subs r).
Definition set_ipd_subs x r := mk_ip_dir (ipd_path r) (ipd_wd r) x.

(** [ih_sub_t]; [usersubdata] is a [GamSubscription]. *)
Record ih_sub_t := mk_ih_sub {
  ihs_is_dir : bool;
  ihs_pathname : string;
  ihs_dirname : string;
  ihs_filename : option string;
  ihs_extra_flags : Z;
  ihs_cancelled : bool;
  ihs_usersubdata : ptr
}.
Definition set_ihs_is_dir x r := mk_ih_sub x (ihs_pathname r) (ihs_dirname r) (ihs_filename r)
  (ihs_extra_flags r) (ihs_cancelled r) (ihs_usersubdata r).
Definition set_ihs_pathname x r := mk_ih_sub (ihs_is_dir r) x (ihs_dirname r) (ihs_filename r)
  (ihs_extra_flags r) (ihs_cancelled r) (ihs_usersubdata r).
Definition set_ihs_dirname x r := mk_ih_sub (ihs_is_dir r) (ihs_pathname r) x (ihs_filename r)
  (ihs_extra_flags r) (ihs_cancelled r) (ihs_usersubdata r).
Definition set_ihs_filename x r := mk_ih_sub (ihs_is_dir r) (ihs_pathname r) (ihs_dirname r) x
  (ihs_extra_flags r) (ihs_cancelled r) (ihs_usersubdata r).
Definition set_ihs_extra_flags x r := mk_ih_sub (ihs_is_dir r) (ihs_pathname r) (ihs_dirname r)
  (ihs_filename r) x (ihs_cancelled r) (ihs_usersubdata r).
Definition set_ihs_cancelled x r := mk_ih_sub (ihs_is_dir r) (ihs_pathname r) (ihs_dirname r)
  (ihs_filename r) (ihs_extra_flags r) x (ihs_usersubdata r).
Definition set_ihs_usersubdata x r := mk_ih_sub (ihs_is_dir r) (ihs_pathname r) (ihs_dirname r)
  (ihs_filename r) (ihs_extra_flags r) (ihs_cancelled r) x.

(** ** Variables *)

(** The objects, with the allocator of the backend. *)
Record ino_heap := mk_ino_heap {
  ino_next : ptr;
  ik_events : gmap ptr ik_event_t;
  ik_internals : gmap ptr ik_event_internal_t;
  ip_dirs : gmap ptr ip_watched_dir_t;
  ih_subs : gmap ptr ih_sub_t
}.
Definition set_ino_next x r := mk_ino_heap x (ik_events r) (ik_internals r) (ip_dirs r) (ih_subs
  r).
Definition set_ik_events x r := mk_ino_heap (ino_next r) x (ik_internals r) (ip_dirs r) (ih_subs
  r).
Definition set_ik_internals x r := mk_ino_heap (ino_next r) (ik_events r) x (ip_dirs r) (ih_subs
  r).
Definition set_ip_dirs x r := mk_ino_heap (ino_next r) (ik_events r) (ik_internals r) x (ih_subs
  r).
Definition set_ih_subs x r := mk_ino_heap (ino_next r) (ik_events r) (ik_internals r) (ip_dirs
  r) x.

(** [inotify-kernel.c] *)
Record ik_vars := mk_ik_vars {
  inotify_instance_fd : Z;
  ik_initialized : bool;
  events_to_process : list ptr;
  event_queue : list ptr;
  cookie_hash : gmap Z ptr;
  ik_poll_fd_enabled : bool;
  prev_pending : Z;
  pending_count : Z;
  process_eq_running : bool;
  ik_move_matches : Z;
  ik_move_misses : Z
}.
Definition set_inotify_instance_fd x r := mk_ik_vars x (ik_initialized r) (events_to_process r)
  (event_queue r) (cookie_hash r) (ik_poll_fd_enabled r) (prev_pending r) (pending_count r)
  (process_eq_running r) (ik_move_matches r) (ik_move_misses r).
Definition set_ik_initialized x r := mk_ik_vars (inotify_instance_fd r) x (events_to_process r)
  (event_queue r) (cookie_hash r) (ik_poll_fd_enabled r) (prev_pending r) (pending_count r)
  (process_eq_running r) (ik_move_matches r) (ik_move_misses r).
Definition set_events_to_process x r := mk_ik_vars (inotify_instance_fd r) (ik_initialized r) x
  (event_queue r) (cookie_hash r) (ik_poll_fd_enabled r) (prev_pending r) (pending_count r)
  (process_eq_running r) (ik_move_matches r) (ik_move_misses r).
Definition set_event_queue x r := mk_ik_vars (inotify_instance_fd r) (ik_initialized r)
  (events_to_process r) x (cookie_hash r) (ik_poll_fd_enabled r) (prev_pending r) (pending_count
  r) (process_eq_running r) (ik_move_matches r) (ik_move_misses r).
Definition set_cookie_hash x r := mk_ik_vars (inotify_instance_fd r) (ik_initialized r)
  (events_to_process r) (event_queue r) x (ik_poll_fd_enabled r) (prev_pending r) (pending_count
  r) (process_eq_running r) (ik_move_matches r) (ik_move_misses r).
Definition set_ik_poll_fd_enabled x r := mk_ik_vars (inotify_instance_fd r) (ik_initialized r)
  (events_to_process r) (event_queue r) (cookie_hash r) x (prev_pending r) (pending_count r)
  (process_eq_running r) (ik_move_matches r) (ik_move_misses r).
Definition set_prev_pending x r := mk_ik_vars (inotify_instance_fd r) (ik_initialized r)
  (events_to_process r) (event_queue r) (cookie_hash r) (ik_poll_fd_enabled r) x (pending_count
  r) (process_eq_running r) (ik_move_matches r) (ik_move_misses r).
Definition set_pending_count x r := mk_ik_vars (inotify_instance_fd r) (ik_initialized r)
  (events_to_process r) (event_queue r) (cookie_hash r) (ik_poll_fd_enabled r) (prev_pending r)
  x (process_eq_running r) (ik_move_matches r) (ik_move_misses r).
Definition set_process_eq_running x r := mk_ik_vars (inotify_instance_fd r) (ik_initialized r)
  (events_to_process r) (event_queue r) (cookie_hash r) (ik_poll_fd_enabled r) (prev_pending r)
  (pending_count r) x (ik_move_matches r) (ik_move_misses r).
Definition set_ik_move_matches x r := mk_ik_vars (inotify_instance_fd r) (ik_initialized r)
  (events_to_process r) (event_queue r) (cookie_hash r) (ik_poll_fd_enabled r) (prev_pending r)
  (pending_count r) (process_eq_running r) x (ik_move_misses r).
Definition set_ik_move_misses x r := mk_ik_vars (inotify_instance_fd r) (ik_initialized r)
  (events_to_process r) (event_queue r) (cookie_hash r) (ik_poll_fd_enabled r) (prev_pending r)
  (pending_count r) (process_eq_running r) (ik_move_matches r) x.

(** [inotify-path.c] *)
Record ip_vars := mk_ip_vars {
  ip_initialized : bool;
  ip_result : bool;
  path_dir_hash : gmap string ptr;
  sub_dir_hash : gmap ptr ptr;
  wd_dir_hash : gmap Z (list ptr)
}.
Definition set_ip_initialized x r := mk_ip_vars x (ip_result r) (path_dir_hash r) (sub_dir_hash
  r) (wd_dir_hash r).
Definition set_ip_result x r := mk_ip_vars (ip_initialized r) x (path_dir_hash r) (sub_dir_hash
  r) (wd_dir_hash r).
Definition set_path_dir_hash x r := mk_ip_vars (ip_initialized r) (ip_result r) x (sub_dir_hash
  r) (wd_dir_hash r).
Definition set_sub_dir_hash x r := mk_ip_vars (ip_initialized r) (ip_result r) (path_dir_hash r)
  x (wd_dir_hash r).
Definition set_wd_dir_hash x r := mk_ip_vars (ip_initialized r) (ip_result r) (path_dir_hash r)
  (sub_dir_hash r) x.

(** [inotify-missing.c] and [inotify-helper.c] *)
Record ih_vars := mk_ih_vars {
  ih_initialized : bool;
  ih_result : bool;
  sub_list : list ptr;
  missing_sub_list : list ptr;
  scan_missing_running : bool;
  inotify_lock : bool
}.
Definition set_ih_initialized x r := mk_ih_vars x (ih_result r) (sub_list r) (missing_sub_list
  r) (scan_missing_running r) (inotify_lock r).
Definition set_ih_result x r := mk_ih_vars (ih_initialized r) x (sub_list r) (missing_sub_list
  r) (scan_missing_running r) (inotify_lock r).
Definition set_sub_list x r := mk_ih_vars (ih_initialized r) (ih_result r) x (missing_sub_list
  r) (scan_missing_running r) (inotify_lock r).
Definition set_missing_sub_list x r := mk_ih_vars (ih_initialized r) (ih_result r) (sub_list r)
  x (scan_missing_running r) (inotify_lock r).
Definition set_scan_missing_running x r := mk_ih_vars (ih_initialized r) (ih_result r) (sub_list
  r) (missing_sub_list r) x (inotify_lock r).
Definition set_inotify_lock x r := mk_ih_vars (ih_initialized r) (ih_result r) (sub_list r)
  (missing_sub_list r) (scan_missing_running r) x.

Record inotify_state := mk_inotify {
  ino_heap_of : ino_heap;
  ik_of : ik_vars;
  ip_of : ip_vars;
  ih_of : ih_vars
}.
Definition set_ino_heap_of x r := mk_inotify x (ik_of r) (ip_of r) (ih_of r).
Definition set_ik_of x r := mk_inotify (ino_heap_of r) x (ip_of r) (ih_of r).
Definition set_ip_of x r := mk_inotify (ino_heap_of r) (ik_of r) x (ih_of r).
Definition set_ih_of x r := mk_inotify (ino_heap_of r) (ik_of r) (ip_of r) x.

Definition inotify_initial : inotify_state :=
  mk_inotify (mk_ino_heap 1%positive ∅ ∅ ∅ ∅)
    (mk_ik_vars (-1) false [] [] ∅ true 0 0 false 0 0)
    (mk_ip_vars false false ∅ ∅ ∅) (mk_ih_vars false false [] [] false false).

(** The daemon with this backend: [gam_inotify_is_running] is [ih_running]. *)
Definition inotify_kernel : KernelState :=
  {| kernel_state := inotify_state; inotify_is_running k := ih_initialized (ih_of k) |}.

#[local] Existing Instance inotify_kernel.

(** ** Access *)

(** The map of each kind of object. *)
Class InoObj (A : Type) := {
  ino_map : ino_heap -> gmap ptr A;
  ino_set : gmap ptr A -> ino_heap -> ino_heap;
  ino_map_set m h : ino_map (ino_set m h) = m
}.

#[export] Instance ik_event_obj : InoObj ik_event_t.
Proof. exists ik_events set_ik_events; done. Defined.
#[export] Instance ik_internal_obj : InoObj ik_event_internal_t.
Proof. exists ik_internals set_ik_internals; done. Defined.
#[export] Instance ip_dir_obj : InoObj ip_watched_dir_t.
Proof. exists ip_dirs set_ip_dirs; done. Defined.
#[export] Instance ih_sub_obj : InoObj ih_sub_t.
Proof. exists ih_subs set_ih_subs; done. Defined.

Section Access.
Context {os : OS} {ino : Inotify os}.
Abbreviation M := (ST server).

Definition upd_ino (f : inotify_state -> inotify_state) (s : server) : server :=
  set_sv_kernel (f (sv_kernel s)) s.
Definition upd_ino_heap f k := set_ino_heap_of (f (ino_heap_of k)) k.
Definition upd_ik f k := set_ik_of (f (ik_of k)) k.
Definition upd_ip f k := set_ip_of (f (ip_of k)) k.
Definition upd_ih f k := set_ih_of (f (ih_of k)) k.

Definition ino_gets {A} (f : inotify_state -> A) : M A := gets (fun s => f (sv_kernel s)).
Definition ino_modify (f : inotify_state -> inotify_state) : M unit := modify (upd_ino f).

Definition ino_objs {A} `{InoObj A} (k : inotify_state) : gmap ptr A := ino_map (ino_heap_of k).

Definition iload {A} `{InoObj A} (p : ptr) : M A := fun s =>
  match ino_objs (sv_kernel s) !! p with Some a => Ok (a, s) | None => Fault NullDeref end.

Definition iupdate {A} `{InoObj A} (p : ptr) (f : A -> A) : M unit := fun s =>
  match ino_objs (sv_kernel s) !! p with
  | Some a => Ok (tt, upd_ino (upd_ino_heap (fun h => ino_set (<[p := f a]> (ino_map h)) h)) s)
  | None => Fault NullDeref
  end.

Definition ialloc {A} `{InoObj A} (a : A) : M ptr := fun s =>
  let p := ino_next (ino_heap_of (sv_kernel s)) in
  Ok (p, upd_ino (upd_ino_heap (fun h =>
           set_ino_next (Pos.succ p) (ino_set (<[p := a]> (ino_map h)) h))) s).

Definition ifree (A : Type) `{InoObj A} (p : ptr) : M unit := fun s =>
  match ino_objs (A := A) (sv_kernel s) !! p with
  | Some _ =>
      Ok (tt, upd_ino (upd_ino_heap (fun h => ino_set (delete p (ino_map (A := A) h)) h)) s)
  | None => Fault NullDeref
  end.

(** [G_LOCK(inotify_lock)] and [G_UNLOCK]; the lock is not recursive. *)
Definition G_LOCK : M unit :=
  if glib_locks then
    held ← ino_gets (fun k => inotify_lock (ih_of k));
    if held : bool then fail Deadlock else ino_modify (upd_ih (set_inotify_lock true))
  else mret tt.
Definition G_UNLOCK : M unit :=
  if glib_locks then ino_modify (upd_ih (set_inotify_lock false)) else mret tt.
End Access.

(** ** Their weakest preconditions *)

Section AccessRules.
Context {os : OS} {ino : Inotify os}.

Lemma wp_iload {A} `{InoObj A} p a (Q : A -> server -> Prop) s :
  ino_objs (A := A) (sv_kernel s) !! p = Some a -> Q a s -> wp (iload p) Q s.
Proof. unfold wp, iload. by intros ->. Qed.

Lemma wp_iupdate {A} `{InoObj A} p (f : A -> A) a (Q : unit -> server -> Prop) s :
  ino_objs (A := A) (sv_kernel s) !! p = Some a ->
  Q tt (upd_ino (upd_ino_heap (fun h => ino_set (<[p := f a]> (ino_map h)) h)) s) ->
  wp (iupdate p f) Q s.
Proof. unfold wp, iupdate. by intros ->. Qed.

Lemma wp_ialloc {A} `{InoObj A} (a : A) (Q : ptr -> server -> Prop) s :
  let p := ino_next (ino_heap_of (sv_kernel s)) in
  Q p (upd_ino (upd_ino_heap (fun h =>
         set_ino_next (Pos.succ p) (ino_set (<[p := a]> (ino_map h)) h))) s) ->
  wp (ialloc a) Q s.
Proof. done. Qed.

Lemma wp_ifree A `{InoObj A} p a (Q : unit -> server -> Prop) s :
  ino_objs (A := A) (sv_kernel s) !! p = Some a ->
  Q tt (upd_ino (upd_ino_heap (fun h => ino_set (delete p (ino_map (A := A) h)) h)) s) ->
  wp (ifree A p) Q s.
Proof. unfold wp, ifree. by intros ->. Qed.

Lemma wp_ino_gets {A} (f : inotify_state -> A) (Q : A -> server -> Prop) s :
  Q (f (sv_kernel s)) s -> wp (ino_gets f) Q s.
Proof. done. Qed.

Lemma wp_ino_modify f (Q : unit -> server -> Prop) s :
  Q tt (upd_ino f s) -> wp (ino_modify f) Q s.
Proof. done. Qed.

Lemma upd_ino_world f w s : upd_ino f (set_sv_world w s) = set_sv_world w (upd_ino f s).
Proof. done. Qed.
End AccessRules.
