(* ===== verification/InotifyKernel.v ===== *)
(** * Events from the kernel ([server/inotify-kernel.c])

    Raw events are parsed from the read buffer into [events_to_process];
    [ik_process_events] pairs the two halves of a move by their cookie and
    moves what is ready to [event_queue], from where [ik_process_eq_callback]
    hands the events to the layer above. *)

From S2P Require Import Prelude Protocol Monad OS Fs State.
From S2P Require Import InotifyState.

Local Open Scope Z_scope.

#[local] Existing Instance inotify_kernel.

Definition DEFAULT_HOLD_UNTIL_TIME : Z := 0.
Definition MOVE_HOLD_UNTIL_TIME : Z := 0.
Definition MAX_PENDING_COUNT : Z := 2.
Definition PENDING_THRESHOLD (qsize : Z) : Z := Z.shiftr qsize 1.
Definition PENDING_MARGINAL_COST (p : Z) : Z := Z.shiftl 1 p.
Definition MAX_QUEUED_EVENTS : Z := 2048.
Definition sizeof_inotify_event : Z := 16.
Definition AVERAGE_EVENT_SIZE : Z := sizeof_inotify_event + 16.

(** Conversion to [unsigned int]. *)
Definition u32 (z : Z) : Z := z mod 4294967296.
(** Conversion from [unsigned int] to [int]. *)
Definition s32 (z : Z) : Z := if z <? 2147483648 then z else z - 4294967296.

(** ** Times *)

Definition g_timeval_lt (val1 val2 : timeval) : bool :=
  if val1.1 <? val2.1 then true
  else if val1.1 >? val2.1 then false
  else val1.2 <? val2.2.

Definition g_timeval_eq (val1 val2 : timeval) : bool :=
  (val1.1 =? val2.1) && (val1.2 =? val2.2).

(** ** Names of masks *)

Definition ik_mask_to_string (mask : Z) : string :=
  let is_dir := ztest (mask .& IN_ISDIR) in
  let mask := mask .& (~. IN_ISDIR) in
  let name :=
    if mask =? IN_ACCESS then "ACCESS"
    else if mask =? IN_MODIFY then "MODIFY"
    else if mask =? IN_ATTRIB then "ATTRIB"
    else if mask =? IN_CLOSE_WRITE then "CLOSE_WRITE"
    else if mask =? IN_CLOSE_NOWRITE then "CLOSE_NOWRITE"
    else if mask =? IN_OPEN then "OPEN"
    else if mask =? IN_MOVED_FROM then "MOVED_FROM"
    else if mask =? IN_MOVED_TO then "MOVED_TO"
    else if mask =? IN_DELETE then "DELETE"
    else if mask =? IN_CREATE then "CREATE"
    else if mask =? IN_DELETE_SELF then "DELETE_SELF"
    else if mask =? IN_UNMOUNT then "UNMOUNT"
    else if mask =? IN_Q_OVERFLOW then "Q_OVERFLOW"
    else if mask =? IN_IGNORED then "IGNORED"
    else "UNKNOWN_EVENT" in
  if is_dir then (name ++ " (dir)")%string else name%string.

(** ** The read buffer *)

(** The buffer is cleared before each read, so that it holds zeros behind the
    bytes read. *)
Definition buffer_at (data : list byte) (i : nat) : Z :=
  match data !! i with Some b => Z_of_byte b | None => 0 end.

Definition u32_at (data : list byte) (i : nat) : Z :=
  buffer_at data i + 256 * buffer_at data (i + 1) + 65536 * buffer_at data (i + 2)
  + 16777216 * buffer_at data (i + 3).

(** [ik_event_new] on the [struct inotify_event] at offset [i]. *)
Definition ik_event_new (data : list byte) (i : nat) : ik_event_t :=
  let len := u32_at data (i + 12) in
  mk_ik_event (s32 (u32_at data i)) (u32_at data (i + 4)) (u32_at data (i + 8)) len
    (if negb (len =? 0) then path_of_bytes (c_string (drop (i + 16) data)) else ""%string)
    None.

Definition ik_event_new_dummy (name : option string) (wd mask : Z) : ik_event_t :=
  let name := default ""%string name in
  mk_ik_event wd mask 0 (strlen name) name None.

Definition ik_buffer_size : Z := AVERAGE_EVENT_SIZE * MAX_QUEUED_EVENTS.

Section Kernel.
Context {os : OS} {ino : Inotify os}.
Abbreviation M := (ST server).

(** ** The event source *)

(** [ik_source_timeout]: the descriptor is polled again. *)
Definition ik_source_timeout : M bool :=
  _ ← ino_modify (upd_ik (set_ik_poll_fd_enabled true)); mret false.

Definition do_read : M bool :=
  _ ← ino_modify (upd_ik (fun k => set_prev_pending 0 (set_pending_count 0 k))); mret true.

(** [ik_source_check]; [readable] is [ik_poll_fd.revents & G_IO_IN].  The
    difference of the counts is taken in [unsigned int]. *)
Definition ik_source_check (readable : bool) : M bool :=
  ik ← ino_gets ik_of;
  if negb (ik_poll_fd_enabled ik) || negb readable then mret false
  else if pending_count ik <? MAX_PENDING_COUNT then
    r ← sys (inotify_pending (inotify_instance_fd ik));
    match r with
    | SysErr _ => do_read
    | SysOk pending =>
        let pending := pending / AVERAGE_EVENT_SIZE in
        if pending >? PENDING_THRESHOLD MAX_QUEUED_EVENTS then do_read
        else if u32 (pending - prev_pending ik) <? PENDING_MARGINAL_COST (pending_count ik)
        then do_read
        else
          _ ← ino_modify (upd_ik (fun k => set_ik_poll_fd_enabled false
                 (set_pending_count (pending_count k + 1) (set_prev_pending pending k))));
          mret false
    end
  else do_read.

Definition ik_startup : M bool :=
  ik ← ino_gets ik_of;
  if ik_initialized ik then mret (inotify_instance_fd ik >=? 0)
  else
    fd ← sys inotify_init;
    _ ← ino_modify (upd_ik (set_inotify_instance_fd fd));
    if fd <? 0 then mret false
    else
      _ ← ino_modify (upd_ik (fun k => set_ik_initialized true (set_cookie_hash ∅
             (set_event_queue [] (set_events_to_process [] k)))));
      mret true.

(** ** Watches *)

(** [ik_watch]; the error is [errno], which the callers look at. *)
Definition ik_watch (path : string) (mask : Z) : M (sysres Z) :=
  fd ← ino_gets (fun k => inotify_instance_fd (ik_of k));
  _ ← g_assert (fd >=? 0);
  r ← sys (inotify_add_watch fd path mask);
  _ ← match r with SysOk wd => g_assert (wd >=? 0) | SysErr _ => mret tt end;
  mret r.

Definition ik_ignore (path : string) (wd : Z) : M Z :=
  _ ← g_assert (wd >=? 0);
  fd ← ino_gets (fun k => inotify_instance_fd (ik_of k));
  _ ← g_assert (fd >=? 0);
  r ← sys (inotify_rm_watch fd wd);
  mret (if r <? 0 then -1 else 0).

(** ** Events *)

Definition ik_event_internal_new (event : ptr) : M ptr :=
  tv ← sys g_get_current_time;
  ialloc (mk_ik_internal event false false (g_time_val_add tv DEFAULT_HOLD_UNTIL_TIME) None).

(** [ik_event_free] follows the [pair] links; there are no more of them than
    events. *)
Fixpoint ik_event_free_loop (fuel : nat) (event : ptr) : M unit :=
  match fuel with
  | O => fail OutOfFuel
  | S fuel =>
      e ← iload (A := ik_event_t) event;
      _ ← match ik_pair e with Some other => ik_event_free_loop fuel other | None => mret tt end;
      ifree ik_event_t event
  end.
Definition ik_event_free (event : ptr) : M unit :=
  fuel ← ino_gets (fun k => size (ik_events (ino_heap_of k)));
  ik_event_free_loop fuel event.

(** The loop of [ik_read_callback], from offset [i] of the [size] bytes read;
    the result is the number of events. *)
Fixpoint read_events_loop (fuel : nat) (data : list byte) (i : nat) : M nat :=
  match fuel with
  | O => fail OutOfFuel
  | S fuel =>
      if decide (i < length data)%nat then
        if Z.of_nat i + sizeof_inotify_event >? ik_buffer_size then fail OutOfBounds
        else
          let e := ik_event_new data i in
          event ← ialloc e;
          internal ← ik_event_internal_new event;
          _ ← ino_modify (upd_ik (fun k =>
                 set_events_to_process (events_to_process k ++ [internal]) k));
          n ← read_events_loop fuel data (i + Z.to_nat (sizeof_inotify_event + ik_len e));
          mret (S n)
      else mret O
  end.

Definition ik_read_callback : M bool :=
  _ ← G_LOCK;
  fd ← ino_gets (fun k => inotify_instance_fd (ik_of k));
  data ← sys (inotify_read fd ik_buffer_size);
  events ← read_events_loop (S (length data)) data 0;
  running ← ino_gets (fun k => process_eq_running (ik_of k));
  _ ← when (negb running && negb (Nat.eqb events 0))
        (ino_modify (upd_ik (set_process_eq_running true)));
  _ ← G_UNLOCK;
  mret true.

(** ** Pairing *)

Definition ik_pair_events (event1 event2 : ptr) : M unit :=
  e1 ← iload (A := ik_event_internal_t) event1;
  e2 ← iload (A := ik_event_internal_t) event2;
  k1 ← iload (A := ik_event_t) (iki_event e1);
  k2 ← iload (A := ik_event_t) (iki_event e2);
  _ ← g_assert (ik_cookie k1 =? ik_cookie k2);
  _ ← g_assert (bool_decide (iki_pair e1 = None) && bool_decide (iki_pair e2 = None));
  _ ← iupdate event1 (set_iki_pair (Some event2));
  _ ← iupdate (iki_event e1) (set_ik_pair (Some (iki_event e2)));
  _ ← when (g_timeval_lt (iki_hold_until e1) (iki_hold_until e2))
        (iupdate event1 (set_iki_hold_until (iki_hold_until e2)));
  e1 ← iload (A := ik_event_internal_t) event1;
  iupdate event2 (set_iki_hold_until (iki_hold_until e1)).

Definition ik_event_add_microseconds (event : ptr) (ms : Z) : M unit :=
  iupdate event (fun e => set_iki_hold_until (g_time_val_add (iki_hold_until e) ms) e).

Definition ik_event_ready (event : ptr) : M bool :=
  tv ← sys g_get_current_time;
  e ← iload (A := ik_event_internal_t) event;
  k ← iload (A := ik_event_t) (iki_event e);
  mret ((ik_cookie k =? 0) || negb (bool_decide (iki_pair e = None))
        || g_timeval_lt (iki_hold_until e) tv || g_timeval_eq (iki_hold_until e) tv).

Definition ik_pair_moves (event : ptr) : M unit :=
  e ← iload (A := ik_event_internal_t) event;
  if iki_seen e || iki_sent e then mret tt
  else
    k ← iload (A := ik_event_t) (iki_event e);
    _ ← when (negb (ik_cookie k =? 0))
      (if ztest (ik_mask k .& IN_MOVED_FROM) then
         _ ← ino_modify (upd_ik (fun v =>
                set_cookie_hash (<[ik_cookie k := event]> (cookie_hash v)) v));
         ik_event_add_microseconds event MOVE_HOLD_UNTIL_TIME
       else if ztest (ik_mask k .& IN_MOVED_TO) then
         hash ← ino_gets (fun s => cookie_hash (ik_of s));
         match hash !! ik_cookie k with
         | Some m =>
             _ ← ino_modify (upd_ik (fun v =>
                    set_cookie_hash (delete (ik_cookie k) (cookie_hash v)) v));
             ik_pair_events m event
         | None => mret tt
         end
       else mret tt);
    iupdate event (set_iki_seen true).

(** The two [if]s that turn half a move into a deletion or a creation; the
    second sees the mask the first leaves. *)
Definition unpaired_mask (mask : Z) : Z :=
  let mask := if ztest (mask .& IN_MOVED_FROM) then IN_DELETE .| (mask .& IN_ISDIR) else mask in
  if ztest (mask .& IN_MOVED_TO) then IN_CREATE .| (mask .& IN_ISDIR) else mask.

(** What happens to a popped event before it is queued. *)
Definition ik_prepare_event (event : ptr) : M unit :=
  e ← iload (A := ik_event_internal_t) event;
  k ← iload (A := ik_event_t) (iki_event e);
  hash ← ino_gets (fun s => cookie_hash (ik_of s));
  _ ← when (negb (ik_cookie k =? 0) && bool_decide (iki_pair e = None)
            && bool_decide (is_Some (hash !! ik_cookie k)))
        (ino_modify (upd_ik (fun v => set_cookie_hash (delete (ik_cookie k) (cookie_hash v)) v)));
  match iki_pair e with
  | Some other =>
      _ ← iupdate other (set_iki_sent true);
      _ ← iupdate event (set_iki_sent true);
      ino_modify (upd_ik (fun v => set_ik_move_matches (u32 (ik_move_matches v + 1)) v))
  | None =>
      when (negb (ik_cookie k =? 0))
        (_ ← when (ztest (ik_mask k .& IN_MOVED_FROM))
               (ino_modify (upd_ik (fun v => set_ik_move_misses (u32 (ik_move_misses v + 1)) v)));
         iupdate (iki_event e) (fun k => set_ik_mask (unpaired_mask (ik_mask k)) k))
  end.

(** The [while] loop of [ik_process_events]; each round takes an event from the
    queue. *)
Fixpoint process_events_loop (fuel : nat) : M unit :=
  match fuel with
  | O => fail OutOfFuel
  | S fuel =>
      q ← ino_gets (fun s => events_to_process (ik_of s));
      match q with
      | [] => mret tt
      | event :: q' =>
          e ← iload (A := ik_event_internal_t) event;
          if iki_sent e then
            _ ← ino_modify (upd_ik (set_events_to_process q'));
            _ ← ifree ik_event_internal_t event;
            process_events_loop fuel
          else
            ready ← ik_event_ready event;
            if negb ready then mret tt
            else
              _ ← ino_modify (upd_ik (set_events_to_process q'));
              _ ← ik_prepare_event event;
              e ← iload (A := ik_event_internal_t) event;
              _ ← ino_modify (upd_ik (fun v =>
                     set_event_queue (event_queue v ++ [iki_event e]) v));
              _ ← ifree ik_event_internal_t event;
              process_events_loop fuel
      end
  end.

Definition ik_process_events : M unit :=
  q ← ino_gets (fun s => events_to_process (ik_of s));
  _ ← for_each q ik_pair_moves;
  process_events_loop (S (length q)).

(** The layer above: [ip_event_callback]. *)
Context (user_cb : ptr -> M unit).

Fixpoint deliver_loop (fuel : nat) : M unit :=
  match fuel with
  | O => fail OutOfFuel
  | S fuel =>
      q ← ino_gets (fun s => event_queue (ik_of s));
      match q with
      | [] => mret tt
      | event :: q' =>
          _ ← ino_modify (upd_ik (set_event_queue q'));
          _ ← user_cb event;
          deliver_loop fuel
      end
  end.

Definition ik_process_eq_callback : M bool :=
  _ ← G_LOCK;
  _ ← ik_process_events;
  q ← ino_gets (fun s => event_queue (ik_of s));
  _ ← deliver_loop (S (length q));
  left ← ino_gets (fun s => events_to_process (ik_of s));
  if bool_decide (left = []) then
    _ ← ino_modify (upd_ik (set_process_eq_running false));
    _ ← G_UNLOCK;
    mret false
  else
    _ ← G_UNLOCK;
    mret true.
End Kernel.
