(* ===== verification/InotifyMissing.v ===== *)
(** * Subscriptions to missing directories ([server/inotify-missing.c], [server/inotify-sub.c])

    A subscription whose directory cannot be watched is put on a list, which a
    timer scans every four seconds. *)

From S2P Require Import Prelude Protocol Monad OS Fs State.
From S2P Require Import Tree InotifyState.

Local Open Scope Z_scope.

#[local] Existing Instance inotify_kernel.

(** ** Subscriptions of the backend *)

(** [ih_sub_fix_dirname]: the test looks at the byte behind the last one. *)
Definition ih_sub_fix_dirname (dirname : string) : string :=
  let len := String.length dirname in
  if is_slash_at dirname len then str_take len dirname else dirname.

Section Missing.
Context {os : OS} {glib : GLib} {ino : Inotify os}.
Abbreviation M := (ST server).

(** [ih_sub_setup]: directory and file name. *)
Definition ih_sub_setup (sub : ih_sub_t) : ih_sub_t :=
  let sub :=
    if ihs_is_dir sub then set_ihs_filename None (set_ihs_dirname (ihs_pathname sub) sub)
    else set_ihs_filename (Some (g_path_get_basename (ihs_pathname sub)))
           (set_ihs_dirname (g_path_get_dirname (ihs_pathname sub)) sub) in
  set_ihs_dirname (ih_sub_fix_dirname (ihs_dirname sub)) sub.

Definition ih_sub_new (pathname : string) (is_dir : bool) (flags : Z) (userdata : ptr) : M ptr :=
  ialloc (ih_sub_setup (mk_ih_sub is_dir pathname ""%string None flags false userdata)).

Definition ih_sub_free (sub : ptr) : M unit := ifree ih_sub_t sub.

(** ** The list *)

Definition im_add (sub : ptr) : M unit :=
  l ← ino_gets (fun k => missing_sub_list (ih_of k));
  if g_list_find l sub then mret tt
  else
    _ ← ino_modify (upd_ih (set_missing_sub_list (sub :: l)));
    ino_modify (upd_ih (set_scan_missing_running true)).

Definition im_rm (sub : ptr) : M unit :=
  l ← ino_gets (fun k => missing_sub_list (ih_of k));
  if negb (g_list_find l sub) then mret tt
  else ino_modify (upd_ih (set_missing_sub_list (g_list_remove l sub))).

(** The layers around: [ip_start_watching], and [ih_found_callback]. *)
Context (ip_start_watching : ptr -> M bool) (missing_cb : ptr -> M unit).

(** The first loop of [im_scan_missing]; the result is [nolonger_missing]. *)
Fixpoint scan_missing_subs (l : list ptr) (nolonger_missing : list ptr) : M (list ptr) :=
  match l with
  | [] => mret nolonger_missing
  | sub :: l =>
      _ ← iload (A := ih_sub_t) sub;
      not_m ← ip_start_watching sub;
      if not_m : bool then
        _ ← missing_cb sub;
        scan_missing_subs l (sub :: nolonger_missing)
      else scan_missing_subs l nolonger_missing
  end.

(** [im_scan_missing]; a link is removed by the subscription it holds. *)
Definition im_scan_missing : M bool :=
  _ ← G_LOCK;
  l ← ino_gets (fun k => missing_sub_list (ih_of k));
  nolonger_missing ← scan_missing_subs l [];
  _ ← for_each nolonger_missing (fun sub =>
         ino_modify (upd_ih (fun v => set_missing_sub_list (g_list_remove (missing_sub_list v) sub) v)));
  left ← ino_gets (fun k => missing_sub_list (ih_of k));
  if bool_decide (left = []) then
    _ ← ino_modify (upd_ih (set_scan_missing_running false));
    _ ← G_UNLOCK;
    mret false
  else
    _ ← G_UNLOCK;
    mret true.
End Missing.
