(* ===== verification/InotifyPath.v ===== *)
(** * Watched directories ([server/inotify-path.c])

    Three hash tables connect paths, subscriptions and kernel watches with
    watched directories.  An event is dispatched to the subscriptions of all
    directories that share its watch; when a directory disappears its
    subscriptions are put on the missing list. *)

From S2P Require Import Prelude Protocol Monad OS Fs State.
From S2P Require Import Tree InotifyState InotifyKernel InotifyMissing.

Local Open Scope Z_scope.

#[local] Existing Instance inotify_kernel.

Definition IP_INOTIFY_MASK : Z :=
  IN_MODIFY .| IN_ATTRIB .| IN_MOVED_FROM .| IN_MOVED_TO .| IN_DELETE .| IN_CREATE
  .| IN_DELETE_SELF .| IN_UNMOUNT .| IN_MOVE_SELF.

(** [g_strrstr(path, "/")]: the offset of the last slash. *)
Fixpoint last_slash (path : string) : option nat :=
  match path with
  | EmptyString => None
  | String c rest =>
      match last_slash rest with
      | Some i => Some (S i)
      | None => if Ascii.eqb c slash then Some 0%nat else None
      end
  end.

Section Path.
Context {os : OS} {glib : GLib} {ino : Inotify os}.
Abbreviation M := (ST server).

Definition ip_startup : M bool :=
  ip ← ino_gets ip_of;
  if ip_initialized ip then mret (ip_result ip)
  else
    result ← ik_startup;
    _ ← ino_modify (upd_ip (set_ip_result result));
    if negb result then mret false
    else
      _ ← ino_modify (upd_ip (fun v => set_ip_initialized true (set_path_dir_hash ∅
             (set_sub_dir_hash ∅ (set_wd_dir_hash ∅ v)))));
      mret true.

(** ** The hash tables *)

Definition ip_map_path_dir (dir : ptr) : M unit :=
  d ← iload (A := ip_watched_dir_t) dir;
  ino_modify (upd_ip (fun v => set_path_dir_hash (<[ipd_path d := dir]> (path_dir_hash v)) v)).

Definition ip_map_sub_dir (sub dir : ptr) : M unit :=
  _ ← ino_modify (upd_ip (fun v => set_sub_dir_hash (<[sub := dir]> (sub_dir_hash v)) v));
  iupdate dir (fun d => set_ipd_subs (sub :: ipd_subs d) d).

Definition wd_dirs (wd : Z) : M (list ptr) :=
  ino_gets (fun k => default [] (wd_dir_hash (ip_of k) !! wd)).

Definition ip_map_wd_dir (wd : Z) (dir : ptr) : M unit :=
  _ ← g_assert (wd >=? 0);
  dir_list ← wd_dirs wd;
  d ← iload (A := ip_watched_dir_t) dir;
  ino_modify (upd_ip (fun v => set_wd_dir_hash (<[ipd_wd d := dir :: dir_list]> (wd_dir_hash v)) v)).

Definition ip_unmap_path_dir (dir : ptr) : M unit :=
  d ← iload (A := ip_watched_dir_t) dir;
  ino_modify (upd_ip (fun v => set_path_dir_hash (delete (ipd_path d) (path_dir_hash v)) v)).

Definition ip_unmap_wd_dir (wd : Z) (dir : ptr) : M unit :=
  dir_list ← wd_dirs wd;
  if bool_decide (dir_list = []) then mret tt
  else
    _ ← g_assert (wd >=? 0);
    d ← iload (A := ip_watched_dir_t) dir;
    let dir_list := g_list_remove dir_list dir in
    ino_modify (upd_ip (fun v => set_wd_dir_hash
      (if bool_decide (dir_list = []) then delete (ipd_wd d) (wd_dir_hash v)
       else <[ipd_wd d := dir_list]> (wd_dir_hash v)) v)).

Definition ip_unmap_wd (wd : Z) : M unit :=
  dir_list ← wd_dirs wd;
  if bool_decide (dir_list = []) then mret tt
  else
    _ ← g_assert (wd >=? 0);
    ino_modify (upd_ip (fun v => set_wd_dir_hash (delete wd (wd_dir_hash v)) v)).

Definition ip_unmap_sub_dir (sub dir : ptr) : M unit :=
  _ ← ino_modify (upd_ip (fun v => set_sub_dir_hash (delete sub (sub_dir_hash v)) v));
  iupdate dir (fun d => set_ipd_subs (g_list_remove (ipd_subs d) sub) d).

Definition ip_unmap_all_subs (dir : ptr) : M unit :=
  d ← iload (A := ip_watched_dir_t) dir;
  _ ← for_each (ipd_subs d) (fun sub =>
         ino_modify (upd_ip (fun v => set_sub_dir_hash (delete sub (sub_dir_hash v)) v)));
  iupdate dir (set_ipd_subs []).

Definition ip_watched_dir_new (path : string) (wd : Z) : M ptr := ialloc (mk_ip_dir path wd []).

Definition ip_watched_dir_free (dir : ptr) : M unit :=
  d ← iload (A := ip_watched_dir_t) dir;
  _ ← g_assert (bool_decide (ipd_subs d = []));
  ifree ip_watched_dir_t dir.

(** ** Watching *)

(** [ip_watch_parent]: the nearest directory above that can be watched, with
    its watch; [None] for a negative result. *)
Fixpoint ip_watch_parent (fuel : nat) (path_copy : string) (mask : Z) : M (option (Z * string)) :=
  match fuel with
  | O => fail OutOfFuel
  | S fuel =>
      match last_slash path_copy with
      | None => mret None
      | Some p =>
          let path_copy := if Nat.eqb p 0 then path_copy else str_take p path_copy in
          r ← ik_watch path_copy mask;
          match r with
          | SysOk wd => mret (Some (wd, path_copy))
          | SysErr errno => if errno =? ENOENT then ip_watch_parent fuel path_copy mask else mret None
          end
      end
  end.

(** A new directory in all tables but that of the subscriptions. *)
Definition watch_new_dir (path : string) (wd : Z) : M ptr :=
  dir ← ip_watched_dir_new path wd;
  _ ← ip_map_wd_dir wd dir;
  _ ← ip_map_path_dir dir;
  mret dir.

(** [ip_start_watching]; each round of [ip_watch_parent] but the last drops a
    name from the path. *)
Definition ip_start_watching (sub : ptr) : M bool :=
  s ← iload (A := ih_sub_t) sub;
  _ ← g_assert (negb (ihs_cancelled s));
  known ← ino_gets (fun k => path_dir_hash (ip_of k) !! ihs_dirname s);
  let mask := IP_INOTIFY_MASK .| IN_ONLYDIR .| ihs_extra_flags s in
  dir ← match known with
        | Some dir => mret (Some dir)
        | None =>
            r ← ik_watch (ihs_dirname s) mask;
            match r with
            | SysOk wd => dir ← watch_new_dir (ihs_dirname s) wd; mret (Some dir)
            | SysErr errno =>
                if errno =? ENOENT then
                  o ← ip_watch_parent (S (String.length (ihs_dirname s))) (ihs_dirname s) mask;
                  match o with
                  | Some (wd, parent_path) => dir ← watch_new_dir parent_path wd; mret (Some dir)
                  | None => mret None
                  end
                else mret None
            end
        end;
  match dir with
  | Some dir => _ ← ip_map_sub_dir sub dir; mret true
  | None => mret false
  end.

Definition ip_stop_watching (sub : ptr) : M bool :=
  o ← ino_gets (fun k => sub_dir_hash (ip_of k) !! sub);
  match o with
  | None => mret true
  | Some dir =>
      _ ← ip_unmap_sub_dir sub dir;
      d ← iload (A := ip_watched_dir_t) dir;
      _ ← when (bool_decide (ipd_subs d = []))
        (_ ← ik_ignore (ipd_path d) (ipd_wd d);
         _ ← ip_unmap_wd_dir (ipd_wd d) dir;
         _ ← ip_unmap_path_dir dir;
         ip_watched_dir_free dir);
      mret true
  end.

(** ** Events *)

Definition ip_wd_delete (dir : ptr) : M unit :=
  d ← iload (A := ip_watched_dir_t) dir;
  _ ← for_each (ipd_subs d) im_add;
  _ ← ip_unmap_all_subs dir;
  _ ← ip_unmap_path_dir dir;
  ip_watched_dir_free dir.

(** The layer above: [ih_event_callback]. *)
Context (event_callback : ptr -> ptr -> M unit).

(** Whether an event's name is the file a subscription is about. *)
Definition name_matches (e : ik_event_t) (s : ih_sub_t) : bool :=
  match ihs_filename s with Some filename => String.eqb (ik_name e) filename | None => true end.

(** The loop over the subscriptions of a directory; the result is
    [resubscription_list]. *)
Fixpoint dispatch_subs (event : ptr) (e : ik_event_t) (dir_path : string) (l : list ptr)
  (resubscription_list : list ptr) : M (list ptr) :=
  match l with
  | [] => mret resubscription_list
  | sub :: l =>
      s ← iload (A := ih_sub_t) sub;
      if negb (name_matches e s) then dispatch_subs event e dir_path l resubscription_list
      else
        let event_path := g_build_filename dir_path (ik_name e) in
        if String.prefix event_path (ihs_dirname s) then
          _ ← when (String.eqb (ihs_dirname s) event_path)
            (_ ← iupdate sub (set_ihs_dirname dir_path);
             _ ← event_callback event sub;
             iupdate sub (set_ihs_dirname (ihs_dirname s)));
          dispatch_subs event e dir_path l (sub :: resubscription_list)
        else
          _ ← event_callback event sub;
          dispatch_subs event e dir_path l resubscription_list
  end.

Fixpoint dispatch_dirs (event : ptr) (e : ik_event_t) (dir_list : list ptr)
  (resubscription_list : list ptr) : M (list ptr) :=
  match dir_list with
  | [] => mret resubscription_list
  | dir :: dir_list =>
      d ← iload (A := ip_watched_dir_t) dir;
      l ← dispatch_subs event e (ipd_path d) (ipd_subs d) resubscription_list;
      dispatch_dirs event e dir_list l
  end.

(** The second half of a move, to one directory. *)
Definition dispatch_pair (pair_event : ptr) (e : ik_event_t) (dir : ptr) : M unit :=
  d ← iload (A := ip_watched_dir_t) dir;
  for_each (ipd_subs d) (fun sub =>
    s ← iload (A := ih_sub_t) sub;
    when (name_matches e s) (event_callback pair_event sub)).

Definition resubscribe (sub : ptr) : M unit :=
  _ ← ip_stop_watching sub;
  _ ← ip_start_watching sub;
  mret tt.

Definition ip_event_dispatch (dir_list pair_dir_list : list ptr) (event : ptr) : M unit :=
  e ← iload (A := ik_event_t) event;
  resubscription_list ← dispatch_dirs event e dir_list [];
  _ ← match ik_pair e with
      | Some pair_event =>
          pe ← iload (A := ik_event_t) pair_event;
          for_each pair_dir_list (dispatch_pair pair_event pe)
      | None => mret tt
      end;
  for_each resubscription_list resubscribe.

Definition ip_event_callback (event : ptr) : M unit :=
  e ← iload (A := ik_event_t) event;
  dir_list ← wd_dirs (ik_wd e);
  if ztest (ik_mask e .& IN_IGNORED) then ik_event_free event
  else
    pair_dir_list ← match ik_pair e with
                    | Some pair_event => pe ← iload (A := ik_event_t) pair_event; wd_dirs (ik_wd pe)
                    | None => mret []
                    end;
    dir_list ← (if ztest (ik_mask e .& IP_INOTIFY_MASK) then
                  _ ← ip_event_dispatch dir_list pair_dir_list event;
                  wd_dirs (ik_wd e)
                else mret dir_list);
    _ ← when (ztest (ik_mask e .& IN_DELETE_SELF) || ztest (ik_mask e .& IN_MOVE_SELF))
          (_ ← for_each dir_list ip_wd_delete;
           ip_unmap_wd (ik_wd e));
    ik_event_free event.
End Path.
