(* ===== verification/InotifyHelper.v ===== *)
(** * The inotify helper and backend ([server/inotify-helper.c], [server/gam_inotify.c])

    The helper keeps the list of the backend's subscriptions and turns its
    callbacks into full paths; the backend maps inotify masks to gamin events
    and is the instance of [KernelBackend] that the dispatch of [Server]
    calls. *)

From S2P Require Import Prelude Protocol Monad OS Fs State.
From S2P Require Import Subscription Listener Emit PollGeneric PollBasic Server.
From S2P Require Import InotifyState InotifyKernel InotifyMissing InotifyPath.

Local Open Scope Z_scope.

#[local] Existing Instance inotify_kernel.

(** [ih_mask_to_EventType]; [-1] for what gamin has no event for. *)
Definition ih_mask_to_EventType (mask : Z) : Z :=
  let mask := mask .& (~. IN_ISDIR) in
  if (mask =? IN_MODIFY) || (mask =? IN_ATTRIB) then GAMIN_EVENT_CHANGED
  else if (mask =? IN_MOVE_SELF) || (mask =? IN_MOVED_FROM) || (mask =? IN_DELETE)
          || (mask =? IN_DELETE_SELF) then GAMIN_EVENT_DELETED
  else if (mask =? IN_CREATE) || (mask =? IN_MOVED_TO) then GAMIN_EVENT_CREATED
  else -1.

Section Callbacks.
Context {os : OS} {glib : GLib} {ino : Inotify os}.
Abbreviation M := (ST server).

(** ** Callbacks of [gam_inotify.c] *)

Definition gam_inotify_send_initial_events (pathname : string) (sub : ptr)
  (is_dir was_missing : bool) : M unit :=
  gevent ← (if was_missing then mret GAMIN_EVENT_CREATED
            else
              exists_ ← sys (file_exists pathname);
              mret (if exists_ : bool then GAMIN_EVENT_EXISTS else GAMIN_EVENT_DELETED));
  _ ← gam_server_emit_one_event pathname is_dir gevent sub true;
  _ ← when is_dir
    (dir ← sys (dir_names pathname);
     match dir with
     | Some names =>
         for_each names (fun filename =>
           let fullname := (pathname ++ "/" ++ filename)%string in
           file_is_dir ← sys (lstat_ifdir fullname);
           gam_server_emit_one_event fullname file_is_dir gevent sub true)
     | None => mret tt
     end);
  when (negb was_missing)
    (gam_server_emit_one_event pathname is_dir GAMIN_EVENT_ENDEXISTS sub true).

Definition gam_inotify_event_callback (fullpath : string) (mask : Z) (sub : ptr) : M unit :=
  s ← load sub;
  gam_server_emit_one_event fullpath (gam_subscription_is_dir (Some s))
    (ih_mask_to_EventType mask) sub true.

Definition gam_inotify_found_callback (fullpath : string) (sub : ptr) : M unit :=
  s ← load sub;
  gam_inotify_send_initial_events (sub_path s) sub (gam_subscription_is_dir (Some s)) true.

(** ** Callbacks of [inotify-helper.c] *)

Definition ih_event_callback (event sub : ptr) : M unit :=
  e ← iload (A := ik_event_t) event;
  s ← iload (A := ih_sub_t) sub;
  gam_inotify_event_callback (ihs_dirname s ++ "/" ++ ik_name e) (ik_mask e) (ihs_usersubdata s).

Definition ih_found_callback (sub : ptr) : M unit :=
  s ← iload (A := ih_sub_t) sub;
  match ihs_filename s with
  | Some filename =>
      let fullpath := (ihs_dirname s ++ "/" ++ filename)%string in
      exists_ ← sys (file_exists fullpath);
      when exists_ (gam_inotify_found_callback fullpath (ihs_usersubdata s))
  | None => gam_inotify_found_callback (ihs_dirname s ++ "/") (ihs_usersubdata s)
  end.

(** ** The helper *)

Definition ih_startup : M bool :=
  _ ← G_LOCK;
  ih ← ino_gets ih_of;
  if ih_initialized ih then _ ← G_UNLOCK; mret (ih_result ih)
  else
    result ← ip_startup;
    _ ← ino_modify (upd_ih (set_ih_result result));
    if negb result then _ ← G_UNLOCK; mret false
    else
      _ ← ino_modify (upd_ih (set_ih_initialized true));
      _ ← G_UNLOCK;
      mret true.

Definition ih_sub_add (sub : ptr) : M bool :=
  _ ← G_LOCK;
  l ← ino_gets (fun k => sub_list (ih_of k));
  _ ← g_assert (negb (g_list_find l sub));
  watching ← ip_start_watching sub;
  _ ← when (negb watching) (im_add sub);
  _ ← ino_modify (upd_ih (fun v => set_sub_list (sub :: sub_list v) v));
  _ ← G_UNLOCK;
  mret true.

Definition ih_sub_cancel (sub : ptr) : M bool :=
  _ ← G_LOCK;
  s ← iload (A := ih_sub_t) sub;
  _ ← when (negb (ihs_cancelled s))
    (l ← ino_gets (fun k => sub_list (ih_of k));
     _ ← g_assert (g_list_find l sub);
     _ ← iupdate sub (set_ihs_cancelled true);
     _ ← im_rm sub;
     _ ← ip_stop_watching sub;
     ino_modify (upd_ih (fun v => set_sub_list (g_list_remove (sub_list v) sub) v)));
  _ ← G_UNLOCK;
  mret true.

(** [ih_sub_foreach_worker]: the loop keeps the link behind the current one,
    which only its own iteration removes. *)
Definition ih_sub_foreach_worker (f : ptr -> M bool) (free : bool) : M unit :=
  _ ← G_LOCK;
  l ← ino_gets (fun k => sub_list (ih_of k));
  _ ← for_each l (fun sub =>
    b ← f sub;
    when b
      (_ ← ih_sub_cancel sub;
       when free (ih_sub_free sub)));
  G_UNLOCK.

Definition ih_sub_foreach (f : ptr -> M bool) : M unit := ih_sub_foreach_worker f false.
Definition ih_sub_foreach_free (f : ptr -> M bool) : M unit := ih_sub_foreach_worker f true.

(** ** The backend *)

Definition gam_inotify_init : M bool :=
  _ ← gam_poll_basic_init;
  _ ← gam_server_install_kernel_hooks GAMIN_K_INOTIFY2;
  ih_startup.

Definition gam_inotify_add_subscription (sub : ptr) : M bool :=
  s ← load sub;
  listener ← g_assert_ptr (gam_subscription_get_listener (Some s));
  _ ← gam_listener_add_subscription listener sub;
  let is_dir := gam_subscription_is_dir (Some s) in
  isub ← ih_sub_new (sub_path s) is_dir 0 sub;
  added ← ih_sub_add isub;
  if negb added then _ ← ih_sub_free isub; mret false
  else
    _ ← gam_inotify_send_initial_events (sub_path s) sub is_dir false;
    mret true.

Definition gam_inotify_remove_sub_pred (callerdata sub : ptr) : M bool :=
  s ← iload (A := ih_sub_t) sub; mret (bool_decide (ihs_usersubdata s = callerdata)).

Definition gam_inotify_remove_subscription (sub : ptr) : M bool :=
  _ ← ih_sub_foreach_free (gam_inotify_remove_sub_pred sub); mret true.

Definition gam_inotify_remove_listener_pred (callerdata sub : ptr) : M bool :=
  s ← iload (A := ih_sub_t) sub;
  gsub ← load (ihs_usersubdata s);
  mret (bool_decide (gam_subscription_get_listener (Some gsub) = Some callerdata)).

Definition gam_inotify_remove_all_for (listener : ptr) : M bool :=
  _ ← ih_sub_foreach_free (gam_inotify_remove_listener_pred listener); mret true.

(** The timers and the event source, with the layers put together. *)
Definition inotify_process : M bool :=
  ik_process_eq_callback (ip_event_callback ih_event_callback).
Definition inotify_scan_missing : M bool := im_scan_missing ip_start_watching ih_found_callback.
End Callbacks.

(** The hooks that [gam_inotify_init] installs; it installs no directory and
    file handlers. *)
Definition inotify_backend {os : OS} {glib : GLib} {ino : Inotify os}
  : KernelBackend os inotify_kernel := {|
  hook_kernel_init := gam_inotify_init;
  hook_kernel_add := gam_inotify_add_subscription;
  hook_kernel_remove := gam_inotify_remove_subscription;
  hook_kernel_remove_all_for := gam_inotify_remove_all_for
|}.

Definition inotify_handlers (os : OS) : KernelHandlers os inotify_kernel := {|
  hook_dir_handler _ _ := mret tt;
  hook_file_handler _ _ := mret tt
|}.
