(* ===== verification/InotifyWatch.v ===== *)
(** * Finding a directory to watch

    [ip_watch_parent] against a specification: it asks for the directories
    above a path, the nearest first, until an answer is not [ENOENT].  The loop
    does not end when all of them are missing, because the last one is never
    shortened to the root. *)

From S2P Require Import Prelude Protocol Monad OS Fs State.
From S2P Require Import Tree InotifyState InotifyKernel InotifyPath.

Local Open Scope Z_scope.

#[local] Existing Instance inotify_kernel.

(** ** Slashes *)

Lemma slash_at_bound p i : is_slash_at p i = true -> (i < String.length p)%nat.
Proof.
  unfold is_slash_at. revert i. induction p as [|c p IH]; intros [|i]; simpl; try done; [lia|].
  intros H. apply IH in H. lia.
Qed.

Lemma last_slash_None p j : last_slash p = None -> is_slash_at p j = false.
Proof.
  unfold is_slash_at. revert j. induction p as [|c p IH]; intros j; simpl; [by destruct j|].
  destruct (last_slash p); [done|]. destruct (Ascii.eqb c slash) eqn:E; [done|].
  intros _. destruct j as [|j]; [exact E|by apply IH].
Qed.

Lemma last_slash_Some p i :
  last_slash p = Some i ->
  is_slash_at p i = true /\ forall j, is_slash_at p j = true -> (j <= i)%nat.
Proof.
  unfold is_slash_at. revert i. induction p as [|c p IH]; intros i; simpl; [done|].
  destruct (last_slash p) as [k|] eqn:E.
  - intros [= <-]. destruct (IH k eq_refl) as [Hk Hmax]. split; [exact Hk|].
    intros [|j] Hj; [lia|]. specialize (Hmax j Hj). lia.
  - destruct (Ascii.eqb c slash) eqn:Ec; [|done]. intros [= <-]. split; [exact Ec|].
    intros [|j] Hj; [lia|]. pose proof (last_slash_None p j E) as H. unfold is_slash_at in H.
    congruence.
Qed.

Lemma slash_at_take p i j : (j < i)%nat -> is_slash_at (str_take i p) j = is_slash_at p j.
Proof.
  unfold is_slash_at. revert i j. induction p as [|c p IH]; intros [|i] [|j] H; simpl; try done; [lia|lia|].
  apply IH. lia.
Qed.

Lemma prefixes_cut p i (l : list nat) :
  (forall j, j ∈ l -> (j < i)%nat) ->
  (fun j => str_take j p) <$> filter (fun j => is_slash_at p j = true) l
  = (fun j => str_take j (str_take i p)) <$> filter (fun j => is_slash_at (str_take i p) j = true) l.
Proof.
  induction l as [|j l IH]; intros Hl; [done|].
  assert (j < i)%nat as Hj by (apply Hl; by left).
  assert (forall k, k ∈ l -> (k < i)%nat) as Hl' by (intros k Hk; apply Hl; by right).
  rewrite !filter_cons, slash_at_take by done. case_decide; [|by apply IH].
  rewrite !fmap_cons, str_take_take by lia. f_equal. by apply IH.
Qed.

Lemma no_slash_filter p (l : list nat) :
  (forall j, j ∈ l -> is_slash_at p j <> true) -> filter (fun j => is_slash_at p j = true) l = [].
Proof.
  induction l as [|j l IH]; intros H; [done|].
  rewrite filter_cons_False by (apply H; by left). apply IH. intros k Hk. apply H. by right.
Qed.

(** Cutting a path at its last slash removes the last of its directories. *)
Lemma dir_prefixes_cut p i :
  last_slash p = Some i -> (0 < i)%nat ->
  dir_prefixes p = dir_prefixes (str_take i p) ++ [str_take i p].
Proof.
  intros Hl Hi. destruct (last_slash_Some p i Hl) as [Hs Hmax].
  pose proof (slash_at_bound p i Hs) as Hb. unfold dir_prefixes.
  rewrite (str_take_length i p) by lia.
  replace (String.length p - 1)%nat with ((i - 1) + S (String.length p - 1 - i))%nat by lia.
  rewrite seq_app, filter_app, fmap_app. replace (1 + (i - 1))%nat with i by lia. f_equal.
  - apply prefixes_cut. intros j Hj%elem_of_seq. lia.
  - cbn [seq]. rewrite filter_cons_True by done. rewrite fmap_cons. f_equal.
    rewrite no_slash_filter; [done|].
    intros j Hj%elem_of_seq Hsj. apply Hmax in Hsj. lia.
Qed.

Lemma dir_prefixes_top p : last_slash p = Some 0%nat -> dir_prefixes p = [].
Proof.
  intros Hl. destruct (last_slash_Some p 0 Hl) as [_ Hmax]. unfold dir_prefixes.
  rewrite no_slash_filter; [done|].
  intros j Hj%elem_of_seq Hsj. apply Hmax in Hsj. lia.
Qed.

(** ** The specification *)

(** The directories above [path], the nearest first; a path directly below the
    root is its own. *)
Definition ancestors (path : string) : list string :=
  match reverse (dir_prefixes path) with [] => [path] | l => l end.

Definition not_missing (r : sysres Z) : bool :=
  match r with SysOk _ => true | SysErr errno => negb (errno =? ENOENT) end.

(** What the first answer that is not [ENOENT] means. *)
Definition parent_result (r : sysres Z) (path : string) : option (Z * string) :=
  match r with SysOk wd => Some (wd, path) | SysErr _ => None end.

Section Watch.
Context {os : OS} {ino : Inotify os}.

(** The answers of the kernel in worlds between which the file system does not
    change. *)
Context (fd mask : Z) (quiet : world -> Prop) (answer : string -> sysres Z).

Definition steady : Prop := forall path w, quiet w ->
  (inotify_add_watch fd path mask w).1 = answer path /\ quiet (inotify_add_watch fd path mask w).2.
Definition ready (s : server) : Prop :=
  inotify_instance_fd (ik_of (sv_kernel s)) = fd /\ 0 <= fd /\ quiet (sv_world s).
Definition sound_answers : Prop := forall path wd, answer path = SysOk wd -> 0 <= wd.

Lemma ik_watch_answer path s :
  steady -> sound_answers -> ready s ->
  exists w, ik_watch path mask s = Ok (answer path, set_sv_world w s) /\ ready (set_sv_world w s).
Proof.
  intros Hst Hs (Hfd & Hpos & Hq). unfold ik_watch.
  rewrite (bind_Ok _ _ s fd s) by (unfold ino_gets, gets; by rewrite Hfd).
  rewrite (bind_Ok _ _ s tt s) by by rewrite (proj2 (Z.geb_le _ _) Hpos).
  destruct (Hst path (sv_world s) Hq) as [Ha Hq']. unfold sys.
  unfold mbind at 1, ST_bind at 1. destruct (inotify_add_watch fd path mask (sv_world s)) as [r w].
  simpl in Ha, Hq'. subst r. exists w. split; [|done].
  destruct (answer path) as [wd|e] eqn:E; [|done].
  by rewrite (bind_Ok _ _ _ tt _) by by rewrite (proj2 (Z.geb_le _ _) (Hs path wd E)).
Qed.

(** One round of the loop. *)
Lemma watch_parent_round fuel path i s :
  steady -> sound_answers -> ready s -> last_slash path = Some i ->
  let next := if Nat.eqb i 0 then path else str_take i path in
  exists w, ready (set_sv_world w s) /\ ip_watch_parent (S fuel) path mask s =
    if not_missing (answer next) then Ok (parent_result (answer next) next, set_sv_world w s)
    else ip_watch_parent fuel next mask (set_sv_world w s).
Proof.
  intros Hst Hs Hr Hl next. destruct (ik_watch_answer next s Hst Hs Hr) as (w & E & Hr').
  exists w. split; [exact Hr'|]. simpl. rewrite Hl. fold next. rewrite (bind_Ok _ _ _ _ _ E).
  destruct (answer next) as [wd|e]; simpl; [done|]. by destruct (e =? ENOENT).
Qed.

Lemma watch_parent_top fuel path s :
  steady -> sound_answers -> ready s -> last_slash path = Some 0%nat ->
  not_missing (answer path) = false ->
  ip_watch_parent fuel path mask s = Fault OutOfFuel.
Proof.
  intros Hst Hs Hr Hl Hm. revert s Hr. induction fuel as [|fuel IH]; intros s Hr; [done|].
  destruct (watch_parent_round fuel path 0 s Hst Hs Hr Hl) as (w & Hr' & E). rewrite E. simpl.
  rewrite Hm. by apply IH.
Qed.

Lemma ancestors_cut p i :
  last_slash p = Some i -> (0 < i)%nat ->
  ancestors p = str_take i p :: reverse (dir_prefixes (str_take i p)).
Proof.
  intros Hl Hi. unfold ancestors. by rewrite (dir_prefixes_cut p i Hl Hi), reverse_app.
Qed.

(** C21: what [ip_watch_parent] does for an absolute path while the file system
    does not change.  If some directory above the path (below the root) can be
    watched or fails otherwise than by being missing, the loop ends within as
    many rounds as the path has characters, with the nearest such directory.
    If all of them are missing, it never ends: no number of rounds is enough. *)
Theorem watch_parent_outcome path s :
  steady -> sound_answers -> ready s -> is_slash_at path 0 = true ->
  match List.find (fun p => not_missing (answer p)) (ancestors path) with
  | Some p => forall fuel, (String.length path < fuel)%nat ->
      exists w, ip_watch_parent fuel path mask s = Ok (parent_result (answer p) p, set_sv_world w s)
  | None => forall fuel, ip_watch_parent fuel path mask s = Fault OutOfFuel
  end.
Proof.
  intros Hst Hs. remember (String.length path) as n eqn:Hn. revert path s Hn.
  induction n as [n IH] using lt_wf_ind. intros path s -> Hr Habs.
  destruct (last_slash path) as [i|] eqn:Hl.
  2:{ pose proof (last_slash_None path 0 Hl). congruence. }
  destruct (last_slash_Some path i Hl) as [Hsi _]. pose proof (slash_at_bound _ _ Hsi) as Hb.
  destruct (decide (i = 0)%nat) as [->|Hi].
  - unfold ancestors. rewrite (dir_prefixes_top path Hl), reverse_nil. cbn [List.find].
    destruct (not_missing (answer path)) eqn:Hm.
    + intros [|fuel] Hf; [lia|].
      destruct (watch_parent_round fuel path 0 s Hst Hs Hr Hl) as (w & _ & E). rewrite E. simpl.
      rewrite Hm. by exists w.
    + intros fuel. by apply watch_parent_top.
  - rewrite (ancestors_cut path i Hl) by lia. set (next := str_take i path). cbn [List.find].
    assert (forall fuel, exists w, ready (set_sv_world w s) /\ ip_watch_parent (S fuel) path mask s =
      if not_missing (answer next) then Ok (parent_result (answer next) next, set_sv_world w s)
      else ip_watch_parent fuel next mask (set_sv_world w s)) as Hround.
    { intros fuel. destruct (watch_parent_round fuel path i s Hst Hs Hr Hl) as (w & Hr' & E).
      rewrite (proj2 (Nat.eqb_neq i 0) Hi) in E. by exists w. }
    destruct (not_missing (answer next)) eqn:Hm.
    { intros [|fuel] Hf; [lia|]. destruct (Hround fuel) as (w & _ & E). by exists w. }
    assert (is_slash_at next 0 = true) as Habs' by (unfold next; by rewrite slash_at_take by lia).
    assert (String.length next = i) as Hlen by (apply str_take_length; lia).
    assert (forall w, ready (set_sv_world w s) ->
      match List.find (fun p => not_missing (answer p)) (ancestors next) with
      | Some p => forall fuel, (i < fuel)%nat -> exists w', ip_watch_parent fuel next mask
          (set_sv_world w s) = Ok (parent_result (answer p) p, set_sv_world w' s)
      | None => forall fuel, ip_watch_parent fuel next mask (set_sv_world w s) = Fault OutOfFuel
      end) as H by (intros w Hw; exact (IH i Hb next (set_sv_world w s) (eq_sym Hlen) Hw Habs')).
    assert (List.find (fun p => not_missing (answer p)) (ancestors next)
      = List.find (fun p => not_missing (answer p)) (reverse (dir_prefixes next))) as Ef.
    { unfold ancestors. destruct (reverse (dir_prefixes next)); [|done]. cbn [List.find]. by rewrite Hm. }
    rewrite Ef in H. destruct (List.find _ _) as [p|].
    + intros [|fuel] Hf; [lia|]. destruct (Hround fuel) as (w & Hw & E). rewrite E. apply (H w Hw). lia.
    + intros [|fuel]; [done|]. destruct (Hround fuel) as (w & Hw & E). rewrite E. by apply (H w Hw).
Qed.
End Watch.
