(* ===== verification/InotifyPairing.v ===== *)
(** * Pairing the halves of a move

    The events under way in [inotify-kernel.c], the invariant of its queues and
    its hash table of cookies, and [ik_pair_moves], which keeps it. *)

From S2P Require Import Prelude Protocol Monad OS Fs State.
From S2P Require Import InotifyState InotifyKernel.

Local Open Scope Z_scope.

#[local] Existing Instance inotify_kernel.

(** ** Events under way *)

Definition evs (k : inotify_state) : gmap ptr ik_event_t := ik_events (ino_heap_of k).
Definition ints (k : inotify_state) : gmap ptr ik_event_internal_t := ik_internals (ino_heap_of k).
Definition todo (k : inotify_state) : list ptr := events_to_process (ik_of k).
Definition queue (k : inotify_state) : list ptr := event_queue (ik_of k).
Definition hash (k : inotify_state) : gmap Z ptr := cookie_hash (ik_of k).

Definition is_from (e : ik_event_t) : bool := ztest (ik_mask e .& IN_MOVED_FROM).
Definition is_to (e : ik_event_t) : bool := ztest (ik_mask e .& IN_MOVED_TO).

(** The events that still have to be sent, in order. *)
Definition unsent_event (I : gmap ptr ik_event_internal_t) (p : ptr) : option ptr :=
  i ← I !! p; if iki_sent i then None else Some (iki_event i).
Fixpoint pending (I : gmap ptr ik_event_internal_t) (l : list ptr) : list ptr :=
  match l with
  | [] => []
  | p :: l => match unsent_event I p with Some e => e :: pending I l | None => pending I l end
  end.

(** A queued event with its other half. *)
Definition with_pair (E : gmap ptr ik_event_t) (e : ptr) : list ptr :=
  e :: match E !! e with Some x => match ik_pair x with Some f => [f] | None => [] end | None => [] end.
Definition sent_out (E : gmap ptr ik_event_t) (l : list ptr) : list ptr := l ≫= with_pair E.

(** All events under way, from [events_to_process] to [event_queue]. *)
Definition under_way (k : inotify_state) : list ptr :=
  sent_out (evs k) (queue k) ++ pending (ints k) (todo k).

(** Two halves of one move. *)
Definition halves (e f : ik_event_t) : Prop :=
  ik_cookie f = ik_cookie e /\ is_from e = true /\ is_from f = false /\ is_to f = true.

(** What may be handed on: a whole move, of which only the first half refers to
    the other, or no move at all. *)
Definition complete (E : gmap ptr ik_event_t) (e : ptr) : Prop :=
  exists x, E !! e = Some x /\
    match ik_pair x with
    | Some f => exists y, E !! f = Some y /\ halves x y /\ ik_pair y = None
    | None => ik_cookie x = 0 \/ is_from x = false /\ is_to x = false
    end.

(** ** The invariant *)

Record moves_ok (k : inotify_state) : Prop := {
  mv_todo : NoDup (todo k);
  mv_int p : p ∈ todo k -> is_Some (ints k !! p);
  mv_once : NoDup (sent_out (evs k) (queue k) ++ pending (ints k) (todo k));
  mv_event p i : p ∈ todo k -> ints k !! p = Some i -> iki_sent i = false ->
    exists e, evs k !! iki_event i = Some e /\ (iki_pair i = None -> ik_pair e = None);
  mv_pair p i q : p ∈ todo k -> ints k !! p = Some i -> iki_sent i = false ->
    iki_pair i = Some q ->
    exists e j f, evs k !! iki_event i = Some e /\ ints k !! q = Some j /\
      evs k !! iki_event j = Some f /\ iki_sent j = false /\ iki_seen j = true /\
      iki_pair j = None /\ ik_pair e = Some (iki_event j) /\ halves e f /\
      exists l1 l2, todo k = l1 ++ p :: l2 /\ q ∈ l2;
  mv_one p p' i i' q : p ∈ todo k -> p' ∈ todo k -> ints k !! p = Some i ->
    ints k !! p' = Some i' -> iki_sent i = false -> iki_sent i' = false ->
    iki_pair i = Some q -> iki_pair i' = Some q -> p = p';
  mv_hash c p : hash k !! c = Some p ->
    exists i e, p ∈ todo k /\ ints k !! p = Some i /\ iki_sent i = false /\ iki_seen i = true /\
      iki_pair i = None /\ evs k !! iki_event i = Some e /\ ik_cookie e = c /\ c <> 0 /\
      is_from e = true
}.

(** The events up to some point of the queue have been looked at. *)
Definition looked_at (A B : list ptr) (k : inotify_state) : Prop :=
  todo k = A ++ B /\
  (forall a i, a ∈ A -> ints k !! a = Some i -> iki_seen i || iki_sent i = true) /\
  (forall b i, b ∈ B -> ints k !! b = Some i ->
     iki_seen i = false /\ iki_sent i = false /\ iki_pair i = None).

(** The invariant concerns nothing else of the state. *)
Lemma moves_ok_ext k k' :
  evs k' = evs k -> ints k' = ints k -> todo k' = todo k -> queue k' = queue k -> hash k' = hash k ->
  moves_ok k -> moves_ok k'.
Proof. intros E1 E2 E3 E4 E5 Hk. split; rewrite ?E1, ?E2, ?E3, ?E4, ?E5; apply Hk. Qed.

(** ** Lists *)

Lemma pending_ext I I' l :
  (forall p, p ∈ l -> unsent_event I' p = unsent_event I p) -> pending I' l = pending I l.
Proof.
  induction l as [|p l IH]; intros H; [done|]. simpl.
  rewrite (H p) by (by left). rewrite IH; [done|]. intros q Hq. apply H. by right.
Qed.

Lemma elem_of_pending I l e :
  e ∈ pending I l <-> exists p i, p ∈ l /\ I !! p = Some i /\ iki_sent i = false /\ iki_event i = e.
Proof.
  induction l as [|p l IH]; simpl.
  { split; [by intros ?%elem_of_nil|]. by intros (p & i & ?%elem_of_nil & _). }
  assert (e ∈ pending I l -> exists q i, q ∈ p :: l /\ I !! q = Some i /\ iki_sent i = false /\
    iki_event i = e) as Hl.
  { intros (q & i & Hq & ?)%IH. exists q, i. split; [by right|done]. }
  unfold unsent_event. split.
  - destruct (I !! p) as [i|] eqn:Hi; simpl; [|done]. destruct (iki_sent i) eqn:Hs; [done|].
    intros [->|H]%elem_of_cons; [|by apply Hl]. exists p, i. split; [by left|done].
  - intros (q & i & [->|Hq]%elem_of_cons & Hi & Hs & He).
    + rewrite Hi. simpl. rewrite Hs, He. by left.
    + assert (e ∈ pending I l) as H by (apply IH; by exists q, i).
      destruct (I !! p) as [j|]; simpl; [|done]. destruct (iki_sent j); [done|by right].
Qed.

Lemma sent_out_ext E E' l :
  (forall e, e ∈ l -> with_pair E' e = with_pair E e) -> sent_out E' l = sent_out E l.
Proof.
  induction l as [|e l IH]; intros H; [done|].
  change (with_pair E' e ++ sent_out E' l = with_pair E e ++ sent_out E l).
  rewrite (H e) by (by left). f_equal. apply IH. intros f Hf. apply H. by right.
Qed.

Lemma queue_in_sent_out E l e : e ∈ l -> e ∈ sent_out E l.
Proof. intros He. unfold sent_out. apply list_elem_of_bind. exists e. split; [by left|done]. Qed.

(** The events of distinct unsent internals are distinct. *)
Lemma pending_inj I l p p' i i' :
  NoDup (pending I l) -> p ∈ l -> p' ∈ l -> I !! p = Some i -> I !! p' = Some i' ->
  iki_sent i = false -> iki_sent i' = false -> iki_event i = iki_event i' -> p = p'.
Proof.
  induction l as [|q l IH]; intros Hnd Hp Hp' Hi Hi' Hs Hs' He; [by apply elem_of_nil in Hp|].
  assert (forall x j, x ∈ l -> I !! x = Some j -> iki_sent j = false -> iki_event j ∈ pending I l) as Hin.
  { intros x j Hx Hj Hjs. apply elem_of_pending. eauto 10. }
  assert (unsent_event I p = Some (iki_event i)) as E by (unfold unsent_event; rewrite Hi; simpl; by rewrite Hs).
  assert (unsent_event I p' = Some (iki_event i')) as E'
    by (unfold unsent_event; rewrite Hi'; simpl; by rewrite Hs').
  simpl in Hnd.
  apply elem_of_cons in Hp as [->|Hp]; apply elem_of_cons in Hp' as [->|Hp']; [done|..].
  - rewrite E in Hnd. apply NoDup_cons in Hnd as [Hn _]. destruct Hn. rewrite He. by apply (Hin p').
  - rewrite E' in Hnd. apply NoDup_cons in Hnd as [Hn _]. destruct Hn. rewrite <- He. by apply (Hin p).
  - apply IH; try done. destruct (unsent_event I q); [|done]. by apply NoDup_cons in Hnd as [_ ?].
Qed.

(** Marking an event as sent takes it out of [pending]. *)
Lemma pending_mark I l q j :
  NoDup l -> q ∈ l -> I !! q = Some j -> iki_sent j = false ->
  pending I l ≡ₚ iki_event j :: pending (<[q := set_iki_sent true j]> I) l.
Proof.
  induction l as [|p l IH]; intros Hnd Hq Hj Hs; [by apply elem_of_nil in Hq|].
  apply NoDup_cons in Hnd as [Hp Hnd]. simpl.
  destruct (decide (p = q)) as [->|Hne].
  - assert (unsent_event I q = Some (iki_event j)) as -> by (unfold unsent_event; rewrite Hj; simpl; by rewrite Hs).
    assert (unsent_event (<[q := set_iki_sent true j]> I) q = None) as ->
      by (unfold unsent_event; by rewrite lookup_insert, decide_True).
    constructor. symmetry. rewrite (pending_ext I); [done|].
    intros x Hx. unfold unsent_event. rewrite lookup_insert_ne; [done|]. congruence.
  - assert (unsent_event (<[q := set_iki_sent true j]> I) p = unsent_event I p) as ->
      by (unfold unsent_event; by rewrite lookup_insert_ne).
    apply elem_of_cons in Hq as [->|Hq]; [done|]. specialize (IH Hnd Hq Hj Hs).
    destruct (unsent_event I p) as [e|]; [|done]. rewrite IH. constructor.
Qed.

Lemma pending_mark_sublist I l q j :
  I !! q = Some j -> pending (<[q := set_iki_sent true j]> I) l `sublist_of` pending I l.
Proof.
  intros Hj. induction l as [|p l IH]; simpl; [constructor|].
  unfold unsent_event. destruct (decide (p = q)) as [->|Hne].
  - rewrite lookup_insert, decide_True by done. simpl. rewrite Hj. simpl.
    destruct (iki_sent j); [done|]. by apply sublist_cons.
  - rewrite lookup_insert_ne by done. destruct (I !! p) as [i|]; simpl; [|done].
    destruct (iki_sent i); [done|]. by apply sublist_skip.
Qed.

(** ** Masks *)

Lemma unpaired_mask_spec m :
  (unpaired_mask m .& IN_MOVED_FROM) = 0 /\ (unpaired_mask m .& IN_MOVED_TO) = 0.
Proof.
  unfold unpaired_mask, ztest.
  assert (forall a b, ((a .| (b .& IN_ISDIR)) .& IN_MOVED_FROM) = (a .& IN_MOVED_FROM) /\
    ((a .| (b .& IN_ISDIR)) .& IN_MOVED_TO) = (a .& IN_MOVED_TO)) as H.
  { intros a b. rewrite !Z.land_lor_distr_l, <- !Z.land_assoc.
    change (IN_ISDIR .& IN_MOVED_FROM) with 0. change (IN_ISDIR .& IN_MOVED_TO) with 0.
    by rewrite Z.land_0_r, !Z.lor_0_r. }
  destruct (Z.eqb_spec (m .& IN_MOVED_FROM) 0) as [Hf|Hf]; cbn [negb].
  - destruct (Z.eqb_spec (m .& IN_MOVED_TO) 0) as [Ht|Ht]; cbn [negb]; [done|].
    by destruct (H IN_CREATE m) as [-> ->].
  - destruct (H IN_DELETE m) as [E1 E2]. rewrite E2. change (IN_DELETE .& IN_MOVED_TO =? 0) with true.
    cbn [negb]. by rewrite E1, E2.
Qed.

(** ** Looking at an event *)

(** [p] is looked at and may enter the hash table. *)
Lemma moves_touch k k' p i i' :
  moves_ok k -> todo k' = todo k -> queue k' = queue k -> evs k' = evs k ->
  p ∈ todo k -> ints k !! p = Some i -> ints k' = <[p := i']> (ints k) ->
  iki_event i' = iki_event i -> iki_sent i' = iki_sent i -> iki_pair i' = iki_pair i ->
  iki_seen i' = true ->
  (forall c x, hash k' !! c = Some x -> hash k !! c = Some x \/
     (x = p /\ iki_sent i = false /\ iki_pair i = None /\ c <> 0 /\
      exists e, evs k !! iki_event i = Some e /\ ik_cookie e = c /\ is_from e = true)) ->
  moves_ok k' /\ pending (ints k') (todo k') = pending (ints k) (todo k).
Proof.
  intros Hk Et Eq Ee Hp Hi Ei Ev Es Epr Hseen Hh.
  assert (forall x j', ints k' !! x = Some j' -> exists j, ints k !! x = Some j /\
    iki_event j' = iki_event j /\ iki_sent j' = iki_sent j /\ iki_pair j' = iki_pair j /\
    (iki_seen j = true -> iki_seen j' = true)) as Hback.
  { intros x j'. rewrite Ei, lookup_insert_Some. intros [[<- <-]|[_ H]]; [by exists i|by exists j']. }
  assert (forall x j, ints k !! x = Some j -> exists j', ints k' !! x = Some j' /\
    iki_event j' = iki_event j /\ iki_sent j' = iki_sent j /\ iki_pair j' = iki_pair j /\
    (iki_seen j = true -> iki_seen j' = true)) as Hfwd.
  { intros x j Hj. rewrite Ei. destruct (decide (p = x)) as [->|].
    - rewrite lookup_insert, decide_True by done. assert (j = i) as -> by congruence. by exists i'.
    - rewrite lookup_insert_ne by done. by exists j. }
  assert (pending (ints k') (todo k') = pending (ints k) (todo k)) as Epd.
  { rewrite Et. apply pending_ext. intros x _. unfold unsent_event.
    destruct (ints k !! x) as [j|] eqn:Hj.
    - destruct (Hfwd x j Hj) as (j' & -> & E1 & E2 & _). simpl. by rewrite E1, E2.
    - destruct (ints k' !! x) as [j'|] eqn:Hj'; [|done]. by destruct (Hback x j' Hj') as (j & ? & _); congruence. }
  split; [|exact Epd]. split.
  - rewrite Et. apply Hk.
  - intros x Hx. rewrite Et in Hx. destruct (mv_int k Hk x Hx) as [j Hj].
    destruct (Hfwd x j Hj) as (j' & Hj' & _). by exists j'.
  - rewrite Eq, Ee, Epd. apply Hk.
  - intros x j' Hx Hj' Hs. rewrite Et in Hx. destruct (Hback x j' Hj') as (j & Hj & E1 & E2 & E3 & _).
    rewrite Ee, E1, E3. apply (mv_event k Hk x j Hx Hj). congruence.
  - intros x j' q Hx Hj' Hs Hq. rewrite Et in *. destruct (Hback x j' Hj') as (j & Hj & E1 & E2 & E3 & _).
    destruct (mv_pair k Hk x j q Hx Hj) as (e & g & f & He & Hg & Hf & Hgs & Hgseen & Hgp & Hep & Hh' & Hl);
      [congruence..|]. destruct (Hfwd q g Hg) as (g' & Hg' & F1 & F2 & F3 & F4).
    exists e, g', f. rewrite Ee, E1, F1, F2, F3. auto 10.
  - intros x x' j j' q Hx Hx' Hj Hj' Hs Hs' Hq Hq'. rewrite Et in *.
    destruct (Hback x j Hj) as (g & Hg & _ & E2 & E3 & _).
    destruct (Hback x' j' Hj') as (g' & Hg' & _ & F2 & F3 & _).
    apply (mv_one k Hk x x' g g' q); congruence.
  - intros c x Hx. rewrite Et, Ee. destruct (Hh c x Hx) as [Hx'|(-> & Hs & Hpr & Hc & e & He & Hce & Hfr)].
    + destruct (mv_hash k Hk c x Hx') as (j & e & Hin & Hj & Hs & Hsn & Hpr & He & Hc & Hc0 & Hfr).
      destruct (Hfwd x j Hj) as (j' & Hj' & E1 & E2 & E3 & E4). exists j', e.
      rewrite E1, E2, E3. auto 10.
    + exists i', e. rewrite Ei, lookup_insert, decide_True by done. rewrite Ev, Es, Epr. auto 10.
Qed.

(** ** Taking an event off the queue *)

Definition partner (i : ik_event_internal_t) (x : ptr) : Prop :=
  iki_sent i = false /\ iki_pair i = Some x.

Lemma moves_pop k k' p i l :
  moves_ok k -> todo k = p :: l -> ints k !! p = Some i -> todo k' = l ->
  (forall x, x ∈ l -> ~ partner i x -> ints k' !! x = ints k !! x) ->
  (forall x, x ∈ l -> partner i x -> exists j, ints k' !! x = Some j /\ iki_sent j = true) ->
  (forall e, e ∈ pending (ints k) l -> evs k' !! e = evs k !! e) ->
  (forall c x, hash k' !! c = Some x -> hash k !! c = Some x /\ x <> p) ->
  NoDup (sent_out (evs k') (queue k') ++ pending (ints k') l) ->
  moves_ok k'.
Proof.
  intros Hk Et Hi Et' Hsame Hmark Hev Hh Hnd. pose proof (mv_todo k Hk) as Hnt. rewrite Et in Hnt.
  apply NoDup_cons in Hnt as [Hpl Hndl].
  assert (p ∈ todo k) as Hp by (rewrite Et; by left).
  assert (forall x, x ∈ l -> x ∈ todo k) as Hin by (intros x Hx; rewrite Et; by right).
  assert (forall x j, x ∈ l -> ints k' !! x = Some j -> iki_sent j = false ->
    ~ partner i x /\ ints k !! x = Some j) as Hback.
  { intros x j Hx Hj Hs. assert (~ partner i x) as Hnp.
    { intros Hpx. destruct (Hmark x Hx Hpx) as (j' & Hj' & ?). congruence. }
    split; [done|]. by rewrite <- (Hsame x Hx Hnp). }
  assert (forall x j, x ∈ l -> ints k !! x = Some j -> iki_sent j = false ->
    evs k' !! iki_event j = evs k !! iki_event j) as Hevj.
  { intros x j Hx Hj Hs. apply Hev, elem_of_pending. eauto 10. }
  split; rewrite ?Et'.
  - done.
  - intros x Hx. destruct (mv_int k Hk x (Hin x Hx)) as [j Hj].
    destruct (decide (iki_sent i = false /\ iki_pair i = Some x)) as [Hpx|Hnp].
    + destruct (Hmark x Hx Hpx) as (j' & ? & _). by exists j'.
    + exists j. by rewrite (Hsame x Hx Hnp).
  - done.
  - intros x j Hx Hj Hs. destruct (Hback x j Hx Hj Hs) as [_ Hj'].
    rewrite (Hevj x j Hx Hj' Hs). by apply (mv_event k Hk x j (Hin x Hx)).
  - intros x j q Hx Hj Hs Hq. destruct (Hback x j Hx Hj Hs) as [_ Hj'].
    destruct (mv_pair k Hk x j q (Hin x Hx) Hj' Hs Hq)
      as (e & g & f & He & Hg & Hf & Hgs & Hgseen & Hgp & Hep & Hhv & l1 & l2 & Hl & Hql).
    rewrite Et in Hl. destruct l1 as [|p' l1]; simpl in Hl; [injection Hl as -> ->; done|].
    injection Hl as <- ->. assert (q ∈ l1 ++ x :: l2) as Hq' by (apply elem_of_app; right; by right).
    assert (~ partner i q) as Hnp.
    { intros [Hs' Hiq]. assert (p = x) as ->; [|done].
      by apply (mv_one k Hk p x i j q Hp (Hin x Hx)). }
    exists e, g, f. rewrite (Hsame q Hq' Hnp), (Hevj x j Hx Hj' Hs), (Hevj q g Hq' Hg Hgs).
    split_and!; try done. by exists l1, l2.
  - intros x x' j j' q Hx Hx' Hj Hj' Hs Hs'. destruct (Hback x j Hx Hj Hs) as [_ ?].
    destruct (Hback x' j' Hx' Hj' Hs') as [_ ?]. apply (mv_one k Hk x x' j j' q); auto.
  - intros c x Hx. destruct (Hh c x Hx) as [Hx' Hxp].
    destruct (mv_hash k Hk c x Hx') as (j & e & Hxin & Hj & Hs & Hsn & Hpr & He & Hc & Hc0 & Hfr).
    rewrite Et in Hxin. apply elem_of_cons in Hxin as [->|Hxl]; [done|].
    assert (~ partner i x) as Hnp.
    { intros [Hs' Hix]. destruct (mv_pair k Hk p i x Hp Hi Hs' Hix)
        as (e' & g & f & _ & Hg & Hf & _ & _ & _ & _ & (_ & _ & Hnf & _) & _). congruence. }
    exists j, e. rewrite (Hsame x Hxl Hnp), (Hevj x j Hxl Hj Hs). auto 10.
Qed.

(** ** Pairing two halves *)

Section Match.
Context (k k' : inotify_state) (A B : list ptr) (m p : ptr) (im ip im' ip' : ik_event_internal_t).
Context (em ep : ik_event_t) (c : Z).
Context (Hk : moves_ok k) (Hlook : looked_at A (p :: B) k).
Context (Hm : hash k !! c = Some m) (Him : ints k !! m = Some im) (Hip : ints k !! p = Some ip).
Context (Hem : evs k !! iki_event im = Some em) (Hep : evs k !! iki_event ip = Some ep).
Context (Hcookie : ik_cookie ep = c) (Hfrom : is_from ep = false) (Hto : is_to ep = true).
Context (Et : todo k' = todo k) (Eq : queue k' = queue k) (Eh : hash k' = delete c (hash k)).
Context (Ee : evs k' = <[iki_event im := set_ik_pair (Some (iki_event ip)) em]> (evs k)).
Context (Ei : ints k' = <[p := ip']> (<[m := im']> (ints k))).
Context (Eip : iki_event ip' = iki_event ip /\ iki_sent ip' = false /\ iki_seen ip' = true /\
  iki_pair ip' = None).
Context (Eim : iki_event im' = iki_event im /\ iki_sent im' = false /\ iki_seen im' = true /\
  iki_pair im' = Some p).

Lemma match_facts :
  p ∈ todo k /\ iki_seen ip = false /\ iki_sent ip = false /\ iki_pair ip = None /\
  m ∈ A /\ iki_sent im = false /\ iki_pair im = None /\ ik_cookie em = c /\ c <> 0 /\
  is_from em = true /\ m ∈ todo k /\ m <> p.
Proof.
  destruct Hlook as (El & HA & HB). destruct (HB p ip ltac:(by left) Hip) as (? & ? & ?).
  destruct (mv_hash k Hk c m Hm) as (i & e & Hin & Hi & Hs & Hsn & Hpr & He & Hc & Hc0 & Hfr).
  assert (i = im) as -> by congruence. assert (e = em) as -> by congruence.
  assert (m ∈ A) as HmA.
  { rewrite El in Hin. apply elem_of_app in Hin as [?|Hin]; [done|].
    destruct (HB m im Hin Him) as (? & _). congruence. }
  split; [rewrite El; apply elem_of_app; right; by left|]. split_and!; try done. congruence.
Qed.

Lemma match_int_back x j' : ints k' !! x = Some j' ->
  (x = p /\ j' = ip') \/ (x = m /\ j' = im') \/ (x <> p /\ x <> m /\ ints k !! x = Some j').
Proof. rewrite Ei, !lookup_insert_Some. naive_solver. Qed.

Lemma match_int_other x : x <> p -> x <> m -> ints k' !! x = ints k !! x.
Proof. intros. rewrite Ei. by rewrite !lookup_insert_ne. Qed.

Lemma match_int_new : ints k' !! p = Some ip' /\ ints k' !! m = Some im'.
Proof.
  destruct match_facts as (_ & _ & _ & _ & _ & _ & _ & _ & _ & _ & _ & Hne). rewrite Ei.
  rewrite lookup_insert, decide_True by done. split; [done|].
  rewrite lookup_insert_ne by done. by rewrite lookup_insert, decide_True.
Qed.

Lemma match_pending : pending (ints k') (todo k') = pending (ints k) (todo k).
Proof.
  rewrite Et. apply pending_ext. intros x _. unfold unsent_event. destruct match_int_new as [E1 E2].
  destruct match_facts as (_ & _ & Hs & _ & _ & Hs' & _).
  destruct (decide (x = p)) as [->|Hxp].
  { rewrite E1, Hip. simpl. destruct Eip as (-> & -> & _). by rewrite Hs. }
  destruct (decide (x = m)) as [->|Hxm]; [|by rewrite match_int_other].
  rewrite E2, Him. simpl. destruct Eim as (-> & -> & _). by rewrite Hs'.
Qed.

(** The event that is changed belongs to [m] only. *)
Lemma match_event_ne x j :
  x ∈ todo k -> x <> m -> ints k !! x = Some j -> iki_sent j = false -> iki_event j <> iki_event im.
Proof.
  intros Hx Hxm Hj Hs E. destruct match_facts as (_ & _ & _ & _ & _ & Hs' & _ & _ & _ & _ & Hin & _).
  apply Hxm. pose proof (mv_once k Hk) as Hnd. apply NoDup_app in Hnd as (_ & _ & Hnd).
  by apply (pending_inj (ints k) (todo k) x m j im).
Qed.

Lemma match_event x j :
  x ∈ todo k -> x <> m -> ints k !! x = Some j -> iki_sent j = false ->
  evs k' !! iki_event j = evs k !! iki_event j.
Proof.
  intros. rewrite Ee, lookup_insert_ne; [done|]. intros E. symmetry in E. by apply (match_event_ne x j) in E.
Qed.

Lemma match_sent_out : sent_out (evs k') (queue k') = sent_out (evs k) (queue k).
Proof.
  rewrite Eq. apply sent_out_ext. intros e He. unfold with_pair. rewrite Ee, lookup_insert_ne; [done|].
  intros <-. pose proof (mv_once k Hk) as Hnd. apply NoDup_app in Hnd as (_ & Hd & _).
  apply (Hd (iki_event im)); [by apply queue_in_sent_out|]. apply elem_of_pending.
  destruct match_facts as (_ & _ & _ & _ & _ & Hs' & _ & _ & _ & _ & Hin & _). by exists m, im.
Qed.

Lemma match_order : exists l1 l2, todo k = l1 ++ m :: l2 /\ p ∈ l2.
Proof.
  destruct match_facts as (_ & _ & _ & _ & HmA & _). destruct Hlook as (El & _ & _).
  apply list_elem_of_split in HmA as (l1 & l2 & EA). exists l1, (l2 ++ p :: B).
  split; [by rewrite El, EA, <- app_assoc|]. apply elem_of_app. right. by left.
Qed.

(** Another pair concerns neither half. *)
Lemma match_other_pair x j q :
  x ∈ todo k -> x <> p -> x <> m -> ints k !! x = Some j -> iki_sent j = false ->
  iki_pair j = Some q -> q <> p /\ q <> m.
Proof.
  intros Hx Hxp Hxm Hj Hs Hq.
  destruct (mv_pair k Hk x j q Hx Hj Hs Hq) as (e & g & f & He & Hg & Hf & _ & Hgseen & _ & _ &
    (_ & _ & Hnf & _) & _).
  destruct match_facts as (_ & Hseen & _ & _ & _ & _ & _ & _ & _ & Hfr & _).
  split; intros ->; [assert (g = ip) by congruence|assert (g = im) by congruence]; subst g; congruence.
Qed.

Lemma moves_match_ok : moves_ok k'.
Proof.
  destruct match_facts as (Hp & Hseen & Hps & Hpp & HmA & Hms & Hmp & Hmc & Hc0 & Hmf & Hmin & Hne).
  destruct match_int_new as [Np Nm]. destruct Eip as (P1 & P2 & P3 & P4). destruct Eim as (M1 & M2 & M3 & M4).
  split; rewrite ?Et.
  - apply Hk.
  - intros x Hx. destruct (decide (x = p)) as [->|Hxp]; [by exists ip'|].
    destruct (decide (x = m)) as [->|Hxm]; [by exists im'|]. rewrite match_int_other by done.
    by apply (mv_int k Hk).
  - rewrite <- Et, match_pending, match_sent_out. apply Hk.
  - intros x j' Hx Hj' Hs. destruct (match_int_back x j' Hj') as [[-> ->]|[[-> ->]|(Hxp & Hxm & Hj)]].
    + rewrite P1, (match_event p ip) by done. destruct (mv_event k Hk p ip Hp Hip Hps) as (e & He & Hpr).
      exists e. split; [done|]. intros _. by apply Hpr.
    + rewrite M1, Ee, lookup_insert, decide_True by done. eexists. split; [done|]. by rewrite M4.
    + rewrite (match_event x j') by done. by apply (mv_event k Hk x).
  - intros x j' q Hx Hj' Hs Hq. destruct (match_int_back x j' Hj') as [[-> ->]|[[-> ->]|(Hxp & Hxm & Hj)]].
    + congruence.
    + assert (q = p) as -> by congruence. exists (set_ik_pair (Some (iki_event ip)) em), ip', ep.
      rewrite M1, P1. rewrite (match_event p ip) by done.
      rewrite Ee, lookup_insert, decide_True by done. split_and!; try done; [|apply match_order].
      split_and!; try done. simpl. congruence.
    + destruct (match_other_pair x j' q Hx Hxp Hxm Hj Hs Hq) as [Hqp Hqm].
      destruct (mv_pair k Hk x j' q Hx Hj Hs Hq) as (e & g & f & He & Hg & Hf & Hgs & Hgseen & Hgp & Hep' &
        Hhv & l1 & l2 & El & Hql).
      assert (q ∈ todo k) as Hqt by (rewrite El; apply elem_of_app; right; by right).
      exists e, g, f. rewrite (match_event x j'), match_int_other, (match_event q g) by done.
      split_and!; try done. by exists l1, l2.
  - intros x x' j j' q Hx Hx' Hj Hj' Hs Hs' Hq Hq'.
    destruct (match_int_back x j Hj) as [[-> ->]|[[-> ->]|(Hxp & Hxm & Hj0)]]; [congruence|..];
    destruct (match_int_back x' j' Hj') as [[-> ->]|[[-> ->]|(Hxp' & Hxm' & Hj0')]]; [congruence|done| |congruence|..].
    + assert (q = p) as -> by congruence. by destruct (match_other_pair x' j' p Hx' Hxp' Hxm' Hj0' Hs' Hq').
    + assert (q = p) as -> by congruence. by destruct (match_other_pair x j p Hx Hxp Hxm Hj0 Hs Hq).
    + by apply (mv_one k Hk x x' j j' q).
  - intros d x. rewrite Eh. intros [Hd Hx]%lookup_delete_Some.
    destruct (mv_hash k Hk d x Hx) as (j & e & Hin & Hj & Hs & Hsn & Hpr & He & Hc & Hd0 & Hfr).
    assert (x <> p) as Hxp by (intros ->; congruence).
    assert (x <> m) as Hxm by (intros ->; assert (j = im) by congruence; subst j; congruence).
    exists j, e. rewrite match_int_other, (match_event x j) by done. auto 10.
Qed.
End Match.

(** ** [ik_pair_moves] *)

Lemma looked_at_step A B p i' k k' I :
  looked_at A (p :: B) k -> NoDup (todo k) -> todo k' = todo k -> ints k' = <[p := i']> I ->
  iki_seen i' = true ->
  (forall a j, a ∈ A -> I !! a = Some j -> iki_seen j || iki_sent j = true) ->
  (forall b, b ∈ B -> I !! b = ints k !! b) ->
  looked_at (A ++ [p]) B k'.
Proof.
  intros (El & HA & HB) Hnd Et Ei Hseen HI HI'.
  rewrite El in Hnd. apply NoDup_app in Hnd as (_ & Hd & [Hp _]%NoDup_cons).
  split; [by rewrite Et, El, <- app_assoc|]. rewrite Ei. split.
  - intros a j [Ha| ->%list_elem_of_singleton]%elem_of_app.
    + rewrite lookup_insert_ne; [by apply HI|]. intros ->. apply (Hd a Ha). by left.
    + rewrite lookup_insert, decide_True by done. intros [= <-]. by rewrite Hseen.
  - intros b j Hb. rewrite lookup_insert_ne, (HI' b Hb) by congruence. apply HB. by right.
Qed.

Section Pairing.
Context {os : OS} {ino : Inotify os}.

(** What pairing leaves as it is. *)
Definition paired (k k' : inotify_state) : Prop :=
  moves_ok k' /\ todo k' = todo k /\ queue k' = queue k /\
  pending (ints k') (todo k') = pending (ints k) (todo k) /\
  sent_out (evs k') (queue k') = sent_out (evs k) (queue k).

(** No time of [ik_pair_moves] is new, as long as adding nothing to a time
    changes nothing. *)
Definition hold_of (k : inotify_state) (p : ptr) : option timeval := iki_hold_until <$> ints k !! p.
Definition holds_kept (k k' : inotify_state) : Prop :=
  (forall tv, g_time_val_add tv MOVE_HOLD_UNTIL_TIME = tv) ->
  forall p tv, hold_of k' p = Some tv -> exists q, hold_of k q = Some tv.

Lemma holds_kept_insert k k' p tv i' :
  ints k' = <[p := i']> (ints k) -> hold_of k p = Some tv ->
  ((forall x, g_time_val_add x MOVE_HOLD_UNTIL_TIME = x) -> iki_hold_until i' = tv) -> holds_kept k k'.
Proof.
  intros Ei Hp Hi Hadd q tv'. unfold hold_of. rewrite Ei. destruct (decide (p = q)) as [->|Hne].
  - rewrite lookup_insert_eq. simpl. rewrite (Hi Hadd). intros [= <-]. by exists q.
  - rewrite lookup_insert_ne by done. by exists q.
Qed.

Lemma paired_touch A B p i i' s s' :
  moves_ok (sv_kernel s) -> looked_at A (p :: B) (sv_kernel s) ->
  ints (sv_kernel s) !! p = Some i ->
  let k := sv_kernel s in let k' := sv_kernel s' in
  todo k' = todo k -> queue k' = queue k -> evs k' = evs k -> ints k' = <[p := i']> (ints k) ->
  iki_event i' = iki_event i -> iki_sent i' = iki_sent i -> iki_pair i' = iki_pair i ->
  iki_seen i' = true ->
  (iki_hold_until i' = iki_hold_until i \/
     iki_hold_until i' = g_time_val_add (iki_hold_until i) MOVE_HOLD_UNTIL_TIME) ->
  (hash k' = hash k \/ exists e, evs k !! iki_event i = Some e /\ ik_cookie e <> 0 /\
     is_from e = true /\ hash k' = <[ik_cookie e := p]> (hash k)) ->
  (paired k k' /\ looked_at (A ++ [p]) B k') /\ holds_kept k k'.
Proof.
  intros Hk Hl Hi k k' Et Eq Ee Ei E1 E2 E3 E4 Eh Hh.
  split; [|apply (holds_kept_insert k k' p (iki_hold_until i) i' Ei);
    [unfold hold_of, k; by rewrite Hi|intros Hadd; destruct Eh as [->| ->]; auto]].
  destruct Hl as (El & HA & HB).
  destruct (HB p i ltac:(by left) Hi) as (_ & Hs & Hpr).
  assert (p ∈ todo k) as Hp by (unfold k; rewrite El; apply elem_of_app; right; by left).
  split.
  - destruct (moves_touch k k' p i i' Hk Et Eq Ee Hp Hi Ei E1 E2 E3 E4) as [Hk' Hpd].
    + intros c x Hx. destruct Hh as [Hh|(e & He & Hc & Hf & Hh)]; rewrite Hh in Hx; [by left|].
      apply lookup_insert_Some in Hx as [[<- <-]|[_ Hx]]; [right|by left]. eauto 10.
    + split_and!; try done. by rewrite Eq, Ee.
  - apply (looked_at_step A B p i' k k' (ints k)); try done. by apply Hk.
Qed.

Lemma wp_pair_events m p im ip em ep s (Q : unit -> server -> Prop) :
  m <> p -> ints (sv_kernel s) !! m = Some im -> ints (sv_kernel s) !! p = Some ip ->
  evs (sv_kernel s) !! iki_event im = Some em -> evs (sv_kernel s) !! iki_event ip = Some ep ->
  ik_cookie em = ik_cookie ep -> iki_pair im = None -> iki_pair ip = None ->
  (forall s' h h',
     ints (sv_kernel s') = <[p := set_iki_hold_until h ip]>
       (<[m := set_iki_hold_until h' (set_iki_pair (Some p) im)]> (ints (sv_kernel s))) ->
     evs (sv_kernel s') = <[iki_event im := set_ik_pair (Some (iki_event ip)) em]> (evs (sv_kernel s)) ->
     todo (sv_kernel s') = todo (sv_kernel s) -> queue (sv_kernel s') = queue (sv_kernel s) ->
     hash (sv_kernel s') = hash (sv_kernel s) ->
     (forall a, a = h \/ a = h' -> a = iki_hold_until im \/ a = iki_hold_until ip) -> Q tt s') ->
  wp (ik_pair_events m p) Q s.
Proof.
  intros Hne Him Hip Hem Hep Hc Hpm Hpp HQ. unfold ik_pair_events.
  apply wp_bind. eapply wp_iload; [exact Him|]. apply wp_bind. eapply wp_iload; [exact Hip|].
  apply wp_bind. eapply wp_iload; [exact Hem|]. apply wp_bind. eapply wp_iload; [exact Hep|].
  rewrite Hc, Z.eqb_refl, Hpm, Hpp, bool_decide_true by done.
  do 2 (apply wp_bind, wp_assert; [done|]).
  apply wp_bind. eapply wp_iupdate; [exact Him|]. apply wp_bind. eapply wp_iupdate; [exact Hem|].
  apply wp_bind, wp_when; intros _.
  - eapply wp_iupdate; [apply lookup_insert_eq|]. apply wp_bind.
    eapply wp_iload; [apply lookup_insert_eq|].
    eapply wp_iupdate; [etransitivity; [apply lookup_insert_ne, Hne|];
      etransitivity; [apply lookup_insert_ne, Hne|]; exact Hip|].
    apply (HQ _ (iki_hold_until ip) (iki_hold_until ip)); try done; [|naive_solver].
    refine (f_equal (insert p _) _). apply insert_insert_eq.
  - apply wp_bind. eapply wp_iload; [apply lookup_insert_eq|].
    eapply wp_iupdate; [etransitivity; [apply lookup_insert_ne, Hne|]; exact Hip|].
    apply (HQ _ (iki_hold_until im) (iki_hold_until im)); try done. naive_solver.
Qed.

Lemma wp_pair_moves A B p s :
  moves_ok (sv_kernel s) -> looked_at A (p :: B) (sv_kernel s) ->
  wp (ik_pair_moves p)
    (fun _ s' => (paired (sv_kernel s) (sv_kernel s') /\ looked_at (A ++ [p]) B (sv_kernel s')) /\
       holds_kept (sv_kernel s) (sv_kernel s')) s.
Proof.
  intros Hk Hl. pose proof Hl as (El & HA & HB).
  assert (p ∈ todo (sv_kernel s)) as Hp by (rewrite El; apply elem_of_app; right; by left).
  destruct (mv_int _ Hk p Hp) as [i Hi]. destruct (HB p i ltac:(by left) Hi) as (Hseen & Hs & Hpr).
  destruct (mv_event _ Hk p i Hp Hi Hs) as (e & He & _).
  unfold ik_pair_moves. apply wp_bind. eapply wp_iload; [exact Hi|]. rewrite Hseen, Hs. cbn [orb].
  apply wp_bind. eapply wp_iload; [exact He|]. apply wp_bind, wp_when.
  2: { intros _. eapply wp_iupdate; [exact Hi|]. by eapply (paired_touch A B p i); [..|left|left]. }
  intros Hc%negb_true_iff%Z.eqb_neq. destruct (ztest (ik_mask e .& IN_MOVED_FROM)) eqn:Hf.
  { apply wp_bind, wp_ino_modify. eapply wp_iupdate; [exact Hi|].
    eapply wp_iupdate; [apply lookup_insert_eq|].
    apply (paired_touch A B p i (set_iki_seen true (set_iki_hold_until
      (g_time_val_add (iki_hold_until i) MOVE_HOLD_UNTIL_TIME) i)) s); try done; [apply insert_insert_eq|by right|].
    right. by exists e. }
  destruct (ztest (ik_mask e .& IN_MOVED_TO)) eqn:Ht.
  2: { apply wp_ret. eapply wp_iupdate; [exact Hi|]. by eapply (paired_touch A B p i); [..|left|left]. }
  apply wp_bind, wp_ino_gets. destruct (cookie_hash (ik_of (sv_kernel s)) !! ik_cookie e) as [m|] eqn:Hm.
  2: { apply wp_ret. eapply wp_iupdate; [exact Hi|]. by eapply (paired_touch A B p i); [..|left|left]. }
  destruct (mv_hash _ Hk _ m Hm) as (im & em & Hmin & Him & Hms & Hmsn & Hmp & Hem & Hmc & _ & Hmf).
  assert (m <> p) as Hne by congruence. apply wp_bind, wp_ino_modify.
  apply (wp_pair_events m p im i em e); try done. intros s' h h' Ei Ee Et Eq Eh Eold.
  assert (ints (sv_kernel s') !! p = Some (set_iki_hold_until h i)) as Hi'
    by (rewrite Ei; apply lookup_insert_eq).
  eapply wp_iupdate; [exact Hi'|].
  set (s'' := upd_ino _ s').
  assert (ints (sv_kernel s'') = <[p := set_iki_seen true (set_iki_hold_until h i)]>
    (<[m := set_iki_hold_until h' (set_iki_pair (Some p) im)]> (ints (sv_kernel s)))) as Ei'.
  { change (<[p := set_iki_seen true (set_iki_hold_until h i)]> (ints (sv_kernel s')) =
      <[p := set_iki_seen true (set_iki_hold_until h i)]>
        (<[m := set_iki_hold_until h' (set_iki_pair (Some p) im)]> (ints (sv_kernel s)))).
    rewrite Ei. apply insert_insert_eq. }
  assert (m ∈ A) as HmA by (by eapply (match_facts (sv_kernel s) A B m p im i em (ik_cookie e))).
  split; [split; [split_and!|]|].
  - by eapply (moves_match_ok _ (sv_kernel s'') A B m p im i _ _ em e _ Hk Hl Hm Him Hi Hem He eq_refl Hf Ht
      Et Eq Eh Ee Ei').
  - done.
  - done.
  - by eapply (match_pending _ (sv_kernel s'') A B m p im i _ _ em _ Hk Hl Hm Him Hi Hem Et Ei').
  - by eapply (match_sent_out _ (sv_kernel s'') A B m p im i em _ Hk Hl Hm Him Hi Hem Eq Ee).
  - apply (looked_at_step A B p _ (sv_kernel s) (sv_kernel s'') _ Hl (mv_todo _ Hk) Et Ei' eq_refl).
    + intros a j Ha [[<- <-]|[_ Hj]]%lookup_insert_Some; [simpl; by rewrite Hmsn|by apply (HA a j)].
    + intros b Hb. apply lookup_insert_ne. intros ->. pose proof (mv_todo _ Hk) as Hnd.
      rewrite El in Hnd. apply NoDup_app in Hnd as (_ & Hd & _). apply (Hd b HmA). by right.
  - intros _ x tv. unfold hold_of. rewrite Ei'.
    assert (forall a, a = h \/ a = h' -> exists q, iki_hold_until <$> ints (sv_kernel s) !! q = Some a) as Hold.
    { intros a Ha. destruct (Eold a Ha) as [->| ->]; [exists m; by rewrite Him|exists p; by rewrite Hi]. }
    intros (j & [[<- <-]|[_ [[<- <-]|[_ Hj]]%lookup_insert_Some]]%lookup_insert_Some & ->)%fmap_Some; simpl.
    + apply Hold. by left.
    + apply Hold. by right.
    + exists x. by rewrite Hj.
Qed.
End Pairing.
