(* ===== verification/InotifyMoves.v ===== *)
(** * Handing events on

    [ik_process_events] neither loses nor duplicates an event, keeps the order
    of the kernel, hands half a move on only together with its other half, and
    leaves nothing behind. *)

From S2P Require Import Prelude Protocol Monad OS Fs State.
From S2P Require Import InotifyState InotifyKernel InotifyPairing.

Local Open Scope Z_scope.

#[local] Existing Instance inotify_kernel.

(** ** Taking the events off the queue *)

(** What holds while [q0] was queued before, [P] pending and [C] under way. *)
Definition progress (q0 P C : list ptr) (k : inotify_state) : Prop :=
  moves_ok k /\ looked_at (todo k) [] k /\
  exists new, queue k = q0 ++ new /\ new ++ pending (ints k) (todo k) `sublist_of` P /\
    Forall (complete (evs k)) new /\
    sent_out (evs k) (queue k) ++ pending (ints k) (todo k) ≡ₚ C.

Section Pop.
Context (q0 P C : list ptr) (k k' : inotify_state) (p : ptr) (l : list ptr).
Context (i : ik_event_internal_t) (Hk : progress q0 P C k) (Et : todo k = p :: l).
Context (Hi : ints k !! p = Some i).
Let add : list ptr := if iki_sent i then [] else [iki_event i].
Context (Et' : todo k' = l) (Eq' : queue k' = queue k ++ add).
Context (Hsame : forall x, x ∈ l -> ~ partner i x -> ints k' !! x = ints k !! x).
Context (Hmark : forall x, x ∈ l -> partner i x -> exists j, ints k' !! x = Some j /\ iki_sent j = true).
Context (Hev : forall e, e ∉ add -> evs k' !! e = evs k !! e).
Context (Hhash : forall c x, hash k' !! c = Some x -> hash k !! c = Some x /\ x <> p).
Context (Hadd : Forall (complete (evs k')) add).
Context (Hsub : pending (ints k') l `sublist_of` pending (ints k) l).
Context (Hperm : sent_out (evs k') add ++ pending (ints k') l ≡ₚ pending (ints k) (todo k)).

Lemma pop_pending : pending (ints k) (todo k) = add ++ pending (ints k) l.
Proof. rewrite Et. simpl. unfold unsent_event, add. rewrite Hi. simpl. by destruct (iki_sent i). Qed.

Lemma pop_apart e : e ∈ sent_out (evs k) (queue k) -> e ∉ add.
Proof.
  intros He Ha. destruct Hk as (Hm & _). pose proof (mv_once k Hm) as Hnd.
  apply NoDup_app in Hnd as (_ & Hd & _). apply (Hd e He). rewrite pop_pending. apply elem_of_app. by left.
Qed.

Lemma pop_sent_out : sent_out (evs k') (queue k') = sent_out (evs k) (queue k) ++ sent_out (evs k') add.
Proof.
  rewrite Eq'. unfold sent_out at 1. rewrite bind_app. f_equal. apply sent_out_ext. intros e He.
  unfold with_pair. rewrite Hev; [done|]. by apply pop_apart, queue_in_sent_out.
Qed.

Lemma pop_perm : sent_out (evs k') (queue k') ++ pending (ints k') (todo k') ≡ₚ C.
Proof.
  destruct Hk as (_ & _ & new & _ & _ & _ & HC). by rewrite pop_sent_out, Et', <- app_assoc, Hperm.
Qed.

Lemma pop_complete e : e ∈ queue k -> complete (evs k) e -> complete (evs k') e.
Proof.
  intros He (x & Hx & Hc). exists x.
  rewrite Hev by (by apply pop_apart, queue_in_sent_out). split; [done|].
  destruct (ik_pair x) as [f|] eqn:Hf; [|done]. destruct Hc as (y & Hy & Hh). exists y. split; [|done].
  rewrite Hev; [done|]. apply pop_apart. unfold sent_out. apply list_elem_of_bind. exists e. split; [|done].
  unfold with_pair. rewrite Hx, Hf. right. by left.
Qed.

Lemma progress_pop : progress q0 P C k'.
Proof.
  pose proof pop_perm as HC'. destruct Hk as (Hm & (_ & HA & _) & new & Eq & Hs & Hf & HC). split_and!.
  - apply (moves_pop k k' p i l Hm Et Hi Et' Hsame Hmark); [|done|].
    + intros e He. apply Hev. intros Ha. pose proof (mv_once k Hm) as Hnd. rewrite pop_pending in Hnd.
      apply NoDup_app in Hnd as (_ & _ & Hnd). apply NoDup_app in Hnd as (_ & Hd & _). by apply (Hd e).
    + rewrite <- Et', HC', <- HC. apply Hm.
  - rewrite Et'. split_and!; [by rewrite app_nil_r| |by intros b j ?%elem_of_nil].
    intros x j Hx Hj. destruct (decide (iki_sent i = false /\ iki_pair i = Some x)) as [Hpx|Hpx].
    + destruct (Hmark x Hx Hpx) as (j' & Hj' & Hs'). assert (j = j') as -> by congruence.
      rewrite Hs'. apply orb_true_r.
    + rewrite (Hsame x Hx Hpx) in Hj. apply (HA x j); [|done]. rewrite Et. by right.
  - exists (new ++ add). split_and!.
    + by rewrite Eq', Eq, app_assoc.
    + etransitivity; [|exact Hs]. rewrite pop_pending, Et', <- app_assoc.
      by repeat apply sublist_app.
    + apply Forall_app. split; [|done]. apply list.Forall_forall. intros e He.
      apply pop_complete; [rewrite Eq; apply elem_of_app; by right|].
      by apply (proj1 (list.Forall_forall _ _) Hf).
    + done.
Qed.
End Pop.

(** ** Readiness *)

Section Loop.
Context {os : OS} {ino : Inotify os}.

(** Every event may be handed on from [T] on; the clock is past [T], and stays
    past it, in the worlds that satisfy [past]. *)
Definition held_until (T : timeval) (k : inotify_state) : Prop :=
  forall p i, ints k !! p = Some i -> g_timeval_lt T (iki_hold_until i) = false.
Definition clock_past (T : timeval) (past : world -> Prop) : Prop :=
  forall w tv w', past w -> g_get_current_time w = (tv, w') -> g_timeval_lt tv T = false /\ past w'.

Lemma g_timeval_le_trans a b c :
  g_timeval_lt b a = false -> g_timeval_lt c b = false ->
  g_timeval_lt a c || g_timeval_eq a c = true.
Proof.
  destruct a as [a1 a2], b as [b1 b2], c as [c1 c2]. unfold g_timeval_lt, g_timeval_eq. simpl.
  repeat case_match; lia.
Qed.

Lemma wp_event_ready p i e s (Q : bool -> server -> Prop) :
  ints (sv_kernel s) !! p = Some i -> evs (sv_kernel s) !! iki_event i = Some e ->
  (forall b w, (forall T past, clock_past T past -> past (sv_world s) ->
     (held_until T (sv_kernel s) -> b = true) /\ past w) -> Q b (set_sv_world w s)) ->
  wp (ik_event_ready p) Q s.
Proof.
  intros Hi He HQ. unfold ik_event_ready. apply wp_bind, wp_sys. intros tv w Htv.
  apply wp_bind. eapply wp_iload; [exact Hi|]. apply wp_bind. eapply wp_iload; [exact He|].
  apply wp_ret, HQ. intros T past HT Hw. destruct (HT _ _ _ Hw Htv) as [Hle Hw']. split; [|done].
  intros Hh. rewrite <- orb_assoc.
  rewrite (g_timeval_le_trans (iki_hold_until i) T tv); [apply orb_true_r|by apply (Hh p)|done].
Qed.

(** ** The loop *)

Lemma pending_popped I I' p l :
  p ∉ l -> (forall x, x <> p -> I' !! x = I !! x) -> pending I' l = pending I l.
Proof.
  intros Hp HI. apply pending_ext. intros x Hx. unfold unsent_event. rewrite HI; [done|]. congruence.
Qed.

(** An event that was sent with its other half. *)
Lemma progress_sent q0 P C k k' p l i :
  progress q0 P C k -> todo k = p :: l -> ints k !! p = Some i -> iki_sent i = true ->
  todo k' = l -> queue k' = queue k -> evs k' = evs k -> hash k' = hash k ->
  ints k' = delete p (ints k) -> progress q0 P C k'.
Proof.
  intros Hk Et Hi Hs Et' Eq Ee Eh Ei. pose proof Hk as (Hm & _).
  pose proof (mv_todo k Hm) as Hnd. rewrite Et in Hnd. apply NoDup_cons in Hnd as [Hpl _].
  assert (pending (ints k') l = pending (ints k) l) as Epd.
  { rewrite Ei. apply (pending_popped _ _ p); [done|]. intros x Hx. by apply lookup_delete_ne. }
  apply (progress_pop q0 P C k k' p l i Hk Et Hi Et'); rewrite ?Hs, ?Epd; try done.
  - by rewrite app_nil_r.
  - intros x Hx _. rewrite Ei. apply lookup_delete_ne. congruence.
  - intros x Hx [? _]. congruence.
  - intros e _. by rewrite Ee.
  - intros c x Hx. rewrite Eh in Hx. split; [done|]. intros ->.
    destruct (mv_hash k Hm c p Hx) as (j & e & _ & Hj & Hjs & _). congruence.
  - rewrite Et. simpl. unfold unsent_event. rewrite Hi. simpl. by rewrite Hs.
Qed.

(** An event without another half. *)
Lemma progress_single q0 P C k k' p l i e e' :
  progress q0 P C k -> todo k = p :: l -> ints k !! p = Some i -> iki_sent i = false ->
  iki_pair i = None -> evs k !! iki_event i = Some e ->
  todo k' = l -> queue k' = queue k ++ [iki_event i] -> evs k' = <[iki_event i := e']> (evs k) ->
  (forall c x, hash k' !! c = Some x -> hash k !! c = Some x /\ c <> ik_cookie e) ->
  ik_pair e' = ik_pair e -> (ik_cookie e' = 0 \/ is_from e' = false /\ is_to e' = false) ->
  ints k' = delete p (ints k) -> progress q0 P C k'.
Proof.
  intros Hk Et Hi Hs Hpr He Et' Eq Ee Eh Epr Hc Ei. pose proof Hk as (Hm & _).
  pose proof (mv_todo k Hm) as Hnd. rewrite Et in Hnd. apply NoDup_cons in Hnd as [Hpl _].
  destruct (mv_event k Hm p i) as (e0 & He0 & Hnp); [rewrite Et; by left|done..|].
  assert (e0 = e) as -> by congruence. rewrite (Hnp Hpr) in Epr.
  assert (pending (ints k') l = pending (ints k) l) as Epd.
  { rewrite Ei. apply (pending_popped _ _ p); [done|]. intros x Hx. by apply lookup_delete_ne. }
  apply (progress_pop q0 P C k k' p l i Hk Et Hi Et'); rewrite ?Hs, ?Epd; try done.
  - intros x Hx _. rewrite Ei. apply lookup_delete_ne. congruence.
  - intros x Hx [_ ?]. congruence.
  - intros x Hx. rewrite Ee, lookup_insert_ne; [done|]. intros <-. apply Hx. by left.
  - intros c x Hx. destruct (Eh c x Hx) as [Hx' Hce]. split; [done|]. intros ->.
    destruct (mv_hash k Hm c p Hx') as (j & f & _ & Hj & _ & _ & _ & Hf & Hcf & _).
    assert (j = i) as -> by congruence. congruence.
  - apply Forall_singleton. exists e'. rewrite Ee, lookup_insert_eq. split; [done|]. by rewrite Epr.
  - rewrite Et. simpl. unfold unsent_event. rewrite Hi. simpl. rewrite Hs. simpl.
    unfold with_pair. rewrite Ee, lookup_insert_eq. simpl. by rewrite Epr.
Qed.

(** A move, whose other half is [q]. *)
Lemma progress_move q0 P C k k' p l i q j :
  progress q0 P C k -> todo k = p :: l -> ints k !! p = Some i -> iki_sent i = false ->
  iki_pair i = Some q -> ints k !! q = Some j ->
  todo k' = l -> queue k' = queue k ++ [iki_event i] -> evs k' = evs k -> hash k' = hash k ->
  (forall x, x <> p -> ints k' !! x = <[q := set_iki_sent true j]> (ints k) !! x) ->
  progress q0 P C k'.
Proof.
  intros Hk Et Hi Hs Hpr Hj Et' Eq Ee Eh Ei. pose proof Hk as (Hm & _).
  pose proof (mv_todo k Hm) as Hnd. rewrite Et in Hnd. apply NoDup_cons in Hnd as [Hpl Hnd].
  destruct (mv_pair k Hm p i q) as (e & j' & f & He & Hj' & Hf & Hjs & Hjseen & Hjp & Hep & Hhv &
    l1 & l2 & El & Hql); [rewrite Et; by left|done..|].
  assert (j' = j) as -> by congruence.
  assert (q ∈ l) as Hq.
  { rewrite Et in El. destruct l1 as [|y l1]; [by injection El as ->|]. injection El as -> ->.
    apply elem_of_app. right. by right. }
  assert (pending (ints k') l = pending (<[q := set_iki_sent true j]> (ints k)) l) as Epd
    by (by apply (pending_popped _ _ p)).
  assert (complete (evs k') (iki_event i)) as Hcomp.
  { exists e. rewrite Ee. split; [done|]. rewrite Hep. exists f. split; [done|]. split; [done|].
    destruct (mv_event k Hm q j) as (f' & Hf' & Hnp); [|done..|].
    - rewrite Et. by right.
    - assert (f' = f) as -> by congruence. by apply Hnp. }
  apply (progress_pop q0 P C k k' p l i Hk Et Hi Et'); rewrite ?Hs, ?Epd; try done.
  - intros x Hx Hnp. rewrite Ei, lookup_insert_ne; [done| |congruence]. intros <-. by apply Hnp.
  - intros x Hx [_ Hx']. assert (x = q) as -> by congruence. exists (set_iki_sent true j).
    rewrite Ei, lookup_insert_eq by congruence. done.
  - intros x _. by rewrite Ee.
  - intros c x Hx. rewrite Eh in Hx. split; [done|]. intros ->.
    destruct (mv_hash k Hm c p Hx) as (j' & ? & _ & ? & _ & _ & ? & _). congruence.
  - by apply Forall_singleton.
  - by apply pending_mark_sublist.
  - rewrite Et. simpl. unfold unsent_event. rewrite Hi. simpl. rewrite Hs, Ee. simpl.
    unfold with_pair. rewrite He, Hep. simpl. constructor. symmetry. by apply pending_mark.
Qed.

Lemma wp_prepare_single p i e s (Q : unit -> server -> Prop) :
  ints (sv_kernel s) !! p = Some i -> evs (sv_kernel s) !! iki_event i = Some e ->
  iki_pair i = None -> hash (sv_kernel s) !! 0 = None ->
  (forall s' e', let k := sv_kernel s in let k' := sv_kernel s' in
     ints k' = ints k -> todo k' = todo k -> queue k' = queue k ->
     evs k' = <[iki_event i := e']> (evs k) -> ik_pair e' = ik_pair e ->
     (ik_cookie e' = 0 \/ is_from e' = false /\ is_to e' = false) ->
     (forall c x, hash k' !! c = Some x -> hash k !! c = Some x /\ c <> ik_cookie e) ->
     sv_world s' = sv_world s -> Q tt s') ->
  wp (ik_prepare_event p) Q s.
Proof.
  intros Hi He Hpr H0 HQ. unfold ik_prepare_event. apply wp_bind. eapply wp_iload; [exact Hi|].
  apply wp_bind. eapply wp_iload; [exact He|]. apply wp_bind, wp_ino_gets. rewrite Hpr.
  rewrite (bool_decide_true (None = None)) by done. apply wp_bind.
  destruct (Z.eqb_spec (ik_cookie e) 0) as [Hc|Hc]; cbn [negb andb when].
  { apply wp_ret. apply (HQ s e); try done; [by rewrite insert_id|by left|].
    rewrite Hc. intros c x Hx. split; [done|]. intros ->. by rewrite H0 in Hx. }
  assert (forall s0, let k' := sv_kernel s0 in ints k' = ints (sv_kernel s) -> todo k' = todo (sv_kernel s) ->
    queue k' = queue (sv_kernel s) -> evs k' = evs (sv_kernel s) ->
    (forall c x, hash k' !! c = Some x -> hash (sv_kernel s) !! c = Some x /\ c <> ik_cookie e) ->
    sv_world s0 = sv_world s ->
    wp (_ ← when (ztest (ik_mask e .& IN_MOVED_FROM))
               (ino_modify (upd_ik (fun v => set_ik_move_misses (u32 (ik_move_misses v + 1)) v)));
        iupdate (iki_event i) (fun k => set_ik_mask (unpaired_mask (ik_mask k)) k)) Q
      s0) as Hrest.
  { intros s0 k' Ei Et Eq Ee Eh Ew. apply wp_bind, wp_when; intros _; [apply wp_ino_modify|];
    (eapply wp_iupdate; [etransitivity; [exact (f_equal (lookup (iki_event i)) Ee)|exact He]|];
     apply (HQ _ (set_ik_mask (unpaired_mask (ik_mask e)) e)); try done;
      [refine (f_equal (insert _ _) _); exact Ee|right; unfold is_from, is_to, ztest; simpl;
        by destruct (unpaired_mask_spec (ik_mask e)) as [-> ->]]). }
  apply wp_when; intros Hin.
  - apply wp_ino_modify. apply Hrest; try done. intros c x Hx.
    change (delete (ik_cookie e) (hash (sv_kernel s)) !! c = Some x) in Hx.
    by apply lookup_delete_Some in Hx as [? ?].
  - apply Hrest; try done. intros c x Hx. split; [done|]. intros ->.
    apply bool_decide_eq_false in Hin. apply Hin. by exists x.
Qed.

Lemma wp_prepare_move p i q j e s (Q : unit -> server -> Prop) :
  ints (sv_kernel s) !! p = Some i -> evs (sv_kernel s) !! iki_event i = Some e ->
  iki_pair i = Some q -> ints (sv_kernel s) !! q = Some j -> q <> p ->
  (forall s', let k := sv_kernel s in let k' := sv_kernel s' in
     ints k' = <[p := set_iki_sent true i]> (<[q := set_iki_sent true j]> (ints k)) ->
     evs k' = evs k -> todo k' = todo k -> queue k' = queue k -> hash k' = hash k ->
     sv_world s' = sv_world s -> Q tt s') ->
  wp (ik_prepare_event p) Q s.
Proof.
  intros Hi He Hpr Hj Hne HQ. unfold ik_prepare_event. apply wp_bind. eapply wp_iload; [exact Hi|].
  apply wp_bind. eapply wp_iload; [exact He|]. apply wp_bind, wp_ino_gets.
  rewrite Hpr, (bool_decide_false (Some q = None)), andb_false_r by done. cbn [andb when].
  apply wp_bind, wp_ret, wp_bind. eapply wp_iupdate; [exact Hj|].
  assert (<[q := set_iki_sent true j]> (ints (sv_kernel s)) !! p = Some i) as Hi'
    by (by rewrite lookup_insert_ne).
  apply wp_bind. eapply wp_iupdate; [exact Hi'|]. apply wp_ino_modify. by apply HQ.
Qed.

(** One round of the loop: [p] is queued and freed. *)
Definition popped (p : ptr) (l : list ptr) (s s' : server) : Prop :=
  todo (sv_kernel s') = l /\ sv_world s' = sv_world s /\
  (forall x j, ints (sv_kernel s') !! x = Some j ->
     exists j0, ints (sv_kernel s) !! x = Some j0 /\ iki_hold_until j = iki_hold_until j0).

Definition queue_event (p : ptr) : ST server unit :=
  e ← iload (A := ik_event_internal_t) p;
  _ ← ino_modify (upd_ik (fun v => set_event_queue (event_queue v ++ [iki_event e]) v));
  ifree ik_event_internal_t p.

Lemma wp_queue_single q0 P C p l i s :
  progress q0 P C (sv_kernel s) -> todo (sv_kernel s) = p :: l -> ints (sv_kernel s) !! p = Some i ->
  iki_sent i = false -> iki_pair i = None ->
  wp (_ ← ik_prepare_event p; queue_event p)
    (fun _ s' => progress q0 P C (sv_kernel s') /\ popped p l s s')
    (upd_ino (upd_ik (set_events_to_process l)) s).
Proof.
  intros Hk Et Hi Hs Hpr. pose proof Hk as (Hm & _).
  assert (p ∈ todo (sv_kernel s)) as Hp by (rewrite Et; by left).
  destruct (mv_event _ Hm p i Hp Hi Hs) as (e & He & _). apply wp_bind.
  apply (wp_prepare_single p i e); [exact Hi|exact He|done|..].
  { destruct (hash (sv_kernel s) !! 0) as [x|] eqn:Hx; [|exact Hx].
    destruct (mv_hash _ Hm 0 x Hx) as (? & ? & ? & ? & ? & ? & ? & ? & ? & ? & ?). done. }
  intros s' e' k k' Ei Et' Eq Ee Epr Hc Hh Hw. unfold queue_event. apply wp_bind.
  assert (ints k' !! p = Some i) as Hi' by (by rewrite Ei). eapply wp_iload; [exact Hi'|].
  apply wp_bind, wp_ino_modify. eapply wp_ifree; [exact Hi'|]. split; [|split; [done|split; [done|]]].
  - eapply (progress_single q0 P C (sv_kernel s) _ p l i e e'); try done.
    + by refine (f_equal (fun x => x ++ _) _).
    + refine (f_equal (delete p) _). exact Ei.
  - intros x j Hx. change (delete p (ints k') !! x = Some j) in Hx.
    apply lookup_delete_Some in Hx as [_ Hx]. rewrite Ei in Hx. by exists j.
Qed.

Lemma wp_queue_move q0 P C p q l i s :
  progress q0 P C (sv_kernel s) -> todo (sv_kernel s) = p :: l -> ints (sv_kernel s) !! p = Some i ->
  iki_sent i = false -> iki_pair i = Some q ->
  wp (_ ← ik_prepare_event p; queue_event p)
    (fun _ s' => progress q0 P C (sv_kernel s') /\ popped p l s s')
    (upd_ino (upd_ik (set_events_to_process l)) s).
Proof.
  intros Hk Et Hi Hs Hpr. pose proof Hk as (Hm & _).
  assert (p ∈ todo (sv_kernel s)) as Hp by (rewrite Et; by left).
  destruct (mv_pair _ Hm p i q Hp Hi Hs Hpr)
    as (e & j & _ & He & Hj & _ & Hjs & _ & _ & _ & _ & l1 & l2 & El & Hq).
  assert (q <> p) as Hne.
  { intros ->. pose proof (mv_todo _ Hm) as Hnd. rewrite El in Hnd.
    apply NoDup_app in Hnd as (_ & _ & [Hn _]%NoDup_cons). done. }
  apply wp_bind, (wp_prepare_move p i q j e); [exact Hi|exact He|done|exact Hj|done|].
  intros s' k k' Ei Ee Et' Eq Eh Hw. unfold queue_event. apply wp_bind.
  assert (ints k' !! p = Some (set_iki_sent true i)) as Hi' by (rewrite Ei; apply lookup_insert_eq).
  eapply wp_iload; [exact Hi'|]. apply wp_bind, wp_ino_modify.
  eapply wp_ifree; [exact Hi'|]. split; [|split; [done|split; [done|]]].
  - eapply (progress_move q0 P C (sv_kernel s) _ p l i q j); try done.
    + by refine (f_equal (fun x => x ++ _) _).
    + intros x Hx. transitivity (ints k' !! x); [apply lookup_delete_ne; congruence|]. rewrite Ei.
      apply lookup_insert_ne. congruence.
  - intros x j' Hx. change (delete p (ints k') !! x = Some j') in Hx.
    rewrite Ei in Hx. apply lookup_delete_Some in Hx as [Hx [[? _]|[_ Hx']]%lookup_insert_Some]; [done|].
    apply lookup_insert_Some in Hx' as [[<- <-]|[_ Hx']]; [by exists j|by exists j'].
Qed.

(** What the loop leaves. *)
Definition processed (q0 P C : list ptr) (s s' : server) : Prop :=
  progress q0 P C (sv_kernel s') /\
  forall T past, clock_past T past -> past (sv_world s) -> held_until T (sv_kernel s) ->
    todo (sv_kernel s') = [].

Lemma processed_after q0 P C s w p l s1 s' :
  processed q0 P C s1 s' -> popped p l (set_sv_world w s) s1 ->
  (forall T past, clock_past T past -> past (sv_world s) -> past w) -> processed q0 P C s s'.
Proof.
  intros [Hp HT] (_ & Hw & Hh) Hpast. split; [done|]. intros T past HTp HTw HTs.
  apply (HT T past HTp); [rewrite Hw; by apply (Hpast T past)|].
  intros x j Hx. destruct (Hh x j Hx) as (j0 & Hx0 & ->). by apply (HTs x).
Qed.

Lemma wp_process_loop q0 P C fuel s :
  progress q0 P C (sv_kernel s) -> (length (todo (sv_kernel s)) < fuel)%nat ->
  wp (process_events_loop fuel) (fun _ s' => processed q0 P C s s') s.
Proof.
  revert s. induction fuel as [|fuel IH]; intros s Hk Hf; [lia|]. simpl.
  apply wp_bind, wp_ino_gets. fold (todo (sv_kernel s)).
  destruct (todo (sv_kernel s)) as [|p l] eqn:Et; [apply wp_ret; by split|].
  pose proof Hk as (Hm & _). assert (p ∈ todo (sv_kernel s)) as Hp by (rewrite Et; by left).
  destruct (mv_int _ Hm p Hp) as [i Hi]. apply wp_bind. eapply wp_iload; [exact Hi|].
  simpl in Hf. destruct (iki_sent i) eqn:Hs.
  { apply wp_bind, wp_ino_modify, wp_bind. eapply wp_ifree; [exact Hi|].
    set (s1 := upd_ino _ _). eapply wp_mono; [apply (IH s1)|].
    - by apply (progress_sent q0 P C (sv_kernel s) (sv_kernel s1) p l i).
    - change (length l < fuel)%nat. lia.
    - intros [] s2 H2. apply (processed_after q0 P C s (sv_world s) p l s1 s2 H2); [|done].
      split; [done|split; [done|]]. intros x j Hx. change (delete p (ints (sv_kernel s)) !! x = Some j) in Hx.
      apply lookup_delete_Some in Hx as [_ Hx]. by exists j. }
  destruct (mv_event _ Hm p i Hp Hi Hs) as (e & He & _).
  apply wp_bind. eapply wp_event_ready; [exact Hi|exact He|]. intros b w Hb.
  destruct b; cbn [negb].
  2: { apply wp_ret. split; [exact Hk|]. intros T past HT Hw Hh.
       destruct (Hb T past HT Hw) as [Hb' _]. by discriminate (Hb' Hh). }
  assert (forall m : ST server unit, wp (_ ← ik_prepare_event p; queue_event p)
    (fun _ s' => wp m (fun _ s'' => processed q0 P C s s'') s')
    (upd_ino (upd_ik (set_events_to_process l)) (set_sv_world w s)) ->
    wp (_ ← ino_modify (upd_ik (set_events_to_process l)); _ ← ik_prepare_event p;
        e ← iload (A := ik_event_internal_t) p;
        _ ← ino_modify (upd_ik (fun v => set_event_queue (event_queue v ++ [iki_event e]) v));
        _ ← ifree ik_event_internal_t p; m) (fun _ s'' => processed q0 P C s s'') (set_sv_world w s)) as Hround.
  { intros m Hm'. apply wp_bind, wp_ino_modify.
    unfold wp, queue_event, mbind, ST_bind in Hm' |- *. destruct (ik_prepare_event p _) as [[[] sa]|]; [|done].
    destruct (iload p sa) as [[ea sb]|]; [|done]. simpl in Hm' |- *.
    by destruct (ifree ik_event_internal_t p _) as [[[] sc]|]. }
  apply Hround.
  eapply wp_mono; [destruct (iki_pair i) as [q|] eqn:Hpr;
    [by apply (wp_queue_move q0 P C p q l i)|by apply (wp_queue_single q0 P C p l i)]|].
  intros [] s1 [Hk1 Hp1]. pose proof Hp1 as (Et1 & _).
  eapply wp_mono; [apply (IH s1 Hk1); rewrite Et1; lia|].
  intros [] s2 H2. apply (processed_after q0 P C s w p l s1 s2 H2 Hp1). intros T past HT Hw.
  by apply (Hb T past HT Hw).
Qed.

(** ** [ik_process_events] *)

Lemma wp_pair_moves_again A B l s :
  moves_ok (sv_kernel s) -> looked_at A B (sv_kernel s) -> (forall a, a ∈ l -> a ∈ A) ->
  wp (for_each l ik_pair_moves) (fun _ s' => s' = s) s.
Proof.
  intros Hk (El & HA & _) Hl. induction l as [|a l IH]; [done|]. simpl. apply wp_bind.
  assert (a ∈ A) as Ha by (apply Hl; by left).
  destruct (mv_int _ Hk a) as [i Hi]; [rewrite El; apply elem_of_app; by left|].
  unfold ik_pair_moves. apply wp_bind. eapply wp_iload; [exact Hi|]. rewrite (HA a i Ha Hi).
  apply wp_ret, IH. intros x Hx. apply Hl. by right.
Qed.

Definition all_paired (A : list ptr) (k k' : inotify_state) : Prop :=
  (paired k k' /\ looked_at A [] k') /\ holds_kept k k'.

Lemma wp_pair_moves_new A B s :
  moves_ok (sv_kernel s) -> looked_at A B (sv_kernel s) ->
  wp (for_each B ik_pair_moves) (fun _ s' => all_paired (A ++ B) (sv_kernel s) (sv_kernel s')) s.
Proof.
  revert A s. induction B as [|p B IH]; intros A s Hk Hl.
  { rewrite app_nil_r. apply wp_ret. by split; [split; [split_and!|]|intros _ p tv; exists p]. }
  simpl. apply wp_bind. eapply wp_mono; [by apply (wp_pair_moves A B)|].
  intros [] s1 [[(Hk1 & Et1 & Eq1 & Ep1 & Es1) Hl1] Hh1].
  eapply wp_mono; [by apply (IH (A ++ [p]))|]. rewrite <- app_assoc. simpl.
  intros [] s2 [[(Hk2 & Et2 & Eq2 & Ep2 & Es2) Hl2] Hh2]. split; [split; [split_and!|]|]; try done; try congruence.
  intros Hadd x tv Hx. destruct (Hh2 Hadd x tv Hx) as [y Hy]. by apply (Hh1 Hadd y tv).
Qed.

Lemma wp_for_each_pair_moves A B s :
  moves_ok (sv_kernel s) -> looked_at A B (sv_kernel s) ->
  wp (for_each (A ++ B) ik_pair_moves)
    (fun _ s' => all_paired (A ++ B) (sv_kernel s) (sv_kernel s')) s.
Proof.
  intros Hk Hl. apply wp_for_each_app. eapply wp_mono; [by apply (wp_pair_moves_again A B)|].
  intros [] s' ->. by apply wp_pair_moves_new.
Qed.

Definition same_world (s s' : server) : Prop := sv_world s' = sv_world s.
#[export] Instance same_world_preorder : PreOrder same_world.
Proof. split; [done|]. intros x y z H1 H2. unfold same_world in *. congruence. Qed.

Lemma pair_moves_world p : preserves same_world (ik_pair_moves p).
Proof.
  assert (forall A (H : InoObj A) q, preserves same_world (iload (A := A) q)) as Hload.
  { intros A H q s. unfold iload. by destruct (_ !! q). }
  assert (forall A (H : InoObj A) q f, preserves same_world (iupdate (A := A) q f)) as Hupd.
  { intros A H q f s. unfold iupdate. by destruct (_ !! q). }
  assert (forall f, preserves same_world (ino_modify f)) as Hmod by done.
  unfold ik_pair_moves, ik_event_add_microseconds, ik_pair_events, ino_gets. preserve.
Qed.

Lemma wp_process_events A B s :
  moves_ok (sv_kernel s) -> looked_at A B (sv_kernel s) ->
  let k := sv_kernel s in
  wp ik_process_events (fun _ s' =>
    progress (queue k) (pending (ints k) (todo k)) (under_way k) (sv_kernel s') /\
    forall T past, (forall tv, g_time_val_add tv MOVE_HOLD_UNTIL_TIME = tv) ->
      clock_past T past -> past (sv_world s) -> held_until T k -> todo (sv_kernel s') = []) s.
Proof.
  intros Hk Hl k. unfold ik_process_events. apply wp_bind, wp_ino_gets. fold (todo (sv_kernel s)).
  pose proof Hl as (El & _). apply wp_bind. rewrite El. eapply wp_mono.
  { apply (wp_preserves same_world).
    - apply (preserves_for_each same_world). apply pair_moves_world.
    - by apply wp_for_each_pair_moves. }
  intros [] s1 [[[(Hk1 & Et1 & Eq1 & Ep1 & Es1) Hl1] Hh1] Hw1]. rewrite <- El in Hl1 |- *. fold k in Et1.
  eapply wp_mono; [apply (wp_process_loop (queue k) (pending (ints k) (todo k)) (under_way k))|].
  - split; [done|]. rewrite Et1 in *. split; [done|]. exists []. rewrite app_nil_r, Ep1, Es1. by split_and!.
  - rewrite Et1. fold k. lia.
  - intros [] s2 [Hp2 HT]. split; [done|]. intros T past Hadd Hclock Hpast Hheld.
    apply (HT T past Hclock); [by rewrite Hw1|].
    intros p i Hi. destruct (Hh1 Hadd p (iki_hold_until i)) as (q & (j & Hj & ->)%fmap_Some).
    { unfold hold_of. by rewrite Hi. }
    by apply (Hheld q j).
Qed.

(** C18: from any state of the queues that the backend can be in,
    [ik_process_events] completes and keeps their invariant.  It queues new
    events behind those queued, in the order of the kernel; no event is lost or
    duplicated (those queued, their other halves and those still pending are
    together the ones that were under way); and no half of a move is handed on:
    a queued event is a whole move, or not part of one any more. *)
Theorem process_events_conserves A B s :
  moves_ok (sv_kernel s) -> looked_at A B (sv_kernel s) ->
  exists s', ik_process_events s = Ok (tt, s') /\
    let k := sv_kernel s in let k' := sv_kernel s' in
    moves_ok k' /\ looked_at (todo k') [] k' /\
    exists new, queue k' = queue k ++ new /\
      new ++ pending (ints k') (todo k') `sublist_of` pending (ints k) (todo k) /\
      Forall (complete (evs k')) new /\
      under_way k' ≡ₚ under_way k.
Proof.
  intros Hk Hl. destruct (wp_Ok _ _ _ (wp_process_events A B s Hk Hl)) as ([] & s' & E & H & _).
  by exists s'.
Qed.

(** C20: as long as the clock does not go back, nothing that was read stays
    behind: after [ik_process_events] all events are in [event_queue], on
    their own or as the other half of a move there. *)
Theorem process_events_empties A B T (past : world -> Prop) s :
  moves_ok (sv_kernel s) -> looked_at A B (sv_kernel s) ->
  (forall tv, g_time_val_add tv MOVE_HOLD_UNTIL_TIME = tv) ->
  clock_past T past -> past (sv_world s) -> held_until T (sv_kernel s) ->
  exists s', ik_process_events s = Ok (tt, s') /\
    let k := sv_kernel s in let k' := sv_kernel s' in
    todo k' = [] /\ sent_out (evs k') (queue k') ≡ₚ under_way k.
Proof.
  intros Hk Hl Hadd Hclock Hpast Hheld.
  destruct (wp_Ok _ _ _ (wp_process_events A B s Hk Hl)) as ([] & s' & E & (_ & _ & _ & _ & _ & _ & Hp) & HT).
  specialize (HT T past Hadd Hclock Hpast Hheld). exists s'. split; [done|]. split; [done|].
  rewrite HT in Hp. simpl in Hp. by rewrite app_nil_r in Hp.
Qed.
End Loop.
