(* ===== verification/InotifyRead.v ===== *)
(** * Reading the kernel's events

    The bytes of [struct inotify_event], and [ik_read_callback]: it takes in
    exactly the events that the kernel wrote, in order, and they join the
    events under way. *)

From S2P Require Import Prelude Protocol Monad OS Fs State.
From S2P Require Import InotifyState InotifyKernel InotifyPairing InotifyMoves.

Local Open Scope Z_scope.

#[local] Existing Instance inotify_kernel.

(** ** [struct inotify_event] *)

Definition bytes_of_u32 (z : Z) : list byte := bytes_of_u16 z ++ bytes_of_u16 (z / 65536).

(** An event of the kernel; the name is padded with zeros. *)
Record kernel_event := mk_kernel_event {
  ke_wd : Z;
  ke_mask : Z;
  ke_cookie : Z;
  ke_name : list byte;
  ke_pad : nat
}.

Definition ke_len (e : kernel_event) : Z := Z.of_nat (length (ke_name e) + ke_pad e).

Definition kernel_bytes (e : kernel_event) : list byte :=
  bytes_of_u32 (ke_wd e) ++ bytes_of_u32 (ke_mask e) ++ bytes_of_u32 (ke_cookie e)
  ++ bytes_of_u32 (ke_len e) ++ ke_name e ++ replicate (ke_pad e) x00.

Definition kernel_event_ok (e : kernel_event) : Prop :=
  -2147483648 <= ke_wd e < 2147483648 /\ 0 <= ke_mask e < 4294967296 /\
  0 <= ke_cookie e < 4294967296 /\ ke_len e < 4294967296 /\
  no_nul (ke_name e) /\ (ke_name e = [] \/ (1 <= ke_pad e)%nat).

(** The event as the backend has it. *)
Definition parsed (e : kernel_event) : ik_event_t :=
  mk_ik_event (ke_wd e) (ke_mask e) (ke_cookie e) (ke_len e) (path_of_bytes (ke_name e)) None.

(** ** Parsing *)

Lemma length_bytes_of_u32 z : length (bytes_of_u32 z) = 4%nat.
Proof. done. Qed.

Lemma length_kernel_bytes e :
  Z.of_nat (length (kernel_bytes e)) = sizeof_inotify_event + ke_len e.
Proof. unfold kernel_bytes, ke_len. rewrite !length_app, length_replicate, !length_bytes_of_u32.
  unfold sizeof_inotify_event. lia. Qed.

Lemma buffer_at_app pre l i : buffer_at (pre ++ l) (length pre + i) = buffer_at l i.
Proof. unfold buffer_at. by rewrite lookup_app_r, Nat.add_comm, Nat.add_sub by lia. Qed.

Lemma u32_at_app pre l i : u32_at (pre ++ l) (length pre + i) = u32_at l i.
Proof. unfold u32_at. by rewrite <- !Nat.add_assoc, !buffer_at_app. Qed.

Lemma u32_at_bytes_of_u32 z l : u32_at (bytes_of_u32 z ++ l) 0 = z mod 4294967296.
Proof.
  transitivity (u16_of_bytes (byte_of_Z z) (byte_of_Z (z / 256)) +
    65536 * u16_of_bytes (byte_of_Z (z / 65536)) (byte_of_Z (z / 65536 / 256))).
  - unfold u32_at, buffer_at, u16_of_bytes, bytes_of_u32, bytes_of_u16. simpl. lia.
  - rewrite !u16_of_bytes_of_u16. unfold u16. change 4294967296 with (65536 * 65536).
    by rewrite Z.rem_mul_r by lia.
Qed.

Lemma s32_mod z : -2147483648 <= z < 2147483648 -> s32 (z mod 4294967296) = z.
Proof.
  intros Hz. unfold s32. destruct (Z.ltb_spec z 0).
  - replace (z mod 4294967296) with (z + 4294967296)
      by (apply (Z.mod_unique z _ (-1)); lia).
    rewrite (proj2 (Z.ltb_ge _ _)) by lia. lia.
  - rewrite Z.mod_small by lia. by rewrite (proj2 (Z.ltb_lt _ _)) by lia.
Qed.

Lemma c_string_padded name pad l :
  no_nul name -> (1 <= pad)%nat -> c_string (name ++ replicate pad x00 ++ l) = name.
Proof.
  intros Hn Hp. destruct pad as [|pad]; [lia|]. clear Hp. induction Hn as [|b name Hb Hn IH]; [done|].
  simpl. destruct (Strings.Byte.eqb b x00) eqn:E; [|f_equal; exact IH].
  apply Strings.Byte.byte_dec_bl in E. done.
Qed.

Lemma ik_event_new_at pre l : ik_event_new (pre ++ l) (length pre) = ik_event_new l 0.
Proof.
  unfold ik_event_new. rewrite <- (Nat.add_0_r (length pre)) at 1. rewrite !u32_at_app.
  rewrite drop_app_add. done.
Qed.

Lemma ik_event_new_parses pre e post :
  kernel_event_ok e -> ik_event_new (pre ++ kernel_bytes e ++ post) (length pre) = parsed e.
Proof.
  intros (Hwd & Hmask & Hcookie & Hlen & Hname & Hpad). rewrite ik_event_new_at.
  unfold kernel_bytes. rewrite <- !app_assoc. set (l := ke_name e ++ _).
  unfold ik_event_new. rewrite u32_at_bytes_of_u32, s32_mod by done.
  change (drop (0 + 16) _) with l.
  change (u32_at _ (0 + 4)) with (u32_at (bytes_of_u32 (ke_mask e) ++ bytes_of_u32 (ke_cookie e) ++
    bytes_of_u32 (ke_len e) ++ l) 0).
  change (u32_at _ (0 + 8)) with (u32_at (bytes_of_u32 (ke_cookie e) ++ bytes_of_u32 (ke_len e) ++ l) 0).
  change (u32_at _ (0 + 12)) with (u32_at (bytes_of_u32 (ke_len e) ++ l) 0).
  assert (0 <= ke_len e) by (unfold ke_len; lia).
  rewrite !u32_at_bytes_of_u32, !Z.mod_small by lia. unfold parsed. f_equal.
  destruct (Z.eqb_spec (ke_len e) 0) as [E|E]; cbn [negb].
  - unfold ke_len in E. assert (ke_name e = []) as -> by (destruct (ke_name e); [done|simpl in E; lia]). done.
  - f_equal. destruct Hpad as [Hn|Hp].
    + unfold l. rewrite Hn in *. unfold ke_len in E. rewrite Hn in E. simpl in E |- *.
      by apply (c_string_padded [] (ke_pad e)); [constructor|lia].
    + by apply c_string_padded.
Qed.

(** ** Arrival of an event *)

Definition next_ptr (k : inotify_state) : ptr := ino_next (ino_heap_of k).

(** The allocator is ahead of every event under way. *)
Definition fresh_ok (k : inotify_state) : Prop :=
  (forall p i, ints k !! p = Some i -> (p < next_ptr k)%positive) /\
  (forall e, e ∈ under_way k -> (e < next_ptr k)%positive).

Section Arrived.
Context (k k' : inotify_state) (A B : list ptr) (e : ik_event_t) (h : timeval).
Context (Hk : moves_ok k) (Hlook : looked_at A B k) (Hfresh : fresh_ok k) (Hpair : ik_pair e = None).
Let n : ptr := next_ptr k.
Let p : ptr := Pos.succ n.
Context (Ei : ints k' = <[p := mk_ik_internal n false false h None]> (ints k)).
Context (Ee : evs k' = <[n := e]> (evs k)) (Et : todo k' = todo k ++ [p]) (Eq : queue k' = queue k).
Context (Eh : hash k' = hash k) (En : next_ptr k' = Pos.succ p).

Lemma arrived_new_ptr x : x ∈ todo k -> x <> p.
Proof.
  intros Hx ->. destruct (mv_int k Hk p Hx) as [i Hi]. destruct Hfresh as [Hf _].
  specialize (Hf p i Hi). unfold p, n in Hf. lia.
Qed.

Lemma arrived_new_event x : x ∈ under_way k -> evs k' !! x = evs k !! x.
Proof.
  intros Hx. rewrite Ee, lookup_insert_ne; [done|]. intros <-. destruct Hfresh as [_ Hf].
  specialize (Hf n Hx). unfold n in Hf. lia.
Qed.

Lemma arrived_int x i : x ∈ todo k -> ints k' !! x = Some i <-> ints k !! x = Some i.
Proof. intros Hx. rewrite Ei, lookup_insert_ne; [done|]. intros E. by apply (arrived_new_ptr x). Qed.

Lemma arrived_back x i : x ∈ todo k' -> ints k' !! x = Some i ->
  x ∈ todo k /\ ints k !! x = Some i \/ x = p /\ i = mk_ik_internal n false false h None.
Proof.
  rewrite Et. intros [Hx| ->%list_elem_of_singleton]%elem_of_app.
  - left. split; [done|]. by apply arrived_int.
  - rewrite Ei, lookup_insert_eq. intros [= <-]. by right.
Qed.

Lemma arrived_pending : pending (ints k') (todo k') = pending (ints k) (todo k) ++ [n].
Proof.
  assert (forall l, pending (ints k') (l ++ [p]) = pending (ints k') l ++ [n]) as Happ.
  { induction l as [|x l IH]; simpl.
    - unfold unsent_event. by rewrite Ei, lookup_insert_eq.
    - rewrite IH. by destruct (unsent_event (ints k') x). }
  rewrite Et, Happ. f_equal. apply pending_ext. intros x Hx. unfold unsent_event.
  rewrite Ei, lookup_insert_ne; [done|]. intros E. by apply (arrived_new_ptr x).
Qed.

Lemma arrived_sent_out : sent_out (evs k') (queue k') = sent_out (evs k) (queue k).
Proof.
  rewrite Eq. apply sent_out_ext. intros x Hx. unfold with_pair. rewrite arrived_new_event; [done|].
  apply elem_of_app. left. by apply queue_in_sent_out.
Qed.

Lemma arrived_under_way : under_way k' = under_way k ++ [n].
Proof. unfold under_way. by rewrite arrived_pending, arrived_sent_out, app_assoc. Qed.

Lemma arrived_pending_event x i :
  x ∈ todo k -> ints k !! x = Some i -> iki_sent i = false -> evs k' !! iki_event i = evs k !! iki_event i.
Proof.
  intros Hx Hi Hs. apply arrived_new_event, elem_of_app. right. apply elem_of_pending. eauto 10.
Qed.

Lemma arrived_fresh_ok : fresh_ok k'.
Proof.
  destruct Hfresh as [H1 H2]. split.
  - intros x i. rewrite Ei, En. intros [[<- _]|[_ Hx]]%lookup_insert_Some; [lia|].
    specialize (H1 x i Hx). unfold p, n. lia.
  - intros x. rewrite arrived_under_way, En.
    intros [Hx| ->%list_elem_of_singleton]%elem_of_app; [specialize (H2 x Hx)|]; unfold p, n; lia.
Qed.

Lemma arrived_moves_ok : moves_ok k'.
Proof.
  split.
  - rewrite Et. apply NoDup_app. split_and!; [apply Hk| |apply NoDup_singleton].
    intros x Hx ->%list_elem_of_singleton. by apply (arrived_new_ptr p).
  - intros x. rewrite Et. intros [Hx| ->%list_elem_of_singleton]%elem_of_app.
    + destruct (mv_int k Hk x Hx) as [i Hi]. exists i. by apply arrived_int.
    + rewrite Ei, lookup_insert_eq. done.
  - change (NoDup (under_way k')). rewrite arrived_under_way. apply NoDup_app.
    split_and!; [apply Hk| |apply NoDup_singleton].
    intros x Hx ->%list_elem_of_singleton. destruct Hfresh as [_ Hf]. specialize (Hf n Hx). unfold n in Hf. lia.
  - intros x i Hx Hi Hs. destruct (arrived_back x i Hx Hi) as [[Hx' Hi']|[-> ->]].
    + rewrite (arrived_pending_event x i) by done. by apply (mv_event k Hk x).
    + exists e. simpl. by rewrite Ee, lookup_insert_eq.
  - intros x i q Hx Hi Hs Hq. destruct (arrived_back x i Hx Hi) as [[Hx' Hi']|[-> ->]]; [|done].
    destruct (mv_pair k Hk x i q Hx' Hi' Hs Hq) as (a & j & f & Ha & Hj & Hf & Hjs & Hjn & Hjp & Hap & Hh &
      l1 & l2 & El & Hql).
    assert (q ∈ todo k) as Hqt by (rewrite El; apply elem_of_app; right; by right).
    exists a, j, f. rewrite (arrived_pending_event x i), (arrived_pending_event q j) by done.
    split_and!; try done; [by apply arrived_int|]. exists l1, (l2 ++ [p]). rewrite Et, El.
    split; [by rewrite <- app_assoc|]. apply elem_of_app. by left.
  - intros x x' i i' q Hx Hx' Hi Hi' Hs Hs' Hq Hq'.
    destruct (arrived_back x i Hx Hi) as [[? ?]|[-> ->]]; [|done].
    destruct (arrived_back x' i' Hx' Hi') as [[? ?]|[-> ->]]; [|done]. by apply (mv_one k Hk x x' i i' q).
  - intros c x. rewrite Eh. intros Hx.
    destruct (mv_hash k Hk c x Hx) as (i & a & Hin & Hi & Hs & Hn & Hp & Ha & Hrest).
    exists i, a. rewrite (arrived_pending_event x i) by done. split; [rewrite Et; apply elem_of_app; by left|].
    split; [by apply arrived_int|]. done.
Qed.

Lemma arrived_looked_at : looked_at A (B ++ [p]) k'.
Proof.
  destruct Hlook as (El & HA & HB). split; [by rewrite Et, El, app_assoc|]. split.
  - intros a i Ha Hi. apply (HA a i Ha). apply arrived_int; [|done]. rewrite El. apply elem_of_app. by left.
  - intros b i [Hb| ->%list_elem_of_singleton]%elem_of_app Hi.
    + apply (HB b i Hb). apply arrived_int; [|done]. rewrite El. apply elem_of_app. by right.
    + rewrite Ei, lookup_insert_eq in Hi. by injection Hi as <-.
Qed.
End Arrived.

(** ** [ik_read_callback] *)

Section Read.
Context {os : OS} {ino : Inotify os}.

(** [es] has come in after all that was there before. *)
Definition read_in (A B : list ptr) (es : list kernel_event) (k k' : inotify_state) : Prop :=
  moves_ok k' /\ fresh_ok k' /\ queue k' = queue k /\
  (exists ps, looked_at A (B ++ ps) k') /\
  (forall x, x ∈ under_way k -> evs k' !! x = evs k !! x) /\
  exists ns, under_way k' = under_way k ++ ns /\
    Forall2 (fun n e => evs k' !! n = Some (parsed e)) ns es.

Lemma read_in_nil A B k : moves_ok k -> looked_at A B k -> fresh_ok k -> read_in A B [] k k.
Proof.
  intros. split_and!; try done; [exists []; by rewrite app_nil_r|].
  exists []. rewrite app_nil_r. by split; [|constructor].
Qed.

Lemma wp_internal_new n s (Q : ptr -> server -> Prop) :
  (forall w h, let p := next_ptr (sv_kernel s) in
     Q p (upd_ino (upd_ino_heap (fun x => set_ino_next (Pos.succ p)
            (set_ik_internals (<[p := mk_ik_internal n false false h None]> (ik_internals x)) x)))
          (set_sv_world w s))) ->
  wp (ik_event_internal_new n) Q s.
Proof.
  intros HQ. unfold ik_event_internal_new. apply wp_bind, wp_sys. intros tv w _. apply wp_ialloc.
  exact (HQ w (g_time_val_add tv DEFAULT_HOLD_UNTIL_TIME)).
Qed.

Lemma wp_read_loop es fuel pre A B s :
  Forall kernel_event_ok es ->
  Z.of_nat (length (pre ++ concat (map kernel_bytes es))) <= ik_buffer_size ->
  (length (concat (map kernel_bytes es)) < fuel)%nat ->
  moves_ok (sv_kernel s) -> looked_at A B (sv_kernel s) -> fresh_ok (sv_kernel s) ->
  wp (read_events_loop fuel (pre ++ concat (map kernel_bytes es)) (length pre))
    (fun n s' => n = length es /\ read_in A B es (sv_kernel s) (sv_kernel s') /\
       process_eq_running (ik_of (sv_kernel s')) = process_eq_running (ik_of (sv_kernel s))) s.
Proof.
  revert fuel pre B s. induction es as [|e es IH]; intros fuel pre B s Hes Hsize Hfuel Hk Hl Hf.
  { destruct fuel as [|fuel]; [lia|]. simpl. rewrite decide_False by (rewrite length_app; simpl; lia).
    apply wp_ret. split_and!; [done|by apply read_in_nil|done]. }
  apply Forall_cons in Hes as [He Hes]. destruct fuel as [|fuel]; [lia|].
  change (concat (map kernel_bytes (e :: es))) with (kernel_bytes e ++ concat (map kernel_bytes es)) in *.
  pose proof (length_kernel_bytes e) as Hlen. unfold sizeof_inotify_event in Hlen.
  assert (0 <= ke_len e) by (unfold ke_len; lia). rewrite !length_app in Hsize. rewrite length_app in Hfuel.
  cbn [read_events_loop]. rewrite decide_True by (rewrite !length_app; lia).
  rewrite (Z.gtb_ltb _ ik_buffer_size), (proj2 (Z.ltb_ge ik_buffer_size _))
    by (unfold sizeof_inotify_event; lia).
  rewrite ik_event_new_parses by done.
  apply wp_bind, wp_ialloc, wp_bind, wp_internal_new. intros w h p. apply wp_bind, wp_ino_modify.
  set (s1 := upd_ino _ _). set (k1 := sv_kernel s1).
  assert (moves_ok k1 /\ fresh_ok k1 /\ looked_at A (B ++ [p]) k1 /\
    under_way k1 = under_way (sv_kernel s) ++ [next_ptr (sv_kernel s)] /\
    (forall x, x ∈ under_way (sv_kernel s) -> evs k1 !! x = evs (sv_kernel s) !! x) /\
    evs k1 !! next_ptr (sv_kernel s) = Some (parsed e)) as (Hk1 & Hf1 & Hl1 & Hu1 & Ho1 & Hn1).
  { split_and!.
    - by apply (arrived_moves_ok (sv_kernel s) k1 (parsed e) h).
    - by apply (arrived_fresh_ok (sv_kernel s) k1 (parsed e) h).
    - by apply (arrived_looked_at (sv_kernel s) k1 A B h).
    - by apply (arrived_under_way (sv_kernel s) k1 (parsed e) h).
    - intros x Hx. by apply (arrived_new_event (sv_kernel s) k1 (parsed e)).
    - apply lookup_insert_eq. }
  replace (length pre + Z.to_nat (sizeof_inotify_event + ik_len (parsed e)))%nat
    with (length (pre ++ kernel_bytes e))
    by (rewrite length_app; unfold sizeof_inotify_event; change (ik_len (parsed e)) with (ke_len e); lia).
  rewrite app_assoc. apply wp_bind. eapply wp_mono; [apply (IH fuel _ (B ++ [p]))|]; try done.
  { rewrite !length_app. lia. }
  { lia. }
  intros n s2 (-> & (Hk2 & Hf2 & Hq2 & [ps Hl2] & Ho2 & ns & Hu2 & Hns) & Hr2).
  apply wp_ret. split; [done|]. split; [|done]. split_and!; try done.
  - exists (p :: ps). by rewrite <- app_assoc in Hl2.
  - intros x Hx. rewrite <- (Ho1 x Hx). apply Ho2. fold k1. rewrite Hu1. apply elem_of_app. by left.
  - exists (next_ptr (sv_kernel s) :: ns). split.
    + rewrite Hu2. fold k1. rewrite Hu1. by rewrite <- app_assoc.
    + constructor; [|done]. rewrite <- Hn1. apply Ho2. fold k1. rewrite Hu1. apply elem_of_app.
      right. by left.
Qed.

Lemma wp_read_callback es A B s :
  glib_locks = false ->
  (inotify_read (inotify_instance_fd (ik_of (sv_kernel s))) ik_buffer_size (sv_world s)).1
    = concat (map kernel_bytes es) ->
  Forall kernel_event_ok es ->
  Z.of_nat (length (concat (map kernel_bytes es))) <= ik_buffer_size ->
  moves_ok (sv_kernel s) -> looked_at A B (sv_kernel s) -> fresh_ok (sv_kernel s) ->
  wp ik_read_callback (fun r s' => r = true /\ read_in A B es (sv_kernel s) (sv_kernel s') /\
    process_eq_running (ik_of (sv_kernel s'))
      = process_eq_running (ik_of (sv_kernel s)) || negb (bool_decide (es = []))) s.
Proof.
  intros Hlock Hread Hes Hsize Hk Hl Hf. unfold ik_read_callback, G_LOCK, G_UNLOCK. rewrite Hlock.
  apply wp_bind, wp_ret, wp_bind, wp_ino_gets, wp_bind, wp_sys. intros data w Hd.
  rewrite Hd in Hread. simpl in Hread. subst data.
  apply wp_bind. eapply wp_mono; [apply (wp_read_loop es _ [] A B (set_sv_world w s)); auto; lia|].
  intros n s1 (-> & Hin & Hr). apply wp_bind, wp_ino_gets.
  apply wp_bind, wp_when; intros Hb; [apply wp_ino_modify|]; apply wp_bind, wp_ret, wp_ret.
  - split; [done|]. split; [destruct Hin as [Hin Hrest]; split; [|exact Hrest];
      by apply (moves_ok_ext (sv_kernel s1))|]. simpl.
    apply andb_true_iff in Hb as [_ Hb]. destruct es; [done|]. simpl. by rewrite orb_true_r.
  - split; [done|]. split; [exact Hin|]. rewrite Hr in *. simpl in *.
    destruct (process_eq_running (ik_of (sv_kernel s))); [done|]. by destruct es.
Qed.

(** C19: [ik_read_callback] takes in exactly the events that the kernel wrote
    (any number of them, with padded names, up to the size of its buffer): they
    join the events under way, in order and behind those that were there, each
    parsed to the fields the kernel encoded; the invariant of the pairing code
    holds again; the processing timer runs if anything was read. *)
Theorem read_callback_reads_events es A B s :
  glib_locks = false ->
  (forall fd size w, exists w', inotify_read fd size w = (concat (map kernel_bytes es), w')) ->
  Forall kernel_event_ok es ->
  Z.of_nat (length (concat (map kernel_bytes es))) <= ik_buffer_size ->
  moves_ok (sv_kernel s) -> looked_at A B (sv_kernel s) -> fresh_ok (sv_kernel s) ->
  exists s', ik_read_callback s = Ok (true, s') /\
    (let k := sv_kernel s in let k' := sv_kernel s' in
     moves_ok k' /\ fresh_ok k' /\ queue k' = queue k /\
     (exists ps, looked_at A (B ++ ps) k') /\
     (forall x, x ∈ under_way k -> evs k' !! x = evs k !! x) /\
     exists ns, under_way k' = under_way k ++ ns /\
       Forall2 (fun n e => evs k' !! n = Some (parsed e)) ns es) /\
    process_eq_running (ik_of (sv_kernel s'))
      = process_eq_running (ik_of (sv_kernel s)) || negb (bool_decide (es = [])).
Proof.
  intros Hlock Hread Hes Hsize Hk Hl Hf.
  assert ((inotify_read (inotify_instance_fd (ik_of (sv_kernel s))) ik_buffer_size (sv_world s)).1
    = concat (map kernel_bytes es)) as Hr by (by destruct (Hread (inotify_instance_fd (ik_of (sv_kernel s)))
      ik_buffer_size (sv_world s)) as [w' ->]).
  destruct (wp_Ok _ _ _ (wp_read_callback es A B s Hlock Hr Hes Hsize Hk Hl Hf)) as (r & s' & E & -> & Hin).
  by exists s'.
Qed.
End Read.
