(* ===== verification/InotifyInv.v ===== *)
(** * The tables of the inotify backend in order

    What connects paths, subscriptions and kernel watches with watched
    directories, as an invariant, and the operations of [inotify-path.c] and
    [inotify-missing.c] that keep it: no hash table or list refers to a freed
    directory or subscription, and every watched directory has a subscription. *)

From S2P Require Import Prelude Protocol Monad OS Fs State.
From S2P Require Import Tree Frames InotifyState InotifyKernel InotifyMissing InotifyPath.
From S2P Require Import InotifyWatch InotifyPairing InotifyMoves InotifyRead.

Local Open Scope Z_scope.

#[local] Existing Instance inotify_kernel.

(** ** Tables *)

Abbreviation dirs_map := (gmap ptr ip_watched_dir_t).

(** The three hash tables of [inotify-path.c] against the directories. *)
Record tables_ok (dirs : dirs_map) (v : ip_vars) : Prop := {
  tb_path p d : path_dir_hash v !! p = Some d -> exists x, dirs !! d = Some x /\ ipd_path x = p;
  tb_wd w l : wd_dir_hash v !! w = Some l ->
    NoDup l /\ forall d, d ∈ l -> exists x, dirs !! d = Some x /\ ipd_wd x = w;
  tb_dir d x : dirs !! d = Some x ->
    0 <= ipd_wd x /\ NoDup (ipd_subs x) /\ forall q, q ∈ ipd_subs x -> sub_dir_hash v !! q = Some d;
  tb_sub q d : sub_dir_hash v !! q = Some d -> exists x, dirs !! d = Some x /\ q ∈ ipd_subs x
}.

Lemma tables_empty v : tables_ok ∅ (set_path_dir_hash ∅ (set_sub_dir_hash ∅ (set_wd_dir_hash ∅ v))).
Proof. split; simpl; intros; simplify_map_eq. Qed.

Lemma set_wd_id v : v = set_wd_dir_hash (wd_dir_hash v) v.
Proof. by destruct v. Qed.

(** A directory that is new in the tables of paths and watches. *)
Lemma ino_tables_new dirs v d path wd :
  tables_ok dirs v -> dirs !! d = None -> 0 <= wd ->
  tables_ok (<[d := mk_ip_dir path wd []]> dirs)
    (set_path_dir_hash (<[path := d]> (path_dir_hash v))
      (set_wd_dir_hash (<[wd := d :: default [] (wd_dir_hash v !! wd)]> (wd_dir_hash v)) v)).
Proof.
  intros [Hp Hw Hd Hs] Hnew Hpos.
  assert (forall d' x, dirs !! d' = Some x -> <[d := mk_ip_dir path wd []]> dirs !! d' = Some x) as Hold.
  { intros d' x Hx. rewrite lookup_insert_ne; [done|congruence]. }
  split; simpl.
  - intros p d' [[<- <-]|[_ H]]%lookup_insert_Some.
    + exists (mk_ip_dir path wd []). by rewrite lookup_insert_eq.
    + destruct (Hp p d' H) as (x & Hx & ?). exists x. auto.
  - intros w l [[<- <-]|[_ H]]%lookup_insert_Some.
    + assert (NoDup (default [] (wd_dir_hash v !! wd)) /\
        forall d', d' ∈ default [] (wd_dir_hash v !! wd) -> exists x, dirs !! d' = Some x /\ ipd_wd x = wd) as [Hn Hl].
      { destruct (wd_dir_hash v !! wd) as [l|] eqn:E; [by apply Hw|]. split; [constructor|by intros d' ?%elem_of_nil]. }
      split.
      * constructor; [|done]. intros H. destruct (Hl d H) as (x & ? & _). congruence.
      * intros d' [->|H']%elem_of_cons; [exists (mk_ip_dir path wd []); by rewrite lookup_insert_eq|].
        destruct (Hl d' H') as (x & Hx & ?). exists x. auto.
    + destruct (Hw w l H) as [Hn Hl]. split; [done|]. intros d' H'. destruct (Hl d' H') as (x & Hx & ?). exists x. auto.
  - intros d' x [[<- <-]|[_ H]]%lookup_insert_Some; [|by apply Hd].
    split; [done|]. split; [constructor|by intros q ?%elem_of_nil].
  - intros q d' H. destruct (Hs q d' H) as (x & Hx & ?). exists x. auto.
Qed.

(** The subscriptions of a directory become [l]. *)
Lemma tables_subs dirs v v' d x (l : list ptr) :
  tables_ok dirs v -> dirs !! d = Some x -> path_dir_hash v' = path_dir_hash v ->
  wd_dir_hash v' = wd_dir_hash v -> NoDup l ->
  (forall q, q ∈ l -> sub_dir_hash v !! q = None \/ sub_dir_hash v !! q = Some d) ->
  (forall q, sub_dir_hash v' !! q = if decide (q ∈ l) then Some d
     else if decide (sub_dir_hash v !! q = Some d) then None else sub_dir_hash v !! q) ->
  tables_ok (<[d := set_ipd_subs l x]> dirs) v'.
Proof.
  intros [Hp Hw Hd Hs] Hx Ep Ew Hnd Hl Eq.
  assert (forall d' y, dirs !! d' = Some y -> exists y', <[d := set_ipd_subs l x]> dirs !! d' = Some y' /\
    ipd_path y' = ipd_path y /\ ipd_wd y' = ipd_wd y) as Hold.
  { intros d' y Hy. destruct (decide (d = d')) as [<-|Hne].
    - rewrite lookup_insert_eq. assert (y = x) as -> by congruence. by eexists.
    - rewrite lookup_insert_ne by done. by exists y. }
  split; rewrite ?Ep, ?Ew.
  - intros p d' H. destruct (Hp p d' H) as (y & Hy & <-). destruct (Hold d' y Hy) as (y' & ? & ? & _). eauto.
  - intros w k H. destruct (Hw w k H) as [Hn Hk]. split; [done|]. intros d' Hd'.
    destruct (Hk d' Hd') as (y & Hy & <-). destruct (Hold d' y Hy) as (y' & ? & _ & ?). eauto.
  - intros d' y [[<- <-]|[Hne H]]%lookup_insert_Some; simpl.
    + destruct (Hd d x Hx) as (? & _ & _). split; [done|]. split; [done|]. intros q Hq. by rewrite Eq, decide_True.
    + destruct (Hd d' y H) as (? & ? & Hm). split; [done|]. split; [done|]. intros q Hq. specialize (Hm q Hq).
      rewrite Eq, Hm, !decide_False; [done|congruence|]. intros Hql. destruct (Hl q Hql); congruence.
  - intros q d'. rewrite Eq. destruct (decide (q ∈ l)) as [Hq|Hq].
    { intros [= <-]. eexists. split; [apply lookup_insert_eq|done]. }
    destruct (decide _) as [|Hne]; [done|]. intros H. destruct (Hs q d' H) as (y & Hy & ?). exists y.
    rewrite lookup_insert_ne; [done|congruence].
Qed.

(** A subscription without a directory gets one. *)
Lemma tables_map_sub dirs v d x q :
  tables_ok dirs v -> dirs !! d = Some x -> sub_dir_hash v !! q = None ->
  tables_ok (<[d := set_ipd_subs (q :: ipd_subs x) x]> dirs)
    (set_sub_dir_hash (<[q := d]> (sub_dir_hash v)) v).
Proof.
  intros Hv Hx Hq. destruct (tb_dir _ _ Hv d x Hx) as (_ & Hn & Hm).
  apply (tables_subs dirs v); try done; simpl.
  - constructor; [|done]. intros H. specialize (Hm q H). congruence.
  - intros r [->|Hr]%elem_of_cons; [by left|]. right. by apply Hm.
  - intros r. destruct (decide (q = r)) as [<-|Hne].
    { rewrite lookup_insert_eq, decide_True; [done|by left]. }
    rewrite lookup_insert_ne by done. destruct (decide (r ∈ q :: ipd_subs x)) as [[->|Hr]%elem_of_cons|Hr]; [done| |].
    + by apply Hm.
    + rewrite decide_False; [done|]. intros H. destruct (tb_sub _ _ Hv r d H) as (y & ? & Hy).
      apply Hr. right. congruence.
Qed.

(** A subscription leaves its directory. *)
Lemma tables_unmap_sub dirs v d x q :
  tables_ok dirs v -> dirs !! d = Some x -> sub_dir_hash v !! q = Some d ->
  tables_ok (<[d := set_ipd_subs (g_list_remove (ipd_subs x) q) x]> dirs)
    (set_sub_dir_hash (delete q (sub_dir_hash v)) v).
Proof.
  intros Hv Hx Hq. destruct (tb_dir _ _ Hv d x Hx) as (_ & Hn & Hm). rewrite g_list_remove_NoDup by done.
  apply (tables_subs dirs v); try done; simpl.
  - by apply g_list_remove_all_nodup.
  - intros r [Hr _]%elem_of_g_list_remove_all. right. by apply Hm.
  - intros r. destruct (decide (q = r)) as [<-|Hne].
    { rewrite lookup_delete_eq, decide_False by (by intros [_ ?]%elem_of_g_list_remove_all). by rewrite decide_True. }
    rewrite lookup_delete_ne by done. destruct (decide _) as [[Hr _]%elem_of_g_list_remove_all|Hr]; [by apply Hm|].
    destruct (decide _) as [H|]; [|done]. destruct (tb_sub _ _ Hv r d H) as (y & ? & Hy). destruct Hr.
    apply elem_of_g_list_remove_all. split; congruence.
Qed.

(** All of them leave. *)
Lemma tables_unmap_all dirs v v' d x :
  tables_ok dirs v -> dirs !! d = Some x -> path_dir_hash v' = path_dir_hash v ->
  wd_dir_hash v' = wd_dir_hash v ->
  (forall q, sub_dir_hash v' !! q = if decide (q ∈ ipd_subs x) then None else sub_dir_hash v !! q) ->
  tables_ok (<[d := set_ipd_subs [] x]> dirs) v'.
Proof.
  intros Hv Hx Ep Ew Eq. destruct (tb_dir _ _ Hv d x Hx) as (_ & _ & Hm).
  apply (tables_subs dirs v); try done; [constructor|by intros q ?%elem_of_nil|].
  intros q. rewrite Eq, (decide_False (P := q ∈ [])) by (by intros ?%elem_of_nil).
  destruct (decide (q ∈ _)) as [H|H].
  - by rewrite (Hm q H), decide_True.
  - destruct (decide _) as [E|]; [|done]. destruct (tb_sub _ _ Hv q d E) as (y & ? & ?). congruence.
Qed.

(** A directory without subscriptions goes. *)
Lemma ino_tables_free dirs v v' d x :
  tables_ok dirs v -> dirs !! d = Some x -> ipd_subs x = [] ->
  (forall p e, path_dir_hash v' !! p = Some e -> path_dir_hash v !! p = Some e /\ p <> ipd_path x) ->
  (forall w l, wd_dir_hash v' !! w = Some l -> exists l', wd_dir_hash v !! w = Some l' /\ (NoDup l' -> NoDup l) /\ l ⊆ l' /\ d ∉ l) ->
  sub_dir_hash v' = sub_dir_hash v ->
  tables_ok (delete d dirs) v'.
Proof.
  intros Hv Hx Hemp Ep Ew Es. pose proof Hv as [Hp Hw Hd Hs].
  assert (forall e y, dirs !! e = Some y -> e <> d -> delete d dirs !! e = Some y) as Hold
    by (intros e y Hy Hne; by rewrite lookup_delete_ne).
  split; rewrite ?Es.
  - intros p e H. destruct (Ep p e H) as [H' Hne]. destruct (Hp p e H') as (y & Hy & Hpath). exists y.
    split; [|done]. apply Hold; [done|]. congruence.
  - intros w l H. destruct (Ew w l H) as (l' & H' & Hnd & Hsub & Hdl). destruct (Hw w l' H') as [Hn Hl].
    split; [by apply Hnd|]. intros e He. destruct (Hl e) as (y & Hy & ?); [by apply Hsub|]. exists y. split; [|done].
    apply Hold; [done|]. by intros ->.
  - intros e y [_ H]%lookup_delete_Some. by apply Hd.
  - intros q e H. destruct (Hs q e H) as (y & Hy & Hq). exists y. split; [|done]. apply Hold; [done|].
    intros ->. assert (y = x) as -> by congruence. rewrite Hemp in Hq. by apply elem_of_nil in Hq.
Qed.

(** ** The invariant *)

Definition dirs (k : inotify_state) : dirs_map := ip_dirs (ino_heap_of k).
Definition isubs (k : inotify_state) : gmap ptr ih_sub_t := ih_subs (ino_heap_of k).
Definition missing (k : inotify_state) : list ptr := missing_sub_list (ih_of k).

(** The events: what [InotifyMoves] needs, and every queued event is complete. *)
Definition events_ok (k : inotify_state) : Prop :=
  moves_ok k /\ fresh_ok k /\ (exists A B, looked_at A B k) /\ Forall (complete (evs k)) (queue k).

(** The subscriptions: those of the helper are in its list and alive, except
    [new], which is on its way in or out; those on the list [l] of the missing
    ones have no directory. *)
Record subs_good (new : option ptr) (l : list ptr) (k : inotify_state) : Prop := {
  sg_live q x : isubs k !! q = Some x -> Some q <> new -> ihs_cancelled x = false /\ q ∈ sub_list (ih_of k);
  sg_list q : q ∈ sub_list (ih_of k) -> is_Some (isubs k !! q);
  sg_once : NoDup (sub_list (ih_of k));
  sg_mapped q d : sub_dir_hash (ip_of k) !! q = Some d -> is_Some (isubs k !! q);
  sg_missing q : q ∈ l -> is_Some (isubs k !! q) /\ sub_dir_hash (ip_of k) !! q = None;
  sg_missing_once : NoDup l
}.

(** Every watched directory has a subscription. *)
Definition used (k : inotify_state) : Prop := forall d x, dirs k !! d = Some x -> ipd_subs x <> [].

(** The allocator is ahead. *)
Definition ahead (k : inotify_state) : Prop :=
  (forall d, is_Some (dirs k !! d) -> (d < next_ptr k)%positive) /\
  (forall q, is_Some (isubs k !! q) -> (q < next_ptr k)%positive).

Record ino_ok (new : option ptr) (l : list ptr) (k : inotify_state) : Prop := {
  io_fd : 0 <= inotify_instance_fd (ik_of k);
  io_events : events_ok k;
  io_tables : tables_ok (dirs k) (ip_of k);
  io_used : used k;
  io_ahead : ahead k;
  io_subs : subs_good new l k;
  io_timer : missing k <> [] -> scan_missing_running (ih_of k) = true
}.

(** ** Steps of [inotify-path.c] *)

Section Steps.
Context {os : OS}.

(** Nothing moves but the tables of directories, the allocator and the world. *)
Record path_step (s s' : server) : Prop := {
  ps_heap : sv_heap s' = sv_heap s;
  ps_ih : ih_of (sv_kernel s') = ih_of (sv_kernel s);
  ps_ik : ik_of (sv_kernel s') = ik_of (sv_kernel s);
  ps_isubs : isubs (sv_kernel s') = isubs (sv_kernel s);
  ps_evs : evs (sv_kernel s') = evs (sv_kernel s);
  ps_ints : ints (sv_kernel s') = ints (sv_kernel s);
  ps_next : (next_ptr (sv_kernel s) <= next_ptr (sv_kernel s'))%positive
}.

#[export] Instance path_step_preorder : PreOrder path_step.
Proof.
  split; [by intros s; split|]. intros s1 s2 s3 [A1 A2 A3 A4 A5 A6 A7] [B1 B2 B3 B4 B5 B6 B7].
  split; [congruence..|lia].
Qed.

Lemma path_step_world w s : path_step s (set_sv_world w s).
Proof. by split. Qed.

Lemma under_way_ext k k' :
  evs k' = evs k -> ints k' = ints k -> todo k' = todo k -> queue k' = queue k -> under_way k' = under_way k.
Proof. intros E1 E2 E3 E4. unfold under_way. by rewrite E1, E2, E3, E4. Qed.

Lemma events_ext k k' :
  evs k' = evs k -> ints k' = ints k -> todo k' = todo k -> queue k' = queue k -> hash k' = hash k ->
  (next_ptr k <= next_ptr k')%positive -> events_ok k -> events_ok k'.
Proof.
  intros E1 E2 E3 E4 E5 En (Hm & [Hf1 Hf2] & (A & B & Hl) & Hc). split; [by apply (moves_ok_ext k)|]. split.
  - split; [intros p i; rewrite E2; intros Hi; specialize (Hf1 p i Hi); lia|].
    intros e. rewrite (under_way_ext k) by done. intros He. specialize (Hf2 e He). lia.
  - split; [exists A, B; unfold looked_at in *; by rewrite E2, E3|]. by rewrite E1, E4.
Qed.

Lemma events_step s s' : path_step s s' -> events_ok (sv_kernel s) -> events_ok (sv_kernel s').
Proof.
  intros [_ _ Ek _ Ee Ei En] H. apply (events_ext (sv_kernel s)); try done;
    unfold todo, queue, hash; by rewrite Ek.
Qed.

End Steps.

(** The tables, with a directory [new] that may lack subscriptions. *)
Record tabs (new : option ptr) (k : inotify_state) : Prop := {
  ta_tables : tables_ok (dirs k) (ip_of k);
  ta_used d x : dirs k !! d = Some x -> Some d <> new -> ipd_subs x <> [];
  ta_ahead d : is_Some (dirs k !! d) -> (d < next_ptr k)%positive
}.

Lemma tabs_ok new l k : ino_ok new l k -> tabs None k.
Proof. intros [_ _ Ht Hu [Ha _] _ _]. split; [done| |done]. intros d x Hx _. by apply (Hu d x). Qed.

(** ** The kernel's part *)

(** A directory directly below the root: the last that [ip_watch_parent] tries. *)
Definition top_level (path : string) : Prop := last_slash path = Some 0%nat.

(** What the documentation of the calls promises: watches are not negative, and
    a read gives whole events.  The lock does nothing in a daemon that has no
    threads. *)
Class InotifyLaws {os : OS} (ino : Inotify os) := {
  watch_nonneg fd p mask w wd w' : inotify_add_watch fd p mask w = (SysOk wd, w') -> 0 <= wd;
  read_whole fd w data w' : inotify_read fd ik_buffer_size w = (data, w') ->
    exists es, data = concat (map kernel_bytes es) /\ Forall kernel_event_ok es /\
      Z.of_nat (length data) <= ik_buffer_size;
  no_threads : glib_locks = false
}.

(** The directories directly below the root do not go missing; without this
    [ip_watch_parent] may not end ([watch_parent_outcome]). *)
Class TopLevel {os : OS} (ino : Inotify os) :=
  top_level_there fd p mask w e w' : top_level p -> inotify_add_watch fd p mask w = (SysErr e, w') -> e <> ENOENT.

(** [p] is [path], or a directory that [path] is below: what precedes one of
    its slashes. *)
Definition above (p path : string) : Prop := p = path \/ exists r, path = (p ++ String slash r)%string.

Lemma str_take_drop i s : (str_take i s ++ str_drop i s)%string = s.
Proof. revert i. induction s as [|c s IH]; intros [|i]; [done..|]. exact (f_equal (String c) (IH i)). Qed.

Lemma cut_at_slash p i : is_slash_at p i = true -> p = (str_take i p ++ String slash (str_drop (S i) p))%string.
Proof.
  unfold is_slash_at. revert i. induction p as [|c p IH]; intros [|i]; simpl; try done.
  - intros ->%Ascii.eqb_eq. by destruct p.
  - intros H. exact (f_equal (String c) (IH i H)).
Qed.

Lemma above_trans p q path : above p q -> above q path -> above p path.
Proof.
  intros [->|[r ->]]; [done|]. intros [<-|[r' ->]]; [right; by exists r|right].
  exists (r ++ String slash r')%string. by rewrite str_app_assoc.
Qed.

Section Path.
Context {os : OS} {glib : GLib} {ino : Inotify os} {il : InotifyLaws ino} {top : TopLevel ino}.
Abbreviation M := (ST server).

Definition has_fd (s : server) : Prop := 0 <= inotify_instance_fd (ik_of (sv_kernel s)).

Lemma wp_ik_watch path mask s :
  has_fd s -> wp (ik_watch path mask) (fun r s' => exists w, s' = set_sv_world w s /\
    inotify_add_watch (inotify_instance_fd (ik_of (sv_kernel s))) path mask (sv_world s) = (r, w)) s.
Proof.
  intros Hfd. unfold ik_watch. apply wp_bind, wp_ino_gets, wp_bind, wp_assert; [by apply Z.geb_le|].
  apply wp_bind, wp_sys. intros r w E. destruct r as [wd|e]; apply wp_bind.
  - apply wp_assert; [apply Z.geb_le; by apply (watch_nonneg _ _ _ _ _ _ E)|]. apply wp_ret. by exists w.
  - apply wp_ret, wp_ret. by exists w.
Qed.

Lemma wp_ik_ignore path wd s :
  has_fd s -> 0 <= wd -> wp (ik_ignore path wd) (fun _ s' => exists w, s' = set_sv_world w s) s.
Proof.
  intros Hfd Hwd. unfold ik_ignore. apply wp_bind, wp_assert; [by apply Z.geb_le|].
  apply wp_bind, wp_ino_gets, wp_bind, wp_assert; [by apply Z.geb_le|].
  apply wp_bind, wp_sys. intros r w _. apply wp_ret. by exists w.
Qed.

(** [ip_watch_parent] ends, at the latest below the root. *)
Lemma wp_watch_parent fuel path mask s :
  has_fd s -> (String.length path < fuel)%nat ->
  wp (ip_watch_parent fuel path mask) (fun o s' => exists w, s' = set_sv_world w s /\
    forall wd p, o = Some (wd, p) -> 0 <= wd /\ above p path) s.
Proof.
  revert path s. induction fuel as [|fuel IH]; intros path s Hfd Hlen; [lia|]. simpl.
  destruct (last_slash path) as [i|] eqn:Ei.
  2:{ apply wp_ret. exists (sv_world s). split; [by destruct s|done]. }
  destruct (last_slash_Some path i Ei) as [Hi _]. pose proof (slash_at_bound path i Hi) as Hb.
  set (next := if Nat.eqb i 0 then path else str_take i path).
  assert (above next path) as Habove.
  { unfold next. destruct (Nat.eqb i 0); [by left|]. right. eexists. by apply cut_at_slash. }
  apply wp_bind. eapply wp_mono; [by apply wp_ik_watch|]. intros [wd|e] s1 (w & -> & E).
  { apply wp_ret. exists w. split; [done|]. intros wd' p [= <- <-].
    by split; [apply (watch_nonneg _ _ _ _ _ _ E)|]. }
  destruct (Z.eqb_spec e ENOENT) as [->|_]; [|apply wp_ret; by exists w].
  assert (i <> 0)%nat as Hi0.
  { intros ->. by apply (top_level_there _ next _ _ ENOENT w) in E. }
  assert (String.length next = i) as Hn.
  { unfold next. rewrite (proj2 (Nat.eqb_neq i 0) Hi0). apply str_take_length. lia. }
  eapply wp_mono; [apply (IH next (set_sv_world w s)); [done|lia]|]. intros o s' (w' & -> & Ho). exists w'.
  split; [done|]. intros wd p Hp. destruct (Ho wd p Hp). split; [done|]. by apply (above_trans p next).
Qed.

(** ** Starting *)

(** [d] is now in the tables, without subscriptions. *)
Definition new_dir (d : ptr) (path : string) (s s' : server) : Prop :=
  path_step s s' /\ tabs (Some d) (sv_kernel s') /\
  (exists x, dirs (sv_kernel s') !! d = Some x /\ ipd_path x = path) /\
  sub_dir_hash (ip_of (sv_kernel s')) = sub_dir_hash (ip_of (sv_kernel s)).

Lemma wp_watch_new_dir path wd s :
  tabs None (sv_kernel s) -> 0 <= wd -> wp (watch_new_dir path wd) (fun d s' => new_dir d path s s') s.
Proof.
  intros [Ht Hu Ha] Hwd. unfold watch_new_dir, ip_watched_dir_new. apply wp_bind, wp_ialloc.
  set (d := ino_next _). set (x := mk_ip_dir path wd []).
  assert (dirs (sv_kernel s) !! d = None) as Hnew.
  { destruct (dirs (sv_kernel s) !! d) eqn:E; [|done]. specialize (Ha d ltac:(by eexists)). unfold next_ptr, d in Ha. lia. }
  assert (<[d := x]> (dirs (sv_kernel s)) !! d = Some x) as Hx by apply lookup_insert_eq.
  unfold ip_map_wd_dir, ip_map_path_dir, wd_dirs.
  apply wp_bind, wp_bind, wp_assert; [by apply Z.geb_le|]. apply wp_bind, wp_ino_gets, wp_bind.
  eapply wp_iload; [exact Hx|]. apply wp_ino_modify, wp_bind, wp_bind. eapply wp_iload; [exact Hx|].
  apply wp_ino_modify, wp_ret. split; [by split; try done; unfold next_ptr; simpl; lia|].
  split; [|split; [by exists x|done]]. split.
  - exact (ino_tables_new _ _ d path wd Ht Hnew Hwd).
  - intros e y H Hne. change (<[d := x]> (dirs (sv_kernel s)) !! e = Some y) in H.
    apply lookup_insert_Some in H as [[<- <-]|[_ H]]; [done|]. by apply (Hu e y).
  - intros e [y He]. change (<[d := x]> (dirs (sv_kernel s)) !! e = Some y) in He. unfold next_ptr. simpl.
    apply lookup_insert_Some in He as [[<- _]|[_ He]]; [unfold d; lia|].
    specialize (Ha e ltac:(by exists y)). unfold next_ptr in Ha. unfold d. lia.
Qed.

(** The directories of all subscriptions but [q] are as before. *)
Definition only_moves (q : ptr) (s s' : server) : Prop :=
  forall r, r <> q -> sub_dir_hash (ip_of (sv_kernel s')) !! r = sub_dir_hash (ip_of (sv_kernel s)) !! r.

Lemma wp_map_sub q d x new s :
  tabs new (sv_kernel s) -> (new = None \/ new = Some d) -> dirs (sv_kernel s) !! d = Some x ->
  sub_dir_hash (ip_of (sv_kernel s)) !! q = None ->
  wp (ip_map_sub_dir q d) (fun _ s' => path_step s s' /\ tabs None (sv_kernel s') /\ only_moves q s s' /\
    sub_dir_hash (ip_of (sv_kernel s')) !! q = Some d /\
    exists y, dirs (sv_kernel s') !! d = Some y /\ ipd_path y = ipd_path x) s.
Proof.
  intros [Ht Hu Ha] Hnew Hx Hq. unfold ip_map_sub_dir. apply wp_bind, wp_ino_modify.
  eapply wp_iupdate; [exact Hx|]. split; [by split; try done; unfold next_ptr; simpl; lia|].
  split; [split|split; [|split; [|eexists; split; [apply lookup_insert_eq|done]]]].
  - exact (tables_map_sub _ _ d x q Ht Hx Hq).
  - intros e y H _. change (<[d := set_ipd_subs (q :: ipd_subs x) x]> (dirs (sv_kernel s)) !! e = Some y) in H.
    apply lookup_insert_Some in H as [[<- <-]|[Hne H]]; [done|]. apply (Hu e y H).
    destruct Hnew as [->| ->]; congruence.
  - intros e [y He]. change (<[d := set_ipd_subs (q :: ipd_subs x) x]> (dirs (sv_kernel s)) !! e = Some y) in He.
    apply Ha. apply lookup_insert_Some in He as [[<- _]|[_ He]]; by eexists.
  - intros r Hr. simpl. by rewrite lookup_insert_ne.
  - simpl. apply lookup_insert_eq.
Qed.

(** The directory [path] is watched already, or the kernel accepts a watch on
    it when asked. *)
Definition watchable (path : string) (mask : Z) (s : server) : Prop :=
  is_Some (path_dir_hash (ip_of (sv_kernel s)) !! path) \/
  exists wd w, inotify_add_watch (inotify_instance_fd (ik_of (sv_kernel s))) path mask (sv_world s) = (SysOk wd, w).

Definition sub_mask (x : ih_sub_t) : Z := IP_INOTIFY_MASK .| IN_ONLYDIR .| ihs_extra_flags x.

(** [ip_start_watching] finds a directory, [path] itself if it can be watched,
    or leaves the subscription without. *)
Definition started (q : ptr) (path : string) (mask : Z) (b : bool) (s s' : server) : Prop :=
  path_step s s' /\ tabs None (sv_kernel s') /\ only_moves q s s' /\
  if b then exists d y, sub_dir_hash (ip_of (sv_kernel s')) !! q = Some d /\
    dirs (sv_kernel s') !! d = Some y /\ above (ipd_path y) path /\
    (watchable path mask s -> ipd_path y = path)
  else sub_dir_hash (ip_of (sv_kernel s')) !! q = None /\ ~ watchable path mask s.

Lemma started_not q path mask w s :
  tabs None (sv_kernel s) -> sub_dir_hash (ip_of (sv_kernel s)) !! q = None -> ~ watchable path mask s ->
  started q path mask false s (set_sv_world w s).
Proof.
  intros Ht Hq Hw. split; [apply path_step_world|]. split; [done|]. by split.
Qed.

Lemma started_map q path mask d x new s0 s :
  path_step s0 s -> sub_dir_hash (ip_of (sv_kernel s)) = sub_dir_hash (ip_of (sv_kernel s0)) ->
  tabs new (sv_kernel s) -> (new = None \/ new = Some d) -> dirs (sv_kernel s) !! d = Some x ->
  above (ipd_path x) path -> (watchable path mask s0 -> ipd_path x = path) ->
  sub_dir_hash (ip_of (sv_kernel s)) !! q = None ->
  wp (_ ← ip_map_sub_dir q d; mret true) (fun b s' => started q path mask b s0 s') s.
Proof.
  intros Hst Es Ht Hnew Hx Hp Hw Hq. apply wp_bind. eapply wp_mono; [by apply (wp_map_sub q d x new)|].
  intros [] s' (Hst' & Ht' & Hm & Hq' & y & Hy & Ey). apply wp_ret. split; [by transitivity s|]. split; [done|]. split.
  - intros r Hr. by rewrite (Hm r Hr), Es.
  - exists d, y. by rewrite Ey.
Qed.

Lemma wp_start_watching q x s :
  tabs None (sv_kernel s) -> has_fd s -> isubs (sv_kernel s) !! q = Some x -> ihs_cancelled x = false ->
  sub_dir_hash (ip_of (sv_kernel s)) !! q = None ->
  wp (ip_start_watching q) (fun b s' => started q (ihs_dirname x) (sub_mask x) b s s') s.
Proof.
  intros Ht Hfd Hx Hc Hq. unfold ip_start_watching. apply wp_bind. eapply wp_iload; [exact Hx|].
  apply wp_bind, wp_assert; [by rewrite Hc|]. apply wp_bind, wp_ino_gets.
  destruct (path_dir_hash _ !! _) as [d|] eqn:Ed.
  { apply wp_bind, wp_ret. destruct (tb_path _ _ (ta_tables _ _ Ht) _ d Ed) as (y & Hy & Ey).
    apply (started_map q _ _ d y None s); try done; [by left|]. rewrite Ey. by left. }
  assert (forall w wd p, 0 <= wd -> above p (ihs_dirname x) ->
    (watchable (ihs_dirname x) (sub_mask x) s -> p = ihs_dirname x) -> wp (dir ← watch_new_dir p wd; mret (Some dir))
      (fun d : option ptr => wp (match d with Some dir => _ ← ip_map_sub_dir q dir; mret true | None => mret false end)
        (fun b s' => started q (ihs_dirname x) (sub_mask x) b s s')) (set_sv_world w s)) as Hnew.
  { intros w wd p Hwd Hp Hw. apply wp_bind. eapply wp_mono; [by apply wp_watch_new_dir|].
    intros d s1 (Hst & Ht1 & (y & Hy & Ey) & E1). apply wp_ret.
    apply (started_map q _ _ d y (Some d) s); try done.
    - transitivity (set_sv_world w s); [apply path_step_world|done].
    - by right.
    - by rewrite Ey.
    - by rewrite Ey.
    - by rewrite E1. }
  apply wp_bind, wp_bind. eapply wp_mono; [by apply wp_ik_watch|]. intros [wd|e] s1 (w & -> & E).
  { apply (Hnew w wd (ihs_dirname x)); [by apply (watch_nonneg _ _ _ _ _ _ E)|by left|done]. }
  assert (~ watchable (ihs_dirname x) (sub_mask x) s) as Hno.
  { intros [[d Hd]|(wd & w' & Ew)]; [congruence|]. unfold sub_mask in Ew. rewrite E in Ew. discriminate. }
  destruct (Z.eqb_spec e ENOENT) as [->|_]; [|apply wp_ret, wp_ret; by apply started_not].
  apply wp_bind. eapply wp_mono; [apply (wp_watch_parent _ _ _ (set_sv_world w s)); [done|lia]|].
  intros [[wd p]|] s1 (w' & -> & Ho).
  - by apply (Hnew w' wd p); try apply (Ho wd p).
  - apply wp_ret, wp_ret. exact (started_not q _ _ w' s Ht Hq Hno).
Qed.

(** ** Stopping *)

(** A directory without subscriptions goes. *)
Lemma wp_drop_dir d x s :
  tabs (Some d) (sv_kernel s) -> has_fd s -> dirs (sv_kernel s) !! d = Some x -> ipd_subs x = [] ->
  wp (_ ← ik_ignore (ipd_path x) (ipd_wd x);
      _ ← ip_unmap_wd_dir (ipd_wd x) d;
      _ ← ip_unmap_path_dir d;
      ip_watched_dir_free d)
    (fun _ s' => path_step s s' /\ tabs None (sv_kernel s') /\
      sub_dir_hash (ip_of (sv_kernel s')) = sub_dir_hash (ip_of (sv_kernel s))) s.
Proof.
  intros [Ht Hu Ha] Hfd Hx Hemp. destruct (tb_dir _ _ Ht d x Hx) as (Hwd & _).
  assert (forall s1 wh, path_step s s1 -> dirs (sv_kernel s1) = dirs (sv_kernel s) ->
    ip_of (sv_kernel s1) = set_wd_dir_hash wh (ip_of (sv_kernel s)) ->
    (forall w l, wh !! w = Some l -> exists l', wd_dir_hash (ip_of (sv_kernel s)) !! w = Some l' /\
      (NoDup l' -> NoDup l) /\ l ⊆ l' /\ d ∉ l) ->
    wp (_ ← ip_unmap_path_dir d; ip_watched_dir_free d)
      (fun _ s' => path_step s s' /\ tabs None (sv_kernel s') /\
        sub_dir_hash (ip_of (sv_kernel s')) = sub_dir_hash (ip_of (sv_kernel s))) s1) as Hrest.
  { intros s1 wh Hst Ed Ev Hwh. rewrite <- Ed in Hx. unfold ip_unmap_path_dir, ip_watched_dir_free.
    apply wp_bind, wp_bind. eapply wp_iload; [exact Hx|]. apply wp_ino_modify, wp_bind.
    eapply wp_iload; [exact Hx|]. apply wp_bind, wp_assert; [by rewrite bool_decide_eq_true_2|].
    apply (wp_ifree ip_watched_dir_t d x); [exact Hx|].
    split; [transitivity s1; [done|by split]|]. split; [split|simpl; by rewrite Ev].
    - change (tables_ok (delete d (dirs (sv_kernel s1)))
        (set_path_dir_hash (delete (ipd_path x) (path_dir_hash (ip_of (sv_kernel s1)))) (ip_of (sv_kernel s1)))).
      rewrite Ed, Ev. rewrite Ed in Hx. apply (ino_tables_free _ (ip_of (sv_kernel s)) _ d x); try done.
      intros p e H. simpl in H. apply lookup_delete_Some in H as [Hne H]. by split.
    - intros e y H _. change (delete d (dirs (sv_kernel s1)) !! e = Some y) in H.
      rewrite Ed in H. apply lookup_delete_Some in H as [Hne H]. apply (Hu e y H). congruence.
    - intros e [y H]. change (delete d (dirs (sv_kernel s1)) !! e = Some y) in H. rewrite Ed in H.
      apply lookup_delete_Some in H as [_ H]. specialize (Ha e ltac:(by exists y)).
      pose proof (ps_next _ _ Hst) as Hn. unfold next_ptr in *. simpl. lia. }
  apply wp_bind. eapply wp_mono; [by apply wp_ik_ignore|]. intros r s1 (w & ->).
  apply wp_bind. unfold ip_unmap_wd_dir, wd_dirs. apply wp_bind, wp_ino_gets. simpl.
  destruct (wd_dir_hash (ip_of (sv_kernel s)) !! ipd_wd x) as [l|] eqn:El; simpl.
  2:{ apply wp_ret. apply (Hrest (set_sv_world w s) (wd_dir_hash (ip_of (sv_kernel s)))); [apply path_step_world|done|exact (set_wd_id _)|].
      intros v l Hl. exists l. split; [done|]. split; [done|]. split; [done|]. intros Hd.
      destruct (tb_wd _ _ Ht v l Hl) as [_ H]. destruct (H d Hd) as (y & Hy & Ev). congruence. }
  destruct (tb_wd _ _ Ht _ l El) as [Hnd Hlw].
  assert (forall v l', wd_dir_hash (ip_of (sv_kernel s)) !! v = Some l' -> v <> ipd_wd x -> d ∉ l') as Hother.
  { intros v l' Hl' Hv Hd. destruct (tb_wd _ _ Ht v l' Hl') as [_ H]. destruct (H d Hd) as (y & Hy & ?). congruence. }
  destruct (bool_decide_reflect (l = [])) as [->|Hne].
  { apply wp_ret. apply (Hrest (set_sv_world w s) (wd_dir_hash (ip_of (sv_kernel s)))); [apply path_step_world|done|exact (set_wd_id _)|].
    intros v l' Hl'. exists l'. split; [done|]. split; [done|]. split; [done|].
    destruct (decide (v = ipd_wd x)) as [->|]; [|by apply (Hother v)].
    assert (l' = []) as -> by congruence. by intros ?%elem_of_nil. }
  apply wp_bind, wp_assert; [by apply Z.geb_le|]. apply wp_bind. eapply wp_iload; [exact Hx|].
  apply wp_ino_modify. eapply (Hrest _ _); [by split|done|done|]. simpl.
  assert (NoDup (g_list_remove l d) /\ g_list_remove l d ⊆ l /\ d ∉ g_list_remove l d) as (H1 & H2 & H3).
  { rewrite g_list_remove_NoDup by done. split; [by apply g_list_remove_all_nodup|]. split.
    - by intros e [? _]%elem_of_g_list_remove_all.
    - by intros [_ ?]%elem_of_g_list_remove_all. }
  intros v l' Hv. destruct (bool_decide_reflect (g_list_remove l d = [])).
  - apply lookup_delete_Some in Hv as [Hne' Hv]. exists l'. split; [done|]. split; [done|]. split; [done|].
    by apply (Hother v).
  - apply lookup_insert_Some in Hv as [[<- <-]|[Hne' Hv]]; [by exists l|].
    exists l'. split; [done|]. split; [done|]. split; [done|]. by apply (Hother v).
Qed.

(** [ip_stop_watching] takes a subscription off its directory, if it has one. *)
Definition stopped (q : ptr) (s s' : server) : Prop :=
  path_step s s' /\ tabs None (sv_kernel s') /\ only_moves q s s' /\
  sub_dir_hash (ip_of (sv_kernel s')) !! q = None.

Lemma wp_stop_watching q s :
  tabs None (sv_kernel s) -> has_fd s -> wp (ip_stop_watching q) (fun _ s' => stopped q s s') s.
Proof.
  intros [Ht Hu Ha] Hfd. unfold ip_stop_watching. apply wp_bind, wp_ino_gets.
  destruct (sub_dir_hash _ !! q) as [d|] eqn:Eq; [|by apply wp_ret].
  destruct (tb_sub _ _ Ht q d Eq) as (x & Hx & Hq). unfold ip_unmap_sub_dir.
  apply wp_bind, wp_bind, wp_ino_modify. eapply wp_iupdate; [exact Hx|].
  set (x' := set_ipd_subs (g_list_remove (ipd_subs x) q) x). set (s1 := upd_ino _ _).
  assert (dirs (sv_kernel s1) = <[d := x']> (dirs (sv_kernel s))) as Ed by done.
  assert (dirs (sv_kernel s1) !! d = Some x') as Hx' by (rewrite Ed; apply lookup_insert_eq).
  assert (path_step s s1) as Hst by by split.
  assert (tabs (Some d) (sv_kernel s1)) as Ht1.
  { split.
    - rewrite Ed. exact (tables_unmap_sub _ _ d x q Ht Hx Eq).
    - intros e y. rewrite Ed, lookup_insert_Some. intros [[<- _]|[_ H]] Hne; [done|]. by apply (Hu e y).
    - intros e. rewrite Ed. intros [y [[<- _]|[_ He]]%lookup_insert_Some]; apply Ha; by eexists. }
  assert (only_moves q s s1 /\ sub_dir_hash (ip_of (sv_kernel s1)) !! q = None) as [Hm Hq1].
  { split; [intros r Hr; simpl; by rewrite lookup_delete_ne|simpl; by rewrite lookup_delete_eq]. }
  apply wp_bind. eapply wp_iload; [exact Hx'|]. apply wp_bind, wp_when.
  - intros Hemp%bool_decide_eq_true. eapply wp_mono; [by apply (wp_drop_dir d x' s1)|].
    intros [] s2 (Hst2 & Ht2 & E2). apply wp_ret. split; [by transitivity s1|]. split; [done|].
    split; [intros r Hr; by rewrite E2, Hm|by rewrite E2].
  - intros Hne%bool_decide_eq_false. apply wp_ret. split; [done|]. split; [|done].
    destruct Ht1 as [H1 H2 H3]. split; [done| |done]. intros e y Hy _.
    destruct (decide (e = d)) as [->|Hed]; [|apply (H2 e y Hy); congruence]. by assert (y = x') as -> by congruence.
Qed.
End Path.
