(* ===== verification/InotifySafety.v ===== *)
(** * Safety of the inotify backend's callbacks

    The invariant of the daemon with this backend, and what reading, processing
    and dispatching events and the scan of the missing subscriptions do to it:
    they complete and keep it, whatever the kernel reports. *)

From S2P Require Import Prelude Protocol EventQueue Monad OS Fs.
From S2P Require Import State Subscription Listener ConnSend Inv Emit.
From S2P Require Import Tree Safety Server Frames InotifyState InotifyKernel.
From S2P Require Import InotifyMissing InotifyPath InotifyHelper InotifyPairing InotifyMoves InotifyRead.
From S2P Require Import InotifyInv.

Local Open Scope Z_scope.

#[local] Existing Instance inotify_kernel.

(** Following the pointer of [H : map !! p = Some a]. *)
Ltac ino_load H := apply wp_bind; eapply wp_iload; [exact H|].

(** ** Events in hand *)

Section Events.
Context (k k' : inotify_state).

Lemma pending_under_way p i :
  p ∈ todo k -> ints k !! p = Some i -> iki_sent i = false -> iki_event i ∈ under_way k.
Proof.
  intros Hp Hi Hs. apply elem_of_app. right. apply elem_of_pending. by exists p, i.
Qed.

(** Events that are not under way may go. *)
Lemma events_agree :
  ints k' = ints k -> todo k' = todo k -> queue k' = queue k -> hash k' = hash k ->
  (next_ptr k <= next_ptr k')%positive -> (forall x, x ∈ under_way k -> evs k' !! x = evs k !! x) ->
  events_ok k -> events_ok k'.
Proof.
  intros E2 E3 E4 E5 En Hev (Hm & Hf & (A & B & Hl) & Hc).
  assert (forall e x, e ∈ queue k -> x ∈ with_pair (evs k) e -> evs k' !! x = evs k !! x) as Hq.
  { intros e x He Hx. apply Hev, elem_of_app. left. apply list_elem_of_bind. by exists e. }
  assert (sent_out (evs k') (queue k') = sent_out (evs k) (queue k)) as Es.
  { rewrite E4. apply sent_out_ext. intros e He. unfold with_pair. by rewrite (Hq e e He) by by left. }
  assert (under_way k' = under_way k) as Eu by (unfold under_way; by rewrite Es, E2, E3).
  assert (forall p i, p ∈ todo k -> ints k !! p = Some i -> iki_sent i = false ->
    evs k' !! iki_event i = evs k !! iki_event i) as Hp
    by (intros p i Hp Hi Hs; apply Hev; by apply (pending_under_way p)).
  split; [|split; [|split]].
  - split; rewrite ?E2, ?E3, ?E5, ?Es.
    + apply Hm.
    + apply Hm.
    + apply Hm.
    + intros p i Hpt Hi Hs. rewrite (Hp p i) by done. by apply (mv_event k Hm p i).
    + intros p i q Hpt Hi Hs Hpr. rewrite (Hp p i) by done.
      destruct (mv_pair k Hm p i q Hpt Hi Hs Hpr) as (e & j & f & He & Hj & Hjf & Hjs & H1 & H2 & H3 & H4 & l1 & l2 & El & Hql).
      exists e, j, f. rewrite (Hp q j); [|rewrite El; apply elem_of_app; right; by right|done|done]. eauto 15.
    + apply Hm.
    + intros c p Hcp. destruct (mv_hash k Hm c p Hcp) as (i & e & Hpt & Hi & Hs & H1 & H2 & He & H3).
      exists i, e. rewrite (Hp p i) by done. auto 15.
  - destruct Hf as [Hf1 Hf2]. split; [intros p i; rewrite E2; intros Hi; specialize (Hf1 p i Hi); lia|].
    intros e. rewrite Eu. intros He. specialize (Hf2 e He). lia.
  - exists A, B. unfold looked_at in *. by rewrite E2, E3.
  - rewrite E4. apply list.Forall_forall. intros e He.
    destruct (proj1 (list.Forall_forall _ _) Hc e He) as (x & Hx & Hxp). exists x.
    rewrite (Hq e e He) by by left. split; [done|]. destruct (ik_pair x) as [f|] eqn:Ef; [|done].
    destruct Hxp as (y & Hy & ?). exists y. rewrite (Hq e f He); [done|].
    unfold with_pair. rewrite Hx, Ef. right. by left.
Qed.
End Events.

(** [e] was taken off the queue, with its other half. *)
Definition in_hand (e : ptr) (k : inotify_state) : Prop :=
  complete (evs k) e /\ NoDup (with_pair (evs k) e) /\ forall x, x ∈ with_pair (evs k) e -> x ∉ under_way k.

Lemma queue_pop e q k :
  queue k = e :: q -> events_ok k ->
  events_ok (upd_ik (set_event_queue q) k) /\ in_hand e (upd_ik (set_event_queue q) k).
Proof.
  intros Eq ([M1 M2 M3 M4 M5 M6 M7] & [Hf1 Hf2] & Hl & Hc). set (k' := upd_ik _ k).
  rewrite Eq in M3, Hc. apply Forall_cons in Hc as [He Hc].
  change (sent_out (evs k) (e :: q)) with (with_pair (evs k) e ++ sent_out (evs k) q) in M3.
  rewrite <- app_assoc in M3. apply NoDup_app in M3 as (Hnd & Hapart & M3).
  assert (forall x, x ∈ under_way k' -> x ∈ under_way k) as Hsub.
  { intros x Hx. unfold under_way. rewrite Eq. apply elem_of_app in Hx as [Hx|Hx].
    - apply elem_of_app. left. apply elem_of_app. by right.
    - apply elem_of_app. by right. }
  split; [|split; [exact He|split; [exact Hnd|intros x Hx Hu; by apply (Hapart x Hx)]]].
  split; [by split|]. split; [split; [exact Hf1|intros x Hx; by apply Hf2, Hsub]|]. by split.
Qed.

Lemma in_hand_ext e k k' :
  evs k' = evs k -> under_way k' = under_way k -> in_hand e k -> in_hand e k'.
Proof. intros E1 E2. unfold in_hand. by rewrite E1, E2. Qed.

Section Safety.
Context {os : OS} {glib : GLib} {ino : Inotify os} {il : InotifyLaws ino} {top : TopLevel ino} {laws : OSLaws os}.
Abbreviation M := (ST server).

(** ** The invariant *)

(** The clients' subscriptions that those of the helper stand for are alive. *)
Definition users_ok (s : server) : Prop := forall q x,
  isubs (sv_kernel s) !! q = Some x -> exists name, sub_ok (ihs_usersubdata x) name s.

Record ino_inv (new : option ptr) (l : list ptr) (s : server) : Prop := {
  ii_ok : ino_ok new l (sv_kernel s);
  ii_ready : ready s;
  ii_users : users_ok s
}.

Lemma ino_emits new l s s' :
  emits s s' -> ino_inv new l s -> ino_inv new l s' /\ sv_kernel s' = sv_kernel s.
Proof.
  intros E [Hk Hr Hu]. pose proof (emits_ready _ _ E Hr) as Hr'. destruct E as (cs & w & -> & Hc & Hd).
  split; [|done]. by split.
Qed.

(** The daemon's objects stay. *)
Lemma ino_same new l new' l' s s' :
  ino_inv new l s -> sv_heap s' = sv_heap s -> isubs (sv_kernel s') = isubs (sv_kernel s) ->
  ino_ok new' l' (sv_kernel s') -> ino_inv new' l' s'.
Proof.
  intros [_ Hr Hu] Eh Ei Hk. split; [done| |].
  - intros c ln. rewrite Eh. intros Hl. unfold conn_ready. rewrite Eh. exact (Hr c ln Hl).
  - intros q x. rewrite Ei. intros Hx. destruct (Hu q x Hx) as (name & Hs). exists name.
    unfold sub_ok. by rewrite Eh.
Qed.

(** Directories of one subscription changed. *)
Lemma ino_moved new l q s s' :
  ino_inv new l s -> path_step s s' -> tabs None (sv_kernel s') -> only_moves q s s' ->
  (is_Some (sub_dir_hash (ip_of (sv_kernel s')) !! q) -> is_Some (isubs (sv_kernel s) !! q)) ->
  (q ∈ l -> sub_dir_hash (ip_of (sv_kernel s')) !! q = None) -> ino_inv new l s'.
Proof.
  intros Hi Hst [Ht Hu Ha] Hm Hlive Hl. pose proof Hst as [Eh Ei Ek Es Ee Et En].
  apply (ino_same new l new l s s' Hi Eh Es). destruct Hi as [[Hfd Hev _ _ [_ Hsa] [S1 S2 S3 S4 S5 S6] Htm] _ _].
  split.
  - by rewrite Ek.
  - by apply (events_step s).
  - done.
  - intros d x Hx. by apply (Hu d x).
  - split; [done|]. intros r Hr. rewrite Es in Hr. specialize (Hsa r Hr). lia.
  - split; rewrite ?Ei, ?Es; try done.
    + intros r d. destruct (decide (r = q)) as [->|Hne]; [intros H; apply Hlive; by exists d|].
      rewrite (Hm r Hne). apply S4.
    + intros r Hr. destruct (S5 r Hr) as [? Hn]. split; [done|].
      destruct (decide (r = q)) as [->|Hne]; [by apply Hl|]. by rewrite (Hm r Hne).
  - unfold missing. by rewrite Ei.
Qed.

Lemma ino_has_fd new l s : ino_inv new l s -> has_fd s.
Proof. intros [[H _ _ _ _ _ _] _ _]. exact H. Qed.

Lemma ino_tabs new l s : ino_inv new l s -> tabs None (sv_kernel s).
Proof. intros [H _ _]. by apply (tabs_ok new l). Qed.

Lemma ino_sub new l q x s :
  ino_inv new l s -> isubs (sv_kernel s) !! q = Some x -> Some q <> new -> ihs_cancelled x = false.
Proof. intros [H _ _] Hx Hn. by apply (sg_live _ _ _ (io_subs _ _ _ H) q x). Qed.

(** Fewer may be thought missing. *)
Lemma ino_weaken new l l' s : ino_inv new l s -> NoDup l' -> l' ⊆ l -> ino_inv new l' s.
Proof.
  intros [[? ? ? ? ? [S1 S2 S3 S4 S5 S6] ?] ? ?] Hnd Hl. split; [|done..]. split; try done.
  split; [exact S1|exact S2|exact S3|exact S4| |exact Hnd]. intros r Hr. apply S5. by apply Hl.
Qed.

(** ** Starting and stopping *)

Lemma safe_start new l q x s :
  ino_inv new l s -> isubs (sv_kernel s) !! q = Some x -> ihs_cancelled x = false ->
  sub_dir_hash (ip_of (sv_kernel s)) !! q = None ->
  wp (ip_start_watching q) (fun b s' => started q (ihs_dirname x) (sub_mask x) b s s' /\ forall l',
    NoDup l' -> (forall r, r ∈ l' -> r ∈ l /\ (r = q -> b = false)) -> ino_inv new l' s') s.
Proof.
  intros Hi Hx Hc Hq. eapply wp_mono;
    [apply (wp_start_watching q x); [by apply (ino_tabs new l)|by apply (ino_has_fd new l)|done..]|].
  intros b s' Hs. split; [done|]. destruct Hs as (Hst & Ht & Hm & Hb). intros l' Hnd Hl'.
  assert (ino_inv new l' s) as Hi' by (apply (ino_weaken new l l'); [done|done|]; intros r Hr; by apply Hl').
  apply (ino_moved new l' q s s'); [done..|].
  intros Hql. destruct (Hl' q Hql) as [_ Hbq]. specialize (Hbq eq_refl). subst b.
  apply Hb.
Qed.

Lemma safe_stop new l q s :
  ino_inv new l s -> wp (ip_stop_watching q) (fun _ s' => stopped q s s' /\ ino_inv new l s') s.
Proof.
  intros Hi. eapply wp_mono;
    [apply (wp_stop_watching q); [by apply (ino_tabs new l)|by apply (ino_has_fd new l)]|].
  intros b s' Hs. split; [done|]. destruct Hs as (Hst & Ht & Hm & Hq).
  apply (ino_moved new l q s s'); try done. rewrite Hq. by intros [? ?].
Qed.

Lemma safe_resubscribe l q x s :
  ino_inv None l s -> isubs (sv_kernel s) !! q = Some x -> q ∉ l ->
  wp (resubscribe q) (fun _ s' => path_step s s' /\ ino_inv None l s') s.
Proof.
  intros Hi Hx Hq. unfold resubscribe. apply wp_bind. eapply wp_mono; [by apply (safe_stop None l)|].
  intros _ s1 [(Hst1 & _ & _ & Hq1) Hi1]. apply wp_bind.
  assert (isubs (sv_kernel s1) !! q = Some x) as Hx1 by by rewrite (ps_isubs _ _ Hst1).
  eapply wp_mono; [apply (safe_start None l q x); [done|done|by apply (ino_sub None l q x s1)|done]|].
  intros b s2 [(Hst2 & _) Hi2]. apply wp_ret. split; [by transitivity s1|]. apply Hi2.
  - apply (sg_missing_once _ _ _ (io_subs _ _ _ (ii_ok _ _ _ Hi1))).
  - intros r Hr. split; [done|]. by intros ->.
Qed.

(** ** Handing an event on *)

Lemma wp_event_callback event e q x name s :
  ready s -> evs (sv_kernel s) !! event = Some e -> isubs (sv_kernel s) !! q = Some x ->
  sub_ok (ihs_usersubdata x) name s ->
  wp (ih_event_callback event q) (fun _ s' => emits s s') s.
Proof.
  intros Hr He Hx Hs. unfold ih_event_callback, gam_inotify_event_callback.
  ino_load He. ino_load Hx. pose proof Hs as (sb & _ & Hsb & _).
  apply wp_bind, (wp_load (H := sub_obj)) with sb; [exact Hsb|]. by apply (wp_emit_one _ _ _ _ _ name).
Qed.

Definition with_dirname (q : ptr) (x : ih_sub_t) (dir : string) : inotify_state -> inotify_state :=
  upd_ino_heap (fun h => ino_set (<[q := set_ihs_dirname dir x]> (ino_map h)) h).

Lemma with_dirname_back q x dir k :
  isubs k !! q = Some x ->
  with_dirname q (set_ihs_dirname dir x) (ihs_dirname x) (with_dirname q x dir k) = k.
Proof.
  intros Hx. destruct k as [[next ev ik dr sb] ? ? ?], x. unfold isubs in Hx. simpl in Hx.
  unfold with_dirname, upd_ino_heap, set_ino_heap_of. simpl. unfold set_ih_subs. simpl.
  by rewrite insert_insert_eq, insert_id.
Qed.

(** The event goes out under the directory's name. *)
Lemma wp_as_dirname event e q x dir name s :
  ready s -> evs (sv_kernel s) !! event = Some e -> isubs (sv_kernel s) !! q = Some x ->
  sub_ok (ihs_usersubdata x) name s ->
  wp (_ ← iupdate q (set_ihs_dirname dir);
      _ ← ih_event_callback event q;
      iupdate q (set_ihs_dirname (ihs_dirname x))) (fun _ s' => emits s s') s.
Proof.
  intros Hr He Hx Hs. apply wp_bind. eapply wp_iupdate; [exact Hx|].
  set (s1 := upd_ino _ s).
  assert (isubs (sv_kernel s1) !! q = Some (set_ihs_dirname dir x)) as Hx1 by apply lookup_insert_eq.
  apply wp_bind. eapply wp_mono; [by apply (wp_event_callback event e q (set_ihs_dirname dir x) name s1)|].
  intros [] s2 (cs & w & -> & Hc & Hd). eapply wp_iupdate; [exact Hx1|].
  exists cs, w. split; [|by split].
  transitivity (set_sv_world w (upd_heap (set_conns cs)
    (set_sv_kernel (with_dirname q (set_ihs_dirname dir x) (ihs_dirname x) (with_dirname q x dir (sv_kernel s))) s)));
    [done|]. rewrite (with_dirname_back q x dir (sv_kernel s) Hx). by destruct s.
Qed.

Lemma wp_dispatch_subs event e dir l rs new ms s :
  ino_inv new ms s -> evs (sv_kernel s) !! event = Some e ->
  (forall q, q ∈ l -> is_Some (isubs (sv_kernel s) !! q)) ->
  wp (dispatch_subs ih_event_callback event e dir l rs)
    (fun r s' => emits s s' /\ forall q, q ∈ r -> q ∈ rs \/ q ∈ l) s.
Proof.
  revert rs s. induction l as [|q l IH]; intros rs s Hi He Hl; simpl.
  { apply wp_ret. split; [done|]. by left. }
  destruct (Hl q) as [x Hx]; [by left|]. ino_load Hx.
  destruct (ii_users _ _ _ Hi q x Hx) as (name & Hs). pose proof (ii_ready _ _ _ Hi) as Hr.
  assert (forall rs' s1, emits s s1 -> (forall r, r ∈ rs' -> r ∈ rs \/ r ∈ q :: l) ->
    wp (dispatch_subs ih_event_callback event e dir l rs')
      (fun r s' => emits s s' /\ forall r', r' ∈ r -> r' ∈ rs \/ r' ∈ q :: l) s1) as Hrest.
  { intros rs' s1 E1 Hrs. destruct (ino_emits new ms s s1 E1 Hi) as [Hi1 Ek].
    eapply wp_mono; [apply (IH rs' s1 Hi1)|].
    - by rewrite Ek.
    - intros r Hr'. rewrite Ek. apply Hl. by right.
    - intros r s2 [E2 Hr2]. split; [by transitivity s1|]. intros r' Hr'.
      destruct (Hr2 r' Hr') as [?|?]; [by apply Hrs|]. right. by right. }
  destruct (negb _).
  { apply Hrest; [done|]. by left. }
  destruct (String.prefix _ _).
  - apply wp_bind, wp_when.
    + intros _. eapply wp_mono; [by apply (wp_as_dirname event e q x dir name)|]. intros [] s1 E1.
      apply Hrest; [done|]. intros r [->|?]%elem_of_cons; [right; by left|by left].
    + intros _. apply Hrest; [done|]. intros r [->|?]%elem_of_cons; [right; by left|by left].
  - apply wp_bind. eapply wp_mono; [by apply (wp_event_callback event e q x name)|]. intros [] s1 E1.
    apply Hrest; [done|]. by left.
Qed.

(** A directory of the tables with its subscriptions. *)
Definition dir_here (d : ptr) (s : server) : Prop := is_Some (dirs (sv_kernel s) !! d).

Lemma dir_subs_live new ms d x q s :
  ino_inv new ms s -> dirs (sv_kernel s) !! d = Some x -> q ∈ ipd_subs x ->
  is_Some (isubs (sv_kernel s) !! q) /\ q ∉ ms.
Proof.
  intros [Hk _ _] Hx Hq. destruct (tb_dir _ _ (io_tables _ _ _ Hk) d x Hx) as (_ & _ & Hm). specialize (Hm q Hq).
  pose proof (io_subs _ _ _ Hk) as Hs. split; [by apply (sg_mapped _ _ _ Hs q d)|].
  intros H. destruct (sg_missing _ _ _ Hs q H). congruence.
Qed.

Lemma wp_dispatch_dirs event e ds rs new ms s :
  ino_inv new ms s -> evs (sv_kernel s) !! event = Some e -> (forall d, d ∈ ds -> dir_here d s) ->
  wp (dispatch_dirs ih_event_callback event e ds rs) (fun r s' => emits s s' /\
    forall q, q ∈ r -> q ∈ rs \/ is_Some (isubs (sv_kernel s) !! q) /\ q ∉ ms) s.
Proof.
  revert rs s. induction ds as [|d ds IH]; intros rs s Hi He Hd; simpl.
  { apply wp_ret. split; [done|]. by left. }
  destruct (Hd d) as [x Hx]; [by left|]. ino_load Hx. apply wp_bind.
  eapply wp_mono; [apply (wp_dispatch_subs event e _ _ rs new ms s Hi He)|].
  { intros q Hq. by apply (dir_subs_live new ms d x q s). }
  intros rs1 s1 [E1 Hr1]. destruct (ino_emits new ms s s1 E1 Hi) as [Hi1 Ek].
  eapply wp_mono; [apply (IH rs1 s1 Hi1)|].
  - by rewrite Ek.
  - intros d' Hd'. unfold dir_here. rewrite Ek. apply Hd. by right.
  - intros r s2 [E2 Hr2]. split; [by transitivity s1|]. intros q Hq. rewrite Ek in Hr2.
    destruct (Hr2 q Hq) as [H|H]; [|by right]. destruct (Hr1 q H) as [?|H']; [by left|right].
    by apply (dir_subs_live new ms d x q s).
Qed.

Lemma wp_dispatch_pair event e d new ms s :
  ino_inv new ms s -> evs (sv_kernel s) !! event = Some e -> dir_here d s ->
  wp (dispatch_pair ih_event_callback event e d) (fun _ s' => emits s s') s.
Proof.
  intros Hi He [x Hx]. unfold dispatch_pair. ino_load Hx.
  eapply wp_mono; [apply (wp_for_each (fun l s' => emits s s' /\ forall q, q ∈ l -> q ∈ ipd_subs x))|]; [|done|by intros _ s' [? _]].
  intros q l s1 [E1 Hl]. destruct (ino_emits new ms s s1 E1 Hi) as [Hi1 Ek].
  destruct (dir_subs_live new ms d x q s Hi Hx) as [[y Hy] _]; [apply Hl; by left|].
  rewrite <- Ek in Hy. ino_load Hy. destruct (ii_users _ _ _ Hi1 q y Hy) as (name & Hs).
  assert (forall r, r ∈ l -> r ∈ ipd_subs x) as Hl' by (intros r Hr; apply Hl; by right).
  apply wp_when; [|done]. intros _. rewrite <- Ek in He.
  eapply wp_mono; [by apply (wp_event_callback event e q y name s1); [apply (ii_ready _ _ _ Hi1)|..]|].
  intros [] s2 E2. split; [by transitivity s1|done].
Qed.

Lemma safe_dispatch event e ds ps s :
  let ms := missing (sv_kernel s) in
  ino_inv None ms s -> evs (sv_kernel s) !! event = Some e ->
  match ik_pair e with Some f => is_Some (evs (sv_kernel s) !! f) | None => True end ->
  (forall d, d ∈ ds ++ ps -> dir_here d s) ->
  wp (ip_event_dispatch ih_event_callback ds ps event) (fun _ s' => ino_inv None ms s' /\
    exists s1, emits s s1 /\ path_step s1 s') s.
Proof.
  intros ms Hi He Hp Hd. unfold ip_event_dispatch. ino_load He. apply wp_bind.
  eapply wp_mono; [apply (wp_dispatch_dirs event e ds [] None ms s Hi He)|].
  { intros d H. apply Hd, elem_of_app. by left. }
  intros rs s1 [E1 Hr1]. destruct (ino_emits None ms s s1 E1 Hi) as [Hi1 Ek1].
  assert (wp (match ik_pair e with
      | Some pair_event => pe ← iload (A := ik_event_t) pair_event;
          for_each ps (dispatch_pair ih_event_callback pair_event pe)
      | None => mret tt end) (fun _ s' => emits s s') s1) as Hpair.
  { destruct (ik_pair e) as [f|]; [|by apply wp_ret]. destruct Hp as [y Hy]. rewrite <- Ek1 in Hy. ino_load Hy.
    eapply wp_mono; [apply (wp_for_each (fun l s' => emits s s' /\ forall d, d ∈ l -> d ∈ ps))|];
      [|done|by intros _ s' [? _]].
    intros d l s2 [E2 Hl]. destruct (ino_emits None ms s s2 E2 Hi) as [Hi2 Ek2].
    eapply wp_mono; [apply (wp_dispatch_pair f y d None ms s2 Hi2)|].
    - by rewrite Ek2, <- Ek1.
    - unfold dir_here. rewrite Ek2. apply Hd, elem_of_app. right. apply Hl. by left.
    - intros [] s3 E3. split; [by transitivity s2|]. intros d' Hd'. apply Hl. by right. }
  apply wp_bind. eapply wp_mono; [exact Hpair|]. intros [] s2 E2.
  destruct (ino_emits None ms s s2 E2 Hi) as [Hi2 Ek2].
  eapply wp_mono; [apply (wp_for_each (fun l s' => (ino_inv None ms s' /\ path_step s2 s') /\ forall q, q ∈ l -> q ∈ rs))|].
  - intros q l s3 [[Hi3 Hst3] Hl]. destruct (Hr1 q) as [?%elem_of_nil|[[x Hx] Hq]]; [apply Hl; by left|done|].
    eapply wp_mono; [apply (safe_resubscribe ms q x s3 Hi3); [|done]|].
    + by rewrite (ps_isubs _ _ Hst3), Ek2.
    + intros [] s4 [Hst4 Hi4]. split; [split; [done|by transitivity s3]|]. intros r Hr. apply Hl. by right.
  - split; [by split|done].
  - intros _ s' [[Hi' Hst'] _]. split; [done|]. by exists s2.
Qed.

(** ** A directory that disappears *)

(** The table of watches without one watch. *)
Definition forget_wd (w : Z) (k : inotify_state) : inotify_state :=
  upd_ip (fun v => set_wd_dir_hash (delete w (wd_dir_hash v)) v) k.

Lemma upd_ino_id f s : f (sv_kernel s) = sv_kernel s -> s = upd_ino f s.
Proof. intros E. unfold upd_ino. rewrite E. by destruct s. Qed.

(** Subscriptions put on the list of missing ones. *)
Definition gone_missing (l : list ptr) (s s' : server) : Prop := exists ms r,
  s' = upd_ino (upd_ih (fun v => set_scan_missing_running r (set_missing_sub_list ms v))) s /\
  NoDup ms /\ (forall q, q ∈ ms <-> q ∈ missing (sv_kernel s) \/ q ∈ l) /\ (ms <> [] -> r = true).

Lemma wp_im_add_all l s :
  NoDup (missing (sv_kernel s)) -> (missing (sv_kernel s) <> [] -> scan_missing_running (ih_of (sv_kernel s)) = true) ->
  wp (for_each l im_add) (fun _ s' => gone_missing l s s') s.
Proof.
  revert s. induction l as [|q l IH]; intros s Hnd Ht; simpl.
  { exists (missing (sv_kernel s)), (scan_missing_running (ih_of (sv_kernel s))).
    split; [apply upd_ino_id; by destruct (sv_kernel s) as [? ? ? []]|]. split; [done|]. split; [|done].
    intros q. rewrite elem_of_nil. tauto. }
  assert (forall s1 ms r, s1 = upd_ino (upd_ih (fun v => set_scan_missing_running r (set_missing_sub_list ms v))) s ->
    NoDup ms -> (forall x, x ∈ ms <-> x ∈ missing (sv_kernel s) \/ x = q) -> (ms <> [] -> r = true) ->
    wp (for_each l im_add) (fun _ s' => gone_missing (q :: l) s s') s1) as Hrest.
  { intros s1 ms r -> Hn Hm Hr. eapply wp_mono; [by apply IH|].
    intros [] s2 (ms' & r' & -> & Hn' & Hm' & Hr'). exists ms', r'. split; [done|]. split; [done|]. split; [|done].
    intros x. rewrite Hm'. change (missing (sv_kernel (upd_ino _ s))) with ms. rewrite Hm, elem_of_cons. tauto. }
  apply wp_bind. unfold im_add. apply wp_bind, wp_ino_gets. unfold g_list_find.
  fold (missing (sv_kernel s)). destruct (bool_decide_reflect (q ∈ missing (sv_kernel s))) as [Hq|Hq].
  - apply wp_ret. apply (Hrest s (missing (sv_kernel s)) (scan_missing_running (ih_of (sv_kernel s)))); try done.
    + apply upd_ino_id. by destruct (sv_kernel s) as [? ? ? []].
    + intros x. split; [by left|]. by intros [?| ->].
  - apply wp_bind, wp_ino_modify, wp_ino_modify. apply (Hrest _ (q :: missing (sv_kernel s)) true); try done.
    + by constructor.
    + intros x. rewrite elem_of_cons. tauto.
Qed.

(** Hash table entries of a list of subscriptions removed. *)
Lemma wp_unmap_all (l : list ptr) s (Q : unit -> server -> Prop) :
  (forall h, (forall q, h !! q = if decide (q ∈ l) then None else sub_dir_hash (ip_of (sv_kernel s)) !! q) ->
    Q tt (upd_ino (upd_ip (set_sub_dir_hash h)) s)) ->
  wp (for_each l (fun sub => ino_modify (upd_ip (fun v => set_sub_dir_hash (delete sub (sub_dir_hash v)) v)))) Q s.
Proof.
  revert s. induction l as [|q l IH]; intros s HQ; simpl.
  - assert (s = upd_ino (upd_ip (set_sub_dir_hash (sub_dir_hash (ip_of (sv_kernel s))))) s) as E
      by (apply upd_ino_id; by destruct (sv_kernel s) as [? ? [] ?]).
    unfold wp. simpl. rewrite E at 1. apply HQ. intros q. rewrite (decide_False (P := q ∈ [])); [done|]. apply not_elem_of_nil.
  - apply wp_bind, wp_ino_modify. apply IH. intros h Hh. apply HQ. intros r. rewrite Hh. simpl.
    destruct (decide (r ∈ l)) as [Hr|Hr].
    + rewrite (decide_True (P := r ∈ q :: l)); [done|]. by right.
    + destruct (decide (q = r)) as [<-|Hne].
      * rewrite lookup_delete_eq, (decide_True (P := q ∈ q :: l)); [done|]. by left.
      * rewrite lookup_delete_ne by done. rewrite (decide_False (P := r ∈ q :: l)); [done|]. intros [?|?]%elem_of_cons; congruence.
Qed.

(** What stays while directories of one watch go. *)
Record wd_step (s s' : server) : Prop := {
  ws_heap : sv_heap s' = sv_heap s;
  ws_wds : wd_dir_hash (ip_of (sv_kernel s')) = wd_dir_hash (ip_of (sv_kernel s));
  ws_ik : ik_of (sv_kernel s') = ik_of (sv_kernel s);
  ws_evs : evs (sv_kernel s') = evs (sv_kernel s);
  ws_ints : ints (sv_kernel s') = ints (sv_kernel s);
  ws_isubs : isubs (sv_kernel s') = isubs (sv_kernel s)
}.

(** The invariant but for the list of directories of the watch [w]. *)
Definition inv_but (w : Z) (s : server) : Prop :=
  ino_inv None (missing (sv_kernel s)) (upd_ino (forget_wd w) s).

Lemma safe_wd_delete w d x s :
  inv_but w s -> dirs (sv_kernel s) !! d = Some x -> ipd_wd x = w ->
  wp (ip_wd_delete d) (fun _ s' => inv_but w s' /\ wd_step s s' /\
    dirs (sv_kernel s') = delete d (dirs (sv_kernel s))) s.
Proof.
  intros Hi Hx Hw. pose proof Hi as [[Hfd Hev Ht Hu [Ha Hsa] [S1 S2 S3 S4 S5 S6] Htm] Hr Hus].
  destruct (tb_dir _ _ Ht d x Hx) as (_ & _ & Hsubs).
  unfold ip_wd_delete. ino_load Hx. apply wp_bind. eapply wp_mono; [by apply wp_im_add_all|].
  intros [] s1 (ms & r & -> & Hnd & Hms & Hrun). unfold ip_unmap_all_subs. apply wp_bind. ino_load Hx.
  apply wp_bind, wp_unmap_all. intros h Hh. eapply wp_iupdate; [exact Hx|].
  set (x' := set_ipd_subs [] x). set (s2 := upd_ino _ _).
  assert (dirs (sv_kernel s2) = <[d := x']> (dirs (sv_kernel s))) as Ed by done.
  assert (dirs (sv_kernel s2) !! d = Some x') as Hx' by (rewrite Ed; apply lookup_insert_eq).
  unfold ip_unmap_path_dir, ip_watched_dir_free. apply wp_bind. ino_load Hx'. apply wp_ino_modify.
  ino_load Hx'. apply wp_bind, wp_assert; [by rewrite bool_decide_eq_true_2|].
  apply (wp_ifree ip_watched_dir_t d x'); [exact Hx'|].
  set (s3 := upd_ino _ _). assert (dirs (sv_kernel s3) = delete d (dirs (sv_kernel s))) as Ed3.
  { change (delete d (dirs (sv_kernel s2)) = delete d (dirs (sv_kernel s))). rewrite Ed. apply delete_insert_eq. }
  split; [|split; [by split|exact Ed3]].
  apply (ino_same None (missing (sv_kernel s)) None ms (upd_ino (forget_wd w) s)); [exact Hi|done|done|].
  set (k3 := sv_kernel _). assert (dirs k3 = delete d (dirs (sv_kernel s))) as Ek3 by exact Ed3.
  assert (forall q, sub_dir_hash (ip_of k3) !! q = if decide (q ∈ ipd_subs x) then None
    else sub_dir_hash (ip_of (sv_kernel s)) !! q) as Hh3 by exact Hh.
  split; [exact Hfd|by apply (events_ext (forget_wd w (sv_kernel s)))| | | | |].
  - rewrite Ek3, <- (delete_insert_eq (dirs (sv_kernel s)) d x').
    apply (ino_tables_free _ (set_sub_dir_hash h (ip_of (forget_wd w (sv_kernel s)))) _ d x'); try done.
    + by apply (tables_unmap_all (dirs (sv_kernel s)) (ip_of (forget_wd w (sv_kernel s)))).
    + intros p e H. change (delete (ipd_path x) (path_dir_hash (ip_of (sv_kernel s))) !! p = Some e) in H.
      apply lookup_delete_Some in H as [Hne H]. by split.
    + intros w' l H. exists l. split; [exact H|]. split; [done|]. split; [done|]. intros Hd.
      destruct (tb_wd _ _ Ht w' l H) as [_ Hl]. destruct (Hl d Hd) as (y & Hy & Ey).
      change (delete w (wd_dir_hash (ip_of (sv_kernel s))) !! w' = Some l) in H.
      apply lookup_delete_Some in H as [Hne _]. change (dirs (sv_kernel s) !! d = Some y) in Hy. congruence.
  - intros e y. rewrite Ek3, lookup_delete_Some. intros [_ H]. by apply (Hu e y).
  - split; [|done]. intros e. rewrite Ek3. intros [y [_ H]%lookup_delete_Some]. apply Ha. by exists y.
  - split; [exact S1|exact S2|exact S3| | |exact Hnd].
    + intros q e. rewrite Hh3. destruct (decide _); [done|]. apply S4.
    + intros q [Hq|Hq]%Hms; rewrite Hh3.
      * destruct (S5 q Hq) as [? Hn]. split; [done|]. destruct (decide _); [done|]. exact Hn.
      * rewrite decide_True by done. split; [|done]. apply (S4 q d). exact (Hsubs q Hq).
  - exact Hrun.
Qed.

(** All directories of a watch. *)
Lemma safe_wd_deletes w l s :
  inv_but w s -> NoDup l -> (forall d, d ∈ l -> exists x, dirs (sv_kernel s) !! d = Some x /\ ipd_wd x = w) ->
  wp (for_each l ip_wd_delete) (fun _ s' => inv_but w s' /\ wd_step s s') s.
Proof.
  intros Hi Hnd Hl.
  eapply wp_mono; [apply (wp_for_each (fun l s' => (inv_but w s' /\ wd_step s s') /\ NoDup l /\
    forall d, d ∈ l -> exists x, dirs (sv_kernel s') !! d = Some x /\ ipd_wd x = w))|].
  - intros d l' s1 [[Hi1 [E1 E2 E3 E4 E5 E6]] [[Hd Hnd']%NoDup_cons Hl1]]. destruct (Hl1 d) as (x & Hx & Hw); [by left|].
    eapply wp_mono; [by apply (safe_wd_delete w d x)|]. intros [] s2 (Hi2 & [F1 F2 F3 F4 F5 F6] & Ed).
    split; [split; [done|split; congruence]|]. split; [done|]. intros e He. rewrite Ed.
    destruct (Hl1 e) as (y & Hy & ?); [by right|]. exists y. rewrite lookup_delete_ne; [done|]. by intros ->.
  - split; [split; [done|by split]|done].
  - by intros [] s' [? _].
Qed.

(** [IN_DELETE_SELF] and [IN_MOVE_SELF]. *)
Lemma safe_unwatch w s :
  let l := default [] (wd_dir_hash (ip_of (sv_kernel s)) !! w) in
  ino_inv None (missing (sv_kernel s)) s ->
  wp (_ ← for_each l ip_wd_delete; ip_unmap_wd w)
    (fun _ s' => ino_inv None (missing (sv_kernel s')) s' /\ sv_heap s' = sv_heap s /\
      ik_of (sv_kernel s') = ik_of (sv_kernel s) /\ evs (sv_kernel s') = evs (sv_kernel s) /\
      ints (sv_kernel s') = ints (sv_kernel s)) s.
Proof.
  intros l Hi. pose proof (io_tables _ _ _ (ii_ok _ _ _ Hi)) as Ht.
  assert (inv_but w s) as Hb.
  { apply (ino_same None (missing (sv_kernel s)) _ _ s _ Hi); [done..|].
    destruct Hi as [[H1 H2 [T1 T2 T3 T4] H4 H5 [] H7] _ _].
    split; [exact H1|by apply (events_ext (sv_kernel s))| |exact H4|exact H5|by split|exact H7].
    split; [exact T1| |exact T3|exact T4]. intros v k H. change (delete w (wd_dir_hash (ip_of (sv_kernel s))) !! v = Some k) in H.
    apply lookup_delete_Some in H as [_ H]. by apply T2. }
  assert (NoDup l /\ forall d, d ∈ l -> exists x, dirs (sv_kernel s) !! d = Some x /\ ipd_wd x = w) as [Hnd Hl].
  { unfold l. destruct (_ !! w) as [k|] eqn:E; [by apply (tb_wd _ _ Ht)|]. split; [constructor|].
    by intros d ?%elem_of_nil. }
  destruct (decide (l = [])) as [El|El].
  { rewrite El. apply wp_bind, wp_ret. unfold ip_unmap_wd, wd_dirs. apply wp_bind, wp_ino_gets.
    fold l. rewrite bool_decide_eq_true_2 by done. by apply wp_ret. }
  apply wp_bind. eapply wp_mono; [by apply (safe_wd_deletes w l)|]. intros [] s1 [Hi1 [E1 E2 E3 E4 E5 E6]].
  unfold ip_unmap_wd, wd_dirs. apply wp_bind, wp_ino_gets. rewrite E2. fold l.
  rewrite bool_decide_eq_false_2 by done.
  assert (0 <= w) as Hw.
  { destruct l as [|d l']; [done|]. destruct (Hl d) as (x & Hx & <-); [by left|].
    by destruct (tb_dir _ _ Ht d x Hx). }
  apply wp_bind, wp_assert; [by apply Z.geb_le|]. apply wp_ino_modify. split; [exact Hi1|done].
Qed.

(** ** Freeing an event *)

(** Nothing of the kernel's part but the events in hand moves. *)
Record ev_step (s s' : server) : Prop := {
  es_evs : evs (sv_kernel s') = evs (sv_kernel s);
  es_ints : ints (sv_kernel s') = ints (sv_kernel s);
  es_ik : ik_of (sv_kernel s') = ik_of (sv_kernel s)
}.

#[export] Instance ev_step_preorder : PreOrder ev_step.
Proof. split; [by split|]. intros s1 s2 s3 [A1 A2 A3] [B1 B2 B3]. split; congruence. Qed.

Lemma ev_step_path s s' : path_step s s' -> ev_step s s'.
Proof. intros []. by split. Qed.
Lemma ev_step_emits s s' : emits s s' -> ev_step s s'.
Proof. by intros (cs & w & -> & _). Qed.

Lemma ev_step_hand e s s' : ev_step s s' -> in_hand e (sv_kernel s) -> in_hand e (sv_kernel s').
Proof.
  intros [E1 E2 E3]. apply in_hand_ext; [done|]. apply under_way_ext; [done|done|..]; unfold todo, queue; by rewrite E3.
Qed.

Definition without_events (l : list ptr) (s s' : server) : Prop :=
  exists E, s' = upd_ino (upd_ino_heap (set_ik_events E)) s /\
    forall x, x ∉ l -> E !! x = evs (sv_kernel s) !! x.

Lemma wp_event_free e s :
  in_hand e (sv_kernel s) ->
  wp (ik_event_free e) (fun _ s' => without_events (with_pair (evs (sv_kernel s)) e) s s') s.
Proof.
  intros ((x & Hx & Hc) & Hnd & _). unfold ik_event_free. apply wp_bind, wp_ino_gets. fold (evs (sv_kernel s)).
  unfold with_pair in *. rewrite Hx in *.
  assert (forall n s1 p y, evs (sv_kernel s1) !! p = Some y -> ik_pair y = None ->
    wp (ik_event_free_loop (S n) p) (fun _ s2 => s2 = upd_ino (upd_ino_heap (set_ik_events (delete p (evs (sv_kernel s1))))) s1) s1) as Hone.
  { intros n s1 p y Hy Hp. simpl. ino_load Hy. rewrite Hp. apply wp_bind, wp_ret. by apply (wp_ifree ik_event_t p y). }
  destruct (ik_pair x) as [f|] eqn:Ef.
  - destruct Hc as (y & Hy & _ & Hyp). apply NoDup_cons in Hnd as [Hef _].
    assert (e <> f) as Hne by (intros ->; apply Hef; by left).
    assert (exists n, size (evs (sv_kernel s)) = S (S n)) as [n ->].
    { assert (delete f (evs (sv_kernel s)) !! e = Some x) as Hd by by rewrite lookup_delete_ne.
      pose proof (map_size_ne_0_lookup_2 _ e (mk_is_Some _ _ Hd)) as Hsz.
      rewrite map_size_delete_Some in Hsz by by exists y.
      destruct (size (evs (sv_kernel s))) as [|[|n]]; [done..|by exists n]. }
    remember (S n) as n1. simpl. ino_load Hx. rewrite Ef. subst n1. apply wp_bind.
    eapply wp_mono; [by apply (Hone n s f y)|]. intros [] s1 ->.
    apply (wp_ifree ik_event_t e x); [change (delete f (evs (sv_kernel s)) !! e = Some x); by rewrite lookup_delete_ne|].
    exists (delete e (delete f (evs (sv_kernel s)))). split; [done|]. intros z Hz.
    rewrite elem_of_cons, list_elem_of_singleton in Hz. rewrite !lookup_delete_ne; [done|..]; naive_solver.
  - assert (exists n, size (evs (sv_kernel s)) = S n) as [n ->].
    { pose proof (map_size_ne_0_lookup_2 _ e (mk_is_Some _ _ Hx)). destruct (size _); [done|by eexists]. }
    eapply wp_mono; [by apply (Hone n s e x)|]. intros [] s1 ->. eexists. split; [done|].
    intros z Hz. rewrite list_elem_of_singleton in Hz. by rewrite lookup_delete_ne.
Qed.

Lemma safe_event_free new ms e s :
  ino_inv new ms s -> in_hand e (sv_kernel s) ->
  wp (ik_event_free e) (fun _ s' => ino_inv new ms s' /\ ik_of (sv_kernel s') = ik_of (sv_kernel s) /\
    missing (sv_kernel s') = missing (sv_kernel s) /\ sv_heap s' = sv_heap s) s.
Proof.
  intros Hi Hh. eapply wp_mono; [by apply wp_event_free|]. intros [] s' (E & -> & HE). split; [|done].
  apply (ino_same new ms new ms s); try done. destruct Hi as [[H1 H2 H3 H4 H5 [] H7] _ _].
  split; [exact H1| |exact H3|exact H4|exact H5|by split|exact H7].
  apply (events_agree (sv_kernel s)); try done. intros x Hx. apply HE. intros H. by apply (proj2 (proj2 Hh) x H).
Qed.

(** ** [ip_event_callback] *)

Lemma wd_dirs_here new ms w d s :
  ino_inv new ms s -> d ∈ default [] (wd_dir_hash (ip_of (sv_kernel s)) !! w) -> dir_here d s.
Proof.
  intros [Hk _ _]. destruct (_ !! w) as [l|] eqn:E; [|by intros ?%elem_of_nil].
  intros Hd. destruct (tb_wd _ _ (io_tables _ _ _ Hk) w l E) as [_ H]. destruct (H d Hd) as (x & Hx & _). by exists x.
Qed.

Lemma safe_ip_event_callback e s :
  ino_inv None (missing (sv_kernel s)) s -> in_hand e (sv_kernel s) ->
  wp (ip_event_callback ih_event_callback e) (fun _ s' =>
    ino_inv None (missing (sv_kernel s')) s' /\ ik_of (sv_kernel s') = ik_of (sv_kernel s)) s.
Proof.
  intros Hi Hh. pose proof Hh as ((x & Hx & Hc) & _). unfold ip_event_callback, wd_dirs. ino_load Hx.
  apply wp_bind, wp_ino_gets. set (ds := default [] _).
  assert (forall s1, ino_inv None (missing (sv_kernel s1)) s1 -> ev_step s s1 ->
    wp (ik_event_free e) (fun _ s' => ino_inv None (missing (sv_kernel s')) s' /\ ik_of (sv_kernel s') = ik_of (sv_kernel s)) s1) as Hfree.
  { intros s1 Hi1 Hst. eapply wp_mono; [apply (safe_event_free None _ e s1 Hi1); by apply (ev_step_hand e s)|].
    intros [] s' (Hi' & Ek & Em & _). rewrite Em, Ek. split; [done|]. by apply es_ik. }
  destruct (ztest (ik_mask x .& IN_IGNORED)); [by apply Hfree|].
  assert (forall s1, ino_inv None (missing (sv_kernel s1)) s1 -> ev_step s s1 ->
    let l := default [] (wd_dir_hash (ip_of (sv_kernel s1)) !! ik_wd x) in
    wp (_ ← when (ztest (ik_mask x .& IN_DELETE_SELF) || ztest (ik_mask x .& IN_MOVE_SELF))
          (_ ← for_each l ip_wd_delete; ip_unmap_wd (ik_wd x)); ik_event_free e)
      (fun _ s' => ino_inv None (missing (sv_kernel s')) s' /\ ik_of (sv_kernel s') = ik_of (sv_kernel s)) s1) as Hrest.
  { intros s1 Hi1 Hst l. apply wp_bind, wp_when; intros _; [|by apply Hfree].
    eapply wp_mono; [by apply safe_unwatch|]. intros [] s2 (Hi2 & _ & Ek & Ee & Ei).
    apply Hfree; [done|]. transitivity s1; [done|by split]. }
  assert (exists ps, (forall d, d ∈ ps -> dir_here d s) /\
    match ik_pair x with Some f => is_Some (evs (sv_kernel s) !! f) | None => True end /\
    forall (f : list ptr -> M unit) Q, wp (f ps) Q s ->
      wp (pair_dir_list ← match ik_pair x with
          | Some pair_event => pe ← iload (A := ik_event_t) pair_event;
              ino_gets (fun k => default [] (wd_dir_hash (ip_of k) !! ik_wd pe))
          | None => mret [] end; f pair_dir_list) Q s) as (ps & Hps & Hp & Hbind).
  { destruct (ik_pair x) as [f|].
    - destruct Hc as (y & Hy & _). exists (default [] (wd_dir_hash (ip_of (sv_kernel s)) !! ik_wd y)).
      split; [intros d; by apply (wd_dirs_here None (missing (sv_kernel s)))|]. split; [by exists y|].
      intros g Q HQ. apply wp_bind. ino_load Hy. by apply wp_ino_gets.
    - exists []. split; [by intros d ?%elem_of_nil|]. split; [done|]. intros g Q HQ. apply wp_bind. by apply wp_ret. }
  apply Hbind. apply wp_bind. destruct (ztest (ik_mask x .& IP_INOTIFY_MASK)); [|apply wp_ret; by apply Hrest].
  apply wp_bind. eapply wp_mono; [apply (safe_dispatch e x ds ps s Hi Hx Hp)|].
  { intros d [Hd|Hd]%elem_of_app; [by apply (wd_dirs_here None (missing (sv_kernel s)) (ik_wd x))|by apply Hps]. }
  intros [] s1 (Hi1 & s0 & E0 & Hst). apply wp_ino_gets.
  assert (missing (sv_kernel s1) = missing (sv_kernel s)) as Em.
  { unfold missing. rewrite (ps_ih _ _ Hst). by destruct (ino_emits None _ s s0 E0 Hi) as [_ ->]. }
  apply Hrest; [by rewrite Em|]. transitivity s0; [by apply ev_step_emits|by apply ev_step_path].
Qed.

(** ** The kernel's part *)

(** Reading and pairing leave the directories and subscriptions alone. *)
Record ik_step (s s' : server) : Prop := {
  ik_heap : sv_heap s' = sv_heap s;
  ik_dirs : dirs (sv_kernel s') = dirs (sv_kernel s);
  ik_isubs : isubs (sv_kernel s') = isubs (sv_kernel s);
  ik_ip : ip_of (sv_kernel s') = ip_of (sv_kernel s);
  ik_ih : ih_of (sv_kernel s') = ih_of (sv_kernel s);
  ik_fd : inotify_instance_fd (ik_of (sv_kernel s')) = inotify_instance_fd (ik_of (sv_kernel s));
  ik_next : (next_ptr (sv_kernel s) <= next_ptr (sv_kernel s'))%positive
}.

#[export] Instance ik_step_preorder : PreOrder ik_step.
Proof.
  split; [by intros s; split|]. intros s1 s2 s3 [A1 A2 A3 A4 A5 A6 A7] [B1 B2 B3 B4 B5 B6 B7].
  split; [congruence..|lia].
Qed.

(** Pairing does not allocate. *)
Record pair_step (s s' : server) : Prop := {
  pr_next : next_ptr (sv_kernel s') = next_ptr (sv_kernel s);
  pr_ints p : is_Some (ints (sv_kernel s') !! p) -> is_Some (ints (sv_kernel s) !! p)
}.

#[export] Instance pair_step_preorder : PreOrder pair_step.
Proof. split; [by intros s; split|]. intros s1 s2 s3 [A1 A2] [B1 B2]. split; [congruence|auto]. Qed.

Definition ik_pair_step (s s' : server) : Prop := ik_step s s' /\ pair_step s s'.

#[export] Instance ik_pair_step_preorder : PreOrder ik_pair_step.
Proof.
  split; [by intros s; split|]. intros s1 s2 s3 [A1 A2] [B1 B2]. split; [by transitivity s2|by transitivity s2].
Qed.

Lemma ik_iload {A} (H : InoObj A) p : preserves ik_pair_step (iload (A := A) p).
Proof. intros s. unfold iload. by destruct (_ !! p). Qed.

Lemma ik_sys {A} (f : world -> A * world) : preserves ik_pair_step (sys f).
Proof. intros s. unfold sys. destruct (f (sv_world s)) as [a w]. by split. Qed.

Lemma ik_ino_gets {A} (f : inotify_state -> A) : preserves ik_pair_step (ino_gets f).
Proof. intros s. simpl. reflexivity. Qed.

Lemma ik_update_event p f : preserves ik_pair_step (iupdate (A := ik_event_t) p f).
Proof. intros s. unfold iupdate. by destruct (_ !! p). Qed.

Lemma ik_update_internal p f : preserves ik_pair_step (iupdate (A := ik_event_internal_t) p f).
Proof.
  intros s. unfold iupdate. destruct (_ !! p) as [i|] eqn:Ei; [|done]. split; [by split|]. split; [done|].
  intros q. change (is_Some (<[p := f i]> (ints (sv_kernel s)) !! q) -> is_Some (ints (sv_kernel s) !! q)).
  intros [j [[<- _]|[_ Hj]]%lookup_insert_Some]; [by exists i|by exists j].
Qed.

Lemma ik_free_internal p : preserves ik_pair_step (ifree ik_event_internal_t p).
Proof.
  intros s. unfold ifree. destruct (_ !! p) as [i|] eqn:Ei; [|done]. split; [by split|]. split; [done|].
  intros q. change (is_Some (delete p (ints (sv_kernel s)) !! q) -> is_Some (ints (sv_kernel s) !! q)).
  intros [j [_ Hj]%lookup_delete_Some]. by exists j.
Qed.

(** Assignments to the variables of [inotify-kernel.c]. *)
Lemma ik_modify f :
  (forall v, inotify_instance_fd (f v) = inotify_instance_fd v) -> preserves ik_pair_step (ino_modify (upd_ik f)).
Proof. intros Hf s. split; [by split; try done; apply Hf|by split]. Qed.

#[local] Hint Resolve ik_iload ik_sys ik_ino_gets ik_update_event ik_update_internal ik_free_internal : preserve.
#[local] Hint Extern 2 (preserves ik_pair_step (ino_modify (upd_ik _))) => apply ik_modify; done : preserve.

Lemma pair_moves_frame p : preserves ik_pair_step (ik_pair_moves p).
Proof. unfold ik_pair_moves, ik_event_add_microseconds, ik_pair_events. preserve. Qed.

Lemma process_events_frame : preserves ik_pair_step ik_process_events.
Proof.
  assert (forall n, preserves ik_pair_step (process_events_loop n)) as Hloop.
  { induction n as [|n IH]; simpl; [done|]. unfold ik_event_ready, ik_prepare_event. preserve. }
  unfold ik_process_events. pose proof pair_moves_frame. preserve.
Qed.

Lemma ik_of_pair {A} (m : M A) : preserves ik_pair_step m -> preserves ik_step m.
Proof. intros H s. specialize (H s). destruct (m s) as [[a s']|]; [|done]. by destruct H. Qed.

Lemma ik_alloc_event e : preserves ik_step (ialloc (A := ik_event_t) e).
Proof. intros s. split; try done. unfold next_ptr. simpl. lia. Qed.
Lemma ik_alloc_internal e : preserves ik_step (ialloc (A := ik_event_internal_t) e).
Proof. intros s. split; try done. unfold next_ptr. simpl. lia. Qed.

#[local] Hint Resolve ik_alloc_event ik_alloc_internal : preserve.
#[local] Hint Extern 3 (preserves ik_step _) => apply ik_of_pair; solve [eauto with preserve nocore] : preserve.

Lemma read_frame : preserves ik_step ik_read_callback.
Proof.
  assert (forall fuel data i, preserves ik_step (read_events_loop fuel data i)) as Hloop.
  { induction fuel as [|n IH]; intros data i; simpl; [done|]. unfold ik_event_internal_new. preserve. }
  unfold ik_read_callback, G_LOCK, G_UNLOCK. rewrite no_threads. preserve.
Qed.

(** What the kernel's part has to keep of the rest. *)
Lemma ino_ik_step s s' :
  ino_inv None (missing (sv_kernel s)) s -> ik_step s s' -> events_ok (sv_kernel s') ->
  ino_inv None (missing (sv_kernel s')) s'.
Proof.
  intros Hi [E1 E2 E3 E4 E5 E6 E7] He.
  assert (missing (sv_kernel s') = missing (sv_kernel s)) as -> by (unfold missing; by rewrite E5).
  apply (ino_same None (missing (sv_kernel s)) _ _ s s' Hi E1 E3).
  destruct Hi as [[H1 _ H3 H4 [H5 H5'] [S1 S2 S3 S4 S5 S6] H7] _ _].
  split; unfold used, ahead, missing in *; rewrite ?E2, ?E3, ?E4, ?E5, ?E6; try done.
  - split; [intros d Hd; specialize (H5 d Hd); lia|intros q Hq; specialize (H5' q Hq); lia].
  - split; rewrite ?E3, ?E4, ?E5; done.
Qed.

(** ** Reading *)

Definition resting (s : server) : Prop := ino_inv None (missing (sv_kernel s)) s /\ queue (sv_kernel s) = [].

Lemma safe_read s : resting s -> wp ik_read_callback (fun _ s' => resting s') s.
Proof.
  intros [Hi Hq]. pose proof (io_events _ _ _ (ii_ok _ _ _ Hi)) as (Hm & Hf & (A & B & Hl) & Hc).
  destruct (inotify_read (inotify_instance_fd (ik_of (sv_kernel s))) ik_buffer_size (sv_world s)) as [data w] eqn:Er.
  destruct (read_whole _ _ _ _ Er) as (es & -> & Hes & Hsz).
  eapply wp_mono; [apply (wp_preserves ik_step); [apply read_frame|]; apply (wp_read_callback es A B s); try done|].
  - apply no_threads.
  - by rewrite Er.
  - intros b s' [(_ & (Hm' & Hf' & Hq' & [ps Hl'] & _) & _) Hst]. split; [|by rewrite Hq'].
    apply (ino_ik_step s); [done|done|]. split; [done|]. split; [done|]. split; [by exists A, (B ++ ps)|].
    by rewrite Hq', Hq.
Qed.

(** ** Processing *)

Lemma safe_deliver fuel s :
  ino_inv None (missing (sv_kernel s)) s -> (length (queue (sv_kernel s)) < fuel)%nat ->
  wp (deliver_loop (ip_event_callback ih_event_callback) fuel) (fun _ s' => resting s') s.
Proof.
  revert s. induction fuel as [|fuel IH]; intros s Hi Hlen; [lia|]. simpl.
  apply wp_bind, wp_ino_gets. fold (queue (sv_kernel s)).
  destruct (queue (sv_kernel s)) as [|e q] eqn:Eq; [by apply wp_ret|]. apply wp_bind, wp_ino_modify.
  destruct (queue_pop e q (sv_kernel s) Eq (io_events _ _ _ (ii_ok _ _ _ Hi))) as [He Hh].
  apply wp_bind. eapply wp_mono; [apply (safe_ip_event_callback e); [|exact Hh]|].
  - apply (ino_same None (missing (sv_kernel s)) _ _ s); [done..|].
    destruct Hi as [[H1 _ H3 H4 H5 [] H7] _ _]. by split.
  - intros [] s1 [Hi1 Ek]. apply IH; [done|]. unfold queue. rewrite Ek. simpl in *. lia.
Qed.

Lemma safe_process s : resting s -> wp inotify_process (fun _ s' => resting s') s.
Proof.
  intros [Hi Hq]. unfold inotify_process, ik_process_eq_callback, G_LOCK, G_UNLOCK. rewrite no_threads.
  pose proof (io_events _ _ _ (ii_ok _ _ _ Hi)) as (Hm & Hf & (A & B & Hl) & _).
  apply wp_bind, wp_ret, wp_bind. eapply wp_mono; [apply (wp_preserves ik_pair_step);
    [apply process_events_frame|]; by apply (wp_process_events A B s)|].
  intros [] s1 [[(Hm1 & Hl1 & new & Eq1 & _ & Hc1 & Hp1) _] [Hst [En Hints]]].
  assert (ino_inv None (missing (sv_kernel s1)) s1) as Hi1.
  { apply (ino_ik_step s); [done|done|]. rewrite Hq in Eq1. simpl in Eq1. split; [done|]. split.
    - destruct Hf as [Hf1 Hf2]. split.
      + intros p i Hp. destruct (Hints p) as [j Hj]; [by exists i|]. rewrite En. by apply (Hf1 p j).
      + intros e He. rewrite En. apply Hf2. unfold under_way in He. by rewrite Hp1 in He.
    - split; [by exists (todo (sv_kernel s1)), []|]. by rewrite Eq1. }
  apply wp_bind, wp_ino_gets, wp_bind. fold (queue (sv_kernel s1)).
  eapply wp_mono; [apply safe_deliver; [done|lia]|]. intros [] s2 [Hi2 Hq2].
  apply wp_bind, wp_ino_gets. destruct (bool_decide _).
  - apply wp_bind, wp_ino_modify, wp_bind, wp_ret, wp_ret. split; [|done].
    apply (ino_ik_step s2); [done|by split|]. apply (events_ext (sv_kernel s2)); try done.
    apply (io_events _ _ _ (ii_ok _ _ _ Hi2)).
  - by apply wp_bind, wp_ret, wp_ret.
Qed.
End Safety.
