(* ===== verification/InotifyService.v ===== *)
(** * The inotify backend as the daemon sees it

    The requests, timers and events that reach the backend, the states they
    lead to, and what holds in all of them.  What the clients' code needs of the
    backend is [KernelClients.KernelSafe], which it fulfils. *)

From S2P Require Import Prelude Protocol EventQueue Monad OS Fs.
From S2P Require Import State Subscription Listener ConnSend Inv Emit.
From S2P Require Import Node Tree PollGeneric PollBasic Safety Server Frames.
From S2P Require Import InotifyState InotifyKernel InotifyMissing InotifyPath InotifyHelper.
From S2P Require Import InotifyPairing InotifyMoves InotifyRead InotifyInv InotifySafety.
From S2P Require Import Connection KernelClients.

Local Open Scope Z_scope.

#[local] Existing Instance inotify_kernel.

Section Service.
Context {os : OS} {glib : GLib} {ino : Inotify os} {il : InotifyLaws ino} {top : TopLevel ino} {laws : OSLaws os}.
Abbreviation M := (ST server).

(** ** First events *)

Lemma wp_initial_events path q is_dir was_missing name s :
  ready s -> sub_ok q name s ->
  wp (gam_inotify_send_initial_events path q is_dir was_missing) (fun _ s' => emits s s') s.
Proof.
  intros Hr Hq. unfold gam_inotify_send_initial_events.
  assert (forall s1 p d ev, emits s s1 -> wp (gam_server_emit_one_event p d ev q true) (fun _ s' => emits s s') s1) as Hone.
  { intros s1 p d ev E1. eapply wp_mono; [apply (wp_emit_one p d ev q true name s1)|].
    - by apply (emits_ready s).
    - by apply (sub_ok_emits q name s).
    - intros [] s2 E2. by transitivity s1. }
  assert (forall s1 gevent, emits s s1 -> wp
    (_ ← gam_server_emit_one_event path is_dir gevent q true;
     _ ← when is_dir
       (dir ← sys (dir_names path);
        match dir with
        | Some names =>
            for_each names (fun filename =>
              let fullname := (path ++ "/" ++ filename)%string in
              file_is_dir ← sys (lstat_ifdir fullname);
              gam_server_emit_one_event fullname file_is_dir gevent q true)
        | None => mret tt
        end);
     when (negb was_missing) (gam_server_emit_one_event path is_dir GAMIN_EVENT_ENDEXISTS q true))
    (fun _ s' => emits s s') s1) as Hrest.
  { intros s1 ev E1. apply wp_bind. eapply wp_mono; [by apply Hone|]. intros [] s2 E2.
    apply wp_bind. eapply (wp_mono _ (fun _ s' => emits s s')).
    - apply wp_when; [|done]. intros _. apply wp_bind, wp_sys. intros r w _.
      assert (emits s (set_sv_world w s2)) as E3 by (transitivity s2; [done|apply emits_world]).
      destruct r as [names|]; [|by apply wp_ret]. apply (wp_for_each (fun _ s' => emits s s')); [|done].
      intros fn l s3 E4. apply wp_bind, wp_sys. intros b w' _. apply Hone.
      transitivity s3; [done|apply emits_world].
    - intros [] s3 E3. apply wp_when; [|done]. intros _. by apply Hone. }
  apply wp_bind. destruct was_missing; [by apply wp_ret, Hrest|].
  apply wp_bind, wp_sys. intros b w _. apply wp_ret, Hrest. apply emits_world.
Qed.

Lemma wp_found_callback q x name s :
  ready s -> isubs (sv_kernel s) !! q = Some x -> sub_ok (ihs_usersubdata x) name s ->
  wp (ih_found_callback q) (fun _ s' => emits s s') s.
Proof.
  intros Hr Hx Hs. unfold ih_found_callback, gam_inotify_found_callback. ino_load Hx.
  pose proof Hs as (sb & _ & Hsb & _).
  destruct (ihs_filename x) as [fn|].
  - apply wp_bind, wp_sys. intros b w _. apply wp_when; intros _; [|apply emits_world].
    apply wp_bind, (wp_load (H := sub_obj)) with sb; [exact Hsb|].
    eapply wp_mono; [by apply (wp_initial_events _ _ _ _ name (set_sv_world w s))|].
    intros [] s' E. transitivity (set_sv_world w s); [apply emits_world|done].
  - apply wp_bind, (wp_load (H := sub_obj)) with sb; [exact Hsb|]. by apply (wp_initial_events _ _ _ _ name).
Qed.

(** ** The scan of the missing subscriptions *)

Definition still (done : list ptr) (m : list ptr) : list ptr := filter (fun q => q ∉ done) m.

(** While the list is gone through, those in [done] have been found. *)
Definition scanning (m done : list ptr) (s0 s : server) : Prop :=
  ino_inv None (still done m) s /\ ih_of (sv_kernel s) = ih_of (sv_kernel s0) /\
  ik_of (sv_kernel s) = ik_of (sv_kernel s0).

Lemma safe_scan_subs m s0 l found s :
  NoDup m -> scanning m found s0 s -> NoDup l -> (forall q, q ∈ l -> q ∈ m /\ q ∉ found) ->
  wp (scan_missing_subs ip_start_watching ih_found_callback l found)
    (fun found' s' => scanning m found' s0 s') s.
Proof.
  intros Hm. revert found s. induction l as [|q l IH]; intros found s Hs Hnd Hl; simpl; [by apply wp_ret|].
  apply NoDup_cons in Hnd as [Hql Hnd]. pose proof Hs as (Hi & Eih & Eik).
  destruct (Hl q) as [Hqm Hqf]; [by left|].
  destruct (sg_missing _ _ _ (io_subs _ _ _ (ii_ok _ _ _ Hi)) q) as [[x Hx] Hn];
    [by apply list_elem_of_filter|].
  ino_load Hx. apply wp_bind. eapply wp_mono; [apply (safe_start None (still found m) q x s Hi Hx); [by apply (ino_sub None (still found m) q x s)|done]|].
  intros b s1 [(Hst & _ & _ & _) Hi1].
  assert (forall s2, ih_of (sv_kernel s2) = ih_of (sv_kernel s1) -> ik_of (sv_kernel s2) = ik_of (sv_kernel s1) ->
    ih_of (sv_kernel s2) = ih_of (sv_kernel s0) /\ ik_of (sv_kernel s2) = ik_of (sv_kernel s0)) as Heq.
  { intros s2 -> ->. by rewrite (ps_ih _ _ Hst), (ps_ik _ _ Hst). }
  destruct b.
  - assert (ino_inv None (still (q :: found) m) s1) as Hi2.
    { apply Hi1; [by apply NoDup_filter|]. intros r [Hr Hrm]%list_elem_of_filter. split.
      - apply list_elem_of_filter. split; [|done]. intros H. apply Hr. by right.
      - intros ->. destruct Hr. by left. }
    rewrite <- (ps_isubs _ _ Hst) in Hx. destruct (ii_users _ _ _ Hi2 q x Hx) as (name & Hu).
    apply wp_bind. eapply wp_mono; [apply (wp_found_callback q x name s1); [apply (ii_ready _ _ _ Hi2)|done..]|].
    intros [] s2 E2. destruct (ino_emits None (still (q :: found) m) s1 s2 E2 Hi2) as [Hi3 Ek].
    apply IH; [split; [done|apply Heq; by rewrite Ek]|done|].
    intros r Hr. destruct (Hl r) as [? ?]; [by right|]. split; [done|]. intros [->|?]%elem_of_cons; done.
  - apply IH; [split; [|by apply Heq]|done|].
    + apply Hi1; [by apply NoDup_filter|]. done.
    + intros r Hr. apply Hl. by right.
Qed.

(** The list without those found. *)
Lemma wp_remove_found l s (Q : unit -> server -> Prop) :
  NoDup (missing (sv_kernel s)) ->
  (forall ms, NoDup ms -> (forall q, q ∈ ms <-> q ∈ missing (sv_kernel s) /\ q ∉ l) ->
    Q tt (upd_ino (upd_ih (set_missing_sub_list ms)) s)) ->
  wp (for_each l (fun sub =>
        ino_modify (upd_ih (fun v => set_missing_sub_list (g_list_remove (missing_sub_list v) sub) v)))) Q s.
Proof.
  revert s. induction l as [|q l IH]; intros s Hnd HQ; simpl.
  - assert (s = upd_ino (upd_ih (set_missing_sub_list (missing (sv_kernel s)))) s) as E
      by (apply upd_ino_id; by destruct (sv_kernel s) as [? ? ? []]).
    unfold wp. simpl. rewrite E at 1. apply HQ; [done|]. intros q. rewrite elem_of_nil. tauto.
  - apply wp_bind, wp_ino_modify. apply IH.
    + change (NoDup (g_list_remove (missing (sv_kernel s)) q)). rewrite g_list_remove_NoDup by done.
      by apply g_list_remove_all_nodup.
    + intros ms Hms Hin. apply HQ; [done|]. intros r. rewrite Hin.
      change (r ∈ g_list_remove (missing (sv_kernel s)) q /\ r ∉ l <-> r ∈ missing (sv_kernel s) /\ r ∉ q :: l).
      rewrite g_list_remove_NoDup, elem_of_g_list_remove_all, not_elem_of_cons by done. tauto.
Qed.

Lemma safe_scan_missing s : resting s -> wp inotify_scan_missing (fun _ s' => resting s') s.
Proof.
  intros [Hi Hq]. pose proof (sg_missing_once _ _ _ (io_subs _ _ _ (ii_ok _ _ _ Hi))) as Hnd.
  unfold inotify_scan_missing, im_scan_missing, G_LOCK, G_UNLOCK. rewrite no_threads.
  apply wp_bind, wp_ret, wp_bind, wp_ino_gets, wp_bind. fold (missing (sv_kernel s)).
  eapply wp_mono; [apply (safe_scan_subs (missing (sv_kernel s)) s (missing (sv_kernel s)) [] s); try done|].
  - split; [|done]. apply (ino_weaken None (missing (sv_kernel s))); [done|by apply NoDup_filter|].
    by intros q [_ ?]%list_elem_of_filter.
  - intros q Hq'. split; [done|by apply not_elem_of_nil].
  - intros found s1 (Hi1 & Eih & Eik).
    assert (missing (sv_kernel s1) = missing (sv_kernel s)) as Em by (unfold missing; by rewrite Eih).
    apply wp_bind, wp_remove_found; [by rewrite Em|]. intros ms Hms Hin. rewrite Em in Hin.
    assert (forall r, (ms <> [] -> r = true) -> resting (upd_ino (upd_ih (set_scan_missing_running r))
      (upd_ino (upd_ih (set_missing_sub_list ms)) s1))) as Hrest.
    { intros r Hr. split; [|unfold queue in *; simpl; by rewrite Eik].
      assert (ino_inv None ms s1) as Hi2.
      { apply (ino_weaken None (still found (missing (sv_kernel s)))); [done|done|].
        intros q Hq'. apply list_elem_of_filter. apply Hin in Hq' as [? ?]. done. }
      apply (ino_same None ms _ _ s1); [done..|]. destruct Hi2 as [[H1 H2 H3 H4 H5 [S1 S2 S3 S4 S5 S6] H7] _ _].
      split; [exact H1|by apply (events_ext (sv_kernel s1))|exact H3|exact H4|exact H5|by split|exact Hr]. }
    apply wp_bind, wp_ino_gets. destruct (bool_decide_reflect (missing_sub_list
      (ih_of (sv_kernel (upd_ino (upd_ih (set_missing_sub_list ms)) s1))) = [])) as [E|E]; simpl in E.
    + apply wp_bind, wp_ino_modify, wp_bind, wp_ret, wp_ret. by apply Hrest.
    + apply wp_bind, wp_ret, wp_ret.
      assert (scan_missing_running (ih_of (sv_kernel s1)) = true) as Er.
      { rewrite Eih. apply (io_timer _ _ _ (ii_ok _ _ _ Hi)). intros H. destruct ms as [|q ms]; [done|].
        destruct (proj1 (Hin q)) as [H' _]; [by left|]. rewrite H in H'. by apply not_elem_of_nil in H'. }
      pose proof (Hrest true ltac:(done)) as H.
      replace (upd_ino (upd_ih (set_missing_sub_list ms)) s1) with
        (upd_ino (upd_ih (set_scan_missing_running true)) (upd_ino (upd_ih (set_missing_sub_list ms)) s1)); [done|].
      symmetry. apply upd_ino_id. simpl. rewrite <- Er. by destruct (sv_kernel s1) as [? ? ? []].
Qed.

(** ** Subscribing *)

(** What the helper does with a subscription: it has a directory, that of its
    path or one above, or it is on the list of the missing, whose timer runs. *)
Definition attended (q : ptr) (x : ih_sub_t) (k : inotify_state) : Prop :=
  (exists d y, sub_dir_hash (ip_of k) !! q = Some d /\ dirs k !! d = Some y /\
     q ∈ ipd_subs y /\ above (ipd_path y) (ihs_dirname x)) \/
  (sub_dir_hash (ip_of k) !! q = None /\ q ∈ missing k /\ scan_missing_running (ih_of k) = true).

(** [q] is attached to the directory [path] itself if that can be watched, and
    is not missing then. *)
Definition attached_at (q : ptr) (path : string) (mask : Z) (s s' : server) : Prop :=
  watchable path mask s -> exists d y, sub_dir_hash (ip_of (sv_kernel s')) !! q = Some d /\
    dirs (sv_kernel s') !! d = Some y /\ ipd_path y = path.

(** The helper's objects [q] is new. *)
Lemma safe_alloc_sub x name s (Q : ptr -> server -> Prop) :
  resting s -> sub_ok (ihs_usersubdata x) name s ->
  (forall s', let q := next_ptr (sv_kernel s) in isubs (sv_kernel s) !! q = None ->
     isubs (sv_kernel s') = <[q := x]> (isubs (sv_kernel s)) -> ih_of (sv_kernel s') = ih_of (sv_kernel s) ->
     ip_of (sv_kernel s') = ip_of (sv_kernel s) -> ik_of (sv_kernel s') = ik_of (sv_kernel s) ->
     sv_world s' = sv_world s -> queue (sv_kernel s') = [] -> sv_heap s' = sv_heap s ->
     dirs (sv_kernel s') = dirs (sv_kernel s) ->
     ino_inv (Some q) (missing (sv_kernel s')) s' -> Q q s') ->
  wp (ialloc x) Q s.
Proof.
  intros [Hi Hq] Hx HQ. apply wp_ialloc. set (q := next_ptr (sv_kernel s)) in *.
  pose proof Hi as [[H1 H2 H3 H4 [H5 H5'] [S1 S2 S3 S4 S5 S6] H7] Hr Hu].
  assert (isubs (sv_kernel s) !! q = None) as Hnew.
  { destruct (isubs (sv_kernel s) !! q) eqn:E; [|done]. specialize (H5' q ltac:(by eexists)). unfold q in H5'. lia. }
  assert (forall r, is_Some (isubs (sv_kernel s) !! r) -> is_Some (<[q := x]> (isubs (sv_kernel s)) !! r)) as Hold
    by (intros r Hr'; apply lookup_insert_is_Some'; by right).
  fold q. set (s' := upd_ino _ s). assert (isubs (sv_kernel s') = <[q := x]> (isubs (sv_kernel s))) as Es by done.
  apply (HQ s'); try done.
  split; [|done|].
  - split; [exact H1| |exact H3|exact H4| | |exact H7].
    + apply (events_ext (sv_kernel s)); try done. unfold next_ptr. simpl. fold (next_ptr (sv_kernel s)). lia.
    + split; [intros d Hd; specialize (H5 d Hd)|intros r; rewrite Es]; unfold next_ptr; simpl; fold (next_ptr (sv_kernel s)).
      * unfold next_ptr in H5. unfold q, next_ptr. lia.
      * intros [y [[<- _]|[_ Hy]]%lookup_insert_Some]; [lia|]. specialize (H5' r ltac:(by exists y)). unfold q. lia.
    + split; rewrite ?Es.
      * intros r y [[<- _]|[_ Hy]]%lookup_insert_Some Hne; [done|]. by apply (S1 r y).
      * intros r Hr'. by apply Hold, S2.
      * exact S3.
      * intros r d Hd. by apply Hold, (S4 r d).
      * intros r Hr'. destruct (S5 r Hr') as [? ?]. split; [by apply Hold|done].
      * exact S6.
  - intros r y. rewrite Es. intros [[<- <-]|[_ Hy]]%lookup_insert_Some; [by exists name|].
    by apply (Hu r y).
Qed.

(** [ih_sub_add] of a new subscription. *)
Lemma safe_sub_add q x s :
  ino_inv (Some q) (missing (sv_kernel s)) s -> queue (sv_kernel s) = [] ->
  isubs (sv_kernel s) !! q = Some x -> ihs_cancelled x = false ->
  q ∉ sub_list (ih_of (sv_kernel s)) -> sub_dir_hash (ip_of (sv_kernel s)) !! q = None ->
  q ∉ missing (sv_kernel s) ->
  wp (ih_sub_add q) (fun b s' => b = true /\ resting s' /\ sv_heap s' = sv_heap s /\
    isubs (sv_kernel s') = isubs (sv_kernel s) /\ attended q x (sv_kernel s') /\
    attached_at q (ihs_dirname x) (sub_mask x) s s') s.
Proof.
  intros Hi Hqu Hx Hc Hl Hd Hm. unfold ih_sub_add, G_LOCK, G_UNLOCK. rewrite no_threads.
  apply wp_bind, wp_ret, wp_bind, wp_ino_gets.
  apply wp_bind, wp_assert; [unfold g_list_find; by rewrite bool_decide_eq_false_2|].
  apply wp_bind. eapply wp_mono; [by apply (safe_start _ _ q x s Hi Hx)|].
  intros b s1 [(Hst & Ht1 & _ & Hb) Hi1].
  pose proof Hst as [Eh Eih Eik Esub Eev Ein En].
  (** The end, with the list of the missing [ms]. *)
  assert (forall s2 ms r, s2 = upd_ino (upd_ih (fun v => set_scan_missing_running r (set_missing_sub_list ms v))) s1 ->
    (ms <> [] -> r = true) -> ino_inv (Some q) ms s1 -> attended q x (sv_kernel s2) ->
    attached_at q (ihs_dirname x) (sub_mask x) s s1 ->
    wp (_ ← ino_modify (upd_ih (fun v => set_sub_list (q :: sub_list v) v)); _ ← mret tt; mret true)
      (fun b s' => b = true /\ resting s' /\ sv_heap s' = sv_heap s /\
        isubs (sv_kernel s') = isubs (sv_kernel s) /\ attended q x (sv_kernel s') /\
        attached_at q (ihs_dirname x) (sub_mask x) s s') s2) as Hend.
  { intros s2 ms r -> Hr Hi2 Hat Hw. apply wp_bind, wp_ino_modify, wp_bind, wp_ret, wp_ret.
    split; [done|]. split; [split; [|unfold queue in *; simpl; by rewrite Eik]|done].
    apply (ino_same (Some q) ms _ _ s1); [done..|].
    destruct Hi2 as [[H1 H2 H3 H4 H5 [S1 S2 S3 S4 S5 S6] H7] _ _].
    split; [exact H1|by apply (events_ext (sv_kernel s1))|exact H3|exact H4|exact H5| |exact Hr].
    split; [| | |exact S4|exact S5|exact S6].
    - intros p y Hp _. destruct (decide (p = q)) as [->|Hne].
      + assert (y = x) as -> by (change (isubs (sv_kernel s1) !! q = Some y) in Hp; congruence).
        split; [done|]. by left.
      + destruct (S1 p y Hp) as [? ?]; [congruence|]. split; [done|]. by right.
    - intros p [->|Hp]%elem_of_cons; [exists x; change (isubs (sv_kernel s1) !! q = Some x); by rewrite Esub|by apply S2].
    - apply NoDup_cons. split; [|exact S3]. change (q ∉ sub_list (ih_of (sv_kernel s1))). by rewrite Eih. }
  assert (missing (sv_kernel s1) = missing (sv_kernel s)) as Em by (unfold missing; by rewrite Eih).
  pose proof (io_timer _ _ _ (ii_ok _ _ _ Hi)) as Htm. rewrite <- Em, <- Eih in Htm.
  destruct b; apply wp_bind; simpl.
  - apply wp_ret. apply (Hend s1 (missing (sv_kernel s1)) (scan_missing_running (ih_of (sv_kernel s1)))); [|done|..].
    + apply upd_ino_id. by destruct (sv_kernel s1) as [? ? ? []].
    + rewrite Em. apply Hi1; [apply (sg_missing_once _ _ _ (io_subs _ _ _ (ii_ok _ _ _ Hi)))|].
      intros r Hr. split; [done|]. by intros ->.
    + left. destruct Hb as (d & y & Hq & Hy & Hp & _). exists d, y. split; [done|]. split; [done|]. split; [|done].
      destruct (tb_sub _ _ (ta_tables _ _ Ht1) q d Hq) as (y' & Hy' & ?). congruence.
    + intros Hw. destruct Hb as (d & y & Hq & Hy & _ & Hp). exists d, y. split; [done|]. split; [done|by apply Hp].
  - destruct Hb as [Hb Hno]. unfold im_add. apply wp_bind, wp_ino_gets. fold (missing (sv_kernel s1)). unfold g_list_find.
    rewrite bool_decide_eq_false_2 by by rewrite Em. apply wp_bind, wp_ino_modify, wp_ino_modify.
    apply (Hend _ (q :: missing (sv_kernel s1)) true); [done|done| | |by intros ?].
    + assert (ino_inv (Some q) (missing (sv_kernel s)) s1) as Hi2.
      { apply Hi1; [apply (sg_missing_once _ _ _ (io_subs _ _ _ (ii_ok _ _ _ Hi)))|]. done. }
      destruct Hi2 as [[H1 H2 H3 H4 H5 [S1 S2 S3 S4 S5 S6] H7] Hr Hu]. rewrite Em. split; [|done..].
      split; [done..| |done]. split; [done..| |by constructor].
      intros r [->|Hr']%elem_of_cons; [|by apply S5]. split; [|done]. exists x. by rewrite Esub.
    + right. split; [exact Hb|]. split; [by left|done].
Qed.

Lemma resting_listed l ln sub sb s : resting s -> addable sub sb l ln s -> resting (listed l ln sub s).
Proof.
  intros [[Hk Hr Hu] Hq] Had. split; [|done]. split; [exact Hk|by apply (listed_ready l ln sub sb)|].
  intros q x Hx. destruct (Hu q x Hx) as (name & Hs). exists name. by apply (listed_sub_ok l ln sub sb).
Qed.

Lemma resting_emits s s' : emits s s' -> resting s -> resting s' /\ sv_kernel s' = sv_kernel s.
Proof.
  intros E [Hi Hq]. destruct (ino_emits None (missing (sv_kernel s)) s s' E Hi) as [Hi' Ek].
  split; [split; by rewrite Ek|done].
Qed.

(** The helper's subscription for [sub]. *)
Definition helper_sub (sub : ptr) (sb : GamSubscription) : ih_sub_t :=
  ih_sub_setup (mk_ih_sub (gam_subscription_is_dir (Some sb)) (sub_path sb) "" None 0 false sub).

(** [ih_sub_fix_dirname] never strips anything. *)
Lemma fix_dirname_id dirname : ih_sub_fix_dirname dirname = dirname.
Proof.
  unfold ih_sub_fix_dirname. destruct (is_slash_at dirname (String.length dirname)) eqn:E; [|done].
  apply InotifyWatch.slash_at_bound in E. lia.
Qed.

(** The directory to watch for a path, and the file in it. *)
Definition watched_dir (is_dir : bool) (path : string) : string :=
  if is_dir then path else g_path_get_dirname path.
Definition watched_file (is_dir : bool) (path : string) : option string :=
  if is_dir then None else Some (g_path_get_basename path).

Lemma helper_sub_fields sub sb :
  let is_dir := gam_subscription_is_dir (Some sb) in
  ihs_usersubdata (helper_sub sub sb) = sub /\ ihs_cancelled (helper_sub sub sb) = false /\
  ihs_pathname (helper_sub sub sb) = sub_path sb /\ ihs_is_dir (helper_sub sub sb) = is_dir /\
  ihs_dirname (helper_sub sub sb) = watched_dir is_dir (sub_path sb) /\
  ihs_filename (helper_sub sub sb) = watched_file is_dir (sub_path sb) /\
  sub_mask (helper_sub sub sb) = IP_INOTIFY_MASK .| IN_ONLYDIR.
Proof.
  unfold helper_sub, ih_sub_setup. simpl. rewrite fix_dirname_id. by destruct (sub_is_dir sb).
Qed.

Lemma inotify_add_outcome sub sb l ln s :
  resting s -> addable sub sb l ln s ->
  wp (gam_inotify_add_subscription sub) (fun b s' => b = true /\ resting s' /\
    (exists q, isubs (sv_kernel s) !! q = None /\
      isubs (sv_kernel s') = <[q := helper_sub sub sb]> (isubs (sv_kernel s)) /\
      attended q (helper_sub sub sb) (sv_kernel s') /\
      attached_at q (ihs_dirname (helper_sub sub sb)) (sub_mask (helper_sub sub sb)) s s') /\
    subs (sv_heap s') = subs (sv_heap s) /\
    listeners (sv_heap s') = <[l := set_ln_subs (sub :: ln_subs ln) ln]> (listeners (sv_heap s))) s.
Proof.
  intros Hrest Had. destruct (helper_sub_fields sub sb) as (Eu & Ec & _).
  unfold gam_inotify_add_subscription.
  apply wp_bind, (wp_load (H := sub_obj)) with sb; [apply (ad_sub _ _ _ _ _ Had)|].
  assert (gam_subscription_get_listener (Some sb) = Some l) as -> by exact (ad_listener _ _ _ _ _ Had).
  apply wp_bind, wp_ret, wp_bind, (wp_listed l ln sub sb); [done|]. set (s1 := listed l ln sub s).
  assert (resting s1) as Hr1 by by apply (resting_listed l ln sub sb).
  assert (sub_ok sub (sub_path sb) s1) as Hsub by by apply listed_self.
  apply wp_bind. unfold ih_sub_new. fold (helper_sub sub sb).
  apply (safe_alloc_sub (helper_sub sub sb) (sub_path sb) s1); [done|by rewrite Eu|].
  intros s2 q Hnew Es Eih Eip Eik Ew Hq2 Eh Ed Hi2. apply wp_bind.
  pose proof (io_subs _ _ _ (ii_ok _ _ _ (proj1 Hr1))) as [_ S2 _ S4 S5 _].
  eapply wp_mono; [apply (safe_sub_add q (helper_sub sub sb) s2 Hi2 Hq2)|].
  - rewrite Es. apply lookup_insert_eq.
  - done.
  - rewrite Eih. intros H. destruct (S2 q H). congruence.
  - rewrite Eip. apply eq_None_not_Some. intros [d E]. destruct (S4 q d E). congruence.
  - unfold missing. rewrite Eih. intros H. destruct (S5 q H) as [[? ?] _]. congruence.
  - intros b s3 (-> & Hr3 & Eh3 & Es3 & Hat & Hw). simpl. apply wp_bind.
    eapply wp_mono; [apply (wp_initial_events _ sub _ _ (sub_path sb) s3)|].
    + apply (ii_ready _ _ _ (proj1 Hr3)).
    + unfold sub_ok. by rewrite Eh3, Eh.
    + intros [] s4 E4. apply wp_ret. destruct (resting_emits s3 s4 E4 Hr3) as [Hr4 Ek4].
      destruct E4 as (cs & w & -> & _). split; [done|]. split; [done|]. split.
      * exists q. split; [exact Hnew|]. simpl. split; [by rewrite Es3, Es|]. split; [done|].
        intros Hwa. apply Hw. unfold watchable. rewrite Eip, Eik, Ew. exact Hwa.
      * simpl. by rewrite Eh3, Eh.
Qed.

(** ** Cancelling *)

(** Only [q] is gone from the helper's tables. *)
Record cancelled (q : ptr) (s s' : server) : Prop := {
  cd_heap : sv_heap s' = sv_heap s;
  cd_isubs : isubs (sv_kernel s') = delete q (isubs (sv_kernel s));
  cd_moves : only_moves q s s';
  cd_missing : missing (sv_kernel s') = g_list_remove_all (missing (sv_kernel s)) q;
  cd_timer : scan_missing_running (ih_of (sv_kernel s')) = scan_missing_running (ih_of (sv_kernel s))
}.

Lemma wp_im_rm q s (Q : unit -> server -> Prop) :
  NoDup (missing (sv_kernel s)) ->
  Q tt (upd_ino (upd_ih (set_missing_sub_list (g_list_remove_all (missing (sv_kernel s)) q))) s) ->
  wp (im_rm q) Q s.
Proof.
  intros Hnd HQ. unfold im_rm. apply wp_bind, wp_ino_gets. fold (missing (sv_kernel s)). unfold g_list_find.
  destruct (bool_decide_reflect (q ∈ missing (sv_kernel s))) as [H|H]; simpl.
  - apply wp_ino_modify. fold (missing (sv_kernel s)). by rewrite g_list_remove_NoDup.
  - apply wp_ret. rewrite g_list_remove_all_notin in HQ by done.
    rewrite <- (upd_ino_id (upd_ih (set_missing_sub_list (missing (sv_kernel s))))) in HQ; [done|].
    by destruct (sv_kernel s) as [? ? ? []].
Qed.

Lemma safe_cancel q x s :
  resting s -> isubs (sv_kernel s) !! q = Some x ->
  wp (_ ← ih_sub_cancel q; ih_sub_free q) (fun _ s' => resting s' /\ cancelled q s s') s.
Proof.
  intros [Hi Hqu] Hx. pose proof Hi as [[H1 H2 H3 H4 H5 [S1 S2 S3 S4 S5 S6] H7] Hr Hu].
  destruct (S1 q x Hx) as [Hc Hin]; [done|].
  apply wp_bind. unfold ih_sub_cancel, G_LOCK, G_UNLOCK. rewrite no_threads.
  apply wp_bind, wp_ret. ino_load Hx. rewrite Hc. simpl. apply wp_bind, wp_bind, wp_ino_gets.
  apply wp_bind, wp_assert; [unfold g_list_find; by rewrite bool_decide_eq_true_2|].
  apply wp_bind. eapply wp_iupdate; [exact Hx|]. set (s1 := upd_ino _ s).
  assert (isubs (sv_kernel s1) = <[q := set_ihs_cancelled true x]> (isubs (sv_kernel s))) as E1 by done.
  assert (forall r, is_Some (isubs (sv_kernel s) !! r) -> is_Some (isubs (sv_kernel s1) !! r)) as Hold
    by (intros r ?; rewrite E1; apply lookup_insert_is_Some'; by right).
  apply wp_bind, wp_im_rm; [exact S6|]. change (missing (sv_kernel s1)) with (missing (sv_kernel s)).
  set (ms := g_list_remove_all (missing (sv_kernel s)) q). set (s2 := upd_ino _ s1).
  assert (isubs (sv_kernel s2) = <[q := set_ihs_cancelled true x]> (isubs (sv_kernel s))) as E2 by done.
  assert (ino_inv (Some q) ms s2) as Hi2.
  { split; [|exact Hr|].
    - split; [exact H1|by apply (events_ext (sv_kernel s))|exact H3|exact H4| | |].
      + destruct H5 as [H5 H5']. split; [exact H5|]. intros r. rewrite E2.
        intros [y [[<- _]|[_ Hy]]%lookup_insert_Some]; apply H5'; by eexists.
      + split; [| |exact S3| | |by apply g_list_remove_all_nodup].
        * intros r y. rewrite E2. intros [[<- _]|[_ Hy]]%lookup_insert_Some Hne; [done|]. by apply (S1 r y).
        * intros r H. by apply Hold, S2.
        * intros r d H. by apply Hold, (S4 r d).
        * intros r [H _]%elem_of_g_list_remove_all. destruct (S5 r H). split; [by apply Hold|done].
      + intros Hne. apply H7. intros E. apply Hne. change (ms = []). unfold ms. by rewrite E.
    - intros r y. rewrite E2. intros [[<- <-]|[_ Hy]]%lookup_insert_Some; [apply (Hu q x Hx)|by apply (Hu r y)]. }
  apply wp_bind. eapply wp_mono; [by apply (safe_stop (Some q) ms q)|].
  intros b s3 [(Hst & _ & Hm & Hq3) Hi3]. pose proof Hst as [Eh Eih Eik Esub Eev Ein En].
  apply wp_ino_modify, wp_bind, wp_ret, wp_ret. unfold ih_sub_free.
  assert (isubs (sv_kernel s3) !! q = Some (set_ihs_cancelled true x)) as Hx3
    by (rewrite Esub, E2; apply lookup_insert_eq).
  eapply (wp_ifree ih_sub_t q); [exact Hx3|]. set (s4 := upd_ino _ _).
  assert (isubs (sv_kernel s4) = delete q (isubs (sv_kernel s))) as E4.
  { change (delete q (isubs (sv_kernel s3)) = delete q (isubs (sv_kernel s))). rewrite Esub, E2. apply delete_insert_eq. }
  assert (missing (sv_kernel s3) = ms) as Em by (unfold missing; by rewrite Eih).
  split; [split|].
  - destruct Hi3 as [[T1 T2 T3 T4 T5 [U1 U2 U3 U4 U5 U6] T7] Tr Tu].
    assert (forall r, r <> q -> is_Some (isubs (sv_kernel s3) !! r) -> is_Some (isubs (sv_kernel s4) !! r)) as Hkeep
      by (intros r Hne H; change (is_Some (delete q (isubs (sv_kernel s3)) !! r)); by rewrite lookup_delete_ne).
    assert (forall y, Some y = Some q -> y = q) as Hinj by congruence.
    assert (sub_list (ih_of (sv_kernel s4)) = g_list_remove_all (sub_list (ih_of (sv_kernel s3))) q) as El.
    { change (g_list_remove (sub_list (ih_of (sv_kernel s3))) q = g_list_remove_all (sub_list (ih_of (sv_kernel s3))) q).
      by apply g_list_remove_NoDup. }
    split; [|exact Tr|].
    + split; [exact T1|by apply (events_ext (sv_kernel s3))|exact T3|exact T4| | |exact T7].
      * destruct T5 as [T5 T5']. split; [exact T5|]. intros r [y Hy]. apply T5'.
        change (delete q (isubs (sv_kernel s3)) !! r = Some y) in Hy. apply lookup_delete_Some in Hy as [_ Hy]. by exists y.
      * change (missing (sv_kernel s4)) with (missing (sv_kernel s3)). rewrite Em. split; rewrite ?El.
        -- intros r y Hy _. change (delete q (isubs (sv_kernel s3)) !! r = Some y) in Hy.
           apply lookup_delete_Some in Hy as [Hne Hy]. destruct (U1 r y Hy) as [? ?]; [congruence|].
           split; [done|]. by apply elem_of_g_list_remove_all.
        -- intros r [H Hne]%elem_of_g_list_remove_all. by apply Hkeep, U2.
        -- by apply g_list_remove_all_nodup.
        -- intros r d H. apply Hkeep; [|by apply (U4 r d)]. intros ->.
           change (sub_dir_hash (ip_of (sv_kernel s3)) !! q = Some d) in H. congruence.
        -- intros r H. destruct (U5 r H) as [? ?]. split; [|done]. apply Hkeep; [|done]. intros ->.
           by apply elem_of_g_list_remove_all in H as [_ ?].
        -- done.
    + intros r y Hy. change (delete q (isubs (sv_kernel s3)) !! r = Some y) in Hy.
      apply lookup_delete_Some in Hy as [_ Hy]. by apply (Tu r y).
  - change (queue (sv_kernel s3) = []). unfold queue. rewrite Eik. exact Hqu.
  - split; [by change (sv_heap s3 = sv_heap s); rewrite Eh|exact E4|exact Hm|exact Em|].
    change (scan_missing_running (ih_of (sv_kernel s3)) = scan_missing_running (ih_of (sv_kernel s))). by rewrite Eih.
Qed.

(** ** Going through the helper's subscriptions *)

(** Those for which [P] says so are gone, the others are as they were. *)
Record swept (P : ih_sub_t -> bool) (s s' : server) : Prop := {
  sw_heap : sv_heap s' = sv_heap s;
  sw_isubs q x : isubs (sv_kernel s') !! q = Some x <-> isubs (sv_kernel s) !! q = Some x /\ P x = false;
  sw_dirs q x : isubs (sv_kernel s) !! q = Some x -> P x = false ->
    sub_dir_hash (ip_of (sv_kernel s')) !! q = sub_dir_hash (ip_of (sv_kernel s)) !! q /\
    (q ∈ missing (sv_kernel s') <-> q ∈ missing (sv_kernel s))
}.

Section Sweep.
Context (f : ptr -> M bool) (P : ih_sub_t -> bool) (s0 : server).
Context (Hf : forall s q x, sv_heap s = sv_heap s0 -> isubs (sv_kernel s) !! q = Some x ->
  isubs (sv_kernel s0) !! q = Some x -> f q s = Ok (P x, s)).

(** The subscriptions in [l] are still to be looked at. *)
Record sweeping (l : list ptr) (s : server) : Prop := {
  sp_rest : resting s;
  sp_heap : sv_heap s = sv_heap s0;
  sp_once : NoDup l;
  sp_isubs q x : isubs (sv_kernel s) !! q = Some x <->
    isubs (sv_kernel s0) !! q = Some x /\ (q ∈ l \/ P x = false);
  sp_list q : q ∈ l -> is_Some (isubs (sv_kernel s) !! q);
  sp_dirs q x : isubs (sv_kernel s0) !! q = Some x -> P x = false ->
    sub_dir_hash (ip_of (sv_kernel s)) !! q = sub_dir_hash (ip_of (sv_kernel s0)) !! q /\
    (q ∈ missing (sv_kernel s) <-> q ∈ missing (sv_kernel s0))
}.

Lemma sweep_step q l s :
  sweeping (q :: l) s ->
  wp (b ← f q; when b (_ ← ih_sub_cancel q; ih_sub_free q)) (fun _ s' => sweeping l s') s.
Proof.
  intros [Hr Eh [Hq Hnd]%NoDup_cons His Hl Hd]. destruct (Hl q) as [x Hx]; [by left|].
  pose proof (proj1 (proj1 (His q x) Hx)) as Hx0. apply wp_bind. unfold wp at 1. rewrite (Hf s q x Eh Hx Hx0).
  destruct (P x) eqn:Ep; simpl.
  - eapply wp_mono; [by apply (safe_cancel q x)|]. intros [] s' [Hr' [Ch Ci Cm Cs Ct]].
    assert (forall r, r ∈ l -> r <> q) as Hne by (intros r ? ->; done).
    split; [done|congruence|done|..].
    + intros r y. rewrite Ci, lookup_delete_Some, His, elem_of_cons. split.
      * intros (Hn & Hy & H). split; [done|]. destruct H as [[->|?]|?]; [done|by left|by right].
      * intros [Hy H]. assert (q <> r) as Hn.
        { intros <-. destruct H as [H|H]; [by apply Hq|congruence]. }
        split; [done|]. split; [done|]. destruct H as [?|?]; [left; by right|by right].
    + intros r Hr''. rewrite Ci, lookup_delete_ne by (intros ->; done). apply Hl. by right.
    + intros r y Hy Hp. assert (r <> q) as Hn by (intros ->; congruence).
      rewrite (Cm r Hn), Cs, elem_of_g_list_remove_all. destruct (Hd r y Hy Hp) as [-> <-]. tauto.
  - apply wp_ret. split; [done|done|done|..|done].
    + intros r y. rewrite His, elem_of_cons. split.
      * intros [Hy [[->|?]|?]]; (split; [done|]); [|by left|by right]. right. congruence.
      * intros [Hy [?|?]]; (split; [done|]); [left; by right|by right].
    + intros r Hr'. apply Hl. by right.
Qed.

Lemma safe_foreach_free :
  resting s0 -> wp (ih_sub_foreach_free f) (fun _ s' => resting s' /\ swept P s0 s') s0.
Proof.
  intros Hr. pose proof (io_subs _ _ _ (ii_ok _ _ _ (proj1 Hr))) as [S1 S2 S3 _ _ _].
  unfold ih_sub_foreach_free, ih_sub_foreach_worker, G_LOCK, G_UNLOCK. rewrite no_threads.
  apply wp_bind, wp_ret, wp_bind, wp_ino_gets, wp_bind.
  eapply wp_mono; [apply (wp_for_each sweeping)|].
  - intros q l s Hs. apply (sweep_step q l s Hs).
  - split; [done|done|done| |done|done]. intros q x. split; [|by intros [? _]].
    intros Hx. split; [done|]. left. by apply (S1 q x).
  - intros [] s' [Hr' Eh _ His _ Hd]. apply wp_ret. split; [done|]. split; [done| |done].
    intros q x. rewrite His, elem_of_nil. tauto.
Qed.
End Sweep.

(** No subscription of the helper stands for [sub]. *)
Definition forgotten (sub : ptr) (k : inotify_state) : Prop :=
  forall q x, isubs k !! q = Some x -> ihs_usersubdata x <> sub.

Lemma inotify_remove_outcome sub s :
  resting s -> wp (gam_inotify_remove_subscription sub) (fun b s' => b = true /\ resting s' /\
    swept (fun x => bool_decide (ihs_usersubdata x = sub)) s s') s.
Proof.
  intros Hr. unfold gam_inotify_remove_subscription. apply wp_bind.
  eapply wp_mono; [apply (safe_foreach_free _ (fun x => bool_decide (ihs_usersubdata x = sub)) s)|]; [|done|].
  - intros s1 q x _ Hx _. unfold gam_inotify_remove_sub_pred, mbind, ST_bind, iload.
    change (ino_objs (sv_kernel s1) !! q) with (isubs (sv_kernel s1) !! q). by rewrite Hx.
  - intros [] s' [Hr' Hs]. by apply wp_ret.
Qed.

(** Whether a subscription of the helper is of a listener. *)
Definition listens (l : ptr) (s : server) (x : ih_sub_t) : bool :=
  match subs (sv_heap s) !! ihs_usersubdata x with
  | Some sb => bool_decide (gam_subscription_get_listener (Some sb) = Some l)
  | None => false
  end.

Lemma inotify_remove_all_outcome l s :
  resting s -> wp (gam_inotify_remove_all_for l) (fun b s' => b = true /\ resting s' /\
    swept (listens l s) s s') s.
Proof.
  intros Hr. unfold gam_inotify_remove_all_for. apply wp_bind.
  eapply wp_mono; [apply (safe_foreach_free _ (listens l s) s)|]; [|done|].
  - intros s1 q x Eh Hx Hx0. destruct (ii_users _ _ _ (proj1 Hr) q x Hx0) as (name & sb & _ & Hsb & _).
    unfold gam_inotify_remove_listener_pred, mbind, ST_bind, iload.
    change (ino_objs (sv_kernel s1) !! q) with (isubs (sv_kernel s1) !! q). rewrite Hx.
    unfold load, objs. simpl. rewrite Eh, Hsb. unfold listens. by rewrite Hsb.
  - intros [] s' [Hr' Hs]. by apply wp_ret.
Qed.

(** ** The event source *)

Lemma resting_world w s : resting s -> resting (set_sv_world w s).
Proof. intros [Hi Hq]. split; [|done]. by apply (ino_same None (missing (sv_kernel s)) _ _ s); [..|apply (ii_ok _ _ _ Hi)]. Qed.

Lemma resting_ik f s :
  (forall v, inotify_instance_fd (f v) = inotify_instance_fd v /\ events_to_process (f v) = events_to_process v /\
     event_queue (f v) = event_queue v /\ cookie_hash (f v) = cookie_hash v) ->
  resting s -> resting (upd_ino (upd_ik f) s).
Proof.
  intros Hf [Hi Hq]. destruct (Hf (ik_of (sv_kernel s))) as (F1 & F2 & F3 & F4). split.
  - apply (ino_ik_step s); [done|by split|]. apply (events_ext (sv_kernel s)); try done.
    apply (io_events _ _ _ (ii_ok _ _ _ Hi)).
  - unfold queue in *. simpl. congruence.
Qed.

Lemma source_check_outcome readable s : resting s -> wp (ik_source_check readable) (fun _ s' => resting s') s.
Proof.
  intros Hr. assert (forall s1, resting s1 -> wp do_read (fun _ s' => resting s') s1) as Hread.
  { intros s1 H1. apply wp_bind, wp_ino_modify, wp_ret. by apply resting_ik. }
  unfold ik_source_check. apply wp_bind, wp_ino_gets. destruct (_ || _); [by apply wp_ret|].
  destruct (_ <? _); [|by apply Hread]. apply wp_bind, wp_sys. intros r w _.
  pose proof (resting_world w s Hr) as Hw. destruct r as [n|e]; [|by apply Hread].
  destruct (_ >? _); [by apply Hread|]. destruct (_ <? _); [by apply Hread|].
  apply wp_bind, wp_ino_modify, wp_ret. by apply resting_ik.
Qed.

Lemma source_timeout_outcome s : resting s -> wp ik_source_timeout (fun _ s' => resting s') s.
Proof. intros Hr. apply wp_bind, wp_ino_modify, wp_ret. by apply resting_ik. Qed.

(** ** Start *)

(** A daemon before its backend is started. *)
Definition fresh_daemon (s : server) : Prop := sv_kernel s = inotify_initial /\ ready s.

Lemma events_empty k :
  todo k = [] -> queue k = [] -> ints k = ∅ -> hash k = ∅ -> events_ok k.
Proof.
  intros E1 E2 E3 E4.
  assert (under_way k = []) as Eu by (unfold under_way; by rewrite E1, E2).
  split; [|split; [|split]].
  - assert (forall p : ptr, p ∈ [] -> False) as Hnil by (by intros p ?%elem_of_nil).
    split; rewrite ?E1, ?E2, ?E3, ?E4; try constructor; try (intros p; intros; by destruct (Hnil p)).
    done.
  - split; [intros p i; by rewrite E3, lookup_empty|]. intros e. rewrite Eu. by intros ?%elem_of_nil.
  - exists [], []. split; [by rewrite E1|]. split; by intros a i ?%elem_of_nil.
  - rewrite E2. constructor.
Qed.

Lemma resting_empty s :
  0 <= inotify_instance_fd (ik_of (sv_kernel s)) -> ino_heap_of (sv_kernel s) = mk_ino_heap 1 ∅ ∅ ∅ ∅ ->
  todo (sv_kernel s) = [] -> queue (sv_kernel s) = [] -> hash (sv_kernel s) = ∅ ->
  ip_of (sv_kernel s) = mk_ip_vars true true ∅ ∅ ∅ -> sub_list (ih_of (sv_kernel s)) = [] ->
  missing (sv_kernel s) = [] -> ready s -> resting s.
Proof.
  intros Hfd Eh Et Eq Ehash Eip El Em Hr.
  assert (dirs (sv_kernel s) = ∅ /\ isubs (sv_kernel s) = ∅ /\ ints (sv_kernel s) = ∅) as (Ed & Es & Ei)
    by (unfold dirs, isubs, ints; by rewrite Eh).
  split; [|done]. split; [|done|intros q x; by rewrite Es, lookup_empty]. split; [done|by apply events_empty|..].
  - rewrite Ed, Eip. apply (tables_empty (mk_ip_vars true true ∅ ∅ ∅)).
  - intros d x. by rewrite Ed, lookup_empty.
  - split; intros p; rewrite ?Ed, ?Es, lookup_empty; by intros [? ?].
  - assert (forall p : ptr, p ∈ [] -> False) as Hnil by (by intros p ?%elem_of_nil).
    split; rewrite ?El, ?Es, ?Em, ?Eip; [|by intros q ?%Hnil|apply NoDup_nil_2| |by intros q ?%Hnil|apply NoDup_nil_2].
    + intros q x. by rewrite lookup_empty.
    + intros q d. simpl. by rewrite lookup_empty.
  - by rewrite Em.
Qed.

Lemma startup_outcome s :
  fresh_daemon s -> wp ih_startup (fun b s' => b = true -> resting s') s.
Proof.
  intros [Ek Hr]. unfold ih_startup, ip_startup, ik_startup, G_LOCK, G_UNLOCK. rewrite no_threads.
  apply wp_bind, wp_ret, wp_bind, wp_ino_gets. rewrite Ek. simpl.
  apply wp_bind, wp_bind, wp_ino_gets. rewrite Ek. simpl.
  apply wp_bind, wp_bind, wp_ino_gets. rewrite Ek. simpl.
  apply wp_bind, wp_sys. intros fd w _. apply wp_bind, wp_ino_modify.
  destruct (Z.ltb_spec fd 0) as [Hfd|Hfd].
  - apply wp_ret, wp_bind, wp_ino_modify. simpl. apply wp_ret, wp_bind, wp_ino_modify. simpl.
    by apply wp_bind, wp_ret, wp_ret.
  - apply wp_bind, wp_ino_modify, wp_ret, wp_bind, wp_ino_modify. simpl.
    apply wp_bind, wp_ino_modify, wp_ret, wp_bind, wp_ino_modify. simpl.
    apply wp_bind, wp_ino_modify, wp_bind, wp_ret, wp_ret. intros _.
    apply resting_empty; simpl; rewrite ?Ek; try done.
Qed.

Lemma poll_basic_init_frame :
  preserves (fun s s' : server => (sv_kernel s, listeners (sv_heap s), conns (sv_heap s))
    = (sv_kernel s', listeners (sv_heap s'), conns (sv_heap s'))) gam_poll_basic_init.
Proof.
  unfold gam_poll_basic_init, gam_poll_generic_init, gam_tree_new, gam_node_new, new_node, gam_poll_generic_update_time.
  preserve.
Qed.

Lemma inotify_init_outcome s s' :
  fresh_daemon s -> gam_inotify_init s = Ok (true, s') -> resting s'.
Proof.
  intros [Ek Hr] E. unfold gam_inotify_init in E.
  apply bind_inv in E as (b1 & s1 & E1 & E). apply bind_inv in E as (b2 & s2 & E2 & E).
  pose proof (preserves_Ok _ _ _ _ _ poll_basic_init_frame E1) as Hf. injection Hf as F1 F2 F3.
  injection E2 as _ <-.
  assert (fresh_daemon (upd_ctl (set_kernel_handler GAMIN_K_INOTIFY2) s1)) as Hfr.
  { split; [by rewrite <- Ek, F1|]. intros l ln Hl. change (listeners (sv_heap s1) !! l = Some ln) in Hl.
    rewrite <- F2 in Hl. specialize (Hr l ln Hl). unfold conn_ready in *. simpl. by rewrite <- F3. }
  pose proof (startup_outcome _ Hfr) as H. unfold wp in H. rewrite E in H. by apply H.
Qed.

(** ** What the clients' code relies on *)

Definition ino_held (k : inotify_state) (q : ptr) : Prop := exists h x, isubs k !! h = Some x /\ ihs_usersubdata x = q.

Lemma swept_held P s s' q : swept P s s' -> ino_held (sv_kernel s') q -> ino_held (sv_kernel s) q.
Proof. intros Hs (h & x & Hx & E). exists h, x. split; [|done]. by apply (sw_isubs _ _ _ Hs) in Hx as [? _]. Qed.

#[export, program] Instance inotify_safe : KernelSafe (inotify_backend (ino := ino)) := {|
  ks_inv := resting;
  ks_held := ino_held;
  ks_ghost := fun _ => tt
|}.
Next Obligation. done. Qed.
Next Obligation. done. Qed.
Next Obligation. done. Qed.
Next Obligation. intros s [Hi _]. apply (ii_ready _ _ _ Hi). Qed.
Next Obligation. intros s q [Hi _] (h & x & Hx & <-). apply (ii_users _ _ _ Hi h x Hx). Qed.
Next Obligation.
  intros s s' [[Hk _ Hu] Hq] Ek _ Hr Hkept. split; [|by rewrite Ek]. rewrite Ek.
  split; [by rewrite Ek|done|]. intros h x Hx. rewrite Ek in Hx. destruct (Hu h x Hx) as (name & Hs).
  exists name. apply (kept_sub_ok _ _ s); [|done]. apply Hkept. by exists h, x.
Qed.
Next Obligation.
  intros sub sb l ln s Hr Had. eapply wp_mono; [by apply (inotify_add_outcome sub sb l ln)|]. by intros b s' (_ & ? & _).
Qed.
Next Obligation.
  intros sub sb s Hr Hsb. eapply wp_mono; [by apply inotify_remove_outcome|]. intros b s' (_ & Hr' & Hs).
  split; [done|]. split; [|split; [by intros q; apply swept_held with (1 := Hs)|]].
  - intros (h & x & Hx & E). apply (sw_isubs _ _ _ Hs) in Hx as [_ H]. by apply bool_decide_eq_false in H.
  - rewrite (sw_heap _ _ _ Hs). split; [done|]. intros q x Hx. by exists x.
Qed.

#[local] Existing Instance inotify_backend.

(** ** What can happen *)

Inductive ino_call :=
  | SourceChecked (readable : bool)   (** GLib asks the event source whether to read *)
  | SourceTimeout
  | EventsReadable
  | EventsTimer
  | MissingTimer
  | Subscribe (sub : ptr)
  | Unsubscribe (sub : ptr)
  | ClientGone (listener : ptr)
  | Request (conn : ptr) (off : nat) (req : GAMPacket)   (** a client's request in the buffer *)
  | ListenerFreed (listener : ptr).                      (** its connection is closed *)

Definition serve (c : ino_call) : M bool :=
  match c with
  | SourceChecked readable => ik_source_check readable
  | SourceTimeout => ik_source_timeout
  | EventsReadable => ik_read_callback
  | EventsTimer => inotify_process
  | MissingTimer => inotify_scan_missing
  | Subscribe sub => gam_inotify_add_subscription sub
  | Unsubscribe sub => gam_inotify_remove_subscription sub
  | ClientGone l => gam_inotify_remove_all_for l
  | Request conn off req => _ ← gam_connection_request conn off req; mret true
  | ListenerFreed l => _ ← gam_listener_free l; mret true
  end.

(** What the callers provide: a live subscription, added once to its listener;
    a request of an authenticated client; a listener whose list has all its
    subscriptions.  The paths of a request or listener must still be the
    kernel's: after a remount [gam_remove_subscription] asks the wrong backend
    ([inotify_remount_use_after_free] in [InotifySim]). *)
Definition callable (c : ino_call) (s : server) : Prop :=
  match c with
  | Subscribe sub => exists sb l ln, addable sub sb l ln s
  | Request conn off req => asks conn off req s
  | ListenerFreed l => exists ln, tidy l ln s /\ lists_own l (ln_subs ln) s /\ still_kernel l (ln_subs ln) s
  | _ => True
  end.

(** The rest of the daemon at work: it leaves the backend alone, keeps its
    clients' connections ready, and the subscriptions that the helper refers to
    stay with their listeners. *)
Record elsewhere (s s' : server) : Prop := {
  el_kernel : sv_kernel s' = sv_kernel s;
  el_ready : ready s -> ready s';
  el_subs q name : ~ forgotten q (sv_kernel s) -> sub_ok q name s -> sub_ok q name s'
}.

(** The states that a daemon that started with inotify comes to. *)
Inductive ino_reachable : server -> Prop :=
  | reach_init s0 s : fresh_daemon s0 -> gam_inotify_init s0 = Ok (true, s) -> ino_reachable s
  | reach_call c b s s' : ino_reachable s -> callable c s -> serve c s = Ok (b, s') -> ino_reachable s'
  | reach_other s s' : ino_reachable s -> elsewhere s s' -> ino_reachable s'.

Lemma ino_serve_outcome c s :
  resting s -> callable c s -> exists b s', serve c s = Ok (b, s') /\ resting s'.
Proof.
  intros Hr Hc.
  assert (wp (serve c) (fun _ s' => resting s') s) as H.
  { destruct c as [b| | | | |sub|sub|l|conn off req|l]; simpl in *.
    - by apply source_check_outcome.
    - by apply source_timeout_outcome.
    - by apply safe_read.
    - by apply safe_process.
    - by apply safe_scan_missing.
    - destruct Hc as (sb & l & ln & Had).
      eapply wp_mono; [by apply (inotify_add_outcome sub sb l ln)|]. by intros b s' (_ & ? & _).
    - eapply wp_mono; [by apply inotify_remove_outcome|]. by intros b s' (_ & ? & _).
    - eapply wp_mono; [by apply inotify_remove_all_outcome|]. by intros b s' (_ & ? & _).
    - apply wp_bind. eapply wp_mono; [exact (request_safe (ks := inotify_safe) conn off req s Hr Hc)|].
      intros r s' Hr'. by apply wp_ret.
    - destruct Hc as (ln & Ht & Ho & Hk). apply wp_bind.
      eapply wp_mono; [exact (listener_free_safe (ks := inotify_safe) l ln s Hr Ht Ho Hk)|].
      intros [] s' [Hr' _]. by apply wp_ret. }
  destruct (wp_Ok _ _ _ H) as (b & s' & E & Hr'). by exists b, s'.
Qed.

Lemma reachable_resting s : ino_reachable s -> resting s.
Proof.
  induction 1 as [s0 s Hf E|c b s s' _ IH Hc E|s s' _ [[Hk Hr Hu] Hq] [Ek Hready Hsub]].
  - by apply (inotify_init_outcome s0).
  - destruct (ino_serve_outcome c s IH Hc) as (b' & s1 & E' & Hr). congruence.
  - split; [|by rewrite Ek]. rewrite Ek. split; [by rewrite Ek|by apply Hready|].
    intros q x Hx. rewrite Ek in Hx. destruct (Hu q x Hx) as (name & Hs). exists name. apply Hsub; [|done].
    intros Hn. by apply (Hn q x).
Qed.

(** ** What holds between two calls *)




(** C9: subscribing with inotify.  In a reachable state
    [gam_inotify_add_subscription] of a new subscription succeeds.  The helper
    has exactly one subscription more, for the path and kind of the client's,
    with the directory to watch (the path itself, or its directory for a file)
    and the name to look for in it.  It is attached to that directory if this
    is watched already or the kernel accepts a watch on it; otherwise to a
    watched directory above it, or it is on the list of the missing with the
    timer running.  Of the daemon's objects only the subscription's listener
    changes. *)
Theorem inotify_subscribe_attends sub sb l ln s :
  ino_reachable s -> addable sub sb l ln s ->
  let is_dir := gam_subscription_is_dir (Some sb) in
  let dir := watched_dir is_dir (sub_path sb) in
  exists q x s', gam_inotify_add_subscription sub s = Ok (true, s') /\
    isubs (sv_kernel s) !! q = None /\ isubs (sv_kernel s') = <[q := x]> (isubs (sv_kernel s)) /\
    ihs_usersubdata x = sub /\ ihs_pathname x = sub_path sb /\ ihs_is_dir x = is_dir /\
    ihs_dirname x = dir /\ ihs_filename x = watched_file is_dir (sub_path sb) /\
    attended q x (sv_kernel s') /\ attached_at q dir (IP_INOTIFY_MASK .| IN_ONLYDIR) s s' /\
    subs (sv_heap s') = subs (sv_heap s) /\
    listeners (sv_heap s') = <[l := set_ln_subs (sub :: ln_subs ln) ln]> (listeners (sv_heap s)).
Proof.
  intros Hr Had is_dir dir. destruct (helper_sub_fields sub sb) as (E1 & _ & E2 & E3 & E4 & E5 & E6).
  destruct (wp_Ok _ _ _ (inotify_add_outcome sub sb l ln s (reachable_resting s Hr) Had))
    as (b & s' & E & -> & _ & (q & Hq & Es & Hat & Hw) & Hs & Hl). rewrite E4, E6 in Hw.
  exists q, (helper_sub sub sb), s'. auto 15.
Qed.

(** C10: unsubscribing with inotify.  In a reachable state
    [gam_inotify_remove_subscription] completes; afterwards the helper has no
    subscription for it, so that freeing it is safe, and has exactly the others
    it had, each with the directory it had or still missing. *)
Theorem inotify_unsubscribe_forgets sub s :
  ino_reachable s ->
  exists s', gam_inotify_remove_subscription sub s = Ok (true, s') /\
    forgotten sub (sv_kernel s') /\ sv_heap s' = sv_heap s /\
    (forall q x, ihs_usersubdata x <> sub ->
       (isubs (sv_kernel s') !! q = Some x <-> isubs (sv_kernel s) !! q = Some x)) /\
    (forall q x, isubs (sv_kernel s') !! q = Some x ->
       sub_dir_hash (ip_of (sv_kernel s')) !! q = sub_dir_hash (ip_of (sv_kernel s)) !! q /\
       (q ∈ missing (sv_kernel s') <-> q ∈ missing (sv_kernel s))).
Proof.
  intros Hr. destruct (wp_Ok _ _ _ (inotify_remove_outcome sub s (reachable_resting s Hr)))
    as (b & s' & E & -> & _ & [Eh His Hd]).
  exists s'. split; [done|]. split; [|split; [done|split]].
  - intros q x Hx. apply His in Hx as [_ H]. by apply bool_decide_eq_false in H.
  - intros q x Hne. rewrite His, bool_decide_eq_false. tauto.
  - intros q x Hx. apply His in Hx as [Hx Hp]. by apply (Hd q x).
Qed.
End Service.
