(* ===== verification/InotifySim.v ===== *)
(** * A simulated kernel, and runs of the inotify daemon

    A file system whose directories have inodes, watches on inodes and a queue
    of raw reads, on which the inotify daemon runs; then runs that reach errors
    of the backend. *)

From S2P Require Import Prelude Protocol EventQueue Monad OS Fs.
From S2P Require Import Conf State Subscription Listener ConnSend Node.
From S2P Require Import Tree Emit PollGeneric PollBasic Server Connection.
From S2P Require Import InotifyState InotifyKernel InotifyMissing InotifyPath InotifyHelper.
From S2P Require Import InotifyWatch InotifyPairing InotifyMoves InotifyRead.
From S2P Require Import Safety InotifyInv InotifySafety KernelClients InotifyService.

Local Open Scope Z_scope.

(** ** The simulated kernel *)

(** Directories with the inode [inotify_add_watch] finds, which it returns as
    the watch (two paths may have the same); paths for which it fails with an
    error of their own; the watched inodes; what the next reads return. *)
Record ino_world := mk_ino_world {
  iw_sim : sim_world;
  iw_inodes : list (string * Z);
  iw_errors : list (string * Z);
  iw_watched : list Z;
  iw_reads : list (list byte)
}.

Definition on_sim {A} (f : sim_world -> A * sim_world) (w : ino_world) : A * ino_world :=
  let '(a, s) := f (iw_sim w) in
  (a, mk_ino_world s (iw_inodes w) (iw_errors w) (iw_watched w) (iw_reads w)).

Definition set_watched (l : list Z) (w : ino_world) : ino_world :=
  mk_ino_world (iw_sim w) (iw_inodes w) (iw_errors w) l (iw_reads w).

Definition ino_os : OS := {|
  world := ino_world;
  sys_stat p := on_sim (sys_stat (OS := sim_os) p);
  file_exists p := on_sim (file_exists (OS := sim_os) p);
  file_is_dir p := on_sim (file_is_dir (OS := sim_os) p);
  dir_names p := on_sim (dir_names (OS := sim_os) p);
  sys_time := on_sim (sys_time (OS := sim_os));
  file_contents p := on_sim (file_contents (OS := sim_os) p);
  sys_write fd l := on_sim (sys_write (OS := sim_os) fd l);
  interrupts := fun w : ino_world => sim_signals (iw_sim w);
  stack_garbage _ := 0;
  proc_name pid := on_sim (proc_name (OS := sim_os) pid)
|}.

Definition ino_glib : GLib := {|
  pattern_match := pattern_match (GLib := sim_glib);
  g_strsplit := g_strsplit (GLib := sim_glib);
  g_build_filename d n := if String.eqb n "" then d else (d ++ "/" ++ n)%string;
  g_path_get_dirname p :=
    match last_slash p with Some O => "/"%string | Some i => str_take i p | None => "."%string end;
  g_get_home_dir := "/root"%string
|}.

Definition sim_add_watch (p : string) (w : ino_world) : sysres Z * ino_world :=
  match assoc p (iw_errors w), assoc p (iw_inodes w) with
  | Some e, _ => (SysErr e, w)
  | None, Some i => (SysOk i, set_watched (i :: iw_watched w) w)
  | None, None => (SysErr ENOENT, w)
  end.
Definition sim_rm_watch (wd : Z) (w : ino_world) : Z * ino_world :=
  (if bool_decide (wd ∈ iw_watched w) then 0 else -1,
   set_watched (filter (fun i => i <> wd) (iw_watched w)) w).
Definition sim_read (w : ino_world) : list byte * ino_world :=
  match iw_reads w with
  | [] => ([], w)
  | l :: ls => (l, mk_ino_world (iw_sim w) (iw_inodes w) (iw_errors w) (iw_watched w) ls)
  end.
Definition sim_ifdir (p : string) (w : ino_world) : bool * ino_world :=
  (match assoc p (sim_files (iw_sim w)) with Some st => st_dir st | None => false end, w).
Definition sim_clock (w : ino_world) : timeval * ino_world := ((sim_now (iw_sim w), 0), w).

Definition ino_kernel_calls (init_fd : Z) (locks : bool) : Inotify ino_os :=
  @Build_Inotify ino_os
    (pair init_fd)
    (fun _ p _ => sim_add_watch p)
    (fun _ wd => sim_rm_watch wd)
    (fun _ _ => sim_read)
    (fun _ => pair (SysOk 0))
    sim_clock
    (fun tv us => (tv.1 + (tv.2 + us) / 1000000, (tv.2 + us) mod 1000000))
    (fun p => sim_ifdir p)
    (fun p => match last_slash p with Some i => str_drop (S i) p | None => p end)
    locks.

Definition EACCES : Z := 13.
Definition ENOTDIR : Z := 20.

(** ** Runs *)

#[local] Existing Instance ino_os.
#[local] Existing Instance ino_glib.
#[local] Existing Instance inotify_kernel.

Definition calm : Inotify ino_os := ino_kernel_calls 5 false.

Definition home_stat (dir : bool) : stat_t := mk_stat dir 5 0 10 5 0.
Definition ino_files (files : list (string * stat_t)) : sim_world :=
  mk_sim (("/etc/mtab"%string, mk_stat false 1 0 10 9 0) :: files) []
    [("/etc/mtab"%string, ("/dev/sda1 / ext3 rw" ++ String (Ascii.ascii_of_nat 10) "")%string)]
    100 [] 0 0.

(** A daemon that has just started, with one authenticated client. *)
Definition start (ino : Inotify ino_os) (w : ino_world) : res (ptr * server) :=
  (_ ← gam_init_subscriptions (kb := inotify_backend (ino := ino));
   c ← gam_connection_new 7;
   _ ← gam_connection_set_pid c 42; mret c) (server_initial inotify_initial w).

Definition request (ino : Inotify ino_os) (c : ptr) (seq type : Z) (path : string) : ST server Z :=
  gam_connection_request (kb := inotify_backend (ino := ino)) c 0
    (make_packet seq type (bytes_of_path path)).

Definition outside (w : ino_world) : ST server unit := modify (set_sv_world w).

(** Runs code in a started daemon. *)
Definition run_in {A} (ino : Inotify ino_os) (w : ino_world) (m : ptr -> ST server A)
  : res (A * server) :=
  match start ino w with Ok (c, s) => m c s | Fault e => Fault e end.

(** An event as the kernel writes it, without a name. *)
Definition raw_event (wd mask : Z) (name : list byte) : list byte :=
  bytes_of_u32 wd ++ bytes_of_u32 mask ++ bytes_of_u32 0
  ++ bytes_of_u32 (Z.of_nat (length name)) ++ name.

(** Reading and processing what the kernel reports. *)
Definition inotify_events (ino : Inotify ino_os) : ST server unit :=
  _ ← ik_read_callback; _ ← inotify_process; mret tt.

(** What holds after a run. *)
Definition afterwards {A} (r : res (A * server)) (Q : A -> server -> Prop) : Prop :=
  match r with Ok (a, s) => Q a s | Fault _ => False end.

(** The kernel watch a subscription of the backend depends on. *)
Definition sub_watch (p : ptr) (s : server) : option Z :=
  d ← sub_dir_hash (ip_of (sv_kernel s)) !! p;
  ipd_wd <$> (ip_dirs (ino_heap_of (sv_kernel s)) !! d).

Definition one_dir : ino_world :=
  mk_ino_world (ino_files [("/home/d"%string, home_stat true)])
    [("/home"%string, 8); ("/home/d"%string, 9)] [] [] [].

(** Two paths to one directory share the kernel's watch.  Cancelling one of two
    subscriptions removes the watch that the other, still attached to it,
    depends on. *)
Theorem shared_watch_is_removed :
  let w := mk_ino_world (ino_files []) [("/home/d"%string, 9); ("/home/link"%string, 9)] [] [] [] in
  afterwards
    (run_in calm w (fun c => _ ← request calm c 1 GAM_REQ_DIR "/home/d";
                             _ ← request calm c 2 GAM_REQ_DIR "/home/link";
                             request calm c 1 GAM_REQ_CANCEL ""))
    (fun r s => r = 0 /\ sub_list (ih_of (sv_kernel s)) = [3%positive] /\
       sub_watch 3%positive s = Some 9 /\ iw_watched (sv_world s) = []).
Proof. vm_compute. repeat split. Qed.

(** A subscription to a missing directory waits at the nearest directory above.
    When a file appears in its place the subscription is taken off there, but
    cannot be put back: it ends up neither at a watched directory nor on the
    missing list. *)
Theorem resubscription_can_be_lost :
  let w := mk_ino_world (ino_files []) [("/home"%string, 8)] [] [] [] in
  let w' := mk_ino_world (ino_files [("/home/d"%string, home_stat false)]) [("/home"%string, 8)]
              [("/home/d"%string, ENOTDIR)] [8] [raw_event 8 IN_CREATE [x64; x00; x00; x00]] in
  afterwards
    (run_in calm w (fun c => _ ← request calm c 1 GAM_REQ_DIR "/home/d";
                             _ ← outside w'; inotify_events calm))
    (fun _ s => sub_list (ih_of (sv_kernel s)) = [1%positive] /\
       sub_watch 1%positive s = None /\ missing_sub_list (ih_of (sv_kernel s)) = []).
Proof. vm_compute. repeat split. Qed.

(** When [inotify_init] fails the daemon falls back to polling but leaves the
    hooks of the backend installed; the first subscription to a path that is
    not polled fails an assertion. *)
Theorem failed_init_stops_daemon :
  let ino := ino_kernel_calls (-1) false in
  match start ino one_dir with
  | Ok (c, s) => kernel_handler (sv_ctl s) = GAMIN_K_INOTIFY2 /\
      poll_handler (sv_ctl s) = GAMIN_P_BASIC /\
      inotify_is_running (sv_kernel s) = false /\
      request ino c 1 GAM_REQ_DIR "/home/d" s = Fault AssertFailed
  | Fault _ => False
  end.
Proof. vm_compute. repeat split. Qed.

(** A remount breaks a cancellation.  A client subscribes to a directory, whose
    file system is then mounted over the network, and cancels the subscription:
    [gam_remove_subscription] asks the polling backend, which frees it, while
    inotify keeps it.  The client gets its acknowledgement; the next event in
    the directory makes the backend use freed memory.  Without the remount it
    does not. *)
Theorem inotify_remount_use_after_free :
  let newline := String (Ascii.ascii_of_nat 10) "" in
  let events := [raw_event 9 IN_CREATE [x66; x00; x00; x00]] in
  let files := ino_files [("/home/d"%string, home_stat true)] in
  let nfs := mk_sim (("/etc/mtab"%string, mk_stat false 2 0 20 9 0) :: sim_files files) []
    [("/etc/mtab"%string, ("/dev/sda1 / ext3 rw" ++ newline ++ "server:/home /home nfs rw" ++ newline)%string)]
    100 [] 0 0 in
  let inodes := [("/home"%string, 8); ("/home/d"%string, 9)] in
  let run mounts c := _ ← request calm c 1 GAM_REQ_DIR "/home/d";
    _ ← outside (mk_ino_world mounts inodes [] [9] events);
    r ← request calm c 1 GAM_REQ_CANCEL ""; _ ← inotify_events calm; mret r in
  run_in calm one_dir (run nfs) = Fault NullDeref /\
  afterwards (run_in calm one_dir (run files)) (fun r _ => r = 0).
Proof. vm_compute. by split. Qed.

(** Where [G_LOCK] locks, cancelling a subscription deadlocks:
    [ih_sub_foreach_worker] holds the lock that [ih_sub_cancel] takes. *)
Theorem cancel_deadlocks :
  let ino := ino_kernel_calls 5 true in
  run_in ino one_dir (fun c => _ ← request ino c 1 GAM_REQ_DIR "/home/d";
                               request ino c 1 GAM_REQ_CANCEL "") = Fault Deadlock.
Proof. vm_compute. reflexivity. Qed.

(** A state of the backend with its descriptor open. *)
Definition opened : server :=
  upd_ino (upd_ik (set_inotify_instance_fd 5)) (server_initial inotify_initial one_dir).
Definition same_files (w : ino_world) : Prop :=
  iw_inodes w = iw_inodes one_dir /\ iw_errors w = [].
Definition one_dir_answer (path : string) : sysres Z :=
  match assoc path (iw_inodes one_dir) with Some i => SysOk i | None => SysErr ENOENT end.

(** Below [/home/d] the search ends there; below a missing directory in the root
    it does not end. *)
Lemma watch_parent_outcome_witness :
  (exists w, ip_watch_parent (ino := calm) 20 "/home/d/e/f" IP_INOTIFY_MASK opened
     = Ok (Some (9, "/home/d"%string), set_sv_world w opened)) /\
  (forall fuel, ip_watch_parent (ino := calm) fuel "/media2/usb" IP_INOTIFY_MASK opened = Fault OutOfFuel).
Proof.
  assert (steady (ino := calm) 5 IP_INOTIFY_MASK same_files one_dir_answer) as Hst.
  { intros path w [Hi He]. change (inotify_add_watch (Inotify := calm) 5 path IP_INOTIFY_MASK w)
      with (sim_add_watch path w). unfold sim_add_watch, one_dir_answer. rewrite Hi, He.
    change (assoc path []) with (@None Z).
    destruct (assoc path (iw_inodes one_dir)); split; try reflexivity; split; assumption. }
  assert (sound_answers one_dir_answer) as Hs.
  { intros path wd. unfold one_dir_answer, assoc. simpl.
    destruct (String.eqb path "/home"); simpl; [intros [= <-]; lia|].
    destruct (String.eqb path "/home/d"); simpl; [intros [= <-]; lia|discriminate]. }
  assert (InotifyWatch.ready 5 same_files opened) as Hr by (split; [reflexivity|split; [lia|split; reflexivity]]).
  split.
  - exact (watch_parent_outcome (ino := calm) 5 IP_INOTIFY_MASK same_files one_dir_answer "/home/d/e/f"
      opened Hst Hs Hr eq_refl 20%nat ltac:(simpl; lia)).
  - exact (watch_parent_outcome (ino := calm) 5 IP_INOTIFY_MASK same_files one_dir_answer "/media2/usb"
      opened Hst Hs Hr eq_refl).
Defined.

(** ** Witnesses for reading and pairing *)

(** A move within a directory, half a move and a creation. *)
Definition moved_from (cookie : Z) : kernel_event := mk_kernel_event 9 IN_MOVED_FROM cookie [x61] 3.
Definition moved_to (cookie : Z) : kernel_event := mk_kernel_event 9 IN_MOVED_TO cookie [x62; x63] 2.
Definition some_events : list kernel_event :=
  [moved_from 7; moved_from 8; moved_to 7; mk_kernel_event 9 IN_CREATE 0 [x64] 3].

(** The kernel reports these. *)
Definition reporting (es : list kernel_event) : Inotify ino_os :=
  @Build_Inotify ino_os
    (inotify_init (Inotify := calm)) (inotify_add_watch (Inotify := calm))
    (inotify_rm_watch (Inotify := calm)) (fun _ _ => pair (concat (map kernel_bytes es)))
    (inotify_pending (Inotify := calm)) (g_get_current_time (Inotify := calm))
    (fun tv us => (tv.1, tv.2 + us)) (lstat_ifdir (Inotify := calm))
    (g_path_get_basename (Inotify := calm)) false.

Lemma initial_moves_ok : moves_ok (sv_kernel opened) /\ looked_at [] [] (sv_kernel opened) /\
  fresh_ok (sv_kernel opened).
Proof.
  assert (forall x : ptr, x ∈ [] -> False) as Hnil by (by intros x ?%elem_of_nil).
  split; [|split; [split; [done|split; intros x i []%Hnil]|split; [done|intros e []%Hnil]]].
  split; try constructor; try (intros p; intros; by destruct (Hnil p)); done.
Qed.

Lemma some_events_ok : Forall kernel_event_ok some_events.
Proof. repeat constructor; try done; simpl; try lia; right; simpl; lia. Qed.

Lemma read_callback_reads_events_witness :
  exists s', ik_read_callback (ino := reporting some_events) opened = Ok (true, s') /\
    length (todo (sv_kernel s')) = 4%nat.
Proof.
  destruct initial_moves_ok as (H1 & H2 & H3).
  destruct (read_callback_reads_events (ino := reporting some_events) some_events [] [] opened
    eq_refl ltac:(intros fd size w; exists w; reflexivity) some_events_ok
    ltac:(vm_compute; discriminate) H1 H2 H3) as (s' & E & _).
  exists s'. split; [exact E|]. vm_compute in E. injection E as <-. reflexivity.
Defined.

(** The state after the events were read. *)
Definition loaded : server :=
  match ik_read_callback (ino := reporting some_events) opened with
  | Ok (_, s) => s
  | Fault _ => opened
  end.

Lemma loaded_ok : moves_ok (sv_kernel loaded) /\
  exists B, looked_at [] B (sv_kernel loaded) /\ held_until (100, 0) (sv_kernel loaded).
Proof.
  destruct initial_moves_ok as (H1 & H2 & H3).
  destruct (wp_Ok _ _ _ (wp_read_callback (ino := reporting some_events) some_events [] [] opened
    eq_refl eq_refl some_events_ok ltac:(vm_compute; discriminate) H1 H2 H3)) as (r & s' & E & _ & (Hk & _ & _ & [ps Hl] & _) & _).
  assert (loaded = s') as -> by (unfold loaded; by rewrite E).
  split; [done|]. exists ps. split; [done|]. vm_compute in E. injection E as _ <-.
  intros p i. unfold ints. simpl. intros Hi.
  assert (forall q j, (q, j) ∈ map_to_list (ints (sv_kernel loaded)) -> g_timeval_lt (100, 0) (iki_hold_until j) = false)
    as Hall by (intros q j; vm_compute; set_solver).
  apply (Hall p). by apply elem_of_map_to_list.
Qed.

(** The move is handed on whole, the half move as a deletion. *)
Definition masks_queued (k : inotify_state) : list (option (Z * bool)) :=
  map (fun p => e ← evs k !! p; Some (ik_mask e, bool_decide (is_Some (ik_pair e)))) (queue k).

Lemma process_events_conserves_witness :
  exists s', ik_process_events (ino := reporting some_events) loaded = Ok (tt, s') /\
    masks_queued (sv_kernel s') =
      [Some (IN_MOVED_FROM, true); Some (IN_DELETE, false); Some (IN_CREATE, false)].
Proof.
  destruct loaded_ok as (Hk & B & Hl & _).
  destruct (process_events_conserves (ino := reporting some_events) [] B loaded Hk Hl) as (s' & E & _).
  exists s'. split; [exact E|]. vm_compute in E. injection E as <-. vm_compute. reflexivity.
Defined.

Lemma process_events_empties_witness :
  exists s', ik_process_events (ino := reporting some_events) loaded = Ok (tt, s') /\
    todo (sv_kernel s') = [].
Proof.
  destruct loaded_ok as (Hk & B & Hl & Hh).
  assert (clock_past (ino := reporting some_events) (100, 0) (fun w => sim_now (iw_sim w) = 100)) as Hclock.
  { intros w tv w' Hw [= <- <-]. unfold g_timeval_lt. simpl. by rewrite Hw. }
  destruct (process_events_empties (ino := reporting some_events) [] B (100, 0)
    (fun w => sim_now (iw_sim w) = 100) loaded Hk Hl) as (s' & E & Ht & _);
    [intros [a b]; by rewrite <- (Z.add_0_r b) at 2|exact Hclock|vm_compute; reflexivity|exact Hh|].
  exists s'. split; [exact E|exact Ht].
Defined.

(** ** Witnesses for the whole backend *)

#[export] Instance ino_os_laws : OSLaws ino_os.
Proof.
  refine {| written fd := fun w : @world ino_os => sim_output fd (iw_sim w) |}.
  - intros fd l w n w' Hl Hw. unfold sys_write, ino_os, on_sim in Hw.
    destruct (sys_write (OS := sim_os) fd l (iw_sim w)) as [r s] eqn:E. injection Hw as -> <-.
    exact (write_ok (OSLaws := sim_os_laws) fd l (iw_sim w) n s Hl E).
  - intros fd l w e w' Hw. unfold sys_write, ino_os, on_sim in Hw.
    destruct (sys_write (OS := sim_os) fd l (iw_sim w)) as [r s] eqn:E. injection Hw as -> <-.
    exact (write_err (OSLaws := sim_os_laws) fd l (iw_sim w) e s E).
Defined.

(** A kernel that finds all directories directly below the root, and reports
    [some_events] whenever it is read. *)
Definition rooted_watch (p : string) (w : ino_world) : sysres Z * ino_world :=
  match assoc p (iw_inodes w) with
  | Some i => (SysOk (Z.abs i), w)
  | None => (if bool_decide (last_slash p = Some 0%nat) then SysOk 1 else SysErr ENOENT, w)
  end.

Definition rooted : Inotify ino_os :=
  @Build_Inotify ino_os
    (inotify_init (Inotify := calm)) (fun _ p _ => rooted_watch p)
    (inotify_rm_watch (Inotify := calm)) (fun _ _ => pair (concat (map kernel_bytes some_events)))
    (inotify_pending (Inotify := calm)) (g_get_current_time (Inotify := calm))
    (fun tv us => (tv.1, tv.2 + us)) (lstat_ifdir (Inotify := calm))
    (g_path_get_basename (Inotify := calm)) false.

Lemma rooted_laws : InotifyLaws rooted.
Proof.
  split.
  - intros fd p mask w wd w'. change (rooted_watch p w = (SysOk wd, w') -> 0 <= wd). unfold rooted_watch.
    destruct (assoc p (iw_inodes w)); [intros [= <- _]; lia|]. case_bool_decide; [intros [= <- _]; lia|done].
  - intros fd w data w' [= <- _]. exists some_events. split; [done|]. split; [apply some_events_ok|].
    vm_compute. discriminate.
  - done.
Qed.

Lemma rooted_top : TopLevel rooted.
Proof.
  intros fd p mask w e w' Hp. change (rooted_watch p w = (SysErr e, w') -> e <> ENOENT). unfold rooted_watch.
  destruct (assoc p (iw_inodes w)); [done|]. by rewrite bool_decide_eq_true_2.
Qed.

#[local] Existing Instances rooted_laws rooted_top.

(** The daemon after start-up, then with a connection, a listener on it and a
    subscription to a directory that it does not have yet. *)
Definition rooted_start : server :=
  match gam_inotify_init (ino := rooted) (server_initial inotify_initial one_dir) with
  | Ok (_, s) => s
  | Fault _ => opened
  end.
Definition rooted_sub : GamSubscription := mk_sub "/home/d" 31 1 7 0 true false (Some 3%positive).
Definition rooted_listener : GamListener := mk_listener 2%positive 42 "client" [].
Definition rooted_client : server :=
  upd_heap (fun h => mk_heap 5%positive {[4%positive := rooted_sub]} {[3%positive := rooted_listener]}
    (nodes h) {[2%positive := mk_conn GAM_STATE_OKAY 7 42 "client" 0 [] (Some 3%positive) (Some []) false]})
    rooted_start.

Lemma rooted_start_reachable : ino_reachable (ino := rooted) rooted_start.
Proof.
  apply (reach_init (server_initial (os := ino_os) (kern := inotify_kernel) inotify_initial one_dir)); [|by vm_compute].
  split; [done|]. intros l ln Hl. by vm_compute in Hl.
Qed.

Lemma rooted_client_reachable : ino_reachable (ino := rooted) rooted_client.
Proof.
  assert (isubs (sv_kernel rooted_start) = ∅) as Hs by by vm_compute.
  apply (reach_other rooted_start); [apply rooted_start_reachable|].
  unfold rooted_client. revert Hs. generalize rooted_start. intros s Hs. split; [reflexivity|..].
  - intros _ l ln Hl. change (({[3%positive := rooted_listener]} : gmap ptr GamListener) !! l = Some ln) in Hl.
    apply lookup_singleton_Some in Hl as [<- <-]. eexists _, [].
    split; [by apply lookup_singleton_Some|]. by split.
  - intros q name Hn _. destruct Hn. intros p x Hx. change (isubs (sv_kernel s) !! p = Some x) in Hx.
    by rewrite Hs in Hx.
Qed.

Lemma rooted_addable : addable 4%positive rooted_sub 3%positive rooted_listener rooted_client.
Proof. split; [by apply lookup_singleton_Some|done|done|by apply lookup_singleton_Some|]. by intros ?%elem_of_nil. Qed.

Definition rooted_added : server :=
  match gam_inotify_add_subscription (ino := rooted) 4%positive rooted_client with
  | Ok (_, s) => s
  | Fault _ => rooted_client
  end.

Lemma rooted_added_reachable : ino_reachable (ino := rooted) rooted_added.
Proof.
  destruct (ino_serve_outcome (ino := rooted) (InotifyService.Subscribe 4%positive) rooted_client
    (reachable_resting _ rooted_client_reachable)) as (b & s' & E & _).
  { exists rooted_sub, 3%positive, rooted_listener. apply rooted_addable. }
  assert (rooted_added = s') as -> by (unfold rooted_added; unfold serve in E; by rewrite E).
  apply (reach_call (InotifyService.Subscribe 4%positive) b rooted_client); [apply rooted_client_reachable| |exact E].
  exists rooted_sub, 3%positive, rooted_listener. apply rooted_addable.
Qed.




Lemma inotify_subscribe_attends_witness :
  exists q x s', gam_inotify_add_subscription (ino := rooted) 4%positive rooted_client = Ok (true, s') /\
    isubs (sv_kernel s') !! q = Some x /\ ihs_pathname x = "/home/d"%string /\ attended q x (sv_kernel s').
Proof.
  destruct (inotify_subscribe_attends (ino := rooted) 4%positive rooted_sub 3%positive rooted_listener rooted_client
    rooted_client_reachable rooted_addable) as (q & x & s' & E & _ & Es & _ & Ep & _ & _ & _ & Ha & _).
  exists q, x, s'. split; [exact E|]. split; [rewrite Es; apply lookup_insert_eq|]. split; [exact Ep|exact Ha].
Defined.

Lemma inotify_unsubscribe_forgets_witness :
  size (isubs (sv_kernel rooted_added)) = 1%nat /\
  exists s', gam_inotify_remove_subscription (ino := rooted) 4%positive rooted_added = Ok (true, s') /\
    forgotten 4%positive (sv_kernel s').
Proof.
  split; [by vm_compute|].
  destruct (inotify_unsubscribe_forgets (ino := rooted) 4%positive rooted_added rooted_added_reachable) as (s' & E & Hf & _).
  exists s'. split; [exact E|exact Hf].
Defined.
