(* ===== verification/KqueueState.v ===== *)
(** * The kqueue backend's store ([server/gam_kqueue.c], data)

    On the BSDs a file is watched by keeping it open and registering its
    descriptor with kqueue; what cannot be watched is polled.  A [SubMonitor]
    stands for a subscribed path, a [FileMonitor] for an entry of a subscribed
    directory; both start with a [Monitor], which is what the kernel's events
    point to.  The file has the kernel's interface, the objects and the
    [static] variables. *)

From S2P Require Import Prelude Protocol Monad OS Fs State.

Local Open Scope Z_scope.

(** ** The kernel's interface *)

(** [unsigned int] *)
Definition u32 (z : Z) : Z := z mod 4294967296.

(** [<sys/stat.h>]: the bit the code takes for the file type "directory". *)
Definition S_IFDIR : Z := 16384.

(** [<sys/event.h>] *)
Definition EV_ADD : Z := 1.
Definition EV_ENABLE : Z := 4.
Definition EV_CLEAR : Z := 32.
Definition EV_ERROR : Z := 16384.
Definition NOTE_DELETE : Z := 1.
Definition NOTE_WRITE : Z := 2.
Definition NOTE_EXTEND : Z := 4.
Definition NOTE_ATTRIB : Z := 8.
Definition NOTE_LINK : Z := 16.
Definition NOTE_RENAME : Z := 32.
Definition NOTE_REVOKE : Z := 64.

Definition VN_NOTE_CHANGED : Z := NOTE_WRITE .| NOTE_EXTEND .| NOTE_ATTRIB .| NOTE_LINK.
Definition VN_NOTE_DELETED : Z := NOTE_DELETE .| NOTE_REVOKE.
Definition VN_NOTE_ALL : Z := VN_NOTE_CHANGED .| VN_NOTE_DELETED .| NOTE_RENAME.

(** The fields of [struct stat] the backend copies. *)
Record kstat := mk_kstat {
  kst_ino : Z; kst_mode : Z; kst_uid : Z; kst_gid : Z;
  kst_mtime : Z; kst_ctime : Z; kst_size : Z
}.

(** [struct kevent]; [ke_udata] is the monitor the descriptor was registered
    with. *)
Record kevent := mk_kevent { ke_flags : Z; ke_fflags : Z; ke_udata : ptr }.

(** The calls of the backend. *)
Class Kqueue (os : OS) := {
  (** [kqueue()]: whether it succeeds *)
  kqueue_create : world -> bool * world;
  (** [sysctlbyname(name, value, ...)] of an unsigned integer *)
  sysctl_uint : string -> world -> option Z * world;
  lstat : string -> world -> option kstat * world;
  (** [open(path, O_RDONLY | O_NOFOLLOW)] *)
  open_nofollow : string -> world -> sysres Z * world;
  close_fd : Z -> world -> world;
  (** [EV_SET(ev, fd, EVFILT_VNODE, flags, fflags, 0, udata)] and [kevent]:
      whether it succeeds *)
  kevent_change : Z -> Z -> Z -> ptr -> world -> bool * world;
  (** [kevent] for at most one event, without waiting *)
  kevent_poll : world -> sysres (option kevent) * world;
  (** the order in which [g_hash_table_foreach] comes across some entries *)
  foreach_order : list ptr -> world -> list ptr
}.

(** The name of a directory's entry. *)
Fixpoint no_slash (s : string) : Prop :=
  match s with
  | EmptyString => True
  | String c s' => Ascii.eqb c slash = false /\ no_slash s'
  end.

(** What the documentation of these calls promises.  Descriptors are not
    negative and [open] gives one that is not in use; a registration lasts
    until its descriptor is closed, and the kernel's events are for
    registered descriptors.  Nothing else the daemon calls touches them.  A
    system variable is an [unsigned int].  A
    directory lists an entry once, by a name without slashes, and the path of an
    entry ends with it. *)
Class KqueueLaws {os : OS} {glib : GLib} (kq : Kqueue os) := {
  (** the descriptors that are open, with the monitor each is registered with *)
  knotes : world -> gmap Z (option ptr);
  open_ok p w fd w' : open_nofollow p w = (SysOk fd, w') ->
    0 <= fd /\ knotes w !! fd = None /\ knotes w' = <[fd := None]> (knotes w);
  open_failed p w e w' : open_nofollow p w = (SysErr e, w') -> knotes w' = knotes w;
  close_knotes fd w : knotes (close_fd fd w) = delete fd (knotes w);
  change_ok fd fl ff p w w' : kevent_change fd fl ff p w = (true, w') ->
    knotes w' = <[fd := Some p]> (knotes w);
  change_failed fd fl ff p w w' : kevent_change fd fl ff p w = (false, w') -> knotes w' = knotes w;
  poll_knotes w r w' : kevent_poll w = (r, w') -> knotes w' = knotes w;
  poll_registered w ev w' : kevent_poll w = (SysOk (Some ev), w') ->
    exists fd, knotes w !! fd = Some (Some (ke_udata ev));
  create_knotes w r w' : kqueue_create w = (r, w') -> knotes w' = knotes w;
  sysctl_knotes n w r w' : sysctl_uint n w = (r, w') -> knotes w' = knotes w;
  sysctl_range n w v w' : sysctl_uint n w = (Some v, w') -> 0 <= v < 4294967296;
  lstat_knotes p w r w' : lstat p w = (r, w') -> knotes w' = knotes w;
  dir_knotes p w r w' : dir_names p w = (r, w') -> knotes w' = knotes w;
  write_knotes fd l w r w' : sys_write fd l w = (r, w') -> knotes w' = knotes w;
  stat_knotes p w r w' : sys_stat p w = (r, w') -> knotes w' = knotes w;
  contents_knotes p w r w' : file_contents p w = (r, w') -> knotes w' = knotes w;
  order_perm l w : foreach_order l w ≡ₚ l;
  entries_once p w l w' : dir_names p w = (Some l, w') -> NoDup l /\ Forall no_slash l;
  build_filename d n : no_slash n ->
    g_build_filename d n = n \/ exists d', g_build_filename d n = (d' ++ String slash n)%string
}.

(** ** Objects *)

Record MiniStat := mk_mini {
  ms_exists : bool;
  ms_ino : Z; ms_mode : Z; ms_uid : Z; ms_gid : Z;
  ms_mtime : Z; ms_ctime : Z; ms_size : Z
}.

(** [memset(mini_sb, 0, sizeof *mini_sb)] *)
Definition mini_zero : MiniStat := mk_mini false 0 0 0 0 0 0 0.

(** A [GHashTable] with the iteration state around it; the methods come with
    the place the table is at ([KqueueTables.Table]). *)
Record HashTable (T : Type) := mk_table {
  ht_main : T;
  ht_iterating : bool;
  pending_additions : list ptr;
  pending_removals : list ptr
}.
Arguments mk_table {T} _ _ _ _.
Arguments ht_main {T} _.
Arguments ht_iterating {T} _.
Arguments pending_additions {T} _.
Arguments pending_removals {T} _.

Definition set_ht_main {T} (x : T) (t : HashTable T) :=
  mk_table x (ht_iterating t) (pending_additions t) (pending_removals t).
Definition set_iterating {T} b (t : HashTable T) :=
  mk_table (ht_main t) b (pending_additions t) (pending_removals t).
Definition set_additions {T} l (t : HashTable T) :=
  mk_table (ht_main t) (ht_iterating t) l (pending_removals t).
Definition set_removals {T} l (t : HashTable T) :=
  mk_table (ht_main t) (ht_iterating t) (pending_additions t) l.

(** The [handle_kevent] of a [Monitor]. *)
Inductive kevent_handler := SubMonitorKevent | FileMonitorKevent.

Record Monitor := mk_monitor {
  handle_kevent : kevent_handler;
  mon_pathname : string;
  mon_fd : Z;
  mon_sb : MiniStat;
  poll_count : Z
}.
Definition set_mon_fd x m :=
  mk_monitor (handle_kevent m) (mon_pathname m) x (mon_sb m) (poll_count m).
Definition set_mon_sb x m :=
  mk_monitor (handle_kevent m) (mon_pathname m) (mon_fd m) x (poll_count m).
Definition set_poll_count x m :=
  mk_monitor (handle_kevent m) (mon_pathname m) (mon_fd m) (mon_sb m) x.

(** The rest of a [SubMonitor]; a table that was destroyed is [None].  The
    tables hold [FileMonitor]s: by name, and those to be polled. *)
Record SubMonitor := mk_smon {
  sm_subs : list ptr;
  sm_fmons : option (HashTable (gmap string ptr));
  sm_unsupported : option (HashTable (gset ptr));
  sm_isdir : bool
}.
Definition set_sm_subs x m := mk_smon x (sm_fmons m) (sm_unsupported m) (sm_isdir m).
Definition set_sm_fmons x m := mk_smon (sm_subs m) x (sm_unsupported m) (sm_isdir m).
Definition set_sm_unsupported x m := mk_smon (sm_subs m) (sm_fmons m) x (sm_isdir m).

(** The rest of a [FileMonitor]. *)
Record FileMonitor := mk_fmon { fm_smon : ptr; fm_filename : string }.

(** The three pollers, in the order of their declaration. *)
Inductive poller_id := MissingSmon | UnsupportedSmon | UnsupportedFmon.
#[export] Instance poller_id_eq_dec : EqDecision poller_id.
Proof. solve_decision. Defined.

(** [Poller]; its function is the one its name says. *)
Record Poller := mk_poller {
  pl_interval : Z;
  pl_timeout : bool;            (** [timeout_id]: a timer is armed *)
  pl_smons : HashTable (gset ptr)
}.
Definition set_pl_timeout b p := mk_poller (pl_interval p) b (pl_smons p).
Definition set_pl_smons t p := mk_poller (pl_interval p) (pl_timeout p) t.

Record pollers := mk_pollers {
  missing_smon_poller : Poller;
  unsupported_smon_poller : Poller;
  unsupported_fmon_poller : Poller
}.
Definition get_poller (i : poller_id) (l : pollers) : Poller :=
  match i with
  | MissingSmon => missing_smon_poller l
  | UnsupportedSmon => unsupported_smon_poller l
  | UnsupportedFmon => unsupported_fmon_poller l
  end.
Definition put_poller (i : poller_id) (x : Poller) (l : pollers) : pollers :=
  match i with
  | MissingSmon => mk_pollers x (unsupported_smon_poller l) (unsupported_fmon_poller l)
  | UnsupportedSmon => mk_pollers (missing_smon_poller l) x (unsupported_fmon_poller l)
  | UnsupportedFmon => mk_pollers (missing_smon_poller l) (unsupported_smon_poller l) x
  end.

(** The objects with their allocator, and the [static] variables. *)
Record kqueue_state := mk_kqueue {
  kq_next : ptr;
  kq_monitors : gmap ptr Monitor;
  kq_smons : gmap ptr SubMonitor;
  kq_fmons : gmap ptr FileMonitor;
  open_files : Z;
  max_open_files : Z;
  dir_hash : gmap string ptr;
  file_hash : gmap string ptr;
  kq_static_pollers : pollers
}.
Definition set_kq_next x k := mk_kqueue x (kq_monitors k) (kq_smons k) (kq_fmons k)
  (open_files k) (max_open_files k) (dir_hash k) (file_hash k) (kq_static_pollers k).
Definition set_kq_monitors x k := mk_kqueue (kq_next k) x (kq_smons k) (kq_fmons k)
  (open_files k) (max_open_files k) (dir_hash k) (file_hash k) (kq_static_pollers k).
Definition set_kq_smons x k := mk_kqueue (kq_next k) (kq_monitors k) x (kq_fmons k)
  (open_files k) (max_open_files k) (dir_hash k) (file_hash k) (kq_static_pollers k).
Definition set_kq_fmons x k := mk_kqueue (kq_next k) (kq_monitors k) (kq_smons k) x
  (open_files k) (max_open_files k) (dir_hash k) (file_hash k) (kq_static_pollers k).
Definition set_open_files x k := mk_kqueue (kq_next k) (kq_monitors k) (kq_smons k) (kq_fmons k)
  x (max_open_files k) (dir_hash k) (file_hash k) (kq_static_pollers k).
Definition set_max_open_files x k := mk_kqueue (kq_next k) (kq_monitors k) (kq_smons k)
  (kq_fmons k) (open_files k) x (dir_hash k) (file_hash k) (kq_static_pollers k).
Definition set_dir_hash x k := mk_kqueue (kq_next k) (kq_monitors k) (kq_smons k) (kq_fmons k)
  (open_files k) (max_open_files k) x (file_hash k) (kq_static_pollers k).
Definition set_file_hash x k := mk_kqueue (kq_next k) (kq_monitors k) (kq_smons k) (kq_fmons k)
  (open_files k) (max_open_files k) (dir_hash k) x (kq_static_pollers k).
Definition set_poller i x k := mk_kqueue (kq_next k) (kq_monitors k) (kq_smons k) (kq_fmons k)
  (open_files k) (max_open_files k) (dir_hash k) (file_hash k)
  (put_poller i x (kq_static_pollers k)).
Definition kq_pollers (k : kqueue_state) (i : poller_id) : Poller := get_poller i (kq_static_pollers k).

Definition kqueue_initial : kqueue_state :=
  let none := mk_poller 0 false (mk_table ∅ false [] []) in
  mk_kqueue 1%positive ∅ ∅ ∅ 0 0 ∅ ∅ (mk_pollers none none none).

Lemma kq_pollers_set i x k j : kq_pollers (set_poller i x k) j = if decide (j = i) then x else kq_pollers k j.
Proof. by destruct i, j. Qed.

Lemma set_poller_twice i x y k : set_poller i x (set_poller i y k) = set_poller i x k.
Proof. by destruct i. Qed.

Lemma set_poller_same i k : set_poller i (kq_pollers k i) k = k.
Proof. destruct k as [? ? ? ? ? ? ? ? []]. by destruct i. Qed.

Definition kqueue_kernel : KernelState :=
  {| kernel_state := kqueue_state; inotify_is_running _ := false |}.

#[local] Existing Instance kqueue_kernel.

(** ** Access *)

(** The map of each kind of object. *)
Class KqObj (A : Type) := {
  kq_map : kqueue_state -> gmap ptr A;
  kq_put : gmap ptr A -> kqueue_state -> kqueue_state
}.

#[export] Instance monitor_obj : KqObj Monitor := {| kq_map := kq_monitors; kq_put := set_kq_monitors |}.
#[export] Instance smon_obj : KqObj SubMonitor := {| kq_map := kq_smons; kq_put := set_kq_smons |}.
#[export] Instance fmon_obj : KqObj FileMonitor := {| kq_map := kq_fmons; kq_put := set_kq_fmons |}.

Section Access.
Context {os : OS} {kq : Kqueue os}.
Abbreviation M := (ST server).

Definition upd_kq (f : kqueue_state -> kqueue_state) (s : server) : server :=
  set_sv_kernel (f (sv_kernel s)) s.
Definition kq_gets {A} (f : kqueue_state -> A) : M A := gets (fun s => f (sv_kernel s)).
Definition kq_modify (f : kqueue_state -> kqueue_state) : M unit := modify (upd_kq f).
Definition kq_close (fd : Z) : M unit := modify (fun s => set_sv_world (close_fd fd (sv_world s)) s).

Definition kload {A} `{KqObj A} (p : ptr) : M A := fun s =>
  match kq_map (A := A) (sv_kernel s) !! p with Some a => Ok (a, s) | None => Fault NullDeref end.

Definition kupdate {A} `{KqObj A} (p : ptr) (f : A -> A) : M unit := fun s =>
  match kq_map (A := A) (sv_kernel s) !! p with
  | Some a => Ok (tt, upd_kq (fun k => kq_put (<[p := f a]> (kq_map k)) k) s)
  | None => Fault NullDeref
  end.

(** [g_free] of a monitor: the base and what follows it. *)
Definition kfree (p : ptr) : M unit := fun s =>
  match kq_monitors (sv_kernel s) !! p with
  | Some _ =>
      Ok (tt, upd_kq (fun k => set_kq_monitors (delete p (kq_monitors k))
                (set_kq_smons (delete p (kq_smons k)) (set_kq_fmons (delete p (kq_fmons k)) k))) s)
  | None => Fault NullDeref
  end.

Lemma wp_kload {A} `{KqObj A} p a (Q : A -> server -> Prop) s :
  kq_map (A := A) (sv_kernel s) !! p = Some a -> Q a s -> wp (kload p) Q s.
Proof. unfold wp, kload. by intros ->. Qed.

Lemma wp_kupdate {A} `{KqObj A} p (f : A -> A) a (Q : unit -> server -> Prop) s :
  kq_map (A := A) (sv_kernel s) !! p = Some a ->
  Q tt (upd_kq (fun k => kq_put (<[p := f a]> (kq_map k)) k) s) -> wp (kupdate p f) Q s.
Proof. unfold wp, kupdate. by intros ->. Qed.

Lemma wp_kq_gets {A} (f : kqueue_state -> A) (Q : A -> server -> Prop) s :
  Q (f (sv_kernel s)) s -> wp (kq_gets f) Q s.
Proof. done. Qed.

Lemma wp_kq_modify f (Q : unit -> server -> Prop) s : Q tt (upd_kq f s) -> wp (kq_modify f) Q s.
Proof. done. Qed.

Lemma wp_kq_close fd (Q : unit -> server -> Prop) s :
  Q tt (set_sv_world (close_fd fd (sv_world s)) s) -> wp (kq_close fd) Q s.
Proof. done. Qed.
End Access.
