(* ===== verification/KqueueTables.v ===== *)
(** * Tables, pollers and monitors of the kqueue backend ([server/gam_kqueue.c])

    A [HashTable] may be changed while it is iterated over: the change is put
    off.  It is used for the monitors of each poller, for the entries of a
    watched directory, and for those of them that must be polled. *)

From S2P Require Import Prelude Protocol Monad OS Fs State.
From S2P Require Import KqueueState.

Local Open Scope Z_scope.

#[local] Existing Instance kqueue_kernel.

(** ** Tunable constants *)

(** [CFG_GLOBAL_FILE_RESERVE_RATIO] is the [double] nearest to 0.7: this many
    2^53rds. *)
Definition CFG_GLOBAL_FILE_RESERVE_RATIO : Z := 6305039478318694.
Definition CFG_SELF_FILE_RESERVE : Z := 200.
Definition CFG_UNSUPPORTED_SMON_KQUEUE_RETRY_FREQUENCY : Z := 10.
Definition CFG_UNSUPPORTED_FMON_KQUEUE_RETRY_FREQUENCY : Z := 10.
Definition CFG_MISSING_SMON_POLL_INTERVAL : Z := 1000.
Definition CFG_UNSUPPORTED_SMON_POLL_INTERVAL : Z := 3000.
Definition CFG_UNSUPPORTED_FMON_POLL_INTERVAL : Z := 3000.

(** [MonitorFlags], [SubMonitorFlags] and [FileMonitorFlags] *)
Definition MONITOR_ISDIR : Z := 1.
Definition MONITOR_ISNOTDIR : Z := 2.
Definition SUB_MONITOR_WAS_MISSING : Z := 4.
Definition FILE_MONITOR_POSSIBLY_RECREATED : Z := 4.

(** ** Helpers *)

(** What follows the last slash: [strrchr] as [gam_kqueue_file_monitor_new]
    uses it. *)
Fixpoint after_slash (s acc : string) : string :=
  match s with
  | EmptyString => acc
  | String c s' => after_slash s' (if Ascii.eqb c slash then s' else acc)
  end.
Definition filename_of (pathname : string) : string := after_slash pathname pathname.

Lemma after_slash_no s acc : (no_slash s -> no_slash acc) -> no_slash (after_slash s acc).
Proof.
  revert acc. induction s as [|c s IH]; intros acc Ha; simpl in *; [auto|]. apply IH.
  destruct (Ascii.eqb c slash) eqn:E; auto.
Qed.

Lemma filename_of_no s : no_slash (filename_of s).
Proof. by apply after_slash_no. Qed.

Lemma after_slash_id n acc : no_slash n -> after_slash n acc = acc.
Proof.
  revert acc. induction n as [|c n IH]; intros acc Hn; simpl in *; [done|]. destruct Hn as [-> Hn]. auto.
Qed.

Lemma after_slash_app d n acc : no_slash n -> after_slash (d ++ String slash n) acc = n.
Proof.
  intros Hn. revert acc. induction d as [|c d IH]; intros acc; simpl; [|apply IH].
  by apply after_slash_id.
Qed.

Lemma filename_of_entry {os : OS} {glib : GLib} {kq : Kqueue os} {kl : KqueueLaws kq} d n :
  no_slash n -> filename_of (g_build_filename d n) = n.
Proof.
  intros Hn. unfold filename_of. destruct (build_filename d n Hn) as [->|[d' ->]];
    [by apply after_slash_id|by apply after_slash_app].
Qed.

(** [(mode & S_IFDIR) != 0] *)
Definition mode_isdir (mode : Z) : bool := ztest (mode .& S_IFDIR).

Definition gam_kqueue_differs (sb1 sb2 : MiniStat) : bool :=
  negb (ms_mtime sb1 =? ms_mtime sb2)
  || negb (ms_ctime sb1 =? ms_ctime sb2)
  || negb (ms_size sb1 =? ms_size sb2)
  || negb (ms_mode sb1 =? ms_mode sb2)
  || negb (ms_uid sb1 =? ms_uid sb2)
  || negb (ms_gid sb1 =? ms_gid sb2)
  || negb (ms_ino sb1 =? ms_ino sb2).

Definition mini_of (o : option kstat) : MiniStat :=
  match o with
  | None => mini_zero
  | Some st => mk_mini true (kst_ino st) (kst_mode st) (kst_uid st) (kst_gid st)
                 (kst_mtime st) (kst_ctime st) (kst_size st)
  end.

Section Tables.
Context {os : OS} {glib : GLib} {kq : Kqueue os}.
Abbreviation M := (ST server).

Definition gam_kqueue_mini_lstat (pathname : string) : M MiniStat :=
  st ← sys (lstat pathname);
  mret (mini_of st).

Definition gam_kqueue_isdir (pathname : string) (flags : Z) : M bool :=
  if ztest (flags .& MONITOR_ISDIR) then mret true
  else if ztest (flags .& MONITOR_ISNOTDIR) then mret false
  else
    st ← sys (lstat pathname);
    mret (match st with Some st => mode_isdir (kst_mode st) | None => false end).

Definition gam_kqueue_get_uint_sysctl (name : string) : M (option Z) := sys (sysctl_uint name).

(** ** HashTable *)

(** A table at its place in the store, with its methods: [tb_add] and
    [tb_remove] are called on [table->main] with [user_data] applied. *)
Record Table := mk_Table {
  tb_type : Type;
  tb_load : M (HashTable tb_type);
  tb_modify : (HashTable tb_type -> HashTable tb_type) -> M unit;
  tb_values : tb_type -> list ptr;
  tb_add : ptr -> M unit;
  tb_post_add : option (M unit);
  tb_remove : ptr -> M unit;
  tb_post_remove : option (M unit)
}.

(** [gam_kqueue_hash_table_new] on an empty [GHashTable]. *)
Definition gam_kqueue_hash_table_new {T} (main : T) : HashTable T := mk_table main false [] [].

(** [if (table->methods->post_add) table->methods->post_add(...)] *)
Definition call_post (o : option (M unit)) : M unit :=
  match o with Some m => m | None => mret tt end.

Definition gam_kqueue_hash_table_add (table : Table) (item : ptr) : M unit :=
  t ← tb_load table;
  if ht_iterating t then
    tb_modify table (fun t => set_additions (item :: pending_additions t) t)
  else
    _ ← tb_add table item;
    call_post (tb_post_add table).

Definition gam_kqueue_hash_table_remove (table : Table) (item : ptr) : M unit :=
  t ← tb_load table;
  if ht_iterating t then
    tb_modify table (fun t => set_removals (item :: pending_removals t) t)
  else
    _ ← tb_remove table item;
    call_post (tb_post_remove table).

(** The changes that were put off. *)
Definition flush_additions (table : Table) : M unit :=
  t ← tb_load table;
  match pending_additions t with
  | [] => mret tt
  | l =>
      _ ← for_each l (tb_add table);
      _ ← tb_modify table (set_additions []);
      call_post (tb_post_add table)
  end.

Definition flush_removals (table : Table) : M unit :=
  t ← tb_load table;
  match pending_removals t with
  | [] => mret tt
  | l =>
      _ ← for_each l (tb_remove table);
      _ ← tb_modify table (set_removals []);
      call_post (tb_post_remove table)
  end.

Definition gam_kqueue_hash_table_foreach (table : Table) (func : ptr -> M unit) : M unit :=
  t ← tb_load table;
  _ ← g_assert (negb (ht_iterating t));
  _ ← tb_modify table (set_iterating true);
  l ← gets (fun s => foreach_order (tb_values table (ht_main t)) (sv_world s));
  _ ← for_each l func;
  _ ← tb_modify table (set_iterating false);
  _ ← flush_additions table;
  flush_removals table.

(** The default methods, on a set of pointers. *)
Definition gam_kqueue_hash_table_default_add_cb
  (modify_main : (HashTable (gset ptr) -> HashTable (gset ptr)) -> M unit) (item : ptr) : M unit :=
  modify_main (fun t => set_ht_main ({[item]} ∪ ht_main t) t).

Definition gam_kqueue_hash_table_default_remove_cb
  (modify_main : (HashTable (gset ptr) -> HashTable (gset ptr)) -> M unit) (item : ptr) : M unit :=
  modify_main (fun t => set_ht_main (ht_main t ∖ {[item]}) t).

(** ** Poller *)

Definition poller_modify (i : poller_id) (f : Poller -> Poller) : M unit :=
  kq_modify (fun k => set_poller i (f (kq_pollers k i)) k).
Definition poller_modify_smons (i : poller_id)
  (f : HashTable (gset ptr) -> HashTable (gset ptr)) : M unit :=
  poller_modify i (fun p => set_pl_smons (f (pl_smons p)) p).

Definition gam_kqueue_poller_init (i : poller_id) (interval : Z) : M unit :=
  poller_modify i (fun _ => mk_poller interval false (gam_kqueue_hash_table_new ∅)).

(** [g_timeout_add] *)
Definition gam_kqueue_poller_post_add_cb (i : poller_id) : M unit :=
  p ← kq_gets (fun k => kq_pollers k i);
  when (negb (pl_timeout p)) (poller_modify i (set_pl_timeout true)).

(** [g_source_remove] *)
Definition gam_kqueue_poller_post_remove_cb (i : poller_id) : M unit :=
  p ← kq_gets (fun k => kq_pollers k i);
  when (bool_decide (ht_main (pl_smons p) = ∅) && pl_timeout p)
    (poller_modify i (set_pl_timeout false)).

(** [poller->smons] *)
Definition poller_table (i : poller_id) : Table := {|
  tb_type := gset ptr;
  tb_load := kq_gets (fun k => pl_smons (kq_pollers k i));
  tb_modify := poller_modify_smons i;
  tb_values := elements;
  tb_add := gam_kqueue_hash_table_default_add_cb (poller_modify_smons i);
  tb_post_add := Some (gam_kqueue_poller_post_add_cb i);
  tb_remove := gam_kqueue_hash_table_default_remove_cb (poller_modify_smons i);
  tb_post_remove := Some (gam_kqueue_poller_post_remove_cb i)
|}.

Definition gam_kqueue_poller_add_sub_monitor (i : poller_id) (smon : ptr) : M unit :=
  gam_kqueue_hash_table_add (poller_table i) smon.
Definition gam_kqueue_poller_remove_sub_monitor (i : poller_id) (smon : ptr) : M unit :=
  gam_kqueue_hash_table_remove (poller_table i) smon.

(** ** Monitor *)

Definition gam_kqueue_monitor_enable_kqueue (mon : ptr) : M bool :=
  full ← kq_gets (fun k => open_files k =? max_open_files k);
  if full : bool then mret false
  else
    m ← kload (A := Monitor) mon;
    r ← sys (open_nofollow (mon_pathname m));
    match r with
    | SysErr _ => _ ← kupdate mon (set_mon_fd (-1)); mret false
    | SysOk fd =>
        _ ← kupdate mon (set_mon_fd fd);
        ok ← sys (kevent_change fd (EV_ADD .| EV_ENABLE .| EV_CLEAR) VN_NOTE_ALL mon);
        if negb ok then
          _ ← kq_close fd;
          _ ← kupdate mon (set_mon_fd (-1));
          mret false
        else
          _ ← kq_modify (fun k => set_open_files (u32 (open_files k + 1)) k);
          mret true
    end.

(** [if (mon->fd >= 0) { close(mon->fd); mon->fd = -1; open_files--; }] *)
Definition monitor_close (mon : ptr) : M unit :=
  m ← kload (A := Monitor) mon;
  when (mon_fd m >=? 0)
    (_ ← kq_close (mon_fd m);
     _ ← kupdate mon (set_mon_fd (-1));
     kq_modify (fun k => set_open_files (u32 (open_files k - 1)) k)).

Definition gam_kqueue_monitor_set_unsupported (mon : ptr) : M unit :=
  _ ← monitor_close mon;
  m ← kload (A := Monitor) mon;
  sb ← gam_kqueue_mini_lstat (mon_pathname m);
  kupdate mon (set_mon_sb sb).

Definition gam_kqueue_monitor_free (mon : ptr) : M unit :=
  m ← kload (A := Monitor) mon;
  _ ← when (mon_fd m >=? 0)
        (_ ← kq_close (mon_fd m);
         kq_modify (fun k => set_open_files (u32 (open_files k - 1)) k));
  kfree mon.
End Tables.
