(* ===== verification/Kqueue.v ===== *)
(** * The kqueue backend ([server/gam_kqueue.c], the monitors and the callbacks)

    [SubMonitor]s and [FileMonitor]s, what the kernel's events and the three
    pollers do with them, and the functions installed as the kernel backend. *)

From S2P Require Import Prelude Protocol Monad OS Fs State.
From S2P Require Import Subscription Listener Emit PollGeneric Server.
From S2P Require Import KqueueState KqueueTables.

Local Open Scope Z_scope.

#[local] Existing Instance kqueue_kernel.

Section Kqueue.
Context {os : OS} {glib : GLib} {kq : Kqueue os}.
Abbreviation M := (ST server).

(** ** Tables of a [SubMonitor] *)

Definition gam_kqueue_file_monitor_free (fmon : ptr) : M unit := gam_kqueue_monitor_free fmon.

Definition load_fmons (smon : ptr) : M (HashTable (gmap string ptr)) :=
  m ← kload (A := SubMonitor) smon; deref (sm_fmons m).
Definition modify_fmons (smon : ptr)
  (f : HashTable (gmap string ptr) -> HashTable (gmap string ptr)) : M unit :=
  t ← load_fmons smon; kupdate smon (set_sm_fmons (Some (f t))).
Definition load_unsupported (smon : ptr) : M (HashTable (gset ptr)) :=
  m ← kload (A := SubMonitor) smon; deref (sm_unsupported m).
Definition modify_unsupported (smon : ptr)
  (f : HashTable (gset ptr) -> HashTable (gset ptr)) : M unit :=
  t ← load_unsupported smon; kupdate smon (set_sm_unsupported (Some (f t))).

(** [GDestroyNotify] of the table: the value that goes is freed. *)
Definition destroy_value (o : option ptr) : M unit :=
  match o with Some fmon => gam_kqueue_file_monitor_free fmon | None => mret tt end.

Definition gam_kqueue_sub_monitor_add_fmon_cb (smon fmon : ptr) : M unit :=
  f ← kload (A := FileMonitor) fmon;
  t ← load_fmons smon;
  _ ← modify_fmons smon (fun t => set_ht_main (<[fm_filename f := fmon]> (ht_main t)) t);
  destroy_value (ht_main t !! fm_filename f).

Definition gam_kqueue_sub_monitor_remove_fmon_cb (smon fmon : ptr) : M unit :=
  f ← kload (A := FileMonitor) fmon;
  t ← load_fmons smon;
  _ ← modify_fmons smon (fun t => set_ht_main (delete (fm_filename f) (ht_main t)) t);
  destroy_value (ht_main t !! fm_filename f).

Definition gam_kqueue_sub_monitor_post_add_unsupported_fmon_cb (smon : ptr) : M unit :=
  gam_kqueue_poller_add_sub_monitor UnsupportedFmon smon.

Definition gam_kqueue_sub_monitor_post_remove_unsupported_fmon_cb (smon : ptr) : M unit :=
  t ← load_unsupported smon;
  when (bool_decide (ht_main t = ∅)) (gam_kqueue_poller_remove_sub_monitor UnsupportedFmon smon).

(** [smon->fmons] and [smon->unsupported_fmons] *)
Definition fmons_table (smon : ptr) : Table := {|
  tb_type := gmap string ptr;
  tb_load := load_fmons smon;
  tb_modify := modify_fmons smon;
  tb_values m := (map_to_list m).*2;
  tb_add := gam_kqueue_sub_monitor_add_fmon_cb smon;
  tb_post_add := None;
  tb_remove := gam_kqueue_sub_monitor_remove_fmon_cb smon;
  tb_post_remove := None
|}.

Definition unsupported_table (smon : ptr) : Table := {|
  tb_type := gset ptr;
  tb_load := load_unsupported smon;
  tb_modify := modify_unsupported smon;
  tb_values := elements;
  tb_add := gam_kqueue_hash_table_default_add_cb (modify_unsupported smon);
  tb_post_add := Some (gam_kqueue_sub_monitor_post_add_unsupported_fmon_cb smon);
  tb_remove := gam_kqueue_hash_table_default_remove_cb (modify_unsupported smon);
  tb_post_remove := Some (gam_kqueue_sub_monitor_post_remove_unsupported_fmon_cb smon)
|}.

Definition gam_kqueue_sub_monitor_init_fmons (smon : ptr) : M unit :=
  _ ← kupdate smon (set_sm_fmons (Some (gam_kqueue_hash_table_new ∅)));
  kupdate smon (set_sm_unsupported (Some (gam_kqueue_hash_table_new ∅))).

(** [gam_kqueue_hash_table_destroy] on each of the two. *)
Definition destroy_unsupported (smon : ptr) : M unit :=
  t ← load_unsupported smon;
  _ ← g_assert (negb (ht_iterating t));
  kupdate smon (set_sm_unsupported None).

Definition destroy_fmons (smon : ptr) : M unit :=
  t ← load_fmons smon;
  _ ← g_assert (negb (ht_iterating t));
  _ ← for_each (map_to_list (ht_main t)).*2 gam_kqueue_file_monitor_free;
  kupdate smon (set_sm_fmons None).

Definition gam_kqueue_sub_monitor_clear_fmons (smon : ptr) : M unit :=
  t ← load_unsupported smon;
  _ ← when (negb (bool_decide (ht_main t = ∅)))
        (gam_kqueue_poller_remove_sub_monitor UnsupportedFmon smon);
  _ ← destroy_unsupported smon;
  destroy_fmons smon.

(** ** SubMonitor *)

(** [g_new0] of a monitor: the base and the rest. *)
Definition alloc_monitor (m : Monitor) : M ptr := fun s =>
  let p := kq_next (sv_kernel s) in
  Ok (p, upd_kq (fun k => set_kq_next (Pos.succ p) (set_kq_monitors (<[p := m]> (kq_monitors k)) k)) s).

Definition gam_kqueue_sub_monitor_new (sub : ptr) : M ptr :=
  sb ← load (A := GamSubscription) sub;
  smon ← alloc_monitor (mk_monitor SubMonitorKevent (sub_path sb) (-1) mini_zero 0);
  _ ← kq_modify (fun k =>
        set_kq_smons (<[smon := mk_smon [] None None (gam_subscription_is_dir (Some sb))]> (kq_smons k)) k);
  _ ← gam_kqueue_sub_monitor_init_fmons smon;
  mret smon.

Definition gam_kqueue_sub_monitor_free (smon : ptr) : M unit :=
  _ ← gam_kqueue_poller_remove_sub_monitor MissingSmon smon;
  _ ← gam_kqueue_poller_remove_sub_monitor UnsupportedSmon smon;
  _ ← gam_kqueue_sub_monitor_clear_fmons smon;
  gam_kqueue_monitor_free smon.

Definition gam_kqueue_sub_monitor_set_missing (smon : ptr) : M unit :=
  _ ← monitor_close smon;
  t ← load_fmons smon;
  _ ← when (negb (bool_decide (ht_main t = ∅)))
        (_ ← gam_kqueue_sub_monitor_clear_fmons smon;
         gam_kqueue_sub_monitor_init_fmons smon);
  _ ← gam_kqueue_poller_remove_sub_monitor UnsupportedSmon smon;
  gam_kqueue_poller_add_sub_monitor MissingSmon smon.

Definition gam_kqueue_sub_monitor_set_unsupported (smon : ptr) : M unit :=
  _ ← gam_kqueue_monitor_set_unsupported smon;
  gam_kqueue_poller_add_sub_monitor UnsupportedSmon smon.

(** ** FileMonitor *)

Definition gam_kqueue_file_monitor_set_unsupported (fmon : ptr) : M unit :=
  _ ← gam_kqueue_monitor_set_unsupported fmon;
  f ← kload (A := FileMonitor) fmon;
  gam_kqueue_hash_table_add (unsupported_table (fm_smon f)) fmon.

(** The object, entered in its directory's table. *)
Definition file_monitor_create (smon : ptr) (pathname : string) : M ptr :=
  fmon ← alloc_monitor (mk_monitor FileMonitorKevent pathname (-1) mini_zero 0);
  _ ← kq_modify (fun k =>
        set_kq_fmons (<[fmon := mk_fmon smon (filename_of pathname)]> (kq_fmons k)) k);
  _ ← gam_kqueue_hash_table_add (fmons_table smon) fmon;
  mret fmon.

(** It is watched, or else polled; with the flags for its first event. *)
Definition watch_or_poll (fmon : ptr) : M (ptr * Z) :=
  ok ← gam_kqueue_monitor_enable_kqueue fmon;
  if ok : bool then mret (fmon, 0)
  else
    _ ← gam_kqueue_file_monitor_set_unsupported fmon;
    m ← kload (A := Monitor) fmon;
    mret (fmon, if mode_isdir (ms_mode (mon_sb m)) then MONITOR_ISDIR else MONITOR_ISNOTDIR).

Definition gam_kqueue_file_monitor_new (smon : ptr) (filename : string) : M (ptr * Z) :=
  sm ← kload (A := Monitor) smon;
  fmon ← file_monitor_create smon (g_build_filename (mon_pathname sm) filename);
  watch_or_poll fmon.

(** The first half of [gam_kqueue_file_monitor_emit_event]: the event goes to
    the directory's subscriptions.  Returns what [lstat] said, if it was
    called. *)
Definition file_monitor_report (fmon : ptr) (event flags : Z) : M (option (option kstat)) :=
  m ← kload (A := Monitor) fmon;
  stat ← (if negb (ztest (flags .& MONITOR_ISDIR)) && negb (ztest (flags .& MONITOR_ISNOTDIR)) then
            st ← sys (lstat (mon_pathname m)); mret (Some st)
          else mret None);
  let isdir :=
    match stat with
    | Some (Some st) => mode_isdir (kst_mode st)
    | Some None => false
    | None => ztest (flags .& MONITOR_ISDIR)
    end in
  f ← kload (A := FileMonitor) fmon;
  sm ← kload (A := SubMonitor) (fm_smon f);
  _ ← gam_server_emit_event (mon_pathname m) isdir event (sm_subs sm) true;
  mret stat.

(** The new monitor of a file that exists again; its [CREATED] event does not
    reach the [switch]. *)
Definition file_monitor_recreate (fmon : ptr) : M unit :=
  f ← kload (A := FileMonitor) fmon;
  '(new_fmon, new_flags) ← gam_kqueue_file_monitor_new (fm_smon f) (fm_filename f);
  _ ← file_monitor_report new_fmon GAMIN_EVENT_CREATED new_flags;
  mret tt.

Definition gam_kqueue_file_monitor_emit_event (fmon : ptr) (event flags : Z) : M unit :=
  stat ← file_monitor_report fmon event flags;
  if (event =? GAMIN_EVENT_DELETED) || (event =? GAMIN_EVENT_MOVED) then
    m ← kload (A := Monitor) fmon;
    f ← kload (A := FileMonitor) fmon;
    _ ← when (mon_fd m <? 0)
          (gam_kqueue_hash_table_remove (unsupported_table (fm_smon f)) fmon);
    exists_again ←
      (if ztest (flags .& FILE_MONITOR_POSSIBLY_RECREATED) then
         st ← match stat with Some st => mret st | None => sys (lstat (mon_pathname m)) end;
         mret (match st with Some _ => true | None => false end)
       else mret false);
    if exists_again : bool then file_monitor_recreate fmon
    else gam_kqueue_hash_table_remove (fmons_table (fm_smon f)) fmon
  else mret tt.

(** ** Directories *)

Definition handle_directory_change_entry (smon : ptr) (filename : string) : M unit :=
  t ← load_fmons smon;
  match ht_main t !! filename with
  | Some _ => mret tt
  | None =>
      '(fmon, fmon_flags) ← gam_kqueue_file_monitor_new smon filename;
      gam_kqueue_file_monitor_emit_event fmon GAMIN_EVENT_CREATED fmon_flags
  end.

(** The key of an entry is the [filename] of its value. *)
Definition gam_kqueue_sub_monitor_handle_directory_change_removal_cb (filenames : list string)
  (fmon : ptr) : M unit :=
  f ← kload (A := FileMonitor) fmon;
  if bool_decide (fm_filename f ∈ filenames) then mret tt
  else gam_kqueue_file_monitor_emit_event fmon GAMIN_EVENT_DELETED MONITOR_ISNOTDIR.

Definition gam_kqueue_sub_monitor_handle_directory_change (smon : ptr) (isdir : bool) : M unit :=
  m ← kload (A := Monitor) smon;
  filenames ←
    (if isdir then
       dir ← sys (dir_names (mon_pathname m));
       match dir with
       | Some names => _ ← for_each names (handle_directory_change_entry smon); mret names
       | None => mret []
       end
     else mret []);
  gam_kqueue_hash_table_foreach (fmons_table smon)
    (gam_kqueue_sub_monitor_handle_directory_change_removal_cb filenames).

Definition gam_kqueue_sub_monitor_emit_event (smon : ptr) (event flags : Z) : M unit :=
  m ← kload (A := Monitor) smon;
  isdir ← gam_kqueue_isdir (mon_pathname m) flags;
  sm ← kload (A := SubMonitor) smon;
  if (event =? GAMIN_EVENT_CHANGED) && sm_isdir sm then
    gam_kqueue_sub_monitor_handle_directory_change smon isdir
  else
    _ ← when ((event =? GAMIN_EVENT_DELETED) || (event =? GAMIN_EVENT_MOVED))
          (gam_kqueue_sub_monitor_set_missing smon);
    gam_server_emit_event (mon_pathname m) isdir event (sm_subs sm) true.

(** One entry of the first listing. *)
Definition enable_notification_entry (smon : ptr) (gevent : Z) (filename : string) : M unit :=
  '(fmon, fmon_flags) ← gam_kqueue_file_monitor_new smon filename;
  gam_kqueue_file_monitor_emit_event fmon gevent fmon_flags.

(** [exists] and the flags after the first [lstat]. *)
Definition enable_notification_exists (pathname : string) (flags : Z) : M (bool * Z) :=
  if ztest (flags .& SUB_MONITOR_WAS_MISSING) then mret (true, flags)
  else
    st ← sys (lstat pathname);
    mret (match st with
          | Some st =>
              (true, flags .| (if mode_isdir (kst_mode st) then MONITOR_ISDIR else MONITOR_ISNOTDIR))
          | None => (false, flags .| MONITOR_ISNOTDIR)
          end).

Definition gam_kqueue_sub_monitor_enable_notification (smon : ptr) (flags : Z) : M unit :=
  m ← kload (A := Monitor) smon;
  '(exists_, flags) ← enable_notification_exists (mon_pathname m) flags;
  if exists_ : bool then
    let gevent := if ztest (flags .& SUB_MONITOR_WAS_MISSING) then GAMIN_EVENT_CREATED
                  else GAMIN_EVENT_EXISTS in
    _ ← gam_kqueue_sub_monitor_emit_event smon gevent flags;
    sm ← kload (A := SubMonitor) smon;
    _ ← when (sm_isdir sm && ztest (flags .& MONITOR_ISDIR))
          (dir ← sys (dir_names (mon_pathname m));
           match dir with
           | Some names => for_each names (enable_notification_entry smon gevent)
           | None => mret tt
           end);
    _ ← when (negb (ztest (flags .& SUB_MONITOR_WAS_MISSING)))
          (gam_kqueue_sub_monitor_emit_event smon GAMIN_EVENT_ENDEXISTS flags);
    ok ← gam_kqueue_monitor_enable_kqueue smon;
    if ok : bool then mret tt else gam_kqueue_sub_monitor_set_unsupported smon
  else
    _ ← gam_kqueue_sub_monitor_emit_event smon GAMIN_EVENT_DELETED flags;
    gam_kqueue_sub_monitor_emit_event smon GAMIN_EVENT_ENDEXISTS flags.

(** ** Events of the kernel *)

Definition gam_kqueue_sub_monitor_handle_kevent (smon : ptr) (event : kevent) : M unit :=
  if ztest (ke_flags event .& EV_ERROR) then gam_kqueue_sub_monitor_set_unsupported smon
  else
    _ ← when (ztest (ke_fflags event .& VN_NOTE_CHANGED))
          (gam_kqueue_sub_monitor_emit_event smon GAMIN_EVENT_CHANGED 0);
    if ztest (ke_fflags event .& VN_NOTE_DELETED) then
      gam_kqueue_sub_monitor_emit_event smon GAMIN_EVENT_DELETED MONITOR_ISNOTDIR
    else if ztest (ke_fflags event .& NOTE_RENAME) then
      gam_kqueue_sub_monitor_emit_event smon GAMIN_EVENT_MOVED MONITOR_ISNOTDIR
    else mret tt.

Definition gam_kqueue_file_monitor_handle_kevent (fmon : ptr) (event : kevent) : M unit :=
  if ztest (ke_flags event .& EV_ERROR) then gam_kqueue_file_monitor_set_unsupported fmon
  else
    _ ← when (ztest (ke_fflags event .& VN_NOTE_CHANGED))
          (gam_kqueue_file_monitor_emit_event fmon GAMIN_EVENT_CHANGED 0);
    if ztest (ke_fflags event .& VN_NOTE_DELETED) then
      gam_kqueue_file_monitor_emit_event fmon GAMIN_EVENT_DELETED
        (MONITOR_ISNOTDIR .| FILE_MONITOR_POSSIBLY_RECREATED)
    else if ztest (ke_fflags event .& NOTE_RENAME) then
      gam_kqueue_file_monitor_emit_event fmon GAMIN_EVENT_MOVED
        (MONITOR_ISNOTDIR .| FILE_MONITOR_POSSIBLY_RECREATED)
    else mret tt.

(** [MONITOR(ev->udata)->handle_kevent(MONITOR(ev->udata), ev)] *)
Definition dispatch_kevent (event : kevent) : M unit :=
  m ← kload (A := Monitor) (ke_udata event);
  match handle_kevent m with
  | SubMonitorKevent => gam_kqueue_sub_monitor_handle_kevent (ke_udata event) event
  | FileMonitorKevent => gam_kqueue_file_monitor_handle_kevent (ke_udata event) event
  end.

Definition gam_kqueue_kevent_cb : M bool :=
  r ← sys kevent_poll;
  match r with
  | SysErr _ => mret true
  | SysOk None => mret true
  | SysOk (Some event) => _ ← dispatch_kevent event; mret true
  end.

(** ** Pollers *)

Definition gam_kqueue_missing_smon_poll (smon : ptr) : M unit :=
  m ← kload (A := Monitor) smon;
  st ← sys (lstat (mon_pathname m));
  match st with
  | None => mret tt
  | Some st =>
      _ ← gam_kqueue_poller_remove_sub_monitor MissingSmon smon;
      gam_kqueue_sub_monitor_enable_notification smon
        (SUB_MONITOR_WAS_MISSING
         .| (if mode_isdir (kst_mode st) then MONITOR_ISDIR else MONITOR_ISNOTDIR))
  end.

(** [++mon->poll_count == n], and if so [mon->poll_count = 0]. *)
Definition retry_due (mon : ptr) (n : Z) : M bool :=
  m ← kload (A := Monitor) mon;
  let count := u32 (poll_count m + 1) in
  _ ← kupdate mon (set_poll_count count);
  if count =? n then _ ← kupdate mon (set_poll_count 0); mret true
  else mret false.

(** What two polls say: the event and the flags. *)
Definition polled_event (old new : MiniStat) : option Z :=
  if negb (ms_exists new) && ms_exists old then Some GAMIN_EVENT_DELETED
  else if gam_kqueue_differs new old then Some GAMIN_EVENT_CHANGED
  else None.
Definition polled_flags (sb : MiniStat) : Z :=
  if mode_isdir (ms_mode sb) then MONITOR_ISDIR else MONITOR_ISNOTDIR.

(** As written, the monitor is taken off the poller of missing files. *)
Definition gam_kqueue_unsupported_smon_poll (smon : ptr) : M unit :=
  due ← retry_due smon CFG_UNSUPPORTED_SMON_KQUEUE_RETRY_FREQUENCY;
  _ ← when due
        (ok ← gam_kqueue_monitor_enable_kqueue smon;
         when ok (gam_kqueue_poller_remove_sub_monitor MissingSmon smon));
  m ← kload (A := Monitor) smon;
  sb ← gam_kqueue_mini_lstat (mon_pathname m);
  match polled_event (mon_sb m) sb with
  | None => mret tt
  | Some event =>
      _ ← kupdate smon (set_mon_sb sb);
      gam_kqueue_sub_monitor_emit_event smon event (polled_flags sb)
  end.

Definition gam_kqueue_unsupported_fmon_poll_foreach_cb (fmon : ptr) : M unit :=
  due ← retry_due fmon CFG_UNSUPPORTED_FMON_KQUEUE_RETRY_FREQUENCY;
  _ ← when due
        (ok ← gam_kqueue_monitor_enable_kqueue fmon;
         when ok
           (f ← kload (A := FileMonitor) fmon;
            gam_kqueue_hash_table_remove (unsupported_table (fm_smon f)) fmon));
  m ← kload (A := Monitor) fmon;
  sb ← gam_kqueue_mini_lstat (mon_pathname m);
  match polled_event (mon_sb m) sb with
  | None => mret tt
  | Some event =>
      _ ← kupdate fmon (set_mon_sb sb);
      gam_kqueue_file_monitor_emit_event fmon event (polled_flags sb)
  end.

Definition gam_kqueue_unsupported_fmon_poll (smon : ptr) : M unit :=
  gam_kqueue_hash_table_foreach (unsupported_table smon) gam_kqueue_unsupported_fmon_poll_foreach_cb.

(** [poller->func] *)
Definition gam_kqueue_poller_foreach_cb (i : poller_id) (smon : ptr) : M unit :=
  match i with
  | MissingSmon => gam_kqueue_missing_smon_poll smon
  | UnsupportedSmon => gam_kqueue_unsupported_smon_poll smon
  | UnsupportedFmon => gam_kqueue_unsupported_fmon_poll smon
  end.

Definition gam_kqueue_poller_timeout_cb (i : poller_id) : M bool :=
  _ ← gam_kqueue_hash_table_foreach (poller_table i) (gam_kqueue_poller_foreach_cb i);
  mret true.

(** ** The backend *)

(** [maxfiles *= CFG_GLOBAL_FILE_RESERVE_RATIO]: the product is rounded to the
    53 bits of a [double] (to even on a tie), then truncated. *)
Definition scale_maxfiles (n : Z) : Z :=
  let p := n * CFG_GLOBAL_FILE_RESERVE_RATIO in
  let sh := Z.max 0 (Z.log2 p - 52) in
  let q := Z.shiftr p sh in
  let rest := p - Z.shiftl q sh in
  let half := Z.shiftl 1 (sh - 1) in
  let up := (0 <? sh) && ((half <? rest) || ((half =? rest) && Z.odd q)) in
  Z.shiftr (Z.shiftl (if up then q + 1 else q) sh) 53.

Definition file_limit (maxfiles maxfilesperproc : Z) : Z :=
  Z.min (scale_maxfiles maxfiles)
    (if maxfilesperproc >? CFG_SELF_FILE_RESERVE then maxfilesperproc - CFG_SELF_FILE_RESERVE else 0).

Definition gam_kqueue_init : M bool :=
  ok ← sys kqueue_create;
  if negb ok then mret false
  else
    maxfiles ← gam_kqueue_get_uint_sysctl "kern.maxfiles";
    match maxfiles with
    | None => mret false
    | Some maxfiles =>
        maxfilesperproc ← gam_kqueue_get_uint_sysctl "kern.maxfilesperproc";
        match maxfilesperproc with
        | None => mret false
        | Some maxfilesperproc =>
            _ ← kq_modify (set_max_open_files (file_limit maxfiles maxfilesperproc));
            _ ← kq_modify (fun k => set_file_hash ∅ (set_dir_hash ∅ k));
            _ ← gam_kqueue_poller_init MissingSmon CFG_MISSING_SMON_POLL_INTERVAL;
            _ ← gam_kqueue_poller_init UnsupportedSmon CFG_UNSUPPORTED_SMON_POLL_INTERVAL;
            _ ← gam_kqueue_poller_init UnsupportedFmon CFG_UNSUPPORTED_FMON_POLL_INTERVAL;
            _ ← gam_server_install_kernel_hooks GAMIN_K_KQUEUE;
            mret true
        end
    end.

(** [gam_subscription_is_dir(sub) ? dir_hash : file_hash] *)
Definition smon_hash (isdir : bool) (k : kqueue_state) : gmap string ptr :=
  if isdir then dir_hash k else file_hash k.
Definition set_smon_hash (isdir : bool) (h : gmap string ptr) (k : kqueue_state) : kqueue_state :=
  if isdir then set_dir_hash h k else set_file_hash h k.

Definition gam_kqueue_add_subscription (sub : ptr) : M bool :=
  sb ← load (A := GamSubscription) sub;
  listener ← g_assert_ptr (gam_subscription_get_listener (Some sb));
  _ ← gam_listener_add_subscription listener sub;
  let isdir := gam_subscription_is_dir (Some sb) in
  o ← kq_gets (fun k => smon_hash isdir k !! sub_path sb);
  match o with
  | Some smon =>
      _ ← kupdate smon (fun m => set_sm_subs (sm_subs m ++ [sub]) m);
      mret true
  | None =>
      smon ← gam_kqueue_sub_monitor_new sub;
      _ ← kupdate smon (fun m => set_sm_subs (sm_subs m ++ [sub]) m);
      m ← kload (A := Monitor) smon;
      _ ← kq_modify (fun k => set_smon_hash isdir (<[mon_pathname m := smon]> (smon_hash isdir k)) k);
      _ ← gam_kqueue_sub_monitor_enable_notification smon 0;
      mret true
  end.

Definition gam_kqueue_remove_subscription (sub : ptr) : M bool :=
  sb ← load (A := GamSubscription) sub;
  let isdir := gam_subscription_is_dir (Some sb) in
  o ← kq_gets (fun k => smon_hash isdir k !! sub_path sb);
  match o with
  | None => mret false
  | Some smon =>
      _ ← kupdate smon (fun m => set_sm_subs (g_list_remove_all (sm_subs m) sub) m);
      sm ← kload (A := SubMonitor) smon;
      _ ← match sm_subs sm with
          | [] =>
              m ← kload (A := Monitor) smon;
              _ ← kq_modify (fun k => set_smon_hash isdir (delete (mon_pathname m) (smon_hash isdir k)) k);
              gam_kqueue_sub_monitor_free smon
          | _ => mret tt
          end;
      _ ← gam_subscription_cancel (Some sub);
      mret true
  end.

Fixpoint remove_each (l : list ptr) (success : bool) : M bool :=
  match l with
  | [] => mret success
  | sub :: l =>
      r ← gam_kqueue_remove_subscription sub;
      remove_each l (if negb r then false else success)
  end.

Definition gam_kqueue_remove_all_for (listener : ptr) : M bool :=
  subs ← gam_listener_get_subscriptions listener;
  remove_each subs true.
End Kqueue.

#[export] Instance kqueue_backend {os : OS} {glib : GLib} {kq : Kqueue os}
  : KernelBackend os kqueue_kernel := {|
  hook_kernel_init := gam_kqueue_init;
  hook_kernel_add := gam_kqueue_add_subscription;
  hook_kernel_remove := gam_kqueue_remove_subscription;
  hook_kernel_remove_all_for := gam_kqueue_remove_all_for
|}.
