(* ===== verification/KqueueInv.v ===== *)
(** * The invariant of the kqueue backend

    Which monitors exist and who points to them, which descriptors are open and
    for whom, which monitors are polled.  A table that is being iterated over is
    taken with the removals that were put off; a monitor that is being moved
    between the kernel and a poller is exempt from the clauses that say where
    it must be.  The file has the invariant and how it survives each change of
    the store; [KqueueSafety] executes the code. *)

From S2P Require Import Prelude Protocol Monad OS Fs State.
From S2P Require Import KqueueState KqueueTables Kqueue.

Local Open Scope Z_scope.

#[local] Existing Instance kqueue_kernel.

(** ** Tables *)

(** The entries of a table of pointers that will stay. *)
Definition left_in (t : HashTable (gset ptr)) : gset ptr :=
  ht_main t ∖ list_to_set (pending_removals t).

(** Additions are never put off; removals are, while the table is iterated over. *)
Definition table_ok {T} (b : bool) (t : HashTable T) : Prop :=
  ht_iterating t = b /\ pending_additions t = [] /\ (b = false -> pending_removals t = []).

(** What is going on: the poller, the table of polled files and the table of
    files being iterated over; the monitors being moved; the monitor whose table
    of polled files was just changed; the one that is being freed. *)
Record busy := mk_busy {
  by_poller : option poller_id;
  by_unsupported : option ptr;
  by_fmons : option ptr;
  by_moving : gset ptr;
  by_unsettled : option ptr;
  by_dying : option ptr
}.
Definition at_rest : busy := mk_busy None None None ∅ None None.
Definition set_by_poller x b := mk_busy x (by_unsupported b) (by_fmons b) (by_moving b)
  (by_unsettled b) (by_dying b).
Definition set_by_unsupported x b := mk_busy (by_poller b) x (by_fmons b) (by_moving b)
  (by_unsettled b) (by_dying b).
Definition set_by_fmons x b := mk_busy (by_poller b) (by_unsupported b) x (by_moving b)
  (by_unsettled b) (by_dying b).
Definition set_by_moving x b := mk_busy (by_poller b) (by_unsupported b) (by_fmons b) x
  (by_unsettled b) (by_dying b).
Definition set_by_unsettled x b := mk_busy (by_poller b) (by_unsupported b) (by_fmons b)
  (by_moving b) x (by_dying b).
Definition set_by_dying x b := mk_busy (by_poller b) (by_unsupported b) (by_fmons b)
  (by_moving b) (by_unsettled b) x.
Definition moving (p : ptr) (b : busy) : busy := set_by_moving ({[p]} ∪ by_moving b) b.

(** The tables of a live [SubMonitor]. *)
Definition has_tables (k : kqueue_state) (p : ptr) (x : SubMonitor)
  (ft : HashTable (gmap string ptr)) (ut : HashTable (gset ptr)) : Prop :=
  kq_smons k !! p = Some x /\ sm_fmons x = Some ft /\ sm_unsupported x = Some ut.

Definition polled (i : poller_id) (k : kqueue_state) : gset ptr := left_in (pl_smons (kq_pollers k i)).

(** [notes]: the descriptors the backend has open, with their registration. *)
Record kq_ok (b : busy) (notes : gmap Z (option ptr)) (k : kqueue_state) : Prop := {
  (** objects *)
  ko_old p m : kq_monitors k !! p = Some m -> (p < kq_next k)%positive;
  ko_smon p x : kq_smons k !! p = Some x ->
    exists m, kq_monitors k !! p = Some m /\ handle_kevent m = SubMonitorKevent;
  ko_fmon f y : kq_fmons k !! f = Some y ->
    exists m, kq_monitors k !! f = Some m /\ handle_kevent m = FileMonitorKevent;
  ko_kind p m : kq_monitors k !! p = Some m ->
    match handle_kevent m with
    | SubMonitorKevent => is_Some (kq_smons k !! p)
    | FileMonitorKevent => is_Some (kq_fmons k !! p)
    end;
  (** descriptors *)
  ko_fd p m : kq_monitors k !! p = Some m ->
    mon_fd m = -1 \/ 0 <= mon_fd m /\ notes !! mon_fd m = Some (Some p);
  ko_notes fd o : notes !! fd = Some o -> 0 <= fd /\
    exists p m, o = Some p /\ kq_monitors k !! p = Some m /\ mon_fd m = fd;
  ko_open : open_files k = Z.of_nat (size notes);
  ko_max : open_files k <= max_open_files k < 4294967296;
  (** subscribed paths *)
  ko_hash d path p : smon_hash d k !! path = Some p ->
    exists m x, kq_monitors k !! p = Some m /\ kq_smons k !! p = Some x /\
      mon_pathname m = path /\ sm_isdir x = d;
  ko_hashed p m x : kq_monitors k !! p = Some m -> kq_smons k !! p = Some x -> by_dying b <> Some p ->
    smon_hash (sm_isdir x) k !! mon_pathname m = Some p;
  (** files of a directory *)
  ko_tables p x : kq_smons k !! p = Some x -> exists ft ut, has_tables k p x ft ut /\
    table_ok (bool_decide (by_fmons b = Some p)) ft /\
    table_ok (bool_decide (by_unsupported b = Some p)) ut;
  ko_entry p x ft ut name f : has_tables k p x ft ut -> ht_main ft !! name = Some f ->
    kq_fmons k !! f = Some (mk_fmon p name);
  ko_file f y : kq_fmons k !! f = Some y ->
    exists x ft ut, has_tables k (fm_smon y) x ft ut /\ ht_main ft !! fm_filename y = Some f;
  ko_name f y : kq_fmons k !! f = Some y -> no_slash (fm_filename y);
  ko_removals p x ft ut : has_tables k p x ft ut -> NoDup (pending_removals ft) /\
    forall f, f ∈ pending_removals ft -> exists name, ht_main ft !! name = Some f;
  ko_unsupported p x ft ut f : has_tables k p x ft ut -> f ∈ left_in ut ->
    exists name m, ht_main ft !! name = Some f /\ f ∉ pending_removals ft /\
      kq_monitors k !! f = Some m /\ (f ∉ by_moving b -> mon_fd m = -1);
  ko_watched f m p x ft ut name : has_tables k p x ft ut -> ht_main ft !! name = Some f ->
    kq_monitors k !! f = Some m -> mon_fd m = -1 -> f ∉ by_moving b -> f ∉ pending_removals ft ->
    f ∈ left_in ut;
  (** pollers *)
  ko_poller i : table_ok (bool_decide (by_poller b = Some i)) (pl_smons (kq_pollers k i));
  ko_timer i : pl_timeout (kq_pollers k i) = negb (bool_decide (ht_main (pl_smons (kq_pollers k i)) = ∅));
  ko_polled i p : p ∈ polled i k -> is_Some (kq_smons k !! p);
  ko_missing p x ft ut m : p ∈ polled MissingSmon k -> has_tables k p x ft ut ->
    kq_monitors k !! p = Some m -> mon_fd m = -1 /\ ht_main ft = ∅;
  ko_apart p : p ∈ polled MissingSmon k -> p ∈ polled UnsupportedSmon k -> False;
  ko_polled_fmons p x ft ut : has_tables k p x ft ut -> by_unsettled b <> Some p ->
    (p ∈ polled UnsupportedFmon k <-> ht_main ut <> ∅);
  ko_smon_watched p x m : kq_smons k !! p = Some x -> kq_monitors k !! p = Some m ->
    p ∉ by_moving b -> mon_fd m = -1 -> p ∈ polled MissingSmon k \/ p ∈ polled UnsupportedSmon k
}.

(** ** Maps *)

Lemma upd_Some {A} (m : gmap ptr A) p a q x :
  <[p := a]> m !! q = Some x <-> (q = p /\ x = a) \/ (q <> p /\ m !! q = Some x).
Proof. rewrite lookup_insert_Some. naive_solver. Qed.

Lemma insert_is_Some {A} (m : gmap ptr A) p a q : is_Some (m !! q) -> is_Some (<[p := a]> m !! q).
Proof. intros [x Hx]. destruct (decide (q = p)) as [->|]; [by rewrite lookup_insert_eq|]. rewrite lookup_insert_ne by done. by exists x. Qed.

Lemma insert_is_Some_inv {A} (m : gmap ptr A) p a q :
  is_Some (m !! p) -> is_Some (<[p := a]> m !! q) -> is_Some (m !! q).
Proof.
  intros Hp. destruct (decide (q = p)) as [->|]; [done|]. by rewrite lookup_insert_ne.
Qed.

Section Moves.
Context (b : busy) (notes : gmap Z (option ptr)) (k : kqueue_state) (H : kq_ok b notes k).

Lemma fmon_not_smon p x y : kq_smons k !! p = Some x -> kq_fmons k !! p = Some y -> False.
Proof.
  intros Hx Hy. destruct (ko_smon _ _ _ H _ _ Hx) as (m & Hm & E).
  destruct (ko_fmon _ _ _ H _ _ Hy) as (m' & Hm' & E'). congruence.
Qed.

(** ** Monitors *)

(** The heap of monitors after a change of [p] that keeps its class and path. *)
Lemma ok_monitor b' notes' p m m' o :
  kq_monitors k !! p = Some m -> handle_kevent m' = handle_kevent m ->
  mon_pathname m' = mon_pathname m ->
  by_poller b' = by_poller b -> by_unsupported b' = by_unsupported b -> by_fmons b' = by_fmons b ->
  by_unsettled b' = by_unsettled b -> by_dying b' = by_dying b -> by_moving b ⊆ by_moving b' ->
  (mon_fd m' = mon_fd m \/ p ∈ by_moving b' /\ p ∉ polled MissingSmon k \/
    p ∈ by_moving b' /\ mon_fd m' = -1) ->
  (mon_fd m' = -1 \/ 0 <= mon_fd m' /\ notes' !! mon_fd m' = Some (Some p)) ->
  (forall fd q, q <> p -> notes !! fd = Some (Some q) -> notes' !! fd = Some (Some q)) ->
  (forall fd o', notes' !! fd = Some o' -> 0 <= fd /\ (
    (o' = Some p /\ fd = mon_fd m') \/ (notes !! fd = Some o' /\ o' <> Some p))) ->
  o = Z.of_nat (size notes') -> o <= max_open_files k ->
  kq_ok b' notes' (set_open_files o (set_kq_monitors (<[p := m']> (kq_monitors k)) k)).
Proof.
  intros Hp Eh Ep E1 E2 E3 E4 E5 Hmv Hfd Hn1 Hn2 Hn3 Ho Hmax.
  assert (forall q x, <[p := m']> (kq_monitors k) !! q = Some x ->
    exists x0, kq_monitors k !! q = Some x0 /\ handle_kevent x = handle_kevent x0 /\
      mon_pathname x = mon_pathname x0 /\ (x = x0 \/ q = p /\ x = m' /\ x0 = m)) as Hinv.
  { intros q x [[-> ->]|[_ Hq]]%upd_Some; eauto 10. }
  assert (forall q x, kq_monitors k !! q = Some x ->
    exists x', <[p := m']> (kq_monitors k) !! q = Some x' /\ handle_kevent x' = handle_kevent x /\
      mon_pathname x' = mon_pathname x /\ (x' = x \/ q = p /\ x' = m' /\ x = m)) as Hfwd.
  { intros q x Hq. destruct (decide (q = p)) as [->|]; [|exists x; by rewrite lookup_insert_ne; auto].
    simplify_eq. exists m'. rewrite lookup_insert_eq. auto 10. }
  split; simpl; rewrite ?E1, ?E2, ?E3, ?E4, ?E5; try apply H.
  - intros q x Hq. destruct (Hinv q x Hq) as (x0 & Hx0 & _). by apply (ko_old _ _ _ H _ _ Hx0).
  - intros q x Hq. destruct (ko_smon _ _ _ H _ _ Hq) as (x0 & Hx0 & E).
    destruct (Hfwd _ _ Hx0) as (x' & ? & ? & _). exists x'. split; congruence.
  - intros q x Hq. destruct (ko_fmon _ _ _ H _ _ Hq) as (x0 & Hx0 & E).
    destruct (Hfwd _ _ Hx0) as (x' & ? & ? & _). exists x'. split; congruence.
  - intros q x Hq. destruct (Hinv q x Hq) as (x0 & Hx0 & -> & _). by apply (ko_kind _ _ _ H).
  - intros q x [[-> ->]|[Hne Hq]]%upd_Some; [done|]. destruct (ko_fd _ _ _ H _ _ Hq) as [?|[? ?]]; [by left|].
    right. split; [done|]. by apply Hn2.
  - intros fd o' Hfd'. destruct (Hn3 _ _ Hfd') as [H0 [[-> ->]|[Hold Hne]]]; (split; [done|]).
    + exists p, m'. by rewrite lookup_insert_eq.
    + destruct (ko_notes _ _ _ H _ _ Hold) as (_ & q & x & -> & Hq & <-). exists q, x.
      rewrite lookup_insert_ne by congruence. done.
  - done.
  - split; [done|]. apply (ko_max _ _ _ H).
  - intros d path q Hq. destruct (ko_hash _ _ _ H d path q Hq) as (x0 & y & Hx0 & Hy & <- & <-).
    destruct (Hfwd _ _ Hx0) as (x' & ? & _ & ? & _). by exists x', y.
  - intros q x y Hq Hy Hd. destruct (Hinv q x Hq) as (x0 & Hx0 & _ & -> & _). by apply (ko_hashed _ _ _ H).
  - intros q x ft ut f Ht Hf. destruct (ko_unsupported _ _ _ H _ _ _ _ _ Ht Hf) as (name & x0 & Hn & Hr & Hx0 & Hfd0).
    destruct (Hfwd _ _ Hx0) as (x' & Hx' & _ & _ & Hx). exists name, x'. do 3 (split; [done|]).
    intros Hf'. destruct Hx as [->|(-> & -> & ->)]; [apply Hfd0; set_solver|].
    destruct Hfd as [->|[[? _]|[? _]]]; [apply Hfd0; set_solver|done..].
  - intros f x q y ft ut name Ht Hn Hf E Hf' Hr.
    destruct (Hinv f x Hf) as (x0 & Hx0 & _ & _ & Hx).
    apply (ko_watched _ _ _ H f x0 q y ft ut name); [done..| |set_solver|done].
    destruct Hx as [<-|(-> & -> & ->)]; [done|]. destruct Hfd as [<-|[[? _]|[? _]]]; done.
  - intros q y ft ut x Hq Ht Hx. destruct (Hinv q x Hx) as (x0 & Hx0 & _ & _ & Hc).
    destruct (ko_missing _ _ _ H q y ft ut x0 Hq Ht Hx0) as [? ?]. split; [|done].
    destruct Hc as [->|(-> & -> & ->)]; [done|]. destruct Hfd as [->|[[_ ?]|[_ ?]]]; done.
  - intros q y x Hq Hx Hm E. destruct (Hinv q x Hx) as (x0 & Hx0 & _ & _ & Hc).
    apply (ko_smon_watched _ _ _ H q y x0); [done|done|set_solver|].
    destruct Hc as [<-|(-> & -> & ->)]; [done|]. destruct Hfd as [<-|[[? _]|[? _]]]; done.
Qed.

(** The same descriptor: nothing changes. *)
Lemma ok_monitor_core p m m' :
  kq_monitors k !! p = Some m -> handle_kevent m' = handle_kevent m ->
  mon_pathname m' = mon_pathname m -> mon_fd m' = mon_fd m ->
  kq_ok b notes (set_kq_monitors (<[p := m']> (kq_monitors k)) k).
Proof.
  intros Hp Eh Ep Ef. pose proof (ko_fd _ _ _ H _ _ Hp) as Hfd.
  assert (forall k0 : kqueue_state, k0 = set_open_files (open_files k0) k0) as E by by intros [].
  rewrite (E (set_kq_monitors _ k)). apply (ok_monitor b notes p m m'); try done.
  - by left.
  - by rewrite Ef.
  - intros fd o Ho. destruct (ko_notes _ _ _ H _ _ Ho) as (H0 & q & x & -> & Hx & <-). split; [done|].
    destruct (decide (q = p)) as [->|]; [left|right; split; [done|congruence]]. split; congruence.
  - apply H.
  - apply H.
Qed.

Lemma ok_enable p m fd :
  kq_monitors k !! p = Some m -> mon_fd m = -1 -> p ∈ by_moving b -> p ∉ polled MissingSmon k ->
  0 <= fd -> notes !! fd = None -> open_files k <> max_open_files k ->
  kq_ok b (<[fd := Some p]> notes)
    (set_open_files (u32 (open_files k + 1)) (set_kq_monitors (<[p := set_mon_fd fd m]> (kq_monitors k)) k)).
Proof.
  intros Hp E Hm Hmi Hfd Hn Hmax. pose proof (ko_max _ _ _ H) as Hk. pose proof (ko_open _ _ _ H) as Ho.
  assert (u32 (open_files k + 1) = open_files k + 1) as -> by (unfold u32; apply Z.mod_small; lia).
  apply (ok_monitor b _ p m); try done.
  - right. by left.
  - right. simpl. by rewrite lookup_insert_eq.
  - intros fd' q Hne Hq. rewrite lookup_insert_ne by congruence. done.
  - intros fd' o. rewrite lookup_insert_Some. intros [[<- <-]|[Hne Hq]]; [split; [done|by left]|].
    destruct (ko_notes _ _ _ H _ _ Hq) as (H0 & q & x & -> & Hx & <-). split; [done|right].
    split; [done|]. intros [= ->]. simplify_eq. lia.
  - rewrite map_size_insert_None by done. lia.
  - lia.
Qed.

Lemma ok_close p m :
  kq_monitors k !! p = Some m -> 0 <= mon_fd m -> p ∈ by_moving b ->
  kq_ok b (delete (mon_fd m) notes)
    (set_open_files (u32 (open_files k - 1)) (set_kq_monitors (<[p := set_mon_fd (-1) m]> (kq_monitors k)) k)).
Proof.
  intros Hp E Hm. pose proof (ko_max _ _ _ H) as Hk. pose proof (ko_open _ _ _ H) as Ho.
  destruct (ko_fd _ _ _ H _ _ Hp) as [?|[_ Hn]]; [lia|].
  assert (size notes = S (size (delete (mon_fd m) notes))) as Hs.
  { rewrite <- (insert_delete_id notes (mon_fd m) (Some p)) at 1 by done.
    apply map_size_insert_None, lookup_delete_eq. }
  assert (u32 (open_files k - 1) = open_files k - 1) as -> by (unfold u32; apply Z.mod_small; lia).
  apply (ok_monitor b _ p m); try done.
  - right. right. done.
  - by left.
  - intros fd' q Hne Hq. rewrite lookup_delete_ne by congruence. done.
  - intros fd' o. rewrite lookup_delete_Some. intros [Hne Hq].
    destruct (ko_notes _ _ _ H _ _ Hq) as (H0 & q & x & -> & Hx & <-). split; [done|right].
    split; [done|]. intros [= ->]. simplify_eq.
  - lia.
  - lia.
Qed.

(** ** Who is being moved *)

Lemma ok_moving M : by_moving b ⊆ M -> kq_ok (set_by_moving M b) notes k.
Proof.
  intros HM. destruct H. split; simpl; try done.
  - intros p x ft ut f Ht Hf. destruct (ko_unsupported0 p x ft ut f Ht Hf) as (name & m & ? & ? & ? & Hfd).
    exists name, m. do 3 (split; [done|]). intros Hn. apply Hfd. set_solver.
  - intros f m p x ft ut name ? ? ? ? Hn ?. eapply ko_watched0; try done. set_solver.
  - intros p x m ? ? Hn ?. eapply ko_smon_watched0; try done. set_solver.
Qed.

(** [p] is where it must be. *)
Definition settled_smon (p : ptr) : Prop := forall x m,
  kq_smons k !! p = Some x -> kq_monitors k !! p = Some m -> mon_fd m = -1 ->
  p ∈ polled MissingSmon k \/ p ∈ polled UnsupportedSmon k.
Definition settled_fmon (f : ptr) : Prop := forall p x ft ut name m,
  has_tables k p x ft ut -> ht_main ft !! name = Some f -> kq_monitors k !! f = Some m ->
  (f ∈ left_in ut -> mon_fd m = -1) /\
  (mon_fd m = -1 -> f ∉ pending_removals ft -> f ∈ left_in ut).

Lemma ok_settled M :
  (forall p, p ∈ by_moving b -> p ∉ M -> settled_smon p /\ settled_fmon p) ->
  kq_ok (set_by_moving M b) notes k.
Proof.
  intros HM. split; simpl; try apply H.
  - intros p x ft ut f Ht Hf.
    destruct (ko_unsupported _ _ _ H p x ft ut f Ht Hf) as (name & m & Hn & Hr & Hm & Hfd).
    exists name, m. do 3 (split; [done|]). intros HfM. destruct (decide (f ∈ by_moving b)) as [Hb|]; [|auto].
    destruct (HM f Hb HfM) as [_ Hs]. by apply (Hs p x ft ut name m).
  - intros f m p x ft ut name Ht Hn Hm E HfM Hr. destruct (decide (f ∈ by_moving b)) as [Hb|].
    + destruct (HM f Hb HfM) as [_ Hs]. by apply (Hs p x ft ut name m).
    + by apply (ko_watched _ _ _ H f m p x ft ut name).
  - intros p x m Hx Hm HpM E. destruct (decide (p ∈ by_moving b)) as [Hb|].
    + destruct (HM p Hb HpM) as [Hs _]. by apply (Hs x m).
    + by apply (ko_smon_watched _ _ _ H p x m).
Qed.

(** ** Pollers *)

Lemma polled_set i P j : polled j (set_poller i P k) = if decide (j = i) then left_in (pl_smons P) else polled j k.
Proof. unfold polled. rewrite kq_pollers_set. by destruct (decide (j = i)). Qed.

Lemma ok_set_poller b' i P :
  by_unsupported b' = by_unsupported b -> by_fmons b' = by_fmons b -> by_moving b' = by_moving b ->
  by_dying b' = by_dying b ->
  (forall p, by_unsettled b' <> Some p -> by_unsettled b <> Some p \/ i = UnsupportedFmon) ->
  table_ok (bool_decide (by_poller b' = Some i)) (pl_smons P) ->
  (forall j, j <> i -> bool_decide (by_poller b' = Some j) = bool_decide (by_poller b = Some j)) ->
  pl_timeout P = negb (bool_decide (ht_main (pl_smons P) = ∅)) ->
  (forall p, p ∈ left_in (pl_smons P) -> is_Some (kq_smons k !! p)) ->
  (i = MissingSmon -> forall p x ft ut m, p ∈ left_in (pl_smons P) -> p ∉ polled i k ->
    has_tables k p x ft ut -> kq_monitors k !! p = Some m -> mon_fd m = -1 /\ ht_main ft = ∅) ->
  (forall p, p ∈ left_in (pl_smons P) -> p ∉ polled i k -> (i = MissingSmon -> p ∉ polled UnsupportedSmon k) /\
    (i = UnsupportedSmon -> p ∉ polled MissingSmon k)) ->
  (i = UnsupportedFmon -> forall p x ft ut, has_tables k p x ft ut -> by_unsettled b' <> Some p ->
    (p ∈ left_in (pl_smons P) <-> ht_main ut <> ∅)) ->
  (i <> UnsupportedFmon -> forall p, p ∈ polled i k -> p ∉ by_moving b -> p ∈ left_in (pl_smons P)) ->
  kq_ok b' notes (set_poller i P k).
Proof.
  intros E1 E2 E3 E5 E4 Ht Hj Htm Hl Hmis Hap Huf Hk. split; simpl; rewrite ?E1, ?E2, ?E3, ?E5; try apply H.
  - intros j. rewrite kq_pollers_set. destruct (decide (j = i)) as [->|Hne]; [done|]. rewrite Hj by done. apply H.
  - intros j. rewrite kq_pollers_set. destruct (decide (j = i)) as [->|Hne]; [done|]. apply H.
  - intros j p. rewrite polled_set. destruct (decide (j = i)) as [->|Hne]; [apply Hl|apply H].
  - intros p x ft ut m. rewrite polled_set. destruct (decide (MissingSmon = i)) as [<-|Hne].
    + intros Hp Htb Hm. destruct (decide (p ∈ polled MissingSmon k)) as [Hq|Hq];
        [by apply (ko_missing _ _ _ H p x ft ut)|by apply (Hmis eq_refl p x ft ut)].
    + intros Hp Htb Hm. by apply (ko_missing _ _ _ H p x ft ut).
  - intros p. rewrite !polled_set. pose proof (ko_apart _ _ _ H p) as Ha.
    destruct i; simpl; try exact Ha; intros H1 H2.
    + destruct (decide (p ∈ polled MissingSmon k)) as [Hq|Hq]; [by apply Ha|exact (proj1 (Hap p H1 Hq) eq_refl H2)].
    + destruct (decide (p ∈ polled UnsupportedSmon k)) as [Hq|Hq]; [by apply Ha|exact (proj2 (Hap p H2 Hq) eq_refl H1)].
  - intros p x ft ut Htb Hu. rewrite polled_set. destruct (decide (UnsupportedFmon = i)) as [<-|Hne].
    + by apply (Huf eq_refl p x ft ut).
    + destruct (E4 p Hu) as [Hu'|]; [|done]. by apply (ko_polled_fmons _ _ _ H p x ft ut).
  - intros p x m Hx Hm Hp E. rewrite !polled_set.
    destruct (ko_smon_watched _ _ _ H p x m Hx Hm Hp E) as [Hw|Hw];
      [left; destruct (decide (MissingSmon = i)) as [<-|]|right; destruct (decide (UnsupportedSmon = i)) as [<-|]];
      try done; by apply Hk.
Qed.

(** ** Tables of a monitor *)

Lemma tables_insert p x' q x ft ut : has_tables (set_kq_smons (<[p := x']> (kq_smons k)) k) q x ft ut ->
  (q = p /\ x = x' /\ sm_fmons x' = Some ft /\ sm_unsupported x' = Some ut) \/
  (q <> p /\ has_tables k q x ft ut).
Proof.
  unfold has_tables. simpl. intros ([[-> ->]|[Hne Hq]]%upd_Some & Hf & Hu); auto.
Qed.

(** The same files, other bookkeeping. *)
Lemma ok_tables b' p x ft ut x' ft' ut' :
  has_tables k p x ft ut -> sm_isdir x' = sm_isdir x -> sm_fmons x' = Some ft' ->
  sm_unsupported x' = Some ut' -> ht_main ft' = ht_main ft ->
  by_poller b' = by_poller b -> by_moving b' = by_moving b ->
  by_dying b' = by_dying b ->
  (by_unsettled b' = by_unsettled b \/ by_unsettled b = None /\ by_unsettled b' = Some p) ->
  (forall q, q <> p -> bool_decide (by_fmons b' = Some q) = bool_decide (by_fmons b = Some q) /\
    bool_decide (by_unsupported b' = Some q) = bool_decide (by_unsupported b = Some q)) ->
  table_ok (bool_decide (by_fmons b' = Some p)) ft' ->
  table_ok (bool_decide (by_unsupported b' = Some p)) ut' ->
  NoDup (pending_removals ft') ->
  (forall f, f ∈ pending_removals ft' -> exists name, ht_main ft !! name = Some f) ->
  (forall f, f ∈ left_in ut' -> f ∉ pending_removals ft' /\ (f ∈ left_in ut \/
    exists name m, ht_main ft !! name = Some f /\ kq_monitors k !! f = Some m /\
      (f ∉ by_moving b -> mon_fd m = -1))) ->
  (forall f, f ∈ pending_removals ft -> f ∈ pending_removals ft') ->
  (forall f, f ∈ left_in ut -> f ∈ by_moving b \/ f ∈ left_in ut') ->
  (by_unsettled b' <> Some p -> (ht_main ut' = ∅ <-> ht_main ut = ∅)) ->
  kq_ok b' notes (set_kq_smons (<[p := x']> (kq_smons k)) k).
Proof.
  intros Htb Ed Ef Eu Em E1 E2 E5 E3 Eo Htf Htu Hnd Hrm Hl Hr1 Hr2 Hu.
  pose proof Htb as (Hp & Hpf & Hpu).
  assert (forall q, is_Some (kq_smons k !! q) -> is_Some (<[p := x']> (kq_smons k) !! q)) as Hdom
    by (intros q; apply insert_is_Some).
  split; simpl; rewrite ?E1, ?E2, ?E5; try apply H.
  - intros q y [[-> ->]|[_ Hq]]%upd_Some; [by apply (ko_smon _ _ _ H p x)|by apply (ko_smon _ _ _ H q y)].
  - intros q m Hq. pose proof (ko_kind _ _ _ H q m Hq). destruct (handle_kevent m); auto.
  - intros d path q Hq. destruct (ko_hash _ _ _ H d path q Hq) as (m & y & Hm & Hy & ? & ?).
    destruct (decide (q = p)) as [->|]; [|exists m, y; by rewrite lookup_insert_ne].
    exists m, x'. rewrite lookup_insert_eq. simplify_eq. by rewrite Ed.
  - intros q m y Hm [[-> ->]|[_ Hq]]%upd_Some Hd; [rewrite Ed|]; by apply (ko_hashed _ _ _ H).
  - intros q y [[-> ->]|[Hne Hq]]%upd_Some.
    + exists ft', ut'. unfold has_tables. simpl. by rewrite lookup_insert_eq.
    + destruct (ko_tables _ _ _ H q y Hq) as (ft0 & ut0 & (? & ? & ?) & ? & ?).
      destruct (Eo q Hne) as [-> ->]. exists ft0, ut0. unfold has_tables. simpl.
      by rewrite lookup_insert_ne.
  - intros q y ft0 ut0 name f [(-> & -> & Hf0 & Hu0)|[Hne Hq]]%tables_insert.
    + simplify_eq. rewrite Em. by apply (ko_entry _ _ _ H p x ft ut).
    + by apply (ko_entry _ _ _ H q y ft0 ut0).
  - intros f y Hf. destruct (ko_file _ _ _ H f y Hf) as (z & ft0 & ut0 & (Hz & Hz1 & Hz2) & Hn).
    destruct (decide (fm_smon y = p)) as [E|Hne].
    + rewrite E in *. exists x', ft', ut'. unfold has_tables. simpl. rewrite lookup_insert_eq.
      split; [done|]. rewrite Em. congruence.
    + exists z, ft0, ut0. unfold has_tables. simpl. by rewrite lookup_insert_ne.
  - intros q y ft0 ut0 [(-> & -> & Hf0 & Hu0)|[Hne Hq]]%tables_insert; [|by apply (ko_removals _ _ _ H q y ft0 ut0)].
    simplify_eq. rewrite Em. done.
  - intros q y ft0 ut0 f [(-> & -> & Hf0 & Hu0)|[Hne Hq]]%tables_insert; [|by apply (ko_unsupported _ _ _ H q y ft0 ut0)].
    simplify_eq. intros Hf. destruct (Hl f Hf) as [Hn [Hf'|(name & m & ? & ? & ?)]].
    + destruct (ko_unsupported _ _ _ H p x ft ut f Htb Hf') as (name & m & ? & ? & ? & ?).
      exists name, m. by rewrite Em.
    + exists name, m. by rewrite Em.
  - intros f m q y ft0 ut0 name [(-> & -> & Hf0 & Hu0)|[Hne Hq]]%tables_insert;
      [|by apply (ko_watched _ _ _ H f m q y ft0 ut0)].
    simplify_eq. rewrite Em. intros Hn Hm E Hb Hrf. destruct (Hr2 f) as [?|?]; [|done|done].
    apply (ko_watched _ _ _ H f m p x ft ut name); try done. intros Hr. by apply Hrf, Hr1.
  - intros i q Hq. apply Hdom. by apply (ko_polled _ _ _ H i).
  - intros q y ft0 ut0 m Hq [(-> & -> & Hf0 & Hu0)|[Hne Ht]]%tables_insert Hm;
      [|by apply (ko_missing _ _ _ H q y ft0 ut0)].
    simplify_eq. rewrite Em. by apply (ko_missing _ _ _ H p x ft ut).
  - intros q y ft0 ut0 [(-> & -> & Hf0 & Hu0)|[Hne Ht]]%tables_insert Hun.
    + simplify_eq. destruct E3 as [E3|[_ E3]]; [|by rewrite E3 in Hun]. rewrite (Hu Hun).
      apply (ko_polled_fmons _ _ _ H p x ft ut Htb). by rewrite <- E3.
    + apply (ko_polled_fmons _ _ _ H q y ft0 ut0 Ht). destruct E3 as [<-|[-> _]]; done.
  - intros q y m [[-> ->]|[Hne Hq]]%upd_Some; [by apply (ko_smon_watched _ _ _ H p x)|by apply (ko_smon_watched _ _ _ H q y)].
Qed.

(** A new file, under a name that is free. *)
Definition new_fmon_state (p : ptr) (x' : SubMonitor) (name path : string) : kqueue_state :=
  let f := kq_next k in
  set_kq_smons (<[p := x']> (kq_smons k))
    (set_kq_fmons (<[f := mk_fmon p name]> (kq_fmons k))
      (set_kq_next (Pos.succ f)
        (set_kq_monitors (<[f := mk_monitor FileMonitorKevent path (-1) mini_zero 0]> (kq_monitors k)) k))).

Lemma next_fresh : kq_monitors k !! kq_next k = None /\ kq_smons k !! kq_next k = None /\
  kq_fmons k !! kq_next k = None.
Proof.
  assert (kq_monitors k !! kq_next k = None) as Hm.
  { destruct (kq_monitors k !! kq_next k) as [m|] eqn:E; [|done].
    pose proof (ko_old _ _ _ H _ _ E). lia. }
  split; [done|]. split.
  - destruct (kq_smons k !! kq_next k) as [x|] eqn:E; [|done].
    destruct (ko_smon _ _ _ H _ _ E) as (m & ? & _). congruence.
  - destruct (kq_fmons k !! kq_next k) as [x|] eqn:E; [|done].
    destruct (ko_fmon _ _ _ H _ _ E) as (m & ? & _). congruence.
Qed.

Lemma entry_live p x ft ut name f :
  has_tables k p x ft ut -> ht_main ft !! name = Some f -> is_Some (kq_monitors k !! f).
Proof.
  intros Ht Hn. destruct (ko_fmon _ _ _ H f _ (ko_entry _ _ _ H _ _ _ _ _ _ Ht Hn)) as (m & Hm & _).
  by exists m.
Qed.

Lemma ok_new_fmon p x ft ut name path :
  has_tables k p x ft ut -> ht_main ft !! name = None -> p ∉ polled MissingSmon k -> no_slash name ->
  kq_ok (moving (kq_next k) b) notes
    (new_fmon_state p (set_sm_fmons (Some (set_ht_main (<[name := kq_next k]> (ht_main ft)) ft)) x) name path).
Proof.
  intros Htb Hname Hmis Hno. pose proof Htb as (Hp & Hpf & Hpu). destruct next_fresh as (Fm & Fs & Ff).
  set (f := kq_next k) in *. set (x' := set_sm_fmons _ x). unfold new_fmon_state. fold f.
  assert (f <> p) as Hfp by (intros <-; congruence).
  assert (forall q, is_Some (kq_smons k !! q) -> is_Some (<[p := x']> (kq_smons k) !! q)) as Hdom
    by (intros q; apply insert_is_Some).
  assert (forall q m, kq_monitors k !! q = Some m ->
    <[f := mk_monitor FileMonitorKevent path (-1) mini_zero 0]> (kq_monitors k) !! q = Some m) as Hmon
    by (intros q m Hq; rewrite lookup_insert_ne; [done|congruence]).
  split; simpl; try apply H.
  - intros q m [[-> ->]|[_ Hq]]%upd_Some; [lia|]. pose proof (ko_old _ _ _ H _ _ Hq). lia.
  - intros q y [[-> ->]|[_ Hq]]%upd_Some; [destruct (ko_smon _ _ _ H p x Hp) as (m & ? & ?)
      |destruct (ko_smon _ _ _ H q y Hq) as (m & ? & ?)]; exists m; auto.
  - intros q y [[-> ->]|[_ Hq]]%upd_Some; [eexists; by rewrite lookup_insert_eq|].
    destruct (ko_fmon _ _ _ H q y Hq) as (m & ? & ?); exists m; auto.
  - intros q m [[-> ->]|[_ Hq]]%upd_Some; [simpl; rewrite lookup_insert_eq; by eexists|].
    pose proof (ko_kind _ _ _ H q m Hq). destruct (handle_kevent m); auto. by apply insert_is_Some.
  - intros q m [[-> ->]|[_ Hq]]%upd_Some; [by left|]. by apply (ko_fd _ _ _ H).
  - intros fd o Ho. destruct (ko_notes _ _ _ H fd o Ho) as (? & q & m & ? & ? & ?). eauto 10.
  - intros d path' q Hq. destruct (ko_hash _ _ _ H d path' q Hq) as (m & y & Hm & Hy & ? & ?).
    destruct (decide (q = p)) as [->|]; [|exists m, y; split; [auto|]; by rewrite lookup_insert_ne].
    exists m, x'. rewrite lookup_insert_eq. simplify_eq. auto.
  - intros q m y [[-> ->]|[_ Hm]]%upd_Some [[E ->]|[_ Hq]]%upd_Some Hd; [done|congruence| |];
      [subst q; by apply (ko_hashed _ _ _ H p m x)|by apply (ko_hashed _ _ _ H q m y)].
  - intros q y [[-> ->]|[Hne Hq]]%upd_Some.
    + destruct (ko_tables _ _ _ H p x Hp) as (ft0 & ut0 & (? & ? & ?) & Hft & Hut). simplify_eq.
      do 2 eexists. unfold has_tables. simpl. by rewrite lookup_insert_eq.
    + destruct (ko_tables _ _ _ H q y Hq) as (ft0 & ut0 & (? & ? & ?) & ? & ?).
      exists ft0, ut0. unfold has_tables. simpl. by rewrite lookup_insert_ne.
  - intros q y ft0 ut0 name' g [(-> & -> & Hf0 & Hu0)|[Hne Hq]]%tables_insert.
    + simpl in Hf0. injection Hf0 as <-. simpl. rewrite lookup_insert_Some.
      intros [[<- <-]|[Hn Hg]]; [by rewrite lookup_insert_eq|].
      rewrite lookup_insert_ne; [by apply (ko_entry _ _ _ H p x ft ut)|].
      destruct (entry_live p x ft ut name' g Htb Hg) as [? ?]. congruence.
    + intros Hg. rewrite lookup_insert_ne; [by apply (ko_entry _ _ _ H q y ft0 ut0)|].
      destruct (entry_live q y ft0 ut0 name' g Hq Hg) as [? ?]. congruence.
  - intros g y [[-> ->]|[Hg Hy]]%upd_Some.
    + do 3 eexists. unfold has_tables. simpl. rewrite lookup_insert_eq. split; [done|]. simpl.
      by rewrite lookup_insert_eq.
    + destruct (ko_file _ _ _ H g y Hy) as (z & ft0 & ut0 & (Hz & Hz1 & Hz2) & Hn).
      destruct (decide (fm_smon y = p)) as [E|Hne].
      * rewrite E in *. simplify_eq. do 3 eexists. unfold has_tables. simpl. rewrite lookup_insert_eq.
        split; [done|]. simpl. rewrite lookup_insert_ne by congruence. done.
      * exists z, ft0, ut0. unfold has_tables. simpl. by rewrite lookup_insert_ne.
  - intros g y [[-> ->]|[_ Hy]]%upd_Some; [done|]. by apply (ko_name _ _ _ H g).
  - intros q y ft0 ut0 [(-> & -> & Hf0 & Hu0)|[Hne Hq]]%tables_insert; [|by apply (ko_removals _ _ _ H q y ft0 ut0)].
    simpl in Hf0. injection Hf0 as <-. simpl. destruct (ko_removals _ _ _ H p x ft ut Htb) as [Hnd Hr].
    split; [done|]. intros g Hg. destruct (Hr g Hg) as [n' Hn']. exists n'. rewrite lookup_insert_ne by congruence. done.
  - intros q y ft0 ut0 g [(-> & -> & Hf0 & Hu0)|[Hne Hq]]%tables_insert Hg.
    + simpl in Hf0, Hu0. injection Hf0 as <-. simplify_eq. simpl.
      destruct (ko_unsupported _ _ _ H p x ft ut g Htb Hg) as (n' & m & ? & ? & ? & ?).
      exists n', m. rewrite lookup_insert_ne by congruence. do 3 (split; [auto|]). set_solver.
    + destruct (ko_unsupported _ _ _ H q y ft0 ut0 g Hq Hg) as (n' & m & ? & ? & ? & ?).
      exists n', m. do 3 (split; [auto|]). set_solver.
  - intros g m q y ft0 ut0 n' [(-> & -> & Hf0 & Hu0)|[Hne Hq]]%tables_insert Hn' Hm E Hg Hr.
    + simpl in Hf0, Hu0. injection Hf0 as <-. simplify_eq. simpl in Hn', Hr.
      apply upd_Some in Hm as [[-> ->]|[_ Hm]]; [set_solver|].
      rewrite lookup_insert_Some in Hn'. destruct Hn' as [[_ <-]|[_ Hn']]; [congruence|].
      apply (ko_watched _ _ _ H g m p x ft ut n'); try done. set_solver.
    + apply upd_Some in Hm as [[-> ->]|[_ Hm]]; [set_solver|].
      apply (ko_watched _ _ _ H g m q y ft0 ut0 n'); try done. set_solver.
  - intros i q Hq. apply Hdom. by apply (ko_polled _ _ _ H i).
  - intros q y ft0 ut0 m Hq [(-> & -> & Hf0 & Hu0)|[Hne Ht]]%tables_insert Hm; [done|].
    apply upd_Some in Hm as [[-> ->]|[_ Hm]]; [destruct Ht as (? & _); congruence|].
    by apply (ko_missing _ _ _ H q y ft0 ut0).
  - intros q y ft0 ut0 [(-> & -> & Hf0 & Hu0)|[Hne Ht]]%tables_insert Hun.
    + simpl in Hu0. simplify_eq. by apply (ko_polled_fmons _ _ _ H p x ft ut).
    + by apply (ko_polled_fmons _ _ _ H q y ft0 ut0).
  - intros q y m [[-> ->]|[Hne Hq]]%upd_Some [[E ->]|[_ Hm]]%upd_Some Hmv E'; [congruence| |congruence|];
      [apply (ko_smon_watched _ _ _ H p x m)|apply (ko_smon_watched _ _ _ H q y m)]; try done; set_solver.
Qed.

(** [g_free] of a monitor. *)
Definition freed (p : ptr) (k : kqueue_state) : kqueue_state :=
  set_kq_monitors (delete p (kq_monitors k))
    (set_kq_smons (delete p (kq_smons k)) (set_kq_fmons (delete p (kq_fmons k)) k)).

(** A file leaves its table and is freed. *)
Lemma ok_drop_fmon p x ft ut name f m x' ft' :
  has_tables k p x ft ut -> ht_main ft !! name = Some f -> f ∉ left_in ut ->
  kq_monitors k !! f = Some m -> mon_fd m = -1 ->
  sm_isdir x' = sm_isdir x -> sm_fmons x' = Some ft' -> sm_unsupported x' = Some ut ->
  ht_main ft' = delete name (ht_main ft) -> table_ok (bool_decide (by_fmons b = Some p)) ft' ->
  NoDup (pending_removals ft') ->
  (forall g, g ∈ pending_removals ft' <-> g ∈ pending_removals ft /\ g <> f) ->
  kq_ok b notes (freed f (set_kq_smons (<[p := x']> (kq_smons k)) k)).
Proof.
  intros Htb Hname Hfl Hfm Efd Ed Ef Eu Em Hft Hnd Hpr. pose proof Htb as (Hp & Hpf & Hpu).
  pose proof (ko_entry _ _ _ H _ _ _ _ _ _ Htb Hname) as Hfy.
  destruct (ko_fmon _ _ _ H _ _ Hfy) as (m' & Hm' & Ek). assert (m' = m) as -> by congruence. clear Hm'.
  assert (f <> p) as Hfp by (intros ->; by apply (fmon_not_smon p x (mk_fmon p name))).
  assert (kq_smons k !! f = None) as Hfs.
  { destruct (kq_smons k !! f) as [z|] eqn:E; [|done]. destruct (fmon_not_smon f z (mk_fmon p name)); done. }
  assert (delete f (<[p := x']> (kq_smons k)) = <[p := x']> (kq_smons k)) as Es
    by (apply delete_id; by rewrite lookup_insert_ne).
  assert (forall q y ft0 ut0 n g, has_tables k q y ft0 ut0 -> ht_main ft0 !! n = Some g ->
    (q <> p \/ n <> name) -> g <> f) as Hother.
  { intros q y ft0 ut0 n g Hq Hn Hne ->. pose proof (ko_entry _ _ _ H _ _ _ _ _ _ Hq Hn). naive_solver. }
  unfold freed. simpl. rewrite Es.
  assert (forall q, is_Some (kq_smons k !! q) -> is_Some (<[p := x']> (kq_smons k) !! q)) as Hdom
    by (intros q; apply insert_is_Some).
  split; simpl; try apply H.
  - intros q z [Hne Hq]%lookup_delete_Some. by apply (ko_old _ _ _ H _ _ Hq).
  - intros q y Hq. assert (q <> f) by (intros ->; rewrite lookup_insert_ne in Hq; congruence).
    assert (exists z, kq_monitors k !! q = Some z /\ handle_kevent z = SubMonitorKevent) as (z & ? & ?).
    { apply upd_Some in Hq as [[-> _]|[_ Hq]]; [by apply (ko_smon _ _ _ H p x)|by apply (ko_smon _ _ _ H q y)]. }
    exists z. by rewrite lookup_delete_ne.
  - intros g y [Hne Hg]%lookup_delete_Some. destruct (ko_fmon _ _ _ H _ _ Hg) as (z & ? & ?).
    exists z. by rewrite lookup_delete_ne.
  - intros q z [Hne Hq]%lookup_delete_Some. pose proof (ko_kind _ _ _ H _ _ Hq).
    destruct (handle_kevent z); [by auto|by rewrite lookup_delete_ne].
  - intros q z [Hne Hq]%lookup_delete_Some. by apply (ko_fd _ _ _ H).
  - intros fd o Ho. destruct (ko_notes _ _ _ H fd o Ho) as (? & q & z & ? & Hq & ?). split; [done|].
    exists q, z. rewrite lookup_delete_ne; [done|]. intros <-. simplify_eq. lia.
  - intros d path q Hq. destruct (ko_hash _ _ _ H d path q Hq) as (z & y & Hz & Hy & ? & ?).
    assert (q <> f) by congruence. rewrite lookup_delete_ne by done.
    destruct (decide (q = p)) as [->|]; [|exists z, y; by rewrite lookup_insert_ne].
    exists z, x'. rewrite lookup_insert_eq. simplify_eq. by rewrite Ed.
  - intros q z y [Hne Hz]%lookup_delete_Some [[-> ->]|[_ Hq]]%upd_Some Hd;
      [rewrite Ed; by apply (ko_hashed _ _ _ H p z x)|by apply (ko_hashed _ _ _ H q z y)].
  - intros q y [[-> ->]|[Hne Hq]]%upd_Some.
    + destruct (ko_tables _ _ _ H p x Hp) as (ft0 & ut0 & (? & ? & ?) & _ & Hut). simplify_eq.
      exists ft', ut. unfold has_tables. simpl. by rewrite lookup_insert_eq.
    + destruct (ko_tables _ _ _ H q y Hq) as (ft0 & ut0 & (? & ? & ?) & ? & ?).
      exists ft0, ut0. unfold has_tables. simpl. by rewrite lookup_insert_ne.
  - intros q y ft0 ut0 n g [(-> & -> & Hf0 & Hu0)|[Hne Hq]]%tables_insert.
    + simplify_eq. rewrite Em, lookup_delete_Some. intros [Hn Hg].
      rewrite lookup_delete_ne; [by apply (ko_entry _ _ _ H p x ft ut)|]. apply not_eq_sym.
      apply (Hother p x ft ut n g); auto.
    + intros Hg. rewrite lookup_delete_ne; [by apply (ko_entry _ _ _ H q y ft0 ut0)|]. apply not_eq_sym.
      apply (Hother q y ft0 ut0 n g); auto.
  - intros g y [Hg Hy]%lookup_delete_Some.
    destruct (ko_file _ _ _ H g y Hy) as (z & ft0 & ut0 & (Hz & Hz1 & Hz2) & Hn).
    destruct (decide (fm_smon y = p)) as [E|Hne].
    + rewrite E in *. simplify_eq. exists x', ft', ut. unfold has_tables. simpl. rewrite lookup_insert_eq.
      split; [done|]. rewrite Em, lookup_delete_ne; [done|]. intros ->. congruence.
    + exists z, ft0, ut0. unfold has_tables. simpl. by rewrite lookup_insert_ne.
  - intros g y [_ Hy]%lookup_delete_Some. by apply (ko_name _ _ _ H g).
  - intros q y ft0 ut0 [(-> & -> & Hf0 & Hu0)|[Hne Hq]]%tables_insert; [|by apply (ko_removals _ _ _ H q y ft0 ut0)].
    simplify_eq. destruct (ko_removals _ _ _ H p x ft ut Htb) as [_ Hr]. split; [done|].
    intros g [Hg Hgf]%Hpr. destruct (Hr g Hg) as [n Hn]. exists n. rewrite Em, lookup_delete_ne; congruence.
  - intros q y ft0 ut0 g [(-> & -> & Hf0 & Hu0)|[Hne Hq]]%tables_insert Hg.
    + simplify_eq. destruct (ko_unsupported _ _ _ H p x ft ut g Htb Hg) as (n & z & Hn & Hnr & Hz & Hmv).
      assert (g <> f) by congruence. exists n, z. rewrite Em, Hpr.
      rewrite lookup_delete_ne by congruence. rewrite lookup_delete_ne by done. naive_solver.
    + destruct (ko_unsupported _ _ _ H q y ft0 ut0 g Hq Hg) as (n & z & Hn & Hnr & Hz & Hmv).
      exists n, z. rewrite lookup_delete_ne; [done|]. apply not_eq_sym. apply (Hother q y ft0 ut0 n g); auto.
  - intros g z q y ft0 ut0 n [(-> & -> & Hf0 & Hu0)|[Hne Hq]]%tables_insert Hn [Hgf Hm]%lookup_delete_Some E Hmv Hr.
    + simplify_eq. rewrite Em in Hn. apply lookup_delete_Some in Hn as [Hnn Hn].
      apply (ko_watched _ _ _ H g z p x ft ut n); try done. rewrite Hpr in Hr. naive_solver.
    + by apply (ko_watched _ _ _ H g z q y ft0 ut0 n).
  - intros i q Hq. apply Hdom. by apply (ko_polled _ _ _ H i).
  - intros q y ft0 ut0 z Hq [(-> & -> & Hf0 & Hu0)|[Hne Ht]]%tables_insert [_ Hm]%lookup_delete_Some;
      [|by apply (ko_missing _ _ _ H q y ft0 ut0)].
    simplify_eq. destruct (ko_missing _ _ _ H p x ft ut z Hq Htb Hm) as [? E]. by rewrite Em, E, delete_empty.
  - intros q y ft0 ut0 [(-> & -> & Hf0 & Hu0)|[Hne Ht]]%tables_insert Hun.
    + simplify_eq. by apply (ko_polled_fmons _ _ _ H p x ft ut).
    + by apply (ko_polled_fmons _ _ _ H q y ft0 ut0).
  - intros q y z [[-> ->]|[Hne Hq]]%upd_Some [Hqf Hm]%lookup_delete_Some Hmv E';
      [by apply (ko_smon_watched _ _ _ H p x z)|by apply (ko_smon_watched _ _ _ H q y z)].
Qed.

(** ** Monitors of subscribed paths *)

Lemma smon_hash_set d d' h : smon_hash d' (set_smon_hash d h k) = if bool_decide (d' = d) then h else smon_hash d' k.
Proof. by destruct d, d'. Qed.

(** A new monitor for the path of a subscription. *)
Definition new_smon_state (path : string) (d : bool) (l : list ptr) : kqueue_state :=
  let p := kq_next k in
  set_smon_hash d (<[path := p]> (smon_hash d k))
    (set_kq_smons (<[p := mk_smon l (Some (gam_kqueue_hash_table_new ∅))
                          (Some (gam_kqueue_hash_table_new ∅)) d]> (kq_smons k))
      (set_kq_next (Pos.succ p)
        (set_kq_monitors (<[p := mk_monitor SubMonitorKevent path (-1) mini_zero 0]> (kq_monitors k)) k))).

Lemma smon_live i p : p ∈ polled i k -> p <> kq_next k.
Proof.
  intros Hp ->. destruct next_fresh as (_ & Fs & _). destruct (ko_polled _ _ _ H i _ Hp). congruence.
Qed.

Lemma ok_new_smon path d l :
  smon_hash d k !! path = None -> by_fmons b <> Some (kq_next k) -> by_unsupported b <> Some (kq_next k) ->
  kq_ok (moving (kq_next k) b) notes (new_smon_state path d l).
Proof.
  intros Hh Hbf Hbu. destruct next_fresh as (Fm & Fs & Ff). unfold new_smon_state.
  set (p := kq_next k) in *. set (x := mk_smon l _ _ d). set (m := mk_monitor _ path _ _ _).
  set (k1 := set_kq_smons _ _).
  assert (forall h, kq_monitors (set_smon_hash d h k1) = <[p := m]> (kq_monitors k) /\
    kq_smons (set_smon_hash d h k1) = <[p := x]> (kq_smons k) /\
    kq_fmons (set_smon_hash d h k1) = kq_fmons k /\ kq_next (set_smon_hash d h k1) = Pos.succ p /\
    open_files (set_smon_hash d h k1) = open_files k /\ max_open_files (set_smon_hash d h k1) = max_open_files k /\
    kq_pollers (set_smon_hash d h k1) = kq_pollers k) as Hproj by by destruct d.
  set (k2 := set_smon_hash d _ k1). destruct (Hproj (<[path := p]> (smon_hash d k))) as (Em & Es & Ef & En & Eo & Emx & Epl).
  assert (forall d', smon_hash d' k2 = if bool_decide (d' = d) then <[path := p]> (smon_hash d k) else smon_hash d' k) as Eh
    by by destruct d, d'.
  fold k2 in Em, Es, Ef, En, Eo, Emx, Epl. clearbody k2. clear Hproj k1.
  assert (forall q y ft ut, has_tables k2 q y ft ut -> q = p /\ y = x /\ ft = gam_kqueue_hash_table_new ∅ /\
    ut = gam_kqueue_hash_table_new ∅ \/ q <> p /\ has_tables k q y ft ut) as Hinv.
  { intros q y ft ut (Hq & Hf & Hu). rewrite Es in Hq. apply upd_Some in Hq as [[-> ->]|[Hne Hq]]; [|by right].
    left. simpl in Hf, Hu. naive_solver. }
  assert (forall q y ft ut, has_tables k q y ft ut -> has_tables k2 q y ft ut) as Hfwd.
  { intros q y ft ut (Hq & ? & ?). split; [|done]. rewrite Es, lookup_insert_ne; [done|congruence]. }
  assert (forall q z, kq_monitors k !! q = Some z -> kq_monitors k2 !! q = Some z) as Hmon
    by (intros q z Hq; rewrite Em, lookup_insert_ne; [done|congruence]).
  assert (forall q y, kq_smons k !! q = Some y -> kq_smons k2 !! q = Some y) as Hsm
    by (intros q y Hq; rewrite Es, lookup_insert_ne; [done|congruence]).
  assert (forall i, polled i k2 = polled i k) as Epol by (intros i; unfold polled; by rewrite Epl).
  split; simpl; rewrite ?Ef, ?En, ?Eo, ?Emx; try rewrite Epl; try setoid_rewrite Epol; try apply H.
  - intros q z. rewrite Em. intros [[-> ->]|[_ Hq]]%upd_Some; [lia|]. pose proof (ko_old _ _ _ H _ _ Hq). lia.
  - intros q y. rewrite Es. intros [[-> ->]|[_ Hq]]%upd_Some; [exists m; by rewrite Em, lookup_insert_eq|].
    destruct (ko_smon _ _ _ H q y Hq) as (z & ? & ?). exists z. auto.
  - intros f y Hf. destruct (ko_fmon _ _ _ H f y Hf) as (z & ? & ?). exists z. auto.
  - intros q z. rewrite Em. intros [[-> ->]|[_ Hq]]%upd_Some; [simpl; rewrite Es, lookup_insert_eq; by eexists|].
    pose proof (ko_kind _ _ _ H q z Hq) as Hk. destruct (handle_kevent z); [|done]. destruct Hk as [y Hy].
    exists y. auto.
  - intros q z. rewrite Em. intros [[-> ->]|[_ Hq]]%upd_Some; [by left|]. by apply (ko_fd _ _ _ H).
  - intros fd o Ho. destruct (ko_notes _ _ _ H fd o Ho) as (? & q & z & ? & ? & ?). eauto 10.
  - intros d' path' q. rewrite Eh. case_bool_decide as Hd; [subst d'; rewrite lookup_insert_Some; intros [[<- <-]|[_ Hq]]|intros Hq].
    + exists m, x. by rewrite Em, Es, !lookup_insert_eq.
    + destruct (ko_hash _ _ _ H d path' q Hq) as (z & y & ? & ? & ? & ?). exists z, y. auto.
    + destruct (ko_hash _ _ _ H d' path' q Hq) as (z & y & ? & ? & ? & ?). exists z, y. auto.
  - intros q z y. rewrite Em, Es, Eh.
    intros [[-> ->]|[_ Hq]]%upd_Some [[E ->]|[_ Hy]]%upd_Some Hd; [|congruence..|].
    + simpl. rewrite bool_decide_eq_true_2 by done. by rewrite lookup_insert_eq.
    + pose proof (ko_hashed _ _ _ H q z y Hq Hy Hd) as Hhq. case_bool_decide as E; [|done]. rewrite E in Hhq.
      rewrite lookup_insert_ne; [done|congruence].
  - intros q y. rewrite Es. intros [[-> ->]|[Hne Hq]]%upd_Some.
    + do 2 eexists. split; [split; [by rewrite Es, lookup_insert_eq|done]|].
      by rewrite !bool_decide_eq_false_2 by done.
    + destruct (ko_tables _ _ _ H q y Hq) as (ft & ut & ? & ? & ?). exists ft, ut. auto.
  - intros q y ft ut name f [(-> & -> & -> & ->)|[_ Hq]]%Hinv; [done|]. by apply (ko_entry _ _ _ H q y ft ut).
  - intros f y Hf. destruct (ko_file _ _ _ H f y Hf) as (z & ft & ut & ? & ?). exists z, ft, ut. auto.
  - intros q y ft ut [(-> & -> & -> & ->)|[_ Hq]]%Hinv; [|by apply (ko_removals _ _ _ H q y ft ut)].
    split; [constructor|]. by intros f ?%elem_of_nil.
  - intros q y ft ut f [(-> & -> & -> & ->)|[_ Hq]]%Hinv Hf; [unfold left_in in Hf; set_solver|].
    destruct (ko_unsupported _ _ _ H q y ft ut f Hq Hf) as (n & z & ? & ? & ? & ?). exists n, z.
    do 3 (split; [auto|]). set_solver.
  - intros f z q y ft ut name [(-> & -> & -> & ->)|[_ Hq]]%Hinv Hn Hz E Hm Hr; [done|].
    rewrite Em in Hz. apply upd_Some in Hz as [[-> ->]|[_ Hz]]; [set_solver|].
    apply (ko_watched _ _ _ H f z q y ft ut name); try done. set_solver.
  - intros i q Hq. destruct (ko_polled _ _ _ H i q Hq) as [y Hy]. exists y. auto.
  - intros q y ft ut z Hq [(-> & -> & -> & ->)|[_ Ht]]%Hinv Hz; [by apply smon_live in Hq|].
    rewrite Em in Hz. apply upd_Some in Hz as [[-> ->]|[_ Hz]]; [by apply smon_live in Hq|].
    by apply (ko_missing _ _ _ H q y ft ut).
  - intros q y ft ut [(-> & -> & -> & ->)|[_ Ht]]%Hinv Hu; [|by apply (ko_polled_fmons _ _ _ H q y ft ut)].
    split; [|done]. intros Hq. by apply smon_live in Hq.
  - intros q y z Hy Hz Hm E. rewrite Es in Hy. rewrite Em in Hz. apply upd_Some in Hz as [[-> ->]|[Hne Hz]]; [set_solver|].
    apply upd_Some in Hy as [[-> ->]|[_ Hy]]; [done|]. apply (ko_smon_watched _ _ _ H q y z); try done. set_solver.
Qed.

(** The monitor of [p] is taken out of its hash table. *)
Lemma ok_unhash p x m :
  kq_smons k !! p = Some x -> kq_monitors k !! p = Some m -> by_dying b = None ->
  kq_ok (set_by_dying (Some p) b) notes
    (set_smon_hash (sm_isdir x) (delete (mon_pathname m) (smon_hash (sm_isdir x) k)) k).
Proof.
  intros Hx Hm Hd. set (d := sm_isdir x). set (h := delete _ _).
  assert (forall d', smon_hash d' (set_smon_hash d h k) = if bool_decide (d' = d) then h else smon_hash d' k) as Eh
    by by destruct d, d'.
  split; simpl; try by destruct d; apply H.
  - intros d' path q Hq. rewrite Eh in Hq.
    assert (smon_hash d' k !! path = Some q) as Hq'
      by (case_bool_decide as E; [rewrite E; by apply lookup_delete_Some in Hq as [_ Hq]|done]).
    destruct (ko_hash _ _ _ H d' path q Hq') as (z & y & ? & ? & ? & ?). exists z, y. by destruct d.
  - intros q z y Hz Hy Hq. rewrite Eh.
    assert (kq_monitors k !! q = Some z) as Hz' by by destruct d.
    assert (kq_smons k !! q = Some y) as Hy' by by destruct d.
    pose proof (ko_hashed _ _ _ H q z y Hz' Hy') as Hh. rewrite Hd in Hh. specialize (Hh ltac:(done)).
    case_bool_decide as E; [|done]. rewrite E in Hh. subst h. rewrite lookup_delete_ne; [done|].
    intros Ep. pose proof (ko_hashed _ _ _ H p m x Hm Hx) as Hp. rewrite Hd in Hp. specialize (Hp ltac:(done)).
    fold d in Hp. rewrite Ep in Hp. congruence.
Qed.

(** It is freed: nothing is left of it. *)
Lemma ok_free_smon p x ft ut m :
  has_tables k p x ft ut -> ht_main ft = ∅ -> kq_monitors k !! p = Some m -> mon_fd m = -1 ->
  by_dying b = Some p -> (forall i, p ∉ polled i k) -> (forall d path, smon_hash d k !! path <> Some p) ->
  kq_ok (set_by_dying None b) notes (freed p k).
Proof.
  intros Htb Eft Hm Efd Hd Hpol Hhash. pose proof Htb as (Hp & _ & _).
  assert (kq_fmons k !! p = None) as Hpf.
  { destruct (kq_fmons k !! p) as [y|] eqn:E; [|done]. destruct (fmon_not_smon p x y); done. }
  unfold freed. rewrite (delete_id (kq_fmons k)) by done. set (k' := set_kq_monitors _ _).
  assert (forall q y ft0 ut0, has_tables k' q y ft0 ut0 -> q <> p /\ has_tables k q y ft0 ut0) as Hinv.
  { intros q y ft0 ut0 (Hq & ? & ?). simpl in Hq. apply lookup_delete_Some in Hq as [? Hq]. done. }
  split; simpl; try apply H.
  - intros q z [Hne Hq]%lookup_delete_Some. by apply (ko_old _ _ _ H _ _ Hq).
  - intros q y [Hne Hq]%lookup_delete_Some. rewrite lookup_delete_ne by done. by apply (ko_smon _ _ _ H q y).
  - intros q y Hq. rewrite lookup_delete_ne by congruence. by apply (ko_fmon _ _ _ H q y).
  - intros q z [Hne Hq]%lookup_delete_Some. pose proof (ko_kind _ _ _ H _ _ Hq).
    destruct (handle_kevent z); [by rewrite lookup_delete_ne|done].
  - intros q z [Hne Hq]%lookup_delete_Some. by apply (ko_fd _ _ _ H).
  - intros fd o Ho. destruct (ko_notes _ _ _ H fd o Ho) as (? & q & z & ? & Hq & ?). split; [done|].
    exists q, z. rewrite lookup_delete_ne; [done|]. intros <-. simplify_eq. lia.
  - intros d path q Hq. destruct (ko_hash _ _ _ H d path q Hq) as (z & y & Hz & Hy & ? & ?).
    assert (q <> p) by (intros ->; by apply (Hhash d path)). exists z, y. by rewrite !lookup_delete_ne by done.
  - intros q z y [Hne Hz]%lookup_delete_Some [_ Hq]%lookup_delete_Some _. apply (ko_hashed _ _ _ H q z y); try done. rewrite Hd. congruence.
  - intros q y [Hne Hq]%lookup_delete_Some. destruct (ko_tables _ _ _ H q y Hq) as (ft0 & ut0 & (? & ? & ?) & ? & ?).
    exists ft0, ut0. unfold has_tables. simpl. by rewrite lookup_delete_ne.
  - intros q y ft0 ut0 name f [Hqp Hq]%Hinv. by apply (ko_entry _ _ _ H q y ft0 ut0).
  - intros f y Hf. destruct (ko_file _ _ _ H f y Hf) as (z & ft0 & ut0 & (? & ? & ?) & Hn).
    exists z, ft0, ut0. unfold has_tables. simpl. rewrite lookup_delete_ne; [done|]. intros E. rewrite <- E in *.
    destruct Htb as (_ & ? & _). simplify_eq. by rewrite Eft in Hn.
  - intros q y ft0 ut0 [Hqp Hq]%Hinv. by apply (ko_removals _ _ _ H q y ft0 ut0).
  - intros q y ft0 ut0 f [Hqp Hq]%Hinv Hf.
    destruct (ko_unsupported _ _ _ H q y ft0 ut0 f Hq Hf) as (n & z & Hn & ? & ? & ?). exists n, z.
    rewrite lookup_delete_ne; [done|]. intros <-.
    pose proof (ko_entry _ _ _ H q y ft0 ut0 n p Hq Hn). congruence.
  - intros f z q y ft0 ut0 name [Hqp Hq]%Hinv Hn [_ Hz]%lookup_delete_Some.
    by apply (ko_watched _ _ _ H f z q y ft0 ut0 name).
  - intros i q Hq. rewrite lookup_delete_ne; [by apply (ko_polled _ _ _ H i)|]. intros <-. by apply (Hpol i).
  - intros q y ft0 ut0 z Hq [Hqp Hy]%Hinv [_ Hz]%lookup_delete_Some.
    by apply (ko_missing _ _ _ H q y ft0 ut0).
  - intros q y ft0 ut0 [Hqp Hy]%Hinv. by apply (ko_polled_fmons _ _ _ H q y ft0 ut0).
  - intros q y z [_ Hy]%lookup_delete_Some [_ Hz]%lookup_delete_Some. by apply (ko_smon_watched _ _ _ H q y z).
Qed.
End Moves.
