(* ===== verification/KqueueSafety.v ===== *)
(** * Safety of the kqueue backend's building blocks

    The invariant of the daemon with this backend, what an operation on one
    [SubMonitor] leaves alone, and the code that works on single monitors and
    tables, executed: it completes without a fault and keeps the invariant. *)

From S2P Require Import Prelude Protocol EventQueue Monad OS Fs.
From S2P Require Import State Subscription Listener ConnSend Inv Emit.
From S2P Require Import Safety Server Frames.
From S2P Require Import KqueueState KqueueTables Kqueue KqueueInv.

Local Open Scope Z_scope.

#[local] Existing Instance kqueue_kernel.

(** Following the pointer of [H : map !! p = Some a]. *)
Ltac kq_load H := apply wp_bind; eapply wp_kload; [exact H|].

Section Safety.
Context {os : OS} {glib : GLib} {kq : Kqueue os} {kl : KqueueLaws kq} {laws : OSLaws os}.
Abbreviation M := (ST server).

(** ** The invariant *)

(** [q] is alive, for [path], and a directory's subscription or a file's. *)
Definition sub_for (q : ptr) (path : string) (d : bool) (s : server) : Prop :=
  sub_ok q path s /\ exists sb, subs (sv_heap s) !! q = Some sb /\ gam_subscription_is_dir (Some sb) = d.

(** The subscriptions of a monitor are alive, for its path and of its kind. *)
Definition subs_ok (k : kqueue_state) (s : server) : Prop := forall p m x q,
  kq_monitors k !! p = Some m -> kq_smons k !! p = Some x -> q ∈ sm_subs x ->
  sub_for q (mon_pathname m) (sm_isdir x) s.

Record kq_inv (b : busy) (s : server) : Prop := {
  ki_ok : kq_ok b (knotes (sv_world s)) (sv_kernel s);
  ki_ready : ready s;
  ki_subs : subs_ok (sv_kernel s) s
}.

(** ** What is left alone *)

(** Working on the monitor [p] and its files: the other monitors of subscribed
    paths, their tables and their pollers stay; no subscription changes. *)
Record kstep (p : ptr) (k k' : kqueue_state) : Prop := {
  ks_live q : is_Some (kq_smons k' !! q) <-> is_Some (kq_smons k !! q);
  ks_other q : q <> p -> is_Some (kq_smons k !! q) -> kq_smons k' !! q = kq_smons k !! q /\
    kq_monitors k' !! q = kq_monitors k !! q /\ forall i, q ∈ polled i k' <-> q ∈ polled i k;
  ks_self x m : kq_smons k !! p = Some x -> kq_monitors k !! p = Some m ->
    exists x' m', kq_smons k' !! p = Some x' /\ kq_monitors k' !! p = Some m' /\
      sm_subs x' = sm_subs x /\ sm_isdir x' = sm_isdir x /\ mon_pathname m' = mon_pathname m;
  ks_hash d : smon_hash d k' = smon_hash d k
}.

#[export] Instance kstep_preorder p : PreOrder (kstep p).
Proof.
  split.
  - intros k. split; try done. intros x m ? ?. by exists x, m.
  - intros k1 k2 k3 [L1 O1 S1 H1] [L2 O2 S2 H2]. split.
    + intros q. by rewrite L2.
    + intros q Hq Hl. destruct (O1 q Hq Hl) as (E1 & E2 & E3).
      destruct (O2 q Hq) as (F1 & F2 & F3); [by apply L1|]. split; [congruence|]. split; [congruence|].
      intros i. by rewrite F3.
    + intros x m Hx Hm. destruct (S1 x m Hx Hm) as (x' & m' & ? & ? & ? & ? & ?).
      destruct (S2 x' m') as (x'' & m'' & ? & ? & ? & ? & ?); [done..|]. exists x'', m''.
      repeat split; congruence.
    + intros d. by rewrite H2.
Qed.

(** On the daemon's side only connections and the world move. *)
Record step (p : ptr) (s s' : server) : Prop := {
  st_kernel : kstep p (sv_kernel s) (sv_kernel s');
  st_subs : subs (sv_heap s') = subs (sv_heap s);
  st_listeners : listeners (sv_heap s') = listeners (sv_heap s);
  st_ready c : conn_ready c s -> conn_ready c s'
}.

#[export] Instance step_preorder p : PreOrder (step p).
Proof.
  split.
  - intros s. by split.
  - intros s1 s2 s3 [A1 A2 A3 A4] [B1 B2 B3 B4]. split; [by transitivity (sv_kernel s2)|congruence..|auto].
Qed.

Lemma step_ready p s s' : step p s s' -> ready s -> ready s'.
Proof. intros [_ _ El Hc] Hr l ln. rewrite El. intros Hl. apply Hc. by apply (Hr l). Qed.

Lemma step_subs_ok p s s' :
  step p s s' ->
  (forall q x, kq_smons (sv_kernel s) !! q = Some x -> is_Some (kq_monitors (sv_kernel s) !! q)) ->
  subs_ok (sv_kernel s) s -> subs_ok (sv_kernel s') s'.
Proof.
  intros [[Hl Ho Hs _] Es El _] Hmon Hok q m x r Hm Hx Hr.
  assert (sub_for r (mon_pathname m) (sm_isdir x) s) as [Hr' (sb0 & Hsb0 & Hd0)].
  { destruct (decide (q = p)) as [->|Hne].
    - destruct (proj1 (Hl p)) as [x0 Hx0]; [by exists x|]. destruct (Hmon p x0 Hx0) as [m0 Hm0].
      destruct (Hs x0 m0 Hx0 Hm0) as (x' & m' & Hx' & Hm' & E1 & Ed & E2). simplify_eq.
      rewrite E2, Ed. apply (Hok p m0 x0); [done|done|]. by rewrite <- E1.
    - destruct (Ho q Hne) as (E1 & E2 & _); [apply Hl; by exists x|].
      apply (Hok q m x); congruence. }
  split; [|exists sb0; by rewrite Es].
  destruct Hr' as (sb & l & ? & ? & ? & ? & ?). exists sb, l. by rewrite Es, El.
Qed.

(** ** Executing the code

    [does b p m Q s]: [m] completes, works on [p] only, leaves the invariant
    with [b] going on, and establishes [Q]. *)
Definition does {A} (b : busy) (p : ptr) (m : M A) (Q : A -> server -> Prop) (s : server) : Prop :=
  wp m (fun a s' => kq_inv b s' /\ step p s s' /\ Q a s') s.

Lemma does_bind {A B} b b' p (m : M A) (f : A -> M B) Q Q' s :
  does b p m Q s ->
  (forall a s', kq_inv b s' -> step p s s' -> Q a s' -> does b' p (f a) Q' s') ->
  does b' p (m ≫= f) Q' s.
Proof.
  intros Hm Hf. apply wp_bind. eapply wp_mono; [exact Hm|].
  intros a s' (Hi & G & HQ). eapply wp_mono; [by apply Hf|].
  intros c s'' (Hi' & G' & HQ'). split; [done|]. split; [by transitivity s'|done].
Qed.

Lemma does_mono {A} b p (m : M A) (Q Q' : A -> server -> Prop) s :
  does b p m Q s -> (forall a s', kq_inv b s' -> step p s s' -> Q a s' -> Q' a s') -> does b p m Q' s.
Proof. intros H HQ. eapply wp_mono; [exact H|]. intros a s' (? & ? & ?). auto. Qed.

Lemma does_ret {A} b p (a : A) (Q : A -> server -> Prop) s : kq_inv b s -> Q a s -> does b p (mret a) Q s.
Proof. intros Hi HQ. by split; [|split]. Qed.

Lemma does_read {A} b p (m : M A) a s : kq_inv b s -> m s = Ok (a, s) -> does b p m (fun a' s' => a' = a /\ s' = s) s.
Proof. intros Hi E. unfold does, wp. by rewrite E. Qed.

Lemma does_gets {A} b p (f : kqueue_state -> A) s :
  kq_inv b s -> does b p (kq_gets f) (fun a s' => a = f (sv_kernel s) /\ s' = s) s.
Proof. intros Hi. by apply does_read. Qed.

Lemma does_kload {A} `{KqObj A} b p q a s :
  kq_inv b s -> kq_map (A := A) (sv_kernel s) !! q = Some a ->
  does b p (kload q) (fun x s' => x = a /\ s' = s) s.
Proof. intros Hi Hq. apply does_read; [done|]. unfold kload. by rewrite Hq. Qed.

Lemma does_when b p (c : bool) (m : M unit) (Q : unit -> server -> Prop) s :
  kq_inv b s -> (c = true -> does b p m Q s) -> (c = false -> Q tt s) -> does b p (when c m) Q s.
Proof. intros Hi H1 H2. destruct c; [by apply H1|apply does_ret; auto]. Qed.

(** A change of the backend's own state and of the world. *)
Lemma step_kernel p (s : server) k w : kstep p (sv_kernel s) k -> step p s (set_sv_world w (set_sv_kernel k s)).
Proof. by split. Qed.

Lemma kq_inv_step b b' p s s' :
  kq_inv b s -> step p s s' -> kq_ok b' (knotes (sv_world s')) (sv_kernel s') -> kq_inv b' s'.
Proof.
  intros [Hk Hr Hs] Hst Hk'. split; [done|by apply (step_ready p s)|]. apply (step_subs_ok p s); [done| |done].
  intros q x Hq. destruct (ko_smon _ _ _ Hk _ _ Hq) as (m & Hm & _). by exists m.
Qed.

Lemma kq_inv_kernel b b' p s k w :
  kq_inv b s -> kstep p (sv_kernel s) k -> kq_ok b' (knotes w) k ->
  kq_inv b' (set_sv_world w (set_sv_kernel k s)) /\ step p s (set_sv_world w (set_sv_kernel k s)).
Proof.
  intros Hi Hk Hok. pose proof (step_kernel p s k w Hk) as Hst. split; [|done]. by apply (kq_inv_step b b' p s).
Qed.

(** Calls that only look. *)
Definition looks {A} (m : M A) : Prop := forall s, exists a w,
  m s = Ok (a, set_sv_world w s) /\ knotes w = knotes (sv_world s).

Lemma does_look {A} b p (m : M A) s :
  looks m -> kq_inv b s -> does b p m (fun _ s' => sv_kernel s' = sv_kernel s) s.
Proof.
  intros Hm Hi. destruct (Hm s) as (a & w & E & Ew). unfold does, wp. rewrite E.
  destruct (kq_inv_kernel b b p s (sv_kernel s) w Hi) as [Hi' Hst]; [done| |by split; [|split]].
  rewrite Ew. apply Hi.
Qed.

Lemma looks_lstat path : looks (sys (lstat path)).
Proof.
  intros s. unfold sys. destruct (lstat path (sv_world s)) as [a w] eqn:E. exists a, w.
  by rewrite (lstat_knotes _ _ _ _ E).
Qed.

Lemma looks_dir path : looks (sys (dir_names path)).
Proof.
  intros s. unfold sys. destruct (dir_names path (sv_world s)) as [a w] eqn:E. exists a, w.
  by rewrite (dir_knotes _ _ _ _ E).
Qed.

Lemma looks_ret {A} (a : A) : looks (mret a).
Proof. intros s. exists a, (sv_world s). split; [|done]. by destruct s. Qed.

Lemma looks_bind {A B} (m : M A) (f : A -> M B) : looks m -> (forall a, looks (f a)) -> looks (m ≫= f).
Proof.
  intros Hm Hf s. destruct (Hm s) as (a & w & E & Ew). rewrite (bind_Ok _ _ _ _ _ E).
  destruct (Hf a (set_sv_world w s)) as (c & w' & E' & Ew'). exists c, w'. rewrite E'. split; [done|].
  rewrite Ew'. done.
Qed.

Lemma looks_isdir path flags : looks (gam_kqueue_isdir path flags).
Proof.
  unfold gam_kqueue_isdir. destruct (ztest _); [apply looks_ret|]. destruct (ztest _); [apply looks_ret|].
  apply looks_bind; [apply looks_lstat|]. intros. apply looks_ret.
Qed.

Lemma looks_mini path : looks (gam_kqueue_mini_lstat path).
Proof. apply looks_bind; [apply looks_lstat|]. intros. apply looks_ret. Qed.

(** Delivery does not touch descriptors of the backend. *)
Lemma keeps_knotes_write fd data : keeps (fun s : server => knotes (sv_world s)) (gam_client_conn_write fd data).
Proof.
  assert (forall fuel data, keeps (fun s : server => knotes (sv_world s)) (conn_write_loop fuel fd data)) as Hw.
  { clear data. induction fuel as [|fuel IH]; intros data; simpl; [by intros s|].
    apply preserves_bind; [exact _| |].
    - intros s. unfold sys. destruct (sys_write fd data (sv_world s)) as [r w] eqn:E. symmetry.
      by apply (write_knotes _ _ _ _ _ E).
    - intros a. preserve; apply IH. }
  unfold gam_client_conn_write. unfold keeps in *. preserve.
Qed.

Lemma keeps_knotes_emit path d event l force :
  keeps (fun s : server => knotes (sv_world s)) (gam_server_emit_event path d event l force).
Proof.
  unfold gam_server_emit_event, gam_server_emit_one_event, gam_listener_get_service, gam_queue_event,
    gam_send_event, send_packet.
  pose proof keeps_knotes_write as Hw. unfold keeps in *. preserve.
Qed.

Lemma does_emit b p path d event x m s :
  kq_inv b s -> kq_smons (sv_kernel s) !! p = Some x -> kq_monitors (sv_kernel s) !! p = Some m ->
  does b p (gam_server_emit_event path d event (sm_subs x) true) (fun _ s' => sv_kernel s' = sv_kernel s) s.
Proof.
  intros Hi Hx Hm. pose proof Hi as [Hok Hr Hs].
  eapply wp_mono; [apply (wp_preserves (fun s s' => knotes (sv_world s) = knotes (sv_world s')));
    [apply keeps_knotes_emit|apply wp_emit_event; [done|]]|].
  - intros q Hq. exists (mon_pathname m). by apply (proj1 (Hs p m x q Hm Hx Hq)).
  - intros [] s' [E Ew]. destruct E as (cs & w & -> & Hc & _). simpl in Ew.
    assert (step p s (set_sv_world w (upd_heap (set_conns cs) s))) as Hst by by split.
    split; [|split; [done|done]]. apply (kq_inv_step b b p s); [done|done|]. simpl. rewrite <- Ew. apply Hok.
Qed.

(** ** Monitors *)

(** [q]'s descriptor is now [fd]. *)
Definition with_fd (q : ptr) (m : Monitor) (fd o : Z) (k : kqueue_state) : kqueue_state :=
  set_open_files o (set_kq_monitors (<[q := set_mon_fd fd m]> (kq_monitors k)) k).

Lemma with_fd_same q m k : kq_monitors k !! q = Some m -> with_fd q m (mon_fd m) (open_files k) k = k.
Proof.
  intros Hq. unfold with_fd. assert (set_mon_fd (mon_fd m) m = m) as -> by by destruct m.
  rewrite insert_id by done. by destruct k.
Qed.

Lemma kstep_monitor p q m m' o k :
  kq_monitors k !! q = Some m -> mon_pathname m' = mon_pathname m -> q = p \/ kq_smons k !! q = None ->
  kstep p k (set_open_files o (set_kq_monitors (<[q := m']> (kq_monitors k)) k)).
Proof.
  intros Hq Ep Hqp. split; try done.
  - intros r Hr [x Hx]. split; [done|]. split; [|done]. simpl. rewrite lookup_insert_ne; [done|].
    intros <-. destruct Hqp; congruence.
  - intros x m0 Hx Hm. destruct (decide (q = p)) as [->|].
    + exists x, m'. simpl. rewrite lookup_insert_eq. repeat split; congruence.
    + exists x, m0. simpl. by rewrite lookup_insert_ne.
Qed.

Lemma does_monitor_core b p q (f : Monitor -> Monitor) m s :
  kq_inv b s -> kq_monitors (sv_kernel s) !! q = Some m -> q = p \/ kq_smons (sv_kernel s) !! q = None ->
  handle_kevent (f m) = handle_kevent m -> mon_pathname (f m) = mon_pathname m -> mon_fd (f m) = mon_fd m ->
  does b p (kupdate q f) (fun _ s' =>
    sv_kernel s' = set_kq_monitors (<[q := f m]> (kq_monitors (sv_kernel s))) (sv_kernel s)) s.
Proof.
  intros Hi Hq Hqp Eh Ep Ef. apply wp_kupdate with m; [exact Hq|].
  destruct (kq_inv_kernel b b p s (set_kq_monitors (<[q := f m]> (kq_monitors (sv_kernel s))) (sv_kernel s))
    (sv_world s) Hi) as [Hi' Hst].
  - assert (forall k0 : kqueue_state, k0 = set_open_files (open_files k0) k0) as E by by intros [].
    rewrite (E (set_kq_monitors _ _)). by apply (kstep_monitor _ _ m).
  - apply (ok_monitor_core _ _ _ (ki_ok _ _ Hi) _ m); done.
  - done.
Qed.

Lemma kernel_world k w (s : server) : set_sv_kernel k (set_sv_world w s) = set_sv_world w (set_sv_kernel k s).
Proof. done. Qed.

Lemma does_enable b p q m s :
  kq_inv b s -> kq_monitors (sv_kernel s) !! q = Some m -> mon_fd m = -1 -> q ∈ by_moving b ->
  q ∉ polled MissingSmon (sv_kernel s) -> q = p \/ kq_smons (sv_kernel s) !! q = None ->
  does b p (gam_kqueue_monitor_enable_kqueue q) (fun ok s' => exists fd o,
    sv_kernel s' = with_fd q m fd o (sv_kernel s) /\ (if ok : bool then 0 <= fd else fd = -1)) s.
Proof.
  intros Hi Hq Efd Hmv Hmis Hqp. pose proof (ki_ok _ _ Hi) as Hk. unfold gam_kqueue_monitor_enable_kqueue.
  assert (kstep p (sv_kernel s) (sv_kernel s)) as Hrefl by reflexivity.
  pose proof (with_fd_same q m (sv_kernel s) Hq) as Esame. rewrite Efd in Esame.
  assert (<[q := set_mon_fd (-1) m]> (kq_monitors (sv_kernel s)) = kq_monitors (sv_kernel s)) as Emon.
  { apply insert_id. rewrite Hq. f_equal. destruct m. simpl in Efd. by subst. }
  apply wp_bind, wp_kq_gets. destruct (Z.eqb_spec (open_files (sv_kernel s)) (max_open_files (sv_kernel s))) as [_|Hne].
  { apply does_ret; [done|]. exists (-1), (open_files (sv_kernel s)). by rewrite Esame. }
  apply wp_bind, wp_kload with m; [exact Hq|]. apply wp_bind, wp_sys. intros [fd|e] w Ho.
  2:{ pose proof (open_failed _ _ _ _ Ho) as En. apply wp_bind, wp_kupdate with m; [exact Hq|]. apply wp_ret.
      destruct (kq_inv_kernel b b p s (sv_kernel s) w Hi Hrefl) as [Hi' Hst]; [rewrite En; apply Hk|].
      assert (upd_kq (fun k => kq_put (<[q := set_mon_fd (-1) m]> (kq_map k)) k) (set_sv_world w s) =
        set_sv_world w (set_sv_kernel (sv_kernel s) s)) as ->.
      { unfold upd_kq. simpl. rewrite Emon. by destruct (sv_kernel s). }
      split; [done|]. split; [done|]. exists (-1), (open_files (sv_kernel s)). by rewrite Esame. }
  destruct (open_ok _ _ _ _ Ho) as (H0 & Hfresh & En).
  apply wp_bind, wp_kupdate with m; [exact Hq|]. apply wp_bind, wp_sys. intros [] w' Hc; simpl.
  - apply wp_bind, wp_kq_modify, wp_ret. pose proof (change_ok _ _ _ _ _ _ Hc) as En'. simpl in En'.
    rewrite En, insert_insert_eq in En'.
    destruct (kq_inv_kernel b b p s (with_fd q m fd (u32 (open_files (sv_kernel s) + 1)) (sv_kernel s)) w' Hi)
      as [Hi' Hst].
    + by apply (kstep_monitor _ _ m).
    + rewrite En'. by apply ok_enable.
    + split; [exact Hi'|]. split; [exact Hst|]. by exists fd, (u32 (open_files (sv_kernel s) + 1)).
  - pose proof (change_failed _ _ _ _ _ _ Hc) as En'. simpl in En'. rewrite En in En'.
    apply wp_bind, wp_kq_close. apply wp_bind. eapply wp_kupdate; [simpl; by rewrite lookup_insert_eq|].
    apply wp_ret. set (s' := upd_kq _ _).
    assert (s' = set_sv_world (close_fd fd w') (set_sv_kernel (sv_kernel s) s)) as ->.
    { subst s'. unfold upd_kq. simpl. rewrite insert_insert_eq.
      assert (set_mon_fd (-1) (set_mon_fd fd m) = set_mon_fd (-1) m) as -> by by destruct m.
      rewrite Emon. by destruct (sv_kernel s). }
    destruct (kq_inv_kernel b b p s (sv_kernel s) (close_fd fd w') Hi Hrefl) as [Hi' Hst].
    { rewrite close_knotes, En', delete_insert_id by done. apply Hk. }
    split; [exact Hi'|]. split; [exact Hst|]. exists (-1), (open_files (sv_kernel s)). by rewrite Esame.
Qed.

Lemma does_close b p q m s :
  kq_inv b s -> kq_monitors (sv_kernel s) !! q = Some m -> q ∈ by_moving b ->
  q = p \/ kq_smons (sv_kernel s) !! q = None ->
  does b p (monitor_close q) (fun _ s' => exists o, sv_kernel s' = with_fd q m (-1) o (sv_kernel s)) s.
Proof.
  intros Hi Hq Hmv Hqp. pose proof (ki_ok _ _ Hi) as Hk. unfold monitor_close.
  apply wp_bind, wp_kload with m; [exact Hq|]. apply does_when; [done|..]; intros E.
  - assert (0 <= mon_fd m) as H0 by lia. apply wp_bind, wp_kq_close, wp_bind, wp_kupdate with m; [exact Hq|].
    apply wp_kq_modify.
    destruct (kq_inv_kernel b b p s (with_fd q m (-1) (u32 (open_files (sv_kernel s) - 1)) (sv_kernel s))
      (close_fd (mon_fd m) (sv_world s)) Hi) as [Hi' Hst].
    + by apply (kstep_monitor _ _ m).
    + rewrite close_knotes. by apply ok_close.
    + split; [exact Hi'|]. split; [exact Hst|]. by exists (u32 (open_files (sv_kernel s) - 1)).
  - destruct (ko_fd _ _ _ Hk _ _ Hq) as [Efd|[? _]]; [|lia]. exists (open_files (sv_kernel s)).
    rewrite <- Efd. by rewrite with_fd_same.
Qed.

(** Falling back to polling. *)
Lemma does_set_unsupported b p q m s :
  kq_inv b s -> kq_monitors (sv_kernel s) !! q = Some m -> q ∈ by_moving b ->
  q = p \/ kq_smons (sv_kernel s) !! q = None ->
  does b p (gam_kqueue_monitor_set_unsupported q) (fun _ s' => exists m' o,
    sv_kernel s' = set_open_files o (set_kq_monitors (<[q := m']> (kq_monitors (sv_kernel s))) (sv_kernel s)) /\
    handle_kevent m' = handle_kevent m /\ mon_pathname m' = mon_pathname m /\ mon_fd m' = -1) s.
Proof.
  intros Hi Hq Hmv Hqp. unfold gam_kqueue_monitor_set_unsupported.
  eapply does_bind; [by apply (does_close b p q m)|]. intros [] s1 Hi1 _ [o E1].
  assert (kq_monitors (sv_kernel s1) !! q = Some (set_mon_fd (-1) m)) as Hq1
    by (rewrite E1; simpl; apply lookup_insert_eq).
  assert (q = p \/ kq_smons (sv_kernel s1) !! q = None) as Hqp1 by by rewrite E1.
  kq_load Hq1.
  eapply does_bind; [by apply does_look; [apply looks_mini|]|]. intros sb s2 Hi2 _ E2. rewrite <- E2 in Hq1, Hqp1.
  eapply does_mono; [by apply (does_monitor_core b p q _ (set_mon_fd (-1) m))|].
  intros [] s3 _ _ E3. exists (set_mon_sb sb (set_mon_fd (-1) m)), o.
  rewrite E3, E2, E1. split; [|done]. simpl. unfold with_fd. by rewrite insert_insert_eq.
Qed.

(** ** Pollers *)

Definition poller_plus (p : ptr) (pl : Poller) : Poller :=
  mk_poller (pl_interval pl) true (set_ht_main ({[p]} ∪ ht_main (pl_smons pl)) (pl_smons pl)).
Definition poller_minus (p : ptr) (pl : Poller) : Poller :=
  let t := pl_smons pl in
  if ht_iterating t then set_pl_smons (set_removals (p :: pending_removals t) t) pl
  else mk_poller (pl_interval pl)
         (if bool_decide (ht_main t ∖ {[p]} = ∅) then false else pl_timeout pl)
         (set_ht_main (ht_main t ∖ {[p]}) t).

Lemma poller_modify_eq i f s :
  poller_modify i f s = Ok (tt, set_sv_kernel (set_poller i (f (kq_pollers (sv_kernel s) i)) (sv_kernel s)) s).
Proof. done. Qed.

Lemma poller_add_eq i p s :
  ht_iterating (pl_smons (kq_pollers (sv_kernel s) i)) = false ->
  gam_kqueue_poller_add_sub_monitor i p s =
  Ok (tt, set_sv_kernel (set_poller i (poller_plus p (kq_pollers (sv_kernel s) i)) (sv_kernel s)) s).
Proof.
  intros Hit. unfold gam_kqueue_poller_add_sub_monitor, gam_kqueue_hash_table_add.
  rewrite (bind_Ok _ _ s (pl_smons (kq_pollers (sv_kernel s) i)) s) by done.
  cbn [tb_type poller_table]. rewrite Hit.
  erewrite bind_Ok by done. cbn [tb_post_add poller_table call_post].
  unfold gam_kqueue_poller_post_add_cb. erewrite bind_Ok by done. simpl. rewrite kq_pollers_set.
  rewrite decide_True by done. simpl. unfold poller_plus, upd_kq, set_pl_smons. destruct (pl_timeout _) eqn:Et; simpl; [done|].
  rewrite poller_modify_eq. simpl. rewrite kq_pollers_set, decide_True by done.
  by rewrite set_poller_twice.
Qed.

Lemma poller_remove_eq i p s :
  gam_kqueue_poller_remove_sub_monitor i p s =
  Ok (tt, set_sv_kernel (set_poller i (poller_minus p (kq_pollers (sv_kernel s) i)) (sv_kernel s)) s).
Proof.
  unfold gam_kqueue_poller_remove_sub_monitor, gam_kqueue_hash_table_remove, poller_minus.
  rewrite (bind_Ok _ _ s (pl_smons (kq_pollers (sv_kernel s) i)) s) by done.
  cbn [tb_type poller_table]. destruct (ht_iterating _) eqn:Hit; [done|].
  erewrite bind_Ok by done. cbn [tb_post_remove poller_table call_post].
  unfold gam_kqueue_poller_post_remove_cb. erewrite bind_Ok by done. simpl. rewrite kq_pollers_set.
  rewrite decide_True by done. simpl. case_bool_decide; simpl; [|done].
  unfold upd_kq, set_pl_smons. destruct (pl_timeout _) eqn:Et; simpl; [|done].
  rewrite poller_modify_eq. simpl. rewrite kq_pollers_set, decide_True by done.
  by rewrite set_poller_twice.
Qed.

Lemma left_plus p pl : table_ok false (pl_smons pl) -> left_in (pl_smons (poller_plus p pl)) = {[p]} ∪ left_in (pl_smons pl).
Proof. intros (_ & _ & Hr). unfold left_in. simpl. rewrite Hr by done. set_solver. Qed.

Lemma elem_plus_ne (p q : ptr) (X : gset ptr) : q <> p -> q ∈ {[p]} ∪ X <-> q ∈ X.
Proof. rewrite elem_of_union, elem_of_singleton. tauto. Qed.

Lemma elem_minus_ne (p q : ptr) (X : gset ptr) : q <> p -> q ∈ X ∖ {[p]} <-> q ∈ X.
Proof. rewrite elem_of_difference, elem_of_singleton. tauto. Qed.

(** A table without [f]. *)
Definition table_minus (f : ptr) (t : HashTable (gset ptr)) : HashTable (gset ptr) :=
  if ht_iterating t then set_removals (f :: pending_removals t) t else set_ht_main (ht_main t ∖ {[f]}) t.

Lemma left_table_minus f t : left_in (table_minus f t) = left_in t ∖ {[f]}.
Proof. unfold table_minus, left_in. destruct (ht_iterating t); simpl; set_solver. Qed.

Lemma table_minus_ok b f t : table_ok b t -> table_ok b (table_minus f t).
Proof. intros (E & Ha & Hr). unfold table_minus. rewrite E. destruct b; (split; [done|]); (split; [done|]); [done|exact Hr]. Qed.

Lemma left_minus p pl : left_in (pl_smons (poller_minus p pl)) = left_in (pl_smons pl) ∖ {[p]}.
Proof. unfold poller_minus, left_in. destruct (ht_iterating _); simpl; set_solver. Qed.

Lemma plus_ok p pl :
  table_ok false (pl_smons pl) ->
  table_ok false (pl_smons (poller_plus p pl)) /\
  pl_timeout (poller_plus p pl) = negb (bool_decide (ht_main (pl_smons (poller_plus p pl)) = ∅)).
Proof.
  intros Ht. split; [exact Ht|]. simpl. rewrite bool_decide_eq_false_2 by set_solver. done.
Qed.

Lemma minus_ok p b pl :
  table_ok b (pl_smons pl) -> pl_timeout pl = negb (bool_decide (ht_main (pl_smons pl) = ∅)) ->
  table_ok b (pl_smons (poller_minus p pl)) /\
  pl_timeout (poller_minus p pl) = negb (bool_decide (ht_main (pl_smons (poller_minus p pl)) = ∅)).
Proof.
  intros (Hit & Ha & Hr) Ht. unfold poller_minus. rewrite Hit. destruct b; simpl; [by split|].
  split; [split; [exact Hit|by split; [|apply Hr]]|]. rewrite Ht. clear Ht.
  destruct (decide (ht_main (pl_smons pl) ∖ {[p]} = ∅)) as [E|E].
  - by rewrite !(bool_decide_eq_true_2 _ E).
  - rewrite (bool_decide_eq_false_2 _ E). by rewrite bool_decide_eq_false_2 by set_solver.
Qed.

Lemma kstep_poller p i P k :
  (forall q, q <> p -> q ∈ left_in (pl_smons P) <-> q ∈ polled i k) -> kstep p k (set_poller i P k).
Proof.
  intros HP. split; try done.
  - intros q Hq Hl. split; [done|]. split; [done|]. intros j. rewrite polled_set.
    destruct (decide (j = i)) as [->|]; [by apply HP|done].
  - intros x m ? ?. by exists x, m.
Qed.

(** [p] goes to the poller [i] of monitors. *)
Lemma does_poller_add b p i x ft ut m s :
  kq_inv b s -> by_poller b <> Some i -> i <> UnsupportedFmon -> has_tables (sv_kernel s) p x ft ut ->
  kq_monitors (sv_kernel s) !! p = Some m -> (i = MissingSmon -> mon_fd m = -1 /\ ht_main ft = ∅) ->
  (i = MissingSmon -> p ∉ polled UnsupportedSmon (sv_kernel s)) ->
  (i = UnsupportedSmon -> p ∉ polled MissingSmon (sv_kernel s)) ->
  does b p (gam_kqueue_poller_add_sub_monitor i p) (fun _ s' => exists P,
    sv_kernel s' = set_poller i P (sv_kernel s) /\ p ∈ left_in (pl_smons P)) s.
Proof.
  intros Hi Hb Hiu Htb Hm Hmis Ha1 Ha2. pose proof (ki_ok _ _ Hi) as Hk.
  pose proof (ko_poller _ _ _ Hk i) as Ht. rewrite bool_decide_eq_false_2 in Ht by done.
  unfold does, wp. rewrite poller_add_eq by apply Ht.
  set (pl := kq_pollers (sv_kernel s) i) in *. pose proof (left_plus p pl Ht) as El.
  destruct (plus_ok p pl Ht) as [Ht' Htm].
  destruct (kq_inv_kernel b b p s (set_poller i (poller_plus p pl) (sv_kernel s)) (sv_world s) Hi) as [Hi' Hst].
  - apply kstep_poller. intros q Hq. rewrite El. unfold polled. fold pl. set_solver.
  - destruct Htb as (Hx & Hf & Hu). apply (ok_set_poller b); try done.
    + intros q Hq. by left.
    + by rewrite bool_decide_eq_false_2.
    + intros q. rewrite El. intros [->%elem_of_singleton|Hq]%elem_of_union; [by exists x|].
      by apply (ko_polled _ _ _ Hk i).
    + intros Ei q y ft0 ut0 m0. rewrite El. intros [->%elem_of_singleton|Hq]%elem_of_union Hn (Hy & ? & ?) Hm0;
        [|by destruct Hn]. simplify_eq. by apply Hmis.
    + intros q. rewrite El. intros [->%elem_of_singleton|Hq]%elem_of_union Hn; [done|by destruct Hn].
    + intros _ q Hq _. rewrite El. by apply elem_of_union_r.
  - split; [exact Hi'|]. split; [exact Hst|]. exists (poller_plus p pl). split; [done|]. rewrite El. set_solver.
Qed.

Lemma does_poller_remove b p i s :
  kq_inv b s -> i <> UnsupportedFmon -> p ∈ by_moving b ->
  does b p (gam_kqueue_poller_remove_sub_monitor i p) (fun _ s' => exists P,
    sv_kernel s' = set_poller i P (sv_kernel s) /\ left_in (pl_smons P) = polled i (sv_kernel s) ∖ {[p]}) s.
Proof.
  intros Hi Hiu Hp. pose proof (ki_ok _ _ Hi) as Hk.
  pose proof (ko_poller _ _ _ Hk i) as Ht. unfold does, wp. rewrite poller_remove_eq.
  set (pl := kq_pollers (sv_kernel s) i) in *. pose proof (left_minus p pl) as El.
  destruct (minus_ok p _ pl Ht (ko_timer _ _ _ Hk i)) as [Ht' Htm].
  destruct (kq_inv_kernel b b p s (set_poller i (poller_minus p pl) (sv_kernel s)) (sv_world s) Hi) as [Hi' Hst].
  - apply kstep_poller. intros q Hq. rewrite El. unfold polled. fold pl. set_solver.
  - apply (ok_set_poller b); try done.
    + intros q Hq. by left.
    + intros q. rewrite El. intros [Hq _]%elem_of_difference. by apply (ko_polled _ _ _ Hk i).
    + intros Ei q y ft0 ut0 m0. rewrite El. intros [Hq _]%elem_of_difference Hn. by destruct Hn.
    + intros q. rewrite El. intros [Hq _]%elem_of_difference Hn. by destruct Hn.
    + intros _ q Hq Hm. rewrite El. apply elem_of_difference. split; [done|]. set_solver.
  - split; [exact Hi'|]. split; [exact Hst|]. exists (poller_minus p pl). split; [done|]. by rewrite El.
Qed.

(** ** Files to be polled *)

Lemma kstep_smon p x x' k :
  kq_smons k !! p = Some x -> sm_subs x' = sm_subs x -> sm_isdir x' = sm_isdir x ->
  kstep p k (set_kq_smons (<[p := x']> (kq_smons k)) k).
Proof.
  intros Hp Es Ed. split; try done.
  - intros q. simpl. split; [|apply insert_is_Some]. apply insert_is_Some_inv. by exists x.
  - intros q Hq _. split; [|done]. simpl. by rewrite lookup_insert_ne.
  - intros y m Hy Hm. exists x', m. simpl. rewrite lookup_insert_eq. simplify_eq. done.
Qed.

(** [p]'s table of polled files is now [t], and the poller [P]. *)
Definition with_unsupported (p : ptr) (x : SubMonitor) (t : HashTable (gset ptr)) (P : Poller)
  (k : kqueue_state) : kqueue_state :=
  set_poller UnsupportedFmon P (set_kq_smons (<[p := set_sm_unsupported (Some t) x]> (kq_smons k)) k).

Lemma load_unsupported_eq p x ft ut s :
  has_tables (sv_kernel s) p x ft ut -> load_unsupported p s = Ok (ut, s).
Proof.
  intros (Hx & _ & Hu). unfold load_unsupported. rewrite (bind_Ok _ _ s x s) by (unfold kload; simpl; by rewrite Hx).
  by rewrite Hu.
Qed.

Lemma load_fmons_eq p x ft ut s :
  has_tables (sv_kernel s) p x ft ut -> load_fmons p s = Ok (ft, s).
Proof.
  intros (Hx & Hf & _). unfold load_fmons. rewrite (bind_Ok _ _ s x s) by (unfold kload; simpl; by rewrite Hx).
  by rewrite Hf.
Qed.

Lemma modify_unsupported_eq p x ft ut f s :
  has_tables (sv_kernel s) p x ft ut -> modify_unsupported p f s =
  Ok (tt, set_sv_kernel (set_kq_smons (<[p := set_sm_unsupported (Some (f ut)) x]> (kq_smons (sv_kernel s))) (sv_kernel s)) s).
Proof.
  intros Ht. unfold modify_unsupported. erewrite bind_Ok by by eapply load_unsupported_eq.
  destruct Ht as (Hx & _). unfold kupdate. simpl. by rewrite Hx.
Qed.

Lemma modify_fmons_eq p x ft ut f s :
  has_tables (sv_kernel s) p x ft ut -> modify_fmons p f s =
  Ok (tt, set_sv_kernel (set_kq_smons (<[p := set_sm_fmons (Some (f ft)) x]> (kq_smons (sv_kernel s))) (sv_kernel s)) s).
Proof.
  intros Ht. unfold modify_fmons. erewrite bind_Ok by by eapply load_fmons_eq.
  destruct Ht as (Hx & _). unfold kupdate. simpl. by rewrite Hx.
Qed.

Lemma does_unsupported_add b p f name x ft ut m s :
  kq_inv b s -> by_unsupported b <> Some p -> by_poller b <> Some UnsupportedFmon ->
  by_unsettled b = None -> has_tables (sv_kernel s) p x ft ut -> ht_main ft !! name = Some f ->
  f ∉ pending_removals ft -> kq_monitors (sv_kernel s) !! f = Some m -> mon_fd m = -1 ->
  does b p (gam_kqueue_hash_table_add (unsupported_table p) f) (fun _ s' => exists ut' P,
    sv_kernel s' = with_unsupported p x ut' P (sv_kernel s) /\ left_in ut' = {[f]} ∪ left_in ut) s.
Proof.
  intros Hi Hbu Hbp Hbs Htb Hn Hr Hm Efd. pose proof (ki_ok _ _ Hi) as Hk. pose proof Htb as (Hx & Hf & Hu).
  destruct (ko_tables _ _ _ Hk p x Hx) as (ft0 & ut0 & (? & ? & ?) & Hft & Hut). simplify_eq.
  rewrite bool_decide_eq_false_2 in Hut by done.
  pose proof (ko_poller _ _ _ Hk UnsupportedFmon) as Hpl. rewrite bool_decide_eq_false_2 in Hpl by done.
  set (ut' := set_ht_main ({[f]} ∪ ht_main ut) ut). set (pl := kq_pollers (sv_kernel s) UnsupportedFmon) in *.
  assert (left_in ut' = {[f]} ∪ left_in ut) as El.
  { unfold left_in. simpl. destruct Hut as (_ & _ & ->); [set_solver|done]. }
  set (k1 := set_kq_smons (<[p := set_sm_unsupported (Some ut') x]> (kq_smons (sv_kernel s))) (sv_kernel s)).
  assert (kq_ok (set_by_unsettled (Some p) b) (knotes (sv_world s)) k1) as Hk1.
  { apply (ok_tables b _ _ Hk _ p x ft ut _ ft ut'); try done.
    - by right.
    - by rewrite bool_decide_eq_false_2.
    - by apply (ko_removals _ _ _ Hk p x ft ut).
    - by apply (ko_removals _ _ _ Hk p x ft ut).
    - intros g. rewrite El. intros [->%elem_of_singleton|Hg]%elem_of_union; [split; [done|]; right; eauto 10|].
      destruct (ko_unsupported _ _ _ Hk p x ft ut g Htb Hg) as (n & z & ? & ? & ?). split; [done|by left].
    - intros g Hg. right. rewrite El. by apply elem_of_union_r. }
  assert (kq_ok b (knotes (sv_world s)) (with_unsupported p x ut' (poller_plus p pl) (sv_kernel s))) as Hk2.
  { destruct (plus_ok p pl Hpl) as [Ht' Htm]. apply (ok_set_poller _ _ _ Hk1); try done.
    - intros q _. by right.
    - by rewrite bool_decide_eq_false_2.
    - intros q. rewrite (left_plus p pl Hpl). simpl.
      intros [->%elem_of_singleton|Hq]%elem_of_union; [by rewrite lookup_insert_eq|].
      apply insert_is_Some. by apply (ko_polled _ _ _ Hk UnsupportedFmon).
    - intros _ q y ft0 ut0 Hq _. rewrite (left_plus p pl Hpl).
      apply tables_insert in Hq as [(-> & -> & _ & Eu)|[Hne Hq]].
      + assert (ut0 = ut') as -> by by apply (inj Some). rewrite elem_of_union, elem_of_singleton.
        split; [|by left]. intros _. change (ht_main ut') with ({[f]} ∪ ht_main ut).
        apply (non_empty_inhabited_L f). by apply elem_of_union_l, elem_of_singleton.
      + rewrite <- (ko_polled_fmons _ _ _ Hk q y ft0 ut0 Hq) by congruence. by apply elem_plus_ne. }
  unfold does, wp, gam_kqueue_hash_table_add.
  rewrite (bind_Ok _ _ s ut s) by by apply (load_unsupported_eq p x ft ut).
  cbn [tb_type unsupported_table]. rewrite (proj1 Hut).
  erewrite bind_Ok by by apply (modify_unsupported_eq p x ft ut).
  cbn [tb_post_add unsupported_table call_post]. fold ut' k1.
  unfold gam_kqueue_sub_monitor_post_add_unsupported_fmon_cb. rewrite poller_add_eq by apply Hpl.
  destruct (kq_inv_kernel b b p s (with_unsupported p x ut' (poller_plus p pl) (sv_kernel s)) (sv_world s) Hi)
    as [Hi' Hst]; [|done|].
  - transitivity k1; [by apply (kstep_smon p x)|]. apply kstep_poller. intros q Hq.
    rewrite (left_plus p pl Hpl). by apply elem_plus_ne.
  - split; [exact Hi'|]. split; [exact Hst|]. by exists ut', (poller_plus p pl).
Qed.

Lemma does_unsupported_remove b p f x ft ut s :
  kq_inv b s -> by_unsettled b = None -> f ∈ by_moving b -> has_tables (sv_kernel s) p x ft ut ->
  does b p (gam_kqueue_hash_table_remove (unsupported_table p) f) (fun _ s' => exists ut' P,
    sv_kernel s' = with_unsupported p x ut' P (sv_kernel s) /\ left_in ut' = left_in ut ∖ {[f]}) s.
Proof.
  intros Hi Hbs Hmv Htb. pose proof (ki_ok _ _ Hi) as Hk. pose proof Htb as (Hx & Hf & Hu).
  destruct (ko_tables _ _ _ Hk p x Hx) as (ft0 & ut0 & (? & ? & ?) & Hft & Hut). simplify_eq.
  set (pl := kq_pollers (sv_kernel s) UnsupportedFmon).
  set (it := bool_decide (by_unsupported b = Some p)) in *.
  set (ut' := table_minus f ut).
  assert (left_in ut' = left_in ut ∖ {[f]}) as El by apply left_table_minus.
  assert (table_ok it ut') as Hut' by by apply table_minus_ok.
  assert (ut' = if it then set_removals (f :: pending_removals ut) ut else set_ht_main (ht_main ut ∖ {[f]}) ut) as Eut
    by (unfold ut', table_minus; by rewrite (proj1 Hut)).
  set (k1 := set_kq_smons (<[p := set_sm_unsupported (Some ut') x]> (kq_smons (sv_kernel s))) (sv_kernel s)).
  assert (forall b', by_poller b' = by_poller b -> by_unsupported b' = by_unsupported b ->
    by_fmons b' = by_fmons b -> by_moving b' = by_moving b -> by_dying b' = by_dying b ->
    (by_unsettled b' = None \/ by_unsettled b' = Some p) ->
    (by_unsettled b' <> Some p -> ht_main ut' = ∅ <-> ht_main ut = ∅) ->
    kq_ok b' (knotes (sv_world s)) k1) as Hk1.
  { intros b' E1 E2 E3 E4 E5 E6 He. apply (ok_tables b _ _ Hk _ p x ft ut _ ft ut'); try done.
    - rewrite Hbs. tauto.
    - intros q _. by rewrite E2, E3.
    - by rewrite E3.
    - by rewrite E2.
    - by apply (ko_removals _ _ _ Hk p x ft ut).
    - by apply (ko_removals _ _ _ Hk p x ft ut).
    - intros g. rewrite El. intros [Hg _]%elem_of_difference.
      destruct (ko_unsupported _ _ _ Hk p x ft ut g Htb Hg) as (n & z & ? & ? & ?). split; [done|by left].
    - intros g Hg. rewrite El. destruct (decide (g = f)) as [->|]; [by left|]. right. apply elem_of_difference. split; [done|]. by rewrite elem_of_singleton. }
  assert (kstep p (sv_kernel s) k1) as Hst1 by by apply (kstep_smon p x).
  assert (forall P, pl = P -> k1 = with_unsupported p x ut' P (sv_kernel s)) as Esame.
  { intros P <-. unfold with_unsupported. fold k1. symmetry. apply (set_poller_same UnsupportedFmon k1). }
  unfold does, wp, gam_kqueue_hash_table_remove.
  rewrite (bind_Ok _ _ s ut s) by by apply (load_unsupported_eq p x ft ut).
  cbn [tb_type unsupported_table]. rewrite (proj1 Hut). destruct it eqn:Eit.
  - cbn [tb_modify unsupported_table]. rewrite (modify_unsupported_eq p x ft ut), <- Eut by done. fold k1.
    destruct (kq_inv_kernel b b p s k1 (sv_world s) Hi Hst1) as [Hi' Hst]; [apply Hk1; auto; by rewrite Eut|].
    split; [exact Hi'|]. split; [exact Hst|]. exists ut', pl. split; [by apply Esame|done].
  - erewrite bind_Ok by by apply (modify_unsupported_eq p x ft ut).
    cbn [tb_post_remove unsupported_table call_post]. cbv beta. rewrite <- Eut. fold k1.
    unfold gam_kqueue_sub_monitor_post_remove_unsupported_fmon_cb.
    assert (has_tables k1 p (set_sm_unsupported (Some ut') x) ft ut') as Htb1
      by (split; [apply lookup_insert_eq|done]).
    set (s1 := set_sv_kernel (kern := kqueue_kernel) k1 s).
    rewrite (bind_Ok _ _ s1 ut' s1) by exact (load_unsupported_eq _ _ _ _ s1 Htb1). subst s1.
    destruct (decide (ht_main ut' = ∅)) as [E|E].
    + rewrite (bool_decide_eq_true_2 _ E). simpl. rewrite poller_remove_eq.
      change (kq_pollers (sv_kernel (set_sv_kernel (kern := kqueue_kernel) k1 s)) UnsupportedFmon) with pl.
      destruct (minus_ok p _ pl (ko_poller _ _ _ Hk UnsupportedFmon) (ko_timer _ _ _ Hk UnsupportedFmon)) as [Ht' Htm].
      destruct (kq_inv_kernel b b p s (with_unsupported p x ut' (poller_minus p pl) (sv_kernel s)) (sv_world s) Hi)
        as [Hi' Hst].
      * transitivity k1; [done|]. apply kstep_poller. intros q Hq. rewrite left_minus.
        by apply elem_minus_ne.
      * apply (ok_set_poller (set_by_unsettled (Some p) b) _ k1); try done; [by apply Hk1; auto|..].
        -- intros q _. by right.
        -- intros q. rewrite left_minus. intros [Hq _]%elem_of_difference.
           apply insert_is_Some. by apply (ko_polled _ _ _ Hk UnsupportedFmon).
        -- intros _ q y ft0 ut0 Hq _. rewrite left_minus.
           apply tables_insert in Hq as [(-> & -> & _ & Eu)|[Hne Hq]].
           ++ assert (ut0 = ut') as -> by by apply (inj Some). rewrite elem_of_difference, elem_of_singleton, E. tauto.
           ++ rewrite <- (ko_polled_fmons _ _ _ Hk q y ft0 ut0 Hq) by congruence. by apply elem_minus_ne.
      * split; [exact Hi'|]. split; [exact Hst|]. by exists ut', (poller_minus p pl).
    + rewrite (bool_decide_eq_false_2 _ E). simpl.
      destruct (kq_inv_kernel b b p s k1 (sv_world s) Hi Hst1) as [Hi' Hst].
      { apply Hk1; auto. intros _. split; [done|]. intros E'. destruct E. rewrite Eut. simpl. rewrite E'. clear. set_solver. }
      split; [exact Hi'|]. split; [exact Hst|]. exists ut', pl. split; [by apply Esame|done].
Qed.
End Safety.
