(* ===== verification/KqueueFiles.v ===== *)
(** * Safety of the kqueue backend: the files of a directory

    A [FileMonitor] is created, falls back to polling, reports an event, leaves
    its directory's table: whatever happens to it, the invariant holds again
    afterwards, and the other files are not affected. *)

From S2P Require Import Prelude Protocol EventQueue Monad OS Fs.
From S2P Require Import State Subscription Listener ConnSend Inv Emit.
From S2P Require Import Safety Server KqueueState KqueueTables Kqueue.
From S2P Require Import KqueueInv KqueueSafety.

Local Open Scope Z_scope.

#[local] Existing Instance kqueue_kernel.

Section Files.
Context {os : OS} {glib : GLib} {kq : Kqueue os} {kl : KqueueLaws kq} {laws : OSLaws os}.
Abbreviation M := (ST server).

(** ** Busy contexts *)

Lemma ok_by_moving b Mv (s : server) : by_moving b ⊆ Mv -> kq_inv b s -> kq_inv (set_by_moving Mv b) s.
Proof. intros HM [Hk Hr Hs]. split; [by apply ok_moving|done|done]. Qed.

Lemma moving_inv p b s : kq_inv b s -> kq_inv (moving p b) s.
Proof. apply ok_by_moving. set_solver. Qed.

Lemma set_by_moving_id b : set_by_moving (by_moving b) b = b.
Proof. by destruct b. Qed.

(** [p] is where it must be again. *)
Lemma settled_inv p b s :
  kq_inv (moving p b) s -> settled_smon (sv_kernel s) p -> settled_fmon (sv_kernel s) p -> kq_inv b s.
Proof.
  intros [Hk Hr Hs] H1 H2. split; [|done|done].
  pose proof (ok_settled _ _ _ Hk (by_moving b)) as Hok. rewrite <- (set_by_moving_id b).
  apply Hok. intros q Hq Hn. assert (q = p) as -> by (simpl in Hq; set_solver). done.
Qed.

(** ** Leaving the table *)

Definition drop_fmon_state (p : ptr) (x : SubMonitor) (ft : HashTable (gmap string ptr)) (name : string)
  (f : ptr) (o : Z) (k : kqueue_state) : kqueue_state :=
  freed f (set_open_files o
    (set_kq_smons (<[p := set_sm_fmons (Some (set_ht_main (delete name (ht_main ft)) ft)) x]> (kq_smons k)) k)).

Lemma kstep_freed p f k y : kq_fmons k !! f = Some y -> kq_smons k !! f = None -> is_Some (kq_smons k !! p) ->
  kstep p k (freed f k).
Proof.
  intros Hf Hs [z Hz]. split.
  - intros q. simpl. destruct (decide (q = f)) as [->|]; [|by rewrite lookup_delete_ne].
    by rewrite lookup_delete_eq, Hs.
  - intros q Hq [x Hx]. assert (q <> f) by congruence. simpl. by rewrite !lookup_delete_ne by done.
  - intros x m Hx Hm. assert (p <> f) by congruence. exists x, m. simpl. by rewrite !lookup_delete_ne by done.
  - done.
Qed.

(** The file is freed with its descriptor. *)
Lemma wp_free_fmon f m (Q : unit -> server -> Prop) s :
  kq_monitors (sv_kernel s) !! f = Some m ->
  (mon_fd m < 0 -> Q tt (set_sv_kernel (freed f (sv_kernel s)) s)) ->
  (0 <= mon_fd m -> Q tt (set_sv_world (close_fd (mon_fd m) (sv_world s)) (set_sv_kernel
      (freed f (set_open_files (u32 (open_files (sv_kernel s) - 1)) (sv_kernel s))) s))) ->
  wp (gam_kqueue_monitor_free f) Q s.
Proof.
  intros Hm H1 H2. unfold gam_kqueue_monitor_free. kq_load Hm. apply wp_bind, wp_when; intros E.
  - apply wp_bind, wp_kq_close, wp_kq_modify. unfold kfree, wp. simpl. rewrite Hm. apply H2. lia.
  - unfold kfree, wp. rewrite Hm. apply H1. lia.
Qed.

Section Drop.
Context (b : busy) (p : ptr) (x : SubMonitor) (ft : HashTable (gmap string ptr)) (ut : HashTable (gset ptr)).
Context (name : string) (f : ptr) (s : server).
Context (Hi : kq_inv b s) (Htb : has_tables (sv_kernel s) p x ft ut) (Hn : ht_main ft !! name = Some f).

Let Hk := ki_ok _ _ Hi.
Let k := sv_kernel s.

Lemma drop_facts : kq_fmons k !! f = Some (mk_fmon p name) /\ kq_smons k !! f = None /\ f <> p /\
  table_ok (bool_decide (by_fmons b = Some p)) ft.
Proof.
  pose proof (ko_entry _ _ _ Hk p x ft ut name f Htb Hn) as Hf.
  assert (kq_smons k !! f = None) as Hs.
  { destruct (kq_smons k !! f) as [z|] eqn:E; [|done]. by destruct (fmon_not_smon _ _ _ Hk f z (mk_fmon p name)). }
  split; [done|]. split; [done|]. destruct Htb as (Hx & Hf1 & Hu1). split; [intros ->; subst k; congruence|].
  destruct (ko_tables _ _ _ Hk p x Hx) as (ft0 & ut0 & (? & ? & ?) & Hft & _). by simplify_eq.
Qed.

Context (m : Monitor) (Hm : kq_monitors (sv_kernel s) !! f = Some m).
Context (Hmv : f ∈ by_moving b) (Hl : f ∉ left_in ut).

(** Whatever bookkeeping the table [ft'] that stays has, the rest holds. *)
Lemma drop_ok x' ft' (w : world) o :
  sm_isdir x' = sm_isdir x -> sm_fmons x' = Some ft' -> sm_unsupported x' = Some ut ->
  ht_main ft' = delete name (ht_main ft) -> table_ok (bool_decide (by_fmons b = Some p)) ft' ->
  NoDup (pending_removals ft') ->
  (forall g, g ∈ pending_removals ft' <-> g ∈ pending_removals ft /\ g <> f) ->
  (if mon_fd m <? 0 then o = open_files k /\ knotes w = knotes (sv_world s)
   else o = u32 (open_files k - 1) /\ knotes w = delete (mon_fd m) (knotes (sv_world s))) ->
  kq_ok b (knotes w) (freed f (set_open_files o (set_kq_smons (<[p := x']> (kq_smons k)) k))).
Proof.
  intros Ed Ef Eu Em Ht Hnd Hpr Hw.
  destruct (Z.ltb_spec (mon_fd m) 0) as [Hfd|Hfd]; destruct Hw as [-> ->].
  - destruct (ko_fd _ _ _ Hk _ _ Hm) as [Efd|[? _]]; [|lia].
    pose proof (ok_drop_fmon _ _ _ Hk p x ft ut name f m x' ft' Htb Hn Hl Hm Efd Ed Ef Eu Em Ht Hnd Hpr) as Hok.
    exact Hok.
  - pose proof (ok_close _ _ _ Hk f m Hm Hfd Hmv) as Hc.
    pose proof (ok_drop_fmon _ _ _ Hc p x ft ut name f (set_mon_fd (-1) m) x' ft' Htb Hn Hl
      (lookup_insert_eq _ _ _) eq_refl Ed Ef Eu Em Ht Hnd Hpr) as Hok.
    unfold freed in *. simpl in *. rewrite delete_insert_eq in Hok. exact Hok.
Qed.

Lemma does_fmons_remove :
  by_fmons b <> Some p ->
  does b p (gam_kqueue_hash_table_remove (fmons_table p) f) (fun _ s' => exists o,
    sv_kernel s' = drop_fmon_state p x ft name f o k) s.
Proof.
  intros Hbf. destruct drop_facts as (Hf & Hs & Hfp & Ht). rewrite bool_decide_eq_false_2 in Ht by done.
  pose proof Htb as (Hx & Hf1 & Hu1). set (ft' := set_ht_main (delete name (ht_main ft)) ft).
  set (x' := set_sm_fmons (Some ft') x). set (k1 := set_kq_smons (<[p := x']> (kq_smons k)) k).
  set (s1 := set_sv_kernel (kern := kqueue_kernel) k1 s).
  assert (forall o w, (if mon_fd m <? 0 then o = open_files k /\ knotes w = knotes (sv_world s)
      else o = u32 (open_files k - 1) /\ knotes w = delete (mon_fd m) (knotes (sv_world s))) ->
    let s' := set_sv_world w (set_sv_kernel (kern := kqueue_kernel) (drop_fmon_state p x ft name f o k) s) in
    kq_inv b s' /\ step p s s' /\ exists o', sv_kernel s' = drop_fmon_state p x ft name f o' k) as Hfin.
  { intros o w Hw. destruct (kq_inv_kernel b b p s (drop_fmon_state p x ft name f o k) w Hi) as [Hi' Hst].
    - transitivity (set_open_files o k1).
      + transitivity k1; [by apply (kstep_smon p x)|]. by split; try done; intros y z ? ?; exists y, z.
      + apply (kstep_freed p f _ (mk_fmon p name)); simpl; [done|by rewrite lookup_insert_ne|by rewrite lookup_insert_eq].
    - apply (drop_ok x' ft'); try done; [by rewrite bool_decide_eq_false_2| |].
      + by apply (ko_removals _ _ _ Hk p x ft ut).
      + intros g. simpl. destruct Ht as (_ & _ & ->); [|done]. set_solver.
    - split; [exact Hi'|]. split; [exact Hst|]. by exists o. }
  unfold gam_kqueue_hash_table_remove.
  apply wp_bind. unfold wp at 1. cbn [tb_load fmons_table]. rewrite (load_fmons_eq p x ft ut s Htb).
  cbn [tb_type fmons_table]. rewrite (proj1 Ht). apply wp_bind. cbn [tb_remove fmons_table].
  unfold gam_kqueue_sub_monitor_remove_fmon_cb. kq_load Hf. cbn [fm_filename].
  apply wp_bind. unfold wp at 1. rewrite (load_fmons_eq p x ft ut s Htb).
  apply wp_bind. unfold wp at 1. rewrite (modify_fmons_eq p x ft ut _ s Htb). cbv beta. fold ft' x' k1 s1.
  rewrite Hn. unfold destroy_value, gam_kqueue_file_monitor_free.
  apply (wp_free_fmon f m); [done|..]; intros Hfd; cbn [tb_post_remove fmons_table call_post]; apply wp_ret.
  - apply (Hfin (open_files k) (sv_world s)). by rewrite (proj2 (Z.ltb_lt _ _) Hfd).
  - apply (Hfin (u32 (open_files k - 1)) (close_fd (mon_fd m) (sv_world s))).
    rewrite (proj2 (Z.ltb_ge _ _) Hfd). by rewrite close_knotes.
Qed.

(** While the table is iterated over, the file only goes on the list. *)
Lemma does_fmons_defer :
  by_fmons b = Some p -> f ∉ pending_removals ft ->
  does b p (gam_kqueue_hash_table_remove (fmons_table p) f) (fun _ s' =>
    sv_kernel s' = set_kq_smons
      (<[p := set_sm_fmons (Some (set_removals (f :: pending_removals ft) ft)) x]> (kq_smons k)) k) s.
Proof.
  intros Hbf Hr. destruct drop_facts as (Hf & Hs & Hfp & Ht). rewrite bool_decide_eq_true_2 in Ht by done.
  pose proof Htb as (Hx & Hf1 & Hu1). set (ft' := set_removals (f :: pending_removals ft) ft).
  destruct (ko_tables _ _ _ Hk p x Hx) as (ft0 & ut0 & (? & ? & ?) & _ & Hut). simplify_eq.
  destruct (ko_removals _ _ _ Hk p x ft ut Htb) as [Hnd Hin].
  unfold gam_kqueue_hash_table_remove. apply wp_bind. unfold wp at 1. cbn [tb_load fmons_table].
  rewrite (load_fmons_eq p x ft ut s Htb). cbn [tb_type fmons_table]. rewrite (proj1 Ht).
  cbn [tb_modify fmons_table]. unfold wp. rewrite (modify_fmons_eq p x ft ut _ s Htb). cbv beta. fold ft'.
  destruct (kq_inv_kernel b b p s (set_kq_smons (<[p := set_sm_fmons (Some ft') x]> (kq_smons k)) k) (sv_world s) Hi)
    as [Hi' Hst]; [by apply (kstep_smon p x)| |by split].
  apply (ok_tables b _ _ Hk b p x ft ut _ ft' ut); try done.
  - by left.
  - rewrite bool_decide_eq_true_2 by done. destruct Ht as (? & ? & _). by split.
  - simpl. by constructor.
  - intros g. simpl. intros [->|Hg]%elem_of_cons; [by exists name|by apply Hin].
  - intros g Hg. destruct (ko_unsupported _ _ _ Hk p x ft ut g Htb Hg) as (n & z & ? & Hgr & ?).
    split; [|by left]. simpl. intros [->|?]%elem_of_cons; done.
  - intros g Hg. simpl. by right.
  - intros g Hg. by right.
Qed.
End Drop.

(** ** Creation *)

(** The table of [p] with [f] under [name]. *)
Definition with_entry (name : string) (f : ptr) (ft : HashTable (gmap string ptr)) : HashTable (gmap string ptr) :=
  set_ht_main (<[name := f]> (ht_main ft)) ft.

Lemma wp_create p path x ft ut (Q : ptr -> server -> Prop) s :
  has_tables (sv_kernel s) p x ft ut -> ht_iterating ft = false ->
  let k := sv_kernel s in let f := kq_next k in let name := filename_of path in
  wp (destroy_value (ht_main ft !! name)) (fun _ s' => Q f s')
    (set_sv_kernel (new_fmon_state k p (set_sm_fmons (Some (with_entry name f ft)) x) name path) s) ->
  wp (file_monitor_create p path) Q s.
Proof.
  intros Htb Hit k f name H. pose proof Htb as (Hx & Hf & Hu). unfold file_monitor_create.
  apply wp_bind. unfold alloc_monitor, wp at 1. apply wp_bind, wp_kq_modify.
  set (s1 := upd_kq _ _). assert (has_tables (sv_kernel s1) p x ft ut) as Htb1 by done.
  assert (kq_fmons (sv_kernel s1) !! f = Some (mk_fmon p name)) as Hf1 by apply lookup_insert_eq.
  unfold gam_kqueue_hash_table_add. apply wp_bind, wp_bind. unfold wp at 1. cbn [tb_load fmons_table].
  rewrite (load_fmons_eq p x ft ut s1 Htb1). cbn [tb_type fmons_table]. rewrite Hit.
  apply wp_bind. cbn [tb_add fmons_table]. unfold gam_kqueue_sub_monitor_add_fmon_cb. kq_load Hf1.
  cbn [fm_filename]. apply wp_bind. unfold wp at 1. rewrite (load_fmons_eq p x ft ut s1 Htb1).
  apply wp_bind. unfold wp at 1. rewrite (modify_fmons_eq p x ft ut _ s1 Htb1).
  cbn [tb_post_add fmons_table call_post]. exact H.
Qed.

Lemma kstep_new_fmon p x ft name f path k b notes :
  kq_ok b notes k -> kq_smons k !! p = Some x -> f = kq_next k ->
  kstep p k (new_fmon_state k p (set_sm_fmons (Some (with_entry name f ft)) x) name path).
Proof.
  intros Hk Hx ->. destruct (next_fresh _ _ _ Hk) as (Fm & _ & _). split; try done.
  - intros q. simpl. split; [apply insert_is_Some_inv; by exists x|apply insert_is_Some].
  - intros q Hq [y Hy]. simpl. rewrite lookup_insert_ne by done. split; [done|]. split; [|done].
    rewrite lookup_insert_ne; [done|]. destruct (ko_smon _ _ _ Hk _ _ Hy) as (z & ? & _). congruence.
  - intros y z Hy Hz. simpl. rewrite lookup_insert_eq, lookup_insert_ne by congruence.
    exists (set_sm_fmons (Some (with_entry name (kq_next k) ft)) x), z. simplify_eq. done.
Qed.

Section Create.
Context (b : busy) (p : ptr) (path : string) (x : SubMonitor).
Context (ft : HashTable (gmap string ptr)) (ut : HashTable (gset ptr)) (s : server).
Context (Hi : kq_inv b s) (Htb : has_tables (sv_kernel s) p x ft ut).
Context (Hbf : by_fmons b <> Some p) (Hmis : p ∉ polled MissingSmon (sv_kernel s)).

Let Hk := ki_ok _ _ Hi.
Let k := sv_kernel s.
Let name := filename_of path.
Let f := kq_next k.

Lemma create_iterating : ht_iterating ft = false.
Proof.
  destruct Htb as (Hx & Hf & Hu). destruct (ko_tables _ _ _ Hk p x Hx) as (ft0 & ut0 & (? & ? & ?) & (E & _) & _).
  simplify_eq. rewrite E. by apply bool_decide_eq_false_2.
Qed.

(** What is known of a new file. *)
Definition created (k0 : kqueue_state) (f : ptr) (s' : server) : Prop := exists x' ft',
  has_tables (sv_kernel s') p x' ft' ut /\ ht_main ft' = <[name := f]> (ht_main ft) /\
  pending_removals ft' = pending_removals ft /\ kq_fmons (sv_kernel s') !! f = Some (mk_fmon p name) /\
  (exists m, kq_monitors (sv_kernel s') !! f = Some m /\ mon_fd m = -1) /\
  f ∉ left_in ut /\ f ∉ pending_removals ft /\ (forall i, polled i (sv_kernel s') = polled i k) /\
  (forall old, ht_main ft !! name = Some old -> kq_fmons (sv_kernel s') !! old = None) /\
  kq_monitors (sv_kernel s') !! p = kq_monitors k !! p.

Lemma self_not_fresh : p <> f.
Proof.
  destruct (next_fresh _ _ _ Hk) as (_ & Fs & _). destruct Htb as (Hx & _). intros E.
  rewrite E in Hx. by pose proof (eq_trans (eq_sym Hx) Fs).
Qed.

Lemma fresh_file : f ∉ left_in ut /\ f ∉ pending_removals ft.
Proof.
  destruct (next_fresh _ _ _ Hk) as (Fm & _ & _). split; intros Hf.
  - destruct (ko_unsupported _ _ _ Hk p x ft ut f Htb Hf) as (n & m & _ & _ & Hm & _).
    by pose proof (eq_trans (eq_sym Hm) Fm).
  - destruct (proj2 (ko_removals _ _ _ Hk p x ft ut Htb) f Hf) as [n Hn].
    destruct (entry_live _ _ _ Hk p x ft ut n f Htb Hn) as [m Hm]. by pose proof (eq_trans (eq_sym Hm) Fm).
Qed.

Lemma does_create_new :
  ht_main ft !! name = None ->
  does (moving f b) p (file_monitor_create p path) (fun g s' => g = f /\ created k f s') s.
Proof.
  intros Hn. apply (wp_create p path x ft ut); [done|apply create_iterating|]. fold k f name. rewrite Hn.
  apply wp_ret. pose proof Htb as (Hx & Hf & Hu).
  set (k' := new_fmon_state _ _ _ _ _).
  destruct (kq_inv_kernel b (moving f b) p s k' (sv_world s) Hi) as [Hi' Hst].
  - by apply (kstep_new_fmon p x ft name f path k b (knotes (sv_world s))).
  - apply (ok_new_fmon _ _ _ Hk p x ft ut name path); try done. apply filename_of_no.
  - split; [exact Hi'|]. split; [exact Hst|]. split; [done|].
    exists (set_sm_fmons (Some (with_entry name f ft)) x), (with_entry name f ft).
    split; [split; [apply lookup_insert_eq|done]|]. split; [done|]. split; [done|].
    split; [apply lookup_insert_eq|]. destruct fresh_file.
    split; [eexists; split; [apply lookup_insert_eq|done]|]. do 3 (split; [done|]). split; [congruence|].
    simpl. by rewrite lookup_insert_ne by (apply not_eq_sym, self_not_fresh).
Qed.

(** The name was taken: the old monitor is freed. *)
Lemma replace_state old o :
  ht_main ft !! name = Some old -> old <> p -> old <> f -> kq_smons k !! old = None ->
  freed old (set_open_files o (new_fmon_state k p (set_sm_fmons (Some (with_entry name f ft)) x) name path)) =
  let k0 := drop_fmon_state p x ft name old o k in
  let ft0 := set_ht_main (delete name (ht_main ft)) ft in
  new_fmon_state k0 p (set_sm_fmons (Some (with_entry name f ft0)) (set_sm_fmons (Some ft0) x)) name path.
Proof.
  intros Hn Hop Hof Hs. unfold new_fmon_state, drop_fmon_state, freed. simpl.
  rewrite !delete_insert_ne by done. fold f.
  rewrite (delete_id (kq_smons k)) by done. rewrite insert_insert_eq.
  unfold with_entry, set_ht_main, set_sm_fmons. simpl. by rewrite insert_delete_eq.
Qed.

Lemma does_create_again old m :
  ht_main ft !! name = Some old -> old ∈ by_moving b -> old ∉ left_in ut ->
  kq_monitors k !! old = Some m ->
  does (moving f b) p (file_monitor_create p path) (fun g s' => g = f /\ created k f s') s.
Proof.
  intros Hn Hmv Hl Hm. apply (wp_create p path x ft ut); [done|apply create_iterating|]. fold k f name. rewrite Hn.
  destruct (drop_facts b p x ft ut name old s Hi Htb Hn) as (Hf & Hs & Hop & Ht).
  destruct (next_fresh _ _ _ Hk) as (Fm & _ & _). assert (old <> f) as Hof by (intros E; rewrite E in Hm; by pose proof (eq_trans (eq_sym Hm) Fm)).
  pose proof Htb as (Hx & Hf1 & Hu1).
  assert (forall o w, (if mon_fd m <? 0 then o = open_files k /\ knotes w = knotes (sv_world s)
      else o = u32 (open_files k - 1) /\ knotes w = delete (mon_fd m) (knotes (sv_world s))) ->
    let s' := set_sv_world w (set_sv_kernel (kern := kqueue_kernel) (freed old (set_open_files o
       (new_fmon_state k p (set_sm_fmons (Some (with_entry name f ft)) x) name path))) s) in
    kq_inv (moving f b) s' /\ step p s s' /\ f = f /\ created k f s') as Hfin.
  { intros o w Hw. rewrite replace_state by done. simpl.
    set (k0 := drop_fmon_state p x ft name old o k). set (ft0 := set_ht_main (delete name (ht_main ft)) ft).
    set (x0 := set_sm_fmons (Some ft0) x).
    assert (kq_ok b (knotes w) k0) as Hk0.
    { apply (drop_ok b p x ft ut name old s Hi Htb Hn m Hm Hmv Hl x0 ft0); try done.
      - by apply (ko_removals _ _ _ Hk p x ft ut).
      - intros g. simpl. destruct Ht as (_ & _ & ->); [|by rewrite bool_decide_eq_false_2]. set_solver. }
    assert (kq_smons k0 !! p = Some x0) as Hx0.
    { simpl. rewrite delete_insert_ne by done. apply lookup_insert_eq. }
    assert (has_tables k0 p x0 ft0 ut) as Htb0 by done.
    set (k' := new_fmon_state _ _ _ _ _).
    destruct (kq_inv_kernel b (moving f b) p s k' w Hi) as [Hi' Hst].
    - transitivity k0; [|by apply (kstep_new_fmon p x0 ft0 name f path k0 b (knotes w))].
      set (k1 := set_kq_smons (<[p := x0]> (kq_smons k)) k). transitivity (set_open_files o k1).
      + transitivity k1; [by apply (kstep_smon p x)|]. by split; try done; intros y z ? ?; exists y, z.
      + apply (kstep_freed p old _ (mk_fmon p name)); simpl; [done|by rewrite lookup_insert_ne|by rewrite lookup_insert_eq].
    - apply (ok_new_fmon _ _ _ Hk0 p x0 ft0 ut name path); try done; [apply lookup_delete_eq|apply filename_of_no].
    - split; [exact Hi'|]. split; [exact Hst|]. split; [done|].
      exists (set_sm_fmons (Some (with_entry name f ft0)) x0), (with_entry name f ft0).
      split; [split; [apply lookup_insert_eq|done]|]. split; [apply insert_delete_eq|]. split; [done|].
      split; [apply lookup_insert_eq|]. destruct fresh_file.
      split; [eexists; split; [apply lookup_insert_eq|done]|]. do 3 (split; [done|]).
      split; [|simpl; rewrite lookup_insert_ne by (apply not_eq_sym, self_not_fresh); by rewrite lookup_delete_ne].
      intros old' Hold'. assert (old' = old) as -> by congruence. simpl.
      rewrite lookup_insert_ne by done. apply lookup_delete_eq. }
  set (s1 := set_sv_kernel _ s).
  assert (kq_monitors (sv_kernel s1) !! old = Some m) as Hm1
    by (subst s1; simpl; by rewrite lookup_insert_ne by done).
  unfold destroy_value, gam_kqueue_file_monitor_free.
  apply (wp_free_fmon old m); [done|..]; intros Hfd.
  - apply (Hfin (open_files k) (sv_world s)). by rewrite (proj2 (Z.ltb_lt _ _) Hfd).
  - apply (Hfin (u32 (open_files k - 1)) (close_fd (mon_fd m) (sv_world s))).
    rewrite (proj2 (Z.ltb_ge _ _) Hfd). by rewrite close_knotes.
Qed.
End Create.

(** ** A file is watched, or else polled *)

(** [f] is entered in [p]'s tables under [name]. *)
Definition file_of (p : ptr) (name : string) (f : ptr) (x : SubMonitor) (ft : HashTable (gmap string ptr))
  (ut : HashTable (gset ptr)) (k : kqueue_state) : Prop :=
  has_tables k p x ft ut /\ ht_main ft !! name = Some f /\ f ∉ pending_removals ft.

Lemma file_of_facts b p name f x ft ut s :
  kq_inv b s -> file_of p name f x ft ut (sv_kernel s) ->
  kq_fmons (sv_kernel s) !! f = Some (mk_fmon p name) /\ kq_smons (sv_kernel s) !! f = None /\
  f ∉ polled MissingSmon (sv_kernel s) /\
  exists m mp, kq_monitors (sv_kernel s) !! f = Some m /\ handle_kevent m = FileMonitorKevent /\
    kq_monitors (sv_kernel s) !! p = Some mp.
Proof.
  intros Hi (Htb & Hn & _). pose proof (ki_ok _ _ Hi) as Hk.
  destruct (drop_facts b p x ft ut name f s Hi Htb Hn) as (Hf & Hs & _). split; [done|]. split; [done|]. split.
  - intros Hp. destruct (ko_polled _ _ _ Hk _ _ Hp) as [z Hz]. by pose proof (eq_trans (eq_sym Hs) Hz).
  - destruct (ko_fmon _ _ _ Hk _ _ Hf) as (m & Hm & E). destruct Htb as (Hx & _).
    destruct (ko_smon _ _ _ Hk _ _ Hx) as (mp & Hmp & _). by exists m, mp.
Qed.

Lemma settled_file p name f x ft ut m b s :
  kq_inv (moving f b) s -> file_of p name f x ft ut (sv_kernel s) -> kq_monitors (sv_kernel s) !! f = Some m ->
  (f ∈ left_in ut <-> mon_fd m = -1) -> kq_inv b s.
Proof.
  intros Hi Hf Hm Hl. pose proof (ki_ok _ _ Hi) as Hk.
  destruct (file_of_facts _ _ _ _ _ _ _ _ Hi Hf) as (Hff & Hs & _). destruct Hf as ((Hx & Hf1 & Hu1) & Hn & Hr).
  apply (settled_inv f); [done|..].
  - intros y z Hy. congruence.
  - intros p' x' ft' ut' n' m' Htb' Hn' Hm'. pose proof (ko_entry _ _ _ Hk _ _ _ _ _ _ Htb' Hn') as Hff'.
    assert (p' = p) as -> by congruence. destruct Htb' as (? & ? & ?). simplify_eq. tauto.
Qed.

(** Falling back to polling. *)
Lemma does_fmon_unsupported b p name f x ft ut s :
  kq_inv (moving f b) s -> file_of p name f x ft ut (sv_kernel s) -> by_unsupported b <> Some p ->
  by_poller b <> Some UnsupportedFmon -> by_unsettled b = None ->
  does b p (gam_kqueue_file_monitor_set_unsupported f) (fun _ s' => exists x' ut',
    file_of p name f x' ft ut' (sv_kernel s') /\ is_Some (kq_monitors (sv_kernel s') !! f) /\
    kq_fmons (sv_kernel s') = kq_fmons (sv_kernel s) /\
    kq_monitors (sv_kernel s') !! p = kq_monitors (sv_kernel s) !! p /\
    polled MissingSmon (sv_kernel s') = polled MissingSmon (sv_kernel s)) s.
Proof.
  intros Hi Hf Hbu Hbp Hbs. destruct (file_of_facts _ _ _ _ _ _ _ _ Hi Hf) as (Hff & Hs & _ & m & mp & Hm & _).
  assert (f <> p) as Hfp by (destruct Hf as ((? & _) & _); congruence).
  unfold gam_kqueue_file_monitor_set_unsupported.
  eapply does_bind; [apply (does_set_unsupported (moving f b) p f m); try done; [simpl; set_solver|by right]|].
  intros [] s1 Hi1 _ (m' & o & E1 & Eh & Ep & Efd).
  assert (file_of p name f x ft ut (sv_kernel s1)) as Hf1 by by rewrite E1.
  assert (kq_fmons (sv_kernel s1) !! f = Some (mk_fmon p name)) as Hff1 by by rewrite E1.
  assert (kq_monitors (sv_kernel s1) !! f = Some m') as Hm1 by (rewrite E1; apply lookup_insert_eq).
  assert (polled MissingSmon (sv_kernel s1) = polled MissingSmon (sv_kernel s)) as Epol by by rewrite E1.
  kq_load Hff1. cbn [fm_smon]. destruct Hf1 as (Htb1 & Hn1 & Hr1).
  eapply wp_mono; [by apply (does_unsupported_add (moving f b) p f name x ft ut m')|].
  intros [] s2 (Hi2 & Hst2 & ut' & P & E2 & El).
  assert (file_of p name f (set_sm_unsupported (Some ut') x) ft ut' (sv_kernel s2)) as Hf2.
  { split; [|done]. rewrite E2. split; [apply lookup_insert_eq|]. destruct Htb1 as (_ & ? & _). done. }
  assert (kq_monitors (sv_kernel s2) !! f = Some m') as Hm2 by by rewrite E2.
  split; [|split; [done|]].
  - apply (settled_file p name f (set_sm_unsupported (Some ut') x) ft ut' m'); [done..|]. rewrite El, Efd.
    split; [done|]. intros _. apply elem_of_union_l. by apply elem_of_singleton.
  - exists (set_sm_unsupported (Some ut') x), ut'. split; [done|]. split; [by exists m'|]. rewrite E2.
    split; [by rewrite E1|]. split; [|exact Epol]. rewrite E1. simpl. by rewrite lookup_insert_ne.
Qed.

Lemma does_watch_or_poll b p name f x ft ut m s :
  kq_inv (moving f b) s -> file_of p name f x ft ut (sv_kernel s) -> kq_monitors (sv_kernel s) !! f = Some m ->
  mon_fd m = -1 -> f ∉ left_in ut -> by_unsupported b <> Some p -> by_poller b <> Some UnsupportedFmon ->
  by_unsettled b = None ->
  does b p (watch_or_poll f) (fun r s' => r.1 = f /\ exists x' ut', file_of p name f x' ft ut' (sv_kernel s') /\
    kq_fmons (sv_kernel s') = kq_fmons (sv_kernel s) /\
    kq_monitors (sv_kernel s') !! p = kq_monitors (sv_kernel s) !! p /\
    polled MissingSmon (sv_kernel s') = polled MissingSmon (sv_kernel s)) s.
Proof.
  intros Hi Hf Hm Efd Hl Hbu Hbp Hbs. destruct (file_of_facts _ _ _ _ _ _ _ _ Hi Hf) as (Hff & Hs & Hmis & _).
  assert (f <> p) as Hfp by (destruct Hf as ((? & _) & _); congruence).
  unfold watch_or_poll. eapply does_bind;
    [apply (does_enable (moving f b) p f m); try done; [simpl; set_solver|by right]|].
  intros ok s1 Hi1 _ (fd & o & E1 & Hok).
  assert (file_of p name f x ft ut (sv_kernel s1)) as Hf1 by by rewrite E1.
  assert (kq_monitors (sv_kernel s1) !! f = Some (set_mon_fd fd m)) as Hm1 by (rewrite E1; apply lookup_insert_eq).
  assert (polled MissingSmon (sv_kernel s1) = polled MissingSmon (sv_kernel s)) as Epol by by rewrite E1.
  destruct ok.
  - apply does_ret.
    + apply (settled_file p name f x ft ut (set_mon_fd fd m)); [done..|]. simpl. split; [done|lia].
    + split; [done|]. exists x, ut. split; [done|]. rewrite E1. split; [done|]. split; [|done].
      simpl. by rewrite lookup_insert_ne.
  - eapply does_bind; [by apply (does_fmon_unsupported b p name f x ft ut)|].
    intros [] s2 Hi2 _ (x' & ut' & Hf2 & [m2 Hm2] & Ef2 & Emp2 & Ep2).
    apply wp_bind, wp_kload with m2; [exact Hm2|]. apply does_ret; [done|]. split; [done|]. exists x', ut'.
    split; [done|]. rewrite Ef2, Emp2, Ep2, E1. split; [done|]. split; [|done].
    simpl. by rewrite lookup_insert_ne.
Qed.

(** What goes on when files may come and go under [p]. *)
Record quiet (b : busy) (p : ptr) : Prop := {
  qt_fmons : by_fmons b <> Some p;
  qt_unsupported : by_unsupported b <> Some p;
  qt_poller : by_poller b <> Some UnsupportedFmon;
  qt_unsettled : by_unsettled b = None
}.

Lemma quiet_moving f b p : quiet b p -> quiet (moving f b) p.
Proof. by intros []. Qed.

Lemma does_file_monitor_new b p filename x ft ut mp s :
  kq_inv b s -> quiet b p -> has_tables (sv_kernel s) p x ft ut ->
  kq_monitors (sv_kernel s) !! p = Some mp -> p ∉ polled MissingSmon (sv_kernel s) ->
  let name := filename_of (g_build_filename (mon_pathname mp) filename) in
  (forall old, ht_main ft !! name = Some old -> old ∈ by_moving b /\ old ∉ left_in ut) ->
  does b p (gam_kqueue_file_monitor_new p filename) (fun r s' => exists x' ft' ut',
    file_of p name r.1 x' ft' ut' (sv_kernel s') /\ ht_main ft' = <[name := r.1]> (ht_main ft) /\
    p ∉ polled MissingSmon (sv_kernel s') /\
    (forall old, ht_main ft !! name = Some old -> kq_fmons (sv_kernel s') !! old = None) /\
    kq_monitors (sv_kernel s') !! p = kq_monitors (sv_kernel s) !! p) s.
Proof.
  intros Hi [Hbf Hbu Hbp Hbs] Htb Hmp Hmis name Hold. unfold gam_kqueue_file_monitor_new. kq_load Hmp.
  set (path := g_build_filename _ _) in *. set (f := kq_next (sv_kernel s)).
  eapply does_bind with (b := moving f b) (Q := fun g s' => g = f /\ created p path ft ut s (sv_kernel s) f s').
  { destruct (ht_main ft !! name) as [old|] eqn:Hn.
    - destruct (Hold old eq_refl) as [H1 H2].
      destruct (entry_live _ _ _ (ki_ok _ _ Hi) p x ft ut name old Htb Hn) as [m Hm].
      by apply (does_create_again b p path x ft ut s Hi Htb Hbf Hmis old m).
    - by apply (does_create_new b p path x ft ut s Hi Htb Hbf Hmis). }
  intros g s1 Hi1 _ [-> (x1 & ft1 & Htb1 & Em & Er & Hf1 & (m1 & Hm1 & Efd) & Hl & Hr & Epol & Hold1 & Emp1)]. fold name in Em, Hf1, Hold1.
  assert (file_of p name f x1 ft1 ut (sv_kernel s1)) as Hfile.
  { split; [done|]. rewrite Em, Er. split; [apply lookup_insert_eq|done]. }
  eapply does_mono; [by apply (does_watch_or_poll b p name f x1 ft1 ut m1)|].
  intros [f' flags] s2 Hi2 _ [E (x2 & ut2 & Hf2 & Ef2 & Emp2 & Ep2)]. simpl in E. subst f'. exists x2, ft1, ut2.
  split; [done|]. split; [done|]. split; [by rewrite Ep2, Epol|]. split; [by rewrite Ef2|congruence].
Qed.

(** ** Events *)

Lemma does_report b p name f x ft ut event flags s :
  kq_inv b s -> file_of p name f x ft ut (sv_kernel s) ->
  does b p (file_monitor_report f event flags) (fun _ s' => sv_kernel s' = sv_kernel s) s.
Proof.
  intros Hi Hf. destruct (file_of_facts _ _ _ _ _ _ _ _ Hi Hf) as (Hff & _ & _ & m & mp & Hm & _ & Hmp).
  destruct Hf as ((Hx & _ & _) & _ & _). unfold file_monitor_report. kq_load Hm.
  eapply does_bind.
  { apply does_look; [|done]. destruct (_ && _); [|apply looks_ret].
    apply looks_bind; [apply looks_lstat|intros; apply looks_ret]. }
  intros stat s1 Hi1 _ E1. rewrite <- E1 in *.
  kq_load Hff. cbn [fm_smon]. kq_load Hx.
  eapply does_bind; [by apply (does_emit b p _ _ _ x mp)|]. intros [] s2 Hi2 _ E2. by apply does_ret.
Qed.

(** An event that leaves the file where it is. *)
Lemma does_event b p name f x ft ut event flags s :
  kq_inv b s -> file_of p name f x ft ut (sv_kernel s) ->
  (event =? GAMIN_EVENT_DELETED) || (event =? GAMIN_EVENT_MOVED) = false ->
  does b p (gam_kqueue_file_monitor_emit_event f event flags) (fun _ s' => sv_kernel s' = sv_kernel s) s.
Proof.
  intros Hi Hf E. unfold gam_kqueue_file_monitor_emit_event. rewrite E.
  eapply does_bind; [by apply (does_report b p name f x ft ut)|]. intros stat s1 Hi1 _ E1. by apply does_ret.
Qed.

(** A file that is found is created and reported. *)
Lemma does_found b p filename event x ft ut mp s :
  kq_inv b s -> quiet b p -> has_tables (sv_kernel s) p x ft ut ->
  kq_monitors (sv_kernel s) !! p = Some mp -> p ∉ polled MissingSmon (sv_kernel s) ->
  no_slash filename -> ht_main ft !! filename = None ->
  (event =? GAMIN_EVENT_DELETED) || (event =? GAMIN_EVENT_MOVED) = false ->
  does b p ('(fmon, fmon_flags) ← gam_kqueue_file_monitor_new p filename;
            gam_kqueue_file_monitor_emit_event fmon event fmon_flags)
    (fun _ s' => exists x' ft' ut' f, has_tables (sv_kernel s') p x' ft' ut' /\
      ht_main ft' = <[filename := f]> (ht_main ft) /\ p ∉ polled MissingSmon (sv_kernel s') /\
      kq_monitors (sv_kernel s') !! p = kq_monitors (sv_kernel s) !! p) s.
Proof.
  intros Hi Hq Htb Hmp Hmis Hno Hn E.
  eapply does_bind; [apply (does_file_monitor_new b p filename x ft ut mp); try done|].
  { rewrite filename_of_entry by done. congruence. }
  rewrite filename_of_entry by done. intros [f flags] s1 Hi1 _ (x1 & ft1 & ut1 & Hf1 & Em & Hm1 & _ & Emp1).
  eapply does_mono; [by apply (does_event b p filename f x1 ft1 ut1)|].
  intros [] s2 _ _ E2. exists x1, ft1, ut1, f. rewrite E2. split; [apply Hf1|done].
Qed.

(** The first thing when a file goes: it is not polled any more. *)
Lemma with_unsupported_same p x ft ut k :
  has_tables k p x ft ut -> with_unsupported p x ut (kq_pollers k UnsupportedFmon) k = k.
Proof.
  intros (Hx & _ & Hu). unfold with_unsupported.
  assert (set_sm_unsupported (Some ut) x = x) as -> by (unfold set_sm_unsupported; rewrite <- Hu; by destruct x).
  rewrite insert_id by done. assert (set_kq_smons (kq_smons k) k = k) as -> by by destruct k.
  apply set_poller_same.
Qed.

Lemma does_leave_polling b p name f x ft ut m s :
  kq_inv b s -> file_of p name f x ft ut (sv_kernel s) -> by_unsettled b = None ->
  kq_monitors (sv_kernel s) !! f = Some m -> (0 <= mon_fd m -> f ∉ left_in ut) ->
  does (moving f b) p (when (mon_fd m <? 0) (gam_kqueue_hash_table_remove (unsupported_table p) f))
    (fun _ s' => exists ut' P, sv_kernel s' = with_unsupported p x ut' P (sv_kernel s) /\
      left_in ut' = left_in ut ∖ {[f]}) s.
Proof.
  intros Hi Hf Hbs Hm Hl. pose proof (moving_inv f b s Hi) as Hi'. destruct Hf as (Htb & _ & _).
  apply does_when; [done|..]; intros E.
  - apply (does_unsupported_remove (moving f b) p f x ft ut); try done. simpl. set_solver.
  - exists ut, (kq_pollers (sv_kernel s) UnsupportedFmon). rewrite (with_unsupported_same p x ft ut) by done.
    split; [done|]. apply Z.ltb_ge in E. specialize (Hl E). set_solver.
Qed.

(** It is gone from the tables, and freed. *)
Lemma does_go b p name f x ft ut m s :
  kq_inv (moving f b) s -> by_fmons b <> Some p -> file_of p name f x ft ut (sv_kernel s) ->
  f ∉ left_in ut -> kq_monitors (sv_kernel s) !! f = Some m ->
  does b p (gam_kqueue_hash_table_remove (fmons_table p) f) (fun _ s' => exists o,
    sv_kernel s' = drop_fmon_state p x ft name f o (sv_kernel s)) s.
Proof.
  intros Hi Hbf (Htb & Hn & Hr) Hl Hm.
  eapply wp_mono; [apply (does_fmons_remove (moving f b) p x ft ut name f s Hi Htb Hn m Hm); try done;
    simpl; set_solver|].
  intros [] s' (Hi' & Hst & o & E). split; [|split; [done|by exists o]].
  assert (kq_monitors (sv_kernel s') !! f = None) as Hnone by (rewrite E; apply lookup_delete_eq).
  apply (settled_inv f); [done|..].
  - intros z m0 _ Hm0. congruence.
  - intros p0 x0 ft0 ut0 n0 m0 _ _ Hm0. congruence.
Qed.

Section Gone.
Context (b : busy) (p : ptr) (name : string) (f : ptr) (x : SubMonitor).
Context (ft : HashTable (gmap string ptr)) (ut : HashTable (gset ptr)) (m : Monitor) (event flags : Z) (s : server).
Context (Hi : kq_inv b s) (Hf : file_of p name f x ft ut (sv_kernel s)) (Hbs : by_unsettled b = None).
Context (Hm : kq_monitors (sv_kernel s) !! f = Some m) (Hl : 0 <= mon_fd m -> f ∉ left_in ut).
Context (Hev : (event =? GAMIN_EVENT_DELETED) || (event =? GAMIN_EVENT_MOVED) = true).

(** The state in which the file has left the polled ones. *)
Definition unpolled (s1 : server) : Prop := exists ut' P,
  sv_kernel s1 = with_unsupported p x ut' P (sv_kernel s) /\ left_in ut' = left_in ut ∖ {[f]} /\
  file_of p name f (set_sm_unsupported (Some ut') x) ft ut' (sv_kernel s1) /\
  kq_monitors (sv_kernel s1) !! f = Some m /\ f ∉ left_in ut'.

(** The event is reported and the file unpolled; the rest is [rest]. *)
Lemma wp_gone (Q : unit -> server -> Prop) :
  (forall s1, kq_inv (moving f b) s1 -> step p s s1 -> unpolled s1 ->
    wp (if ztest (flags .& FILE_MONITOR_POSSIBLY_RECREATED) then
          st ← sys (lstat (mon_pathname m));
          if st is Some _ then file_monitor_recreate f
          else gam_kqueue_hash_table_remove (fmons_table p) f
        else gam_kqueue_hash_table_remove (fmons_table p) f) Q s1) ->
  ztest (flags .& MONITOR_ISNOTDIR) || ztest (flags .& MONITOR_ISDIR) = true ->
  wp (gam_kqueue_file_monitor_emit_event f event flags) Q s.
Proof.
  intros Hrest Hflags. unfold gam_kqueue_file_monitor_emit_event. rewrite Hev. apply wp_bind.
  destruct (file_of_facts _ _ _ _ _ _ _ _ Hi Hf) as (Hff & _).
  eapply wp_mono with (Q := fun stat s' => kq_inv b s' /\ step p s s' /\ sv_kernel s' = sv_kernel s /\ stat = None).
  { pose proof (does_report b p name f x ft ut event flags s Hi Hf) as Hrep.
    unfold does, wp in Hrep. unfold wp. destruct (file_monitor_report f event flags s) as [[st s']|] eqn:E; [|done].
    destruct Hrep as (? & ? & ?). do 3 (split; [done|]). unfold file_monitor_report in E.
    apply bind_inv in E as (m0 & s0 & _ & E). apply bind_inv in E as (st0 & s2 & Est & E).
    apply bind_inv in E as (? & ? & _ & E). apply bind_inv in E as (? & ? & _ & E).
    apply bind_inv in E as (? & ? & _ & E). assert (st = st0) as -> by by injection E.
    destruct (ztest (flags .& MONITOR_ISNOTDIR)), (ztest (flags .& MONITOR_ISDIR)); try done; by injection Est. }
  intros stat s0 (Hi0 & Hst0 & E0 & ->). rewrite <- E0 in Hf, Hm, Hff.
  kq_load Hm. kq_load Hff. cbn [fm_smon]. apply wp_bind.
  eapply wp_mono; [by apply (does_leave_polling b p name f x ft ut m s0)|].
  intros [] s1 (Hi1 & Hst1 & ut' & P & E1 & El). rewrite E0 in E1.
  assert (unpolled s1) as Hun.
  { exists ut', P. split; [done|]. split; [done|]. split.
    - destruct Hf as ((Hx & Hf1 & Hu1) & Hn & Hr). split; [|done]. rewrite E1.
      split; [apply lookup_insert_eq|done].
    - split; [rewrite E1, <- E0; exact Hm|]. rewrite El. set_solver. }
  specialize (Hrest s1 Hi1 (transitivity Hst0 Hst1) Hun). clear -Hrest.
  destruct (ztest (flags .& FILE_MONITOR_POSSIBLY_RECREATED)); [|exact Hrest].
  unfold wp, mbind, ST_bind, sys in *. destruct (lstat _ _) as [[st|] w]; exact Hrest.
Qed.

(** No one looks whether it is back. *)
Lemma does_gone :
  by_fmons b <> Some p -> ztest (flags .& FILE_MONITOR_POSSIBLY_RECREATED) = false ->
  ztest (flags .& MONITOR_ISNOTDIR) || ztest (flags .& MONITOR_ISDIR) = true ->
  does b p (gam_kqueue_file_monitor_emit_event f event flags) (fun _ s' => exists ut' P o,
    left_in ut' = left_in ut ∖ {[f]} /\ sv_kernel s' = drop_fmon_state p (set_sm_unsupported (Some ut') x) ft name f o
      (with_unsupported p x ut' P (sv_kernel s))) s.
Proof.
  intros Hbf Hr Hflags. apply wp_gone; [|done]. rewrite Hr.
  intros s1 Hi1 Hst1 (ut' & P & E1 & El & Hf1 & Hm1 & Hl1).
  eapply wp_mono; [by apply (does_go b p name f (set_sm_unsupported (Some ut') x) ft ut' m)|].
  intros [] s2 (Hi2 & Hst2 & o & E2). split; [done|]. split; [by transitivity s1|]. exists ut', P, o.
  split; [done|]. by rewrite E2, E1.
Qed.

(** The directory's files are being gone through. *)
Lemma does_gone_later :
  by_fmons b = Some p -> ztest (flags .& FILE_MONITOR_POSSIBLY_RECREATED) = false ->
  ztest (flags .& MONITOR_ISNOTDIR) || ztest (flags .& MONITOR_ISDIR) = true ->
  does b p (gam_kqueue_file_monitor_emit_event f event flags) (fun _ s' => exists x' ut' ft',
    has_tables (sv_kernel s') p x' ft' ut' /\ ht_main ft' = ht_main ft /\
    pending_removals ft' = f :: pending_removals ft /\
    polled MissingSmon (sv_kernel s') = polled MissingSmon (sv_kernel s)) s.
Proof.
  intros Hbf Hr Hflags. apply wp_gone; [|done]. rewrite Hr.
  intros s1 Hi1 Hst1 (ut' & P & E1 & El & (Htb1 & Hn1 & Hr1) & Hm1 & Hl1).
  set (x1 := set_sm_unsupported (Some ut') x) in *.
  eapply wp_mono; [by apply (does_fmons_defer (moving f b) p x1 ft ut' name f s1 Hi1 Htb1 Hn1)|].
  intros [] s2 (Hi2 & Hst2 & E2). set (ft' := set_removals (f :: pending_removals ft) ft) in *.
  assert (has_tables (sv_kernel s2) p (set_sm_fmons (Some ft') x1) ft' ut') as Htb2
    by (rewrite E2; split; [apply lookup_insert_eq|done]).
  split; [|split; [by transitivity s1|]].
  - pose proof (ki_ok _ _ Hi2) as Hk2. pose proof (ko_entry _ _ _ Hk2 _ _ _ _ name f Htb2 Hn1) as Hff.
    apply (settled_inv f); [done|..].
    + intros z m0 Hz _. by destruct (fmon_not_smon _ _ _ Hk2 f z (mk_fmon p name)).
    + intros p0 x0 ft0 ut0 n0 m0 Htb0 Hn0 _. pose proof (ko_entry _ _ _ Hk2 _ _ _ _ _ _ Htb0 Hn0) as Hff0.
      assert (p0 = p) as -> by congruence. destruct Htb0 as (Hz0 & Hz1 & Hz2), Htb2 as (Hy0 & Hy1 & Hy2).
      rewrite Hy0 in Hz0. injection Hz0 as <-. rewrite Hy1 in Hz1. injection Hz1 as <-.
      rewrite Hy2 in Hz2. injection Hz2 as <-. split; [done|]. intros _ Hn. destruct Hn. by left.
  - exists (set_sm_fmons (Some ft') x1), ut', ft'. do 3 (split; [done|]). rewrite E2, E1. done.
Qed.

(** The kernel's event: the file may be back under another descriptor. *)
Lemma does_gone_or_back :
  quiet b p -> p ∉ polled MissingSmon (sv_kernel s) ->
  ztest (flags .& MONITOR_ISNOTDIR) || ztest (flags .& MONITOR_ISDIR) = true ->
  does b p (gam_kqueue_file_monitor_emit_event f event flags) (fun _ _ => True) s.
Proof.
  intros Hq Hmis Hflags. pose proof Hq as [Hbf Hbu Hbp _]. apply wp_gone; [|done].
  intros s1 Hi1 Hst1 (ut' & P & E1 & El & Hf1 & Hm1 & Hl1). set (x1 := set_sm_unsupported (Some ut') x) in *.
  assert (forall s2, kq_inv (moving f b) s2 -> step p s s2 -> sv_kernel s2 = sv_kernel s1 ->
    wp (gam_kqueue_hash_table_remove (fmons_table p) f) (fun _ s' => kq_inv b s' /\ step p s s' /\ True) s2) as Hgo.
  { intros s2 Hi2 Hst2 E2. rewrite <- E2 in Hf1, Hm1.
    eapply wp_mono; [by apply (does_go b p name f x1 ft ut' m)|].
    intros [] s3 (Hi3 & Hst3 & _). split; [done|]. split; [by transitivity s2|done]. }
  destruct (ztest (flags .& FILE_MONITOR_POSSIBLY_RECREATED)); [|by apply Hgo]. apply wp_bind.
  eapply wp_mono; [by apply (does_look (moving f b) p); [apply looks_lstat|]|].
  intros [st|] s2 (Hi2 & Hst2 & E2); [|apply Hgo; [done|by transitivity s1|done]].
  rewrite <- E2 in Hf1, Hm1.
  destruct (file_of_facts _ _ _ _ _ _ _ _ Hi2 Hf1) as (Hff & Hs & _ & m0 & mp & _ & _ & Hmp).
  unfold file_monitor_recreate. kq_load Hff. cbn [fm_smon fm_filename].
  assert (filename_of (g_build_filename (mon_pathname mp) name) = name) as En
    by (apply filename_of_entry; exact (ko_name _ _ _ (ki_ok _ _ Hi2) _ _ Hff)).
  pose proof Hf1 as (Htb1 & Hn1 & Hr1). apply wp_bind. eapply wp_mono.
  { apply (does_file_monitor_new (moving f b) p name x1 ft ut' mp s2); try done.
    - rewrite E2, E1. exact Hmis.
    - rewrite En. intros old Hold. assert (old = f) as -> by congruence. simpl. set_solver. }
  rewrite En. intros [g flags'] s3 (Hi3 & Hst3 & x3 & ft3 & ut3 & Hf3 & Em3 & Hmis3 & Hold & _). simpl in Hf3, Em3.
  apply wp_bind. eapply wp_mono; [by apply (does_report (moving f b) p name g x3 ft3 ut3)|].
  intros stat s4 (Hi4 & Hst4 & E4). apply wp_ret. split; [|split; [|done]].
  - assert (kq_fmons (sv_kernel s4) !! f = None) as Hnone by (rewrite E4; by apply Hold).
    apply (settled_inv f); [done|..].
    + intros z z' Hz _. destruct (ks_live _ _ _ (st_kernel _ _ _ (transitivity Hst3 Hst4)) f) as [Hlive _].
      destruct Hlive; [by exists z|]. congruence.
    + intros p0 x0 ft0 ut0 n0 z Htb0 Hn0 _. pose proof (ko_entry _ _ _ (ki_ok _ _ Hi4) _ _ _ _ _ _ Htb0 Hn0). congruence.
  - transitivity s1; [done|]. transitivity s2; [done|]. by transitivity s3.
Qed.
End Gone.
End Files.
