(* ===== verification/KqueueClear.v ===== *)
(** * Safety of the kqueue backend: many files at once

    After an iteration the removals that were put off are made; when a directory
    goes, its tables are destroyed with all files.  In the middle of either the
    tables and the objects do not agree: the proofs follow a shadow state in
    which they do. *)

From S2P Require Import Prelude Protocol EventQueue Monad OS Fs.
From S2P Require Import State Subscription Listener ConnSend Inv Emit.
From S2P Require Import Safety Server KqueueState KqueueTables Kqueue.
From S2P Require Import KqueueInv KqueueSafety KqueueFiles.

Local Open Scope Z_scope.

#[local] Existing Instance kqueue_kernel.

Section Clear.
Context {os : OS} {glib : GLib} {kq : Kqueue os} {kl : KqueueLaws kq} {laws : OSLaws os}.
Abbreviation M := (ST server).

(** ** Shadows *)

(** The state [k] with other tables at [p]. *)
Definition shadow (p : ptr) (x : SubMonitor) (tf : option (HashTable (gmap string ptr)))
  (tu : option (HashTable (gset ptr))) (k : kqueue_state) : kqueue_state :=
  set_kq_smons (<[p := mk_smon (sm_subs x) tf tu (sm_isdir x)]> (kq_smons k)) k.

(** The daemon's state with [k] for the backend. *)
Abbreviation at_kernel k s := (set_sv_kernel (kern := kqueue_kernel) k s).

Lemma shadow_self p x ft ut k : has_tables k p x ft ut -> shadow p x (Some ft) (Some ut) k = k.
Proof.
  intros (Hx & Hf & Hu). unfold shadow. rewrite <- Hf, <- Hu.
  assert (mk_smon (sm_subs x) (sm_fmons x) (sm_unsupported x) (sm_isdir x) = x) as -> by by destruct x.
  rewrite insert_id by done. by destruct k.
Qed.

(** What freeing a file does to the shadow, whose table becomes [ft']. *)
Lemma wp_shadow_free b p x ft ut name f ft' tf tu k s (Q : unit -> server -> Prop) :
  sv_kernel s = shadow p x tf tu k -> kq_inv b (at_kernel k s) -> has_tables k p x ft ut ->
  ht_main ft !! name = Some f -> f ∈ by_moving b -> f ∉ left_in ut ->
  ht_main ft' = delete name (ht_main ft) -> table_ok (bool_decide (by_fmons b = Some p)) ft' ->
  NoDup (pending_removals ft') ->
  (forall g, g ∈ pending_removals ft' <-> g ∈ pending_removals ft /\ g <> f) ->
  (forall k' s', sv_kernel s' = shadow p x tf tu k' -> kq_inv b (at_kernel k' s') ->
    step p (at_kernel k s) (at_kernel k' s') -> has_tables k' p (set_sm_fmons (Some ft') x) ft' ut ->
    kq_monitors k' = delete f (kq_monitors k) -> kq_fmons k' = delete f (kq_fmons k) ->
    kq_static_pollers k' = kq_static_pollers k -> Q tt s') ->
  wp (gam_kqueue_monitor_free f) Q s.
Proof.
  intros Es Hi Htb Hn Hmv Hl Em Ht Hnd Hpr HQ. pose proof (ki_ok _ _ Hi) as Hk.
  destruct (drop_facts b p x ft ut name f (at_kernel k s) Hi Htb Hn) as (Hf & Hs & Hfp & _). simpl in Hf, Hs.
  destruct (ko_fmon _ _ _ Hk _ _ Hf) as (m & Hm & _). simpl in Hm. pose proof Htb as (Hx & Hf1 & Hu1).
  set (x' := set_sm_fmons (Some ft') x).
  assert (forall o w, (if mon_fd m <? 0 then o = open_files k /\ knotes w = knotes (sv_world s)
      else o = u32 (open_files k - 1) /\ knotes w = delete (mon_fd m) (knotes (sv_world s))) ->
    Q tt (set_sv_world w (at_kernel (freed f (set_open_files o (shadow p x tf tu k))) s))) as Hfin.
  { intros o w Hw. set (k' := freed f (set_open_files o (set_kq_smons (<[p := x']> (kq_smons k)) k))).
    destruct (kq_inv_kernel b b p (at_kernel k s) k' w Hi) as [Hi' Hst].
    - set (k1 := set_kq_smons (<[p := x']> (kq_smons k)) k). transitivity (set_open_files o k1).
      + transitivity k1; [by apply (kstep_smon p x)|]. by split; try done; intros y z ? ?; exists y, z.
      + apply (kstep_freed p f _ (mk_fmon p name)); simpl; [done|by rewrite lookup_insert_ne|by rewrite lookup_insert_eq].
    - by apply (drop_ok b p x ft ut name f (at_kernel k s) Hi Htb Hn m Hm Hmv Hl x' ft').
    - apply (HQ k'); try done.
      + simpl. unfold k', freed, shadow. simpl. rewrite !delete_insert_ne by done.
        by rewrite insert_insert_eq.
      + split; [|done]. unfold k'. simpl. rewrite delete_insert_ne by done. apply lookup_insert_eq. }
  assert (kq_monitors (sv_kernel s) !! f = Some m) as Hm1 by (rewrite Es; exact Hm).
  assert (open_files (sv_kernel s) = open_files k) as Eo by by rewrite Es.
  apply (wp_free_fmon f m); [done|..]; intros Hfd; rewrite Es.
  - apply (Hfin (open_files k) (sv_world s)). by rewrite (proj2 (Z.ltb_lt _ _) Hfd).
  - apply (Hfin (u32 (open_files k - 1)) (close_fd (mon_fd m) (sv_world s))).
    rewrite (proj2 (Z.ltb_ge _ _) Hfd). by rewrite close_knotes.
Qed.

(** Freed files need no exemption any more. *)
Lemma settle_freed b Mv k s :
  kq_inv (set_by_moving Mv b) (at_kernel k s) ->
  (forall q, q ∈ Mv -> q ∈ by_moving b \/ kq_monitors k !! q = None) -> kq_inv b (at_kernel k s).
Proof.
  intros [Hk Hr Hs] HM. split; [|done|done]. simpl in *.
  pose proof (ok_settled _ _ _ Hk (by_moving b)) as Hok.
  assert (set_by_moving (by_moving b) (set_by_moving Mv b) = b) as E by by destruct b.
  rewrite E in Hok. apply Hok. intros q Hq Hn. destruct (HM q Hq) as [?|Hnone]; [done|].
  split; [intros ? ? _ ?; congruence|intros ? ? ? ? ? ? _ _ ?; congruence].
Qed.

(** ** The removals that were put off *)

Section Flush.
Context (b : busy) (p : ptr) (tu : HashTable (gset ptr)).

(** The files [l] are still to be removed. *)
Definition flushing (l : list ptr) (s0 s : server) : Prop := exists Mv k x ft main,
  kq_inv (set_by_moving Mv (set_by_fmons (Some p) b)) (at_kernel k s) /\ step p s0 (at_kernel k s) /\
  has_tables k p x ft tu /\ pending_removals ft = l /\ (forall q, q ∈ l -> q ∈ Mv) /\
  (forall q, q ∈ Mv -> q ∈ by_moving b \/ q ∈ l \/ kq_monitors k !! q = None) /\
  ht_main ft = ht_main main /\ ht_iterating main = false /\ pending_additions main = [] /\
  sv_kernel s = shadow p x (Some main) (Some tu) k.

Lemma shadow_tables k x ft main :
  has_tables k p x ft tu ->
  has_tables (shadow p x (Some main) (Some tu) k) p (mk_smon (sm_subs x) (Some main) (Some tu) (sm_isdir x)) main tu.
Proof. intros _. split; [apply lookup_insert_eq|done]. Qed.

Lemma flush_one f l s0 s :
  flushing (f :: l) s0 s -> wp (gam_kqueue_sub_monitor_remove_fmon_cb p f) (fun _ => flushing l s0) s.
Proof.
  intros (Mv & k & x & ft & main & Hi & Hst & Htb & El & HM1 & HM2 & Em & Hit & Had & Es).
  pose proof (ki_ok _ _ Hi) as Hk. simpl in Hk.
  destruct (ko_removals _ _ _ Hk p x ft tu Htb) as [Hnd Hin].
  destruct (Hin f) as [name Hn]; [rewrite El; by left|].
  pose proof (ko_entry _ _ _ Hk _ _ _ _ _ _ Htb Hn) as Hf.
  assert (f ∉ left_in tu) as Hl.
  { intros Hl. destruct (ko_unsupported _ _ _ Hk p x ft tu f Htb Hl) as (_ & _ & _ & Hr & _).
    apply Hr. rewrite El. by left. }
  destruct (ko_tables _ _ _ Hk p x) as (ft0 & ut0 & (_ & Ef & _) & Ht & _); [apply Htb|].
  destruct Htb as (Hx & Hf1 & Hu1). simplify_eq. assert (has_tables k p x ft tu) as Htb by done.
  rewrite El in Hnd. apply NoDup_cons in Hnd as [Hfl Hnd].
  unfold gam_kqueue_sub_monitor_remove_fmon_cb.
  assert (kq_fmons (sv_kernel s) !! f = Some (mk_fmon p name)) as Hf' by by rewrite Es.
  kq_load Hf'. cbn [fm_filename].
  set (x1 := mk_smon (sm_subs x) (Some main) (Some tu) (sm_isdir x)).
  assert (has_tables (sv_kernel s) p x1 main tu) as Htb1 by (rewrite Es; by eapply shadow_tables).
  apply wp_bind. unfold wp at 1. rewrite (load_fmons_eq p x1 main tu s Htb1).
  apply wp_bind. unfold wp at 1. rewrite (modify_fmons_eq p x1 main tu _ s Htb1). cbv beta.
  set (main' := set_ht_main (delete name (ht_main main)) main).
  rewrite <- Em, Hn. unfold destroy_value, gam_kqueue_file_monitor_free.
  set (ft' := set_removals l (set_ht_main (delete name (ht_main ft)) ft)).
  eapply (wp_shadow_free _ p x ft tu name f ft' (Some main') (Some tu) k); try done.
  - simpl. rewrite Es. unfold shadow. simpl. rewrite insert_insert_eq. done.
  - simpl. apply HM1. by left.
  - destruct Ht as (? & ? & Hr). split; [done|]. split; [done|]. simpl. by rewrite bool_decide_eq_true_2.
  - intros g. simpl. rewrite El, elem_of_cons. split; [|naive_solver]. intros Hg. split; [by right|]. by intros ->.
  - intros k' s' Es' Hi' Hst' Htb' Emon Efm Epl.
    exists Mv, k', (set_sm_fmons (Some ft') x), ft', main'. split; [done|]. split; [by transitivity (at_kernel k s)|].
    split; [done|]. split; [done|]. split; [intros q Hq; apply HM1; by right|]. split; [|by simpl; rewrite Em].
    intros q Hq. rewrite Emon. destruct (HM2 q Hq) as [?|[[->|?]%elem_of_cons|Hnone]]; [by left|right; right|right; by left|right; right].
    + apply lookup_delete_eq.
    + rewrite lookup_delete_None. by right.
Qed.

Lemma flush_all l s0 s :
  flushing l s0 s -> wp (for_each l (gam_kqueue_sub_monitor_remove_fmon_cb p)) (fun _ => flushing [] s0) s.
Proof. apply (wp_for_each (fun l => flushing l s0)). intros f l' s'. apply flush_one. Qed.

(** All are removed: with the list emptied the tables agree again. *)
Lemma flushed s0 s :
  by_fmons b = None -> flushing [] s0 s ->
  exists k x main, sv_kernel s = shadow p x (Some main) (Some tu) k /\
    has_tables (sv_kernel s) p (mk_smon (sm_subs x) (Some main) (Some tu) (sm_isdir x)) main tu /\
    forall k', k' = shadow p x (Some (set_removals [] main)) (Some tu) k ->
      kq_inv b (at_kernel k' s) /\ step p s0 (at_kernel k' s).
Proof.
  intros Hb (Mv & k & x & ft & main & Hi & Hst & Htb & El & HM1 & HM2 & Em & Hit & Had & Es).
  exists k, x, main. split; [done|]. split; [rewrite Es; by eapply shadow_tables|]. intros k' ->.
  pose proof (ki_ok _ _ Hi) as Hk. simpl in Hk. pose proof Htb as (Hx & Hf & Hu).
  destruct (ko_tables _ _ _ Hk p x Hx) as (ft0 & ut0 & (_ & E1 & E2) & Ht & Hut). simplify_eq. simpl in Hut.
  set (k' := shadow p x (Some (set_removals [] main)) (Some tu) k).
  destruct (kq_inv_kernel _ (set_by_moving Mv b) p (at_kernel k s) k' (sv_world s) Hi) as [Hi' Hst'].
  - by apply (kstep_smon p x).
  - apply (ok_tables _ _ _ Hk _ p x ft tu _ (set_removals [] main) tu); try done.
    + by left.
    + intros q Hq. simpl. rewrite Hb. split; [|done]. rewrite !bool_decide_eq_false_2; [done|congruence|done].
    + simpl. by rewrite Hb.
    + constructor.
    + intros f Hf'. by apply elem_of_nil in Hf'.
    + intros f Hf'. split; [apply not_elem_of_nil|by left].
    + intros f. by rewrite El.
    + intros f Hf'. by right.
  - split; [|by transitivity (at_kernel k s)].
    change (kq_inv (set_by_moving Mv b) (at_kernel k' s)) in Hi'.
    apply (settle_freed b Mv k' s Hi'). intros q Hq. destruct (HM2 q Hq) as [?|[Hn|?]];
      [by left|by apply elem_of_nil in Hn|by right].
Qed.

(** [foreach] after the entries: the changes that were put off. *)
Lemma wp_flush_fmons s0 k x ft s (Q : unit -> server -> Prop) :
  by_fmons b = None -> sv_kernel s = shadow p x (Some (set_iterating false ft)) (Some tu) k ->
  kq_inv (set_by_fmons (Some p) b) (at_kernel k s) -> step p s0 (at_kernel k s) -> has_tables k p x ft tu ->
  (forall s', kq_inv b s' -> step p s0 s' -> Q tt s') ->
  wp (_ ← flush_additions (fmons_table p); flush_removals (fmons_table p)) Q s.
Proof.
  intros Hb Es Hi Hst Htb HQ. pose proof (ki_ok _ _ Hi) as Hk. simpl in Hk.
  pose proof Htb as (Hx & Hf & Hu).
  destruct (ko_tables _ _ _ Hk p x Hx) as (ft0 & ut0 & (_ & E1 & E2) & Ht & _). simplify_eq.
  set (main := set_iterating false ft) in *.
  assert (flushing (pending_removals ft) s0 s) as Hfl.
  { exists (list_to_set (pending_removals ft) ∪ by_moving b), k, x, ft, main.
    split; [|split; [done|split; [done|]]].
    - apply (ok_by_moving (set_by_fmons (Some p) b)); [simpl; set_solver|done].
    - split; [done|]. split; [intros q Hq; apply elem_of_union_l; by apply elem_of_list_to_set|].
      split; [|by destruct Ht as (_ & ? & _)].
      intros q [Hq|Hq]%elem_of_union; [right; left; by apply elem_of_list_to_set in Hq|by left]. }
  assert (has_tables (sv_kernel s) p (mk_smon (sm_subs x) (Some main) (Some tu) (sm_isdir x)) main tu) as Htb1
    by (rewrite Es; by eapply shadow_tables).
  unfold flush_additions. apply wp_bind, wp_bind. unfold wp at 1. cbn [tb_load fmons_table].
  rewrite (load_fmons_eq _ _ _ _ s Htb1). cbn [tb_type fmons_table].
  assert (pending_additions main = []) as -> by by destruct Ht as (_ & ? & _).
  apply wp_ret. unfold flush_removals. apply wp_bind. unfold wp at 1. cbn [tb_load fmons_table].
  rewrite (load_fmons_eq _ _ _ _ s Htb1). cbn [tb_type fmons_table].
  change (pending_removals main) with (pending_removals ft).
  destruct (pending_removals ft) as [|f l] eqn:El.
  - apply wp_ret. destruct (flushed s0 s Hb Hfl) as (k1 & x1 & main1 & Es1 & Htb2 & Hfin).
    assert (main1 = main) as ->.
    { destruct Htb1 as (H1 & H2 & _), Htb2 as (H3 & H4 & _). congruence. }
    assert (set_removals [] main = main) as Em by (unfold main, set_removals; simpl; by rewrite <- El).
    destruct (Hfin (sv_kernel s)) as [Hi' Hst']; [by rewrite Em|].
    assert (at_kernel (sv_kernel s) s = s) as E by by destruct s. rewrite E in *. by apply HQ.
  - apply wp_bind. eapply wp_mono; [by apply (flush_all (f :: l) s0)|].
    intros [] s1 Hfl1. destruct (flushed s0 s1 Hb Hfl1) as (k1 & x1 & main1 & Es1 & Htb2 & Hfin).
    apply wp_bind. unfold wp at 1. cbn [tb_modify fmons_table].
    rewrite (modify_fmons_eq p _ main1 tu _ s1 Htb2). cbn [tb_post_remove fmons_table call_post]. apply wp_ret.
    destruct (Hfin (shadow p x1 (Some (set_removals [] main1)) (Some tu) k1) eq_refl) as [Hi' Hst'].
    match goal with |- Q tt ?t => assert (t = at_kernel (shadow p x1 (Some (set_removals [] main1)) (Some tu) k1) s1) as -> end.
    { rewrite Es1. unfold shadow. simpl. rewrite insert_insert_eq. done. }
    by apply HQ.
Qed.
End Flush.

(** ** Going through the files of a directory *)

Lemma does_fmons_foreach b p names x m s :
  kq_inv b s -> quiet b p -> by_fmons b = None -> by_moving b ⊆ {[p]} ->
  kq_smons (sv_kernel s) !! p = Some x -> kq_monitors (sv_kernel s) !! p = Some m ->
  does b p (gam_kqueue_hash_table_foreach (fmons_table p)
    (gam_kqueue_sub_monitor_handle_directory_change_removal_cb names)) (fun _ _ => True) s.
Proof.
  intros Hi Hq Hb Hmv Hx Hm. pose proof (ki_ok _ _ Hi) as Hk. pose proof Hq as [Hbf Hbu Hbp Hbs].
  destruct (ko_tables _ _ _ Hk p x Hx) as (ft & ut & Htb & Ht & Hut). pose proof Htb as (_ & Hf & Hu).
  rewrite Hb, bool_decide_eq_false_2 in Ht by done. destruct Ht as (Hit & Had & Hrm). specialize (Hrm eq_refl).
  unfold gam_kqueue_hash_table_foreach. apply wp_bind. unfold wp at 1. cbn [tb_load fmons_table].
  rewrite (load_fmons_eq p x ft ut s Htb). cbn [tb_type fmons_table]. rewrite Hit.
  apply wp_bind, wp_assert; [done|]. apply wp_bind. unfold wp at 1. cbn [tb_modify fmons_table].
  rewrite (modify_fmons_eq p x ft ut _ s Htb). set (ft1 := set_iterating true ft).
  set (x1 := set_sm_fmons (Some ft1) x). set (k1 := set_kq_smons (<[p := x1]> _) _).
  set (b1 := set_by_fmons (Some p) b).
  destruct (kq_inv_kernel b b1 p s k1 (sv_world s) Hi) as [Hi1 Hst1].
  { by apply (kstep_smon p x). }
  { apply (ok_tables b _ _ Hk b1 p x ft ut _ ft1 ut); try done.
    - by left.
    - intros q Hqp. simpl. rewrite Hb. split; [|done]. rewrite !bool_decide_eq_false_2; [done|done|congruence].
    - simpl. by rewrite bool_decide_eq_true_2.
    - simpl. rewrite Hrm. constructor.
    - simpl. rewrite Hrm. by intros f ?%elem_of_nil.
    - intros f Hf'. simpl. rewrite Hrm. split; [apply not_elem_of_nil|by left].
    - intros f Hf'. by right. }
  apply wp_bind, wp_gets. cbn [tb_values fmons_table].
  set (s1 := at_kernel k1 s) in *. set (l := foreach_order _ _). change (kq_inv b1 s1) in Hi1. change (step p s s1) in Hst1.
  set (I := fun (rest : list ptr) (s' : server) => kq_inv b1 s' /\ step p s s' /\ NoDup rest /\
    exists x' ft' ut', has_tables (sv_kernel s') p x' ft' ut' /\ ht_main ft' = ht_main ft /\
      forall f, f ∈ rest -> (exists n, ht_main ft !! n = Some f) /\ f ∉ pending_removals ft').
  apply wp_bind. eapply wp_mono; [apply (wp_for_each I)|].
  - intros f rest s2 (Hi2 & Hst2 & Hnd & x2 & ft2 & ut2 & Htb2 & Em2 & Hrest).
    apply NoDup_cons in Hnd as [Hfr Hnd]. destruct (Hrest f) as [[n Hn] Hfp]; [by left|]. rewrite <- Em2 in Hn.
    assert (file_of p n f x2 ft2 ut2 (sv_kernel s2)) as Hfile by done.
    destruct (file_of_facts _ _ _ _ _ _ _ _ Hi2 Hfile) as (Hff & Hfs & _ & mf & mp & Hmf & _).
    unfold gam_kqueue_sub_monitor_handle_directory_change_removal_cb. kq_load Hff. cbn [fm_filename].
    destruct (decide (n ∈ names)) as [Hname|Hname];
      [rewrite (bool_decide_eq_true_2 _ Hname)|rewrite (bool_decide_eq_false_2 _ Hname)].
    + apply wp_ret. unfold I. split; [done|]. split; [done|]. split; [done|]. exists x2, ft2, ut2.
      split; [done|]. split; [done|]. intros g Hg. apply Hrest. by right.
    + eapply wp_mono; [apply (does_gone_later b1 p n f x2 ft2 ut2 mf GAMIN_EVENT_DELETED MONITOR_ISNOTDIR s2); try done|].
      * intros Hfd Hl. destruct (ko_unsupported _ _ _ (ki_ok _ _ Hi2) p x2 ft2 ut2 f Htb2 Hl) as (_ & m' & _ & _ & Hm' & Hfd').
        assert (m' = mf) as -> by congruence. rewrite Hfd' in Hfd; [lia|]. simpl. intros Hin.
        apply Hmv, elem_of_singleton in Hin as ->. destruct Htb2 as (Hx2 & _). congruence.
      * intros [] s3 (Hi3 & Hst3 & x3 & ut3 & ft3 & Htb3 & Em3 & Er3 & _). unfold I. split; [done|]. split; [by transitivity s2|].
        split; [done|]. exists x3, ft3, ut3. split; [done|]. split; [by rewrite Em3|].
        intros g Hg. destruct (Hrest g) as [Hgn Hgp]; [by right|]. split; [done|]. rewrite Er3.
        intros [->|?]%elem_of_cons; done.
  - unfold I. split; [done|]. split; [done|]. split.
    + subst l. rewrite order_perm. apply NoDup_fmap_2_strong; [|apply NoDup_map_to_list].
      intros [n1 f1] [n2 f2] H1%elem_of_map_to_list H2%elem_of_map_to_list E. simpl in E. subst f2.
      pose proof (ko_entry _ _ _ Hk _ _ _ _ _ _ Htb H1) as F1.
      pose proof (ko_entry _ _ _ Hk _ _ _ _ _ _ Htb H2) as F2. congruence.
    + exists x1, ft1, ut. split; [split; [apply lookup_insert_eq|done]|]. split; [done|].
      intros f Hf'. subst l. rewrite order_perm in Hf'. apply list_elem_of_fmap in Hf' as ([n f'] & -> & Hn%elem_of_map_to_list).
      split; [by exists n|]. simpl. rewrite Hrm. apply not_elem_of_nil.
  - intros [] s2 (Hi2 & Hst2 & _ & x2 & ft2 & ut2 & Htb2 & Em2 & _).
    apply wp_bind. unfold wp at 1. cbn [tb_modify fmons_table]. rewrite (modify_fmons_eq p x2 ft2 ut2 _ s2 Htb2).
    destruct (ko_tables _ _ _ (ki_ok _ _ Hi2) p x2) as (ft0 & ut0 & (_ & E1 & E2) & _); [apply Htb2|].
    apply (wp_flush_fmons b p ut2 s (sv_kernel s2) x2 ft2); try done.
    + simpl. destruct Htb2 as (? & ? & Eu). unfold shadow, set_sm_fmons. by rewrite Eu.
    + by destruct s2.
    + by destruct s2.
Qed.

(** ** A directory goes *)

Abbreviation no_files := (gam_kqueue_hash_table_new (∅ : gmap string ptr)).
Abbreviation no_polled := (gam_kqueue_hash_table_new (∅ : gset ptr)).

Lemma table_new {T} (t : HashTable T) : table_ok false t -> t = gam_kqueue_hash_table_new (ht_main t).
Proof. intros (E1 & E2 & E3). specialize (E3 eq_refl). destruct t. simpl in *. by subst. Qed.

Section Destroy.
Context (b : busy) (p : ptr) (Hbf : by_fmons b <> Some p) (Hbu : by_unsupported b <> Some p).
Context (Hbs : by_unsettled b = None).

(** None of [p]'s files is polled any more. *)
Lemma ok_unpoll_all notes k x ft ut (Mv : gset ptr) :
  kq_ok b notes k -> has_tables k p x ft ut -> (forall n f, ht_main ft !! n = Some f -> f ∈ Mv) ->
  by_moving b ⊆ Mv ->
  kq_ok (set_by_moving Mv b) notes (with_unsupported p x no_polled
    (if bool_decide (ht_main ut = ∅) then kq_pollers k UnsupportedFmon
     else poller_minus p (kq_pollers k UnsupportedFmon)) k).
Proof.
  intros Hk0 Htb Hall HMv. pose proof (ok_moving _ _ _ Hk0 Mv HMv) as Hk. pose proof Htb as (Hx & Hf & Hu).
  destruct (ko_tables _ _ _ Hk p x Hx) as (ft0 & ut0 & (_ & E1 & E2) & Ht & Hut). simplify_eq. simpl in Ht, Hut.
  rewrite bool_decide_eq_false_2 in Ht, Hut by done.
  destruct (decide (ht_main ut = ∅)) as [E|E];
    [rewrite (bool_decide_eq_true_2 _ E)|rewrite (bool_decide_eq_false_2 _ E)].
  - rewrite <- E, <- (table_new ut Hut). by rewrite (with_unsupported_same p x ft ut).
  - set (b1 := set_by_unsettled (Some p) (set_by_moving Mv b)).
    set (k1 := set_kq_smons (<[p := set_sm_unsupported (Some no_polled) x]> (kq_smons k)) k).
    assert (kq_ok b1 notes k1) as Hk1.
    { apply (ok_tables _ _ _ Hk b1 p x ft ut _ ft no_polled); try done.
      - by right.
      - simpl. by rewrite bool_decide_eq_false_2.
      - simpl. by rewrite bool_decide_eq_false_2.
      - by apply (ko_removals _ _ _ Hk p x ft ut).
      - by apply (ko_removals _ _ _ Hk p x ft ut).
      - intros f Hf'. left. destruct (ko_unsupported _ _ _ Hk p x ft ut f Htb Hf') as (n & ? & Hn & _).
        by apply (Hall n). }
    set (pl := kq_pollers k UnsupportedFmon).
    destruct (minus_ok p _ pl (ko_poller _ _ _ Hk UnsupportedFmon) (ko_timer _ _ _ Hk UnsupportedFmon)) as [Ht' Htm].
    apply (ok_set_poller b1 notes k1 Hk1); try done.
    + intros q _. by right.
    + intros q. rewrite left_minus. intros [Hq _]%elem_of_difference.
      apply insert_is_Some. by apply (ko_polled _ _ _ Hk UnsupportedFmon).
    + intros _ q y ft0 ut0 Hq _. rewrite left_minus.
      apply tables_insert in Hq as [(-> & -> & _ & Eu)|[Hne Hq]].
      * assert (ut0 = no_polled) as -> by by apply (inj Some).
        rewrite elem_of_difference, elem_of_singleton. simpl. tauto.
      * rewrite <- (ko_polled_fmons _ _ _ Hk q y ft0 ut0 Hq) by (simpl; congruence). by apply elem_minus_ne.
Qed.

(** The files [l] are still to be freed. *)
Definition clearing (s0 : server) (tf : HashTable (gmap string ptr)) (l : list ptr) (s : server) : Prop :=
  exists Mv k x ft, kq_inv (set_by_moving Mv b) (at_kernel k s) /\ step p s0 (at_kernel k s) /\
    has_tables k p x ft no_polled /\ NoDup l /\ (forall q, q ∈ l <-> exists n, ht_main ft !! n = Some q) /\
    (forall q, q ∈ l -> q ∈ Mv) /\ (forall q, q ∈ Mv -> q ∈ by_moving b \/ q ∈ l \/ kq_monitors k !! q = None) /\
    kq_monitors k !! p = kq_monitors (sv_kernel s0) !! p /\
    (forall i, i <> UnsupportedFmon -> polled i k = polled i (sv_kernel s0)) /\
    sv_kernel s = shadow p x (Some tf) None k.

Lemma clear_one s0 tf f l s :
  clearing s0 tf (f :: l) s -> wp (gam_kqueue_file_monitor_free f) (fun _ => clearing s0 tf l) s.
Proof.
  intros (Mv & k & x & ft & Hi & Hst & Htb & Hnd & Hl & HM1 & HM2 & Ep & Epol & Es).
  pose proof (ki_ok _ _ Hi) as Hk. simpl in Hk. apply NoDup_cons in Hnd as [Hfl Hnd].
  destruct (proj1 (Hl f)) as [name Hn]; [by left|].
  destruct (ko_tables _ _ _ Hk p x) as (ft0 & ut0 & (_ & E1 & _) & Ht & _); [apply Htb|].
  pose proof Htb as (Hx & Hf & Hu). assert (ft0 = ft) as -> by congruence. simpl in Ht. rewrite bool_decide_eq_false_2 in Ht by done.
  destruct (drop_facts (set_by_moving Mv b) p x ft no_polled name f (at_kernel k s) Hi Htb Hn) as (Hff & _ & Hfp & _).
  simpl in Hff. set (ft' := set_ht_main (delete name (ht_main ft)) ft).
  unfold gam_kqueue_file_monitor_free.
  apply (wp_shadow_free (set_by_moving Mv b) p x ft no_polled name f ft' (Some tf) None k); try done.
  - simpl. apply HM1. by left.
  - simpl. by rewrite bool_decide_eq_false_2.
  - by apply (ko_removals _ _ _ Hk p x ft no_polled).
  - intros g. simpl. destruct Ht as (_ & _ & ->); [|done]. split; [by intros ?%elem_of_nil|by intros [?%elem_of_nil _]].
  - intros k' s' Es' Hi' Hst' Htb' Emon Efm Epl. exists Mv, k', (set_sm_fmons (Some ft') x), ft'.
    split; [done|]. split; [by transitivity (at_kernel k s)|]. split; [done|]. split; [done|]. split; [|split; [|split; [|split; [|split; [|done]]]]].
    + intros q. simpl. split.
      * intros Hq. destruct (proj1 (Hl q)) as [n Hn']; [by right|]. exists n.
        rewrite lookup_delete_ne; [done|]. intros ->. congruence.
      * intros [n [Hne Hn']%lookup_delete_Some]. assert (q ∈ f :: l) as Hq by (apply Hl; by exists n).
        apply elem_of_cons in Hq as [->|?]; [|done].
        pose proof (ko_entry _ _ _ Hk _ _ _ _ _ _ Htb Hn') as Hff'. congruence.
    + intros q Hq. apply HM1. by right.
    + intros q Hq. rewrite Emon. destruct (HM2 q Hq) as [?|[[->|?]%elem_of_cons|Hnone]];
        [by left|right; right; apply lookup_delete_eq|right; by left|right; right].
      rewrite lookup_delete_None. by right.
    + rewrite Emon, lookup_delete_ne by done. exact Ep.
    + intros i Hiu. rewrite <- (Epol i Hiu). unfold polled, kq_pollers. by rewrite Epl.
Qed.

Lemma wp_clear x ft ut (Q : unit -> server -> Prop) s :
  kq_inv b s -> has_tables (sv_kernel s) p x ft ut ->
  (forall s' k x', sv_kernel s' = shadow p x' None None k -> kq_inv b (at_kernel k s') ->
    step p s (at_kernel k s') -> has_tables k p x' no_files no_polled ->
    kq_monitors k !! p = kq_monitors (sv_kernel s) !! p ->
    (forall i, i <> UnsupportedFmon -> polled i k = polled i (sv_kernel s)) -> Q tt s') ->
  wp (gam_kqueue_sub_monitor_clear_fmons p) Q s.
Proof.
  intros Hi Htb HQ. pose proof (ki_ok _ _ Hi) as Hk. pose proof Htb as (Hx & Hf & Hu).
  destruct (ko_tables _ _ _ Hk p x Hx) as (ft0 & ut0 & (_ & E1 & E2) & Ht & Hut). simplify_eq.
  rewrite bool_decide_eq_false_2 in Ht, Hut by done.
  set (l := (map_to_list (ht_main ft)).*2). set (Mv := list_to_set l ∪ by_moving b).
  assert (forall n f, ht_main ft !! n = Some f -> f ∈ l) as Hin.
  { intros n f Hn. apply list_elem_of_fmap. exists (n, f). split; [done|]. by apply elem_of_map_to_list. }
  assert (kq_ok (set_by_moving Mv b) (knotes (sv_world s)) (with_unsupported p x no_polled
    (if bool_decide (ht_main ut = ∅) then kq_pollers (sv_kernel s) UnsupportedFmon
     else poller_minus p (kq_pollers (sv_kernel s) UnsupportedFmon)) (sv_kernel s))) as Hk1.
  { apply (ok_unpoll_all _ _ x ft ut Mv Hk Htb); [|unfold Mv; set_solver].
    intros n f Hn. apply elem_of_union_l, elem_of_list_to_set. by apply (Hin n). }
  set (P := if bool_decide (ht_main ut = ∅) then _ else _) in Hk1.
  set (k1 := with_unsupported p x no_polled P (sv_kernel s)) in *.
  destruct (kq_inv_kernel b (set_by_moving Mv b) p s k1 (sv_world s) Hi) as [Hi1 Hst1]; [|done|].
  { set (k0 := set_kq_smons (<[p := set_sm_unsupported (Some no_polled) x]> (kq_smons (sv_kernel s))) (sv_kernel s)).
    transitivity k0; [by apply (kstep_smon p x)|]. apply kstep_poller. intros q Hq. subst P.
    destruct (bool_decide _); [done|]. rewrite left_minus. by apply elem_minus_ne. }
  change (kq_inv (set_by_moving Mv b) (at_kernel k1 s)) in Hi1. change (step p s (at_kernel k1 s)) in Hst1.
  unfold gam_kqueue_sub_monitor_clear_fmons. apply wp_bind. unfold wp at 1.
  rewrite (load_unsupported_eq p x ft ut s Htb). apply wp_bind.
  eapply wp_mono with (Q := fun _ s' => s' = at_kernel (set_poller UnsupportedFmon P (sv_kernel s)) s).
  { subst P. destruct (bool_decide (ht_main ut = ∅)).
    - apply wp_ret. rewrite set_poller_same. by destruct s.
    - unfold when, negb, wp. by rewrite poller_remove_eq. }
  intros [] s1 ->. assert (has_tables (set_poller UnsupportedFmon P (sv_kernel s)) p x ft ut) as Htb1 by done.
  set (s1 := at_kernel _ s). apply wp_bind. unfold destroy_unsupported. apply wp_bind. unfold wp at 1.
  rewrite (load_unsupported_eq p x ft ut s1 Htb1). apply wp_bind, wp_assert; [by rewrite (proj1 Hut)|].
  apply wp_kupdate with x; [exact Hx|]. set (s2 := upd_kq _ s1).
  assert (kq_smons (sv_kernel s2) !! p = Some (set_sm_unsupported None x)) as Hx2 by apply lookup_insert_eq.
  unfold destroy_fmons. apply wp_bind. unfold load_fmons. kq_load Hx2.
  apply (wp_deref _ ft); [done|]. apply wp_bind, wp_assert; [by rewrite (proj1 Ht)|]. fold l. apply wp_bind.
  eapply wp_mono; [apply (wp_for_each (clearing s ft) l); [intros f l' s'; apply clear_one|]|].
  - exists Mv, k1, (set_sm_unsupported (Some no_polled) x), ft. split; [done|]. split; [done|].
    split; [split; [apply lookup_insert_eq|done]|]. split; [|split; [|split; [|split; [|split; [done|split]]]]].
    + apply NoDup_fmap_2_strong; [|apply NoDup_map_to_list].
      intros [n1 f1] [n2 f2] H1%elem_of_map_to_list H2%elem_of_map_to_list E. simpl in E. subst f2.
      pose proof (ko_entry _ _ _ Hk _ _ _ _ _ _ Htb H1) as F1.
      pose proof (ko_entry _ _ _ Hk _ _ _ _ _ _ Htb H2) as F2. congruence.
    + intros q. split; [|by intros [n Hn]; apply (Hin n)].
      intros ([n f] & -> & Hn%elem_of_map_to_list)%list_elem_of_fmap. by exists n.
    + intros q Hq. by apply elem_of_union_l, elem_of_list_to_set.
    + intros q [Hq|Hq]%elem_of_union; [right; left; by apply elem_of_list_to_set in Hq|by left].
    + intros i Hne. unfold k1, with_unsupported. rewrite polled_set. by rewrite decide_False.
    + unfold s2, s1, k1, with_unsupported, shadow. simpl. rewrite insert_insert_eq.
      unfold set_sm_unsupported. by rewrite Hf.
  - intros [] s3 (Mv3 & k3 & x3 & ft3 & Hi3 & Hst3 & Htb3 & _ & Hl3 & _ & HM3 & Ep3 & Epol3 & Es3).
    assert (kq_smons (sv_kernel s3) !! p = Some (mk_smon (sm_subs x3) (Some ft) None (sm_isdir x3))) as Hx3
      by (rewrite Es3; apply lookup_insert_eq).
    apply wp_kupdate with (mk_smon (sm_subs x3) (Some ft) None (sm_isdir x3)); [exact Hx3|].
    destruct (ko_tables _ _ _ (ki_ok _ _ Hi3) p x3) as (ft4 & ut4 & (_ & E4 & _) & Ht3 & _); [apply Htb3|].
    assert (ft4 = ft3) as -> by (destruct Htb3 as (_ & ? & _); congruence). simpl in Ht3.
    rewrite bool_decide_eq_false_2 in Ht3 by done.
    assert (ht_main ft3 = ∅) as E3.
    { apply map_empty. intros n. destruct (ht_main ft3 !! n) as [f|] eqn:E; [|done].
      assert (f ∈ ([] : list ptr)) as Hn by (apply Hl3; by exists n). by apply elem_of_nil in Hn. }
    apply (HQ _ k3 x3).
    + simpl. rewrite Es3. unfold shadow. simpl. rewrite insert_insert_eq. done.
    + apply (settle_freed b Mv3 k3 s3 Hi3). intros q Hq. destruct (HM3 q Hq) as [?|[Hn|?]];
        [by left|by apply elem_of_nil in Hn|by right].
    + done.
    + by rewrite <- E3, <- (table_new ft3 Ht3).
    + done.
    + done.
Qed.
End Destroy.
End Clear.
