(* ===== verification/KqueueEvents.v ===== *)
(** * Safety of the kqueue backend: the monitors of subscribed paths

    What the kernel's events and the first listing do to a [SubMonitor], and the
    callback of the kqueue descriptor: they complete and keep the invariant, and
    the monitor ends up watched or with a poller. *)

From S2P Require Import Prelude Protocol EventQueue Monad OS Fs.
From S2P Require Import State Subscription Listener ConnSend Inv Emit.
From S2P Require Import Safety Server KqueueState KqueueTables Kqueue KqueueInv.
From S2P Require Import KqueueSafety KqueueFiles KqueueClear.

Local Open Scope Z_scope.

#[local] Existing Instance kqueue_kernel.

Section Watch.
Context {os : OS} {glib : GLib} {kq : Kqueue os} {kl : KqueueLaws kq} {laws : OSLaws os}.
Abbreviation M := (ST server).

#[local] Abbreviation no_files := (gam_kqueue_hash_table_new (∅ : gmap string ptr)).
#[local] Abbreviation no_polled := (gam_kqueue_hash_table_new (∅ : gset ptr)).

(** What goes on when a monitor of a path is worked on. *)
Record calm (b : busy) (p : ptr) : Prop := {
  cm_fmons : by_fmons b = None;
  cm_unsupported : by_unsupported b = None;
  cm_poller : by_poller b <> Some UnsupportedFmon;
  cm_unsettled : by_unsettled b = None;
  cm_moving : by_moving b ⊆ {[p]}
}.

Lemma calm_quiet b p : calm b p -> quiet b p.
Proof. intros [Hf Hu ? ? _]. split; [by rewrite Hf|by rewrite Hu|done|done]. Qed.

Lemma calm_moving b p : calm b p -> calm (moving p b) p.
Proof. intros [? ? ? ? Hm]. split; try done. simpl. set_solver. Qed.

Lemma smon_not_file (b : busy) p x s :
  kq_inv b s -> kq_smons (sv_kernel s) !! p = Some x -> settled_fmon (sv_kernel s) p.
Proof.
  intros Hi Hx p0 x0 ft ut n m Htb Hn _. pose proof (ki_ok _ _ Hi) as Hk.
  by destruct (fmon_not_smon _ _ _ Hk p x _ Hx (ko_entry _ _ _ Hk _ _ _ _ _ _ Htb Hn)).
Qed.

(** A monitor that is watched, or polled, is where it must be. *)
Lemma settled_path b p x m s :
  kq_inv (moving p b) s -> kq_smons (sv_kernel s) !! p = Some x -> kq_monitors (sv_kernel s) !! p = Some m ->
  (0 <= mon_fd m \/ p ∈ polled MissingSmon (sv_kernel s) \/ p ∈ polled UnsupportedSmon (sv_kernel s)) ->
  kq_inv b s.
Proof.
  intros Hi Hx Hm Hw. apply (settled_inv p); [done| |by apply (smon_not_file (moving p b) p x)].
  intros x' m' _ Hm' E. assert (m' = m) as -> by congruence. destruct Hw as [?|?]; [lia|done].
Qed.

Lemma path_live b p x s :
  kq_inv b s -> kq_smons (sv_kernel s) !! p = Some x -> exists m ft ut,
    kq_monitors (sv_kernel s) !! p = Some m /\ handle_kevent m = SubMonitorKevent /\
    has_tables (sv_kernel s) p x ft ut /\
    table_ok (bool_decide (by_fmons b = Some p)) ft /\ table_ok (bool_decide (by_unsupported b = Some p)) ut.
Proof.
  intros Hi Hx. pose proof (ki_ok _ _ Hi) as Hk. destruct (ko_smon _ _ _ Hk p x Hx) as (m & Hm & E).
  destruct (ko_tables _ _ _ Hk p x Hx) as (ft & ut & ? & ? & ?). by exists m, ft, ut.
Qed.

(** After a step on [p] it is still the same subscribed path. *)
Lemma path_step p x m s s' :
  step p s s' -> kq_smons (sv_kernel s) !! p = Some x -> kq_monitors (sv_kernel s) !! p = Some m ->
  exists x' m', kq_smons (sv_kernel s') !! p = Some x' /\ kq_monitors (sv_kernel s') !! p = Some m' /\
    sm_subs x' = sm_subs x /\ sm_isdir x' = sm_isdir x /\ mon_pathname m' = mon_pathname m.
Proof. intros [Hst _ _ _]. apply (ks_self _ _ _ Hst). Qed.

(** ** Missing and unsupported paths *)

Lemma wp_init_fmons p x' k (s : server) (Q : unit -> server -> Prop) :
  sv_kernel s = shadow p x' None None k -> has_tables k p x' no_files no_polled ->
  Q tt (set_sv_kernel k s) -> wp (gam_kqueue_sub_monitor_init_fmons p) Q s.
Proof.
  intros Es Htb HQ. unfold gam_kqueue_sub_monitor_init_fmons.
  set (x1 := mk_smon (sm_subs x') None None (sm_isdir x')).
  assert (kq_smons (sv_kernel s) !! p = Some x1) as Hx1 by (rewrite Es; apply lookup_insert_eq).
  apply wp_bind, wp_kupdate with x1; [exact Hx1|].
  apply wp_kupdate with (set_sm_fmons (Some no_files) x1); [apply lookup_insert_eq|].
  match goal with |- Q tt ?t => assert (t = set_sv_kernel k s) as -> end; [|done].
  unfold upd_kq. simpl. rewrite Es. simpl. rewrite !insert_insert_eq.
  transitivity (set_sv_kernel (kern := kqueue_kernel) (shadow p x' (Some no_files) (Some no_polled) k) s); [done|].
  by rewrite (shadow_self p x' no_files no_polled).
Qed.

(** The files of [p] are gone, and [p] is [m]. *)
Definition emptied (p : ptr) (m : Monitor) (s : server) : Prop := exists x ut,
  has_tables (sv_kernel s) p x no_files ut /\ kq_monitors (sv_kernel s) !! p = Some m.

Lemma does_set_missing b p x s :
  kq_inv (moving p b) s -> calm b p -> by_poller b <> Some MissingSmon ->
  kq_smons (sv_kernel s) !! p = Some x ->
  does b p (gam_kqueue_sub_monitor_set_missing p) (fun _ _ => True) s.
Proof.
  intros Hi Hc Hbm Hx. destruct (calm_quiet b p Hc) as [Hbf Hbu Hbp Hbs].
  destruct (path_live _ _ _ _ Hi Hx) as (m & ft & ut & Hm & _ & Htb & Ht & _). simpl in Ht.
  rewrite bool_decide_eq_false_2 in Ht by done.
  unfold gam_kqueue_sub_monitor_set_missing.
  eapply does_bind; [apply (does_close (moving p b) p p m); try done; [simpl; set_solver|by left]|].
  intros [] s1 Hi1 Hst1 (o & E1).
  assert (has_tables (sv_kernel s1) p x ft ut) as Htb1 by by rewrite E1.
  assert (kq_monitors (sv_kernel s1) !! p = Some (set_mon_fd (-1) m)) as Hm1 by (rewrite E1; apply lookup_insert_eq).
  apply wp_bind. unfold wp at 1. rewrite (load_fmons_eq p x ft ut s1 Htb1).
  eapply does_bind with (b := moving p b) (Q := fun _ => emptied p (set_mon_fd (-1) m)).
  { apply does_when; [done|..]; intros E.
    - apply wp_bind. apply (wp_clear (moving p b) p Hbf Hbu Hbs x ft ut); [done|done|].
      intros s' k x' Es' Hi' Hst' Htb' Em' _. apply (wp_init_fmons p x' k); [done..|].
      split; [exact Hi'|]. split; [exact Hst'|]. exists x', no_polled. split; [exact Htb'|]. simpl. by rewrite Em', Hm1.
    - exists x, ut. split; [|done]. apply negb_false_iff, bool_decide_eq_true in E.
      rewrite <- E, <- (table_new ft Ht). done. }
  intros [] s2 Hi2 _ (x2 & ut2 & Htb2 & Hm2).
  eapply does_bind; [apply (does_poller_remove (moving p b)); [done|done|simpl; set_solver]|].
  intros [] s3 Hi3 _ (P & E3 & EP).
  assert (has_tables (sv_kernel s3) p x2 no_files ut2) as Htb3 by by rewrite E3.
  assert (kq_monitors (sv_kernel s3) !! p = Some (set_mon_fd (-1) m)) as Hm3 by by rewrite E3.
  eapply wp_mono.
  { apply (does_poller_add (moving p b) p MissingSmon x2 no_files ut2 (set_mon_fd (-1) m)); try done.
    intros _. rewrite E3, polled_set, decide_True by done. set_solver. }
  intros [] s4 (Hi4 & Hst4 & P4 & E4 & Hp4). split; [|done].
  apply (settled_path b p x2 (set_mon_fd (-1) m)); [done| | |].
  - rewrite E4. apply Htb3.
  - rewrite E4. exact Hm3.
  - right. left. rewrite E4, polled_set. by rewrite decide_True.
Qed.

Lemma does_smon_unsupported b p x s :
  kq_inv (moving p b) s -> by_poller b <> Some UnsupportedSmon -> kq_smons (sv_kernel s) !! p = Some x ->
  p ∉ polled MissingSmon (sv_kernel s) ->
  does b p (gam_kqueue_sub_monitor_set_unsupported p) (fun _ _ => True) s.
Proof.
  intros Hi Hb Hx Hmis. destruct (path_live _ _ _ _ Hi Hx) as (m & ft & ut & Hm & _ & Htb & _).
  unfold gam_kqueue_sub_monitor_set_unsupported.
  eapply does_bind; [apply (does_set_unsupported (moving p b) p p m); try done; [simpl; set_solver|by left]|].
  intros [] s1 Hi1 _ (m' & o & E1 & _ & _ & Efd).
  assert (has_tables (sv_kernel s1) p x ft ut) as Htb1 by by rewrite E1.
  assert (kq_monitors (sv_kernel s1) !! p = Some m') as Hm1 by (rewrite E1; apply lookup_insert_eq).
  assert (p ∉ polled MissingSmon (sv_kernel s1)) as Hmis1 by by rewrite E1.
  eapply wp_mono; [by apply (does_poller_add (moving p b) p UnsupportedSmon x ft ut m')|].
  intros [] s2 (Hi2 & Hst2 & P & E2 & Hp). split; [|done].
  apply (settled_path b p x m'); [done|rewrite E2; apply Htb1|rewrite E2; exact Hm1|].
  right. right. rewrite E2, polled_set. by rewrite decide_True.
Qed.

(** ** Events of a subscribed path *)

Lemma does_directory_change b p isdir x s :
  kq_inv b s -> calm b p -> kq_smons (sv_kernel s) !! p = Some x -> p ∉ polled MissingSmon (sv_kernel s) ->
  does b p (gam_kqueue_sub_monitor_handle_directory_change p isdir) (fun _ _ => True) s.
Proof.
  intros Hi Hc Hx Hmis. pose proof (calm_quiet b p Hc) as Hq. destruct (path_live _ _ _ _ Hi Hx) as (m & ft & ut & Hm & _ & Htb & _).
  unfold gam_kqueue_sub_monitor_handle_directory_change. kq_load Hm.
  eapply does_bind with (b := b) (Q := fun _ _ => True).
  2:{ intros names s1 Hi1 Hst1 _. destruct (path_step p x m s s1 Hst1 Hx Hm) as (x1 & m1 & Hx1 & Hm1 & _).
      by apply (does_fmons_foreach b p names x1 m1); [..|apply Hc|apply Hc| |]. }
  destruct isdir; [|by apply does_ret].
  apply wp_bind, wp_sys. intros o w Ew.
  destruct (kq_inv_kernel b b p s (sv_kernel s) w Hi) as [Hi1 Hst1]; [done| |].
  { rewrite (dir_knotes _ _ _ _ Ew). apply Hi. }
  set (s1 := set_sv_world w s). change (kq_inv b s1) in Hi1. change (step p s s1) in Hst1.
  destruct o as [names|]; [|by apply wp_ret].
  destruct (entries_once _ _ _ _ Ew) as [_ Hno].
  set (I := fun (rest : list string) (s' : server) => kq_inv b s' /\ step p s s' /\
    Forall no_slash rest /\ p ∉ polled MissingSmon (sv_kernel s')).
  apply wp_bind. eapply wp_mono; [apply (wp_for_each I)|].
  2:{ by split. }
  2:{ intros [] s' (? & ? & _). by apply wp_ret. }
  intros n rest s2 (Hi2 & Hst2 & Hns & Hmis2). apply Forall_cons in Hns as [Hn Hns].
  destruct (path_step p x m s s2 Hst2 Hx Hm) as (x2 & m2 & Hx2 & Hm2 & _).
  destruct (path_live _ _ _ _ Hi2 Hx2) as (m2' & ft2 & ut2 & _ & _ & Htb2 & _).
  unfold handle_directory_change_entry. apply wp_bind. unfold wp at 1. rewrite (load_fmons_eq p x2 ft2 ut2 s2 Htb2).
  destruct (ht_main ft2 !! n) as [f|] eqn:Efn; [by apply wp_ret|].
  eapply wp_mono; [by apply (does_found b p n GAMIN_EVENT_CREATED x2 ft2 ut2 m2)|].
  intros [] s3 (Hi3 & Hst3 & x3 & ft3 & ut3 & f3 & _ & _ & Hmis3 & _). split; [done|]. split; [by transitivity s2|done].
Qed.

(** An event after which the path is still there. *)
Lemma does_smon_event b p event flags x s :
  kq_inv b s -> calm b p -> kq_smons (sv_kernel s) !! p = Some x ->
  (event =? GAMIN_EVENT_DELETED) || (event =? GAMIN_EVENT_MOVED) = false ->
  (event = GAMIN_EVENT_CHANGED -> p ∉ polled MissingSmon (sv_kernel s)) ->
  does b p (gam_kqueue_sub_monitor_emit_event p event flags) (fun _ s' =>
    event <> GAMIN_EVENT_CHANGED -> sv_kernel s' = sv_kernel s) s.
Proof.
  intros Hi Hc Hx E Hmis. destruct (path_live _ _ _ _ Hi Hx) as (m & ft & ut & Hm & _).
  unfold gam_kqueue_sub_monitor_emit_event. kq_load Hm.
  eapply does_bind; [by apply does_look; [apply looks_isdir|]|]. intros isdir s1 Hi1 Hst1 E1. rewrite <- E1 in Hx, Hm, Hmis.
  kq_load Hx. destruct (Z.eqb_spec event GAMIN_EVENT_CHANGED) as [->|Hne]; [destruct (sm_isdir x)|]; simpl.
  - eapply does_mono; [by apply (does_directory_change b p isdir x); auto|]. done.
  - eapply does_mono; [by apply (does_emit b p _ _ _ x m)|]. done.
  - rewrite E. eapply does_mono; [by apply (does_emit b p _ _ _ x m)|]. intros [] s2 _ _ E2 _. congruence.
Qed.

(** The path is gone: the monitor goes to the poller of missing ones. *)
Lemma does_smon_gone b p event flags x s :
  kq_inv (moving p b) s -> calm b p -> by_poller b <> Some MissingSmon -> kq_smons (sv_kernel s) !! p = Some x ->
  (event =? GAMIN_EVENT_DELETED) || (event =? GAMIN_EVENT_MOVED) = true ->
  does b p (gam_kqueue_sub_monitor_emit_event p event flags) (fun _ _ => True) s.
Proof.
  intros Hi Hc Hbm Hx E. destruct (path_live _ _ _ _ Hi Hx) as (m & ft & ut & Hm & _).
  unfold gam_kqueue_sub_monitor_emit_event. kq_load Hm.
  eapply does_bind; [by apply does_look; [apply looks_isdir|]|]. intros isdir s1 Hi1 Hst1 E1. rewrite <- E1 in Hx, Hm.
  kq_load Hx. assert ((event =? GAMIN_EVENT_CHANGED) = false) as ->.
  { unfold GAMIN_EVENT_CHANGED, GAMIN_EVENT_DELETED, GAMIN_EVENT_MOVED in *. lia. }
  rewrite E. cbn [andb when]. eapply does_bind; [by apply (does_set_missing b p x)|].
  intros [] s2 Hi2 Hst2 _. destruct (path_step p x m s1 s2 Hst2 Hx Hm) as (x2 & m2 & Hx2 & Hm2 & Es & _).
  rewrite <- Es. eapply does_mono; [by apply (does_emit b p _ _ _ x2 m2)|]. done.
Qed.
End Watch.

Section Events.
Context {os : OS} {glib : GLib} {kq : Kqueue os} {kl : KqueueLaws kq} {laws : OSLaws os}.
Abbreviation M := (ST server).

(** ** The first listing *)

Lemma does_exists b p path flags s :
  kq_inv b s -> does b p (enable_notification_exists path flags) (fun r s' => sv_kernel s' = sv_kernel s /\
    (r.1 = false -> ztest (flags .& SUB_MONITOR_WAS_MISSING) = false)) s.
Proof.
  intros Hi. unfold enable_notification_exists. destruct (ztest _) eqn:E; [by apply does_ret|].
  eapply does_bind; [by apply does_look; [apply looks_lstat|]|]. intros [st|] s1 Hi1 _ E1; by apply does_ret.
Qed.

(** The directory's entries, one after the other. *)
Definition listing (b : busy) (p : ptr) (m : Monitor) (s0 : server) (rest : list string) (s : server) : Prop :=
  kq_inv b s /\ step p s0 s /\ NoDup rest /\ Forall no_slash rest /\ p ∉ polled MissingSmon (sv_kernel s) /\
  kq_monitors (sv_kernel s) !! p = Some m /\
  exists x ft ut, has_tables (sv_kernel s) p x ft ut /\ forall n, n ∈ rest -> ht_main ft !! n = None.

Lemma listing_step b p m s0 event n rest s :
  quiet b p -> (event =? GAMIN_EVENT_DELETED) || (event =? GAMIN_EVENT_MOVED) = false ->
  listing b p m s0 (n :: rest) s ->
  wp (enable_notification_entry p event n) (fun _ => listing b p m s0 rest) s.
Proof.
  intros Hq E (Hi & Hst & Hnd & Hns & Hmis & Hm & x & ft & ut & Htb & Hn).
  apply NoDup_cons in Hnd as [Hnr Hnd]. apply Forall_cons in Hns as [Hno Hns].
  eapply wp_mono.
  { apply (does_found b p n event x ft ut m s Hi Hq Htb Hm Hmis Hno); [apply Hn; by left|done]. }
  intros [] s1 (Hi1 & Hst1 & x1 & ft1 & ut1 & f & Htb1 & Em & Hmis1 & Hm1).
  split; [done|]. split; [by transitivity s|]. do 3 (split; [done|]). split; [congruence|].
  exists x1, ft1, ut1. split; [done|]. intros n' Hn'. rewrite Em, lookup_insert_ne by congruence. apply Hn. by right.
Qed.

Lemma does_listing b p event path m x ft ut s :
  kq_inv b s -> quiet b p -> (event =? GAMIN_EVENT_DELETED) || (event =? GAMIN_EVENT_MOVED) = false ->
  has_tables (sv_kernel s) p x ft ut -> ht_main ft = ∅ -> p ∉ polled MissingSmon (sv_kernel s) ->
  kq_monitors (sv_kernel s) !! p = Some m ->
  does b p (dir ← sys (dir_names path);
            match dir with
            | Some names => for_each names (enable_notification_entry p event)
            | None => mret tt
            end)
    (fun _ s' => p ∉ polled MissingSmon (sv_kernel s') /\ kq_monitors (sv_kernel s') !! p = Some m) s.
Proof.
  intros Hi Hq E Htb Eft Hmis Hm. apply wp_bind, wp_sys. intros o w Ew.
  destruct (kq_inv_kernel b b p s (sv_kernel s) w Hi) as [Hi1 Hst1]; [done| |].
  { rewrite (dir_knotes _ _ _ _ Ew). apply Hi. }
  set (s1 := set_sv_world w s). change (kq_inv b s1) in Hi1. change (step p s s1) in Hst1.
  destruct o as [names|]; [|apply wp_ret; split; [exact Hi1|]; split; [exact Hst1|done]].
  destruct (entries_once _ _ _ _ Ew) as [Hnd Hno].
  eapply wp_mono; [apply (wp_for_each (listing b p m s))|].
  - intros n rest s2. by apply listing_step.
  - do 6 (split; [done|]). exists x, ft, ut. split; [done|]. intros n _. by rewrite Eft.
  - intros [] s2 (Hi2 & Hst2 & _ & _ & Hmis2 & Hm2 & _). done.
Qed.

(** The outcome of [gam_kqueue_sub_monitor_enable_notification]. *)
Lemma does_enable_notification b p flags x ft ut m s :
  kq_inv (moving p b) s -> calm b p -> by_poller b <> Some UnsupportedSmon ->
  (ztest (flags .& SUB_MONITOR_WAS_MISSING) = false -> by_poller b <> Some MissingSmon) ->
  has_tables (sv_kernel s) p x ft ut -> ht_main ft = ∅ -> kq_monitors (sv_kernel s) !! p = Some m ->
  mon_fd m = -1 -> p ∉ polled MissingSmon (sv_kernel s) ->
  does b p (gam_kqueue_sub_monitor_enable_notification p flags) (fun _ _ => True) s.
Proof.
  intros Hi Hc Hbu Hbm Htb Eft Hm Efd Hmis. pose proof (calm_moving _ _ Hc) as Hc'.
  pose proof (calm_quiet _ _ Hc') as Hq'.
  unfold gam_kqueue_sub_monitor_enable_notification. kq_load Hm.
  eapply does_bind; [by apply (does_exists (moving p b))|]. intros [ex fl] s1 Hi1 Hst1 [E1 Hex]. simpl in Hex.
  rewrite <- E1 in Htb, Hm, Hmis. pose proof Htb as (Hx & _).
  destruct ex.
  - set (gevent := if ztest (fl .& SUB_MONITOR_WAS_MISSING) then GAMIN_EVENT_CREATED else GAMIN_EVENT_EXISTS).
    assert ((gevent =? GAMIN_EVENT_DELETED) || (gevent =? GAMIN_EVENT_MOVED) = false /\ gevent <> GAMIN_EVENT_CHANGED)
      as [Hge Hgc] by (unfold gevent; clear; by destruct (ztest _)).
    eapply does_bind; [by apply (does_smon_event (moving p b) p gevent fl x)|].
    intros [] s2 Hi2 _ E2. specialize (E2 Hgc). rewrite <- E2 in Htb, Hm, Hmis, Hx. kq_load Hx.
    eapply does_bind with (b := moving p b); [apply does_when; [done|..]; intros _;
      [by apply (does_listing (moving p b) p gevent (mon_pathname m) m x ft ut)|by split]|].
    intros [] s3 Hi3 Hst3 [Hmis3 Hm3]. destruct (path_step p x m s2 s3 Hst3 Hx Hm) as (x3 & m3 & Hx3 & _).
    eapply does_bind with (b := moving p b) (Q := fun _ s' => sv_kernel s' = sv_kernel s3).
    { apply does_when; [done|..]; intros _; [|done].
      eapply does_mono; [by apply (does_smon_event (moving p b) p GAMIN_EVENT_ENDEXISTS fl x3)|].
      intros [] s4 _ _ E4. by apply E4. }
    intros [] s4 Hi4 _ E4. rewrite <- E4 in Hmis3, Hm3, Hx3.
    eapply does_bind; [apply (does_enable (moving p b) p p m); try done; [simpl; set_solver|by left]|].
    intros ok s5 Hi5 Hst5 (fd & o & E5 & Hok).
    assert (kq_smons (sv_kernel s5) !! p = Some x3) as Hx5 by by rewrite E5.
    destruct ok; [|apply (does_smon_unsupported b p x3); try done; by rewrite E5].
    apply does_ret; [|done].
    apply (settled_path b p x3 (set_mon_fd fd m)); try done; [|by left].
    rewrite E5. apply lookup_insert_eq.
  - specialize (Hex eq_refl).
    eapply does_bind; [by apply (does_smon_gone b p GAMIN_EVENT_DELETED fl x); auto|].
    intros [] s2 Hi2 Hst2 _. destruct (path_step p x m s1 s2 Hst2 Hx Hm) as (x2 & m2 & Hx2 & _).
    eapply does_mono; [by apply (does_smon_event b p GAMIN_EVENT_ENDEXISTS fl x2)|]. done.
Qed.

(** ** Events of the kernel *)

Lemma calm_at_rest p : calm at_rest p.
Proof. by split. Qed.

(** A monitor with a descriptor is not missing. *)
Lemma watched_not_missing b p m s :
  kq_inv b s -> kq_monitors (sv_kernel s) !! p = Some m -> 0 <= mon_fd m ->
  p ∉ polled MissingSmon (sv_kernel s).
Proof.
  intros Hi Hm Hfd Hp. pose proof (ki_ok _ _ Hi) as Hk. destruct (ko_polled _ _ _ Hk _ _ Hp) as [x Hx].
  destruct (ko_tables _ _ _ Hk p x Hx) as (ft & ut & Htb & _).
  destruct (ko_missing _ _ _ Hk p x ft ut m Hp Htb Hm). lia.
Qed.

Lemma does_smon_kevent p event x m s :
  kq_inv at_rest s -> kq_smons (sv_kernel s) !! p = Some x -> kq_monitors (sv_kernel s) !! p = Some m ->
  0 <= mon_fd m ->
  does at_rest p (gam_kqueue_sub_monitor_handle_kevent p event) (fun _ _ => True) s.
Proof.
  intros Hi Hx Hm Hfd. pose proof (calm_at_rest p) as Hc. unfold gam_kqueue_sub_monitor_handle_kevent.
  destruct (ztest _); [apply (does_smon_unsupported at_rest p x); [by apply moving_inv|done|done|by apply (watched_not_missing at_rest p m)]|].
  eapply does_bind with (b := at_rest) (Q := fun _ _ => True).
  { apply does_when; [done|..]; intros _; [|done].
    eapply does_mono; [apply (does_smon_event at_rest p GAMIN_EVENT_CHANGED 0 x); try done|done].
    intros _. by apply (watched_not_missing at_rest p m). }
  intros [] s1 Hi1 Hst1 _. destruct (path_step p x m s s1 Hst1 Hx Hm) as (x1 & m1 & Hx1 & _).
  pose proof (moving_inv p _ _ Hi1) as Hi1'.
  destruct (ztest _); [by apply (does_smon_gone at_rest p _ _ x1)|].
  destruct (ztest _); [by apply (does_smon_gone at_rest p _ _ x1)|by apply does_ret].
Qed.

(** A file that is alive, with its directory. *)
Lemma file_live f y m s :
  kq_inv at_rest s -> kq_fmons (sv_kernel s) !! f = Some y -> kq_monitors (sv_kernel s) !! f = Some m ->
  exists x ft ut, file_of (fm_smon y) (fm_filename y) f x ft ut (sv_kernel s) /\
    fm_smon y ∉ polled MissingSmon (sv_kernel s) /\ (0 <= mon_fd m -> f ∉ left_in ut).
Proof.
  intros Hi Hf Hm. pose proof (ki_ok _ _ Hi) as Hk.
  destruct (ko_file _ _ _ Hk f y Hf) as (x & ft & ut & Htb & Hn). exists x, ft, ut. pose proof Htb as (Hx & Hx1 & Hx2).
  destruct (ko_tables _ _ _ Hk _ x Hx) as (ft0 & ut0 & (_ & E1 & E2) & (_ & _ & Hr) & _).
  assert (ft0 = ft) as -> by congruence. simpl in Hr.
  destruct (ko_smon _ _ _ Hk _ _ Hx) as (mp & Hmp & _).
  split; [split; [done|]; split; [done|]; rewrite Hr by done; apply not_elem_of_nil|]. split.
  - intros Hp. destruct (ko_missing _ _ _ Hk _ x ft ut mp Hp Htb Hmp) as [_ E]. by rewrite E in Hn.
  - intros Hfd Hl. destruct (ko_unsupported _ _ _ Hk _ x ft ut f Htb Hl) as (_ & m' & _ & _ & Hm' & Hfd').
    assert (m' = m) as -> by congruence. rewrite Hfd' in Hfd; [lia|done].
Qed.

Lemma does_fmon_kevent f event y m s :
  kq_inv at_rest s -> kq_fmons (sv_kernel s) !! f = Some y -> kq_monitors (sv_kernel s) !! f = Some m ->
  0 <= mon_fd m ->
  does at_rest (fm_smon y) (gam_kqueue_file_monitor_handle_kevent f event) (fun _ _ => True) s.
Proof.
  intros Hi Hf Hm Hfd. destruct (file_live f y m s Hi Hf Hm) as (x & ft & ut & Hfile & Hmis & Hl).
  pose proof (calm_quiet _ _ (calm_at_rest (fm_smon y))) as Hq. unfold gam_kqueue_file_monitor_handle_kevent.
  destruct (ztest _).
  { eapply does_mono; [by apply (does_fmon_unsupported at_rest _ (fm_filename y) f x ft ut); [apply moving_inv|..]|done]. }
  eapply does_bind with (b := at_rest) (Q := fun _ s' => sv_kernel s' = sv_kernel s).
  { apply does_when; [done|..]; intros _; [|done]. by apply (does_event at_rest _ (fm_filename y) f x ft ut). }
  intros [] s1 Hi1 _ E1. rewrite <- E1 in Hfile, Hmis, Hm.
  destruct (ztest _); [by apply (does_gone_or_back at_rest _ (fm_filename y) f x ft ut m _ _ s1)|].
  destruct (ztest _); [by apply (does_gone_or_back at_rest _ (fm_filename y) f x ft ut m _ _ s1)|by apply does_ret].
Qed.

(** The callback of the kqueue descriptor. *)
Lemma kevent_cb_outcome s :
  kq_inv at_rest s -> wp gam_kqueue_kevent_cb (fun r s' => r = true /\ kq_inv at_rest s' /\ exists p, step p s s') s.
Proof.
  intros Hi. unfold gam_kqueue_kevent_cb. apply wp_bind, wp_sys. intros r w Ew.
  destruct (kq_inv_kernel at_rest at_rest 1%positive s (sv_kernel s) w Hi) as [Hi1 Hst1]; [done| |].
  { rewrite (poll_knotes _ _ _ Ew). apply Hi. }
  set (s1 := set_sv_world w s). change (kq_inv at_rest s1) in Hi1. change (step 1%positive s s1) in Hst1.
  assert (forall p, step p s s1) as Hst by (intros p; by split).
  destruct r as [[event|]|e]; [|apply wp_ret; split; [done|]; split; [done|]; by exists 1%positive..].
  destruct (poll_registered _ _ _ Ew) as [fd Hfd].
  destruct (ko_notes _ _ _ (ki_ok _ _ Hi) _ _ Hfd) as (H0 & p & m & E & Hm & Efd). injection E as E.
  unfold dispatch_kevent. rewrite E. apply wp_bind. kq_load Hm.
  pose proof (ko_kind _ _ _ (ki_ok _ _ Hi) _ _ Hm) as Hkind.
  destruct (handle_kevent m); destruct Hkind as [x Hx].
  - eapply wp_mono; [apply (does_smon_kevent p event x m s1); try done; lia|].
    intros [] s2 (Hi2 & Hst2 & _). apply wp_ret. split; [done|]. split; [done|]. exists p. by transitivity s1.
  - eapply wp_mono; [apply (does_fmon_kevent p event x m s1); try done; lia|].
    intros [] s2 (Hi2 & Hst2 & _). apply wp_ret. split; [done|]. split; [done|]. exists (fm_smon x). by transitivity s1.
Qed.
End Events.
