(* ===== verification/KqueuePolls.v ===== *)
(** * Safety of the kqueue backend: the pollers

    The end of an iteration over a table, what one round of each poller does to
    a monitor, the polls of the files that the kernel would not watch, and the
    timers' callback. *)

From S2P Require Import Prelude Protocol EventQueue Monad OS Fs.
From S2P Require Import State Subscription Listener ConnSend Inv Emit.
From S2P Require Import Safety Server KqueueState KqueueTables Kqueue KqueueInv.
From S2P Require Import KqueueSafety KqueueFiles KqueueClear KqueueEvents.

Local Open Scope Z_scope.

#[local] Existing Instance kqueue_kernel.

(** A table after the removals that were put off. *)
Definition swept (t : HashTable (gset ptr)) : HashTable (gset ptr) := mk_table (left_in t) false [] [].

Lemma swept_left t : left_in (swept t) = left_in t.
Proof. unfold left_in at 1. simpl. set_solver. Qed.

Lemma swept_ok t : table_ok false (swept t).
Proof. done. Qed.

(** [swept] is what is left in a table without removals, too. *)
Lemma swept_settled t : table_ok true t -> pending_removals t = [] -> set_iterating false t = swept t.
Proof.
  intros (_ & Ha & _) Hr. destruct t as [main it a r]. unfold swept, left_in, set_iterating. simpl in *. subst.
  f_equal. set_solver.
Qed.

Section Polls.
Context {os : OS} {glib : GLib} {kq : Kqueue os} {kl : KqueueLaws kq} {laws : OSLaws os}.
Abbreviation M := (ST server).

(** ** The end of an iteration *)

Section Cell.
(** A table of pointers, wherever it is. *)
Context (get : server -> option (HashTable (gset ptr))) (put : HashTable (gset ptr) -> server -> server).
Context (load : M (HashTable (gset ptr))) (modify : (HashTable (gset ptr) -> HashTable (gset ptr)) -> M unit).
Context (get_put : forall s t t', get s = Some t -> get (put t' s) = Some t').
Context (put_put : forall s t t', put t (put t' s) = put t s).
Context (put_get : forall s t, get s = Some t -> put t s = s).
Context (load_eq : forall s t, get s = Some t -> load s = Ok (t, s)).
Context (modify_eq : forall f s t, get s = Some t -> modify f s = Ok (tt, put (f t) s)).
Context (add : ptr -> M unit) (post_add : option (M unit)) (post_remove : option (M unit)).

Definition cell : Table := {|
  tb_type := gset ptr;
  tb_load := load;
  tb_modify := modify;
  tb_values := elements;
  tb_add := add;
  tb_post_add := post_add;
  tb_remove := gam_kqueue_hash_table_default_remove_cb modify;
  tb_post_remove := post_remove
|}.

Lemma remove_items l s t : get s = Some t ->
  for_each l (gam_kqueue_hash_table_default_remove_cb modify) s =
  Ok (tt, put (set_ht_main (ht_main t ∖ list_to_set l) t) s).
Proof.
  revert s t. induction l as [|p l IH]; intros s t Ht; simpl.
  - assert (set_ht_main (ht_main t ∖ ∅) t = t) as -> by (destruct t; unfold set_ht_main; simpl; f_equal; set_solver).
    by rewrite put_get.
  - erewrite bind_Ok by by apply modify_eq. rewrite (IH _ (set_ht_main (ht_main t ∖ {[p]}) t)) by by eapply get_put.
    rewrite put_put. unfold set_ht_main. simpl. do 4 f_equal. set_solver.
Qed.

Lemma finish_eq s t : get s = Some t -> table_ok true t ->
  (_ ← modify (set_iterating false); _ ← flush_additions cell; flush_removals cell) s =
  match pending_removals t with
  | [] => Ok (tt, put (swept t) s)
  | _ => call_post post_remove (put (swept t) s)
  end.
Proof.
  intros Ht Hok. pose proof Hok as (_ & Ha & _). erewrite bind_Ok by by apply modify_eq.
  set (t1 := set_iterating false t). pose proof (get_put s t t1 Ht) as Ht1.
  rewrite (bind_Ok _ _ _ tt (put t1 s)).
  2:{ unfold flush_additions. cbn [tb_load cell]. rewrite (bind_Ok _ _ _ _ _ (load_eq _ _ Ht1)).
      cbn [tb_type cell]. change (pending_additions t1) with (pending_additions t). by rewrite Ha. }
  unfold flush_removals. cbn [tb_load cell]. rewrite (bind_Ok _ _ _ _ _ (load_eq _ _ Ht1)).
  cbn [tb_type cell]. change (pending_removals t1) with (pending_removals t).
  destruct (pending_removals t) as [|p l] eqn:Er.
  - unfold t1. by rewrite (swept_settled t Hok Er).
  - cbn [tb_remove cell]. rewrite (bind_Ok _ _ _ _ _ (remove_items (p :: l) _ _ Ht1)). rewrite put_put.
    cbn [tb_modify cell]. erewrite bind_Ok by (apply modify_eq; by eapply get_put). rewrite put_put.
    cbn [tb_post_remove cell]. f_equal. f_equal. unfold t1, swept, left_in, set_removals, set_ht_main. simpl.
    by rewrite Ha, Er.
Qed.
End Cell.

(** ** A round of a poller *)

(** The poller after its round. *)
Definition poller_swept (P : Poller) : Poller :=
  mk_poller (pl_interval P) (negb (bool_decide (left_in (pl_smons P) = ∅))) (swept (pl_smons P)).

(** Where its table is. *)
Definition poller_get (i : poller_id) (s : server) : option (HashTable (gset ptr)) :=
  Some (pl_smons (kq_pollers (sv_kernel s) i)).
Definition poller_put (i : poller_id) (t : HashTable (gset ptr)) (s : server) : server :=
  upd_kq (fun k => set_poller i (set_pl_smons t (kq_pollers k i)) k) s.

Lemma poller_finish i s :
  let P := kq_pollers (sv_kernel s) i in
  table_ok true (pl_smons P) -> pl_timeout P = negb (bool_decide (ht_main (pl_smons P) = ∅)) ->
  (_ ← poller_modify_smons i (set_iterating false);
   _ ← flush_additions (poller_table i); flush_removals (poller_table i)) s =
  Ok (tt, set_sv_kernel (set_poller i (poller_swept P) (sv_kernel s)) s).
Proof.
  intros P Ht Htm. pose proof Ht as (_ & Ha & _).
  etransitivity; [apply (finish_eq (poller_get i) (poller_put i)
    (kq_gets (fun k => pl_smons (kq_pollers k i))) (poller_modify_smons i)); try done|].
  - intros s0 t t' _. unfold poller_get. simpl. by rewrite kq_pollers_set, decide_True.
  - intros s0 t t'. unfold poller_put, upd_kq. simpl. rewrite kq_pollers_set, decide_True by done. simpl.
    by rewrite set_poller_twice.
  - intros s0 t [= <-]. unfold poller_put, upd_kq. assert (forall Q, set_pl_smons (pl_smons Q) Q = Q) as -> by by intros [].
    rewrite set_poller_same. by destruct s0.
  - by intros s0 t [= <-].
  - by intros f s0 t [= <-].
  - fold P. set (t := pl_smons P) in *. destruct (pending_removals t) as [|q l] eqn:Er.
    + unfold poller_put, upd_kq. fold P. unfold poller_swept. fold t.
      assert (left_in t = ht_main t) as -> by (unfold left_in; rewrite Er; set_solver).
      rewrite <- Htm. done.
    + cbn [call_post]. unfold gam_kqueue_poller_post_remove_cb. erewrite bind_Ok by done.
      unfold poller_put, upd_kq. fold P. simpl. rewrite kq_pollers_set, decide_True by done. simpl. rewrite Htm.
      unfold poller_swept. fold t. destruct (decide (left_in t = ∅)) as [E|E].
      * rewrite (bool_decide_eq_true_2 _ E). simpl. destruct (decide (ht_main t = ∅)) as [E'|E'].
        -- rewrite (bool_decide_eq_true_2 _ E'). simpl. unfold set_pl_smons. rewrite Htm.
           by rewrite (bool_decide_eq_true_2 _ E').
        -- rewrite (bool_decide_eq_false_2 _ E'). simpl. rewrite poller_modify_eq. simpl.
           rewrite kq_pollers_set, decide_True by done. simpl. by rewrite set_poller_twice.
      * rewrite (bool_decide_eq_false_2 _ E). simpl. unfold set_pl_smons. rewrite Htm.
        rewrite bool_decide_eq_false_2; [done|]. intros E'. apply E. unfold left_in. rewrite E'. set_solver.
Qed.

(** What a round leaves alone, whichever monitors it works on. *)
Record served (s s' : server) : Prop := {
  sd_subs : subs (sv_heap s') = subs (sv_heap s);
  sd_listeners : listeners (sv_heap s') = listeners (sv_heap s);
  sd_ready c : conn_ready c s -> conn_ready c s';
  sd_hash d : smon_hash d (sv_kernel s') = smon_hash d (sv_kernel s);
  sd_live q : is_Some (kq_smons (sv_kernel s') !! q) <-> is_Some (kq_smons (sv_kernel s) !! q)
}.

#[export] Instance served_preorder : PreOrder served.
Proof.
  split; [by split|]. intros s1 s2 s3 [A1 A2 A3 A4 A5] [B1 B2 B3 B4 B5].
  split; [congruence|congruence|auto|intros d; congruence|intros q; by rewrite B5].
Qed.

Lemma step_served p s s' : step p s s' -> served s s'.
Proof. intros [[Hl _ _ Hh] ? ? ?]. by split. Qed.

Definition polling (i : poller_id) : busy := set_by_poller (Some i) at_rest.

(** If [func] works on a polled monitor, of which the poller's round began
    with what [J] says, so does the round. *)
Lemma wp_round i (J : Monitor -> Prop) (func : ptr -> M unit) s :
  (forall p x m s', kq_inv (polling i) s' -> p ∈ polled i (sv_kernel s') ->
    kq_smons (sv_kernel s') !! p = Some x -> kq_monitors (sv_kernel s') !! p = Some m -> J m ->
    does (polling i) p (func p) (fun _ _ => True) s') ->
  kq_inv at_rest s ->
  (forall p m, p ∈ polled i (sv_kernel s) -> kq_monitors (sv_kernel s) !! p = Some m -> J m) ->
  wp (gam_kqueue_hash_table_foreach (poller_table i) func) (fun _ s' => kq_inv at_rest s' /\ served s s') s.
Proof.
  intros Hf Hi HJ. pose proof (ki_ok _ _ Hi) as Hk.
  set (pl := kq_pollers (sv_kernel s) i). pose proof (ko_poller _ _ _ Hk i) as Ht. fold pl in Ht. simpl in Ht.
  destruct Ht as (Hit & Ha & Hr). specialize (Hr eq_refl).
  unfold gam_kqueue_hash_table_foreach. apply wp_bind, wp_kq_gets. cbn [tb_type poller_table]. fold pl.
  rewrite Hit. apply wp_bind, wp_assert; [done|]. apply wp_bind. unfold wp at 1. cbn [tb_modify poller_table].
  unfold poller_modify_smons at 1. rewrite poller_modify_eq. fold pl.
  set (P1 := set_pl_smons (set_iterating true (pl_smons pl)) pl). set (s1 := set_sv_kernel _ s).
  assert (left_in (pl_smons P1) = polled i (sv_kernel s)) as El by done.
  destruct (kq_inv_kernel at_rest (polling i) 1%positive s (set_poller i P1 (sv_kernel s)) (sv_world s) Hi) as [Hi1 _].
  { apply kstep_poller. intros q _. by rewrite El. }
  { apply (ok_set_poller at_rest _ _ Hk); try done.
    - intros q Hq. by left.
    - by rewrite bool_decide_eq_true_2.
    - intros j Hj. rewrite !bool_decide_eq_false_2; [done|done|]. simpl. congruence.
    - apply (ko_timer _ _ _ Hk i).
    - intros q. rewrite El. apply (ko_polled _ _ _ Hk i).
    - intros -> q x ft ut Htb Hu. rewrite El. by apply (ko_polled_fmons _ _ _ Hk q x ft ut). }
  change (kq_inv (polling i) s1) in Hi1.
  assert (served s s1) as Hs1 by (split; try done; intros d; by destruct i, d).
  assert (forall q, q ∈ polled i (sv_kernel s1) <-> q ∈ polled i (sv_kernel s)) as Epol.
  { intros q. unfold s1. simpl. rewrite polled_set, decide_True by done. by rewrite El. }
  apply wp_bind, wp_gets. cbn [tb_values poller_table]. set (l := foreach_order _ _).
  set (I := fun (rest : list ptr) (s' : server) => kq_inv (polling i) s' /\ served s s' /\ NoDup rest /\
    forall q, q ∈ rest -> q ∈ polled i (sv_kernel s') /\
      exists m, kq_monitors (sv_kernel s') !! q = Some m /\ J m).
  apply wp_bind. eapply wp_mono; [apply (wp_for_each I)|].
  - intros p rest s2 (Hi2 & Hsd2 & Hnd & Hrest). apply NoDup_cons in Hnd as [Hp Hnd].
    destruct (Hrest p) as [Hpp (m & Hm & Hj)]; [by left|].
    destruct (ko_polled _ _ _ (ki_ok _ _ Hi2) i p Hpp) as [x Hx].
    eapply wp_mono; [by apply (Hf p x m s2)|]. intros [] s3 (Hi3 & Hst3 & _). unfold I. split; [done|].
    split; [transitivity s2; [done|by apply (step_served p)]|]. split; [done|]. intros q Hq.
    destruct (Hrest q) as [Hqp (mq & Hmq & Hjq)]; [by right|]. assert (q <> p) as Hne by congruence.
    destruct (ks_other _ _ _ (st_kernel _ _ _ Hst3) q Hne (ko_polled _ _ _ (ki_ok _ _ Hi2) i q Hqp)) as (_ & E & Hpi).
    split; [by apply Hpi|]. exists mq. by rewrite E.
  - unfold I. split; [done|]. split; [done|]. split.
    + unfold l. rewrite order_perm. apply NoDup_elements.
    + intros q Hq. unfold l in Hq. rewrite order_perm in Hq. apply elem_of_elements in Hq.
      assert (q ∈ polled i (sv_kernel s)) as Hq' by (unfold polled, left_in; fold pl; rewrite Hr; set_solver).
      split; [by apply Epol|]. destruct (ko_polled _ _ _ Hk i q Hq') as [x Hx].
      destruct (ko_smon _ _ _ Hk q x Hx) as (m & Hm & _). exists m. split; [done|]. by apply (HJ q m).
  - intros [] s2 (Hi2 & Hsd2 & _). unfold wp. pose proof (ki_ok _ _ Hi2) as Hk2.
    cbn [tb_modify poller_table]. pose proof (ko_poller _ _ _ Hk2 i) as Ht2. simpl in Ht2.
    rewrite bool_decide_eq_true_2 in Ht2 by done.
    rewrite (poller_finish i s2 Ht2 (ko_timer _ _ _ Hk2 i)). set (P2 := poller_swept _).
    assert (left_in (pl_smons P2) = polled i (sv_kernel s2)) as El2 by apply swept_left.
    destruct (kq_inv_kernel (polling i) at_rest 1%positive s2 (set_poller i P2 (sv_kernel s2)) (sv_world s2) Hi2) as [Hi3 _].
    { apply kstep_poller. intros q _. by rewrite El2. }
    { apply (ok_set_poller (polling i) _ _ Hk2); try done.
      - intros q Hq. by left.
      - intros j Hj. rewrite !bool_decide_eq_false_2; [done| |done]. simpl. congruence.
      - intros q. rewrite El2. apply (ko_polled _ _ _ Hk2 i).
      - intros -> q x ft ut m. rewrite El2. intros Hq Hn. by destruct Hn.
      - intros q. rewrite El2. intros Hq Hn. by destruct Hn.
      - intros -> q x ft ut Htb Hu. rewrite El2. by apply (ko_polled_fmons _ _ _ Hk2 q x ft ut).
      - intros _ q Hq _. by rewrite El2. }
    split; [exact Hi3|]. transitivity s2; [done|]. split; try done; intros d; by destruct i, d.
Qed.
End Polls.

Section Timers.
Context {os : OS} {glib : GLib} {kq : Kqueue os} {kl : KqueueLaws kq} {laws : OSLaws os}.
Abbreviation M := (ST server).

(** ** Missing paths *)

Lemma calm_polling i p : i <> UnsupportedFmon -> calm (polling i) p.
Proof. intros Hi. split; try done. simpl. congruence. Qed.

Lemma does_missing_smon_poll p x m s :
  kq_inv (polling MissingSmon) s -> p ∈ polled MissingSmon (sv_kernel s) ->
  kq_smons (sv_kernel s) !! p = Some x -> kq_monitors (sv_kernel s) !! p = Some m ->
  does (polling MissingSmon) p (gam_kqueue_missing_smon_poll p) (fun _ _ => True) s.
Proof.
  intros Hi Hp Hx Hm. unfold gam_kqueue_missing_smon_poll. kq_load Hm.
  eapply does_bind; [by apply does_look; [apply looks_lstat|]|]. intros [st|] s1 Hi1 _ E1; [|by apply does_ret].
  rewrite <- E1 in Hp, Hx, Hm. pose proof (ki_ok _ _ Hi1) as Hk1.
  destruct (ko_tables _ _ _ Hk1 p x Hx) as (ft & ut & Htb & _).
  destruct (ko_missing _ _ _ Hk1 p x ft ut m Hp Htb Hm) as [Efd Eft].
  eapply does_bind; [apply (does_poller_remove (moving p (polling MissingSmon)));
    [by apply moving_inv|done|simpl; set_solver]|].
  intros [] s2 Hi2 _ (P & E2 & EP).
  assert (has_tables (sv_kernel s2) p x ft ut) as Htb2 by by rewrite E2.
  assert (kq_monitors (sv_kernel s2) !! p = Some m) as Hm2 by by rewrite E2.
  apply (does_enable_notification (polling MissingSmon) p _ x ft ut m); try done.
  - by destruct (mode_isdir (kst_mode st)).
  - rewrite E2, polled_set, decide_True by done. set_solver.
Qed.

(** ** Paths that cannot be watched *)

(** [++mon->poll_count == n] *)
Definition due (n : Z) (m : Monitor) : bool := u32 (poll_count m + 1) =? n.
Definition counted (n : Z) (m : Monitor) : Monitor :=
  set_poll_count (if due n m then 0 else u32 (poll_count m + 1)) m.

Lemma does_retry_due b p q n m s :
  kq_inv b s -> kq_monitors (sv_kernel s) !! q = Some m -> q = p \/ kq_smons (sv_kernel s) !! q = None ->
  does b p (retry_due q n) (fun r s' => r = due n m /\
    sv_kernel s' = set_kq_monitors (<[q := counted n m]> (kq_monitors (sv_kernel s))) (sv_kernel s)) s.
Proof.
  intros Hi Hm Hqp. unfold retry_due. kq_load Hm.
  eapply does_bind; [by apply (does_monitor_core b p q _ m)|]. intros [] s1 Hi1 _ E1. simpl in E1.
  unfold counted. destruct (due n m) eqn:Ed; unfold due in Ed; rewrite Ed.
  - assert (kq_monitors (sv_kernel s1) !! q = Some (set_poll_count (u32 (poll_count m + 1)) m)) as Hm1
      by (rewrite E1; apply lookup_insert_eq).
    eapply does_bind.
    { eapply (does_monitor_core b p q _ _ s1 Hi1 Hm1); try done. by rewrite E1. }
    intros [] s2 Hi2 _ E2. apply does_ret; [done|]. split; [done|]. rewrite E2, E1. simpl.
    by rewrite insert_insert_eq.
  - by apply does_ret.
Qed.

(** Every tenth poll tries the kernel again; when the monitor already has a
    descriptor it would be lost, so this is what the poll needs. *)
Definition may_retry (m : Monitor) : Prop :=
  due CFG_UNSUPPORTED_SMON_KQUEUE_RETRY_FREQUENCY m = true -> mon_fd m = -1.

Lemma polled_events old new event : polled_event old new = Some event ->
  event = GAMIN_EVENT_DELETED \/ event = GAMIN_EVENT_CHANGED.
Proof. unfold polled_event. repeat case_match; naive_solver. Qed.

Lemma polled_flags_known sb :
  ztest (polled_flags sb .& FILE_MONITOR_POSSIBLY_RECREATED) = false /\
  ztest (polled_flags sb .& MONITOR_ISNOTDIR) || ztest (polled_flags sb .& MONITOR_ISDIR) = true.
Proof. unfold polled_flags. by destruct (mode_isdir _). Qed.

Definition not_missing (p : ptr) (s : server) : Prop := p ∉ polled MissingSmon (sv_kernel s).

Lemma does_unsupported_smon_poll p x m s :
  kq_inv (polling UnsupportedSmon) s -> p ∈ polled UnsupportedSmon (sv_kernel s) ->
  kq_smons (sv_kernel s) !! p = Some x -> kq_monitors (sv_kernel s) !! p = Some m -> may_retry m ->
  does (polling UnsupportedSmon) p (gam_kqueue_unsupported_smon_poll p) (fun _ _ => True) s.
Proof.
  intros Hi Hp Hx Hm Hret. pose proof (calm_polling UnsupportedSmon p ltac:(done)) as Hc.
  assert (p ∉ polled MissingSmon (sv_kernel s)) as Hmis by (intros ?; by apply (ko_apart _ _ _ (ki_ok _ _ Hi) p)).
  unfold gam_kqueue_unsupported_smon_poll.
  eapply does_bind; [by apply (does_retry_due (polling UnsupportedSmon) p p _ m); [..|by left]|].
  intros d s1 Hi1 Hst1 [-> E1]. set (m1 := counted _ m) in E1.
  assert (kq_monitors (sv_kernel s1) !! p = Some m1) as Hm1 by (rewrite E1; apply lookup_insert_eq).
  assert (p ∉ polled MissingSmon (sv_kernel s1)) as Hmis1 by by rewrite E1.
  assert (p ∈ polled UnsupportedSmon (sv_kernel s1)) as Hp1 by by rewrite E1.
  assert (kq_smons (sv_kernel s1) !! p = Some x) as Hx1 by by rewrite E1.
  eapply does_bind with (b := polling UnsupportedSmon) (Q := fun _ => not_missing p).
  { apply does_when; [done| |done]. intros Hd. assert (mon_fd m1 = -1) as Efd by by apply Hret.
    eapply does_bind with (b := moving p (polling UnsupportedSmon)); [apply (does_enable _ p p m1); try done;
      [by apply moving_inv|simpl; set_solver|by left]|].
    intros ok s2 Hi2 _ (fd & o & E2 & _).
    assert (polled MissingSmon (sv_kernel s2) = polled MissingSmon (sv_kernel s1)) as Ep2 by by rewrite E2.
    assert (p ∈ polled UnsupportedSmon (sv_kernel s2)) as Hp2 by by rewrite E2.
    assert (kq_smons (sv_kernel s2) !! p = Some x) as Hx2 by by rewrite E2.
    assert (kq_monitors (sv_kernel s2) !! p = Some (set_mon_fd fd m1)) as Hm2
      by (rewrite E2; apply lookup_insert_eq).
    assert (kq_inv (polling UnsupportedSmon) s2) as Hi2'.
    { apply (settled_path _ p x (set_mon_fd fd m1)); [done..|]. by right; right. }
    apply does_when; [done| |intros _; unfold not_missing; by rewrite Ep2]. intros _.
    eapply wp_mono; [apply (does_poller_remove (moving p (polling UnsupportedSmon))); [done..|simpl; set_solver]|].
    intros [] s3 (Hi3 & Hst3 & P & E3 & EP). split; [|split; [done|]].
    - apply (settled_path _ p x (set_mon_fd fd m1)); [done|by rewrite E3|by rewrite E3|].
      right; right. by rewrite E3, polled_set, decide_False.
    - unfold not_missing. rewrite E3, polled_set, decide_True by done. rewrite EP. set_solver. }
  intros [] s2 Hi2 Hst2 Hmis2. unfold not_missing in Hmis2. destruct (path_step p x m1 s1 s2 Hst2 Hx1 Hm1) as (x2 & m2 & Hx2 & Hm2 & _).
  kq_load Hm2. eapply does_bind; [by apply does_look; [apply looks_mini|]|].
  intros sb s3 Hi3 _ E3. rewrite <- E3 in Hmis2, Hx2, Hm2.
  destruct (polled_event (mon_sb m2) sb) as [event|] eqn:Ee; [|by apply does_ret].
  eapply does_bind; [by apply (does_monitor_core (polling UnsupportedSmon) p p _ m2); [..|by left| | |]|].
  intros [] s4 Hi4 _ E4.
  assert (kq_smons (sv_kernel s4) !! p = Some x2) as Hx4 by by rewrite E4.
  assert (p ∉ polled MissingSmon (sv_kernel s4)) as Hmis4 by by rewrite E4.
  destruct (polled_events _ _ _ Ee) as [-> | ->].
  - apply (does_smon_gone (polling UnsupportedSmon) p _ _ x2); try done. by apply moving_inv.
  - eapply does_mono; [by apply (does_smon_event (polling UnsupportedSmon) p _ _ x2)|done].
Qed.
End Timers.

Section FilePolls.
Context {os : OS} {glib : GLib} {kq : Kqueue os} {kl : KqueueLaws kq} {laws : OSLaws os}.
Abbreviation M := (ST server).

(** The other files of [ut] are still to be polled. *)
Definition others_stay (f : ptr) (ut ut' : HashTable (gset ptr)) : Prop :=
  forall g, g <> f -> g ∈ left_in ut -> g ∈ left_in ut'.

(** [f], now [m], is entered with [p], whose other polled files are still there. *)
Definition retried (p : ptr) (name : string) (f : ptr) (ft : HashTable (gmap string ptr)) (ut : HashTable (gset ptr))
  (s : server) : Prop := exists x' ut' m', file_of p name f x' ft ut' (sv_kernel s) /\
  kq_monitors (sv_kernel s) !! f = Some m' /\ (0 <= mon_fd m' -> f ∉ left_in ut') /\ others_stay f ut ut'.

Section OneFile.
Context (b : busy) (p : ptr) (name : string) (f : ptr).
Context (Hbs : by_unsettled b = None) (Hbf : by_fmons b <> Some p).

Lemma does_retry_file (c : bool) x ft ut m s :
  kq_inv b s -> file_of p name f x ft ut (sv_kernel s) -> kq_monitors (sv_kernel s) !! f = Some m ->
  mon_fd m = -1 -> f ∈ left_in ut ->
  does b p (when c (ok ← gam_kqueue_monitor_enable_kqueue f;
                    when ok (y ← kload (A := FileMonitor) f;
                             gam_kqueue_hash_table_remove (unsupported_table (fm_smon y)) f)))
    (fun _ => retried p name f ft ut) s.
Proof.
  intros Hi Hf Hm Efd Hl. destruct (file_of_facts _ _ _ _ _ _ _ _ Hi Hf) as (Hff & Hs & Hmis & _).
  apply does_when; [done|..]; intros _.
  2:{ exists x, ut, m. split; [done|]. split; [done|]. split; [lia|]. by intros g. }
  eapply does_bind with (b := moving f b); [apply (does_enable _ p f m); try done;
    [by apply moving_inv|simpl; set_solver|by right]|].
  intros ok s1 Hi1 Hst1 (fd & o & E1 & Hok).
  assert (file_of p name f x ft ut (sv_kernel s1)) as Hf1 by by rewrite E1.
  assert (kq_monitors (sv_kernel s1) !! f = Some (set_mon_fd fd m)) as Hm1 by (rewrite E1; apply lookup_insert_eq).
  assert (kq_fmons (sv_kernel s1) !! f = Some (mk_fmon p name)) as Hff1 by by rewrite E1.
  destruct ok; simpl.
  - kq_load Hff1. cbn [fm_smon]. pose proof Hf1 as (Htb1 & Hn1 & Hr1).
    eapply wp_mono; [apply (does_unsupported_remove (moving f b) p f x ft ut); try done; simpl; set_solver|].
    intros [] s2 (Hi2 & Hst2 & ut' & P & E2 & El).
    assert (file_of p name f (set_sm_unsupported (Some ut') x) ft ut' (sv_kernel s2)) as Hf2.
    { split; [|done]. rewrite E2. destruct Htb1 as (_ & ? & _). split; [apply lookup_insert_eq|done]. }
    assert (kq_monitors (sv_kernel s2) !! f = Some (set_mon_fd fd m)) as Hm2 by (rewrite E2; exact Hm1).
    assert (f ∉ left_in ut') as Hnl by (rewrite El; set_solver).
    split; [|split; [done|]].
    + apply (settled_file p name f (set_sm_unsupported (Some ut') x) ft ut' (set_mon_fd fd m)); try done. split; [done|]. simpl. lia.
    + exists (set_sm_unsupported (Some ut') x), ut', (set_mon_fd fd m). do 3 (split; [done|]).
      intros g Hg Hgl. rewrite El. set_solver.
  - subst fd. apply does_ret; [by apply (settled_file p name f x ft ut (set_mon_fd (-1) m))|].
    exists x, ut, (set_mon_fd (-1) m). do 2 (split; [done|]). split; [done|]. by intros g.
Qed.

Lemma does_unsupported_fmon_cb x ft ut m s :
  kq_inv b s -> file_of p name f x ft ut (sv_kernel s) -> kq_monitors (sv_kernel s) !! f = Some m ->
  mon_fd m = -1 -> f ∈ left_in ut ->
  does b p (gam_kqueue_unsupported_fmon_poll_foreach_cb f) (fun _ s' => exists x' ft' ut',
    has_tables (sv_kernel s') p x' ft' ut' /\ others_stay f ut ut') s.
Proof.
  intros Hi Hf Hm Efd Hl. destruct (file_of_facts _ _ _ _ _ _ _ _ Hi Hf) as (Hff & Hs & _).
  unfold gam_kqueue_unsupported_fmon_poll_foreach_cb.
  eapply does_bind; [by apply (does_retry_due b p f _ m); [..|by right]|]. intros d s1 Hi1 _ [-> E1].
  assert (file_of p name f x ft ut (sv_kernel s1)) as Hf1 by by rewrite E1.
  set (m1 := counted _ m) in E1.
  assert (kq_monitors (sv_kernel s1) !! f = Some m1) as Hm1 by (rewrite E1; apply lookup_insert_eq).
  eapply does_bind; [by apply (does_retry_file _ x ft ut m1)|].
  intros [] s2 Hi2 _ (x2 & ut2 & m2 & Hf2 & Hm2 & Hl2 & Hut2). kq_load Hm2.
  eapply does_bind; [by apply does_look; [apply looks_mini|]|]. intros sb s3 Hi3 _ E3. rewrite <- E3 in Hf2, Hm2.
  destruct (polled_event (mon_sb m2) sb) as [event|] eqn:Ee.
  2:{ apply does_ret; [done|]. exists x2, ft, ut2. split; [apply Hf2|done]. }
  destruct (file_of_facts _ _ _ _ _ _ _ _ Hi3 Hf2) as (_ & Hs2 & _).
  eapply does_bind; [by apply (does_monitor_core b p f _ m2); [..|by right| | |]|]. intros [] s4 Hi4 _ E4.
  assert (file_of p name f x2 ft ut2 (sv_kernel s4)) as Hf4 by by rewrite E4.
  assert (kq_monitors (sv_kernel s4) !! f = Some (set_mon_sb sb m2)) as Hm4 by (rewrite E4; apply lookup_insert_eq).
  destruct (polled_flags_known sb) as [Hfl1 Hfl2].
  destruct (polled_events _ _ _ Ee) as [-> | ->].
  - eapply does_mono; [by apply (does_gone b p name f x2 ft ut2 (set_mon_sb sb m2))|].
    intros [] s5 _ _ (ut5 & P & o & El & E5). pose proof Hf4 as ((Hx4 & _) & _).
    assert (f <> p) as Hfp by (intros ->; pose proof (eq_trans (eq_sym Hs2) (eq_trans (eq_sym (f_equal (fun k => kq_smons k !! p) E4)) Hx4)); done).
    do 3 eexists. split.
    + rewrite E5. unfold has_tables, drop_fmon_state. simpl. rewrite lookup_delete_ne by done.
      rewrite lookup_insert_eq. done.
    + intros g Hg Hgl. rewrite El. apply elem_of_difference. split; [by apply Hut2|set_solver].
  - eapply does_mono; [by apply (does_event b p name f x2 ft ut2)|]. intros [] s5 _ _ E5.
    exists x2, ft, ut2. rewrite E5. split; [apply Hf4|done].
Qed.
End OneFile.

(** ** The end of the round of a directory *)

Definition unsupported_get (p : ptr) (s : server) : option (HashTable (gset ptr)) :=
  match kq_smons (sv_kernel s) !! p with Some x => sm_unsupported x | None => None end.
Definition unsupported_put (p : ptr) (t : HashTable (gset ptr)) (s : server) : server :=
  match kq_smons (sv_kernel s) !! p with
  | Some x => upd_kq (fun k => set_kq_smons (<[p := set_sm_unsupported (Some t) x]> (kq_smons k)) k) s
  | None => s
  end.

Lemma unsupported_put_eq p x ft ut t s :
  has_tables (sv_kernel s) p x ft ut ->
  unsupported_put p t s = set_sv_kernel (with_unsupported p x t (kq_pollers (sv_kernel s) UnsupportedFmon) (sv_kernel s)) s.
Proof.
  intros (Hx & _). unfold unsupported_put. rewrite Hx. unfold upd_kq, with_unsupported. f_equal. symmetry.
  exact (set_poller_same UnsupportedFmon _).
Qed.

(** The poller after that: the directory leaves it with its last file. *)
Definition fmon_poller_after (p : ptr) (ut : HashTable (gset ptr)) (P : Poller) : Poller :=
  if bool_decide (pending_removals ut = []) then P
  else if bool_decide (left_in ut = ∅) then poller_minus p P else P.

Lemma unsupported_finish p x ft ut s :
  has_tables (sv_kernel s) p x ft ut -> table_ok true ut ->
  (_ ← modify_unsupported p (set_iterating false);
   _ ← flush_additions (unsupported_table p); flush_removals (unsupported_table p)) s =
  Ok (tt, set_sv_kernel (with_unsupported p x (swept ut)
            (fmon_poller_after p ut (kq_pollers (sv_kernel s) UnsupportedFmon)) (sv_kernel s)) s).
Proof.
  intros Htb Ht. pose proof Htb as (Hx & Hxf & Hxu).
  etransitivity; [apply (finish_eq (unsupported_get p) (unsupported_put p)
    (load_unsupported p) (modify_unsupported p)) with (t := ut); try done|].
  - intros s0 t t'. unfold unsupported_get, unsupported_put.
    destruct (kq_smons (sv_kernel s0) !! p) as [y|] eqn:E; [|by rewrite E]. intros _. simpl. by rewrite lookup_insert_eq.
  - intros s0 t t'. unfold unsupported_put at 2 3. destruct (kq_smons (sv_kernel s0) !! p) as [y|] eqn:E.
    + unfold unsupported_put, upd_kq. simpl. rewrite lookup_insert_eq. simpl. by rewrite insert_insert_eq.
    + unfold unsupported_put. by rewrite E.
  - intros s0 t. unfold unsupported_get, unsupported_put. destruct (kq_smons (sv_kernel s0) !! p) as [y|] eqn:E; [|done].
    intros Hu. assert (set_sm_unsupported (Some t) y = y) as -> by (unfold set_sm_unsupported; rewrite <- Hu; by destruct y).
    unfold upd_kq. rewrite insert_id by done. assert (set_kq_smons (kq_smons (sv_kernel s0)) (sv_kernel s0) = sv_kernel s0) as ->
      by by destruct (sv_kernel s0). by destruct s0.
  - intros s0 t. unfold unsupported_get, load_unsupported.
    destruct (kq_smons (sv_kernel s0) !! p) as [y|] eqn:E; [|done]. intros Hu.
    rewrite (bind_Ok _ _ s0 y s0) by (unfold kload; simpl; by rewrite E). by rewrite Hu.
  - intros f s0 t. unfold unsupported_get, unsupported_put, modify_unsupported, load_unsupported.
    destruct (kq_smons (sv_kernel s0) !! p) as [y|] eqn:E; [|done]. intros Hu.
    rewrite (bind_Ok _ _ s0 t s0).
    2:{ rewrite (bind_Ok _ _ s0 y s0) by (unfold kload; simpl; by rewrite E). by rewrite Hu. }
    unfold kupdate. simpl. by rewrite E.
  - unfold unsupported_get. by rewrite Hx.
  - unfold fmon_poller_after. rewrite (unsupported_put_eq p x ft ut) by done.
    set (pl := kq_pollers (sv_kernel s) UnsupportedFmon).
    destruct (pending_removals ut) as [|q l] eqn:Er; [done|]. cbn [call_post].
    rewrite bool_decide_eq_false_2 by done. unfold gam_kqueue_sub_monitor_post_remove_unsupported_fmon_cb.
    set (s1 := set_sv_kernel (kern := kqueue_kernel) _ s).
    assert (has_tables (sv_kernel s1) p (set_sm_unsupported (Some (swept ut)) x) ft (swept ut)) as Htb1
      by (split; [apply lookup_insert_eq|done]).
    rewrite (bind_Ok _ _ _ _ _ (load_unsupported_eq _ _ _ _ _ Htb1)). simpl (ht_main (swept ut)).
    destruct (decide (left_in ut = ∅)) as [E|E].
    + rewrite !(bool_decide_eq_true_2 _ E). cbn [when]. rewrite poller_remove_eq. subst s1.
      unfold with_unsupported. simpl. by rewrite set_poller_twice.
    + by rewrite !(bool_decide_eq_false_2 _ E).
Qed.

(** ** The third poller *)

Section Directory.
Context (p : ptr).
Let b := polling UnsupportedFmon.
Let b1 := set_by_unsupported (Some p) b.

(** The files [rest] of [p] are still to be polled. *)
Definition polling_files (s0 : server) (rest : list ptr) (s : server) : Prop :=
  kq_inv b1 s /\ step p s0 s /\ NoDup rest /\ exists x ft ut,
    has_tables (sv_kernel s) p x ft ut /\ forall f, f ∈ rest -> f ∈ left_in ut.

Lemma polling_files_step s0 f rest s :
  polling_files s0 (f :: rest) s ->
  wp (gam_kqueue_unsupported_fmon_poll_foreach_cb f) (fun _ => polling_files s0 rest) s.
Proof.
  intros (Hi & Hst & Hnd & x & ft & ut & Htb & Hrest). apply NoDup_cons in Hnd as [Hf Hnd].
  assert (f ∈ left_in ut) as Hl by (apply Hrest; by left).
  destruct (ko_unsupported _ _ _ (ki_ok _ _ Hi) p x ft ut f Htb Hl) as (name & m & Hn & Hr & Hm & Hfd).
  assert (file_of p name f x ft ut (sv_kernel s)) as Hfile by done.
  eapply wp_mono; [by apply (does_unsupported_fmon_cb b1 p name f eq_refl ltac:(done) x ft ut m); [..|apply Hfd|]|].
  intros [] s1 (Hi1 & Hst1 & x1 & ft1 & ut1 & Htb1 & Hut1).
  split; [done|]. split; [by transitivity s|]. split; [done|]. exists x1, ft1, ut1. split; [done|].
  intros g Hg. apply Hut1; [congruence|]. apply Hrest. by right.
Qed.

(** The removals are made, and the directory leaves the poller with its last file. *)
Lemma polling_files_end s0 x ft ut s :
  kq_inv b1 s -> has_tables (sv_kernel s) p x ft ut ->
  let P := fmon_poller_after p ut (kq_pollers (sv_kernel s) UnsupportedFmon) in
  let s' := set_sv_kernel (with_unsupported p x (swept ut) P (sv_kernel s)) s in
  step p s0 s -> kq_inv b s' /\ step p s0 s'.
Proof.
  intros Hi Htb P s' Hst. pose proof (ki_ok _ _ Hi) as Hk. pose proof Htb as (Hx & Hxf & Hxu).
  set (pl := kq_pollers (sv_kernel s) UnsupportedFmon) in *.
  destruct (ko_tables _ _ _ Hk p x Hx) as (ft0 & ut0 & (_ & E1 & E2) & Hft & Hut). simplify_eq.
  set (k1 := set_kq_smons (<[p := set_sm_unsupported (Some (swept ut)) x]> (kq_smons (sv_kernel s))) (sv_kernel s)).
  assert (kq_ok (set_by_unsettled (Some p) b) (knotes (sv_world s)) k1) as Hk1.
  { apply (ok_tables b1 _ _ Hk _ p x ft ut _ ft (swept ut)); try done.
    - by right.
    - intros q Hq. split; [done|]. rewrite !bool_decide_eq_false_2; [done| |done]. simpl. congruence.
    - by apply (ko_removals _ _ _ Hk p x ft ut).
    - by apply (ko_removals _ _ _ Hk p x ft ut).
    - intros g. rewrite swept_left. intros Hg.
      destruct (ko_unsupported _ _ _ Hk p x ft ut g Htb Hg) as (n & z & ? & ? & ?). split; [done|by left].
    - intros g Hg. right. by rewrite swept_left. }
  assert (forall q, q <> p -> q ∈ left_in (pl_smons P) <-> q ∈ polled UnsupportedFmon (sv_kernel s)) as Hoth.
  { intros q Hq. subst P. unfold fmon_poller_after. repeat case_match; try done. rewrite left_minus. by apply elem_minus_ne. }
  assert (p ∈ left_in (pl_smons P) <-> left_in ut <> ∅) as Hself.
  { pose proof (ko_polled_fmons _ _ _ Hk p x ft ut Htb ltac:(done)) as Hpf.
    change (p ∈ left_in (pl_smons pl) <-> ht_main ut <> ∅) in Hpf. subst P. unfold fmon_poller_after.
    destruct (decide (pending_removals ut = [])) as [E|E].
    - rewrite (bool_decide_eq_true_2 _ E), Hpf.
      assert (left_in ut = ht_main ut) as -> by (unfold left_in; rewrite E; clear; set_solver). done.
    - rewrite (bool_decide_eq_false_2 _ E). destruct (decide (left_in ut = ∅)) as [E'|E'].
      + rewrite (bool_decide_eq_true_2 _ E'), left_minus, elem_of_difference, elem_of_singleton. tauto.
      + rewrite (bool_decide_eq_false_2 _ E'), Hpf. split; [done|]. intros _ Em. apply E'. unfold left_in. rewrite Em.
        clear. set_solver. }
  destruct (kq_inv_kernel b1 b p s (with_unsupported p x (swept ut) P (sv_kernel s)) (sv_world s) Hi) as [Hi' Hst'].
  - transitivity k1; [by apply (kstep_smon p x)|]. apply kstep_poller. exact Hoth.
  - pose proof (ko_poller _ _ _ Hk UnsupportedFmon) as Hpt.
    apply (ok_set_poller _ _ _ Hk1); try done.
    + intros q _. by right.
    + subst P. unfold fmon_poller_after. repeat case_match; try exact Hpt.
      by apply (minus_ok p _ pl Hpt (ko_timer _ _ _ Hk UnsupportedFmon)).
    + subst P. unfold fmon_poller_after. repeat case_match; try apply (ko_timer _ _ _ Hk UnsupportedFmon).
      by apply (minus_ok p _ pl Hpt (ko_timer _ _ _ Hk UnsupportedFmon)).
    + intros q Hq. apply insert_is_Some. destruct (decide (q = p)) as [->|Hne]; [by exists x|].
      apply (ko_polled _ _ _ Hk UnsupportedFmon). by apply Hoth.
    + intros _ q y ft0 ut0 Hq _. apply tables_insert in Hq as [(-> & -> & _ & Eu)|[Hne Hq]].
      * assert (ut0 = swept ut) as -> by by apply (inj Some). exact Hself.
      * rewrite Hoth by done. by apply (ko_polled_fmons _ _ _ Hk q y ft0 ut0 Hq).
  - split; [exact Hi'|]. by transitivity s.
Qed.

Lemma does_unsupported_fmon_poll x s :
  kq_inv b s -> kq_smons (sv_kernel s) !! p = Some x ->
  does b p (gam_kqueue_unsupported_fmon_poll p) (fun _ _ => True) s.
Proof.
  intros Hi Hx. pose proof (ki_ok _ _ Hi) as Hk.
  destruct (ko_tables _ _ _ Hk p x Hx) as (ft & ut & Htb & Hft & Hut). pose proof Hut as (Hit & Ha & Hr). specialize (Hr eq_refl).
  unfold gam_kqueue_unsupported_fmon_poll, gam_kqueue_hash_table_foreach.
  apply wp_bind. unfold wp at 1. cbn [tb_load unsupported_table]. rewrite (load_unsupported_eq p x ft ut s Htb).
  cbn [tb_type unsupported_table]. rewrite Hit. apply wp_bind, wp_assert; [done|].
  apply wp_bind. unfold wp at 1. cbn [tb_modify unsupported_table]. rewrite (modify_unsupported_eq p x ft ut _ s Htb).
  set (ut1 := set_iterating true ut). set (x1 := set_sm_unsupported (Some ut1) x). set (k1 := set_kq_smons (<[p := x1]> _) _).
  assert (has_tables k1 p x1 ft ut1) as Htb1
    by (split; [apply lookup_insert_eq|destruct Htb as (_ & ? & _); done]).
  destruct (kq_inv_kernel b b1 p s k1 (sv_world s) Hi) as [Hi1 Hst1].
  { by apply (kstep_smon p x). }
  { apply (ok_tables b _ _ Hk b1 p x ft ut _ ft ut1); try done.
    - apply Htb.
    - by left.
    - intros q Hq. split; [done|]. rewrite !bool_decide_eq_false_2; [done|done|]. simpl. congruence.
    - simpl. by rewrite bool_decide_eq_true_2.
    - by apply (ko_removals _ _ _ Hk p x ft ut).
    - by apply (ko_removals _ _ _ Hk p x ft ut).
    - intros g Hg. destruct (ko_unsupported _ _ _ Hk p x ft ut g Htb Hg) as (n & z & ? & ? & ?). split; [done|by left].
    - intros g Hg. by right. }
  set (s1 := set_sv_kernel (kern := kqueue_kernel) k1 s). change (kq_inv b1 s1) in Hi1. change (step p s s1) in Hst1.
  apply wp_bind, wp_gets. cbn [tb_values unsupported_table]. set (l := foreach_order _ _).
  apply wp_bind. eapply wp_mono; [apply (wp_for_each (polling_files s))|].
  - intros f rest s2. apply polling_files_step.
  - split; [done|]. split; [done|]. split; [unfold l; rewrite order_perm; apply NoDup_elements|].
    exists x1, ft, ut1. split; [done|]. intros f Hf. unfold l in Hf. rewrite order_perm in Hf.
    apply elem_of_elements in Hf. unfold left_in. simpl. rewrite Hr. set_solver.
  - intros [] s2 (Hi2 & Hst2 & _ & x2 & ft2 & ut2 & Htb2 & _). pose proof Htb2 as (Hx2 & _ & Hu2).
    destruct (ko_tables _ _ _ (ki_ok _ _ Hi2) p x2 Hx2) as (ft0 & ut0 & (_ & _ & E) & _ & Hut2).
    assert (ut0 = ut2) as -> by congruence. simpl in Hut2. rewrite bool_decide_eq_true_2 in Hut2 by done.
    unfold wp. cbn [tb_modify unsupported_table]. rewrite (unsupported_finish p x2 ft2 ut2 s2 Htb2 Hut2).
    destruct (polling_files_end s x2 ft2 ut2 s2 Hi2 Htb2 Hst2) as [Hi3 Hst3]. by split.
Qed.
End Directory.

(** ** The timers *)

(** What the round of a poller needs of a monitor. *)
Definition may_poll (i : poller_id) (m : Monitor) : Prop :=
  match i with UnsupportedSmon => may_retry m | _ => True end.

Lemma poller_timeout_outcome i s :
  kq_inv at_rest s ->
  (forall p m, p ∈ polled i (sv_kernel s) -> kq_monitors (sv_kernel s) !! p = Some m -> may_poll i m) ->
  wp (gam_kqueue_poller_timeout_cb i) (fun r s' => r = true /\ kq_inv at_rest s' /\ served s s') s.
Proof.
  intros Hi HJ. unfold gam_kqueue_poller_timeout_cb. apply wp_bind. eapply wp_mono; [apply (wp_round i (may_poll i)); try done|].
  - intros p x m s' Hi' Hp Hx Hm Hj. destruct i; simpl.
    + by apply (does_missing_smon_poll p x m).
    + by apply (does_unsupported_smon_poll p x m).
    + by apply (does_unsupported_fmon_poll p x).
  - intros [] s' ?. by apply wp_ret.
Qed.
End FilePolls.
