(* ===== verification/KqueueHooks.v ===== *)
(** * The hooks of the kqueue backend

    Subscribing, unsubscribing, a client that goes away, and the start with its
    limit on open files: what they return, that they keep or establish the
    invariant, and what becomes of the monitors and of the subscription. *)

From S2P Require Import Prelude Protocol EventQueue Monad OS Fs.
From S2P Require Import State Subscription Listener ConnSend Inv Emit.
From S2P Require Import Safety Server KqueueState KqueueTables Kqueue KqueueInv.
From S2P Require Import KqueueSafety KqueueFiles KqueueClear KqueueEvents KqueuePolls.

Local Open Scope Z_scope.

#[local] Existing Instance kqueue_kernel.

Section Subscribe.
Context {os : OS} {glib : GLib} {kq : Kqueue os} {kl : KqueueLaws kq} {laws : OSLaws os}.
Abbreviation M := (ST server).

(** ** The daemon's heap *)

(** A change of the heap that keeps what the monitors' subscriptions need. *)
Lemma kq_inv_heap b s s' :
  kq_inv b s -> sv_kernel s' = sv_kernel s -> sv_world s' = sv_world s -> ready s' ->
  (forall q path d, sub_for q path d s -> sub_for q path d s') -> kq_inv b s'.
Proof.
  intros [Hk _ Hs] Ek Ew Hr Hsub. split; [by rewrite Ek, Ew|done|]. rewrite Ek.
  intros p m x q Hm Hx Hq. apply Hsub. by apply (Hs p m x).
Qed.

Lemma listed_inv b l ln sub sb s : kq_inv b s -> addable sub sb l ln s -> kq_inv b (listed l ln sub s).
Proof.
  intros Hi Had. apply (kq_inv_heap b s); try done.
  - by apply (listed_ready l ln sub sb); [apply (ki_ready _ _ Hi)|].
  - intros q path d [Hq (sb' & ? & ?)]. split; [by apply (listed_sub_ok l ln sub sb)|by exists sb'].
Qed.

Lemma listed_sub l ln sub sb s :
  addable sub sb l ln s -> sub_for sub (sub_path sb) (gam_subscription_is_dir (Some sb)) (listed l ln sub s).
Proof. intros Had. split; [by apply listed_self|]. exists sb. by split; [apply (ad_sub _ _ _ _ _ Had)|]. Qed.

(** ** Adding *)

(** A monitor takes another list of subscriptions. *)
Lemma ok_subs b notes k p x ft ut l :
  kq_ok b notes k -> has_tables k p x ft ut ->
  kq_ok b notes (set_kq_smons (<[p := set_sm_subs l x]> (kq_smons k)) k).
Proof.
  intros Hk Htb. pose proof Htb as (Hx & Hf & Hu).
  destruct (ko_tables _ _ _ Hk p x Hx) as (ft0 & ut0 & (_ & E1 & E2) & Hft & Hut). simplify_eq.
  apply (ok_tables b _ _ Hk b p x ft ut _ ft ut); try done.
  - by left.
  - by apply (ko_removals _ _ _ Hk p x ft ut).
  - by apply (ko_removals _ _ _ Hk p x ft ut).
  - intros f Hf'. destruct (ko_unsupported _ _ _ Hk p x ft ut f Htb Hf') as (n & m & ? & ? & ?).
    split; [done|by left].
  - intros f Hf'. by right.
Qed.

Lemma subs_kernel_ok k' (s : server) :
  (forall p m x q, kq_monitors k' !! p = Some m -> kq_smons k' !! p = Some x -> q ∈ sm_subs x ->
    sub_for q (mon_pathname m) (sm_isdir x) s) ->
  subs_ok k' (set_sv_kernel k' s).
Proof. done. Qed.

(** The monitor of the path takes the subscription. *)
Lemma append_inv b p x m sub s :
  kq_inv b s -> kq_smons (sv_kernel s) !! p = Some x -> kq_monitors (sv_kernel s) !! p = Some m ->
  sub_for sub (mon_pathname m) (sm_isdir x) s ->
  kq_inv b (upd_kq (fun k => set_kq_smons (<[p := set_sm_subs (sm_subs x ++ [sub]) x]> (kq_smons k)) k) s).
Proof.
  intros [Hk Hr Hs] Hx Hm Hsub. destruct (ko_tables _ _ _ Hk p x Hx) as (ft & ut & Htb & _).
  split; [by apply (ok_subs b _ _ p x ft ut)|done|]. intros q m' y r Hm' Hy Hr'. simpl in Hm', Hy.
  apply upd_Some in Hy as [[-> ->]|[_ Hy]]; [|by apply (Hs q m' y)].
  assert (m' = m) as -> by congruence. simpl in Hr'. apply elem_of_app in Hr' as [Hr'|Hr'];
    [by apply (Hs p m x)|]. by apply list_elem_of_singleton in Hr' as ->.
Qed.

(** What the path [path] looks like to a client of kind [d]: its monitor has
    the subscriptions [l], and a descriptor or a poller. *)
Definition attended (d : bool) (path : string) (l : list ptr) (k : kqueue_state) : Prop :=
  exists p x m, smon_hash d k !! path = Some p /\ kq_smons k !! p = Some x /\ kq_monitors k !! p = Some m /\
    mon_pathname m = path /\ sm_isdir x = d /\ sm_subs x = l /\
    (0 <= mon_fd m \/ p ∈ polled MissingSmon k \/ p ∈ polled UnsupportedSmon k).

Lemma attended_intro d path p x m s :
  kq_inv at_rest s -> smon_hash d (sv_kernel s) !! path = Some p ->
  kq_smons (sv_kernel s) !! p = Some x -> kq_monitors (sv_kernel s) !! p = Some m ->
  attended d path (sm_subs x) (sv_kernel s).
Proof.
  intros Hi Hh Hx Hm. pose proof (ki_ok _ _ Hi) as Hk.
  destruct (ko_hash _ _ _ Hk d path p Hh) as (m' & x' & ? & ? & ? & ?). simplify_eq.
  exists p, x, m. do 6 (split; [done|]).
  destruct (ko_fd _ _ _ Hk p m Hm) as [E|[? _]]; [right|by left].
  by apply (ko_smon_watched _ _ _ Hk p x m).
Qed.

(** The subscriptions a path has. *)
Definition path_subs (d : bool) (path : string) (k : kqueue_state) : list ptr :=
  match smon_hash d k !! path with
  | Some p => match kq_smons k !! p with Some x => sm_subs x | None => [] end
  | None => []
  end.

Lemma step_path_subs b p s s' d path :
  kq_inv b s -> step p s s' -> path_subs d path (sv_kernel s') = path_subs d path (sv_kernel s).
Proof.
  intros Hi [[_ Ho Hs Hh] _ _ _]. unfold path_subs. rewrite Hh.
  destruct (smon_hash d (sv_kernel s) !! path) as [q|] eqn:Eq; [|done].
  destruct (ko_hash _ _ _ (ki_ok _ _ Hi) _ _ _ Eq) as (m & x & Hm & Hx & _).
  destruct (decide (q = p)) as [->|Hne].
  - destruct (Hs x m Hx Hm) as (x' & m' & Hx' & _ & E & _). by rewrite Hx, Hx'.
  - destruct (Ho q Hne) as [-> _]; [by exists x|done].
Qed.

(** The monitor that is made for a path without one; [K] is the rest. *)
Lemma wp_new_smon {A} sub sb d (K : ptr -> M A) (Q : A -> server -> Prop) s :
  subs (sv_heap s) !! sub = Some sb -> d = gam_subscription_is_dir (Some sb) ->
  wp (K (kq_next (sv_kernel s))) Q (set_sv_kernel (new_smon_state (sv_kernel s) (sub_path sb) d [sub]) s) ->
  wp (smon ← gam_kqueue_sub_monitor_new sub;
      _ ← kupdate smon (fun m => set_sm_subs (sm_subs m ++ [sub]) m);
      m ← kload (A := Monitor) smon;
      _ ← kq_modify (fun k => set_smon_hash d (<[mon_pathname m := smon]> (smon_hash d k)) k);
      K smon) Q s.
Proof.
  intros Hs -> HQ. unfold gam_kqueue_sub_monitor_new. apply wp_bind, wp_bind.
  apply (wp_load (H := sub_obj)) with sb; [exact Hs|]. apply wp_bind. unfold alloc_monitor, wp at 1.
  set (p := kq_next (sv_kernel s)) in *. apply wp_bind, wp_kq_modify.
  unfold gam_kqueue_sub_monitor_init_fmons. apply wp_bind, wp_bind.
  eapply wp_kupdate; [simpl; apply lookup_insert_eq|].
  eapply wp_kupdate; [simpl; apply lookup_insert_eq|]. apply wp_ret.
  apply wp_bind. eapply wp_kupdate; [simpl; apply lookup_insert_eq|].
  apply wp_bind. eapply wp_kload; [simpl; apply lookup_insert_eq|]. apply wp_bind, wp_kq_modify.
  match goal with |- wp _ _ ?t => assert (t = set_sv_kernel (new_smon_state (sv_kernel s) (sub_path sb)
    (gam_subscription_is_dir (Some sb)) [sub]) s) as -> end; [|exact HQ].
  unfold new_smon_state, upd_kq. simpl. fold p. rewrite !insert_insert_eq. by destruct (sub_is_dir sb).
Qed.

Lemma new_smon_proj k path d l : let p := kq_next k in let k' := new_smon_state k path d l in
  kq_monitors k' = <[p := mk_monitor SubMonitorKevent path (-1) mini_zero 0]> (kq_monitors k) /\
  kq_smons k' = <[p := mk_smon l (Some (gam_kqueue_hash_table_new ∅)) (Some (gam_kqueue_hash_table_new ∅)) d]> (kq_smons k) /\
  (forall d', smon_hash d' k' = if bool_decide (d' = d) then <[path := p]> (smon_hash d k) else smon_hash d' k) /\
  (forall i, polled i k' = polled i k).
Proof. destruct d; (split; [done|]; split; [done|]; split; [by intros []|]; done). Qed.

Lemma new_smon_inv path d sub s :
  kq_inv at_rest s -> smon_hash d (sv_kernel s) !! path = None -> sub_for sub path d s ->
  kq_inv (moving (kq_next (sv_kernel s)) at_rest) (set_sv_kernel (new_smon_state (sv_kernel s) path d [sub]) s).
Proof.
  intros [Hk Hr Hs] Hh Hsub. destruct (next_fresh _ _ _ Hk) as (Fm & Fs & _).
  destruct (new_smon_proj (sv_kernel s) path d [sub]) as (Em & Es & _ & _).
  split; [by apply ok_new_smon|done|]. intros q m x r Hm Hx Hq. simpl in Hm, Hx. rewrite Em in Hm. rewrite Es in Hx.
  apply upd_Some in Hm as [[-> ->]|[Hne Hm]]; apply upd_Some in Hx as [[E ->]|[Hne' Hx]]; try done.
  - simpl in *. by apply list_elem_of_singleton in Hq as ->.
  - by apply (Hs q m x).
Qed.

(** What [gam_kqueue_add_subscription] does. *)
Lemma kqueue_add_outcome sub sb l ln s :
  let d := gam_subscription_is_dir (Some sb) in let path := sub_path sb in
  kq_inv at_rest s -> addable sub sb l ln s ->
  wp (gam_kqueue_add_subscription sub) (fun r s' => r = true /\ kq_inv at_rest s' /\
    attended d path (path_subs d path (sv_kernel s) ++ [sub]) (sv_kernel s') /\
    (forall d' path', (d', path') <> (d, path) ->
      path_subs d' path' (sv_kernel s') = path_subs d' path' (sv_kernel s)) /\
    subs (sv_heap s') = subs (sv_heap s) /\
    listeners (sv_heap s') = <[l := set_ln_subs (sub :: ln_subs ln) ln]> (listeners (sv_heap s))) s.
Proof.
  intros d path Hi Had. pose proof Had as [Hsub _ Hsl _ _]. unfold gam_kqueue_add_subscription.
  apply wp_bind, (wp_load (H := sub_obj)) with sb; [exact Hsub|].
  apply wp_bind, (wp_assert_ptr _ l); [exact Hsl|]. apply wp_bind, (wp_listed l ln sub sb); [done|].
  pose proof (listed_inv _ _ _ _ _ _ Hi Had) as Hi1. pose proof (listed_sub _ _ _ _ _ Had) as Hfor.
  set (s1 := listed l ln sub s) in *. fold d path in Hfor |- *. apply wp_bind, wp_kq_gets.
  assert (sv_kernel s1 = sv_kernel s) as E1 by done.
  destruct (smon_hash d (sv_kernel s1) !! path) as [p|] eqn:Eh.
  - destruct (ko_hash _ _ _ (ki_ok _ _ Hi1) d path p Eh) as (m & x & Hm & Hx & Ep & Ed).
    rewrite <- Ep, <- Ed in Hfor. pose proof (append_inv at_rest p x m sub s1 Hi1 Hx Hm Hfor) as Hi2.
    apply wp_bind. eapply wp_kupdate; [exact Hx|]. apply wp_ret. set (s2 := upd_kq _ s1) in *.
    assert (kq_smons (sv_kernel s2) = <[p := set_sm_subs (sm_subs x ++ [sub]) x]> (kq_smons (sv_kernel s1))) as Es2 by done.
    assert (forall d', smon_hash d' (sv_kernel s2) = smon_hash d' (sv_kernel s1)) as Eh2 by by intros [].
    split; [done|]. split; [done|]. split; [|split; [|done]].
    + assert (path_subs d path (sv_kernel s) = sm_subs x) as -> by (unfold path_subs; rewrite <- E1, Eh, Hx; done).
      change (sm_subs x ++ [sub]) with (sm_subs (set_sm_subs (sm_subs x ++ [sub]) x)) at 1.
      apply (attended_intro d path p _ m); [done|by rewrite Eh2|rewrite Es2; apply lookup_insert_eq|exact Hm].
    + intros d' path' Hne. unfold path_subs. rewrite Eh2, <- E1, Es2.
      destruct (smon_hash d' (sv_kernel s1) !! path') as [q|] eqn:Eq; [|done].
      destruct (ko_hash _ _ _ (ki_ok _ _ Hi1) d' path' q Eq) as (mq & xq & Hmq & Hxq & ? & ?).
      assert (q <> p) by (intros ->; apply Hne; f_equal; congruence). by rewrite lookup_insert_ne.
  - apply (wp_new_smon sub sb d); [done|done|]. set (p := kq_next (sv_kernel s1)). set (s2 := set_sv_kernel _ s1).
    pose proof (new_smon_inv path d sub s1 Hi1 Eh Hfor) as Hi2. fold p path s2 in Hi2.
    destruct (new_smon_proj (sv_kernel s1) path d [sub]) as (Em2 & Es2 & Eh2 & Epol2). fold p in Em2, Es2, Eh2.
    change (new_smon_state _ _ _ _) with (sv_kernel s2) in Em2, Es2, Eh2, Epol2.
    set (m := mk_monitor _ _ _ _ _) in Em2. set (x := mk_smon _ _ _ _) in Es2.
    assert (kq_smons (sv_kernel s2) !! p = Some x) as Hx2 by (rewrite Es2; apply lookup_insert_eq).
    assert (kq_monitors (sv_kernel s2) !! p = Some m) as Hm2 by (rewrite Em2; apply lookup_insert_eq).
    apply wp_bind. eapply wp_mono.
    { apply (does_enable_notification at_rest p 0 x (gam_kqueue_hash_table_new ∅) (gam_kqueue_hash_table_new ∅) m); try done.
      rewrite Epol2. intros Hp. by apply (smon_live _ _ _ (ki_ok _ _ Hi1)) in Hp. }
    intros [] s3 (Hi3 & Hst3 & _). apply wp_ret. destruct (path_step p x m s2 s3 Hst3 Hx2 Hm2) as (x3 & m3 & Hx3 & Hm3 & Esub & _).
    pose proof Hst3 as [[_ _ _ Hh3] Esubs3 Elis3 _].
    split; [done|]. split; [done|]. split; [|split; [|by rewrite Esubs3, Elis3]].
    + assert (path_subs d path (sv_kernel s) = []) as -> by (unfold path_subs; by rewrite <- E1, Eh).
      change ([] ++ [sub]) with (sm_subs x). rewrite <- Esub. apply (attended_intro d path p x3 m3); [done| |done|done].
      rewrite Hh3, Eh2, bool_decide_eq_true_2 by done. apply lookup_insert_eq.
    + intros d' path' Hne. rewrite (step_path_subs _ _ _ _ _ _ Hi2 Hst3). unfold path_subs. rewrite Eh2. change (set_sv_kernel _ s1) with s2. rewrite Es2, <- E1.
      assert ((if bool_decide (d' = d) then <[path := p]> (smon_hash d (sv_kernel s1)) else smon_hash d' (sv_kernel s1)) !! path'
        = smon_hash d' (sv_kernel s1) !! path') as ->.
      { case_bool_decide as Ed; [|done]. subst d'. rewrite lookup_insert_ne; [done|congruence]. }
      destruct (smon_hash d' (sv_kernel s1) !! path') as [q|] eqn:Eq; [|done].
      destruct (ko_hash _ _ _ (ki_ok _ _ Hi1) d' path' q Eq) as (mq & xq & _ & Hxq & _).
      destruct (next_fresh _ _ _ (ki_ok _ _ Hi1)) as (_ & Fs & _).
      rewrite lookup_insert_ne; [done|]. intros <-. fold p in Fs. congruence.
Qed.
End Subscribe.

Section Unsubscribe.
Context {os : OS} {glib : GLib} {kq : Kqueue os} {kl : KqueueLaws kq} {laws : OSLaws os}.
Abbreviation M := (ST server).

#[local] Abbreviation at_kernel k s := (set_sv_kernel (kern := kqueue_kernel) k s).

(** ** Freeing a monitor *)

(** The monitor [p] is gone, the others are as they were. *)
Record without (p : ptr) (s s' : server) : Prop := {
  wo_subs : subs (sv_heap s') = subs (sv_heap s);
  wo_listeners : listeners (sv_heap s') = listeners (sv_heap s);
  wo_hash d : smon_hash d (sv_kernel s') = smon_hash d (sv_kernel s);
  wo_gone : kq_smons (sv_kernel s') !! p = None;
  wo_other q : q <> p -> is_Some (kq_smons (sv_kernel s) !! q) ->
    kq_smons (sv_kernel s') !! q = kq_smons (sv_kernel s) !! q;
  wo_none q : kq_smons (sv_kernel s) !! q = None -> kq_smons (sv_kernel s') !! q = None
}.

(** The last step: the object itself. *)
Lemma freed_ok b notes k p x m :
  let no_polled := gam_kqueue_hash_table_new (∅ : gset ptr) in
  kq_ok (moving p b) notes k -> b = set_by_dying (Some p) at_rest ->
  has_tables k p x (gam_kqueue_hash_table_new ∅) no_polled -> kq_monitors k !! p = Some m -> mon_fd m = -1 ->
  (forall i, p ∉ polled i k) -> (forall d path, smon_hash d k !! path <> Some p) ->
  kq_ok at_rest notes (freed p k).
Proof.
  intros np Hk -> Htb Hm Efd Hpol Hh.
  pose proof (ok_free_smon _ _ _ Hk p x _ _ m Htb eq_refl Hm Efd eq_refl Hpol Hh) as Hk'.
  pose proof (ok_settled _ _ _ Hk' ∅) as Hok.
  change (set_by_moving ∅ _) with at_rest in Hok. apply Hok. intros q Hq _.
  assert (q = p) as -> by (simpl in Hq; set_solver).
  assert (kq_monitors (freed p k) !! p = None) as Hnone by apply lookup_delete_eq.
  split; [intros ? ? _ ?; congruence|intros ? ? ? ? ? ? _ _ ?; congruence].
Qed.

Lemma freed_with_fd p m o k : freed p (with_fd p m (-1) o k) = freed p (set_open_files o k).
Proof. unfold freed, with_fd. simpl. by rewrite delete_insert_eq. Qed.

Lemma shadow_freed p x tf tu o k :
  freed p (shadow p x tf tu k) = freed p k /\
  freed p (set_open_files o (shadow p x tf tu k)) = freed p (set_open_files o k).
Proof. unfold freed, shadow. simpl. by rewrite delete_insert_eq. Qed.

Lemma wp_free_smon p x m s :
  let b := set_by_dying (Some p) at_rest in
  kq_inv b s -> kq_smons (sv_kernel s) !! p = Some x -> kq_monitors (sv_kernel s) !! p = Some m ->
  (forall d path, smon_hash d (sv_kernel s) !! path <> Some p) ->
  wp (gam_kqueue_sub_monitor_free p) (fun _ s' => kq_inv at_rest s' /\ without p s s') s.
Proof.
  intros b Hi Hx Hm Hh. set (bm := moving p b). pose proof (moving_inv p _ _ Hi) as Hi0. fold bm in Hi0.
  assert (p ∈ by_moving bm) as Hmv by (simpl; set_solver).
  unfold gam_kqueue_sub_monitor_free. apply wp_bind.
  eapply wp_mono; [by apply (does_poller_remove bm p MissingSmon)|]. intros [] s1 (Hi1 & Hst1 & P1 & E1 & EP1).
  apply wp_bind. eapply wp_mono; [by apply (does_poller_remove bm p UnsupportedSmon)|].
  intros [] s2 (Hi2 & Hst2 & P2 & E2 & EP2).
  assert (kq_smons (sv_kernel s2) !! p = Some x) as Hx2 by (rewrite E2, E1; exact Hx).
  assert (kq_monitors (sv_kernel s2) !! p = Some m) as Hm2 by (rewrite E2, E1; exact Hm).
  assert (p ∉ polled MissingSmon (sv_kernel s2) /\ p ∉ polled UnsupportedSmon (sv_kernel s2)) as [Hp1 Hp2].
  { rewrite E2, !polled_set, decide_False, decide_True by done. rewrite EP2.
    rewrite E1, polled_set, decide_True by done. rewrite EP1. set_solver. }
  destruct (ko_tables _ _ _ (ki_ok _ _ Hi2) p x Hx2) as (ft & ut & Htb2 & _). apply wp_bind.
  apply (wp_clear bm p ltac:(done) ltac:(done) eq_refl x ft ut); [done|done|].
  intros s3 k x3 Es3 Hi3 Hst3 Htb3 Em3 Epol3. pose proof (ki_ok _ _ Hi3) as Hk3. simpl in Hk3.
  assert (kq_monitors k !! p = Some m) as Hm3 by (rewrite Em3; exact Hm2).
  assert (forall i, p ∉ polled i k) as Hpol.
  { intros i. destruct (decide (i = UnsupportedFmon)) as [->|Hne].
    - intros Hp. by apply (ko_polled_fmons _ _ _ Hk3 p x3 _ _ Htb3) in Hp.
    - rewrite (Epol3 i Hne). by destruct i. }
  pose proof (transitivity Hst1 (transitivity Hst2 Hst3)) as Hst. pose proof Hst as [[Hlive Hother _ Hhash] Esubs Elis Hrd].
  assert (forall d path, smon_hash d k !! path <> Some p) as Hh3 by (intros d path; rewrite Hhash; apply Hh).
  assert (forall o w, kq_ok at_rest (knotes w) (freed p (set_open_files o k)) ->
    let s' := set_sv_world w (at_kernel (freed p (set_open_files o k)) s3) in kq_inv at_rest s' /\ without p s s') as Hfin.
  { intros o w Hok. split; [split; [exact Hok|by apply (step_ready p s _ Hst), Hi|]|split].
    - intros q mq xq r Hmq Hxq Hr. simpl in Hmq, Hxq. apply lookup_delete_Some in Hmq as [_ Hmq], Hxq as [_ Hxq].
      by apply (ki_subs _ _ Hi3 q mq xq r).
    - done.
    - done.
    - intros d. rewrite <- Hhash. by destruct d.
    - apply lookup_delete_eq.
    - intros q Hq Hl. simpl. rewrite lookup_delete_ne by done. by destruct (Hother q Hq Hl) as [E _].
    - intros q Hn. simpl. destruct (decide (q = p)) as [->|Hq]; [apply lookup_delete_eq|].
      rewrite lookup_delete_ne by done. apply eq_None_not_Some. intros Hl. apply Hlive in Hl. destruct Hl. congruence. }
  destruct (shadow_freed p x3 None None (u32 (open_files k - 1)) k) as [F1 F2].
  assert (open_files (sv_kernel s3) = open_files k) as Eo by by rewrite Es3.
  apply (wp_free_fmon p m); [by rewrite Es3|..]; intros Hfd; rewrite Es3.
  - rewrite F1. assert (mon_fd m = -1) as Efd by (destruct (ko_fd _ _ _ Hk3 p m Hm3) as [?|[? _]]; lia).
    apply (Hfin (open_files k) (sv_world s3)).
    assert (set_open_files (open_files k) k = k) as -> by by destruct k. by apply (freed_ok b _ k p x3 m).
  - change (open_files (shadow p x3 None None k)) with (open_files k). rewrite F2. apply Hfin.
    rewrite close_knotes, <- (freed_with_fd p m). apply (freed_ok b _ _ p x3 (set_mon_fd (-1) m)); try done.
    + by apply ok_close.
    + apply lookup_insert_eq.
Qed.

(** ** Removing a subscription *)

(** The monitor's list without the subscription. *)
Lemma unlist_inv p x m l s :
  kq_inv at_rest s -> kq_smons (sv_kernel s) !! p = Some x -> kq_monitors (sv_kernel s) !! p = Some m ->
  (forall q, q ∈ l -> q ∈ sm_subs x) ->
  kq_inv at_rest (upd_kq (fun k => set_kq_smons (<[p := set_sm_subs l x]> (kq_smons k)) k) s).
Proof.
  intros [Hk Hr Hs] Hx Hm Hl. destruct (ko_tables _ _ _ Hk p x Hx) as (ft & ut & Htb & _).
  split; [by apply (ok_subs at_rest _ _ p x ft ut)|done|]. intros q m' y r Hm' Hy Hr'. simpl in Hm', Hy.
  apply upd_Some in Hy as [[-> ->]|[_ Hy]]; [|by apply (Hs q m' y)].
  assert (m' = m) as -> by congruence. apply (Hs p m x); auto.
Qed.

Definition cancelled (sub : ptr) (sb : GamSubscription) (s : server) : server :=
  upd_heap (fun h => set_subs (<[sub := set_sub_cancelled true sb]> (subs h)) h) s.

Lemma cancelled_inv sub sb s :
  kq_inv at_rest s -> subs (sv_heap s) !! sub = Some sb -> kq_inv at_rest (cancelled sub sb s).
Proof.
  intros Hi Hsub. apply (kq_inv_heap at_rest s); try done; [exact (ki_ready _ _ Hi)|].
  intros q path d [(sb1 & l & Hq & H1 & H2 & H3 & H4) (sb2 & Hq' & Hd)].
  assert (sb2 = sb1) as -> by congruence. unfold sub_for, sub_ok. simpl.
  destruct (decide (q = sub)) as [->|Hne].
  - assert (sb1 = sb) as -> by congruence. rewrite lookup_insert_eq.
    split; [exists (set_sub_cancelled true sb), l|exists (set_sub_cancelled true sb)]; done.
  - rewrite lookup_insert_ne by done. split; [by exists sb1, l|by exists sb1].
Qed.

(** No monitor refers to the subscription. *)
Definition forgotten (sub : ptr) (k : kqueue_state) : Prop :=
  forall p x, kq_smons k !! p = Some x -> sub ∉ sm_subs x.

(** A monitor that has the subscription is the one of its path and kind. *)
Lemma subscribed_at sub sb p x s :
  kq_inv at_rest s -> subs (sv_heap s) !! sub = Some sb -> kq_smons (sv_kernel s) !! p = Some x ->
  sub ∈ sm_subs x -> smon_hash (gam_subscription_is_dir (Some sb)) (sv_kernel s) !! sub_path sb = Some p.
Proof.
  intros Hi Hsub Hx Hin. pose proof (ki_ok _ _ Hi) as Hk. destruct (ko_smon _ _ _ Hk p x Hx) as (m & Hm & _).
  destruct (ki_subs _ _ Hi p m x sub Hm Hx Hin) as [(sb1 & l & Hs1 & E & _) (sb2 & Hs2 & Ed)].
  assert (sb1 = sb) as -> by congruence. assert (sb2 = sb) as -> by congruence.
  rewrite E, Ed. by apply (ko_hashed _ _ _ Hk).
Qed.

(** The monitor [x] of the path at [p] has the subscriptions [l] now, or is gone. *)
Definition unlisted_at (d : bool) (path : string) (p : ptr) (x : SubMonitor) (l : list ptr) (s s' : server) : Prop :=
  (l <> [] /\ kq_smons (sv_kernel s') !! p = Some (set_sm_subs l x) /\
    (forall d', smon_hash d' (sv_kernel s') = smon_hash d' (sv_kernel s)) /\
    forall q, q <> p -> kq_smons (sv_kernel s') !! q = kq_smons (sv_kernel s) !! q) \/
  (l = [] /\ (forall d', smon_hash d' (sv_kernel s') = if bool_decide (d' = d) then delete path (smon_hash d (sv_kernel s))
      else smon_hash d' (sv_kernel s)) /\ kq_smons (sv_kernel s') !! p = None /\
    forall q, q <> p -> kq_smons (sv_kernel s') !! q = kq_smons (sv_kernel s) !! q).

Lemma unlisted_path_subs d path p x l s s' :
  kq_inv at_rest s -> smon_hash d (sv_kernel s) !! path = Some p -> kq_smons (sv_kernel s) !! p = Some x ->
  unlisted_at d path p x l s s' ->
  path_subs d path (sv_kernel s') = l /\
  (forall d' path', (d', path') <> (d, path) ->
    path_subs d' path' (sv_kernel s') = path_subs d' path' (sv_kernel s)) /\
  (is_Some (smon_hash d (sv_kernel s') !! path) -> path_subs d path (sv_kernel s') <> []).
Proof.
  intros Hi Hh Hx Hun. pose proof (ki_ok _ _ Hi) as Hk.
  destruct (ko_hash _ _ _ Hk d path p Hh) as (m & x' & Hm & Hx' & Ep & Ed).
  assert (forall d' path' q, (d', path') <> (d, path) -> smon_hash d' (sv_kernel s) !! path' = Some q -> q <> p) as Hne.
  { intros d' path' q Hne Hq ->. destruct (ko_hash _ _ _ Hk d' path' p Hq) as (m' & y & ? & ? & ? & ?).
    apply Hne. f_equal; congruence. }
  unfold path_subs. destruct Hun as [(Hl & Hp & Hha & Ho)|(-> & Hha & Hp & Ho)].
  - rewrite Hha, Hh, Hp. split; [done|]. split; [|done]. intros d' path' Hd. rewrite Hha.
    destruct (smon_hash d' (sv_kernel s) !! path') as [q|] eqn:Eq; [|done]. by rewrite Ho by by apply (Hne d' path').
  - assert (smon_hash d (sv_kernel s') !! path = None) as E
      by (rewrite Hha, bool_decide_eq_true_2 by done; apply lookup_delete_eq).
    rewrite E. split; [done|]. split; [|by intros [? ?]]. intros d' path' Hd.
    assert (smon_hash d' (sv_kernel s') !! path' = smon_hash d' (sv_kernel s) !! path') as ->.
    { rewrite Hha. case_bool_decide as E'; [|done]. subst d'. rewrite lookup_delete_ne; [done|congruence]. }
    destruct (smon_hash d' (sv_kernel s) !! path') as [q|] eqn:Eq; [|done]. by rewrite Ho by by apply (Hne d' path').
Qed.

(** What [gam_kqueue_remove_subscription] does. *)
Lemma kqueue_remove_outcome sub sb s :
  let d := gam_subscription_is_dir (Some sb) in let path := sub_path sb in
  kq_inv at_rest s -> subs (sv_heap s) !! sub = Some sb ->
  wp (gam_kqueue_remove_subscription sub) (fun r s' =>
    r = bool_decide (is_Some (smon_hash d (sv_kernel s) !! path)) /\ kq_inv at_rest s' /\
    forgotten sub (sv_kernel s') /\
    path_subs d path (sv_kernel s') = g_list_remove_all (path_subs d path (sv_kernel s)) sub /\
    (forall d' path', (d', path') <> (d, path) ->
      path_subs d' path' (sv_kernel s') = path_subs d' path' (sv_kernel s)) /\
    (is_Some (smon_hash d (sv_kernel s') !! path) -> path_subs d path (sv_kernel s') <> []) /\
    subs (sv_heap s') = (if r : bool then <[sub := set_sub_cancelled true sb]> (subs (sv_heap s)) else subs (sv_heap s)) /\
    listeners (sv_heap s') = listeners (sv_heap s)) s.
Proof.
  intros d path Hi Hsub. unfold gam_kqueue_remove_subscription.
  apply wp_bind, (wp_load (H := sub_obj)) with sb; [exact Hsub|]. apply wp_bind, wp_kq_gets. fold d path.
  destruct (smon_hash d (sv_kernel s) !! path) as [p|] eqn:Eh.
  2:{ apply wp_ret. rewrite bool_decide_eq_false_2 by by intros [? ?]. split; [done|]. split; [done|].
      unfold path_subs at 1 2 5. rewrite Eh. split; [|split; [done|]; split; [done|]; split; [by intros [? ?]|done]].
      intros q x Hx Hin. pose proof (subscribed_at sub sb q x s Hi Hsub Hx Hin) as E. fold d path in E. congruence. }
  rewrite bool_decide_eq_true_2 by done. pose proof (ki_ok _ _ Hi) as Hk.
  destruct (ko_hash _ _ _ Hk d path p Eh) as (m & x & Hm & Hx & Ep & Ed).
  set (l := g_list_remove_all (sm_subs x) sub).
  assert (path_subs d path (sv_kernel s) = sm_subs x) as Eps by (unfold path_subs; by rewrite Eh, Hx). rewrite Eps.
  apply wp_bind. eapply wp_kupdate; [exact Hx|].
  assert (kq_inv at_rest (upd_kq (fun k => set_kq_smons (<[p := set_sm_subs l x]> (kq_smons k)) k) s)) as Hi1.
  { apply (unlist_inv p x m); [done..|]. by intros q [? _]%elem_of_g_list_remove_all. }
  set (s1 := upd_kq _ s) in *.
  assert (kq_smons (sv_kernel s1) !! p = Some (set_sm_subs l x)) as Hx1 by apply lookup_insert_eq.
  assert (kq_monitors (sv_kernel s1) !! p = Some m) as Hm1 by exact Hm.
  assert (forall d', smon_hash d' (sv_kernel s1) = smon_hash d' (sv_kernel s)) as Eh1 by by intros [].
  assert (forall q, q <> p -> kq_smons (sv_kernel s1) !! q = kq_smons (sv_kernel s) !! q) as Eo1
    by (intros q Hq; simpl; by rewrite lookup_insert_ne).
  kq_load Hx1. cbn [sm_subs set_sm_subs]. apply wp_bind.
  eapply wp_mono with (Q := fun _ s2 => kq_inv at_rest s2 /\ subs (sv_heap s2) = subs (sv_heap s) /\
    listeners (sv_heap s2) = listeners (sv_heap s) /\ unlisted_at d path p x l s s2).
  - destruct l as [|q0 l'] eqn:El.
    + kq_load Hm1. apply wp_bind, wp_kq_modify.
      pose proof (ok_unhash _ _ _ (ki_ok _ _ Hi1) p _ m Hx1 Hm1 eq_refl) as Hk2. cbn [sm_isdir set_sm_subs] in Hk2.
      rewrite Ed in Hk2. set (s2 := upd_kq _ s1).
      assert (kq_inv (set_by_dying (Some p) at_rest) s2) as Hi2.
      { split; [exact Hk2|apply Hi1|]. intros q mq xq r Hmq Hxq Hr.
        apply (ki_subs _ _ Hi1 q mq xq r); [|  |done]; by destruct d. }
      assert (kq_smons (sv_kernel s2) = kq_smons (sv_kernel s1) /\ kq_monitors (sv_kernel s2) = kq_monitors (sv_kernel s1))
        as [Es2 Em2] by by destruct d.
      assert (forall d', smon_hash d' (sv_kernel s2) = if bool_decide (d' = d) then delete path (smon_hash d (sv_kernel s))
        else smon_hash d' (sv_kernel s)) as Eh2 by (rewrite <- Ep; intros d'; by destruct d, d').
      eapply wp_mono; [apply (wp_free_smon p (set_sm_subs [] x) m s2 Hi2)|].
      * by rewrite Es2.
      * by rewrite Em2.
      * intros d' path' Hq. rewrite Eh2 in Hq. case_bool_decide as E; [|destruct (ko_hash _ _ _ Hk d' path' p Hq) as (? & ? & ? & ? & ? & ?); congruence].
        apply lookup_delete_Some in Hq as [Hne Hq]. destruct (ko_hash _ _ _ Hk d path' p Hq) as (? & ? & ? & ? & ? & ?). congruence.
      * intros [] s3 [Hi3 [Hsu Hli Hha Hgo Hot Hno]]. split; [done|]. split; [by rewrite Hsu|]. split; [by rewrite Hli|].
        right. split; [done|]. split; [by intros d'; rewrite Hha, Eh2|]. split; [done|].
        intros q Hq. rewrite <- Eo1, <- Es2 by done. destruct (kq_smons (sv_kernel s2) !! q) as [y|] eqn:Ey; [|by apply Hno].
        rewrite <- Ey. apply Hot; [done|by exists y].
    + apply wp_ret. split; [done|]. split; [done|]. split; [done|]. left. done.
  - intros [] s2 (Hi2 & Esu & Eli & Hun). apply wp_bind. unfold gam_subscription_cancel.
    apply (wp_update (H := sub_obj)) with sb; [unfold objs; simpl; by rewrite Esu|]. apply wp_ret.
    set (s3 := upd_heap _ s2). assert (s3 = cancelled sub sb s2) as E3 by done.
    assert (sv_kernel s3 = sv_kernel s2) as Ek by done. rewrite Ek.
    destruct (unlisted_path_subs d path p x l s s2 Hi Eh Hx Hun) as (Hp & Hoth & Hne).
    split; [done|]. split; [rewrite E3; apply cancelled_inv; [done|by rewrite Esu]|].
    split; [|split; [done|]; split; [done|]; split; [done|]; simpl; by rewrite Esu, Eli].
    intros q y Hy Hin. assert (subs (sv_heap s2) !! sub = Some sb) as Hsub2 by by rewrite Esu.
    pose proof (subscribed_at sub sb q y s2 Hi2 Hsub2 Hy Hin) as Hq. fold d path in Hq.
    assert (sub ∈ path_subs d path (sv_kernel s2)) as Hin2 by (unfold path_subs; by rewrite Hq, Hy).
    rewrite Hp in Hin2. by apply elem_of_g_list_remove_all in Hin2 as [_ ?].
Qed.
End Unsubscribe.

(** ** How many files may be open *)

(** Rounding to the grid of multiples of [2 ^ sh] moves by half a step at most. *)
Lemma round_near p sh :
  0 <= sh ->
  let q := Z.shiftr p sh in
  let rest := p - Z.shiftl q sh in
  let half := Z.shiftl 1 (sh - 1) in
  let up := (0 <? sh) && ((half <? rest) || ((half =? rest) && Z.odd q)) in
  Z.abs (Z.shiftl (if up then q + 1 else q) sh - p) <= 2 ^ sh / 2.
Proof.
  intros Hsh q rest half up. subst q rest half up. rewrite !Z.shiftl_mul_pow2, Z.shiftr_div_pow2 by done.
  destruct (Z.eqb_spec sh 0) as [->|Hne]; [cbn [Z.ltb Z.compare andb]; rewrite Z.pow_0_r, Z.div_1_r; change (1 / 2) with 0; lia|].
  assert (0 < sh) as Hpos by lia. rewrite (proj2 (Z.ltb_lt _ _) Hpos). cbn [andb].
  rewrite Z.shiftl_mul_pow2, Z.mul_1_l by lia.
  assert (2 ^ sh = 2 * 2 ^ (sh - 1)) as E.
  { rewrite <- (Z.pow_succ_r 2 (sh - 1)) by lia. by rewrite Z.sub_1_r, Z.succ_pred. }
  assert (0 < 2 ^ (sh - 1)) as Hh by (apply Z.pow_pos_nonneg; lia). rewrite E.
  assert (2 * 2 ^ (sh - 1) / 2 = 2 ^ (sh - 1)) as -> by (rewrite Z.mul_comm; by apply Z.div_mul).
  set (h := 2 ^ (sh - 1)) in *. pose proof (Z.div_mod p (2 * h) ltac:(lia)) as Hd.
  pose proof (Z.mod_pos_bound p (2 * h) ltac:(lia)). set (d := p / (2 * h)) in *. set (r := p mod (2 * h)) in *.
  assert (p - Z.shiftl d sh = r) as -> by (rewrite Z.shiftl_mul_pow2, E by done; lia).
  destruct (Z.ltb_spec h r); [simpl; lia|]. destruct (Z.eqb_spec h r); [|simpl; lia].
  simpl. destruct (Z.odd d); lia.
Qed.

(** [maxfiles *= 0.7] gives the integer part of seven tenths, or one less. *)
Lemma scale_maxfiles_near n :
  0 <= n < 4294967296 -> n * 7 / 10 - 1 <= scale_maxfiles n <= n * 7 / 10.
Proof.
  intros Hn. destruct (decide (n = 0)) as [->|Hn0]; [by vm_compute|]. unfold scale_maxfiles, CFG_GLOBAL_FILE_RESERVE_RATIO.
  set (p := n * 6305039478318694). set (sh := Z.max 0 (Z.log2 p - 52)).
  assert (0 <= sh <= 32) as Hsh.
  { unfold sh. split; [lia|]. assert (Z.log2 p <= 84); [|lia]. assert (p < 2 ^ 85) as Hp by (unfold p; change (2 ^ 85) with 38685626227668133590597632; lia).
    apply Z.log2_lt_pow2 in Hp; [lia|unfold p; lia]. }
  pose proof (round_near p sh ltac:(lia)) as Hr. cbv zeta in Hr.
  set (z := Z.shiftl _ sh) in *. assert (2 ^ sh <= 2 ^ 32) as Hpw by (apply Z.pow_le_mono_r; lia).
  change (2 ^ 32) with 4294967296 in Hpw. assert (2 ^ sh / 2 <= 2147483648) as Hhalf by (apply Z.div_le_upper_bound; lia).
  rewrite Z.shiftr_div_pow2 by done. change (2 ^ 53) with 9007199254740992.
  pose proof (Z.div_mod z 9007199254740992 ltac:(lia)). pose proof (Z.mod_pos_bound z 9007199254740992 ltac:(lia)).
  pose proof (Z.div_mod (n * 7) 10 ltac:(lia)). pose proof (Z.mod_pos_bound (n * 7) 10 ltac:(lia)).
  set (a := z / 9007199254740992) in *. set (d := n * 7 / 10) in *. unfold p in Hr. lia.
Qed.

(** The limit is seven tenths of the system's, and leaves 200 of the process's. *)
Lemma file_limit_outcome maxfiles maxfilesperproc :
  0 <= maxfiles < 4294967296 -> 0 <= maxfilesperproc < 4294967296 ->
  let limit := file_limit maxfiles maxfilesperproc in
  0 <= limit /\ 10 * limit <= 7 * maxfiles /\ limit <= Z.max 0 (maxfilesperproc - 200) /\
  (limit < maxfiles * 7 / 10 - 1 -> limit = Z.max 0 (maxfilesperproc - 200)).
Proof.
  intros H1 H2 limit. pose proof (scale_maxfiles_near maxfiles H1) as Hs. unfold limit, file_limit.
  set (a := scale_maxfiles maxfiles) in *. unfold CFG_SELF_FILE_RESERVE.
  assert (0 <= a) as Ha.
  { unfold a. destruct (Z_le_gt_dec 2 maxfiles) as [Hm|Hm].
    - assert (1 <= maxfiles * 7 / 10) by (apply Z.div_le_lower_bound; lia). unfold a in Hs. lia.
    - assert (maxfiles = 0 \/ maxfiles = 1) as [-> | ->] by lia; by vm_compute. }
  pose proof (Z.mul_div_le (maxfiles * 7) 10 ltac:(lia)).
  assert ((if maxfilesperproc >? 200 then maxfilesperproc - 200 else 0) = Z.max 0 (maxfilesperproc - 200)) as ->
    by (destruct (Z.gtb_spec maxfilesperproc 200); lia). lia.
Qed.

Section Init.
Context {os : OS} {glib : GLib} {kq : Kqueue os} {kl : KqueueLaws kq} {laws : OSLaws os}.
Abbreviation M := (ST server).

(** ** [gam_kqueue_init] *)

(** Before any monitor. *)
Definition unused (k : kqueue_state) : Prop :=
  kq_monitors k = ∅ /\ kq_smons k = ∅ /\ kq_fmons k = ∅ /\ open_files k = 0 /\
  0 <= max_open_files k < 4294967296 /\ dir_hash k = ∅ /\ file_hash k = ∅ /\
  forall i, exists n, kq_pollers k i = mk_poller n false (gam_kqueue_hash_table_new ∅).

Lemma unused_ok k : unused k -> kq_ok at_rest ∅ k.
Proof.
  intros (Em & Es & Ef & Eo & Ex & Ed & Eh & Hp).
  assert (forall i, polled i k = ∅) as Epol by (intros i; unfold polled; destruct (Hp i) as [n ->]; done).
  split; try (intros; rewrite ?Em, ?Es, ?Ef, ?Eo in *; try done; lia).
  - intros d path p Hq. unfold smon_hash in Hq. rewrite Ed, Eh in Hq. by destruct d.
  - intros p x ft ut name f (Hx & _). by rewrite Es in Hx.
  - intros p x ft ut (Hx & _). by rewrite Es in Hx.
  - intros p x ft ut f (Hx & _). by rewrite Es in Hx.
  - intros i. by destruct (Hp i) as [n ->].
  - intros i. by destruct (Hp i) as [n ->].
  - intros i p. rewrite Epol. by intros ?%elem_of_empty.
  - intros p. rewrite Epol. by intros ?%elem_of_empty.
  - intros p x ft ut (Hx & _). by rewrite Es in Hx.
Qed.

(** The daemon before any backend was started. *)
Definition fresh_daemon (s : server) : Prop :=
  sv_kernel s = kqueue_initial /\ knotes (sv_world s) = ∅ /\ ready s.

Lemma unused_inv s : unused (sv_kernel s) -> knotes (sv_world s) = ∅ -> ready s -> kq_inv at_rest s.
Proof.
  intros Hu En Hr. split; [rewrite En; by apply unused_ok|done|]. intros p m x q Hm. by rewrite (proj1 Hu) in Hm.
Qed.

(** What [gam_kqueue_init] does. *)
Lemma kqueue_init_outcome s :
  fresh_daemon s -> wp gam_kqueue_init (fun r s' => kq_inv at_rest s' /\ sv_heap s' = sv_heap s /\
    (r = true -> kernel_handler (sv_ctl s') = GAMIN_K_KQUEUE /\
      exists maxfiles maxfilesperproc, 0 <= maxfiles < 4294967296 /\ 0 <= maxfilesperproc < 4294967296 /\
        max_open_files (sv_kernel s') = file_limit maxfiles maxfilesperproc) /\
    (r = false -> sv_ctl s' = sv_ctl s)) s.
Proof.
  intros (Ek & En & Hr). assert (unused kqueue_initial) as Hu by (do 7 (split; [done|]); intros []; by exists 0).
  assert (forall w, knotes w = ∅ -> kq_inv at_rest (set_sv_world w s)) as Hw
    by (intros w Ew; apply unused_inv; simpl; [by rewrite Ek|done|done]).
  unfold gam_kqueue_init. apply wp_bind, wp_sys. intros [] w1 H1; simpl.
  2:{ apply wp_ret. split; [|done]. apply Hw. by rewrite (create_knotes _ _ _ H1). }
  assert (knotes w1 = ∅) as E1 by by rewrite (create_knotes _ _ _ H1).
  unfold gam_kqueue_get_uint_sysctl. apply wp_bind, wp_sys. intros r2 w2 H2. simpl in H2.
  assert (knotes w2 = ∅) as E2 by by rewrite (sysctl_knotes _ _ _ _ H2).
  destruct r2 as [mf|]; [|apply wp_ret; split; [by apply (Hw w2)|done]].
  apply wp_bind, wp_sys. intros r3 w3 H3. simpl in H3.
  assert (knotes w3 = ∅) as E3 by by rewrite (sysctl_knotes _ _ _ _ H3).
  destruct r3 as [mp|]; [|apply wp_ret; split; [by apply (Hw w3)|done]].
  pose proof (sysctl_range _ _ _ _ H2) as R2. pose proof (sysctl_range _ _ _ _ H3) as R3.
  destruct (file_limit_outcome mf mp R2 R3) as (L0 & L1 & _).
  do 5 apply wp_bind, wp_kq_modify. apply wp_bind. unfold gam_server_install_kernel_hooks. apply wp_modify.
  apply wp_ret. split; [|split; [done|split; [|done]]].
  - apply unused_inv; [|done|done]. simpl. rewrite Ek. do 4 (split; [done|]).
    split; [simpl; lia|]. do 2 (split; [done|]). intros []; by eexists.
  - intros _. split; [done|]. exists mf, mp. do 2 (split; [done|]). done.
Qed.

(** ** A client goes *)

Lemma forgotten_step sub sub' sb' s s' :
  let d := gam_subscription_is_dir (Some sb') in let path := sub_path sb' in
  kq_inv at_rest s' -> forgotten sub (sv_kernel s) ->
  path_subs d path (sv_kernel s') = g_list_remove_all (path_subs d path (sv_kernel s)) sub' ->
  (forall d' path', (d', path') <> (d, path) -> path_subs d' path' (sv_kernel s') = path_subs d' path' (sv_kernel s)) ->
  forgotten sub (sv_kernel s').
Proof.
  intros d path Hi Hf E1 E2 p x Hx Hin. pose proof (ki_ok _ _ Hi) as Hk. destruct (ko_smon _ _ _ Hk p x Hx) as (m & Hm & _).
  pose proof (ko_hashed _ _ _ Hk p m x Hm Hx ltac:(done)) as Hh.
  assert (sub ∈ path_subs (sm_isdir x) (mon_pathname m) (sv_kernel s')) as Hin' by (unfold path_subs; by rewrite Hh, Hx).
  assert (sub ∈ path_subs (sm_isdir x) (mon_pathname m) (sv_kernel s)) as Hin0.
  { destruct (decide ((sm_isdir x, mon_pathname m) = (d, path))) as [[= Ed Ep]|Hne]; [|by rewrite <- E2].
    rewrite Ed, Ep in Hin' |- *. rewrite E1 in Hin'. by apply elem_of_g_list_remove_all in Hin' as [? _]. }
  unfold path_subs in Hin0. destruct (smon_hash (sm_isdir x) (sv_kernel s) !! mon_pathname m) as [q|]; [|by apply elem_of_nil in Hin0].
  destruct (kq_smons (sv_kernel s) !! q) as [y|] eqn:Ey; [by apply (Hf q y)|by apply elem_of_nil in Hin0].
Qed.

(** The subscriptions that are left of [l], the others forgotten. *)
Lemma remove_each_outcome l r0 s :
  kq_inv at_rest s -> (forall q, q ∈ l -> is_Some (subs (sv_heap s) !! q)) ->
  wp (remove_each l r0) (fun r s' => kq_inv at_rest s' /\ listeners (sv_heap s') = listeners (sv_heap s) /\
    (forall q, q ∈ l \/ forgotten q (sv_kernel s) -> forgotten q (sv_kernel s')) /\
    (forall q, is_Some (subs (sv_heap s) !! q) -> is_Some (subs (sv_heap s') !! q))) s.
Proof.
  revert r0 s. induction l as [|sub l IH]; intros r0 s Hi Hl; simpl.
  - apply wp_ret. do 2 (split; [done|]). split; [|done]. intros q [Hq|?]; [by apply elem_of_nil in Hq|done].
  - destruct (Hl sub) as [sb Hsb]; [by left|]. apply wp_bind.
    eapply wp_mono; [by apply (kqueue_remove_outcome sub sb s)|].
    intros r s1 (_ & Hi1 & Hf1 & E1 & E2 & _ & Es1 & El1).
    assert (forall q, is_Some (subs (sv_heap s) !! q) -> is_Some (subs (sv_heap s1) !! q)) as Hlive
      by (intros q Hq; rewrite Es1; destruct r; [by apply insert_is_Some|done]).
    eapply wp_mono; [apply IH; [done|]; intros q Hq; apply Hlive, Hl; by right|].
    intros r' s2 (Hi2 & El2 & Hf2 & Hlive2). split; [done|]. split; [congruence|]. split; [|auto].
    intros q Hq. apply Hf2. destruct Hq as [[->|Hq]%elem_of_cons|Hq]; [by right|by left|right].
    by apply (forgotten_step q sub sb s s1).
Qed.

Lemma kqueue_remove_all_outcome l ln s :
  kq_inv at_rest s -> listeners (sv_heap s) !! l = Some ln ->
  (forall q, q ∈ ln_subs ln -> is_Some (subs (sv_heap s) !! q)) ->
  wp (gam_kqueue_remove_all_for l) (fun _ s' => kq_inv at_rest s' /\
    forall q, q ∈ ln_subs ln -> forgotten q (sv_kernel s')) s.
Proof.
  intros Hi Hl Hs. unfold gam_kqueue_remove_all_for, gam_listener_get_subscriptions.
  apply wp_bind, wp_bind, (wp_load (H := listener_obj)) with ln; [exact Hl|]. apply wp_ret.
  eapply wp_mono; [by apply remove_each_outcome|]. intros r s' (Hi' & _ & Hf & _). split; [done|].
  intros q Hq. apply Hf. by left.
Qed.
End Init.
