(* ===== verification/KqueueService.v ===== *)
(** * The kqueue backend as the daemon sees it

    The requests and callbacks that reach the backend, the states they lead to,
    and what holds in all of them.  What the clients' code needs of the backend
    is [KernelClients.KernelSafe], which it fulfils. *)

From S2P Require Import Prelude Protocol EventQueue Monad OS Fs.
From S2P Require Import State Subscription Listener ConnSend Inv Emit.
From S2P Require Import PollGeneric PollBasic Safety Server KqueueState KqueueTables Kqueue.
From S2P Require Import KqueueInv KqueueSafety KqueueEvents KqueuePolls.
From S2P Require Import KqueuePolls KqueueHooks Connection KernelClients.

Local Open Scope Z_scope.

#[local] Existing Instance kqueue_kernel.

Section Service.
Context {os : OS} {glib : GLib} {kq : Kqueue os} {kl : KqueueLaws kq} {laws : OSLaws os}.
Abbreviation M := (ST server).

(** ** What the clients' code relies on *)

Definition kq_held (k : kqueue_state) (q : ptr) : Prop := exists p x, kq_smons k !! p = Some x /\ q ∈ sm_subs x.

Lemma held_not_forgotten k q : ~ kq_held k q <-> forgotten q k.
Proof. split; [intros H p x Hx Hq; apply H; by exists p, x|intros H (p & x & Hx & Hq); by apply (H p x)]. Qed.

Lemma held_path_subs s q :
  kq_inv at_rest s -> kq_held (sv_kernel s) q <-> exists d path, q ∈ path_subs d path (sv_kernel s).
Proof.
  intros Hi. split.
  - intros (p & x & Hx & Hq). destruct (ko_smon _ _ _ (ki_ok _ _ Hi) p x Hx) as (m & Hm & _).
    exists (sm_isdir x), (mon_pathname m). unfold path_subs.
    rewrite (ko_hashed _ _ _ (ki_ok _ _ Hi) p m x Hm Hx) by done. by rewrite Hx.
  - intros (d & path & Hq). unfold path_subs in Hq. destruct (smon_hash d (sv_kernel s) !! path) as [p|]; [|by apply elem_of_nil in Hq].
    destruct (kq_smons (sv_kernel s) !! p) as [x|] eqn:Hx; [by exists p, x|by apply elem_of_nil in Hq].
Qed.

(** The rest of the daemon at work: it leaves the backend alone, keeps its
    clients' connections ready, and the subscriptions that a monitor refers to
    stay with their listeners. *)
Record elsewhere (s s' : server) : Prop := {
  el_kernel : sv_kernel s' = sv_kernel s;
  el_notes : knotes (sv_world s') = knotes (sv_world s);
  el_ready : ready s -> ready s';
  el_subs q path d : ~ forgotten q (sv_kernel s) -> sub_for q path d s -> sub_for q path d s'
}.

Lemma elsewhere_inv s s' : kq_inv at_rest s -> elsewhere s s' -> kq_inv at_rest s'.
Proof.
  intros [Hk Hr Hs] [Ek En Hr' Hsub]. split; [by rewrite Ek, En|by apply Hr'|]. rewrite Ek.
  intros p m x q Hm Hx Hq. apply Hsub; [|by apply (Hs p m x)]. intros Hf. by apply (Hf p x).
Qed.

Lemma kept_sub_for q path d s s' : kept q s s' -> sub_for q path d s -> sub_for q path d s'.
Proof.
  intros Hk [Hok (sb & Hsb & Hd)]. split; [by apply (kept_sub_ok q path s)|].
  destruct Hok as (sb0 & l & Hsb0 & _ & _ & Hl & Hln). assert (sb0 = sb) as -> by congruence.
  destruct (Hk sb l Hsb Hl Hln) as (sb' & Hsb' & (_ & _ & E & _) & _). exists sb'. split; [done|].
  unfold gam_subscription_is_dir in *. congruence.
Qed.

#[export, program] Instance kqueue_safe : KernelSafe (kqueue_backend (kq := kq)) := {|
  ks_inv := kq_inv at_rest;
  ks_held := kq_held;
  ks_ghost := knotes
|}.
Next Obligation. exact stat_knotes. Qed.
Next Obligation. exact contents_knotes. Qed.
Next Obligation. exact write_knotes. Qed.
Next Obligation. intros s. apply ki_ready. Qed.
Next Obligation.
  intros s q Hi (p & x & Hx & Hq). destruct (ko_smon _ _ _ (ki_ok _ _ Hi) p x Hx) as (m & Hm & _).
  exists (mon_pathname m). apply (ki_subs _ _ Hi p m x q Hm Hx Hq).
Qed.
Next Obligation.
  intros s s' [Hk _ Hs] Ek En Hr Hkept. split; [by rewrite Ek, En|done|]. rewrite Ek.
  intros p m x q Hm Hx Hq. apply (kept_sub_for q _ _ s); [|by apply (Hs p m x)]. apply Hkept. by exists p, x.
Qed.
Next Obligation.
  intros sub sb l ln s Hi Had. eapply wp_mono; [by apply (kqueue_add_outcome sub sb l ln)|]. by intros b s' (_ & ? & _).
Qed.
Next Obligation.
  intros sub sb s Hi Hsb. eapply wp_mono; [by apply (kqueue_remove_outcome sub sb)|].
  intros b s' (_ & Hi' & Hf & Hown & Hoth & _ & Hs & Hl). split; [done|]. split; [by apply held_not_forgotten|]. split.
  - intros q (d & path & Hq)%held_path_subs; [|done]. apply held_path_subs; [done|]. exists d, path.
    destruct (decide ((d, path) = (gam_subscription_is_dir (Some sb), sub_path sb))) as [[= -> ->]|Hne].
    + simpl in Hown, Hq; rewrite Hown in Hq. by apply elem_of_g_list_remove_all in Hq as [? _].
    + by rewrite <- (Hoth d path Hne).
  - split; [done|]. intros q x Hx. rewrite Hs. destruct b; [|by exists x].
    rewrite lookup_insert. case_decide as E; [|by exists x]. subst q. assert (x = sb) as -> by congruence.
    by exists (set_sub_cancelled true sb).
Qed.

(** ** What can happen *)

Inductive kq_call :=
  | KeventReady                  (** the kqueue descriptor is readable *)
  | TimerFired (i : poller_id)
  | Subscribe (sub : ptr)
  | Unsubscribe (sub : ptr)
  | ClientGone (listener : ptr)
  | Request (conn : ptr) (off : nat) (req : GAMPacket)   (** a client's request in the buffer *)
  | ListenerFreed (listener : ptr).                      (** its connection is closed *)

Definition serve (c : kq_call) : M bool :=
  match c with
  | KeventReady => gam_kqueue_kevent_cb
  | TimerFired i => gam_kqueue_poller_timeout_cb i
  | Subscribe sub => gam_kqueue_add_subscription sub
  | Unsubscribe sub => gam_kqueue_remove_subscription sub
  | ClientGone l => gam_kqueue_remove_all_for l
  | Request conn off req => _ ← gam_connection_request conn off req; mret true
  | ListenerFreed l => _ ← gam_listener_free l; mret true
  end.

(** What the callers provide: live subscriptions, added once; a request of an
    authenticated client; a listener whose list has all its subscriptions.  The
    paths of a request or listener must still be the kernel's: after a remount
    [gam_remove_subscription] asks the wrong backend
    ([kqueue_remount_use_after_free] in [KqueueSim]).  The timer of paths that
    cannot be watched must not find one with a descriptor due for another try
    ([retry_leaks], there). *)
Definition callable (c : kq_call) (s : server) : Prop :=
  match c with
  | KeventReady => True
  | TimerFired i => forall p m, p ∈ polled i (sv_kernel s) -> kq_monitors (sv_kernel s) !! p = Some m -> may_poll i m
  | Subscribe sub => exists sb l ln, addable sub sb l ln s
  | Unsubscribe sub => is_Some (subs (sv_heap s) !! sub)
  | ClientGone l => exists ln, listeners (sv_heap s) !! l = Some ln /\
      forall q, q ∈ ln_subs ln -> is_Some (subs (sv_heap s) !! q)
  | Request conn off req => asks conn off req s
  | ListenerFreed l => exists ln, tidy l ln s /\ lists_own l (ln_subs ln) s /\ still_kernel l (ln_subs ln) s
  end.

(** The states that a daemon that started with kqueue comes to. *)
Inductive kq_reachable : server -> Prop :=
  | reach_init s0 s : fresh_daemon s0 -> gam_kqueue_init s0 = Ok (true, s) -> kq_reachable s
  | reach_call c b s s' : kq_reachable s -> callable c s -> serve c s = Ok (b, s') -> kq_reachable s'
  | reach_other s s' : kq_reachable s -> elsewhere s s' -> kq_reachable s'.

(** ** One call *)

Lemma serve_outcome c s :
  kq_inv at_rest s -> callable c s -> exists b s', serve c s = Ok (b, s') /\ kq_inv at_rest s'.
Proof.
  intros Hi Hc. destruct c as [|i|sub|sub|l|conn off req|l]; simpl in Hc |- *.
  - destruct (wp_Ok _ _ _ (kevent_cb_outcome s Hi)) as (b & s' & E & _ & Hi' & _). by exists b, s'.
  - destruct (wp_Ok _ _ _ (poller_timeout_outcome i s Hi Hc)) as (b & s' & E & _ & Hi' & _). by exists b, s'.
  - destruct Hc as (sb & l & ln & Had).
    destruct (wp_Ok _ _ _ (kqueue_add_outcome sub sb l ln s Hi Had)) as (b & s' & E & _ & Hi' & _). by exists b, s'.
  - destruct Hc as [sb Hsb].
    destruct (wp_Ok _ _ _ (kqueue_remove_outcome sub sb s Hi Hsb)) as (b & s' & E & _ & Hi' & _). by exists b, s'.
  - destruct Hc as (ln & Hl & Hs).
    destruct (wp_Ok _ _ _ (kqueue_remove_all_outcome l ln s Hi Hl Hs)) as (b & s' & E & Hi' & _). by exists b, s'.
  - destruct (wp_Ok _ _ _ (request_safe (ks := kqueue_safe) conn off req s Hi Hc)) as (r & s' & E & Hi').
    exists true, s'. by rewrite (bind_Ok _ _ _ _ _ E).
  - destruct Hc as (ln & Ht & Ho & Hk).
    destruct (wp_Ok _ _ _ (listener_free_safe (ks := kqueue_safe) l ln s Hi Ht Ho Hk)) as ([] & s' & E & Hi' & _).
    exists true, s'. by rewrite (bind_Ok _ _ _ _ _ E).
Qed.

Lemma reachable_inv s : kq_reachable s -> kq_inv at_rest s.
Proof.
  induction 1 as [s0 s Hf E|c b s s' _ IH Hc E|s s' _ IH He].
  - pose proof (kqueue_init_outcome s0 Hf) as H. unfold wp in H. rewrite E in H. by destruct H.
  - destruct (serve_outcome c s IH Hc) as (b' & s1 & E' & Hi). congruence.
  - by apply (elsewhere_inv s).
Qed.

(** ** What holds between two calls *)





(** C6: subscribing with kqueue.  In a reachable state
    [gam_kqueue_add_subscription] of a new subscription succeeds: it comes last
    among those of the one monitor of its path and kind, which has a descriptor
    or a poller; the subscriptions of every other path stay, and of the
    listeners only the subscription's changes. *)
Theorem kqueue_subscribe_attends sub sb l ln s :
  let d := gam_subscription_is_dir (Some sb) in let path := sub_path sb in
  kq_reachable s -> addable sub sb l ln s ->
  exists s', gam_kqueue_add_subscription sub s = Ok (true, s') /\
    attended d path (path_subs d path (sv_kernel s) ++ [sub]) (sv_kernel s') /\
    (forall d' path', (d', path') <> (d, path) ->
      path_subs d' path' (sv_kernel s') = path_subs d' path' (sv_kernel s)) /\
    subs (sv_heap s') = subs (sv_heap s) /\
    listeners (sv_heap s') = <[l := set_ln_subs (sub :: ln_subs ln) ln]> (listeners (sv_heap s)).
Proof.
  intros d path Hr Had. pose proof (kqueue_add_outcome sub sb l ln s (reachable_inv s Hr) Had) as H.
  destruct (wp_Ok _ _ _ H) as (b & s' & E & -> & _ & H'). by exists s'.
Qed.

(** C7: unsubscribing with kqueue.  In a reachable state
    [gam_kqueue_remove_subscription] completes; afterwards no monitor refers to
    the subscription, so that freeing it is safe.  It takes the subscription
    off its path only, the order of the others staying, leaves no monitor
    without subscriptions at the path, and says whether there was one, in which
    case the subscription is cancelled. *)
Theorem kqueue_unsubscribe_forgets sub sb s :
  let d := gam_subscription_is_dir (Some sb) in let path := sub_path sb in
  kq_reachable s -> subs (sv_heap s) !! sub = Some sb ->
  exists s', gam_kqueue_remove_subscription sub s = Ok (bool_decide (is_Some (smon_hash d (sv_kernel s) !! path)), s') /\
    forgotten sub (sv_kernel s') /\
    path_subs d path (sv_kernel s') = g_list_remove_all (path_subs d path (sv_kernel s)) sub /\
    (forall d' path', (d', path') <> (d, path) ->
      path_subs d' path' (sv_kernel s') = path_subs d' path' (sv_kernel s)) /\
    (is_Some (smon_hash d (sv_kernel s') !! path) -> path_subs d path (sv_kernel s') <> []) /\
    subs (sv_heap s') = (if bool_decide (is_Some (smon_hash d (sv_kernel s) !! path))
      then <[sub := set_sub_cancelled true sb]> (subs (sv_heap s)) else subs (sv_heap s)).
Proof.
  intros d path Hr Hsb. pose proof (kqueue_remove_outcome sub sb s (reachable_inv s Hr) Hsb) as H.
  destruct (wp_Ok _ _ _ H) as (b & s' & E & -> & _ & H1 & H2 & H3 & H4 & H5 & _). by exists s'.
Qed.
End Service.

(** C36: the limit on open files.  What [gam_kqueue_init] computes from the
    system's and the process's limits, through a product with a [double], does
    not wrap: it is at most seven tenths of the system's limit, leaves 200 of
    the process's files, and is not lower than these by more than one. *)
Theorem file_limit_bounds maxfiles maxfilesperproc :
  0 <= maxfiles < 4294967296 -> 0 <= maxfilesperproc < 4294967296 ->
  let limit := file_limit maxfiles maxfilesperproc in
  0 <= limit /\ 10 * limit <= 7 * maxfiles /\ limit <= Z.max 0 (maxfilesperproc - 200) /\
  (limit < maxfiles * 7 / 10 - 1 -> limit = Z.max 0 (maxfilesperproc - 200)).
Proof. apply file_limit_outcome. Qed.

Lemma file_limit_bounds_witness :
  file_limit 4294967295 12345 = 12145 /\ 10 * file_limit 4294967295 12345 <= 7 * 4294967295.
Proof.
  split; [by vm_compute|].
  exact (proj1 (proj2 (file_limit_bounds 4294967295 12345 ltac:(split; [lia|reflexivity]) ltac:(split; [lia|reflexivity])))).
Defined.
