(* ===== verification/KqueueDefer.v ===== *)
(** * Changing a table while going through it

    [gam_kqueue_hash_table_foreach] puts changes off until it is done.  For the
    pollers' tables the effect is that of going through a copy of the table and
    making each change at once, as long as no monitor is both added and
    removed. *)

From S2P Require Import Prelude Protocol Monad OS Fs State.
From S2P Require Import KqueueState KqueueTables Kqueue KqueueInv KqueueSafety KqueuePolls.

Local Open Scope Z_scope.

#[local] Existing Instance kqueue_kernel.

(** What the function called for a monitor may do to the poller. *)
Inductive change := Added (p : ptr) | Removed (p : ptr).

Definition additions (l : list change) : list ptr := omap (fun c => if c is Added p then Some p else None) l.
Definition removals (l : list change) : list ptr := omap (fun c => if c is Removed p then Some p else None) l.

(** No monitor is added and removed. *)
Definition undisputed (l : list change) : Prop := forall p, Added p ∈ l -> Removed p ∉ l.

(** The set after the changes, one by one. *)
Fixpoint changed (X : gset ptr) (l : list change) : gset ptr :=
  match l with
  | [] => X
  | Added p :: l => changed ({[p]} ∪ X) l
  | Removed p :: l => changed (X ∖ {[p]}) l
  end.

Lemma elem_additions p l : p ∈ additions l <-> Added p ∈ l.
Proof.
  unfold additions. rewrite list_elem_of_omap. split.
  - intros ([q|q] & Hq & E); [|done]. by injection E as <-.
  - intros H. by exists (Added p).
Qed.

Lemma elem_removals p l : p ∈ removals l <-> Removed p ∈ l.
Proof.
  unfold removals. rewrite list_elem_of_omap. split.
  - intros ([q|q] & Hq & E); [done|]. by injection E as <-.
  - intros H. by exists (Removed p).
Qed.

(** All additions first, then all removals, comes to the same. *)
Lemma changed_undisputed X l :
  undisputed l -> changed X l = (X ∪ list_to_set (additions l)) ∖ list_to_set (removals l).
Proof.
  revert X. induction l as [|[p|p] l IH]; intros X Hu; simpl; [set_solver|..].
  - rewrite IH by (intros q Hq Hr; apply (Hu q); by right). set_solver.
  - rewrite IH by (intros q Hq Hr; apply (Hu q); by right).
    assert (p ∉ (list_to_set (additions l) : gset ptr)) as Hn; [|set_solver].
    rewrite elem_of_list_to_set, elem_additions. intros Hp. apply (Hu p); [by right|by left].
Qed.

Section Defer.
Context {os : OS} {glib : GLib} {kq : Kqueue os}.
Abbreviation M := (ST server).

Definition make_change (i : poller_id) (c : change) : M unit :=
  match c with
  | Added p => gam_kqueue_poller_add_sub_monitor i p
  | Removed p => gam_kqueue_poller_remove_sub_monitor i p
  end.

(** ** Pollers in and between iterations *)

Definition resting (n : Z) (X : gset ptr) : Poller :=
  mk_poller n (negb (bool_decide (X = ∅))) (mk_table X false [] []).
Definition deferring (n : Z) (t : bool) (X : gset ptr) (a r : list ptr) : Poller :=
  mk_poller n t (mk_table X true a r).

(** The daemon with the poller [P]. *)
Definition with_poller (i : poller_id) (P : Poller) (s : server) : server :=
  set_sv_kernel (set_poller i P (sv_kernel s)) s.

Lemma with_poller_at i P s : kq_pollers (sv_kernel (with_poller i P s)) i = P.
Proof. unfold with_poller. simpl. by rewrite kq_pollers_set, decide_True. Qed.

Lemma with_poller_twice i P Q s : with_poller i P (with_poller i Q s) = with_poller i P s.
Proof. unfold with_poller. simpl. by rewrite set_poller_twice. Qed.

Lemma change_resting i c n X s :
  make_change i c (with_poller i (resting n X) s) = Ok (tt, with_poller i (resting n (changed X [c])) s).
Proof.
  destruct c as [p|p]; simpl.
  - rewrite poller_add_eq by (by rewrite with_poller_at). rewrite with_poller_at.
    change (set_sv_kernel _ _) with (with_poller i (poller_plus p (resting n X)) (with_poller i (resting n X) s)).
    rewrite with_poller_twice. unfold poller_plus, resting. simpl. rewrite bool_decide_eq_false_2 by set_solver. done.
  - rewrite poller_remove_eq, with_poller_at.
    change (set_sv_kernel _ _) with (with_poller i (poller_minus p (resting n X)) (with_poller i (resting n X) s)).
    rewrite with_poller_twice. unfold poller_minus, resting, set_ht_main. simpl.
    destruct (decide (X ∖ {[p]} = ∅)) as [E|E]; [by rewrite !(bool_decide_eq_true_2 _ E)|].
    rewrite !(bool_decide_eq_false_2 _ E). rewrite bool_decide_eq_false_2 by set_solver. done.
Qed.

Lemma changes_resting i l n X s :
  for_each l (make_change i) (with_poller i (resting n X) s) = Ok (tt, with_poller i (resting n (changed X l)) s).
Proof.
  revert X. induction l as [|c l IH]; intros X; [done|]. simpl for_each.
  rewrite (bind_Ok _ _ _ _ _ (change_resting i c n X s)), IH. by destruct c.
Qed.

Lemma change_deferring i c n t X a r s :
  make_change i c (with_poller i (deferring n t X a r) s) =
  Ok (tt, with_poller i (deferring n t X (additions [c] ++ a) (removals [c] ++ r)) s).
Proof.
  destruct c as [p|p]; simpl; unfold gam_kqueue_poller_add_sub_monitor, gam_kqueue_poller_remove_sub_monitor,
    gam_kqueue_hash_table_add, gam_kqueue_hash_table_remove; erewrite bind_Ok by done;
    cbn [tb_type poller_table]; rewrite with_poller_at; cbn [ht_iterating pl_smons deferring];
    cbn [tb_modify poller_table]; unfold poller_modify_smons; rewrite poller_modify_eq, with_poller_at;
    match goal with |- Ok (tt, set_sv_kernel (set_poller i ?P _) _) = _ =>
      change (Ok (tt, with_poller i P (with_poller i (deferring n t X a r) s)) = Ok (tt, with_poller i P s)) end;
    by rewrite with_poller_twice.
Qed.

Lemma changes_deferring i l n t X a r s :
  for_each l (make_change i) (with_poller i (deferring n t X a r) s) =
  Ok (tt, with_poller i (deferring n t X (rev (additions l) ++ a) (rev (removals l) ++ r)) s).
Proof.
  revert a r. induction l as [|c l IH]; intros a r; [done|]. simpl for_each.
  rewrite (bind_Ok _ _ _ _ _ (change_deferring i c n t X a r s)), IH. do 3 f_equal. f_equal;
    destruct c; simpl; by rewrite <- ?app_assoc.
Qed.

(** ** The changes that were put off *)

Lemma modify_smons_eq i f n t T s :
  poller_modify_smons i f (with_poller i (mk_poller n t T) s) = Ok (tt, with_poller i (mk_poller n t (f T)) s).
Proof.
  unfold poller_modify_smons. rewrite poller_modify_eq, with_poller_at.
  change (set_sv_kernel _ _) with (with_poller i (mk_poller n t (f T)) (with_poller i (mk_poller n t T) s)).
  by rewrite with_poller_twice.
Qed.

Lemma adds_eq i l n t X a r it s :
  for_each l (gam_kqueue_hash_table_default_add_cb (poller_modify_smons i))
    (with_poller i (mk_poller n t (mk_table X it a r)) s) =
  Ok (tt, with_poller i (mk_poller n t (mk_table (list_to_set l ∪ X) it a r)) s).
Proof.
  revert X. induction l as [|p l IH]; intros X; simpl for_each.
  - change (list_to_set [] : gset ptr) with (∅ : gset ptr). by rewrite (left_id_L ∅ (∪)).
  - etransitivity; [apply bind_Ok, modify_smons_eq|]. unfold set_ht_main. cbn [ht_main ht_iterating pending_additions pending_removals].
    rewrite IH.
    do 5 f_equal. simpl. set_solver.
Qed.

Lemma removes_eq i l n t X a r it s :
  for_each l (gam_kqueue_hash_table_default_remove_cb (poller_modify_smons i))
    (with_poller i (mk_poller n t (mk_table X it a r)) s) =
  Ok (tt, with_poller i (mk_poller n t (mk_table (X ∖ list_to_set l) it a r)) s).
Proof.
  revert X. induction l as [|p l IH]; intros X; simpl for_each.
  - change (list_to_set [] : gset ptr) with (∅ : gset ptr). by rewrite difference_empty_L.
  - etransitivity; [apply bind_Ok, modify_smons_eq|]. unfold set_ht_main. cbn [ht_main ht_iterating pending_additions pending_removals].
    rewrite IH.
    do 5 f_equal. simpl. set_solver.
Qed.

Lemma post_add_eq i n t T s :
  gam_kqueue_poller_post_add_cb i (with_poller i (mk_poller n t T) s) = Ok (tt, with_poller i (mk_poller n true T) s).
Proof.
  unfold gam_kqueue_poller_post_add_cb. erewrite bind_Ok by done. rewrite with_poller_at. destruct t; [done|].
  cbn [pl_timeout negb when]. rewrite poller_modify_eq, with_poller_at.
  change (set_sv_kernel _ _) with (with_poller i (mk_poller n true T) (with_poller i (mk_poller n false T) s)).
  by rewrite with_poller_twice.
Qed.

Lemma post_remove_eq i n t T s :
  gam_kqueue_poller_post_remove_cb i (with_poller i (mk_poller n t T) s) =
  Ok (tt, with_poller i (mk_poller n (negb (bool_decide (ht_main T = ∅)) && t) T) s).
Proof.
  unfold gam_kqueue_poller_post_remove_cb. erewrite bind_Ok by done. rewrite with_poller_at.
  cbn [pl_smons pl_timeout]. destruct (bool_decide _), t; try done.
  cbn [andb when negb]. rewrite poller_modify_eq, with_poller_at.
  change (set_sv_kernel _ _) with (with_poller i (mk_poller n false T) (with_poller i (mk_poller n true T) s)).
  by rewrite with_poller_twice.
Qed.

(** The two flushes. *)
Lemma flush_additions_eq i n X a r s :
  flush_additions (poller_table i) (with_poller i (mk_poller n (negb (bool_decide (X = ∅))) (mk_table X false a r)) s) =
  Ok (tt, with_poller i (mk_poller n (negb (bool_decide (list_to_set a ∪ X = ∅))) (mk_table (list_to_set a ∪ X) false [] r)) s).
Proof.
  unfold flush_additions. erewrite bind_Ok by done. cbn [tb_type poller_table]. rewrite with_poller_at.
  cbn [pl_smons pending_additions]. destruct a as [|p a].
  - change (list_to_set [] : gset ptr) with (∅ : gset ptr). by rewrite (left_id_L ∅ (∪)).
  - cbn [tb_add poller_table]. rewrite (bind_Ok _ _ _ _ _ (adds_eq i (p :: a) _ _ X _ r false s)).
    cbn [tb_modify poller_table]. rewrite (bind_Ok _ _ _ _ _ (modify_smons_eq i _ _ _ _ s)).
    cbn [tb_post_add poller_table call_post]. rewrite post_add_eq.
    rewrite (bool_decide_eq_false_2 (list_to_set (p :: a) ∪ X = ∅)) by (simpl; set_solver). done.
Qed.

Lemma flush_removals_eq i n X r s :
  flush_removals (poller_table i) (with_poller i (mk_poller n (negb (bool_decide (X = ∅))) (mk_table X false [] r)) s) =
  Ok (tt, with_poller i (resting n (X ∖ list_to_set r)) s).
Proof.
  unfold flush_removals. erewrite bind_Ok by done. cbn [tb_type poller_table]. rewrite with_poller_at.
  cbn [pl_smons pending_removals]. destruct r as [|p r].
  - change (list_to_set [] : gset ptr) with (∅ : gset ptr). by rewrite difference_empty_L.
  - cbn [tb_remove poller_table]. rewrite (bind_Ok _ _ _ _ _ (removes_eq i (p :: r) _ _ X [] _ false s)).
    cbn [tb_modify poller_table]. rewrite (bind_Ok _ _ _ _ _ (modify_smons_eq i _ _ _ _ s)).
    cbn [tb_post_remove poller_table call_post]. rewrite post_remove_eq. unfold resting. cbn [ht_main set_removals].
    set (Y := X ∖ _). destruct (decide (Y = ∅)) as [E|E].
    + by rewrite !(bool_decide_eq_true_2 _ E).
    + rewrite !(bool_decide_eq_false_2 _ E). rewrite bool_decide_eq_false_2; [done|]. intros E'. apply E.
      unfold Y. rewrite E'. clear. set_solver.
Qed.

(** ** The theorem *)

Lemma rev_alt_reverse {A} (l : list A) : reverse l = rev l.
Proof. unfold reverse. by rewrite rev_alt. Qed.

Lemma for_each_app_eq {A} (l1 l2 : list A) (f : A -> M unit) s :
  for_each (l1 ++ l2) f s = (_ ← for_each l1 f; for_each l2 f) s.
Proof.
  revert s. induction l1 as [|x l1 IH]; intros s; [done|]. simpl. unfold mbind, ST_bind in *.
  destruct (f x s) as [[[] s']|]; [apply IH|done].
Qed.

Lemma for_each_flatten {A B} (l : list A) (cs : A -> list B) (f : B -> M unit) s :
  for_each l (fun x => for_each (cs x) f) s = for_each (l ≫= cs) f s.
Proof.
  revert s. induction l as [|x l IH]; intros s; [done|].
  change ((x :: l) ≫= cs) with (cs x ++ (l ≫= cs)). rewrite for_each_app_eq. simpl. unfold mbind, ST_bind in *.
  destruct (for_each (cs x) f s) as [[[] s']|]; [apply IH|done].
Qed.

(** A poller between two rounds. *)
Definition poller_idle (i : poller_id) (s : server) : Prop := let P := kq_pollers (sv_kernel s) i in
  table_ok false (pl_smons P) /\ pl_timeout P = negb (bool_decide (ht_main (pl_smons P) = ∅)).

Lemma poller_idle_resting i s : poller_idle i s ->
  with_poller i (resting (pl_interval (kq_pollers (sv_kernel s) i)) (ht_main (pl_smons (kq_pollers (sv_kernel s) i)))) s = s.
Proof.
  intros [(H1 & H2 & H3) H4]. specialize (H3 eq_refl).
  assert (resting _ _ = kq_pollers (sv_kernel s) i) as ->; [|unfold with_poller; rewrite set_poller_same; by destruct s].
  unfold resting. destruct (kq_pollers (sv_kernel s) i) as [n t [X it a r]]. simpl in *. by subst.
Qed.

(** C35: changing a table while going through it.  Whatever changes to the
    poller the function makes for each monitor, going through the poller's
    table with [gam_kqueue_hash_table_foreach], which puts them off, ends in
    the state that making them at once would reach while going through a copy
    of the table, timer included, if no monitor is both added and removed. *)
Theorem deferred_is_immediate i (cs : ptr -> list change) s :
  let copy := foreach_order (elements (ht_main (pl_smons (kq_pollers (sv_kernel s) i)))) (sv_world s) in
  poller_idle i s -> undisputed (copy ≫= cs) ->
  gam_kqueue_hash_table_foreach (poller_table i) (fun p => for_each (cs p) (make_change i)) s =
  for_each copy (fun p => for_each (cs p) (make_change i)) s.
Proof.
  intros copy Hi Hu. pose proof (poller_idle_resting i s Hi) as Es.
  set (n := pl_interval (kq_pollers (sv_kernel s) i)) in *. set (X := ht_main (pl_smons (kq_pollers (sv_kernel s) i))) in *.
  assert (forall s0, for_each copy (fun p => for_each (cs p) (make_change i)) s0 = for_each (copy ≫= cs) (make_change i) s0) as Hflat.
  { intros s0. apply for_each_flatten. }
  rewrite Hflat, <- Es, changes_resting. rewrite (changed_undisputed X _ Hu).
  unfold gam_kqueue_hash_table_foreach. erewrite bind_Ok by done. cbn [tb_type poller_table]. rewrite with_poller_at.
  cbn [pl_smons resting ht_iterating negb]. unfold g_assert. erewrite bind_Ok by done.
  cbn [tb_modify poller_table]. unfold resting at 1. rewrite (bind_Ok _ _ _ _ _ (modify_smons_eq i _ _ _ _ s)).
  erewrite bind_Ok by done. cbn [tb_values poller_table ht_main]. fold copy.
  rewrite (bind_Ok _ _ _ tt (with_poller i (deferring n (negb (bool_decide (X = ∅))) X
    (rev (additions (copy ≫= cs))) (rev (removals (copy ≫= cs)))) s)).
  2:{ etransitivity; [exact (Hflat _)|].
      change (set_iterating true (mk_table X false [] [])) with (mk_table X true [] []).
      etransitivity; [exact (changes_deferring i (copy ≫= cs) n _ X [] [] s)|]. by rewrite !app_nil_r. }
  unfold deferring. rewrite (bind_Ok _ _ _ _ _ (modify_smons_eq i _ _ _ _ s)). unfold set_iterating. cbn [ht_main pending_additions pending_removals].
  rewrite (bind_Ok _ _ _ _ _ (flush_additions_eq i _ X _ _ s)), flush_removals_eq.
  do 4 f_equal. apply set_eq. intros p. rewrite !elem_of_difference, !elem_of_union, !elem_of_list_to_set.
  rewrite <- !rev_alt_reverse, !elem_of_reverse. tauto.
Qed.
End Defer.
