(* ===== verification/KqueueSim.v ===== *)
(** * A simulated kernel with kqueue, and runs of the backend on it

    The files are those of [OS.sim_os]; besides, the world knows which
    descriptors are open and for which monitor they are registered, whether
    [open] is refused, and which events are queued. *)

From S2P Require Import Prelude Protocol EventQueue Monad OS Excludes.
From S2P Require Import Fs State Subscription Listener ConnSend Inv Emit Safety.
From S2P Require Import Server Connection InotifySim KqueueState KqueueTables Kqueue.
From S2P Require Import KqueueInv KqueueSafety KqueueEvents KqueuePolls.
From S2P Require Import KqueueHooks KernelClients KqueueService KqueueDefer.

Local Open Scope Z_scope.

Record kq_world := mk_kq_world {
  kw_sim : sim_world;
  kw_fds : gmap Z (option ptr);
  kw_refuse : bool;
  kw_events : list (Z * Z)        (** descriptor and [fflags] *)
}.

Definition on_sim {A} (f : sim_world -> A * sim_world) (w : kq_world) : A * kq_world :=
  let '(a, s) := f (kw_sim w) in (a, mk_kq_world s (kw_fds w) (kw_refuse w) (kw_events w)).

Fixpoint plain (s : string) : bool :=
  match s with
  | EmptyString => true
  | String c s' => negb (Ascii.eqb c slash) && plain s'
  end.

Lemma plain_no_slash s : plain s = true -> no_slash s.
Proof.
  induction s as [|c s IH]; simpl; [done|]. intros [Hc%negb_true_iff Hs]%andb_true_iff. split; [done|auto].
Qed.

(** The entries as a directory gives them: each once, without a path. *)
Definition entries (l : list string) : list string := remove_dups (filter (fun n => plain n = true) l).

Definition kq_os : OS := {|
  world := kq_world;
  sys_stat p := on_sim (sys_stat (OS := sim_os) p);
  file_exists p := on_sim (file_exists (OS := sim_os) p);
  file_is_dir p := on_sim (file_is_dir (OS := sim_os) p);
  dir_names p := fun w : kq_world => (entries <$> assoc p (sim_dirs (kw_sim w)), w);
  sys_time := on_sim (sys_time (OS := sim_os));
  file_contents p := on_sim (file_contents (OS := sim_os) p);
  sys_write fd l := on_sim (sys_write (OS := sim_os) fd l);
  interrupts := fun w : kq_world => sim_signals (kw_sim w);
  stack_garbage _ := 0;
  proc_name pid := on_sim (proc_name (OS := sim_os) pid)
|}.

#[export] Instance kq_os_laws : OSLaws kq_os.
Proof.
  refine {| written fd := fun w : @world kq_os => sim_output fd (kw_sim w) |}.
  - intros fd l w n w' Hl Hw. unfold sys_write, kq_os, on_sim in Hw.
    destruct (sys_write (OS := sim_os) fd l (kw_sim w)) as [r s] eqn:E. injection Hw as -> <-.
    exact (write_ok (OSLaws := sim_os_laws) fd l (kw_sim w) n s Hl E).
  - intros fd l w e w' Hw. unfold sys_write, kq_os, on_sim in Hw.
    destruct (sys_write (OS := sim_os) fd l (kw_sim w)) as [r s] eqn:E. injection Hw as -> <-.
    exact (write_err (OSLaws := sim_os_laws) fd l (kw_sim w) e s E).
Defined.

(** [open] gives the lowest descriptor above the standard ones that is free. *)
Definition lowest_free (fds : gmap Z (option ptr)) : Z := 1 + map_fold (fun fd _ n => Z.max fd n) 2 fds.

Lemma lowest_free_above fds fd o : fds !! fd = Some o -> fd < lowest_free fds.
Proof.
  unfold lowest_free. revert fds. apply (map_fold_weak_ind (fun n (fds : gmap Z (option ptr)) => fds !! fd = Some o -> fd < 1 + n)).
  - by rewrite lookup_empty.
  - intros i x m n _ IH. rewrite lookup_insert_Some. intros [[<- _]|[_ H%IH]]; lia.
Qed.

Lemma lowest_free_pos fds : 0 <= lowest_free fds.
Proof. unfold lowest_free. apply (map_fold_weak_ind (fun n _ => 0 <= 1 + n)); [lia|]. intros; lia. Qed.

Definition sim_kstat (st : stat_t) : kstat :=
  mk_kstat 1 (if st_dir st then 16877 else 33188) 0 0 (st_mtime st) (st_ctime st) (st_size st).

Definition sim_open_nofollow (p : string) (w : kq_world) : sysres Z * kq_world :=
  match assoc p (sim_files (kw_sim w)), kw_refuse w with
  | Some _, false =>
      let fd := lowest_free (kw_fds w) in
      (SysOk fd, mk_kq_world (kw_sim w) (<[fd := None]> (kw_fds w)) false (kw_events w))
  | _, _ => (SysErr ENOENT, w)
  end.

Definition sim_register (fd : Z) (p : ptr) (w : kq_world) : bool * kq_world :=
  match kw_fds w !! fd with
  | Some _ => (true, mk_kq_world (kw_sim w) (<[fd := Some p]> (kw_fds w)) (kw_refuse w) (kw_events w))
  | None => (false, w)
  end.

Definition sim_event (w : kq_world) : sysres (option kevent) * kq_world :=
  match kw_events w with
  | [] => (SysOk None, w)
  | (fd, fflags) :: l =>
      (SysOk (match kw_fds w !! fd with Some (Some p) => Some (mk_kevent 0 fflags p) | _ => None end),
       mk_kq_world (kw_sim w) (kw_fds w) (kw_refuse w) l)
  end.

#[export] Instance kq_calls : Kqueue kq_os := {|
  kqueue_create := fun w : @world kq_os => (true, w);
  sysctl_uint name := fun w : @world kq_os => (Some 1000, w);
  lstat p := fun w : @world kq_os => (sim_kstat <$> assoc p (sim_files (kw_sim w)), w);
  open_nofollow := sim_open_nofollow : string -> @world kq_os -> _;
  close_fd fd := fun w : @world kq_os => mk_kq_world (kw_sim w) (delete fd (kw_fds w)) (kw_refuse w) (kw_events w);
  kevent_change fd _ _ p := sim_register fd p : @world kq_os -> _;
  kevent_poll := sim_event : @world kq_os -> _;
  foreach_order l _ := l
|}.

#[local] Existing Instance kq_os.
#[local] Existing Instance sim_glib.
#[local] Existing Instance kqueue_kernel.

#[export] Instance kq_laws : KqueueLaws (os := kq_os) (glib := sim_glib) kq_calls.
Proof.
  refine {| knotes := kw_fds : @world kq_os -> _ |}.
  - intros p w fd w'. simpl. unfold sim_open_nofollow. destruct (assoc _ _), (kw_refuse w); try done.
    intros [= <- <-]. simpl. split; [apply lowest_free_pos|]. split; [|done].
    destruct (kw_fds w !! lowest_free (kw_fds w)) as [o|] eqn:E; [|done]. pose proof (lowest_free_above _ _ _ E). lia.
  - intros p w e w'. simpl. unfold sim_open_nofollow. destruct (assoc _ _), (kw_refuse w); by intros [= _ <-].
  - done.
  - intros fd fl ff p w w'. simpl. unfold sim_register. destruct (kw_fds w !! fd); [|done]. by intros [= <-].
  - intros fd fl ff p w w'. simpl. unfold sim_register. destruct (kw_fds w !! fd); [done|]. by intros [= <-].
  - intros w r w'. simpl. unfold sim_event. destruct (kw_events w) as [|[fd ff] l]; by intros [= _ <-].
  - intros w ev w'. simpl. unfold sim_event. destruct (kw_events w) as [|[fd ff] l]; [done|].
    destruct (kw_fds w !! fd) as [[p|]|] eqn:E; try done. intros [= <- _]. by exists fd.
  - by intros w r w' [= _ <-].
  - by intros n w r w' [= _ <-].
  - intros n w v w' [= <- _]. lia.
  - by intros p w r w' [= _ <-].
  - by intros p w r w' [= _ <-].
  - intros fd l w r w'. unfold sys_write, kq_os, on_sim.
    destruct (sys_write (OS := sim_os) fd l (kw_sim w)) as [r' s]. by intros [= _ <-].
  - intros p w r w'. unfold sys_stat, kq_os, on_sim.
    destruct (sys_stat (OS := sim_os) p (kw_sim w)) as [r' s]. by intros [= _ <-].
  - intros p w r w'. unfold file_contents, kq_os, on_sim.
    destruct (file_contents (OS := sim_os) p (kw_sim w)) as [r' s]. by intros [= _ <-].
  - by intros l w.
  - intros p w l w'. simpl. destruct (assoc p _) as [l0|]; [|done]. intros [= <- _]. simpl. unfold entries. split.
    + apply NoDup_remove_dups.
    + apply Forall_forall. intros n. rewrite elem_of_remove_dups, list_elem_of_filter. intros [Hn _]. by apply plain_no_slash.
  - intros d n _. right. by exists d.
Defined.

(** ** Runs *)

Definition home_world (files : list string) (refuse : bool) : kq_world :=
  let paths := (fun f => ("/home/" ++ f)%string) <$> files in
  mk_kq_world
    (mk_sim ([("/etc/mtab"%string, mk_stat false 1 0 10 9 0); ("/"%string, home_stat true);
              ("/home"%string, home_stat true)] ++ ((fun p => (p, home_stat false)) <$> paths))
       [("/home"%string, files)]
       [("/etc/mtab"%string, ("/dev/sda1 / ext3 rw" ++ String (Ascii.ascii_of_nat 10) "")%string)]
       100 [] 0 0) ∅ refuse [].

(** A daemon that has just started with kqueue, with one authenticated client. *)
Definition kq_start (w : kq_world) : ST server ptr :=
  _ ← modify (set_sv_world w);
  _ ← gam_init_subscriptions;
  c ← gam_connection_new 7;
  _ ← gam_connection_set_pid c 42;
  mret c.
Definition kq_request (c : ptr) (type : Z) (path : string) : ST server Z :=
  gam_connection_request c 0 (make_packet 1 type (bytes_of_path path)).
Definition kq_run {A} (m : ptr -> ST server A) (w : kq_world) : res (A * server) :=
  (c ← kq_start w; m c) (server_initial kqueue_initial w).

(** The kernel's side changes. *)
Definition outside (f : kq_world -> kq_world) : ST server unit := modify (fun s => set_sv_world (f (sv_world s)) s).
Definition refuse (b : bool) : ST server unit :=
  outside (fun w => mk_kq_world (kw_sim w) (kw_fds w) b (kw_events w)).
Definition queue_event (fd fflags : Z) : ST server unit :=
  outside (fun w => mk_kq_world (kw_sim w) (kw_fds w) (kw_refuse w) (kw_events w ++ [(fd, fflags)])).
Fixpoint rounds (n : nat) : ST server unit :=
  match n with
  | O => mret tt
  | S n => _ ← gam_kqueue_poller_timeout_cb UnsupportedSmon; rounds n
  end.

(** [/home/f] cannot be opened at first, then it can; the timer goes [n] times. *)
Definition polled_file_run (n : nat) (c : ptr) : ST server unit :=
  _ ← refuse true;
  _ ← kq_request c GAM_REQ_FILE "/home/f";
  _ ← refuse false;
  rounds n.

(** The open descriptors with the monitors they are registered for, the count,
    and the live monitors with their descriptors. *)
Definition descriptors (r : res (unit * server)) : option (list (Z * option ptr) * Z * list (ptr * Z)) :=
  match r with
  | Ok (_, s) => Some (map_to_list (knotes (sv_world s)), open_files (sv_kernel s),
      prod_map id mon_fd <$> map_to_list (kq_monitors (sv_kernel s)))
  | Fault _ => None
  end.

(** C37: the retry leaks a descriptor.  A file is subscribed to that cannot be
    opened at first, so it is polled.  The tenth poll opens it, but it is taken
    off the wrong poller and is still polled; the twentieth opens it again, and
    the first descriptor is lost, open and registered.  When the subscription
    is cancelled the monitor is freed and that descriptor stays; the next event
    for it makes the callback follow a freed pointer. *)
Theorem retry_leaks : let w := home_world ["f"%string] false in
  descriptors (kq_run (polled_file_run 9) w) = Some ([], 0, [(1%positive, -1)]) /\
  descriptors (kq_run (polled_file_run 10) w) = Some ([(3, Some 1%positive)], 1, [(1%positive, 3)]) /\
  descriptors (kq_run (polled_file_run 20) w) =
    Some ([(3, Some 1%positive); (4, Some 1%positive)], 2, [(1%positive, 4)]) /\
  let cancelled c := _ ← polled_file_run 20 c; _ ← kq_request c GAM_REQ_CANCEL "/home/f"; mret tt in
  descriptors (kq_run cancelled w) = Some ([(3, Some 1%positive)], 1, []) /\
  kq_run (fun c => _ ← cancelled c; _ ← queue_event 3 NOTE_WRITE; gam_kqueue_kevent_cb) w = Fault NullDeref.
Proof. by vm_compute. Qed.

(** [/home] is mounted over the network. *)
Definition remounted (w : kq_world) : kq_world :=
  let newline := String (Ascii.ascii_of_nat 10) "" in
  mk_kq_world
    (mk_sim (("/etc/mtab"%string, mk_stat false 2 0 20 9 0) :: sim_files (kw_sim w)) (sim_dirs (kw_sim w))
       [("/etc/mtab"%string, ("/dev/sda1 / ext3 rw" ++ newline ++ "server:/home /home nfs rw" ++ newline)%string)]
       100 [] 0 0) (kw_fds w) (kw_refuse w) (kw_events w).

(** A remount breaks a hang-up.  A client subscribes to a file, whose file
    system is then mounted over the network, and hangs up:
    [gam_remove_subscription] asks the polling backend, the monitor keeps the
    subscription, and the listener is freed.  The next event for the file makes
    the callback follow the freed pointer; without the remount it does not. *)
Theorem kqueue_remount_use_after_free : let w := home_world ["f"%string] false in
  let run change c := _ ← kq_request c GAM_REQ_FILE "/home/f"; _ ← outside change;
    _ ← gam_connection_close c; _ ← queue_event 3 NOTE_WRITE; gam_kqueue_kevent_cb in
  kq_run (run remounted) w = Fault NullDeref /\
  match kq_run (run id) w with Ok (b, _) => b = true | Fault _ => False end.
Proof. by vm_compute. Qed.

(** ** Witnesses *)

(** The daemon after start-up, then with a connection, a listener on it and a
    subscription to a directory that it does not have yet. *)
Definition demo_blank : server := server_initial (kern := kqueue_kernel) kqueue_initial (home_world ["f"%string] false).
Definition demo_start : server :=
  match gam_kqueue_init demo_blank with Ok (_, s) => s | Fault _ => demo_blank end.
Definition demo_conn : GamConnData :=
  mk_conn GAM_STATE_OKAY 7 42 "client" 0 [] (Some 3%positive) (Some []) false.
Definition demo_listener : GamListener := mk_listener 2%positive 42 "client" [].
Definition demo_sub : GamSubscription := mk_sub "/home" 31 1 5 0 true false (Some 3%positive).
Definition demo_client : server :=
  upd_heap (fun h => mk_heap 5%positive {[4%positive := demo_sub]} {[3%positive := demo_listener]}
    (nodes h) {[2%positive := demo_conn]}) demo_start.

Lemma demo_start_reachable : kq_reachable demo_start.
Proof.
  apply (reach_init demo_blank); [|by vm_compute]. split; [done|]. split; [done|].
  intros l ln Hl. by vm_compute in Hl.
Qed.

Lemma demo_client_reachable : kq_reachable demo_client.
Proof.
  apply (reach_other demo_start); [apply demo_start_reachable|]. split; [done|done|..].
  - intros _ l ln Hl. change (({[3%positive := demo_listener]} : gmap ptr GamListener) !! l = Some ln) in Hl.
    apply lookup_singleton_Some in Hl as [<- <-]. exists demo_conn, []. split; [by apply lookup_singleton_Some|]. by split.
  - intros q path d Hn _. destruct Hn. intros p x Hx. by vm_compute in Hx.
Qed.

Lemma demo_addable : addable 4%positive demo_sub 3%positive demo_listener demo_client.
Proof. split; [by apply lookup_singleton_Some|done|done|by apply lookup_singleton_Some|]. by intros ?%elem_of_nil. Qed.

Lemma demo_callable : callable (Subscribe 4%positive) demo_client.
Proof. exists demo_sub, 3%positive, demo_listener. apply demo_addable. Qed.

Lemma kqueue_subscribe_attends_witness :
  exists s', gam_kqueue_add_subscription 4%positive demo_client = Ok (true, s') /\
    attended true "/home" [4%positive] (sv_kernel s').
Proof.
  destruct (kqueue_subscribe_attends 4%positive demo_sub 3%positive demo_listener demo_client
    demo_client_reachable demo_addable) as (s' & E & Ha & _). by exists s'.
Defined.

(** Afterwards the directory and its file are watched. *)
Definition demo_added : server :=
  match gam_kqueue_add_subscription 4%positive demo_client with Ok (_, s) => s | Fault _ => demo_client end.

Lemma demo_added_reachable : kq_reachable demo_added.
Proof.
  destruct (serve_outcome (Subscribe 4%positive) demo_client (reachable_inv _ demo_client_reachable) demo_callable)
    as (b & s' & E & _).
  assert (demo_added = s') as -> by (unfold demo_added; unfold serve in E; by rewrite E).
  by apply (reach_call (Subscribe 4%positive) b demo_client); [apply demo_client_reachable|apply demo_callable|].
Qed.








Lemma kqueue_unsubscribe_forgets_witness :
  exists s', gam_kqueue_remove_subscription 4%positive demo_added = Ok (true, s') /\
    forgotten 4%positive (sv_kernel s') /\ path_subs true "/home" (sv_kernel s') = [].
Proof.
  destruct (kqueue_unsubscribe_forgets 4%positive demo_sub demo_added demo_added_reachable) as (s' & E & Hf & Hp & _);
    [by vm_compute|].
  exists s'. split; [rewrite E; by vm_compute|]. split; [exact Hf|].
  refine (eq_trans Hp _). by vm_compute.
Defined.

(** The poller of missing paths with two monitors, of which one goes while a
    third comes. *)
Definition demo_polled : server := with_poller MissingSmon (resting 1000 {[1%positive; 2%positive]}) demo_start.
Definition demo_changes (p : ptr) : list change :=
  if decide (p = 1%positive) then [Removed 1%positive; Added 3%positive] else [].

Lemma deferred_is_immediate_witness :
  exists s', gam_kqueue_hash_table_foreach (poller_table MissingSmon)
      (fun p => for_each (demo_changes p) (make_change MissingSmon)) demo_polled = Ok (tt, s') /\
    elements (ht_main (pl_smons (kq_pollers (sv_kernel s') MissingSmon))) = [3%positive; 2%positive].
Proof.
  rewrite (deferred_is_immediate MissingSmon demo_changes demo_polled).
  - eexists. split; [vm_compute; reflexivity|]. vm_compute. reflexivity.
  - split; [done|]. by vm_compute.
  - match goal with |- undisputed ?l => assert (l = [Removed 1%positive; Added 3%positive]) as -> by by vm_compute end.
    intros p Hp Hr. rewrite !elem_of_cons, elem_of_nil in Hp, Hr. naive_solver.
Defined.
