(* ===== verification/DnotifySim.v ===== *)
(** * A simulated kernel with dnotify, and runs of the backend on it

    The files are those of [OS.sim_os]; besides, the world knows which
    descriptors are open. *)

From S2P Require Import Prelude Protocol EventQueue Monad OS Excludes.
From S2P Require Import Fs State Subscription Listener ConnSend Node.
From S2P Require Import Tree Inv Emit PollGeneric PollBasic Safety PollSpec.
From S2P Require Import PollSafety AddSafety.
From S2P Require Import DnotifyTables DnotifySpec PollDnotify Server Connection Dnotify.
From S2P Require Import DnotifySafety PollDnotifySpec DnotifyService InotifySim.

Local Open Scope Z_scope.

Record dn_world := mk_dn_world { dw_sim : sim_world; dw_open : list Z }.

Definition on_files {A} (f : sim_world -> A * sim_world) (w : dn_world) : A * dn_world :=
  let '(a, s) := f (dw_sim w) in (a, mk_dn_world s (dw_open w)).

Definition dn_os : OS := {|
  world := dn_world;
  sys_stat p := on_files (sys_stat (OS := sim_os) p);
  file_exists p := on_files (file_exists (OS := sim_os) p);
  file_is_dir p := on_files (file_is_dir (OS := sim_os) p);
  dir_names p := on_files (dir_names (OS := sim_os) p);
  sys_time := on_files (sys_time (OS := sim_os));
  file_contents p := on_files (file_contents (OS := sim_os) p);
  sys_write fd l := on_files (sys_write (OS := sim_os) fd l);
  interrupts := fun w : dn_world => sim_signals (dw_sim w);
  stack_garbage _ := 0;
  proc_name pid := on_files (proc_name (OS := sim_os) pid)
|}.

#[export] Instance dn_os_laws : OSLaws dn_os.
Proof.
  refine {| written fd := fun w : @world dn_os => sim_output fd (dw_sim w) |}.
  - intros fd l w n w' Hl Hw. unfold sys_write, dn_os, on_files in Hw.
    destruct (sys_write (OS := sim_os) fd l (dw_sim w)) as [r s] eqn:E. injection Hw as -> <-.
    destruct (write_ok (OSLaws := sim_os_laws) fd l (dw_sim w) n s Hl E)
      as (H1 & H2 & H3 & H4).
    exact (conj H1 (conj H2 (conj H3 H4))).
  - intros fd l w e w' Hw. unfold sys_write, dn_os, on_files in Hw.
    destruct (sys_write (OS := sim_os) fd l (dw_sim w)) as [r s] eqn:E. injection Hw as -> <-.
    exact (write_err (OSLaws := sim_os_laws) fd l (dw_sim w) e s E).
Defined.

(** The next descriptor: above the three standard ones and those in use. *)
Definition next_fd (l : list Z) : Z := 1 + foldr Z.max 2 l.

Definition sim_open (p : string) (w : dn_world) : sysres Z * dn_world :=
  match assoc p (sim_files (dw_sim w)) with
  | Some _ => let fd := next_fd (dw_open w) in (SysOk fd, mk_dn_world (dw_sim w) (fd :: dw_open w))
  | None => (SysErr ENOENT, w)
  end.
Definition sim_close (fd : Z) (w : dn_world) : dn_world :=
  mk_dn_world (dw_sim w) (filter (fun x => x <> fd) (dw_open w)).

Definition dn_calls (locks : bool) : Dnotify dn_os :=
  @Build_Dnotify dn_os sim_open sim_close (fun _ w => w) (fun _ _ w => w) (pair true)
    (fun w => w) (fun w => w) locks.

Definition sim_in_use (w : dn_world) : gset Z := list_to_set (filter (fun x => 0 <= x) (dw_open w)).

Lemma next_fd_above l x : x ∈ l -> x < next_fd l.
Proof.
  unfold next_fd. induction l as [|y l IH]; simpl; [by intros ?%elem_of_nil|].
  intros [->|H%IH]%elem_of_cons; lia.
Qed.

Lemma next_fd_pos l : 0 <= next_fd l.
Proof. unfold next_fd. induction l; simpl; lia. Qed.

#[export] Instance dn_laws locks : DnotifyLaws (dn_calls locks).
Proof.
  refine {| in_use := sim_in_use : @world dn_os -> gset Z |}; unfold sim_in_use.
  - intros fd w. rewrite elem_of_list_to_set, list_elem_of_filter. by intros [].
  - intros p w fd w'. simpl. unfold sim_open. destruct (assoc _ _); [|done]. intros [= <- <-]. simpl.
    pose proof (next_fd_pos (dw_open w)) as H0. rewrite filter_cons_True by done. simpl.
    split; [done|]. split; [|done]. rewrite elem_of_list_to_set, list_elem_of_filter.
    intros [_ H%next_fd_above]. lia.
  - intros p w e w'. simpl. unfold sim_open. destruct (assoc _ _); [done|]. by intros [= _ <-].
  - intros fd w. simpl. apply set_eq. intros x.
    rewrite elem_of_difference, !elem_of_list_to_set, !list_elem_of_filter, elem_of_singleton. tauto.
  - done.
  - done.
Defined.

(** ** Runs *)

#[local] Existing Instance dn_os.
#[local] Existing Instance ino_glib.
#[local] Existing Instance dnotify_kernel.
#[local] Instance calls : Dnotify dn_os := dn_calls true.

(** [/home] with the given files. *)
Definition home (files : list string) (now : Z) : dn_world :=
  let paths := (fun f => ("/home/" ++ f)%string) <$> files in
  mk_dn_world
    (mk_sim ([("/etc/mtab"%string, mk_stat false 1 0 10 9 0); ("/"%string, home_stat true);
              ("/home"%string, home_stat true)] ++ ((fun p => (p, home_stat false)) <$> paths))
       [("/home"%string, files)]
       [("/etc/mtab"%string, ("/dev/sda1 / ext3 rw" ++ String (Ascii.ascii_of_nat 10) "")%string)]
       now [] 0 0) [].

(** The files change, the descriptors stay open. *)
Definition later (files : list string) (now : Z) : ST server unit :=
  modify (fun s => set_sv_world (mk_dn_world (dw_sim (home files now)) (dw_open (sv_world s))) s).

(** A daemon that has just started with dnotify, with one authenticated client. *)
Definition dn_start (w : dn_world) : ST server ptr :=
  _ ← modify (set_sv_world w);
  _ ← gam_init_subscriptions;
  c ← gam_connection_new 7;
  _ ← gam_connection_set_pid c 42;
  mret c.

Definition dn_request (c : ptr) (seq type : Z) (path : string) : ST server Z :=
  gam_connection_request c 0 (make_packet seq type (bytes_of_path path)).

Definition dn_run {A} (m : ptr -> ST server A) (w : dn_world) : res (A * server) :=
  (c ← dn_start w; m c) (server_initial dnotify_initial w).

Definition watched_now (r : res (unit * server)) : option (list (string * watch)) :=
  match r with Ok (_, s) => Some (map_to_list (watches (sv_kernel s))) | Fault _ => None end.

(** A subscription to a file that is not there counts one activation of its
    directory, the next when the file appears; cancelling it takes one back. *)
Definition appearing_file (c : ptr) : ST server unit :=
  _ ← dn_request c 1 GAM_REQ_FILE "/home/f";
  _ ← later ["f"%string] 102;
  _ ← gam_poll_dnotify_scan_callback 10;
  _ ← dn_request c 1 GAM_REQ_CANCEL "/home/f";
  mret tt.

Definition missing_file (c : ptr) : ST server unit :=
  _ ← dn_request c 1 GAM_REQ_FILE "/home/f";
  _ ← dn_request c 1 GAM_REQ_CANCEL "/home/f";
  mret tt.

(** C39: an activation is lost.  A client subscribes to a file and cancels the
    subscription.  When the file was there, nothing is watched any more; when
    it was not, or appeared in between, its directory stays open and watched,
    with nobody left who could deactivate it. *)
Theorem missing_file_stays_watched :
  watched_now (dn_run missing_file (home ["f"%string] 100)) = Some [] /\
  watched_now (dn_run missing_file (home [] 100)) = Some [("/home"%string, mk_watch 1 0 true)] /\
  watched_now (dn_run appearing_file (home [] 100)) = Some [("/home"%string, mk_watch 1 0 true)].
Proof. by vm_compute. Qed.

(** ** Witnesses *)

(** The daemon after start-up. *)
Definition demo_blank : server :=
  server_initial (kern := dnotify_kernel) dnotify_initial (home [] 100).
Definition demo_start : server :=
  match gam_dnotify_init demo_blank with Ok (_, s) => s | Fault _ => demo_blank end.

Lemma demo_start_ok :
  inv (ki := dnotify_inv []) idle demo_start /\ poll_handler (sv_ctl demo_start) = GAMIN_P_DNOTIFY /\
  exists x, sv_heap demo_start = mk_heap 2%positive ∅ ∅ {[1%positive := x]} ∅.
Proof.
  destruct (wp_Ok _ _ _ (wp_dnotify_init demo_blank
    ltac:(done) ltac:(done) ltac:(done))) as (b & s & E & _ & Hi & Hp & _ & _ & Hx).
  unfold demo_start. rewrite E. exact (conj Hi (conj Hp Hx)).
Qed.

Lemma directory_handler_refines_witness :
  exists s', gam_dnotify_directory_handler "/home" GAMIN_ACTIVATE demo_start = Ok (tt, s') /\
    watches (sv_kernel s') = {["/home"%string := mk_watch 1 0 true]}.
Proof.
  destruct (directory_handler_refines (laws := dn_laws true) "/home" GAMIN_ACTIVATE demo_start)
    as (s' & E & _ & Hr).
  - split; [|vm_compute; reflexivity]. split; vm_compute; intros; simplify_eq/=; naive_solver.
  - exists s'. split; [exact E|]. rewrite (rw_watches _ _ _ Hr). vm_compute. reflexivity.
Defined.

(** Then [/home] is activated, and two signals arrive: one for it and one for
    a descriptor closed in the meantime. *)
Definition demo_signals : ST server unit :=
  _ ← gam_dnotify_directory_handler "/home" GAMIN_ACTIVATE;
  _ ← dnotify_signal_handler 3;
  dnotify_signal_handler 9.
Definition demo_signalled : server :=
  match demo_signals demo_start with Ok (_, s) => s | Fault _ => demo_start end.

Lemma demo_signalled_ok : inv (ki := dnotify_inv [9; 3]) idle demo_signalled.
Proof.
  destruct demo_start_ok as [Hi _]. unfold demo_signalled, demo_signals, gam_dnotify_directory_handler.
  destruct (wp_Ok _ _ _ (safely_dir_handler idle "/home" GAMIN_ACTIVATE demo_start Hi)) as ([] & s1 & E & Hi1 & _).
  rewrite (bind_Ok _ _ _ _ _ E). clear E.
  destruct (signal_outcome [] idle 3 s1 Hi1) as (s2 & E & _ & Hi2). rewrite (bind_Ok _ _ _ _ _ E). clear E.
  destruct (signal_outcome [3] idle 9 s2 Hi2) as (s3 & E & _ & Hi3).
  rewrite E. exact Hi3.
Qed.

Lemma pipe_handler_scans_witness :
  exists s', gam_dnotify_pipe_handler demo_signalled = Ok (true, s') /\
    scanned [3; 9] (set_sv_world (pipe_read (sv_world demo_signalled)) demo_signalled) s' /\ changes (sv_kernel s') = [].
Proof.
  destruct (pipe_handler_scans (q := [9; 3]) demo_signalled demo_signalled_ok) as (s' & E & Hsc & Hi & _).
  - set_solver.
  - exists s'. split; [exact E|]. split; [exact Hsc|]. exact (proj2 (proj2 (inv_kernel _ _ Hi))).
Defined.

(** One connection, one listener on it and a subscription it does not have yet. *)
Definition demo_conn : GamConnData :=
  mk_conn GAM_STATE_OKAY 7 42 "client" 0 [] (Some 3%positive) (Some []) false.
Definition demo_listener : GamListener := mk_listener 2%positive 42 "client" [].
Definition demo_sub : GamSubscription :=
  mk_sub "/home/f" 31 1 7 0 false false (Some 3%positive).
Definition with_client (s : server) : server :=
  upd_heap (fun h => mk_heap 5%positive {[4%positive := demo_sub]} {[3%positive := demo_listener]}
    (nodes h) {[2%positive := demo_conn]}) s.

Lemma with_client_ok {ki : KernelInv dnotify_kernel} x s :
  inv idle s -> sv_heap s = mk_heap 2%positive ∅ ∅ {[1%positive := x]} ∅ -> inv idle (with_client s).
Proof.
  intros Hi Eh.
  assert (conn_ready 2%positive (with_client s)) as Hc.
  { exists demo_conn, []. split; [by apply lookup_singleton_Some|]. by split. }
  destruct Hi. split; try done; simpl.
  - intros n y Hy. destruct (inv_node n y Hy) as (Hnd & Hs & Hn). split; [done|]. split; [|done].
    intros p Hp. destruct (Hs p Hp) as [(sb & l & Hsb & _) _]. rewrite Eh in Hsb. simpl in Hsb. by rewrite lookup_empty in Hsb.
  - intros l ln [<- <-]%lookup_singleton_Some. split; [done|]. split; [constructor|]. by intros p ?%elem_of_nil.
  - intros c [k [<- _]%lookup_singleton_Some]. done.
  - intros n H. specialize (inv_nodes_old n H). rewrite Eh in inv_nodes_old. simpl in inv_nodes_old. lia.
  - intros p [? [<- _]%lookup_singleton_Some]. lia.
  - intros p [? [<- _]%lookup_singleton_Some]. lia.
  - intros p [? [<- _]%lookup_singleton_Some]. lia.
Qed.

Lemma demo_client_ok :
  inv (ki := dnotify_inv []) idle (with_client demo_start) /\
  poll_handler (sv_ctl (with_client demo_start)) = GAMIN_P_DNOTIFY /\
  subscribable 3%positive 4%positive demo_sub (with_client demo_start).
Proof.
  destruct demo_start_ok as (Hi & Hp & x & Hx). split; [by apply (with_client_ok x)|]. split; [exact Hp|].
  split; [by apply lookup_singleton_Some|done|exists demo_listener; by apply lookup_singleton_Some|done|].
  split; simpl.
  - intros n y Hy Hin. destruct (inv_node _ _ Hi n y Hy) as (_ & Hs & _).
    destruct (Hs _ Hin) as [(sb & l & Hsb & _) _]. rewrite Hx in Hsb. simpl in Hsb. by rewrite lookup_empty in Hsb.
  - intros l ln [<- <-]%lookup_singleton_Some. by intros ?%elem_of_nil.
Qed.

Definition demo_added : server :=
  match gam_dnotify_add_subscription 4%positive (with_client demo_start) with
  | Ok (_, s) => s
  | Fault _ => demo_start
  end.

Lemma dnotify_add_registers_witness :
  exists s', gam_dnotify_add_subscription 4%positive (with_client demo_start) = Ok (true, s') /\
    registered 4%positive "/home/f" s'.
Proof.
  destruct demo_client_ok as (Hi & Hp & Hsc).
  destruct (dnotify_add_registers 3%positive 4%positive demo_sub _ Hi Hp Hsc) as (s' & E & _ & _ & _ & Hr).
  - reflexivity.
  - discriminate.
  - exists s'. split; [exact E|exact Hr].
Defined.

(** The file appears. *)
Definition demo_later : server :=
  set_current_time 102 (set_sv_world (mk_dn_world (dw_sim (home ["f"%string] 102)) [3]) demo_added).

Lemma inv_outside {ki : KernelInv dnotify_kernel} ex t w s :
  inv ex s -> inv ex (set_current_time t (set_sv_world w s)).
Proof. intros Hi. by apply (inv_same_store ex s). Qed.

Lemma demo_later_ok : inv (ki := dnotify_inv []) idle demo_later.
Proof.
  destruct demo_client_ok as (Hi & Hp & Hsc).
  destruct (dnotify_add_outcome 3%positive 4%positive demo_sub _ Hi Hp Hsc) as (s' & E & Hi' & _);
    [done|discriminate|].
  assert (demo_added = s') as Ea by (unfold demo_added; by rewrite E).
  unfold demo_later. rewrite Ea.
  by apply inv_outside.
Qed.

Definition demo_file : GamNode :=
  match node_hash (sv_tree demo_later) !! "/home/f"%string ≫= fun n => nodes (sv_heap demo_later) !! n with
  | Some x => x
  | None => demo_node
  end.

Definition demo_file_ptr : ptr :=
  match node_hash (sv_tree demo_later) !! "/home/f"%string with Some n => n | None => 1%positive end.

Lemma poll_dnotify_refines_witness :
  exists s', gam_poll_dnotify_poll_file demo_file_ptr demo_later = Ok (GAMIN_EVENT_CREATED, s') /\
    exists x', nodes (sv_heap s') !! demo_file_ptr = Some x' /\ node_missing x' = false /\
      nd_lasttime x' = 102.
Proof.
  assert (nodes (sv_heap demo_later) !! demo_file_ptr = Some demo_file) as Hn by (vm_compute; reflexivity).
  pose proof (poll_dnotify_refines [] demo_file_ptr demo_file demo_later demo_later_ok Hn) as H.
  cbn zeta in H.
  assert ((nd_lasttime demo_file =? 0) = false) as E1 by (vm_compute; reflexivity).
  assert (too_early demo_file demo_later = false) as E2 by (vm_compute; reflexivity).
  rewrite E1, E2 in H. clear E1 E2. destruct H as (s' & x' & E & _ & Hx & Hp).
  exists s'. split.
  - rewrite E. vm_compute. reflexivity.
  - exists x'. destruct Hp as [Hm _ _ Ht _]. split; [exact Hx|].
    split; [rewrite Hm|rewrite Ht]; vm_compute; reflexivity.
Defined.
