(* ===== verification/Sockets.v ===== *)
(** * Sockets

    The system calls on sockets that both ends of a connection make, as the
    operations of a class over [OS]; and the code that the two ends share in
    all but names: the path of the socket and, where sockets are files, the
    checks that nobody else can write there. *)

From S2P Require Import Prelude Monad OS.

Local Open Scope Z_scope.

(** What the checks read of a [struct stat]. *)
Inductive file_type := TDir | TSock | TOther.
#[export] Instance file_type_eq_dec : EqDecision file_type.
Proof. solve_decision. Defined.

Record perm_t := mk_perm {
  pm_uid : Z;
  pm_type : file_type;
  pm_mode : Z    (** the twelve permission bits of [st_mode] *)
}.

Class Sockets (os : OS) := {
  (** whether the program was configured with [HAVE_ABSTRACT_SOCKETS] *)
  abstract_sockets : bool;
  getuid : world -> Z;
  getenv : string -> world -> option string;
  (** [getpwuid(uid)->pw_name], and [g_get_user_name()] *)
  pw_name : Z -> world -> option string * world;
  sys_stat_perm : string -> world -> option perm_t * world;
  (** [mkdir(path, 0700)], with [errno] *)
  sys_mkdir : string -> world -> option Z * world;
  sys_umask : Z -> world -> world;
  sys_rmdir : string -> world -> bool * world;
  sys_unlink : string -> world -> bool * world;
  (** [socket(PF_UNIX, SOCK_STREAM, 0)] *)
  sys_socket : world -> Z * world;
  (** [connect], [bind] and [listen]: whether they succeed; the name is what is
      in [sun_path] *)
  sys_connect : Z -> string -> world -> bool * world;
  sys_bind : Z -> string -> world -> bool * world;
  sys_listen : Z -> world -> bool * world;
  sys_accept : Z -> world -> sysres Z * world;
  sys_close : Z -> world -> Z * world;
  sys_dup2 : Z -> Z -> world -> Z * world;
  (** [read(fd, buf, n)]: the bytes read, none at the end of the stream *)
  sys_read : Z -> Z -> world -> sysres (list byte) * world;
  (** [recvmsg] for one byte: none at the end of the stream *)
  sys_recvmsg : Z -> world -> sysres (option byte) * world;
  (** what the byte holds when [recvmsg] did not write it *)
  stack_byte : world -> byte;
  (** [select] for reading, without waiting *)
  sys_select : Z -> world -> sysres Z * world;
  (** [SO_PEERCRED]: process and user *)
  sys_peercred : Z -> world -> option (Z * Z) * world;
  sys_usleep : Z -> world -> world;
  (** [gamin_fork_server]: starts a daemon *)
  fork_server : string -> world -> world;
  (** whether an allocation of that size succeeds *)
  malloc_ok : world -> Z -> bool
}.

(** As POSIX describes them, calls do not fail with [EINTR] for ever. *)
Class SocketLaws (os : OS) (so : Sockets os) := {
  read_interrupts fd n w w' :
    sys_read fd n w = (SysErr EINTR, w') -> (interrupts w' < interrupts w)%nat;
  recvmsg_interrupts fd w w' :
    sys_recvmsg fd w = (SysErr EINTR, w') -> (interrupts w' < interrupts w)%nat;
  select_interrupts fd w w' :
    sys_select fd w = (SysErr EINTR, w') -> (interrupts w' < interrupts w)%nat;
  accept_interrupts fd w w' :
    sys_accept fd w = (SysErr EINTR, w') -> (interrupts w' < interrupts w)%nat
}.

(** The result of a call that is repeated while it is interrupted; [retry:] in
    the sources. *)
Fixpoint retry {W A} (fuel : nat) (call : W -> sysres A * W) (w : W) : res (sysres A * W) :=
  match fuel with
  | O => Fault OutOfFuel
  | S fuel =>
      match call w with
      | (SysErr e, w') => if e =? EINTR then retry fuel call w' else Ok (SysErr e, w')
      | (SysOk a, w') => Ok (SysOk a, w')
      end
  end.

Lemma retry_total {os : OS} {A} fuel (call : world -> sysres A * world) w :
  (forall w w', call w = (SysErr EINTR, w') -> (interrupts w' < interrupts w)%nat) ->
  (interrupts w < fuel)%nat ->
  exists r w', retry fuel call w = Ok (r, w') /\ r <> SysErr EINTR.
Proof.
  intros Hc. revert w. induction fuel as [|fuel IH]; intros w Hf; [lia|]. simpl.
  destruct (call w) as [[a|e] w'] eqn:E; [by exists (SysOk a), w'|].
  destruct (Z.eqb_spec e EINTR) as [->|Hne]; [|exists (SysErr e), w'; split; [done|congruence]].
  apply IH. specialize (Hc w w' E). lia.
Qed.

(** Permission bits. *)
Definition S_IRWXU : Z := 448.
Definition S_IRWXG : Z := 56.
Definition S_IRWXO : Z := 7.

(** The tests of [gamin_check_secure_dir] and [gam_check_secure_dir] on an
    existing directory. *)
Definition secure_dir (uid : Z) (st : perm_t) : bool :=
  (pm_uid st =? uid) && bool_decide (pm_type st = TDir)
  && negb (ztest (pm_mode st .& (S_IRWXG .| S_IRWXO))) && ((pm_mode st .& S_IRWXU) =? S_IRWXU).

(** The tests of [gamin_check_secure_path] and [gam_check_secure_path]. *)
Definition secure_socket (uid : Z) (st : perm_t) : bool :=
  (pm_uid st =? uid) && bool_decide (pm_type st = TSock)
  && negb (ztest (pm_mode st .& (S_IRWXG .| S_IRWXO))).

(** [strncpy(addr.sun_path...)]: the part of a path that gets into an address;
    [sizeof(struct sockaddr_un)] is 110. *)
Definition sun_path (abstract : bool) (path : string) : string :=
  if abstract then str_take 104 path else str_take 105 path.
