(* ===== verification/ClientApi.v ===== *)
(** * The client library's interface ([libgamin/gam_api.c])

    Connecting to the daemon, sending requests, reading events and reconnecting.
    The structures the caller owns ([FAMConnection], [FAMRequest]) and the
    library's own ([GAMData] with its recursive mutex) are kept in stores behind
    pointers, so that a call on a closed connection is a call on freed memory.
    The code is that of one thread of a program linked with threads, without
    [GAMIN_DEBUG_API]. *)

From S2P Require Import Prelude Protocol ClientRequests ClientEvents Monad OS.
From S2P Require Import Sockets.

Local Open Scope Z_scope.

(** [FAMErrno] *)
Inductive FAMError := FAM_OK | FAM_ARG | FAM_FILE | FAM_CONNECT | FAM_AUTH | FAM_MEM | FAM_UNIMPLEM.

(** [sizeof(GAMData)] with its mutex, on x86-64. *)
Definition sizeof_GAMData : Z := 4200.

Definition MAX_RETRIES : nat := 25.

Record FAMConnection := mk_fam { fc_fd : Z; fc_client : option ptr }.
Definition set_fc_fd x (c : FAMConnection) := mk_fam x (fc_client c).
Definition set_fc_client x (c : FAMConnection) := mk_fam (fc_fd c) x.

Section Api.
Context {os : OS} {so : Sockets os}.

(** The library's variables, the structures behind pointers and the world.
    With each [GAMData] comes how often this thread holds its mutex. *)
Record client := mk_client {
  cl_errno : FAMError;
  cl_user_name : string;
  cl_conns : gmap ptr FAMConnection;
  cl_reqs : gmap ptr Z;
  cl_data : gmap ptr (GAMData * Z);
  cl_next : ptr;
  cl_world : world
}.
Definition set_cl_errno x s := mk_client x (cl_user_name s) (cl_conns s) (cl_reqs s) (cl_data s)
  (cl_next s) (cl_world s).
Definition set_cl_user_name x s := mk_client (cl_errno s) x (cl_conns s) (cl_reqs s) (cl_data s)
  (cl_next s) (cl_world s).
Definition set_cl_conns x s := mk_client (cl_errno s) (cl_user_name s) x (cl_reqs s) (cl_data s)
  (cl_next s) (cl_world s).
Definition set_cl_reqs x s := mk_client (cl_errno s) (cl_user_name s) (cl_conns s) x (cl_data s)
  (cl_next s) (cl_world s).
Definition set_cl_data x s := mk_client (cl_errno s) (cl_user_name s) (cl_conns s) (cl_reqs s) x
  (cl_next s) (cl_world s).
Definition set_cl_next x s := mk_client (cl_errno s) (cl_user_name s) (cl_conns s) (cl_reqs s)
  (cl_data s) x (cl_world s).
Definition set_cl_world x s := mk_client (cl_errno s) (cl_user_name s) (cl_conns s) (cl_reqs s)
  (cl_data s) (cl_next s) x.

Abbreviation M := (ST client).

Definition csys {A} (f : world -> A * world) : M A := fun s =>
  let '(a, w) := f (cl_world s) in Ok (a, set_cl_world w s).
(** A call under a [retry:] label; each round but the last is an interruption. *)
Definition csys_retry {A} (f : world -> sysres A * world) : M (sysres A) := fun s =>
  match retry (S (interrupts (cl_world s))) f (cl_world s) with
  | Ok (r, w) => Ok (r, set_cl_world w s)
  | Fault e => Fault e
  end.
Definition do_world (f : world -> world) : M unit := modify (fun s => set_cl_world (f (cl_world s)) s).
Definition set_errno (e : FAMError) : M unit := modify (set_cl_errno e).
(** [FAMErrno = e; return -1] *)
Definition fail_with (e : FAMError) : M Z := _ ← set_errno e; mret (-1).

Definition load_fam (fc : ptr) : M FAMConnection := s ← get; deref (cl_conns s !! fc).
Definition update_fam (fc : ptr) (f : FAMConnection -> FAMConnection) : M unit :=
  c ← load_fam fc; modify (fun s => set_cl_conns (<[fc := f c]> (cl_conns s)) s).
Definition load_req (fr : ptr) : M Z := s ← get; deref (cl_reqs s !! fr).
Definition store_req (fr : ptr) (n : Z) : M unit :=
  _ ← load_req fr; modify (fun s => set_cl_reqs (<[fr := n]> (cl_reqs s)) s).

(** A function of [gam_data.c] on the structure behind a pointer. *)
Definition on_data {A} (p : ptr) (f : GAMData -> GAMData * A) : M A :=
  s ← get;
  dl ← deref (cl_data s !! p);
  let '(d, a) := f dl.1 in
  _ ← modify (fun s => set_cl_data (<[p := (d, dl.2)]> (cl_data s)) s);
  mret a.
Definition on_data_res {A} (p : ptr) (f : GAMData -> res (GAMData * A)) : M A :=
  s ← get;
  dl ← deref (cl_data s !! p);
  match f dl.1 with
  | Ok (d, a) => _ ← modify (fun s => set_cl_data (<[p := (d, dl.2)]> (cl_data s)) s); mret a
  | Fault e => fail e
  end.
Definition ask_data {A} (p : ptr) (f : GAMData -> A) : M A := on_data p (fun d => (d, f d)).

(** ** The structure's mutex *)

Definition change_lock (client : option ptr) (by_ : Z) : M unit :=
  p ← deref client;
  s ← get;
  dl ← deref (cl_data s !! p);
  modify (fun s => set_cl_data (<[p := (dl.1, dl.2 + by_)]> (cl_data s)) s).
Definition gamin_data_lock (client : option ptr) : M unit := change_lock client 1.
Definition gamin_data_unlock (client : option ptr) : M unit := change_lock client (-1).

(** [gamin_data_new] *)
Definition data_new : M (option ptr) := fun s =>
  if malloc_ok (cl_world s) sizeof_GAMData
  then Ok (Some (cl_next s), set_cl_next (Pos.succ (cl_next s))
             (set_cl_data (<[cl_next s := (gamin_data_new, 0)]> (cl_data s)) s))
  else Ok (None, s).

(** [gamin_data_free] releases the mutex and the structure. *)
Definition gamin_data_free (client : option ptr) : M unit :=
  match client with
  | None => mret tt
  | Some p =>
      s ← get;
      _ ← deref (cl_data s !! p);
      modify (fun s => set_cl_data (delete p (cl_data s)) s)
  end.

(** ** The path of the socket *)

Definition gamin_get_user_name : M string :=
  known ← gets cl_user_name;
  if negb (String.eqb known "") then mret known
  else
    o ← csys (fun w => pw_name (getuid w) w);
    match o with
    | Some name => _ ← modify (set_cl_user_name (str_take 99 name)); mret (str_take 99 name)
    | None => mret known
    end.

Definition fam_client_id : M string :=
  gets (fun s => default ""%string (getenv "GAM_CLIENT_ID" (cl_world s))).

(** [snprintf(path, MAXPATHLEN, ...)] and [strdup]. *)
Definition new_path (path : string) : M (option string) :=
  let path := str_take (Z.to_nat MAXPATHLEN - 1) path in
  ok ← gets (fun s => malloc_ok (cl_world s) (strlen path + 1));
  mret (if ok : bool then Some path else None).

Definition gamin_get_socket_path : M (option string) :=
  id ← fam_client_id;
  user ← gamin_get_user_name;
  new_path (if abstract_sockets then ("/tmp/fam-" ++ user ++ "-" ++ id)%string
            else ("/tmp/fam-" ++ user ++ "/fam-" ++ id)%string).

Definition gamin_get_socket_dir : M (option string) :=
  user ← gamin_get_user_name;
  new_path ("/tmp/fam-" ++ user)%string.

(** ** Sockets in the file system *)

Definition gamin_check_secure_dir : M Z :=
  o ← gamin_get_socket_dir;
  match o with
  | None => mret 0
  | Some dir =>
      st ← csys (sys_stat_perm dir);
      match st with
      | None => mret 0
      | Some st =>
          uid ← gets (fun s => getuid (cl_world s));
          if secure_dir uid st then mret 1
          else
            r ← csys (sys_rmdir dir);
            if r : bool then mret 0
            else
              r ← csys (sys_unlink dir);
              mret (if r : bool then 0 else -1)
      end
  end.

Definition gamin_check_secure_path (path : string) : M Z :=
  ret ← gamin_check_secure_dir;
  if ret <=? 0 then mret ret
  else
    st ← csys (sys_stat_perm path);
    match st with
    | None => mret 0
    | Some st =>
        uid ← gets (fun s => getuid (cl_world s));
        if secure_socket uid st then mret 1
        else
          r ← csys (sys_unlink path);
          mret (if r : bool then 0 else -1)
    end.

(** ** Connecting *)

(** [gamin_connect_unix_socket], from [retry_start] with that many retries
    behind it; [fuel] is for the retries left. *)
Fixpoint connect_attempts (fuel : nat) (retries : nat) (path : string) : M Z :=
  match fuel with
  | O => fail OutOfFuel
  | S fuel =>
      fd ← csys sys_socket;
      if fd <? 0 then mret (-1)
      else
        secure ← (if abstract_sockets then mret 1 else gamin_check_secure_path path);
        if secure <? 0 then mret (-1)
        else
          ok ← csys (sys_connect fd (sun_path abstract_sockets path));
          if ok : bool then mret fd
          else if Nat.eqb retries 0 then
            id ← fam_client_id;
            _ ← csys (sys_close fd);
            _ ← do_world (fork_server id);
            connect_attempts fuel (S retries) path
          else if Nat.ltb retries MAX_RETRIES then
            _ ← csys (sys_close fd);
            _ ← do_world (sys_usleep 50000);
            connect_attempts fuel (S retries) path
          else
            _ ← csys (sys_close fd);
            mret (-1)
  end.
Definition gamin_connect_unix_socket (path : string) : M Z :=
  connect_attempts (S MAX_RETRIES) 0 path.

Definition gamin_write_credential_byte (fd : Z) : M Z :=
  r ← csys_retry (sys_write fd [x00]);
  match r with
  | SysErr _ => mret (-1)
  | SysOk written => mret (if negb (written =? 1) then -1 else 0)
  end.

Definition gamin_data_available (fd : Z) : M Z :=
  if fd <? 0 then mret (-1)
  else
    r ← csys_retry (sys_select fd);
    match r with
    | SysErr _ => mret (-1)
    | SysOk avail => mret (if avail =? 0 then 0 else 1)
    end.

(** ** Sending *)

Fixpoint write_byte_loop (fuel : nat) (fd : Z) (data : list byte) : M Z :=
  match fuel with
  | O => fail OutOfFuel
  | S fuel =>
      r ← csys (sys_write fd data);
      match r with
      | SysErr e =>
          if e =? EINTR then
            if bool_decide (data = []) then mret 0 else write_byte_loop fuel fd data
          else mret (-1)
      | SysOk written =>
          let data := drop (Z.to_nat written) data in
          if bool_decide (data = []) then mret 0 else write_byte_loop fuel fd data
      end
  end.
Definition gamin_write_byte (fd : Z) (data : list byte) : M Z :=
  n ← gets (fun s => interrupts (cl_world s));
  write_byte_loop (S (length data + n)) fd data.

(** The packet that both functions below write; [strlen] of the path is in
    [unsigned short] fields. *)
Definition request_packet (reqno type : Z) (filename : string) : GAMPacket :=
  make_packet reqno (u16 type) (bytes_of_path filename).

(** The request number: the caller's for a cancellation, a new one, or the
    caller's for a new request. *)
Definition gamin_send_request (type fd : Z) (filename : option string) (fr : ptr) (userData : Z)
  (data : ptr) (has_reqnum : bool) : M Z :=
  number ←
    match filename with
    | None => n ← load_req fr; mret (Some (""%string, n))
    | Some name =>
        if strlen name >? MAXPATHLEN then _ ← set_errno FAM_FILE; mret None
        else
          malloc ← gets (fun s => malloc_ok (cl_world s));
          if negb has_reqnum then
            reqnum ← on_data data (fun d => gamin_data_get_reqnum malloc d name type userData);
            if reqnum <? 0 then _ ← set_errno FAM_ARG; mret None
            else _ ← store_req fr reqnum; mret (Some (name, reqnum))
          else
            n ← load_req fr;
            reqnum ← on_data data (fun d => gamin_data_get_request malloc d name type userData n);
            if reqnum <? 0 then _ ← set_errno FAM_MEM; mret None
            else mret (Some (name, reqnum))
    end;
  match number with
  | None => mret (-1)
  | Some (name, reqnum) =>
      exists_ ← ask_data data gamin_data_get_exists;
      let type := if (type =? GAM_REQ_DIR) && (exists_ =? 0) then type .| GAM_OPT_NOEXISTS else type in
      ret ← gamin_write_byte fd (packet_bytes (request_packet reqnum type name));
      _ ← when (ret <? 0) (set_errno FAM_CONNECT);
      mret ret
  end.

Definition gamin_resend_request (fd type : Z) (filename : option string) (reqnum : Z) : M Z :=
  match filename with
  | None => mret (-1)
  | Some name =>
      if fd <? 0 then mret (-1)
      else gamin_write_byte fd (packet_bytes (request_packet reqnum (type .| GAM_OPT_NOEXISTS) name))
  end.

(** ** Receiving *)

Definition gamin_check_cred (conn : ptr) (fd : Z) : M Z :=
  s_uid ← gets (fun s => getuid (cl_world s));
  r ← csys_retry (sys_recvmsg fd);
  match r with
  | SysErr _ => mret (-1)
  | SysOk o =>
      garbage ← gets (fun s => stack_byte (cl_world s));
      if negb (bool_decide (default garbage o = x00)) then mret (-1)
      else
        cr ← csys (sys_peercred fd);
        match cr with
        | None => mret (-1)
        | Some (_, c_uid) =>
            if negb (s_uid =? c_uid) then mret (-1)
            else _ ← on_data conn gamin_data_done_auth; mret 0
        end
  end.

(** The part of [gamin_read_data] behind the authentication. *)
Definition read_events (conn : ptr) (fd : Z) : M Z :=
  room ← ask_data conn gamin_data_get_data;
  r ← csys_retry (sys_read fd room.2);
  match r with
  | SysErr _ => mret (-1)
  | SysOk data =>
      if bool_decide (data = []) then mret (-1)
      else
        ret ← on_data_res conn (fun d => gamin_data_conn_data d data);
        mret (if ret <? 0 then -1 else 0)
  end.

Definition gamin_read_data (conn : ptr) (fd : Z) (block : bool) : M Z :=
  ret ← ask_data conn gamin_data_need_auth;
  if ret =? 1 then
    ret ← gamin_check_cred conn fd;
    if ret <? 0 then mret (-1)
    else if negb block then
      ret ← gamin_data_available fd;
      if ret <? 0 then mret (-1)
      else if ret =? 0 then mret 0
      else read_events conn fd
    else read_events conn fd
  else if negb (ret =? 0) then mret (-1)
  else read_events conn fd.

Definition gamin_try_reconnect (conn : ptr) (fd : Z) : M Z :=
  if fd <? 0 then mret (-1)
  else
    o ← gamin_get_socket_path;
    match o with
    | None => mret (-1)
    | Some socket_name =>
        newfd ← gamin_connect_unix_socket socket_name;
        if newfd <? 0 then mret (-1)
        else
          ret ← gamin_write_credential_byte newfd;
          if negb (ret =? 0) then _ ← csys (sys_close newfd); mret (-1)
          else
            ret ← csys (sys_dup2 newfd fd);
            _ ← csys (sys_close newfd);
            if ret <? 0 then mret (-1)
            else
              reqs ← on_data conn (fun d => let '(d, reqs, _) := gamin_data_reset d in (d, reqs));
              _ ← for_each reqs (fun r =>
                     _ ← gamin_resend_request fd (rq_type r) (rq_filename r) (rq_reqno r); mret tt);
              mret 0
    end.

(** ** The interface *)

Definition FAMOpen (fc : option ptr) : M Z :=
  match fc with
  | None => fail_with FAM_ARG
  | Some fc =>
      o ← gamin_get_socket_path;
      match o with
      | None => fail_with FAM_CONNECT
      | Some socket_name =>
          fd ← gamin_connect_unix_socket socket_name;
          if fd <? 0 then fail_with FAM_CONNECT
          else
            ret ← gamin_write_credential_byte fd;
            if negb (ret =? 0) then
              _ ← set_errno FAM_CONNECT; _ ← csys (sys_close fd); mret (-1)
            else
              _ ← update_fam fc (set_fc_fd fd);
              client ← data_new;
              _ ← update_fam fc (set_fc_client client);
              if bool_decide (client = None) then
                _ ← set_errno FAM_MEM; _ ← csys (sys_close fd); mret (-1)
              else mret 0
      end
  end.

Definition FAMOpen2 (fc : option ptr) (appName : string) : M Z := FAMOpen fc.

Definition FAMClose (fc : option ptr) : M Z :=
  match fc with
  | None => fail_with FAM_ARG
  | Some fc =>
      c ← load_fam fc;
      _ ← gamin_data_lock (fc_client c);
      ret ← csys (sys_close (fc_fd c));
      _ ← update_fam fc (set_fc_fd (-1));
      _ ← gamin_data_free (fc_client c);
      mret ret
  end.

(** What the four monitoring calls share: the checks of the arguments, and the
    request under the lock. *)
Definition monitor (type : Z) (has_reqnum : bool) (fc : option ptr) (filename : option string)
  (fr : option ptr) (userData : Z) : M Z :=
  match fc, filename, fr with
  | Some fc, Some filename, Some fr =>
      if negb (String.prefix (String slash "") filename) || (strlen filename >=? MAXPATHLEN) then fail_with FAM_FILE
      else
        c ← load_fam fc;
        match fc_client c with
        | Some client =>
            if fc_fd c <? 0 then fail_with FAM_ARG
            else
              _ ← gamin_data_lock (fc_client c);
              retval ← gamin_send_request type (fc_fd c) (Some filename) fr userData client has_reqnum;
              _ ← gamin_data_unlock (fc_client c);
              mret retval
        | None => fail_with FAM_ARG
        end
  | _, _, _ => fail_with FAM_ARG
  end.

Definition FAMMonitorDirectory (fc : option ptr) (filename : option string) (fr : option ptr)
  (userData : Z) : M Z := monitor GAM_REQ_DIR false fc filename fr userData.
Definition FAMMonitorDirectory2 (fc : option ptr) (filename : option string) (fr : option ptr) : M Z :=
  monitor GAM_REQ_DIR true fc filename fr 0.
Definition FAMMonitorFile (fc : option ptr) (filename : option string) (fr : option ptr)
  (userData : Z) : M Z := monitor GAM_REQ_FILE false fc filename fr userData.
Definition FAMMonitorFile2 (fc : option ptr) (filename : option string) (fr : option ptr) : M Z :=
  monitor GAM_REQ_FILE true fc filename fr 0.

Definition FAMMonitorCollection (fc : option ptr) (filename : option string) (fr : option ptr)
  (userData depth : Z) (mask : option string) : M Z := fail_with FAM_UNIMPLEM.

(** [FAMNextEvent]; [fe] is whether the caller gave an event structure, the
    event is what the library fills in. *)
Definition FAMNextEvent (fc : option ptr) (fe : bool) : M (Z * option FAMEvent) :=
  match fc, fe with
  | Some fc, true =>
      c ← load_fam fc;
      match fc_client c with
      | None => r ← fail_with FAM_ARG; mret (r, None)
      | Some conn =>
          let fd := fc_fd c in
          if fd <? 0 then mret (-1, None)
          else
            _ ← gamin_data_lock (Some conn);
            is_ready ← on_data_res conn gamin_data_event_ready;
            failed ← (if is_ready =? 0 then
                        r ← gamin_read_data conn fd true;
                        if r <? 0 then _ ← gamin_try_reconnect conn fd; mret true else mret false
                      else mret false);
            if failed : bool then r ← fail_with FAM_CONNECT; mret (r, None)
            else
              o ← on_data_res conn gamin_data_read_event;
              _ ← gamin_data_unlock (Some conn);
              match o with
              | None => r ← fail_with FAM_CONNECT; mret (r, None)
              | Some event => mret (1, Some event)
              end
      end
  | _, _ => r ← fail_with FAM_ARG; mret (r, None)
  end.

Definition FAMPending (fc : option ptr) : M Z :=
  match fc with
  | None => fail_with FAM_ARG
  | Some fc =>
      c ← load_fam fc;
      match fc_client c with
      | None => fail_with FAM_ARG
      | Some conn =>
          _ ← gamin_data_lock (Some conn);
          is_ready ← on_data_res conn gamin_data_event_ready;
          if negb (is_ready =? 0) then _ ← gamin_data_unlock (Some conn); mret 1
          else
            ret ← gamin_data_available (fc_fd c);
            if ret <? 0 then mret (-1)
            else
              _ ← when (ret >? 0)
                (r ← gamin_read_data conn (fc_fd c) false;
                 when (r <? 0) (_ ← gamin_try_reconnect conn (fc_fd c); mret tt));
              ret ← on_data_res conn gamin_data_event_ready;
              _ ← gamin_data_unlock (Some conn);
              mret ret
      end
  end.

Definition FAMCancelMonitor (fc : option ptr) (fr : option ptr) : M Z :=
  match fc, fr with
  | Some fc, Some fr =>
      c ← load_fam fc;
      match fc_client c with
      | None => fail_with FAM_ARG
      | Some conn =>
          if fc_fd c <? 0 then fail_with FAM_ARG
          else
            reqnum ← load_req fr;
            _ ← gamin_data_lock (Some conn);
            ret ← on_data conn (fun d => gamin_data_cancel d reqnum);
            if ret <? 0 then
              _ ← set_errno FAM_ARG; _ ← gamin_data_unlock (Some conn); mret (-1)
            else
              ret ← gamin_send_request GAM_REQ_CANCEL (fc_fd c) None fr 0 conn false;
              _ ← gamin_data_unlock (Some conn);
              _ ← when (negb (ret =? 0)) (set_errno FAM_CONNECT);
              mret ret
      end
  | _, _ => fail_with FAM_ARG
  end.

Definition FAMSuspendMonitor (fc fr : option ptr) : M Z := fail_with FAM_UNIMPLEM.
Definition FAMResumeMonitor (fc fr : option ptr) : M Z := fail_with FAM_UNIMPLEM.

Definition FAMNoExists (fc : option ptr) : M Z :=
  match fc with
  | None => fail_with FAM_ARG
  | Some fc =>
      c ← load_fam fc;
      _ ← gamin_data_lock (fc_client c);
      conn ← deref (fc_client c);
      ret ← on_data conn gamin_data_no_exists;
      _ ← gamin_data_unlock (fc_client c);
      if ret <? 0 then fail_with FAM_ARG else mret 0
  end.
End Api.
