(* ===== verification/ClientService.v ===== *)
(** * What the client library's calls do

    A monitoring call adds one request to the table and sends one packet that
    the daemon's framing recognises as that request; [FAMNextEvent] hands out
    the event whose packet arrives; reconnecting sends every request again. *)

From S2P Require Import Prelude Protocol ClientRequests ClientEvents Monad OS.
From S2P Require Import Sockets ClientApi.

Local Open Scope Z_scope.

Section Service.
Context {os : OS} {laws : OSLaws os} {so : Sockets os}.

(** ** Writing *)

Lemma write_byte_loop_world fuel fd data (s : client) :
  write_byte_loop fuel fd data s =
  match write_loop fuel fd data (cl_world s) with
  | Ok (b, w) => Ok (if b : bool then 0 else -1, set_cl_world w s)
  | Fault e => Fault e
  end.
Proof.
  revert data s. induction fuel as [|fuel IH]; intros data s; [done|]. simpl.
  unfold mbind, ST_bind, csys. destruct (sys_write fd data (cl_world s)) as [[n|e] w'].
  - case_bool_decide; [done|]. by rewrite IH.
  - destruct (e =? EINTR); [|done]. case_bool_decide; [done|]. by rewrite IH.
Qed.

(** All of the data is written, or a part of it and the call fails. *)
Lemma wp_write_byte fd data (s : client) :
  data <> [] ->
  wp (gamin_write_byte fd data) (fun r s' => exists ok w', r = (if ok : bool then 0 else -1) /\
    s' = set_cl_world w' s /\ wrote_bytes fd data (cl_world s) ok w') s.
Proof.
  intros Hd. unfold gamin_write_byte. apply wp_bind, wp_gets. unfold wp.
  rewrite write_byte_loop_world.
  destruct (write_loop_spec (S (length data + interrupts (cl_world s))) fd data (cl_world s) Hd
    ltac:(lia)) as (ok & w' & -> & Hw). by exists ok, w'.
Qed.

(** ** Access *)

Lemma wp_load_fam fc c (Q : FAMConnection -> client -> Prop) s :
  cl_conns s !! fc = Some c -> Q c s -> wp (load_fam fc) Q s.
Proof. intros Hc HQ. unfold load_fam. apply wp_bind, wp_get. by eapply wp_deref. Qed.

Lemma wp_load_req fr n (Q : Z -> client -> Prop) s :
  cl_reqs s !! fr = Some n -> Q n s -> wp (load_req fr) Q s.
Proof. intros Hc HQ. unfold load_req. apply wp_bind, wp_get. by eapply wp_deref. Qed.

Lemma wp_store_req fr n m (Q : unit -> client -> Prop) s :
  cl_reqs s !! fr = Some m -> Q tt (set_cl_reqs (<[fr := n]> (cl_reqs s)) s) ->
  wp (store_req fr n) Q s.
Proof. intros Hc HQ. unfold store_req. apply wp_bind. by eapply wp_load_req. Qed.

Lemma wp_change_lock p dl by_ (Q : unit -> client -> Prop) s :
  cl_data s !! p = Some dl ->
  Q tt (set_cl_data (<[p := (dl.1, dl.2 + by_)]> (cl_data s)) s) -> wp (change_lock (Some p) by_) Q s.
Proof. intros Hp HQ. unfold change_lock. apply wp_bind, wp_ret, wp_bind, wp_get, wp_bind. by eapply wp_deref. Qed.

Lemma wp_on_data {A} p dl (f : GAMData -> GAMData * A) (Q : A -> client -> Prop) s :
  cl_data s !! p = Some dl ->
  Q (f dl.1).2 (set_cl_data (<[p := ((f dl.1).1, dl.2)]> (cl_data s)) s) -> wp (on_data p f) Q s.
Proof.
  intros Hp HQ. unfold on_data. apply wp_bind, wp_get, wp_bind. eapply wp_deref; [exact Hp|].
  by destruct (f dl.1) as [d a].
Qed.

Lemma wp_on_data_res {A} p dl (f : GAMData -> res (GAMData * A)) d a (Q : A -> client -> Prop) s :
  cl_data s !! p = Some dl -> f dl.1 = Ok (d, a) ->
  Q a (set_cl_data (<[p := (d, dl.2)]> (cl_data s)) s) -> wp (on_data_res p f) Q s.
Proof.
  intros Hp Hf HQ. unfold on_data_res. apply wp_bind, wp_get, wp_bind. eapply wp_deref; [exact Hp|].
  by rewrite Hf.
Qed.

(** A connection that is open, with its data and how often its mutex is held. *)
Definition opened (fc : ptr) (c : FAMConnection) (p : ptr) (d : GAMData) (n : Z) (s : client) : Prop :=
  cl_conns s !! fc = Some c /\ 0 <= fc_fd c /\ fc_client c = Some p /\ cl_data s !! p = Some (d, n).

(** ** Requests *)

(** The packet of a request, and how the daemon reads it. *)
Definition wire_type (type : Z) (d : GAMData) : Z :=
  if (type =? GAM_REQ_DIR) && (gamin_data_get_exists d =? 0) then type .| GAM_OPT_NOEXISTS else type.

(** What has become of a request for [filename]. *)
Definition request_sent (type : Z) (filename : string) (userData : Z) (c : FAMConnection) (fr p : ptr)
  (d : GAMData) (n : Z) (s : client) (r : Z) (s' : client) : Prop :=
  let '(d', no) := gamin_data_get_reqnum (malloc_ok (cl_world s)) d filename type userData in
  cl_data s' !! p = Some (d', n) /\ cl_conns s' = cl_conns s /\
  if no <? 0 then r = -1 /\ cl_errno s' = FAM_ARG /\ cl_reqs s' = cl_reqs s /\ cl_world s' = cl_world s
  else
    cl_reqs s' = <[fr := no]> (cl_reqs s) /\
    exists ok : bool, r = (if ok then 0 else -1) /\ (ok = false -> cl_errno s' = FAM_CONNECT) /\
      wrote_bytes (fc_fd c) (packet_bytes (request_packet no (wire_type type d) filename))
        (cl_world s) ok (cl_world s').

Lemma get_reqnum_noexist malloc d filename type ud :
  noexist (gamin_data_get_reqnum malloc d filename type ud).1 = noexist d.
Proof.
  unfold gamin_data_get_reqnum, gamin_data_add_req, gamin_allocate_request.
  by repeat case_match; simplify_eq/=.
Qed.

Lemma wp_monitor type fc c fr m p d n filename userData s :
  opened fc c p d n s -> cl_reqs s !! fr = Some m ->
  String.prefix (String slash "") filename = true -> strlen filename < MAXPATHLEN ->
  wp (monitor type false (Some fc) (Some filename) (Some fr) userData)
    (request_sent type filename userData c fr p d n s) s.
Proof.
  intros (Hfc & Hfd & Hcl & Hd) Hfr Habs Hlen. unfold monitor. rewrite Habs.
  assert (strlen filename >=? MAXPATHLEN = false) as -> by (rewrite Z.geb_leb; apply Z.leb_gt; lia).
  cbn [negb orb]. apply wp_bind. eapply wp_load_fam; [exact Hfc|]. rewrite Hcl.
  rewrite (proj2 (Z.ltb_ge _ _) Hfd). apply wp_bind. eapply wp_change_lock; [exact Hd|]. apply wp_bind.
  set (s1 := set_cl_data _ s).
  assert (cl_data s1 !! p = Some (d, n + 1)) as Hd1 by apply lookup_insert_eq.
  unfold gamin_send_request. apply wp_bind.
  assert (strlen filename >? MAXPATHLEN = false) as -> by (rewrite Z.gtb_ltb; apply Z.ltb_ge; lia).
  cbn [negb]. apply wp_bind, wp_gets, wp_bind. eapply wp_on_data; [exact Hd1|]. cbn [fst snd].
  change (cl_world s1) with (cl_world s).
  pose proof (get_reqnum_noexist (malloc_ok (cl_world s)) d filename type userData) as Hne.
  unfold request_sent.
  destruct (gamin_data_get_reqnum (malloc_ok (cl_world s)) d filename type userData) as [d' no].
  cbn [fst snd] in *. set (s2 := set_cl_data _ s1).
  assert (cl_data s2 !! p = Some (d', n + 1)) as Hd2 by apply lookup_insert_eq.
  destruct (no <? 0).
  - cbv beta iota. apply wp_bind, wp_modify, wp_ret, wp_ret, wp_bind. eapply wp_change_lock; [exact Hd2|].
    apply wp_ret. cbn [fst snd]. repeat split; try done.
    change (cl_data _) with (<[p := (d', n + 1 + -1)]> (cl_data s2)).
    rewrite lookup_insert_eq. repeat f_equal. lia.
  - cbv beta iota. apply wp_bind. eapply wp_store_req; [exact Hfr|].
    set (s3 := set_cl_reqs _ s2). apply wp_ret. cbv beta iota. apply wp_bind. unfold ask_data.
    assert (cl_data s3 !! p = Some (d', n + 1)) as Hd3 by exact Hd2.
    eapply wp_on_data; [exact Hd3|]. cbn [fst snd]. set (s4 := set_cl_data _ s3).
    assert (cl_data s4 !! p = Some (d', n + 1)) as Hd4 by apply lookup_insert_eq.
    apply wp_bind.
    assert ((if (type =? GAM_REQ_DIR) && (gamin_data_get_exists d' =? 0)
             then type .| GAM_OPT_NOEXISTS else type) = wire_type type d) as ->.
    { unfold wire_type, gamin_data_get_exists. by rewrite Hne. }
    eapply wp_mono; [apply wp_write_byte, packet_bytes_nonempty|].
    intros r s5 (ok & w5 & -> & -> & Hw). apply wp_bind.
    apply (wp_mono _ (fun _ s6 => s6 = (if ok then set_cl_world w5 s4
      else set_cl_errno FAM_CONNECT (set_cl_world w5 s4)))).
    { apply wp_when; destruct ok; try done. }
    intros [] s6 ->. apply wp_ret, wp_bind.
    apply (wp_change_lock p (d', n + 1)); [by destruct ok|]. apply wp_ret. cbn [fst snd].
    repeat split.
    + replace (n + 1 + -1) with n by lia. destruct ok; apply lookup_insert_eq.
    + by destruct ok.
    + by destruct ok.
    + exists ok. destruct ok; (split; [done|split; [done|exact Hw]]).
Qed.

(** A monitoring call on an open connection completes.  The request gets
    the next number of the table, with its path, kind and user data, and one
    packet with that number, path and kind is written on the connection (with
    the option bit when [FAMNoExists] was called); the call answers 0 exactly
    when all of it was written.  If there is no memory for the request, nothing
    is sent.  In every case the mutex is held as often as before. *)
Theorem monitor_sends_request (dir : bool) fc c fr m p d n filename userData s :
  opened fc c p d n s -> cl_reqs s !! fr = Some m ->
  String.prefix (String slash "") filename = true -> strlen filename < MAXPATHLEN ->
  exists r s',
    (if dir then FAMMonitorDirectory else FAMMonitorFile) (Some fc) (Some filename) (Some fr) userData s
      = Ok (r, s') /\
    request_sent (if dir then GAM_REQ_DIR else GAM_REQ_FILE) filename userData c fr p d n s r s'.
Proof.
  intros Ho Hfr Habs Hlen.
  destruct dir; eapply wp_Ok, wp_monitor; eauto.
Qed.

(** ** Events *)

(** What a call that is repeated while it is interrupted returns. *)
Definition returns {A} (f : world -> sysres A * world) (w : world) (r : sysres A) (w' : world) : Prop :=
  retry (S (interrupts w)) f w = Ok (r, w').

Lemma wp_csys_retry {A} (f : world -> sysres A * world) r w' (Q : sysres A -> client -> Prop) s :
  returns f (cl_world s) r w' -> Q r (set_cl_world w' s) -> wp (csys_retry f) Q s.
Proof. unfold returns, csys_retry, wp. by intros ->. Qed.

(** The state with other data behind a pointer. *)
Definition put_data (p : ptr) (d : GAMData) (n : Z) (s : client) : client :=
  set_cl_data (<[p := (d, n)]> (cl_data s)) s.

Lemma put_data_put p d n d' n' s : put_data p d n (put_data p d' n' s) = put_data p d n s.
Proof. unfold put_data, set_cl_data. simpl. by rewrite insert_insert_eq. Qed.

Lemma put_data_same p d n s : cl_data s !! p = Some (d, n) -> put_data p d n s = s.
Proof. intros H. unfold put_data, set_cl_data. rewrite insert_id by done. by destruct s. Qed.

Lemma put_data_lookup p d n s : cl_data (put_data p d n s) !! p = Some (d, n).
Proof. apply lookup_insert_eq. Qed.

(** [FAMNextEvent] from the lock on, when no event is ready. *)
Lemma wp_next_event_reads fc c p d n d0 (Q : Z * option FAMEvent -> client -> Prop) s :
  opened fc c p d n s -> gamin_data_event_ready d = Ok (d0, 0) ->
  wp (gamin_read_data p (fc_fd c) true) (fun r s1 =>
      if r <? 0 then wp (gamin_try_reconnect p (fc_fd c)) (fun _ s2 => Q (-1, None) (set_cl_errno FAM_CONNECT s2)) s1
      else exists d1 d2 o, cl_data s1 !! p = Some (d1, n + 1) /\ gamin_data_read_event d1 = Ok (d2, o) /\
        let s2 := put_data p d2 n s1 in
        match o with
        | None => Q (-1, None) (set_cl_errno FAM_CONNECT s2)
        | Some e => Q (1, Some e) s2
        end) (put_data p d0 (n + 1) s) ->
  wp (FAMNextEvent (Some fc) true) Q s.
Proof.
  intros (Hfc & Hfd & Hcl & Hd) Hready Hread. unfold FAMNextEvent. apply wp_bind.
  eapply wp_load_fam; [exact Hfc|]. rewrite Hcl, (proj2 (Z.ltb_ge _ _) Hfd).
  apply wp_bind. eapply wp_change_lock; [exact Hd|]. apply wp_bind.
  eapply wp_on_data_res; [apply lookup_insert_eq|exact Hready|]. cbn [Z.eqb fst snd].
  fold (put_data p d (n + 1) s).
  change (set_cl_data _ (put_data p d (n + 1) s)) with (put_data p d0 (n + 1) (put_data p d (n + 1) s)).
  rewrite put_data_put. apply wp_bind, wp_bind. eapply wp_mono; [exact Hread|].
  intros r s1 Hr. cbv beta in Hr |- *. destruct (r <? 0).
  - apply wp_bind. eapply wp_mono; [exact Hr|]. intros ? s2 HQ. apply wp_ret. cbv beta iota.
    apply wp_bind, wp_bind, wp_modify, wp_ret, wp_ret. exact HQ.
  - destruct Hr as (d1 & d2 & o & Hd1 & Hrd & HQ). cbv zeta in HQ. apply wp_ret. cbv beta iota.
    apply wp_bind. eapply wp_on_data_res; [exact Hd1|exact Hrd|]. cbn [snd].
    fold (put_data p d2 (n + 1) s1). apply wp_bind.
    eapply wp_change_lock; [apply put_data_lookup|]. cbn [fst snd].
    change (set_cl_data _ (put_data p d2 (n + 1) s1))
      with (put_data p d2 (n + 1 + -1) (put_data p d2 (n + 1) s1)).
    rewrite put_data_put. replace (n + 1 + -1) with n by lia. destruct o as [e|]; [by apply wp_ret|].
    apply wp_bind, wp_bind, wp_modify, wp_ret, wp_ret. exact HQ.
Qed.

(** Reading on an authenticated connection. *)
Lemma wp_read_data p fd block d n r w' (Q : Z -> client -> Prop) s :
  cl_data s !! p = Some (d, n) -> gamin_data_need_auth d = 0 ->
  returns (sys_read fd (sizeof_GAMPacket - evn_read d)) (cl_world s) r w' ->
  match r with
  | SysOk (b :: l) => exists d1 ret, gamin_data_conn_data d (b :: l) = Ok (d1, ret) /\
      Q (if ret <? 0 then -1 else 0) (set_cl_world w' (put_data p d1 n s))
  | _ => Q (-1) (set_cl_world w' s)
  end ->
  wp (gamin_read_data p fd block) Q s.
Proof.
  intros Hd Ha Hr HQ. unfold gamin_read_data, ask_data. apply wp_bind.
  eapply wp_on_data; [exact Hd|]. cbn [fst snd]. fold (put_data p d n s).
  rewrite put_data_same, Ha by done. cbn [Z.eqb negb]. unfold read_events, ask_data. apply wp_bind.
  eapply wp_on_data; [exact Hd|]. cbn [fst snd gamin_data_get_data]. fold (put_data p d n s).
  rewrite put_data_same by done. apply wp_bind. eapply wp_csys_retry; [exact Hr|].
  destruct r as [[|b l]|e]; [by apply wp_ret| |by apply wp_ret].
  rewrite bool_decide_eq_false_2 by done. apply wp_bind.
  destruct HQ as (d1 & ret & Hcd & HQ). eapply wp_on_data_res; [exact Hd|exact Hcd|]. by apply wp_ret.
Qed.

(** The packet of an event. *)
Definition event_packet (seq code : Z) (path : string) : list byte :=
  packet_bytes (make_packet seq code (bytes_of_path path)).

(** The connection is authenticated and has received a part, perhaps nothing,
    of the packet of an event on a live request. *)
Definition awaits (d : GAMData) (seq code : Z) (path : string) (r : GAMReqData) : Prop :=
  auth d = 1 /\ evn_ready d = 0 /\ restarted d = 0 /\ live_req d seq r /\
  0 <= seq < 65536 /\ 0 <= code < 65536 /\ no_nul (bytes_of_path path) /\ 1 <= strlen path < MAXPATHLEN /\
  exists k, (k < length (event_packet seq code path))%nat /\ evn d = take k (event_packet seq code path).

Lemma set_evn_same d : set_evn (evn d) d = d.
Proof. by destruct d. Qed.

Lemma length_event_packet seq code path :
  length (event_packet seq code path) = (10 + length (bytes_of_path path))%nat.
Proof. unfold event_packet. by rewrite length_packet_bytes. Qed.

Lemma awaits_not_ready d seq code path r : awaits d seq code path r -> gamin_data_event_ready d = Ok (d, 0).
Proof.
  intros (_ & Hr & _ & _ & Hs & Hc & _ & Hl & k & Hk & He). unfold gamin_data_event_ready.
  rewrite Hr. cbn [Z.eqb negb]. destruct (evn_read d =? 0); cbn [negb]; [done|].
  pose proof (length_bytes_of_path path) as Hb. rewrite length_event_packet in Hk. unfold strlen in *.
  rewrite (receive_part d [] seq code (bytes_of_path path) k); try done;
    [rewrite app_nil_r, set_evn_same; by rewrite Hr|by rewrite app_nil_r|unfold MAXPATHLEN in *; lia].
Qed.

Lemma wp_next_event_awaits fc c p d n seq code path r data w' (Q : Z * option FAMEvent -> client -> Prop) s :
  opened fc c p d n s -> awaits d seq code path r -> data <> [] ->
  returns (sys_read (fc_fd c) (sizeof_GAMPacket - evn_read d)) (cl_world s) (SysOk data) w' ->
  (exists d1 d2 o, gamin_data_conn_data d data = Ok (d1, 0) /\ gamin_data_read_event d1 = Ok (d2, o) /\
    match o with
    | None => Q (-1, None) (set_cl_errno FAM_CONNECT (set_cl_world w' (put_data p d2 n s)))
    | Some e => Q (1, Some e) (set_cl_world w' (put_data p d2 n s))
    end) ->
  wp (FAMNextEvent (Some fc) true) Q s.
Proof.
  intros Ho Ha Hne Hr (d1 & d2 & o & Hcd & Hrd & HQ).
  eapply wp_next_event_reads; [exact Ho|by eapply awaits_not_ready|].
  eapply wp_read_data; [apply put_data_lookup| |exact Hr|].
  - unfold gamin_data_need_auth. by rewrite (proj1 Ha).
  - destruct data as [|b l]; [done|]. exists d1, 0. split; [done|]. cbn [Z.ltb Z.compare].
    exists d1, d2, o. rewrite put_data_put. split; [apply put_data_lookup|]. split; [done|]. cbv zeta.
    assert (put_data p d2 n (set_cl_world w' (put_data p d1 (n + 1) s))
            = set_cl_world w' (put_data p d2 n s)) as ->; [|done].
    change (set_cl_world w' (put_data p d2 n (put_data p d1 (n + 1) s))
            = set_cl_world w' (put_data p d2 n s)). by rewrite put_data_put.
Qed.

(** Data that completes the packet makes the event ready to be read. *)
Lemma awaits_complete d seq code path r data rest :
  awaits d seq code path r -> evn d ++ data = event_packet seq code path ++ rest ->
  Z.of_nat (length (evn d ++ data)) <= sizeof_GAMPacket ->
  exists d1 d2, gamin_data_conn_data d data = Ok (d1, 0) /\
    gamin_data_read_event d1 = Ok (d2, Some (mk_event seq path (rq_userData r) code)) /\
    data <> [] /\ evn d2 = rest /\ evn_ready d2 = 0.
Proof.
  intros (_ & Hrd & Hres & Hlive & Hs & Hc & Hnul & Hl & k & Hk & He) Hdata Hsz.
  pose proof (length_bytes_of_path path) as Hb. rewrite Hdata, length_app, length_event_packet in Hsz.
  unfold strlen in *.
  destruct (receive_packet d data seq code (bytes_of_path path) rest r) as (c1 & Hcd & Hc1); try done;
    [unfold MAXPATHLEN in *; lia|lia|].
  destruct (read_accepted c1 seq code path rest (rq_userData r)) as (d2 & Hre & Hrest & Hready); try done.
  exists (set_accepted seq (rq_userData r) c1), d2. split; [exact Hcd|]. split; [exact Hre|]. split; [|done].
  intros ->. rewrite app_nil_r, He in Hdata. apply (f_equal length) in Hdata.
  rewrite length_app, length_take in Hdata. lia.
Qed.

(** [FAMNextEvent] hands out the event of the packet that the data it reads
    completes: the code, the path and the request number of the packet, with
    the user data given when the request was made.  Nothing but the connection's
    data and the world changes, what was read behind the packet stays buffered,
    and the mutex is released. *)
Theorem next_event_delivers fc c p d n seq code path r data rest w' s :
  opened fc c p d n s -> awaits d seq code path r ->
  returns (sys_read (fc_fd c) (sizeof_GAMPacket - evn_read d)) (cl_world s) (SysOk data) w' ->
  evn d ++ data = event_packet seq code path ++ rest ->
  Z.of_nat (length (evn d ++ data)) <= sizeof_GAMPacket ->
  exists d', FAMNextEvent (Some fc) true s
      = Ok ((1, Some (mk_event seq path (rq_userData r) code)), set_cl_world w' (put_data p d' n s)) /\
    evn d' = rest /\ evn_ready d' = 0.
Proof.
  intros Ho Ha Hr Hdata Hsz.
  destruct (awaits_complete d seq code path r data rest Ha Hdata Hsz) as (d1 & d2 & Hcd & Hre & Hne & Hrest).
  edestruct (wp_Ok (FAMNextEvent (Some fc) true)
    (fun r' s' => r' = (1, Some (mk_event seq path (rq_userData r) code)) /\
       s' = set_cl_world w' (put_data p d2 n s)) s) as (? & ? & E & -> & ->); [|by exists d2].
  eapply wp_next_event_awaits; [exact Ho|exact Ha|exact Hne|exact Hr|].
  by exists d1, d2, (Some (mk_event seq path (rq_userData r) code)).
Qed.

(** An event whose packet arrives in more than one piece makes
    [FAMNextEvent] fail with [FAM_CONNECT] although the connection is in order:
    it reads once and does not wait for the rest.  Nothing is lost, the bytes
    stay in the buffer, and the mutex is released. *)
Theorem next_event_incomplete fc c p d n seq code path r data k w' s :
  opened fc c p d n s -> awaits d seq code path r -> data <> [] ->
  returns (sys_read (fc_fd c) (sizeof_GAMPacket - evn_read d)) (cl_world s) (SysOk data) w' ->
  (k < length (event_packet seq code path))%nat -> evn d ++ data = take k (event_packet seq code path) ->
  let d' := set_evn (evn d ++ data) d in
  FAMNextEvent (Some fc) true s
    = Ok ((-1, None), set_cl_errno FAM_CONNECT (set_cl_world w' (put_data p d' n s))) /\
  awaits d' seq code path r.
Proof.
  intros Ho Ha Hne Hr Hk Hdata d'. pose proof Ha as (Hau & Hrd & Hres & Hlive & Hs & Hc & Hnul & Hl & _).
  pose proof (length_bytes_of_path path) as Hb. rewrite length_event_packet in Hk. split.
  - edestruct (wp_Ok (FAMNextEvent (Some fc) true)
      (fun r' s' => r' = (-1, None) /\
         s' = set_cl_errno FAM_CONNECT (set_cl_world w' (put_data p d' n s))) s) as (? & ? & E & -> & ->); [|done].
    eapply wp_next_event_awaits; [exact Ho|exact Ha|exact Hne|exact Hr|].
    exists d', d', None. split; [|split; [|done]].
    + apply (receive_part d data seq code (bytes_of_path path) k); try done.
      unfold strlen, MAXPATHLEN in *. lia.
    + unfold gamin_data_read_event. unfold d'. simpl. by rewrite Hrd.
  - repeat split; try done; try (by apply Hlive); try lia. exists k. rewrite length_event_packet. done.
Qed.
End Service.
