(* ===== verification/ClientReconnect.v ===== *)
(** * Reconnecting, and the calls that fail

    When a read fails the library opens a new connection, puts it in the place
    of the old one and sends the requests of its table again.  The first part
    shows that connecting always completes and touches nothing but the world
    and the remembered user name. *)

From S2P Require Import Prelude Protocol ClientRequests ClientEvents Monad OS.
From S2P Require Import Sockets ClientApi ClientService.

Local Open Scope Z_scope.

Create HintDb quiet.

Section Reconnect.
Context {os : OS} {laws : OSLaws os} {so : Sockets os} {slaws : SocketLaws os so}.

(** ** Calls that do not touch the library's structures *)

Definition same_structures (s s' : client) : Prop :=
  cl_conns s' = cl_conns s /\ cl_reqs s' = cl_reqs s /\ cl_data s' = cl_data s.

#[export] Instance same_structures_pre : PreOrder same_structures.
Proof.
  split; [done|]. intros s1 s2 s3 (H1 & H2 & H3) (H4 & H5 & H6).
  unfold same_structures. by rewrite H4, H5, H6.
Qed.

(** The call completes, and the structures are as before. *)
Definition quiet {A} (m : ST client A) : Prop := forall s, wp m (fun _ s' => same_structures s s') s.

Lemma quiet_ret {A} (a : A) : quiet (mret a).
Proof. intros s. by apply wp_ret. Qed.
Lemma quiet_bind {A B} (m : ST client A) (f : A -> ST client B) :
  quiet m -> (forall a, quiet (f a)) -> quiet (m ≫= f).
Proof.
  intros Hm Hf s. apply wp_bind. eapply wp_mono; [apply Hm|]. intros a s1 H1.
  eapply wp_mono; [apply Hf|]. intros b s2 H2. by transitivity s1.
Qed.
Lemma quiet_gets {A} (f : client -> A) : quiet (gets f).
Proof. intros s. by apply wp_gets. Qed.
Lemma quiet_user_name x : quiet (modify (set_cl_user_name x)).
Proof. intros s. by apply wp_modify. Qed.
Lemma quiet_csys {A} (f : world -> A * world) : quiet (csys f).
Proof. intros s. unfold wp, csys. by destruct (f (cl_world s)). Qed.
Lemma quiet_do_world f : quiet (do_world f).
Proof. intros s. by apply wp_modify. Qed.

#[local] Ltac quiet :=
  repeat first
    [ progress intros
    | solve [eauto with quiet nocore]
    | apply quiet_ret | apply quiet_gets | apply quiet_csys | apply quiet_do_world
    | apply quiet_user_name | apply quiet_bind
    | match goal with
      | |- quiet (match ?x with _ => _ end) => destruct x
      | |- quiet (if ?x then _ else _) => destruct x
      end ].

Lemma quiet_user : quiet gamin_get_user_name.
Proof. unfold gamin_get_user_name. quiet. Qed.
Lemma quiet_client_id : quiet fam_client_id.
Proof. apply quiet_gets. Qed.
Lemma quiet_new_path path : quiet (new_path path).
Proof. unfold new_path. quiet. Qed.
#[local] Hint Resolve quiet_user quiet_client_id quiet_new_path : quiet.
Lemma quiet_socket_dir : quiet gamin_get_socket_dir.
Proof. unfold gamin_get_socket_dir. quiet. Qed.
#[local] Hint Resolve quiet_socket_dir : quiet.

(** ** Connecting *)

(** The user name the library remembers, or asks for. *)
Definition user_of (s : client) : string :=
  if String.eqb (cl_user_name s) "" then
    match (pw_name (getuid (cl_world s)) (cl_world s)).1 with
    | Some name => str_take 99 name
    | None => ""
    end
  else cl_user_name s.

(** The path of the daemon's socket for this client. *)
Definition socket_path (s : client) : string :=
  str_take (Z.to_nat MAXPATHLEN - 1)
    ("/tmp/fam-" ++ user_of s ++ (if abstract_sockets then "-" else "/fam-") ++
     default "" (getenv "GAM_CLIENT_ID" (cl_world s))).

Lemma wp_user s :
  wp gamin_get_user_name (fun user s' => user = user_of s /\ same_structures s s') s.
Proof.
  unfold gamin_get_user_name, user_of. apply wp_bind, wp_gets.
  destruct (String.eqb_spec (cl_user_name s) "") as [->|]; cbn [negb]; [|by apply wp_ret].
  apply wp_bind. unfold wp at 1, csys. destruct (pw_name _ _) as [[name|] w]; cbn [fst].
  - apply wp_bind, wp_modify, wp_ret. done.
  - by apply wp_ret.
Qed.

(** The path is the one above, unless there is no memory for it. *)
Lemma wp_socket_path s :
  wp gamin_get_socket_path (fun o s' => same_structures s s' /\
    match o with
    | Some path => path = socket_path s
    | None => malloc_ok (cl_world s') (strlen (socket_path s) + 1) = false
    end) s.
Proof.
  unfold gamin_get_socket_path. apply wp_bind, wp_gets, wp_bind. eapply wp_mono; [apply wp_user|].
  intros user s1 [-> H1]. unfold new_path. apply wp_bind, wp_gets, wp_ret. split; [exact H1|].
  assert (forall l, (if abstract_sockets then "/tmp/fam-" ++ user_of s ++ "-" ++ l
      else "/tmp/fam-" ++ user_of s ++ "/fam-" ++ l)%string
    = ("/tmp/fam-" ++ user_of s ++ (if abstract_sockets then "-" else "/fam-") ++ l)%string) as Hpath
    by (intros l; by destruct abstract_sockets).
  rewrite Hpath. fold (socket_path s). by destruct (malloc_ok _ _) eqn:E.
Qed.

(** What connecting to [path] ends with: the call of [connect] that succeeds,
    or one of the calls that do not.  The worlds are those after the last call. *)
Definition connected (path : string) (fd : Z) (w : world) : Prop :=
  exists w0, sys_connect fd (sun_path abstract_sockets path) w0 = (true, w).

Inductive refused (path : string) : world -> Prop :=
  | no_socket fd w0 w : sys_socket w0 = (fd, w) -> fd < 0 -> refused path w
  | insecure file w0 w : sys_unlink file w0 = (false, w) -> refused path w
  | turned_away fd w0 w :
      sys_connect fd (sun_path abstract_sockets path) w0 = (false, w) ->
      refused path (sys_close fd w).2.

Definition connect_ended (path : string) (s : client) (fd : Z) (s' : client) : Prop :=
  same_structures s s' /\
  (0 <= fd /\ connected path fd (cl_world s') \/ fd = -1 /\ refused path (cl_world s')).

(** A check that answers -1 did not manage to remove what is in the way. *)
Definition checked (s : client) (r : Z) (s' : client) : Prop :=
  same_structures s s' /\ (r < 0 -> exists file w0, sys_unlink file w0 = (false, cl_world s')).

Lemma wp_unlinks path s :
  wp (r ← csys (sys_unlink path); mret (if r : bool then 0 else -1)) (checked s) s.
Proof.
  apply wp_bind. unfold wp at 1, csys. destruct (sys_unlink path (cl_world s)) as [ok w] eqn:E.
  apply wp_ret. split; [done|]. destruct ok; [lia|]. by exists path, (cl_world s).
Qed.

Lemma wp_quiet {A} (m : ST client A) (Q : A -> client -> Prop) s :
  quiet m -> (forall a s', same_structures s s' -> Q a s') -> wp m Q s.
Proof. intros Hm HQ. eapply wp_mono; [apply Hm|]. intros a s' H. by apply HQ. Qed.

Lemma checked_from s s1 r s' : same_structures s s1 -> checked s1 r s' -> checked s r s'.
Proof. intros H [H1 H2]. split; [by transitivity s1|done]. Qed.

Lemma wp_secure_dir s : wp gamin_check_secure_dir (checked s) s.
Proof.
  unfold gamin_check_secure_dir. apply wp_bind, wp_quiet; [apply quiet_socket_dir|].
  intros [dir|] s1 H1; [|apply wp_ret; by split].
  apply wp_bind, wp_quiet; [quiet|]. intros [st|] s2 H2; apply (transitivity H1) in H2;
    [|apply wp_ret; by split].
  apply wp_bind, wp_gets. destruct (secure_dir _ _); [apply wp_ret; by split|].
  apply wp_bind, wp_quiet; [quiet|]. intros ok s3 H3. apply (transitivity H2) in H3.
  destruct ok; [apply wp_ret; by split|]. eapply wp_mono; [apply wp_unlinks|].
  intros r s4. by apply checked_from.
Qed.

Lemma wp_secure_path path s : wp (gamin_check_secure_path path) (checked s) s.
Proof.
  unfold gamin_check_secure_path. apply wp_bind. eapply wp_mono; [apply wp_secure_dir|].
  intros ret s1 H1. destruct (ret <=? 0); [by apply wp_ret|]. destruct H1 as [H1 _].
  apply wp_bind, wp_quiet; [quiet|]. intros [st|] s2 H2; apply (transitivity H1) in H2;
    [|apply wp_ret; by split].
  apply wp_bind, wp_gets. destruct (secure_socket _ _); [apply wp_ret; by split|].
  eapply wp_mono; [apply wp_unlinks|]. intros r s3. by apply checked_from.
Qed.

Lemma ended_from path s s1 fd s' :
  same_structures s s1 -> connect_ended path s1 fd s' -> connect_ended path s fd s'.
Proof. intros H [H1 H2]. split; [by transitivity s1|done]. Qed.

(** The [retry_start] loop ends: it is entered at most [MAX_RETRIES] times more. *)
Lemma wp_connect_attempts fuel retries path s :
  (retries <= MAX_RETRIES)%nat -> (MAX_RETRIES - retries < fuel)%nat ->
  wp (connect_attempts fuel retries path) (connect_ended path s) s.
Proof.
  revert retries s. induction fuel as [|fuel IH]; intros retries s Hr Hf; [lia|]. simpl.
  apply wp_bind. unfold wp at 1, csys. destruct (sys_socket (cl_world s)) as [fd w] eqn:Esock.
  destruct (Z.ltb_spec fd 0) as [Hfd|Hfd].
  { apply wp_ret. split; [done|]. right. split; [done|]. by eapply no_socket. }
  set (s1 := set_cl_world w s). assert (same_structures s s1) as H1 by done. clearbody s1.
  apply wp_bind. eapply wp_mono with (Q := checked s1).
  { destruct abstract_sockets; [apply wp_ret; by split|apply wp_secure_path]. }
  intros secure s2 [H2 Hun]. apply (transitivity H1) in H2.
  destruct (Z.ltb_spec secure 0) as [Hs|_].
  { apply wp_ret. destruct (Hun Hs) as (file & w0 & Eun). split; [exact H2|]. right.
    split; [done|]. by eapply insecure. }
  apply wp_bind. unfold wp at 1, csys.
  destruct (sys_connect fd _ (cl_world s2)) as [ok w3] eqn:Econn.
  set (s3 := set_cl_world w3 s2). assert (same_structures s s3) as H3 by done.
  destruct ok.
  { apply wp_ret. split; [exact H3|]. left. split; [done|]. by exists (cl_world s2). }
  destruct (Nat.eqb_spec retries 0) as [->|Hr0].
  - repeat (apply wp_bind, wp_quiet; [quiet|]; intros ? ? ?).
    eapply wp_mono; [apply IH; unfold MAX_RETRIES in *; lia|]. intros r s6. apply ended_from.
    etransitivity; [exact H3|]. do 2 (etransitivity; [eassumption|]). eassumption.
  - destruct (Nat.ltb_spec retries MAX_RETRIES) as [Hlt|_].
    + repeat (apply wp_bind, wp_quiet; [quiet|]; intros ? ? ?).
      eapply wp_mono; [apply IH; lia|]. intros r s6. apply ended_from.
      etransitivity; [exact H3|]. etransitivity; eassumption.
    + apply wp_bind. unfold wp at 1, csys. destruct (sys_close fd (cl_world s3)) as [x w4] eqn:Ecl.
      apply wp_ret. split; [done|]. right. split; [done|].
      replace (cl_world (set_cl_world w4 s3)) with (sys_close fd w3).2; [by eapply turned_away|].
      change (cl_world s3) with w3 in Ecl. by rewrite Ecl.
Qed.

Lemma wp_connect path s : wp (gamin_connect_unix_socket path) (connect_ended path s) s.
Proof. apply wp_connect_attempts; lia. Qed.

(** The byte that goes with the credentials, and whether it was written. *)
Definition greeted (fd : Z) (w : world) (ok : bool) (w' : world) : Prop :=
  exists r, returns (sys_write fd [x00]) w r w' /\ (ok = true <-> r = SysOk 1).

Lemma wp_credential fd s :
  wp (gamin_write_credential_byte fd) (fun r s' => exists (ok : bool) w',
    s' = set_cl_world w' s /\ r = (if ok then 0 else -1) /\ greeted fd (cl_world s) ok w') s.
Proof.
  unfold gamin_write_credential_byte. apply wp_bind. unfold wp at 1, csys_retry.
  destruct (retry_total (S (interrupts (cl_world s))) (sys_write fd [x00]) (cl_world s)
    (fun w w' H => proj2 (write_err fd _ _ _ _ H) eq_refl) ltac:(lia)) as (r & w' & E & _).
  rewrite E. destruct r as [written|e]; apply wp_ret.
  - exists (written =? 1), w'. split; [done|]. split; [by destruct (written =? 1)|].
    exists (SysOk written). split; [exact E|]. rewrite Z.eqb_eq. split; congruence.
  - exists false, w'. split; [done|]. split; [done|]. exists (SysErr e). split; [exact E|]. split; done.
Qed.

(** ** Resending *)

(** The packets of the requests, in order, come out on [fd]; after a failure
    the others are still written. *)
Fixpoint resent (fd : Z) (reqs : list GAMReqData) (w w' : world) : Prop :=
  match reqs with
  | [] => w' = w
  | r :: reqs =>
      match rq_filename r with
      | None => resent fd reqs w w'
      | Some name => exists ok w1,
          wrote_bytes fd (packet_bytes (request_packet (rq_reqno r) (rq_type r .| GAM_OPT_NOEXISTS) name))
            w ok w1 /\ resent fd reqs w1 w'
      end
  end.

Lemma wp_resend fd type name no s :
  0 <= fd ->
  wp (gamin_resend_request fd type name no) (fun _ s' =>
    match name with
    | None => s' = s
    | Some name => exists ok w', s' = set_cl_world w' s /\
        wrote_bytes fd (packet_bytes (request_packet no (type .| GAM_OPT_NOEXISTS) name)) (cl_world s) ok w'
    end) s.
Proof.
  intros Hfd. unfold gamin_resend_request. destruct name as [name|]; [|by apply wp_ret].
  rewrite (proj2 (Z.ltb_ge _ _) Hfd).
  eapply wp_mono; [apply wp_write_byte, packet_bytes_nonempty|].
  intros x s1 (ok & w1 & -> & -> & Hw). by exists ok, w1.
Qed.

Lemma wp_resend_all fd reqs s :
  0 <= fd ->
  wp (for_each reqs (fun r =>
        _ ← gamin_resend_request fd (rq_type r) (rq_filename r) (rq_reqno r); mret tt))
    (fun _ s' => same_structures s s' /\ resent fd reqs (cl_world s) (cl_world s')) s.
Proof.
  intros Hfd. revert s. induction reqs as [|r reqs IH]; intros s; [done|]. simpl.
  apply wp_bind, wp_bind. eapply wp_mono; [by apply wp_resend|]. intros x s1 H1. apply wp_ret.
  destruct (rq_filename r) as [name|]; [|subst s1; apply IH].
  destruct H1 as (ok & w1 & -> & Hw). eapply wp_mono; [apply IH|].
  intros [] s2 [H2 H3]. split; [exact H2|]. by exists ok, w1.
Qed.

(** A new socket, connected to [path] and greeted, has taken the descriptor
    [fd] or could not; the last world is the one behind [close]. *)
Definition replaced (path : string) (fd : Z) (ok : bool) (w : world) : Prop :=
  exists newfd w0 w1 ret w2, connected path newfd w0 /\ greeted newfd w0 true w1 /\
    sys_dup2 newfd fd w1 = (ret, w2) /\ (ok = true <-> 0 <= ret) /\ w = (sys_close newfd w2).2.

(** Why there is no new connection: no memory for the path of the socket, or
    the last attempt to connect to it was refused, or the byte could not be
    written to the new socket, or the new socket could not take the place of
    the old one. *)
Inductive stays_broken (path : string) (fd : Z) (w : world) : Prop :=
  | no_path : malloc_ok w (strlen path + 1) = false -> stays_broken path fd w
  | no_connection : refused path w -> stays_broken path fd w
  | not_greeted newfd w0 w1 :
      connected path newfd w0 -> greeted newfd w0 false w1 -> w = (sys_close newfd w1).2 ->
      stays_broken path fd w
  | not_replaced : replaced path fd false w -> stays_broken path fd w.

(** What [gamin_try_reconnect] has done. *)
Definition reconnected (p : ptr) (d : GAMData) (n : Z) (fd : Z) (s : client) (r : Z) (s' : client) : Prop :=
  cl_conns s' = cl_conns s /\ cl_reqs s' = cl_reqs s /\
  ((r = -1 /\ cl_data s' = cl_data s /\ stays_broken (socket_path s) fd (cl_world s')) \/
   (r = 0 /\ cl_data s' = <[p := ((gamin_data_reset d).1.1, n)]> (cl_data s) /\
    exists w, replaced (socket_path s) fd true w /\ resent fd (req_tab d) w (cl_world s'))).

Lemma wp_try_reconnect p d n fd s :
  cl_data s !! p = Some (d, n) -> 0 <= fd ->
  wp (gamin_try_reconnect p fd) (reconnected p d n fd s) s.
Proof.
  intros Hd Hfd. unfold gamin_try_reconnect. rewrite (proj2 (Z.ltb_ge _ _) Hfd).
  assert (forall s1, same_structures s s1 -> stays_broken (socket_path s) fd (cl_world s1) ->
    reconnected p d n fd s (-1) s1) as Hfail.
  { intros s1 (H1 & H2 & H3) Hwhy. split; [done|]. split; [done|]. by left. }
  apply wp_bind. eapply wp_mono; [apply wp_socket_path|].
  intros [path|] s1 [H1 Hpath]; [subst path|by apply Hfail, no_path].
  apply wp_bind. eapply wp_mono; [apply wp_connect|].
  intros newfd s2 [H2 [[Hnew Hconn]|[-> Href]]]; apply (transitivity H1) in H2;
    [|by apply Hfail, no_connection].
  rewrite (proj2 (Z.ltb_ge _ _) Hnew).
  apply wp_bind. eapply wp_mono; [apply wp_credential|]. intros ret s3 (ok & w3 & -> & -> & Hgreet).
  set (s3 := set_cl_world w3 s2). assert (same_structures s s3) as H3 by done.
  change w3 with (cl_world s3) in Hgreet. clearbody s3. destruct ok; cbn [Z.eqb negb].
  - clear Hfail H1 H2. destruct H3 as (Ec & Er & Ed).
    apply wp_bind. unfold wp at 1, csys at 1.
    destruct (sys_dup2 newfd fd (cl_world s3)) as [ret w1] eqn:Edup.
    apply wp_bind. unfold wp at 1, csys at 1.
    change (cl_world (set_cl_world w1 s3)) with w1. destruct (sys_close newfd w1) as [x w2] eqn:Ecl.
    assert (forall ok : bool, ok = true <-> 0 <= ret -> replaced (socket_path s) fd ok w2) as Hrep.
    { intros ok Hok. exists newfd, (cl_world s2), (cl_world s3), ret, w1.
      repeat (split; [done|]). by rewrite Ecl. }
    destruct (Z.ltb_spec ret 0).
    { split; [done|]. split; [done|]. left. split; [done|]. split; [done|].
      apply not_replaced, Hrep. split; [done|lia]. }
    apply wp_bind. eapply (wp_on_data p (d, n)); [simpl; by rewrite Ed|].
    apply wp_bind. eapply wp_mono; [by apply wp_resend_all|].
    intros [] s5 [(H1 & H2 & H4) H5]. apply wp_ret. split; [by rewrite H1|]. split; [by rewrite H2|].
    right. split; [done|]. split; [rewrite H4; simpl; by rewrite Ed|].
    exists w2. split; [by apply Hrep|exact H5].
  - apply wp_bind. unfold wp at 1, csys. destruct (sys_close newfd (cl_world s3)) as [x w4] eqn:Ecl.
    apply wp_ret, Hfail; [done|]. eapply not_greeted; [exact Hconn|exact Hgreet|by rewrite Ecl].
Qed.

(** C29: a read that fails, or meets the end of the stream, makes [FAMNextEvent]
    answer -1 with [FAM_CONNECT].  Before that it reconnects if it can: either the run
    ended with one of the calls that make it impossible ([stays_broken]: no
    memory for the path, the socket or the connection refused, the greeting not
    written, the descriptor not replaced) and the data is as before; or a new
    socket, connected to the daemon's path and greeted, has taken the descriptor
    of the old one, the connection has to authenticate again, and every request
    of the table, in order and whether or not it was cancelled, has been sent
    again with the bit that suppresses its first events.  Whatever the outcome the function
    returns without releasing the mutex it took. *)
Theorem next_event_read_fails fc c p d n d0 r w' s :
  opened fc c p d n s -> gamin_data_event_ready d = Ok (d0, 0) -> gamin_data_need_auth d0 = 0 ->
  returns (sys_read (fc_fd c) (sizeof_GAMPacket - evn_read d0)) (cl_world s) r w' ->
  r = SysOk [] \/ (exists e, r = SysErr e) ->
  exists x s', FAMNextEvent (Some fc) true s = Ok ((-1, None), set_cl_errno FAM_CONNECT s') /\
    reconnected p d0 (n + 1) (fc_fd c) (set_cl_world w' (put_data p d0 (n + 1) s)) x s' /\
    exists d', cl_data s' !! p = Some (d', n + 1).
Proof.
  intros Ho Hready Ha Hr Hfail.
  edestruct (wp_Ok (FAMNextEvent (Some fc) true)
    (fun a s' => a = (-1, None) /\ exists x s2, s' = set_cl_errno FAM_CONNECT s2 /\
      reconnected p d0 (n + 1) (fc_fd c) (set_cl_world w' (put_data p d0 (n + 1) s)) x s2) s)
    as (? & ? & E & -> & x & s2 & -> & Hrec).
  - eapply wp_next_event_reads; [exact Ho|exact Hready|].
    eapply wp_read_data; [apply put_data_lookup|exact Ha|exact Hr|].
    assert (wp (gamin_try_reconnect p (fc_fd c))
      (reconnected p d0 (n + 1) (fc_fd c) (set_cl_world w' (put_data p d0 (n + 1) s)))
      (set_cl_world w' (put_data p d0 (n + 1) s))) as Hw
      by (apply wp_try_reconnect; [apply put_data_lookup|apply Ho]).
    destruct Hfail as [->|[e ->]]; cbn [Z.ltb Z.compare]; (eapply wp_mono; [exact Hw|]); eauto.
  - exists x, s2. split; [done|]. split; [done|].
    destruct Hrec as (_ & _ & [[_ [Hd _]]|[_ [Hd _]]]); rewrite Hd.
    + exists d0. apply lookup_insert_eq.
    + eexists. apply lookup_insert_eq.
Qed.

(** ** Opening and closing *)

Lemma wp_update_fam fc f c (Q : unit -> client -> Prop) s :
  cl_conns s !! fc = Some c -> Q tt (set_cl_conns (<[fc := f c]> (cl_conns s)) s) ->
  wp (update_fam fc f) Q s.
Proof. intros Hc HQ. unfold update_fam. apply wp_bind. by eapply wp_load_fam. Qed.

(** C28: [FAMOpen] always comes back, however the attempts to connect end, and
    either hands out an open connection with fresh data or fails with
    [FAM_CONNECT] or [FAM_MEM]. *)
Theorem open_outcome fc c s :
  cl_conns s !! fc = Some c ->
  exists r s', FAMOpen (Some fc) s = Ok (r, s') /\
    ((r = 0 /\ exists c' p, opened fc c' p gamin_data_new 0 s') \/
     (r = -1 /\ (cl_errno s' = FAM_CONNECT \/ cl_errno s' = FAM_MEM))).
Proof.
  intros Hfc. apply wp_Ok. unfold FAMOpen.
  apply wp_bind. eapply wp_mono; [apply wp_socket_path|]. intros [path|] s1 [H1 _];
    [|apply wp_bind, wp_modify, wp_ret; auto].
  apply wp_bind. eapply wp_mono; [apply wp_connect|]. intros fd s2 [H2 _]. apply (transitivity H1) in H2.
  destruct (Z.ltb_spec fd 0); [apply wp_bind, wp_modify, wp_ret; auto|].
  apply wp_bind. eapply wp_mono; [apply wp_credential|].
  intros ret s3 (ok & w3 & -> & _). assert (same_structures s (set_cl_world w3 s2)) as H3 by done.
  destruct (negb (_ =? 0)).
  { apply wp_bind, wp_modify, wp_bind. unfold wp at 1, csys.
    destruct (sys_close fd _) as [x w]. apply wp_ret. right. auto. }
  destruct H3 as (Hc & _ & _).
  apply wp_bind. eapply wp_update_fam; [by rewrite Hc|]. apply wp_bind. unfold wp at 1, data_new.
  destruct (malloc_ok _ _).
  - apply wp_bind. eapply wp_update_fam; [apply lookup_insert_eq|]. cbn [bool_decide].
    rewrite bool_decide_eq_false_2 by done. apply wp_ret. left. split; [done|].
    eexists _, _. split; [apply lookup_insert_eq|]. split; [exact H|]. split; [done|]. apply lookup_insert_eq.
  - apply wp_bind. eapply wp_update_fam; [apply lookup_insert_eq|].
    rewrite bool_decide_eq_true_2 by done. apply wp_bind, wp_modify, wp_bind. unfold wp at 1, csys.
    destruct (sys_close fd _) as [x w]. apply wp_ret. right. auto.
Qed.

(** [FAMClose] frees the data of a connection but leaves the pointer to it
    in the caller's structure.  The calls that look at the descriptor fail
    afterwards; [FAMPending], [FAMNoExists] and a second [FAMClose] look at the
    pointer only and lock a mutex in freed memory. *)
Theorem use_after_close fc c p d n s :
  opened fc c p d n s ->
  exists r s', FAMClose (Some fc) s = Ok (r, s') /\ cl_data s' = delete p (cl_data s) /\
    FAMNextEvent (Some fc) true s' = Ok ((-1, None), s') /\
    FAMPending (Some fc) s' = Fault NullDeref /\
    FAMNoExists (Some fc) s' = Fault NullDeref /\
    FAMClose (Some fc) s' = Fault NullDeref.
Proof.
  intros (Hfc & Hfd & Hcl & Hd).
  edestruct (wp_Ok (FAMClose (Some fc))
    (fun r s' => cl_data s' = delete p (cl_data s) /\ cl_conns s' !! fc = Some (mk_fam (-1) (Some p))) s)
    as (r & s' & E & Hdel & Hc').
  - unfold FAMClose. apply wp_bind. eapply wp_load_fam; [exact Hfc|]. rewrite Hcl. apply wp_bind.
    eapply wp_change_lock; [exact Hd|]. fold (put_data p d (n + 1) s). apply wp_bind. unfold wp at 1, csys.
    destruct (sys_close _ _) as [x w]. apply wp_bind. eapply wp_update_fam; [exact Hfc|].
    apply wp_bind. cbn [gamin_data_free]. apply wp_bind, wp_get, wp_bind.
    eapply wp_deref; [apply (put_data_lookup p d (n + 1) s)|]. apply wp_modify, wp_ret. cbn [cl_data cl_conns].
    split; [apply delete_insert_eq|]. rewrite <- Hcl. apply lookup_insert_eq.
  - assert (cl_data s' !! p = None) as Hnone by (rewrite Hdel; apply lookup_delete_eq).
    exists r, s'. split; [done|]. split; [done|].
    unfold FAMNextEvent, FAMPending, FAMNoExists, FAMClose, load_fam, gamin_data_lock, change_lock,
      mbind, ST_bind, get, deref, mret, ST_ret, fail.
    rewrite Hc'. cbn. rewrite Hnone. done.
Qed.
End Reconnect.
