(* ===== verification/ClientSim.v ===== *)
(** * A simulated client

    Sockets over the simulated operating system: connecting succeeds, and what
    is read is the text filed under the name ["socket"], once.  The theorems on
    the client library's calls are applied here at concrete states. *)

From S2P Require Import Prelude Protocol ClientRequests ClientEvents Monad OS.
From S2P Require Import Sockets ClientApi ClientService ClientReconnect.

Local Open Scope Z_scope.

Definition ECONNRESET : Z := 104.

Definition sim_read (n : Z) (w : sim_world) : sysres (list byte) * sim_world :=
  match assoc "socket" (sim_texts w) with
  | None => (SysErr ECONNRESET, w)
  | Some text => (SysOk (take (Z.to_nat n) (bytes_of_path text)),
      mk_sim (sim_files w) (sim_dirs w) [] (sim_now w) (sim_written w) (sim_signals w) (sim_chunk w))
  end.

#[export] Instance sim_sockets : Sockets sim_os := {|
  abstract_sockets := true;
  getuid := fun _ => 1000;
  getenv := fun _ _ => None;
  pw_name := fun _ w => (Some "user"%string, w);
  sys_stat_perm := fun _ w => (None, w);
  sys_mkdir := fun _ w => (None, w);
  sys_umask := fun _ w => w;
  sys_rmdir := fun _ w => (false, w);
  sys_unlink := fun _ w => (false, w);
  sys_socket := fun w => (7, w);
  sys_connect := fun _ _ w => (true, w);
  sys_bind := fun _ _ w => (true, w);
  sys_listen := fun _ w => (true, w);
  sys_accept := fun _ w => (SysOk 8, w);
  sys_close := fun _ w => (0, w);
  sys_dup2 := fun _ fd w => (fd, w);
  sys_read := fun _ => sim_read : Z -> @world sim_os -> sysres (list byte) * @world sim_os;
  sys_recvmsg := fun _ w => (SysOk (Some x00), w);
  stack_byte := fun _ => x00;
  sys_select := fun _ w => (SysOk 1, w);
  sys_peercred := fun _ w => (Some (42, 1000), w);
  sys_usleep := fun _ w => w;
  fork_server := fun _ w => w;
  malloc_ok := fun _ _ => true
|}.

#[export] Instance sim_socket_laws : SocketLaws sim_os sim_sockets.
Proof.
  split; intros *; simpl; try done. unfold sim_read. by destruct (assoc _ _).
Qed.

(** The text is what the socket holds; [chunk] bounds what a write takes. *)
Definition sim_client (d : GAMData) (socket : option (list byte)) (chunk : nat) : client :=
  mk_client FAM_OK "" {[1%positive := mk_fam 5 (Some 2%positive)]} {[3%positive := 0]}
    {[2%positive := (d, 0)]} 4
    (mk_sim [] [] (match socket with Some l => [("socket"%string, path_of_bytes l)] | None => [] end)
       0 [] 1 chunk : @world sim_os).

Definition sim_fc : ptr := 1.
Definition sim_fr : ptr := 3.

Lemma sim_opened d socket chunk :
  opened sim_fc (mk_fam 5 (Some 2%positive)) 2 d 0 (sim_client d socket chunk).
Proof. repeat split; done. Qed.

(** ** The theorems at concrete states *)

Lemma monitor_sends_request_witness :
  exists r s',
    FAMMonitorDirectory (Some sim_fc) (Some "/tmp"%string) (Some sim_fr) 9 (sim_client demo_conn None 3)
      = Ok (r, s') /\
    request_sent GAM_REQ_DIR "/tmp" 9 (mk_fam 5 (Some 2%positive)) sim_fr 2 demo_conn 0
      (sim_client demo_conn None 3) r s'.
Proof.
  apply (monitor_sends_request true sim_fc (mk_fam 5 (Some 2%positive)) sim_fr 0 2 demo_conn 0 "/tmp" 9
    (sim_client demo_conn None 3) (sim_opened _ _ _)); reflexivity.
Defined.

(** With a signal and writes of three bytes, the call answers 0 and the packet
    is whole. *)
Example monitor_runs :
  match FAMMonitorDirectory (Some sim_fc) (Some "/tmp"%string) (Some sim_fr) 9
    (sim_client demo_conn None 3) with
  | Ok (r, s') => r = 0 /\ cl_reqs s' !! sim_fr = Some 8 /\
      sim_output 5 (cl_world s') = packet_bytes (request_packet 8 GAM_REQ_DIR "/tmp")
  | Fault _ => False
  end.
Proof. vm_compute. auto. Qed.

Lemma demo_awaits k :
  (k < 17)%nat ->
  awaits (set_evn (take k (event_packet 7 FAMCreated "new.txt")) demo_conn) 7 FAMCreated "new.txt"
    (mk_req 7 REQ_CONFIRMED GAM_REQ_DIR (Some "/tmp"%string) 42).
Proof.
  intros Hk. repeat split; try reflexivity; try (vm_compute; congruence); [by right| |by exists k].
  apply (bool_decide_unpack _). vm_compute. exact I.
Qed.

Definition event_bytes : list byte := event_packet 7 FAMCreated "new.txt".

Lemma next_event_delivers_witness :
  exists d' w', FAMNextEvent (Some sim_fc) true
      (sim_client (set_evn (take 4 event_bytes) demo_conn) (Some (drop 4 event_bytes ++ [x01])) 0)
    = Ok ((1, Some (mk_event 7 "new.txt" 42 FAMCreated)),
          set_cl_world w' (put_data 2 d' 0
            (sim_client (set_evn (take 4 event_bytes) demo_conn) (Some (drop 4 event_bytes ++ [x01])) 0))) /\
    evn d' = [x01].
Proof.
  destruct (next_event_delivers sim_fc _ 2 _ 0 7 FAMCreated "new.txt" _ (drop 4 event_bytes ++ [x01]) [x01]
    (mk_sim [] [] [] 0 [] 1 0 : @world sim_os) _
    (sim_opened (set_evn (take 4 event_bytes) demo_conn) (Some (drop 4 event_bytes ++ [x01])) 0)
    (demo_awaits 4 ltac:(lia))) as (d' & E & Hd & _).
  - vm_compute. reflexivity.
  - reflexivity.
  - vm_compute. congruence.
  - eexists d', _. split; [exact E|exact Hd].
Defined.

Lemma next_event_incomplete_witness :
  exists s', FAMNextEvent (Some sim_fc) true
      (sim_client (set_evn (take 4 event_bytes) demo_conn) (Some (take 8 (drop 4 event_bytes))) 0)
    = Ok ((-1, None), s') /\ cl_errno s' = FAM_CONNECT /\
    awaits (set_evn (take 12 event_bytes) demo_conn) 7 FAMCreated "new.txt"
      (mk_req 7 REQ_CONFIRMED GAM_REQ_DIR (Some "/tmp"%string) 42).
Proof.
  destruct (next_event_incomplete sim_fc _ 2 _ 0 7 FAMCreated "new.txt" _ (take 8 (drop 4 event_bytes)) 12
    (mk_sim [] [] [] 0 [] 1 0 : @world sim_os) _
    (sim_opened (set_evn (take 4 event_bytes) demo_conn) (Some (take 8 (drop 4 event_bytes))) 0)
    (demo_awaits 4 ltac:(lia))) as [E Ha].
  - vm_compute. congruence.
  - vm_compute. reflexivity.
  - apply (bool_decide_unpack _). vm_compute. exact I.
  - reflexivity.
  - eexists. split; [exact E|]. split; [reflexivity|]. exact Ha.
Defined.

Lemma next_event_read_fails_witness :
  exists x s', FAMNextEvent (Some sim_fc) true (sim_client demo_conn None 0)
      = Ok ((-1, None), set_cl_errno FAM_CONNECT s') /\
    reconnected 2 demo_conn 1 5 (set_cl_world (mk_sim [] [] [] 0 [] 1 0 : @world sim_os)
      (put_data 2 demo_conn 1 (sim_client demo_conn None 0))) x s'.
Proof.
  destruct (next_event_read_fails sim_fc _ 2 demo_conn 0 demo_conn (SysErr ECONNRESET)
    (mk_sim [] [] [] 0 [] 1 0 : @world sim_os) _ (sim_opened demo_conn None 0))
    as (x & s' & E & Hrec & _).
  - vm_compute. reflexivity.
  - reflexivity.
  - vm_compute. reflexivity.
  - right. by eexists.
  - exists x, s'. split; [exact E|exact Hrec].
Defined.

(** A cancelled request is sent again too. *)
Example reconnect_resends_cancelled :
  match FAMNextEvent (Some sim_fc) true
    (sim_client (mk_data 9 1 0 0 0 [] 0 0 10 true
       [mk_req 7 REQ_CANCELLED GAM_REQ_DIR (Some "/tmp"%string) 42;
        mk_req 8 REQ_CONFIRMED GAM_REQ_FILE (Some "/etc/mtab"%string) 43]) None 0) with
  | Ok (r, s') => r = (-1, None) /\
      sim_output 5 (cl_world s') =
        packet_bytes (request_packet 7 (GAM_REQ_DIR .| GAM_OPT_NOEXISTS) "/tmp") ++
        packet_bytes (request_packet 8 (GAM_REQ_FILE .| GAM_OPT_NOEXISTS) "/etc/mtab")
  | Fault _ => False
  end.
Proof. vm_compute. auto. Qed.

Lemma open_outcome_witness :
  exists r s', FAMOpen (Some sim_fc) (sim_client demo_conn None 0) = Ok (r, s') /\
    ((r = 0 /\ exists c' p, opened sim_fc c' p gamin_data_new 0 s') \/
     (r = -1 /\ (cl_errno s' = FAM_CONNECT \/ cl_errno s' = FAM_MEM))).
Proof. apply (open_outcome sim_fc (mk_fam 5 (Some 2%positive))). reflexivity. Defined.

Lemma use_after_close_witness :
  exists r s', FAMClose (Some sim_fc) (sim_client demo_conn None 0) = Ok (r, s') /\
    FAMPending (Some sim_fc) s' = Fault NullDeref.
Proof.
  destruct (use_after_close sim_fc _ 2 demo_conn 0 _ (sim_opened demo_conn None 0))
    as (r & s' & E & _ & _ & Hp & _).
  exists r, s'. split; [exact E|exact Hp].
Defined.
