(* ===== verification/Session.v ===== *)
(** * Client and daemon together

    The bytes that a call of the library writes are what the daemon reads, and
    the other way round.  A monitoring call that answers 0 leaves a
    registration with the daemon under the number the client knows; an event
    the daemon sends comes out of [FAMNextEvent] with the user data of the
    request it belongs to. *)

From S2P Require Import Prelude Protocol ClientRequests ClientEvents Monad OS.
From S2P Require Import Sockets ClientApi ClientService ClientSim.
From S2P Require Import EventQueue Excludes Fs Conf State Subscription.
From S2P Require Import Listener ConnSend Node Tree Inv Emit.
From S2P Require Import PollGeneric PollBasic Safety AddSafety Server Frames.
From S2P Require Import Connection Framing Daemon Hangup Reach Delivery Service.

Local Open Scope Z_scope.

#[local] Existing Instance no_kernel.
#[local] Existing Instance absent_backend.

Section Session.
Context {os : OS} {glib : GLib} {laws : OSLaws os} {so : Sockets os}.

(** ** The daemon receives one request *)

(** An open connection with nothing pending. *)
Definition idle_conn (c : ptr) (k : GamConnData) (s : server) : Prop :=
  conns (sv_heap s) !! c = Some k /\ conn_ok k /\ cn_request_len k = 0.

Lemma check_packet seq type l :
  0 <= seq < 65536 -> 0 <= type < 65536 -> 1 <= Z.of_nat (length l) <= MAXPATHLEN ->
  let p := make_packet seq type l in
  check_request (packet_bytes p) (Z.of_nat (length (packet_bytes p))) = ReqComplete p.
Proof.
  intros Hs Ht Hl p. unfold check_request.
  assert (read_packet (packet_bytes p) = Some p) as ->
    by (rewrite <- (app_nil_r (packet_bytes p)); apply read_packet_app_bytes; unfold MAXPATHLEN in *; lia).
  set (n := Z.of_nat (length l)) in *.
  assert (Z.of_nat (length (packet_bytes p)) = 10 + n) as ->
    by (rewrite length_packet_bytes; unfold p; rewrite make_packet_fields by lia; cbn [pk_path]; lia).
  unfold p. rewrite make_packet_fields by lia. cbn [pk_len pk_version pk_type pk_pathlen]. fold n.
  unfold sizeof_GAMPacket, GAM_PACKET_HEADER_LEN, GAM_PROTO_VERSION, MAXPATHLEN in *.
  assert (10 + n <? 10 = false) as E1 by (apply Z.ltb_ge; lia).
  assert (10 + n >? 10 + 4096 = false) as E2 by (rewrite Z.gtb_ltb; apply Z.ltb_ge; lia).
  assert ((n <=? 0) || (n >? 4096) = false) as E3
    by (rewrite orb_false_iff, Z.leb_gt, Z.gtb_ltb, Z.ltb_ge; lia).
  assert (n + 10 =? 10 + n = true) as E4 by (apply Z.eqb_eq; lia).
  assert (10 + n <? 10 + n = false) as E5 by (apply Z.ltb_ge; lia).
  by rewrite E1, E2, E3, andb_false_r, E4, E5.
Qed.

(** Storing bytes, executing the request they are, and moving past it. *)
Lemma receive_one c k req (s s2 : server) :
  idle_conn c k s -> let data := packet_bytes req in
  check_request data (Z.of_nat (length data)) = ReqComplete req ->
  let k1 := set_cn_request_len (Z.of_nat (length data))
              (set_cn_request (blit (cn_request k) 0 data) k) in
  gam_connection_request c 0 req (upd_heap (fun h => set_conns (<[c := k1]> (conns h)) h) s) = Ok (0, s2) ->
  exists k2, conns (sv_heap s2) !! c = Some k2 /\
    let k3 := set_cn_request_len 0 k2 in
    let s3 := upd_heap (fun h => set_conns (<[c := k3]> (conns h)) h) s2 in
    conn_receive c data s = Ok (0, s3) /\ idle_conn c k3 s3.
Proof.
  intros (Hc & Hok & Hz) data Hcheck k1 Hreq. set (s1 := upd_heap _ s) in Hreq.
  pose proof (check_request_complete _ _ _ Hcheck) as (Hrd & Hlen & Hmax & Hpk & _).
  assert (pk_len req = Z.of_nat (length data)) as Hpl.
  { destruct (read_packet_Some _ _ Hrd) as (_ & _ & _ & _ & _ & _ & Hpp).
    apply (f_equal length) in Hpp. unfold data in *. rewrite length_packet_bytes in *.
    rewrite length_take, length_drop, length_packet_bytes in Hpp. unfold GAM_PACKET_HEADER_LEN in *. lia. }
  destruct (conn_store_holds c k data s Hc Hok ltac:(rewrite Hz; unfold data in *; lia)) as (s1' & Hst & Hh & Hst').
  assert (s1' = s1) as ->.
  { unfold conn_store, update, objs in Hst. simpl in Hst. rewrite Hc, Hz in Hst. by injection Hst as <-. }
  unfold pending in Hh. rewrite Hz, take_0 in Hh. cbn [app] in Hh.
  pose proof (keeps_request c 0 req s1) as Hkeep. rewrite Hreq in Hkeep.
  destruct (holds_view c 0 data s1 s2 Hkeep Hh) as (k2 & Hk2 & Hl2 & Hn2 & _).
  exists k2. split; [done|]. intros k3 s3.
  assert (conns (sv_heap s3) !! c = Some k3) as Hk3 by apply lookup_insert_eq.
  split; [|split; [done|split; [|done]]; split; simpl; [exact Hl2|split; [lia|vm_compute; discriminate]]].
  rewrite (conn_receive_loop c k data s s1 Hc ltac:(lia) ltac:(rewrite Hz; unfold data in *; lia) Hst').
  destruct Hh as (kk & Hkk & _ & Hnn & more & Hdd). unfold mbind at 1, ST_bind at 1. cbn [data_loop].
  rewrite (bind_Ok _ _ _ _ _ (load_conn_Ok _ _ _ Hkk)), Hdd, Hnn, check_request_prefix, Hcheck by done.
  rewrite (bind_Ok _ _ _ _ _ Hreq). cbn [Z.ltb Z.compare].
  assert (update c (fun c => set_cn_request_len (cn_request_len c - pk_len req) c) s2 = Ok (tt, s3)) as Hu
    by (unfold update, objs; simpl; rewrite Hk2, Hn2, Hpl, Z.sub_diag; done).
  rewrite (bind_Ok _ _ _ _ _ Hu), (bind_Ok _ _ _ _ _ (load_conn_Ok _ _ _ Hk3)). cbn.
  unfold compact. by rewrite (bind_Ok _ _ _ _ _ (load_conn_Ok _ _ _ Hk3)).
Qed.

(** ** Requests *)

Lemma get_reqnum_number malloc d filename type ud :
  (gamin_data_get_reqnum malloc d filename type ud).2 = -1 \/
  (gamin_data_get_reqnum malloc d filename type ud).2 = reqno d.
Proof.
  unfold gamin_data_get_reqnum, gamin_data_add_req, gamin_allocate_request.
  repeat case_match; simplify_eq/=; auto.
Qed.

(** A state of the daemon with other bytes in a connection's buffer. *)
Lemma reachable_buffer c k n buf s :
  reachable s -> conns (sv_heap s) !! c = Some k ->
  reachable (upd_heap (fun h => set_conns (<[c := set_cn_request_len n (set_cn_request buf k)]> (conns h)) h) s).
Proof.
  intros Hr Hc. apply (reachable_step s); [done|]. apply (step_receive c n buf); [by exists k|].
  unfold update, objs. simpl. by rewrite Hc.
Qed.

(** The packet of a monitoring request, as the daemon reads it. *)
Lemma request_packet_read (dir : bool) d no filename :
  0 <= no < 65536 -> no_nul (bytes_of_path filename) -> 1 <= strlen filename < MAXPATHLEN ->
  let req := request_packet no (wire_type (if dir then GAM_REQ_DIR else GAM_REQ_FILE) d) filename in
  check_request (packet_bytes req) (Z.of_nat (length (packet_bytes req))) = ReqComplete req /\
  request_path req = filename /\ pk_seq req = no /\ pk_pathlen req = strlen filename /\
  request_type req = (if dir then GAM_REQ_DIR else GAM_REQ_FILE).
Proof.
  intros Hno Hnul Hlen req. pose proof (length_bytes_of_path filename) as Hb.
  set (wt := wire_type _ d) in *. unfold strlen in Hlen |- *.
  assert (0 <= wt < 65536 /\ u16 wt = wt /\ wt .& 15 = if dir then GAM_REQ_DIR else GAM_REQ_FILE) as (Hwt & Hu & Ht).
  { unfold wt, wire_type. destruct dir; cbn; [|by repeat split; vm_compute; congruence].
    by destruct (gamin_data_get_exists d =? 0); repeat split; vm_compute; congruence. }
  unfold req, request_packet. rewrite Hu. split; [apply check_packet; lia|].
  unfold request_path, request_type. rewrite make_packet_fields by (unfold MAXPATHLEN in *; lia).
  cbn [pk_path pk_seq pk_pathlen pk_type].
  rewrite c_string_no_nul, path_of_bytes_of_path by done. rewrite Hb. done.
Qed.

(** A well-formed request to monitor a polled path arrives, as one piece, on an
    idle connection. *)
Lemma subscription_received c k l req sv :
  reachable sv -> idle_conn c k sv -> cn_state k = GAM_STATE_OKAY -> cn_listener k = Some l ->
  check_request (packet_bytes req) (Z.of_nat (length (packet_bytes req))) = ReqComplete req ->
  request_type req = GAM_REQ_FILE \/ request_type req = GAM_REQ_DIR ->
  request_path req <> ""%string -> pk_pathlen req < MAXPATHLEN -> polled (request_path req) sv ->
  let q := next_ptr (sv_heap sv) in
  exists sv', conn_receive c (packet_bytes req) sv = Ok (0, sv') /\ reachable sv' /\
    (exists k', idle_conn c k' sv') /\
    subs (sv_heap sv') = <[q := requested l req]> (subs (sv_heap sv)) /\
    listeners (sv_heap sv') = alter (fun ln => set_ln_subs (q :: ln_subs ln) ln) l (listeners (sv_heap sv)) /\
    registered q (request_path req) sv'.
Proof.
  intros Hr Hid Hst Hl Hcheck Ht Hpath Hlen Hpol q. pose proof Hid as (Hc & _ & _).
  destruct (dm_conns _ (reachable_daemon_ok _ Hr) _ _ Hc Hst) as (l' & El & Hls).
  assert (l' = l) as -> by congruence. clear El.
  set (data := packet_bytes req) in *.
  set (k1 := set_cn_request_len (Z.of_nat (length data)) (set_cn_request (blit (cn_request k) 0 data) k)).
  set (s1 := upd_heap (fun h => set_conns (<[c := k1]> (conns h)) h) sv).
  assert (reachable s1) as Hr1 by by apply reachable_buffer.
  pose proof (reachable_daemon_ok _ Hr1) as Hd1.
  destruct (subscribe_outcome l req s1 Hd1 Hls Hpath Hpol) as (s0 & s2 & E & (Eh & _) & Es & Els & Hreg).
  rewrite Eh in Es, Els.
  assert (gam_connection_request c 0 req s1 = Ok (0, s2)) as E'.
  { rewrite (served_dispatch c k1 l 0 req s1 Hd1).
    - assert ((request_type req =? GAM_REQ_FILE) || (request_type req =? GAM_REQ_DIR) = true) as ->
        by by destruct Ht as [-> | ->]. exact E.
    - split; [apply lookup_insert_eq|done|done|done|].
      unfold sizeof_GAMPacket, MAXPATHLEN, GAM_PACKET_HEADER_LEN in *. lia. }
  assert (reachable s2) as Hr2.
  { apply (reachable_step s1); [done|]. apply (step_request c 0 req 0); [|done]. split; [|by right].
    eexists. split; [apply lookup_insert_eq|done]. }
  destruct (receive_one c k req sv s2 Hid Hcheck E') as (k2 & Hk2 & Erec & Hidle).
  eexists. split; [exact Erec|]. split; [|split; [by eexists|split; [exact Es|split; [exact Els|exact Hreg]]]].
  replace (set_cn_request_len 0 k2) with (set_cn_request_len 0 (set_cn_request (cn_request k2) k2))
    by by destruct k2.
  by apply reachable_buffer.
Qed.

(** C11: from the library to the daemon.  When a monitoring call for a polled
    path answers 0, the bytes it wrote make the daemon, in any reachable state
    in which the client's connection is idle, answer with exactly one new
    subscription: under the number that the call stored in the caller's
    [FAMRequest], for that path and of that kind, in the client's list and at
    the node of the path.  The connection is idle again. *)
Theorem session_subscribe (dir : bool) fc cc fr m p d n filename userData (s s' : client) c k l sv :
  opened fc cc p d n s -> cl_reqs s !! fr = Some m ->
  String.prefix (String slash "") filename = true -> strlen filename < MAXPATHLEN ->
  no_nul (bytes_of_path filename) -> 0 <= reqno d < 65536 ->
  (if dir then FAMMonitorDirectory else FAMMonitorFile) (Some fc) (Some filename) (Some fr) userData s
    = Ok (0, s') ->
  reachable sv -> idle_conn c k sv -> cn_state k = GAM_STATE_OKAY -> cn_listener k = Some l ->
  polled filename sv ->
  exists no data sv', cl_reqs s' !! fr = Some no /\
    written (fc_fd cc) (cl_world s') = written (fc_fd cc) (cl_world s) ++ data /\
    conn_receive c data sv = Ok (0, sv') /\ reachable sv' /\ (exists k', idle_conn c k' sv') /\
    let q := next_ptr (sv_heap sv) in
    exists sb, subs (sv_heap sv') = <[q := sb]> (subs (sv_heap sv)) /\
      sub_path sb = filename /\ sub_reqno sb = no /\ sub_is_dir sb = dir /\ sub_listener sb = Some l /\
      listeners (sv_heap sv') = alter (fun ln => set_ln_subs (q :: ln_subs ln) ln) l (listeners (sv_heap sv)) /\
      registered q filename sv'.
Proof.
  intros Ho Hfr Habs Hlen Hnul Hno Hcall Hr Hid Hst Hl Hpol.
  set (type := if dir then GAM_REQ_DIR else GAM_REQ_FILE).
  assert (wp (monitor type false (Some fc) (Some filename) (Some fr) userData)
    (request_sent type filename userData cc fr p d n s) s) as Hw by by eapply wp_monitor.
  assert (request_sent type filename userData cc fr p d n s 0 s') as Hsent.
  { assert (monitor type false (Some fc) (Some filename) (Some fr) userData s = Ok (0, s')) as E
      by (rewrite <- Hcall; by destruct dir). unfold wp in Hw. by rewrite E in Hw. }
  clear Hw Hcall. unfold request_sent in Hsent.
  pose proof (get_reqnum_number (malloc_ok (cl_world s)) d filename type userData) as Hnum.
  destruct (gamin_data_get_reqnum _ d filename type userData) as [d' no]. cbn [snd] in Hnum.
  destruct Hsent as (_ & _ & Hsent). destruct (Z.ltb_spec no 0) as [|Hpos]; [by destruct Hsent as [? _]|].
  assert (no = reqno d) as -> by lia. destruct Hsent as (Ereqs & ok & Hok & _ & kk & Hkk & Hwr & _ & Hall).
  assert (ok = true) as -> by by destruct ok. apply proj1 in Hall. specialize (Hall eq_refl). subst kk.
  rewrite firstn_all in Hwr.
  assert (1 <= strlen filename) as Hpos1 by (destruct filename; [done|unfold strlen; simpl; lia]).
  destruct (request_packet_read dir d (reqno d) filename Hno Hnul ltac:(lia)) as (Hcheck & Hpath & Hseq & Hpl & Hty).
  fold type in Hcheck, Hpath, Hseq, Hpl, Hty, Hwr. set (req := request_packet _ _ _) in *.
  destruct (subscription_received c k l req sv Hr Hid Hst Hl Hcheck) as (sv' & Erec & Hr' & Hid' & Es & Els & Hreg).
  - rewrite Hty. unfold type. destruct dir; auto.
  - rewrite Hpath. by intros ->.
  - by rewrite Hpl.
  - by rewrite Hpath.
  - exists (reqno d), (packet_bytes req), sv'. split; [rewrite Ereqs; apply lookup_insert_eq|].
    split; [exact Hwr|]. split; [exact Erec|]. split; [exact Hr'|]. split; [exact Hid'|]. cbv zeta.
    exists (requested l req). split; [exact Es|]. rewrite Hpath in Hreg.
    split; [exact Hpath|]. split; [exact Hseq|]. split; [|split; [done|by split]].
    change (sub_is_dir (requested l req)) with (request_type req =? GAM_REQ_DIR). rewrite Hty.
    unfold type. by destruct dir.
Qed.

(** ** Events *)

Lemma fam_of_event_range event type : fam_of_event event = Some type -> 0 <= type < 65536.
Proof. unfold fam_of_event. repeat case_match; intros [= <-]; vm_compute; intuition congruence. Qed.

(** C12: from the daemon to the caller.  An event that a subscription wants
    is written to its client as bytes from which, when the library reads them,
    [FAMNextEvent] makes the event: with the number of the subscription's
    request, the user data given for that request, the FAM code of the event
    and the name relative to the monitored directory. *)
Theorem session_event path is_dir event q force sb l ln k (sv : server) fc cc p d n r (s : client) :
  subs (sv_heap sv) !! q = Some sb -> sub_pathlen sb = strlen (sub_path sb) ->
  sub_listener sb = Some l -> listeners (sv_heap sv) !! l = Some ln ->
  conns (sv_heap sv) !! ln_service ln = Some k -> 0 <= cn_fd k ->
  gam_subscription_wants_event (Some sb) (Some path) is_dir event force = true ->
  let name := (event_subpath sb path).1 in
  1 <= strlen name < MAXPATHLEN -> no_nul (bytes_of_path name) -> is_Some (fam_of_event event) ->
  opened fc cc p d n s -> auth d = 1 -> evn d = [] -> evn_ready d = 0 -> restarted d = 0 ->
  live_req d (sub_reqno sb) r -> 0 <= sub_reqno sb < 65536 ->
  exists type data (ok : bool) sv', fam_of_event event = Some type /\
    gam_server_emit_one_event path is_dir event q force sv = Ok (tt, sv') /\
    wrote (cn_fd k) data sv ok sv' /\
    forall w', returns (sys_read (fc_fd cc) sizeof_GAMPacket) (cl_world s) (SysOk data) w' ->
    exists d', FAMNextEvent (Some fc) true s
      = Ok ((1, Some (mk_event (sub_reqno sb) name (rq_userData r) type)),
            set_cl_world w' (put_data p d' n s)) /\ evn d' = [].
Proof.
  intros Hsb Hpl Hl Hln Hk Hfd Hwant name Hname Hnul [type Htype] Ho Hau He Hrd Hres Hlive Hseq.
  destruct (wp_Ok _ _ _ (wp_send_packet k (sub_reqno sb) type name sv Hfd)) as (x & sv' & E & ok & _ & Hw).
  exists type, (event_packet (sub_reqno sb) type name), ok, sv'. split; [done|]. split; [|split; [exact Hw|]].
  - rewrite (emit_one_sends path is_dir event q force sb l ln k sv) by done. rewrite Hwant.
    unfold send_now. fold name. destruct (Z.geb_spec (strlen name) MAXPATHLEN); [lia|].
    rewrite Htype. by rewrite (bind_Ok _ _ _ _ _ E).
  - intros w' Hread. pose proof (fam_of_event_range _ _ Htype) as Hcode.
    pose proof (length_bytes_of_path name) as Hb.
    assert (awaits d (sub_reqno sb) type name r) as Ha.
    { do 8 (split; [done|]). exists 0%nat. rewrite length_event_packet. split; [lia|exact He]. }
    destruct (awaits_complete d (sub_reqno sb) type name r (event_packet (sub_reqno sb) type name) [] Ha)
      as (d1 & d2 & Hcd & Hre & Hne & Hrest & _).
    + by rewrite He, app_nil_r.
    + rewrite He. simpl app. rewrite length_event_packet.
      unfold strlen, sizeof_GAMPacket, MAXPATHLEN, GAM_PACKET_HEADER_LEN in *. lia.
    + exists d2. edestruct (wp_Ok (FAMNextEvent (Some fc) true)
        (fun r' s' => r' = (1, Some (mk_event (sub_reqno sb) name (rq_userData r) type)) /\
           s' = set_cl_world w' (put_data p d2 n s)) s) as (? & ? & E' & -> & ->); [|by split].
      eapply wp_next_event_awaits; [exact Ho|exact Ha|exact Hne| |by exists d1, d2, (Some (mk_event (sub_reqno sb) name (rq_userData r) type))].
      unfold evn_read. rewrite He. exact Hread.
Qed.
End Session.

(** ** Witnesses *)

#[local] Existing Instance sim_glib.

(** What the run of a script leaves of the connection, as data. *)
Lemma idle_run (cmds : list (command (os := sim_os))) :
  (fun k : GamConnData => (cn_state k, cn_listener k, cn_request_len k, length (cn_request k)))
    <$> (conns (sv_heap (final cmds)) !! run_conn)
    = Some (GAM_STATE_OKAY, Some run_listener, 0, Z.to_nat sizeof_GAMPacket) ->
  exists k, idle_conn run_conn k (final cmds) /\ cn_state k = GAM_STATE_OKAY /\
    cn_listener k = Some run_listener.
Proof.
  intros (k & Hk & Hkl)%fmap_Some. injection Hkl as Hs Hl Hn Hlen. exists k.
  split; [|done]. split; [done|]. split; [|done]. unfold conn_ok. rewrite <- Hn, <- Hlen.
  split; [vm_compute; reflexivity|split; [lia|vm_compute; discriminate]].
Qed.

Definition calling : client (os := sim_os) := sim_client ClientEvents.demo_conn None 3.
Definition called : client (os := sim_os) :=
  match FAMMonitorDirectory (Some sim_fc) (Some "/home/d"%string) (Some sim_fr) 9 calling with
  | Ok (_, s') => s'
  | Fault _ => calling
  end.

Lemma session_subscribe_witness :
  exists data sv', sim_output 5 (cl_world called) = data /\
    conn_receive run_conn data (final connected_script) = Ok (0, sv') /\ registered 4 "/home/d" sv'.
Proof.
  destruct (idle_run connected_script ltac:(vm_compute; reflexivity)) as (k & Hid & Hst & Hl).
  destruct (session_subscribe true sim_fc (mk_fam 5 (Some 2%positive)) sim_fr 0 2 ClientEvents.demo_conn 0
    "/home/d" 9 calling called run_conn k run_listener (final connected_script))
    as (no & data & sv' & _ & Hw & E & _ & _ & sb & _ & _ & _ & _ & _ & _ & Hreg).
  - apply sim_opened.
  - reflexivity.
  - reflexivity.
  - reflexivity.
  - apply (bool_decide_unpack _). vm_compute. exact I.
  - split; vm_compute; congruence.
  - vm_compute. reflexivity.
  - apply final_reachable. vm_compute. reflexivity.
  - exact Hid.
  - exact Hst.
  - exact Hl.
  - split; vm_compute; reflexivity.
  - exists data, sv'. split; [exact Hw|]. split; [exact E|exact Hreg].
Defined.

(** The client's request 7 is the subscription of the directory. *)
Definition session_sub : GamSubscription :=
  set_sub_listener (Some 4%positive) (new_subscription "/tmp" GAMIN_EVENT_CREATED 7 true 0).
Definition session_server : @server sim_os no_kernel :=
  upd_heap (fun h => set_subs {[3%positive := session_sub]}
    (set_listeners {[4%positive := mk_listener 5%positive 42 "client" [3%positive]]} h)) demo_send.

Lemma session_event_witness :
  exists data ok sv', gam_server_emit_one_event "/tmp/new.txt" false GAMIN_EVENT_CREATED 3%positive false
      session_server = Ok (tt, sv') /\ wrote 7 data session_server ok sv' /\
    forall w', returns (sys_read 5 sizeof_GAMPacket)
        (cl_world (sim_client ClientEvents.demo_conn (Some event_bytes) 0)) (SysOk data) w' ->
      exists s', FAMNextEvent (Some sim_fc) true (sim_client ClientEvents.demo_conn (Some event_bytes) 0)
        = Ok ((1, Some (mk_event 7 "new.txt" 42 FAMCreated)), s').
Proof.
  destruct (session_event "/tmp/new.txt" false GAMIN_EVENT_CREATED 3%positive false session_sub 4%positive
    (mk_listener 5%positive 42 "client" [3%positive]) ConnSend.demo_conn session_server sim_fc
    (mk_fam 5 (Some 2%positive)) 2 ClientEvents.demo_conn 0
    (mk_req 7 REQ_CONFIRMED GAM_REQ_DIR (Some "/tmp"%string) 42)
    (sim_client ClientEvents.demo_conn (Some event_bytes) 0))
    as (type & data & ok & sv' & Ht & E & Hw & Hread); try reflexivity.
  - simpl. lia.
  - split; vm_compute; congruence.
  - apply (bool_decide_unpack _). vm_compute. exact I.
  - vm_compute. by eexists.
  - apply sim_opened.
  - split; [vm_compute; reflexivity|right; reflexivity].
  - split; vm_compute; congruence.
  - injection Ht as <-. exists data, ok, sv'. split; [exact E|]. split; [exact Hw|].
    intros w' Hr. destruct (Hread w' Hr) as (d' & E' & _). eexists. exact E'.
Defined.
