(* ===== verification/Channel.v ===== *)
(** * The daemon's end of a connection ([server/gam_channel.c])

    The socket the daemon listens on, with the checks of the directory it is
    in where sockets are files; accepting a client; the exchange of credentials;
    reading requests; and closing on errors.  A [GIOChannel] is its descriptor,
    the return value of a watch function says whether the watch is kept. *)

From S2P Require Import Prelude Protocol EventQueue Monad OS Sockets.
From S2P Require Import Fs State Subscription Listener ConnSend Node.
From S2P Require Import Tree Emit PollGeneric PollBasic Server Connection.

Local Open Scope Z_scope.

(** [GIOCondition] *)
Definition G_IO_IN : Z := 1.
Definition G_IO_ERR : Z := 8.
Definition G_IO_HUP : Z := 16.
Definition G_IO_NVAL : Z := 32.

Definition EEXIST : Z := 17.

Section Channel.
Context {os : OS} {glib : GLib} {kern : KernelState} {kb : KernelBackend os kern} {so : Sockets os}.
Abbreviation M := (ST server).

(** A call under a [retry:] label. *)
Definition sys_retry {A} (f : world -> sysres A * world) : M (sysres A) := fun s =>
  match retry (S (interrupts (sv_world s))) f (sv_world s) with
  | Ok (r, w) => Ok (r, set_sv_world w s)
  | Fault e => Fault e
  end.
Definition sys_do (f : world -> world) : M unit := sys (fun w => (tt, f w)).

(** ** Closing *)

(** [g_io_channel_shutdown], and the last [g_io_channel_unref]. *)
Definition g_io_channel_shutdown (source : Z) : M unit := _ ← sys (sys_close source); mret tt.

Definition gam_client_conn_shutdown (source : Z) (conn : option ptr) : M unit :=
  match conn with
  | Some conn =>
      found ← gam_connection_exists conn;
      when found (_ ← g_io_channel_shutdown source; _ ← gam_connection_close conn; mret tt)
  | None => g_io_channel_shutdown source
  end.

Definition gam_conn_error (source condition : Z) (data : option ptr) : M bool :=
  _ ← match data with
      | Some conn =>
          found ← gam_connection_exists conn;
          when found (_ ← g_io_channel_shutdown source; _ ← gam_connection_close conn; mret tt)
      | None => g_io_channel_shutdown source
      end;
  mret false.

(** ** Credentials *)

(** A [gboolean] that is -1 on failure. *)
Definition gam_client_conn_send_cred (fd : Z) : M Z :=
  r ← sys_retry (sys_write fd [x00]);
  match r with
  | SysErr _ => mret (-1)
  | SysOk written => if negb (written =? 1) then mret (-1) else mret written
  end.

Definition gam_client_conn_check_cred (source fd : Z) (conn : ptr) : M bool :=
  let failed := _ ← gam_client_conn_shutdown source (Some conn); mret false in
  s_uid ← gets (fun s => getuid (sv_world s));
  r ← sys_retry (sys_recvmsg fd);
  match r with
  | SysErr _ => failed
  | SysOk buf =>
      garbage ← gets (fun s => stack_byte (sv_world s));
      if negb (bool_decide (default garbage buf = x00)) then failed
      else
        cr ← sys (sys_peercred fd);
        match cr with
        | None => failed
        | Some (c_pid, c_uid) =>
            if negb (s_uid =? c_uid) then failed
            else
              r ← gam_connection_set_pid conn c_pid;
              if r <? 0 then failed
              else
                sent ← gam_client_conn_send_cred fd;
                if sent =? 0 then failed else mret true
        end
  end.

(** ** Reading *)

(** Everything but [GAM_STATE_AUTH] of the [switch] below ends the watch. *)
Definition gam_client_conn_read (source condition : Z) (info : option ptr) : M bool :=
  if (condition =? G_IO_HUP) || (condition =? G_IO_NVAL) || (condition =? G_IO_ERR)
  then gam_conn_error source condition info
  else
    match info with
    | None => mret false
    | Some conn =>
        fd ← gam_connection_get_fd conn;
        if fd <? 0 then mret false
        else
          state ← gam_connection_get_state conn;
          match state with
          | GAM_STATE_AUTH => gam_client_conn_check_cred source fd conn
          | GAM_STATE_ERROR | GAM_STATE_CLOSED => mret false
          | GAM_STATE_OKAY =>
              room ← gam_connection_get_data conn;
              r ← sys_retry (sys_read fd room.2);
              match r with
              | SysErr _ => _ ← gam_client_conn_shutdown source (Some conn); mret false
              | SysOk data =>
                  if bool_decide (data = []) then
                    _ ← gam_client_conn_shutdown source (Some conn); mret false
                  else
                    ret ← conn_receive conn data;
                    if ret <? 0 then _ ← gam_client_conn_shutdown source (Some conn); mret false
                    else mret true
              end
          end
    end.

(** [accept] on the listening socket; GLib allocates the channel or aborts. *)
Definition gam_client_create (server : Z) : M (option Z) :=
  if server <? 0 then mret None
  else
    r ← sys_retry (sys_accept server);
    match r with
    | SysErr _ => mret None
    | SysOk client => mret (Some client)
    end.

(** The new connection is watched with [gam_client_conn_read]. *)
Definition gam_incoming_conn_read (source condition : Z) : M bool :=
  o ← gam_client_create source;
  match o with
  | None => mret false
  | Some socket => conn ← gam_connection_new socket; mret true
  end.

(** ** The path of the socket *)

Definition g_get_user_name : M (option string) := sys (fun w => pw_name (getuid w) w).

Definition gam_get_socket_path (session : option string) : M (option string) :=
  gam_client_id ← match session with
                  | None => gets (fun s => default ""%string (getenv "GAM_CLIENT_ID" (sv_world s)))
                  | Some session => mret session
                  end;
  user ← g_get_user_name;
  match user with
  | None => mret None
  | Some user =>
      mret (Some (if abstract_sockets then ("/tmp/fam-" ++ user ++ "-" ++ gam_client_id)%string
                  else ("/tmp/fam-" ++ user ++ "/fam-" ++ gam_client_id)%string))
  end.

Definition gam_get_socket_dir : M (option string) :=
  user ← g_get_user_name;
  mret ((fun user => ("/tmp/fam-" ++ user)%string) <$> user).

(** ** Sockets in the file system *)

(** From the label [create:]; [tries] of at most five. *)
Fixpoint secure_dir_loop (fuel : nat) (dir : string) (tries : nat) : M bool :=
  match fuel with
  | O => fail OutOfFuel
  | S fuel =>
      ret ← sys (sys_mkdir dir);
      match ret with
      | None => mret true
      | Some errno =>
          if negb (errno =? EEXIST) then mret false
          else
            st ← sys (sys_stat_perm dir);
            match st with
            | None => mret false
            | Some st =>
                uid ← gets (fun s => getuid (sv_world s));
                if secure_dir uid st then mret true
                else
                  removed ← sys (sys_rmdir dir);
                  removed ← (if removed : bool then mret true else sys (sys_unlink dir));
                  if negb removed then mret false
                  else if Nat.ltb (S tries) 5 then secure_dir_loop fuel dir (S tries)
                  else mret false
            end
      end
  end.

Definition gam_check_secure_dir : M bool :=
  dir ← gam_get_socket_dir;
  match dir with
  | None => mret false
  | Some dir => secure_dir_loop 5 dir 0
  end.

Definition gam_check_secure_path (path : string) : M bool :=
  ok ← gam_check_secure_dir;
  if negb ok then mret false
  else
    st ← sys (sys_stat_perm path);
    match st with
    | None => mret true
    | Some st =>
        uid ← gets (fun s => getuid (sv_world s));
        if secure_socket uid st then mret true else sys (sys_unlink path)
    end.

(** ** Listening *)

Definition gam_conn_shutdown (session : option string) : M unit :=
  if abstract_sockets then mret tt
  else
    path ← gam_get_socket_path session;
    match path with
    | None => mret tt
    | Some path => _ ← sys (sys_unlink path); mret tt
    end.

Definition gam_listen_unix_socket (path : string) : M Z :=
  fd ← sys sys_socket;
  if fd <? 0 then mret (-1)
  else
    secure ← (if abstract_sockets then mret true
              else
                ok ← gam_check_secure_path path;
                _ ← when ok (sys_do (sys_umask 63));
                mret ok);
    if negb secure then mret (-1)
    else
      bound ← sys (sys_bind fd (sun_path abstract_sockets path));
      if negb bound then _ ← sys (sys_close fd); mret (-1)
      else
        listening ← sys (sys_listen fd);
        if negb listening then _ ← sys (sys_close fd); mret (-1)
        else mret fd.

Definition gam_server_create (session : option string) : M (option Z) :=
  path ← gam_get_socket_path session;
  match path with
  | None => mret None
  | Some path =>
      fd ← gam_listen_unix_socket path;
      if fd =? -1 then mret None else mret (Some fd)
  end.
End Channel.
