(* ===== verification/ChannelSafety.v ===== *)
(** * Who gets in

    The daemon listens where the library looks for it, in a directory nobody
    else can write to; and each end serves only a peer that runs under its own
    user id. *)

From S2P Require Import Prelude Protocol EventQueue Monad OS Sockets.
From S2P Require Import ClientRequests ClientEvents ClientApi ClientService ClientSim.
From S2P Require Import Fs State Subscription Listener ConnSend Node.
From S2P Require Import Tree Inv Emit PollGeneric PollBasic Safety.
From S2P Require Import Server Frames Connection Framing Daemon Reach.
From S2P Require Import Channel.

Local Open Scope Z_scope.

#[local] Existing Instance no_kernel.
#[local] Existing Instance absent_backend.

Section Channel.
Context {os : OS} {glib : GLib} {laws : OSLaws os} {so : Sockets os} {slaws : SocketLaws os so}.

(** ** One address for both ends *)

(** The library connects to the name that the daemon is bound to: started
    by the same user in the same environment, both compute the same path of the
    socket, provided that the user's name fits in the library's buffer of a
    hundred characters and the path in a path buffer. *)
Theorem same_address (s : client) (sv : server) user w1 :
  (forall w n, malloc_ok w n = true) ->
  cl_world s = sv_world sv -> cl_user_name s = ""%string ->
  pw_name (getuid (sv_world sv)) (sv_world sv) = (Some user, w1) ->
  (String.length user <= 99)%nat ->
  strlen user + strlen (default ""%string (getenv "GAM_CLIENT_ID" (sv_world sv))) + 14 < MAXPATHLEN ->
  exists path s' sv', gamin_get_socket_path s = Ok (Some path, s') /\
    gam_get_socket_path None sv = Ok (Some path, sv') /\ cl_world s' = sv_world sv'.
Proof.
  intros Hm Hw Hun Hpw Hul Hlen. set (id := default _ _) in *.
  set (path := if abstract_sockets then ("/tmp/fam-" ++ user ++ "-" ++ id)%string
               else ("/tmp/fam-" ++ user ++ "/fam-" ++ id)%string).
  assert (gamin_get_user_name s = Ok (user, set_cl_user_name user (set_cl_world w1 s))) as Eu.
  { unfold gamin_get_user_name, gets, csys, mbind, ST_bind. rewrite Hun.
    cbn [negb String.eqb cl_world]. rewrite Hw, Hpw. cbv beta iota. by rewrite str_take_all. }
  assert (str_take (Z.to_nat MAXPATHLEN - 1) path = path) as Htake.
  { apply str_take_all. apply Nat2Z.inj_le. change (Z.of_nat (Z.to_nat MAXPATHLEN - 1)) with 4095.
    change (strlen path <= 4095). unfold path, MAXPATHLEN in *.
    assert (strlen "/tmp/fam-" = 9 /\ strlen "/fam-" = 5 /\ strlen "-" = 1) as (? & ? & ?) by done.
    destruct abstract_sockets; rewrite !strlen_app; lia. }
  exists path, (set_cl_user_name user (set_cl_world w1 s)), (set_sv_world w1 sv). split; [|split; [|done]].
  - unfold gamin_get_socket_path, fam_client_id. rewrite (bind_Ok _ _ s id s) by (unfold gets; by rewrite Hw).
    rewrite (bind_Ok _ _ _ _ _ Eu). fold path. unfold new_path. rewrite Htake.
    unfold mbind, ST_bind, gets. by rewrite Hm.
  - unfold gam_get_socket_path, g_get_user_name. rewrite (bind_Ok _ _ sv id sv) by done.
    rewrite (bind_Ok _ _ sv (Some user) (set_sv_world w1 sv)); [done|]. unfold sys. by rewrite Hpw.
Qed.

(** ** The directory of the socket *)

(** What holds when the directory has been found secure, in the world at that
    moment: it was just made, or it is ours alone. *)
Definition found_secure (dir : string) (w : world) : Prop :=
  (exists w0, sys_mkdir dir w0 = (None, w)) \/
  (exists w0 st, sys_stat_perm dir w0 = (Some st, w) /\ pm_uid st = getuid w /\ pm_type st = TDir /\
     pm_mode st .& (S_IRWXG .| S_IRWXO) = 0 /\ pm_mode st .& S_IRWXU = S_IRWXU).

Lemma secure_dir_true uid st : secure_dir uid st = true ->
  pm_uid st = uid /\ pm_type st = TDir /\ pm_mode st .& (S_IRWXG .| S_IRWXO) = 0 /\
  pm_mode st .& S_IRWXU = S_IRWXU.
Proof.
  unfold secure_dir, ztest. rewrite !andb_true_iff, !negb_true_iff, negb_false_iff, !Z.eqb_eq, bool_decide_eq_true.
  intuition.
Qed.

Lemma wp_secure_dir_loop fuel dir tries (s : server) :
  (tries < 5)%nat -> (5 - tries <= fuel)%nat ->
  wp (secure_dir_loop fuel dir tries)
    (fun b s' => (exists w, s' = set_sv_world w s) /\ (b = true -> found_secure dir (sv_world s'))) s.
Proof.
  revert tries s. induction fuel as [|fuel IH]; intros tries s Ht Hf; [lia|]. simpl.
  apply wp_bind, wp_sys. intros made w1 Hmk. destruct made as [e|].
  2:{ apply wp_ret. split; [by eexists|]. intros _. left. by eexists. }
  destruct (negb (e =? EEXIST)); [apply wp_ret; split; [by eexists|done]|].
  apply wp_bind, wp_sys. intros st w2 Hst. destruct st as [st|]; [|apply wp_ret; split; [by eexists|done]].
  apply wp_bind, wp_gets. destruct (secure_dir _ st) eqn:Hsec.
  { apply wp_ret. split; [by eexists|]. intros _. right. eexists _, st. split; [exact Hst|].
    by apply secure_dir_true. }
  apply wp_bind, wp_sys. intros r1 w3 _. apply wp_bind.
  assert (forall removed w, wp (if negb removed then mret false
      else if Nat.ltb (S tries) 5 then secure_dir_loop fuel dir (S tries) else mret false)
    (fun b s' => (exists w, s' = set_sv_world w s) /\ (b = true -> found_secure dir (sv_world s')))
    (set_sv_world w s)) as Hnext.
  { intros [] w; [|apply wp_ret; split; [by eexists|done]]. cbn [negb].
    destruct (Nat.ltb_spec (S tries) 5); [|apply wp_ret; split; [by eexists|done]].
    eapply wp_mono; [apply IH; lia|]. intros b s' [(w' & ->) Hb]. split; [by eexists|exact Hb]. }
  destruct r1; [apply wp_ret, Hnext|]. apply wp_sys. intros r2 w4 _. apply Hnext.
Qed.

(** The check of the directory of the socket always ends, after at most
    five attempts to replace an unsafe one, changes nothing but the file system,
    and says yes only when the daemon just made the directory, accessible to
    itself, or found it to be a directory of its own user that nobody else has
    any access to. *)
Theorem secure_dir_checked (s : server) :
  exists b s', gam_check_secure_dir s = Ok (b, s') /\ (exists w, s' = set_sv_world w s) /\
    (b = true -> exists user w0 w1, pw_name (getuid w0) w0 = (Some user, w1) /\
       found_secure ("/tmp/fam-" ++ user) (sv_world s')).
Proof.
  apply wp_Ok. unfold gam_check_secure_dir, gam_get_socket_dir, g_get_user_name.
  apply wp_bind, wp_bind, wp_sys. intros [user|] w1 Hu; apply wp_ret;
    [|apply wp_ret; split; [by eexists|done]].
  eapply wp_mono; [apply wp_secure_dir_loop; lia|].
  intros b s' [(w & ->) Hb]. split; [by eexists|]. intros Ht. exists user, (sv_world s), w1. auto.
Qed.

(** ** Credentials *)

(** A connection that has just been accepted. *)
Record fresh_conn (c : ptr) (k : GamConnData) (s : server) : Prop := {
  fc_conn : conns (sv_heap s) !! c = Some k;
  fc_auth : cn_state k = GAM_STATE_AUTH;
  fc_no_listener : cn_listener k = None;
  fc_queue : cn_eq k = Some [];
  fc_listed : c ∈ gamConnList (sv_ctl s);
  fc_nodup : NoDup (gamConnList (sv_ctl s))
}.

Lemma elem_of_g_list_remove l (p : ptr) : NoDup l -> p ∉ g_list_remove l p.
Proof.
  induction 1 as [|q l Hq Hl IH]; simpl; [apply not_elem_of_nil|].
  destruct (decide (q = p)) as [->|Hne]; [done|]. by rewrite not_elem_of_cons.
Qed.

Lemma fresh_world c k w s : fresh_conn c k s -> fresh_conn c k (set_sv_world w s).
Proof. by intros [? ? ? ? ? ?]; split. Qed.

(** Nothing is left of the connection. *)
Definition forgotten (c : ptr) (s s' : server) : Prop :=
  conns (sv_heap s') = delete c (conns (sv_heap s)) /\ c ∉ gamConnList (sv_ctl s') /\
  subs (sv_heap s') = subs (sv_heap s) /\ listeners (sv_heap s') = listeners (sv_heap s) /\
  nodes (sv_heap s') = nodes (sv_heap s) /\ sv_tree s' = sv_tree s /\ sv_lists s' = sv_lists s.

Lemma wp_close_fresh c k s :
  fresh_conn c k s -> wp (gam_connection_close c) (fun _ s' => forgotten c s s') s.
Proof.
  intros [Hc Hst Hl Hq Hin Hnd]. unfold gam_connection_close, gam_connection_exists.
  apply wp_bind, wp_gets, wp_bind, wp_assert; [by apply g_list_find_true|].
  apply wp_bind, (wp_load (H := conn_obj)) with k; [exact Hc|].
  assert (forall k1, cn_eq k1 = Some [] -> cn_listener k1 = None ->
    wp (_ ← conn_eq_flush c; _ ← update c (set_cn_eq (gam_eq_free (cn_eq k)));
        _ ← match cn_listener k with None => mret tt | Some l => gam_listener_free l end;
        _ ← modify (upd_ctl (fun ct => set_gamConnList (g_list_remove (gamConnList ct) c) ct));
        found ← gam_connection_exists c; _ ← g_assert (negb found); _ ← dealloc GamConnData c;
        l ← gets (fun s => gamConnList (sv_ctl s)); timeout ← gam_server_use_timeout;
        _ ← when (bool_decide (l = []) && timeout) gam_schedule_server_timeout; mret 0)
    (fun _ s' => forgotten c s s') (upd_heap (fun h => set_conns (<[c := k1]> (conns h)) h) s)) as Hrest.
  { intros k1 Hq1 Hl1. unfold conn_eq_flush, gam_connection_exists, gam_server_use_timeout.
    apply wp_bind, wp_bind, (wp_load (H := conn_obj)) with k1; [apply lookup_insert_eq|]. rewrite Hq1.
    apply wp_ret, wp_bind, (wp_update (H := conn_obj)) with k1; [apply lookup_insert_eq|]. rewrite Hl.
    apply wp_bind, wp_ret, wp_bind, wp_modify, wp_bind, wp_gets.
    assert (c ∉ g_list_remove (gamConnList (sv_ctl s)) c) as Hno by by apply elem_of_g_list_remove.
    apply wp_bind, wp_assert; [by apply negb_true_iff, g_list_find_false|].
    apply wp_bind. eapply (wp_dealloc GamConnData); [apply lookup_insert_eq|].
    apply wp_bind, wp_gets, wp_bind, wp_gets, wp_bind.
    match goal with |- wp (when ?b _) _ ?t => set (s1 := t); assert (forgotten c s s1) as Hf end.
    { split; [|done]. simpl. by rewrite !insert_insert_eq, delete_insert_eq. }
    apply wp_when; intros _; [|by apply wp_ret].
    unfold gam_schedule_server_timeout, gam_cancel_server_timeout. by apply wp_bind, wp_modify, wp_modify, wp_ret. }
  apply wp_bind. apply wp_when; intros _.
  - apply (wp_update (H := conn_obj)) with k; [exact Hc|]. by apply Hrest.
  - replace s with (upd_heap (fun h => set_conns (<[c := k]> (conns h)) h) s) at 1; [by apply Hrest|].
    unfold upd_heap, set_conns. rewrite insert_id by done. by destruct s as [[] ? ? ? ? ? ? ? ?].
Qed.

Lemma wp_sys_retry {A} (f : world -> sysres A * world) (Q : sysres A -> server -> Prop) s :
  (forall w w', f w = (SysErr EINTR, w') -> (interrupts w' < interrupts w)%nat) ->
  (forall r w, Q r (set_sv_world w s)) -> wp (sys_retry f) Q s.
Proof.
  intros Hf HQ. unfold wp, sys_retry.
  destruct (retry_total (S (interrupts (sv_world s))) f (sv_world s) Hf ltac:(lia)) as (r & w & -> & _).
  apply HQ.
Qed.

Lemma wp_refuse source c k (s : server) :
  fresh_conn c k s ->
  wp (_ ← gam_client_conn_shutdown source (Some c); mret false)
    (fun b s' => b = false /\ forgotten c s s') s.
Proof.
  intros Hf. unfold gam_client_conn_shutdown, gam_connection_exists, g_io_channel_shutdown.
  apply wp_bind, wp_bind, wp_gets. rewrite (proj2 (g_list_find_true _ _) (fc_listed _ _ _ Hf)).
  cbn [when]. apply wp_bind, wp_bind, wp_sys. intros x w _. apply wp_ret, wp_bind.
  eapply wp_mono; [apply (wp_close_fresh c k (set_sv_world w s)); by apply fresh_world|].
  intros r s' Hg. by apply wp_ret, wp_ret.
Qed.

Lemma wp_send_cred fd (s : server) :
  wp (gam_client_conn_send_cred fd) (fun r s' => r <> 0 /\ exists w, s' = set_sv_world w s) s.
Proof.
  unfold gam_client_conn_send_cred. apply wp_bind, wp_sys_retry.
  { intros w w' H. by apply (write_err fd _ _ _ _ H). }
  intros [n|e] w; [|apply wp_ret; split; [done|by eexists]].
  destruct (Z.eqb_spec n 1) as [->|]; apply wp_ret; (split; [done|by eexists]).
Qed.

(** What the kernel says of the peer of a descriptor, at some moment. *)
Definition peer_runs_as (fd uid : Z) : Prop :=
  exists w pid w', sys_peercred fd w = (Some (pid, uid), w').

(** C27: authentication by the daemon.  The first input of a new connection is
    taken for its credentials.  The connection is served from then on only
    when the kernel says that its peer runs under the daemon's own user id;
    else it is closed and nothing is left of it.  (The answer sent to the
    client does not matter: a failure is -1, which passes for true.) *)
Theorem auth_checks_peer source c k (s : server) :
  (forall fd w pid uid w', sys_peercred fd w = (Some (pid, uid), w') -> pid <> 0) ->
  reachable s -> fresh_conn c k s ->
  exists b s', gam_client_conn_read source G_IO_IN (Some c) s = Ok (b, s') /\
    if b : bool then reachable s' /\ peer_runs_as (cn_fd k) (getuid (sv_world s)) /\
      exists k', conns (sv_heap s') !! c = Some k' /\ cn_state k' = GAM_STATE_OKAY
    else forgotten c s s'.
Proof.
  intros Hpid Hr Hf. apply wp_Ok. pose proof Hf as [Hc Hst _ _ _ _].
  assert (forall w, reachable (set_sv_world w s)) as Hrw
    by (intros w; apply (reachable_step s); [done|constructor]).
  unfold gam_client_conn_read. cbn [Z.eqb G_IO_IN G_IO_HUP G_IO_NVAL G_IO_ERR Pos.eqb orb].
  unfold gam_connection_get_fd, gam_connection_get_state.
  apply wp_bind, wp_bind, (wp_load (H := conn_obj)) with k; [exact Hc|]. apply wp_ret.
  destruct (conn_queue s c k (reachable_daemon_ok _ Hr) Hc) as [Hfd _].
  rewrite (proj2 (Z.ltb_ge _ _) Hfd).
  apply wp_bind, wp_bind, (wp_load (H := conn_obj)) with k; [exact Hc|]. apply wp_ret. rewrite Hst.
  assert (forall w, wp (_ ← gam_client_conn_shutdown source (Some c); mret false)
    (fun (b : bool) s' => if b then reachable s' /\ peer_runs_as (cn_fd k) (getuid (sv_world s)) /\
        exists k', conns (sv_heap s') !! c = Some k' /\ cn_state k' = GAM_STATE_OKAY
      else forgotten c s s') (set_sv_world w s)) as Hrefuse.
  { intros w. eapply wp_mono; [apply (wp_refuse source c k); by apply fresh_world|].
    by intros b s' [-> Hg]. }
  unfold gam_client_conn_check_cred. apply wp_bind, wp_gets, wp_bind, wp_sys_retry;
    [apply recvmsg_interrupts|]. intros [buf|e] w1; [|apply Hrefuse].
  apply wp_bind, wp_gets. destruct (negb _); [apply Hrefuse|].
  apply wp_bind, wp_sys. intros [[pid uid]|] w2 Hcr; [|apply Hrefuse].
  destruct (Z.eqb_spec (getuid (sv_world s)) uid) as [<-|]; cbn [negb]; [|apply Hrefuse].
  set (s2 := set_sv_world w2 s).
  assert (reachable s2) as Hr2 by apply Hrw.
  apply wp_bind.
  destruct (wp_Ok _ _ _ (wp_connection_set_pid c k pid s2 (reachable_daemon_ok _ Hr2) Hc ltac:(by eapply Hpid)))
    as (r & s3 & E & _ & k' & Hk' & Hres).
  assert (reachable s3) as Hr3 by (apply (reachable_step s2); [done|];
    apply (step_authenticate c pid r); [by exists k|by eapply Hpid|exact E]).
  change (set_sv_world w2 (set_sv_world w1 s)) with s2. unfold wp at 1. rewrite E.
  rewrite Hst, decide_True in Hres by done. destruct Hres as [-> Hok]. cbn [Z.ltb Z.compare].
  apply wp_bind. eapply wp_mono; [apply wp_send_cred|]. intros sent s4 [Hne [w4 ->]].
  destruct (Z.eqb_spec sent 0); [done|]. apply wp_ret. split; [|split; [by eexists _, pid, _|by exists k']].
  apply (reachable_step s3); [done|constructor].
Qed.

(** Authentication by the library.  A connection's data counts as
    authenticated only when the kernel says that the daemon at the other end
    runs under the caller's user id; when the check fails, for whatever reason,
    nothing of it changes. *)
Theorem client_checks_peer p d n fd (s : client) :
  cl_data s !! p = Some (d, n) ->
  exists r s' w, gamin_check_cred p fd s = Ok (r, s') /\
    ((r = 0 /\ s' = set_cl_world w (put_data p (set_auth 1 d) n s) /\
      peer_runs_as fd (getuid (cl_world s))) \/
     (r = -1 /\ s' = set_cl_world w s)).
Proof.
  intros Hd.
  set (Q := fun (r : Z) (s' : client) => exists w,
    (r = 0 /\ s' = set_cl_world w (put_data p (set_auth 1 d) n s) /\ peer_runs_as fd (getuid (cl_world s))) \/
    (r = -1 /\ s' = set_cl_world w s)).
  assert (forall w, wp (mret (-1)) Q (set_cl_world w s)) as Hfail by (intros w; apply wp_ret; exists w; auto).
  destruct (wp_Ok (gamin_check_cred p fd) Q s) as (r & s' & E & w & H); [|by exists r, s', w].
  unfold gamin_check_cred. apply wp_bind, wp_gets, wp_bind. unfold wp at 1, csys_retry.
  destruct (retry_total (S (interrupts (cl_world s))) (sys_recvmsg fd) (cl_world s)
    (recvmsg_interrupts fd) ltac:(lia)) as ([buf|e] & w1 & -> & _); [|apply Hfail].
  apply wp_bind, wp_gets. destruct (negb _); [apply Hfail|].
  apply wp_bind. unfold wp at 1, csys. change (cl_world (set_cl_world w1 s)) with w1.
  destruct (sys_peercred fd w1) as [[[pid uid]|] w2] eqn:Hcr; [|apply Hfail].
  destruct (Z.eqb_spec (getuid (cl_world s)) uid) as [<-|]; cbn [negb]; [|apply Hfail].
  apply wp_bind. eapply (wp_on_data p (d, n)); [exact Hd|]. apply wp_ret. exists w2. left.
  split; [done|]. split; [done|]. by exists w1, pid, w2.
Qed.
End Channel.

(** ** Witnesses *)

#[local] Existing Instance sim_glib.

Lemma same_address_witness :
  exists path s' sv', gamin_get_socket_path (sim_client ClientEvents.demo_conn None 0) = Ok (Some path, s') /\
    gam_get_socket_path None (server_initial (kern := no_kernel) tt
      (cl_world (sim_client ClientEvents.demo_conn None 0))) = Ok (Some path, sv').
Proof.
  destruct (same_address (sim_client ClientEvents.demo_conn None 0)
    (server_initial (kern := no_kernel) tt (cl_world (sim_client ClientEvents.demo_conn None 0)))
    "user" (cl_world (sim_client ClientEvents.demo_conn None 0)))
    as (path & s' & sv' & E1 & E2 & _); try reflexivity.
  - simpl. lia.
  - exists path, s', sv'. split; [exact E1|exact E2].
Defined.

Lemma fresh_run (cmds : list (command (os := sim_os))) :
  (fun k : GamConnData => (cn_state k, cn_listener k, cn_eq k)) <$> (conns (sv_heap (final cmds)) !! run_conn)
    = Some (GAM_STATE_AUTH, None, Some []) ->
  gamConnList (sv_ctl (final cmds)) = [run_conn] ->
  exists k, fresh_conn run_conn k (final cmds).
Proof.
  intros (k & Hk & Hkl)%fmap_Some Hlist. injection Hkl as Hs Hl Hq. exists k. split; try done.
  - rewrite Hlist. by constructor.
  - rewrite Hlist. apply NoDup_singleton.
Qed.

Lemma auth_checks_peer_witness :
  exists b s', gam_client_conn_read 7 G_IO_IN (Some run_conn) (final [Accept 7]) = Ok (b, s') /\
    if b : bool then reachable s' else conns (sv_heap s') = delete run_conn (conns (sv_heap (final [Accept 7]))).
Proof.
  destruct (fresh_run [Accept 7] ltac:(vm_compute; reflexivity) ltac:(vm_compute; reflexivity)) as [k Hk].
  destruct (auth_checks_peer 7 run_conn k (final [Accept 7]))
    as (b & s' & E & H).
  - intros fd w pid uid w' [= <- _ _]. discriminate.
  - apply final_reachable. vm_compute. reflexivity.
  - exact Hk.
  - exists b, s'. split; [exact E|]. destruct b; [exact (proj1 H)|exact (proj1 H)].
Defined.

Lemma client_checks_peer_witness :
  exists r s', gamin_check_cred 2 5 (sim_client gamin_data_new None 0) = Ok (r, s') /\ r = 0.
Proof.
  destruct (client_checks_peer 2 gamin_data_new 0 5 (sim_client gamin_data_new None 0) eq_refl)
    as (r & s' & w & E & _).
  exists r, s'. split; [exact E|]. vm_compute in E. by injection E as <- _.
Defined.

(** [/home/d/f] has changed after the remount. *)
Definition world_changed : @world sim_os :=
  run_world ("/dev/sda1 / ext3 rw" ++ newline_str)%string 300
    [("/home/d"%string, mk_stat true 250 0 10 250 0);
     ("/home/d/f"%string, mk_stat false 250 0 99 250 0)] [("/home/d"%string, ["f"%string])].

(** The outcome of a scan in that world after the client has hung up. *)
Definition scan_after_hangup (s : server (os := sim_os)) : option bool + fault :=
  match gam_client_conn_read 7 G_IO_HUP (Some run_conn) s with
  | Ok (_, s') => outcome (gam_poll_basic_scan_callback 20 (set_sv_world world_changed s'))
  | Fault e => inr e
  end.

(** C38: a remount and a client that goes away bring the daemon down.  There is
    a run in which a path is polled when it is subscribed to and no longer when
    its client hangs up: the listener is freed, but the subscription stays at
    its node, and the next change there is reported through the freed listener.
    Without the remount the same scan goes well. *)
Theorem remount_hangup_use_after_free :
  let s := final (subscribe_script ++ [Outside world_remounted]) in
  reachable s /\ scan_after_hangup s = inr NullDeref /\
  scan_after_hangup (final subscribe_script) = inl (Some false).
Proof.
  split; [apply final_reachable; vm_compute; reflexivity|]. split; vm_compute; reflexivity.
Qed.
