(* ===== verification/Main.v ===== *)
(** * Starting and stopping the daemon ([server/gam_server.c], [main])

    The options, the subscription machinery, the socket and the idle timer.
    Signals and the main loop are GLib's and the kernel's; what the loop calls
    is in [Channel], [Connection] and [PollBasic]. *)

From S2P Require Import Prelude Protocol EventQueue Monad OS Sockets.
From S2P Require Import Fs State Subscription Listener ConnSend Node.
From S2P Require Import Tree Inv Emit PollGeneric PollBasic Safety.
From S2P Require Import Server Frames Connection Framing Daemon Reach.
From S2P Require Import ClientApi ClientService ClientSim Channel ChannelSafety.

Local Open Scope Z_scope.

Section Main.
Context {os : OS} {glib : GLib} {kern : KernelState} {kb : KernelBackend os kern} {so : Sockets os}.
Abbreviation M := (ST server).

Definition set_options (po nt : bool) (c : ctl) : ctl :=
  mk_ctl po nt (kernel_handler c) (poll_handler c) (gamConnList c) (server_timeout c) (scan_callback_running c).

(** The loop over [argv] from 1; the last other argument names the session. *)
Fixpoint main_args (argv : list string) (session : option string) : M (option string) :=
  match argv with
  | [] => mret session
  | arg :: argv =>
      if String.eqb arg "--notimeout" then
        _ ← modify (upd_ctl (fun c => set_options (poll_only c) true c)); main_args argv session
      else if String.eqb arg "--pollonly" then
        _ ← modify (upd_ctl (fun c => set_options true (no_timeout c) c)); main_args argv session
      else main_args argv (Some arg)
  end.

(** [socket] is the variable of that name, [None] before the first call. *)
Definition gam_server_init (socket : option Z) (session : option string) : M (bool * option Z) :=
  match socket with
  | Some _ => mret (false, socket)
  | None =>
      socket ← gam_server_create session;
      match socket with
      | None => mret (false, None)
      | Some fd =>
          timeout ← gam_server_use_timeout;
          _ ← when timeout gam_schedule_server_timeout;
          mret (true, Some fd)
      end
  end.

(** Also what [gam_exit] does before it exits. *)
Definition gam_shutdown (session : option string) : M unit := gam_conn_shutdown session.

(** [main] up to the main loop: the descriptor that is listened on, or none
    when the program exits. *)
Definition main (argv : list string) : M (option Z) :=
  session ← main_args argv None;
  ok ← gam_init_subscriptions;
  if negb ok then mret None
  else
    r ← gam_server_init None session;
    mret (if r.1 : bool then r.2 else None).
End Main.

(** ** The options do what they say *)

Section Options.
Context {os : OS} {kern : KernelState}.

Lemma main_args_spec argv session (s : server) :
  exists session' s', main_args argv session s = Ok (session', s') /\
    no_timeout (sv_ctl s') = no_timeout (sv_ctl s) || bool_decide ("--notimeout"%string ∈ argv) /\
    poll_only (sv_ctl s') = poll_only (sv_ctl s) || bool_decide ("--pollonly"%string ∈ argv) /\
    sv_heap s' = sv_heap s /\ sv_world s' = sv_world s.
Proof.
  revert session s. induction argv as [|arg argv IH]; intros session s; cbn [main_args].
  { exists session, s. rewrite !bool_decide_eq_false_2 by apply not_elem_of_nil. by rewrite !orb_false_r. }
  assert (forall x, bool_decide (x ∈ arg :: argv) = bool_decide (x = arg) || bool_decide (x ∈ argv)) as Hin.
  { intros x. rewrite (bool_decide_ext _ (x = arg \/ x ∈ argv)) by apply elem_of_cons. apply bool_decide_or. }
  rewrite !Hin. destruct (String.eqb_spec arg "--notimeout") as [->|H1].
  { unfold mbind, ST_bind. cbn [modify]. destruct (IH session (upd_ctl (fun c => set_options (poll_only c) true c) s))
      as (se & s' & E & Hn & Hp & Hh). exists se, s'. rewrite E, Hn, Hp. cbn [sv_ctl upd_ctl no_timeout poll_only set_options].
    rewrite (bool_decide_eq_true_2 ("--notimeout"%string = _)) by done.
    rewrite (bool_decide_eq_false_2 ("--pollonly"%string = _)) by done. by rewrite orb_true_r. }
  rewrite (bool_decide_eq_false_2 ("--notimeout"%string = arg)) by congruence.
  destruct (String.eqb_spec arg "--pollonly") as [->|H2].
  { unfold mbind, ST_bind. cbn [modify]. destruct (IH session (upd_ctl (fun c => set_options true (no_timeout c) c) s))
      as (se & s' & E & Hn & Hp & Hh). exists se, s'. rewrite E, Hn, Hp. cbn [sv_ctl upd_ctl no_timeout poll_only set_options].
    rewrite (bool_decide_eq_true_2 ("--pollonly"%string = _)) by done. by rewrite orb_true_r. }
  rewrite (bool_decide_eq_false_2 ("--pollonly"%string = arg)) by congruence. apply IH.
Qed.
End Options.

(** ** A start *)

#[local] Existing Instance no_kernel.
#[local] Existing Instance absent_backend.
#[local] Existing Instance sim_glib.

Example main_starts :
  match main ["--pollonly"; "s1"]%string (server_initial tt world_before) with
  | Ok (socket, s) => socket = Some 7 /\ poll_only (sv_ctl s) = true /\ server_timeout (sv_ctl s) = true
  | Fault _ => False
  end.
Proof. vm_compute. auto. Qed.
